(* ===== verification/_CoqProject ===== *)
-Q . S2P
Prelude.v
ResourceId.v
OsalIdMap.v
OsalIdMapProofs.v
OsalProtocol.v
OsalTheorems.v
GenPool.v
GenPoolInit.v
GenPoolProofs.v
DirectStorage.v
GenPoolOps.v
GenPoolTheorems.v
MemPool.v
SbRoute.v
SbRouteProofs.v
SbRouteTheorems.v
SbModel.v
SbApi.v
SbLists.v
SbInv.v
SbPool.v
SbDests.v
SbWorld.v
SbSend.v
SbBroadcast.v
SbBuffers.v
SbPipes.v
SbTable.v
SbSubs.v
SbSteps.v
SbSafety.v
SbCalls.v
SbTheorems.v
SbDemo.v
EdsTypes.v
EdsBits.v
EdsPack.v
EdsPackProofs.v
EdsUnpackProofs.v
EdsField.v
EdsNumber.v
EdsCodec.v
EdsErrorControl.v
EdsIter.v
EdsValue.v
EdsObject.v
EdsPost.v
EdsQuery.v
EdsObjectProofs.v
EdsValueProofs.v
EdsIdentProofs.v
EdsRoundTrip.v
EdsComplete.v
EdsQueryProofs.v
EdsVerify.v
EdsBase64.v
EdsTheorems.v
EdsDemo.v
Records.v
TimeMath.v
TimeModel.v
TimeTone.v
TimeInv.v
TimeEvents.v
TimeSync.v
TimeTheorems.v
TimeDemo.v
EvsModel.v
EvsTask.v
EvsProofs.v
EvsInv.v
EvsTheorems.v
CdsModel.v
CdsProofs.v
EsCrc.v
CdsInv.v
CdsOps.v
CdsData.v
CdsReset.v
CdsTheorems.v
