(* ===== verification/Prelude.v ===== *)
(** * Verification of the core of the cFE/OSAL flight software framework

    The repository is NASA's core Flight System with electronic data sheets:
    OSAL (operating system abstraction), PSP (board support), cFE (executive,
    software bus, tables, time, events), the EDS tool with its runtime library,
    and sample applications.  This library models the parts on which every
    application depends and whose correctness is a matter of state, order and
    bounds, and proves the theorems that make them correct.

    ** Parts and files

    - [Prelude]: machine integers as [Z] with their wrap-around ([u8] .. [u64],
      [s32]), arrays as lists with [zget]/[zset], tactics, hint databases.
    - [ResourceId]: [cfe/modules/resourceid], [cfe_resourceid_api.c] and the
      inline functions: the search for a free id, and decoding an id to an index.
    - [OsalIdMap], [OsalIdMapProofs], [OsalProtocol], [OsalTheorems]:
      [osal/src/os/shared/src/osapi-idmap.c], the tables of OSAL objects with
      their lock modes, transactions, reference counts and iterators.  Tasks are
      interleaved in [OsalProtocol]; blocking is a result of its own.
    - [GenPool], [GenPoolInit], [GenPoolProofs], [DirectStorage], [GenPoolOps],
      [GenPoolTheorems]: [cfe_es_generic_pool.c] over any storage that satisfies
      the class [StorageLaws]; byte memory is an instance.  [MemPool]: the table
      of pools and the calls of [cfe_es_mempool.c].
    - [SbRoute], [SbRouteProofs], [SbRouteTheorems]: [cfe/modules/sbr], the route
      table and the two message maps the build selects from, as instances of the
      class [RouteMap].
    - [SbModel], [SbApi]: [cfe/modules/sb]: descriptors in pool memory, tracking
      lists, reference counts, destination lists, and every API function as the
      sequence of its locked sections, in a state monad whose [None] is an access
      to memory that holds no such descriptor.  [SbLists] to [SbSubs]: the
      invariants and one lemma per section.  [SbSteps], [SbSafety]: worlds of
      concurrent calls, the step relation and its invariant.  [SbCalls]: whole
      calls.  [SbPool]: the software bus on the pools of [MemPool].
      [SbTheorems]: the theorems; [SbDemo]: a concrete system for the witnesses.
    - [EdsTypes], [EdsBits]: buffers, shifts and bit strings, and the
      database types of [tools/eds/edslib/fsw/inc].  A result is [Ok], [Fault]
      (an access outside a buffer, an undefined shift) or [Hang] (no fuel left).
    - [EdsPack]: the codec of a field, [edslib_datatypedb_pack_unpack.c]; its
      proofs are [EdsPackProofs], [EdsUnpackProofs] (the shift registers),
      [EdsField] (byte orders, encodings), [EdsNumber] and [EdsCodec].
    - [EdsIter]: [edslib_datatypedb_iterator.c], a stack machine
      driven by a callback, and the recursion it implements.
    - [EdsErrorControl]: the checksums and CRCs of
      [edslib_datatypedb_errorcontrol.c] and their bit-serial references.
    - [EdsValue], [EdsValueProofs]: [edslib_datatypedb_load_store.c].
    - [EdsObject], [EdsObjectProofs], [EdsRoundTrip]:
      whole objects: the callback, the passes over base and derived types,
      identification ([edslib_datatypedb_constraints.c]) and the calls of
      [edslib_datatypedb_api.c].
    - [EdsPost], [EdsComplete], [EdsVerify]: lengths, fixed values and error
      control, computed when an object is packed and verified when it is
      unpacked.
    - [EdsQuery], [EdsIdentProofs], [EdsQueryProofs]: registration, the queries
      of [edslib_datatypedb_api.c], the constraint iterator and new objects.
    - [EdsBase64]: [edslib_displaydb_base64.c].
    - [EdsTheorems]: the theorems; [EdsDemo]: a database for the witnesses.
    - [Records]: notation for updates of record fields.  [TimeMath]: time values
      and their text ([cfe_time_api.c], [osapi-clock.h]).  [TimeModel],
      [TimeTone]: the state of [cfe/modules/time] and its operations
      ([cfe_time_utils.c], [cfe_time_tone.c], [cfe_time_task.c]); the compile-time
      choices are the record [TimeConfig], the board's clock is the list of its
      readings.  [TimeInv], [TimeEvents]: reference updates, the
      local clock, the invariant and every event.  [TimeSync]: the reference data
      read word by word while the time task updates it.  [TimeTheorems],
      [TimeDemo]: the theorems, and a sample mission for the witnesses.
    - [EvsModel], [EvsTask]: the state of [cfe/modules/evs] and its operations
      ([cfe_evs_utils.c], [cfe_evs_log.c], [cfe_evs.c], [cfe_evs_task.c]).
      [EvsProofs], [EvsInv]: nested events, the log as a list, the invariant.
      [EvsTheorems]: the theorems and their witnesses.
    - [CdsModel]: the critical data store, [cfe_es_cds.c],
      [cfe_es_cds_mempool.c], the calls of [cfe_es_api.c] and the memory of
      [cfe_psp_memory.c], down to the bytes; its pool is [GenPool] over a storage
      with a cache.  [CdsProofs]: bytes and the storage laws.  [EsCrc]: the
      checksum.  [CdsInv], [CdsOps], [CdsData]: the invariant; registering and
      deleting; writing and reading.  [CdsReset]: start-up on any memory and on
      the memory of a store.  [CdsTheorems]: sequences of calls and resets.

    ** How state corresponds to the code

    A C structure is a record with the names of its fields, a table a list of
    records of the configured size, a pointer into a table an index, a pointer
    into pool memory its address.  A function of the C code is a definition of
    the same name; loops are Fixpoints.  Configuration constants are those of
    the sample configuration ([cfe/cmake/sample_defs], the OSAL defaults).  The
    parts the code calls and this library does not model (the message module, a
    submodule; the events a service sends; names and texts; the underlying operating system) are
    arguments: classes, or the status and value an external call returns.

    ** Theorems

    Identifiers: round trip of OSAL ids, stale ids never resolve, the search for
    free ids finds one exactly when there is one.  Object tables: reference
    counts and locks account for the tokens tasks hold, in every interleaving;
    lookup refines a map.  Pools: blocks handed out are aligned, inside the pool
    and disjoint; allocation refines an abstract allocator; a pool is restored
    from its storage.  Routing: both maps are equivalent; routes refine a list.
    Software bus: no section faults, use counts are exact, nothing leaks, each
    recipient gets a message once and in order, subscriptions are sets, and what
    is transmitted is received.
    EDS runtime library: the iterator ends and equals the recursion; fields and
    whole objects survive packing and unpacking; unpacked values are in range;
    base64 text decodes to what was encoded, up to the bits the encoder drops;
    the packed decimal reader ends exactly on input without 0x2D.  Complete
    objects survive with their computed fields verified, and a change of any
    octet outside the error control field is detected; the error control
    routines are their bit-serial references.  An identified derived type
    satisfies its constraints; the queries agree with the iterator.

    Time services: the state stays well formed whatever happens; a concurrent
    reader gets the words of one published version, and the sequential operations
    are runs of the concurrent ones; a time that is set is what is read, later by
    the time passed; the flywheel keeps a server's time (and shifts that of a
    client with a delay); a client follows matching tones and data; the time
    survives a reset; the printed text is the calendar date.

    Event services: the state stays well formed; the recursion between filter
    and event ends; which events a mask suppresses; the log is a bounded queue;
    what the housekeeping packet shows.

    Critical data store: blocks in use are apart, inside the pool and found by
    handle and name; what is written is read back after other calls and processor
    resets; start-up ends on any memory and restores what a store left there; a
    changed byte of a block is reported; the checksum is its bit-serial
    reference.  A registration whose new size cannot be had leaves a registry
    that names a returned block ([failed_resize_shares_block]); the theorems about
    resets ask for an up-to-date registry ([saved]), which every step
    but the registration of a name in use keeps ([step_saved]).

    ** Fuel

    Loops over linked lists carry as fuel one more than the number of
    descriptors that exist; probing loops one turn of the table; drains one more
    than the length of the queue; searches for ids one turn of the serial
    numbers; the scan of a pool one turn per descriptor that fits, the clearing
    loop one turn per byte.  Running out is [None] (a fault), and the theorems that a call ends
    prove that it does not happen.

    EDS loops have as fuel the number of bits they move; the iterator and the
    identification take their fuel as an argument, and the theorems say that
    enough of it gives the result.

    ** Not modelled

    Event and log texts; the portable layers of OSAL and the PSP (calls into the
    operating system); the EDS tool, the display database and the Lua and Python
    bindings (host tools); the sample applications; in time services the
    hardware MET register, the performance log and the diagnostic packet.  Operating system queues
    are first-in first-out queues of bounded depth whose other failures are arguments.  [CFE_SB_CleanUpApp] and
    [CFE_SB_ZeroCopyReleaseAppId] are defined but are no action of the step
    relation of [SbSteps]: they give away buffers that calls of the dying
    application may still hold. *)

From stdpp Require Export base list numbers option.
From Stdlib Require Export ZArith Lia.

#[global] Open Scope Z_scope.

(** ** Machine integers

    A C unsigned integer of width [w] is a [Z] in [0, 2^w); arithmetic in the
    models is written on [Z] and brought back to its width by the functions
    below wherever the C expression is converted or wraps around. *)

Definition u8 (x : Z) : Z := x mod 2 ^ 8.
Definition u16 (x : Z) : Z := x mod 2 ^ 16.
Definition u32 (x : Z) : Z := x mod 2 ^ 32.
Definition u64 (x : Z) : Z := x mod 2 ^ 64.

(** Conversion of an unsigned 32-bit constant to [int32]. *)
Definition s32 (x : Z) : Z := if u32 x <? 2 ^ 31 then u32 x else u32 x - 2 ^ 32.

Definition is_u16 (x : Z) : Prop := 0 <= x < 2 ^ 16.
Definition is_u32 (x : Z) : Prop := 0 <= x < 2 ^ 32.
Definition is_u64 (x : Z) : Prop := 0 <= x < 2 ^ 64.

Lemma u16_range x : is_u16 (u16 x).
Proof. apply Z.mod_pos_bound. reflexivity. Qed.

Lemma u32_range x : is_u32 (u32 x).
Proof. apply Z.mod_pos_bound. reflexivity. Qed.

Lemma u64_range x : is_u64 (u64 x).
Proof. apply Z.mod_pos_bound. reflexivity. Qed.

Lemma u16_id x : is_u16 x -> u16 x = x.
Proof. intros. by apply Z.mod_small. Qed.

Lemma u32_id x : is_u32 x -> u32 x = x.
Proof. intros. by apply Z.mod_small. Qed.

Lemma u64_id x : is_u64 x -> u64 x = x.
Proof. intros. by apply Z.mod_small. Qed.

(** ** Bit fields

    The masks of the program are all of the form [2^n - 1]; masking is then a
    remainder, and joining two disjoint fields is an addition. *)

Lemma land_mask x n : 0 <= n -> Z.land x (2 ^ n - 1) = x mod 2 ^ n.
Proof.
  intros. replace (2 ^ n - 1) with (Z.ones n) by (rewrite Z.ones_equiv; lia).
  by apply Z.land_ones.
Qed.

Lemma lor_shift_add hi lo n :
  0 <= n -> 0 <= lo < 2 ^ n -> Z.lor (Z.shiftl hi n) lo = hi * 2 ^ n + lo.
Proof.
  intros Hn Hlo. rewrite Z.shiftl_mul_pow2 by done.
  rewrite <- (Z.add_lor_land (hi * 2 ^ n) lo).
  enough (Z.land (hi * 2 ^ n) lo = 0) by lia.
  apply Z.bits_inj'. intros k Hk.
  rewrite Z.land_spec, Z.bits_0.
  destruct (Z.lt_ge_cases k n).
  - by rewrite Z.mul_pow2_bits_low.
  - destruct (decide (lo = 0)) as [->|]; [by rewrite Z.bits_0, andb_false_r|].
    rewrite (Z.bits_above_log2 lo k), andb_false_r; [done|lia|].
    apply Z.lt_le_trans with n; [apply Z.log2_lt_pow2; lia|done].
Qed.

(** Clearing the low [k] bits of a [w]-bit word. *)
Lemma land_high x k w :
  0 <= k <= w -> 0 <= x < 2 ^ w -> Z.land x (2 ^ w - 2 ^ k) = x - x mod 2 ^ k.
Proof.
  intros Hk Hx.
  replace (2 ^ w - 2 ^ k) with (Z.shiftl (Z.ones (w - k)) k).
  2:{ rewrite Z.shiftl_mul_pow2, Z.ones_equiv by lia.
      replace (2 ^ w) with (2 ^ (w - k) * 2 ^ k) by (rewrite <- Z.pow_add_r by lia; f_equal; lia). lia. }
  assert (Hd : x - x mod 2 ^ k = Z.shiftl (Z.shiftr x k) k).
  { rewrite Z.shiftl_mul_pow2, Z.shiftr_div_pow2 by lia.
    pose proof (Z.div_mod x (2 ^ k)). pose proof (Z.pow_pos_nonneg 2 k). lia. }
  rewrite Hd. apply Z.bits_inj'. intros j Hj. rewrite Z.land_spec.
  destruct (Z.lt_ge_cases j k).
  - by rewrite !Z.shiftl_spec_low, andb_false_r by done.
  - rewrite !Z.shiftl_spec, Z.shiftr_spec by lia. replace (j - k + k) with j by lia.
    destruct (Z.lt_ge_cases (j - k) (w - k)).
    + by rewrite Z.ones_spec_low, andb_true_r by lia.
    + rewrite Z.ones_spec_high, andb_false_r by lia. symmetry.
      destruct (decide (x = 0)) as [->|]; [apply Z.bits_0|].
      apply Z.bits_above_log2; [lia|]. apply Z.lt_le_trans with w; [apply Z.log2_lt_pow2|]; lia.
Qed.

(** Rounding up to a multiple of a power of two, as [(x + mask) & ~mask]. *)
Definition align_up (x k : Z) : Z := x + 2 ^ k - 1 - (x + 2 ^ k - 1) mod 2 ^ k.

Lemma align_up_spec x k : 0 <= k -> x <= align_up x k < x + 2 ^ k /\ align_up x k mod 2 ^ k = 0.
Proof.
  intros Hk. unfold align_up. pose proof (Z.pow_pos_nonneg 2 k).
  pose proof (Z.mod_pos_bound (x + 2 ^ k - 1) (2 ^ k)). split; [lia|].
  rewrite Zminus_mod_idemp_r. replace (_ - _) with 0 by lia. apply Z.mod_0_l. lia.
Qed.

(** ** Tables

    A C array is a list; it is indexed by a [Z] that the code computes as an
    unsigned integer.  [zget] returns [inhabitant] and [zset] does nothing out
    of range: the theorems show that the accesses they are about are in range. *)

Definition zget {A} `{Inhabited A} (l : list A) (i : Z) : A := l !!! Z.to_nat i.
Definition zset {A} (l : list A) (i : Z) (x : A) : list A := <[Z.to_nat i := x]> l.
Definition zlen {A} (l : list A) : Z := Z.of_nat (length l).

Section tables.
Context {A : Type} `{Inhabited A}.
Implicit Types (l : list A) (x : A) (i j : Z).

Lemma zlen_zset l i x : zlen (zset l i x) = zlen l.
Proof. unfold zlen, zset. by rewrite length_insert. Qed.

Lemma zget_zset_eq l i x : 0 <= i < zlen l -> zget (zset l i x) i = x.
Proof. unfold zlen, zget, zset. intros. apply list_lookup_total_insert_eq. lia. Qed.

Lemma zget_zset_ne l i j x : 0 <= i -> 0 <= j -> i <> j -> zget (zset l i x) j = zget l j.
Proof. unfold zget, zset. intros. apply list_lookup_total_insert_ne. lia. Qed.

Lemma zget_zset l i j x :
  0 <= i < zlen l -> 0 <= j -> zget (zset l i x) j = if i =? j then x else zget l j.
Proof.
  intros. destruct (Z.eqb_spec i j) as [->|].
  - apply zget_zset_eq. lia.
  - apply zget_zset_ne; lia.
Qed.

Lemma zset_zset l i x y : zset (zset l i x) i y = zset l i y.
Proof. apply list_insert_insert_eq. Qed.

Lemma zset_zget l i : 0 <= i < zlen l -> zset l i (zget l i) = l.
Proof.
  unfold zlen, zget, zset. intros. apply list_insert_id.
  apply list_lookup_lookup_total_lt. lia.
Qed.

Lemma zget_replicate n x i : 0 <= i < Z.of_nat n -> zget (replicate n x) i = x.
Proof. unfold zget. intros. apply lookup_total_replicate_2. lia. Qed.

Lemma zget_app_l l l' i : 0 <= i < zlen l -> zget (l ++ l') i = zget l i.
Proof. unfold zget, zlen. intros. apply lookup_total_app_l. lia. Qed.
Lemma zget_app_r l l' i : zlen l <= i -> zget (l ++ l') i = zget l' (i - zlen l).
Proof. unfold zget, zlen. intros. rewrite lookup_total_app_r by lia. f_equal. lia. Qed.
Lemma zget_cons_pos x l i : 0 < i -> zget (x :: l) i = zget l (i - 1).
Proof. intros Hi. change (x :: l) with ([x] ++ l). rewrite zget_app_r by (unfold zlen; cbn; lia). done. Qed.
Lemma zget_drop n l i : 0 <= i -> zget (drop n l) i = zget l (Z.of_nat n + i).
Proof. unfold zget. intros. rewrite lookup_total_drop. f_equal. lia. Qed.
Lemma zget_take n l i : 0 <= i < Z.of_nat n -> zget (take n l) i = zget l i.
Proof. unfold zget. intros. rewrite lookup_total_take. rewrite decide_True by lia. done. Qed.

Lemma zget_ext l l' :
  zlen l = zlen l' -> (forall i, 0 <= i < zlen l -> zget l i = zget l' i) -> l = l'.
Proof.
  unfold zlen, zget. intros Hl Hi. apply list_eq. intros n.
  destruct (decide (n < length l)%nat).
  - specialize (Hi (Z.of_nat n) ltac:(lia)). rewrite Nat2Z.id in Hi.
    rewrite !list_lookup_lookup_total_lt by lia. by rewrite Hi.
  - rewrite !lookup_ge_None_2 by lia. done.
Qed.
End tables.

Lemma zlen_cons {A} (x : A) l : zlen (x :: l) = 1 + zlen l.
Proof. unfold zlen. cbn. lia. Qed.
Lemma zlen_app {A} (l1 l2 : list A) : zlen (l1 ++ l2) = zlen l1 + zlen l2.
Proof. unfold zlen. rewrite length_app. lia. Qed.
Lemma zlen_nonneg {A} (l : list A) : 0 <= zlen l.
Proof. unfold zlen. lia. Qed.
Lemma zlen_filter {A} f (l : list A) : zlen (List.filter f l) <= zlen l.
Proof. unfold zlen. pose proof (List.filter_length_le f l). lia. Qed.

(** ** Circular scans

    Several allocators look for a free slot by stepping a serial number and
    reducing it modulo the table size.  Every residue is met within one turn. *)

Lemma cyclic_cover s t j :
  0 < t -> 0 <= j < t -> exists k, 1 <= k <= t /\ (s + k) mod t = j.
Proof.
  intros Ht Hj. exists ((j - s - 1) mod t + 1).
  pose proof (Z.mod_pos_bound (j - s - 1) t Ht). split; [lia|].
  replace (s + ((j - s - 1) mod t + 1)) with ((j - s - 1) mod t + (s + 1)) by lia.
  rewrite Zplus_mod_idemp_l. replace (j - s - 1 + (s + 1)) with j by lia.
  by apply Z.mod_small.
Qed.

(** The scan itself: [n] candidates after [serial], whose slots are the serial
    numbers modulo [size]; a serial that reaches [limit] is reduced to its slot.
    The result is the first slot that is not taken, with its serial number. *)
Definition next_serial (limit size s : Z) : Z :=
  if limit <=? s + 1 then (s + 1) mod size else s + 1.

Fixpoint scan (limit size : Z) (taken : Z -> bool) (n : nat) (s : Z) : option (Z * Z) :=
  match n with
  | O => None
  | S n' =>
      let s' := next_serial limit size s in
      if taken (s' mod size) then scan limit size taken n' s' else Some (s' mod size, s')
  end.

Section scan.
Variables (limit size : Z) (taken : Z -> bool).
Hypothesis Hsize : 0 < size <= limit.

Lemma next_serial_spec s :
  0 <= s <= limit ->
  0 <= next_serial limit size s <= limit
  /\ (next_serial limit size s < limit \/ next_serial limit size s < size)
  /\ next_serial limit size s mod size = (s + 1) mod size.
Proof using Hsize.
  unfold next_serial. intros Hs. destruct (Z.leb_spec limit (s + 1)).
  - rewrite Z.mod_mod by lia. pose proof (Z.mod_pos_bound (s + 1) size). lia.
  - lia.
Qed.

Lemma scan_spec n s :
  0 <= s <= limit ->
  match scan limit size taken n s with
  | Some (i, r) =>
      exists k, 1 <= k <= Z.of_nat n /\ (s + k) mod size = i /\ taken i = false
        /\ 0 <= r <= limit /\ (r < limit \/ r < size) /\ r mod size = i
        /\ forall j, 1 <= j < k -> taken ((s + j) mod size) = true
  | None => forall k, 1 <= k <= Z.of_nat n -> taken ((s + k) mod size) = true
  end.
Proof using Hsize.
  revert s. induction n as [|n IH]; intros s Hs; [cbn; intros; lia|].
  destruct (next_serial_spec s Hs) as (Hr & Hlt & Hm). cbn [scan].
  set (s' := next_serial limit size s) in *.
  assert (Hsh : forall k, (s' + k) mod size = (s + (k + 1)) mod size).
  { intros k. rewrite <- (Zplus_mod_idemp_l s'), Hm, Zplus_mod_idemp_l. f_equal. lia. }
  destruct (taken (s' mod size)) eqn:Et.
  2:{ exists 1. split_and!; try done; try lia. }
  specialize (IH s' Hr). rewrite Hm in Et.
  assert (Hpred : forall j, (s' + (j - 1)) mod size = (s + j) mod size).
  { intros j. rewrite Hsh. f_equal. lia. }
  destruct (scan limit size taken n s') as [[i r]|].
  - destruct IH as (k & Hk & Hi & Hf & Hrr & Hrl & Hri & Hbefore).
    exists (k + 1). rewrite <- Hsh. split_and!; try done; try lia.
    intros j Hj. destruct (decide (j = 1)) as [->|]; [done|].
    rewrite <- Hpred. apply Hbefore. lia.
  - intros k Hk. destruct (decide (k = 1)) as [->|]; [done|].
    rewrite <- Hpred. apply IH. lia.
Qed.

(** A full turn misses no slot. *)
Lemma scan_full s :
  0 <= s <= limit ->
  scan limit size taken (Z.to_nat size) s = None <-> forall j, 0 <= j < size -> taken j = true.
Proof using Hsize.
  intros Hs. pose proof (scan_spec (Z.to_nat size) s Hs) as H.
  destruct (scan limit size taken (Z.to_nat size) s) as [[i r]|]; split; try done.
  - destruct H as (k & _ & Hi & Hf & _). intros Hall. subst i.
    rewrite Hall in Hf; [done|]. apply Z.mod_pos_bound. lia.
  - intros _ j Hj. destruct (cyclic_cover s size j) as (k & Hk & <-); [lia..|].
    apply H. lia.
Qed.
End scan.

(** ** Automation *)

Create HintDb cfe discriminated.
Create Rewrite HintDb cfe.
#[export] Hint Resolve u16_range u32_range u64_range : cfe.
#[export] Hint Rewrite @zlen_zset : cfe.

(** Case analysis on the tests of a model, with the comparison turned into a
    proposition. *)
Ltac case_test :=
  match goal with
  | |- context [if ?a =? ?b then _ else _] => destruct (Z.eqb_spec a b)
  | |- context [if ?a <? ?b then _ else _] => destruct (Z.ltb_spec a b)
  | |- context [if ?a <=? ?b then _ else _] => destruct (Z.leb_spec a b)
  | |- context [if ?b then _ else _] => let E := fresh "E" in destruct b eqn:E
  end.

Ltac case_test_in H :=
  match type of H with
  | context [if ?a =? ?b then _ else _] => destruct (Z.eqb_spec a b)
  | context [if ?a <? ?b then _ else _] => destruct (Z.ltb_spec a b)
  | context [if ?a <=? ?b then _ else _] => destruct (Z.leb_spec a b)
  | context [if ?b then _ else _] => let E := fresh "E" in destruct b eqn:E
  end.

(** Closes goals about ranges of fixed-width integers. *)
Ltac range := unfold is_u16, is_u32, is_u64 in *; lia.
