(* ===== verification/ResourceId.v ===== *)
(** * Resource identifiers (cfe/modules/resourceid/fsw/src/cfe_resourceid_api.c)

    A resource ID is a 32-bit word: a base value in the upper 16 bits that names
    the table, a serial number in the lower 16.  Every table of the core apps
    (pipes, memory pools, ...) finds its free slot with [CFE_ResourceId_FindNext]
    and turns an ID into a slot with [CFE_ResourceId_ToIndex].  The theorems show
    that the search visits every slot once, including across the wrap-around of
    the serial number, so that it fails only on a full table. *)

From S2P Require Import Prelude.

Definition CFE_SUCCESS : Z := 0.
Definition CFE_ES_ERR_RESOURCEID_NOT_VALID : Z := s32 0xc4000001.
Definition CFE_ES_BAD_ARGUMENT : Z := s32 0xc400000a.

Definition CFE_RESOURCEID_UNDEFINED : Z := 0.
Definition CFE_RESOURCEID_RESERVED : Z := 0xFFFFFFFF.
Definition CFE_RESOURCEID_SHIFT : Z := 16.
Definition CFE_RESOURCEID_MAX : Z := 0xFFFF.

(** The mark bit of the "simple" ID option, cfe_resourceid_simple.h. *)
Definition CFE_RESOURCEID_MARK : Z := 0.
Definition CFE_RESOURCEID_MAKE_BASE (offset : Z) : Z :=
  Z.lor CFE_RESOURCEID_MARK (Z.shiftl offset CFE_RESOURCEID_SHIFT).

Definition CFE_ResourceId_Equal (id1 id2 : Z) : bool := id1 =? id2.
Definition CFE_ResourceId_IsDefined (id : Z) : bool := negb (id =? 0).

Definition CFE_ResourceId_GetBase (id : Z) : Z :=
  Z.land id (u32 (Z.lnot CFE_RESOURCEID_MAX)).

Definition CFE_ResourceId_GetSerial (id : Z) : Z := Z.land id CFE_RESOURCEID_MAX.

(** The status, and the value stored through [Idx] when one is stored;
    [idx_given] is [Idx != NULL]. *)
Definition CFE_ResourceId_ToIndex (id BaseValue TableSize : Z) (idx_given : bool)
  : Z * option Z :=
  if negb idx_given then (CFE_ES_BAD_ARGUMENT, None)
  else
    let Serial := u32 (id - BaseValue) in
    if (CFE_RESOURCEID_MAX <? Serial) || (TableSize =? 0)
    then (CFE_ES_ERR_RESOURCEID_NOT_VALID, None)
    else (CFE_SUCCESS, Some (Serial mod TableSize)).

(** One turn of the [do ... while] loop per unit of [Count]. *)
Fixpoint FindNext_loop (ResourceType TableSize : Z) (CheckFunc : Z -> bool)
  (Count : nat) (Serial : Z) : Z :=
  match Count with
  | O => CFE_RESOURCEID_UNDEFINED
  | S Count' =>
      let Serial := u32 (Serial + 1) in
      let Serial := if CFE_RESOURCEID_MAX <=? Serial then Serial mod TableSize else Serial in
      let CheckId := u32 (ResourceType + Serial) in
      if CheckFunc CheckId
      then FindNext_loop ResourceType TableSize CheckFunc Count' Serial
      else CheckId
  end.

Definition CFE_ResourceId_FindNext (StartId TableSize : Z) (CheckFunc : option (Z -> bool)) : Z :=
  match CheckFunc with
  | None => CFE_RESOURCEID_UNDEFINED
  | Some CheckFunc =>
      FindNext_loop (CFE_ResourceId_GetBase StartId) TableSize CheckFunc
        (Z.to_nat TableSize) (CFE_ResourceId_GetSerial StartId)
  end.

(** ** Facts *)

Lemma GetSerial_mod id : CFE_ResourceId_GetSerial id = id mod 2 ^ 16.
Proof. apply (land_mask id 16). lia. Qed.

Lemma GetBase_eq id : is_u32 id -> CFE_ResourceId_GetBase id = id - id mod 2 ^ 16.
Proof. intros. by apply (land_high id 16 32). Qed.

(** A table whose IDs are [base + serial] with [base] a multiple of 2^16. *)
Definition table_base (base : Z) : Prop := base mod 2 ^ 16 = 0 /\ 0 <= base < 2 ^ 32.

(** The slot of an ID of the table at [base] with [size] entries. *)
Definition slot_of (base size id : Z) : Z := (id - base) mod size.

Lemma base_plus_serial base s :
  table_base base -> 0 <= s <= CFE_RESOURCEID_MAX -> 0 <= base + s < 2 ^ 32.
Proof.
  intros [H0 H1]. change CFE_RESOURCEID_MAX with 65535. intros.
  pose proof (Z.div_mod base (2 ^ 16)). rewrite H0 in *.
  assert (base / 2 ^ 16 < 2 ^ 16) by (apply Z.div_lt_upper_bound; lia). lia.
Qed.

(** A check function of the table: on the IDs of the table it depends on the
    slot only. *)
Definition checks (base size : Z) (CheckFunc taken : Z -> bool) : Prop :=
  forall r, 0 <= r <= CFE_RESOURCEID_MAX -> CheckFunc (base + r) = taken (r mod size).

(** The loop is the generic circular scan. *)
Lemma FindNext_loop_scan base size CheckFunc taken n s :
  table_base base -> 0 < size <= CFE_RESOURCEID_MAX -> 0 <= s <= CFE_RESOURCEID_MAX ->
  checks base size CheckFunc taken ->
  FindNext_loop base size CheckFunc n s =
  match scan CFE_RESOURCEID_MAX size taken n s with
  | Some (_, r) => base + r
  | None => CFE_RESOURCEID_UNDEFINED
  end.
Proof.
  intros Hb Hsz Hs Hc. revert s Hs. induction n as [|n IH]; intros s Hs; [done|].
  destruct (next_serial_spec CFE_RESOURCEID_MAX size Hsz s Hs) as (Hr & _ & _).
  cbn [FindNext_loop scan].
  rewrite (u32_id (s + 1)) by (change CFE_RESOURCEID_MAX with 65535 in *; range).
  fold (next_serial CFE_RESOURCEID_MAX size s).
  rewrite u32_id by (by apply base_plus_serial). rewrite Hc by done.
  destruct (taken _); [by apply IH|done].
Qed.

Lemma GetBase_range id : is_u32 id -> table_base (CFE_ResourceId_GetBase id).
Proof.
  intros Hid. rewrite GetBase_eq by done. unfold table_base.
  pose proof (Z.mod_pos_bound id (2 ^ 16)). pose proof (Z.div_mod id (2 ^ 16)).
  split; [|range]. replace (id - id mod 2 ^ 16) with (id / 2 ^ 16 * 2 ^ 16) by lia.
  apply Z.mod_mul. lia.
Qed.

(** An ID of the table decodes to its base and its slot. *)
Lemma id_decodes base size r :
  table_base base -> 0 < size -> 0 <= r <= CFE_RESOURCEID_MAX ->
  CFE_ResourceId_ToIndex (base + r) base size true = (CFE_SUCCESS, Some (r mod size))
  /\ CFE_ResourceId_GetBase (base + r) = base /\ is_u32 (base + r).
Proof.
  intros Hb Hs Hr. pose proof (base_plus_serial base r Hb Hr).
  change CFE_RESOURCEID_MAX with 65535 in *. split_and!; [|..|range].
  - unfold CFE_ResourceId_ToIndex. cbn [negb].
    replace (base + r - base) with r by lia. rewrite u32_id by range.
    change CFE_RESOURCEID_MAX with 65535.
    destruct (Z.ltb_spec 65535 r); [lia|]. destruct (Z.eqb_spec size 0); [lia|]. done.
  - rewrite GetBase_eq by range. rewrite Z.add_mod, (proj1 Hb), Z.add_0_l, Z.mod_mod by lia.
    rewrite Z.mod_small by lia. lia.
Qed.

(** The search, for any check function of the table. *)
Lemma FindNext_eff (base size StartId : Z) (CheckFunc taken : Z -> bool) :
  is_u32 StartId -> CFE_ResourceId_GetBase StartId = base -> 0 < size <= CFE_RESOURCEID_MAX ->
  checks base size CheckFunc taken ->
  let r := CFE_ResourceId_FindNext StartId size (Some CheckFunc) in
  (exists serial, r = base + serial /\ 0 <= serial <= CFE_RESOURCEID_MAX /\ taken (serial mod size) = false)
  \/ (r = CFE_RESOURCEID_UNDEFINED /\ forall j, 0 <= j < size -> taken j = true).
Proof.
  intros Hu Hb Hs Hc r.
  assert (Htb : table_base base) by (subst base; by apply GetBase_range).
  assert (Hser : 0 <= CFE_ResourceId_GetSerial StartId <= CFE_RESOURCEID_MAX).
  { rewrite GetSerial_mod. pose proof (Z.mod_pos_bound StartId (2 ^ 16)).
    change CFE_RESOURCEID_MAX with 65535. lia. }
  unfold r, CFE_ResourceId_FindNext. rewrite Hb, (FindNext_loop_scan _ _ _ taken) by done.
  pose proof (scan_spec _ size taken Hs (Z.to_nat size) _ Hser) as Hspec.
  pose proof (scan_full _ size taken Hs _ Hser) as Hfull.
  destruct (scan _ _ _ _ _) as [[i s]|]; [left|right].
  - destruct Hspec as (k & _ & Hi & Hf & Hr & _ & Hm & _). exists s. by rewrite Hm.
  - split; [done|]. by apply Hfull.
Qed.

(** The slot search of every cFE resource table, from any start ID: whenever
    the table has a free slot the search returns an ID of the same table whose
    slot is free, and it returns [UNDEFINED] exactly when all slots are taken.
    The serial number wraps at the top of its range without a slot being missed. *)
Theorem FindNext_finds_free (base size StartId : Z) (taken : Z -> bool) :
  is_u32 StartId -> CFE_ResourceId_GetBase StartId = base -> 0 < size <= CFE_RESOURCEID_MAX ->
  let r := CFE_ResourceId_FindNext StartId size (Some (fun id => taken (slot_of base size id))) in
  ((exists j, 0 <= j < size /\ taken j = false) ->
     exists idx, CFE_ResourceId_ToIndex r base size true = (CFE_SUCCESS, Some idx)
                 /\ taken idx = false /\ CFE_ResourceId_GetBase r = base /\ is_u32 r)
  /\ ((forall j, 0 <= j < size -> taken j = true) -> r = CFE_RESOURCEID_UNDEFINED).
Proof.
  intros Hu Hb Hs r. assert (Htb : table_base base) by (subst base; by apply GetBase_range).
  destruct (FindNext_eff base size StartId (fun id => taken (slot_of base size id)) taken Hu Hb Hs)
    as [(s & E & Hr & Hf)|[E Hall]].
  - intros x _. unfold slot_of. f_equal. f_equal. lia.
  - fold r in E. rewrite E. destruct (id_decodes base size s) as (H1 & H2 & H3); [done|lia|done|].
    split; [intros _; exists (s mod size); by rewrite H1|].
    intros Hall. rewrite Hall in Hf; [done|]. apply Z.mod_pos_bound. lia.
  - fold r in E. split; [|done]. intros (j & Hj & Hfree). by rewrite Hall in Hfree.
Qed.

(** Slot 0 of a four-entry pipe-ID table is the only free one, and the last
    issued ID is the largest, so the search wraps. *)
Lemma FindNext_finds_free_witness :
  CFE_ResourceId_FindNext 0x16FFFE 4 (Some (fun id => (fun j => negb (j =? 0)) (slot_of 0x160000 4 id)))
    = 0x160004
  /\ exists idx, CFE_ResourceId_ToIndex 0x160004 0x160000 4 true = (CFE_SUCCESS, Some idx)
                 /\ negb (idx =? 0) = false.
Proof.
  split; [vm_compute; reflexivity|].
  destruct (proj1 (FindNext_finds_free 0x160000 4 0x16FFFE (fun j => negb (j =? 0))
                     ltac:(vm_compute; split; congruence) eq_refl ltac:(vm_compute; split; congruence))
              ltac:(exists 0; vm_compute; split; [split|]; congruence)) as (idx & H1 & H2 & _).
  exists idx. split; [exact H1|exact H2].
Defined.
