(* ===== verification/OsalIdMap.v ===== *)
(** * OSAL object identifiers (osal/src/os/shared/src/osapi-idmap.c)

    Every OSAL object (task, queue, semaphore, file, ...) is a record of one
    common table, split in one range per object type.  An object ID packs the
    type in its upper 16 bits and a serial number in its lower 16; the serial
    modulo the size of the range is the index of the record.  A task works on a
    record through a token, in one of five lock modes; creation and deletion
    hold the record under the RESERVED ID while the table itself is unlocked.

    The model keeps the common table, the per-type state (last ID issued,
    transaction count, owner key), the per-type table mutex of the
    implementation layer as a flag, and the notifications given to the event
    handler.  Locking a mutex that the running task already holds blocks it for
    good (the mutexes are non-recursive): [blocked] records that this happened.
    The implementation layer is the parameter [Platform]. *)

From stdpp Require Import strings.
From S2P Require Import Prelude.

(** ** Constants *)

Definition OS_SUCCESS : Z := 0.
Definition OS_ERROR : Z := -1.
Definition OS_INVALID_POINTER : Z := -2.
Definition OS_ERR_NAME_TOO_LONG : Z := -13.
Definition OS_ERR_NO_FREE_IDS : Z := -14.
Definition OS_ERR_NAME_TAKEN : Z := -15.
Definition OS_ERR_INVALID_ID : Z := -16.
Definition OS_ERR_NAME_NOT_FOUND : Z := -17.
Definition OS_ERR_NOT_IMPLEMENTED : Z := -28.
Definition OS_ERR_OBJECT_IN_USE : Z := -33.
Definition OS_ERR_INCORRECT_OBJ_STATE : Z := -35.
Definition OS_ERR_INVALID_SIZE : Z := -40.

Definition OS_INIT_MAGIC_NUMBER : Z := 0xBE57C0DE.
Definition OS_SHUTDOWN_MAGIC_NUMBER : Z := 0xABADC0DE.
Definition OS_LOCK_KEY_FIXED_VALUE : Z := 0x4D000000.
Definition OS_LOCK_KEY_INVALID : Z := 0.

Definition OS_OBJECT_ID_UNDEFINED : Z := 0.
Definition OS_OBJECT_ID_RESERVED : Z := 0xFFFFFFFF.
Definition OS_OBJECT_CREATOR_ANY : Z := 0.
Definition OS_OBJECT_INDEX_MASK : Z := 0xFFFF.
Definition OS_OBJECT_TYPE_SHIFT : Z := 16.
Definition OS_OBJECT_TYPE_UNDEFINED : Z := 0x00.
Definition OS_OBJECT_TYPE_USER : Z := 0x10.

(** Table sizes, osal/default_config.cmake and osconfig.h.in. *)
Definition OS_MAX_TASKS : Z := 64.
Definition OS_MAX_QUEUES : Z := 64.
Definition OS_MAX_COUNT_SEMAPHORES : Z := 20.
Definition OS_MAX_BIN_SEMAPHORES : Z := 20.
Definition OS_MAX_MUTEXES : Z := 20.
Definition OS_MAX_NUM_OPEN_FILES : Z := 50.
Definition OS_MAX_NUM_OPEN_DIRS : Z := 4.
Definition OS_MAX_TIMEBASES : Z := 5.
Definition OS_MAX_TIMERS : Z := 10.
Definition OS_MAX_MODULES : Z := 20.
Definition OS_MAX_FILE_SYSTEMS : Z := 14.
Definition OS_MAX_CONSOLES : Z := 1.
Definition OS_MAX_API_NAME : Z := 20.

(** [OS_ObjectIndex_t]: where each range starts in the common table. *)
Definition OS_TASK_BASE : Z := 0.
Definition OS_QUEUE_BASE : Z := OS_TASK_BASE + OS_MAX_TASKS.
Definition OS_BINSEM_BASE : Z := OS_QUEUE_BASE + OS_MAX_QUEUES.
Definition OS_COUNTSEM_BASE : Z := OS_BINSEM_BASE + OS_MAX_BIN_SEMAPHORES.
Definition OS_MUTEX_BASE : Z := OS_COUNTSEM_BASE + OS_MAX_COUNT_SEMAPHORES.
Definition OS_STREAM_BASE : Z := OS_MUTEX_BASE + OS_MAX_MUTEXES.
Definition OS_DIR_BASE : Z := OS_STREAM_BASE + OS_MAX_NUM_OPEN_FILES.
Definition OS_TIMEBASE_BASE : Z := OS_DIR_BASE + OS_MAX_NUM_OPEN_DIRS.
Definition OS_TIMECB_BASE : Z := OS_TIMEBASE_BASE + OS_MAX_TIMEBASES.
Definition OS_MODULE_BASE : Z := OS_TIMECB_BASE + OS_MAX_TIMERS.
Definition OS_FILESYS_BASE : Z := OS_MODULE_BASE + OS_MAX_MODULES.
Definition OS_CONSOLE_BASE : Z := OS_FILESYS_BASE + OS_MAX_FILE_SYSTEMS.
Definition OS_MAX_TOTAL_RECORDS : Z := OS_CONSOLE_BASE + OS_MAX_CONSOLES.

(** ** Data *)

Record OS_common_record := mk_record {
  name_entry : option string;
  active_id : Z;
  creator : Z;
  refcount : Z (* uint16 *)
}.

Record OS_objtype_state := mk_objtype {
  last_id_issued : Z;
  transaction_count : Z; (* uint32 *)
  owner_key : Z
}.

Inductive OS_lock_mode :=
  | OS_LOCK_MODE_NONE
  | OS_LOCK_MODE_GLOBAL
  | OS_LOCK_MODE_REFCOUNT
  | OS_LOCK_MODE_EXCLUSIVE
  | OS_LOCK_MODE_RESERVED.

#[export] Instance OS_lock_mode_eq_dec : EqDecision OS_lock_mode.
Proof. solve_decision. Defined.

Definition mode_is (m m' : OS_lock_mode) : bool := bool_decide (m = m').

Record OS_object_token := mk_token {
  lock_mode : OS_lock_mode;
  lock_key : Z;
  obj_type : Z;
  obj_idx : Z; (* uint32 *)
  obj_id : Z
}.

Inductive OS_Event :=
  | OS_EVENT_RESOURCE_ALLOCATED
  | OS_EVENT_RESOURCE_CREATED
  | OS_EVENT_RESOURCE_DELETED.

Record osal := mk_osal {
  OS_common_table : list OS_common_record;
  OS_objtype_table : list OS_objtype_state;
  GlobalState : Z;
  table_mutex : list bool;
  blocked : bool;
  notified : list (OS_Event * Z)
}.

Definition zero_record : OS_common_record := mk_record None 0 0 0.
Definition zero_objtype : OS_objtype_state := mk_objtype 0 0 0.
Definition zero_token : OS_object_token := mk_token OS_LOCK_MODE_NONE 0 0 0 0.

#[export] Instance record_inhabited : Inhabited OS_common_record := populate zero_record.
#[export] Instance objtype_inhabited : Inhabited OS_objtype_state := populate zero_objtype.

Definition set_active_id (r : OS_common_record) (id : Z) : OS_common_record :=
  mk_record (name_entry r) id (creator r) (refcount r).
Definition set_refcount (r : OS_common_record) (n : Z) : OS_common_record :=
  mk_record (name_entry r) (active_id r) (creator r) n.
Definition set_lock_mode (t : OS_object_token) (m : OS_lock_mode) : OS_object_token :=
  mk_token m (lock_key t) (obj_type t) (obj_idx t) (obj_id t).
Definition set_lock_key (t : OS_object_token) (k : Z) : OS_object_token :=
  mk_token (lock_mode t) k (obj_type t) (obj_idx t) (obj_id t).
Definition set_obj_idx (t : OS_object_token) (i : Z) : OS_object_token :=
  mk_token (lock_mode t) (lock_key t) (obj_type t) i (obj_id t).
Definition set_obj_id (t : OS_object_token) (id : Z) : OS_object_token :=
  mk_token (lock_mode t) (lock_key t) (obj_type t) (obj_idx t) id.
Definition set_table (s : osal) (l : list OS_common_record) : osal :=
  mk_osal l (OS_objtype_table s) (GlobalState s) (table_mutex s) (blocked s) (notified s).
Definition set_objtypes (s : osal) (l : list OS_objtype_state) : osal :=
  mk_osal (OS_common_table s) l (GlobalState s) (table_mutex s) (blocked s) (notified s).

(** The implementation layer and the application: the ID of the calling task,
    what other tasks do to the tables while this one waits for a change, and
    the optional event handler of the application. *)
Record Platform := mk_platform {
  OS_TaskGetId_Impl : Z;
  OS_WaitForStateChange_Impl : Z -> Z -> osal -> osal;
  EventHandler : option (OS_Event -> Z -> Z)
}.

(** ** Identifiers (os-shared-idmap.h, osapi-idmap.h) *)

Definition OS_ObjectIdToSerialNumber_Impl (id : Z) : Z := Z.land id OS_OBJECT_INDEX_MASK.
Definition OS_ObjectIdToType_Impl (id : Z) : Z := u32 (Z.shiftr id OS_OBJECT_TYPE_SHIFT).
Definition OS_ObjectIdCompose_Impl (idtype idserial : Z) : Z :=
  u32 (Z.lor (u32 (Z.shiftl idtype OS_OBJECT_TYPE_SHIFT)) idserial).
Definition OS_ObjectIdEqual (a b : Z) : bool := a =? b.
Definition OS_ObjectIdDefined (id : Z) : bool := negb (id =? 0).
Definition OS_ObjectIdIsValid (id : Z) : bool :=
  let objtype := OS_ObjectIdToType_Impl id in
  (OS_OBJECT_TYPE_UNDEFINED <? objtype) && (objtype <? OS_OBJECT_TYPE_USER).

Definition OS_GetMaxForObjectType (idtype : Z) : Z :=
  match idtype with
  | 0x01 => OS_MAX_TASKS
  | 0x02 => OS_MAX_QUEUES
  | 0x04 => OS_MAX_BIN_SEMAPHORES
  | 0x03 => OS_MAX_COUNT_SEMAPHORES
  | 0x05 => OS_MAX_MUTEXES
  | 0x06 => OS_MAX_NUM_OPEN_FILES
  | 0x07 => OS_MAX_NUM_OPEN_DIRS
  | 0x08 => OS_MAX_TIMEBASES
  | 0x09 => OS_MAX_TIMERS
  | 0x0A => OS_MAX_MODULES
  | 0x0B => OS_MAX_FILE_SYSTEMS
  | 0x0C => OS_MAX_CONSOLES
  | _ => 0
  end.

Definition OS_GetBaseForObjectType (idtype : Z) : Z :=
  match idtype with
  | 0x01 => OS_TASK_BASE
  | 0x02 => OS_QUEUE_BASE
  | 0x04 => OS_BINSEM_BASE
  | 0x03 => OS_COUNTSEM_BASE
  | 0x05 => OS_MUTEX_BASE
  | 0x06 => OS_STREAM_BASE
  | 0x07 => OS_DIR_BASE
  | 0x08 => OS_TIMEBASE_BASE
  | 0x09 => OS_TIMECB_BASE
  | 0x0A => OS_MODULE_BASE
  | 0x0B => OS_FILESYS_BASE
  | 0x0C => OS_CONSOLE_BASE
  | _ => 0
  end.

(** [OS_ObjectIdInit]: both tables cleared. *)
Definition OS_ObjectIdInit (s : osal) : Z * osal :=
  (OS_SUCCESS,
   mk_osal (replicate (Z.to_nat OS_MAX_TOTAL_RECORDS) zero_record)
     (replicate (Z.to_nat OS_OBJECT_TYPE_USER) zero_objtype)
     (GlobalState s) (table_mutex s) (blocked s) (notified s)).

(** The record a token designates, as an index of the common table. *)
Definition OS_ObjectIdGlobalFromToken (token : OS_object_token) : Z :=
  u32 (OS_GetBaseForObjectType (obj_type token) + obj_idx token).

Definition record_of (s : osal) (i : Z) : OS_common_record := zget (OS_common_table s) i.
Definition put_record (s : osal) (i : Z) (r : OS_common_record) : osal :=
  set_table s (zset (OS_common_table s) i r).

Definition OS_ObjectMatchFunc := OS_object_token -> OS_common_record -> bool.

Definition OS_ObjectNameMatch (name : string) : OS_ObjectMatchFunc :=
  fun _ obj => match name_entry obj with Some n => String.eqb name n | None => false end.

Definition OS_ObjectFilterActive : OS_ObjectMatchFunc :=
  fun _ obj => OS_ObjectIdDefined (active_id obj).

Definition OS_ForEachFilterCreator (creator_id : Z) : OS_ObjectMatchFunc :=
  fun _ obj =>
    OS_ObjectIdIsValid (active_id obj)
    && (OS_ObjectIdEqual creator_id OS_OBJECT_CREATOR_ANY
        || OS_ObjectIdEqual (creator obj) creator_id).

(** The index the given ID designates; [OS_OBJECT_TYPE_UNDEFINED] accepts any
    type, and [idx_given] is [ArrayIndex != NULL]. *)
Definition OS_ObjectIdToArrayIndex (idtype object_id : Z) (idx_given : bool) : Z * option Z :=
  if negb idx_given then (OS_INVALID_POINTER, None) else
  let obj_index := OS_ObjectIdToSerialNumber_Impl object_id in
  let actual_type := OS_ObjectIdToType_Impl object_id in
  if negb (idtype =? OS_OBJECT_TYPE_UNDEFINED) && negb (actual_type =? idtype)
  then (OS_ERR_INVALID_ID, None)
  else
    let max_id := OS_GetMaxForObjectType actual_type in
    if max_id =? 0 then (OS_ERR_INVALID_ID, None)
    else (OS_SUCCESS, Some (obj_index mod max_id)).

Definition OS_ConvertToArrayIndex (object_id : Z) (idx_given : bool) : Z * option Z :=
  OS_ObjectIdToArrayIndex OS_OBJECT_TYPE_UNDEFINED object_id idx_given.

Definition OS_IdentifyObject (object_id : Z) : Z := OS_ObjectIdToType_Impl object_id.

(** ** Transactions *)

Section transactions.
Context (P : Platform).

(** The event is recorded, and the status is the handler's if there is one. *)
Definition OS_NotifyEvent (event : OS_Event) (object_id : Z) (s : osal) : Z * osal :=
  match EventHandler P with
  | Some h =>
      (h event object_id,
       mk_osal (OS_common_table s) (OS_objtype_table s) (GlobalState s) (table_mutex s)
         (blocked s) (notified s ++ [(event, object_id)]))
  | None => (OS_SUCCESS, s)
  end.

Definition OS_Lock_Global_Impl (idtype : Z) (s : osal) : osal :=
  mk_osal (OS_common_table s) (OS_objtype_table s) (GlobalState s)
    (zset (table_mutex s) idtype true)
    (blocked s || zget (table_mutex s) idtype) (notified s).

Definition OS_Unlock_Global_Impl (idtype : Z) (s : osal) : osal :=
  mk_osal (OS_common_table s) (OS_objtype_table s) (GlobalState s)
    (zset (table_mutex s) idtype false) (blocked s) (notified s).

(** The key of a lock: fixed upper bits, then the task ID xor the transaction
    count, kept to 24 bits. *)
Definition compute_lock_key (self_task_id count : Z) : Z :=
  Z.lor OS_LOCK_KEY_FIXED_VALUE (Z.land (Z.lxor self_task_id count) 0xFFFFFF).

Definition OS_Lock_Global (token : OS_object_token) (s : osal) : OS_object_token * osal :=
  if (obj_type token <? OS_OBJECT_TYPE_USER) && negb (mode_is (lock_mode token) OS_LOCK_MODE_NONE)
  then
    let s := OS_Lock_Global_Impl (obj_type token) s in
    let objtype := zget (OS_objtype_table s) (obj_type token) in
    let self_task_id :=
      if OS_ObjectIdIsValid (OS_TaskGetId_Impl P) then OS_TaskGetId_Impl P
      else OS_OBJECT_ID_RESERVED in
    let key := compute_lock_key self_task_id (transaction_count objtype) in
    let objtype :=
      mk_objtype (last_id_issued objtype) (u32 (transaction_count objtype + 1))
        (if owner_key objtype =? 0 then key else owner_key objtype) in
    (set_lock_key token key, set_objtypes s (zset (OS_objtype_table s) (obj_type token) objtype))
  else (token, s).

Definition OS_Unlock_Global (token : OS_object_token) (s : osal) : OS_object_token * osal :=
  if (obj_type token <? OS_OBJECT_TYPE_USER) && negb (mode_is (lock_mode token) OS_LOCK_MODE_NONE)
  then
    let objtype := zget (OS_objtype_table s) (obj_type token) in
    let objtype :=
      mk_objtype (last_id_issued objtype) (transaction_count objtype) OS_LOCK_KEY_INVALID in
    let s := set_objtypes s (zset (OS_objtype_table s) (obj_type token) objtype) in
    (set_lock_key token OS_LOCK_KEY_INVALID, OS_Unlock_Global_Impl (obj_type token) s)
  else (token, s).

Definition OS_WaitForStateChange (token : OS_object_token) (attempts : Z) (s : osal) : osal :=
  let objtype := zget (OS_objtype_table s) (obj_type token) in
  let saved_unlock_key := owner_key objtype in
  let s := set_objtypes s (zset (OS_objtype_table s) (obj_type token)
             (mk_objtype (last_id_issued objtype) (transaction_count objtype)
                OS_LOCK_KEY_INVALID)) in
  let s := OS_WaitForStateChange_Impl P (obj_type token) attempts s in
  let objtype := zget (OS_objtype_table s) (obj_type token) in
  set_objtypes s (zset (OS_objtype_table s) (obj_type token)
    (mk_objtype (last_id_issued objtype) (transaction_count objtype) saved_unlock_key)).

(** Returns the status, the token (cleared first, whatever the outcome) and
    the state. *)
Definition OS_ObjectIdTransactionInit (mode : OS_lock_mode) (idtype : Z) (s : osal)
  : Z * OS_object_token * osal :=
  if negb (GlobalState s =? OS_INIT_MAGIC_NUMBER)
     && negb (GlobalState s =? OS_SHUTDOWN_MAGIC_NUMBER)
  then (OS_ERROR, zero_token, s)
  else if (GlobalState s =? OS_SHUTDOWN_MAGIC_NUMBER)
          && negb (mode_is mode OS_LOCK_MODE_EXCLUSIVE)
  then (OS_ERR_INCORRECT_OBJ_STATE, zero_token, s)
  else if OS_GetMaxForObjectType idtype =? 0
  then (OS_ERR_INVALID_ID, zero_token, s)
  else
    let token := mk_token mode 0 idtype (u32 (-1)) 0 in
    let '(token, s) :=
      if mode_is mode OS_LOCK_MODE_NONE then (token, s) else OS_Lock_Global token s in
    (OS_SUCCESS, token, s).

Definition OS_ObjectIdTransactionCancel (token : OS_object_token) (s : osal)
  : OS_object_token * osal :=
  if mode_is (lock_mode token) OS_LOCK_MODE_NONE then (token, s)
  else
    let '(token, s) := OS_Unlock_Global token s in
    (set_lock_mode token OS_LOCK_MODE_NONE, s).

(** The [while (true)] loop of [OS_ObjectIdConvertToken], entered with
    [5 - left] attempts made; the result is the status and the final
    [expected_id]. *)
Fixpoint ConvertToken_loop (token : OS_object_token) (left : nat) (expected_id : Z) (s : osal)
  : Z * Z * osal :=
  let obj := OS_ObjectIdGlobalFromToken token in
  let retry expected_id s :=
    match left with
    | S (S _ as left') =>
        ConvertToken_loop token left' expected_id
          (OS_WaitForStateChange token (5 - Z.of_nat left') s)
    | _ => (OS_ERR_OBJECT_IN_USE, expected_id, s)
    end in
  if OS_ObjectIdEqual (active_id (record_of s obj)) expected_id then
    if mode_is (lock_mode token) OS_LOCK_MODE_EXCLUSIVE then
      let '(expected_id, s) :=
        if negb (OS_ObjectIdEqual expected_id OS_OBJECT_ID_RESERVED)
        then (OS_OBJECT_ID_RESERVED,
              put_record s obj (set_active_id (record_of s obj) OS_OBJECT_ID_RESERVED))
        else (expected_id, s) in
      if refcount (record_of s obj) =? 0 then (OS_SUCCESS, expected_id, s)
      else retry expected_id s
    else (OS_SUCCESS, expected_id, s)
  else if mode_is (lock_mode token) OS_LOCK_MODE_NONE
          || negb (OS_ObjectIdEqual (active_id (record_of s obj)) OS_OBJECT_ID_RESERVED)
  then (OS_ERR_INVALID_ID, expected_id, s)
  else retry expected_id s.

Definition OS_ObjectIdConvertToken (token : OS_object_token) (s : osal)
  : Z * OS_object_token * osal :=
  let obj := OS_ObjectIdGlobalFromToken token in
  if negb (OS_ObjectIdIsValid (obj_id token))
  then (OS_ERR_INCORRECT_OBJ_STATE, token, s)
  else
    let expected_id :=
      if mode_is (lock_mode token) OS_LOCK_MODE_RESERVED
      then OS_OBJECT_ID_RESERVED else obj_id token in
    let '(return_code, expected_id, s) := ConvertToken_loop token 5 expected_id s in
    if mode_is (lock_mode token) OS_LOCK_MODE_NONE then (return_code, token, s)
    else if return_code =? OS_SUCCESS then
      let r := record_of s obj in
      let s := put_record s obj (set_refcount r (u16 (refcount r + 1))) in
      if mode_is (lock_mode token) OS_LOCK_MODE_REFCOUNT
         || mode_is (lock_mode token) OS_LOCK_MODE_EXCLUSIVE
      then let '(token, s) := OS_Unlock_Global token s in (return_code, token, s)
      else (return_code, token, s)
    else if mode_is (lock_mode token) OS_LOCK_MODE_EXCLUSIVE
            && OS_ObjectIdEqual expected_id OS_OBJECT_ID_RESERVED
    then (return_code, token,
          put_record s obj (set_active_id (record_of s obj) (obj_id token)))
    else (return_code, token, s).

Fixpoint FindNextMatch_loop (MatchFunc : OS_ObjectMatchFunc) (base obj_count : Z)
  (fuel : nat) (token : OS_object_token) (s : osal) : Z * OS_object_token :=
  match fuel with
  | O => (OS_ERR_NAME_NOT_FOUND, token)
  | S fuel' =>
      let token := set_obj_idx token (u32 (obj_idx token + 1)) in
      if obj_count <=? obj_idx token then (OS_ERR_NAME_NOT_FOUND, token)
      else
        let record := record_of s (base + obj_idx token) in
        if OS_ObjectIdDefined (active_id record) && MatchFunc token record
        then (OS_SUCCESS, set_obj_id token (active_id record))
        else FindNextMatch_loop MatchFunc base obj_count fuel' token s
  end.

(** The search starts after [obj_idx]; one turn per record, plus the turn
    that leaves the loop. *)
Definition OS_ObjectIdFindNextMatch (MatchFunc : OS_ObjectMatchFunc) (token : OS_object_token)
  (s : osal) : Z * OS_object_token :=
  let obj_count := OS_GetMaxForObjectType (obj_type token) in
  FindNextMatch_loop MatchFunc (OS_GetBaseForObjectType (obj_type token)) obj_count
    (S (Z.to_nat obj_count)) (set_obj_id token OS_OBJECT_ID_UNDEFINED) s.

(** The [for] loop over [max_id] candidates: the local index and the serial
    of the first undefined record. *)
Fixpoint FindNextFree_loop (s : osal) (base_id max_id : Z) (n : nat) (serial : Z)
  : option (Z * Z) :=
  match n with
  | O => None
  | S n' =>
      let serial := u32 (serial + 1) in
      let local_id := serial mod max_id in
      let serial := if OS_OBJECT_INDEX_MASK <=? serial then local_id else serial in
      if negb (OS_ObjectIdDefined (active_id (record_of s (local_id + base_id))))
      then Some (local_id, serial)
      else FindNextFree_loop s base_id max_id n' serial
  end.

Definition OS_ObjectIdFindNextFree (token : OS_object_token) (s : osal)
  : Z * OS_object_token * osal :=
  let base_id := OS_GetBaseForObjectType (obj_type token) in
  let max_id := OS_GetMaxForObjectType (obj_type token) in
  let objtype := zget (OS_objtype_table s) (obj_type token) in
  let '(failure, serial) :=
    if max_id =? 0 then (OS_ERR_NOT_IMPLEMENTED, 0)
    else (OS_ERR_NO_FREE_IDS, OS_ObjectIdToSerialNumber_Impl (last_id_issued objtype)) in
  match FindNextFree_loop s base_id max_id (Z.to_nat max_id) serial with
  | Some (local_id, serial) =>
      let id := OS_ObjectIdCompose_Impl (obj_type token) serial in
      let s := put_record s (local_id + base_id) (mk_record None id (OS_TaskGetId_Impl P) 0) in
      let s := set_objtypes s (zset (OS_objtype_table s) (obj_type token)
                 (mk_objtype id (transaction_count objtype) (owner_key objtype))) in
      (OS_SUCCESS, set_obj_id (set_obj_idx token local_id) id, s)
  | None => (failure, set_obj_id (set_obj_idx token (u32 (-1))) OS_OBJECT_ID_UNDEFINED, s)
  end.

(** [final_id] is [None] when the caller passes NULL. *)
Definition OS_ObjectIdTransactionFinish (token : OS_object_token) (final_id : option Z) (s : osal)
  : OS_object_token * osal :=
  if mode_is (lock_mode token) OS_LOCK_MODE_NONE then (token, s)
  else
    let obj := OS_ObjectIdGlobalFromToken token in
    let '(token, s) :=
      if mode_is (lock_mode token) OS_LOCK_MODE_EXCLUSIVE
         || mode_is (lock_mode token) OS_LOCK_MODE_REFCOUNT
      then OS_Lock_Global token s else (token, s) in
    let record := record_of s obj in
    let record := if 0 <? refcount record then set_refcount record (refcount record - 1)
                  else record in
    let record :=
      match final_id with
      | Some id => set_active_id record id
      | None => if mode_is (lock_mode token) OS_LOCK_MODE_EXCLUSIVE
                then set_active_id record (obj_id token) else record
      end in
    let '(token, s) := OS_Unlock_Global token (put_record s obj record) in
    (set_lock_mode token OS_LOCK_MODE_NONE, s).

Definition OS_ObjectIdRelease (token : OS_object_token) (s : osal) : OS_object_token * osal :=
  OS_ObjectIdTransactionFinish token None s.

(** The status, the ID stored through [outid], the token and the state. *)
Definition OS_ObjectIdFinalizeNew (operation_status : Z) (token : OS_object_token) (s : osal)
  : Z * Z * OS_object_token * osal :=
  let final_id :=
    if operation_status =? OS_SUCCESS then obj_id token else OS_OBJECT_ID_UNDEFINED in
  let '(token, s) := OS_ObjectIdTransactionFinish token (Some final_id) s in
  let s := if operation_status =? OS_SUCCESS
           then snd (OS_NotifyEvent OS_EVENT_RESOURCE_CREATED (obj_id token) s) else s in
  (operation_status, final_id, token, s).

Definition OS_ObjectIdFinalizeDelete (operation_status : Z) (token : OS_object_token) (s : osal)
  : Z * OS_object_token * osal :=
  let final_id :=
    if operation_status =? OS_SUCCESS then OS_OBJECT_ID_UNDEFINED else obj_id token in
  let '(token, s) := OS_ObjectIdTransactionFinish token (Some final_id) s in
  let s := if operation_status =? OS_SUCCESS
           then snd (OS_NotifyEvent OS_EVENT_RESOURCE_DELETED (obj_id token) s) else s in
  (operation_status, token, s).

(** The status of [OS_ObjectIdTransactionInit] is not looked at. *)
Definition OS_ObjectIdGetBySearch (mode : OS_lock_mode) (idtype : Z)
  (MatchFunc : OS_ObjectMatchFunc) (s : osal) : Z * OS_object_token * osal :=
  let '(_, token, s) := OS_ObjectIdTransactionInit mode idtype s in
  let '(return_code, token) := OS_ObjectIdFindNextMatch MatchFunc token s in
  if return_code =? OS_SUCCESS then OS_ObjectIdConvertToken token s
  else let '(token, s) := OS_ObjectIdTransactionCancel token s in (return_code, token, s).

Definition OS_ObjectIdGetByName (mode : OS_lock_mode) (idtype : Z) (name : string) (s : osal)
  : Z * OS_object_token * osal :=
  OS_ObjectIdGetBySearch mode idtype (OS_ObjectNameMatch name) s.

(** The status, and the ID stored through [object_id] on success. *)
Definition OS_ObjectIdFindByName (idtype : Z) (name : option string) (s : osal)
  : Z * option Z * osal :=
  match name with
  | None => (OS_ERR_NAME_NOT_FOUND, None, s)
  | Some name =>
      if negb (Z.of_nat (String.length name) <? OS_MAX_API_NAME)
      then (OS_ERR_NAME_TOO_LONG, None, s)
      else
        let '(return_code, token, s) := OS_ObjectIdGetByName OS_LOCK_MODE_GLOBAL idtype name s in
        if return_code =? OS_SUCCESS
        then (return_code, Some (obj_id token), snd (OS_ObjectIdRelease token s))
        else (return_code, None, s)
  end.

Definition OS_ObjectIdGetById (mode : OS_lock_mode) (idtype id : Z) (s : osal)
  : Z * OS_object_token * osal :=
  let '(return_code, token, s) := OS_ObjectIdTransactionInit mode idtype s in
  if negb (return_code =? OS_SUCCESS) then (return_code, token, s)
  else
    let '(return_code, token, s) :=
      match OS_ObjectIdToArrayIndex idtype id true with
      | (rc, Some idx) =>
          OS_ObjectIdConvertToken (set_obj_id (set_obj_idx token idx) id) s
      | (rc, None) => (rc, token, s)
      end in
    if negb (return_code =? OS_SUCCESS)
    then let '(token, s) := OS_ObjectIdTransactionCancel token s in (return_code, token, s)
    else (return_code, token, s).

Definition OS_ObjectIdAllocateNew (idtype : Z) (name : option string) (s : osal)
  : Z * OS_object_token * osal :=
  if GlobalState s =? OS_SHUTDOWN_MAGIC_NUMBER
  then (OS_ERR_INCORRECT_OBJ_STATE, zero_token, s)
  else
    let '(return_code, token, s) :=
      OS_ObjectIdTransactionInit OS_LOCK_MODE_EXCLUSIVE idtype s in
    if negb (return_code =? OS_SUCCESS) then (return_code, token, s)
    else
      let '(return_code, token) :=
        match name with
        | Some n => OS_ObjectIdFindNextMatch (OS_ObjectNameMatch n) token s
        | None => (OS_ERR_NAME_NOT_FOUND, token)
        end in
      let '(return_code, token, s) :=
        if return_code =? OS_SUCCESS then (OS_ERR_NAME_TAKEN, token, s)
        else OS_ObjectIdFindNextFree token s in
      if negb (return_code =? OS_SUCCESS)
      then let '(token, s) := OS_ObjectIdTransactionCancel token s in (return_code, token, s)
      else
        let '(return_code, s) := OS_NotifyEvent OS_EVENT_RESOURCE_ALLOCATED (obj_id token) s in
        let '(return_code, token, s) :=
          if return_code =? OS_SUCCESS then OS_ObjectIdConvertToken token s
          else (return_code, token, s) in
        if negb (return_code =? OS_SUCCESS)
        then let '(return_code, _, token, s) := OS_ObjectIdFinalizeNew return_code token s in
             (return_code, token, s)
        else (return_code, token, s).

(** The old token is disarmed; the pair is (from, to). *)
Definition OS_ObjectIdTransferToken (token_from : OS_object_token)
  : OS_object_token * OS_object_token :=
  (set_lock_mode token_from OS_LOCK_MODE_NONE, token_from).

(** *** Iteration *)

Record OS_object_iter := mk_iter {
  iter_base : Z;
  iter_match : option OS_ObjectMatchFunc;
  iter_limit : Z;
  iter_token : OS_object_token
}.

Definition set_iter_token (it : OS_object_iter) (t : OS_object_token) : OS_object_iter :=
  mk_iter (iter_base it) (iter_match it) (iter_limit it) t.

Definition OS_ObjectIdIteratorInit (matchfunc : option OS_ObjectMatchFunc) (objtype : Z) (s : osal)
  : Z * OS_object_iter * osal :=
  let '(rc, token, s) := OS_ObjectIdTransactionInit OS_LOCK_MODE_GLOBAL objtype s in
  (rc, mk_iter (OS_GetBaseForObjectType objtype) matchfunc (OS_GetMaxForObjectType objtype) token,
   s).

Definition OS_ObjectIdIterateActive (objtype : Z) (s : osal) : Z * OS_object_iter * osal :=
  OS_ObjectIdIteratorInit (Some OS_ObjectFilterActive) objtype s.

Fixpoint IteratorGetNext_loop (fuel : nat) (it : OS_object_iter) (s : osal)
  : bool * OS_object_iter :=
  match fuel with
  | O => (false, it)
  | S fuel' =>
      let token := set_obj_idx (iter_token it) (u32 (obj_idx (iter_token it) + 1)) in
      let it := set_iter_token it token in
      if iter_limit it <=? obj_idx token then (false, it)
      else
        let record := record_of s (iter_base it + obj_idx token) in
        if match iter_match it with None => true | Some m => m token record end
        then (true, set_iter_token it (set_obj_id token (active_id record)))
        else IteratorGetNext_loop fuel' it s
  end.

Definition OS_ObjectIdIteratorGetNext (it : OS_object_iter) (s : osal) : bool * OS_object_iter :=
  IteratorGetNext_loop (S (Z.to_nat (iter_limit it)))
    (set_iter_token it (set_obj_id (iter_token it) OS_OBJECT_ID_UNDEFINED)) s.

Definition OS_ObjectIdIteratorDestroy (it : OS_object_iter) (s : osal) : OS_object_iter * osal :=
  let '(token, s) := OS_ObjectIdTransactionCancel (iter_token it) s in
  (set_iter_token it token, s).

(** The handler runs with the table unlocked and may change it. *)
Definition OS_ObjectIdIteratorProcessEntry (it : OS_object_iter) (func : Z -> osal -> Z * osal)
  (s : osal) : Z * OS_object_iter * osal :=
  let '(token, s) := OS_Unlock_Global (iter_token it) s in
  let '(status, s) := func (obj_id token) s in
  let '(token, s) := OS_Lock_Global token s in
  (status, set_iter_token it token, s).

Definition OS_ForEachDoCallback (callback : Z -> osal -> osal) : Z -> osal -> Z * osal :=
  fun id s => (OS_SUCCESS, callback id s).

(** [while (OS_ObjectIdIteratorGetNext(&iter)) ProcessEntry]: the index grows
    at every turn, so [limit + 1] turns reach the end. *)
Fixpoint ForEach_loop (fuel : nat) (callback : Z -> osal -> osal) (it : OS_object_iter) (s : osal)
  : OS_object_iter * osal :=
  match fuel with
  | O => (it, s)
  | S fuel' =>
      match OS_ObjectIdIteratorGetNext it s with
      | (true, it) =>
          let '(_, it, s) :=
            OS_ObjectIdIteratorProcessEntry it (OS_ForEachDoCallback callback) s in
          ForEach_loop fuel' callback it s
      | (false, it) => (it, s)
      end
  end.

Definition OS_ForEachObjectOfType (idtype creator_id : Z) (callback : Z -> osal -> osal) (s : osal)
  : osal :=
  let '(rc, it, s) := OS_ObjectIdIteratorInit (Some (OS_ForEachFilterCreator creator_id)) idtype s in
  if rc =? OS_SUCCESS then
    let '(it, s) := ForEach_loop (S (Z.to_nat (iter_limit it))) callback it s in
    snd (OS_ObjectIdIteratorDestroy it s)
  else s.

Definition OS_ForEachObject (creator_id : Z) (callback : Z -> osal -> osal) (s : osal) : osal :=
  fold_left (fun s idtype => OS_ForEachObjectOfType (Z.of_nat idtype) creator_id callback s)
    (seq 0 (Z.to_nat OS_OBJECT_TYPE_USER)) s.

(** The status and the string left in the buffer; [None] when the buffer is
    not written at all. *)
Definition OS_GetResourceName (object_id : Z) (buffer_given : bool) (buffer_size : Z) (s : osal)
  : Z * option string * osal :=
  if negb buffer_given then (OS_INVALID_POINTER, None, s)
  else if negb ((0 <? buffer_size) && (buffer_size <? (2 ^ 32 - 1) / 2))
  then (OS_ERR_INVALID_SIZE, None, s)
  else
    let '(return_code, token, s) :=
      OS_ObjectIdGetById OS_LOCK_MODE_GLOBAL (OS_ObjectIdToType_Impl object_id) object_id s in
    if return_code =? OS_SUCCESS then
      let record := record_of s (OS_ObjectIdGlobalFromToken token) in
      let '(return_code, buffer) :=
        match name_entry record with
        | Some n =>
            if buffer_size <=? Z.of_nat (String.length n)
            then (OS_ERR_NAME_TOO_LONG, String.substring 0 (Z.to_nat (buffer_size - 1)) n)
            else (return_code, n)
        | None => (return_code, EmptyString)
        end in
      (return_code, Some buffer, snd (OS_ObjectIdRelease token s))
    else (return_code, Some EmptyString, s).
End transactions.
