(* ===== verification/OsalIdMapProofs.v ===== *)
(** * Correctness of the OSAL object tables

    Part 1: identifiers and table geometry.  Part 2: what each operation does to
    the common table and to the table mutex.  Part 3: the whole protocol, as a
    transition system of tasks that allocate, look up, release, finalize and
    delete, with the invariants that hold in every reachable state. *)

From stdpp Require Import strings.
From S2P Require Import Prelude OsalIdMap.

(** ** Geometry of the common table *)

Definition valid_type (t : Z) : Prop := 1 <= t <= 12.

Lemma valid_type_cases (Q : Z -> Prop) :
  Q 1 -> Q 2 -> Q 3 -> Q 4 -> Q 5 -> Q 6 -> Q 7 -> Q 8 -> Q 9 -> Q 10 -> Q 11 -> Q 12 ->
  forall t, valid_type t -> Q t.
Proof.
  unfold valid_type. intros.
  destruct (decide (t = 1)) as [->|]; [done|]. destruct (decide (t = 2)) as [->|]; [done|].
  destruct (decide (t = 3)) as [->|]; [done|]. destruct (decide (t = 4)) as [->|]; [done|].
  destruct (decide (t = 5)) as [->|]; [done|]. destruct (decide (t = 6)) as [->|]; [done|].
  destruct (decide (t = 7)) as [->|]; [done|]. destruct (decide (t = 8)) as [->|]; [done|].
  destruct (decide (t = 9)) as [->|]; [done|]. destruct (decide (t = 10)) as [->|]; [done|].
  destruct (decide (t = 11)) as [->|]; [done|]. destruct (decide (t = 12)) as [->|]; [done|]. lia.
Qed.

(** Computes the configured sizes and bases. *)
Ltac osal_config :=
  cbv [OS_GetMaxForObjectType OS_GetBaseForObjectType OS_MAX_TOTAL_RECORDS
    OS_TASK_BASE OS_QUEUE_BASE OS_BINSEM_BASE OS_COUNTSEM_BASE OS_MUTEX_BASE OS_STREAM_BASE
    OS_DIR_BASE OS_TIMEBASE_BASE OS_TIMECB_BASE OS_MODULE_BASE OS_FILESYS_BASE OS_CONSOLE_BASE
    OS_MAX_TASKS OS_MAX_QUEUES OS_MAX_COUNT_SEMAPHORES OS_MAX_BIN_SEMAPHORES OS_MAX_MUTEXES
    OS_MAX_NUM_OPEN_FILES OS_MAX_NUM_OPEN_DIRS OS_MAX_TIMEBASES OS_MAX_TIMERS OS_MAX_MODULES
    OS_MAX_FILE_SYSTEMS OS_MAX_CONSOLES].

(** The index, in the common table, of record [i] of type [t]. *)
Definition slot (t i : Z) : Z := OS_GetBaseForObjectType t + i.
Definition in_type (t i : Z) : Prop := valid_type t /\ 0 <= i < OS_GetMaxForObjectType t.

Lemma max_range t : valid_type t -> 0 < OS_GetMaxForObjectType t < OS_OBJECT_INDEX_MASK.
Proof. intros Ht. pattern t. revert t Ht. apply valid_type_cases; vm_compute; split; congruence. Qed.

Lemma max_zero_iff t : OS_GetMaxForObjectType t = 0 <-> ~ valid_type t.
Proof.
  split.
  - intros H0 Ht. pose proof (max_range t Ht). lia.
  - unfold valid_type, OS_GetMaxForObjectType. intros Hn.
    repeat match goal with |- match ?x with _ => _ end = _ => destruct x; try lia end.
Qed.

Lemma slot_range t i : in_type t i -> 0 <= slot t i < OS_MAX_TOTAL_RECORDS.
Proof.
  intros [Ht Hi]. revert i Hi. pattern t. revert t Ht.
  apply valid_type_cases; unfold slot; intros i; osal_config; lia.
Qed.

(** The ranges follow each other in the order of the bases. *)
Lemma ranges_ordered t t' :
  valid_type t -> valid_type t' -> t <> t' ->
  OS_GetBaseForObjectType t + OS_GetMaxForObjectType t <= OS_GetBaseForObjectType t'
  \/ OS_GetBaseForObjectType t' + OS_GetMaxForObjectType t' <= OS_GetBaseForObjectType t.
Proof.
  intros Ht Ht'. revert t' Ht'. pattern t. revert t Ht.
  apply valid_type_cases; intros t' Ht'; pattern t'; revert t' Ht'; apply valid_type_cases;
    vm_compute; intros; first [left; congruence | right; congruence | congruence].
Qed.

Lemma slot_inj t i t' i' : in_type t i -> in_type t' i' -> slot t i = slot t' i' -> t = t' /\ i = i'.
Proof.
  intros [Ht Hi] [Ht' Hi'] E. unfold slot in E. destruct (decide (t = t')) as [->|Hne]; [lia|].
  destruct (ranges_ordered t t'); auto; lia.
Qed.

(** ** Identifiers *)

Lemma serial_mod id : OS_ObjectIdToSerialNumber_Impl id = id mod 2 ^ 16.
Proof. apply (land_mask id 16). lia. Qed.

Lemma type_div id : is_u32 id -> OS_ObjectIdToType_Impl id = id / 2 ^ 16.
Proof.
  intros. unfold OS_ObjectIdToType_Impl. rewrite Z.shiftr_div_pow2 by (vm_compute; congruence).
  change OS_OBJECT_TYPE_SHIFT with 16. apply u32_id.
  split; [apply Z.div_pos; range|]. apply Z.div_lt_upper_bound; range.
Qed.

Lemma compose_eq t serial :
  0 <= t < 2 ^ 16 -> 0 <= serial < 2 ^ 16 ->
  OS_ObjectIdCompose_Impl t serial = t * 2 ^ 16 + serial.
Proof.
  intros Ht Hs. unfold OS_ObjectIdCompose_Impl. change OS_OBJECT_TYPE_SHIFT with 16.
  rewrite (u32_id (Z.shiftl t 16)) by (rewrite Z.shiftl_mul_pow2 by lia; range).
  rewrite lor_shift_add by lia. apply u32_id. range.
Qed.

Lemma compose_fields t serial :
  valid_type t -> 0 <= serial <= OS_OBJECT_INDEX_MASK ->
  let id := OS_ObjectIdCompose_Impl t serial in
  id = t * 2 ^ 16 + serial /\ OS_ObjectIdToType_Impl id = t
  /\ OS_ObjectIdToSerialNumber_Impl id = serial.
Proof.
  intros Ht Hs id. change OS_OBJECT_INDEX_MASK with 65535 in Hs. unfold valid_type in Ht.
  assert (Hid : id = t * 2 ^ 16 + serial) by (apply compose_eq; lia).
  split_and!; [done|..].
  - rewrite type_div, Hid by range. rewrite Z.div_add_l by lia. rewrite Z.div_small; lia.
  - rewrite serial_mod, Hid, Z.add_comm, Z.mod_add by lia. apply Z.mod_small. lia.
Qed.

(** Composing an object ID and taking it apart: for every object type and
    every serial number the 32-bit ID gives back its type and serial, is a valid
    ID, and designates the record [serial mod max] of its own type and of no
    other type. *)
Theorem ObjectId_roundtrip (t serial : Z) :
  valid_type t -> 0 <= serial <= OS_OBJECT_INDEX_MASK ->
  let id := OS_ObjectIdCompose_Impl t serial in
  OS_ObjectIdToType_Impl id = t /\ OS_ObjectIdToSerialNumber_Impl id = serial
  /\ OS_ObjectIdIsValid id = true /\ id <> OS_OBJECT_ID_RESERVED
  /\ (forall t', t' <> OS_OBJECT_TYPE_UNDEFINED ->
        OS_ObjectIdToArrayIndex t' id true =
        if t' =? t then (OS_SUCCESS, Some (serial mod OS_GetMaxForObjectType t))
        else (OS_ERR_INVALID_ID, None)).
Proof.
  intros Ht Hs id. destruct (compose_fields t serial Ht Hs) as (Hid & Htype & Hser). fold id in Hid, Htype, Hser.
  change OS_OBJECT_INDEX_MASK with 65535 in Hs.
  split_and!; try done.
  - unfold OS_ObjectIdIsValid. rewrite Htype. unfold valid_type in Ht.
    change OS_OBJECT_TYPE_UNDEFINED with 0. change OS_OBJECT_TYPE_USER with 16. lia.
  - unfold valid_type in Ht. change OS_OBJECT_ID_RESERVED with 0xFFFFFFFF. lia.
  - intros t' Ht'. unfold OS_ObjectIdToArrayIndex. cbn [negb]. rewrite Htype, Hser.
    destruct (Z.eqb_spec t' OS_OBJECT_TYPE_UNDEFINED); [done|]. cbn [negb andb].
    rewrite (Z.eqb_sym t t'). destruct (Z.eqb_spec t' t) as [->|]; cbn [negb]; [|done].
    pose proof (max_range t Ht). destruct (Z.eqb_spec (OS_GetMaxForObjectType t) 0); [lia|done].
Qed.

Lemma ObjectId_roundtrip_witness :
  OS_ObjectIdToArrayIndex 2 (OS_ObjectIdCompose_Impl 2 0x1234) true = (OS_SUCCESS, Some 52).
Proof.
  destruct (ObjectId_roundtrip 2 0x1234 ltac:(vm_compute; split; congruence)
              ltac:(vm_compute; split; congruence)) as (_ & _ & _ & _ & H).
  rewrite (H 2 ltac:(vm_compute; congruence)). vm_compute. reflexivity.
Defined.

(** An ID that designates record [i] of type [t]. *)
Definition designates (id t i : Z) : Prop :=
  is_u32 id /\ OS_ObjectIdToType_Impl id = t
  /\ OS_ObjectIdToSerialNumber_Impl id mod OS_GetMaxForObjectType t = i.

Lemma designates_valid id t i : valid_type t -> designates id t i -> OS_ObjectIdIsValid id = true.
Proof.
  intros Ht (_ & E & _). unfold OS_ObjectIdIsValid. rewrite E. unfold valid_type in Ht.
  change OS_OBJECT_TYPE_UNDEFINED with 0. change OS_OBJECT_TYPE_USER with 16. lia.
Qed.

Lemma reserved_invalid : OS_ObjectIdIsValid OS_OBJECT_ID_RESERVED = false.
Proof. reflexivity. Qed.

Lemma zero_invalid : OS_ObjectIdIsValid 0 = false.
Proof. reflexivity. Qed.

Lemma designates_index id t i :
  valid_type t -> designates id t i -> OS_ObjectIdToArrayIndex t id true = (OS_SUCCESS, Some i).
Proof.
  intros Ht (_ & E & Ei). unfold OS_ObjectIdToArrayIndex. rewrite E, Ei, Z.eqb_refl.
  pose proof (max_range t Ht). rewrite andb_false_r.
  destruct (Z.eqb_spec (OS_GetMaxForObjectType t) 0); [lia|done].
Qed.

(** Conversely the index computed by the code is the designated one. *)
Lemma index_designates id t i :
  valid_type t -> is_u32 id -> OS_ObjectIdToArrayIndex t id true = (OS_SUCCESS, Some i) ->
  designates id t i /\ in_type t i.
Proof.
  intros Ht Hu. unfold OS_ObjectIdToArrayIndex. cbn [negb].
  destruct (Z.eqb_spec t OS_OBJECT_TYPE_UNDEFINED) as [E0|_].
  { unfold valid_type in Ht. change OS_OBJECT_TYPE_UNDEFINED with 0 in E0. lia. }
  cbn [negb andb]. intros H. repeat (case_test_in H; simplify_eq).
  assert (Et : OS_ObjectIdToType_Impl id = t) by (destruct (Z.eqb_spec (OS_ObjectIdToType_Impl id) t); done).
  rewrite Et. split; [done|]. split; [done|]. apply Z.mod_pos_bound. by apply max_range.
Qed.

(** ** Effects of the operations

    Lengths of the tables, which every operation keeps. *)
Record sized (s : osal) : Prop := {
  sized_table : zlen (OS_common_table s) = OS_MAX_TOTAL_RECORDS;
  sized_types : zlen (OS_objtype_table s) = OS_OBJECT_TYPE_USER;
  sized_mutex : zlen (table_mutex s) = OS_OBJECT_TYPE_USER
}.

(** A state seen without its per-type bookkeeping: table, mutexes, block flag,
    global state and notifications. *)
Definition view (s : osal) := (OS_common_table s, table_mutex s, blocked s, GlobalState s, notified s).

Lemma mode_is_true m m' : mode_is m m' = true <-> m = m'.
Proof. apply bool_decide_eq_true. Qed.
Lemma mode_is_refl m : mode_is m m = true.
Proof. by apply mode_is_true. Qed.
Lemma mode_is_false m m' : m <> m' -> mode_is m m' = false.
Proof. intros. by apply bool_decide_eq_false. Qed.

#[export] Hint Rewrite mode_is_refl : cfe.

Lemma type_lt_user t : valid_type t -> (t <? OS_OBJECT_TYPE_USER) = true.
Proof. unfold valid_type. change OS_OBJECT_TYPE_USER with 16. lia. Qed.

Lemma valid_type_mutex t s : sized s -> valid_type t -> 0 <= t < zlen (table_mutex s).
Proof. intros [_ _ ->] Ht. unfold valid_type in Ht. change OS_OBJECT_TYPE_USER with 16. lia. Qed.

Section effects.
Context (P : Platform).

Lemma Lock_Global_eff tok s :
  valid_type (obj_type tok) -> lock_mode tok <> OS_LOCK_MODE_NONE ->
  exists k s', OS_Lock_Global P tok s = (set_lock_key tok k, s')
    /\ view s' = (OS_common_table s, zset (table_mutex s) (obj_type tok) true,
                  blocked s || zget (table_mutex s) (obj_type tok), GlobalState s, notified s)
    /\ zlen (OS_objtype_table s') = zlen (OS_objtype_table s).
Proof.
  intros Ht Hm. unfold OS_Lock_Global.
  rewrite type_lt_user, mode_is_false by done. cbn [negb andb].
  eexists _, _. split; [reflexivity|]. split; [reflexivity|]. cbn. by autorewrite with cfe.
Qed.

Lemma Unlock_Global_eff tok s :
  valid_type (obj_type tok) -> lock_mode tok <> OS_LOCK_MODE_NONE ->
  exists s', OS_Unlock_Global tok s = (set_lock_key tok OS_LOCK_KEY_INVALID, s')
    /\ view s' = (OS_common_table s, zset (table_mutex s) (obj_type tok) false,
                  blocked s, GlobalState s, notified s)
    /\ zlen (OS_objtype_table s') = zlen (OS_objtype_table s).
Proof.
  intros Ht Hm. unfold OS_Unlock_Global.
  rewrite type_lt_user, mode_is_false by done. cbn [negb andb].
  eexists _. split; [reflexivity|]. split; [reflexivity|]. cbn. by autorewrite with cfe.
Qed.

Lemma TransactionInit_eff mode t s :
  valid_type t -> GlobalState s = OS_INIT_MAGIC_NUMBER ->
  exists k s', OS_ObjectIdTransactionInit P mode t s
               = (OS_SUCCESS, mk_token mode k t (u32 (-1)) 0, s')
    /\ view s' = (OS_common_table s,
                  if mode_is mode OS_LOCK_MODE_NONE then table_mutex s
                  else zset (table_mutex s) t true,
                  if mode_is mode OS_LOCK_MODE_NONE then blocked s
                  else blocked s || zget (table_mutex s) t, GlobalState s, notified s)
    /\ zlen (OS_objtype_table s') = zlen (OS_objtype_table s).
Proof.
  intros Ht Hg. unfold OS_ObjectIdTransactionInit. rewrite Hg.
  pose proof (max_range t Ht).
  destruct (Z.eqb_spec (OS_GetMaxForObjectType t) 0); [lia|]. cbn [negb andb Z.eqb].
  change (OS_INIT_MAGIC_NUMBER =? OS_INIT_MAGIC_NUMBER) with true.
  change (OS_INIT_MAGIC_NUMBER =? OS_SHUTDOWN_MAGIC_NUMBER) with false. cbn [negb andb].
  destruct (mode_is mode OS_LOCK_MODE_NONE) eqn:Em.
  - eexists _, _. split; [reflexivity|]. split; [by rewrite <- Hg|done].
  - destruct (Lock_Global_eff (mk_token mode 0 t (u32 (-1)) 0) s) as (k & s' & -> & Hv & Hl).
    { done. } { cbn. intros ->. by rewrite mode_is_refl in Em. }
    exists k, s'. split; [reflexivity|]. rewrite <- Hg. done.
Qed.

Lemma Cancel_eff tok s :
  valid_type (obj_type tok) -> lock_mode tok <> OS_LOCK_MODE_NONE ->
  exists s', OS_ObjectIdTransactionCancel tok s
             = (set_lock_mode (set_lock_key tok OS_LOCK_KEY_INVALID) OS_LOCK_MODE_NONE, s')
    /\ view s' = (OS_common_table s, zset (table_mutex s) (obj_type tok) false,
                  blocked s, GlobalState s, notified s)
    /\ zlen (OS_objtype_table s') = zlen (OS_objtype_table s).
Proof.
  intros Ht Hm. unfold OS_ObjectIdTransactionCancel. rewrite mode_is_false by done.
  destruct (Unlock_Global_eff tok s) as (s' & -> & Hv & Hl); [done..|].
  exists s'. done.
Qed.

(** No other task acts while this one waits. *)
Definition quiet : Prop := forall t a s, OS_WaitForStateChange_Impl P t a s = s.

Lemma WaitForStateChange_quiet tok a s : quiet -> OS_WaitForStateChange P tok a s = s.
Proof.
  intros Hq. unfold OS_WaitForStateChange. rewrite Hq.
  destruct s as [ct ot g m b n]. unfold set_objtypes. cbn. f_equal.
  unfold zset, zget. destruct (decide (Z.to_nat (obj_type tok) < length ot)%nat).
  - rewrite list_lookup_total_insert_eq by done. cbn. rewrite list_insert_insert_eq.
    apply list_insert_id. rewrite list_lookup_lookup_total_lt by done.
    by destruct (ot !!! Z.to_nat (obj_type tok)).
  - by rewrite !list_insert_ge by (rewrite ?length_insert; lia).
Qed.

Lemma record_put s i r : 0 <= i < zlen (OS_common_table s) -> record_of (put_record s i r) i = r.
Proof. intros. by apply zget_zset_eq. Qed.

Lemma put_put s i r r' : put_record (put_record s i r) i r' = put_record s i r'.
Proof. unfold put_record, set_table. cbn. by rewrite zset_zset. Qed.

Lemma put_same s i : 0 <= i < zlen (OS_common_table s) -> put_record s i (record_of s i) = s.
Proof.
  intros. unfold put_record, record_of, set_table. rewrite zset_zget by done. by destruct s.
Qed.

(** *** The conversion loop

    [wants tok r]: the record carries the ID the token expects. *)
Definition expected_of (tok : OS_object_token) : Z :=
  if mode_is (lock_mode tok) OS_LOCK_MODE_RESERVED then OS_OBJECT_ID_RESERVED else obj_id tok.

(** One turn of the loop, with [S n] attempts left. *)
Lemma loop_turn tok n expected s :
  ConvertToken_loop P tok (S n) expected s =
  let obj := OS_ObjectIdGlobalFromToken tok in
  let retry expected s :=
    match n with
    | O => (OS_ERR_OBJECT_IN_USE, expected, s)
    | S _ => ConvertToken_loop P tok n expected
               (OS_WaitForStateChange P tok (5 - Z.of_nat n) s)
    end in
  if active_id (record_of s obj) =? expected then
    if mode_is (lock_mode tok) OS_LOCK_MODE_EXCLUSIVE then
      let '(expected, s) :=
        if negb (expected =? OS_OBJECT_ID_RESERVED)
        then (OS_OBJECT_ID_RESERVED,
              put_record s obj (set_active_id (record_of s obj) OS_OBJECT_ID_RESERVED))
        else (expected, s) in
      if refcount (record_of s obj) =? 0 then (OS_SUCCESS, expected, s) else retry expected s
    else (OS_SUCCESS, expected, s)
  else if mode_is (lock_mode tok) OS_LOCK_MODE_NONE
          || negb (active_id (record_of s obj) =? OS_OBJECT_ID_RESERVED)
  then (OS_ERR_INVALID_ID, expected, s)
  else retry expected s.
Proof. destruct n; reflexivity. Qed.

Lemma loop_match tok n s :
  let r := record_of s (OS_ObjectIdGlobalFromToken tok) in
  active_id r = expected_of tok -> lock_mode tok <> OS_LOCK_MODE_EXCLUSIVE ->
  ConvertToken_loop P tok (S n) (expected_of tok) s = (OS_SUCCESS, expected_of tok, s).
Proof.
  cbn zeta. intros E Hm. rewrite loop_turn; cbv zeta. rewrite E.
  by rewrite Z.eqb_refl, mode_is_false.
Qed.

Lemma loop_mismatch tok n expected s :
  let r := record_of s (OS_ObjectIdGlobalFromToken tok) in
  active_id r <> expected ->
  lock_mode tok = OS_LOCK_MODE_NONE \/ active_id r <> OS_OBJECT_ID_RESERVED ->
  ConvertToken_loop P tok (S n) expected s = (OS_ERR_INVALID_ID, expected, s).
Proof.
  cbn zeta. intros E Hor. rewrite loop_turn; cbv zeta.
  destruct (Z.eqb_spec (active_id (record_of s (OS_ObjectIdGlobalFromToken tok))) expected); [done|].
  destruct Hor as [->|Hne]; [by rewrite mode_is_refl|].
  destruct (Z.eqb_spec (active_id (record_of s (OS_ObjectIdGlobalFromToken tok)))
              OS_OBJECT_ID_RESERVED); [done|]. by rewrite orb_true_r.
Qed.

Lemma loop_reserved_busy tok n expected s :
  quiet ->
  let r := record_of s (OS_ObjectIdGlobalFromToken tok) in
  active_id r = OS_OBJECT_ID_RESERVED -> expected <> OS_OBJECT_ID_RESERVED ->
  lock_mode tok <> OS_LOCK_MODE_NONE ->
  ConvertToken_loop P tok (S n) expected s = (OS_ERR_OBJECT_IN_USE, expected, s).
Proof.
  intros Hq. cbn zeta. intros E He Hm. induction n as [|n IH].
  all: rewrite loop_turn; cbv zeta;  rewrite E;
    destruct (Z.eqb_spec OS_OBJECT_ID_RESERVED expected); [congruence|];
    rewrite Z.eqb_refl, mode_is_false by done; cbn [negb orb].
  - done.
  - rewrite WaitForStateChange_quiet by done. apply IH.
Qed.

Lemma loop_exclusive_wait tok n s :
  quiet -> lock_mode tok = OS_LOCK_MODE_EXCLUSIVE ->
  let r := record_of s (OS_ObjectIdGlobalFromToken tok) in
  active_id r = OS_OBJECT_ID_RESERVED -> refcount r <> 0 ->
  ConvertToken_loop P tok (S n) OS_OBJECT_ID_RESERVED s
  = (OS_ERR_OBJECT_IN_USE, OS_OBJECT_ID_RESERVED, s).
Proof.
  intros Hq Hm. cbn zeta. intros E Hr. induction n as [|n IH].
  all: rewrite loop_turn; cbv zeta; rewrite E, Hm, mode_is_refl;
    rewrite Z.eqb_refl; cbn [negb]; destruct (Z.eqb_spec
      (refcount (record_of s (OS_ObjectIdGlobalFromToken tok))) 0); [done|].
  - done.
  - rewrite WaitForStateChange_quiet by done. apply IH.
Qed.

(** *** Looking up an object by ID

    The outcome as a function of the lock mode, the ID and the record it
    designates: status, record left in the table, table mutex left held. *)
Definition get_outcome (mode : OS_lock_mode) (id : Z) (r : OS_common_record)
  : Z * OS_common_record * bool :=
  let used r := set_refcount r (u16 (refcount r + 1)) in
  match mode with
  | OS_LOCK_MODE_NONE =>
      if active_id r =? id then (OS_SUCCESS, r, false) else (OS_ERR_INVALID_ID, r, false)
  | OS_LOCK_MODE_RESERVED =>
      if active_id r =? OS_OBJECT_ID_RESERVED then (OS_SUCCESS, used r, true)
      else (OS_ERR_INVALID_ID, r, false)
  | _ =>
      if active_id r =? OS_OBJECT_ID_RESERVED then (OS_ERR_OBJECT_IN_USE, r, false)
      else if negb (active_id r =? id) then (OS_ERR_INVALID_ID, r, false)
      else match mode with
           | OS_LOCK_MODE_GLOBAL => (OS_SUCCESS, used r, true)
           | OS_LOCK_MODE_REFCOUNT => (OS_SUCCESS, used r, false)
           | _ => if refcount r =? 0
                  then (OS_SUCCESS, used (set_active_id r OS_OBJECT_ID_RESERVED), false)
                  else (OS_ERR_OBJECT_IN_USE, r, false)
           end
  end.

(** [OS_ObjectIdConvertToken] before the final unlock: status, record, and
    whether the table lock is given back. *)
Definition convert_outcome (tok : OS_object_token) (s : osal) : Z * OS_common_record :=
  let '(rc, r, _) := get_outcome (lock_mode tok) (obj_id tok)
                       (record_of s (OS_ObjectIdGlobalFromToken tok)) in (rc, r).

Section convert.
Variables (tok : OS_object_token) (s : osal).
#[local] Abbreviation obj := (OS_ObjectIdGlobalFromToken tok).
Hypothesis Hq : quiet.
Hypothesis Hv : OS_ObjectIdIsValid (obj_id tok) = true.
Hypothesis Hi : 0 <= obj < zlen (OS_common_table s).

(** The conversion returns [rc] and leaves [r'], and gives the table lock
    back on success in the two modes that do not keep it. *)
Definition converts (rc : Z) (r' : OS_common_record) : Prop :=
  OS_ObjectIdConvertToken P tok s =
  let s1 := put_record s obj r' in
  if (rc =? OS_SUCCESS) && (mode_is (lock_mode tok) OS_LOCK_MODE_REFCOUNT
                            || mode_is (lock_mode tok) OS_LOCK_MODE_EXCLUSIVE)
  then (rc, fst (OS_Unlock_Global tok s1), snd (OS_Unlock_Global tok s1))
  else (rc, tok, s1).

Lemma token_not_reserved : obj_id tok <> OS_OBJECT_ID_RESERVED.
Proof using Hv. intros E. rewrite E in Hv. by rewrite reserved_invalid in Hv. Qed.

(** A failure that leaves the loop with the record as it was. *)
Lemma converts_failure rc expected :
  ConvertToken_loop P tok 5 (expected_of tok) s = (rc, expected, s) -> rc <> OS_SUCCESS ->
  lock_mode tok <> OS_LOCK_MODE_EXCLUSIVE \/ expected <> OS_OBJECT_ID_RESERVED ->
  converts rc (record_of s obj).
Proof using Hv Hi.
  intros Hl Hrc Hor. unfold converts, OS_ObjectIdConvertToken. rewrite Hv. cbn [negb].
  fold (expected_of tok). rewrite Hl, put_same by done.
  destruct (Z.eqb_spec rc OS_SUCCESS); [done|]. cbn [andb].
  destruct (mode_is (lock_mode tok) OS_LOCK_MODE_NONE); [done|].
  destruct Hor as [Hm|He]; [by rewrite mode_is_false|].
  unfold OS_ObjectIdEqual. destruct (Z.eqb_spec expected OS_OBJECT_ID_RESERVED); [done|].
  by rewrite andb_false_r.
Qed.

(** A success at the first turn, outside EXCLUSIVE mode. *)
Lemma converts_match :
  active_id (record_of s obj) = expected_of tok ->
  lock_mode tok <> OS_LOCK_MODE_EXCLUSIVE ->
  converts OS_SUCCESS
    (if mode_is (lock_mode tok) OS_LOCK_MODE_NONE then record_of s obj
     else set_refcount (record_of s obj) (u16 (refcount (record_of s obj) + 1))).
Proof using Hv Hi.
  intros Ha Hm. unfold converts, OS_ObjectIdConvertToken. rewrite Hv. cbn [negb].
  fold (expected_of tok). rewrite (loop_match tok 4 s Ha Hm).
  destruct (lock_mode tok); try done; cbn; [by rewrite put_same|].
  by destruct (OS_Unlock_Global tok _).
Qed.

Lemma converts_shared :
  lock_mode tok = OS_LOCK_MODE_GLOBAL \/ lock_mode tok = OS_LOCK_MODE_REFCOUNT ->
  let '(rc, r') := convert_outcome tok s in converts rc r'.
Proof using Hq Hv Hi.
  intros Hm. pose proof token_not_reserved as Hnr.
  assert (Hn : mode_is (lock_mode tok) OS_LOCK_MODE_NONE = false) by (by destruct Hm as [->| ->]).
  assert (He : expected_of tok = obj_id tok) by (unfold expected_of; by destruct Hm as [->| ->]).
  assert (Hx : lock_mode tok <> OS_LOCK_MODE_EXCLUSIVE) by (by destruct Hm as [->| ->]).
  pose proof converts_match as Hmatch. rewrite Hn, He in Hmatch.
  assert (Ho : convert_outcome tok s =
    if active_id (record_of s obj) =? OS_OBJECT_ID_RESERVED then (OS_ERR_OBJECT_IN_USE, record_of s obj)
    else if active_id (record_of s obj) =? obj_id tok
    then (OS_SUCCESS, set_refcount (record_of s obj) (u16 (refcount (record_of s obj) + 1)))
    else (OS_ERR_INVALID_ID, record_of s obj)).
  { unfold convert_outcome, get_outcome. destruct Hm as [->| ->]; repeat case_test; done. }
  rewrite Ho. destruct (Z.eqb_spec (active_id (record_of s obj)) OS_OBJECT_ID_RESERVED) as [Er|Er].
  - eapply converts_failure; [|done|by left]. apply loop_reserved_busy; try done.
    + by rewrite He.
    + by destruct Hm as [->| ->].
  - destruct (Z.eqb_spec (active_id (record_of s obj)) (obj_id tok)) as [Ea|Ea]; [by apply Hmatch|].
    eapply converts_failure; [|done|by left]. apply loop_mismatch; [by rewrite He|by right].
Qed.

Lemma converts_exclusive :
  lock_mode tok = OS_LOCK_MODE_EXCLUSIVE ->
  let '(rc, r') := convert_outcome tok s in converts rc r'.
Proof using Hq Hv Hi.
  intros Em. pose proof token_not_reserved as Hnr.
  assert (He : expected_of tok = obj_id tok) by (unfold expected_of; by rewrite Em).
  unfold convert_outcome. rewrite Em. cbn [get_outcome].
  destruct (Z.eqb_spec (active_id (record_of s obj)) OS_OBJECT_ID_RESERVED) as [Er|Er].
  { apply converts_failure with (obj_id tok); [|done|by right].
    rewrite He. apply loop_reserved_busy; try done. by rewrite Em. }
  destruct (Z.eqb_spec (active_id (record_of s obj)) (obj_id tok)) as [Ea|Ea]; cbn [negb].
  2:{ apply converts_failure with (obj_id tok); [|done|by right].
      rewrite He. apply loop_mismatch; [done|by right]. }
  assert (Hturn : ConvertToken_loop P tok 5 (obj_id tok) s =
    let s1 := put_record s obj (set_active_id (record_of s obj) OS_OBJECT_ID_RESERVED) in
    (if refcount (record_of s obj) =? 0 then OS_SUCCESS else OS_ERR_OBJECT_IN_USE,
     OS_OBJECT_ID_RESERVED, s1)).
  { rewrite loop_turn. cbv zeta. rewrite Ea, Z.eqb_refl, Em, mode_is_refl.
    destruct (Z.eqb_spec (obj_id tok) OS_OBJECT_ID_RESERVED); [done|]. cbn [negb].
    rewrite record_put by done. cbn [refcount set_active_id].
    destruct (Z.eqb_spec (refcount (record_of s obj)) 0); [done|].
    rewrite WaitForStateChange_quiet by done.
    apply loop_exclusive_wait; try done; by rewrite record_put. }
  unfold converts, OS_ObjectIdConvertToken. rewrite Hv. cbn [negb]. fold (expected_of tok).
  rewrite He, Hturn, Em. cbv zeta. change (mode_is OS_LOCK_MODE_EXCLUSIVE OS_LOCK_MODE_EXCLUSIVE) with true.
  change (mode_is OS_LOCK_MODE_EXCLUSIVE OS_LOCK_MODE_NONE) with false. rewrite !orb_true_r.
  destruct (Z.eqb_spec (refcount (record_of s obj)) 0); cbn - [put_record record_of set_active_id set_refcount];
    rewrite put_put, record_put by done; [by destruct (OS_Unlock_Global tok _)|].
  do 2 f_equal. rewrite <- Ea. by destruct (record_of s obj).
Qed.

Lemma ConvertToken_eff : let '(rc, r') := convert_outcome tok s in converts rc r'.
Proof using Hq Hv Hi.
  destruct (lock_mode tok) eqn:Em;
    [|by apply converts_shared; auto|by apply converts_shared; auto|by apply converts_exclusive|];
    unfold convert_outcome; rewrite Em; cbn [get_outcome];
    pose proof converts_match as Hmatch; unfold expected_of in Hmatch; rewrite Em in Hmatch;
    case_test; try (by apply Hmatch);
    (eapply converts_failure; [|done|left; by rewrite Em]; apply loop_mismatch);
    unfold expected_of; rewrite ?Em; auto.
Qed.
End convert.
End effects.

(** [s'] differs from [s] only in record [i], in the mutex of [t] and in the
    bookkeeping of the owner key. *)
Record changes (s : osal) (t i : Z) (r : OS_common_record) (held : bool) (s' : osal) : Prop := {
  ch_table : OS_common_table s' = zset (OS_common_table s) (slot t i) r;
  ch_mutex : table_mutex s' = zset (table_mutex s) t held;
  ch_blocked : blocked s' = blocked s;
  ch_state : GlobalState s' = GlobalState s;
  ch_notified : notified s' = notified s;
  ch_sized : sized s -> sized s'
}.

Lemma view_changes s t i r held s' :
  view s' = (zset (OS_common_table s) (slot t i) r, zset (table_mutex s) t held, blocked s,
             GlobalState s, notified s) ->
  zlen (OS_objtype_table s') = zlen (OS_objtype_table s) -> changes s t i r held s'.
Proof.
  unfold view. intros Hv Hl. injection Hv as E1 E2 E3 E4 E5. constructor; try done.
  intros [H1 H2 H3]. constructor; [rewrite E1, zlen_zset|rewrite Hl|rewrite E2, zlen_zset]; done.
Qed.

(** [s'] differs from [s] only in the bookkeeping of the owner key. *)
Record untouched (s s' : osal) : Prop := {
  un_table : OS_common_table s' = OS_common_table s;
  un_mutex : table_mutex s' = table_mutex s;
  un_blocked : blocked s' = blocked s;
  un_state : GlobalState s' = GlobalState s;
  un_notified : notified s' = notified s;
  un_sized : sized s -> sized s'
}.

Lemma view_untouched s s' :
  view s' = view s -> zlen (OS_objtype_table s') = zlen (OS_objtype_table s) -> untouched s s'.
Proof.
  unfold view. intros Hv Hl. injection Hv as E1 E2 E3 E4 E5. constructor; try done.
  intros [H1 H2 H3]. constructor; congruence.
Qed.

Lemma token_slot tok t i :
  in_type t i -> obj_type tok = t -> obj_idx tok = i ->
  OS_ObjectIdGlobalFromToken tok = slot t i.
Proof.
  intros Hin <- <-. unfold OS_ObjectIdGlobalFromToken. pose proof (slot_range _ _ Hin) as Hs.
  apply u32_id. unfold slot in *. assert (OS_MAX_TOTAL_RECORDS = 292) by reflexivity. range.
Qed.

Lemma slot_in_table s t i :
  sized s -> in_type t i -> 0 <= slot t i < zlen (OS_common_table s).
Proof. intros [-> _ _]. apply slot_range. Qed.

(** How a token is left: armed for [mode] on success, disarmed on failure. *)
Definition token_left (rc : Z) (mode : OS_lock_mode) (t i id : Z) (tok : OS_object_token) : Prop :=
  if rc =? OS_SUCCESS
  then lock_mode tok = mode /\ obj_type tok = t /\ obj_idx tok = i /\ obj_id tok = id
  else lock_mode tok = OS_LOCK_MODE_NONE.

Lemma get_outcome_failure mode id r rc r' held :
  get_outcome mode id r = (rc, r', held) -> rc <> OS_SUCCESS -> r' = r /\ held = false.
Proof.
  unfold get_outcome. intros H Hrc. destruct mode; repeat (case_test_in H; simplify_eq); done.
Qed.

Lemma get_outcome_held mode id r r' held :
  get_outcome mode id r = (OS_SUCCESS, r', held) ->
  held = mode_is mode OS_LOCK_MODE_GLOBAL || mode_is mode OS_LOCK_MODE_RESERVED.
Proof. unfold get_outcome. intros H. destruct mode; repeat (case_test_in H; simplify_eq); done. Qed.

Section get_by_id.
Variables (P : Platform) (mode : OS_lock_mode) (t id i : Z) (s : osal).
Hypothesis Hq : quiet P.
Hypothesis Hsz : sized s.
Hypothesis Hg : GlobalState s = OS_INIT_MAGIC_NUMBER.
Hypothesis Ht : valid_type t.
Hypothesis Hu : is_u32 id.
Hypothesis Hfree : zget (table_mutex s) t = false.

(** The state after [OS_ObjectIdTransactionInit]. *)
Definition started (s0 : osal) : Prop :=
  view s0 = (OS_common_table s,
             if mode_is mode OS_LOCK_MODE_NONE then table_mutex s else zset (table_mutex s) t true,
             blocked s, GlobalState s, notified s)
  /\ zlen (OS_objtype_table s0) = zlen (OS_objtype_table s).

Lemma GetById_starts :
  exists k s0, started s0 /\ OS_ObjectIdTransactionInit P mode t s
                             = (OS_SUCCESS, mk_token mode k t (u32 (-1)) 0, s0).
Proof using Hg Ht Hfree.
  destruct (TransactionInit_eff P mode t s Ht Hg) as (k & s0 & Hinit & Hv0 & Hl0).
  exists k, s0. split; [|done]. split; [|done]. rewrite Hv0, Hfree, orb_false_r.
  by destruct (mode_is mode OS_LOCK_MODE_NONE).
Qed.

Lemma started_put s0 r :
  started s0 -> mode <> OS_LOCK_MODE_NONE -> changes s t i r true (put_record s0 (slot t i) r).
Proof using.
  intros [Hv Hl] Hm. rewrite mode_is_false in Hv by done. unfold view in Hv. injection Hv as E1 E2 E3 E4 E5.
  apply view_changes; [|exact Hl]. unfold view. cbn. by rewrite E1, E2, E3, E4, E5.
Qed.

Lemma started_unlock s0 r tok :
  started s0 -> mode <> OS_LOCK_MODE_NONE -> lock_mode tok = mode -> obj_type tok = t ->
  exists s', OS_Unlock_Global tok (put_record s0 (slot t i) r)
             = (set_lock_key tok OS_LOCK_KEY_INVALID, s') /\ changes s t i r false s'.
Proof using Ht.
  intros [Hv Hl] Hm Em Et. rewrite mode_is_false in Hv by done.
  unfold view in Hv. injection Hv as E1 E2 E3 E4 E5.
  destruct (Unlock_Global_eff tok (put_record s0 (slot t i) r)) as (s2 & Hun & Hv2 & Hl2);
    [by rewrite Et|by rewrite Em|].
  exists s2. split; [done|]. apply view_changes; [|by rewrite Hl2, <- Hl].
  rewrite Hv2, Et. cbn. by rewrite E1, E2, zset_zset, E3, E4, E5.
Qed.

Lemma started_none s0 r :
  started s0 -> mode = OS_LOCK_MODE_NONE -> changes s t i r false (put_record s0 (slot t i) r).
Proof using Hsz Ht Hfree.
  intros [Hv Hl] Hm. rewrite Hm in Hv. unfold view in Hv. injection Hv as E1 E2 E3 E4 E5.
  apply view_changes; [|exact Hl]. unfold view. cbn. rewrite E1, E2, E3, E4, E5, <- Hfree, zset_zget; [done|].
  by apply valid_type_mutex.
Qed.

(** The conversion of the token that designates the record. *)
Lemma started_convert s0 k :
  started s0 -> OS_ObjectIdToArrayIndex t id true = (OS_SUCCESS, Some i) ->
  let tok := mk_token mode k t i id in
  let '(rc, r', _) := get_outcome mode id (record_of s (slot t i)) in
  OS_ObjectIdConvertToken P tok s0 =
  let s1 := put_record s0 (slot t i) r' in
  if (rc =? OS_SUCCESS) && (mode_is mode OS_LOCK_MODE_REFCOUNT || mode_is mode OS_LOCK_MODE_EXCLUSIVE)
  then (rc, fst (OS_Unlock_Global tok s1), snd (OS_Unlock_Global tok s1)) else (rc, tok, s1).
Proof using Hq Hsz Ht Hu.
  intros [Hv _] Hidx tok. destruct (index_designates id t i Ht Hu Hidx) as [Hd Hin].
  unfold view in Hv. injection Hv as E1 _ _ _ _.
  assert (Hslot : OS_ObjectIdGlobalFromToken tok = slot t i) by (by apply token_slot).
  pose proof (ConvertToken_eff P tok s0 Hq (designates_valid id t i Ht Hd)) as Hc.
  rewrite Hslot, E1 in Hc. specialize (Hc (slot_in_table s t i Hsz Hin)).
  unfold convert_outcome, converts in Hc. rewrite Hslot in Hc.
  assert (Hr : record_of s0 (slot t i) = record_of s (slot t i)) by (unfold record_of; by rewrite E1).
  rewrite Hr in Hc. cbn [lock_mode obj_id tok] in Hc.
  by destruct (get_outcome mode id (record_of s (slot t i))) as [[rc r'] held].
Qed.

Lemma GetById_eff :
  OS_ObjectIdToArrayIndex t id true = (OS_SUCCESS, Some i) ->
  let '(rc, r', held) := get_outcome mode id (record_of s (slot t i)) in
  exists tok s', OS_ObjectIdGetById P mode t id s = (rc, tok, s')
    /\ changes s t i r' held s' /\ token_left rc mode t i id tok.
Proof using Hq Hsz Hg Ht Hu Hfree.
  intros Hidx. destruct GetById_starts as (k & s0 & Hs0 & Hinit).
  pose proof (started_convert s0 k Hs0 Hidx) as Hc. unfold OS_ObjectIdGetById.
  rewrite Hinit, Hidx. cbn [negb Z.eqb OS_SUCCESS].
  cbn [set_obj_id set_obj_idx lock_mode lock_key obj_type obj_idx obj_id]. cbn zeta in Hc.
  destruct (get_outcome mode id (record_of s (slot t i))) as [[rc r'] held] eqn:Eo.
  change (set_obj_id _ id) with (mk_token mode k t i id). rewrite Hc. unfold token_left. set (tok := mk_token mode k t i id).
  destruct (decide (mode = OS_LOCK_MODE_NONE)) as [Em|Hm].
  { rewrite Em. cbn. rewrite andb_false_r.
    assert (held = false) as -> by (rewrite Em in Eo; cbn in Eo; case_test_in Eo; by simplify_eq).
    destruct (Z.eqb_spec rc OS_SUCCESS); cbn [negb]; unfold tok; rewrite Em;
      eexists _, _; (split; [reflexivity|]); split; try done; by apply started_none. }
  destruct (started_unlock s0 r' tok Hs0 Hm eq_refl eq_refl) as (s2 & Hun & Hch).
  destruct (Z.eqb_spec rc OS_SUCCESS) as [->|Hrc]; cbn [negb andb].
  - pose proof (get_outcome_held _ _ _ _ _ Eo) as ->.
    assert (Hkeep : mode_is mode OS_LOCK_MODE_REFCOUNT || mode_is mode OS_LOCK_MODE_EXCLUSIVE
      = negb (mode_is mode OS_LOCK_MODE_GLOBAL || mode_is mode OS_LOCK_MODE_RESERVED)).
    { clear - Hm. revert Hm. by case mode. }
    rewrite Hkeep. destruct (_ || _); cbn [negb]; [|by rewrite Hun; eexists _, _].
    eexists _, _. split; [reflexivity|]. split; [by apply started_put|done].
  - destruct (get_outcome_failure _ _ _ _ _ _ Eo Hrc) as [-> ->].
    unfold OS_ObjectIdTransactionCancel. cbn [lock_mode tok].
    rewrite mode_is_false by done. fold tok. rewrite Hun. rewrite (proj2 (Z.eqb_neq rc OS_SUCCESS) Hrc).
    by eexists _, _.
Qed.

Lemma started_cancel s0 tok :
  started s0 -> lock_mode tok = mode -> obj_type tok = t ->
  exists tok' s', OS_ObjectIdTransactionCancel tok s0 = (tok', s')
    /\ untouched s s' /\ lock_mode tok' = OS_LOCK_MODE_NONE.
Proof using Hsz Ht Hfree.
  intros [Hv Hl] Em Et. destruct (decide (mode = OS_LOCK_MODE_NONE)) as [E|Hm].
  - unfold OS_ObjectIdTransactionCancel. rewrite Em, E in *. rewrite mode_is_refl in *.
    eexists _, _. split; [reflexivity|]. split; [by apply view_untouched|done].
  - rewrite mode_is_false in Hv by done. unfold view in Hv. injection Hv as E1 E2 E3 E4 E5.
    destruct (Cancel_eff tok s0) as (s1 & -> & Hv1 & Hl1); [by rewrite Et|by rewrite Em|].
    eexists _, _. split; [reflexivity|]. split; [|done]. apply view_untouched; [|congruence].
    rewrite Hv1, Et, E1, E2, E3, E4, E5, zset_zset, <- Hfree, zset_zget; [done|].
    by apply valid_type_mutex.
Qed.

(** An ID of another type, or of none, fails without touching anything. *)
Lemma GetById_no_index rc :
  OS_ObjectIdToArrayIndex t id true = (rc, None) ->
  exists tok s', OS_ObjectIdGetById P mode t id s = (OS_ERR_INVALID_ID, tok, s')
    /\ untouched s s' /\ lock_mode tok = OS_LOCK_MODE_NONE.
Proof using Hsz Hg Ht Hfree.
  intros Hidx. destruct GetById_starts as (k & s0 & Hs0 & Hinit).
  assert (rc = OS_ERR_INVALID_ID) as ->.
  { unfold OS_ObjectIdToArrayIndex in Hidx. cbn in Hidx. repeat (case_test_in Hidx; simplify_eq); done. }
  unfold OS_ObjectIdGetById. rewrite Hinit, Hidx. cbn [negb Z.eqb OS_SUCCESS].
  change (negb (OS_ERR_INVALID_ID =? OS_SUCCESS)) with true. cbn iota.
  destruct (started_cancel s0 (mk_token mode k t (u32 (-1)) 0) Hs0) as (tok' & s' & -> & Hs' & Hm'); [done..|].
  by eexists _, _.
Qed.
End get_by_id.

(** The table designated by a token, for tokens that name an existing record. *)
Definition token_ok (tok : OS_object_token) : Prop := in_type (obj_type tok) (obj_idx tok).
Definition tslot (tok : OS_object_token) : Z := slot (obj_type tok) (obj_idx tok).

(** *** Ending a transaction *)

(** The record after the end of a transaction; [final_id] as in
    [OS_ObjectIdTransactionFinish]. *)
Definition finish_outcome (mode : OS_lock_mode) (id : Z) (final_id : option Z)
  (r : OS_common_record) : OS_common_record :=
  mk_record (name_entry r)
    (match final_id with
     | Some f => f
     | None => if mode_is mode OS_LOCK_MODE_EXCLUSIVE then id else active_id r
     end)
    (creator r) (if 0 <? refcount r then refcount r - 1 else refcount r).

Lemma TransactionFinish_eff P tok final s :
  sized s -> token_ok tok -> lock_mode tok <> OS_LOCK_MODE_NONE ->
  (mode_is (lock_mode tok) OS_LOCK_MODE_EXCLUSIVE || mode_is (lock_mode tok) OS_LOCK_MODE_REFCOUNT
     = true -> zget (table_mutex s) (obj_type tok) = false) ->
  exists tok' s', OS_ObjectIdTransactionFinish P tok final s = (tok', s')
    /\ changes s (obj_type tok) (obj_idx tok)
         (finish_outcome (lock_mode tok) (obj_id tok) final (record_of s (tslot tok))) false s'
    /\ lock_mode tok' = OS_LOCK_MODE_NONE /\ obj_id tok' = obj_id tok.
Proof.
  intros Hsz Hin Hm Hfree. destruct Hin as [Ht Hi].
  unfold OS_ObjectIdTransactionFinish. rewrite mode_is_false by done.
  rewrite (token_slot tok _ _ (conj Ht Hi) eq_refl eq_refl). fold (tslot tok).
  set (rel := mode_is (lock_mode tok) OS_LOCK_MODE_EXCLUSIVE || mode_is (lock_mode tok) OS_LOCK_MODE_REFCOUNT) in *.
  assert (Hlock : exists tok1 s1, (if rel then OS_Lock_Global P tok s else (tok, s)) = (tok1, s1)
    /\ lock_mode tok1 = lock_mode tok /\ obj_type tok1 = obj_type tok /\ obj_id tok1 = obj_id tok
    /\ OS_common_table s1 = OS_common_table s /\ blocked s1 = blocked s /\ GlobalState s1 = GlobalState s
    /\ notified s1 = notified s /\ zlen (OS_objtype_table s1) = zlen (OS_objtype_table s)
    /\ forall b, zset (table_mutex s1) (obj_type tok) b = zset (table_mutex s) (obj_type tok) b).
  { destruct rel; [|by eexists _, _].
    destruct (Lock_Global_eff P tok s Ht Hm) as (k & s1 & -> & Hv & Hl).
    unfold view in Hv. injection Hv as E1 E2 E3 E4 E5. rewrite Hfree, orb_false_r in E3 by done.
    eexists _, _. split_and!; try reflexivity; try done. intros b. by rewrite E2, zset_zset. }
  destruct Hlock as (tok1 & s1 & -> & Em & Et & Eid & E1 & E2 & E3 & E4 & E5 & E6).
  destruct (Unlock_Global_eff tok1 (put_record s1 (tslot tok)
     (finish_outcome (lock_mode tok) (obj_id tok) final (record_of s (tslot tok)))))
    as (s2 & Hun & Hv2 & Hl2); [by rewrite Et|by rewrite Em|].
  replace (record_of s1 (tslot tok)) with (record_of s (tslot tok)) by (unfold record_of; by rewrite E1).
  match goal with |- context [OS_Unlock_Global tok1 (put_record s1 _ ?r)] =>
    replace r with (finish_outcome (lock_mode tok) (obj_id tok) final (record_of s (tslot tok))) end.
  2:{ rewrite Em, Eid. unfold finish_outcome.
      destruct (0 <? refcount (record_of s (tslot tok))), final; cbn; try done;
      destruct (mode_is (lock_mode tok) OS_LOCK_MODE_EXCLUSIVE); cbn; try done;
      by destruct (record_of s (tslot tok)). }
  rewrite Hun. eexists _, _. split_and!; [reflexivity| |done|done].
  apply view_changes; [|by rewrite Hl2, <- E5]. rewrite Hv2. cbn.
  by rewrite Et, E1, E2, E3, E4, E6.
Qed.

(** *** Searches *)

Section search.
Variables (P : Platform) (s : osal) (t : Z).
Hypothesis Ht : valid_type t.

Definition defined_at (i : Z) : bool := OS_ObjectIdDefined (active_id (record_of s (slot t i))).

(** Matching does not look at the search position. *)
Definition matches (m : OS_common_record -> bool) (i : Z) : bool :=
  defined_at i && m (record_of s (slot t i)).

Lemma FindNextMatch_loop_spec m fuel tok :
  0 <= u32 (obj_idx tok + 1) <= OS_GetMaxForObjectType t ->
  OS_GetMaxForObjectType t - u32 (obj_idx tok + 1) < Z.of_nat fuel ->
  let '(rc, tok') := FindNextMatch_loop (fun _ => m) (OS_GetBaseForObjectType t)
                       (OS_GetMaxForObjectType t) fuel tok s in
  lock_mode tok' = lock_mode tok /\ lock_key tok' = lock_key tok /\ obj_type tok' = obj_type tok
  /\ ((rc = OS_SUCCESS /\ u32 (obj_idx tok + 1) <= obj_idx tok' < OS_GetMaxForObjectType t
       /\ matches m (obj_idx tok') = true
       /\ obj_id tok' = active_id (record_of s (slot t (obj_idx tok')))
       /\ forall j, u32 (obj_idx tok + 1) <= j < obj_idx tok' -> matches m j = false)
      \/ (rc = OS_ERR_NAME_NOT_FOUND
          /\ forall j, u32 (obj_idx tok + 1) <= j < OS_GetMaxForObjectType t -> matches m j = false)).
Proof using Ht.
  revert tok. pose proof (max_range t Ht) as Hmax. change OS_OBJECT_INDEX_MASK with 65535 in Hmax.
  induction fuel as [|fuel IH]; intros tok Hi Hf; [lia|].
  cbn [FindNextMatch_loop]. set (i := u32 (obj_idx tok + 1)) in *. cbn [obj_idx set_obj_idx].
  destruct (Z.leb_spec (OS_GetMaxForObjectType t) i).
  { split_and!; try done. right. split; [done|]. intros. lia. }
  fold (slot t i). fold (defined_at i). fold (matches m i).
  destruct (matches m i) eqn:Em.
  { split_and!; try done. left. split_and!; try done; cbn; lia. }
  specialize (IH (set_obj_idx tok i)). cbn [obj_idx set_obj_idx lock_mode lock_key obj_type] in IH.
  rewrite (u32_id (i + 1)) in IH by range. specialize (IH ltac:(lia) ltac:(lia)).
  destruct (FindNextMatch_loop _ _ _ _ _ _) as [rc tok']. destruct IH as (H1 & H2 & H3 & H4).
  split_and!; try done. destruct H4 as [(-> & Hr & Hmm & Hid & Hb)|(-> & Hb)]; [left|right].
  - split_and!; try done; try lia. intros j Hj. destruct (decide (j = i)) as [->|]; [done|].
    apply Hb. lia.
  - split; [done|]. intros j Hj. destruct (decide (j = i)) as [->|]; [done|]. apply Hb. lia.
Qed.

(** The free-slot search is the circular scan over the records of the type. *)
Lemma FindNextFree_loop_scan n serial :
  0 <= serial <= OS_OBJECT_INDEX_MASK ->
  FindNextFree_loop s (OS_GetBaseForObjectType t) (OS_GetMaxForObjectType t) n serial
  = scan OS_OBJECT_INDEX_MASK (OS_GetMaxForObjectType t) defined_at n serial.
Proof using Ht.
  revert serial. pose proof (max_range t Ht) as Hmax. change OS_OBJECT_INDEX_MASK with 65535 in *.
  induction n as [|n IH]; intros serial Hs; [done|].
  destruct (next_serial_spec 65535 (OS_GetMaxForObjectType t) ltac:(lia) serial Hs) as (Hr & _ & Hm).
  cbn [FindNextFree_loop scan]. rewrite u32_id by range. change OS_OBJECT_INDEX_MASK with 65535.
  fold (next_serial 65535 (OS_GetMaxForObjectType t) serial).
  rewrite Hm, Z.add_comm. fold (slot t ((serial + 1) mod OS_GetMaxForObjectType t)).
  fold (defined_at ((serial + 1) mod OS_GetMaxForObjectType t)).
  destruct (defined_at _); cbn [negb]; [by apply IH|done].
Qed.
End search.

(** *** Allocation *)

(** A record of type [t] other than undefined carries this name. *)
Definition name_used (s : osal) (t : Z) (name : option string) : Prop :=
  exists n i r, name = Some n /\ in_type t i /\ r = record_of s (slot t i)
                /\ active_id r <> 0 /\ name_entry r = Some n.

Definition table_full (s : osal) (t : Z) : Prop :=
  forall i, in_type t i -> active_id (record_of s (slot t i)) <> 0.

Lemma defined_at_true s t i : defined_at s t i = true <-> active_id (record_of s (slot t i)) <> 0.
Proof. unfold defined_at, OS_ObjectIdDefined. rewrite negb_true_iff, Z.eqb_neq. done. Qed.

Lemma defined_at_false s t i : defined_at s t i = false <-> active_id (record_of s (slot t i)) = 0.
Proof. unfold defined_at, OS_ObjectIdDefined. rewrite negb_false_iff, Z.eqb_eq. done. Qed.

Lemma defined_at_ext s s' t i :
  OS_common_table s' = OS_common_table s -> defined_at s' t i = defined_at s t i.
Proof. intros E. unfold defined_at, record_of. by rewrite E. Qed.

(** The name check of [OS_ObjectIdAllocateNew]. *)
Definition name_check (name : option string) (tok : OS_object_token) (s : osal)
  : Z * OS_object_token :=
  match name with
  | Some n => OS_ObjectIdFindNextMatch (OS_ObjectNameMatch n) tok s
  | None => (OS_ERR_NAME_NOT_FOUND, tok)
  end.

Lemma name_check_spec name tok s :
  valid_type (obj_type tok) -> obj_idx tok = u32 (-1) ->
  let '(rc, tok') := name_check name tok s in
  lock_mode tok' = lock_mode tok /\ obj_type tok' = obj_type tok
  /\ (rc = OS_SUCCESS <-> name_used s (obj_type tok) name).
Proof.
  intros Ht Hidx. destruct name as [n|]; cbn [name_check].
  2:{ split_and!; try done. split; [done|]. intros (n & i & r & Hn & _). done. }
  unfold OS_ObjectIdFindNextMatch. pose proof (max_range _ Ht) as Hmax.
  pose proof (FindNextMatch_loop_spec s (obj_type tok) Ht
    (fun r => match name_entry r with Some n' => String.eqb n n' | None => false end)
    (S (Z.to_nat (OS_GetMaxForObjectType (obj_type tok)))) (set_obj_id tok OS_OBJECT_ID_UNDEFINED)) as H.
  cbn [obj_idx set_obj_id obj_type lock_mode lock_key] in H. rewrite Hidx in H.
  change (u32 (u32 (-1) + 1)) with 0 in H. specialize (H ltac:(lia) ltac:(lia)).
  cbn [obj_type set_obj_id]. unfold OS_ObjectNameMatch.
  destruct (FindNextMatch_loop _ _ _ _ _ _) as [rc tok'].
  destruct H as (H1 & _ & H3 & H4). split_and!; try done.
  destruct H4 as [(-> & Hi & Hm & _)|(-> & Hno)]; split; try done.
  - intros _. unfold matches in Hm. apply andb_true_iff in Hm as [Hd Hm].
    destruct (name_entry (record_of s (slot (obj_type tok) (obj_idx tok')))) as [n'|] eqn:En; [|done].
    apply String.eqb_eq in Hm as <-. eexists n, (obj_idx tok'), _.
    split_and!; try done; try lia. by apply defined_at_true.
  - intros (n' & i & r & [= <-] & [_ Hi] & -> & Hd & Hn). exfalso.
    specialize (Hno i Hi). unfold matches in Hno. apply andb_false_iff in Hno as [Hno|Hno].
    + by apply defined_at_false in Hno.
    + rewrite Hn, String.eqb_refl in Hno. done.
Qed.

Lemma FindNextFree_spec P tok s :
  sized s -> valid_type (obj_type tok) ->
  match OS_ObjectIdFindNextFree P tok s with
  | (rc, tok', s') =>
      (rc = OS_ERR_NO_FREE_IDS /\ table_full s (obj_type tok) /\ s' = s
       /\ lock_mode tok' = lock_mode tok /\ obj_type tok' = obj_type tok)
      \/ (exists i id, rc = OS_SUCCESS /\ in_type (obj_type tok) i /\ designates id (obj_type tok) i
          /\ active_id (record_of s (slot (obj_type tok) i)) = 0
          /\ tok' = set_obj_id (set_obj_idx tok i) id
          /\ view s' = (zset (OS_common_table s) (slot (obj_type tok) i)
                          (mk_record None id (OS_TaskGetId_Impl P) 0),
                        table_mutex s, blocked s, GlobalState s, notified s)
          /\ zlen (OS_objtype_table s') = zlen (OS_objtype_table s))
  end.
Proof.
  intros Hsz Ht. unfold OS_ObjectIdFindNextFree. set (t := obj_type tok) in *.
  pose proof (max_range t Ht) as Hmax.
  destruct (Z.eqb_spec (OS_GetMaxForObjectType t) 0); [lia|].
  set (serial := OS_ObjectIdToSerialNumber_Impl _).
  assert (Hser : 0 <= serial <= OS_OBJECT_INDEX_MASK).
  { unfold serial. rewrite serial_mod. change OS_OBJECT_INDEX_MASK with 65535.
    match goal with |- context [?x mod 2 ^ 16] => pose proof (Z.mod_pos_bound x (2 ^ 16)); lia end. }
  rewrite FindNextFree_loop_scan by done.
  assert (Hsize : 0 < OS_GetMaxForObjectType t <= OS_OBJECT_INDEX_MASK) by lia.
  pose proof (scan_spec _ _ (defined_at s t) Hsize (Z.to_nat (OS_GetMaxForObjectType t)) _ Hser) as Hs.
  pose proof (scan_full _ _ (defined_at s t) Hsize _ Hser) as Hf.
  destruct (scan _ _ _ _ _) as [[i r]|].
  - right. destruct Hs as (k & _ & Hk & Hd & Hr & _ & Hm & _).
    assert (Hi : in_type t i) by (split; [done|]; subst i; apply Z.mod_pos_bound; lia).
    exists i, (OS_ObjectIdCompose_Impl t r). split_and!; try done.
    + destruct (compose_fields t r Ht Hr) as (_ & E1 & E2). split_and!; [apply u32_range|done|by rewrite E2].
    + by apply defined_at_false.
    + cbn. rewrite (Z.add_comm i). done.
    + cbn. by autorewrite with cfe.
  - left. split_and!; try done. intros i [_ Hi]. apply defined_at_true, Hf; done.
Qed.

(** The handler accepts every allocation. *)
Definition handler_accepts (P : Platform) : Prop :=
  forall h id, EventHandler P = Some h -> h OS_EVENT_RESOURCE_ALLOCATED id = OS_SUCCESS.

(** The notifications after an allocation event. *)
Definition notices (P : Platform) (ev : OS_Event) (id : Z) : list (OS_Event * Z) :=
  match EventHandler P with Some _ => [(ev, id)] | None => [] end.

Lemma NotifyEvent_eff P ev id s :
  exists rc s', OS_NotifyEvent P ev id s = (rc, s')
    /\ rc = match EventHandler P with Some h => h ev id | None => OS_SUCCESS end
    /\ view s' = (OS_common_table s, table_mutex s, blocked s, GlobalState s,
                  notified s ++ notices P ev id)
    /\ OS_objtype_table s' = OS_objtype_table s.
Proof.
  unfold OS_NotifyEvent, notices. destruct (EventHandler P); eexists _, _; split_and!; try reflexivity.
  unfold view. by rewrite app_nil_r.
Qed.

(** A record just allocated is converted at the first turn of the loop. *)
Lemma ConvertToken_fresh P tok s t i id who :
  in_type t i -> designates id t i -> lock_mode tok = OS_LOCK_MODE_EXCLUSIVE ->
  obj_type tok = t -> obj_idx tok = i -> obj_id tok = id ->
  0 <= slot t i < zlen (OS_common_table s) ->
  record_of s (slot t i) = mk_record None id who 0 ->
  exists tok' s', OS_ObjectIdConvertToken P tok s = (OS_SUCCESS, tok', s')
    /\ changes s t i (mk_record None OS_OBJECT_ID_RESERVED who 1) false s'
    /\ token_left OS_SUCCESS OS_LOCK_MODE_EXCLUSIVE t i id tok'.
Proof.
  intros Hin Hd Em Et Ei Eid Hsl Hrec.
  pose proof (designates_valid id t i (proj1 Hin) Hd) as Hv.
  assert (Hnr : id <> OS_OBJECT_ID_RESERVED) by (intros ->; by rewrite reserved_invalid in Hv).
  unfold OS_ObjectIdConvertToken. rewrite Eid, Hv, Em. cbn [negb].
  change (mode_is OS_LOCK_MODE_EXCLUSIVE OS_LOCK_MODE_RESERVED) with false.
  rewrite loop_turn. cbv zeta. rewrite (token_slot tok t i Hin Et Ei), Hrec, Em.
  change (mode_is OS_LOCK_MODE_EXCLUSIVE OS_LOCK_MODE_EXCLUSIVE) with true.
  cbn [active_id]. rewrite Z.eqb_refl. destruct (Z.eqb_spec id OS_OBJECT_ID_RESERVED); [done|].
  cbn [negb]. rewrite record_put by done. cbn - [put_record record_of OS_Unlock_Global].
  change (mode_is OS_LOCK_MODE_EXCLUSIVE OS_LOCK_MODE_NONE) with false. cbn iota.
  rewrite put_put, record_put by done. change (mode_is OS_LOCK_MODE_EXCLUSIVE OS_LOCK_MODE_EXCLUSIVE) with true.
  rewrite orb_true_r. cbn - [put_record record_of OS_Unlock_Global].
  match goal with |- context [OS_Unlock_Global tok ?s1] =>
    destruct (Unlock_Global_eff tok s1) as (s2 & -> & Hv2 & Hl2) end.
  { rewrite Et. apply Hin. } { by rewrite Em. }
  eexists _, _. split; [reflexivity|]. split; [|done].
  apply view_changes; [by rewrite Hv2, Et|exact Hl2].
Qed.

(** *** Allocation of a record *)

Definition alloc_failed (s : osal) (t : Z) (name : option string) (rc : Z)
  (tok : OS_object_token) (s' : osal) : Prop :=
  (rc = OS_ERR_NAME_TAKEN /\ name_used s t name
   \/ rc = OS_ERR_NO_FREE_IDS /\ ~ name_used s t name /\ table_full s t)
  /\ untouched s s' /\ lock_mode tok = OS_LOCK_MODE_NONE.

Definition alloc_done (P : Platform) (s : osal) (t : Z) (name : option string) (rc : Z)
  (tok : OS_object_token) (s' : osal) : Prop :=
  exists i id, rc = OS_SUCCESS /\ ~ name_used s t name /\ in_type t i /\ designates id t i
    /\ active_id (record_of s (slot t i)) = 0
    /\ OS_common_table s' = zset (OS_common_table s) (slot t i)
         (mk_record None OS_OBJECT_ID_RESERVED (OS_TaskGetId_Impl P) 1)
    /\ table_mutex s' = table_mutex s /\ blocked s' = blocked s
    /\ GlobalState s' = GlobalState s
    /\ notified s' = notified s ++ notices P OS_EVENT_RESOURCE_ALLOCATED id
    /\ sized s' /\ token_left OS_SUCCESS OS_LOCK_MODE_EXCLUSIVE t i id tok.

Section allocate.
Variables (P : Platform) (t : Z) (name : option string) (s : osal).
Hypothesis Hsz : sized s.
Hypothesis Hg : GlobalState s = OS_INIT_MAGIC_NUMBER.
Hypothesis Ht : valid_type t.
Hypothesis Hfree : zget (table_mutex s) t = false.

#[local] Abbreviation begun := (started OS_LOCK_MODE_EXCLUSIVE t s).

Lemma begun_sized s0 : begun s0 -> sized s0.
Proof using Hsz.
  intros [Hv Hl]. unfold view in Hv. injection Hv as E1 E2 _ _ _.
  destruct Hsz. constructor; [by rewrite E1|by rewrite Hl|rewrite E2].
  change (mode_is OS_LOCK_MODE_EXCLUSIVE OS_LOCK_MODE_NONE) with false. by rewrite zlen_zset.
Qed.

Lemma begun_same s0 : begun s0 -> (name_used s0 t name <-> name_used s t name)
                                /\ (table_full s0 t <-> table_full s t).
Proof using.
  intros [Hv _]. unfold view in Hv. injection Hv as E1 _ _ _ _.
  unfold name_used, table_full, record_of. by rewrite E1.
Qed.

(** From a new record to the token: notification, then conversion. *)
Lemma allocate_commit s0 tok i id s2 :
  begun s0 -> handler_accepts P -> in_type t i -> designates id t i ->
  lock_mode tok = OS_LOCK_MODE_EXCLUSIVE -> obj_type tok = t -> obj_idx tok = i -> obj_id tok = id ->
  view s2 = (zset (OS_common_table s0) (slot t i) (mk_record None id (OS_TaskGetId_Impl P) 0),
             table_mutex s0, blocked s0, GlobalState s0, notified s0) ->
  zlen (OS_objtype_table s2) = zlen (OS_objtype_table s0) ->
  exists s3 tok' s', OS_NotifyEvent P OS_EVENT_RESOURCE_ALLOCATED id s2 = (OS_SUCCESS, s3)
    /\ OS_ObjectIdConvertToken P tok s3 = (OS_SUCCESS, tok', s')
    /\ OS_common_table s' = zset (OS_common_table s) (slot t i)
         (mk_record None OS_OBJECT_ID_RESERVED (OS_TaskGetId_Impl P) 1)
    /\ table_mutex s' = table_mutex s /\ blocked s' = blocked s
    /\ GlobalState s' = GlobalState s
    /\ notified s' = notified s ++ notices P OS_EVENT_RESOURCE_ALLOCATED id
    /\ sized s' /\ token_left OS_SUCCESS OS_LOCK_MODE_EXCLUSIVE t i id tok'.
Proof using Hsz Ht Hfree.
  intros Hs0 Hacc Hin Hd Em Et Ei Eid Hv2 Hl2. pose proof (begun_sized s0 Hs0) as Hsz0.
  pose proof (slot_in_table s0 t i Hsz0 Hin) as Hsl.
  destruct Hs0 as [Hv0 Hl0]. unfold view in Hv0, Hv2.
  injection Hv0 as D1 D2 D3 D4 D5. injection Hv2 as E1 E2 E3 E4 E5.
  change (mode_is OS_LOCK_MODE_EXCLUSIVE OS_LOCK_MODE_NONE) with false in D2. cbn iota in D2.
  destruct (NotifyEvent_eff P OS_EVENT_RESOURCE_ALLOCATED id s2) as (rcx & s3 & Hno & Hrcx & Hv3 & Ho3).
  assert (rcx = OS_SUCCESS) as -> by (subst rcx; destruct (EventHandler P) eqn:Eh; [by eapply Hacc|done]).
  unfold view in Hv3. injection Hv3 as F1 F2 F3 F4 F5.
  destruct (ConvertToken_fresh P tok s3 t i id (OS_TaskGetId_Impl P)) as (tok4 & s4 & Hcv & Hch & Htl); try done.
  { by rewrite F1, E1, zlen_zset. }
  { unfold record_of. by rewrite F1, E1, zget_zset_eq. }
  destruct Hch as [C1 C2 C3 C4 C5 C6]. exists s3, tok4, s4. split_and!; try done; try congruence.
  - by rewrite C1, F1, E1, D1, zset_zset.
  - rewrite C2, F2, E2, D2, zset_zset, <- Hfree. apply zset_zget. by apply valid_type_mutex.
  - apply C6. destruct Hsz0. constructor; [by rewrite F1, E1, zlen_zset|by rewrite Ho3, Hl2|by rewrite F2, E2].
Qed.

(** What [OS_ObjectIdAllocateNew] does when the handler accepts. *)
Lemma AllocateNew_eff :
  handler_accepts P ->
  exists rc tok s', OS_ObjectIdAllocateNew P t name s = (rc, tok, s')
    /\ (alloc_failed s t name rc tok s' \/ alloc_done P s t name rc tok s').
Proof using Hsz Hg Ht Hfree.
  intros Hacc.
  destruct (GetById_starts P OS_LOCK_MODE_EXCLUSIVE t s Hg Ht Hfree) as (k & s0 & Hs0 & Hinit).
  pose proof (begun_sized s0 Hs0) as Hsz0. destruct (begun_same s0 Hs0) as [Hsame Hsamef].
  unfold OS_ObjectIdAllocateNew. rewrite Hg, Hinit.
  change (OS_INIT_MAGIC_NUMBER =? OS_SHUTDOWN_MAGIC_NUMBER) with false. cbn [negb Z.eqb OS_SUCCESS].
  set (tok0 := mk_token _ _ _ _ _). fold (name_check name tok0 s0).
  pose proof (name_check_spec name tok0 s0 Ht eq_refl) as Hname.
  destruct (name_check name tok0 s0) as [rcn tok1]. destruct Hname as (Em1 & Et1 & Hused).
  cbn [obj_type tok0 lock_mode] in Em1, Et1, Hused.
  pose proof (started_cancel OS_LOCK_MODE_EXCLUSIVE t s Hsz Ht Hfree s0) as Hcancel.
  destruct (Z.eqb_spec rcn OS_SUCCESS) as [->|Hrcn].
  { destruct (Hcancel tok1 Hs0 Em1 Et1) as (toky & s' & -> & Hs' & Hm').
    cbn. eexists _, _, _. split; [reflexivity|]. left. split; [|done].
    left. split; [done|]. by apply Hsame, Hused. }
  pose proof (FindNextFree_spec P tok1 s0 Hsz0) as Hff. rewrite Et1 in Hff. specialize (Hff Ht).
  destruct (OS_ObjectIdFindNextFree P tok1 s0) as [[rc2 tok2] s2].
  destruct Hff as [(-> & Hfull & -> & Em2 & Et2)|(i & id & -> & Hin & Hd & Hun & -> & Hv2 & Hl2)].
  { destruct (Hcancel tok2 Hs0) as (toky & s' & -> & Hs' & Hm'); [by rewrite Em2|done|].
    cbn. eexists _, _, _. split; [reflexivity|]. left. split; [|done].
    right. split_and!; [done| |by apply Hsamef]. intros Hu. by apply Hrcn, Hused, Hsame. }
  cbn [negb Z.eqb OS_SUCCESS obj_id set_obj_id].
  destruct (allocate_commit s0 (set_obj_id (set_obj_idx tok1 i) id) i id s2)
    as (s3 & tok' & s' & -> & -> & Hrest); try done.
  eexists _, _, _. split; [reflexivity|]. right. exists i, id. destruct Hs0 as [Hv0 _].
  unfold view in Hv0. injection Hv0 as D1 _ _ _ _. unfold record_of in *. rewrite D1 in Hun.
  split_and!; try done; try apply Hrest. intros Hu. by apply Hrcn, Hused, Hsame.
Qed.
End allocate.
