(* ===== verification/OsalProtocol.v ===== *)
(** * The object-table protocol as a transition system

    A world is the OSAL state and the tokens the tasks hold.  A step is one
    call: allocate, look up (GLOBAL, REFCOUNT or EXCLUSIVE), release, finalize a
    creation, finalize a deletion.  A call that needs the table mutex is enabled
    only while the mutex is free, which is when the implementation layer lets
    the task proceed; calls of different tasks interleave in any order.  The
    RESERVED mode, which is meant to share a record under creation with its
    creator, is left out.  The invariant is proved by induction on the steps. *)

From stdpp Require Import strings relations.
From S2P Require Import Prelude OsalIdMap OsalIdMapProofs.

Record world := mk_world { w_os : osal; w_tokens : list OS_object_token }.

Definition lock_free (s : osal) (t : Z) : Prop := zget (table_mutex s) t = false.
Definition needs_lock (tok : OS_object_token) : bool :=
  negb (mode_is (lock_mode tok) OS_LOCK_MODE_GLOBAL).

Definition user_mode (m : OS_lock_mode) : Prop :=
  m = OS_LOCK_MODE_GLOBAL \/ m = OS_LOCK_MODE_REFCOUNT \/ m = OS_LOCK_MODE_EXCLUSIVE.

Definition keep (rc : Z) (tok : OS_object_token) (toks : list OS_object_token) :=
  if rc =? OS_SUCCESS then tok :: toks else toks.

(** Fewer tokens than the 16-bit reference count can represent. *)
Definition token_bound (toks : list OS_object_token) : Prop := zlen toks < 2 ^ 16 - 1.

Inductive step (P : Platform) : world -> world -> Prop :=
  | step_allocate t name s toks rc tok s' :
      valid_type t -> lock_free s t ->
      OS_ObjectIdAllocateNew P t name s = (rc, tok, s') ->
      step P (mk_world s toks) (mk_world s' (keep rc tok toks))
  | step_get mode t id s toks rc tok s' :
      user_mode mode -> valid_type t -> is_u32 id -> lock_free s t -> token_bound toks ->
      OS_ObjectIdGetById P mode t id s = (rc, tok, s') ->
      step P (mk_world s toks) (mk_world s' (keep rc tok toks))
  | step_release l1 tok l2 s tok' s' :
      (needs_lock tok = true -> lock_free s (obj_type tok)) ->
      OS_ObjectIdRelease P tok s = (tok', s') ->
      step P (mk_world s (l1 ++ tok :: l2)) (mk_world s' (l1 ++ l2))
  | step_finalize_new status l1 tok l2 s rc id tok' s' :
      lock_mode tok = OS_LOCK_MODE_EXCLUSIVE -> lock_free s (obj_type tok) ->
      OS_ObjectIdFinalizeNew P status tok s = (rc, id, tok', s') ->
      step P (mk_world s (l1 ++ tok :: l2)) (mk_world s' (l1 ++ l2))
  | step_finalize_delete status l1 tok l2 s rc tok' s' :
      lock_mode tok = OS_LOCK_MODE_EXCLUSIVE -> lock_free s (obj_type tok) ->
      OS_ObjectIdFinalizeDelete P status tok s = (rc, tok', s') ->
      step P (mk_world s (l1 ++ tok :: l2)) (mk_world s' (l1 ++ l2)).

(** After initialization: cleared tables, free mutexes, no token. *)
Definition initial_world (w : world) : Prop :=
  exists s0, w = mk_world (snd (OS_ObjectIdInit s0)) []
    /\ GlobalState s0 = OS_INIT_MAGIC_NUMBER /\ blocked s0 = false
    /\ table_mutex s0 = replicate (Z.to_nat OS_OBJECT_TYPE_USER) false.

Definition reachable (P : Platform) (w : world) : Prop :=
  exists w0, initial_world w0 /\ rtc (step P) w0 w.

(** ** The invariant *)

Definition on (t i : Z) (tok : OS_object_token) : bool := (obj_type tok =? t) && (obj_idx tok =? i).
Definition toks_at (t i : Z) (toks : list OS_object_token) := List.filter (on t i) toks.
Definition is_global (t : Z) (tok : OS_object_token) : bool :=
  (obj_type tok =? t) && mode_is (lock_mode tok) OS_LOCK_MODE_GLOBAL.

(** One record and the tokens on it. *)
Record slot_inv (t i : Z) (r : OS_common_record) (l : list OS_object_token) : Prop := {
  si_count : refcount r = zlen l;
  si_id : active_id r = 0 \/ active_id r = OS_OBJECT_ID_RESERVED \/ designates (active_id r) t i;
  si_free : active_id r = 0 -> l = [];
  si_reserved : active_id r = OS_OBJECT_ID_RESERVED ->
    exists tok, l = [tok] /\ lock_mode tok = OS_LOCK_MODE_EXCLUSIVE;
  si_tokens : forall tok, In tok l ->
    active_id r = if mode_is (lock_mode tok) OS_LOCK_MODE_EXCLUSIVE
                  then OS_OBJECT_ID_RESERVED else obj_id tok
}.

Definition tok_inv (tok : OS_object_token) : Prop :=
  token_ok tok /\ designates (obj_id tok) (obj_type tok) (obj_idx tok) /\ user_mode (lock_mode tok).

Record inv (w : world) : Prop := {
  i_sized : sized (w_os w);
  i_state : GlobalState (w_os w) = OS_INIT_MAGIC_NUMBER;
  i_blocked : blocked (w_os w) = false;
  i_tokens : Forall tok_inv (w_tokens w);
  i_slots : forall t i, in_type t i ->
    slot_inv t i (record_of (w_os w) (slot t i)) (toks_at t i (w_tokens w));
  i_mutex : forall t, valid_type t ->
    zlen (List.filter (is_global t) (w_tokens w)) = if zget (table_mutex (w_os w)) t then 1 else 0
}.

Lemma on_self tok : on (obj_type tok) (obj_idx tok) tok = true.
Proof. unfold on. by rewrite !Z.eqb_refl. Qed.

Lemma on_other t i tok : ~ (obj_type tok = t /\ obj_idx tok = i) -> on t i tok = false.
Proof. unfold on. intros. lia. Qed.

Lemma is_global_other t tok : obj_type tok <> t -> is_global t tok = false.
Proof. unfold is_global. intros. destruct (Z.eqb_spec (obj_type tok) t); done. Qed.

Lemma is_global_self tok :
  is_global (obj_type tok) tok = mode_is (lock_mode tok) OS_LOCK_MODE_GLOBAL.
Proof. unfold is_global. by rewrite Z.eqb_refl. Qed.

(** What the invariant needs of a change of one record and one mutex; the
    notifications are left free. *)
Record modifies (s : osal) (t i : Z) (r : OS_common_record) (held : bool) (s' : osal) : Prop := {
  mod_table : OS_common_table s' = zset (OS_common_table s) (slot t i) r;
  mod_mutex : table_mutex s' = zset (table_mutex s) t held;
  mod_blocked : blocked s' = blocked s;
  mod_state : GlobalState s' = GlobalState s;
  mod_sized : sized s -> sized s'
}.

Lemma changes_modifies s t i r held s' : changes s t i r held s' -> modifies s t i r held s'.
Proof. intros []. by constructor. Qed.

(** A change of one record, of one mutex and of the tokens on that record. *)
Lemma inv_update s toks t i r held s' toks' :
  inv (mk_world s toks) -> in_type t i -> modifies s t i r held s' ->
  Forall tok_inv toks' ->
  (forall t' i', ~ (t = t' /\ i = i') -> toks_at t' i' toks' = toks_at t' i' toks) ->
  slot_inv t i r (toks_at t i toks') ->
  (forall t', t' <> t -> List.filter (is_global t') toks' = List.filter (is_global t') toks) ->
  zlen (List.filter (is_global t) toks') = (if held then 1 else 0) ->
  inv (mk_world s' toks').
Proof.
  intros [H1 H2 H3 H4 H5 H6] Hin [C1 C2 C3 C4 C6] Hf Hoth Hslot Hgo Hg. cbn [w_os w_tokens] in *.
  pose proof (slot_in_table s t i H1 Hin) as Hsl.
  pose proof (valid_type_mutex t s H1 (proj1 Hin)) as Hmt.
  constructor; cbn [w_os w_tokens]; auto.
  - by rewrite C4.
  - by rewrite C3.
  - intros t' i' Hin'. unfold record_of. rewrite C1.
    pose proof (slot_in_table s t' i' H1 Hin').
    destruct (decide (t = t' /\ i = i')) as [[<- <-]|Hne].
    + by rewrite zget_zset_eq.
    + rewrite zget_zset_ne by (try lia; intros E; by apply slot_inj in E).
      rewrite Hoth by done. by apply H5.
  - intros t' Ht'. rewrite C2. unfold valid_type in Ht'. rewrite zget_zset by lia.
    destruct (Z.eqb_spec t t') as [<-|Hne]; [done|]. rewrite Hgo by auto. by apply H6.
Qed.

Lemma filter_keep (f : OS_object_token -> bool) tok toks :
  List.filter f (tok :: toks) = if f tok then tok :: List.filter f toks else List.filter f toks.
Proof. done. Qed.

Lemma filter_drop (f : OS_object_token -> bool) l1 tok l2 :
  List.filter f (l1 ++ tok :: l2) =
  List.filter f l1 ++ (if f tok then [tok] else []) ++ List.filter f l2.
Proof. rewrite List.filter_app. cbn. by destruct (f tok). Qed.

(** ** Preservation, one lemma per shape of step *)

Lemma inv_same s toks s' :
  inv (mk_world s toks) -> OS_common_table s' = OS_common_table s ->
  table_mutex s' = table_mutex s -> blocked s' = blocked s -> GlobalState s' = GlobalState s ->
  (sized s -> sized s') -> inv (mk_world s' toks).
Proof.
  intros [H1 H2 H3 H4 H5 H6] E1 E2 E3 E4 Hsz. constructor; cbn in *; try congruence; auto.
  - intros t i Hin. unfold record_of. rewrite E1. by apply H5.
  - intros t Ht. rewrite E2. by apply H6.
Qed.

Lemma inv_untouched s toks s' : inv (mk_world s toks) -> untouched s s' -> inv (mk_world s' toks).
Proof. intros Hinv []. by apply (inv_same s). Qed.

Lemma inv_notify P ev id s toks :
  inv (mk_world s toks) -> inv (mk_world (snd (OS_NotifyEvent P ev id s)) toks).
Proof.
  intros Hinv. destruct (NotifyEvent_eff P ev id s) as (rc & s' & -> & _ & Hv & Ho).
  unfold view in Hv. injection Hv as E1 E2 E3 E4 _. apply (inv_same s); try done.
  intros []. constructor; cbn; congruence.
Qed.

(** Writing back what is there. *)
Lemma changes_nothing s t i s' :
  sized s -> in_type t i -> lock_free s t ->
  changes s t i (record_of s (slot t i)) false s' -> untouched s s'.
Proof.
  intros Hsz Hin Hfree [C1 C2 C3 C4 C5 C6]. constructor; try done.
  - rewrite C1. apply zset_zget. by apply slot_in_table.
  - rewrite C2, <- Hfree. apply zset_zget. apply valid_type_mutex; [done|apply Hin].
Qed.

Lemma inv_add s toks t i r held s' tok :
  inv (mk_world s toks) -> lock_free s t -> modifies s t i r held s' ->
  obj_type tok = t -> obj_idx tok = i -> tok_inv tok ->
  held = mode_is (lock_mode tok) OS_LOCK_MODE_GLOBAL ->
  slot_inv t i r (tok :: toks_at t i toks) ->
  inv (mk_world s' (tok :: toks)).
Proof.
  intros Hinv Hfree Hch <- <- Htok -> Hslot.
  assert (Hin : token_ok tok) by apply Htok.
  apply (inv_update _ _ _ _ _ _ _ _ Hinv Hin Hch).
  - constructor; [done|apply Hinv].
  - intros t' i' Hne. unfold toks_at. rewrite filter_keep, on_other by done. done.
  - unfold toks_at. rewrite filter_keep, on_self. done.
  - intros t' Hne. by rewrite filter_keep, is_global_other.
  - pose proof (i_mutex _ Hinv _ (proj1 Hin)) as Hm. cbn in Hm. rewrite Hfree in Hm.
    rewrite filter_keep, is_global_self. destruct (mode_is _ _); rewrite ?zlen_cons; lia.
Qed.

Lemma inv_drop s l1 tok l2 r s' :
  inv (mk_world s (l1 ++ tok :: l2)) ->
  (needs_lock tok = true -> lock_free s (obj_type tok)) ->
  modifies s (obj_type tok) (obj_idx tok) r false s' ->
  (forall la lb, slot_inv (obj_type tok) (obj_idx tok) (record_of s (tslot tok)) (la ++ tok :: lb) ->
     slot_inv (obj_type tok) (obj_idx tok) r (la ++ lb)) ->
  inv (mk_world s' (l1 ++ l2)).
Proof.
  intros Hinv Hfree Hch Hslot. pose proof (i_tokens _ Hinv) as Hf. cbn in Hf.
  apply Forall_app in Hf as [Hf1 Hf2]. apply Forall_cons_1 in Hf2 as [Htok Hf2].
  assert (Hin : token_ok tok) by apply Htok.
  apply (inv_update _ _ _ _ _ _ _ _ Hinv Hin Hch).
  - by apply Forall_app.
  - intros t' i' Hne. unfold toks_at. rewrite filter_drop, List.filter_app, on_other by done. done.
  - unfold toks_at. rewrite List.filter_app. apply Hslot.
    pose proof (i_slots _ Hinv _ _ Hin) as Hs. cbn [w_os w_tokens] in Hs. unfold toks_at in Hs.
    rewrite filter_drop, on_self in Hs. exact Hs.
  - intros t' Hne. by rewrite filter_drop, List.filter_app, is_global_other.
  - pose proof (i_mutex _ Hinv _ (proj1 Hin)) as Hm. cbn in Hm.
    rewrite filter_drop, !zlen_app in Hm. rewrite List.filter_app, zlen_app.
    rewrite is_global_self in Hm. unfold needs_lock in Hfree.
    pose proof (zlen_nonneg (List.filter (is_global (obj_type tok)) l1)).
    pose proof (zlen_nonneg (List.filter (is_global (obj_type tok)) l2)).
    destruct (mode_is (lock_mode tok) OS_LOCK_MODE_GLOBAL); cbn in Hm.
    + change (zlen [tok]) with 1 in Hm. destruct (zget _ _); lia.
    + rewrite (Hfree eq_refl) in Hm. change (zlen (@nil OS_object_token)) with 0 in Hm. lia.
Qed.

(** The local condition for ending a transaction on a record. *)
Lemma finish_slot_inv tok final r la lb :
  tok_inv tok ->
  match final with
  | None => True
  | Some f => lock_mode tok = OS_LOCK_MODE_EXCLUSIVE /\ (f = 0 \/ f = obj_id tok)
  end ->
  slot_inv (obj_type tok) (obj_idx tok) r (la ++ tok :: lb) ->
  slot_inv (obj_type tok) (obj_idx tok)
    (finish_outcome (lock_mode tok) (obj_id tok) final r) (la ++ lb).
Proof.
  intros (Hok & Hdes & Hmode) Hfin [S1 S2 S3 S4 S5].
  pose proof (zlen_nonneg la). pose proof (zlen_nonneg lb).
  rewrite zlen_app, zlen_cons in S1.
  assert (Hpos : (0 <? refcount r) = true) by lia.
  assert (Hin : In tok (la ++ tok :: lb)) by (apply in_app_iff; right; by left).
  pose proof (S5 tok Hin) as Hact.
  assert (Hcnt : refcount r - 1 = zlen (la ++ lb)) by (rewrite zlen_app; lia).
  destruct (mode_is (lock_mode tok) OS_LOCK_MODE_EXCLUSIVE) eqn:Ex.
  - destruct (S4 Hact) as (tok0 & Hl & _).
    assert (la = [] /\ lb = []) as [-> ->].
    { destruct la as [|a [|]]; cbn in Hl; simplify_eq; done. }
    unfold finish_outcome. rewrite Ex, Hpos. cbn in Hcnt |- *.
    assert (Hid : obj_id tok <> 0 /\ obj_id tok <> OS_OBJECT_ID_RESERVED).
    { pose proof (designates_valid _ _ _ (proj1 Hok) Hdes) as Hv.
      split; intros E; rewrite E in Hv; done. }
    assert (Hf : forall f, f = 0 \/ f = obj_id tok ->
      slot_inv (obj_type tok) (obj_idx tok) (mk_record (name_entry r) f (creator r) (refcount r - 1)) []).
    { intros f Hf. constructor; cbn [refcount active_id]; try done.
      - destruct Hf as [->| ->]; auto.
      - destruct Hf as [->| ->]; [done|]. intros E. by destruct Hid. }
    destruct final as [f|]; apply Hf; [tauto|by right].
  - destruct final as [f|]; [destruct Hfin as [E _]; rewrite E in Ex; done|].
    unfold finish_outcome. rewrite Ex, Hpos.
    assert (Hnr : active_id r <> OS_OBJECT_ID_RESERVED).
    { intros E. destruct (S4 E) as (tok0 & Hl & Hm). rewrite Hl in Hin.
      destruct Hin as [->|[]]. rewrite Hm in Ex. done. }
    constructor; cbn; try done.
    + intros E0. rewrite (S3 E0) in Hin. done.
    + intros tok' Hin'. apply S5. apply in_app_iff in Hin' as [?|?]; apply in_app_iff; [by left|right; by right].
Qed.

(** Ending a transaction, with or without a final ID. *)
Lemma inv_finish P s l1 tok l2 final tok' s' :
  inv (mk_world s (l1 ++ tok :: l2)) ->
  (needs_lock tok = true -> lock_free s (obj_type tok)) ->
  match final with
  | None => True
  | Some f => lock_mode tok = OS_LOCK_MODE_EXCLUSIVE /\ (f = 0 \/ f = obj_id tok)
  end ->
  OS_ObjectIdTransactionFinish P tok final s = (tok', s') ->
  inv (mk_world s' (l1 ++ l2)) /\ obj_id tok' = obj_id tok.
Proof.
  intros Hinv Hfree Hfinal Heq.
  assert (Htok : tok_inv tok).
  { pose proof (i_tokens _ Hinv) as Hf. cbn in Hf. apply Forall_app in Hf as [_ Hf].
    by apply Forall_cons_1 in Hf as [Hf _]. }
  destruct (TransactionFinish_eff P tok final s) as (tok1 & s1 & E & Hch & _ & Hid).
  - apply Hinv.
  - apply Htok.
  - destruct Htok as (_ & _ & [->|[->| ->]]); done.
  - intros Hrel. apply Hfree. unfold needs_lock. by destruct (lock_mode tok).
  - rewrite Heq in E. injection E as <- <-. split; [|done].
    eapply inv_drop; [done..|by apply changes_modifies|].
    intros la lb. by apply finish_slot_inv.
Qed.

(** The local condition for a new token on a record. *)
Lemma get_slot_inv mode t i id r l r' held tok :
  user_mode mode -> in_type t i -> designates id t i -> zlen l < 2 ^ 16 - 1 ->
  slot_inv t i r l -> get_outcome mode id r = (OS_SUCCESS, r', held) ->
  lock_mode tok = mode -> obj_id tok = id ->
  slot_inv t i r' (tok :: l).
Proof.
  intros Hm Hin Hd Hlen [S1 S2 S3 S4 S5] Ho Em Eid.
  pose proof (designates_valid _ _ _ (proj1 Hin) Hd) as Hv. pose proof (zlen_nonneg l).
  assert (Hid : id <> 0 /\ id <> OS_OBJECT_ID_RESERVED) by (split; intros ->; done).
  assert (Hact : active_id r <> OS_OBJECT_ID_RESERVED /\ active_id r = id /\
    (mode = OS_LOCK_MODE_EXCLUSIVE -> refcount r = 0) /\
    r' = set_refcount (if mode_is mode OS_LOCK_MODE_EXCLUSIVE
                       then set_active_id r OS_OBJECT_ID_RESERVED else r) (u16 (refcount r + 1))).
  { clear - Hm Ho. destruct Hm as [->|[->| ->]]; cbn in Ho; repeat (case_test_in Ho; simplify_eq);
      destruct (Z.eqb_spec (active_id r) id); done. }
  destruct Hact as (Hnr & Ha & Hx & ->). rewrite u16_id by (unfold is_u16; lia).
  destruct (mode_is mode OS_LOCK_MODE_EXCLUSIVE) eqn:Ex.
  - apply mode_is_true in Ex. specialize (Hx Ex).
    assert (l = []) as -> by (destruct l; [done|]; rewrite zlen_cons in S1; pose proof (zlen_nonneg l); lia).
    constructor; cbn [refcount active_id set_refcount set_active_id]; try done; auto.
    + rewrite zlen_cons. lia.
    + intros _. exists tok. by rewrite Em.
    + intros tok' [->|[]]. by rewrite Em, Ex.
  - constructor; cbn [refcount active_id set_refcount]; try done.
    + rewrite zlen_cons. lia.
    + intros E0. by destruct Hid; congruence.
    + intros tok' [<-|Hin']; [rewrite Em, Ex, Eid; done|by apply S5].
Qed.

Section preservation.
Variable P : Platform.
Hypothesis Hq : quiet P.
Hypothesis Hacc : handler_accepts P.

Lemma allocate_preserves t name s toks rc tok s' :
  inv (mk_world s toks) -> valid_type t -> lock_free s t ->
  OS_ObjectIdAllocateNew P t name s = (rc, tok, s') -> inv (mk_world s' (keep rc tok toks)).
Proof using Hacc.
  intros Hinv Ht Hfree Heq.
  destruct (AllocateNew_eff P t name s (i_sized _ Hinv) (i_state _ Hinv) Ht Hfree Hacc)
    as (rc1 & tok1 & s1 & E & Hor). rewrite Heq in E. injection E as <- <- <-.
  destruct Hor as [[Hrc [Hun _]]|(i & id & -> & _ & Hin & Hd & Ha & E1 & E2 & E3 & E4 & E5 & E6 & Htl)].
  { assert (keep rc tok toks = toks) as ->
      by (destruct Hrc as [[-> _]|[-> _]]; reflexivity). by apply (inv_untouched s). }
  destruct Htl as (Em & Et & Ei & Eid). change (keep OS_SUCCESS tok toks) with (tok :: toks).
  pose proof (i_slots _ Hinv t i Hin) as Hs. cbn [w_os w_tokens] in Hs.
  assert (Hnil : toks_at t i toks = []) by (by apply (si_free _ _ _ _ Hs)).
  eapply (inv_add s toks t i _ false); try done.
  - constructor; try done. rewrite E2, <- Hfree. symmetry. apply zset_zget.
    apply valid_type_mutex; [apply Hinv|done].
  - split_and!; [by rewrite <- Et, <- Ei in Hin|by rewrite Eid, Et, Ei|right; by right].
  - by rewrite Em.
  - rewrite Hnil. constructor; cbn; try done; auto.
    + intros _. by exists tok.
    + intros tok' [<-|[]]. by rewrite Em.
Qed.

Lemma get_preserves mode t id s toks rc tok s' :
  inv (mk_world s toks) -> user_mode mode -> valid_type t -> is_u32 id -> lock_free s t ->
  token_bound toks -> OS_ObjectIdGetById P mode t id s = (rc, tok, s') ->
  inv (mk_world s' (keep rc tok toks)).
Proof using Hq.
  intros Hinv Hmode Ht Hu Hfree Hbound Heq.
  pose proof (i_sized _ Hinv) as Hsz. pose proof (i_state _ Hinv) as Hg. cbn in Hsz, Hg.
  destruct (OS_ObjectIdToArrayIndex t id true) as [rci [i|]] eqn:Ei.
  2:{ destruct (GetById_no_index P mode t id s Hsz Hg Ht Hfree rci Ei) as (tok1 & s1 & E & Hun & _).
      rewrite Heq in E. injection E as -> -> ->. by apply (inv_untouched s). }
  assert (rci = OS_SUCCESS) as ->.
  { unfold OS_ObjectIdToArrayIndex in Ei. repeat (case_test_in Ei; simplify_eq); done. }
  destruct (index_designates id t i Ht Hu Ei) as [Hd Hin].
  pose proof (GetById_eff P mode t id i s Hq Hsz Hg Ht Hu Hfree Ei) as Hget.
  destruct (get_outcome mode id (record_of s (slot t i))) as [[rco r'] held] eqn:Eo.
  destruct Hget as (tok1 & s1 & E & Hch & Htl). rewrite Heq in E. injection E as <- <- <-.
  unfold keep, token_left in *. destruct (Z.eqb_spec rc OS_SUCCESS) as [->|Hrc].
  - destruct Htl as (Em & Et & Eidx & Eid).
    eapply (inv_add s toks t i r' held); try done; [apply changes_modifies; exact Hch|..].
    + split_and!; [by rewrite <- Et, <- Eidx in Hin|by rewrite Eid, Et, Eidx|by rewrite Em].
    + rewrite (get_outcome_held _ _ _ _ _ Eo), Em. by destruct Hmode as [->|[->| ->]].
    + eapply get_slot_inv; try done.
      * pose proof (zlen_filter (on t i) toks). unfold token_bound, toks_at in *. lia.
      * apply (i_slots _ Hinv t i Hin).
  - destruct (get_outcome_failure _ _ _ _ _ _ Eo Hrc) as [-> ->].
    apply (inv_untouched s); [done|]. by apply (changes_nothing s t i).
Qed.

Lemma step_preserves w w' : step P w w' -> inv w -> inv w'.
Proof using Hq Hacc.
  intros Hstep Hinv. destruct Hstep as [t name s toks rc tok s' Ht Hfree Heq
    |mode t id s toks rc tok s' Hm Ht Hu Hfree Hb Heq|l1 tok l2 s tok' s' Hfree Heq
    |status l1 tok l2 s rc id tok' s' Hm Hfree Heq|status l1 tok l2 s rc tok' s' Hm Hfree Heq].
  - by eapply allocate_preserves.
  - by eapply get_preserves.
  - by eapply (inv_finish P s l1 tok l2 None).
  - unfold OS_ObjectIdFinalizeNew in Heq.
    destruct (OS_ObjectIdTransactionFinish P tok _ s) as [tok1 s1] eqn:Ef.
    injection Heq as _ _ _ <-. apply (inv_finish P s l1 tok l2) in Ef; auto.
    + destruct Ef as [Ef _]. case_test; [by apply inv_notify|done].
    + split; [done|]. case_test; auto.
  - unfold OS_ObjectIdFinalizeDelete in Heq.
    destruct (OS_ObjectIdTransactionFinish P tok _ s) as [tok1 s1] eqn:Ef.
    injection Heq as _ _ <-. apply (inv_finish P s l1 tok l2) in Ef; auto.
    + destruct Ef as [Ef _]. case_test; [by apply inv_notify|done].
    + split; [done|]. case_test; auto.
Qed.

Lemma initial_inv w : initial_world w -> inv w.
Proof using.
  intros (s0 & -> & Hg & Hb & Hm). constructor; cbn [w_os w_tokens]; try done.
  - constructor; cbn; try reflexivity. by rewrite Hm.
  - intros t i Hin. pose proof (slot_range t i Hin). unfold record_of. cbn.
    rewrite zget_replicate by (rewrite Z2Nat.id; [done|vm_compute; congruence]).
    constructor; cbn; auto; done.
  - intros t Ht. cbn. rewrite Hm, zget_replicate; [done|]. unfold valid_type in Ht.
    change OS_OBJECT_TYPE_USER with 16. lia.
Qed.

Lemma reachable_inv w : reachable P w -> inv w.
Proof using Hq Hacc.
  intros (w0 & H0 & Hr). apply initial_inv in H0. induction Hr; [done|]. eauto using step_preserves.
Qed.
End preservation.
