(* ===== verification/OsalTheorems.v ===== *)
(** * Theorems on the OSAL object tables

    The invariants of the reachable states, allocation, the life cycle of an
    object from creation to deletion, iteration, and two failure paths. *)

From stdpp Require Import strings relations.
From S2P Require Import Prelude OsalIdMap OsalIdMapProofs OsalProtocol.

(** ** A concrete platform and state, for the witnesses *)

Definition quiet_platform : Platform :=
  mk_platform 0x10001 (fun _ _ s => s) (Some (fun _ _ => OS_SUCCESS)).

Definition boot_state : osal :=
  snd (OS_ObjectIdInit
    (mk_osal [] [] OS_INIT_MAGIC_NUMBER (replicate (Z.to_nat OS_OBJECT_TYPE_USER) false) false [])).

Lemma quiet_platform_quiet : quiet quiet_platform.
Proof. done. Defined.
Lemma quiet_platform_accepts : handler_accepts quiet_platform.
Proof. intros h id E. cbn in E. by simplify_eq. Defined.
Lemma boot_sized : sized boot_state.
Proof. constructor; reflexivity. Defined.
Lemma queue_type : valid_type 2.
Proof. unfold valid_type. lia. Defined.

Lemma queue_slot_1 : in_type 2 1.
Proof. split; [exact queue_type|vm_compute; split; congruence]. Defined.

(** The world after one queue has been allocated. *)
Definition queue_world : world :=
  let '(rc, tok, s) := OS_ObjectIdAllocateNew quiet_platform 2 (Some "PIPE"%string) boot_state in
  mk_world s (keep rc tok []).

Lemma queue_world_reachable : reachable quiet_platform queue_world.
Proof.
  exists (mk_world boot_state []). split.
  - eexists _. split_and!; [reflexivity|reflexivity|reflexivity|reflexivity].
  - unfold queue_world. destruct (OS_ObjectIdAllocateNew _ _ _ _) as [[rc tok] s] eqn:E.
    apply rtc_once. eapply step_allocate; [exact queue_type|reflexivity|exact E].
Defined.

(** ** Reachable states *)




(** The world in which that queue is complete. *)
Definition queue_ready_world : world :=
  match w_tokens queue_world with
  | tok :: _ =>
      let '(_, _, _, s) := OS_ObjectIdFinalizeNew quiet_platform OS_SUCCESS tok (w_os queue_world) in
      mk_world s []
  | [] => queue_world
  end.

Lemma queue_ready_reachable : reachable quiet_platform queue_ready_world.
Proof.
  destruct queue_world_reachable as (w0 & H0 & Hr). exists w0. split; [exact H0|].
  eapply rtc_r; [exact Hr|]. unfold queue_ready_world. destruct queue_world as [s toks] eqn:E.
  vm_compute in E. injection E as <- <-. cbn [w_tokens w_os].
  destruct (OS_ObjectIdFinalizeNew _ _ _ _) as [[[rc id] tok'] s'] eqn:Ef.
  eapply (step_finalize_new _ OS_SUCCESS []); [reflexivity|reflexivity|exact Ef].
Defined.


(** ** Lookup by ID *)



(** ** Allocation *)

(** [OS_ObjectIdAllocateNew] with a free table mutex and an accepting event
    handler: it reports NAME_TAKEN exactly when a record of the type already
    carries the name, NO_FREE_IDS exactly when the name is new but every record
    is in use, and changes nothing in either case; otherwise it succeeds, having
    reserved a record that was free, under an ID that designates it, with one
    EXCLUSIVE token and one ALLOCATED notification, and with the mutex
    released. *)
Theorem AllocateNew_outcome (P : Platform) (t : Z) (name : option string) (s : osal) :
  sized s -> GlobalState s = OS_INIT_MAGIC_NUMBER -> valid_type t ->
  zget (table_mutex s) t = false -> handler_accepts P ->
  exists rc tok s', OS_ObjectIdAllocateNew P t name s = (rc, tok, s')
    /\ (rc = OS_ERR_NAME_TAKEN <-> name_used s t name)
    /\ (rc = OS_ERR_NO_FREE_IDS <-> ~ name_used s t name /\ table_full s t)
    /\ (rc <> OS_SUCCESS -> untouched s s' /\ lock_mode tok = OS_LOCK_MODE_NONE)
    /\ (rc = OS_SUCCESS -> alloc_done P s t name rc tok s').
Proof.
  intros Hsz Hg Ht Hfree Hacc.
  destruct (AllocateNew_eff P t name s Hsz Hg Ht Hfree Hacc) as (rc & tok & s' & E & Hor).
  exists rc, tok, s'. split; [done|].
  destruct Hor as [([[-> Hu]|(-> & Hu & Hf)] & Hun & Hm)|Hd].
  - split_and!; try done. split; [done|]. intros [Hn _]. done.
  - split_and!; try done.
  - destruct Hd as (i & id & -> & Hu & Hin & Hd & Ha & Hrest). split_and!; try done.
    + split; [done|]. intros [_ Hf]. by destruct (Hf i Hin).
    + intros _. by exists i, id.
Qed.

Lemma AllocateNew_outcome_witness :
  exists rc tok s', OS_ObjectIdAllocateNew quiet_platform 2 (Some "PIPE"%string) boot_state = (rc, tok, s')
    /\ rc = OS_SUCCESS /\ alloc_done quiet_platform boot_state 2 (Some "PIPE"%string) rc tok s'.
Proof.
  destruct (AllocateNew_outcome quiet_platform 2 (Some "PIPE"%string) boot_state boot_sized
    eq_refl queue_type ltac:(vm_compute; reflexivity) quiet_platform_accepts)
    as (rc & tok & s' & E & _ & _ & _ & H).
  assert (Hrc : rc = OS_SUCCESS).
  { transitivity (fst (fst (OS_ObjectIdAllocateNew quiet_platform 2 (Some "PIPE"%string) boot_state))).
    - rewrite E. reflexivity.
    - vm_compute. reflexivity. }
  exists rc, tok, s'. split; [exact E|]. split; [exact Hrc|exact (H Hrc)].
Defined.

(** ** The life cycle of an object *)

(** Ending with a final ID and then notifying. *)
Lemma finish_notify_eff P tok final ev s :
  sized s -> token_ok tok -> lock_mode tok = OS_LOCK_MODE_EXCLUSIVE -> lock_free s (obj_type tok) ->
  exists tok' s1 s', OS_ObjectIdTransactionFinish P tok (Some final) s = (tok', s1)
    /\ obj_id tok' = obj_id tok /\ snd (OS_NotifyEvent P ev (obj_id tok) s1) = s'
    /\ modifies s (obj_type tok) (obj_idx tok)
         (finish_outcome OS_LOCK_MODE_EXCLUSIVE (obj_id tok) (Some final) (record_of s (tslot tok))) false s'
    /\ notified s' = notified s ++ notices P ev (obj_id tok).
Proof.
  intros Hsz Hok Em Hfree.
  destruct (TransactionFinish_eff P tok (Some final) s) as (tok1 & s1 & E & Hch & _ & Hid);
    [done|done|by rewrite Em|done|].
  destruct (NotifyEvent_eff P ev (obj_id tok) s1) as (rc & s' & En & _ & Hv & Ho).
  exists tok1, s1, s'. split_and!; [done|done|by rewrite En|..].
  - rewrite Em in Hch. destruct Hch as [C1 C2 C3 C4 C5 C6]. unfold view in Hv.
    injection Hv as E1 E2 E3 E4 E5. constructor; try congruence.
    intros Hs. destruct (C6 Hs). constructor; congruence.
  - unfold view in Hv. injection Hv as _ _ _ _ ->. by rewrite (ch_notified _ _ _ _ _ _ Hch).
Qed.

Section modified.
Variables (s : osal) (t i : Z) (r : OS_common_record) (s' : osal).
Hypothesis Hsz : sized s.
Hypothesis Hin : in_type t i.

Lemma modifies_record held : modifies s t i r held s' -> record_of s' (slot t i) = r.
Proof using Hsz Hin.
  intros [E _ _ _ _]. unfold record_of. rewrite E. apply zget_zset_eq. by apply slot_in_table.
Qed.

Lemma modifies_free held : modifies s t i r held s' -> zget (table_mutex s') t = held.
Proof using Hsz Hin.
  intros [_ E _ _ _]. rewrite E. apply zget_zset_eq. apply valid_type_mutex; [done|apply Hin].
Qed.
End modified.

(** Looking up, by a mode of the common API, an ID the record does not carry. *)
Lemma GetById_rejects P mode t i id s :
  quiet P -> user_mode mode -> sized s -> GlobalState s = OS_INIT_MAGIC_NUMBER ->
  lock_free s t -> in_type t i -> designates id t i ->
  active_id (record_of s (slot t i)) <> id ->
  exists tok s', OS_ObjectIdGetById P mode t id s =
      (if active_id (record_of s (slot t i)) =? OS_OBJECT_ID_RESERVED
       then OS_ERR_OBJECT_IN_USE else OS_ERR_INVALID_ID, tok, s')
    /\ untouched s s' /\ lock_mode tok = OS_LOCK_MODE_NONE.
Proof.
  intros Hq Hm Hsz Hg Hfree Hin Hd Hne.
  pose proof (GetById_eff P mode t id i s Hq Hsz Hg (proj1 Hin) (proj1 Hd) Hfree
    (designates_index id t i (proj1 Hin) Hd)) as Hget.
  assert (Eo : get_outcome mode id (record_of s (slot t i)) =
    (if active_id (record_of s (slot t i)) =? OS_OBJECT_ID_RESERVED
     then OS_ERR_OBJECT_IN_USE else OS_ERR_INVALID_ID, record_of s (slot t i), false)).
  { destruct (Z.eqb_spec (active_id (record_of s (slot t i))) id); [done|].
    destruct Hm as [->|[->| ->]]; unfold get_outcome; case_test; try done;
    destruct (Z.eqb_spec (active_id (record_of s (slot t i))) id); done. }
  rewrite Eo in Hget. destruct Hget as (tok & s' & E & Hch & Htl). exists tok, s'.
  split; [done|]. split; [by apply (changes_nothing s t i)|]. revert Htl. by case_test.
Qed.

(** An EXCLUSIVE lookup of an idle record. *)
Lemma GetById_exclusive P t i id s :
  quiet P -> sized s -> GlobalState s = OS_INIT_MAGIC_NUMBER -> lock_free s t -> in_type t i ->
  designates id t i -> active_id (record_of s (slot t i)) = id ->
  refcount (record_of s (slot t i)) = 0 ->
  exists tok s', OS_ObjectIdGetById P OS_LOCK_MODE_EXCLUSIVE t id s = (OS_SUCCESS, tok, s')
    /\ changes s t i (set_refcount (set_active_id (record_of s (slot t i)) OS_OBJECT_ID_RESERVED) 1) false s'
    /\ token_left OS_SUCCESS OS_LOCK_MODE_EXCLUSIVE t i id tok.
Proof.
  intros Hq Hsz Hg Hfree Hin Hd Ha Hr.
  pose proof (GetById_eff P OS_LOCK_MODE_EXCLUSIVE t id i s Hq Hsz Hg (proj1 Hin) (proj1 Hd) Hfree
    (designates_index id t i (proj1 Hin) Hd)) as Hget.
  pose proof (designates_valid _ _ _ (proj1 Hin) Hd) as Hv.
  cbn [get_outcome] in Hget. rewrite Ha, Hr, Z.eqb_refl in Hget.
  destruct (Z.eqb_spec id OS_OBJECT_ID_RESERVED) as [->|]; [done|]. cbn [negb refcount set_active_id] in Hget.
  rewrite Hr in Hget. exact Hget.
Qed.

Section lifecycle.
Variables (P : Platform) (s : osal) (tok : OS_object_token).
Hypothesis Hsz : sized s.
Hypothesis Hg : GlobalState s = OS_INIT_MAGIC_NUMBER.
Hypothesis Hok : token_ok tok.
Hypothesis Hm : lock_mode tok = OS_LOCK_MODE_EXCLUSIVE.
Hypothesis Hfree : lock_free s (obj_type tok).
Hypothesis Hcount : refcount (record_of s (tslot tok)) = 1.

Lemma FinalizeNew_eff :
  exists tok' s', OS_ObjectIdFinalizeNew P OS_SUCCESS tok s = (OS_SUCCESS, obj_id tok, tok', s')
    /\ sized s' /\ GlobalState s' = OS_INIT_MAGIC_NUMBER /\ lock_free s' (obj_type tok)
    /\ active_id (record_of s' (tslot tok)) = obj_id tok /\ refcount (record_of s' (tslot tok)) = 0
    /\ notified s' = notified s ++ notices P OS_EVENT_RESOURCE_CREATED (obj_id tok).
Proof using Hsz Hg Hok Hm Hfree Hcount.
  unfold OS_ObjectIdFinalizeNew. change (OS_SUCCESS =? OS_SUCCESS) with true. cbn iota.
  destruct (finish_notify_eff P tok (obj_id tok) OS_EVENT_RESOURCE_CREATED s Hsz Hok Hm Hfree)
    as (tok1 & s1 & s2 & -> & -> & -> & Hmod & Hn).
  pose proof (modifies_record _ _ _ _ _ Hsz Hok _ Hmod) as Hr.
  pose proof (modifies_free _ _ _ _ _ Hsz Hok _ Hmod) as Hf.
  eexists _, _. split; [reflexivity|]. destruct Hmod as [_ _ _ M4 M5].
  unfold tslot in *. rewrite Hr. cbn. rewrite Hcount. split_and!; try done; [by apply M5|congruence].
Qed.

Lemma FinalizeDelete_eff :
  exists tok' s', OS_ObjectIdFinalizeDelete P OS_SUCCESS tok s = (OS_SUCCESS, tok', s')
    /\ sized s' /\ GlobalState s' = OS_INIT_MAGIC_NUMBER /\ lock_free s' (obj_type tok)
    /\ active_id (record_of s' (tslot tok)) = 0 /\ refcount (record_of s' (tslot tok)) = 0
    /\ notified s' = notified s ++ notices P OS_EVENT_RESOURCE_DELETED (obj_id tok).
Proof using Hsz Hg Hok Hm Hfree Hcount.
  unfold OS_ObjectIdFinalizeDelete. change (OS_SUCCESS =? OS_SUCCESS) with true. cbn iota.
  destruct (finish_notify_eff P tok OS_OBJECT_ID_UNDEFINED OS_EVENT_RESOURCE_DELETED s Hsz Hok Hm Hfree)
    as (tok1 & s1 & s2 & -> & -> & -> & Hmod & Hn).
  pose proof (modifies_record _ _ _ _ _ Hsz Hok _ Hmod) as Hr.
  pose proof (modifies_free _ _ _ _ _ Hsz Hok _ Hmod) as Hf.
  eexists _, _. split; [reflexivity|]. destruct Hmod as [_ _ _ M4 M5].
  unfold tslot in *. rewrite Hr. cbn. rewrite Hcount. split_and!; try done; [by apply M5|congruence].
Qed.
End lifecycle.

(** The life of an object.  After a successful allocation its ID cannot be
    locked (IN_USE) until the creator finalizes it; finalizing makes the ID
    usable; an EXCLUSIVE lookup and a finalized deletion then free the record;
    from then on the stale ID is rejected as invalid, in every lock mode,
    without any change.  The application is told of each of the three stages,
    in order. *)
Theorem object_lifecycle (P : Platform) (t : Z) (name : option string) (mode : OS_lock_mode) (s : osal)
  (tok : OS_object_token) (s1 : osal) :
  quiet P -> handler_accepts P -> sized s -> GlobalState s = OS_INIT_MAGIC_NUMBER -> valid_type t ->
  lock_free s t -> user_mode mode ->
  OS_ObjectIdAllocateNew P t name s = (OS_SUCCESS, tok, s1) ->
  let id := obj_id tok in
  (exists tok' s', OS_ObjectIdGetById P mode t id s1 = (OS_ERR_OBJECT_IN_USE, tok', s'))
  /\ exists tok2 s2 tok3 s3 tok4 s4,
       OS_ObjectIdFinalizeNew P OS_SUCCESS tok s1 = (OS_SUCCESS, id, tok2, s2)
       /\ OS_ObjectIdGetById P OS_LOCK_MODE_EXCLUSIVE t id s2 = (OS_SUCCESS, tok3, s3)
       /\ OS_ObjectIdFinalizeDelete P OS_SUCCESS tok3 s3 = (OS_SUCCESS, tok4, s4)
       /\ active_id (record_of s4 (slot t (obj_idx tok))) = 0
       /\ (exists tok5 s5, OS_ObjectIdGetById P mode t id s4 = (OS_ERR_INVALID_ID, tok5, s5)
             /\ untouched s4 s5)
       /\ notified s4 = notified s ++ notices P OS_EVENT_RESOURCE_ALLOCATED id
            ++ notices P OS_EVENT_RESOURCE_CREATED id ++ notices P OS_EVENT_RESOURCE_DELETED id.
Proof.
  intros Hq Hacc Hsz Hg Ht Hfree Hm Heq id.
  destruct (AllocateNew_eff P t name s Hsz Hg Ht Hfree Hacc) as (rc & tok0 & s0 & E & Hor).
  rewrite Heq in E. injection E as <- <- <-.
  destruct Hor as [([[E _]|[E _]] & _)|(i & id' & _ & _ & Hin & Hd & Ha & E1 & E2 & _ & E4 & E5 & Hsz1 & Htl)];
    [done..|].
  destruct Htl as (Em & Et & Ei & Eid). subst t i id'. fold id in Hd, E5. rename Hin into Hok.
  assert (Hrec : record_of s1 (tslot tok) = mk_record None OS_OBJECT_ID_RESERVED (OS_TaskGetId_Impl P) 1).
  { unfold record_of. rewrite E1. apply zget_zset_eq. by apply slot_in_table. }
  assert (Hg1 : GlobalState s1 = OS_INIT_MAGIC_NUMBER) by congruence.
  assert (Hf1 : lock_free s1 (obj_type tok)) by (unfold lock_free; by rewrite E2).
  assert (0 <> id /\ OS_OBJECT_ID_RESERVED <> id) as [Hid0 Hidr].
  { pose proof (designates_valid _ _ _ Ht Hd) as Hv. split; intros E; by rewrite <- E in Hv. }
  split.
  { destruct (GetById_rejects P mode (obj_type tok) (obj_idx tok) id s1) as (tok' & s' & Hget & _); try done.
    - fold (tslot tok). by rewrite Hrec.
    - fold (tslot tok) in Hget. rewrite Hrec in Hget. exists tok', s'. exact Hget. }
  destruct (FinalizeNew_eff P s1 tok) as (tok2 & s2 & Hfin & Hsz2 & Hg2 & Hf2 & Ha2 & Hr2 & Hn2);
    try done; [by rewrite Hrec|]. fold id in Hfin, Ha2, Hn2.
  destruct (GetById_exclusive P (obj_type tok) (obj_idx tok) id s2) as (tok3 & s3 & Hget & Hch & Htl3); try done.
  destruct Htl3 as (Em3 & Et3 & Ei3 & Eid3). pose proof (changes_modifies _ _ _ _ _ _ Hch) as Hmod.
  pose proof (modifies_record _ _ _ _ _ Hsz2 Hok _ Hmod) as Hr3.
  pose proof (modifies_free _ _ _ _ _ Hsz2 Hok _ Hmod) as Hf3. destruct Hch as [_ _ _ C4 C5 C6].
  destruct (FinalizeDelete_eff P s3 tok3) as (tok4 & s4 & Hdel & Hsz4 & Hg4 & Hf4 & Ha4 & _ & Hn4); try done;
    try (unfold token_ok, lock_free, tslot; by rewrite ?Et3, ?Ei3, ?Hr3); [by apply C6|congruence|].
  unfold tslot in Ha4. rewrite Et3, Ei3 in *. exists tok2, s2, tok3, s3, tok4, s4. split_and!; try done.
  - destruct (GetById_rejects P mode (obj_type tok) (obj_idx tok) id s4) as (tok5 & s5 & H5 & Hu & _); try done.
    + by rewrite Ha4.
    + rewrite Ha4 in H5. exists tok5, s5. split; [exact H5|exact Hu].
  - rewrite Hn4, C5, Hn2, E5, Eid3, <- !app_assoc. done.
Qed.

Lemma object_lifecycle_witness :
  exists tok s1, OS_ObjectIdAllocateNew quiet_platform 2 (Some "PIPE"%string) boot_state
                 = (OS_SUCCESS, tok, s1)
    /\ exists tok' s', OS_ObjectIdGetById quiet_platform OS_LOCK_MODE_REFCOUNT 2 (obj_id tok) s1
                       = (OS_ERR_OBJECT_IN_USE, tok', s').
Proof.
  destruct (OS_ObjectIdAllocateNew quiet_platform 2 (Some "PIPE"%string) boot_state) as [[rc tok] s1] eqn:E.
  assert (Hrc : rc = OS_SUCCESS).
  { transitivity (fst (fst (rc, tok, s1))); [reflexivity|]. rewrite <- E. vm_compute. reflexivity. }
  rewrite Hrc in E. exists tok, s1. split; [rewrite Hrc; reflexivity|].
  exact (proj1 (object_lifecycle quiet_platform 2 (Some "PIPE"%string) OS_LOCK_MODE_REFCOUNT boot_state
    tok s1 quiet_platform_quiet quiet_platform_accepts boot_sized eq_refl queue_type
    ltac:(vm_compute; reflexivity) (or_intror (or_introl eq_refl)) E)).
Defined.

(** ** Two failure paths *)

(** A search that meets a record under creation or deletion: when the first
    record of the type that matches carries the RESERVED ID,
    [OS_ObjectIdGetBySearch] fails with INCORRECT_OBJ_STATE, and in every
    locking mode it returns with the table mutex still held, so that any later
    locking transaction on the type blocks for good. *)
Theorem GetBySearch_reserved_keeps_lock (P : Platform) (mode : OS_lock_mode) (t i : Z)
  (m : OS_common_record -> bool) (s : osal) :
  sized s -> GlobalState s = OS_INIT_MAGIC_NUMBER -> valid_type t -> lock_free s t ->
  mode <> OS_LOCK_MODE_NONE -> in_type t i -> matches s t m i = true ->
  active_id (record_of s (slot t i)) = OS_OBJECT_ID_RESERVED ->
  (forall j, 0 <= j < i -> matches s t m j = false) ->
  exists tok s', OS_ObjectIdGetBySearch P mode t (fun _ => m) s = (OS_ERR_INCORRECT_OBJ_STATE, tok, s')
    /\ zget (table_mutex s') t = true
    /\ forall P' mode' tok' s'', mode' <> OS_LOCK_MODE_NONE ->
         OS_ObjectIdTransactionInit P' mode' t s' = (OS_SUCCESS, tok', s'') -> blocked s'' = true.
Proof.
  intros Hsz Hg Ht Hfree Hmode Hin Hmatch Hres Hfirst.
  destruct (GetById_starts P mode t s Hg Ht Hfree) as (k & s0 & [Hv Hl] & Hinit).
  rewrite mode_is_false in Hv by done. unfold view in Hv. injection Hv as E1 E2 E3 E4 E5.
  assert (Hm0 : forall j, matches s0 t m j = matches s t m j)
    by (intros j; unfold matches, defined_at, record_of; by rewrite E1).
  assert (Hmx : zget (table_mutex s0) t = true)
    by (rewrite E2; apply zget_zset_eq; by apply valid_type_mutex).
  unfold OS_ObjectIdGetBySearch. rewrite Hinit. unfold OS_ObjectIdFindNextMatch.
  pose proof (FindNextMatch_loop_spec s0 t Ht m (S (Z.to_nat (OS_GetMaxForObjectType t)))
    (mk_token mode k t (u32 (-1)) OS_OBJECT_ID_UNDEFINED)) as H.
  pose proof (max_range t Ht). cbn [obj_idx obj_type lock_mode lock_key] in H.
  change (u32 (u32 (-1) + 1)) with 0 in H. specialize (H ltac:(lia) ltac:(lia)).
  cbn [obj_type set_obj_id lock_mode lock_key obj_idx].
  destruct (FindNextMatch_loop _ _ _ _ _ _) as [rc tok]. destruct H as (Hmd & _ & Hty & H).
  destruct H as [(-> & Hi & Hmm & Hid & Hb)|(_ & Hno)]; 
    [|by specialize (Hno i (proj2 Hin)); rewrite Hm0, Hmatch in Hno].
  assert (obj_idx tok = i) as Ei.
  { destruct (Z.lt_total (obj_idx tok) i) as [|[|]]; [|done|].
    - rewrite Hm0, Hfirst in Hmm; [done|lia].
    - specialize (Hb i ltac:(destruct Hin; lia)). by rewrite Hm0, Hmatch in Hb. }
  rewrite Ei in Hid. unfold record_of in *. rewrite E1, Hres in Hid.
  change (OS_SUCCESS =? OS_SUCCESS) with true. cbn iota.
  unfold OS_ObjectIdConvertToken. rewrite Hid. cbn.
  eexists _, _. split; [reflexivity|]. split; [done|].
  intros P' mode' tok' s'' Hm' Heq.
  destruct (TransactionInit_eff P' mode' t s0 Ht ltac:(congruence)) as (k' & s3 & Hinit' & Hv' & _).
  rewrite mode_is_false in Hv' by done. unfold view in Hv'. injection Hv' as _ _ F3 _ _.
  rewrite Heq in Hinit'. injection Hinit' as _ ->. by rewrite F3, Hmx, orb_true_r.
Qed.

Lemma GetBySearch_reserved_keeps_lock_witness :
  exists tok s', OS_ObjectIdGetBySearch quiet_platform OS_LOCK_MODE_GLOBAL 2 (fun _ _ => true)
                   (w_os queue_world) = (OS_ERR_INCORRECT_OBJ_STATE, tok, s')
    /\ zget (table_mutex s') 2 = true.
Proof.
  assert (Hs : sized (w_os queue_world)) by (constructor; vm_compute; reflexivity).
  destruct (GetBySearch_reserved_keeps_lock quiet_platform OS_LOCK_MODE_GLOBAL 2 1 (fun _ => true)
    (w_os queue_world) Hs ltac:(vm_compute; reflexivity) queue_type ltac:(vm_compute; reflexivity)
    ltac:(discriminate) queue_slot_1 ltac:(vm_compute; reflexivity) ltac:(vm_compute; reflexivity)
    ltac:(intros j Hj; replace j with 0 by lia; vm_compute; reflexivity)) as (tok & s' & H1 & H2 & _).
  exists tok, s'. split; [exact H1|exact H2].
Defined.

(** An event handler that refuses an allocation: when the handler returns an
    error for [OS_EVENT_RESOURCE_ALLOCATED] and the allocation got that far, the
    error path of [OS_ObjectIdAllocateNew] locks the table mutex, which the call
    still holds, a second time: the task blocks instead of returning the error. *)
Theorem AllocateNew_rejected_blocks (P : Platform) (t : Z) (name : option string) (s : osal)
  (h : OS_Event -> Z -> Z) :
  sized s -> GlobalState s = OS_INIT_MAGIC_NUMBER -> valid_type t -> lock_free s t ->
  EventHandler P = Some h -> (forall id, h OS_EVENT_RESOURCE_ALLOCATED id <> OS_SUCCESS) ->
  ~ name_used s t name -> ~ table_full s t ->
  blocked (snd (OS_ObjectIdAllocateNew P t name s)) = true.
Proof.
  intros Hsz Hg Ht Hfree Hh Hrej Hname Hroom.
  destruct (GetById_starts P OS_LOCK_MODE_EXCLUSIVE t s Hg Ht Hfree) as (k & s0 & Hs0 & Hinit).
  pose proof (begun_sized t s Hsz s0 Hs0) as Hsz0. destruct (begun_same t name s s0 Hs0) as [Hsame Hsamef].
  destruct Hs0 as [Hv _]. unfold view in Hv. injection Hv as E1 E2 E3 E4 E5.
  assert (Hmx : zget (table_mutex s0) t = true)
    by (rewrite E2; apply zget_zset_eq; by apply valid_type_mutex).
  unfold OS_ObjectIdAllocateNew. rewrite Hg, Hinit.
  change (OS_INIT_MAGIC_NUMBER =? OS_SHUTDOWN_MAGIC_NUMBER) with false. cbn [negb Z.eqb OS_SUCCESS].
  set (tok0 := mk_token _ _ _ _ _). fold (name_check name tok0 s0).
  pose proof (name_check_spec name tok0 s0 Ht eq_refl) as Hnc.
  destruct (name_check name tok0 s0) as [rcn tok1]. destruct Hnc as (Em1 & Et1 & Hused).
  destruct (Z.eqb_spec rcn OS_SUCCESS) as [E|_]; [by apply Hused, Hsame in E|].
  pose proof (FindNextFree_spec P tok1 s0 Hsz0) as Hff. rewrite Et1 in Hff. specialize (Hff Ht).
  destruct (OS_ObjectIdFindNextFree P tok1 s0) as [[rc2 tok2] s2].
  destruct Hff as [(_ & Hfull & _)|(i & id & -> & Hin & _ & _ & -> & Hv2 & _)];
    [by apply Hsamef in Hfull|].
  cbn [negb Z.eqb OS_SUCCESS obj_id set_obj_id]. unfold OS_NotifyEvent. rewrite Hh.
  destruct (Z.eqb_spec (h OS_EVENT_RESOURCE_ALLOCATED id) OS_SUCCESS) as [E|Hne]; [by apply Hrej in E|].
  rewrite (proj2 (Z.eqb_neq _ _) Hne). cbn [negb].
  unfold OS_ObjectIdFinalizeNew. rewrite (proj2 (Z.eqb_neq _ _) Hne).
  set (s3 := mk_osal _ _ _ _ _ _). set (tok3 := set_obj_id _ id).
  assert (Hb : forall P' final, blocked (snd (OS_ObjectIdTransactionFinish P' tok3 final s3)) = true).
  { intros P' final. unfold OS_ObjectIdTransactionFinish. cbn [lock_mode tok3 set_obj_id set_obj_idx].
    rewrite Em1. cbn [lock_mode tok0]. change (mode_is OS_LOCK_MODE_EXCLUSIVE OS_LOCK_MODE_NONE) with false. cbn iota.
    destruct (Lock_Global_eff P' tok3 s3) as (k1 & s4 & Hlk & Hv4 & _); [by cbn; rewrite Et1|by cbn; rewrite Em1|].
    change (mode_is OS_LOCK_MODE_EXCLUSIVE OS_LOCK_MODE_EXCLUSIVE) with true. cbn [orb]. rewrite Hlk.
    match goal with |- context [OS_Unlock_Global ?a ?b] =>
      destruct (Unlock_Global_eff a b) as (s5 & -> & Hv5 & _); [by cbn; rewrite Et1|by cbn; rewrite Em1|] end.
    unfold view in Hv4, Hv5, Hv2. injection Hv4 as _ _ F4 _ _. injection Hv5 as _ _ F5 _ _.
    injection Hv2 as _ F2 _ _ _. cbn. rewrite F5, F4. cbn. rewrite Et1. cbn. by rewrite F2, Hmx, orb_true_r. }
  specialize (Hb P (Some OS_OBJECT_ID_UNDEFINED)).
  destruct (OS_ObjectIdTransactionFinish P tok3 _ s3) as [tok4 s4]. exact Hb.
Qed.

Definition refusing_platform : Platform :=
  mk_platform 0x10001 (fun _ _ s => s) (Some (fun _ _ => OS_ERROR)).

Lemma AllocateNew_rejected_blocks_witness :
  blocked (snd (OS_ObjectIdAllocateNew refusing_platform 2 None boot_state)) = true.
Proof.
  apply (AllocateNew_rejected_blocks refusing_platform 2 None boot_state (fun _ _ => OS_ERROR) boot_sized
    eq_refl queue_type ltac:(vm_compute; reflexivity) eq_refl ltac:(discriminate)).
  - intros (n & i & r & H & _). discriminate.
  - intros H. apply (H 1 queue_slot_1). vm_compute. reflexivity.
Defined.

(** ** Iteration *)

Section foreach.
Variables (P : Platform) (t : Z) (callback : Z -> osal -> osal) (note : Z -> list (OS_Event * Z)).
Variables (m : OS_common_record -> bool).
Hypothesis Ht : valid_type t.

(** The callback may use the object but leaves the tables and mutexes as they
    were, and leaves a note of its call. *)
Definition well_behaved : Prop := forall id s,
  view (callback id s) = (OS_common_table s, table_mutex s, blocked s, GlobalState s, notified s ++ note id)
  /\ zlen (OS_objtype_table (callback id s)) = zlen (OS_objtype_table s).

(** The IDs of the selected records from index [n] on, in table order. *)
Definition selected (s : osal) (n : Z) : list Z :=
  map (fun i => active_id (record_of s (slot t i)))
    (List.filter (fun i => m (record_of s (slot t i))) (seqZ n (OS_GetMaxForObjectType t - n))).

Lemma selected_step s n :
  0 <= n < OS_GetMaxForObjectType t ->
  selected s n = (if m (record_of s (slot t n)) then [active_id (record_of s (slot t n))] else [])
                 ++ selected s (n + 1).
Proof using.
  intros Hn. unfold selected. rewrite seqZ_cons by lia. cbn [List.filter].
  replace (Z.pred (OS_GetMaxForObjectType t - n)) with (OS_GetMaxForObjectType t - (n + 1)) by lia.
  change (Z.succ n) with (n + 1). by destruct (m (record_of s (slot t n))).
Qed.

Lemma selected_end s n : OS_GetMaxForObjectType t <= n -> selected s n = [].
Proof using. intros. unfold selected. by rewrite seqZ_nil by lia. Qed.

Lemma selected_ext s s' n : OS_common_table s' = OS_common_table s -> selected s' n = selected s n.
Proof using. intros E. unfold selected, record_of. by rewrite E. Qed.

(** An iterator over type [t] whose next index is [n]. *)
Definition at_index (it : OS_object_iter) (n : Z) : Prop :=
  iter_base it = OS_GetBaseForObjectType t /\ iter_match it = Some (fun _ => m)
  /\ iter_limit it = OS_GetMaxForObjectType t /\ obj_type (iter_token it) = t
  /\ lock_mode (iter_token it) = OS_LOCK_MODE_GLOBAL /\ u32 (obj_idx (iter_token it) + 1) = n.

Lemma GetNext_loop_spec s fuel it n :
  at_index it n -> 0 <= n <= OS_GetMaxForObjectType t ->
  OS_GetMaxForObjectType t - n < Z.of_nat fuel ->
  match IteratorGetNext_loop fuel it s with
  | (true, it') => exists j, n <= j < OS_GetMaxForObjectType t /\ at_index it' (j + 1)
      /\ selected s n = obj_id (iter_token it') :: selected s (j + 1)
  | (false, it') => selected s n = [] /\ obj_type (iter_token it') = t
      /\ lock_mode (iter_token it') = OS_LOCK_MODE_GLOBAL
  end.
Proof using Ht.
  pose proof (max_range t Ht) as Hmax. change OS_OBJECT_INDEX_MASK with 65535 in Hmax.
  revert it n. induction fuel as [|fuel IH]; intros it n (B1 & B2 & B3 & B4 & B5 & B6) Hn Hf; [lia|].
  cbn [IteratorGetNext_loop]. rewrite B6. cbn [iter_limit set_iter_token obj_idx set_obj_idx].
  rewrite B3. destruct (Z.leb_spec (OS_GetMaxForObjectType t) n).
  { split_and!; [by apply selected_end|done..]. }
  cbn [iter_base set_iter_token iter_match]. rewrite B1, B2. fold (slot t n).
  rewrite selected_step by lia. destruct (m (record_of s (slot t n))) eqn:Em; cbn [app].
  - exists n. split; [lia|]. split; [|done]. split_and!; try done. cbn. apply u32_id. range.
  - specialize (IH (set_iter_token it (set_obj_idx (iter_token it) n)) (n + 1)).
    destruct (IteratorGetNext_loop fuel _ s) as [[] it'].
    + destruct IH as (j & Hj & IH); [|lia..|].
      { split_and!; try done. cbn. apply u32_id. range. }
      exists j. split; [lia|done].
    + apply IH; [|lia..]. split_and!; try done. cbn. apply u32_id. range.
Qed.

(** The loop, entered with the table mutex held. *)
Lemma ForEach_loop_spec fuel it n s :
  well_behaved -> sized s -> at_index it n -> 0 <= n <= OS_GetMaxForObjectType t ->
  OS_GetMaxForObjectType t - n < Z.of_nat fuel -> zget (table_mutex s) t = true ->
  let '(it', s') := ForEach_loop P fuel callback it s in
  view s' = (OS_common_table s, table_mutex s, blocked s, GlobalState s,
             notified s ++ concat (map note (selected s n)))
  /\ zlen (OS_objtype_table s') = zlen (OS_objtype_table s)
  /\ obj_type (iter_token it') = t /\ lock_mode (iter_token it') = OS_LOCK_MODE_GLOBAL.
Proof using Ht.
  intros Hcb. revert it n s. induction fuel as [|fuel IH]; intros it n s Hsz Hit Hn Hf Hheld; [lia|].
  cbn [ForEach_loop]. unfold OS_ObjectIdIteratorGetNext.
  pose proof (GetNext_loop_spec s (S (Z.to_nat (iter_limit it)))
    (set_iter_token it (set_obj_id (iter_token it) OS_OBJECT_ID_UNDEFINED)) n) as Hnext.
  replace (iter_limit it) with (OS_GetMaxForObjectType t) in * by (symmetry; apply Hit).
  specialize (Hnext ltac:(by destruct Hit as (? & ? & ? & ? & ? & ?)) Hn ltac:(lia)).
  destruct (IteratorGetNext_loop _ _ s) as [[] it1].
  2:{ destruct Hnext as (-> & H1 & H2). cbn. by rewrite app_nil_r. }
  destruct Hnext as (j & Hj & Hit1 & ->). assert (Hit1' := Hit1).
  destruct Hit1' as (B1 & B2 & B3 & B4 & B5 & B6). unfold OS_ObjectIdIteratorProcessEntry.
  destruct (Unlock_Global_eff (iter_token it1) s) as (s1 & -> & Hv1 & Hl1); [by rewrite B4|by rewrite B5|].
  cbn [OS_ForEachDoCallback obj_id set_lock_key]. set (id := obj_id (iter_token it1)).
  destruct (Hcb id s1) as [Hv2 Hl2].
  destruct (Lock_Global_eff P (set_lock_key (iter_token it1) OS_LOCK_KEY_INVALID) (callback id s1))
    as (k & s3 & -> & Hv3 & Hl3); [by cbn; rewrite B4|by cbn; rewrite B5|].
  cbn [obj_type set_lock_key] in Hv3. rewrite B4 in Hv1, Hv3. unfold view in Hv1, Hv2, Hv3.
  injection Hv1 as C1 C2 C3 C4 C5. injection Hv2 as D1 D2 D3 D4 D5. injection Hv3 as F1 F2 F3 F4 F5.
  pose proof (valid_type_mutex t s Hsz Ht) as Hmt.
  assert (Emx : table_mutex s3 = table_mutex s)
    by (rewrite F2, D2, C2, zset_zset, <- Hheld; by apply zset_zget).
  rewrite D2, C2, zget_zset_eq, orb_false_r in F3 by done.
  specialize (IH (set_iter_token it1 (set_lock_key (set_lock_key (iter_token it1) OS_LOCK_KEY_INVALID) k))
    (j + 1) s3).
  destruct (ForEach_loop P fuel callback _ s3) as [it' s'].
  destruct IH as (Hv & Hl & Hr); [destruct Hsz; constructor; congruence|by split_and!|lia|lia|congruence|].
  split_and!; [|congruence|apply Hr..].
  rewrite Hv, (selected_ext s s3) by congruence. cbn [map concat].
  rewrite Emx, F3, D3, C3, F1, D1, C1, F4, D4, C4, F5, D5, C5, <- app_assoc. done.
Qed.

Lemma ForEach_eff s it s0 :
  well_behaved -> sized s -> GlobalState s = OS_INIT_MAGIC_NUMBER -> zget (table_mutex s) t = false ->
  OS_ObjectIdIteratorInit P (Some (fun _ => m)) t s = (OS_SUCCESS, it, s0) ->
  view (snd (OS_ObjectIdIteratorDestroy (fst (ForEach_loop P (S (Z.to_nat (iter_limit it))) callback it s0))
               (snd (ForEach_loop P (S (Z.to_nat (iter_limit it))) callback it s0))))
  = (OS_common_table s, table_mutex s, blocked s, GlobalState s,
     notified s ++ concat (map note (selected s 0))).
Proof using Ht.
  intros Hcb Hsz Hg Hfree Hinit. unfold OS_ObjectIdIteratorInit in Hinit.
  destruct (GetById_starts P OS_LOCK_MODE_GLOBAL t s Hg Ht Hfree) as (k & s1 & [Hv Hl] & E).
  rewrite E in Hinit. injection Hinit as <- <-. unfold view in Hv. injection Hv as E1 E2 E3 E4 E5.
  change (mode_is OS_LOCK_MODE_GLOBAL OS_LOCK_MODE_NONE) with false in E2. cbn iota in E2.
  pose proof (valid_type_mutex t s Hsz Ht) as Hmt. pose proof (max_range t Ht).
  cbn [iter_limit]. set (it := mk_iter _ _ _ _).
  pose proof (ForEach_loop_spec (S (Z.to_nat (OS_GetMaxForObjectType t))) it 0 s1 Hcb) as Hloop.
  destruct (ForEach_loop _ _ _ it s1) as [it' s'].
  destruct Hloop as (Hv & Hl' & Hty & Hmd);
    [destruct Hsz; constructor; rewrite ?E2, ?zlen_zset; congruence|done|lia|lia
    |by rewrite E2, zget_zset_eq|].
  cbn [fst snd]. unfold OS_ObjectIdIteratorDestroy.
  destruct (Cancel_eff (iter_token it') s') as (s2 & -> & Hv2 & _); [by rewrite Hty|by rewrite Hmd|].
  cbn [snd]. rewrite Hv2, Hty. unfold view in Hv. injection Hv as F1 F2 F3 F4 F5.
  rewrite F1, F2, F3, F4, F5, E1, E2, E3, E4, E5, zset_zset, (selected_ext s) by done.
  by rewrite <- Hfree, zset_zget.
Qed.
End foreach.

(** [OS_ForEachObjectOfType]: the callback runs exactly once for each record
    of the type that holds a valid ID and passes the creator filter, in table
    order and with that record's ID; the loop ends, and the tables and the
    table mutex are as before (the callback itself runs with the mutex free). *)
Theorem ForEachObjectOfType_visits (P : Platform) (t creator_id : Z) (callback : Z -> osal -> osal)
  (note : Z -> list (OS_Event * Z)) (s : osal) :
  valid_type t -> well_behaved callback note -> sized s -> GlobalState s = OS_INIT_MAGIC_NUMBER ->
  zget (table_mutex s) t = false ->
  let s' := OS_ForEachObjectOfType P t creator_id callback s in
  let wanted r := OS_ForEachFilterCreator creator_id zero_token r in
  notified s' = notified s ++ concat (map note (selected t wanted s 0))
  /\ OS_common_table s' = OS_common_table s /\ table_mutex s' = table_mutex s
  /\ blocked s' = blocked s.
Proof.
  intros Ht Hcb Hsz Hg Hfree s' wanted. unfold s', OS_ForEachObjectOfType.
  change (OS_ForEachFilterCreator creator_id) with (fun _ : OS_object_token => wanted).
  destruct (OS_ObjectIdIteratorInit P _ t s) as [[rc it] s0] eqn:Ei.
  assert (rc = OS_SUCCESS) as ->.
  { destruct (GetById_starts P OS_LOCK_MODE_GLOBAL t s Hg Ht Hfree) as (k & s1 & _ & E).
    unfold OS_ObjectIdIteratorInit in Ei. rewrite E in Ei. congruence. }
  pose proof (ForEach_eff P t callback note wanted Ht s it s0 Hcb Hsz Hg Hfree Ei) as Hv.
  change (OS_SUCCESS =? OS_SUCCESS) with true. cbn iota.
  destruct (ForEach_loop _ _ _ _ _) as [it' s1]. cbn [fst snd] in Hv.
  unfold view in Hv. by injection Hv as E1 E2 E3 E4 E5.
Qed.

(** Notes its argument, as a deletion hook would. *)
Definition noting (id : Z) (s : osal) : osal :=
  mk_osal (OS_common_table s) (OS_objtype_table s) (GlobalState s) (table_mutex s) (blocked s)
    (notified s ++ [(OS_EVENT_RESOURCE_DELETED, id)]).

Lemma ForEachObjectOfType_visits_witness :
  notified (OS_ForEachObjectOfType quiet_platform 2 OS_OBJECT_CREATOR_ANY noting (w_os queue_ready_world))
  = notified (w_os queue_ready_world) ++ [(OS_EVENT_RESOURCE_DELETED, 0x20001)].
Proof.
  assert (Hs : sized (w_os queue_ready_world)) by (constructor; vm_compute; reflexivity).
  pose proof (proj1 (ForEachObjectOfType_visits quiet_platform 2 OS_OBJECT_CREATOR_ANY noting
    (fun id => [(OS_EVENT_RESOURCE_DELETED, id)]) (w_os queue_ready_world) queue_type
    ltac:(intros id s; split; reflexivity) Hs ltac:(vm_compute; reflexivity)
    ltac:(vm_compute; reflexivity))) as H.
  rewrite H. vm_compute. reflexivity.
Defined.
