(* ===== verification/GenPool.v ===== *)
(** * The generic memory pool (cfe/modules/es/fsw/src/cfe_es_generic_pool.c)

    A pool hands out blocks of a few fixed sizes ("buckets") from a region
    addressed by offsets.  Each block is preceded by a descriptor kept in the
    pool's storage; blocks that are given back form one LIFO free list per
    bucket, linked through the descriptors.  Storage is reached only through the
    retrieve and commit functions of the pool: here the class [PoolStorage].

    Offsets and sizes are [size_t], 64 bits wide; counters are [uint32], bucket
    IDs and block markers [uint16].  A descriptor takes 24 bytes (two [uint16],
    padding, two [size_t]). *)

From S2P Require Import Prelude ResourceId.

Definition CFE_ES_ERR_MEM_BLOCK_SIZE : Z := s32 0xc4000008.
Definition CFE_ES_BUFFER_NOT_IN_POOL : Z := s32 0xc4000025.
Definition CFE_ES_POOL_BLOCK_INVALID : Z := s32 0xc400002C.

Definition CFE_ES_CHECK_PATTERN : Z := 0x5a5a.
Definition CFE_ES_MEMORY_ALLOCATED : Z := 0xaaaa.
Definition CFE_ES_MEMORY_DEALLOCATED : Z := 0xdddd.
Definition CFE_ES_GENERIC_POOL_DESCRIPTOR_SIZE : Z := 24.
Definition CFE_PLATFORM_ES_POOL_MAX_BUCKETS : Z := 17.

Record CFE_ES_GenPoolBD := mk_bd {
  CheckBits : Z; (* uint16 *)
  Allocated : Z; (* uint16 *)
  ActualSize : Z;
  NextOffset : Z
}.

Record CFE_ES_GenPoolBucket := mk_bucket {
  BlockSize : Z;
  FirstOffset : Z;
  bkt_AllocationCount : Z; (* uint32, as the next two *)
  ReleaseCount : Z;
  RecycleCount : Z
}.

Record CFE_ES_GenPoolRecord := mk_pool {
  PoolTotalSize : Z;
  PoolMaxOffset : Z;
  AlignMask : Z;
  TailPosition : Z;
  AllocationCount : Z; (* uint32 *)
  ValidationErrorCount : Z; (* uint32 *)
  NumBuckets : Z; (* uint16 *)
  Buckets : list CFE_ES_GenPoolBucket
}.

Definition zero_bucket : CFE_ES_GenPoolBucket := mk_bucket 0 0 0 0 0.
Definition zero_pool : CFE_ES_GenPoolRecord :=
  mk_pool 0 0 0 0 0 0 0 (replicate (Z.to_nat CFE_PLATFORM_ES_POOL_MAX_BUCKETS) zero_bucket).

#[export] Instance bucket_inhabited : Inhabited CFE_ES_GenPoolBucket := populate zero_bucket.
#[export] Instance pool_inhabited : Inhabited CFE_ES_GenPoolRecord := populate zero_pool.

(** The retrieve and commit functions of a pool.  A descriptor that the code
    changes through the pointer it retrieved reaches the storage with the
    commit. *)
Class PoolStorage (M : Type) := {
  Retrieve : Z -> M -> Z * CFE_ES_GenPoolBD * M;
  Commit : Z -> CFE_ES_GenPoolBD -> M -> Z * M
}.

Definition set_bucket (P : CFE_ES_GenPoolRecord) (i : Z) (b : CFE_ES_GenPoolBucket)
  : CFE_ES_GenPoolRecord :=
  mk_pool (PoolTotalSize P) (PoolMaxOffset P) (AlignMask P) (TailPosition P) (AllocationCount P)
    (ValidationErrorCount P) (NumBuckets P) (zset (Buckets P) i b).
Definition set_tail (P : CFE_ES_GenPoolRecord) (tail count : Z) : CFE_ES_GenPoolRecord :=
  mk_pool (PoolTotalSize P) (PoolMaxOffset P) (AlignMask P) tail count
    (ValidationErrorCount P) (NumBuckets P) (Buckets P).
Definition count_validation_error (P : CFE_ES_GenPoolRecord) : CFE_ES_GenPoolRecord :=
  mk_pool (PoolTotalSize P) (PoolMaxOffset P) (AlignMask P) (TailPosition P) (AllocationCount P)
    (u32 (ValidationErrorCount P + 1)) (NumBuckets P) (Buckets P).

(** ** Buckets *)

(** The [for] loop over the bucket array: the index it stops at. *)
Fixpoint FindBucket_loop (bs : list CFE_ES_GenPoolBucket) (NumBuckets : nat) (ReqSize : Z) (Index : Z)
  : Z :=
  match NumBuckets, bs with
  | S n, b :: bs' =>
      if ReqSize <=? BlockSize b then Index else FindBucket_loop bs' n ReqSize (Index + 1)
  | _, _ => Index
  end.

Definition CFE_ES_GenPoolFindBucket (P : CFE_ES_GenPoolRecord) (ReqSize : Z) : Z :=
  u16 (NumBuckets P - FindBucket_loop (Buckets P) (Z.to_nat (NumBuckets P)) ReqSize 0).

(** The index of the bucket in the array; [None] for NULL. *)
Definition CFE_ES_GenPoolGetBucketState (P : CFE_ES_GenPoolRecord) (BucketId : Z) : option Z :=
  let Index := u16 (NumBuckets P - BucketId) in
  if NumBuckets P <=? Index then None else Some Index.

(** The offset of the next block after the tail: room for the descriptor, then
    rounded up by the mask. *)
Definition next_block (P : CFE_ES_GenPoolRecord) : Z :=
  let BlockOffset := u64 (TailPosition P + CFE_ES_GENERIC_POOL_DESCRIPTOR_SIZE) in
  let BlockOffset := u64 (BlockOffset + AlignMask P) in
  Z.land BlockOffset (u64 (Z.lnot (AlignMask P))).

(** ** Getting and returning blocks *)

Section pool.
Context {M : Type} `{PoolStorage M}.
Implicit Types (P : CFE_ES_GenPoolRecord) (m : M).

(** Status, block offset when one is stored, pool, storage. *)
Definition CFE_ES_GenPoolRecyclePoolBlock P (BucketId NewSize : Z) m
  : Z * option Z * CFE_ES_GenPoolRecord * M :=
  match CFE_ES_GenPoolGetBucketState P BucketId with
  | None => (CFE_ES_BUFFER_NOT_IN_POOL, None, P, m)
  | Some b =>
      let Bucket := zget (Buckets P) b in
      if (RecycleCount Bucket =? ReleaseCount Bucket) || (FirstOffset Bucket =? 0)
      then (CFE_ES_BUFFER_NOT_IN_POOL, None, P, m)
      else
        let BlockOffset := FirstOffset Bucket in
        let DescOffset := u64 (BlockOffset - CFE_ES_GENERIC_POOL_DESCRIPTOR_SIZE) in
        let '(Status, Bd, m) := Retrieve DescOffset m in
        if Status =? CFE_SUCCESS then
          let RecycleBucketId := u16 (Allocated Bd - CFE_ES_MEMORY_DEALLOCATED) in
          if negb (CheckBits Bd =? CFE_ES_CHECK_PATTERN) || negb (RecycleBucketId =? BucketId)
          then (CFE_ES_BUFFER_NOT_IN_POOL, None, P, m)
          else
            let Next := NextOffset Bd in
            let '(Status, m) :=
              Commit DescOffset
                (mk_bd (CheckBits Bd) (u16 (CFE_ES_MEMORY_ALLOCATED + BucketId)) NewSize 0) m in
            if Status =? CFE_SUCCESS then
              (Status, Some BlockOffset,
               set_bucket P b
                 (mk_bucket (BlockSize Bucket) Next (bkt_AllocationCount Bucket)
                    (ReleaseCount Bucket) (u32 (RecycleCount Bucket + 1))), m)
            else (Status, None, P, m)
        else (Status, None, P, m)
  end.

Definition CFE_ES_GenPoolCreatePoolBlock P (BucketId NewSize : Z) m
  : Z * option Z * CFE_ES_GenPoolRecord * M :=
  match CFE_ES_GenPoolGetBucketState P BucketId with
  | None => (CFE_ES_BUFFER_NOT_IN_POOL, None, P, m)
  | Some b =>
      let Bucket := zget (Buckets P) b in
      let BlockOffset := next_block P in
      let DescOffset := u64 (BlockOffset - CFE_ES_GENERIC_POOL_DESCRIPTOR_SIZE) in
      let NextTailPosition := u64 (BlockOffset + BlockSize Bucket) in
      if PoolMaxOffset P <? NextTailPosition then (CFE_ES_ERR_MEM_BLOCK_SIZE, None, P, m)
      else
        let '(Status, Bd, m) := Retrieve DescOffset m in
        if Status =? CFE_SUCCESS then
          let '(Status, m) :=
            Commit DescOffset
              (mk_bd CFE_ES_CHECK_PATTERN (u16 (CFE_ES_MEMORY_ALLOCATED + BucketId)) NewSize 0) m in
          if Status =? CFE_SUCCESS then
            (Status, Some BlockOffset,
             set_tail
               (set_bucket P b
                  (mk_bucket (BlockSize Bucket) (FirstOffset Bucket)
                     (u32 (bkt_AllocationCount Bucket + 1)) (ReleaseCount Bucket)
                     (RecycleCount Bucket)))
               NextTailPosition (u32 (AllocationCount P + 1)), m)
          else (Status, None, P, m)
        else (Status, None, P, m)
  end.

Definition CFE_ES_GenPoolGetBlock P (ReqSize : Z) m : Z * option Z * CFE_ES_GenPoolRecord * M :=
  let BucketId := CFE_ES_GenPoolFindBucket P ReqSize in
  if BucketId =? 0 then (CFE_ES_ERR_MEM_BLOCK_SIZE, None, P, m)
  else
    let '(Status, BlockOffset, P, m) := CFE_ES_GenPoolRecyclePoolBlock P BucketId ReqSize m in
    if negb (Status =? CFE_SUCCESS)
    then CFE_ES_GenPoolCreatePoolBlock P BucketId ReqSize m
    else (Status, BlockOffset, P, m).

(** The test of a descriptor that is shared by the next two functions. *)
Definition valid_block P (Bd : CFE_ES_GenPoolBD) (b : option Z) : bool :=
  match b with
  | None => false
  | Some b =>
      negb (negb (CheckBits Bd =? CFE_ES_CHECK_PATTERN) || (ActualSize Bd =? 0)
            || (BlockSize (zget (Buckets P) b) <? ActualSize Bd))
  end.

(** Status, size when one is stored, storage. *)
Definition CFE_ES_GenPoolGetBlockSize P (BlockOffset : Z) m : Z * option Z * M :=
  if (TailPosition P <=? BlockOffset) || (BlockOffset <? CFE_ES_GENERIC_POOL_DESCRIPTOR_SIZE)
  then (CFE_ES_BUFFER_NOT_IN_POOL, None, m)
  else
    let DescOffset := u64 (BlockOffset - CFE_ES_GENERIC_POOL_DESCRIPTOR_SIZE) in
    let '(Status, Bd, m) := Retrieve DescOffset m in
    if Status =? CFE_SUCCESS then
      let BucketId := u16 (Allocated Bd - CFE_ES_MEMORY_ALLOCATED) in
      if valid_block P Bd (CFE_ES_GenPoolGetBucketState P BucketId)
      then (Status, Some (ActualSize Bd), m)
      else (CFE_ES_POOL_BLOCK_INVALID, None, m)
    else (Status, None, m).

(** Status, size when one is stored, pool, storage. *)
Definition CFE_ES_GenPoolPutBlock P (BlockOffset : Z) m
  : Z * option Z * CFE_ES_GenPoolRecord * M :=
  if (TailPosition P <=? BlockOffset) || (BlockOffset <? CFE_ES_GENERIC_POOL_DESCRIPTOR_SIZE)
  then (CFE_ES_BUFFER_NOT_IN_POOL, None, P, m)
  else
    let DescOffset := u64 (BlockOffset - CFE_ES_GENERIC_POOL_DESCRIPTOR_SIZE) in
    let '(Status, Bd, m) := Retrieve DescOffset m in
    if Status =? CFE_SUCCESS then
      let BucketId := u16 (Allocated Bd - CFE_ES_MEMORY_ALLOCATED) in
      match CFE_ES_GenPoolGetBucketState P BucketId with
      | Some b =>
          if valid_block P Bd (Some b) then
            let Bucket := zget (Buckets P) b in
            let '(Status, m) :=
              Commit DescOffset
                (mk_bd (CheckBits Bd) (u16 (CFE_ES_MEMORY_DEALLOCATED + BucketId)) (ActualSize Bd)
                   (FirstOffset Bucket)) m in
            if Status =? CFE_SUCCESS then
              (Status, Some (ActualSize Bd),
               set_bucket P b
                 (mk_bucket (BlockSize Bucket) BlockOffset (bkt_AllocationCount Bucket)
                    (u32 (ReleaseCount Bucket + 1)) (RecycleCount Bucket)), m)
            else (Status, Some (ActualSize Bd), P, m)
          else (CFE_ES_POOL_BLOCK_INVALID, None, count_validation_error P, m)
      | None => (CFE_ES_POOL_BLOCK_INVALID, None, count_validation_error P, m)
      end
    else (Status, None, P, m).

(** ** Recovery of a pool from its storage

    One turn of the [while (true)] loop: [inl] is the status it leaves with. *)
Definition Rebuild_step P m : (Z * CFE_ES_GenPoolRecord * M) + (CFE_ES_GenPoolRecord * M) :=
  let BlockOffset := next_block P in
  if PoolMaxOffset P <? BlockOffset then inl (CFE_SUCCESS, P, m)
  else
    let DescOffset := u64 (BlockOffset - CFE_ES_GENERIC_POOL_DESCRIPTOR_SIZE) in
    let '(Status, Bd, m) := Retrieve DescOffset m in
    if negb (Status =? CFE_SUCCESS) then inl (Status, P, m)
    else
      let '(IsDeallocatedBlock, b) :=
        if CheckBits Bd =? CFE_ES_CHECK_PATTERN then
          match CFE_ES_GenPoolGetBucketState P (u16 (Allocated Bd - CFE_ES_MEMORY_DEALLOCATED)) with
          | Some b => (true, Some b)
          | None =>
              (false, CFE_ES_GenPoolGetBucketState P (u16 (Allocated Bd - CFE_ES_MEMORY_ALLOCATED)))
          end
        else (false, None) in
      match b with
      | None => inl (Status, P, m)
      | Some b =>
          let Bucket := zget (Buckets P) b in
          if BlockSize Bucket <? ActualSize Bd then inl (Status, P, m)
          else
            let tail := u64 (BlockOffset + BlockSize Bucket) in
            let count := u32 (AllocationCount P + 1) in
            let Bucket :=
              mk_bucket (BlockSize Bucket) (FirstOffset Bucket) (u32 (bkt_AllocationCount Bucket + 1))
                (ReleaseCount Bucket) (RecycleCount Bucket) in
            if (IsDeallocatedBlock : bool) then
              let Bd := mk_bd (CheckBits Bd) (Allocated Bd) (ActualSize Bd) (FirstOffset Bucket) in
              let Bucket :=
                mk_bucket (BlockSize Bucket) BlockOffset (bkt_AllocationCount Bucket)
                  (u32 (ReleaseCount Bucket + 1)) (RecycleCount Bucket) in
              let P := set_tail (set_bucket P b Bucket) tail count in
              let '(Status, m) := Commit DescOffset Bd m in
              if negb (Status =? CFE_SUCCESS) then inl (Status, P, m) else inr (P, m)
            else inr (set_tail (set_bucket P b Bucket) tail count, m)
      end.

Fixpoint Rebuild_loop (fuel : nat) P m : option (Z * CFE_ES_GenPoolRecord * M) :=
  match fuel with
  | O => None
  | S fuel' =>
      match Rebuild_step P m with
      | inl r => Some r
      | inr (P, m) => Rebuild_loop fuel' P m
      end
  end.

(** Every turn moves the tail past a descriptor, so this many turns are enough. *)
Definition CFE_ES_GenPoolRebuild P m : option (Z * CFE_ES_GenPoolRecord * M) :=
  Rebuild_loop (S (Z.to_nat ((PoolMaxOffset P - TailPosition P) / CFE_ES_GENERIC_POOL_DESCRIPTOR_SIZE)))
    P m.
End pool.

(** ** Setting up a pool *)

(** One pass of the bubble sort: the pointer walks the array; the three
    exclusive-ors swap the sizes.  The second result counts the swaps. *)
Fixpoint bubble_pass (n : nat) (bs : list CFE_ES_GenPoolBucket) (j : Z)
  : list CFE_ES_GenPoolBucket * Z :=
  match n, bs with
  | S n', b0 :: b1 :: t =>
      let set b size := mk_bucket size (FirstOffset b) (bkt_AllocationCount b) (ReleaseCount b)
                          (RecycleCount b) in
      let '(b0, b1, j) :=
        if BlockSize b1 <? BlockSize b0 then
          let b0 := set b0 (Z.lxor (BlockSize b0) (BlockSize b1)) in
          let b1 := set b1 (Z.lxor (BlockSize b1) (BlockSize b0)) in
          let b0 := set b0 (Z.lxor (BlockSize b0) (BlockSize b1)) in
          (b0, b1, u32 (j + 1))
        else (b0, b1, j) in
      let '(r, j) := bubble_pass n' (b1 :: t) j in
      (b0 :: r, j)
  | _, _ => (bs, j)
  end.

(** The [do ... while (j > 0)] loop, with at most [fuel] passes. *)
Fixpoint bubble_sort (fuel : nat) (n : nat) (bs : list CFE_ES_GenPoolBucket)
  : list CFE_ES_GenPoolBucket :=
  match fuel with
  | O => bs
  | S fuel' =>
      let '(bs, j) := bubble_pass n bs 0 in
      if 0 <? j then bubble_sort fuel' n bs else bs
  end.

(** The copy of the block sizes into the (cleared) bucket array. *)
Fixpoint copy_sizes (sizes : list Z) (bs : list CFE_ES_GenPoolBucket) : list CFE_ES_GenPoolBucket :=
  match sizes, bs with
  | size :: sizes', b :: bs' =>
      mk_bucket size (FirstOffset b) (bkt_AllocationCount b) (ReleaseCount b) (RecycleCount b)
      :: copy_sizes sizes' bs'
  | _, _ => bs
  end.

(** Status and pool; [BlockSizeList] has [NumBlockSizes] entries.  A list of [n]
    sizes has at most [n * n] inversions, and every pass but the last removes
    one. *)
Definition CFE_ES_GenPoolInitialize (StartOffset PoolSize AlignSize : Z) (BlockSizeList : list Z)
  : Z * CFE_ES_GenPoolRecord :=
  let NumBlockSizes := length BlockSizeList in
  let AlignMask := if AlignSize <=? 1 then 0 else AlignSize - 1 in
  if negb (Z.land AlignMask AlignSize =? 0) then (CFE_ES_BAD_ARGUMENT, zero_pool)
  else
    let bs := copy_sizes BlockSizeList (Buckets zero_pool) in
    let bs := bubble_sort (S (NumBlockSizes * NumBlockSizes)) (NumBlockSizes - 1) bs in
    let P := mk_pool PoolSize (u64 (PoolSize + StartOffset)) AlignMask StartOffset 0 0
               (Z.of_nat NumBlockSizes) bs in
    if BlockSize (zget bs 0) =? 0 then (CFE_ES_ERR_MEM_BLOCK_SIZE, P) else (CFE_SUCCESS, P).

Definition CFE_ES_GenPoolCalcMinSize (BlockSizeList : list Z) (NumBlocks : Z) : Z :=
  let MinBlockSize :=
    match BlockSizeList with
    | [] => 0
    | size :: rest =>
        fold_left (fun MinBlockSize size => if size <? MinBlockSize then size else MinBlockSize) rest size
    end in
  let MinBlockSize := u64 (MinBlockSize + CFE_ES_GENERIC_POOL_DESCRIPTOR_SIZE) in
  u64 (NumBlocks * MinBlockSize).

(** ** Reports *)

Definition CFE_ES_GenPoolValidateState (P : CFE_ES_GenPoolRecord) : bool :=
  (0 <? PoolTotalSize P) && (TailPosition P <=? PoolMaxOffset P) && (0 <? NumBuckets P)
  && (NumBuckets P <=? CFE_PLATFORM_ES_POOL_MAX_BUCKETS).

(** Free and total size, as 32-bit telemetry values. *)
Definition CFE_ES_GenPoolGetUsage (P : CFE_ES_GenPoolRecord) : Z * Z :=
  (u32 (u64 (PoolMaxOffset P - TailPosition P)), u32 (PoolTotalSize P)).

Definition CFE_ES_GenPoolGetCounts (P : CFE_ES_GenPoolRecord) : Z * Z * Z :=
  (NumBuckets P, AllocationCount P, ValidationErrorCount P).

Record CFE_ES_BlockStats := mk_stats { stat_BlockSize : Z; NumCreated : Z; NumFree : Z }.

Definition CFE_ES_GenPoolGetBucketUsage (P : CFE_ES_GenPoolRecord) (BucketId : Z) : CFE_ES_BlockStats :=
  let Bucket :=
    match CFE_ES_GenPoolGetBucketState P BucketId with
    | None => zero_bucket
    | Some b => zget (Buckets P) b
    end in
  mk_stats (u32 (BlockSize Bucket)) (bkt_AllocationCount Bucket)
    (u32 (ReleaseCount Bucket - RecycleCount Bucket)).
