(* ===== verification/GenPoolInit.v ===== *)
(** * Setting up a generic pool: sorting and selecting buckets

    [CFE_ES_GenPoolInitialize] sorts the block sizes with a bubble sort that
    swaps by exclusive-or.  The pass is shown to remove one inversion per swap,
    which bounds the number of passes; the result is the sorted permutation of
    the sizes, on which [CFE_ES_GenPoolFindBucket] picks the smallest block that
    fits. *)

From Stdlib Require Import Sorting.Sorted Sorting.Permutation.
From S2P Require Import Prelude ResourceId GenPool.

(** ** A pass on plain sizes

    [carry a l]: a pass over [a :: l]; the second result counts the swaps. *)
Fixpoint carry (a : Z) (l : list Z) : list Z * Z :=
  match l with
  | [] => ([a], 0)
  | b :: t =>
      if b <? a then let '(r, n) := carry a t in (b :: r, n + 1)
      else let '(r, n) := carry b t in (a :: r, n)
  end.

Definition smaller (a : Z) (l : list Z) : Z := zlen (List.filter (fun x => x <? a) l).

Fixpoint inversions (l : list Z) : Z :=
  match l with
  | [] => 0
  | a :: t => smaller a t + inversions t
  end.

Lemma smaller_perm a l l' : Permutation l l' -> smaller a l = smaller a l'.
Proof.
  unfold smaller. induction 1; cbn; repeat case_test; rewrite ?zlen_cons; lia.
Qed.

Lemma smaller_cons a b l : smaller a (b :: l) = (if b <? a then 1 else 0) + smaller a l.
Proof. unfold smaller. cbn. case_test; rewrite ?zlen_cons; lia. Qed.

Lemma carry_spec l : forall a,
  let '(r, n) := carry a l in
  Permutation (a :: l) r /\ 0 <= n /\ inversions r + n = inversions (a :: l)
  /\ (n = 0 -> r = a :: l /\ Sorted Z.le (a :: l)).
Proof.
  induction l as [|b t IH]; intros a; cbn [carry].
  { split_and!; [done|lia|cbn; lia|]. intros _. split; [done|]. repeat constructor. }
  destruct (Z.ltb_spec b a).
  - specialize (IH a). destruct (carry a t) as [r n]. destruct IH as (Hp & Hn & Hi & _).
    split_and!; [|lia| |lia].
    + etransitivity; [apply perm_swap|]. by constructor.
    + cbn [inversions] in *. rewrite <- (smaller_perm b _ _ Hp), !smaller_cons.
      destruct (Z.ltb_spec a b), (Z.ltb_spec b a); lia.
  - specialize (IH b). destruct (carry b t) as [r n]. destruct IH as (Hp & Hn & Hi & Hs).
    split_and!; [by constructor|lia| |].
    + cbn [inversions] in *. rewrite <- (smaller_perm a _ _ Hp). lia.
    + intros E. destruct (Hs E) as [-> Hsort]. split; [done|]. constructor; [done|]. by constructor.
Qed.

Lemma smaller_bound a l : 0 <= smaller a l <= zlen l.
Proof. unfold smaller. pose proof (zlen_filter (fun x => x <? a) l). pose proof (zlen_nonneg (List.filter (fun x => x <? a) l)). lia. Qed.

Lemma inversions_bound l : 0 <= inversions l <= zlen l * zlen l.
Proof.
  induction l as [|a t IH]; [done|]. cbn [inversions]. rewrite zlen_cons.
  pose proof (smaller_bound a t). pose proof (zlen_nonneg t). nia.
Qed.

(** ** The pass of the program *)

Definition sizes_of (bs : list CFE_ES_GenPoolBucket) : list Z := map BlockSize bs.

(** Everything but the sizes. *)
Definition cleared (b : CFE_ES_GenPoolBucket) : Prop :=
  FirstOffset b = 0 /\ bkt_AllocationCount b = 0 /\ ReleaseCount b = 0 /\ RecycleCount b = 0.

Lemma xor_swap a b :
  let a' := Z.lxor a b in let b' := Z.lxor b a' in Z.lxor a' b' = b /\ b' = a.
Proof.
  cbn zeta. assert (E : Z.lxor b (Z.lxor a b) = a)
    by (by rewrite (Z.lxor_comm a b), <- Z.lxor_assoc, Z.lxor_nilpotent, Z.lxor_0_l).
  split; [|done]. rewrite E, (Z.lxor_comm a b), Z.lxor_assoc.
  by rewrite Z.lxor_nilpotent, Z.lxor_0_r.
Qed.

Lemma carry_count l : forall a, snd (carry a l) <= zlen l.
Proof.
  induction l as [|b t IH]; intros a; cbn [carry]; [done|]. rewrite zlen_cons.
  case_test; [specialize (IH a); destruct (carry a t)|specialize (IH b); destruct (carry b t)]; cbn in *; lia.
Qed.

(** [n] comparisons from the start of the array: the first [n + 1] sizes are
    passed over, the rest is untouched. *)
Lemma bubble_pass_spec n : forall b t j,
  (n <= length t)%nat -> 0 <= j -> j + Z.of_nat n < 2 ^ 32 -> Forall cleared (b :: t) ->
  let '(r, k) := carry (BlockSize b) (take n (sizes_of t)) in
  let '(bs, j') := bubble_pass n (b :: t) j in
  sizes_of bs = r ++ drop n (sizes_of t) /\ j' = j + k /\ Forall cleared bs
  /\ length bs = S (length t).
Proof.
  induction n as [|n IH]; intros b t j Hlen Hj Hb Hc.
  { destruct t; cbn; by rewrite Z.add_0_r. }
  destruct t as [|b1 t]; [cbn in Hlen; lia|]. cbn [sizes_of map take carry bubble_pass].
  apply Forall_cons_1 in Hc as [Hc0 Hc]. apply Forall_cons_1 in Hc as [Hc1 Hct].
  destruct (xor_swap (BlockSize b) (BlockSize b1)) as [E0 E1].
  destruct (Z.ltb_spec (BlockSize b1) (BlockSize b)).
  - cbn [BlockSize]. rewrite E1 in *. rewrite E0. rewrite u32_id by range.
    specialize (IH (mk_bucket (BlockSize b) (FirstOffset b1) (bkt_AllocationCount b1)
      (ReleaseCount b1) (RecycleCount b1)) t (j + 1)). cbn [BlockSize] in IH.
    pose proof (carry_count (take n (sizes_of t)) (BlockSize b)) as Hk.
    unfold sizes_of in *. destruct (carry (BlockSize b) _) as [r k].
    destruct (bubble_pass n _ (j + 1)) as [bs j'].
    destruct IH as (H1 & H2 & H3 & H4); [cbn in Hlen; lia|lia|lia|by constructor|].
    cbn [map app drop]. split_and!; [by rewrite H1|lia|by constructor|cbn; by rewrite H4].
  - specialize (IH b1 t j).
    unfold sizes_of in *. destruct (carry (BlockSize b1) _) as [r k].
    destruct (bubble_pass n _ j) as [bs j'].
    destruct IH as (H1 & H2 & H3 & H4); [cbn in Hlen; lia|lia|lia|by constructor|].
    cbn [map app drop]. split_and!; [by rewrite H1|lia|by constructor|cbn; by rewrite H4].
Qed.

(** The sort, on the first [n + 1] buckets, with more passes than inversions. *)
Lemma bubble_sort_spec n fuel : forall bs,
  (n < length bs)%nat -> Z.of_nat n < 2 ^ 31 -> Forall cleared bs ->
  inversions (take (S n) (sizes_of bs)) < Z.of_nat fuel ->
  let bs' := bubble_sort fuel n bs in
  exists l, sizes_of bs' = l ++ drop (S n) (sizes_of bs) /\ Permutation (take (S n) (sizes_of bs)) l
    /\ Sorted Z.le l /\ Forall cleared bs' /\ length bs' = length bs.
Proof.
  induction fuel as [|fuel IH]; intros bs Hn Hb Hc Hi.
  { pose proof (inversions_bound (take (S n) (sizes_of bs))). lia. }
  destruct bs as [|b t]; [cbn in Hn; lia|]. cbn [bubble_sort].
  pose proof (bubble_pass_spec n b t 0 ltac:(cbn in Hn; lia) ltac:(lia) ltac:(lia) Hc) as Hp.
  pose proof (carry_spec (take n (sizes_of t)) (BlockSize b)) as Hcs.
  change (take (S n) (sizes_of (b :: t))) with (BlockSize b :: take n (sizes_of t)) in *.
  change (drop (S n) (sizes_of (b :: t))) with (drop n (sizes_of t)).
  destruct (carry (BlockSize b) (take n (sizes_of t))) as [r k].
  destruct (bubble_pass n (b :: t) 0) as [bs j'].
  destruct Hp as (H1 & -> & H3 & H4), Hcs as (Hperm & Hk & Hinv & Hdone).
  assert (Hlr : length r = S n).
  { rewrite <- (Permutation_length Hperm). cbn. rewrite length_take. unfold sizes_of.
    rewrite length_map. cbn in Hn. lia. }
  assert (Htake : take (S n) (sizes_of bs) = r) by (rewrite H1, <- Hlr; apply take_app_length).
  assert (Hdrop : drop (S n) (sizes_of bs) = drop n (sizes_of t)) by (rewrite H1, <- Hlr; apply drop_app_length).
  destruct (Z.ltb_spec 0 (0 + k)).
  - destruct (IH bs) as (l & G1 & G2 & G3 & G4 & G5); [cbn in *; lia|done|done|rewrite Htake; lia|].
    rewrite Hdrop, Htake in *. exists l. split_and!; try done; [by etransitivity|cbn in *; lia].
  - destruct (Hdone ltac:(lia)) as [-> Hs]. exists (BlockSize b :: take n (sizes_of t)).
    by split_and!.
Qed.

(** ** A pool ready for use *)

(** The configuration part of a pool record: the buckets in use are sorted by
    size, sizes are positive and below 2^32, the mask is a power of two less
    one, offsets fit in 32 bits. *)
Record configured (P : CFE_ES_GenPoolRecord) (k : Z) : Prop := {
  cf_len : zlen (Buckets P) = CFE_PLATFORM_ES_POOL_MAX_BUCKETS;
  cf_num : 1 <= NumBuckets P <= CFE_PLATFORM_ES_POOL_MAX_BUCKETS;
  cf_mask : AlignMask P = 2 ^ k - 1;
  cf_align : 0 <= k <= 12;
  cf_max : PoolMaxOffset P < 2 ^ 32;
  cf_size : forall b, 0 <= b < NumBuckets P -> 0 < BlockSize (zget (Buckets P) b) < 2 ^ 32;
  cf_sorted : forall b b', 0 <= b <= b' -> b' < NumBuckets P ->
    BlockSize (zget (Buckets P) b) <= BlockSize (zget (Buckets P) b')
}.

Lemma sizes_copy sizes bs :
  (length sizes <= length bs)%nat ->
  sizes_of (copy_sizes sizes bs) = sizes ++ drop (length sizes) (sizes_of bs)
  /\ length (copy_sizes sizes bs) = length bs.
Proof.
  revert bs. induction sizes as [|z l IH]; intros bs Hl; [done|].
  destruct bs as [|b bs]; [cbn in Hl; lia|]. destruct (IH bs) as [H1 H2]; [cbn in Hl; lia|].
  unfold sizes_of in *. cbn. by rewrite H1, H2.
Qed.

Lemma cleared_copy sizes bs : Forall cleared bs -> Forall cleared (copy_sizes sizes bs).
Proof.
  revert bs. induction sizes as [|z l IH]; intros bs Hc; [done|].
  destruct bs as [|b bs]; [done|]. apply Forall_cons_1 in Hc as [Hb Hc]. cbn. constructor; auto.
Qed.

Lemma sorted_lookup (l : list Z) i j :
  Sorted Z.le l -> (i <= j < length l)%nat -> l !!! i <= l !!! j.
Proof.
  intros Hs. apply Sorted_StronglySorted in Hs; [|intros ???; lia].
  revert i j. induction Hs as [|a l Hs IH Ha]; intros i j Hij; [cbn in Hij; lia|].
  destruct i as [|i], j as [|j]; cbn in Hij |- *; [lia| |lia|apply IH; lia].
  rewrite List.Forall_forall in Ha. apply Ha, list_elem_of_In, list_elem_of_lookup_2 with j.
  apply list_lookup_lookup_total_lt. lia.
Qed.

Lemma size_lookup bs i : 0 <= i < zlen bs -> BlockSize (zget bs i) = sizes_of bs !!! Z.to_nat i.
Proof.
  unfold zget, zlen, sizes_of. intros Hi. symmetry. apply list_lookup_total_correct.
  rewrite list_lookup_fmap, list_lookup_lookup_total_lt by lia. done.
Qed.

(** The alignment test: [AlignMask & AlignSize] vanishes exactly for 0, 1 and the
    powers of two. *)
Definition valid_align (a : Z) : Prop := a <= 1 \/ exists k, 0 < k /\ a = 2 ^ k.

Lemma align_test a : 0 <= a ->
  (Z.land (if a <=? 1 then 0 else a - 1) a =? 0) = true <-> valid_align a.
Proof.
  intros Ha. rewrite Z.eqb_eq. unfold valid_align. destruct (Z.leb_spec a 1); [rewrite Z.land_0_l; tauto|].
  split.
  - intros E. right. pose proof (Z.log2_spec a ltac:(lia)) as Hl. pose proof (Z.log2_pos a ltac:(lia)).
    rewrite Z.pow_succ_r in Hl by lia. exists (Z.log2 a). split; [done|].
    destruct (decide (a = 2 ^ Z.log2 a)) as [|Hne]; [done|]. exfalso.
    assert (Hb : Z.testbit (Z.land (a - 1) a) (Z.log2 a) = true).
    { rewrite Z.land_spec, Z.bit_log2, andb_true_r by lia.
      rewrite <- (Z.log2_unique' (a - 1) (Z.log2 a) (a - 1 - 2 ^ Z.log2 a)) at 1 by lia.
      apply Z.bit_log2. lia. }
    by rewrite E, Z.bits_0 in Hb.
  - intros [|(k & Hk & ->)]; [lia|]. rewrite Z.land_comm, land_mask by lia.
    apply Z.mod_same. lia.
Qed.

Lemma initial_buckets_cleared : Forall cleared (Buckets zero_pool).
Proof. by apply Forall_replicate. Qed.

(** The buckets after [CFE_ES_GenPoolInitialize]. *)
Lemma init_buckets sizes :
  (1 <= length sizes <= 17)%nat ->
  let n := length sizes in
  let bs := bubble_sort (S (n * n)) (n - 1) (copy_sizes sizes (Buckets zero_pool)) in
  exists l, Permutation sizes l /\ Sorted Z.le l /\ take n (sizes_of bs) = l
    /\ Forall cleared bs /\ length bs = 17%nat.
Proof.
  intros Hn n bs. assert (H17 : length (Buckets zero_pool) = 17%nat) by reflexivity.
  destruct (sizes_copy sizes (Buckets zero_pool)) as [Hs Hl]; [lia|].
  assert (En : S (n - 1) = n) by (unfold n; lia).
  assert (Ht : take n (sizes_of (copy_sizes sizes (Buckets zero_pool))) = sizes)
    by (rewrite Hs; apply take_app_length).
  pose proof (inversions_bound sizes) as Hi.
  destruct (bubble_sort_spec (n - 1) (S (n * n)) (copy_sizes sizes (Buckets zero_pool)))
    as (l & G1 & G2 & G3 & G4 & G5).
  - rewrite Hl. lia.
  - unfold n. lia.
  - apply cleared_copy, initial_buckets_cleared.
  - rewrite En, Ht. unfold n, zlen in *. lia.
  - rewrite En, Ht in *. fold bs in G1, G5. exists l. split_and!; try done; [|by rewrite G5, Hl].
    rewrite G1. apply take_app_length'. by rewrite <- (Permutation_length G2).
Qed.

Lemma init_sizes (bs : list CFE_ES_GenPoolBucket) (l : list Z) b :
  length bs = 17%nat -> take (length l) (sizes_of bs) = l -> 0 <= b < zlen l -> zlen l <= 17 ->
  BlockSize (zget bs b) = l !!! Z.to_nat b.
Proof.
  intros Hl Ht Hb H17. unfold zlen in *. rewrite size_lookup by (unfold zlen; lia).
  rewrite <- Ht at 1. symmetry. apply lookup_total_take_lt. lia.
Qed.

Lemma Initialize_eff (StartOffset PoolSize AlignSize : Z) (sizes : list Z) :
  0 <= StartOffset -> 0 <= PoolSize -> PoolSize + StartOffset < 2 ^ 32 -> 0 <= AlignSize <= 4096 ->
  (1 <= length sizes <= 17)%nat -> Forall (fun z => 0 <= z < 2 ^ 32) sizes ->
  let '(rc, P) := CFE_ES_GenPoolInitialize StartOffset PoolSize AlignSize sizes in
  (rc = CFE_ES_BAD_ARGUMENT <-> ~ valid_align AlignSize)
  /\ (rc = CFE_ES_ERR_MEM_BLOCK_SIZE <-> valid_align AlignSize /\ In 0 sizes)
  /\ (rc = CFE_SUCCESS <-> valid_align AlignSize /\ ~ In 0 sizes)
  /\ (rc = CFE_SUCCESS ->
      Permutation sizes (take (length sizes) (sizes_of (Buckets P)))
      /\ Sorted Z.le (take (length sizes) (sizes_of (Buckets P)))
      /\ Forall cleared (Buckets P) /\ NumBuckets P = zlen sizes /\ TailPosition P = StartOffset
      /\ PoolMaxOffset P = PoolSize + StartOffset /\ exists k, configured P k).
Proof.
  intros Hst Hsz Hmax Hal Hn Hall. pose proof (align_test AlignSize ltac:(lia)) as Htest.
  unfold CFE_ES_GenPoolInitialize.
  destruct (Z.land (if AlignSize <=? 1 then 0 else AlignSize - 1) AlignSize =? 0) eqn:Ea; cbn [negb].
  2:{ assert (~ valid_align AlignSize) by (intros Hv; by apply Htest in Hv).
      split_and!; try done; split; try done; intros [? _]; done. }
  assert (Hva : valid_align AlignSize) by (by apply Htest).
  destruct (init_buckets sizes Hn) as (l & Hperm & Hsort & Htake & Hclr & Hlen). cbn zeta in *.
  set (bs := bubble_sort _ _ _) in *. pose proof (Permutation_length Hperm) as Hll.
  assert (Hb : forall b, 0 <= b < zlen sizes -> BlockSize (zget bs b) = l !!! Z.to_nat b).
  { intros b Hb. unfold zlen in *. apply init_sizes; unfold zlen; try lia. by rewrite <- Hll. }
  assert (Hpos : forall b, (b < length l)%nat -> 0 <= l !!! b < 2 ^ 32).
  { intros b Hbl. rewrite List.Forall_forall in Hall. apply Hall, list_elem_of_In. rewrite Hperm.
    apply list_elem_of_lookup_2 with b. by apply list_lookup_lookup_total_lt. }
  assert (Hzero : l !!! 0%nat = 0 <-> In 0 sizes).
  { rewrite <- list_elem_of_In, Hperm. split.
    - intros E. apply list_elem_of_lookup_2 with 0%nat.
      rewrite (list_lookup_lookup_total_lt l 0) by lia. by rewrite E.
    - intros (i & Hi)%list_elem_of_lookup_1. pose proof (lookup_lt_Some _ _ _ Hi).
      pose proof (sorted_lookup l 0 i Hsort ltac:(lia)). pose proof (Hpos 0%nat ltac:(lia)).
      rewrite (list_lookup_total_correct l i 0 Hi) in *. lia. }
  rewrite (Hb 0) by (unfold zlen; lia). change (Z.to_nat 0) with 0%nat.
  destruct (Z.eqb_spec (l !!! 0%nat) 0) as [E0|E0].
  { apply Hzero in E0. split_and!; try done; split; try done; intros [_ ?]; done. }
  assert (Hnz : ~ In 0 sizes) by (by rewrite <- Hzero).
  split_and!; try done; [split; [done|]; intros [_ ?]; done|]. intros _.
  cbn [Buckets TailPosition NumBuckets PoolMaxOffset]. rewrite Htake.
  split_and!; try done; [apply u64_id; range|].
  assert (exists k, 0 <= k <= 12 /\ (if AlignSize <=? 1 then 0 else AlignSize - 1) = 2 ^ k - 1) as (k & Hk & Ek).
  { destruct Hva as [|(k & Hk & ->)]; [exists 0; case_test; lia|]. exists k.
    assert (2 ^ 1 <= 2 ^ k) by (apply Z.pow_le_mono_r; lia). assert (k <= 12).
    { apply Z.nlt_ge. intros Hlt. assert (2 ^ 12 < 2 ^ k) by (apply Z.pow_lt_mono_r; lia). lia. }
    case_test; lia. }
  exists k. constructor; cbn [AlignMask NumBuckets Buckets PoolMaxOffset]; try done.
  - unfold zlen. by rewrite Hlen.
  - change CFE_PLATFORM_ES_POOL_MAX_BUCKETS with 17. lia.
  - rewrite u64_id by range. lia.
  - intros b Hbr. rewrite Hb by done. unfold zlen in *.
    pose proof (Hpos (Z.to_nat b) ltac:(lia)). pose proof (sorted_lookup l 0 (Z.to_nat b) Hsort ltac:(lia)).
    pose proof (Hpos 0%nat ltac:(lia)). lia.
  - intros b b' Hbb Hb'. unfold zlen in *. rewrite !Hb by lia. apply sorted_lookup; [done|lia].
Qed.

(** [CFE_ES_GenPoolInitialize]: it rejects exactly the alignments that are
    not powers of two, then exactly the size lists that contain a zero; on
    success the buckets hold the requested block sizes sorted in increasing
    order, with all counters and free lists empty, the tail at the start
    offset, and the pool satisfies [configured], on which every later
    operation relies. *)
Theorem Initialize_sorts (StartOffset PoolSize AlignSize : Z) (sizes : list Z) :
  0 <= StartOffset -> 0 <= PoolSize -> PoolSize + StartOffset < 2 ^ 32 -> 0 <= AlignSize <= 4096 ->
  (1 <= length sizes <= 17)%nat -> Forall (fun z => 0 <= z < 2 ^ 32) sizes ->
  let '(rc, P) := CFE_ES_GenPoolInitialize StartOffset PoolSize AlignSize sizes in
  (rc = CFE_ES_BAD_ARGUMENT <-> ~ valid_align AlignSize)
  /\ (rc = CFE_ES_ERR_MEM_BLOCK_SIZE <-> valid_align AlignSize /\ In 0 sizes)
  /\ (rc = CFE_SUCCESS <-> valid_align AlignSize /\ ~ In 0 sizes)
  /\ (rc = CFE_SUCCESS ->
      Permutation sizes (take (length sizes) (sizes_of (Buckets P)))
      /\ Sorted Z.le (take (length sizes) (sizes_of (Buckets P)))
      /\ Forall cleared (Buckets P) /\ NumBuckets P = zlen sizes /\ TailPosition P = StartOffset
      /\ PoolMaxOffset P = PoolSize + StartOffset /\ exists k, configured P k).
Proof. apply Initialize_eff. Qed.

Lemma Initialize_sorts_witness :
  exists P, CFE_ES_GenPoolInitialize 0 1000 8 [64; 16; 32] = (CFE_SUCCESS, P)
    /\ take 3 (sizes_of (Buckets P)) = [16; 32; 64] /\ exists k, configured P k.
Proof.
  pose proof (Initialize_sorts 0 1000 8 [64; 16; 32] ltac:(lia) ltac:(lia) ltac:(lia) ltac:(lia)
    ltac:(cbn; lia) ltac:(repeat constructor; lia)) as H.
  destruct (CFE_ES_GenPoolInitialize 0 1000 8 [64; 16; 32]) as [rc P] eqn:E.
  assert (Hrc : rc = CFE_SUCCESS).
  { transitivity (fst (rc, P)); [reflexivity|]. rewrite <- E. vm_compute. reflexivity. }
  exists P. split; [rewrite Hrc; reflexivity|]. split.
  - transitivity (take 3 (sizes_of (Buckets (snd (rc, P))))); [reflexivity|].
    rewrite <- E. vm_compute. reflexivity.
  - apply (proj2 (proj2 (proj2 H)) Hrc).
Defined.

Lemma Initialize_counts start size align sizes :
  AllocationCount (snd (CFE_ES_GenPoolInitialize start size align sizes)) = 0.
Proof.
  unfold CFE_ES_GenPoolInitialize. cbn zeta. destruct (negb _); [done|]. by destruct (_ =? 0).
Qed.

(** ** Choosing a bucket *)

Lemma FindBucket_loop_spec req n bs i :
  (n <= length bs)%nat ->
  let r := FindBucket_loop bs n req i in
  i <= r <= i + Z.of_nat n
  /\ (forall j, i <= j < r -> BlockSize (zget bs (j - i)) < req)
  /\ (r < i + Z.of_nat n -> req <= BlockSize (zget bs (r - i))).
Proof.
  revert bs i. induction n as [|n IH]; intros bs i Hn; [destruct bs; cbn; split_and!; lia|].
  destruct bs as [|b bs]; [cbn in Hn; lia|]. cbn [FindBucket_loop].
  destruct (Z.leb_spec req (BlockSize b)).
  { cbn zeta. split_and!; [lia..|]. intros _. by rewrite Z.sub_diag. }
  assert (Hsh : forall j, i + 1 <= j -> zget (b :: bs) (j - i) = zget bs (j - (i + 1))).
  { intros j Hj. unfold zget. by replace (Z.to_nat (j - i)) with (S (Z.to_nat (j - (i + 1)))) by lia. }
  cbn zeta. destruct (IH bs (i + 1)) as (H1 & H2 & H3); [cbn in Hn; lia|]. split_and!; [lia..| |].
  - intros j Hj. destruct (decide (j = i)) as [->|]; [by rewrite Z.sub_diag|].
    rewrite Hsh by lia. apply H2. lia.
  - intros Hr. rewrite Hsh by lia. apply H3. lia.
Qed.

(** The bucket found: the smallest block that fits, or none. *)
Lemma FindBucket_spec P k req :
  configured P k ->
  (CFE_ES_GenPoolFindBucket P req = 0 /\ forall b, 0 <= b < NumBuckets P -> BlockSize (zget (Buckets P) b) < req)
  \/ exists b, 0 <= b < NumBuckets P /\ CFE_ES_GenPoolFindBucket P req = NumBuckets P - b
      /\ req <= BlockSize (zget (Buckets P) b)
      /\ forall j, 0 <= j < b -> BlockSize (zget (Buckets P) j) < req.
Proof.
  intros [C1 C2 _ _ _ _ _]. unfold CFE_ES_GenPoolFindBucket.
  change CFE_PLATFORM_ES_POOL_MAX_BUCKETS with 17 in *. unfold zlen in C1.
  pose proof (FindBucket_loop_spec req (Z.to_nat (NumBuckets P)) (Buckets P) 0 ltac:(lia)) as H.
  cbn zeta in H. set (r := FindBucket_loop _ _ _ _) in *. destruct H as (H1 & H2 & H3).
  rewrite u16_id by range. destruct (decide (r = NumBuckets P)) as [->|].
  - left. split; [lia|]. intros b Hb. replace b with (b - 0) by lia. apply H2. lia.
  - right. exists r. split_and!; try lia.
    + rewrite Z.sub_0_r in H3. apply H3. lia.
    + intros j Hj. replace j with (j - 0) by lia. apply H2. lia.
Qed.

Lemma GetBucketState_spec P k b :
  configured P k -> 0 <= b < NumBuckets P ->
  CFE_ES_GenPoolGetBucketState P (NumBuckets P - b) = Some b.
Proof.
  intros [_ C2 _ _ _ _ _] Hb. change CFE_PLATFORM_ES_POOL_MAX_BUCKETS with 17 in *.
  unfold CFE_ES_GenPoolGetBucketState. replace (NumBuckets P - (NumBuckets P - b)) with b by lia.
  rewrite u16_id by range. destruct (Z.leb_spec (NumBuckets P) b); [lia|done].
Qed.

(** Any 16-bit value that is not the ID of a bucket is refused. *)
Lemma GetBucketState_inv P k id b :
  configured P k -> is_u16 id -> CFE_ES_GenPoolGetBucketState P id = Some b ->
  0 <= b < NumBuckets P /\ id = NumBuckets P - b.
Proof.
  intros [_ C2 _ _ _ _ _] Hid. change CFE_PLATFORM_ES_POOL_MAX_BUCKETS with 17 in *.
  unfold CFE_ES_GenPoolGetBucketState, u16. unfold is_u16 in Hid. case_test; [done|].
  intros [= <-]. pose proof (Z.mod_pos_bound (NumBuckets P - id) (2 ^ 16)). split; [lia|].
  destruct (Z.lt_ge_cases (NumBuckets P) id).
  - assert (Em : (NumBuckets P - id) mod 2 ^ 16 = NumBuckets P - id + 2 ^ 16).
    { symmetry. apply Zmod_unique with (-1); lia. } lia.
  - rewrite Z.mod_small by lia. lia.
Qed.
