(* ===== verification/GenPoolProofs.v ===== *)
(** * Correctness of the generic memory pool

    The abstract pool is the list of blocks created so far, in address order,
    each in use or free, and one stack of free offsets per bucket.  [rep] relates
    it to the pool record and the storage.  The theorems show that getting,
    returning and rebuilding act on the abstract pool as specified, against any
    storage that satisfies [StorageLaws]. *)

From S2P Require Import Prelude ResourceId GenPool GenPoolInit.

Definition DESC : Z := 24.

Definition wf_bd (b : CFE_ES_GenPoolBD) : Prop :=
  is_u16 (CheckBits b) /\ is_u16 (Allocated b) /\ is_u64 (ActualSize b) /\ is_u64 (NextOffset b).

(** What the pool relies on: retrieving and committing a descriptor inside the
    region succeed, and a committed descriptor is read back until its 24 bytes
    are written again. *)
Class StorageLaws (M : Type) `{PoolStorage M} := {
  desc_at : M -> Z -> CFE_ES_GenPoolBD;
  region : M -> Z;
  retrieve_law : forall o m, 0 <= o -> o + DESC <= region m ->
    exists m', Retrieve o m = (CFE_SUCCESS, desc_at m o, m') /\ region m' = region m
      /\ forall o', desc_at m' o' = desc_at m o';
  commit_law : forall o b m, 0 <= o -> o + DESC <= region m -> wf_bd b ->
    exists m', Commit o b m = (CFE_SUCCESS, m') /\ region m' = region m /\ desc_at m' o = b
      /\ forall o', 0 <= o' -> o' + DESC <= o \/ o + DESC <= o' -> desc_at m' o' = desc_at m o'
}.

(** ** The abstract pool *)

Record ablock := mk_ablock { ab_off : Z; ab_bkt : Z; ab_used : bool; ab_size : Z }.
Record apool := mk_apool { a_blocks : list ablock; a_free : Z -> list Z }.

Definition sz (P : CFE_ES_GenPoolRecord) (b : Z) : Z := BlockSize (zget (Buckets P) b).

(** Blocks follow each other, each after its descriptor and aligned. *)
Fixpoint laid (size : Z -> Z) (k tail0 : Z) (l : list ablock) (tail : Z) : Prop :=
  match l with
  | [] => tail = tail0
  | blk :: t =>
      ab_off blk = align_up (tail0 + DESC) k /\ laid size k (ab_off blk + size (ab_bkt blk)) t tail
  end.

Definition set_free (f : Z -> list Z) (b : Z) (l : list Z) : Z -> list Z :=
  fun b' => if b' =? b then l else f b'.

(** ** Layout *)

Section layout.
Variables (size : Z -> Z) (k : Z).
Hypothesis Hk : 0 <= k.

Lemma laid_app t0 l1 l2 t : laid size k t0 (l1 ++ l2) t <-> exists t1, laid size k t0 l1 t1 /\ laid size k t1 l2 t.
Proof using.
  revert t0. induction l1 as [|blk l1 IH]; intros t0; cbn.
  - split; [eauto|]. by intros (t1 & -> & ?).
  - rewrite IH. split; [intros (E & t1 & H1 & H2); eauto|]. intros (t1 & (E & H1) & H2). eauto.
Qed.

Definition positive (l : list ablock) : Prop := Forall (fun blk => 0 < size (ab_bkt blk)) l.

Lemma laid_bounds t0 l t :
  laid size k t0 l t -> positive l ->
  t0 + zlen l * DESC <= t
  /\ forall blk, In blk l -> t0 + DESC <= ab_off blk /\ ab_off blk + size (ab_bkt blk) <= t
                             /\ ab_off blk mod 2 ^ k = 0.
Proof using Hk.
  revert t0. induction l as [|blk l IH]; intros t0 Hl Hp; cbn in Hl.
  { subst t. split; [change (zlen []) with 0; lia|done]. }
  destruct Hl as [E Hl]. apply Forall_cons_1 in Hp as [Hp0 Hp].
  destruct (align_up_spec (t0 + DESC) k Hk) as [Ha Hm]. rewrite <- E in *.
  destruct (IH _ Hl Hp) as [IH1 IH2]. rewrite zlen_cons. pose proof (zlen_nonneg l).
  change DESC with 24 in *. split; [lia|].
  intros blk' [<-|Hin]; [split_and!; try lia; done|].
  destruct (IH2 blk' Hin) as (H1 & H2 & H3). split_and!; try done; lia.
Qed.

(** Two blocks at different places of the list do not touch each other, their
    descriptors included. *)
Lemma laid_apart t0 l1 blk l2 t blk' :
  laid size k t0 (l1 ++ blk :: l2) t -> positive (l1 ++ blk :: l2) -> In blk' (l1 ++ l2) ->
  ab_off blk' + size (ab_bkt blk') <= ab_off blk - DESC
  \/ ab_off blk + size (ab_bkt blk) <= ab_off blk' - DESC.
Proof using Hk.
  intros Hl Hp Hin. apply laid_app in Hl as (t1 & H1 & E & H2).
  apply Forall_app in Hp as [Hp1 Hp2]. apply Forall_cons_1 in Hp2 as [Hp0 Hp2].
  destruct (align_up_spec (t1 + DESC) k Hk) as [Ha _]. rewrite <- E in Ha.
  apply in_app_iff in Hin as [Hin|Hin].
  - left. destruct (laid_bounds _ _ _ H1 Hp1) as [_ Hb]. destruct (Hb _ Hin) as (_ & Hb2 & _). lia.
  - right. destruct (laid_bounds _ _ _ H2 Hp2) as [_ Hb]. destruct (Hb _ Hin) as (Hb1 & _). lia.
Qed.

(** The layout depends on offsets and buckets only. *)
Lemma laid_swap t0 l1 blk l2 t used n :
  laid size k t0 (l1 ++ blk :: l2) t ->
  laid size k t0 (l1 ++ mk_ablock (ab_off blk) (ab_bkt blk) used n :: l2) t.
Proof using. intros Hl. apply laid_app in Hl as (t1 & H1 & H2). apply laid_app. eauto. Qed.
End layout.

Lemma laid_ext size size' k t0 l t :
  (forall blk, In blk l -> size (ab_bkt blk) = size' (ab_bkt blk)) ->
  laid size k t0 l t -> laid size' k t0 l t.
Proof.
  revert t0. induction l as [|blk l IH]; intros t0 He Hl; [done|]. destruct Hl as [E Hl]. split; [done|].
  rewrite <- (He blk) by (by left). apply IH; [|done]. intros b Hb. apply He. by right.
Qed.

(** ** Representation *)

Section rep.
Context {M : Type} `{StorageLaws M}.
Variables (k start : Z).

(** The free list of a bucket: linked through the descriptors, 0 at its end. *)
Fixpoint chain (m : M) (first : Z) (l : list Z) : Prop :=
  match l with
  | [] => first = 0
  | o :: t => first = o /\ chain m (NextOffset (desc_at m (o - DESC))) t
  end.

Definition marker (used : bool) : Z :=
  if used then CFE_ES_MEMORY_ALLOCATED else CFE_ES_MEMORY_DEALLOCATED.

Definition desc_ok (P : CFE_ES_GenPoolRecord) (m : M) (blk : ablock) : Prop :=
  let d := desc_at m (ab_off blk - DESC) in
  CheckBits d = CFE_ES_CHECK_PATTERN
  /\ Allocated d = marker (ab_used blk) + (NumBuckets P - ab_bkt blk)
  /\ ActualSize d = ab_size blk /\ 0 <= ab_size blk <= sz P (ab_bkt blk)
  /\ 0 <= ab_bkt blk < NumBuckets P.

Record bucket_ok (B : CFE_ES_GenPoolBucket) (m : M) (A : apool) (b : Z) : Prop := {
  bo_chain : chain m (FirstOffset B) (a_free A b);
  bo_nodup : NoDup (a_free A b);
  bo_free : forall o, In o (a_free A b) <->
    exists blk, In blk (a_blocks A) /\ ab_off blk = o /\ ab_bkt blk = b /\ ab_used blk = false;
  bo_release : is_u32 (ReleaseCount B) /\ is_u32 (RecycleCount B)
               /\ u32 (ReleaseCount B - RecycleCount B) = zlen (a_free A b);
  bo_count : bkt_AllocationCount B = zlen (List.filter (fun blk => ab_bkt blk =? b) (a_blocks A))
}.

Record rep (P : CFE_ES_GenPoolRecord) (m : M) (A : apool) : Prop := {
  r_conf : configured P k;
  r_start : 0 <= start <= TailPosition P;
  r_region : TailPosition P <= PoolMaxOffset P <= region m;
  r_layout : laid (sz P) k start (a_blocks A) (TailPosition P);
  r_desc : Forall (desc_ok P m) (a_blocks A);
  r_bucket : forall b, 0 <= b < NumBuckets P -> bucket_ok (zget (Buckets P) b) m A b;
  r_total : AllocationCount P = zlen (a_blocks A)
}.

Lemma rep_positive P m A : rep P m A -> positive (sz P) (a_blocks A).
Proof.
  intros [R1 _ _ _ R5 _ _]. eapply List.Forall_impl; [|exact R5].
  intros blk (_ & _ & _ & _ & Hb). by apply (cf_size P k R1).
Qed.

Lemma rep_k P m A : rep P m A -> 0 <= k.
Proof. intros [R1 _ _ _ _ _ _]. destruct R1. lia. Qed.

(** The bounds every proof needs. *)
Lemma rep_bounds P m A blk :
  rep P m A -> In blk (a_blocks A) ->
  start + DESC <= ab_off blk /\ ab_off blk + sz P (ab_bkt blk) <= TailPosition P
  /\ 0 < sz P (ab_bkt blk) /\ 0 <= ab_bkt blk < NumBuckets P /\ ab_off blk mod 2 ^ k = 0
  /\ TailPosition P <= region m /\ TailPosition P < 2 ^ 32 /\ 0 <= start.
Proof.
  intros HR Hin. pose proof (rep_positive _ _ _ HR) as Hp. pose proof (rep_k _ _ _ HR) as Hk.
  destruct HR as [R1 R2 R3 R4 R5 _ _]. destruct (laid_bounds _ _ Hk _ _ _ R4 Hp) as [_ Hb].
  destruct (Hb blk Hin) as (B1 & B2 & B3). unfold positive in Hp. rewrite List.Forall_forall in Hp, R5.
  specialize (Hp blk Hin). destruct (R5 blk Hin) as (_ & _ & _ & _ & Hbkt).
  pose proof (cf_max P k R1). split_and!; try lia; done.
Qed.

Lemma rep_count P m A : rep P m A -> zlen (a_blocks A) < 2 ^ 31.
Proof.
  intros HR. pose proof (rep_positive _ _ _ HR) as Hp. pose proof (rep_k _ _ _ HR) as Hk.
  destruct HR as [R1 R2 R3 R4 _ _ _]. destruct (laid_bounds _ _ Hk _ _ _ R4 Hp) as [Hb _].
  pose proof (cf_max P k R1). change DESC with 24 in *. lia.
Qed.

(** A descriptor is at least [DESC] bytes away from that of any other block. *)
Lemma rep_apart P m A l1 blk l2 blk' :
  rep P m A -> a_blocks A = l1 ++ blk :: l2 -> In blk' (l1 ++ l2) ->
  ab_off blk' + DESC <= ab_off blk \/ ab_off blk + DESC <= ab_off blk'.
Proof.
  intros HR E Hin. pose proof (rep_positive _ _ _ HR) as Hp. pose proof (rep_k _ _ _ HR) as Hk.
  assert (Hin' : In blk' (a_blocks A)).
  { rewrite E. apply in_app_iff in Hin as [?|?]; apply in_app_iff; [by left|right; by right]. }
  assert (Hin0 : In blk (a_blocks A)) by (rewrite E; apply in_app_iff; right; by left).
  destruct (rep_bounds _ _ _ _ HR Hin') as (_ & _ & B1 & _). destruct (rep_bounds _ _ _ _ HR Hin0) as (_ & _ & B2 & _).
  destruct HR as [_ _ _ R4 _ _ _]. rewrite E in R4, Hp.
  destruct (laid_apart _ _ Hk _ _ _ _ _ _ R4 Hp Hin); lia.
Qed.

(** Offsets identify blocks. *)
Lemma rep_unique P m A l1 blk l2 blk' :
  rep P m A -> a_blocks A = l1 ++ blk :: l2 -> In blk' (a_blocks A) -> ab_off blk' = ab_off blk -> blk' = blk.
Proof.
  intros HR E Hin Eo. rewrite E in Hin. apply in_app_iff in Hin as [Hin|[<-|Hin]]; [|done|];
    (destruct (rep_apart P m A l1 blk l2 blk' HR E); [apply in_app_iff; auto|change DESC with 24 in *; lia..]).
Qed.

Lemma chain_frame m m' first l :
  (forall o, In o l -> desc_at m' (o - DESC) = desc_at m (o - DESC)) ->
  chain m first l -> chain m' first l.
Proof.
  revert first. induction l as [|o l IH]; intros first He Hc; [done|].
  destruct Hc as [E Hc]. split; [done|]. rewrite He by (by left). apply IH; [|done].
  intros o' Ho'. apply He. by right.
Qed.

Lemma in_swap {A} (x y : A) l1 l2 : In x (l1 ++ y :: l2) <-> x = y \/ In x (l1 ++ l2).
Proof. rewrite !in_app_iff. cbn. intuition. Qed.

Lemma configured_set_bucket P b B :
  configured P k -> 0 <= b < NumBuckets P -> BlockSize B = sz P b -> configured (set_bucket P b B) k.
Proof.
  intros [C1 C2 C3 C4 C5 C6 C7] Hb Es. change CFE_PLATFORM_ES_POOL_MAX_BUCKETS with 17 in *.
  assert (Hz : forall b', 0 <= b' -> BlockSize (zget (zset (Buckets P) b B) b') = BlockSize (zget (Buckets P) b')).
  { intros b' Hb'. rewrite zget_zset by lia. destruct (Z.eqb_spec b b') as [<-|]; done. }
  constructor; cbn [Buckets NumBuckets AlignMask PoolMaxOffset set_bucket]; try done.
  - by rewrite zlen_zset.
  - intros b' Hb'. rewrite Hz by lia. by apply C6.
  - intros b' b'' H1 H2. rewrite !Hz by lia. by apply C7.
Qed.

Lemma sz_set_bucket P b B b' :
  configured P k -> 0 <= b < NumBuckets P -> BlockSize B = sz P b -> 0 <= b' ->
  sz (set_bucket P b B) b' = sz P b'.
Proof.
  intros [C1 C2 _ _ _ _ _] Hb Es Hb'. change CFE_PLATFORM_ES_POOL_MAX_BUCKETS with 17 in *.
  unfold sz in *. cbn. rewrite zget_zset by lia. destruct (Z.eqb_spec b b') as [<-|]; done.
Qed.

Lemma sz_set_tail P t c b : sz (set_tail P t c) b = sz P b.
Proof. done. Qed.

(** The descriptors other than the one written. *)
Definition elsewhere (m m' : M) (o : Z) : Prop :=
  region m' = region m
  /\ forall o', 0 <= o' -> o' + DESC <= o \/ o + DESC <= o' -> desc_at m' o' = desc_at m o'.

(** *** Changing the state of one block *)

Section switch.
Variables (P : CFE_ES_GenPoolRecord) (m m' : M) (A : apool) (l1 l2 : list ablock) (blk : ablock).
Variables (used : bool) (n next : Z) (B' : CFE_ES_GenPoolBucket) (fl' : list Z).
Hypothesis HR : rep P m A.
Hypothesis HE : a_blocks A = l1 ++ blk :: l2.
Hypothesis Hother : elsewhere m m' (ab_off blk - DESC).
Hypothesis Hdesc : desc_at m' (ab_off blk - DESC)
                   = mk_bd CFE_ES_CHECK_PATTERN (marker used + (NumBuckets P - ab_bkt blk)) n next.
Hypothesis Hn : 0 <= n <= sz P (ab_bkt blk).
Hypothesis HB : BlockSize B' = sz P (ab_bkt blk).

#[local] Abbreviation blk' := (mk_ablock (ab_off blk) (ab_bkt blk) used n).
#[local] Abbreviation A' := (mk_apool (l1 ++ blk' :: l2) (set_free (a_free A) (ab_bkt blk) fl')).

Lemma switch_in : In blk (a_blocks A).
Proof using HE. rewrite HE. apply in_swap. by left. Qed.

(** The other blocks keep their descriptors. *)
Lemma switch_frame blk0 : In blk0 (l1 ++ l2) -> desc_at m' (ab_off blk0 - DESC) = desc_at m (ab_off blk0 - DESC).
Proof using HR HE Hother.
  intros Hin. destruct (rep_apart _ _ _ _ _ _ _ HR HE Hin) as [Ha|Ha];
    (destruct (rep_bounds _ _ _ blk0 HR) as (B1 & _ & _ & _ & _ & _ & _ & B0);
     [rewrite HE; apply in_swap; by right|]); apply Hother; change DESC with 24 in *; lia.
Qed.

Lemma switch_offset o : In o (map ab_off (l1 ++ l2)) -> o <> ab_off blk.
Proof using HR HE.
  intros (blk0 & <- & Hin)%in_map_iff. destruct (rep_apart _ _ _ _ _ _ _ HR HE Hin); change DESC with 24 in *; lia.
Qed.

Lemma switch_free b o : b <> ab_bkt blk ->
  (exists b0, In b0 (a_blocks A) /\ ab_off b0 = o /\ ab_bkt b0 = b /\ ab_used b0 = false) <->
  (exists b0, In b0 (l1 ++ blk' :: l2) /\ ab_off b0 = o /\ ab_bkt b0 = b /\ ab_used b0 = false).
Proof using HE.
  intros Hb. rewrite HE. setoid_rewrite in_swap.
  split; intros (b0 & [->|Hin] & E1 & E2 & E3); try (cbn in E2; congruence); eauto 7.
Qed.

Lemma switch_count b :
  zlen (List.filter (fun x => ab_bkt x =? b) (l1 ++ blk' :: l2))
  = zlen (List.filter (fun x => ab_bkt x =? b) (a_blocks A)).
Proof using HE.
  rewrite HE, !List.filter_app, !zlen_app. cbn. destruct (ab_bkt blk =? b); by rewrite ?zlen_cons.
Qed.

Lemma rep_switch :
  bucket_ok B' m' A' (ab_bkt blk) -> rep (set_bucket P (ab_bkt blk) B') m' A'.
Proof using HR HE Hother Hdesc Hn HB.
  intros Hok. pose proof (rep_bounds _ _ _ _ HR switch_in) as (_ & _ & _ & Hb & _).
  pose proof (rep_positive _ _ _ HR) as Hpos. assert (HR' := HR). destruct HR as [R1 R2 R3 R4 R5 R6 R7].
  rewrite List.Forall_forall in R5.
  assert (Hsz : forall b', 0 <= b' -> sz (set_bucket P (ab_bkt blk) B') b' = sz P b')
    by (intros; by apply sz_set_bucket).
  constructor; cbn [a_blocks a_free TailPosition PoolMaxOffset NumBuckets AllocationCount Buckets set_bucket]; try done.
  - by apply configured_set_bucket.
  - destruct Hother as [-> _]. done.
  - eapply laid_ext; [|rewrite HE in R4; by apply laid_swap].
    intros b0 [->|Hin]%in_swap; symmetry; apply Hsz; [cbn; lia|].
    destruct (R5 b0) as (_ & _ & _ & _ & ?); [rewrite HE; apply in_swap; by right|lia].
  - apply List.Forall_forall. intros b0 [->|Hin]%in_swap.
    + unfold desc_ok. cbn [ab_off ab_bkt ab_used ab_size]. rewrite Hdesc, Hsz by lia. cbn. split_and!; done || lia.
    + destruct (R5 b0) as (D1 & D2 & D3 & D4 & D5); [rewrite HE; apply in_swap; by right|].
      unfold desc_ok. rewrite switch_frame, Hsz by (done || lia). cbn. done.
  - intros b Hbr. destruct R1 as [C1 C2 _ _ _ _ _]. change CFE_PLATFORM_ES_POOL_MAX_BUCKETS with 17 in *.
    rewrite zget_zset by lia. destruct (Z.eqb_spec (ab_bkt blk) b) as [<-|Hne]; [done|].
    destruct (R6 b Hbr) as [O1 O2 O3 O4 O5].
    assert (Ef : set_free (a_free A) (ab_bkt blk) fl' b = a_free A b)
      by (unfold set_free; by destruct (Z.eqb_spec b (ab_bkt blk))).
    constructor; cbn [a_blocks a_free]; rewrite ?Ef; try done.
    + eapply chain_frame; [|exact O1]. intros o Ho. apply O3 in Ho as (b0 & Hin & <- & Eb & _).
      apply switch_frame. rewrite HE in Hin. apply in_swap in Hin as [->|?]; [congruence|done].
    + intros o. rewrite O3. by apply switch_free.
    + rewrite switch_count. done.
  - rewrite R7, HE, !zlen_app, !zlen_cons. done.
Qed.

(** The elements of a free list that are not this block stay linked. *)
Lemma switch_chain l first :
  chain m first l -> (forall o, In o l -> In o (map ab_off (l1 ++ l2))) -> chain m' first l.
Proof using HR HE Hother.
  intros Hc Hl. eapply chain_frame; [|exact Hc].
  intros o (b0 & <- & Hin)%Hl%in_map_iff. by apply switch_frame.
Qed.

Lemma bucket_ok_pop rest B :
  zget (Buckets P) (ab_bkt blk) = B -> used = true -> fl' = rest ->
  a_free A (ab_bkt blk) = ab_off blk :: rest ->
  bucket_ok (mk_bucket (BlockSize B) (NextOffset (desc_at m (ab_off blk - DESC)))
    (bkt_AllocationCount B) (ReleaseCount B) (u32 (RecycleCount B + 1))) m' A' (ab_bkt blk).
Proof using HR HE Hother.
  intros <- Hu Hf Efl. pose proof (rep_bounds _ _ _ _ HR switch_in) as (_ & _ & _ & Hb & _).
  destruct (r_bucket _ _ _ HR _ Hb) as [O1 O2 O3 O4 O5].
  rewrite Efl in O1, O2. pose proof (NoDup_cons_1_1 _ _ O2) as Onot. pose proof (NoDup_cons_1_2 _ _ O2) as Ond. destruct O1 as [_ Oc].
  assert (Hrest : forall o, In o rest -> exists b0, In b0 (l1 ++ l2) /\ ab_off b0 = o /\ ab_bkt b0 = ab_bkt blk
                                                   /\ ab_used b0 = false).
  { intros o Ho. assert (In o (a_free A (ab_bkt blk))) as (b0 & Hin & E1 & E2)%O3 by (rewrite Efl; by right).
    rewrite HE in Hin. apply in_swap in Hin as [->|Hin]; [|by exists b0].
    exfalso. apply Onot. rewrite E1. by apply list_elem_of_In. }
  assert (Es : set_free (a_free A) (ab_bkt blk) fl' (ab_bkt blk) = rest)
    by (unfold set_free; by rewrite Z.eqb_refl).
  constructor; cbn [a_blocks a_free FirstOffset ReleaseCount RecycleCount bkt_AllocationCount]; rewrite ?Es; try done.
  - apply switch_chain; [done|]. intros o (b0 & Hin & <- & _)%Hrest. by apply in_map.
  - intros o. split.
    + intros (b0 & Hin & E)%Hrest. exists b0. split; [|done]. apply in_swap. by right.
    + intros (b0 & [->|Hin]%in_swap & E1 & E2 & E3); [cbn in E3; congruence|].
      assert (Ho : In o (a_free A (ab_bkt blk))).
      { apply O3. exists b0. split; [|done]. rewrite HE. apply in_swap. by right. }
      rewrite Efl in Ho. destruct Ho as [<-|Ho]; [|done]. exfalso.
      apply (switch_offset (ab_off blk)); [|done]. rewrite <- E1. by apply in_map.
  - destruct O4 as (U1 & U2 & U3). split_and!; [done|apply u32_range|]. rewrite Efl, zlen_cons in U3.
    pose proof (zlen_nonneg rest). unfold u32 in *. rewrite Zminus_mod_idemp_r.
    replace (_ - (_ + 1)) with (ReleaseCount (zget (Buckets P) (ab_bkt blk))
      - RecycleCount (zget (Buckets P) (ab_bkt blk)) - 1) by lia.
    rewrite <- Zminus_mod_idemp_l, U3. rewrite Z.mod_small; [lia|].
    pose proof (Z.mod_pos_bound (ReleaseCount (zget (Buckets P) (ab_bkt blk))
      - RecycleCount (zget (Buckets P) (ab_bkt blk))) (2 ^ 32)). lia.
  - by rewrite switch_count.
Qed.

Lemma free_length b : 0 <= b < NumBuckets P -> zlen (a_free A b) <= zlen (a_blocks A).
Proof using HR.
  intros Hb. destruct (r_bucket _ _ _ HR _ Hb) as [_ O2 O3 _ _]. unfold zlen.
  rewrite <- (length_map ab_off). apply Nat2Z.inj_le. apply List.NoDup_incl_length.
  - by apply NoDup_ListNoDup.
  - intros o (b0 & Hin & <- & _)%O3. by apply in_map.
Qed.

Lemma bucket_ok_push B :
  zget (Buckets P) (ab_bkt blk) = B -> used = false -> next = FirstOffset B -> ab_used blk = true ->
  fl' = ab_off blk :: a_free A (ab_bkt blk) ->
  bucket_ok (mk_bucket (BlockSize B) (ab_off blk) (bkt_AllocationCount B) (u32 (ReleaseCount B + 1))
    (RecycleCount B)) m' A' (ab_bkt blk).
Proof using HR HE Hother Hdesc.
  intros <- Hu Hnx Hused Hf. pose proof (rep_bounds _ _ _ _ HR switch_in) as (_ & _ & _ & Hb & _).
  destruct (r_bucket _ _ _ HR _ Hb) as [O1 O2 O3 O4 O5].
  assert (Hfl : forall o, In o (a_free A (ab_bkt blk)) -> exists b0, In b0 (l1 ++ l2) /\ ab_off b0 = o
      /\ ab_bkt b0 = ab_bkt blk /\ ab_used b0 = false).
  { intros o (b0 & Hin & E1 & E2 & E3)%O3. rewrite HE in Hin.
    apply in_swap in Hin as [->|Hin]; [congruence|by exists b0]. }
  assert (Es : set_free (a_free A) (ab_bkt blk) fl' (ab_bkt blk)
               = ab_off blk :: a_free A (ab_bkt blk)) by (unfold set_free; by rewrite Z.eqb_refl).
  constructor; cbn [a_blocks a_free FirstOffset ReleaseCount RecycleCount bkt_AllocationCount]; rewrite ?Es; try done.
  - split; [done|]. rewrite Hdesc, Hnx. cbn [NextOffset]. apply switch_chain; [done|].
    intros o (b0 & Hin & <- & _)%Hfl. by apply in_map.
  - apply NoDup_cons_2; [|done]. intros (b0 & Hin & E & _)%list_elem_of_In%Hfl.
    apply (switch_offset (ab_off blk)); [|done]. rewrite <- E. by apply in_map.
  - intros o. split.
    + intros [<-|(b0 & Hin & E)%Hfl]; [exists blk'; split; [apply in_swap; by left|done]|].
      exists b0. split; [|done]. apply in_swap. by right.
    + intros (b0 & [->|Hin]%in_swap & E1 & E2 & E3); [by left|right]. apply O3. exists b0.
      split; [|done]. rewrite HE. apply in_swap. by right.
  - destruct O4 as (U1 & U2 & U3). split_and!; [apply u32_range|done|]. rewrite zlen_cons, <- U3.
    pose proof (free_length _ Hb). pose proof (rep_count _ _ _ HR). rewrite <- U3 in *.
    unfold u32 in *. rewrite Zminus_mod_idemp_l.
    replace (_ + 1 - _) with (ReleaseCount (zget (Buckets P) (ab_bkt blk))
      - RecycleCount (zget (Buckets P) (ab_bkt blk)) + 1) by lia.
    rewrite <- Zplus_mod_idemp_l. rewrite Z.mod_small; [lia|].
    pose proof (Z.mod_pos_bound (ReleaseCount (zget (Buckets P) (ab_bkt blk))
      - RecycleCount (zget (Buckets P) (ab_bkt blk))) (2 ^ 32)). lia.
  - by rewrite switch_count.
Qed.
End switch.

(** *** Adding a block at the tail *)

Section append.
Variables (P : CFE_ES_GenPoolRecord) (m m' : M) (A : apool) (b n next : Z) (used : bool).
Hypothesis HR : rep P m A.
Hypothesis Hb : 0 <= b < NumBuckets P.

#[local] Abbreviation off := (align_up (TailPosition P + DESC) k).
#[local] Abbreviation blk := (mk_ablock off b used n).
#[local] Abbreviation B := (zget (Buckets P) b).
#[local] Abbreviation fl' := (if used then a_free A b else off :: a_free A b).
#[local] Abbreviation A' := (mk_apool (a_blocks A ++ [blk]) (set_free (a_free A) b fl')).

Hypothesis Hfit : off + sz P b <= PoolMaxOffset P.
Hypothesis Hother : elsewhere m m' (off - DESC).
Hypothesis Hdesc : desc_at m' (off - DESC)
                   = mk_bd CFE_ES_CHECK_PATTERN (marker used + (NumBuckets P - b)) n next.
Hypothesis Hn : 0 <= n <= sz P b.

Lemma append_off : TailPosition P + DESC <= off /\ 0 <= TailPosition P.
Proof using HR.
  pose proof (align_up_spec (TailPosition P + DESC) k (rep_k _ _ _ HR)).
  destruct HR as [_ R2 _ _ _ _ _]. lia.
Qed.

Lemma append_frame blk0 :
  In blk0 (a_blocks A) -> desc_at m' (ab_off blk0 - DESC) = desc_at m (ab_off blk0 - DESC).
Proof using HR Hother.
  intros Hin. pose proof (rep_bounds _ _ _ _ HR Hin). pose proof append_off. apply Hother; change DESC with 24 in *; lia.
Qed.

Lemma append_chain b0 first :
  0 <= b0 < NumBuckets P -> chain m first (a_free A b0) -> chain m' first (a_free A b0).
Proof using HR Hother.
  intros Hb0 Hc. eapply chain_frame; [|exact Hc].
  intros o (x & Hin & <- & _)%(bo_free _ _ _ _ (r_bucket _ _ _ HR _ Hb0)). by apply append_frame.
Qed.

Lemma append_in x : In x (a_blocks A ++ [blk]) <-> In x (a_blocks A) \/ x = blk.
Proof using. rewrite in_app_iff. cbn [In]. split; [intros [?|[<-|[]]]; auto|intros [?| ->]; auto]. Qed.

Lemma append_count b0 :
  zlen (List.filter (fun x => ab_bkt x =? b0) (a_blocks A ++ [blk]))
  = zlen (List.filter (fun x => ab_bkt x =? b0) (a_blocks A)) + (if b =? b0 then 1 else 0).
Proof using.
  rewrite List.filter_app, zlen_app. cbn. by destruct (b =? b0).
Qed.

Lemma rep_append B' :
  BlockSize B' = sz P b -> bucket_ok B' m' A' b ->
  rep (set_tail (set_bucket P b B') (off + sz P b) (u32 (AllocationCount P + 1))) m' A'.
Proof using HR Hb Hfit Hother Hdesc Hn.
  intros HB Hok. pose proof append_off as [Ho Ht]. pose proof (rep_count _ _ _ HR) as Hcnt.
  pose proof (cf_size P k (r_conf _ _ _ HR) b Hb) as Hszb. fold (sz P b) in Hszb.
  assert (HR' := HR). destruct HR as [R1 R2 R3 R4 R5 R6 R7]. rewrite List.Forall_forall in R5.
  assert (Hsz : forall b', 0 <= b' -> sz (set_bucket P b B') b' = sz P b') by (intros; by apply sz_set_bucket).
  constructor; cbn [a_blocks a_free TailPosition PoolMaxOffset NumBuckets AllocationCount Buckets set_bucket set_tail].
  - destruct (configured_set_bucket P b B' R1 Hb HB). by constructor.
  - change DESC with 24 in *. lia.
  - destruct Hother as [-> _]. lia.
  - apply laid_app. exists (TailPosition P). split; [|cbn; split; [done|]; by rewrite <- Hsz by lia].
    eapply laid_ext; [|exact R4]. intros x Hx. symmetry. apply Hsz. destruct (R5 x Hx) as (_ & _ & _ & _ & ?). lia.
  - apply List.Forall_forall. intros x [Hx| ->]%append_in; unfold desc_ok.
    + destruct (R5 x Hx) as (D1 & D2 & D3 & D4 & D5). rewrite append_frame by done.
      rewrite sz_set_tail, Hsz by lia. done.
    + cbn [ab_off ab_bkt ab_used ab_size]. rewrite Hdesc, sz_set_tail, Hsz by lia.
      cbn. split_and!; done || lia.
  - intros b0 Hb0. destruct R1 as [C1 C2 _ _ _ _ _]. change CFE_PLATFORM_ES_POOL_MAX_BUCKETS with 17 in *.
    rewrite zget_zset by lia. destruct (Z.eqb_spec b b0) as [<-|Hne]; [done|].
    destruct (R6 b0 Hb0) as [O1 O2 O3 O4 O5].
    assert (Ef : set_free (a_free A) b fl' b0 = a_free A b0)
      by (unfold set_free; by destruct (Z.eqb_spec b0 b)).
    constructor; cbn [a_blocks a_free]; rewrite ?Ef; try done.
    + by apply append_chain.
    + intros o. rewrite O3. setoid_rewrite append_in.
      split; [intros (x & ? & ?); eauto|]. intros (x & [Hx| ->] & E1 & E2 & E3); eauto. done.
    + rewrite append_count. destruct (Z.eqb_spec b b0); [done|]. lia.
  - rewrite zlen_app, R7. change (zlen [blk]) with 1. apply u32_id. pose proof (zlen_nonneg (a_blocks A)). range.
Qed.

Lemma append_free_list : set_free (a_free A) b fl' b = fl'.
Proof using. unfold set_free. by rewrite Z.eqb_refl. Qed.

Lemma append_bucket_count :
  u32 (bkt_AllocationCount B + 1) = zlen (List.filter (fun x => ab_bkt x =? b) (a_blocks A ++ [blk])).
Proof using HR Hb.
  rewrite append_count, Z.eqb_refl, (bo_count _ _ _ _ (r_bucket _ _ _ HR _ Hb)). apply u32_id.
  pose proof (rep_count _ _ _ HR). pose proof (zlen_filter (fun x => ab_bkt x =? b) (a_blocks A)).
  pose proof (zlen_nonneg (List.filter (fun x => ab_bkt x =? b) (a_blocks A))). range.
Qed.

Lemma append_used_ok :
  used = true ->
  bucket_ok (mk_bucket (BlockSize B) (FirstOffset B) (u32 (bkt_AllocationCount B + 1))
    (ReleaseCount B) (RecycleCount B)) m' A' b.
Proof using HR Hb Hother.
  intros Hu. destruct (r_bucket _ _ _ HR _ Hb) as [O1 O2 O3 O4 O5].
  assert (Ef : fl' = a_free A b) by (by rewrite Hu).
  constructor; cbn [a_blocks a_free FirstOffset ReleaseCount RecycleCount bkt_AllocationCount];
    rewrite ?append_free_list, ?Ef; try done.
  - by apply append_chain.
  - intros o. rewrite O3. setoid_rewrite append_in.
    split; [intros (x & ? & ?); eauto|]. intros (x & [Hx| ->] & E1 & E2 & E3); eauto. cbn in E3. congruence.
  - apply append_bucket_count.
Qed.

Lemma append_free_ok :
  used = false -> next = FirstOffset B ->
  bucket_ok (mk_bucket (BlockSize B) off (u32 (bkt_AllocationCount B + 1))
    (u32 (ReleaseCount B + 1)) (RecycleCount B)) m' A' b.
Proof using HR Hb Hother Hdesc.
  intros Hu Hnx. destruct (r_bucket _ _ _ HR _ Hb) as [O1 O2 O3 O4 O5].
  assert (Ef : fl' = off :: a_free A b) by (by rewrite Hu).
  pose proof (free_length _ _ _ HR _ Hb) as Hfl. pose proof (rep_count _ _ _ HR).
  constructor; cbn [a_blocks a_free FirstOffset ReleaseCount RecycleCount bkt_AllocationCount];
    rewrite ?append_free_list, ?Ef.
  - split; [done|]. rewrite Hdesc, Hnx. cbn [NextOffset]. by apply append_chain.
  - apply NoDup_cons_2; [|done]. intros (x & Hin & E & _)%list_elem_of_In%O3.
    pose proof (rep_bounds _ _ _ _ HR Hin). pose proof append_off. change DESC with 24 in *. lia.
  - intros o. cbn [In]. rewrite O3. setoid_rewrite append_in. split.
    + intros [<-|(x & ? & ?)]; [|eauto]. exists blk. auto.
    + intros (x & [Hx| ->] & E1 & E2 & E3); [right; eauto|by left].
  - destruct O4 as (U1 & U2 & U3). split_and!; [apply u32_range|done|]. rewrite zlen_cons, <- U3 in *.
    unfold u32 in *. rewrite Zminus_mod_idemp_l. replace (_ + 1 - _) with (ReleaseCount B - RecycleCount B + 1) by lia.
    rewrite <- Zplus_mod_idemp_l, Z.mod_small; [lia|].
    pose proof (Z.mod_pos_bound (ReleaseCount B - RecycleCount B) (2 ^ 32)). lia.
  - apply append_bucket_count.
Qed.
End append.

(** ** Getting a block *)

Lemma next_block_eq P m A : rep P m A -> next_block P = align_up (TailPosition P + DESC) k.
Proof.
  intros HR. destruct HR as [[_ _ C3 C4 C5 _ _] R2 R3 _ _ _ _]. unfold next_block.
  change CFE_ES_GENERIC_POOL_DESCRIPTOR_SIZE with DESC. rewrite C3. change DESC with 24.
  assert (H12 : 2 ^ k <= 2 ^ 12) by (apply Z.pow_le_mono_r; lia). pose proof (Z.pow_pos_nonneg 2 k).
  rewrite (u64_id (TailPosition P + 24)) by range. rewrite u64_id by range.
  replace (u64 (Z.lnot (2 ^ k - 1))) with (2 ^ 64 - 2 ^ k).
  2:{ unfold u64, Z.lnot. apply Zmod_unique with (-1); lia. }
  rewrite land_high by range. unfold align_up. f_equal; f_equal; lia.
Qed.

(** The bucket chosen for a request. *)
Definition fits (P : CFE_ES_GenPoolRecord) (req b : Z) : Prop :=
  0 <= b < NumBuckets P /\ req <= sz P b /\ forall j, 0 <= j < b -> sz P j < req.

(** What a request does to the abstract pool: status, offset, pool after. *)
Inductive get_spec (P : CFE_ES_GenPoolRecord) (A : apool) (req : Z) : Z -> option Z -> apool -> Prop :=
  | get_too_large :
      (forall b, 0 <= b < NumBuckets P -> sz P b < req) ->
      get_spec P A req CFE_ES_ERR_MEM_BLOCK_SIZE None A
  | get_recycled b l1 blk l2 rest :
      fits P req b -> a_blocks A = l1 ++ blk :: l2 -> ab_bkt blk = b -> ab_used blk = false ->
      a_free A b = ab_off blk :: rest ->
      get_spec P A req CFE_SUCCESS (Some (ab_off blk))
        (mk_apool (l1 ++ mk_ablock (ab_off blk) b true req :: l2) (set_free (a_free A) b rest))
  | get_created b :
      fits P req b -> a_free A b = [] ->
      align_up (TailPosition P + DESC) k + sz P b <= PoolMaxOffset P ->
      get_spec P A req CFE_SUCCESS (Some (align_up (TailPosition P + DESC) k))
        (mk_apool (a_blocks A ++ [mk_ablock (align_up (TailPosition P + DESC) k) b true req])
           (set_free (a_free A) b (a_free A b)))
  | get_exhausted b :
      fits P req b -> a_free A b = [] ->
      PoolMaxOffset P < align_up (TailPosition P + DESC) k + sz P b ->
      get_spec P A req CFE_ES_ERR_MEM_BLOCK_SIZE None A.

(** Bucket markers survive the 16-bit arithmetic. *)
Lemma marker_id used num b :
  1 <= num <= 17 -> 0 <= b < num ->
  u16 (marker used + (num - b)) = marker used + (num - b) /\ is_u16 (marker used + (num - b))
  /\ u16 (marker used + (num - b) - marker used) = num - b.
Proof.
  intros Hnum Hb. assert (0 <= marker used <= 0xdddd) by (destruct used; vm_compute; split; congruence).
  assert (Hu : is_u16 (marker used + (num - b))) by range.
  split_and!; [by apply u16_id|done|]. rewrite u16_id; [lia|range].
Qed.

Lemma commit_elsewhere o bd m :
  0 <= o -> o + DESC <= region m -> wf_bd bd ->
  exists m', Commit o bd m = (CFE_SUCCESS, m') /\ desc_at m' o = bd /\ elsewhere m m' o.
Proof.
  intros H1 H2 H3. destruct (commit_law o bd m H1 H2 H3) as (m' & E & Er & Ed & Ho).
  exists m'. done.
Qed.

(** Reading a descriptor leaves a store that represents the same pool. *)
Lemma rep_retrieved P m m' A :
  rep P m A -> region m' = region m -> (forall o, desc_at m' o = desc_at m o) -> rep P m' A.
Proof.
  intros [R1 R2 R3 R4 R5 R6 R7] Er Ed. constructor; try done.
  - by rewrite Er.
  - eapply List.Forall_impl; [|exact R5]. intros blk. unfold desc_ok. by rewrite Ed.
  - intros b Hb. destruct (R6 b Hb) as [O1 O2 O3 O4 O5]. constructor; try done.
    eapply chain_frame; [|exact O1]. done.
Qed.
End rep.
