(* ===== verification/DirectStorage.v ===== *)
(** * Memory-mapped pool storage (CFE_ES_MemPoolDirectRetrieve and -Commit)

    The descriptors of a memory pool are structures in memory, at the base
    address of the pool plus their offset.  Memory is a list of bytes; a
    descriptor is stored field by field, little-endian, at the offsets 0, 2, 8
    and 16 of its 24 bytes.  Retrieving is reading the structure; the fields the
    code assigns through the pointer are in memory at once, so that the commit
    function of such pools has nothing left to do: [Commit] is those writes. *)

From S2P Require Import Prelude ResourceId GenPool GenPoolProofs.

(** ** Words in byte memory *)

Fixpoint load (n : nat) (mem : list Z) (a : Z) : Z :=
  match n with
  | O => 0
  | S n' => zget mem a + 256 * load n' mem (a + 1)
  end.

Fixpoint store (n : nat) (mem : list Z) (a v : Z) : list Z :=
  match n with
  | O => mem
  | S n' => store n' (zset mem a (v mod 256)) (a + 1) (v / 256)
  end.

Lemma zlen_store n mem a v : zlen (store n mem a v) = zlen mem.
Proof. revert mem a v. induction n as [|n IH]; intros; cbn; [done|]. by rewrite IH, zlen_zset. Qed.

Lemma zget_store_out n mem a v i :
  0 <= a -> 0 <= i -> i < a \/ a + Z.of_nat n <= i -> zget (store n mem a v) i = zget mem i.
Proof.
  revert mem a v. induction n as [|n IH]; intros mem a v Ha Hi Hor; cbn; [done|].
  rewrite IH by lia. apply zget_zset_ne; lia.
Qed.

Lemma load_ext n mem mem' a :
  (forall i, a <= i < a + Z.of_nat n -> zget mem' i = zget mem i) -> load n mem' a = load n mem a.
Proof.
  revert a. induction n as [|n IH]; intros a He; cbn; [done|].
  rewrite He by lia. rewrite IH; [done|]. intros i Hi. apply He. lia.
Qed.

Lemma load_store_eq n mem a v :
  0 <= a -> a + Z.of_nat n <= zlen mem -> load n (store n mem a v) a = v mod 2 ^ (8 * Z.of_nat n).
Proof.
  revert mem a v. induction n as [|n IH]; intros mem a v Ha Hl; cbn [load store].
  { by rewrite Z.mod_1_r. }
  rewrite zget_store_out by lia. rewrite zget_zset_eq by lia.
  rewrite IH by (rewrite ?zlen_zset; lia).
  replace (8 * Z.of_nat (S n)) with (8 + 8 * Z.of_nat n) by lia. rewrite Z.pow_add_r by lia.
  change (2 ^ 8) with 256. rewrite Z.rem_mul_r by lia. done.
Qed.

Lemma load_store_out n n' mem a a' v :
  0 <= a -> 0 <= a' -> a' + Z.of_nat n' <= a \/ a + Z.of_nat n <= a' ->
  load n' (store n mem a v) a' = load n' mem a'.
Proof. intros Ha Ha' Hor. apply load_ext. intros i Hi. apply zget_store_out; lia. Qed.

(** ** Descriptors *)

(** A pool's memory: all bytes, and the address where the pool starts. *)
Record direct := mk_direct { d_base : Z; d_bytes : list Z }.

Definition load_bd (mem : list Z) (a : Z) : CFE_ES_GenPoolBD :=
  mk_bd (load 2 mem a) (load 2 mem (a + 2)) (load 8 mem (a + 8)) (load 8 mem (a + 16)).

Definition store_bd (mem : list Z) (a : Z) (bd : CFE_ES_GenPoolBD) : list Z :=
  store 8 (store 8 (store 2 (store 2 mem a (CheckBits bd)) (a + 2) (Allocated bd)) (a + 8)
    (ActualSize bd)) (a + 16) (NextOffset bd).

Definition CFE_ES_MemPoolDirectRetrieve (Offset : Z) (d : direct) : Z * CFE_ES_GenPoolBD * direct :=
  let DataAddress := d_base d + Offset in
  (CFE_SUCCESS, load_bd (d_bytes d) DataAddress, d).

Definition CFE_ES_MemPoolDirectCommit (Offset : Z) (bd : CFE_ES_GenPoolBD) (d : direct) : Z * direct :=
  (CFE_SUCCESS, mk_direct (d_base d) (store_bd (d_bytes d) (d_base d + Offset) bd)).

#[export] Instance direct_storage : PoolStorage direct := {
  Retrieve := CFE_ES_MemPoolDirectRetrieve;
  Commit := CFE_ES_MemPoolDirectCommit
}.

Lemma load_bd_store mem a bd :
  0 <= a -> a + 24 <= zlen mem -> wf_bd bd -> load_bd (store_bd mem a bd) a = bd.
Proof.
  intros Ha Hl (W1 & W2 & W3 & W4). unfold load_bd, store_bd, is_u16, is_u64 in *.
  repeat (rewrite load_store_out by lia). rewrite !load_store_eq by (rewrite ?zlen_store; lia).
  repeat (rewrite load_store_out by lia). rewrite !load_store_eq by (rewrite ?zlen_store; lia).
  repeat (rewrite load_store_out by lia). rewrite !load_store_eq by (rewrite ?zlen_store; lia).
  destruct bd. cbn in *. by rewrite !Z.mod_small by lia.
Qed.

Lemma load_bd_ext mem mem' a :
  (forall i, a <= i < a + 24 -> zget mem' i = zget mem i) -> load_bd mem' a = load_bd mem a.
Proof. intros He. unfold load_bd. f_equal; apply load_ext; intros i Hi; apply He; lia. Qed.

Lemma zget_store_bd mem a bd i :
  0 <= a -> 0 <= i -> i < a \/ a + 24 <= i -> zget (store_bd mem a bd) i = zget mem i.
Proof. intros. unfold store_bd. by rewrite !zget_store_out by lia. Qed.

(** A base address must not be negative: addresses are unsigned. *)
Definition direct_region (d : direct) : Z := if d_base d <? 0 then 0 else zlen (d_bytes d) - d_base d.

#[export] Instance direct_laws : StorageLaws direct.
Proof.
  refine {| desc_at d o := load_bd (d_bytes d) (d_base d + o); region := direct_region |};
    change DESC with 24; unfold direct_region.
  - intros o d Ho Hr. exists d. done.
  - intros o bd d Ho Hr Hwf. destruct (Z.ltb_spec (d_base d) 0); [lia|].
    eexists. split; [reflexivity|]. cbn [d_base d_bytes].
    destruct (Z.ltb_spec (d_base d) 0); [lia|]. split_and!.
    + unfold store_bd. by rewrite !zlen_store.
    + apply load_bd_store; [lia|lia|done].
    + intros o' Ho' Hor. apply load_bd_ext. intros i Hi. apply zget_store_bd; lia.
Defined.
