(* ===== verification/GenPoolOps.v ===== *)
(** * The pool operations against the abstract pool

    [CFE_ES_GenPoolGetBlock], [CFE_ES_GenPoolPutBlock],
    [CFE_ES_GenPoolGetBlockSize] and [CFE_ES_GenPoolRebuild] refine the abstract
    operations, for every storage that satisfies [StorageLaws]. *)

From S2P Require Import Prelude ResourceId GenPool GenPoolInit GenPoolProofs.

(** ** Which descriptors an operation writes *)

Section touched.
Context {M : Type} `{PoolStorage M}.

(** [m'] comes from [m] by retrieving and committing; the commits that succeed
    are at offsets in [D]. *)
Inductive touched (D : Z -> Prop) : M -> M -> Prop :=
  | t_refl m : touched D m m
  | t_retrieve m o st bd m1 m' : Retrieve o m = (st, bd, m1) -> touched D m1 m' -> touched D m m'
  | t_commit m o bd st m1 m' :
      Commit o bd m = (st, m1) -> (st = CFE_SUCCESS -> D o) -> touched D m1 m' -> touched D m m'.

Lemma touched_trans D m1 m2 m3 : touched D m1 m2 -> touched D m2 m3 -> touched D m1 m3.
Proof. induction 1; eauto using t_retrieve, t_commit. Qed.
Lemma touched_impl (D D' : Z -> Prop) m m' : (forall o, D o -> D' o) -> touched D m m' -> touched D' m m'.
Proof. intros Hi. induction 1; eauto using t_refl, t_retrieve, t_commit. Qed.
Lemma touched_retrieve D o m st bd m1 : Retrieve o m = (st, bd, m1) -> touched D m m1.
Proof. eauto using t_refl, t_retrieve. Qed.
Lemma touched_commit (D : Z -> Prop) o bd m st m1 : Commit o bd m = (st, m1) -> (st = CFE_SUCCESS -> D o) -> touched D m m1.
Proof. eauto using t_refl, t_commit. Qed.

Definition desc_of (out : option Z) (d : Z) : Prop := exists o, out = Some o /\ d = u64 (o - CFE_ES_GENERIC_POOL_DESCRIPTOR_SIZE).

(** A program that retrieves a descriptor and commits it. *)
Ltac touch :=
  repeat match goal with
  | |- context [let '(_, _) := Retrieve ?o ?m in _] =>
      let E := fresh "Er" in destruct (Retrieve o m) as [[? ?] ?] eqn:E; apply (touched_retrieve (fun _ => False)) in E
  | |- context [let '(_, _) := Commit ?o ?b ?m in _] => let E := fresh "Ec" in destruct (Commit o b m) as [? ?] eqn:E
  | |- context [if ?b then _ else _] => let E := fresh "Eb" in destruct b eqn:E
  | |- context [match CFE_ES_GenPoolGetBucketState ?P ?i with _ => _ end] => destruct (CFE_ES_GenPoolGetBucketState P i)
  end.

Lemma Recycle_touched P id n m rc out P' m' :
  CFE_ES_GenPoolRecyclePoolBlock P id n m = (rc, out, P', m') -> touched (desc_of out) m m'.
Proof.
  unfold CFE_ES_GenPoolRecyclePoolBlock. touch; intros [= <- <- <- <-]; try apply t_refl;
    try (eapply touched_impl; [|exact Er]; done);
    (eapply touched_trans; [eapply touched_impl; [|exact Er]; done|]); (eapply touched_commit; [exact Ec|]).
  - intros _. eexists. done.
  - intros ->. done.
Qed.

Lemma Create_touched P id n m rc out P' m' :
  CFE_ES_GenPoolCreatePoolBlock P id n m = (rc, out, P', m') -> touched (desc_of out) m m'.
Proof.
  unfold CFE_ES_GenPoolCreatePoolBlock. touch; intros [= <- <- <- <-]; try apply t_refl;
    try (eapply touched_impl; [|exact Er]; done);
    (eapply touched_trans; [eapply touched_impl; [|exact Er]; done|]); (eapply touched_commit; [exact Ec|]).
  - intros _. eexists. done.
  - intros ->. done.
Qed.

Lemma Recycle_failed P id n m rc out P' m' :
  CFE_ES_GenPoolRecyclePoolBlock P id n m = (rc, out, P', m') -> negb (rc =? CFE_SUCCESS) = true -> out = None.
Proof.
  unfold CFE_ES_GenPoolRecyclePoolBlock. touch; intros [= <- <- <- <-] Eb'; try done.
  match goal with H : (_ =? _) = true |- _ => rewrite H in Eb'; done end.
Qed.

Lemma GetBlock_touched P n m rc out P' m' : CFE_ES_GenPoolGetBlock P n m = (rc, out, P', m') -> touched (desc_of out) m m'.
Proof.
  unfold CFE_ES_GenPoolGetBlock. case_test; [intros [= <- <- <- <-]; apply t_refl|].
  destruct (CFE_ES_GenPoolRecyclePoolBlock P (CFE_ES_GenPoolFindBucket P n) n m) as [[[rc1 out1] P1] m1] eqn:E1.
  pose proof (Recycle_touched _ _ _ _ _ _ _ _ E1) as H1. destruct (negb (rc1 =? CFE_SUCCESS)) eqn:Eb; [|by intros [= <- <- <- <-]].
  intros E2. eapply touched_trans; [|by eapply Create_touched].
  rewrite (Recycle_failed _ _ _ _ _ _ _ _ E1 Eb) in H1. eapply touched_impl; [|exact H1]. by intros o (x & ? & _).
Qed.

Lemma PutBlock_touched P o m rc out P' m' :
  CFE_ES_GenPoolPutBlock P o m = (rc, out, P', m') -> touched (desc_of (Some o)) m m'.
Proof.
  unfold CFE_ES_GenPoolPutBlock. touch; intros [= <- <- <- <-]; try apply t_refl;
    try (eapply touched_impl; [|exact Er]; done);
    (eapply touched_trans; [eapply touched_impl; [|exact Er]; done|]); (eapply touched_commit; [exact Ec|]);
    (intros _; eexists; split; reflexivity).
Qed.

Lemma GetBlockSize_touched P o m rc out m' : CFE_ES_GenPoolGetBlockSize P o m = (rc, out, m') -> touched (fun _ => False) m m'.
Proof. unfold CFE_ES_GenPoolGetBlockSize. touch; intros [= <- <- <-]; try apply t_refl; exact Er. Qed.

Lemma Rebuild_step_touched P m P' m' : Rebuild_step P m = inr (P', m') -> touched (desc_of (Some (next_block P))) m m'.
Proof.
  unfold Rebuild_step. cbv zeta. destruct (PoolMaxOffset P <? next_block P); [done|]. destruct (Retrieve _ m) as [[st bd] m1] eqn:Er. apply (touched_retrieve (fun _ => False)) in Er.
  destruct (negb (st =? CFE_SUCCESS)); [done|]. match goal with |- context [let '(_, _) := ?x in _] => destruct x as [dealloc b] end. destruct b as [b|]; [|done].
  destruct (BlockSize (zget (Buckets P) b) <? ActualSize bd); [done|]. destruct dealloc.
  - destruct (Commit _ _ m1) as [st2 m2] eqn:Ec. destruct (negb (st2 =? CFE_SUCCESS)); [done|]. intros [= <- <-].
    eapply touched_trans; [eapply touched_impl; [|exact Er]; done|]. eapply touched_commit; [exact Ec|]. intros _. eexists. split; reflexivity.
  - intros [= <- <-]. eapply touched_impl; [|exact Er]. done.
Qed.
End touched.

Section ops.
Context {M : Type} `{StorageLaws M}.
Variables (k start : Z).
Implicit Types (P : CFE_ES_GenPoolRecord) (m : M) (A : apool).
#[local] Abbreviation rep := (rep k start).

(** Offsets of descriptors, as the code computes them. *)
Lemma desc_offset P m A blk :
  rep P m A -> In blk (a_blocks A) ->
  u64 (ab_off blk - CFE_ES_GENERIC_POOL_DESCRIPTOR_SIZE) = ab_off blk - DESC
  /\ 0 <= ab_off blk - DESC /\ ab_off blk - DESC + DESC <= region m.
Proof.
  intros HR Hin. pose proof (rep_bounds _ _ _ _ _ _ HR Hin) as B.
  change CFE_ES_GENERIC_POOL_DESCRIPTOR_SIZE with DESC. change DESC with 24 in *.
  split_and!; [apply u64_id; range|lia..].
Qed.

Lemma retrieve_block P m A blk :
  rep P m A -> In blk (a_blocks A) ->
  exists m', Retrieve (ab_off blk - DESC) m = (CFE_SUCCESS, desc_at m (ab_off blk - DESC), m')
    /\ rep P m' A /\ forall o, desc_at m' o = desc_at m o.
Proof.
  intros HR Hin. destruct (desc_offset _ _ _ _ HR Hin) as (_ & H1 & H2).
  destruct (retrieve_law (ab_off blk - DESC) m H1 H2) as (m' & E & Er & Ed).
  exists m'. split_and!; [done| |done]. by eapply rep_retrieved.
Qed.

Lemma num_range P m A : rep P m A -> 1 <= NumBuckets P <= 17.
Proof. intros HR. apply (cf_num _ _ (r_conf _ _ _ _ _ HR)). Qed.

(** What no operation changes. *)
Definition same_shape P P' : Prop :=
  NumBuckets P' = NumBuckets P /\ PoolMaxOffset P' = PoolMaxOffset P
  /\ forall b, 0 <= b -> sz P' b = sz P b.

Lemma same_shape_trans P1 P2 P3 : same_shape P1 P2 -> same_shape P2 P3 -> same_shape P1 P3.
Proof.
  intros (A1 & A2 & A3) (B1 & B2 & B3). split_and!; [congruence..|]. intros b Hb. by rewrite B3, A3.
Qed.

Lemma same_shape_bucket P b B :
  configured P k -> 0 <= b < NumBuckets P -> BlockSize B = sz P b -> same_shape P (set_bucket P b B).
Proof. intros. split_and!; [done..|]. intros. by apply (sz_set_bucket k). Qed.

Lemma Recycle_empty P m A b req :
  rep P m A -> 0 <= b < NumBuckets P -> a_free A b = [] ->
  CFE_ES_GenPoolRecyclePoolBlock P (NumBuckets P - b) req m = (CFE_ES_BUFFER_NOT_IN_POOL, None, P, m).
Proof.
  intros HR Hb Efl. unfold CFE_ES_GenPoolRecyclePoolBlock.
  rewrite (GetBucketState_spec P k b (r_conf _ _ _ _ _ HR) Hb).
  pose proof (bo_chain _ _ _ _ (r_bucket _ _ _ _ _ HR _ Hb)) as Hc. rewrite Efl in Hc. cbn in Hc.
  by rewrite Hc, orb_true_r.
Qed.

Lemma Recycle_pop P m A l1 blk l2 rest req :
  rep P m A -> a_blocks A = l1 ++ blk :: l2 -> ab_used blk = false ->
  a_free A (ab_bkt blk) = ab_off blk :: rest -> 0 <= req <= sz P (ab_bkt blk) ->
  exists P' m', CFE_ES_GenPoolRecyclePoolBlock P (NumBuckets P - ab_bkt blk) req m
                = (CFE_SUCCESS, Some (ab_off blk), P', m')
    /\ rep P' m' (mk_apool (l1 ++ mk_ablock (ab_off blk) (ab_bkt blk) true req :: l2)
                    (set_free (a_free A) (ab_bkt blk) rest)).
Proof.
  intros HR HE Hused Efl Hreq. pose proof (switch_in A l1 l2 blk HE) as Hin.
  pose proof (rep_bounds _ _ _ _ _ _ HR Hin) as (B1 & B2 & B3 & Hb & B5 & B6 & B7 & B8).
  pose proof (num_range _ _ _ HR) as Hnum.
  destruct (r_bucket _ _ _ _ _ HR _ Hb) as [O1 _ _ (U1 & U2 & U3) _]. rewrite Efl in O1, U3.
  destruct O1 as [O1 _]. rewrite zlen_cons in U3. pose proof (zlen_nonneg rest).
  unfold CFE_ES_GenPoolRecyclePoolBlock.
  rewrite (GetBucketState_spec P k _ (r_conf _ _ _ _ _ HR) Hb). set (B := zget (Buckets P) (ab_bkt blk)) in *.
  assert (Hcond : (RecycleCount B =? ReleaseCount B) || (FirstOffset B =? 0) = false).
  { apply orb_false_iff. split; apply Z.eqb_neq.
    - intros E. rewrite E, Z.sub_diag in U3. change (u32 0) with 0 in U3. lia.
    - change DESC with 24 in *. lia. }
  rewrite Hcond, O1. destruct (desc_offset _ _ _ _ HR Hin) as (Eo & D1 & D2). rewrite Eo.
  destruct (retrieve_block _ _ _ _ HR Hin) as (m1 & -> & HR1 & Hd1).
  pose proof (r_desc _ _ _ _ _ HR) as Hdesc. rewrite List.Forall_forall in Hdesc.
  destruct (Hdesc blk Hin) as (E1 & E2 & _). rewrite E1, E2, Hused.
  destruct (marker_id false (NumBuckets P) (ab_bkt blk) Hnum Hb) as (_ & _ & Em).
  change CFE_ES_MEMORY_DEALLOCATED with (marker false). rewrite Em, !Z.eqb_refl. cbn [negb orb].
  destruct (marker_id true (NumBuckets P) (ab_bkt blk) Hnum Hb) as (Em1 & Eu1 & _).
  change CFE_ES_MEMORY_ALLOCATED with (marker true). rewrite Em1.
  destruct (commit_elsewhere (ab_off blk - DESC)
    (mk_bd CFE_ES_CHECK_PATTERN (marker true + (NumBuckets P - ab_bkt blk)) req 0) m1) as (m2 & -> & Hd2 & Hel).
  { done. } { pose proof (r_region _ _ _ _ _ HR1). lia. }
  { pose proof (cf_size _ _ (r_conf _ _ _ _ _ HR) _ Hb). unfold sz in *.
    split_and!; cbn; [vm_compute; split; congruence|done|range|range]. }
  change (CFE_SUCCESS =? CFE_SUCCESS) with true. cbn iota.
  eexists _, _. split; [reflexivity|].
  eapply rep_switch; try done. rewrite <- Hd1.
  by eapply (bucket_ok_pop k start P m1 m2 A l1 l2 blk true req).
Qed.

(** The bounds of a block to be created. *)
Lemma create_bounds P m A b :
  rep P m A -> 0 <= b < NumBuckets P ->
  let off := align_up (TailPosition P + DESC) k in
  u64 (off - CFE_ES_GENERIC_POOL_DESCRIPTOR_SIZE) = off - DESC /\ 0 <= off - DESC
  /\ TailPosition P <= off - DESC < 2 ^ 33 /\ u64 (off + sz P b) = off + sz P b /\ 0 < sz P b < 2 ^ 32.
Proof.
  intros HR Hb off. destruct (r_conf _ _ _ _ _ HR) as [_ _ _ C4 C5 C6 _].
  pose proof (C6 b Hb) as Hs. fold (sz P b) in Hs.
  pose proof (align_up_spec (TailPosition P + DESC) k ltac:(lia)) as [Ha _]. fold off in Ha.
  assert (2 ^ k <= 2 ^ 12) by (apply Z.pow_le_mono_r; lia).
  pose proof (r_start _ _ _ _ _ HR). pose proof (r_region _ _ _ _ _ HR).
  change CFE_ES_GENERIC_POOL_DESCRIPTOR_SIZE with DESC. change DESC with 24 in *.
  split_and!; try lia; apply u64_id; range.
Qed.

Lemma Create_eff P m A b req :
  rep P m A -> 0 <= b < NumBuckets P -> 0 <= req <= sz P b ->
  let off := align_up (TailPosition P + DESC) k in
  (PoolMaxOffset P < off + sz P b /\
   CFE_ES_GenPoolCreatePoolBlock P (NumBuckets P - b) req m = (CFE_ES_ERR_MEM_BLOCK_SIZE, None, P, m))
  \/ (off + sz P b <= PoolMaxOffset P /\
      exists P' m', CFE_ES_GenPoolCreatePoolBlock P (NumBuckets P - b) req m = (CFE_SUCCESS, Some off, P', m')
        /\ rep P' m' (mk_apool (a_blocks A ++ [mk_ablock off b true req]) (set_free (a_free A) b (a_free A b)))).
Proof.
  intros HR Hb Hreq off. pose proof (num_range _ _ _ HR) as Hnum.
  destruct (create_bounds P m A b HR Hb) as (Eo & D1 & D2 & Et & Hs). fold off in Eo, D1, D2, Et.
  unfold CFE_ES_GenPoolCreatePoolBlock. rewrite (GetBucketState_spec P k b (r_conf _ _ _ _ _ HR) Hb).
  rewrite (next_block_eq _ _ _ _ _ HR). fold off. fold (sz P b). rewrite Et, Eo.
  destruct (Z.ltb_spec (PoolMaxOffset P) (off + sz P b)); [left; done|right]. split; [done|].
  destruct (retrieve_law (off - DESC) m D1) as (m1 & -> & Er & Hd).
  { pose proof (r_region _ _ _ _ _ HR). lia. }
  pose proof (rep_retrieved _ _ _ _ _ _ HR Er Hd) as HR1. change (CFE_SUCCESS =? CFE_SUCCESS) with true. cbn iota.
  destruct (marker_id true (NumBuckets P) b Hnum Hb) as (Em & Eu & _).
  change CFE_ES_MEMORY_ALLOCATED with (marker true). rewrite Em.
  destruct (commit_elsewhere (off - DESC) (mk_bd CFE_ES_CHECK_PATTERN (marker true + (NumBuckets P - b)) req 0) m1)
    as (m2 & -> & Hd2 & Hel).
  { done. } { pose proof (r_region _ _ _ _ _ HR1). lia. }
  { split_and!; cbn; [vm_compute; split; congruence|done|range|range]. }
  change (CFE_SUCCESS =? CFE_SUCCESS) with true. cbn iota. eexists _, _. split; [reflexivity|].
  eapply (rep_append k start P m1 m2 A b req 0 true); try done.
  by apply (append_used_ok k start P m1 m2 A b req true).
Qed.

(** A free list entry is a free block of its bucket. *)
Lemma free_block P m A b o rest :
  rep P m A -> 0 <= b < NumBuckets P -> a_free A b = o :: rest ->
  exists l1 blk l2, a_blocks A = l1 ++ blk :: l2 /\ ab_off blk = o /\ ab_bkt blk = b /\ ab_used blk = false.
Proof.
  intros HR Hb Efl.
  assert (In o (a_free A b)) as (blk & Hin & E)%(bo_free _ _ _ _ (r_bucket _ _ _ _ _ HR _ Hb))
    by (rewrite Efl; by left).
  apply in_split in Hin as (l1 & l2 & ->). eauto 8.
Qed.

Lemma first_offset_range P m A b :
  rep P m A -> 0 <= b < NumBuckets P -> is_u64 (FirstOffset (zget (Buckets P) b)).
Proof.
  intros HR Hb. pose proof (bo_chain _ _ _ _ (r_bucket _ _ _ _ _ HR _ Hb)) as Hc.
  destruct (a_free A b) as [|o rest] eqn:Efl; cbn in Hc; [rewrite Hc; range|].
  destruct (free_block _ _ _ _ _ _ HR Hb Efl) as (l1 & b0 & l2 & HE & <- & _). destruct Hc as [-> _].
  pose proof (rep_bounds _ _ _ _ _ b0 HR ltac:(rewrite HE; apply in_swap; by left)).
  change DESC with 24 in *. range.
Qed.

Lemma GetBlock_eff P m A req :
  rep P m A -> 0 <= req ->
  exists rc out P' m' A', CFE_ES_GenPoolGetBlock P req m = (rc, out, P', m')
    /\ get_spec k P A req rc out A' /\ rep P' m' A'.
Proof.
  intros HR Hreq. unfold CFE_ES_GenPoolGetBlock. pose proof (num_range _ _ _ HR) as Hnum.
  destruct (FindBucket_spec P k req (r_conf _ _ _ _ _ HR)) as [[-> Hno]|(b & Hb & -> & Hfit & Hleast)].
  { eexists _, _, _, _, _. split; [reflexivity|]. split; [by constructor|done]. }
  assert (Hf : fits P req b) by (split_and!; try done; lia).
  destruct (Z.eqb_spec (NumBuckets P - b) 0); [lia|].
  destruct (a_free A b) as [|o rest] eqn:Efl.
  - rewrite (Recycle_empty P m A b req HR Hb Efl).
    change (negb (CFE_ES_BUFFER_NOT_IN_POOL =? CFE_SUCCESS)) with true. cbn iota.
    destruct (Create_eff P m A b req HR Hb (conj Hreq Hfit)) as [[Hfull ->]|[Hroom (P' & m' & -> & HR')]].
    + eexists _, _, _, _, _. split; [reflexivity|]. split; [by eapply get_exhausted|done].
    + eexists _, _, _, _, _. split; [reflexivity|]. split; [by apply get_created|done].
  - destruct (free_block _ _ _ _ _ _ HR Hb Efl) as (l1 & blk & l2 & HE & <- & <- & Hu).
    destruct (Recycle_pop P m A l1 blk l2 rest req HR HE Hu Efl (conj Hreq Hfit)) as (P' & m' & -> & HR').
    change (negb (CFE_SUCCESS =? CFE_SUCCESS)) with false. cbn iota.
    eexists _, _, _, _, _. split; [reflexivity|]. split; [by eapply get_recycled|done].
Qed.

(** The bucket of a request. *)
Lemma FindBucket_range P n : is_u16 (CFE_ES_GenPoolFindBucket P n).
Proof. apply u16_range. Qed.

Lemma Recycle_shape P id n m rc out P' m' :
  configured P k -> is_u16 id -> CFE_ES_GenPoolRecyclePoolBlock P id n m = (rc, out, P', m') ->
  same_shape P P' /\ TailPosition P' = TailPosition P /\ (out = None -> P' = P).
Proof.
  intros Hc Hid. unfold CFE_ES_GenPoolRecyclePoolBlock.
  destruct (CFE_ES_GenPoolGetBucketState P id) as [b|] eqn:Eb; [|by intros [= <- <- <- <-]].
  destruct (GetBucketState_inv P k id b Hc Hid Eb) as [Hb _].
  destruct (_ || _); [by intros [= <- <- <- <-]|]. destruct (Retrieve _ m) as [[st bd] m1].
  destruct (st =? CFE_SUCCESS); [|by intros [= <- <- <- <-]]. destruct (_ || _); [by intros [= <- <- <- <-]|].
  destruct (Commit _ _ m1) as [st2 m2]. destruct (st2 =? CFE_SUCCESS); intros [= <- <- <- <-]; [|done].
  split_and!; [by apply same_shape_bucket|done|done].
Qed.

Lemma GetBlock_grows P m A n rc out P' m' :
  rep P m A -> CFE_ES_GenPoolGetBlock P n m = (rc, out, P', m') -> same_shape P P' /\ TailPosition P <= TailPosition P'.
Proof.
  intros HR. pose proof (r_conf _ _ _ _ _ HR) as Hc. unfold CFE_ES_GenPoolGetBlock. cbv zeta.
  pose proof (FindBucket_range P n) as Hid. destruct (CFE_ES_GenPoolFindBucket P n =? 0); [intros [= <- <- <- <-]; split; [done|lia]|].
  destruct (CFE_ES_GenPoolRecyclePoolBlock P (CFE_ES_GenPoolFindBucket P n) n m) as [[[rc1 out1] P1] m1] eqn:E1.
  destruct (Recycle_shape _ _ _ _ _ _ _ _ Hc Hid E1) as (Hs & Et & Hn).
  destruct (negb (rc1 =? CFE_SUCCESS)) eqn:Eb; [|intros [= <- <- <- <-]; split; [done|lia]].
  rewrite Hn by exact (Recycle_failed _ _ _ _ _ _ _ _ E1 Eb). unfold CFE_ES_GenPoolCreatePoolBlock.
  destruct (CFE_ES_GenPoolGetBucketState P _) as [b|] eqn:Egb; [|intros [= <- <- <- <-]; split; [done|lia]].
  destruct (GetBucketState_inv P k _ b Hc Hid Egb) as [Hb _]. destruct (create_bounds P m A b HR Hb) as (_ & D1 & D2 & Et2 & Hs0).
  destruct (_ <? _); [intros [= <- <- <- <-]; split; [done|lia]|]. destruct (Retrieve _ m1) as [[st bd] m2].
  destruct (st =? CFE_SUCCESS); [|intros [= <- <- <- <-]; split; [done|lia]].
  destruct (Commit _ _ m2) as [st2 m3]. destruct (st2 =? CFE_SUCCESS); intros [= <- <- <- <-]; [|split; [done|lia]].
  split; [by apply same_shape_bucket|]. cbn [TailPosition set_tail]. rewrite (next_block_eq _ _ _ _ _ HR). fold (sz P b). rewrite Et2.
  destruct (align_up_spec (TailPosition P + DESC) k (rep_k _ _ _ _ _ HR)) as [Ha _]. change DESC with 24 in *. lia.
Qed.

(** ** Returning a block *)

Lemma put_retrieve P m A blk (Hin : In blk (a_blocks A)) :
  rep P m A ->
  (TailPosition P <=? ab_off blk) || (ab_off blk <? CFE_ES_GENERIC_POOL_DESCRIPTOR_SIZE) = false.
Proof.
  intros HR. pose proof (rep_bounds _ _ _ _ _ _ HR Hin) as B. apply orb_false_iff.
  change CFE_ES_GENERIC_POOL_DESCRIPTOR_SIZE with 24. change DESC with 24 in *.
  split; [apply Z.leb_gt|apply Z.ltb_ge]; lia.
Qed.

(** The bucket that the code decodes from a descriptor, under either marker. *)
Lemma decode_bucket P m blk used :
  configured P k -> desc_ok P m blk ->
  CFE_ES_GenPoolGetBucketState P (u16 (Allocated (desc_at m (ab_off blk - DESC)) - marker used))
  = if Bool.eqb used (ab_used blk) then Some (ab_bkt blk) else None.
Proof.
  intros Hc (_ & E & _ & _ & Hb). pose proof (cf_num _ _ Hc) as Hnum.
  change CFE_PLATFORM_ES_POOL_MAX_BUCKETS with 17 in Hnum. rewrite E.
  destruct (Bool.eqb_spec used (ab_used blk)) as [->|Hne].
  - destruct (marker_id (ab_used blk) (NumBuckets P) (ab_bkt blk) Hnum Hb) as (_ & _ & Em). rewrite Em.
    by apply (GetBucketState_spec P k _ Hc).
  - destruct (CFE_ES_GenPoolGetBucketState P _) as [b|] eqn:Eb; [|done].
    apply (GetBucketState_inv P k _ _ Hc) in Eb as [Hb' Eb]; [|apply u16_range].
    destruct used, (ab_used blk); try done; cbn [marker] in Eb;
      change CFE_ES_MEMORY_DEALLOCATED with 0xdddd in Eb; change CFE_ES_MEMORY_ALLOCATED with 0xaaaa in Eb.
    + rewrite u16_id in Eb by range. lia.
    + assert (u16 (0xaaaa + (NumBuckets P - ab_bkt blk) - 0xdddd) = 0xaaaa + (NumBuckets P - ab_bkt blk) - 0xdddd + 2 ^ 16).
      { unfold u16. symmetry. apply Zmod_unique with (-1); lia. } lia.
Qed.

Lemma rep_desc P m A blk : rep P m A -> In blk (a_blocks A) -> desc_ok P m blk.
Proof. intros HR Hin. pose proof (r_desc _ _ _ _ _ HR) as Hd. rewrite List.Forall_forall in Hd. by apply Hd. Qed.

Lemma PutBlock_used P m A l1 blk l2 :
  rep P m A -> a_blocks A = l1 ++ blk :: l2 -> ab_used blk = true -> 0 < ab_size blk ->
  exists P' m', CFE_ES_GenPoolPutBlock P (ab_off blk) m = (CFE_SUCCESS, Some (ab_size blk), P', m')
    /\ same_shape P P' /\ TailPosition P' = TailPosition P
    /\ rep P' m' (mk_apool (l1 ++ mk_ablock (ab_off blk) (ab_bkt blk) false (ab_size blk) :: l2)
                    (set_free (a_free A) (ab_bkt blk) (ab_off blk :: a_free A (ab_bkt blk)))).
Proof.
  intros HR HE Hu Hpos. pose proof (switch_in A l1 l2 blk HE) as Hin. pose proof (num_range _ _ _ HR) as Hnum.
  unfold CFE_ES_GenPoolPutBlock. rewrite (put_retrieve _ _ _ _ Hin HR).
  destruct (desc_offset _ _ _ _ HR Hin) as (Eo & D1 & D2). rewrite Eo.
  destruct (retrieve_block _ _ _ _ HR Hin) as (m1 & -> & HR1 & Hd1).
  change (CFE_SUCCESS =? CFE_SUCCESS) with true. cbn iota.
  pose proof (decode_bucket P m blk true (r_conf _ _ _ _ _ HR) (rep_desc _ _ _ _ HR Hin)) as Hdec.
  cbn [marker] in Hdec. rewrite Hdec, Hu. cbn [Bool.eqb].
  destruct (rep_desc _ _ _ _ HR Hin) as (E1 & E2 & E3 & E4 & Hb). unfold valid_block. rewrite E1, E2, E3, Hu.
  fold (sz P (ab_bkt blk)). rewrite Z.eqb_refl.
  destruct (Z.eqb_spec (ab_size blk) 0); [lia|]. destruct (Z.ltb_spec (sz P (ab_bkt blk)) (ab_size blk)); [lia|].
  cbn [negb orb]. destruct (marker_id true (NumBuckets P) (ab_bkt blk) Hnum Hb) as (_ & _ & Em).
  destruct (marker_id false (NumBuckets P) (ab_bkt blk) Hnum Hb) as (Em2 & Eu2 & _).
  change CFE_ES_MEMORY_ALLOCATED with (marker true). rewrite Em.
  change CFE_ES_MEMORY_DEALLOCATED with (marker false). rewrite Em2.
  destruct (commit_elsewhere (ab_off blk - DESC) (mk_bd CFE_ES_CHECK_PATTERN
    (marker false + (NumBuckets P - ab_bkt blk)) (ab_size blk) (FirstOffset (zget (Buckets P) (ab_bkt blk)))) m1)
    as (m2 & -> & Hd2 & Hel).
  { done. } { pose proof (r_region _ _ _ _ _ HR1). pose proof (rep_bounds _ _ _ _ _ _ HR Hin). lia. }
  { pose proof (cf_size _ _ (r_conf _ _ _ _ _ HR) _ Hb) as Hs. unfold sz in *.
    split_and!; cbn; [vm_compute; split; congruence|done|range|].
    by apply (first_offset_range P m A). }
  change (CFE_SUCCESS =? CFE_SUCCESS) with true. cbn iota. eexists _, _. split; [reflexivity|].
  split; [by apply same_shape_bucket; [exact (r_conf _ _ _ _ _ HR)|..]|]. split; [done|].
  eapply rep_switch; try done.
  by eapply (bucket_ok_push k start P m1 m2 A l1 l2 blk false (ab_size blk)).
Qed.

(** A block that is free, or was requested with size 0, is refused. *)
Lemma PutBlock_refused P m A blk :
  rep P m A -> In blk (a_blocks A) -> ab_used blk = false \/ ab_size blk = 0 ->
  exists m', CFE_ES_GenPoolPutBlock P (ab_off blk) m
             = (CFE_ES_POOL_BLOCK_INVALID, None, count_validation_error P, m')
    /\ rep (count_validation_error P) m' A.
Proof.
  intros HR Hin Hor. unfold CFE_ES_GenPoolPutBlock. rewrite (put_retrieve _ _ _ _ Hin HR).
  destruct (desc_offset _ _ _ _ HR Hin) as (Eo & D1 & D2). rewrite Eo.
  destruct (retrieve_block _ _ _ _ HR Hin) as (m1 & -> & HR1 & Hd1).
  change (CFE_SUCCESS =? CFE_SUCCESS) with true. cbn iota.
  pose proof (decode_bucket P m blk true (r_conf _ _ _ _ _ HR) (rep_desc _ _ _ _ HR Hin)) as Hdec.
  cbn [marker] in Hdec. rewrite Hdec.
  assert (HRv : rep (count_validation_error P) m1 A).
  { destruct HR1 as [[C1 C2 C3 C4 C5 C6 C7] R2 R3 R4 R5 R6 R7]. by repeat (constructor; try done). }
  exists m1. split; [|done]. destruct (ab_used blk); cbn [Bool.eqb]; [|done].
  destruct Hor as [|E0]; [done|]. unfold valid_block.
  destruct (rep_desc _ _ _ _ HR Hin) as (_ & _ & -> & _). rewrite E0. cbn. by rewrite orb_true_r.
Qed.

Lemma PutBlock_outside P m o :
  TailPosition P <= o \/ o < CFE_ES_GENERIC_POOL_DESCRIPTOR_SIZE ->
  CFE_ES_GenPoolPutBlock P o m = (CFE_ES_BUFFER_NOT_IN_POOL, None, P, m).
Proof.
  intros Ho. unfold CFE_ES_GenPoolPutBlock.
  replace ((TailPosition P <=? o) || (o <? CFE_ES_GENERIC_POOL_DESCRIPTOR_SIZE)) with true; [done|].
  symmetry. apply orb_true_iff. destruct Ho; [left; by apply Z.leb_le|right; by apply Z.ltb_lt].
Qed.

Lemma GetBlockSize_eff P m A blk :
  rep P m A -> In blk (a_blocks A) ->
  exists m', CFE_ES_GenPoolGetBlockSize P (ab_off blk) m
    = (if ab_used blk && (0 <? ab_size blk) then (CFE_SUCCESS, Some (ab_size blk))
       else (CFE_ES_POOL_BLOCK_INVALID, None), m') /\ rep P m' A.
Proof.
  intros HR Hin. unfold CFE_ES_GenPoolGetBlockSize. rewrite (put_retrieve _ _ _ _ Hin HR).
  destruct (desc_offset _ _ _ _ HR Hin) as (Eo & D1 & D2). rewrite Eo.
  destruct (retrieve_block _ _ _ _ HR Hin) as (m1 & -> & HR1 & Hd1).
  change (CFE_SUCCESS =? CFE_SUCCESS) with true. cbn iota. exists m1. split; [|done].
  pose proof (decode_bucket P m blk true (r_conf _ _ _ _ _ HR) (rep_desc _ _ _ _ HR Hin)) as Hdec.
  cbn [marker] in Hdec. rewrite Hdec. destruct (rep_desc _ _ _ _ HR Hin) as (E1 & _ & E3 & E4 & _).
  destruct (ab_used blk); cbn [Bool.eqb andb valid_block]; [|done].
  rewrite E1, E3. fold (sz P (ab_bkt blk)). rewrite Z.eqb_refl. cbn [negb orb].
  destruct (Z.ltb_spec (sz P (ab_bkt blk)) (ab_size blk)); [lia|]. rewrite orb_false_r.
  destruct (Z.eqb_spec (ab_size blk) 0) as [->|]; [done|]. cbn. destruct (Z.ltb_spec 0 (ab_size blk)); [done|lia].
Qed.

(** ** Rebuilding *)

(** One scanned block joins the pool. *)
Definition scanned A (blk : ablock) : apool :=
  mk_apool (a_blocks A ++ [blk])
    (set_free (a_free A) (ab_bkt blk)
       (if ab_used blk then a_free A (ab_bkt blk) else ab_off blk :: a_free A (ab_bkt blk))).

Lemma Rebuild_step_block P m A blk :
  rep P m A -> ab_off blk = align_up (TailPosition P + DESC) k -> desc_ok P m blk ->
  ab_off blk + sz P (ab_bkt blk) <= PoolMaxOffset P ->
  exists P' m', Rebuild_step P m = inr (P', m') /\ rep P' m' (scanned A blk)
    /\ elsewhere m m' (ab_off blk - DESC) /\ TailPosition P' = ab_off blk + sz P (ab_bkt blk)
    /\ same_shape P P'.
Proof.
  intros HR Eo Hd Hfit. assert (Hd' := Hd). destruct Hd' as (E1 & E2 & E3 & E4 & Hb).
  destruct (create_bounds P m A _ HR Hb) as (Eu & D1 & D2 & Et & Hs). rewrite <- Eo in Eu, D1, D2, Et.
  unfold Rebuild_step. rewrite (next_block_eq _ _ _ _ _ HR), <- Eo.
  destruct (Z.ltb_spec (PoolMaxOffset P) (ab_off blk)); [lia|]. rewrite Eu.
  destruct (retrieve_law (ab_off blk - DESC) m D1) as (m1 & -> & Er & Hd1).
  { pose proof (r_region _ _ _ _ _ HR). lia. }
  pose proof (rep_retrieved _ _ _ _ _ _ HR Er Hd1) as HR1.
  change (negb (CFE_SUCCESS =? CFE_SUCCESS)) with false. cbn iota. rewrite E1, Z.eqb_refl.
  pose proof (decode_bucket P m blk false (r_conf _ _ _ _ _ HR) Hd) as Hdf.
  pose proof (decode_bucket P m blk true (r_conf _ _ _ _ _ HR) Hd) as Hdt.
  cbn [marker] in Hdf, Hdt. rewrite Hdf, Hdt. destruct blk as [off b used n].
  cbn [ab_off ab_bkt ab_used ab_size] in *. clear Hd Hdf Hdt. fold (sz P b).
  destruct used; cbn [Bool.eqb]; rewrite E3; fold (sz P b);
    (destruct (Z.ltb_spec (sz P b) n); [lia|]); cbn [BlockSize FirstOffset bkt_AllocationCount ReleaseCount RecycleCount];
    rewrite Et.
  - eexists _, _. split; [reflexivity|].
    assert (Hrep : rep (set_tail (set_bucket P b (mk_bucket (sz P b) (FirstOffset (zget (Buckets P) b))
      (u32 (bkt_AllocationCount (zget (Buckets P) b) + 1)) (ReleaseCount (zget (Buckets P) b))
      (RecycleCount (zget (Buckets P) b)))) (off + sz P b) (u32 (AllocationCount P + 1))) m1
      (scanned A (mk_ablock off b true n))).
    { subst off. eapply (rep_append k start P m1 m1 A b n (NextOffset (desc_at m (align_up (TailPosition P + DESC) k - DESC)))
        true HR1 Hb Hfit); [done| |done|done|].
      - rewrite Hd1. destruct (desc_at m _) as [c a sz' nx]. cbn in *. subst. reflexivity.
      - by apply (append_used_ok k start P m1 m1 A b n true). }
    split_and!; try done. apply same_shape_bucket; [exact (r_conf _ _ _ _ _ HR)|done..].
  - destruct (commit_elsewhere (off - DESC) (mk_bd (CheckBits (desc_at m (off - DESC)))
      (Allocated (desc_at m (off - DESC))) n (FirstOffset (zget (Buckets P) b))) m1)
      as (m2 & Hcm & Hd2 & Hel).
    { done. } { pose proof (r_region _ _ _ _ _ HR1). lia. }
    { destruct (marker_id false (NumBuckets P) b (num_range _ _ _ HR) Hb) as (_ & Hm & _).
      split_and!; cbn; [rewrite E1; vm_compute; split; congruence|by rewrite E2|range|by apply (first_offset_range P m A)]. }
    rewrite E1 in Hcm. rewrite Hcm. change (negb (CFE_SUCCESS =? CFE_SUCCESS)) with false. cbn iota.
    eexists _, _. split; [reflexivity|]. split.
    { subst off. eapply (rep_append k start P m1 m2 A b n _ false HR1 Hb Hfit Hel); [|done|done|].
      - rewrite Hd2, E1, E2. reflexivity.
      - eapply (append_free_ok k start P m1 m2 A b n _ false HR1 Hb Hel); [|done|reflexivity].
        rewrite Hd2, E1, E2. reflexivity. }
    split_and!; try done.
    + split; [by rewrite (proj1 Hel)|]. intros o Ho1 Ho2. rewrite <- Hd1. by apply Hel.
    + apply same_shape_bucket; [exact (r_conf _ _ _ _ _ HR)|done..].
Qed.

(** Nothing after the tail looks like a block. *)
Definition blank_after P m (tail : Z) : Prop :=
  let off := align_up (tail + DESC) k in
  PoolMaxOffset P < off \/ CheckBits (desc_at m (off - DESC)) <> CFE_ES_CHECK_PATTERN.

Lemma Rebuild_step_end P m A :
  rep P m A -> blank_after P m (TailPosition P) ->
  exists m', Rebuild_step P m = inl (CFE_SUCCESS, P, m') /\ rep P m' A /\ touched (fun _ => False) m m'.
Proof.
  intros HR Hblank. unfold Rebuild_step. rewrite (next_block_eq _ _ _ _ _ HR). unfold blank_after in Hblank.
  set (off := align_up _ k) in *.
  destruct (create_bounds P m A 0 HR) as (Eu & D1 & D2 & _); [pose proof (num_range _ _ _ HR); lia|].
  fold off in Eu, D1, D2. rewrite Eu.
  destruct (Z.ltb_spec (PoolMaxOffset P) off); [exists m; split_and!; [done..|apply t_refl]|].
  destruct (retrieve_law (off - DESC) m D1) as (m1 & Eret & Er & Hd1).
  { pose proof (r_region _ _ _ _ _ HR). lia. }
  rewrite Eret. exists m1. split; [|split; [by eapply rep_retrieved|by eapply touched_retrieve]].
  change (negb (CFE_SUCCESS =? CFE_SUCCESS)) with false. cbn iota.
  destruct Hblank as [|Hne]; [lia|].
  by destruct (Z.eqb_spec (CheckBits (desc_at m (off - DESC))) CFE_ES_CHECK_PATTERN).
Qed.

Lemma Rebuild_loop_eff l : forall fuel P m A tail,
  rep P m A -> laid (sz P) k (TailPosition P) l tail -> Forall (desc_ok P m) l ->
  tail <= PoolMaxOffset P -> blank_after P m tail ->
  (PoolMaxOffset P - TailPosition P) / DESC < Z.of_nat fuel ->
  exists P' m', Rebuild_loop fuel P m = Some (CFE_SUCCESS, P', m')
    /\ rep P' m' (fold_left scanned l A) /\ TailPosition P' = tail /\ same_shape P P'
    /\ touched (fun d => exists blk, In blk l /\ d = ab_off blk - DESC) m m'.
Proof.
  induction l as [|blk l IH]; intros fuel P m A tail HR Hl Hd Ht Hblank Hfuel.
  { cbn in Hl. subst tail. destruct fuel as [|fuel].
    - pose proof (r_region _ _ _ _ _ HR). pose proof (Z.div_pos (PoolMaxOffset P - TailPosition P) DESC).
      change DESC with 24 in *. lia.
    - cbn [Rebuild_loop]. destruct (Rebuild_step_end P m A HR Hblank) as (m' & -> & HR' & Ht'). exists P, m'.
      split_and!; [done..|]. eapply touched_impl; [|exact Ht']. done. }
  destruct Hl as [Eo Hl]. apply Forall_cons_1 in Hd as [Hd0 Hd].
  assert (Hb0 : 0 <= ab_bkt blk < NumBuckets P) by apply Hd0.
  assert (Hpos : positive (sz P) l).
  { eapply List.Forall_impl; [|exact Hd]. intros x (_ & _ & _ & _ & Hx).
    by apply (cf_size _ _ (r_conf _ _ _ _ _ HR)). }
  pose proof (laid_bounds (sz P) k (rep_k _ _ _ _ _ HR) _ _ _ Hl Hpos) as [Hlen Hbd].
  pose proof (cf_size _ _ (r_conf _ _ _ _ _ HR) _ Hb0) as Hs0. fold (sz P (ab_bkt blk)) in Hs0.
  pose proof (zlen_nonneg l). destruct (Rebuild_step_block P m A blk HR Eo Hd0) as
    (P' & m' & Hstep & HR' & [Hreg Hel] & Etail & Hshape); [change DESC with 24 in *; lia|].
  assert (Hshape' := Hshape). destruct Hshape' as (Enum & Emax & Esz).
  destruct (align_up_spec (TailPosition P + DESC) k (rep_k _ _ _ _ _ HR)) as [Ha _]. rewrite <- Eo in Ha.
  assert (Hsame : forall x, In x l -> desc_at m' (ab_off x - DESC) = desc_at m (ab_off x - DESC)).
  { intros x Hx. destruct (Hbd x Hx) as (Hx1 & _). pose proof (r_start _ _ _ _ _ HR). apply Hel; change DESC with 24 in *; lia. }
  assert (Hstep_div : (PoolMaxOffset P - TailPosition P') / DESC <= (PoolMaxOffset P - TailPosition P) / DESC - 1).
  { rewrite Etail. change DESC with 24 in *.
    assert ((PoolMaxOffset P - (ab_off blk + sz P (ab_bkt blk))) / 24 <= (PoolMaxOffset P - TailPosition P + (-1) * 24) / 24)
      by (apply Z.div_le_mono; lia). rewrite Z.div_add in * by lia. lia. }
  destruct fuel as [|fuel].
  { pose proof (r_region _ _ _ _ _ HR'). pose proof (Z.div_pos (PoolMaxOffset P - TailPosition P') DESC).
    change DESC with 24 in *. lia. }
  cbn [Rebuild_loop fold_left]. rewrite Hstep.
  destruct (IH fuel P' m' (scanned A blk) tail) as (P2 & m2 & G1 & G2 & G3 & G4 & G5); try done; cycle -1.
  { exists P2, m2. split_and!; try done; [eapply same_shape_trans; [|exact G4]; done|]. eapply touched_trans.
    - eapply touched_impl; [|exact (Rebuild_step_touched _ _ _ _ Hstep)]. intros d (o & [= <-] & ->). exists blk.
      rewrite (next_block_eq _ _ _ _ _ HR), <- Eo. split; [by left|].
      destruct (create_bounds P m A _ HR Hb0) as (Eu & _). rewrite <- Eo in Eu. exact Eu.
    - eapply touched_impl; [|exact G5]. intros d (x & Hx & ->). exists x. split; [by right|done]. }
  - rewrite Etail. eapply laid_ext; [|exact Hl]. intros x Hx. symmetry. apply Esz.
    rewrite List.Forall_forall in Hd. destruct (Hd x Hx) as (_ & _ & _ & _ & ?). lia.
  - rewrite List.Forall_forall in Hd |- *. intros x Hx. destruct (Hd x Hx) as (X1 & X2 & X3 & X4 & X5).
    unfold desc_ok. rewrite Hsame, Esz, Enum by (done || lia). done.
  - by rewrite Emax.
  - unfold blank_after in *. rewrite Emax. destruct Hblank as [|Hne]; [by left|right].
    destruct (align_up_spec (tail + DESC) k (rep_k _ _ _ _ _ HR)) as [Ha2 _].
    pose proof (r_start _ _ _ _ _ HR). rewrite Hel; [done|change DESC with 24 in *; lia..].
  - rewrite Emax. lia.
Qed.
End ops.
