(* ===== verification/GenPoolTheorems.v ===== *)
(** * Theorems on the generic memory pool

    A client that only returns blocks it holds and only writes inside them sees
    a correct allocator; a pool is rebuilt from its storage; the operations
    refine the abstract pool.  All statements hold for every storage that
    satisfies [StorageLaws]; the storage of memory-mapped pools, bytes in
    memory, is shown to satisfy it in [DirectStorage]. *)

From Stdlib Require Import Permutation.
From stdpp Require Import relations.
From S2P Require Import Prelude ResourceId GenPool GenPoolInit GenPoolProofs DirectStorage GenPoolOps.

(** ** An initialized pool is empty *)

Section theorems.
Context {M : Type} `{StorageLaws M}.
Implicit Types (P : CFE_ES_GenPoolRecord) (m : M) (A : apool).

Definition empty_pool : apool := mk_apool [] (fun _ => []).

Lemma initialized_rep k start P m :
  configured P k -> Forall cleared (Buckets P) -> TailPosition P = start -> AllocationCount P = 0 ->
  0 <= start <= PoolMaxOffset P -> PoolMaxOffset P <= region m -> rep k start P m empty_pool.
Proof.
  intros Hc Hcl Et Ea Hs Hr. pose proof (cf_len _ _ Hc) as Hl. pose proof (cf_num _ _ Hc) as Hn.
  constructor; try done; try lia; rewrite ?Et; try done.
  intros b Hb. rewrite List.Forall_forall in Hcl.
  assert (Hin : In (zget (Buckets P) b) (Buckets P)).
  { apply list_elem_of_In. unfold zget, zlen in *. apply list_elem_of_lookup_2 with (Z.to_nat b).
    apply list_lookup_lookup_total_lt. lia. }
  destruct (Hcl _ Hin) as (F1 & F2 & F3 & F4).
  constructor; rewrite ?F1, ?F2, ?F3, ?F4; try done.
  - cbn. by constructor.
  - intros o. cbn. split; [done|]. intros (x & [] & _).
Qed.

(** ** Clients *)

Record client := mk_client { c_pool : CFE_ES_GenPoolRecord; c_mem : M; c_held : list (Z * Z) }.

(** [m'] differs from [m] only in the [n] bytes at [o]. *)
Definition writes_within (m m' : M) (o n : Z) : Prop :=
  region m' = region m
  /\ forall o', 0 <= o' -> o' + DESC <= o \/ o + n <= o' -> desc_at m' o' = desc_at m o'.

Definition hold (out : option Z) (n : Z) (held : list (Z * Z)) : list (Z * Z) :=
  match out with Some o => (o, n) :: held | None => held end.

(** A client gets blocks, returns blocks it holds, and writes inside them. *)
Inductive client_step : client -> client -> Prop :=
  | step_get P m held req rc out P' m' :
      0 < req -> CFE_ES_GenPoolGetBlock P req m = (rc, out, P', m') ->
      client_step (mk_client P m held) (mk_client P' m' (hold out req held))
  | step_put P m l1 o n l2 rc out P' m' :
      CFE_ES_GenPoolPutBlock P o m = (rc, out, P', m') ->
      client_step (mk_client P m (l1 ++ (o, n) :: l2)) (mk_client P' m' (l1 ++ l2))
  | step_write P m m' held o n :
      In (o, n) held -> writes_within m m' o n ->
      client_step (mk_client P m held) (mk_client P m' held).

Definition used_blocks A : list (Z * Z) :=
  map (fun blk => (ab_off blk, ab_size blk)) (List.filter ab_used (a_blocks A)).

Definition client_inv (k start : Z) (c : client) : Prop :=
  exists A, rep k start (c_pool c) (c_mem c) A /\ Permutation (c_held c) (used_blocks A)
            /\ Forall (fun x => 0 < snd x) (c_held c).

Lemma used_blocks_split A l1 blk l2 :
  a_blocks A = l1 ++ blk :: l2 ->
  Permutation (used_blocks A)
    ((if ab_used blk then [(ab_off blk, ab_size blk)] else [])
     ++ map (fun x => (ab_off x, ab_size x)) (List.filter ab_used (l1 ++ l2))).
Proof.
  intros HE. unfold used_blocks. rewrite HE, !List.filter_app. cbn. rewrite !map_app.
  destruct (ab_used blk); cbn; [|done]. symmetry. apply Permutation_middle.
Qed.

Lemma held_block A o n : In (o, n) (used_blocks A) ->
  exists l1 blk l2, a_blocks A = l1 ++ blk :: l2 /\ ab_off blk = o /\ ab_size blk = n /\ ab_used blk = true.
Proof.
  unfold used_blocks. intros (blk & [= <- <-] & Hin)%in_map_iff. apply List.filter_In in Hin as [Hin Hu].
  apply in_split in Hin as (l1 & l2 & E). eauto 8.
Qed.

Lemma inv_get k start P m held req rc out P' m' :
  client_inv k start (mk_client P m held) -> 0 < req -> CFE_ES_GenPoolGetBlock P req m = (rc, out, P', m') ->
  client_inv k start (mk_client P' m' (hold out req held)).
Proof.
  intros (A & HR & Hp & Hpos) Hreq Heq. cbn in *.
  destruct (GetBlock_eff k start P m A req HR ltac:(lia)) as (rc1 & out1 & P1 & m1 & A1 & E & Hspec & HR1).
  rewrite Heq in E. injection E as <- <- <- <-. exists A1. split; [done|]. cbn [c_held].
  inversion Hspec as [Hno|b l1 blk l2 rest Hf HE Hb Hu Efl|b Hf Efl Hroom|b Hf Efl Hfull]; subst; cbn [hold]; try done.
  - split; [|by constructor]. rewrite Hp, (used_blocks_split A l1 blk l2 HE), Hu.
    rewrite (used_blocks_split (mk_apool _ _) l1 _ l2 eq_refl). done.
  - split; [|by constructor]. unfold used_blocks in *. cbn [a_blocks].
    rewrite List.filter_app, map_app. cbn. rewrite Hp. apply Permutation_cons_append.
Qed.

Lemma put_held k start P m A o n :
  rep k start P m A -> In (o, n) (used_blocks A) -> 0 < n ->
  exists P' m' A', CFE_ES_GenPoolPutBlock P o m = (CFE_SUCCESS, Some n, P', m')
    /\ rep k start P' m' A' /\ Permutation (used_blocks A) ((o, n) :: used_blocks A').
Proof.
  intros HR Hin Hn. destruct (held_block A o n Hin) as (l1 & blk & l2 & HE & <- & <- & Hu).
  destruct (PutBlock_used k start P m A l1 blk l2 HR HE Hu Hn) as (P' & m' & E & _ & _ & HR').
  eexists _, _, _. split; [exact E|]. split; [exact HR'|].
  rewrite (used_blocks_split A l1 blk l2 HE), Hu, (used_blocks_split (mk_apool _ _) l1 _ l2 eq_refl). done.
Qed.

Lemma inv_put k start P m l1 o n l2 rc out P' m' :
  client_inv k start (mk_client P m (l1 ++ (o, n) :: l2)) ->
  CFE_ES_GenPoolPutBlock P o m = (rc, out, P', m') -> client_inv k start (mk_client P' m' (l1 ++ l2)).
Proof.
  intros (A & HR & Hp & Hpos) Heq. cbn in *. apply Forall_app in Hpos as [Hpos1 Hpos2].
  apply Forall_cons_1 in Hpos2 as [Hn Hpos2].
  destruct (put_held k start P m A o n HR) as (P1 & m1 & A1 & E & HR1 & Hp1); [|done|].
  { apply (Permutation_in _ Hp). apply in_swap. by left. }
  rewrite Heq in E. injection E as _ _ <- <-. exists A1. split; [done|]. cbn. split; [|by apply Forall_app].
  apply (Permutation_cons_inv (a := (o, n))). rewrite <- Hp1, <- Hp. apply Permutation_middle.
Qed.

(** A pool depends on the descriptors of its blocks. *)
Lemma rep_same k start P m m' A :
  rep k start P m A -> region m' = region m ->
  (forall x, In x (a_blocks A) -> desc_at m' (ab_off x - DESC) = desc_at m (ab_off x - DESC)) -> rep k start P m' A.
Proof.
  intros [R1 R2 R3 R4 R5 R6 R7] Hreg Hsame. constructor; try done.
  - by rewrite Hreg.
  - rewrite List.Forall_forall in R5 |- *. intros x Hx. unfold desc_ok. rewrite Hsame by done. by apply R5.
  - intros b Hb. destruct (R6 b Hb) as [O1 O2 O3 O4 O5]. constructor; try done.
    eapply chain_frame; [|exact O1]. intros o' (x & Hx & <- & _)%O3. by apply Hsame.
Qed.

Lemma inv_write k start P m m' held o n :
  client_inv k start (mk_client P m held) -> In (o, n) held -> writes_within m m' o n ->
  client_inv k start (mk_client P m' held).
Proof.
  intros (A & HR & Hp & Hpos) Hin [Hreg Hw]. cbn in *. exists A. split; [|done]. cbn.
  destruct (held_block A o n (Permutation_in _ Hp Hin)) as (l1 & blk & l2 & HE & <- & <- & Hu).
  pose proof (switch_in A l1 l2 blk HE) as Hblk. pose proof (rep_desc k start _ _ _ _ HR Hblk) as (_ & _ & _ & Hsz & _).
  eapply rep_same; [exact HR|done|]. intros x Hx. pose proof (rep_bounds _ _ _ _ _ _ HR Hx). apply Hw; [change DESC with 24 in *; lia|].
  rewrite HE in Hx. apply in_swap in Hx as [->|Hx]; [change DESC with 24 in *; lia|].
  pose proof (r_layout _ _ _ _ _ HR) as Hl. pose proof (rep_positive _ _ _ _ _ HR) as Hpo. rewrite HE in Hl, Hpo.
  destruct (laid_apart _ _ (rep_k _ _ _ _ _ HR) _ _ _ _ _ _ Hl Hpo Hx); change DESC with 24 in *; lia.
Qed.

(** Writing before the pool. *)
Lemma inv_outside k start P m m' held :
  client_inv k start (mk_client P m held) -> region m' = region m ->
  (forall o, start <= o -> desc_at m' o = desc_at m o) -> client_inv k start (mk_client P m' held).
Proof.
  intros (A & HR & Hp & Hpos) Hreg Hw. cbn in *. exists A. split; [|done]. eapply rep_same; [exact HR|done|].
  intros x Hx. pose proof (rep_bounds _ _ _ _ _ _ HR Hx) as (? & _). apply Hw. lia.
Qed.

Lemma client_inv_perm k start P m held held' :
  Permutation held held' -> client_inv k start (mk_client P m held) -> client_inv k start (mk_client P m held').
Proof.
  intros Hp (A & HR & Hu & Hpos). exists A. cbn in *. split_and!; [done|by rewrite <- Hp|].
  by eapply Permutation_Forall.
Qed.

Lemma client_step_inv k start c c' : client_step c c' -> client_inv k start c -> client_inv k start c'.
Proof.
  intros Hs Hi. destruct Hs; [by eapply inv_get|by eapply inv_put|by eapply inv_write].
Qed.

(** A pool just initialized over storage that reaches its end. *)
Definition fresh_client (k start : Z) (c : client) : Prop :=
  configured (c_pool c) k /\ Forall cleared (Buckets (c_pool c)) /\ TailPosition (c_pool c) = start
  /\ AllocationCount (c_pool c) = 0 /\ 0 <= start <= PoolMaxOffset (c_pool c)
  /\ PoolMaxOffset (c_pool c) <= region (c_mem c) /\ c_held c = [].

Lemma reachable_client_inv k start c0 c : fresh_client k start c0 -> rtc client_step c0 c -> client_inv k start c.
Proof.
  intros (H1 & H2 & H3 & H4 & H5 & H6 & H7) Hr.
  assert (Hi : client_inv k start c0).
  { exists empty_pool. split; [by apply initialized_rep|]. rewrite H7. done. }
  clear - Hr Hi. induction Hr; [done|]. eauto using client_step_inv.
Qed.

(** What a client knows of a block it holds. *)
Lemma client_block (k start : Z) (c : client) (l1 l2 : list (Z * Z)) (o n : Z) :
  client_inv k start c -> c_held c = l1 ++ (o, n) :: l2 ->
  start + DESC <= o /\ o + n <= TailPosition (c_pool c) /\ o + n <= PoolMaxOffset (c_pool c) /\ o mod 2 ^ k = 0
  /\ (forall o' n', In (o', n') (l1 ++ l2) -> o' + n' <= o - DESC \/ o + n <= o' - DESC)
  /\ exists P' m', CFE_ES_GenPoolPutBlock (c_pool c) o (c_mem c) = (CFE_SUCCESS, Some n, P', m').
Proof.
  intros (A & HR & Hp & Hpos) Hh.
  rewrite Hh in Hp, Hpos. apply Forall_app in Hpos as [_ Hn]. apply Forall_cons_1 in Hn as [Hn _]. cbn in Hn.
  assert (Hin : In (o, n) (used_blocks A)) by (apply (Permutation_in _ Hp), in_swap; by left).
  destruct (put_held k start _ _ A o n HR Hin Hn) as (P' & m' & A' & E & _ & _).
  destruct (held_block A o n Hin) as (b1 & blk & b2 & HE & <- & <- & Hu).
  pose proof (switch_in A b1 b2 blk HE) as Hblk.
  pose proof (rep_bounds _ _ _ _ _ _ HR Hblk) as (B1 & B2 & _ & _ & B5 & _).
  destruct (rep_desc k start _ _ _ _ HR Hblk) as (_ & _ & _ & Hsz & _).
  pose proof (r_region _ _ _ _ _ HR). split_and!; [done|lia|lia|done| |eauto].
  intros o' n' Hin'.
  assert (Hp' : Permutation (l1 ++ l2) (map (fun x => (ab_off x, ab_size x)) (List.filter ab_used (b1 ++ b2)))).
  { apply (Permutation_cons_inv (a := (ab_off blk, ab_size blk))). rewrite Permutation_middle, Hp.
    rewrite (used_blocks_split A b1 blk b2 HE), Hu. done. }
  apply (Permutation_in _ Hp') in Hin'. apply in_map_iff in Hin' as (x & [= <- <-] & Hx).
  apply List.filter_In in Hx as [Hx _].
  pose proof (r_layout _ _ _ _ _ HR) as Hl. pose proof (rep_positive _ _ _ _ _ HR) as Hpo. rewrite HE in Hl, Hpo.
  assert (HxA : In x (a_blocks A)) by (rewrite HE; apply in_swap; by right).
  destruct (rep_desc k start _ _ _ _ HR HxA) as (_ & _ & _ & Hszx & _).
  destruct (laid_apart _ _ (rep_k _ _ _ _ _ HR) _ _ _ _ _ _ Hl Hpo Hx); lia.
Qed.


(** ** Refinement of the single operations *)

(** C13. [CFE_ES_GenPoolGetBlock] refines the abstract allocator: from any pool
    that represents an abstract state, a request is refused as too large exactly
    when no bucket can hold it; otherwise the smallest fitting bucket is used,
    taking the block last returned to it if there is one, else a new block at
    the tail if it ends within the pool, else failing with the pool unchanged;
    the resulting record and storage represent the specified state. *)
Theorem GetBlock_refines (k start : Z) P m A (req : Z) :
  rep k start P m A -> 0 <= req ->
  exists rc out P' m' A', CFE_ES_GenPoolGetBlock P req m = (rc, out, P', m')
    /\ get_spec k P A req rc out A' /\ rep k start P' m' A'.
Proof. apply GetBlock_eff. Qed.

Lemma fits_same P P' req b : same_shape P P' -> fits P req b -> fits P' req b.
Proof.
  intros (En & _ & Es) (H1 & H2 & H3). unfold fits. rewrite En. split_and!; try done; try lia.
  - rewrite Es by lia. done.
  - intros j Hj. rewrite Es by lia. by apply H3.
Qed.

Lemma fits_unique P req b b' : fits P req b -> fits P req b' -> b = b'.
Proof.
  intros (H1 & H2 & H3) (H1' & H2' & H3'). destruct (Z.lt_total b b') as [Hl|[|Hl]]; [|done|].
  - specialize (H3' b ltac:(lia)). lia.
  - specialize (H3 b' ltac:(lia)). lia.
Qed.

(** Returning and reusing: returning a block in use succeeds with its
    requested size; returning it again is refused as invalid and counted; and
    the next request for its bucket gets this very block back, without growing
    the pool. *)
Theorem put_get_reuses (k start : Z) P m A (blk : ablock) (req : Z) :
  rep k start P m A -> In blk (a_blocks A) -> ab_used blk = true -> 0 < ab_size blk ->
  0 <= req -> fits P req (ab_bkt blk) ->
  exists P1 m1, CFE_ES_GenPoolPutBlock P (ab_off blk) m = (CFE_SUCCESS, Some (ab_size blk), P1, m1)
    /\ (exists m2, CFE_ES_GenPoolPutBlock P1 (ab_off blk) m1
                   = (CFE_ES_POOL_BLOCK_INVALID, None, count_validation_error P1, m2))
    /\ (exists P3 m3, CFE_ES_GenPoolGetBlock P1 req m1 = (CFE_SUCCESS, Some (ab_off blk), P3, m3)
         /\ exists A3, rep k start P3 m3 A3 /\ length (a_blocks A3) = length (a_blocks A)).
Proof.
  intros HR Hin Hu Hpos Hreq Hfit. apply in_split in Hin as (l1 & l2 & HE).
  destruct (PutBlock_used k start P m A l1 blk l2 HR HE Hu Hpos) as (P1 & m1 & Eput & Hshape & _ & HR1).
  set (A1 := mk_apool _ _) in HR1. set (blk1 := mk_ablock (ab_off blk) (ab_bkt blk) false (ab_size blk)) in A1.
  assert (Hin1 : In blk1 (a_blocks A1)) by (apply in_swap; by left).
  exists P1, m1. split; [done|]. split.
  { destruct (PutBlock_refused k start P1 m1 A1 blk1 HR1 Hin1 (or_introl eq_refl)) as (m2 & E & _). by exists m2. }
  destruct (GetBlock_eff k start P1 m1 A1 req HR1 Hreq) as (rc & out & P3 & m3 & A3 & E & Hspec & HR3).
  pose proof (fits_same _ _ _ _ Hshape Hfit) as Hfit1.
  assert (Efl : a_free A1 (ab_bkt blk) = ab_off blk :: a_free A (ab_bkt blk))
    by (cbn; unfold set_free; by rewrite Z.eqb_refl).
  inversion Hspec as [Hno|b b1 x b2 rest Hf HE1 Hb Hux Ef|b Hf Ef Hroom|b Hf Ef Hfull]; subst.
  - destruct Hfit1 as (Hb & Hle & _). specialize (Hno _ Hb). lia.
  - rewrite (fits_unique _ _ _ _ Hf Hfit1), Efl in Ef. injection Ef as Eo Er. rewrite Eo.
    exists P3, m3. split; [done|]. eexists. split; [exact HR3|]. cbn [a_blocks].
    transitivity (length (a_blocks A1)).
    + rewrite HE1, !length_app. done.
    + cbn. rewrite HE, !length_app. done.
  - rewrite (fits_unique _ _ _ _ Hf Hfit1), Efl in Ef. done.
  - rewrite (fits_unique _ _ _ _ Hf Hfit1), Efl in Ef. done.
Qed.

(** A request of size 0 is granted a block of the smallest bucket, but that
    block can never be returned: the return is refused as invalid, since a
    stored size of 0 is taken for a corrupt descriptor. *)
Theorem zero_size_not_returnable (k start : Z) P m A (o : Z) P' m' :
  rep k start P m A -> CFE_ES_GenPoolGetBlock P 0 m = (CFE_SUCCESS, Some o, P', m') ->
  exists m2, CFE_ES_GenPoolPutBlock P' o m' = (CFE_ES_POOL_BLOCK_INVALID, None, count_validation_error P', m2).
Proof.
  intros HR Heq. destruct (GetBlock_eff k start P m A 0 HR ltac:(lia)) as (rc & out & P1 & m1 & A1 & E & Hspec & HR1).
  rewrite Heq in E. injection E as <- <- <- <-.
  assert (exists blk, In blk (a_blocks A1) /\ ab_off blk = o /\ ab_size blk = 0) as (blk & Hin & <- & Hz).
  { inversion Hspec as [|b l1 blk l2 rest Hf HE Hb Hu Efl|b Hf Efl Hroom|]; subst; eexists; cbn [a_blocks];
      [split; [apply in_swap; by left|done]|split; [apply in_app_iff; right; by left|done]]. }
  destruct (PutBlock_refused k start P' m' A1 blk HR1 Hin (or_intror Hz)) as (m2 & E & _). by exists m2.
Qed.

(** ** Recovery *)

Lemma scanned_blocks l : forall A, a_blocks (fold_left scanned l A) = a_blocks A ++ l.
Proof.
  induction l as [|blk l IH]; intros A; cbn; [by rewrite app_nil_r|].
  rewrite IH. cbn. by rewrite <- app_assoc.
Qed.

Lemma Rebuild_eff (k start : Z) P P0 m A :
  rep k start P m A -> configured P0 k -> Forall cleared (Buckets P0) -> TailPosition P0 = start ->
  AllocationCount P0 = 0 -> same_shape P P0 -> blank_after k P m (TailPosition P) ->
  exists P' m' A', CFE_ES_GenPoolRebuild P0 m = Some (CFE_SUCCESS, P', m') /\ rep k start P' m' A'
    /\ TailPosition P' = TailPosition P /\ AllocationCount P' = AllocationCount P
    /\ a_blocks A' = a_blocks A
    /\ (forall b, 0 <= b < NumBuckets P -> Permutation (a_free A' b) (a_free A b))
    /\ same_shape P0 P' /\ touched (fun d => exists blk, In blk (a_blocks A) /\ d = ab_off blk - DESC) m m'.
Proof.
  intros HR Hc Hcl Et Ea (En & Em & Es) Hblank.
  assert (Hmax : 0 <= start <= PoolMaxOffset P /\ PoolMaxOffset P <= region m).
  { pose proof (r_start _ _ _ _ _ HR). pose proof (r_region _ _ _ _ _ HR). lia. }
  assert (HR0 : rep k start P0 m empty_pool) by (apply initialized_rep; rewrite ?Em; tauto).
  pose proof (r_desc _ _ _ _ _ HR) as Hd. rewrite List.Forall_forall in Hd.
  assert (Hbk : forall x, In x (a_blocks A) -> 0 <= ab_bkt x) by (intros x Hx; destruct (Hd x Hx) as (_ & _ & _ & _ & ?); lia).
  destruct (Rebuild_loop_eff k start (a_blocks A)
    (S (Z.to_nat ((PoolMaxOffset P0 - TailPosition P0) / CFE_ES_GENERIC_POOL_DESCRIPTOR_SIZE)))
    P0 m empty_pool (TailPosition P) HR0) as (P' & m' & E & HR' & Etail & Hsh' & Htouch).
  - rewrite Et. eapply laid_ext; [|exact (r_layout _ _ _ _ _ HR)]. intros x Hx. symmetry. apply Es. by apply Hbk.
  - apply List.Forall_forall. intros x Hx. destruct (Hd x Hx) as (D1 & D2 & D3 & D4 & D5).
    unfold desc_ok. rewrite En, Es by (by apply Hbk). done.
  - rewrite Em. apply HR.
  - unfold blank_after in *. by rewrite Em.
  - rewrite Em, Et. change CFE_ES_GENERIC_POOL_DESCRIPTOR_SIZE with DESC.
    pose proof (Z.div_pos (PoolMaxOffset P - start) DESC). change DESC with 24 in *. lia.
  - exists P', m', (fold_left scanned (a_blocks A) empty_pool). unfold CFE_ES_GenPoolRebuild. split; [exact E|].
    pose proof (scanned_blocks (a_blocks A) empty_pool) as Eb. cbn in Eb.
    split_and!; try done.
    + by rewrite (r_total _ _ _ _ _ HR'), (r_total _ _ _ _ _ HR), Eb.
    + intros b Hb.
      assert (Hb' : 0 <= b < NumBuckets P') by (destruct Hsh' as [-> _]; by rewrite En).
      destruct (r_bucket _ _ _ _ _ HR' b Hb') as [_ N1 F1 _ _], (r_bucket _ _ _ _ _ HR b Hb) as [_ N2 F2 _ _].
      apply NoDup_Permutation; [done..|]. intros o. by rewrite !list_elem_of_In, F1, F2, Eb.
Qed.

(** [CFE_ES_GenPoolRebuild] restores a pool from its storage: started on a
    freshly initialized record with the same buckets and bounds, over the storage
    of a pool with any history and nothing that looks like a block after its
    tail, the scan ends and succeeds; the tail, the block counts and the blocks
    with their states are those of the original pool, and every free list holds
    the same blocks (in an order given by their addresses). *)
Theorem Rebuild_restores (k start : Z) P P0 m A :
  rep k start P m A -> configured P0 k -> Forall cleared (Buckets P0) -> TailPosition P0 = start ->
  AllocationCount P0 = 0 -> same_shape P P0 -> blank_after k P m (TailPosition P) ->
  exists P' m' A', CFE_ES_GenPoolRebuild P0 m = Some (CFE_SUCCESS, P', m') /\ rep k start P' m' A'
    /\ TailPosition P' = TailPosition P /\ AllocationCount P' = AllocationCount P
    /\ a_blocks A' = a_blocks A
    /\ forall b, 0 <= b < NumBuckets P -> Permutation (a_free A' b) (a_free A b).
Proof.
  intros HR Hc Hcl Et Ea Hs Hb.
  destruct (Rebuild_eff k start P P0 m A HR Hc Hcl Et Ea Hs Hb) as (P' & m' & A' & H1 & H2 & H3 & H4 & H5 & H6 & _).
  exists P', m', A'. split_and!; assumption.
Qed.
End theorems.

(** ** A concrete pool, for the witnesses

    400 bytes of memory, blocks of 16, 32 and 64 bytes, aligned to 8. *)

Definition demo_pool : CFE_ES_GenPoolRecord := snd (CFE_ES_GenPoolInitialize 0 400 8 [64; 16; 32]).
Definition demo_mem : direct := mk_direct 0 (replicate 400 0).

Lemma demo_configured : configured demo_pool 3.
Proof.
  assert (Hcase : forall b, 0 <= b < 3 -> b = 0 \/ b = 1 \/ b = 2) by (intros; lia).
  constructor.
  - vm_compute. reflexivity.
  - vm_compute. split; congruence.
  - vm_compute. reflexivity.
  - lia.
  - vm_compute. reflexivity.
  - intros b Hb. change (NumBuckets demo_pool) with 3 in Hb.
    destruct (Hcase b Hb) as [->|[->| ->]]; vm_compute; split; congruence.
  - intros b b' H1 H2. change (NumBuckets demo_pool) with 3 in H2.
    destruct (Hcase b ltac:(lia)) as [->|[->| ->]], (Hcase b' ltac:(lia)) as [->|[->| ->]];
      first [lia | vm_compute; congruence].
Defined.

Lemma demo_fresh : fresh_client 3 0 (mk_client demo_pool demo_mem []).
Proof.
  split; [exact demo_configured|]. split; [repeat constructor|].
  repeat split; vm_compute; congruence.
Defined.

(** Two blocks of 10 and 40 bytes are taken. *)
Definition demo_get (c : client) (req : Z) : client :=
  let '(_, out, P, m) := CFE_ES_GenPoolGetBlock (c_pool c) req (c_mem c) in
  mk_client P m (hold out req (c_held c)).

Lemma demo_get_step c req : 0 < req -> client_step c (demo_get c req).
Proof.
  intros Hr. unfold demo_get. destruct c as [P m held]. cbn [c_pool c_mem c_held].
  destruct (CFE_ES_GenPoolGetBlock P req m) as [[[rc out] P'] m'] eqn:E. by eapply step_get.
Defined.

Definition demo_client : client := demo_get (demo_get (mk_client demo_pool demo_mem []) 10) 40.

Lemma demo_reachable : rtc client_step (mk_client demo_pool demo_mem []) demo_client.
Proof.
  eapply rtc_l; [apply (demo_get_step _ 10); lia|]. apply rtc_once. apply (demo_get_step _ 40). lia.
Defined.


Lemma demo_rep : rep 3 0 demo_pool demo_mem empty_pool.
Proof.
  destruct demo_fresh as (H1 & H2 & H3 & H4 & H5 & H6 & _). exact (initialized_rep 3 0 _ _ H1 H2 H3 H4 H5 H6).
Defined.

Lemma GetBlock_refines_witness :
  exists rc out P' m' A', CFE_ES_GenPoolGetBlock demo_pool 20 demo_mem = (rc, out, P', m')
    /\ get_spec 3 demo_pool empty_pool 20 rc out A' /\ out = Some 24.
Proof.
  destruct (GetBlock_refines 3 0 demo_pool demo_mem empty_pool 20 demo_rep ltac:(lia))
    as (rc & out & P' & m' & A' & E & Hs & _).
  exists rc, out, P', m', A'. split; [exact E|]. split; [exact Hs|].
  transitivity (snd (fst (fst (rc, out, P', m')))); [reflexivity|]. rewrite <- E. vm_compute. reflexivity.
Defined.

(** The abstract state of the demonstration client. *)
Lemma demo_client_rep : exists A, rep 3 0 (c_pool demo_client) (c_mem demo_client) A
  /\ exists blk, In blk (a_blocks A) /\ ab_used blk = true /\ ab_off blk = 24 /\ ab_size blk = 10
  /\ ab_bkt blk = 0.
Proof.
  destruct (reachable_client_inv 3 0 _ demo_client demo_fresh demo_reachable) as (A & HR & Hp & _).
  exists A. split; [exact HR|].
  assert (Hin : In (24, 10) (used_blocks A)).
  { apply (Permutation_in _ Hp). vm_compute. right. left. reflexivity. }
  destruct (held_block A 24 10 Hin) as (l1 & blk & l2 & HE & Eo & Es & Hu). exists blk.
  pose proof (switch_in A l1 l2 blk HE) as Hblk.
  split; [exact Hblk|]. split; [exact Hu|]. split; [exact Eo|]. split; [exact Es|].
  destruct (rep_desc 3 0 _ _ _ _ HR Hblk) as (_ & Ha & _ & _ & Hb). rewrite Eo, Hu in Ha.
  assert (E1 : Allocated (desc_at (c_mem demo_client) (24 - DESC)) = 0xaaaa + 3) by (vm_compute; reflexivity).
  assert (E2 : NumBuckets (c_pool demo_client) = 3) by (vm_compute; reflexivity).
  rewrite E1, E2 in Ha. cbn [marker] in Ha. change CFE_ES_MEMORY_ALLOCATED with 0xaaaa in Ha. lia.
Qed.

Lemma put_get_reuses_witness :
  exists P1 m1, CFE_ES_GenPoolPutBlock (c_pool demo_client) 24 (c_mem demo_client)
                = (CFE_SUCCESS, Some 10, P1, m1)
    /\ exists P3 m3, CFE_ES_GenPoolGetBlock P1 16 m1 = (CFE_SUCCESS, Some 24, P3, m3).
Proof.
  destruct demo_client_rep as (A & HR & blk & Hin & Hu & Eo & Es & Eb).
  assert (Hf : fits (c_pool demo_client) 16 (ab_bkt blk)).
  { rewrite Eb. split; [|split]; [vm_compute; split; congruence|vm_compute; congruence|intros j Hj; lia]. }
  destruct (put_get_reuses 3 0 _ _ A blk 16 HR Hin Hu ltac:(lia) ltac:(lia) Hf)
    as (P1 & m1 & E1 & _ & P3 & m3 & E3 & _).
  rewrite Eo, Es in *. exists P1, m1. split; [exact E1|]. exists P3, m3. exact E3.
Defined.

Lemma Rebuild_restores_witness :
  exists P' m', CFE_ES_GenPoolRebuild demo_pool (c_mem demo_client) = Some (CFE_SUCCESS, P', m')
    /\ TailPosition P' = TailPosition (c_pool demo_client).
Proof.
  destruct demo_client_rep as (A & HR & _). destruct demo_fresh as (H1 & H2 & H3 & H4 & _).
  destruct (Rebuild_restores 3 0 (c_pool demo_client) demo_pool (c_mem demo_client) A HR H1 H2 H3 H4)
    as (P' & m' & A' & E & _ & Et & _).
  - split; [vm_compute; reflexivity|]. split; [vm_compute; reflexivity|].
    intros b Hb. unfold sz. destruct (decide (b < 17)).
    + assert (Hc : In b (map Z.of_nat (seq 0 17))) by (apply in_map_iff; exists (Z.to_nat b); rewrite in_seq; lia).
      cbn in Hc. repeat destruct Hc as [<-|Hc]; try (vm_compute; reflexivity). destruct Hc.
    + unfold zget. rewrite !list_lookup_total_alt, !lookup_ge_None_2; [reflexivity| |];
        vm_compute (length _); lia.
  - right. vm_compute. congruence.
  - exists P', m'. split; [exact E|exact Et].
Defined.

Lemma zero_size_not_returnable_witness :
  exists o P' m' m2, CFE_ES_GenPoolGetBlock demo_pool 0 demo_mem = (CFE_SUCCESS, Some o, P', m')
    /\ CFE_ES_GenPoolPutBlock P' o m' = (CFE_ES_POOL_BLOCK_INVALID, None, count_validation_error P', m2).
Proof.
  destruct (CFE_ES_GenPoolGetBlock demo_pool 0 demo_mem) as [[[rc out] P'] m'] eqn:E.
  assert (E1 : rc = CFE_SUCCESS).
  { transitivity (fst (fst (fst (rc, out, P', m')))); [reflexivity|]. rewrite <- E. vm_compute. reflexivity. }
  assert (E2 : out = Some 24).
  { transitivity (snd (fst (fst (rc, out, P', m')))); [reflexivity|]. rewrite <- E. vm_compute. reflexivity. }
  rewrite E1, E2 in *. destruct (zero_size_not_returnable 3 0 _ _ _ 24 P' m' demo_rep E) as (m2 & H).
  exists 24, P', m', m2. split; [reflexivity|exact H].
Defined.
