(* ===== verification/MemPool.v ===== *)
(** * Application memory pools (cfe/modules/es/fsw/src/cfe_es_mempool.c)

    The table of memory pools of the Executive Services, each a generic pool over
    memory that the application supplied, reached through a handle (a resource
    ID) and through buffer addresses.  Parameters of the model ([PoolEnv]): the
    outcome of creating an OSAL mutex, the calling application's ID, the native
    alignment, and the address check of the PSP.  The mutex of a pool serializes
    its operations, which are atomic steps here; system log texts are left out. *)

From S2P Require Import Prelude ResourceId GenPool GenPoolInit GenPoolProofs DirectStorage GenPoolOps GenPoolTheorems.

Definition CFE_ES_NO_RESOURCE_IDS_AVAILABLE : Z := s32 0xc400002B.
Definition CFE_STATUS_EXTERNAL_RESOURCE_FAIL : Z := s32 0xc8000005.
Definition CFE_PLATFORM_ES_MAX_MEMORY_POOLS : Z := 10.
Definition CFE_PLATFORM_ES_MEMPOOL_ALIGN_SIZE_MIN : Z := 4.
Definition CFE_MISSION_ES_POOL_MAX_BUCKETS : Z := 17.
Definition CFE_ES_POOLID_BASE : Z := CFE_RESOURCEID_MAKE_BASE (0x10 + 4).

Definition CFE_ES_MemPoolDefSize : list Z :=
  [80000; 32768; 16384; 8192; 4096; 2048; 1024; 512; 256; 160; 128; 96; 64; 48; 32; 16; 8].

Record CFE_ES_MemPoolRecord := mk_mempool {
  Pool : CFE_ES_GenPoolRecord;
  PoolID : Z;
  BaseAddr : Z;
  OwnerAppID : Z;
  MutexId : Z
}.

Definition zero_mempool : CFE_ES_MemPoolRecord := mk_mempool zero_pool 0 0 0 0.
#[export] Instance mempool_inhabited : Inhabited CFE_ES_MemPoolRecord := populate zero_mempool.

Record es_pools := mk_es_pools {
  MemPoolTable : list CFE_ES_MemPoolRecord;
  LastMemPoolId : Z;
  memory : list Z
}.

Record PoolEnv := mk_pool_env {
  OS_MutSemCreate : Z * Z; (* status and ID *)
  CFE_ES_GetAppID : Z;
  native_align : Z;
  CFE_PSP_MemValidateRange : Z -> Z -> bool
}.

Definition set_record (es : es_pools) (i : Z) (r : CFE_ES_MemPoolRecord) : es_pools :=
  mk_es_pools (zset (MemPoolTable es) i r) (LastMemPoolId es) (memory es).
Definition set_pool_id (r : CFE_ES_MemPoolRecord) (id : Z) : CFE_ES_MemPoolRecord :=
  mk_mempool (Pool r) id (BaseAddr r) (OwnerAppID r) (MutexId r).
(** A pool and the memory after a generic operation on it. *)
Definition set_pool_mem (es : es_pools) (i : Z) (P : CFE_ES_GenPoolRecord) (d : direct) : es_pools :=
  let r := zget (MemPoolTable es) i in
  mk_es_pools
    (zset (MemPoolTable es) i (mk_mempool P (PoolID r) (BaseAddr r) (OwnerAppID r) (MutexId r)))
    (LastMemPoolId es) (d_bytes d).

Definition CFE_ES_MemPoolID_ToIndex (PoolID : Z) : Z * option Z :=
  CFE_ResourceId_ToIndex PoolID CFE_ES_POOLID_BASE CFE_PLATFORM_ES_MAX_MEMORY_POOLS true.

(** The table index of the record; [None] for NULL. *)
Definition CFE_ES_LocateMemPoolRecordByID (PoolID : Z) : option Z :=
  match CFE_ES_MemPoolID_ToIndex PoolID with
  | (rc, Some Idx) => if rc =? CFE_SUCCESS then Some Idx else None
  | (_, None) => None
  end.

Definition CFE_ES_MemPoolRecordIsUsed (r : CFE_ES_MemPoolRecord) : bool :=
  CFE_ResourceId_IsDefined (PoolID r).

Definition CFE_ES_CheckMemPoolSlotUsed (es : es_pools) (CheckId : Z) : bool :=
  match CFE_ES_LocateMemPoolRecordByID CheckId with
  | None => true
  | Some i => CFE_ES_MemPoolRecordIsUsed (zget (MemPoolTable es) i)
  end.

Definition CFE_ES_MemPoolRecordIsMatch (es : es_pools) (i : option Z) (PoolID' : Z) : bool :=
  match i with
  | None => false
  | Some i => CFE_ResourceId_Equal (PoolID (zget (MemPoolTable es) i)) PoolID'
  end.

Definition storage_of (es : es_pools) (i : Z) : direct :=
  mk_direct (BaseAddr (zget (MemPoolTable es) i)) (memory es).

Section mempool.
Context (E : PoolEnv).

(** Status, and the handle stored through [PoolID] when one is stored;
    [BlockSizes] is [None] for NULL, [MemPtr] 0 for NULL. *)
Definition CFE_ES_PoolCreateEx (id_given : bool) (MemPtr Size NumBlockSizes : Z)
  (BlockSizes : option (list Z)) (UseMutex : bool) (es : es_pools) : Z * option Z * es_pools :=
  if (MemPtr =? 0) || negb id_given then (CFE_ES_BAD_ARGUMENT, None, es)
  else if CFE_PLATFORM_ES_POOL_MAX_BUCKETS <? NumBlockSizes then (CFE_ES_BAD_ARGUMENT, None, es)
  else
    let '(BlockSizes, NumBlockSizes) :=
      match BlockSizes with
      | Some l => (l, NumBlockSizes)
      | None => (CFE_ES_MemPoolDefSize,
                 if NumBlockSizes =? 0 then CFE_PLATFORM_ES_POOL_MAX_BUCKETS else NumBlockSizes)
      end in
    let sizes := take (Z.to_nat NumBlockSizes) BlockSizes in
    if Size <? CFE_ES_GenPoolCalcMinSize sizes 1 then (CFE_ES_BAD_ARGUMENT, None, es)
    else
      let PendingID := CFE_ResourceId_FindNext (LastMemPoolId es) CFE_PLATFORM_ES_MAX_MEMORY_POOLS
                         (Some (CFE_ES_CheckMemPoolSlotUsed es)) in
      match CFE_ES_LocateMemPoolRecordByID PendingID with
      | None => (CFE_ES_NO_RESOURCE_IDS_AVAILABLE, None, es)
      | Some i =>
          let es := mk_es_pools
            (zset (MemPoolTable es) i (set_pool_id zero_mempool CFE_RESOURCEID_RESERVED))
            PendingID (memory es) in
          let Alignment := if native_align E <? CFE_PLATFORM_ES_MEMPOOL_ALIGN_SIZE_MIN
                           then CFE_PLATFORM_ES_MEMPOOL_ALIGN_SIZE_MIN else native_align E in
          let '(Status, P) := CFE_ES_GenPoolInitialize 0 Size Alignment sizes in
          let '(Status, mutex) :=
            if (Status =? CFE_SUCCESS) && UseMutex then
              let '(OsStatus, id) := OS_MutSemCreate E in
              if OsStatus =? 0 then (Status, id) else (CFE_STATUS_EXTERNAL_RESOURCE_FAIL, 0)
            else (Status, 0) in
          if Status =? CFE_SUCCESS
          then (Status, Some PendingID,
                set_record es i (mk_mempool P PendingID MemPtr (CFE_ES_GetAppID E) mutex))
          else (Status, Some CFE_RESOURCEID_UNDEFINED,
                set_record es i (mk_mempool P CFE_RESOURCEID_UNDEFINED 0 0 mutex))
      end.

Definition CFE_ES_PoolCreateNoSem (id_given : bool) (MemPtr Size : Z) (es : es_pools)
  : Z * option Z * es_pools :=
  CFE_ES_PoolCreateEx id_given MemPtr Size CFE_PLATFORM_ES_POOL_MAX_BUCKETS
    (Some CFE_ES_MemPoolDefSize) false es.

Definition CFE_ES_PoolCreate (id_given : bool) (MemPtr Size : Z) (es : es_pools)
  : Z * option Z * es_pools :=
  CFE_ES_PoolCreateEx id_given MemPtr Size CFE_PLATFORM_ES_POOL_MAX_BUCKETS
    (Some CFE_ES_MemPoolDefSize) true es.

(** The deletion of the mutex itself is only logged when it fails. *)
Definition CFE_ES_PoolDelete (PoolID : Z) (es : es_pools) : Z * es_pools :=
  let i := CFE_ES_LocateMemPoolRecordByID PoolID in
  match i with
  | Some j =>
      if CFE_ES_MemPoolRecordIsMatch es i PoolID
      then (CFE_SUCCESS, set_record es j (set_pool_id (zget (MemPoolTable es) j) CFE_RESOURCEID_UNDEFINED))
      else (CFE_ES_ERR_RESOURCEID_NOT_VALID, es)
  | None => (CFE_ES_ERR_RESOURCEID_NOT_VALID, es)
  end.

(** The size or an error, and the address stored through [BufPtr]. *)
Definition CFE_ES_GetPoolBuf (buf_given : bool) (Handle Size : Z) (es : es_pools)
  : Z * option Z * es_pools :=
  if negb buf_given then (CFE_ES_BAD_ARGUMENT, None, es)
  else
    match CFE_ES_LocateMemPoolRecordByID Handle with
    | Some i =>
        if CFE_ES_MemPoolRecordIsMatch es (Some i) Handle then
          let r := zget (MemPoolTable es) i in
          let '(Status, DataOffset, P, d) := CFE_ES_GenPoolGetBlock (Pool r) Size (storage_of es i) in
          let es := set_pool_mem es i P d in
          if negb (Status =? CFE_SUCCESS) then (Status, None, es)
          else match DataOffset with
               | Some o => (s32 Size, Some (u64 (BaseAddr r + o)), es)
               | None => (s32 Size, None, es)
               end
        else (CFE_ES_ERR_RESOURCEID_NOT_VALID, None, es)
    | None => (CFE_ES_ERR_RESOURCEID_NOT_VALID, None, es)
    end.

Definition CFE_ES_GetPoolBufInfo (Handle BufPtr : Z) (es : es_pools) : Z * es_pools :=
  if BufPtr =? 0 then (CFE_ES_BAD_ARGUMENT, es)
  else
    match CFE_ES_LocateMemPoolRecordByID Handle with
    | Some i =>
        if CFE_ES_MemPoolRecordIsMatch es (Some i) Handle then
          let r := zget (MemPoolTable es) i in
          let '(Status, DataSize, d) :=
            CFE_ES_GenPoolGetBlockSize (Pool r) (u64 (BufPtr - BaseAddr r)) (storage_of es i) in
          let es := set_pool_mem es i (Pool r) d in
          match DataSize with
          | Some n => if Status =? CFE_SUCCESS then (s32 n, es) else (Status, es)
          | None => (Status, es)
          end
        else (CFE_ES_ERR_RESOURCEID_NOT_VALID, es)
    | None => (CFE_ES_ERR_RESOURCEID_NOT_VALID, es)
    end.

Definition CFE_ES_PutPoolBuf (Handle BufPtr : Z) (es : es_pools) : Z * es_pools :=
  if BufPtr =? 0 then (CFE_ES_BAD_ARGUMENT, es)
  else
    match CFE_ES_LocateMemPoolRecordByID Handle with
    | Some i =>
        if CFE_ES_MemPoolRecordIsMatch es (Some i) Handle then
          let r := zget (MemPoolTable es) i in
          let '(Status, DataSize, P, d) :=
            CFE_ES_GenPoolPutBlock (Pool r) (u64 (BufPtr - BaseAddr r)) (storage_of es i) in
          let es := set_pool_mem es i P d in
          match DataSize with
          | Some n => if Status =? CFE_SUCCESS then (s32 n, es) else (Status, es)
          | None => (Status, es)
          end
        else (CFE_ES_ERR_RESOURCEID_NOT_VALID, es)
    | None => (CFE_ES_ERR_RESOURCEID_NOT_VALID, es)
    end.

(** The statistics: pool size, blocks requested, validation errors, free bytes,
    and the buckets from the smallest on, zeros after the last. *)
Record CFE_ES_MemPoolStats := mk_poolstats {
  PoolSize : Z;
  NumBlocksRequested : Z;
  CheckErrCtr : Z;
  NumFreeBytes : Z;
  BlockStats : list CFE_ES_BlockStats
}.

Fixpoint stats_loop (P : CFE_ES_GenPoolRecord) (n : nat) (NumBuckets : Z) : list CFE_ES_BlockStats :=
  match n with
  | O => []
  | S n' =>
      CFE_ES_GenPoolGetBucketUsage P NumBuckets
      :: stats_loop P n' (if 0 <? NumBuckets then NumBuckets - 1 else NumBuckets)
  end.

Definition CFE_ES_GetMemPoolStats (buf_given : bool) (Handle : Z) (es : es_pools)
  : Z * option CFE_ES_MemPoolStats :=
  if negb buf_given then (CFE_ES_BAD_ARGUMENT, None)
  else
    match CFE_ES_LocateMemPoolRecordByID Handle with
    | Some i =>
        if CFE_ES_MemPoolRecordIsMatch es (Some i) Handle then
          let P := Pool (zget (MemPoolTable es) i) in
          let '(free, total) := CFE_ES_GenPoolGetUsage P in
          let '(num, count, errors) := CFE_ES_GenPoolGetCounts P in
          (CFE_SUCCESS, Some (mk_poolstats total count errors free
             (stats_loop P (Z.to_nat CFE_MISSION_ES_POOL_MAX_BUCKETS) num)))
        else (CFE_ES_ERR_RESOURCEID_NOT_VALID, None)
    | None => (CFE_ES_ERR_RESOURCEID_NOT_VALID, None)
    end.

Definition CFE_ES_ValidateHandle (Handle : Z) (es : es_pools) : bool :=
  match CFE_ES_LocateMemPoolRecordByID Handle with
  | Some i =>
      CFE_ES_MemPoolRecordIsMatch es (Some i) Handle
      && CFE_ES_GenPoolValidateState (Pool (zget (MemPoolTable es) i))
      && CFE_PSP_MemValidateRange E (BaseAddr (zget (MemPoolTable es) i))
           (snd (CFE_ES_GenPoolGetUsage (Pool (zget (MemPoolTable es) i))))
  | None => false
  end.
End mempool.

(** ** The life of a memory pool *)

(** Handle [h] names table entry [i], whose pool represents [A] over the memory. *)
Record live (es : es_pools) (h i k : Z) (A : apool) : Prop := {
  lv_locate : CFE_ES_LocateMemPoolRecordByID h = Some i;
  lv_index : 0 <= i < zlen (MemPoolTable es);
  lv_match : PoolID (zget (MemPoolTable es) i) = h;
  lv_rep : rep k 0 (Pool (zget (MemPoolTable es) i)) (storage_of es i) A;
  lv_base : 0 < BaseAddr (zget (MemPoolTable es) i);
  lv_top : BaseAddr (zget (MemPoolTable es) i) + PoolMaxOffset (Pool (zget (MemPoolTable es) i)) < 2 ^ 64
}.

Lemma live_match es h i k A : live es h i k A -> CFE_ES_MemPoolRecordIsMatch es (Some i) h = true.
Proof. intros [_ _ L3 _ _ _]. cbn. unfold CFE_ResourceId_Equal. by rewrite L3, Z.eqb_refl. Qed.

(** A generic operation on a live pool gives a live pool. *)
Lemma live_update es h i k A P d A' :
  live es h i k A -> rep k 0 P d A' ->
  PoolMaxOffset P = PoolMaxOffset (Pool (zget (MemPoolTable es) i)) ->
  d_base d = BaseAddr (zget (MemPoolTable es) i) ->
  live (set_pool_mem es i P d) h i k A'.
Proof.
  intros [L1 L2 L3 L4 L5 L6] HR Em Ed.
  assert (Ez : zget (MemPoolTable (set_pool_mem es i P d)) i
    = mk_mempool P (PoolID (zget (MemPoolTable es) i)) (BaseAddr (zget (MemPoolTable es) i))
        (OwnerAppID (zget (MemPoolTable es) i)) (MutexId (zget (MemPoolTable es) i)))
    by (by apply zget_zset_eq).
  constructor; rewrite ?Ez; try done.
  - cbn. by rewrite zlen_zset.
  - unfold storage_of. rewrite Ez. cbn. rewrite <- Ed. by destruct d.
  - cbn. by rewrite Em.
Qed.

(** The generic operations keep the end of the pool and the base address. *)
Definition keeps (P P' : CFE_ES_GenPoolRecord) (d d' : direct) : Prop :=
  PoolMaxOffset P' = PoolMaxOffset P /\ d_base d' = d_base d.

Lemma recycle_keeps P id req d rc out P' d' :
  CFE_ES_GenPoolRecyclePoolBlock P id req d = (rc, out, P', d') -> keeps P P' d d'.
Proof.
  unfold CFE_ES_GenPoolRecyclePoolBlock. intros Heq.
  destruct (CFE_ES_GenPoolGetBucketState P id) as [b|]; [|by simplify_eq].
  cbn in Heq. repeat (case_test_in Heq; simplify_eq; try done).
Qed.

Lemma create_keeps P id req d rc out P' d' :
  CFE_ES_GenPoolCreatePoolBlock P id req d = (rc, out, P', d') -> keeps P P' d d'.
Proof.
  unfold CFE_ES_GenPoolCreatePoolBlock. intros Heq.
  destruct (CFE_ES_GenPoolGetBucketState P id) as [b|]; [|by simplify_eq].
  cbn in Heq. repeat (case_test_in Heq; simplify_eq; try done).
Qed.

Lemma get_keeps P req d rc out P' d' :
  CFE_ES_GenPoolGetBlock P req d = (rc, out, P', d') -> keeps P P' d d'.
Proof.
  unfold CFE_ES_GenPoolGetBlock. case_test; [by intros; simplify_eq|].
  destruct (CFE_ES_GenPoolRecyclePoolBlock _ _ _ _) as [[[rc1 out1] P1] d1] eqn:E1.
  apply recycle_keeps in E1 as [H1 H2]. case_test; [|by intros; simplify_eq].
  intros [H3 H4]%create_keeps. split; congruence.
Qed.

Lemma put_keeps P o d rc out P' d' :
  CFE_ES_GenPoolPutBlock P o d = (rc, out, P', d') ->
  keeps P P' d d'.
Proof.
  unfold CFE_ES_GenPoolPutBlock. intros Heq. case_test_in Heq; [by simplify_eq|]. cbn in Heq.
  destruct (CFE_ES_GenPoolGetBucketState P _) as [b|]; [|by simplify_eq].
  case_test_in Heq; by simplify_eq.
Qed.

(** Getting a buffer from a live pool. *)
Lemma GetPoolBuf_eff es h i k A n :
  live es h i k A -> 0 < n < 2 ^ 31 ->
  let base := BaseAddr (zget (MemPoolTable es) i) in
  exists rc out es' A', CFE_ES_GetPoolBuf true h n es = (rc, out, es') /\ live es' h i k A'
    /\ zget (MemPoolTable es') i = mk_mempool (Pool (zget (MemPoolTable es') i)) h base
         (OwnerAppID (zget (MemPoolTable es) i)) (MutexId (zget (MemPoolTable es) i))
    /\ ((rc = CFE_ES_ERR_MEM_BLOCK_SIZE /\ out = None)
        \/ exists blk, In blk (a_blocks A') /\ ab_used blk = true /\ ab_size blk = n
             /\ rc = n /\ out = Some (base + ab_off blk)).
Proof.
  intros HL Hn base. assert (HL' := HL). destruct HL' as [L1 L2 L3 L4 L5 L6].
  unfold CFE_ES_GetPoolBuf. cbn [negb]. rewrite L1, (live_match _ _ _ _ _ HL).
  destruct (GetBlock_eff k 0 _ _ A n L4 ltac:(lia)) as (rc & out & P' & d' & A' & E & Hspec & HR').
  rewrite E. destruct (get_keeps _ _ _ _ _ _ _ E) as [Em Ed].
  pose proof (live_update es h i k A P' d' A' HL HR' Em Ed) as HL2.
  assert (Hz : zget (MemPoolTable (set_pool_mem es i P' d')) i
    = mk_mempool P' h base (OwnerAppID (zget (MemPoolTable es) i)) (MutexId (zget (MemPoolTable es) i))).
  { unfold set_pool_mem. cbn [MemPoolTable]. rewrite zget_zset_eq, L3 by done. done. }
  assert (Hblk : rc = CFE_ES_ERR_MEM_BLOCK_SIZE /\ out = None \/
    exists blk, In blk (a_blocks A') /\ ab_used blk = true /\ ab_size blk = n /\ rc = CFE_SUCCESS
                /\ out = Some (ab_off blk)).
  { inversion Hspec; subst; auto; right; eexists; cbn [a_blocks];
      (split; [first [apply in_swap; by left|apply in_app_iff; right; by left]|done]). }
  destruct Hblk as [[-> ->]|(blk & Hin & Hu & Hs & -> & ->)].
  - change (negb (CFE_ES_ERR_MEM_BLOCK_SIZE =? CFE_SUCCESS)) with true. cbn iota.
    eexists _, _, _, A'. split; [reflexivity|]. split; [done|]. rewrite Hz. split; [done|]. by left.
  - change (negb (CFE_SUCCESS =? CFE_SUCCESS)) with false. cbn iota.
    eexists _, _, _, A'. split; [reflexivity|]. split; [done|]. rewrite Hz. split; [done|]. right. exists blk.
    pose proof (rep_bounds _ _ _ _ _ _ HR' Hin) as B. pose proof (r_region _ _ _ _ _ HR') as Hr.
    fold base. split_and!; try done.
    + unfold s32. rewrite u32_id by range. destruct (Z.ltb_spec n (2 ^ 31)); [done|lia].
    + rewrite u64_id; [done|]. fold base in L5, L6. change DESC with 24 in *. range.
Qed.

(** Returning a buffer, once and once more. *)
Lemma PutPoolBuf_eff es h i k A blk :
  live es h i k A -> In blk (a_blocks A) -> ab_used blk = true -> 0 < ab_size blk < 2 ^ 31 ->
  let a := BaseAddr (zget (MemPoolTable es) i) + ab_off blk in
  exists es1 es2 A2, CFE_ES_PutPoolBuf h a es = (ab_size blk, es1)
    /\ CFE_ES_PutPoolBuf h a es1 = (CFE_ES_POOL_BLOCK_INVALID, es2) /\ live es2 h i k A2.
Proof.
  intros HL Hin Hu Hs a. assert (HL' := HL). destruct HL' as [L1 L2 L3 L4 L5 L6].
  pose proof (rep_bounds _ _ _ _ _ _ L4 Hin) as B. pose proof (r_region _ _ _ _ _ L4) as Hr.
  assert (Ha0 : (a =? 0) = false) by (apply Z.eqb_neq; unfold a; change DESC with 24 in *; lia).
  assert (Hoff : u64 (a - BaseAddr (zget (MemPoolTable es) i)) = ab_off blk).
  { unfold a. replace (_ + ab_off blk - _) with (ab_off blk) by lia. apply u64_id. change DESC with 24 in *. range. }
  apply in_split in Hin as (l1 & l2 & HE).
  destruct (PutBlock_used k 0 _ _ A l1 blk l2 L4 HE Hu (proj1 Hs)) as (P1 & d1 & E1 & _ & _ & HR1).
  set (A1 := mk_apool _ _) in HR1. destruct (put_keeps _ _ _ _ _ _ _ E1) as [Em1 Ed1].
  pose proof (live_update es h i k A P1 d1 A1 HL HR1 Em1 Ed1) as HL1.
  set (es1 := set_pool_mem es i P1 d1) in *.
  assert (Hz1 : zget (MemPoolTable es1) i = mk_mempool P1 h (BaseAddr (zget (MemPoolTable es) i))
    (OwnerAppID (zget (MemPoolTable es) i)) (MutexId (zget (MemPoolTable es) i))).
  { unfold es1, set_pool_mem. cbn [MemPoolTable]. rewrite zget_zset_eq, L3 by done. done. }
  set (blk1 := mk_ablock (ab_off blk) (ab_bkt blk) false (ab_size blk)) in A1.
  destruct (PutBlock_refused k 0 (Pool (zget (MemPoolTable es1) i)) (storage_of es1 i) A1 blk1
    (lv_rep _ _ _ _ _ HL1) ltac:(apply in_swap; by left) (or_introl eq_refl)) as (d2 & E2 & HR2).
  cbn [ab_off blk1] in E2. destruct (put_keeps _ _ _ _ _ _ _ E2) as [Em2 Ed2].
  pose proof (live_update es1 h i k A1 _ d2 A1 HL1 HR2 Em2 Ed2) as HL2.
  exists es1. eexists _, A1. split_and!; [| |exact HL2].
  - unfold CFE_ES_PutPoolBuf. rewrite Ha0, L1, (live_match _ _ _ _ _ HL), Hoff, E1.
    change (CFE_SUCCESS =? CFE_SUCCESS) with true. cbn iota. unfold s32. rewrite u32_id by range.
    destruct (Z.ltb_spec (ab_size blk) (2 ^ 31)); [done|lia].
  - unfold CFE_ES_PutPoolBuf. rewrite Ha0, L1, (live_match _ _ _ _ _ HL1).
    replace (BaseAddr (zget (MemPoolTable es1) i)) with (BaseAddr (zget (MemPoolTable es) i)) by (by rewrite Hz1).
    by rewrite Hoff, E2.
Qed.

Lemma locate_serial r :
  0 <= r <= CFE_RESOURCEID_MAX ->
  CFE_ES_LocateMemPoolRecordByID (CFE_ES_POOLID_BASE + r) = Some (r mod CFE_PLATFORM_ES_MAX_MEMORY_POOLS).
Proof.
  intros Hr. unfold CFE_ES_LocateMemPoolRecordByID, CFE_ES_MemPoolID_ToIndex.
  destruct (id_decodes CFE_ES_POOLID_BASE CFE_PLATFORM_ES_MAX_MEMORY_POOLS r) as (-> & _ & _); try done.
Qed.

(** The pool table before a creation: its size, the last ID issued, a free slot. *)
Record table_ready (es : es_pools) : Prop := {
  tr_size : zlen (MemPoolTable es) = CFE_PLATFORM_ES_MAX_MEMORY_POOLS;
  tr_last : is_u32 (LastMemPoolId es);
  tr_base : CFE_ResourceId_GetBase (LastMemPoolId es) = CFE_ES_POOLID_BASE;
  tr_free : exists j, 0 <= j < CFE_PLATFORM_ES_MAX_MEMORY_POOLS /\ PoolID (zget (MemPoolTable es) j) = 0
}.

Lemma create_finds es :
  table_ready es ->
  exists h i, CFE_ResourceId_FindNext (LastMemPoolId es) CFE_PLATFORM_ES_MAX_MEMORY_POOLS
                (Some (CFE_ES_CheckMemPoolSlotUsed es)) = h
    /\ CFE_ES_LocateMemPoolRecordByID h = Some i /\ 0 <= i < zlen (MemPoolTable es).
Proof.
  intros [T1 T2 T3 T4]. set (taken i := CFE_ES_MemPoolRecordIsUsed (zget (MemPoolTable es) i)).
  destruct (FindNext_eff CFE_ES_POOLID_BASE CFE_PLATFORM_ES_MAX_MEMORY_POOLS (LastMemPoolId es)
    (CFE_ES_CheckMemPoolSlotUsed es) taken) as [(r & -> & Hr & _)|[_ Hall]]; try done.
  - intros r Hr. unfold CFE_ES_CheckMemPoolSlotUsed. by rewrite locate_serial.
  - eexists _, _. split; [reflexivity|]. split; [by apply locate_serial|]. rewrite T1.
    apply Z.mod_pos_bound. done.
  - destruct T4 as (j & Hj & Ej). specialize (Hall j Hj).
    unfold taken, CFE_ES_MemPoolRecordIsUsed, CFE_ResourceId_IsDefined in Hall. by rewrite Ej in Hall.
Qed.

Section lifecycle.
Variables (E : PoolEnv) (MemPtr Size : Z) (sizes : list Z) (es : es_pools).
Hypothesis Hready : table_ready es.
Hypothesis Hmem : 0 < MemPtr /\ MemPtr + Size <= zlen (memory es) < 2 ^ 64.
Hypothesis Hsize : CFE_ES_GenPoolCalcMinSize sizes 1 <= Size < 2 ^ 32 /\ 0 <= Size.
Hypothesis Hnum : (1 <= length sizes <= 17)%nat.
Hypothesis Hsizes : Forall (fun z => 0 < z < 2 ^ 32) sizes.
Hypothesis Halign : valid_align (native_align E) /\ 0 <= native_align E <= 4096.

Lemma create_alignment :
  let a := if native_align E <? CFE_PLATFORM_ES_MEMPOOL_ALIGN_SIZE_MIN
           then CFE_PLATFORM_ES_MEMPOOL_ALIGN_SIZE_MIN else native_align E in
  valid_align a /\ 0 <= a <= 4096.
Proof using Halign.
  clear - Halign. cbn zeta. case_test; [|done]. split; [right; exists 2; split; [lia|done]|]. vm_compute. split; congruence.
Qed.

Lemma create_initializes :
  exists P k, CFE_ES_GenPoolInitialize 0 Size
      (if native_align E <? CFE_PLATFORM_ES_MEMPOOL_ALIGN_SIZE_MIN
       then CFE_PLATFORM_ES_MEMPOOL_ALIGN_SIZE_MIN else native_align E) sizes = (CFE_SUCCESS, P)
    /\ PoolMaxOffset P = Size /\ forall d : direct, Size <= region d -> rep k 0 P d empty_pool.
Proof using Hsize Hnum Hsizes Halign.
  destruct create_alignment as [Hva Hal]. set (al := if native_align E <? _ then _ else _) in *.
  assert (Hs0 : Forall (fun z => 0 <= z < 2 ^ 32) sizes)
    by (eapply List.Forall_impl; [|exact Hsizes]; cbn; intros; lia).
  assert (Hnz : ~ In 0 sizes).
  { intros Hin. rewrite List.Forall_forall in Hsizes. specialize (Hsizes 0 Hin). cbn in Hsizes. lia. }
  pose proof (Initialize_eff 0 Size al sizes ltac:(lia) ltac:(lia) ltac:(lia) Hal Hnum Hs0) as Hinit.
  destruct (CFE_ES_GenPoolInitialize 0 Size al sizes) as [rc P] eqn:Ei.
  destruct Hinit as (_ & _ & Hok & Hres). assert (rc = CFE_SUCCESS) as -> by (by apply Hok).
  destruct (Hres eq_refl) as (_ & _ & Hcl & _ & Et & Em & k & Hc).
  exists P, k. split; [done|]. rewrite Z.add_0_r in Em. split; [done|]. intros d Hd.
  apply initialized_rep; try done; try lia.
  pose proof (Initialize_counts 0 Size al sizes) as Hcount. by rewrite Ei in Hcount.
Qed.

Lemma PoolCreateEx_eff UseMutex : (UseMutex = true -> fst (OS_MutSemCreate E) = 0) ->
  exists h i k es1, CFE_ES_PoolCreateEx E true MemPtr Size (zlen sizes) (Some sizes) UseMutex es
                    = (CFE_SUCCESS, Some h, es1)
    /\ live es1 h i k empty_pool /\ BaseAddr (zget (MemPoolTable es1) i) = MemPtr
    /\ PoolMaxOffset (Pool (zget (MemPoolTable es1) i)) = Size.
Proof using Hready Hmem Hsize Hnum Hsizes Halign.
  intros Hmx. destruct (create_finds es Hready) as (h & i & Hfind & Hloc & Hi).
  destruct create_initializes as (P & k & Hinit & Em & Hrep).
  unfold CFE_ES_PoolCreateEx. destruct (Z.eqb_spec MemPtr 0); [lia|]. cbn [negb orb].
  change CFE_PLATFORM_ES_POOL_MAX_BUCKETS with 17. unfold zlen. destruct (Z.ltb_spec 17 (Z.of_nat (length sizes))); [lia|].
  rewrite Nat2Z.id, firstn_all. destruct (Z.ltb_spec Size (CFE_ES_GenPoolCalcMinSize sizes 1)); [lia|].
  rewrite Hfind, Hloc, Hinit. change (CFE_SUCCESS =? CFE_SUCCESS) with true. cbn [andb]. cbn iota.
  assert (Em' : exists mx, (if UseMutex then let '(OsStatus, id) := OS_MutSemCreate E in
             if OsStatus =? 0 then (CFE_SUCCESS, id) else (CFE_STATUS_EXTERNAL_RESOURCE_FAIL, 0) else (CFE_SUCCESS, 0))
                = (CFE_SUCCESS, mx)).
  { destruct UseMutex; [|by eexists]. specialize (Hmx eq_refl). destruct (OS_MutSemCreate E) as [os mx]. cbn [fst] in Hmx. subst os. by eexists. }
  destruct Em' as [mx ->]. cbv beta iota. change (CFE_SUCCESS =? CFE_SUCCESS) with true. cbn iota.
  exists h, i, k. eexists. split; [reflexivity|].
  assert (Hz : forall r, zget (MemPoolTable (set_record (mk_es_pools
      (zset (MemPoolTable es) i (set_pool_id zero_mempool CFE_RESOURCEID_RESERVED)) h (memory es)) i r)) i = r).
  { intros r. apply zget_zset_eq. cbn. by rewrite zlen_zset. }
  split; [|by rewrite Hz]. constructor; rewrite ?Hz; try done; cbn; try lia.
  - by rewrite !zlen_zset.
  - unfold storage_of. rewrite Hz. apply Hrep. cbn. unfold direct_region. cbn.
    destruct (Z.ltb_spec MemPtr 0); lia.
Qed.

Lemma PoolDelete_eff h i k A n :
  live es h i k A ->
  exists es', CFE_ES_PoolDelete h es = (CFE_SUCCESS, es')
    /\ CFE_ES_GetPoolBuf true h n es' = (CFE_ES_ERR_RESOURCEID_NOT_VALID, None, es').
Proof using.
  intros HL. assert (HL' := HL). destruct HL' as [L1 L2 L3 _ _ _]. unfold CFE_ES_PoolDelete.
  rewrite L1, (live_match _ _ _ _ _ HL). eexists. split; [reflexivity|].
  unfold CFE_ES_GetPoolBuf. cbn [negb]. rewrite L1. unfold CFE_ES_MemPoolRecordIsMatch, set_record. cbn [MemPoolTable].
  rewrite zget_zset_eq by done. unfold CFE_ResourceId_Equal. cbn [PoolID set_pool_id].
  destruct (Z.eqb_spec CFE_RESOURCEID_UNDEFINED h) as [<-|]; [|done]. by vm_compute in L1.
Qed.
End lifecycle.

(** The life of a memory pool through its API.  With a free table slot and
    valid sizes, [CFE_ES_PoolCreateEx] succeeds.  A buffer request then either
    fails with MEM_BLOCK_SIZE or returns the requested size and an address such
    that the whole buffer, and the descriptor before it, lie inside the memory
    the application supplied.  Returning that address gives the size back;
    returning it twice is refused; after [CFE_ES_PoolDelete] the handle is
    invalid. *)
Theorem mempool_lifecycle (E : PoolEnv) (MemPtr Size n : Z) (sizes : list Z) (es : es_pools) :
  table_ready es -> 0 < MemPtr /\ MemPtr + Size <= zlen (memory es) < 2 ^ 64 ->
  CFE_ES_GenPoolCalcMinSize sizes 1 <= Size < 2 ^ 32 /\ 0 <= Size -> (1 <= length sizes <= 17)%nat ->
  Forall (fun z => 0 < z < 2 ^ 32) sizes -> valid_align (native_align E) /\ 0 <= native_align E <= 4096 ->
  0 < n < 2 ^ 31 ->
  exists h es1 rc out es2,
    CFE_ES_PoolCreateEx E true MemPtr Size (zlen sizes) (Some sizes) false es = (CFE_SUCCESS, Some h, es1)
    /\ CFE_ES_GetPoolBuf true h n es1 = (rc, out, es2)
    /\ match out with
       | None => rc = CFE_ES_ERR_MEM_BLOCK_SIZE
       | Some a => rc = n /\ MemPtr + DESC <= a /\ a + n <= MemPtr + Size
           /\ exists es3 es4 es5, CFE_ES_PutPoolBuf h a es2 = (n, es3)
                /\ CFE_ES_PutPoolBuf h a es3 = (CFE_ES_POOL_BLOCK_INVALID, es4)
                /\ CFE_ES_PoolDelete h es4 = (CFE_SUCCESS, es5)
                /\ CFE_ES_GetPoolBuf true h n es5 = (CFE_ES_ERR_RESOURCEID_NOT_VALID, None, es5)
       end.
Proof.
  intros Hready Hmem Hsize Hnum Hsizes Halign Hn.
  destruct (PoolCreateEx_eff E MemPtr Size sizes es Hready Hmem Hsize Hnum Hsizes Halign false ltac:(done))
    as (h & i & k & es1 & Hcr & HL1 & Hbase & Hmax).
  destruct (GetPoolBuf_eff es1 h i k empty_pool n HL1 Hn) as (rc & out & es2 & A2 & Hget & HL2 & Hz & Hor).
  exists h, es1, rc, out, es2. split; [done|]. split; [done|].
  destruct Hor as [[-> ->]|(blk & Hin & Hu & Hs & -> & ->)]; [done|].
  pose proof (rep_bounds _ _ _ _ _ _ (lv_rep _ _ _ _ _ HL2) Hin) as B.
  destruct (rep_desc k 0 _ _ _ _ (lv_rep _ _ _ _ _ HL2) Hin) as (_ & _ & _ & Hsz & _).
  pose proof (r_region _ _ _ _ _ (lv_rep _ _ _ _ _ HL2)) as Hr.
  assert (Hb2 : BaseAddr (zget (MemPoolTable es2) i) = MemPtr) by (by rewrite Hz).
  assert (Hm2 : PoolMaxOffset (Pool (zget (MemPoolTable es2) i)) = Size).
  { rewrite <- Hmax. unfold CFE_ES_GetPoolBuf in Hget. cbn [negb] in Hget.
    rewrite (lv_locate _ _ _ _ _ HL1), (live_match _ _ _ _ _ HL1) in Hget.
    destruct (CFE_ES_GenPoolGetBlock _ n _) as [[[rc0 out0] P0] d0] eqn:Eg. apply get_keeps in Eg as [Eg _].
    pose proof (lv_index _ _ _ _ _ HL1).
    rewrite <- Eg. repeat (case_test_in Hget; simplify_eq); try (destruct out0; simplify_eq);
      unfold set_pool_mem; cbn [MemPoolTable]; by rewrite zget_zset_eq. }
  rewrite Hbase. split_and!; [done|change DESC with 24 in *; lia|lia|].
  destruct (PutPoolBuf_eff es2 h i k A2 blk HL2 Hin Hu ltac:(lia)) as (es3 & es4 & A4 & P1 & P2 & HL4).
  rewrite Hb2, Hs in *. destruct (PoolDelete_eff es4 h i k A4 n HL4) as (es5 & D1 & D2).
  by exists es3, es4, es5.
Qed.

(** An empty table and 1,000 bytes of memory, of which the pool gets 900. *)
Definition demo_es : es_pools :=
  mk_es_pools (replicate 10 zero_mempool) CFE_ES_POOLID_BASE (replicate 1000 0).
Definition demo_env : PoolEnv := mk_pool_env (0, 0x50001) 0x110001 16 (fun _ _ => true).

Lemma demo_ready : table_ready demo_es.
Proof.
  constructor; try (vm_compute; first [reflexivity|split; congruence]).
  exists 0. split; [vm_compute; split; congruence|reflexivity].
Defined.

Lemma mempool_lifecycle_witness :
  exists h es1 rc out es2,
    CFE_ES_PoolCreateEx demo_env true 100 900 3 (Some [64; 16; 32]) false demo_es = (CFE_SUCCESS, Some h, es1)
    /\ CFE_ES_GetPoolBuf true h 40 es1 = (rc, out, es2) /\ out = Some 132 /\ rc = 40.
Proof.
  destruct (mempool_lifecycle demo_env 100 900 40 [64; 16; 32] demo_es demo_ready
    ltac:(vm_compute; repeat split; congruence) ltac:(vm_compute; repeat split; congruence)
    ltac:(cbn; lia) ltac:(repeat constructor; lia)
    ltac:(split; [right; exists 4; split; [lia|reflexivity]|vm_compute; split; congruence]) ltac:(lia))
    as (h & es1 & rc & out & es2 & E1 & E2 & H).
  exists h, es1, rc, out, es2. split; [exact E1|]. split; [exact E2|].
  assert (Hh : h = 0x140001).
  { assert (Some h = Some 0x140001); [|congruence].
    transitivity (snd (fst (CFE_ES_PoolCreateEx demo_env true 100 900 (zlen [64; 16; 32]) (Some [64; 16; 32]) false demo_es)));
      [rewrite E1; reflexivity|vm_compute; reflexivity]. }
  assert (Hout : out = Some 132).
  { transitivity (snd (fst (CFE_ES_GetPoolBuf true h 40
      (snd (CFE_ES_PoolCreateEx demo_env true 100 900 (zlen [64; 16; 32]) (Some [64; 16; 32]) false demo_es)))));
      [rewrite E1; cbn [snd]; rewrite E2; reflexivity|rewrite Hh; vm_compute; reflexivity]. }
  split; [exact Hout|]. rewrite Hout in H. exact (proj1 H).
Defined.
