(* ===== verification/SbRoute.v ===== *)
(** * Software bus routing: the route table and its message map

    The model of [cfe/modules/sbr/fsw/src]: the unsorted route table
    ([cfe_sbr_route_unsorted.c]) and the two interchangeable message maps the
    build can select, the direct one ([cfe_sbr_map_direct.c]) and the hashed one
    ([cfe_sbr_map_hash.c]).  The two maps are instances of the class [RouteMap];
    the theorems about the route table are proved from the laws of that class,
    which both instances satisfy.

    Message ids are the values inside [CFE_SB_MsgId_t] (32 bits), route ids the
    16-bit values inside [CFE_SBR_RouteId_t] (width from the data sheet of the
    software bus), destination lists their head pointers, [0] being NULL. *)

From S2P Require Import Prelude.

Definition CFE_PLATFORM_SB_MAX_MSG_IDS : Z := 256.
Definition CFE_PLATFORM_SB_HIGHEST_VALID_MSGID : Z := 0x1FFF.
Definition CFE_SB_INVALID_MSG_ID : Z := 0.
Definition CFE_SBR_INVALID_ROUTE_ID : Z := 0.

(** ** Identifiers *)

Definition CFE_SB_MsgId_Equal (a b : Z) : bool := a =? b.

Definition CFE_SB_IsValidMsgId (MsgId : Z) : bool :=
  negb (CFE_SB_MsgId_Equal MsgId CFE_SB_INVALID_MSG_ID)
  && (MsgId <=? CFE_PLATFORM_SB_HIGHEST_VALID_MSGID).

Definition CFE_SBR_IsValidRouteId (RouteId : Z) : bool :=
  negb (RouteId =? 0) && (RouteId <=? CFE_PLATFORM_SB_MAX_MSG_IDS).

Definition CFE_SBR_ValueToRouteId (Value : Z) : Z := u16 (1 + Value).
Definition CFE_SBR_RouteIdToValue (RouteId : Z) : Z := u16 (RouteId - 1).

(** ** The message map

    What the route table asks of a map: the empty map, recording a route (with
    the number of collisions met) and finding one.  The last operation is given
    the function that reads the message id of a route, which the hashed map
    calls.  [None] stands for a search that does not end. *)
Class RouteMap (M : Type) := {
  CFE_SBR_Init_Map : M;
  CFE_SBR_SetRouteId : M -> Z -> Z -> option (Z * M);
  map_GetRouteId : M -> (Z -> Z) -> Z -> option Z
}.

(** *** The direct map: one entry for every valid message id. *)
Module Direct.
Record t := mk { MSGMAP : list Z }.
Definition CFE_SBR_MSG_MAP_SIZE : Z := CFE_PLATFORM_SB_HIGHEST_VALID_MSGID + 1.

Definition Init_Map : t := mk (replicate (Z.to_nat CFE_SBR_MSG_MAP_SIZE) 0).

Definition SetRouteId (m : t) (MsgId RouteId : Z) : option (Z * t) :=
  if CFE_SB_IsValidMsgId MsgId
  then Some (0, mk (zset (MSGMAP m) MsgId RouteId))
  else Some (0, m).

Definition GetRouteId (m : t) (GetMsgId : Z -> Z) (MsgId : Z) : option Z :=
  if CFE_SB_IsValidMsgId MsgId
  then Some (zget (MSGMAP m) MsgId)
  else Some CFE_SBR_INVALID_ROUTE_ID.
End Direct.

#[export] Instance direct_map : RouteMap Direct.t := {
  CFE_SBR_Init_Map := Direct.Init_Map;
  CFE_SBR_SetRouteId := Direct.SetRouteId;
  map_GetRouteId := Direct.GetRouteId
}.

(** *** The hashed map: open addressing with linear probing. *)
Module Hash.
Record t := mk { MSGMAP : list Z }.
Definition CFE_SBR_MSG_MAP_SIZE : Z := 4 * CFE_PLATFORM_SB_MAX_MSG_IDS.
Definition CFE_SBR_HASH_MAGIC : Z := 0x45d9f3b.

Definition CFE_SBR_MsgIdHash (MsgId : Z) : Z :=
  let hash := MsgId in
  let hash := u32 (Z.lxor (Z.shiftr hash 16) hash * CFE_SBR_HASH_MAGIC) in
  let hash := u32 (Z.lxor (Z.shiftr hash 16) hash * CFE_SBR_HASH_MAGIC) in
  let hash := Z.lxor (Z.shiftr hash 16) hash in
  Z.land hash (CFE_SBR_MSG_MAP_SIZE - 1).

Definition Init_Map : t := mk (replicate (Z.to_nat CFE_SBR_MSG_MAP_SIZE) 0).

(** The [while] loop of both operations: step to the next slot as long as the
    condition holds.  The fuel is one turn of the map. *)
Fixpoint probe (busy : Z -> bool) (fuel : nat) (hash collisions : Z) : option (Z * Z) :=
  match fuel with
  | O => None
  | S fuel' =>
      if busy hash
      then probe busy fuel' (Z.land (hash + 1) (CFE_SBR_MSG_MAP_SIZE - 1)) (u32 (collisions + 1))
      else Some (hash, collisions)
  end.

Definition turn : nat := Z.to_nat CFE_SBR_MSG_MAP_SIZE.

Definition SetRouteId (m : t) (MsgId RouteId : Z) : option (Z * t) :=
  if CFE_SB_IsValidMsgId MsgId
  then match probe (fun hash => CFE_SBR_IsValidRouteId (zget (MSGMAP m) hash)) turn
                   (CFE_SBR_MsgIdHash MsgId) 0 with
       | Some (hash, collisions) => Some (collisions, mk (zset (MSGMAP m) hash RouteId))
       | None => None
       end
  else Some (0, m).

Definition GetRouteId (m : t) (GetMsgId : Z -> Z) (MsgId : Z) : option Z :=
  if CFE_SB_IsValidMsgId MsgId
  then match probe (fun hash => CFE_SBR_IsValidRouteId (zget (MSGMAP m) hash)
                                && negb (CFE_SB_MsgId_Equal (GetMsgId (zget (MSGMAP m) hash)) MsgId))
                   turn (CFE_SBR_MsgIdHash MsgId) 0 with
       | Some (hash, _) => Some (zget (MSGMAP m) hash)
       | None => None
       end
  else Some CFE_SBR_INVALID_ROUTE_ID.
End Hash.

#[export] Instance hash_map : RouteMap Hash.t := {
  CFE_SBR_Init_Map := Hash.Init_Map;
  CFE_SBR_SetRouteId := Hash.SetRouteId;
  map_GetRouteId := Hash.GetRouteId
}.

(** ** The route table *)

Record CFE_SBR_RouteEntry_t := mkRouteEntry {
  ListHeadPtr : Z;
  route_MsgId : Z;
  SeqCnt : Z
}.
#[export] Instance route_entry_inhabited : Inhabited CFE_SBR_RouteEntry_t :=
  populate (mkRouteEntry 0 0 0).

(** The shared data of the module: [CFE_SBR_RDATA] and [CFE_SBR_MSGMAP]. *)
Record sbr_state (M : Type) := mkSbr {
  RoutingTbl : list CFE_SBR_RouteEntry_t;
  RouteIdxTop : Z;
  MsgMap : M
}.
Arguments mkSbr {M}.
Arguments RoutingTbl {M}.
Arguments RouteIdxTop {M}.
Arguments MsgMap {M}.

Record CFE_SBR_Throttle_t := mkThrottle { StartIndex : Z; MaxLoop : Z; NextIndex : Z }.

Definition with_MsgId (e : CFE_SBR_RouteEntry_t) (MsgId : Z) : CFE_SBR_RouteEntry_t :=
  mkRouteEntry (ListHeadPtr e) MsgId (SeqCnt e).

Section operations.
Context {M : Type} `{RouteMap M}.
Implicit Types st : sbr_state M.

Definition CFE_SBR_Init : sbr_state M :=
  let zeroed := replicate (Z.to_nat CFE_PLATFORM_SB_MAX_MSG_IDS) (mkRouteEntry 0 0 0) in
  mkSbr (fold_left (fun tbl routeidx =>
                      zset tbl routeidx (with_MsgId (zget tbl routeidx) CFE_SB_INVALID_MSG_ID))
                   (seqZ 0 CFE_PLATFORM_SB_MAX_MSG_IDS) zeroed)
        0 CFE_SBR_Init_Map.

(** The route id, the number stored through [CollisionsPtr], the state. *)
Definition CFE_SBR_AddRoute st (MsgId : Z) : option (Z * Z * sbr_state M) :=
  if CFE_SB_IsValidMsgId MsgId && (RouteIdxTop st <? CFE_PLATFORM_SB_MAX_MSG_IDS) then
    let routeid := CFE_SBR_ValueToRouteId (RouteIdxTop st) in
    match CFE_SBR_SetRouteId (MsgMap st) MsgId routeid with
    | None => None
    | Some (collisions, map') =>
        let top := RouteIdxTop st in
        Some (routeid, collisions,
              mkSbr (zset (RoutingTbl st) top (with_MsgId (zget (RoutingTbl st) top) MsgId))
                    (u16 (top + 1)) map')
    end
  else Some (CFE_SBR_INVALID_ROUTE_ID, 0, st).

Definition CFE_SBR_GetMsgId st (RouteId : Z) : Z :=
  if CFE_SBR_IsValidRouteId RouteId
  then route_MsgId (zget (RoutingTbl st) (CFE_SBR_RouteIdToValue RouteId))
  else CFE_SB_INVALID_MSG_ID.

Definition CFE_SBR_GetRouteId st (MsgId : Z) : option Z :=
  map_GetRouteId (MsgMap st) (CFE_SBR_GetMsgId st) MsgId.

Definition CFE_SBR_GetDestListHeadPtr st (RouteId : Z) : Z :=
  if CFE_SBR_IsValidRouteId RouteId
  then ListHeadPtr (zget (RoutingTbl st) (CFE_SBR_RouteIdToValue RouteId))
  else 0.

Definition update_route st (RouteId : Z) (f : CFE_SBR_RouteEntry_t -> CFE_SBR_RouteEntry_t)
  : sbr_state M :=
  if CFE_SBR_IsValidRouteId RouteId
  then let idx := CFE_SBR_RouteIdToValue RouteId in
       mkSbr (zset (RoutingTbl st) idx (f (zget (RoutingTbl st) idx))) (RouteIdxTop st) (MsgMap st)
  else st.

Definition CFE_SBR_SetDestListHeadPtr st (RouteId DestPtr : Z) : sbr_state M :=
  update_route st RouteId (fun e => mkRouteEntry DestPtr (route_MsgId e) (SeqCnt e)).

(** [CFE_MSG_GetNextSequenceCount] belongs to the message module. *)
Definition CFE_SBR_IncrementSequenceCounter (CFE_MSG_GetNextSequenceCount : Z -> Z) st (RouteId : Z)
  : sbr_state M :=
  update_route st RouteId (fun e =>
    mkRouteEntry (ListHeadPtr e) (route_MsgId e) (CFE_MSG_GetNextSequenceCount (SeqCnt e))).

Definition CFE_SBR_GetSequenceCounter st (RouteId : Z) : Z :=
  if CFE_SBR_IsValidRouteId RouteId
  then SeqCnt (zget (RoutingTbl st) (CFE_SBR_RouteIdToValue RouteId))
  else 0.

(** The callback is a state transformer [cb] on the caller's argument. *)
Fixpoint ForEachRouteId_loop {A} (cb : Z -> A -> A) (fuel : nat) (routeidx endidx : Z) (arg : A) : A :=
  match fuel with
  | O => arg
  | S fuel' =>
      if routeidx <? endidx
      then ForEachRouteId_loop cb fuel' (u16 (routeidx + 1)) endidx
             (cb (CFE_SBR_ValueToRouteId routeidx) arg)
      else arg
  end.

Definition CFE_SBR_ForEachRouteId {A} st (cb : Z -> A -> A) (arg : A)
    (Throttle : option CFE_SBR_Throttle_t) : A * option CFE_SBR_Throttle_t :=
  let top := RouteIdxTop st in
  let run startidx endidx := ForEachRouteId_loop cb (Z.to_nat (endidx - startidx)) startidx endidx arg in
  match Throttle with
  | None => (run 0 top, None)
  | Some t =>
      let startidx := u16 (StartIndex t) in
      if u32 (startidx + MaxLoop t) <? top
      then let endidx := u16 (startidx + MaxLoop t) in
           (run startidx endidx, Some (mkThrottle (StartIndex t) (MaxLoop t) endidx))
      else (run startidx top, Some (mkThrottle (StartIndex t) (MaxLoop t) 0))
  end.
End operations.
