(* ===== verification/SbRouteProofs.v ===== *)
(** * Software bus routing: what the route table and its maps guarantee

    The abstract route table is the list of the message ids that have a route,
    in the order the routes were added: route [i + 1] belongs to the [i]-th id.
    [RouteMapLaws] states what a map must do for that; the direct and the hashed
    map are shown to satisfy it.  For the hashed map this includes that every
    search ends: the map has four times more slots than there are routes. *)

From S2P Require Import Prelude SbRoute.

(** ** The abstract table *)

Fixpoint position_from (k : Z) (l : list Z) (id : Z) : Z :=
  match l with
  | [] => CFE_SBR_INVALID_ROUTE_ID
  | x :: l' => if x =? id then k else position_from (k + 1) l' id
  end.

(** The route of a message id in the abstract table. *)
Definition route_of : list Z -> Z -> Z := position_from 1.

Lemma position_from_spec k l id :
  0 < k ->
  (~ In id l /\ position_from k l id = 0)
  \/ exists i, 0 <= i < zlen l /\ zget l i = id /\ position_from k l id = k + i.
Proof.
  revert k. induction l as [|x l IH]; intros k Hk; cbn [position_from]; [left; split; [intros []|done]|].
  rewrite zlen_cons. pose proof (zlen_nonneg l). case_test; [subst; right; exists 0; split_and!; [lia|lia|done|lia]|].
  destruct (IH (k + 1)) as [[Hn ->]|(i & Hi & Hg & ->)]; [lia| |].
  - left. split; [intros [?|?]; done|done].
  - right. exists (i + 1). split_and!; [lia..| |lia].
    unfold zget in *. replace (Z.to_nat (i + 1)) with (S (Z.to_nat i)) by lia. done.
Qed.

Lemma zget_In {A} `{Inhabited A} (l : list A) i : 0 <= i < zlen l -> In (zget l i) l.
Proof.
  unfold zget, zlen. intros. apply list_elem_of_In, (list_elem_of_lookup_2 _ (Z.to_nat i)).
  apply list_lookup_lookup_total_lt. lia.
Qed.

Lemma zget_inj {A} `{Inhabited A} (l : list A) i j :
  NoDup l -> 0 <= i < zlen l -> 0 <= j < zlen l -> zget l i = zget l j -> i = j.
Proof.
  unfold zget, zlen. intros Hd Hi Hj He.
  enough (Z.to_nat i = Z.to_nat j) by lia.
  apply (NoDup_lookup l _ _ (l !!! Z.to_nat i) Hd).
  - apply list_lookup_lookup_total_lt. lia.
  - rewrite He. apply list_lookup_lookup_total_lt. lia.
Qed.

Lemma zget_snoc {A} `{Inhabited A} (l : list A) x : zget (l ++ [x]) (zlen l) = x.
Proof. unfold zget, zlen. rewrite lookup_total_app_r by lia. by rewrite Nat2Z.id, Nat.sub_diag. Qed.

Lemma route_of_absent l id : ~ In id l -> route_of l id = 0.
Proof.
  intros Hn. destruct (position_from_spec 1 l id) as [[_ E]|(i & Hi & <- & _)]; [lia|done|].
  by destruct Hn; apply zget_In.
Qed.

Lemma route_of_at l i : NoDup l -> 0 <= i < zlen l -> route_of l (zget l i) = i + 1.
Proof.
  intros Hd Hi. destruct (position_from_spec 1 l (zget l i)) as [[Hn _]|(j & Hj & Hg & E)]; [lia| |].
  - by destruct Hn; apply zget_In.
  - rewrite (zget_inj l j i Hd Hj Hi Hg) in E. unfold route_of. lia.
Qed.

(** ** What a map must do *)

Class RouteMapLaws (M : Type) `{RouteMap M} := {
  map_rep : M -> list Z -> Prop;
  init_map_rep : map_rep CFE_SBR_Init_Map [];
  set_route_rep m l id :
    map_rep m l -> CFE_SB_IsValidMsgId id = true -> 0 < id -> ~ In id l ->
    zlen l < CFE_PLATFORM_SB_MAX_MSG_IDS ->
    exists collisions m',
      CFE_SBR_SetRouteId m id (zlen l + 1) = Some (collisions, m')
      /\ 0 <= collisions <= zlen l /\ map_rep m' (l ++ [id]);
  get_route_rep m l id GetMsgId :
    map_rep m l -> NoDup l -> CFE_SB_IsValidMsgId id = true -> 0 < id ->
    (forall i, 0 <= i < zlen l -> GetMsgId (i + 1) = zget l i) ->
    map_GetRouteId m GetMsgId id = Some (route_of l id);
  get_route_invalid m GetMsgId id :
    CFE_SB_IsValidMsgId id = false -> map_GetRouteId m GetMsgId id = Some CFE_SBR_INVALID_ROUTE_ID
}.

Lemma valid_msgid_bound id : CFE_SB_IsValidMsgId id = true -> id <> 0 /\ id <= 0x1FFF.
Proof.
  unfold CFE_SB_IsValidMsgId, CFE_SB_MsgId_Equal. intros [?%negb_true_iff ?]%andb_true_iff.
  split; [by apply Z.eqb_neq|by apply Z.leb_le].
Qed.

Lemma valid_route_iff r : 0 <= r -> CFE_SBR_IsValidRouteId r = true <-> 1 <= r <= 256.
Proof.
  unfold CFE_SBR_IsValidRouteId, CFE_PLATFORM_SB_MAX_MSG_IDS. intros.
  rewrite andb_true_iff, negb_true_iff, Z.eqb_neq, Z.leb_le. lia.
Qed.

(** ** The direct map *)

Definition direct_rep (m : Direct.t) (l : list Z) : Prop :=
  zlen (Direct.MSGMAP m) = Direct.CFE_SBR_MSG_MAP_SIZE
  /\ forall id, 0 < id <= CFE_PLATFORM_SB_HIGHEST_VALID_MSGID ->
       zget (Direct.MSGMAP m) id = route_of l id.

#[export] Instance In_decision (id : Z) l : Decision (In id l) := List.in_dec Z.eq_dec id l.

Lemma position_from_app k l r id :
  position_from k (l ++ r) id
  = if decide (In id l) then position_from k l id else position_from (k + zlen l) r id.
Proof.
  revert k. induction l as [|x l IH]; intros k; cbn [app position_from].
  - destruct (decide _) as [[]|_]. by rewrite Z.add_0_r.
  - rewrite zlen_cons, IH. case_test.
    + subst. by rewrite decide_True by by left.
    + replace (k + 1 + zlen l) with (k + (1 + zlen l)) by lia.
      destruct (decide (In id l)); [by rewrite decide_True by by right|].
      by rewrite decide_False by by intros [].
Qed.

#[export, refine] Instance direct_laws : RouteMapLaws Direct.t := {| map_rep := direct_rep |}.
Proof.
  - split; [reflexivity|]. intros id Hid. unfold CFE_PLATFORM_SB_HIGHEST_VALID_MSGID in Hid.
    apply zget_replicate. unfold Direct.CFE_SBR_MSG_MAP_SIZE, CFE_PLATFORM_SB_HIGHEST_VALID_MSGID. lia.
  - intros m l id [Hl Hm] Hv Hpos Hn _. cbn. unfold Direct.SetRouteId. rewrite Hv.
    apply valid_msgid_bound in Hv. unfold Direct.CFE_SBR_MSG_MAP_SIZE in Hl.
    unfold CFE_PLATFORM_SB_HIGHEST_VALID_MSGID in *.
    eexists _, _. split_and!; [done|done|apply zlen_nonneg|]. split; [by cbn; rewrite zlen_zset|].
    intros id' Hid'. unfold CFE_PLATFORM_SB_HIGHEST_VALID_MSGID in Hid'. cbn [Direct.MSGMAP]. rewrite zget_zset by lia.
    unfold route_of. rewrite position_from_app. cbn [position_from]. case_test.
    + subst. rewrite decide_False by done. lia.
    + rewrite Hm by lia. destruct (decide (In id' l)); [done|]. by apply route_of_absent.
  - intros m l id g [Hl Hm] Hd Hv Hpos _. cbn. unfold Direct.GetRouteId. rewrite Hv.
    apply valid_msgid_bound in Hv. by rewrite Hm by (unfold CFE_PLATFORM_SB_HIGHEST_VALID_MSGID; lia).
  - intros m g id Hv. cbn. unfold Direct.GetRouteId. by rewrite Hv.
Defined.

(** ** The hashed map *)

Abbreviation map_size := Hash.CFE_SBR_MSG_MAP_SIZE.
Abbreviation slot h d := ((h + d) mod map_size).

Lemma wrap_slot x : Z.land x (map_size - 1) = x mod map_size.
Proof. apply (land_mask x 10). lia. Qed.

Lemma hash_range id : 0 <= Hash.CFE_SBR_MsgIdHash id < map_size.
Proof. unfold Hash.CFE_SBR_MsgIdHash. rewrite wrap_slot. by apply Z.mod_pos_bound. Qed.

(** A probe examines the slots from [h] on; it stops at the first that is not
    busy, unless all those it has fuel for are busy. *)
Lemma probe_spec busy fuel h c :
  0 <= h < map_size -> 0 <= c -> c + Z.of_nat fuel < 2 ^ 32 ->
  (exists d, 0 <= d < Z.of_nat fuel /\ Hash.probe busy fuel h c = Some (slot h d, c + d)
     /\ busy (slot h d) = false /\ forall e, 0 <= e < d -> busy (slot h e) = true)
  \/ (Hash.probe busy fuel h c = None /\ forall e, 0 <= e < Z.of_nat fuel -> busy (slot h e) = true).
Proof.
  revert h c. induction fuel as [|fuel IH]; intros h c Hh Hc Hf; cbn [Hash.probe].
  { right. split; [done|lia]. }
  assert (H0 : slot h 0 = h) by (rewrite Z.add_0_r; by apply Z.mod_small).
  destruct (busy h) eqn:Eb.
  2:{ left. exists 0. rewrite H0, Z.add_0_r. split_and!; try done; lia. }
  rewrite wrap_slot, u32_id by range.
  assert (Hs : forall e, slot (slot h 1) (e - 1) = slot h e).
  { intros e. rewrite Zplus_mod_idemp_l. f_equal. lia. }
  assert (Hall : forall n, (forall e, 0 <= e < n -> busy (slot (slot h 1) e) = true) ->
                           forall e, 0 <= e < n + 1 -> busy (slot h e) = true).
  { intros n Hn e He. destruct (decide (e = 0)) as [->|]; [by rewrite H0|].
    rewrite <- Hs. apply Hn. lia. }
  destruct (IH (slot h 1) (c + 1)) as [(d & Hd & E & Hb & Ha)|[E Ha]];
    [by apply Z.mod_pos_bound|lia|lia| |].
  - left. exists (d + 1). rewrite E. specialize (Hs (d + 1)). replace (d + 1 - 1) with d in Hs by lia.
    rewrite <- Hs. split_and!; [lia..| |done|by apply Hall]. do 2 f_equal. lia.
  - right. split; [done|]. replace (Z.of_nat (S fuel)) with (Z.of_nat fuel + 1) by lia. by apply Hall.
Qed.

(** The routes of [l] are in the map, each in one slot, which the probe for its
    message id reaches over occupied slots. *)
Record hash_rep (m : Hash.t) (l : list Z) : Prop := {
  hash_size : zlen (Hash.MSGMAP m) = map_size;
  hash_values : forall j, 0 <= j < map_size -> 0 <= zget (Hash.MSGMAP m) j <= zlen l;
  hash_distinct : forall j j', 0 <= j < map_size -> 0 <= j' < map_size ->
    zget (Hash.MSGMAP m) j <> 0 -> zget (Hash.MSGMAP m) j = zget (Hash.MSGMAP m) j' -> j = j';
  hash_reach : forall i, 0 <= i < zlen l -> exists d, 0 <= d < map_size
    /\ zget (Hash.MSGMAP m) (slot (Hash.CFE_SBR_MsgIdHash (zget l i)) d) = i + 1
    /\ forall e, 0 <= e < d -> zget (Hash.MSGMAP m) (slot (Hash.CFE_SBR_MsgIdHash (zget l i)) e) <> 0;
  hash_routes : zlen l <= CFE_PLATFORM_SB_MAX_MSG_IDS
}.

Lemma hash_slot_range h d : 0 <= slot h d < map_size.
Proof. by apply Z.mod_pos_bound. Qed.

Lemma slot_apart h d e : 0 <= d < map_size -> 0 <= e < map_size -> slot h d = slot h e -> d = e.
Proof.
  intros Hd He E.
  assert (Hz : (d - e) mod map_size = 0).
  { replace (d - e) with (h + d - (h + e)) by lia.
    rewrite Zminus_mod, E, Z.sub_diag. done. }
  apply Z.mod_divide in Hz as [q Hq]; [|done].
  unfold map_size, CFE_PLATFORM_SB_MAX_MSG_IDS in *. nia.
Qed.

(** Consecutive occupied slots hold different routes: there are at most as many
    as there are routes. *)
Lemma occupied_run m l h n :
  hash_rep m l -> 0 <= n <= map_size ->
  (forall e, 0 <= e < n -> zget (Hash.MSGMAP m) (slot h e) <> 0) -> n <= zlen l.
Proof.
  intros Hr Hn Hocc. pose proof (zlen_nonneg l).
  set (vals := map (fun e => zget (Hash.MSGMAP m) (slot h e)) (seqZ 0 n)).
  assert (Hnd : NoDup vals).
  { apply (NoDup_fmap_2_strong (fun e => zget (Hash.MSGMAP m) (slot h e))); [|apply NoDup_seqZ].
    intros x y Hx%elem_of_seqZ Hy%elem_of_seqZ E. apply (slot_apart h); [lia..|].
    apply (hash_distinct m l Hr); [apply hash_slot_range..| |done]. apply Hocc. lia. }
  assert (Hin : incl vals (seqZ 1 (zlen l))).
  { intros v (e & <- & He%list_elem_of_In%elem_of_seqZ)%in_map_iff.
    apply list_elem_of_In, elem_of_seqZ.
    pose proof (hash_values m l Hr (slot h e) (hash_slot_range h e)). specialize (Hocc e ltac:(lia)). lia. }
  apply NoDup_ListNoDup in Hnd. pose proof (NoDup_incl_length Hnd Hin) as Hle.
  unfold vals in Hle. rewrite length_map, !length_seqZ in Hle. lia.
Qed.

Lemma occupied_valid m l j :
  hash_rep m l -> 0 <= j < map_size ->
  CFE_SBR_IsValidRouteId (zget (Hash.MSGMAP m) j) = true <-> zget (Hash.MSGMAP m) j <> 0.
Proof.
  intros Hr Hj. pose proof (hash_values m l Hr j Hj). pose proof (hash_routes m l Hr).
  unfold CFE_PLATFORM_SB_MAX_MSG_IDS in *. rewrite valid_route_iff; lia.
Qed.

(** A probe whose condition implies that the slot is occupied stops within one
    turn, after at most as many steps as there are routes. *)
Lemma probe_stops m l busy h :
  hash_rep m l -> 0 <= h < map_size ->
  (forall j, 0 <= j < map_size -> busy j = true -> zget (Hash.MSGMAP m) j <> 0) ->
  exists d, 0 <= d <= zlen l /\ Hash.probe busy Hash.turn h 0 = Some (slot h d, d)
    /\ busy (slot h d) = false /\ forall e, 0 <= e < d -> busy (slot h e) = true.
Proof.
  intros Hr Hh Hbusy. pose proof (hash_routes m l Hr).
  destruct (probe_spec busy Hash.turn h 0) as [(d & Hd & E & Hb & Ha)|[_ Ha]]; [done..| |].
  - change (Z.of_nat Hash.turn) with map_size in Hd.
    exists d. split_and!; [lia| |done|done|done].
    apply (occupied_run m l h); [done|lia|]. intros e He. apply Hbusy; [apply hash_slot_range|auto].
  - change (Z.of_nat Hash.turn) with map_size in Ha.
    assert (map_size <= zlen l); [|unfold map_size, CFE_PLATFORM_SB_MAX_MSG_IDS in *; lia].
    apply (occupied_run m l h); [done|unfold map_size, CFE_PLATFORM_SB_MAX_MSG_IDS; lia|].
    intros e He. apply Hbusy; [apply hash_slot_range|auto].
Qed.

Lemma hash_rep_init : hash_rep Hash.Init_Map [].
Proof.
  assert (Hz : forall j, 0 <= j < map_size -> zget (Hash.MSGMAP Hash.Init_Map) j = 0).
  { intros j Hj. apply zget_replicate. rewrite Z2Nat.id; [done|].
    unfold map_size, CFE_PLATFORM_SB_MAX_MSG_IDS. lia. }
  split; [reflexivity|..|done].
  - intros j Hj. by rewrite Hz.
  - intros j j' Hj _ Hnz. by rewrite Hz in Hnz.
  - intros i Hi. change (zlen []) with 0 in Hi. lia.
Qed.

Lemma hash_rep_set m l id d :
  hash_rep m l -> zlen l < CFE_PLATFORM_SB_MAX_MSG_IDS -> 0 <= d < map_size ->
  zget (Hash.MSGMAP m) (slot (Hash.CFE_SBR_MsgIdHash id) d) = 0 ->
  (forall e, 0 <= e < d -> zget (Hash.MSGMAP m) (slot (Hash.CFE_SBR_MsgIdHash id) e) <> 0) ->
  hash_rep (Hash.mk (zset (Hash.MSGMAP m) (slot (Hash.CFE_SBR_MsgIdHash id) d) (zlen l + 1))) (l ++ [id]).
Proof.
  intros Hr Hroom Hd Hfree Hpath. set (s := slot (Hash.CFE_SBR_MsgIdHash id) d) in *.
  pose proof (hash_slot_range (Hash.CFE_SBR_MsgIdHash id) d) as Hs. fold s in Hs. pose proof (zlen_nonneg l).
  assert (Hg : forall j, 0 <= j < map_size ->
    zget (zset (Hash.MSGMAP m) s (zlen l + 1)) j = if s =? j then zlen l + 1 else zget (Hash.MSGMAP m) j).
  { intros j Hj. apply zget_zset; [|lia]. by rewrite (hash_size m l Hr). }
  assert (Hlen : zlen (l ++ [id]) = zlen l + 1) by (rewrite zlen_app; done).
  split; cbn [Hash.MSGMAP]; rewrite ?Hlen.
  - rewrite zlen_zset. apply Hr.
  - intros j Hj. rewrite Hg by done. case_test; [lia|]. pose proof (hash_values m l Hr j Hj). lia.
  - intros j j' Hj Hj'. rewrite !Hg by done.
    pose proof (hash_values m l Hr j Hj). pose proof (hash_values m l Hr j' Hj').
    repeat case_test; subst; try lia; intros. by apply (hash_distinct m l Hr).
  - intros i Hi. destruct (decide (i = zlen l)) as [->|].
    + exists d. rewrite zget_snoc. fold s. rewrite Hg, Z.eqb_refl by done. split_and!; [lia..|].
      intros e He. rewrite Hg by apply hash_slot_range. case_test; [lia|]. by apply Hpath.
    + rewrite zget_app_l by lia. destruct (hash_reach m l Hr i) as (d' & Hd' & Hv & Hp); [lia|].
      exists d'. split; [done|]. split.
      * rewrite Hg by apply hash_slot_range. case_test; [|done]. exfalso.
        rewrite <- e, Hfree in Hv. lia.
      * intros e He. rewrite Hg by apply hash_slot_range. case_test; [lia|]. by apply Hp.
  - lia.
Qed.

Lemma hash_get m l id GetMsgId :
  hash_rep m l -> NoDup l -> CFE_SB_IsValidMsgId id = true ->
  (forall i, 0 <= i < zlen l -> GetMsgId (i + 1) = zget l i) ->
  Hash.GetRouteId m GetMsgId id = Some (route_of l id).
Proof.
  intros Hr Hd Hv Hg. unfold Hash.GetRouteId. rewrite Hv.
  pose proof (hash_range id) as Hh. set (h := Hash.CFE_SBR_MsgIdHash id) in *.
  set (busy := fun hash => _).
  assert (Hb : forall j, 0 <= j < map_size ->
    busy j = true <-> zget (Hash.MSGMAP m) j <> 0 /\ GetMsgId (zget (Hash.MSGMAP m) j) <> id).
  { intros j Hj. unfold busy, CFE_SB_MsgId_Equal. rewrite andb_true_iff, negb_true_iff, Z.eqb_neq.
    by rewrite (occupied_valid m l j Hr Hj). }
  destruct (probe_stops m l busy h) as (d & Hdl & -> & Hstop & Hpath); [done..| |].
  { intros j Hj ?%Hb; [tauto|done]. }
  f_equal. pose proof (hash_slot_range h d) as Hs.
  assert (Hns : ~ (zget (Hash.MSGMAP m) (slot h d) <> 0
                  /\ GetMsgId (zget (Hash.MSGMAP m) (slot h d)) <> id)).
  { rewrite <- Hb by done. by rewrite Hstop. }
  pose proof (hash_values m l Hr _ Hs) as Hval. pose proof (hash_routes m l Hr) as Hmax.
  destruct (decide (zget (Hash.MSGMAP m) (slot h d) = 0)) as [E0|Hnz].
  - rewrite E0. symmetry. apply route_of_absent. intros Hin.
    apply list_elem_of_In, list_elem_of_lookup in Hin as [n Hn].
    assert (Hni : 0 <= Z.of_nat n < zlen l) by (apply lookup_lt_Some in Hn; unfold zlen; lia).
    assert (Hid : zget l (Z.of_nat n) = id) by (unfold zget; rewrite Nat2Z.id; by apply list_lookup_total_correct).
    destruct (hash_reach m l Hr (Z.of_nat n) Hni) as (d' & Hd' & Hv' & Hp). rewrite Hid in Hv', Hp.
    fold h in Hv', Hp. destruct (Z.lt_trichotomy d d') as [Hlt|[<-|Hlt]]; [by apply (Hp d); [lia|]|lia|].
    specialize (Hpath d' ltac:(lia)). apply Hb in Hpath as [_ Hne]; [|apply hash_slot_range].
    rewrite Hv', Hg in Hne by done. done.
  - assert (Hid : GetMsgId (zget (Hash.MSGMAP m) (slot h d)) = id).
    { destruct (decide (GetMsgId (zget (Hash.MSGMAP m) (slot h d)) = id)); [done|]. by destruct Hns. }
    replace (zget (Hash.MSGMAP m) (slot h d)) with (zget (Hash.MSGMAP m) (slot h d) - 1 + 1) in Hid by lia.
    rewrite Hg in Hid by lia. rewrite <- Hid, route_of_at by (done || lia). lia.
Qed.

#[export, refine] Instance hash_laws : RouteMapLaws Hash.t := {| map_rep := hash_rep |}.
Proof.
  - apply hash_rep_init.
  - intros m l id Hr Hv Hpos Hn Hroom. cbn. unfold Hash.SetRouteId. rewrite Hv.
    destruct (probe_stops m l (fun j => CFE_SBR_IsValidRouteId (zget (Hash.MSGMAP m) j))
                (Hash.CFE_SBR_MsgIdHash id)) as (d & Hd & -> & Hf & Hp);
      [done|apply hash_range|by intros; eapply occupied_valid|].
    unfold CFE_PLATFORM_SB_MAX_MSG_IDS in Hroom.
    eexists _, _. split_and!; [done|lia..|].
    apply hash_rep_set; [done..|unfold map_size, CFE_PLATFORM_SB_MAX_MSG_IDS; lia| |].
    + pose proof (occupied_valid m l _ Hr (hash_slot_range (Hash.CFE_SBR_MsgIdHash id) d)) as Ho.
      rewrite Hf in Ho. destruct (Z.eq_dec (zget (Hash.MSGMAP m) (slot (Hash.CFE_SBR_MsgIdHash id) d)) 0);
        [done|]. by apply Ho in n.
    + intros e He. apply (occupied_valid m l _ Hr (hash_slot_range _ e)). by apply Hp.
  - intros m l id g Hr Hd Hv _ Hg. by apply hash_get.
  - intros m g id Hv. cbn. unfold Hash.GetRouteId. by rewrite Hv.
Defined.
