(* ===== verification/SbRouteTheorems.v ===== *)
(** * Software bus routing: theorems

    The route table refines the list of the message ids that have a route, for
    every map that satisfies [RouteMapLaws]; the two maps of the repository give
    the same routing; the iteration over the routes, throttled or not, meets
    every route once. *)

From S2P Require Import Prelude SbRoute SbRouteProofs.

(** The route lookup at the start of [CFE_SB_SubscribeFull]: the route of the
    message id, added when there is none. *)
Definition find_or_add_route {M} `{RouteMap M} (st : sbr_state M) (MsgId : Z)
  : option (Z * sbr_state M) :=
  match CFE_SBR_GetRouteId st MsgId with
  | None => None
  | Some RouteId =>
      if CFE_SBR_IsValidRouteId RouteId then Some (RouteId, st)
      else match CFE_SBR_AddRoute st MsgId with
           | Some (RouteId', _, st') => Some (RouteId', st')
           | None => None
           end
  end.

Section table.
Context {M : Type} `{HM : RouteMap M} {HL : RouteMapLaws M}.
Implicit Types (st : sbr_state M) (l : list Z).

Record route_rep st l : Prop := {
  rep_map : map_rep (MsgMap st) l;
  rep_nodup : NoDup l;
  rep_valid : forall id, In id l -> CFE_SB_IsValidMsgId id = true /\ 0 < id;
  rep_top : RouteIdxTop st = zlen l;
  rep_room : zlen l <= CFE_PLATFORM_SB_MAX_MSG_IDS;
  rep_size : zlen (RoutingTbl st) = CFE_PLATFORM_SB_MAX_MSG_IDS;
  rep_ids : forall i, 0 <= i < zlen l -> route_MsgId (zget (RoutingTbl st) i) = zget l i
}.

Lemma init_rep : route_rep CFE_SBR_Init [].
Proof using HL.
  split; try done; try (by intros ? []); [apply init_map_rep|constructor|].
  intros i Hi. change (zlen []) with 0 in Hi. lia.
Qed.

Lemma route_value r : 1 <= r <= 256 -> CFE_SBR_RouteIdToValue r = r - 1.
Proof using. unfold CFE_SBR_RouteIdToValue. intros. apply u16_id. range. Qed.

Lemma route_id v : 0 <= v < 256 -> CFE_SBR_ValueToRouteId v = v + 1.
Proof using. unfold CFE_SBR_ValueToRouteId. intros. rewrite u16_id by range. lia. Qed.

Lemma GetMsgId_rep st l i :
  route_rep st l -> 0 <= i < zlen l -> CFE_SBR_GetMsgId st (i + 1) = zget l i.
Proof using.
  intros Hr Hi. pose proof (rep_room st l Hr). unfold CFE_PLATFORM_SB_MAX_MSG_IDS in *.
  unfold CFE_SBR_GetMsgId. rewrite (proj2 (valid_route_iff (i + 1) ltac:(lia))) by lia.
  rewrite route_value by lia. replace (i + 1 - 1) with i by lia. by apply Hr.
Qed.

Lemma GetRouteId_rep st l id :
  route_rep st l -> is_u32 id -> CFE_SBR_GetRouteId st id = Some (route_of l id).
Proof using.
  intros Hr Hid. unfold CFE_SBR_GetRouteId. destruct (CFE_SB_IsValidMsgId id) eqn:Ev.
  - apply get_route_rep; [apply Hr..|done| |intros; by apply GetMsgId_rep].
    apply valid_msgid_bound in Ev. range.
  - rewrite get_route_invalid by done. rewrite route_of_absent; [done|].
    intros [Hv _]%(rep_valid st l Hr). congruence.
Qed.

(** Both outcomes of [CFE_SBR_AddRoute] for a message id without a route. *)
Lemma AddRoute_eff st l id :
  route_rep st l -> is_u32 id -> ~ In id l ->
  if CFE_SB_IsValidMsgId id && (zlen l <? CFE_PLATFORM_SB_MAX_MSG_IDS)
  then exists collisions st',
    CFE_SBR_AddRoute st id = Some (zlen l + 1, collisions, st')
    /\ 0 <= collisions <= zlen l /\ route_rep st' (l ++ [id])
    /\ RoutingTbl st' = zset (RoutingTbl st) (zlen l) (with_MsgId (zget (RoutingTbl st) (zlen l)) id)
  else CFE_SBR_AddRoute st id = Some (CFE_SBR_INVALID_ROUTE_ID, 0, st).
Proof using.
  intros Hr Hid Hn. unfold CFE_SBR_AddRoute. rewrite (rep_top st l Hr).
  destruct (CFE_SB_IsValidMsgId id) eqn:Ev; [|done].
  cbn [andb]. destruct (Z.ltb_spec (zlen l) CFE_PLATFORM_SB_MAX_MSG_IDS) as [Hlt|]; [|done].
  pose proof (zlen_nonneg l). assert (Hpos : 0 < id) by (apply valid_msgid_bound in Ev; range).
  pose proof (rep_size st l Hr) as Hsize.
  destruct (set_route_rep (MsgMap st) l id) as (c & m' & E & Hc & Hm'); [apply Hr|done..|].
  unfold CFE_PLATFORM_SB_MAX_MSG_IDS in *. rewrite route_id, E, u16_id by range.
  eexists c, _. split; [done|]. split; [done|]. split; [|done].
  split; cbn [MsgMap RouteIdxTop RoutingTbl]; unfold CFE_PLATFORM_SB_MAX_MSG_IDS;
    rewrite ?zlen_app, ?zlen_zset; try done.
  - apply list.NoDup_app. split_and!; [apply Hr| |apply NoDup_singleton].
    intros x Hx ->%list_elem_of_singleton. by apply Hn, list_elem_of_In.
  - intros x [Hx|[<-|[]]]%in_app_iff; [by apply Hr|done].
  - change (zlen [id]) with 1. lia.
  - change (zlen [id]) with 1. intros i Hi. rewrite zget_zset by lia. case_test.
    + subst. by rewrite zget_snoc.
    + rewrite zget_app_l by lia. apply Hr. lia.
Qed.

(** The operations that update a route keep its message id. *)
Lemma update_route_rep st l r f :
  route_rep st l -> 0 <= r -> (forall e, route_MsgId (f e) = route_MsgId e) ->
  route_rep (update_route st r f) l.
Proof using.
  intros Hr Hr0 Hf. unfold update_route. destruct (CFE_SBR_IsValidRouteId r) eqn:Ev; [|done].
  apply valid_route_iff in Ev; [|done]. rewrite route_value by done. pose proof (rep_size st l Hr) as Hs.
  unfold CFE_PLATFORM_SB_MAX_MSG_IDS in Hs.
  split; cbn [MsgMap RouteIdxTop RoutingTbl]; rewrite ?zlen_zset; try apply Hr.
  intros i Hi. rewrite zget_zset by lia. case_test; [subst; rewrite Hf|]; by apply Hr.
Qed.

Lemma route_of_range l id : 0 <= route_of l id <= zlen l.
Proof using.
  pose proof (zlen_nonneg l). unfold route_of.
  destruct (position_from_spec 1 l id) as [[_ ->]|(i & Hi & _ & ->)]; lia.
Qed.

Lemma route_of_present l id : NoDup l -> route_of l id <> 0 -> In id l.
Proof using.
  intros Hd Hz. destruct (position_from_spec 1 l id) as [[_ E]|(i & Hi & <- & _)]; [lia|done|].
  by apply zget_In.
Qed.

(** The list of message ids after [find_or_add_route]. *)
Definition added l (id : Z) : list Z :=
  if (route_of l id =? 0) && CFE_SB_IsValidMsgId id && (zlen l <? CFE_PLATFORM_SB_MAX_MSG_IDS)
  then l ++ [id] else l.

Lemma find_or_add_eff st l id :
  route_rep st l -> is_u32 id ->
  exists st', find_or_add_route st id = Some (route_of (added l id) id, st')
    /\ route_rep st' (added l id)
    /\ RoutingTbl st' = (if zlen (added l id) =? zlen l then RoutingTbl st
                         else zset (RoutingTbl st) (zlen l)
                                (with_MsgId (zget (RoutingTbl st) (zlen l)) id)).
Proof using.
  intros Hr Hid. unfold find_or_add_route. rewrite (GetRouteId_rep st l id Hr Hid).
  pose proof (route_of_range l id) as Hrange. pose proof (rep_room st l Hr) as Hroom.
  unfold added. destruct (Z.eqb_spec (route_of l id) 0) as [E0|Hnz].
  - assert (Hn : ~ In id l).
    { intros Hin. apply list_elem_of_In, list_elem_of_lookup in Hin as [n Hl].
      pose proof (lookup_lt_Some _ _ _ Hl).
      assert (He : zget l (Z.of_nat n) = id) by (unfold zget; rewrite Nat2Z.id; by apply list_lookup_total_correct).
      pose proof (route_of_at l (Z.of_nat n) (rep_nodup st l Hr)) as Ha. rewrite He in Ha.
      unfold zlen in Ha. lia. }
    rewrite E0. cbn [CFE_SBR_IsValidRouteId negb andb Z.eqb].
    pose proof (AddRoute_eff st l id Hr Hid Hn) as Ha.
    destruct (CFE_SB_IsValidMsgId id && (zlen l <? CFE_PLATFORM_SB_MAX_MSG_IDS)) eqn:Eb; cbn [andb].
    + destruct Ha as (c & st' & -> & _ & Hr' & Ht). rewrite zlen_app. change (zlen [id]) with 1.
      rewrite (proj2 (Z.eqb_neq (zlen l + 1) (zlen l))) by lia. exists st'.
      split; [|done]. do 2 f_equal. symmetry.
      rewrite <- (zget_snoc l id) at 2. rewrite route_of_at; [lia|apply Hr'|].
      rewrite zlen_app. change (zlen [id]) with 1. pose proof (zlen_nonneg l). lia.
    + rewrite Ha, Z.eqb_refl, E0. by exists st.
  - cbn [andb]. rewrite (proj2 (valid_route_iff (route_of l id) ltac:(lia))), Z.eqb_refl
      by (unfold CFE_PLATFORM_SB_MAX_MSG_IDS in *; lia). by exists st.
Qed.

(** *** Iteration *)

Definition visit {A} (cb : Z -> A -> A) (first count : Z) (arg : A) : A :=
  fold_left (fun a r => cb r a) (seqZ first count) arg.

Lemma visit_app {A} (cb : Z -> A -> A) first n k arg :
  0 <= n -> 0 <= k -> visit cb (first + n) k (visit cb first n arg) = visit cb first (n + k) arg.
Proof using. intros. unfold visit. by rewrite seqZ_app, fold_left_app by done. Qed.

Lemma ForEach_loop {A} (cb : Z -> A -> A) fuel i e arg :
  0 <= i -> e <= 256 -> Z.of_nat fuel = Z.max 0 (e - i) ->
  ForEachRouteId_loop cb fuel i e arg = visit cb (i + 1) (e - i) arg.
Proof using.
  revert i arg. induction fuel as [|fuel IH]; intros i arg Hi He Hf; cbn [ForEachRouteId_loop].
  { unfold visit. by rewrite seqZ_nil by lia. }
  destruct (Z.ltb_spec i e); [|lia]. rewrite route_id, u16_id by range. rewrite IH by lia.
  unfold visit. rewrite (seqZ_cons (i + 1) (e - i)) by lia. cbn [fold_left].
  f_equal. f_equal; lia.
Qed.

(** The routes one call visits, and where the next one has to start. *)
Lemma ForEachRoute_eff {A} st l (cb : Z -> A -> A) arg start maxloop :
  route_rep st l -> 0 <= start < 2 ^ 16 -> 0 <= maxloop -> start + maxloop < 2 ^ 32 ->
  let e := Z.min (start + maxloop) (zlen l) in
  CFE_SBR_ForEachRouteId st cb arg (Some (mkThrottle start maxloop 0))
  = (visit cb (start + 1) (e - start) arg,
     Some (mkThrottle start maxloop (if start + maxloop <? zlen l then e else 0))).
Proof using.
  intros Hr Hs Hm Hb. cbn zeta. unfold CFE_SBR_ForEachRouteId. cbn [StartIndex MaxLoop].
  rewrite (rep_top st l Hr), (u16_id start), u32_id by range.
  pose proof (rep_room st l Hr). unfold CFE_PLATFORM_SB_MAX_MSG_IDS in *.
  destruct (Z.ltb_spec (start + maxloop) (zlen l)).
  - rewrite u16_id by range. rewrite ForEach_loop by lia. by rewrite Z.min_l by lia.
  - rewrite ForEach_loop by lia. by rewrite Z.min_r by lia.
Qed.

(** A background activity that restarts the iteration at [NextIndex] until the
    whole range is processed. *)
Fixpoint sweep {A} st (cb : Z -> A -> A) (fuel : nat) (start maxloop : Z) (arg : A) : option A :=
  match fuel with
  | O => None
  | S fuel' =>
      match CFE_SBR_ForEachRouteId st cb arg (Some (mkThrottle start maxloop 0)) with
      | (arg', Some t) => if NextIndex t =? 0 then Some arg'
                          else sweep st cb fuel' (NextIndex t) maxloop arg'
      | (_, None) => None
      end
  end.

Lemma sweep_eff {A} st l (cb : Z -> A -> A) fuel start maxloop arg :
  route_rep st l -> 0 <= start <= zlen l -> 0 < maxloop < 2 ^ 31 -> zlen l - start < Z.of_nat fuel ->
  sweep st cb fuel start maxloop arg = Some (visit cb (start + 1) (zlen l - start) arg).
Proof using.
  intros Hr. pose proof (rep_room st l Hr). unfold CFE_PLATFORM_SB_MAX_MSG_IDS in *.
  revert start arg. induction fuel as [|fuel IH]; intros start arg Hs Hm Hf; [lia|].
  cbn [sweep]. rewrite (ForEachRoute_eff st l) by (done || lia). cbn zeta. cbn [NextIndex].
  destruct (Z.ltb_spec (start + maxloop) (zlen l)).
  - rewrite Z.min_l by lia. rewrite (proj2 (Z.eqb_neq (start + maxloop) 0)) by lia.
    rewrite IH by lia. f_equal. replace (start + maxloop - start) with maxloop by lia.
    replace (start + maxloop + 1) with (start + 1 + maxloop) by lia.
    rewrite visit_app by lia. f_equal. lia.
  - rewrite Z.eqb_refl. by rewrite Z.min_r by lia.
Qed.
End table.

(**  Adding a route for a message id that has none, whichever map is built
    in: for a valid id and a table that is not full the call ends, answers the
    next route id, reports at most as many collisions as there are routes, and
    afterwards the table represents the ids with the new one added: looking the
    id up finds the new route, the route gives the id back, and every other id
    keeps the route it had.  For an invalid id or a full table it answers the
    invalid route id and changes nothing. *)
Theorem AddRoute_refines {M} `{RouteMapLaws M} (st : sbr_state M) l id :
  route_rep st l -> is_u32 id -> ~ In id l ->
  if CFE_SB_IsValidMsgId id && (zlen l <? CFE_PLATFORM_SB_MAX_MSG_IDS)
  then exists collisions st',
    CFE_SBR_AddRoute st id = Some (zlen l + 1, collisions, st')
    /\ 0 <= collisions <= zlen l /\ route_rep st' (l ++ [id])
    /\ CFE_SBR_GetRouteId st' id = Some (zlen l + 1)
    /\ CFE_SBR_GetMsgId st' (zlen l + 1) = id
    /\ forall id', is_u32 id' -> id' <> id -> CFE_SBR_GetRouteId st' id' = CFE_SBR_GetRouteId st id'
  else CFE_SBR_AddRoute st id = Some (CFE_SBR_INVALID_ROUTE_ID, 0, st).
Proof.
  intros Hr Hid Hn. pose proof (AddRoute_eff st l id Hr Hid Hn) as Ha.
  destruct (_ && _) eqn:Eb; [|done]. destruct Ha as (c & st' & E & Hc & Hr' & _).
  exists c, st'. pose proof (zlen_nonneg l).
  assert (Hlast : 0 <= zlen l < zlen (l ++ [id])) by (rewrite zlen_app; change (zlen [id]) with 1; lia).
  split_and!; [done|lia|lia|done| | |].
  - rewrite (GetRouteId_rep st' (l ++ [id]) id) by done.
    rewrite <- (route_of_at (l ++ [id]) (zlen l)) by (done || apply Hr'). by rewrite zget_snoc.
  - rewrite (GetMsgId_rep st' (l ++ [id])) by done. apply zget_snoc.
  - intros id' Hid' Hne.
    rewrite (GetRouteId_rep st' (l ++ [id]) id'), (GetRouteId_rep st l id') by done. f_equal.
    unfold route_of. rewrite position_from_app. cbn [position_from].
    rewrite (proj2 (Z.eqb_neq id id')) by congruence.
    destruct (decide (In id' l)); [done|]. symmetry. by apply route_of_absent.
Qed.

(** ** The two maps route alike *)

(** What the software bus does with the route table. *)
Inductive route_op : Type :=
  | Route (MsgId : Z)                    (* find or add the route of an id *)
  | SetHead (MsgId DestPtr : Z)          (* set its list of destinations *)
  | NextSequence (MsgId : Z).            (* advance its sequence counter *)

Definition route_op_id (o : route_op) : Z :=
  match o with Route id | SetHead id _ | NextSequence id => id end.

Section trace.
Context {M : Type} `{RouteMap M} (next_count : Z -> Z).

(** Each operation answers a number the caller sees: the route id, the old list
    head, the new sequence count. *)
Definition route_step (st : sbr_state M) (o : route_op) : option (Z * sbr_state M) :=
  match o with
  | Route id => find_or_add_route st id
  | SetHead id ptr =>
      match CFE_SBR_GetRouteId st id with
      | Some r => Some (CFE_SBR_GetDestListHeadPtr st r, CFE_SBR_SetDestListHeadPtr st r ptr)
      | None => None
      end
  | NextSequence id =>
      match CFE_SBR_GetRouteId st id with
      | Some r => let st' := CFE_SBR_IncrementSequenceCounter next_count st r in
                  Some (CFE_SBR_GetSequenceCounter st' r, st')
      | None => None
      end
  end.

Fixpoint route_run (st : sbr_state M) (ops : list route_op) : option (list Z * sbr_state M) :=
  match ops with
  | [] => Some ([], st)
  | o :: ops' =>
      match route_step st o with
      | None => None
      | Some (answer, st1) =>
          match route_run st1 ops' with
          | Some (answers, st2) => Some (answer :: answers, st2)
          | None => None
          end
      end
  end.
End trace.

(** Two route tables that stand for the same abstract table. *)
Definition agree {M N} `{RouteMapLaws M} `{RouteMapLaws N} (a : sbr_state M) (b : sbr_state N) : Prop :=
  RoutingTbl a = RoutingTbl b /\ exists l, route_rep a l /\ route_rep b l.

Section agreement.
Context {M N : Type} `{HM : RouteMapLaws M} `{HN : RouteMapLaws N}.
Implicit Types (a : sbr_state M) (b : sbr_state N).

Lemma agree_update a b l r f :
  RoutingTbl a = RoutingTbl b -> route_rep a l -> route_rep b l -> 0 <= r ->
  (forall e, route_MsgId (f e) = route_MsgId e) ->
  agree (update_route a r f) (update_route b r f).
Proof.
  intros Ht Ha Hb Hr Hf. split; [|exists l; split; by apply update_route_rep].
  unfold update_route. destruct (CFE_SBR_IsValidRouteId r); [|done]. cbn. by rewrite Ht.
Qed.

Lemma agree_step next_count a b o :
  agree a b -> is_u32 (route_op_id o) ->
  exists answer a' b',
    route_step next_count a o = Some (answer, a') /\ route_step next_count b o = Some (answer, b')
    /\ agree a' b'.
Proof.
  intros (Ht & l & Ha & Hb) Hid. destruct o as [id|id ptr|id]; cbn [route_op_id route_step] in *.
  - destruct (find_or_add_eff a l id Ha Hid) as (a' & -> & Ha' & Hta).
    destruct (find_or_add_eff b l id Hb Hid) as (b' & -> & Hb' & Htb).
    eexists _, a', b'. split_and!; [done..|]. split; [by rewrite Hta, Htb, Ht|by eexists].
  - rewrite (GetRouteId_rep a l id Ha Hid), (GetRouteId_rep b l id Hb Hid).
    eexists _, _, _. split; [done|].
    split; [unfold CFE_SBR_GetDestListHeadPtr; by rewrite Ht|].
    apply (agree_update a b l); [done..|apply route_of_range|done].
  - rewrite (GetRouteId_rep a l id Ha Hid), (GetRouteId_rep b l id Hb Hid).
    eexists _, _, _. split; [done|].
    assert (Hag : agree (CFE_SBR_IncrementSequenceCounter next_count a (route_of l id))
                        (CFE_SBR_IncrementSequenceCounter next_count b (route_of l id))).
    { apply (agree_update a b l); [done..|apply route_of_range|done]. }
    split; [|done]. destruct Hag as [E _]. unfold CFE_SBR_GetSequenceCounter. by rewrite E.
Qed.

Lemma agree_run next_count ops a b :
  agree a b -> (forall o, In o ops -> is_u32 (route_op_id o)) ->
  exists answers a' b',
    route_run next_count a ops = Some (answers, a') /\ route_run next_count b ops = Some (answers, b')
    /\ agree a' b'.
Proof.
  revert a b. induction ops as [|o ops IH]; intros a b Hag Hids; cbn [route_run]; [by eexists _, a, b|].
  destruct (agree_step next_count a b o Hag) as (x & a1 & b1 & -> & -> & Hag1); [apply Hids; by left|].
  destruct (IH a1 b1 Hag1) as (xs & a2 & b2 & -> & -> & Hag2); [intros; apply Hids; by right|].
  by eexists _, a2, b2.
Qed.
End agreement.

(** C19.  The hashed map and the direct map are interchangeable: from the initial
    state, every sequence of route lookups and additions, changes of the list of
    destinations and sequence counter updates runs to its end with both maps
    (no probe of the hashed map runs forever), gives the same answers, and leaves
    the same routing table and the same route for every message id. *)
Theorem hash_direct_agree (next_count : Z -> Z) ops :
  (forall o, In o ops -> is_u32 (route_op_id o)) ->
  exists answers (h : sbr_state Hash.t) (d : sbr_state Direct.t),
    route_run next_count CFE_SBR_Init ops = Some (answers, h)
    /\ route_run next_count CFE_SBR_Init ops = Some (answers, d)
    /\ RoutingTbl h = RoutingTbl d /\ RouteIdxTop h = RouteIdxTop d
    /\ forall id, is_u32 id -> CFE_SBR_GetRouteId h id = CFE_SBR_GetRouteId d id.
Proof.
  intros Hids.
  destruct (agree_run (M := Hash.t) (N := Direct.t) next_count ops CFE_SBR_Init CFE_SBR_Init)
    as (answers & h & d & Eh & Ed & Ht & l & Hh & Hd).
  - split; [unfold CFE_SBR_Init; cbn [RoutingTbl]; reflexivity|]. exists []. split; apply init_rep.
  - done.
  - exists answers, h, d. split_and!; [done..| |].
    + by rewrite (rep_top h l Hh), (rep_top d l Hd).
    + intros id Hid. by rewrite (GetRouteId_rep h l id Hh Hid), (GetRouteId_rep d l id Hd Hid).
Qed.

(**  Iterating over the routes: one unthrottled call applies the callback to
    every route once, in the order they were added; a background activity that
    repeats throttled calls of at most [maxloop] routes, each starting where
    [NextIndex] says, ends after at most one call per route and has then done
    exactly the same. *)
Theorem throttled_sweep_visits_all {M} `{RouteMapLaws M} {A} (st : sbr_state M) l
    (cb : Z -> A -> A) (arg : A) (maxloop : Z) :
  route_rep st l -> 0 < maxloop < 2 ^ 31 ->
  fst (CFE_SBR_ForEachRouteId st cb arg None) = fold_left (fun a r => cb r a) (seqZ 1 (zlen l)) arg
  /\ sweep st cb (S (length l)) 0 maxloop arg
     = Some (fold_left (fun a r => cb r a) (seqZ 1 (zlen l)) arg).
Proof.
  intros Hr Hm. pose proof (zlen_nonneg l). pose proof (rep_room st l Hr).
  unfold CFE_PLATFORM_SB_MAX_MSG_IDS in *. split.
  - unfold CFE_SBR_ForEachRouteId. cbn [fst]. rewrite (rep_top st l Hr), ForEach_loop by lia.
    unfold visit. by rewrite Z.sub_0_r.
  - rewrite (sweep_eff st l) by (done || unfold zlen; lia). unfold visit. by rewrite Z.sub_0_r.
Qed.

(** ** Witnesses *)

(** A short routing history; the last id is out of range and gets no route. *)
Definition demo_ops : list route_op :=
  [Route 0x1801; Route 0x1802; SetHead 0x1801 64; Route 0x1801; NextSequence 0x1802; Route 0x2000].

Definition demo_routes : sbr_state Hash.t :=
  match route_run Z.succ CFE_SBR_Init demo_ops with Some (_, st) => st | None => CFE_SBR_Init end.

Lemma demo_route_rep : route_rep demo_routes [0x1801; 0x1802].
Proof.
  assert (H0 : route_rep (CFE_SBR_Init : sbr_state Hash.t) []) by apply init_rep.
  destruct (find_or_add_eff _ _ 0x1801 H0) as (s1 & E1 & H1 & _); [range|].
  destruct (find_or_add_eff _ _ 0x1802 H1) as (s2 & E2 & H2 & _); [range|].
  cbn in H1, H2.
  pose proof (update_route_rep s2 _ 1 (fun e => mkRouteEntry 64 (route_MsgId e) (SeqCnt e)) H2
                ltac:(lia) (fun _ => eq_refl)) as H3.
  pose proof (update_route_rep _ _ 2 (fun e => mkRouteEntry (ListHeadPtr e) (route_MsgId e) (Z.succ (SeqCnt e)))
                H3 ltac:(lia) (fun _ => eq_refl)) as H4.
  vm_compute in E1. injection E1 as <-. vm_compute in E2. injection E2 as <-. exact H4.
Qed.

Lemma AddRoute_refines_witness :
  exists collisions st',
    CFE_SBR_AddRoute demo_routes 0x1803 = Some (3, collisions, st')
    /\ CFE_SBR_GetRouteId st' 0x1803 = Some 3 /\ CFE_SBR_GetRouteId st' 0x1802 = Some 2.
Proof.
  destruct (AddRoute_refines demo_routes [0x1801; 0x1802] 0x1803 demo_route_rep)
    as (c & st' & E & _ & _ & Eg & _ & Eo); [range|cbn; lia|].
  exists c, st'. split; [exact E|]. split; [exact Eg|].
  rewrite Eo by (range || lia). vm_compute. reflexivity.
Defined.

Lemma hash_direct_agree_witness :
  exists (h : sbr_state Hash.t) (d : sbr_state Direct.t),
    route_run Z.succ CFE_SBR_Init demo_ops = Some ([1; 2; 0; 1; 1; 0], h)
    /\ route_run Z.succ CFE_SBR_Init demo_ops = Some ([1; 2; 0; 1; 1; 0], d)
    /\ CFE_SBR_GetRouteId h 0x1802 = CFE_SBR_GetRouteId d 0x1802.
Proof.
  destruct (hash_direct_agree Z.succ demo_ops) as (answers & h & d & Eh & Ed & _ & _ & Eq).
  - intros o Ho. cbn in Ho. repeat destruct Ho as [<-|Ho]; try done; cbn; range.
  - assert (answers = [1; 2; 0; 1; 1; 0]) as ->.
    { assert (Ha : option_map fst (route_run Z.succ (CFE_SBR_Init : sbr_state Hash.t) demo_ops)
                   = Some [1; 2; 0; 1; 1; 0]) by (vm_compute; reflexivity).
      rewrite Eh in Ha. by injection Ha. }
    exists h, d. split; [exact Eh|]. split; [exact Ed|]. apply Eq. range.
Defined.

Lemma throttled_sweep_visits_all_witness :
  sweep demo_routes (fun r acc => acc ++ [r]) 3 0 1 [] = Some [1; 2].
Proof.
  exact (proj2 (throttled_sweep_visits_all demo_routes [0x1801; 0x1802] (fun r acc => acc ++ [r]) [] 1
                  demo_route_rep ltac:(lia))).
Defined.
