(* ===== verification/SbModel.v ===== *)
(** * The software bus: state, buffers and destinations

    The model of [cfe/modules/sb/fsw/src]: the buffer and destination
    descriptors, the tracking lists and the memory accounting of [cfe_sb_buf.c],
    and the internal routines of [cfe_sb_priv.c].  The API functions are in
    [SbApi].

    Descriptors live in the memory pool of the software bus.  The model keeps a
    typed view of them: maps from addresses to buffer descriptors, to their list
    links and to destination descriptors.  An access to an address that holds no
    such descriptor is a fault, [None] in the state monad below, so that the
    absence of dangling pointers is a theorem.  The pool itself is the class
    [PoolBuf]; the message module, whose code is not in the repository, and the
    compiler's layout are the class [SbPlatform]. *)

From stdpp Require Export gmap.
From S2P Require Import Prelude ResourceId SbRoute.

#[global] Open Scope Z_scope.

Definition CFE_SB_TIME_OUT : Z := s32 0xca000001.
Definition CFE_SB_NO_MESSAGE : Z := s32 0xca000002.
Definition CFE_SB_BAD_ARGUMENT : Z := s32 0xca000003.
Definition CFE_SB_MAX_PIPES_MET : Z := s32 0xca000004.
Definition CFE_SB_PIPE_CR_ERR : Z := s32 0xca000005.
Definition CFE_SB_PIPE_RD_ERR : Z := s32 0xca000006.
Definition CFE_SB_MSG_TOO_BIG : Z := s32 0xca000007.
Definition CFE_SB_BUF_ALOC_ERR : Z := s32 0xca000008.
Definition CFE_SB_MAX_MSGS_MET : Z := s32 0xca000009.
Definition CFE_SB_MAX_DESTS_MET : Z := s32 0xca00000a.
Definition CFE_SB_BUFFER_INVALID : Z := s32 0xca00000e.
Definition CFE_SB_FAILED : Z := 1.

Definition OS_SUCCESS : Z := 0.
Definition OS_QUEUE_EMPTY : Z := -8.
Definition OS_QUEUE_FULL : Z := -9.
Definition OS_QUEUE_TIMEOUT : Z := -10.
Definition OS_ERR_NO_FREE_IDS : Z := -14.
Definition OS_ERR_NAME_TAKEN : Z := -15.
Definition OS_ERR_INVALID_ID : Z := -16.
Definition OS_PEND : Z := -1.
Definition OS_CHECK : Z := 0.
Definition OS_QUEUE_MAX_DEPTH : Z := 50.

Definition CFE_SB_POLL : Z := 0.
Definition CFE_SB_PEND_FOREVER : Z := -1.
Definition CFE_SB_PIPEOPTS_IGNOREMINE : Z := 1.
Definition CFE_PLATFORM_SB_MAX_PIPES : Z := 64.
Definition CFE_PLATFORM_SB_MAX_DEST_PER_PKT : Z := 16.
Definition CFE_PLATFORM_SB_DEFAULT_MSG_LIMIT : Z := 4.
Definition CFE_SB_PIPEID_BASE : Z := CFE_RESOURCEID_MAKE_BASE (0x10 + 6).
Definition CFE_SB_ACTIVE : Z := 1.
Definition CFE_SB_ENABLE : Z := 1.
Definition CFE_SB_MSG_GLOBAL : Z := 0.
Definition CFE_SB_MSG_LOCAL : Z := 1.
Definition CFE_MSG_Type_Tlm : Z := 2.
Definition CFE_ES_APPID_UNDEFINED : Z := 0.
Definition NULL : Z := 0.

(** ** Descriptors *)

Record CFE_SB_BufferLink_t := mkLink { lk_Next : Z; lk_Prev : Z }.

Record CFE_SB_BufferD_t (Msg : Type) := mkBufferD {
  bd_MsgId : Z;
  bd_AppId : Z;
  AllocatedSize : Z;
  ContentSize : Z;
  ContentType : Z;
  AutoSequence : bool;
  UseCount : Z;
  Content : Msg
}.
Arguments mkBufferD {Msg}.
Arguments bd_MsgId {Msg}.
Arguments bd_AppId {Msg}.
Arguments AllocatedSize {Msg}.
Arguments ContentSize {Msg}.
Arguments ContentType {Msg}.
Arguments AutoSequence {Msg}.
Arguments UseCount {Msg}.
Arguments Content {Msg}.

Record CFE_SB_DestinationD_t := mkDest {
  dest_PipeId : Z;
  Active : Z;
  MsgId2PipeLim : Z;
  BuffCount : Z;
  DestCnt : Z;
  Scope : Z;
  dest_Prev : Z;
  dest_Next : Z
}.

Record CFE_SB_PipeD_t := mkPipe {
  PipeId : Z;
  Opts : Z;
  pipe_AppId : Z;
  SysQueueId : Z;
  SendErrors : Z;
  MaxQueueDepth : Z;
  CurrentQueueDepth : Z;
  PeakQueueDepth : Z;
  LastBuffer : Z
}.
Definition zero_pipe : CFE_SB_PipeD_t := mkPipe 0 0 0 0 0 0 0 0 0.
#[export] Instance pipe_inhabited : Inhabited CFE_SB_PipeD_t := populate zero_pipe.

(** A queue of the operating system, holding buffer descriptor addresses. *)
Record os_queue := mkQueue { q_depth : Z; q_items : list Z }.

(** The counters of the housekeeping packet and the statistics packet. *)
Inductive hk_counter : Type :=
  | NoSubscribersCounter | MsgSendErrorCounter | MsgReceiveErrorCounter | InternalErrorCounter
  | CreatePipeErrorCounter | SubscribeErrorCounter | PipeOptsErrorCounter
  | DuplicateSubscriptionsCounter | GetPipeIdByNameErrorCounter
  | PipeOverflowErrorCounter | MsgLimitErrorCounter.
#[export] Instance hk_counter_eq : EqDecision hk_counter.
Proof. solve_decision. Defined.

(** The widths of the counters, from the data sheet. *)
Definition hk_wrap (c : hk_counter) : Z -> Z :=
  match c with PipeOverflowErrorCounter | MsgLimitErrorCounter => u16 | _ => u8 end.

Inductive sb_stat : Type :=
  | MsgIdsInUse | PeakMsgIdsInUse | PipesInUse | PeakPipesInUse | MemInUse | PeakMemInUse
  | SubscriptionsInUse | PeakSubscriptionsInUse | SBBuffersInUse | PeakSBBuffersInUse.
#[export] Instance sb_stat_eq : EqDecision sb_stat.
Proof. solve_decision. Defined.

(** ** The parts the software bus is built on *)

(** The memory pool of the software bus: [CFE_ES_GetPoolBuf] and
    [CFE_ES_PutPoolBuf] on its handle.  The first gives the status and the
    address. *)
Class PoolBuf (P : Type) := {
  pool_get : P -> Z -> Z * Z * P;
  pool_put : P -> Z -> Z * P
}.

(** Messages, the layout of the descriptors, and a configured limit. *)
Class SbPlatform (Msg : Type) := {
  CFE_MSG_GetMsgId : Msg -> Z;
  CFE_MSG_GetSize : Msg -> Z;
  CFE_MSG_GetType : Msg -> Z;
  CFE_MSG_SetSequenceCount : Msg -> Z -> Msg;
  CFE_MSG_GetNextSequenceCount : Z -> Z;
  stale_content : Msg;                         (* what a fresh block happens to hold *)
  cleared_content : Z -> Msg;                  (* a zeroed message area of a size *)
  subscription_report : Z -> Z -> Z -> Msg;    (* the one-subscription packet *)
  CFE_SB_BUFFERD_CONTENT_OFFSET : Z;
  sizeof_DestinationD : Z;
  CFE_MISSION_SB_MAX_SB_MSG_SIZE : Z
}.

(** ** The state *)

Record sb (P M Msg : Type) := mkSb {
  pool : P;
  bufs : gmap Z (CFE_SB_BufferD_t Msg);
  links : gmap Z CFE_SB_BufferLink_t;
  dests : gmap Z CFE_SB_DestinationD_t;
  PipeTbl : list CFE_SB_PipeD_t;
  LastPipeId : Z;
  routes : sbr_state M;
  queues : gmap Z os_queue;
  StopRecurseFlags : list Z;
  SubscriptionReporting : Z;
  HKTlm : hk_counter -> Z;
  StatTlm : sb_stat -> Z;
  events : list Z                              (* the ids of the events sent, newest first *)
}.
Arguments mkSb {P M Msg}.
Arguments pool {P M Msg}.
Arguments bufs {P M Msg}.
Arguments links {P M Msg}.
Arguments dests {P M Msg}.
Arguments PipeTbl {P M Msg}.
Arguments LastPipeId {P M Msg}.
Arguments routes {P M Msg}.
Arguments queues {P M Msg}.
Arguments StopRecurseFlags {P M Msg}.
Arguments SubscriptionReporting {P M Msg}.
Arguments HKTlm {P M Msg}.
Arguments StatTlm {P M Msg}.
Arguments events {P M Msg}.

(** The addresses of the two list heads in [CFE_SB_Global]. *)
Definition InTransitList : Z := 1.
Definition ZeroCopyList : Z := 2.

Section model.
Context {P M Msg : Type} `{PoolBuf P} `{RouteMap M} `{SbPlatform Msg}.
Local Abbreviation sb := (sb P M Msg).
Local Abbreviation BufferD := (CFE_SB_BufferD_t Msg).

(** A routine of the software bus: [None] is a fault. *)
Definition SB (A : Type) : Type := sb -> option (A * sb).
Definition ret {A} (x : A) : SB A := fun s => Some (x, s).
Definition bind {A B} (m : SB A) (k : A -> SB B) : SB B := fun s =>
  match m s with
  | Some (x, s') => k x s'
  | None => None
  end.
Definition fault {A} : SB A := fun _ => None.
Definition gets {A} (f : sb -> A) : SB A := fun s => Some (f s, s).
Definition modify (f : sb -> sb) : SB unit := fun s => Some (tt, f s).
End model.

Notation "'let*' x ':=' m 'in' k" := (bind m (fun x => k))
  (at level 10, x pattern, m at level 100, k at level 200).
Notation "m ';*' k" := (bind m (fun _ => k)) (at level 199, right associativity).

Section setters.
Context {P M Msg : Type}.
Local Abbreviation sb := (sb P M Msg).

Definition set_pool p (s : sb) : sb :=
  mkSb p (bufs s) (links s) (dests s) (PipeTbl s) (LastPipeId s) (routes s) (queues s)
    (StopRecurseFlags s) (SubscriptionReporting s) (HKTlm s) (StatTlm s) (events s).
Definition set_bufs b (s : sb) : sb :=
  mkSb (pool s) b (links s) (dests s) (PipeTbl s) (LastPipeId s) (routes s) (queues s)
    (StopRecurseFlags s) (SubscriptionReporting s) (HKTlm s) (StatTlm s) (events s).
Definition set_links l (s : sb) : sb :=
  mkSb (pool s) (bufs s) l (dests s) (PipeTbl s) (LastPipeId s) (routes s) (queues s)
    (StopRecurseFlags s) (SubscriptionReporting s) (HKTlm s) (StatTlm s) (events s).
Definition set_dests d (s : sb) : sb :=
  mkSb (pool s) (bufs s) (links s) d (PipeTbl s) (LastPipeId s) (routes s) (queues s)
    (StopRecurseFlags s) (SubscriptionReporting s) (HKTlm s) (StatTlm s) (events s).
Definition set_PipeTbl t (s : sb) : sb :=
  mkSb (pool s) (bufs s) (links s) (dests s) t (LastPipeId s) (routes s) (queues s)
    (StopRecurseFlags s) (SubscriptionReporting s) (HKTlm s) (StatTlm s) (events s).
Definition set_LastPipeId i (s : sb) : sb :=
  mkSb (pool s) (bufs s) (links s) (dests s) (PipeTbl s) i (routes s) (queues s)
    (StopRecurseFlags s) (SubscriptionReporting s) (HKTlm s) (StatTlm s) (events s).
Definition set_routes r (s : sb) : sb :=
  mkSb (pool s) (bufs s) (links s) (dests s) (PipeTbl s) (LastPipeId s) r (queues s)
    (StopRecurseFlags s) (SubscriptionReporting s) (HKTlm s) (StatTlm s) (events s).
Definition set_queues q (s : sb) : sb :=
  mkSb (pool s) (bufs s) (links s) (dests s) (PipeTbl s) (LastPipeId s) (routes s) q
    (StopRecurseFlags s) (SubscriptionReporting s) (HKTlm s) (StatTlm s) (events s).
Definition set_flags f (s : sb) : sb :=
  mkSb (pool s) (bufs s) (links s) (dests s) (PipeTbl s) (LastPipeId s) (routes s) (queues s)
    f (SubscriptionReporting s) (HKTlm s) (StatTlm s) (events s).
Definition set_report r (s : sb) : sb :=
  mkSb (pool s) (bufs s) (links s) (dests s) (PipeTbl s) (LastPipeId s) (routes s) (queues s)
    (StopRecurseFlags s) r (HKTlm s) (StatTlm s) (events s).
Definition set_HKTlm h (s : sb) : sb :=
  mkSb (pool s) (bufs s) (links s) (dests s) (PipeTbl s) (LastPipeId s) (routes s) (queues s)
    (StopRecurseFlags s) (SubscriptionReporting s) h (StatTlm s) (events s).
Definition set_StatTlm t (s : sb) : sb :=
  mkSb (pool s) (bufs s) (links s) (dests s) (PipeTbl s) (LastPipeId s) (routes s) (queues s)
    (StopRecurseFlags s) (SubscriptionReporting s) (HKTlm s) t (events s).
Definition set_events e (s : sb) : sb :=
  mkSb (pool s) (bufs s) (links s) (dests s) (PipeTbl s) (LastPipeId s) (routes s) (queues s)
    (StopRecurseFlags s) (SubscriptionReporting s) (HKTlm s) (StatTlm s) e.
End setters.

Section buffers.
Context {P M Msg : Type} `{PoolBuf P} `{RouteMap M} `{SbPlatform Msg}.
Local Abbreviation sb := (sb P M Msg).
Local Abbreviation BufferD := (CFE_SB_BufferD_t Msg).
Local Abbreviation SB := (SB (P := P) (M := M) (Msg := Msg)).

(** *** Typed memory *)

Definition load_buf (a : Z) : SB BufferD := fun s =>
  match bufs s !! a with Some b => Some (b, s) | None => None end.
Definition store_buf (a : Z) (b : BufferD) : SB unit := fun s =>
  match bufs s !! a with Some _ => Some (tt, set_bufs (<[a := b]> (bufs s)) s) | None => None end.
Definition load_link (a : Z) : SB CFE_SB_BufferLink_t := fun s =>
  match links s !! a with Some l => Some (l, s) | None => None end.
Definition store_link (a : Z) (l : CFE_SB_BufferLink_t) : SB unit := fun s =>
  match links s !! a with Some _ => Some (tt, set_links (<[a := l]> (links s)) s) | None => None end.
Definition load_dest (a : Z) : SB CFE_SB_DestinationD_t := fun s =>
  match dests s !! a with Some d => Some (d, s) | None => None end.
Definition store_dest (a : Z) (d : CFE_SB_DestinationD_t) : SB unit := fun s =>
  match dests s !! a with Some _ => Some (tt, set_dests (<[a := d]> (dests s)) s) | None => None end.

(** *** Telemetry and events *)

Definition count (c : hk_counter) : SB unit :=
  modify (fun s => set_HKTlm (fun c' => if decide (c' = c) then hk_wrap c (HKTlm s c + 1)
                                        else HKTlm s c') s).
Definition set_stat (t : sb_stat) (v : Z) : SB unit :=
  modify (fun s => set_StatTlm (fun t' => if decide (t' = t) then v else StatTlm s t') s).

(** [in_use += n], and the high water mark. *)
Definition raise_stat (in_use peak : sb_stat) (n : Z) : SB unit :=
  let* v := gets (fun s => StatTlm s in_use) in
  set_stat in_use (u32 (v + n)) ;*
  let* v := gets (fun s => StatTlm s in_use) in
  let* top := gets (fun s => StatTlm s peak) in
  if top <? v then set_stat peak v else ret tt.
Definition lower_stat (in_use : sb_stat) (n : Z) : SB unit :=
  let* v := gets (fun s => StatTlm s in_use) in set_stat in_use (u32 (v - n)).

Definition CFE_EVS_SendEventWithAppID (EventId : Z) : SB unit :=
  modify (fun s => set_events (EventId :: events s) s).

(** *** Tracking lists (cfe_sb_buf.c)

    Circular doubly linked lists of buffers; a node that is in no list is
    linked to itself. *)

Definition CFE_SB_TrackingListReset (Link : Z) : SB unit := store_link Link (mkLink Link Link).

Definition CFE_SB_TrackingListRemove (Node : Z) : SB unit :=
  let* n := load_link Node in
  let* prev := load_link (lk_Prev n) in
  store_link (lk_Prev n) (mkLink (lk_Next n) (lk_Prev prev)) ;*
  let* n := load_link Node in
  let* next := load_link (lk_Next n) in
  store_link (lk_Next n) (mkLink (lk_Next next) (lk_Prev n)) ;*
  CFE_SB_TrackingListReset Node.

Definition CFE_SB_TrackingListAdd (List Node : Z) : SB unit :=
  let* l := load_link List in
  let* n := load_link Node in
  store_link Node (mkLink (lk_Next n) (lk_Prev l)) ;*
  let* n := load_link Node in
  store_link Node (mkLink List (lk_Prev n)) ;*
  let* n := load_link Node in
  let* prev := load_link (lk_Prev n) in
  store_link (lk_Prev n) (mkLink Node (lk_Prev prev)) ;*
  let* n := load_link Node in
  let* next := load_link (lk_Next n) in
  store_link (lk_Next n) (mkLink (lk_Next next) Node).

Definition CFE_SB_TrackingListGetNext (Node : Z) : SB Z :=
  let* n := load_link Node in ret (lk_Next n).
Definition CFE_SB_TrackingListIsEnd (List Node : Z) : bool := (Node =? NULL) || (Node =? List).

(** *** Buffers (cfe_sb_buf.c) *)

(** The address of the descriptor, [NULL] when the pool is exhausted. *)
Definition CFE_SB_GetBufferFromPool (MaxMsgSize : Z) : SB Z :=
  let AllocSize := u64 (MaxMsgSize + CFE_SB_BUFFERD_CONTENT_OFFSET) in
  let* p := gets pool in
  let '(stat1, addr, p') := pool_get p AllocSize in
  modify (set_pool p') ;*
  if stat1 <? 0 then ret NULL
  else
    raise_stat SBBuffersInUse PeakSBBuffersInUse 1 ;*
    raise_stat MemInUse PeakMemInUse AllocSize ;*
    (* the block becomes a descriptor, zeroed up to its content *)
    modify (fun s => set_bufs (<[addr := mkBufferD 0 0 0 0 0 false 0 stale_content]> (bufs s)) s) ;*
    modify (fun s => set_links (<[addr := mkLink 0 0]> (links s)) s) ;*
    store_buf addr (mkBufferD CFE_SB_INVALID_MSG_ID 0 AllocSize 0 0 false 1 stale_content) ;*
    CFE_SB_TrackingListReset addr ;*
    ret addr.

Definition CFE_SB_ReturnBufferToPool (bd : Z) : SB unit :=
  CFE_SB_TrackingListRemove bd ;*
  lower_stat SBBuffersInUse 1 ;*
  let* b := load_buf bd in
  lower_stat MemInUse (AllocatedSize b) ;*
  let* p := gets pool in
  let '(_, p') := pool_put p bd in
  modify (set_pool p') ;*
  modify (fun s => set_bufs (delete bd (bufs s)) s) ;*
  modify (fun s => set_links (delete bd (links s)) s).

Definition set_UseCount (b : BufferD) (n : Z) : BufferD :=
  mkBufferD (bd_MsgId b) (bd_AppId b) (AllocatedSize b) (ContentSize b) (ContentType b)
    (AutoSequence b) n (Content b).
Definition set_AppId (b : BufferD) (id : Z) : BufferD :=
  mkBufferD (bd_MsgId b) id (AllocatedSize b) (ContentSize b) (ContentType b)
    (AutoSequence b) (UseCount b) (Content b).
Definition set_Content (b : BufferD) (m : Msg) : BufferD :=
  mkBufferD (bd_MsgId b) (bd_AppId b) (AllocatedSize b) (ContentSize b) (ContentType b)
    (AutoSequence b) (UseCount b) m.

Definition CFE_SB_IncrBufUseCnt (bd : Z) : SB unit :=
  let* b := load_buf bd in
  if UseCount b <? 0x7FFF then store_buf bd (set_UseCount b (UseCount b + 1)) else ret tt.

Definition CFE_SB_DecrBufUseCnt (bd : Z) : SB unit :=
  let* b := load_buf bd in
  if 0 <? UseCount b then
    store_buf bd (set_UseCount b (UseCount b - 1)) ;*
    let* b := load_buf bd in
    if UseCount b =? 0 then CFE_SB_ReturnBufferToPool bd else ret tt
  else ret tt.

(** *** Destination descriptors (cfe_sb_buf.c) *)

(** The fields of a fresh block are whatever the memory holds; the caller
    writes all of them. *)
Definition stale_dest : CFE_SB_DestinationD_t := mkDest 0 0 0 0 0 0 0 0.

Definition CFE_SB_GetDestinationBlk : SB Z :=
  let* p := gets pool in
  let '(Stat, addr, p') := pool_get p sizeof_DestinationD in
  modify (set_pool p') ;*
  if Stat <? 0 then ret NULL
  else
    raise_stat MemInUse PeakMemInUse Stat ;*
    modify (fun s => set_dests (<[addr := stale_dest]> (dests s)) s) ;*
    ret addr.

Definition CFE_SB_PutDestinationBlk (Dest : Z) : SB Z :=
  if Dest =? NULL then ret CFE_SB_BAD_ARGUMENT
  else
    let* p := gets pool in
    let '(Stat, p') := pool_put p Dest in
    modify (set_pool p') ;*
    modify (fun s => set_dests (delete Dest (dests s)) s) ;*
    (if 0 <? Stat then lower_stat MemInUse Stat else ret tt) ;*
    ret CFE_SUCCESS.

(** *** Destination lists (cfe_sb_priv.c) *)

Definition dest_set_Next (d : CFE_SB_DestinationD_t) (a : Z) : CFE_SB_DestinationD_t :=
  mkDest (dest_PipeId d) (Active d) (MsgId2PipeLim d) (BuffCount d) (DestCnt d) (Scope d) (dest_Prev d) a.
Definition dest_set_Prev (d : CFE_SB_DestinationD_t) (a : Z) : CFE_SB_DestinationD_t :=
  mkDest (dest_PipeId d) (Active d) (MsgId2PipeLim d) (BuffCount d) (DestCnt d) (Scope d) a (dest_Next d).
Definition dest_set_BuffCount (d : CFE_SB_DestinationD_t) (n : Z) : CFE_SB_DestinationD_t :=
  mkDest (dest_PipeId d) (Active d) (MsgId2PipeLim d) n (DestCnt d) (Scope d) (dest_Prev d) (dest_Next d).
Definition dest_set_DestCnt (d : CFE_SB_DestinationD_t) (n : Z) : CFE_SB_DestinationD_t :=
  mkDest (dest_PipeId d) (Active d) (MsgId2PipeLim d) (BuffCount d) n (Scope d) (dest_Prev d) (dest_Next d).

Definition list_head (RouteId : Z) : SB Z := gets (fun s => CFE_SBR_GetDestListHeadPtr (routes s) RouteId).
Definition set_list_head (RouteId a : Z) : SB unit :=
  modify (fun s => set_routes (CFE_SBR_SetDestListHeadPtr (routes s) RouteId a) s).

(** The loops over a list of destinations follow [Next] until [NULL]; the fuel
    is the number of destination descriptors there are, plus one. *)
Definition dest_fuel : SB nat := gets (fun s => S (size (dests s))).

Fixpoint GetDestPtr_loop (fuel : nat) (destptr PipeId : Z) : SB Z :=
  match fuel with
  | O => fault
  | S fuel' =>
      if destptr =? NULL then ret NULL
      else
        let* d := load_dest destptr in
        if CFE_ResourceId_Equal (dest_PipeId d) PipeId then ret destptr
        else GetDestPtr_loop fuel' (dest_Next d) PipeId
  end.

Definition CFE_SB_GetDestPtr (RouteId PipeId : Z) : SB Z :=
  let* destptr := list_head RouteId in
  let* fuel := dest_fuel in
  GetDestPtr_loop fuel destptr PipeId.

Definition CFE_SB_AddDestNode (RouteId NewNode : Z) : SB Z :=
  let* listheadptr := list_head RouteId in
  let* n := load_dest NewNode in
  (if listheadptr =? NULL then
     store_dest NewNode (dest_set_Prev (dest_set_Next n NULL) NULL)
   else
     let WBS := listheadptr in
     store_dest NewNode (dest_set_Prev (dest_set_Next n WBS) NULL) ;*
     let* w := load_dest WBS in
     store_dest WBS (dest_set_Prev w NewNode)) ;*
  set_list_head RouteId NewNode ;*
  ret CFE_SUCCESS.

Definition CFE_SB_RemoveDestNode (RouteId NodeToRemove : Z) : SB unit :=
  let* n := load_dest NodeToRemove in
  (if (dest_Prev n =? NULL) && (dest_Next n =? NULL) then set_list_head RouteId NULL
   else if dest_Prev n =? NULL then
     let NextNode := dest_Next n in
     let* x := load_dest NextNode in
     store_dest NextNode (dest_set_Prev x NULL) ;*
     set_list_head RouteId NextNode
   else if dest_Next n =? NULL then
     let PrevNode := dest_Prev n in
     let* x := load_dest PrevNode in
     store_dest PrevNode (dest_set_Next x NULL)
   else
     let PrevNode := dest_Prev n in
     let NextNode := dest_Next n in
     let* x := load_dest PrevNode in
     store_dest PrevNode (dest_set_Next x NextNode) ;*
     let* y := load_dest NextNode in
     store_dest NextNode (dest_set_Prev y PrevNode)) ;*
  let* n := load_dest NodeToRemove in
  store_dest NodeToRemove (dest_set_Prev (dest_set_Next n NULL) NULL).

Definition CFE_SB_RemoveDest (RouteId DestPtr : Z) : SB unit :=
  CFE_SB_RemoveDestNode RouteId DestPtr ;*
  CFE_SB_PutDestinationBlk DestPtr ;*
  lower_stat SubscriptionsInUse 1.

(** *** Pipe descriptors (cfe_sb_priv.c, cfe_sb_priv.h) *)

Definition CFE_SB_PipeId_ToIndex (PipeID : Z) : Z * option Z :=
  CFE_ResourceId_ToIndex PipeID CFE_SB_PIPEID_BASE CFE_PLATFORM_SB_MAX_PIPES true.

(** The index of the descriptor in the table; [None] for NULL. *)
Definition CFE_SB_LocatePipeDescByID (PipeId : Z) : option Z :=
  match CFE_SB_PipeId_ToIndex PipeId with
  | (rc, Some Idx) => if rc =? CFE_SUCCESS then Some Idx else None
  | (_, None) => None
  end.

Definition CFE_SB_PipeDescIsUsed (p : CFE_SB_PipeD_t) : bool := CFE_ResourceId_IsDefined (PipeId p).
Definition CFE_SB_PipeDescIsMatch (s : sb) (i : option Z) (PipeID : Z) : bool :=
  match i with
  | None => false
  | Some i => CFE_ResourceId_Equal (PipeId (zget (PipeTbl s) i)) PipeID
  end.

Definition CFE_SB_CheckPipeDescSlotUsed (s : sb) (CheckId : Z) : bool :=
  match CFE_SB_LocatePipeDescByID CheckId with
  | None => true
  | Some i => CFE_SB_PipeDescIsUsed (zget (PipeTbl s) i)
  end.

Definition load_pipe (i : Z) : SB CFE_SB_PipeD_t := gets (fun s => zget (PipeTbl s) i).
Definition store_pipe (i : Z) (p : CFE_SB_PipeD_t) : SB unit :=
  modify (fun s => set_PipeTbl (zset (PipeTbl s) i p) s).

Definition pipe_set_PipeId (p : CFE_SB_PipeD_t) (id : Z) : CFE_SB_PipeD_t :=
  mkPipe id (Opts p) (pipe_AppId p) (SysQueueId p) (SendErrors p) (MaxQueueDepth p)
    (CurrentQueueDepth p) (PeakQueueDepth p) (LastBuffer p).
Definition CFE_SB_PipeDescSetUsed (i PendingID : Z) : SB unit :=
  let* p := load_pipe i in store_pipe i (pipe_set_PipeId p PendingID).
Definition CFE_SB_PipeDescSetFree (i : Z) : SB unit :=
  let* p := load_pipe i in store_pipe i (pipe_set_PipeId p CFE_RESOURCEID_UNDEFINED).

Definition pipe_set_Opts (p : CFE_SB_PipeD_t) (o : Z) : CFE_SB_PipeD_t :=
  mkPipe (PipeId p) o (pipe_AppId p) (SysQueueId p) (SendErrors p) (MaxQueueDepth p)
    (CurrentQueueDepth p) (PeakQueueDepth p) (LastBuffer p).
Definition pipe_set_SendErrors (p : CFE_SB_PipeD_t) (n : Z) : CFE_SB_PipeD_t :=
  mkPipe (PipeId p) (Opts p) (pipe_AppId p) (SysQueueId p) n (MaxQueueDepth p)
    (CurrentQueueDepth p) (PeakQueueDepth p) (LastBuffer p).
Definition pipe_set_depths (p : CFE_SB_PipeD_t) (current peak : Z) : CFE_SB_PipeD_t :=
  mkPipe (PipeId p) (Opts p) (pipe_AppId p) (SysQueueId p) (SendErrors p) (MaxQueueDepth p)
    current peak (LastBuffer p).
Definition pipe_set_LastBuffer (p : CFE_SB_PipeD_t) (a : Z) : CFE_SB_PipeD_t :=
  mkPipe (PipeId p) (Opts p) (pipe_AppId p) (SysQueueId p) (SendErrors p) (MaxQueueDepth p)
    (CurrentQueueDepth p) (PeakQueueDepth p) a.
Definition pipe_configured (p : CFE_SB_PipeD_t) (queue depth app : Z) : CFE_SB_PipeD_t :=
  mkPipe (PipeId p) (Opts p) app queue (SendErrors p) depth
    (CurrentQueueDepth p) (PeakQueueDepth p) (LastBuffer p).

Definition CFE_SB_ValidateMsgId (MsgId : Z) : Z :=
  if negb (CFE_SB_IsValidMsgId MsgId) then CFE_SB_FAILED else CFE_SUCCESS.

(** *** The guard against recursive events (cfe_sb_priv.c)

    The task is its index, [None] when [CFE_ES_TaskID_ToIndex] refuses it. *)

Definition CFE_BIT (x : Z) : Z := Z.shiftl 1 x.

Definition CFE_SB_RequestToSendEvent (TaskId : option Z) (Bit : Z) : SB bool :=
  match TaskId with
  | None => ret false
  | Some Indx =>
      let* flags := gets (fun s => zget (StopRecurseFlags s) Indx) in
      if negb (Z.land flags (CFE_BIT Bit) =? 0) then ret false
      else
        modify (fun s => set_flags (zset (StopRecurseFlags s) Indx (Z.lor flags (CFE_BIT Bit))) s) ;*
        ret true
  end.

Definition CFE_SB_FinishSendEvent (TaskId : option Z) (Bit : Z) : SB unit :=
  match TaskId with
  | None => ret tt
  | Some Indx =>
      let* flags := gets (fun s => zget (StopRecurseFlags s) Indx) in
      modify (fun s => set_flags (zset (StopRecurseFlags s) Indx
                                       (Z.land flags (u32 (Z.lnot (CFE_BIT Bit))))) s)
  end.

(** [pre] is what happens between the grant and the event. *)
Definition guarded_event (TaskId : option Z) (Bit EventId : Z) (pre : SB unit) : SB unit :=
  let* granted := CFE_SB_RequestToSendEvent TaskId Bit in
  if granted then
    pre ;*
    CFE_EVS_SendEventWithAppID EventId ;*
    CFE_SB_FinishSendEvent TaskId Bit
  else ret tt.

(** *** Zero copy buffers of an application (cfe_sb_priv.c) *)

Fixpoint ZeroCopyRelease_loop (fuel : nat) (NextLink AppId : Z) : SB unit :=
  match fuel with
  | O => fault
  | S fuel' =>
      if CFE_SB_TrackingListIsEnd ZeroCopyList NextLink then ret tt
      else
        let DscPtr := NextLink in
        let* NextLink := CFE_SB_TrackingListGetNext NextLink in
        let* b := load_buf DscPtr in
        (if CFE_ResourceId_Equal (bd_AppId b) AppId then CFE_SB_DecrBufUseCnt DscPtr else ret tt) ;*
        ZeroCopyRelease_loop fuel' NextLink AppId
  end.

Definition CFE_SB_ZeroCopyReleaseAppId (AppId : Z) : SB Z :=
  (if CFE_ResourceId_IsDefined AppId then
     let* NextLink := CFE_SB_TrackingListGetNext ZeroCopyList in
     let* fuel := gets (fun s => S (size (bufs s))) in
     ZeroCopyRelease_loop fuel NextLink AppId
   else ret tt) ;*
  ret CFE_SUCCESS.

(** *** Queues of the operating system

    First in, first out, bounded by the depth given at creation.  [forced] is a
    status other than success with which the operating system may fail a call
    for reasons of its own, [0] when it does not. *)

Definition OS_QueuePut (forced queue_id data : Z) : SB Z := fun s =>
  if negb (forced =? OS_SUCCESS) then Some (forced, s)
  else match queues s !! queue_id with
       | None => Some (OS_ERR_INVALID_ID, s)
       | Some q =>
           if q_depth q <=? zlen (q_items q) then Some (OS_QUEUE_FULL, s)
           else Some (OS_SUCCESS,
                      set_queues (<[queue_id := mkQueue (q_depth q) (q_items q ++ [data])]> (queues s)) s)
       end.

(** The status and the pointer that was read; [None] when the call blocks, which
    it does only with [OS_PEND] on an empty queue. *)
Definition OS_QueueGet (forced queue_id timeout : Z) : SB (option (Z * Z)) := fun s =>
  if negb (forced =? OS_SUCCESS) then Some (Some (forced, NULL), s)
  else match queues s !! queue_id with
       | None => Some (Some (OS_ERR_INVALID_ID, NULL), s)
       | Some q =>
           match q_items q with
           | x :: rest => Some (Some (OS_SUCCESS, x),
                                set_queues (<[queue_id := mkQueue (q_depth q) rest]> (queues s)) s)
           | [] => if timeout =? OS_PEND then Some (None, s)
                   else if timeout =? OS_CHECK then Some (Some (OS_QUEUE_EMPTY, NULL), s)
                   else Some (Some (OS_QUEUE_TIMEOUT, NULL), s)
           end
       end.

(** [created] is the status and the id the operating system gives. *)
Definition OS_QueueCreate (created : Z * Z) (depth : Z) : SB (Z * Z) := fun s =>
  let '(status, id) := created in
  if status =? OS_SUCCESS
  then Some ((status, id), set_queues (<[id := mkQueue depth []]> (queues s)) s)
  else Some ((status, 0), s).

Definition OS_QueueDelete (queue_id : Z) : SB unit :=
  modify (fun s => set_queues (delete queue_id (queues s)) s).

Definition OS_GetResourceName (queue_id : Z) : SB Z := fun s =>
  Some (match queues s !! queue_id with Some _ => OS_SUCCESS | None => OS_ERR_INVALID_ID end, s).
End buffers.
