(* ===== verification/SbApi.v ===== *)
(** * The software bus: API functions

    The model of [cfe_sb_api.c] and of [CFE_SB_CleanUpApp] and
    [CFE_SB_SendSubscriptionReport].  Every function that takes the lock of the
    software bus more than once is written as the sequence of its locked
    sections, each a definition of its own ([CreatePipe_reserve], ...), so that
    the sections of different tasks can be interleaved in [SbSteps].  Events are
    recorded by their ids; the texts, and the names looked up for them, are left
    out, except that [CFE_SB_GetPipeName] itself sends an event. *)

From S2P Require Import Prelude ResourceId SbRoute SbModel.

Definition CFE_SB_CR_PIPE_BAD_ARG_EID : Z := 2.
Definition CFE_SB_MAX_PIPES_MET_EID : Z := 3.
Definition CFE_SB_CR_PIPE_ERR_EID : Z := 4.
Definition CFE_SB_PIPE_ADDED_EID : Z := 5.
Definition CFE_SB_SUB_ARG_ERR_EID : Z := 6.
Definition CFE_SB_DUP_SUBSCRIP_EID : Z := 7.
Definition CFE_SB_MAX_MSGS_MET_EID : Z := 8.
Definition CFE_SB_MAX_DESTS_MET_EID : Z := 9.
Definition CFE_SB_SUBSCRIPTION_RCVD_EID : Z := 10.
Definition CFE_SB_UNSUB_ARG_ERR_EID : Z := 11.
Definition CFE_SB_UNSUB_NO_SUBS_EID : Z := 12.
Definition CFE_SB_SEND_BAD_ARG_EID : Z := 13.
Definition CFE_SB_SEND_NO_SUBS_EID : Z := 14.
Definition CFE_SB_MSG_TOO_BIG_EID : Z := 15.
Definition CFE_SB_GET_BUF_ERR_EID : Z := 16.
Definition CFE_SB_MSGID_LIM_ERR_EID : Z := 17.
Definition CFE_SB_RCV_BAD_ARG_EID : Z := 18.
Definition CFE_SB_BAD_PIPEID_EID : Z := 19.
Definition CFE_SB_DEST_BLK_ERR_EID : Z := 20.
Definition CFE_SB_SEND_INV_MSGID_EID : Z := 21.
Definition CFE_SB_SUBSCRIPTION_RPT_EID : Z := 22.
Definition CFE_SB_HASHCOLLISION_EID : Z := 23.
Definition CFE_SB_Q_FULL_ERR_EID : Z := 25.
Definition CFE_SB_Q_WR_ERR_EID : Z := 26.
Definition CFE_SB_Q_RD_ERR_EID : Z := 27.
Definition CFE_SB_DEL_PIPE_ERR1_EID : Z := 46.
Definition CFE_SB_PIPE_DELETED_EID : Z := 47.
Definition CFE_SB_SUBSCRIPTION_REMOVED_EID : Z := 48.
Definition CFE_SB_SUB_INV_PIPE_EID : Z := 50.
Definition CFE_SB_SUB_INV_CALLER_EID : Z := 51.
Definition CFE_SB_UNSUB_INV_PIPE_EID : Z := 52.
Definition CFE_SB_UNSUB_INV_CALLER_EID : Z := 53.
Definition CFE_SB_DEL_PIPE_ERR2_EID : Z := 54.
Definition CFE_SB_SETPIPEOPTS_ID_ERR_EID : Z := 55.
Definition CFE_SB_SETPIPEOPTS_OWNER_ERR_EID : Z := 56.
Definition CFE_SB_SETPIPEOPTS_EID : Z := 57.
Definition CFE_SB_GETPIPEOPTS_ID_ERR_EID : Z := 58.
Definition CFE_SB_GETPIPEOPTS_PTR_ERR_EID : Z := 59.
Definition CFE_SB_GETPIPEOPTS_EID : Z := 60.
Definition CFE_SB_GETPIPENAME_EID : Z := 62.
Definition CFE_SB_GETPIPENAME_NULL_PTR_EID : Z := 63.
Definition CFE_SB_GETPIPENAME_ID_ERR_EID : Z := 64.
Definition CFE_SB_GETPIPEIDBYNAME_EID : Z := 65.
Definition CFE_SB_GETPIPEIDBYNAME_NULL_ERR_EID : Z := 66.
Definition CFE_SB_GETPIPEIDBYNAME_NAME_ERR_EID : Z := 67.
Definition CFE_SB_CR_PIPE_NAME_TAKEN_EID : Z := 69.
Definition CFE_SB_CR_PIPE_NO_FREE_EID : Z := 70.

(** The bits of the recursion guard. *)
Definition CFE_SB_SEND_NO_SUBS_EID_BIT : Z := 0.
Definition CFE_SB_GET_BUF_ERR_EID_BIT : Z := 1.
Definition CFE_SB_MSGID_LIM_ERR_EID_BIT : Z := 2.
Definition CFE_SB_Q_FULL_ERR_EID_BIT : Z := 3.
Definition CFE_SB_Q_WR_ERR_EID_BIT : Z := 4.
Definition CFE_SB_SEND_BAD_ARG_EID_BIT : Z := 5.
Definition CFE_SB_SEND_INV_MSGID_EID_BIT : Z := 6.
Definition CFE_SB_MSG_TOO_BIG_EID_BIT : Z := 7.

(** What Executive Services tell about the caller. *)
Record caller := mkCaller {
  c_AppStatus : Z;          (* the status of CFE_ES_GetAppID *)
  c_AppId : Z;
  c_Task : option Z         (* the task index *)
}.

Section api.
Context {P M Msg : Type} `{PoolBuf P} `{RouteMap M} `{SbPlatform Msg}.
Local Abbreviation sb := (sb P M Msg).
Local Abbreviation BufferD := (CFE_SB_BufferD_t Msg).
Local Abbreviation SB := (SB (P := P) (M := M) (Msg := Msg)).
Implicit Types c : caller.

Definition send_if (EventId : Z) : SB unit :=
  if EventId =? 0 then ret tt else CFE_EVS_SendEventWithAppID EventId.

(** ** Creating pipes *)

Record creation := mkCreation {
  cr_Status : Z;
  cr_EventId : Z;
  cr_slot : option Z;        (* PipeDscPtr *)
  cr_PipeId : Z;             (* PendingPipeId *)
  cr_Queue : Z               (* SysQueueId *)
}.

Definition CreatePipe_reserve (ptr_given : bool) (Depth : Z) : SB creation :=
  if negb ptr_given || (OS_QUEUE_MAX_DEPTH <? Depth) || (Depth =? 0) then
    ret (mkCreation CFE_SB_BAD_ARGUMENT CFE_SB_CR_PIPE_BAD_ARG_EID None CFE_RESOURCEID_UNDEFINED 0)
  else
    let* PendingPipeId := gets (fun s => CFE_ResourceId_FindNext (LastPipeId s) CFE_PLATFORM_SB_MAX_PIPES
                                           (Some (CFE_SB_CheckPipeDescSlotUsed s))) in
    match CFE_SB_LocatePipeDescByID PendingPipeId with
    | None => ret (mkCreation CFE_SB_MAX_PIPES_MET CFE_SB_MAX_PIPES_MET_EID None PendingPipeId 0)
    | Some i =>
        store_pipe i zero_pipe ;*
        CFE_SB_PipeDescSetUsed i CFE_RESOURCEID_RESERVED ;*
        modify (set_LastPipeId PendingPipeId) ;*
        ret (mkCreation CFE_SUCCESS 0 (Some i) PendingPipeId 0)
    end.

Definition CreatePipe_queue (created : Z * Z) (Depth : Z) (cr : creation) : SB creation :=
  if cr_Status cr =? CFE_SUCCESS then
    let* r := OS_QueueCreate created Depth in
    let '(OsStatus, id) := r in
    if OsStatus =? OS_SUCCESS then ret (mkCreation CFE_SUCCESS 0 (cr_slot cr) (cr_PipeId cr) id)
    else
      let eid := if OsStatus =? OS_ERR_NAME_TAKEN then CFE_SB_CR_PIPE_NAME_TAKEN_EID
                 else if OsStatus =? OS_ERR_NO_FREE_IDS then CFE_SB_CR_PIPE_NO_FREE_EID
                 else CFE_SB_CR_PIPE_ERR_EID in
      ret (mkCreation CFE_SB_PIPE_CR_ERR eid (cr_slot cr) (cr_PipeId cr) 0)
  else ret cr.

(** The status, and the pipe id when one is given to the caller. *)
Definition CreatePipe_commit c (Depth : Z) (cr : creation) : SB (Z * option Z) :=
  if cr_Status cr =? CFE_SUCCESS then
    match cr_slot cr with
    | None => fault
    | Some i =>
        let* p := load_pipe i in
        store_pipe i (pipe_configured p (cr_Queue cr) Depth (c_AppId c)) ;*
        CFE_SB_PipeDescSetUsed i (cr_PipeId cr) ;*
        raise_stat PipesInUse PeakPipesInUse 1 ;*
        CFE_EVS_SendEventWithAppID CFE_SB_PIPE_ADDED_EID ;*
        ret (CFE_SUCCESS, Some (cr_PipeId cr))
    end
  else
    match cr_slot cr with Some i => CFE_SB_PipeDescSetFree i | None => ret tt end ;*
    count CreatePipeErrorCounter ;*
    send_if (cr_EventId cr) ;*
    ret (cr_Status cr, None).

Definition CFE_SB_CreatePipe c (created : Z * Z) (ptr_given : bool) (Depth : Z) : SB (Z * option Z) :=
  let* cr := CreatePipe_reserve ptr_given Depth in
  let* cr := CreatePipe_queue created Depth cr in
  CreatePipe_commit c Depth cr.

(** ** Deleting pipes *)

Definition CFE_SB_RemovePipeFromRoute (PipeId RouteId : Z) : SB unit :=
  let* destptr := CFE_SB_GetDestPtr RouteId PipeId in
  if negb (destptr =? NULL) then CFE_SB_RemoveDest RouteId destptr else ret tt.

(** [CFE_SBR_ForEachRouteId] with that callback: the callback is a state
    transformer, here one that can fault. *)
Definition RemovePipeFromRoutes (PipeId : Z) : SB unit := fun s =>
  match fst (CFE_SBR_ForEachRouteId (routes s)
               (fun RouteId (acc : option sb) =>
                  match acc with
                  | Some s' => match CFE_SB_RemovePipeFromRoute PipeId RouteId s' with
                               | Some (_, s'') => Some s''
                               | None => None
                               end
                  | None => None
                  end) (Some s) None) with
  | Some s' => Some (tt, s')
  | None => None
  end.

Record deletion := mkDeletion {
  del_Status : Z;
  del_EventID : Z;
  del_slot : option Z;
  del_Queue : Z;
  del_Buf : Z                (* BufDscPtr *)
}.

Definition DeletePipe_detach (PipeId AppId : Z) : SB deletion :=
  let slot := CFE_SB_LocatePipeDescByID PipeId in
  let* s := gets (fun s => s) in
  if negb (CFE_SB_PipeDescIsMatch s slot PipeId) then
    ret (mkDeletion CFE_SB_BAD_ARGUMENT CFE_SB_DEL_PIPE_ERR1_EID slot 0 NULL)
  else
    match slot with
    | None => fault
    | Some i =>
        let* p := load_pipe i in
        if negb (CFE_ResourceId_Equal AppId (pipe_AppId p)) then
          ret (mkDeletion CFE_SB_BAD_ARGUMENT CFE_SB_DEL_PIPE_ERR2_EID slot 0 NULL)
        else
          RemovePipeFromRoutes PipeId ;*
          let* p := load_pipe i in
          CFE_SB_PipeDescSetUsed i CFE_RESOURCEID_RESERVED ;*
          ret (mkDeletion CFE_SUCCESS 0 slot (SysQueueId p) (LastBuffer p))
    end.

(** One turn of the loop that empties the queue: the new [BufDscPtr], or [None]
    at the end. *)
Definition DeletePipe_release (BufDscPtr : Z) : SB unit :=
  if negb (BufDscPtr =? NULL) then CFE_SB_DecrBufUseCnt BufDscPtr else ret tt.
Definition DeletePipe_next (forced Queue : Z) : SB (option Z) :=
  let* r := OS_QueueGet forced Queue OS_CHECK in
  match r with
  | Some (OsStatus, ptr) => if OsStatus =? OS_SUCCESS then ret (Some ptr) else ret None
  | None => ret None
  end.

Fixpoint DeletePipe_drain (fuel : nat) (forced Queue BufDscPtr : Z) : SB unit :=
  match fuel with
  | O => fault
  | S fuel' =>
      DeletePipe_release BufDscPtr ;*
      let* r := DeletePipe_next forced Queue in
      match r with
      | Some ptr => DeletePipe_drain fuel' forced Queue ptr
      | None => ret tt
      end
  end.

Definition DeletePipe_finish (del : deletion) : SB Z :=
  (if del_Status del =? CFE_SUCCESS then
     match del_slot del with
     | None => fault
     | Some i => CFE_SB_PipeDescSetFree i ;* lower_stat PipesInUse 1
     end
   else if negb (del_EventID del =? 0) then count CreatePipeErrorCounter
   else ret tt) ;*
  (if del_Status del =? CFE_SUCCESS then CFE_EVS_SendEventWithAppID CFE_SB_PIPE_DELETED_EID
   else send_if (del_EventID del)) ;*
  ret (del_Status del).

Definition queue_length (s : sb) (Queue : Z) : nat :=
  match queues s !! Queue with Some q => length (q_items q) | None => 0 end.

Definition CFE_SB_DeletePipeFull (forced PipeId AppId : Z) : SB Z :=
  let* del := DeletePipe_detach PipeId AppId in
  (if del_Status del =? CFE_SUCCESS then
     let* fuel := gets (fun s => S (queue_length s (del_Queue del))) in
     DeletePipe_drain fuel forced (del_Queue del) (del_Buf del) ;*
     OS_QueueDelete (del_Queue del)
   else ret tt) ;*
  DeletePipe_finish del.

Definition CFE_SB_DeletePipe c (forced PipeId : Z) : SB Z := CFE_SB_DeletePipeFull forced PipeId (c_AppId c).
Definition CFE_SB_DeletePipeWithAppId (forced PipeId AppId : Z) : SB Z :=
  CFE_SB_DeletePipeFull forced PipeId AppId.

(** [CFE_SB_CleanUpApp]: the pipes of the application are collected first. *)
Definition pipes_of_app (s : sb) (AppId : Z) : list Z :=
  PipeId <$> List.filter (fun p => CFE_SB_PipeDescIsUsed p && CFE_ResourceId_Equal (pipe_AppId p) AppId)
                         (PipeTbl s).

Fixpoint delete_pipes (forced : Z) (DelList : list Z) (AppId : Z) : SB unit :=
  match DelList with
  | [] => ret tt
  | id :: rest => CFE_SB_DeletePipeWithAppId forced id AppId ;* delete_pipes forced rest AppId
  end.

Definition CFE_SB_CleanUpApp (forced AppId : Z) : SB Z :=
  let* DelList := gets (fun s => pipes_of_app s AppId) in
  delete_pipes forced DelList AppId ;*
  CFE_SB_ZeroCopyReleaseAppId AppId ;*
  ret CFE_SUCCESS.

(** ** Pipe options and names *)

Definition CFE_SB_SetPipeOpts c (PipeId Opts : Z) : SB Z :=
  if negb (c_AppStatus c =? CFE_SUCCESS) then ret (c_AppStatus c)
  else
    let slot := CFE_SB_LocatePipeDescByID PipeId in
    let* s := gets (fun s => s) in
    match (if CFE_SB_PipeDescIsMatch s slot PipeId then slot else None) with
    | None =>
        count PipeOptsErrorCounter ;* CFE_EVS_SendEventWithAppID CFE_SB_SETPIPEOPTS_ID_ERR_EID ;*
        ret CFE_SB_BAD_ARGUMENT
    | Some i =>
        let* p := load_pipe i in
        if negb (CFE_ResourceId_Equal (c_AppId c) (pipe_AppId p)) then
          count PipeOptsErrorCounter ;* CFE_EVS_SendEventWithAppID CFE_SB_SETPIPEOPTS_OWNER_ERR_EID ;*
          ret CFE_SB_BAD_ARGUMENT
        else
          store_pipe i (pipe_set_Opts p Opts) ;*
          CFE_EVS_SendEventWithAppID CFE_SB_SETPIPEOPTS_EID ;*
          ret CFE_SUCCESS
    end.

Definition CFE_SB_GetPipeOpts (PipeId : Z) (ptr_given : bool) : SB (Z * option Z) :=
  let slot := CFE_SB_LocatePipeDescByID PipeId in
  let* s := gets (fun s => s) in
  match (if CFE_SB_PipeDescIsMatch s slot PipeId then slot else None) with
  | None =>
      count PipeOptsErrorCounter ;* CFE_EVS_SendEventWithAppID CFE_SB_GETPIPEOPTS_ID_ERR_EID ;*
      ret (CFE_SB_BAD_ARGUMENT, None)
  | Some i =>
      if negb ptr_given then
        count PipeOptsErrorCounter ;* CFE_EVS_SendEventWithAppID CFE_SB_GETPIPEOPTS_PTR_ERR_EID ;*
        ret (CFE_SB_BAD_ARGUMENT, None)
      else
        let* p := load_pipe i in
        CFE_EVS_SendEventWithAppID CFE_SB_GETPIPEOPTS_EID ;*
        ret (CFE_SUCCESS, Some (Opts p))
  end.

(** The name itself is not modelled; [buf_given] is a buffer of nonzero size. *)
Definition CFE_SB_GetPipeName (buf_given : bool) (PipeId : Z) : SB Z :=
  let slot := CFE_SB_LocatePipeDescByID PipeId in
  let* s := gets (fun s => s) in
  match (if CFE_SB_PipeDescIsMatch s slot PipeId then slot else None) with
  | None => CFE_EVS_SendEventWithAppID CFE_SB_GETPIPENAME_ID_ERR_EID ;* ret CFE_SB_BAD_ARGUMENT
  | Some i =>
      let* p := load_pipe i in
      if negb buf_given then
        CFE_EVS_SendEventWithAppID CFE_SB_GETPIPENAME_NULL_PTR_EID ;* ret CFE_SB_BAD_ARGUMENT
      else
        let* OsStatus := OS_GetResourceName (SysQueueId p) in
        if OsStatus =? OS_SUCCESS
        then CFE_EVS_SendEventWithAppID CFE_SB_GETPIPENAME_EID ;* ret CFE_SUCCESS
        else CFE_EVS_SendEventWithAppID CFE_SB_GETPIPENAME_ID_ERR_EID ;* ret CFE_SB_BAD_ARGUMENT
  end.

Fixpoint find_queue (tbl : list CFE_SB_PipeD_t) (Queue : Z) : option Z :=
  match tbl with
  | [] => None
  | p :: tbl' => if SysQueueId p =? Queue then Some (PipeId p) else find_queue tbl' Queue
  end.

(** [found] is the status and id that [OS_QueueGetIdByName] gives. *)
Definition CFE_SB_GetPipeIdByName (found : Z * Z) (args_given : bool) : SB (Z * option Z) :=
  let failed eid := count GetPipeIdByNameErrorCounter ;* CFE_EVS_SendEventWithAppID eid ;*
                    ret (CFE_SB_BAD_ARGUMENT, None) in
  if negb args_given then failed CFE_SB_GETPIPEIDBYNAME_NULL_ERR_EID
  else
    let '(OsStatus, Queue) := found in
    if negb (OsStatus =? OS_SUCCESS) then failed CFE_SB_GETPIPEIDBYNAME_NAME_ERR_EID
    else
      let* r := gets (fun s => find_queue (PipeTbl s) Queue) in
      match r with
      | None => failed CFE_SB_GETPIPEIDBYNAME_NAME_ERR_EID
      | Some id => CFE_EVS_SendEventWithAppID CFE_SB_GETPIPEIDBYNAME_EID ;* ret (CFE_SUCCESS, Some id)
      end.

(** ** Sending *)

Record validation := mkValidation {
  v_Status : Z;
  v_MsgId : option Z;        (* stored through MsgIdPtr *)
  v_Size : option Z;         (* stored through SizePtr *)
  v_RouteId : option Z       (* stored through RouteIdPtr *)
}.

Definition route_lookup (MsgId : Z) : SB Z := fun s =>
  match CFE_SBR_GetRouteId (routes s) MsgId with Some r => Some (r, s) | None => None end.

(** [MsgPtr] is the message it points to, [None] for NULL. *)
Definition CFE_SB_TransmitMsgValidate c (MsgPtr : option Msg) : SB validation :=
  let event bit eid := guarded_event (c_Task c) bit eid (ret tt) in
  match MsgPtr with
  | None =>
      event CFE_SB_SEND_BAD_ARG_EID_BIT CFE_SB_SEND_BAD_ARG_EID ;*
      ret (mkValidation CFE_SB_BAD_ARGUMENT None None None)
  | Some msg =>
      let MsgId := CFE_MSG_GetMsgId msg in
      if negb (CFE_SB_IsValidMsgId MsgId) then
        event CFE_SB_SEND_INV_MSGID_EID_BIT CFE_SB_SEND_INV_MSGID_EID ;*
        ret (mkValidation CFE_SB_BAD_ARGUMENT (Some MsgId) None None)
      else
        let Size := CFE_MSG_GetSize msg in
        if CFE_MISSION_SB_MAX_SB_MSG_SIZE <? Size then
          event CFE_SB_MSG_TOO_BIG_EID_BIT CFE_SB_MSG_TOO_BIG_EID ;*
          ret (mkValidation CFE_SB_MSG_TOO_BIG (Some MsgId) (Some Size) None)
        else
          let* RouteId := route_lookup MsgId in
          (if negb (CFE_SBR_IsValidRouteId RouteId) then
             count NoSubscribersCounter ;*
             event CFE_SB_SEND_NO_SUBS_EID_BIT CFE_SB_SEND_NO_SUBS_EID
           else ret tt) ;*
          ret (mkValidation CFE_SUCCESS (Some MsgId) (Some Size) (Some RouteId))
  end.

(** Errors met while delivering: pipe id and event id, in an array of
    [CFE_PLATFORM_SB_MAX_DEST_PER_PKT] entries. *)
Definition record_error (errs : list (Z * Z)) (e : Z * Z) : SB (list (Z * Z)) :=
  if zlen errs <? CFE_PLATFORM_SB_MAX_DEST_PER_PKT then ret (errs ++ [e]) else fault.

Definition deliver_failed (i : Z) (errs : list (Z * Z)) (id eid : Z) (k : hk_counter)
  : SB (list (Z * Z)) :=
  let* errs := record_error errs (id, eid) in
  count k ;*
  let* p := load_pipe i in
  store_pipe i (pipe_set_SendErrors p (u16 (SendErrors p + 1))) ;*
  ret errs.

(** The body of the loop over the destinations. *)
Definition deliver (BufDscPtr AppId : Z) (forced : Z -> Z) (DestPtr : Z) (errs : list (Z * Z))
  : SB (list (Z * Z)) :=
  let* d := load_dest DestPtr in
  let slot := if Active d =? CFE_SB_ACTIVE then CFE_SB_LocatePipeDescByID (dest_PipeId d) else None in
  let* s := gets (fun s => s) in
  match (if CFE_SB_PipeDescIsMatch s slot (dest_PipeId d) then slot else None) with
  | None => ret errs
  | Some i =>
      let* p := load_pipe i in
      if negb (Z.land (Opts p) CFE_SB_PIPEOPTS_IGNOREMINE =? 0)
         && CFE_ResourceId_Equal (pipe_AppId p) AppId then ret errs
      else if MsgId2PipeLim d <=? BuffCount d then
        deliver_failed i errs (dest_PipeId d) CFE_SB_MSGID_LIM_ERR_EID MsgLimitErrorCounter
      else
        let* OsStatus := OS_QueuePut (forced (SysQueueId p)) (SysQueueId p) BufDscPtr in
        if OsStatus =? OS_SUCCESS then
          CFE_SB_IncrBufUseCnt BufDscPtr ;*
          store_dest DestPtr (dest_set_DestCnt (dest_set_BuffCount d (u16 (BuffCount d + 1)))
                                               (u16 (DestCnt d + 1))) ;*
          let depth := u16 (CurrentQueueDepth p + 1) in
          store_pipe i (pipe_set_depths p depth (if PeakQueueDepth p <=? depth then depth
                                                 else PeakQueueDepth p)) ;*
          ret errs
        else if OsStatus =? OS_QUEUE_FULL then
          deliver_failed i errs (dest_PipeId d) CFE_SB_Q_FULL_ERR_EID PipeOverflowErrorCounter
        else
          deliver_failed i errs (dest_PipeId d) CFE_SB_Q_WR_ERR_EID InternalErrorCounter
  end.

Fixpoint Broadcast_loop (fuel : nat) (BufDscPtr AppId : Z) (forced : Z -> Z) (DestPtr : Z)
    (errs : list (Z * Z)) : SB (list (Z * Z)) :=
  match fuel with
  | O => fault
  | S fuel' =>
      if DestPtr =? NULL then ret errs
      else
        let* errs := deliver BufDscPtr AppId forced DestPtr errs in
        let* d := load_dest DestPtr in
        Broadcast_loop fuel' BufDscPtr AppId forced (dest_Next d) errs
  end.

(** The sequence count is set in telemetry that asks for it. *)
Definition set_sequence (BufDscPtr RouteId : Z) : SB unit :=
  let* b := load_buf BufDscPtr in
  if AutoSequence b && (ContentType b =? CFE_MSG_Type_Tlm) then
    modify (fun s => set_routes (CFE_SBR_IncrementSequenceCounter CFE_MSG_GetNextSequenceCount
                                   (routes s) RouteId) s) ;*
    let* n := gets (fun s => CFE_SBR_GetSequenceCounter (routes s) RouteId) in
    store_buf BufDscPtr (set_Content b (CFE_MSG_SetSequenceCount (Content b) n))
  else ret tt.

(** The locked section of [CFE_SB_BroadcastBufferToRoute]. *)
Definition Broadcast_locked c (forced : Z -> Z) (BufDscPtr RouteId : Z) : SB (list (Z * Z)) :=
  let* errs :=
    (if CFE_SBR_IsValidRouteId RouteId then
       set_sequence BufDscPtr RouteId ;*
       let* head := list_head RouteId in
       let* fuel := dest_fuel in
       Broadcast_loop fuel BufDscPtr (c_AppId c) forced head []
     else ret []) in
  (if 0 <? zlen errs then count MsgSendErrorCounter else ret tt) ;*
  CFE_SB_TrackingListRemove BufDscPtr ;*
  let* b := load_buf BufDscPtr in
  store_buf BufDscPtr (set_AppId b CFE_ES_APPID_UNDEFINED) ;*
  CFE_SB_TrackingListAdd InTransitList BufDscPtr ;*
  CFE_SB_DecrBufUseCnt BufDscPtr ;*
  ret errs.

Definition error_bit (eid : Z) : Z :=
  if eid =? CFE_SB_MSGID_LIM_ERR_EID then CFE_SB_MSGID_LIM_ERR_EID_BIT
  else if eid =? CFE_SB_Q_FULL_ERR_EID then CFE_SB_Q_FULL_ERR_EID_BIT
  else CFE_SB_Q_WR_ERR_EID_BIT.

(** The events sent after the lock is released.  Each shows [BufDscPtr->MsgId];
    the result is what these reads find, [None] for memory that is no longer a
    buffer descriptor. *)
Fixpoint Broadcast_events c (BufDscPtr : Z) (errs : list (Z * Z)) : SB (list (option Z)) :=
  match errs with
  | [] => ret []
  | (id, eid) :: errs' =>
      let* granted := CFE_SB_RequestToSendEvent (c_Task c) (error_bit eid) in
      let* shown :=
        (if granted then
           CFE_SB_GetPipeName true id ;*
           let* shown := gets (fun s => bd_MsgId <$> bufs s !! BufDscPtr) in
           CFE_EVS_SendEventWithAppID eid ;*
           CFE_SB_FinishSendEvent (c_Task c) (error_bit eid) ;*
           ret [shown]
         else ret []) in
      let* rest := Broadcast_events c BufDscPtr errs' in
      ret (shown ++ rest)
  end.

Definition CFE_SB_BroadcastBufferToRoute c (forced : Z -> Z) (BufDscPtr RouteId : Z)
  : SB (list (option Z)) :=
  let* errs := Broadcast_locked c forced BufDscPtr RouteId in
  Broadcast_events c BufDscPtr errs.

(** The second locked section of [CFE_SB_TransmitMsg]: the status and the
    descriptor, [NULL] if none was needed or obtained. *)
Definition Transmit_alloc (v : validation) : SB (Z * Z) :=
  let* r :=
    match v_RouteId v, v_Size v with
    | Some RouteId, Some Size =>
        if (v_Status v =? CFE_SUCCESS) && CFE_SBR_IsValidRouteId RouteId then
          let* bd := CFE_SB_GetBufferFromPool Size in
          if bd =? NULL then ret (CFE_SB_BUF_ALOC_ERR, NULL) else ret (v_Status v, bd)
        else ret (v_Status v, NULL)
    | _, _ => ret (v_Status v, NULL)
    end in
  (if negb (fst r =? CFE_SUCCESS) then count MsgSendErrorCounter else ret tt) ;*
  ret r.

(** The unlocked part that copies the message into the buffer. *)
Definition Transmit_fill (BufDscPtr : Z) (msg : Msg) (IncrementSequenceCount : bool) : SB unit :=
  let* b := load_buf BufDscPtr in
  store_buf BufDscPtr
    (mkBufferD (CFE_MSG_GetMsgId msg) (bd_AppId b) (AllocatedSize b) (CFE_MSG_GetSize msg)
       (CFE_MSG_GetType msg) IncrementSequenceCount (UseCount b) msg).

Definition CFE_SB_TransmitMsg c (forced : Z -> Z) (MsgPtr : option Msg) (IncrementSequenceCount : bool)
  : SB Z :=
  let* v := CFE_SB_TransmitMsgValidate c MsgPtr in
  let* r := Transmit_alloc v in
  let '(Status, BufDscPtr) := r in
  (if negb (BufDscPtr =? NULL) then
     match MsgPtr, v_RouteId v with
     | Some msg, Some RouteId =>
         Transmit_fill BufDscPtr msg IncrementSequenceCount ;*
         CFE_SB_BroadcastBufferToRoute c forced BufDscPtr RouteId ;*
         ret tt
     | _, _ => fault
     end
   else ret tt) ;*
  (if Status =? CFE_SB_BUF_ALOC_ERR
   then guarded_event (c_Task c) CFE_SB_GET_BUF_ERR_EID_BIT CFE_SB_GET_BUF_ERR_EID (ret tt)
   else ret tt) ;*
  ret Status.

Definition CFE_SB_SendSubscriptionReport c (forced : Z -> Z) (MsgId PipeId Quality : Z) : SB Z :=
  let* reporting := gets SubscriptionReporting in
  if reporting =? CFE_SB_ENABLE then
    let* Status := CFE_SB_TransmitMsg c forced (Some (subscription_report MsgId PipeId Quality)) true in
    CFE_EVS_SendEventWithAppID CFE_SB_SUBSCRIPTION_RPT_EID ;*
    ret Status
  else ret CFE_SUCCESS.

(** ** Subscriptions *)

Inductive dest_search := FoundDuplicate | LimitReached | NotFound.

(** The [for] loop over the destinations of the route. *)
Fixpoint Subscribe_search (fuel : nat) (DestPtr DestCount PipeId : Z) : SB dest_search :=
  match fuel with
  | O => fault
  | S fuel' =>
      if DestPtr =? NULL then ret NotFound
      else
        let* d := load_dest DestPtr in
        let DestCount := DestCount + 1 in
        if CFE_ResourceId_Equal (dest_PipeId d) PipeId then ret FoundDuplicate
        else if CFE_PLATFORM_SB_MAX_DEST_PER_PKT <=? DestCount then ret LimitReached
        else Subscribe_search fuel' (dest_Next d) DestCount PipeId
  end.

Definition add_destination (RouteId PipeId MsgLim Scope : Z) : SB (Z * Z) :=
  let* DestPtr := CFE_SB_GetDestinationBlk in
  if DestPtr =? NULL then ret (CFE_SB_BUF_ALOC_ERR, CFE_SB_DEST_BLK_ERR_EID)
  else
    store_dest DestPtr (mkDest PipeId CFE_SB_ACTIVE MsgLim 0 0 Scope NULL NULL) ;*
    CFE_SB_AddDestNode RouteId DestPtr ;*
    raise_stat SubscriptionsInUse PeakSubscriptionsInUse 1 ;*
    ret (CFE_SUCCESS, 0).

(** The locked part for a good pipe, owner and message id: the status, the
    pending event and the collisions of the route map. *)
Definition Subscribe_route (MsgId PipeId MsgLim Scope : Z) : SB (Z * Z * Z) :=
  let* RouteId := route_lookup MsgId in
  let* r :=
    (if CFE_SBR_IsValidRouteId RouteId then ret (Some RouteId, 0)
     else
       let* a := (fun s => match CFE_SBR_AddRoute (routes s) MsgId with
                           | Some (RouteId, Collisions, routes') =>
                               Some ((RouteId, Collisions), set_routes routes' s)
                           | None => None
                           end) in
       let '(RouteId, Collisions) := a in
       if CFE_SBR_IsValidRouteId RouteId then
         raise_stat MsgIdsInUse PeakMsgIdsInUse 1 ;*
         ret (Some RouteId, Collisions)
       else ret (None, Collisions)) in
  let '(route, Collisions) := r in
  match route with
  | None => ret (CFE_SB_MAX_MSGS_MET, CFE_SB_MAX_MSGS_MET_EID, Collisions)
  | Some RouteId =>
      let* head := list_head RouteId in
      let* fuel := dest_fuel in
      let* found := Subscribe_search fuel head 0 PipeId in
      match found with
      | FoundDuplicate => ret (CFE_SUCCESS, CFE_SB_DUP_SUBSCRIP_EID, Collisions)
      | LimitReached => ret (CFE_SB_MAX_DESTS_MET, CFE_SB_MAX_DESTS_MET_EID, Collisions)
      | NotFound =>
          let* r := add_destination RouteId PipeId MsgLim Scope in
          let '(Status, eid) := r in
          ret (Status, eid, Collisions)
      end
  end.

(** The locked section of [CFE_SB_SubscribeFull]. *)
Definition Subscribe_locked c (MsgId PipeId MsgLim Scope : Z) : SB (Z * Z * Z) :=
  let slot := CFE_SB_LocatePipeDescByID PipeId in
  let* s := gets (fun s => s) in
  let* r :=
    match (if CFE_SB_PipeDescIsMatch s slot PipeId then slot else None) with
    | None => ret (CFE_SB_BAD_ARGUMENT, CFE_SB_SUB_INV_PIPE_EID, 0)
    | Some i =>
        let* p := load_pipe i in
        if negb (CFE_ResourceId_Equal (pipe_AppId p) (c_AppId c)) then
          ret (CFE_SB_BAD_ARGUMENT, CFE_SB_SUB_INV_CALLER_EID, 0)
        else if negb (CFE_SB_IsValidMsgId MsgId) || (1 <? Scope) then
          ret (CFE_SB_BAD_ARGUMENT, CFE_SB_SUB_ARG_ERR_EID, 0)
        else Subscribe_route MsgId PipeId MsgLim Scope
    end in
  let '(Status, eid, Collisions) := r in
  (if eid =? 0 then ret tt
   else if eid =? CFE_SB_DUP_SUBSCRIP_EID then count DuplicateSubscriptionsCounter
   else count SubscribeErrorCounter) ;*
  ret r.

Definition CFE_SB_SubscribeFull c (forced : Z -> Z) (MsgId PipeId Quality MsgLim Scope : Z) : SB Z :=
  let* r := Subscribe_locked c MsgId PipeId MsgLim Scope in
  let '(Status, eid, Collisions) := r in
  (if negb (eid =? 0) then
     CFE_SB_GetPipeName true PipeId ;* CFE_EVS_SendEventWithAppID eid
   else if Status =? CFE_SUCCESS then CFE_EVS_SendEventWithAppID CFE_SB_SUBSCRIPTION_RCVD_EID
   else ret tt) ;*
  (if (Status =? CFE_SUCCESS) && (Scope =? CFE_SB_MSG_GLOBAL)
   then CFE_SB_SendSubscriptionReport c forced MsgId PipeId Quality ;* ret tt else ret tt) ;*
  (if negb (Collisions =? 0) then CFE_EVS_SendEventWithAppID CFE_SB_HASHCOLLISION_EID else ret tt) ;*
  ret Status.

(** [CFE_SB_DEFAULT_QOS] is the zero quality. *)
Definition CFE_SB_SubscribeEx c forced MsgId PipeId Quality MsgLim : SB Z :=
  CFE_SB_SubscribeFull c forced MsgId PipeId Quality MsgLim CFE_SB_MSG_GLOBAL.
Definition CFE_SB_SubscribeLocal c forced MsgId PipeId MsgLim : SB Z :=
  CFE_SB_SubscribeFull c forced MsgId PipeId 0 MsgLim CFE_SB_MSG_LOCAL.
Definition CFE_SB_Subscribe c forced MsgId PipeId : SB Z :=
  CFE_SB_SubscribeFull c forced MsgId PipeId 0 CFE_PLATFORM_SB_DEFAULT_MSG_LIMIT CFE_SB_MSG_GLOBAL.

(** The locked section of [CFE_SB_UnsubscribeFull]. *)
Definition Unsubscribe_locked (MsgId PipeId Scope AppId : Z) : SB (Z * Z) :=
  let slot := CFE_SB_LocatePipeDescByID PipeId in
  let* s := gets (fun s => s) in
  match (if CFE_SB_PipeDescIsMatch s slot PipeId then slot else None) with
  | None => ret (CFE_SB_BAD_ARGUMENT, CFE_SB_UNSUB_INV_PIPE_EID)
  | Some i =>
      let* p := load_pipe i in
      if negb (CFE_ResourceId_Equal (pipe_AppId p) AppId) then
        ret (CFE_SB_BAD_ARGUMENT, CFE_SB_UNSUB_INV_CALLER_EID)
      else if negb (CFE_SB_IsValidMsgId MsgId) || (1 <? Scope) then
        ret (CFE_SB_BAD_ARGUMENT, CFE_SB_UNSUB_ARG_ERR_EID)
      else
        let* RouteId := route_lookup MsgId in
        if negb (CFE_SBR_IsValidRouteId RouteId) then ret (CFE_SUCCESS, CFE_SB_UNSUB_NO_SUBS_EID)
        else
          let* DestPtr := CFE_SB_GetDestPtr RouteId PipeId in
          if negb (DestPtr =? NULL) then
            CFE_SB_RemoveDest RouteId DestPtr ;* ret (CFE_SUCCESS, 0)
          else ret (CFE_SUCCESS, CFE_SB_UNSUB_NO_SUBS_EID)
  end.

Definition CFE_SB_UnsubscribeFull (MsgId PipeId Scope AppId : Z) : SB Z :=
  let* r := Unsubscribe_locked MsgId PipeId Scope AppId in
  let '(Status, eid) := r in
  (if negb (eid =? 0) then
     (if eid =? CFE_SB_UNSUB_NO_SUBS_EID then CFE_SB_GetPipeName true PipeId ;* ret tt else ret tt) ;*
     CFE_EVS_SendEventWithAppID eid
   else if Status =? CFE_SUCCESS then CFE_EVS_SendEventWithAppID CFE_SB_SUBSCRIPTION_REMOVED_EID
   else ret tt) ;*
  ret Status.

Definition CFE_SB_Unsubscribe c (MsgId PipeId : Z) : SB Z :=
  CFE_SB_UnsubscribeFull MsgId PipeId CFE_SB_MSG_GLOBAL (c_AppId c).
Definition CFE_SB_UnsubscribeLocal c (MsgId PipeId : Z) : SB Z :=
  CFE_SB_UnsubscribeFull MsgId PipeId CFE_SB_MSG_LOCAL (c_AppId c).
Definition CFE_SB_UnsubscribeWithAppId (MsgId PipeId AppId : Z) : SB Z :=
  CFE_SB_UnsubscribeFull MsgId PipeId CFE_SB_MSG_LOCAL AppId.

(** ** Receiving *)

(** The address of the message in a buffer. *)
Definition content_ptr (BufDscPtr : Z) : Z := BufDscPtr + CFE_SB_BUFFERD_CONTENT_OFFSET.

Record reception := mkReception {
  rx_Status : Z;
  rx_EventID : Z;
  rx_slot : option Z;        (* PipeDscPtr *)
  rx_Queue : Z;              (* SysQueueId *)
  rx_Timeout : Z             (* SysTimeout *)
}.

(** The first locked section: the buffer of the last call is released. *)
Definition Receive_unref (PipeId SysTimeout : Z) : SB reception :=
  let slot := CFE_SB_LocatePipeDescByID PipeId in
  let* s := gets (fun s => s) in
  match (if CFE_SB_PipeDescIsMatch s slot PipeId then slot else None) with
  | None => ret (mkReception CFE_SB_BAD_ARGUMENT CFE_SB_BAD_PIPEID_EID slot 0 SysTimeout)
  | Some i =>
      let* p := load_pipe i in
      (if negb (LastBuffer p =? NULL) then
         CFE_SB_DecrBufUseCnt (LastBuffer p) ;*
         let* p := load_pipe i in
         store_pipe i (pipe_set_LastBuffer p NULL)
       else ret tt) ;*
      ret (mkReception CFE_SUCCESS 0 (Some i) (SysQueueId p) SysTimeout)
  end.

(** The checks of the arguments, and that section. *)
Definition Receive_begin (ptr_given : bool) (PipeId TimeOut : Z) : SB reception :=
  let bad := mkReception CFE_SB_BAD_ARGUMENT CFE_SB_RCV_BAD_ARG_EID None 0 OS_PEND in
  if negb ptr_given then ret bad
  else if 0 <? TimeOut then Receive_unref PipeId TimeOut
  else if TimeOut =? CFE_SB_POLL then Receive_unref PipeId OS_CHECK
  else if negb (TimeOut =? CFE_SB_PEND_FOREVER) then ret bad
  else Receive_unref PipeId OS_PEND.

(** The queue read, outside of the lock: the new status and event, and the
    descriptor; [None] while the call blocks. *)
Definition Receive_get (forced : Z) (rx : reception) : SB (option (reception * Z)) :=
  if rx_Status rx =? CFE_SUCCESS then
    let* r := OS_QueueGet forced (rx_Queue rx) (rx_Timeout rx) in
    match r with
    | None => ret None
    | Some (OsStatus, ptr) =>
        let upd status eid := mkReception status eid (rx_slot rx) (rx_Queue rx) (rx_Timeout rx) in
        if (OsStatus =? OS_SUCCESS) && negb (ptr =? NULL) then ret (Some (rx, ptr))
        else if OsStatus =? OS_QUEUE_EMPTY then ret (Some (upd CFE_SB_NO_MESSAGE 0, NULL))
        else if OsStatus =? OS_QUEUE_TIMEOUT then ret (Some (upd CFE_SB_TIME_OUT 0, NULL))
        else ret (Some (upd CFE_SB_PIPE_RD_ERR CFE_SB_Q_RD_ERR_EID, NULL))
    end
  else ret (Some (rx, NULL)).

(** The buffer that was read becomes the last buffer of the pipe. *)
Definition Receive_store (PipeId i BufDscPtr : Z) : SB unit :=
  CFE_SB_IncrBufUseCnt BufDscPtr ;*
  let* p := load_pipe i in
  store_pipe i (pipe_set_LastBuffer p BufDscPtr) ;*
  let* b := load_buf BufDscPtr in
  let* RouteId := route_lookup (bd_MsgId b) in
  let* DestPtr := CFE_SB_GetDestPtr RouteId PipeId in
  (if negb (DestPtr =? NULL) then
     let* d := load_dest DestPtr in
     if 0 <? BuffCount d then store_dest DestPtr (dest_set_BuffCount d (BuffCount d - 1)) else ret tt
   else ret tt) ;*
  let* p := load_pipe i in
  if 0 <? CurrentQueueDepth p
  then store_pipe i (pipe_set_depths p (CurrentQueueDepth p - 1) (PeakQueueDepth p))
  else ret tt.

(** The second locked section and the event; the status and the pointer given
    to the caller. *)
Definition Receive_finish (ptr_given : bool) (PipeId : Z) (rx : reception) (BufDscPtr : Z)
  : SB (Z * Z) :=
  let* r :=
    (if rx_Status rx =? CFE_SUCCESS then
       let* s := gets (fun s => s) in
       let* st :=
         match (if CFE_SB_PipeDescIsMatch s (rx_slot rx) PipeId then rx_slot rx else None) with
         | Some i => Receive_store PipeId i BufDscPtr ;* ret (CFE_SUCCESS, 0)
         | None => ret (CFE_SB_PIPE_RD_ERR, CFE_SB_BAD_PIPEID_EID)
         end in
       CFE_SB_DecrBufUseCnt BufDscPtr ;*
       ret st
     else ret (rx_Status rx, rx_EventID rx)) in
  let '(Status, eid) := r in
  (if negb (Status =? CFE_SUCCESS) then
     if (eid =? CFE_SB_RCV_BAD_ARG_EID) || (eid =? CFE_SB_BAD_PIPEID_EID)
     then count MsgReceiveErrorCounter
     else count InternalErrorCounter
   else ret tt) ;*
  send_if eid ;*
  ret (Status, if Status =? CFE_SUCCESS then content_ptr BufDscPtr else NULL).

Definition CFE_SB_ReceiveBuffer (forced : Z) (ptr_given : bool) (PipeId TimeOut : Z)
  : SB (option (Z * Z)) :=
  let* rx := Receive_begin ptr_given PipeId TimeOut in
  let* r := Receive_get forced rx in
  match r with
  | None => ret None
  | Some (rx, BufDscPtr) =>
      let* res := Receive_finish ptr_given PipeId rx BufDscPtr in
      ret (Some res)
  end.

(** ** Zero copy *)

Definition CFE_SB_AllocateMessageBuffer c (MsgSize : Z) : SB Z :=
  if CFE_MISSION_SB_MAX_SB_MSG_SIZE <? MsgSize then ret NULL
  else if c_AppStatus c =? CFE_SUCCESS then
    let* BufDscPtr := CFE_SB_GetBufferFromPool MsgSize in
    if negb (BufDscPtr =? NULL) then
      let* b := load_buf BufDscPtr in
      store_buf BufDscPtr (set_AppId b (c_AppId c)) ;*
      CFE_SB_TrackingListAdd ZeroCopyList BufDscPtr ;*
      let* b := load_buf BufDscPtr in
      store_buf BufDscPtr (set_Content b (cleared_content MsgSize)) ;*
      ret (content_ptr BufDscPtr)
    else ret NULL
  else ret NULL.

(** The status and the descriptor. *)
Definition CFE_SB_ZeroCopyBufferValidate (BufPtr : Z) : SB (Z * Z) :=
  if BufPtr =? NULL then ret (CFE_SB_BAD_ARGUMENT, NULL)
  else
    let BufDscPtr := u64 (BufPtr - CFE_SB_BUFFERD_CONTENT_OFFSET) in
    let* b := load_buf BufDscPtr in
    if negb (CFE_ResourceId_IsDefined (bd_AppId b)) then ret (CFE_SB_BUFFER_INVALID, BufDscPtr)
    else ret (CFE_SUCCESS, BufDscPtr).

Definition CFE_SB_ReleaseMessageBuffer (BufPtr : Z) : SB Z :=
  let* r := CFE_SB_ZeroCopyBufferValidate BufPtr in
  let '(Status, BufDscPtr) := r in
  (if Status =? CFE_SUCCESS then
     let* b := load_buf BufDscPtr in
     store_buf BufDscPtr (set_AppId b CFE_ES_APPID_UNDEFINED) ;*
     CFE_SB_DecrBufUseCnt BufDscPtr
   else ret tt) ;*
  ret Status.

(** The part of [CFE_SB_TransmitBuffer] before the broadcast: the descriptor and
    the route when the buffer is to be sent. *)
Definition TransmitBuffer_prepare c (BufPtr : Z) (IncrementSequenceCount : bool)
  : SB (Z * option (Z * Z)) :=
  let* r := CFE_SB_ZeroCopyBufferValidate BufPtr in
  let '(Status, BufDscPtr) := r in
  if Status =? CFE_SUCCESS then
    let* b := load_buf BufDscPtr in
    let* v := CFE_SB_TransmitMsgValidate c (Some (Content b)) in
    let b := mkBufferD (default (bd_MsgId b) (v_MsgId v)) (bd_AppId b) (AllocatedSize b)
               (default (ContentSize b) (v_Size v)) (ContentType b) (AutoSequence b) (UseCount b)
               (Content b) in
    store_buf BufDscPtr b ;*
    match v_RouteId v with
    | Some RouteId =>
        if v_Status v =? CFE_SUCCESS then
          store_buf BufDscPtr
            (mkBufferD (bd_MsgId b) (bd_AppId b) (AllocatedSize b) (ContentSize b)
               (CFE_MSG_GetType (Content b)) IncrementSequenceCount (UseCount b) (Content b)) ;*
          ret (CFE_SUCCESS, Some (BufDscPtr, RouteId))
        else ret (v_Status v, None)
    | None => ret (v_Status v, None)
    end
  else ret (Status, None).

Definition CFE_SB_TransmitBuffer c (forced : Z -> Z) (BufPtr : Z) (IncrementSequenceCount : bool) : SB Z :=
  let* r := TransmitBuffer_prepare c BufPtr IncrementSequenceCount in
  let '(Status, go) := r in
  match go with
  | Some (BufDscPtr, RouteId) => CFE_SB_BroadcastBufferToRoute c forced BufDscPtr RouteId ;* ret tt
  | None => ret tt
  end ;*
  (if negb (Status =? CFE_SUCCESS) then count MsgSendErrorCounter else ret tt) ;*
  ret Status.

(** ** Initialization (cfe_sb_init.c) *)

Definition CFE_STATUS_EXTERNAL_RESOURCE_FAIL : Z := s32 0xc8000005.
Definition CFE_SB_DISABLE : Z := 0.
Definition OS_MAX_TASKS : nat := 64.

(** [CFE_SB_Global] after the [memset]; the routes, which are not part of it,
    and the memory of the pool are what they were. *)
Definition sb_cleared (p : P) (r : sbr_state M) : sb :=
  mkSb p ∅ (<[InTransitList := mkLink 0 0]> (<[ZeroCopyList := mkLink 0 0]> ∅)) ∅
    (replicate (Z.to_nat CFE_PLATFORM_SB_MAX_PIPES) zero_pipe) 0 r ∅ (replicate OS_MAX_TASKS 0) 0
    (fun _ => 0) (fun _ => 0) [].

(** [created] is the status of [CFE_ES_PoolCreateEx] and the pool. *)
Definition CFE_SB_InitBuffers (created : Z * P) : SB Z :=
  let '(Stat, p) := created in
  if negb (Stat =? CFE_SUCCESS) then ret Stat
  else
    modify (set_pool p) ;*
    CFE_SB_TrackingListReset InTransitList ;*
    CFE_SB_TrackingListReset ZeroCopyList ;*
    ret CFE_SUCCESS.

Definition CFE_SB_InitPipeTbl : SB unit := modify (set_LastPipeId CFE_SB_PIPEID_BASE).

(** [mutex] is the status of [OS_MutSemCreate]. *)
Definition CFE_SB_EarlyInit (mutex : Z) (created : Z * P) : SB Z :=
  modify (fun s => sb_cleared (pool s) (routes s)) ;*
  if negb (mutex =? OS_SUCCESS) then ret CFE_STATUS_EXTERNAL_RESOURCE_FAIL
  else
    modify (set_report CFE_SB_DISABLE) ;*
    let* Stat := CFE_SB_InitBuffers created in
    if negb (Stat =? CFE_SUCCESS) then ret Stat
    else
      CFE_SB_InitPipeTbl ;*
      modify (set_routes CFE_SBR_Init) ;*
      ret Stat.
End api.
