(* ===== verification/SbLists.v ===== *)
(** * Linked structures of the software bus

    The circular tracking lists and the destination lists as shapes of pointer
    maps, and what following, unlinking and linking a node does to them.  Also
    the references the software bus holds in queues and pipe descriptors, as one
    list up to permutation. *)

From S2P Require Import Prelude ResourceId SbRoute SbModel.

(** ** Circular lists *)

Abbreviation link_map := (gmap Z CFE_SB_BufferLink_t).

Definition next_of (L : link_map) (a : Z) : option Z := lk_Next <$> L !! a.
Definition prev_of (L : link_map) (a : Z) : option Z := lk_Prev <$> L !! a.

(** The nodes of [l] are between [a] and [b], linked both ways. *)
Fixpoint seg (L : link_map) (a : Z) (l : list Z) (b : Z) : Prop :=
  match l with
  | [] => next_of L a = Some b /\ prev_of L b = Some a
  | x :: l' => next_of L a = Some x /\ prev_of L x = Some a /\ seg L x l' b
  end.

Definition ring (L : link_map) (h : Z) (l : list Z) : Prop := seg L h l h.

Lemma seg_frame L L' a l b :
  (forall y, In y (a :: l) -> next_of L' y = next_of L y) ->
  (forall y, In y (l ++ [b]) -> prev_of L' y = prev_of L y) ->
  seg L a l b -> seg L' a l b.
Proof.
  revert a. induction l as [|x l IH]; intros a Hn Hp; cbn.
  - rewrite Hn, Hp by (by left). done.
  - rewrite Hn, Hp by (by left). intros (? & ? & ?). split_and!; [done..|].
    apply IH; [intros y Hy; apply Hn; by right|intros y Hy; apply Hp; by right|done].
Qed.

Lemma ring_frame L L' h l : (forall y, In y (h :: l) -> L' !! y = L !! y) -> ring L h l -> ring L' h l.
Proof.
  intros Hy. apply seg_frame; intros y Hin; unfold next_of, prev_of; rewrite Hy; [done..|done|].
  apply in_app_or in Hin as [?|[<-|[]]]; [by right|by left].
Qed.

(** A segment through [x] is two segments. *)
Lemma seg_app L a l1 x l2 b : seg L a (l1 ++ x :: l2) b <-> seg L a l1 x /\ seg L x l2 b.
Proof. revert a. induction l1 as [|y l1 IH]; intros a; cbn; [tauto|]. rewrite IH. tauto. Qed.

Lemma seg_nil L a b : seg L a [] b <-> next_of L a = Some b /\ prev_of L b = Some a.
Proof. done. Qed.

(** The ends of a segment. *)
Lemma seg_ends L a l b :
  seg L a l b ->
  exists p q, (p = a /\ l = [] \/ exists l', l = l' ++ [p]) /\ (q = b /\ l = [] \/ exists l', l = q :: l')
    /\ next_of L p = Some b /\ prev_of L b = Some p /\ next_of L a = Some q /\ prev_of L q = Some a.
Proof.
  intros Hs. destruct l as [|y l].
  - apply seg_nil in Hs as [H1 H2]. exists a, b. split_and!; auto.
  - destruct (exists_last (l := y :: l)) as (l' & p & El); [done|].
    assert (Hp : seg L p [] b) by (rewrite El in Hs; apply seg_app in Hs; tauto).
    cbn [seg] in Hs. apply seg_nil in Hp as [? ?]. destruct Hs as (? & ? & _).
    exists p, y. split_and!; eauto.
Qed.

(** Joining two segments around a node that is taken out. *)
Lemma seg_join L L' a l1 x l2 b p q :
  seg L a l1 x -> seg L x l2 b ->
  NoDup (a :: l1 ++ x :: l2) -> NoDup (l1 ++ x :: l2 ++ [b]) ->
  prev_of L x = Some p -> next_of L x = Some q ->
  (forall y, y <> x -> next_of L' y = if decide (y = p) then Some q else next_of L y) ->
  (forall y, y <> x -> prev_of L' y = if decide (y = q) then Some p else prev_of L y) ->
  seg L' a (l1 ++ l2) b.
Proof.
  intros H1 H2 Hnd Hnd' Hp Hq Hn' Hp'.
  assert (Hxa : x <> a /\ ~ In x l1 /\ ~ In x l2 /\ x <> b).
  { rewrite !list.NoDup_cons, list.NoDup_app in Hnd. rewrite list.NoDup_app, !list.NoDup_cons in Hnd'.
    rewrite !list_elem_of_In in *. destruct Hnd as (Ha & _ & Hl & _). destruct Hnd' as (_ & _ & Hx & _).
    rewrite !in_app_iff in *. cbn in *. split_and!; [intros ->; tauto|..|intros ->; tauto].
    - intros Hi. apply (Hl x); rewrite ?list_elem_of_In; cbn; auto.
    - tauto. }
  destruct Hxa as (Hxa & Hx1 & Hx2 & Hxb).
  destruct (seg_ends _ _ _ _ H1) as (p' & q1 & Hep & _ & _ & Ep & _ & _).
  destruct (seg_ends _ _ _ _ H2) as (p2 & q' & _ & Heq & _ & _ & Eq & _).
  assert (p' = p) as -> by congruence. assert (q' = q) as -> by congruence.
  assert (Hs1 : seg L' a l1 q).
  { destruct Hep as [[-> ->]|[l' ->]].
    - apply seg_nil. rewrite Hn', Hp' by (try done; intros ->; destruct Heq as [[? _]|[? ->]]; cbn in *; tauto).
      rewrite !decide_True by done. done. 
    - apply seg_app in H1 as [H1 _]. apply seg_app. split.
      + apply (seg_frame L); [| |done]; intros y Hy.
        * rewrite Hn', decide_False; [done|..].
          -- intros ->. apply NoDup_cons_1_1 in Hnd. 
             cbn in Hy. destruct Hy as [->|Hy]; [apply Hnd; apply list_elem_of_In; rewrite !in_app_iff; cbn; auto|].
             rewrite <- !app_assoc in Hnd'. apply list.NoDup_app in Hnd' as (_ & Hd & _).
             apply (Hd p); rewrite list_elem_of_In; [done|by left].
          -- intros ->. destruct Hy as [->|Hy]; [done|]. apply Hx1, in_app_iff. by left.
        * rewrite Hp', decide_False; [done|..].
          -- intros ->. destruct Heq as [[-> ->]|[l'' ->]].
             ++ apply list.NoDup_app in Hnd' as (_ & Hd & _). apply (Hd b); rewrite list_elem_of_In; [done|].
                cbn. auto.
             ++ apply list.NoDup_app in Hnd' as (_ & Hd & _). apply (Hd q); rewrite list_elem_of_In; [done|].
                cbn. auto.
          -- intros ->. done.
      + apply seg_nil. rewrite Hn', Hp'; rewrite ?decide_True by done; [done|..].
        * intros ->. destruct Heq as [[? _]|[? ->]]; cbn in *; tauto.
        * intros ->. apply Hx1, in_app_iff. right. by left. }
  destruct Heq as [[-> ->]|[l'' ->]]; [by rewrite app_nil_r|].
  apply seg_app. split; [done|]. destruct H2 as (_ & _ & H2).
  apply (seg_frame L); [| |done]; intros y Hy.
  - rewrite Hn', decide_False; [done|..].
    + intros ->. destruct Hep as [[-> ->]|[l' ->]].
      * apply NoDup_cons_1_1 in Hnd. apply Hnd, list_elem_of_In. cbn. right. done.
      * apply NoDup_cons_1_2, list.NoDup_app in Hnd as (_ & Hd & _).
        apply (Hd p); rewrite list_elem_of_In, ?in_app_iff; cbn; auto.
    + by intros ->.
  - rewrite Hp', decide_False; [done|..].
    + intros ->. apply list.NoDup_app in Hnd' as (_ & _ & Hd).
      apply NoDup_cons_1_2 in Hd. cbn in Hd. apply NoDup_cons_1_1 in Hd. by apply Hd, list_elem_of_In.
    + intros ->. apply in_app_or in Hy as [Hy|[->|[]]]; [|done]. apply Hx2. by right.
Qed.

Lemma NoDup_rotate {A} (h : A) l : NoDup (h :: l) -> NoDup (l ++ [h]).
Proof. intros. eapply (NoDup_Permutation_proper _ (h :: l)); [|done]. symmetry. apply Permutation_cons_append. Qed.

Lemma NoDup_cons_In {A} (h : A) l : NoDup (h :: l) <-> ~ In h l /\ NoDup l.
Proof. by rewrite list.NoDup_cons, list_elem_of_In. Qed.

Lemma NoDup_app_In {A} (l1 l2 : list A) :
  NoDup (l1 ++ l2) <-> NoDup l1 /\ (forall x, In x l1 -> ~ In x l2) /\ NoDup l2.
Proof.
  rewrite list.NoDup_app. split; intros (? & Hd & ?); split_and!; try done; intros x;
    specialize (Hd x); rewrite !list_elem_of_In in *; auto.
Qed.

(** The neighbours of a node of a ring are in the ring and have links. *)
Lemma ring_neighbours L h l1 x l2 :
  ring L h (l1 ++ x :: l2) -> NoDup (h :: l1 ++ x :: l2) ->
  exists p q, L !! x = Some (mkLink q p) /\ In p (h :: l1) /\ In q (l2 ++ [h]) /\ x <> p /\ x <> q
    /\ is_Some (L !! p) /\ is_Some (L !! q).
Proof.
  intros [H1 H2]%seg_app Hnd.
  destruct (seg_ends _ _ _ _ H1) as (p & _ & Hp & _ & Np & Pp & _).
  destruct (seg_ends _ _ _ _ H2) as (_ & q & _ & Hq & _ & _ & Nq & Pq).
  exists p, q. unfold next_of, prev_of in *.
  destruct (L !! x) as [[nx px]|]; cbn in *; [|done]. simplify_eq.
  assert (Hip : In p (h :: l1)).
  { destruct Hp as [[-> ->]|[l' ->]]; [by left|]. right. apply in_app_iff. right. by left. }
  assert (Hiq : In q (l2 ++ [h])).
  { destruct Hq as [[-> ->]|[l' ->]]; by left. }
  apply NoDup_cons_In in Hnd as [Hh Hnd]. apply NoDup_app_In in Hnd as (_ & Hd & Hx).
  apply NoDup_cons_In in Hx as [Hx _]. split_and!; [done..| | | |].
  - intros ->. destruct Hip as [->|Hip]; [apply Hh, in_app_iff; right; by left|].
    apply (Hd p Hip). by left.
  - intros ->. apply in_app_or in Hiq as [?|[->|[]]]; [done|]. apply Hh, in_app_iff. right. by left.
  - destruct (L !! p); [done|discriminate].
  - destruct (L !! q); [done|discriminate].
Qed.

(** Unlinking [x], as a function on the links. *)
Definition unlinked (L : link_map) (x p q : Z) (pl ql : CFE_SB_BufferLink_t) : link_map :=
  <[x := mkLink x x]> (<[q := mkLink (lk_Next ql) p]> (<[p := mkLink q (lk_Prev pl)]> L)).

Lemma unlinked_ring L h l1 x l2 p q pl :
  ring L h (l1 ++ x :: l2) -> NoDup (h :: l1 ++ x :: l2) ->
  L !! x = Some (mkLink q p) -> L !! p = Some pl -> forall ql,
  <[p := mkLink q (lk_Prev pl)]> L !! q = Some ql ->
  x <> p -> x <> q ->
  ring (unlinked L x p q pl ql) h (l1 ++ l2).
Proof.
  intros Hr Hnd Hx Hp ql Hq Hxp Hxq. apply seg_app in Hr as [H1 H2].
  apply (seg_join L _ h l1 x l2 h p q); try done.
  - rewrite app_comm_cons, app_assoc. by apply NoDup_rotate.
  - unfold prev_of. by rewrite Hx.
  - unfold next_of. by rewrite Hx.
  - intros y Hy. unfold next_of, unlinked. rewrite lookup_insert_ne by done.
    destruct (decide (q = y)) as [->|].
    + rewrite lookup_insert_eq. cbn. destruct (decide (y = p)) as [->|].
      * rewrite lookup_insert_eq in Hq. by simplify_eq.
      * rewrite lookup_insert_ne in Hq by done. by rewrite Hq.
    + rewrite lookup_insert_ne by done. destruct (decide (y = p)) as [->|].
      * by rewrite lookup_insert_eq.
      * by rewrite lookup_insert_ne by done.
  - intros y Hy. unfold prev_of, unlinked. rewrite lookup_insert_ne by done.
    destruct (decide (y = q)) as [->|].
    + by rewrite lookup_insert_eq.
    + rewrite lookup_insert_ne by done. destruct (decide (p = y)) as [->|].
      * rewrite lookup_insert_eq. cbn. by rewrite Hp.
      * by rewrite lookup_insert_ne by done.
Qed.

(** Linking [x] at the end of the ring of [h], whose last node is [p]. *)
Definition linked (L : link_map) (h x p : Z) (pl hl : CFE_SB_BufferLink_t) : link_map :=
  <[h := mkLink (lk_Next hl) x]> (<[p := mkLink x (lk_Prev pl)]> (<[x := mkLink h p]> L)).

Lemma linked_ring L h l x p pl hl :
  ring L h l -> NoDup (h :: l) -> ~ In x (h :: l) -> prev_of L h = Some p -> L !! p = Some pl ->
  <[p := mkLink x (lk_Prev pl)]> L !! h = Some hl ->
  ring (linked L h x p pl hl) h (l ++ [x]).
Proof.
  intros Hr Hnd Hx Hp Hpl Hhl.
  assert (Hhx : h <> x) by (intros ->; apply Hx; by left).
  assert (Hn : forall y, y <> x -> next_of (linked L h x p pl hl) y
                                   = if decide (y = p) then Some x else next_of L y).
  { intros y Hy. unfold next_of, linked. destruct (decide (h = y)) as [->|].
    - rewrite lookup_insert_eq. cbn. destruct (decide (y = p)) as [->|].
      + rewrite lookup_insert_eq in Hhl. by simplify_eq.
      + rewrite lookup_insert_ne in Hhl by done. by rewrite Hhl.
    - rewrite lookup_insert_ne by done. destruct (decide (y = p)) as [->|].
      + by rewrite lookup_insert_eq.
      + by rewrite !lookup_insert_ne by done. }
  assert (Hv : forall y, y <> x -> prev_of (linked L h x p pl hl) y
                                   = if decide (y = h) then Some x else prev_of L y).
  { intros y Hy. unfold prev_of, linked. destruct (decide (y = h)) as [->|].
    - by rewrite lookup_insert_eq.
    - rewrite lookup_insert_ne by done. destruct (decide (p = y)) as [->|].
      + rewrite lookup_insert_eq. cbn. by rewrite Hpl.
      + by rewrite !lookup_insert_ne by done. }
  destruct (seg_ends _ _ _ _ Hr) as (p' & _ & He & _ & _ & Ep & _). assert (p' = p) as -> by congruence.
  assert (Hpx : p <> x).
  { intros ->. apply Hx. destruct He as [[-> ->]|[l' ->]]; [by left|right]. apply in_app_iff. right. by left. }
  assert (Hlx : linked L h x p pl hl !! x = Some (mkLink h p)).
  { unfold linked. by rewrite !lookup_insert_ne, lookup_insert_eq by done. }
  apply seg_app. split.
  - destruct He as [[-> ->]|[l' ->]].
    + apply seg_nil. rewrite Hn, decide_True by done. unfold prev_of. by rewrite Hlx.
    + apply seg_app in Hr as [Hr _]. apply seg_app. split.
      * apply NoDup_cons_In in Hnd as [Hh Hnd]. apply NoDup_app_In in Hnd as (_ & Hd & _).
        apply (seg_frame L); [| |done]; intros y Hy.
        -- rewrite Hn, decide_False; [done|..].
           ++ intros ->. destruct Hy as [->|Hy]; [|by apply (Hd p); [|left]].
              apply Hh, in_app_iff. right. by left.
           ++ intros ->. apply Hx. destruct Hy as [->|Hy]; [by left|right]. apply in_app_iff. by left.
        -- rewrite Hv, decide_False; [done|by intros ->|]. intros ->. apply Hx. by right.
      * apply seg_nil. rewrite Hn, decide_True by done. unfold prev_of. by rewrite Hlx.
  - apply seg_nil. unfold next_of. rewrite Hlx, Hv, decide_True by done. done.
Qed.

(** ** The tracking state of the buffers

    Every buffer is in the zero copy list [zl], in the list [tl] of messages in
    transit, or is one of the buffers [fr] that are in no list. *)

Record tracked (L : link_map) (zl tl fr : list Z) : Prop := {
  tr_zero : ring L ZeroCopyList zl;
  tr_transit : ring L InTransitList tl;
  tr_free : forall x, In x fr -> L !! x = Some (mkLink x x);
  tr_nodup : NoDup (ZeroCopyList :: InTransitList :: zl ++ tl ++ fr);
  tr_dom : forall a, is_Some (L !! a) <-> In a (ZeroCopyList :: InTransitList :: zl ++ tl ++ fr)
}.

Lemma tracked_nodups L zl tl fr :
  tracked L zl tl fr ->
  NoDup (ZeroCopyList :: zl) /\ NoDup (InTransitList :: tl) /\ NoDup fr
  /\ (forall y, In y zl -> ~ In y (InTransitList :: tl ++ fr))
  /\ (forall y, In y tl -> ~ In y (ZeroCopyList :: zl ++ fr))
  /\ (forall y, In y fr -> ~ In y (ZeroCopyList :: InTransitList :: zl ++ tl)).
Proof.
  intros H. pose proof (tr_nodup _ _ _ _ H) as Hn.
  rewrite !NoDup_cons_In, !NoDup_app_In in Hn. cbn [In] in *.
  setoid_rewrite in_app_iff in Hn. setoid_rewrite in_app_iff in Hn.
  destruct Hn as (H1 & H2 & Hz & Hzd & Ht & Htd & Hf). rewrite !NoDup_cons_In.
  split_and!; try tauto; intros y Hy [E|Hi]; subst; try tauto; try apply in_app_or in Hi.
  - destruct (Hzd y Hy). tauto.
  - destruct Hi as [Hi|Hi]; [destruct (Hzd y Hi); tauto|destruct (Htd y Hy); tauto].
  - destruct Hi as [Hi|Hi]; [subst; tauto|]. apply in_app_or in Hi as [Hi|Hi].
    + destruct (Hzd y Hi). tauto.
    + destruct (Htd y Hi). tauto.
Qed.
