(* ===== verification/SbInv.v ===== *)
(** * The software bus: memory invariant and what the buffer routines do to it

    [core] says, of the buffers of a state: which tracking list each is in, that
    the use count of each is the number of references to it (the list [refs]),
    that every reference is to a live buffer, that the blocks taken from the
    pool are exactly the descriptors, and that the statistics agree.  The lemmas
    follow a reference from its creation to the release of the buffer. *)

From S2P Require Import Prelude ResourceId SbRoute SbModel SbLists.

(** ** What the software bus needs of the pool and of the message module *)

(** [live] maps the addresses handed out to their sizes.  The first addresses
    are those of the two list heads. *)
Class PoolBufLaws (P : Type) `{PoolBuf P} := {
  pool_rep : P -> gmap Z Z -> Prop;
  pool_get_spec p live n :
    pool_rep p live -> 0 < n < 2 ^ 31 ->
    exists stat a p', pool_get p n = (stat, a, p')
      /\ ((stat < 0 /\ pool_rep p' live)
          \/ (stat = n /\ 2 < a < 2 ^ 63 /\ live !! a = None /\ pool_rep p' (<[a := n]> live)));
  pool_put_spec p live a n :
    pool_rep p live -> live !! a = Some n ->
    exists p', pool_put p a = (n, p') /\ pool_rep p' (delete a live)
}.

Class SbPlatformLaws (Msg : Type) `{SbPlatform Msg} := {
  offset_range : 0 < CFE_SB_BUFFERD_CONTENT_OFFSET < 2 ^ 16;
  dest_size_range : 0 < sizeof_DestinationD < 2 ^ 16;
  max_size_range : 0 <= CFE_MISSION_SB_MAX_SB_MSG_SIZE < 2 ^ 30;
  msg_size_nonneg m : 0 <= CFE_MSG_GetSize m;
  msgid_range m : is_u32 (CFE_MSG_GetMsgId m)
}.

(** ** Running routines *)

Section monad.
Context {P M Msg : Type}.
Local Abbreviation sb := (sb P M Msg).
Local Abbreviation SB := (SB (P := P) (M := M) (Msg := Msg)).
Implicit Types s : sb.

Lemma bind_run {A B} (m : SB A) (k : A -> SB B) s x s' : m s = Some (x, s') -> bind m k s = k x s'.
Proof using. unfold bind. by intros ->. Qed.
Lemma bind_bind {A B C} (m : SB A) (f : A -> SB B) (g : B -> SB C) s :
  bind (bind m f) g s = bind m (fun x => bind (f x) g) s.
Proof using. unfold bind. by destruct (m s) as [[]|]. Qed.
Lemma bind_ret {A B} (x : A) (k : A -> SB B) s : bind (ret x) k s = k x s.
Proof using. done. Qed.
Lemma bind_gets {A B} (f : sb -> A) (k : A -> SB B) s : bind (gets f) k s = k (f s) s.
Proof using. done. Qed.
Lemma bind_modify {B} (f : sb -> sb) (k : unit -> SB B) s : bind (modify f) k s = k tt (f s).
Proof using. done. Qed.
Lemma bind_load_buf {B} a b (k : _ -> SB B) s : bufs s !! a = Some b -> bind (load_buf a) k s = k b s.
Proof using. intros E. unfold bind, load_buf. by rewrite E. Qed.
Lemma bind_load_link {B} a l (k : _ -> SB B) s : links s !! a = Some l -> bind (load_link a) k s = k l s.
Proof using. intros E. unfold bind, load_link. by rewrite E. Qed.
Lemma bind_load_dest {B} a d (k : _ -> SB B) s : dests s !! a = Some d -> bind (load_dest a) k s = k d s.
Proof using. intros E. unfold bind, load_dest. by rewrite E. Qed.
Lemma run_store_buf a b s :
  is_Some (bufs s !! a) -> store_buf a b s = Some (tt, set_bufs (<[a := b]> (bufs s)) s).
Proof using. intros [? E]. unfold store_buf. by rewrite E. Qed.
Lemma run_store_link a l s :
  is_Some (links s !! a) -> store_link a l s = Some (tt, set_links (<[a := l]> (links s)) s).
Proof using. intros [? E]. unfold store_link. by rewrite E. Qed.
Lemma run_store_dest a d s :
  is_Some (dests s !! a) -> store_dest a d s = Some (tt, set_dests (<[a := d]> (dests s)) s).
Proof using. intros [? E]. unfold store_dest. by rewrite E. Qed.
Lemma bind_store_buf {B} a b (k : _ -> SB B) s :
  is_Some (bufs s !! a) -> bind (store_buf a b) k s = k tt (set_bufs (<[a := b]> (bufs s)) s).
Proof using. intros. by rewrite (bind_run _ _ _ _ _ (run_store_buf a b s ltac:(done))). Qed.
Lemma bind_store_link {B} a l (k : _ -> SB B) s :
  is_Some (links s !! a) -> bind (store_link a l) k s = k tt (set_links (<[a := l]> (links s)) s).
Proof using. intros. by rewrite (bind_run _ _ _ _ _ (run_store_link a l s ltac:(done))). Qed.
Lemma bind_store_dest {B} a d (k : _ -> SB B) s :
  is_Some (dests s !! a) -> bind (store_dest a d) k s = k tt (set_dests (<[a := d]> (dests s)) s).
Proof using. intros. by rewrite (bind_run _ _ _ _ _ (run_store_dest a d s ltac:(done))). Qed.
End monad.

Ltac sb_simpl :=
  cbn [pool bufs links dests PipeTbl LastPipeId routes queues StopRecurseFlags SubscriptionReporting
       HKTlm StatTlm events set_pool set_bufs set_links set_dests set_PipeTbl set_LastPipeId set_routes
       set_queues set_flags set_report set_HKTlm set_StatTlm set_events] in *.

(** One step of a routine whose next operation needs no hypothesis. *)
Ltac sb_pure := rewrite ?bind_bind; first [rewrite bind_ret | rewrite bind_gets | rewrite bind_modify].

(** The fields other than those of the memory and of the telemetry. *)
Record same_tables {P M Msg} (s s' : sb P M Msg) : Prop := {
  st_pipes : PipeTbl s' = PipeTbl s;
  st_last : LastPipeId s' = LastPipeId s;
  st_routes : routes s' = routes s;
  st_queues : queues s' = queues s;
  st_report : SubscriptionReporting s' = SubscriptionReporting s
}.

#[export] Instance same_tables_preorder {P M Msg} : PreOrder (@same_tables P M Msg).
Proof.
  split; [by intros s|]. intros s1 s2 s3 [] []. split; congruence.
Qed.

Section tracking.
Context {P M Msg : Type}.
Local Abbreviation sb := (sb P M Msg).
Implicit Types s : sb.

Lemma Remove_single s x :
  links s !! x = Some (mkLink x x) -> CFE_SB_TrackingListRemove x s = Some (tt, set_links (links s) s).
Proof using.
  intros Hx. unfold CFE_SB_TrackingListRemove. rewrite (bind_load_link _ _ _ _ Hx). cbn [lk_Prev lk_Next].
  rewrite (bind_load_link _ _ _ _ Hx), bind_store_link by done. cbn [lk_Prev].
  do 2 (rewrite (bind_load_link x (mkLink x x)); [cbn [lk_Prev lk_Next]|sb_simpl; by rewrite lookup_insert_eq]).
  rewrite bind_store_link by (sb_simpl; by rewrite lookup_insert_eq).
  unfold CFE_SB_TrackingListReset.
  rewrite run_store_link by (sb_simpl; by rewrite lookup_insert_eq). sb_simpl.
  rewrite !insert_insert_eq, insert_id by done. done.
Qed.

Lemma Remove_ring s h l1 x l2 :
  ring (links s) h (l1 ++ x :: l2) -> NoDup (h :: l1 ++ x :: l2) ->
  exists L', CFE_SB_TrackingListRemove x s = Some (tt, set_links L' s)
    /\ ring L' h (l1 ++ l2) /\ L' !! x = Some (mkLink x x)
    /\ (forall y, ~ In y (h :: l1 ++ x :: l2) -> L' !! y = links s !! y)
    /\ (forall y, is_Some (L' !! y) <-> is_Some (links s !! y)).
Proof using.
  intros Hr Hnd. destruct (ring_neighbours _ _ _ _ _ Hr Hnd) as (p & q & Hx & Hp & Hq & Hxp & Hxq & [pl Hpl] & [ql0 Hql0]).
  assert (Hql : exists ql, <[p := mkLink q (lk_Prev pl)]> (links s) !! q = Some ql).
  { destruct (decide (p = q)) as [->|]; [rewrite lookup_insert_eq; by eexists|].
    rewrite lookup_insert_ne by done. by eexists. }
  destruct Hql as [ql Hql]. exists (unlinked (links s) x p q pl ql). split_and!.
  - unfold CFE_SB_TrackingListRemove. rewrite (bind_load_link _ _ _ _ Hx). cbn [lk_Prev lk_Next].
    rewrite (bind_load_link _ _ _ _ Hpl), bind_store_link by done.
    rewrite (bind_load_link x (mkLink q p)); [cbn [lk_Prev lk_Next]|sb_simpl; by rewrite lookup_insert_ne].
    rewrite (bind_load_link q ql), bind_store_link by (sb_simpl; done).
    unfold CFE_SB_TrackingListReset. rewrite run_store_link; [done|].
    sb_simpl. rewrite !lookup_insert_ne by done. by rewrite Hx.
  - by apply unlinked_ring.
  - unfold unlinked. apply lookup_insert_eq.
  - intros y Hy. rewrite in_app_iff in Hq. cbn [In] in *. rewrite in_app_iff in Hy. cbn [In] in *. unfold unlinked.
    rewrite !lookup_insert_ne; [done|..]; intros ->; tauto.
  - intros y. unfold unlinked. rewrite !lookup_insert_is_Some'.
    split; [intros [->|[->|[->|?]]]|tauto]; try done; rewrite ?Hx, ?Hpl, ?Hql0; done.
Qed.

Lemma Add_ring s h l x :
  ring (links s) h l -> NoDup (h :: l) -> ~ In x (h :: l) -> is_Some (links s !! x) ->
  exists L', CFE_SB_TrackingListAdd h x s = Some (tt, set_links L' s)
    /\ ring L' h (l ++ [x])
    /\ (forall y, ~ In y (h :: l ++ [x]) -> L' !! y = links s !! y)
    /\ (forall y, is_Some (L' !! y) <-> is_Some (links s !! y)).
Proof using.
  intros Hr Hnd Hx [xl Hxl]. destruct (seg_ends _ _ _ _ Hr) as (p & _ & He & _ & Np & Pp & _ & _).
  assert (Hh : exists nx, links s !! h = Some (mkLink nx p)).
  { unfold prev_of in Pp. destruct (links s !! h) as [[nx pv]|]; cbn in Pp; [|done]. simplify_eq. by eexists. }
  destruct Hh as [nx Hh].
  assert (Hip : In p (h :: l)).
  { destruct He as [[-> ->]|[l' ->]]; [by left|right; apply in_app_iff; right; by left]. }
  assert (Hpl : exists pl, links s !! p = Some pl).
  { unfold next_of in Np. destruct (links s !! p); [by eexists|done]. }
  destruct Hpl as [pl Hpl].
  assert (Hxh : x <> h) by (intros ->; apply Hx; by left). assert (Hxp : x <> p) by (by intros ->).
  assert (Hhl : exists hl, <[p := mkLink x (lk_Prev pl)]> (links s) !! h = Some hl).
  { destruct (decide (p = h)) as [->|]; [rewrite lookup_insert_eq; by eexists|].
    rewrite lookup_insert_ne by done. by eexists. }
  destruct Hhl as [hl Hhl]. exists (linked (links s) h x p pl hl). split_and!.
  - unfold CFE_SB_TrackingListAdd. rewrite (bind_load_link _ _ _ _ Hh), (bind_load_link _ _ _ _ Hxl).
    cbn [lk_Prev lk_Next]. rewrite bind_store_link by done.
    rewrite (bind_load_link x (mkLink (lk_Next xl) p)) by (sb_simpl; by rewrite lookup_insert_eq).
    cbn [lk_Prev lk_Next]. rewrite bind_store_link by (sb_simpl; by rewrite lookup_insert_eq).
    sb_simpl. rewrite insert_insert_eq.
    rewrite (bind_load_link x (mkLink h p)) by (sb_simpl; by rewrite lookup_insert_eq). cbn [lk_Prev lk_Next].
    rewrite (bind_load_link p pl) by (sb_simpl; by rewrite lookup_insert_ne).
    rewrite bind_store_link by (sb_simpl; by rewrite lookup_insert_ne).
    rewrite (bind_load_link x (mkLink h p)) by (sb_simpl; by rewrite lookup_insert_ne, lookup_insert_eq).
    cbn [lk_Prev lk_Next].
    rewrite (bind_load_link h hl) by (sb_simpl; by rewrite insert_insert_ne, lookup_insert_ne).
    rewrite run_store_link; [done|]. sb_simpl. by rewrite insert_insert_ne, lookup_insert_ne.
  - by apply linked_ring.
  - intros y Hy. cbn [In] in *. rewrite in_app_iff in Hy. cbn [In] in *. unfold linked.
    rewrite !lookup_insert_ne; [done|..]; intros ->; tauto.
  - intros y. unfold linked. rewrite !lookup_insert_is_Some'.
    split; [intros [->|[->|[->|?]]]|tauto]; try done; rewrite ?Hxl, ?Hpl, ?Hh; done.
Qed.

(** Taking a buffer out of the list it is in. *)
Definition without (x : Z) (l : list Z) : list Z := List.filter (fun y => negb (y =? x)) l.

Lemma in_without x y l : In y (without x l) <-> In y l /\ y <> x.
Proof using. unfold without. by rewrite filter_In, negb_true_iff, Z.eqb_neq. Qed.

Lemma without_absent x l : ~ In x l -> without x l = l.
Proof using.
  intros Hx. unfold without. induction l as [|y l IH]; cbn in *; [done|].
  rewrite (proj2 (Z.eqb_neq y x)) by tauto. cbn. by rewrite IH by tauto.
Qed.

Lemma without_split x l1 l2 : NoDup (l1 ++ x :: l2) -> without x (l1 ++ x :: l2) = l1 ++ l2.
Proof using.
  intros (H1 & Hd & [H2 _]%NoDup_cons_In)%NoDup_app_In. unfold without. rewrite List.filter_app. cbn.
  rewrite Z.eqb_refl. cbn. f_equal; apply without_absent; [|done].
  intros Hi. apply (Hd x Hi). by left.
Qed.

Lemma without_nodup x l : NoDup l -> NoDup (without x l).
Proof using. rewrite !NoDup_ListNoDup. apply List.NoDup_filter. Qed.

Lemma without_app x l1 l2 : without x (l1 ++ l2) = without x l1 ++ without x l2.
Proof using. apply List.filter_app. Qed.

#[export] Instance without_proper x : Proper ((≡ₚ) ==> (≡ₚ)) (without x).
Proof. intros l l' Hp. unfold without. induction Hp; cbn; repeat case_match; by econstructor || eauto using perm_trans. Qed.

Lemma without_perm x l : NoDup l -> In x l -> x :: without x l ≡ₚ l.
Proof using.
  intros Hnd Hx. apply in_split in Hx as (l1 & l2 & ->). rewrite without_split by done.
  apply Permutation_middle.
Qed.

Lemma moved_perm x (zl tl fr : list Z) :
  NoDup (zl ++ tl ++ fr) -> In x (zl ++ tl ++ fr) ->
  without x zl ++ without x tl ++ x :: without x fr ≡ₚ zl ++ tl ++ fr.
Proof using.
  intros Hnd Hx. rewrite <- (without_perm x (zl ++ tl ++ fr)) by done. rewrite !without_app.
  rewrite app_assoc, <- Permutation_middle, <- app_assoc. done.
Qed.

Lemma tracked_moved L L' zl tl fr x :
  tracked L zl tl fr -> In x (zl ++ tl ++ fr) ->
  ring L' ZeroCopyList (without x zl) -> ring L' InTransitList (without x tl) ->
  L' !! x = Some (mkLink x x) -> (forall y, In y fr -> y <> x -> L' !! y = L !! y) ->
  (forall y, is_Some (L' !! y) <-> is_Some (L !! y)) ->
  tracked L' (without x zl) (without x tl) (x :: without x fr).
Proof using.
  intros Ht Hx H1 H2 H3 H4 H5.
  pose proof (tr_nodup _ _ _ _ Ht) as Hnd. rewrite !NoDup_cons_In in Hnd.
  assert (Hp := moved_perm x zl tl fr (proj2 (proj2 Hnd)) Hx).
  split; [done..| | |].
  - intros y [<-|[Hy Hne]%in_without]; [done|]. rewrite H4 by done. by apply Ht.
  - rewrite Hp. apply Ht.
  - intros y. rewrite H5, (tr_dom _ _ _ _ Ht). cbn [In]. by rewrite Hp.
Qed.

Lemma Remove_tracked s zl tl fr x :
  tracked (links s) zl tl fr -> In x (zl ++ tl ++ fr) ->
  exists L', CFE_SB_TrackingListRemove x s = Some (tt, set_links L' s)
    /\ tracked L' (without x zl) (without x tl) (x :: without x fr).
Proof using.
  intros Ht Hx. destruct (tracked_nodups _ _ _ _ Ht) as (Hz & Hi & Hf & Dz & Di & Df).
  destruct (in_app_or _ _ _ Hx) as [Hxz|[Hxi|Hxf]%in_app_or].
  - assert (Hsplit := Hxz). apply in_split in Hsplit as (l1 & l2 & E). assert (Dx := Dz x Hxz). cbn in Dx. rewrite in_app_iff in Dx.
    pose proof (tr_zero _ _ _ _ Ht) as Hr. rewrite E in Hr, Hz.
    destruct (Remove_ring s _ l1 x l2 Hr Hz) as (L' & Hrun & Hr' & Hx' & Hout & Hdom).
    exists L'. split; [done|]. apply (tracked_moved (links s)); try done.
    + rewrite E, without_split by (by apply NoDup_cons_In in Hz as [_ ?]). done.
    + rewrite without_absent by tauto.
      apply (ring_frame (links s)); [|apply Ht]. intros y Hy. apply Hout. rewrite <- E.
      intros [<-|Hyz]; [destruct Hy as [Hy|Hy]; [done|apply Di in Hy; apply Hy; by left]|].
      apply Dz in Hyz. cbn in *. rewrite in_app_iff in Hyz. tauto.
    + intros y Hy Hne. apply Hout. rewrite <- E. apply Df in Hy. cbn in *. rewrite in_app_iff in Hy. tauto.
  - assert (Hsplit := Hxi). apply in_split in Hsplit as (l1 & l2 & E). assert (Dx := Di x Hxi). cbn in Dx. rewrite in_app_iff in Dx.
    pose proof (tr_transit _ _ _ _ Ht) as Hr. rewrite E in Hr, Hi.
    destruct (Remove_ring s _ l1 x l2 Hr Hi) as (L' & Hrun & Hr' & Hx' & Hout & Hdom).
    exists L'. split; [done|]. apply (tracked_moved (links s)); try done.
    + rewrite without_absent by tauto.
      apply (ring_frame (links s)); [|apply Ht]. intros y Hy. apply Hout. rewrite <- E.
      intros [<-|Hyt]; [destruct Hy as [Hy|Hy]; [done|apply Dz in Hy; apply Hy; by left]|].
      apply Di in Hyt. cbn in *. rewrite in_app_iff in Hyt. tauto.
    + rewrite E, without_split by (by apply NoDup_cons_In in Hi as [_ ?]). done.
    + intros y Hy Hne. apply Hout. rewrite <- E. apply Df in Hy. cbn in *. rewrite in_app_iff in Hy. tauto.
  - exists (links s). split; [by apply Remove_single, Ht|]. specialize (Df x Hxf). cbn in Df. rewrite in_app_iff in Df.
    apply (tracked_moved (links s)); try done; [rewrite without_absent by tauto; apply Ht..|by apply Ht].
Qed.

(** Linking a buffer that is in no list. *)
Lemma Add_transit s zl tl fr x :
  tracked (links s) zl tl (x :: fr) ->
  exists L', CFE_SB_TrackingListAdd InTransitList x s = Some (tt, set_links L' s)
    /\ tracked L' zl (tl ++ [x]) fr.
Proof using.
  intros Ht. destruct (tracked_nodups _ _ _ _ Ht) as (Hz & Hi & Hf & Dz & Di & Df).
  assert (Dx := Df x (or_introl eq_refl)). cbn in Dx. rewrite in_app_iff in Dx.
  destruct (Add_ring s InTransitList tl x) as (L' & Hrun & Hr' & Hout & Hdom);
    [apply Ht|done|cbn; tauto|by rewrite (tr_free _ _ _ _ Ht) by (by left)|].
  exists L'. split; [done|].
  assert (Hp : zl ++ (tl ++ [x]) ++ fr ≡ₚ zl ++ tl ++ x :: fr) by (by rewrite <- !app_assoc).
  split; [| done | | |].
  - apply (ring_frame (links s)); [|apply Ht]. intros y Hy. apply Hout. cbn in *. rewrite in_app_iff. cbn.
    intros [<-|[Hyt|[<-|[]]]]; [destruct Hy as [?|Hy]; [done|apply Dz in Hy; apply Hy; by left]| |tauto].
    apply Di in Hyt. cbn in Hyt. rewrite in_app_iff in Hyt. tauto.
  - intros y Hy. rewrite Hout; [apply Ht; by right|]. pose proof (Df y (or_intror Hy)) as Hd. cbn in *.
    rewrite in_app_iff in *. cbn. apply NoDup_cons_In in Hf as [Hxf _].
    intros [<-|[?|[<-|[]]]]; tauto.
  - rewrite Hp. apply Ht.
  - intros y. rewrite Hdom, (tr_dom _ _ _ _ Ht). cbn [In]. by rewrite Hp.
Qed.

Lemma Add_zero s zl tl fr x :
  tracked (links s) zl tl (x :: fr) ->
  exists L', CFE_SB_TrackingListAdd ZeroCopyList x s = Some (tt, set_links L' s)
    /\ tracked L' (zl ++ [x]) tl fr.
Proof using.
  intros Ht. destruct (tracked_nodups _ _ _ _ Ht) as (Hz & Hi & Hf & Dz & Di & Df).
  assert (Dx := Df x (or_introl eq_refl)). cbn in Dx. rewrite in_app_iff in Dx.
  destruct (Add_ring s ZeroCopyList zl x) as (L' & Hrun & Hr' & Hout & Hdom);
    [apply Ht|done|cbn; tauto|by rewrite (tr_free _ _ _ _ Ht) by (by left)|].
  exists L'. split; [done|].
  assert (Hp : (zl ++ [x]) ++ tl ++ fr ≡ₚ zl ++ tl ++ x :: fr).
  { rewrite <- app_assoc. cbn. by rewrite Permutation_middle. }
  split; [done| | | |].
  - apply (ring_frame (links s)); [|apply Ht]. intros y Hy. apply Hout. cbn in *. rewrite in_app_iff. cbn.
    intros [<-|[Hyt|[<-|[]]]]; [destruct Hy as [?|Hy]; [done|apply Di in Hy; apply Hy; by left]| |tauto].
    apply Dz in Hyt. cbn in Hyt. rewrite in_app_iff in Hyt. tauto.
  - intros y Hy. rewrite Hout; [apply Ht; by right|]. pose proof (Df y (or_intror Hy)) as Hd. cbn in *.
    rewrite in_app_iff in *. cbn. apply NoDup_cons_In in Hf as [Hxf _].
    intros [<-|[?|[<-|[]]]]; tauto.
  - rewrite Hp. apply Ht.
  - intros y. rewrite Hdom, (tr_dom _ _ _ _ Ht). cbn [In]. by rewrite Hp.
Qed.
End tracking.

(** ** Statistics *)

Section stats.
Context {P M Msg : Type}.
Implicit Types s : sb P M Msg.

Lemma raise_stat_run i p n s :
  i <> p ->
  exists t, raise_stat i p n s = Some (tt, set_StatTlm t s) /\ t i = u32 (StatTlm s i + n)
    /\ forall j, j <> i -> j <> p -> t j = StatTlm s j.
Proof using.
  intros Hip. unfold raise_stat, set_stat. rewrite bind_gets, bind_modify, bind_gets, bind_gets. sb_simpl.
  rewrite (decide_True (P := i = i)), (decide_False (P := p = i)) by congruence.
  destruct (StatTlm s p <? u32 (StatTlm s i + n)); eexists (fun j => _); (split; [reflexivity|]); sb_simpl.
  - rewrite decide_False, decide_True by congruence. split; [done|]. intros j Hi Hp. by rewrite !decide_False.
  - rewrite decide_True by done. split; [done|]. intros j Hi Hp. by rewrite decide_False.
Qed.

Lemma lower_stat_run i n s :
  exists t, lower_stat i n s = Some (tt, set_StatTlm t s) /\ t i = u32 (StatTlm s i - n)
    /\ forall j, j <> i -> t j = StatTlm s j.
Proof using.
  unfold lower_stat, set_stat. rewrite bind_gets. eexists (fun j => _). split; [reflexivity|]. sb_simpl.
  rewrite decide_True by done. split; [done|]. intros j Hi. by rewrite decide_False.
Qed.
End stats.

Lemma u32_add_l x y : u32 (u32 x + y) = u32 (x + y).
Proof. apply Zplus_mod_idemp_l. Qed.
Lemma u32_sub_l x y : u32 (u32 x - y) = u32 (x - y).
Proof. unfold u32. by rewrite Zminus_mod_idemp_l. Qed.

(** The memory in a set of blocks. *)
Definition total (m : gmap Z Z) : Z := map_fold (fun _ n acc => n + acc) 0 m.

Lemma total_insert m a n : m !! a = None -> total (<[a := n]> m) = n + total m.
Proof. intros. unfold total. apply map_fold_insert_L; [|done]. intros. lia. Qed.

Lemma total_delete m a n : m !! a = Some n -> total (delete a m) = total m - n.
Proof.
  intros Ha. rewrite <- (insert_delete_id m a n) at 2 by done.
  rewrite total_insert by apply lookup_delete_eq. lia.
Qed.

(** ** The invariant of the buffers *)

Abbreviation occurs := (count_occ Z.eq_dec).

Section core.
Context {P M Msg : Type} `{HP : PoolBufLaws P} `{HM : SbPlatformLaws Msg}.
Local Abbreviation sb := (sb P M Msg).
Local Abbreviation BufferD := (CFE_SB_BufferD_t Msg).
Implicit Types (s : sb) (zl tl fr refs : list Z).

(** The blocks of the pool that are in use. *)
Definition live s : gmap Z Z :=
  (AllocatedSize <$> bufs s) ∪ ((fun _ => sizeof_DestinationD) <$> dests s).

Record core s zl tl fr refs : Prop := {
  co_tracked : tracked (links s) zl tl fr;
  co_dom : forall a, is_Some (bufs s !! a) <-> In a (zl ++ tl ++ fr);
  co_count : forall a d, bufs s !! a = Some d -> UseCount d = Z.of_nat (occurs refs a) /\ 1 <= UseCount d;
  co_refs : forall a, In a refs -> is_Some (bufs s !! a);
  co_pool : pool_rep (pool s) (live s);
  co_disjoint : forall a, is_Some (bufs s !! a) -> dests s !! a = None;
  co_addr : forall a, is_Some (live s !! a) -> 2 < a < 2 ^ 63;
  co_buffers : StatTlm s SBBuffersInUse = u32 (Z.of_nat (size (bufs s)));
  co_memory : StatTlm s MemInUse = u32 (total (live s))
}.

Lemma core_perm s zl tl fr refs refs' : refs ≡ₚ refs' -> core s zl tl fr refs -> core s zl tl fr refs'.
Proof using.
  intros Hp []. split; try done.
  - intros a d Hd. rewrite <- (proj1 (Permutation_count_occ Z.eq_dec refs refs') Hp a). auto.
  - intros a Ha. apply co_refs0. by rewrite Hp.
Qed.

#[export] Instance core_proper s zl tl fr : Proper ((≡ₚ) ==> iff) (core s zl tl fr).
Proof using. intros r r' Hp. split; apply core_perm; by rewrite Hp. Qed.

(** The invariant reads only some of the fields. *)
Lemma core_ext s s' zl tl fr refs :
  pool s' = pool s -> bufs s' = bufs s -> links s' = links s -> dests s' = dests s ->
  StatTlm s' SBBuffersInUse = StatTlm s SBBuffersInUse -> StatTlm s' MemInUse = StatTlm s MemInUse ->
  core s zl tl fr refs -> core s' zl tl fr refs.
Proof using.
  intros E1 E2 E3 E4 E5 E6 []. unfold live in *.
  split; unfold live in *; rewrite ?E1, ?E2, ?E3, ?E4, ?E5, ?E6; done.
Qed.

Lemma live_buf s a d : bufs s !! a = Some d -> live s !! a = Some (AllocatedSize d).
Proof using. intros Hd. unfold live. apply lookup_union_Some_l. by rewrite lookup_fmap, Hd. Qed.

Lemma live_dest s a d : bufs s !! a = None -> dests s !! a = Some d -> live s !! a = Some sizeof_DestinationD.
Proof using.
  intros Hb Hd. unfold live. rewrite lookup_union_r by (by rewrite lookup_fmap, Hb).
  by rewrite lookup_fmap, Hd.
Qed.

Lemma live_none s a : live s !! a = None <-> bufs s !! a = None /\ dests s !! a = None.
Proof using. unfold live. by rewrite lookup_union_None, !lookup_fmap, !fmap_None. Qed.

Lemma live_insert_buf s a d : live (set_bufs (<[a := d]> (bufs s)) s) = <[a := AllocatedSize d]> (live s).
Proof using. unfold live. sb_simpl. by rewrite fmap_insert, insert_union_l. Qed.

Lemma live_delete_buf s a :
  dests s !! a = None -> live (set_bufs (delete a (bufs s)) s) = delete a (live s).
Proof using.
  intros Hd. unfold live. sb_simpl. rewrite fmap_delete, delete_union.
  f_equal. symmetry. apply delete_id. by rewrite lookup_fmap, Hd.
Qed.

Lemma live_update_buf s a d d' :
  bufs s !! a = Some d -> AllocatedSize d' = AllocatedSize d ->
  live (set_bufs (<[a := d']> (bufs s)) s) = live s.
Proof using. intros Hd E. rewrite live_insert_buf, E. apply insert_id. by apply live_buf. Qed.

(** A new use count for a buffer, with the references that justify it. *)
Lemma core_recount s zl tl fr refs refs' a d d' :
  core s zl tl fr refs -> bufs s !! a = Some d -> AllocatedSize d' = AllocatedSize d ->
  UseCount d' = Z.of_nat (occurs refs' a) -> 1 <= UseCount d' ->
  (forall b, b <> a -> occurs refs' b = occurs refs b) ->
  core (set_bufs (<[a := d']> (bufs s)) s) zl tl fr refs'.
Proof using.
  intros Hc Hd Ea Eu H1 Hb. pose proof (live_update_buf s a d d' Hd Ea) as El.
  assert (Hdom : forall b, is_Some (<[a := d']> (bufs s) !! b) <-> is_Some (bufs s !! b)).
  { intros b. rewrite lookup_insert_is_Some'. split; [intros [<-|?]|tauto]; [by rewrite Hd|done]. }
  destruct Hc. split; rewrite ?El; sb_simpl; try done.
  - intros b. by rewrite Hdom.
  - intros b e. destruct (decide (a = b)) as [<-|].
    + rewrite lookup_insert_eq. by intros [= <-].
    + rewrite lookup_insert_ne by done. intros He. rewrite Hb by done. auto.
  - intros b Hin. rewrite Hdom. destruct (decide (b = a)) as [->|]; [by rewrite Hd|].
    apply co_refs0. rewrite (count_occ_In Z.eq_dec), <- Hb, <- (count_occ_In Z.eq_dec) by done. done.
  - intros b. rewrite Hdom. auto.
  - rewrite co_buffers0. do 2 f_equal. symmetry. rewrite map_size_insert_Some by by eexists. done.
Qed.

Lemma core_store s zl tl fr refs a d d' :
  core s zl tl fr refs -> bufs s !! a = Some d -> AllocatedSize d' = AllocatedSize d ->
  UseCount d' = UseCount d -> core (set_bufs (<[a := d']> (bufs s)) s) zl tl fr refs.
Proof using.
  intros Hc Hd Ea Eu. destruct (co_count _ _ _ _ _ Hc a d Hd).
  apply (core_recount s zl tl fr refs refs a d); try done; lia.
Qed.

(** *** Counting references *)

Lemma Incr_eff s zl tl fr refs a d :
  core s zl tl fr refs -> bufs s !! a = Some d -> UseCount d < 0x7FFF ->
  let s' := set_bufs (<[a := set_UseCount d (UseCount d + 1)]> (bufs s)) s in
  CFE_SB_IncrBufUseCnt a s = Some (tt, s') /\ core s' zl tl fr (a :: refs).
Proof using.
  intros Hc Hd Hlt s'. destruct (co_count _ _ _ _ _ Hc a d Hd). split.
  - unfold CFE_SB_IncrBufUseCnt. rewrite (bind_load_buf _ _ _ _ Hd).
    rewrite (proj2 (Z.ltb_lt _ _)) by lia. apply run_store_buf. by rewrite Hd.
  - apply (core_recount s zl tl fr refs (a :: refs) a d); try done.
    + cbn. destruct (Z.eq_dec a a); [|done]. lia.
    + cbn. lia.
    + intros b Hb. cbn. destruct (Z.eq_dec a b); congruence.
Qed.

(** What a routine that only handles buffers leaves alone. *)
Definition buffers_only s s' : Prop :=
  same_tables s s' /\ dests s' = dests s /\ HKTlm s' = HKTlm s
  /\ StatTlm s' SubscriptionsInUse = StatTlm s SubscriptionsInUse.

Lemma tracked_drop L zl tl fr x : tracked L zl tl (x :: fr) -> tracked (delete x L) zl tl fr.
Proof using.
  intros Ht. destruct (tracked_nodups _ _ _ _ Ht) as (Hz & Hi & Hf & Dz & Di & Df).
  assert (Dx := Df x (or_introl eq_refl)). cbn in Dx. rewrite in_app_iff in Dx.
  apply NoDup_cons_In in Hf as [Hxf Hf].
  assert (Hp : zl ++ tl ++ x :: fr ≡ₚ x :: zl ++ tl ++ fr).
  { by rewrite app_assoc, <- Permutation_middle, <- app_assoc. }
  pose proof (tr_nodup _ _ _ _ Ht) as Hnd. rewrite Hp, !NoDup_cons_In in Hnd. cbn in Hnd.
  split.
  - apply (ring_frame L); [|apply Ht]. intros y Hy. apply lookup_delete_ne. cbn in Hy. intros <-. tauto.
  - apply (ring_frame L); [|apply Ht]. intros y Hy. apply lookup_delete_ne. cbn in Hy. intros <-. tauto.
  - intros y Hy. rewrite lookup_delete_ne by congruence. apply Ht. by right.
  - rewrite !NoDup_cons_In. cbn. tauto.
  - intros y. rewrite lookup_delete_is_Some, (tr_dom _ _ _ _ Ht). cbn [In]. rewrite Hp. cbn [In].
    split; [intros [? [|[|[|]]]]; tauto|]. intros Hy. split; [intros <-; tauto|tauto].
Qed.

Lemma core_drop s s' L' p' zl tl fr refs a d :
  core s zl tl fr (a :: refs) -> bufs s !! a = Some d -> UseCount d = 1 ->
  tracked L' (without a zl) (without a tl) (a :: without a fr) ->
  pool_rep p' (delete a (live s)) -> pool s' = p' -> bufs s' = delete a (bufs s) ->
  links s' = delete a L' -> dests s' = dests s ->
  StatTlm s' SBBuffersInUse = u32 (StatTlm s SBBuffersInUse - 1) ->
  StatTlm s' MemInUse = u32 (StatTlm s MemInUse - AllocatedSize d) ->
  core s' (without a zl) (without a tl) (without a fr) refs.
Proof using.
  intros Hc Hd Hu Ht Hp Ep Eb El Ed Es Em.
  destruct (co_count _ _ _ _ _ Hc a d Hd) as [Hn _]. rewrite Hu in Hn. cbn in Hn.
  destruct (Z.eq_dec a a) as [_|]; [|done].
  assert (Hna : ~ In a refs) by (rewrite (count_occ_not_In Z.eq_dec); lia).
  assert (Hlive : live s' = delete a (live s)).
  { rewrite <- live_delete_buf by (apply Hc; by rewrite Hd). unfold live. sb_simpl. by rewrite Eb, Ed. }
  split; rewrite ?Hlive, ?Ep, ?Eb, ?El, ?Ed; try done.
  - by apply tracked_drop.
  - intros b. rewrite lookup_delete_is_Some, (co_dom _ _ _ _ _ Hc), <- !without_app, in_without.
    split; intros [? ?]; split; congruence.
  - intros b e [Hne He]%lookup_delete_Some. destruct (co_count _ _ _ _ _ Hc b e He) as [Hbn ?].
    cbn in Hbn. destruct (Z.eq_dec a b); done.
  - intros b Hb. rewrite lookup_delete_is_Some. split; [congruence|].
    apply (co_refs _ _ _ _ _ Hc). by right.
  - intros b [_ Hb]%lookup_delete_is_Some. by apply (co_disjoint _ _ _ _ _ Hc).
  - intros b [_ Hb]%lookup_delete_is_Some. by apply (co_addr _ _ _ _ _ Hc).
  - rewrite Es, (co_buffers _ _ _ _ _ Hc), u32_sub_l. f_equal.
    rewrite map_size_delete_Some by by eexists.
    assert (size (bufs s) <> 0%nat) by (apply (map_size_ne_0_lookup_2 _ a); by eexists). lia.
  - rewrite Em, (co_memory _ _ _ _ _ Hc), u32_sub_l. f_equal.
    symmetry. apply total_delete. by apply live_buf.
Qed.

(** Releasing a reference; the last one returns the buffer to the pool. *)
Lemma Decr_eff s zl tl fr refs a :
  core s zl tl fr (a :: refs) ->
  exists s', CFE_SB_DecrBufUseCnt a s = Some (tt, s') /\ buffers_only s s'
    /\ ((In a refs /\ core s' zl tl fr refs
          /\ exists d, bufs s !! a = Some d
               /\ bufs s' = <[a := set_UseCount d (UseCount d - 1)]> (bufs s))
        \/ (~ In a refs /\ core s' (without a zl) (without a tl) (without a fr) refs
             /\ bufs s' = delete a (bufs s))).
Proof using HP.
  intros Hc. destruct (co_refs _ _ _ _ _ Hc a (or_introl eq_refl)) as [d Hd].
  destruct (co_count _ _ _ _ _ Hc a d Hd) as [Hn Hn1].
  unfold CFE_SB_DecrBufUseCnt. rewrite (bind_load_buf _ _ _ _ Hd), (proj2 (Z.ltb_lt _ _)) by lia.
  rewrite bind_store_buf by (by rewrite Hd). erewrite bind_load_buf by (sb_simpl; apply lookup_insert_eq).
  cbn [UseCount set_UseCount]. destruct (Z.eqb_spec (UseCount d - 1) 0) as [E|E].
  - set (s1 := set_bufs _ s).
    assert (Hin : In a (zl ++ tl ++ fr)) by (apply Hc; by rewrite Hd).
    destruct (Remove_tracked s1 zl tl fr a) as (L' & HR & Ht); [apply Hc|done|].
    unfold CFE_SB_ReturnBufferToPool. rewrite (bind_run _ _ _ _ _ HR).
    destruct (lower_stat_run SBBuffersInUse 1 (set_links L' s1)) as (t1 & H1 & Ht1 & Ho1).
    rewrite (bind_run _ _ _ _ _ H1).
    erewrite bind_load_buf by (sb_simpl; apply lookup_insert_eq). cbn [AllocatedSize set_UseCount].
    destruct (lower_stat_run MemInUse (AllocatedSize d) (set_StatTlm t1 (set_links L' s1))) as (t2 & H2 & Ht2 & Ho2).
    rewrite (bind_run _ _ _ _ _ H2), bind_gets. subst s1. sb_simpl.
    destruct (pool_put_spec (pool s) (live s) a (AllocatedSize d)) as (p' & Hput & Hrep);
      [apply Hc|by apply live_buf|]. rewrite Hput, bind_modify, bind_modify. unfold modify.
    eexists. split; [reflexivity|].
    split; [split; [done|split_and!; try done; sb_simpl; by rewrite Ho2, Ho1]|]. right.
    assert (Hna : ~ In a refs).
    { rewrite (count_occ_not_In Z.eq_dec). cbn in Hn. destruct (Z.eq_dec a a); [lia|done]. }
    split; [done|]. split; [|sb_simpl; by rewrite delete_insert_eq].
    apply (core_drop s _ L' p' zl tl fr refs a d); sb_simpl; try done.
    + lia.
    + by rewrite delete_insert_eq.
    + rewrite Ho2, Ht1 by done. done.
    + rewrite Ht2, Ho1 by done. done.
  - eexists. split; [reflexivity|]. split; [done|]. left. cbn in Hn. destruct (Z.eq_dec a a); [|done].
    split; [|split; [|by exists d]].
    + rewrite (count_occ_In Z.eq_dec). lia.
    + apply (core_recount s zl tl fr (a :: refs) refs a d); try done; cbn; [lia..|].
      intros b Hb. destruct (Z.eq_dec a b); congruence.
Qed.

(** *** New buffers *)

(** A descriptor as [CFE_SB_GetBufferFromPool] leaves it. *)
Definition fresh_buf (n : Z) : BufferD := mkBufferD CFE_SB_INVALID_MSG_ID 0 n 0 0 false 1 stale_content.

Lemma tracked_new L zl tl fr a :
  tracked L zl tl fr -> L !! a = None -> tracked (<[a := mkLink a a]> L) zl tl (a :: fr).
Proof using.
  intros Ht Ha.
  assert (Hn : ~ In a (ZeroCopyList :: InTransitList :: zl ++ tl ++ fr)).
  { rewrite <- (tr_dom _ _ _ _ Ht), Ha. by intros []. }
  assert (Hp : zl ++ tl ++ a :: fr ≡ₚ a :: zl ++ tl ++ fr).
  { by rewrite app_assoc, <- Permutation_middle, <- app_assoc. }
  assert (Hne : forall y, In y (ZeroCopyList :: InTransitList :: zl ++ tl ++ fr) -> a <> y) by congruence.
  cbn [In] in Hne. setoid_rewrite in_app_iff in Hne. setoid_rewrite in_app_iff in Hne.
  split.
  - apply (ring_frame L); [|apply Ht]. intros y Hy. cbn in Hy. apply lookup_insert_ne, Hne. tauto.
  - apply (ring_frame L); [|apply Ht]. intros y Hy. cbn in Hy. apply lookup_insert_ne, Hne. tauto.
  - intros y [<-|Hy]; [apply lookup_insert_eq|]. rewrite lookup_insert_ne by (apply Hne; tauto). by apply Ht.
  - rewrite Hp. pose proof (tr_nodup _ _ _ _ Ht) as Hnd. rewrite !NoDup_cons_In in *. cbn [In] in *. 
    intuition congruence.
  - intros y. rewrite lookup_insert_is_Some', (tr_dom _ _ _ _ Ht). cbn [In]. rewrite Hp. cbn [In]. tauto.
Qed.

Lemma core_new s s' zl tl fr refs a n p' :
  core s zl tl fr refs -> live s !! a = None -> 2 < a < 2 ^ 63 -> pool_rep p' (<[a := n]> (live s)) ->
  pool s' = p' -> bufs s' = <[a := fresh_buf n]> (bufs s) -> links s' = <[a := mkLink a a]> (links s) ->
  dests s' = dests s -> StatTlm s' SBBuffersInUse = u32 (StatTlm s SBBuffersInUse + 1) ->
  StatTlm s' MemInUse = u32 (StatTlm s MemInUse + n) ->
  core s' zl tl (a :: fr) (a :: refs).
Proof using.
  intros Hc Ha Haddr Hp Ep Eb El Ed Es Em. destruct (proj1 (live_none s a) Ha) as [Hba Hda].
  assert (Hlive : live s' = <[a := n]> (live s)).
  { change n with (AllocatedSize (fresh_buf n)). rewrite <- live_insert_buf. unfold live. sb_simpl. by rewrite Eb, Ed. }
  assert (Hla : links s !! a = None).
  { apply eq_None_not_Some. rewrite (tr_dom _ _ _ _ (co_tracked _ _ _ _ _ Hc)). cbn [In].
    rewrite <- (co_dom _ _ _ _ _ Hc), Hba. unfold ZeroCopyList, InTransitList. intros [?|[?|[]]]; [lia..|done]. }
  assert (Hrefs : ~ In a refs) by (intros Hin%(co_refs _ _ _ _ _ Hc); rewrite Hba in Hin; by destruct Hin).
  split; rewrite ?Hlive, ?Ep, ?Eb, ?El, ?Ed; try done.
  - apply tracked_new; [apply Hc|done].
  - intros b. rewrite lookup_insert_is_Some', (co_dom _ _ _ _ _ Hc), !in_app_iff. cbn [In]. tauto.
  - intros b e. destruct (decide (a = b)) as [<-|Hne].
    + rewrite lookup_insert_eq. intros [= <-]. cbn. destruct (Z.eq_dec a a); [|done].
      rewrite (count_occ_not_In Z.eq_dec) in Hrefs. rewrite Hrefs. done.
    + rewrite lookup_insert_ne by done. cbn. destruct (Z.eq_dec a b); [done|]. apply Hc.
  - intros b [<-|Hb]; rewrite lookup_insert_is_Some'; [by left|right]. by apply (co_refs _ _ _ _ _ Hc).
  - intros b. rewrite lookup_insert_is_Some'. intros [<-|Hb]; [done|]. by apply (co_disjoint _ _ _ _ _ Hc).
  - intros b. rewrite lookup_insert_is_Some'. intros [<-|Hb]; [done|]. by apply (co_addr _ _ _ _ _ Hc).
  - rewrite Es, (co_buffers _ _ _ _ _ Hc), u32_add_l. f_equal. rewrite map_size_insert_None by done. lia.
  - rewrite Em, (co_memory _ _ _ _ _ Hc), u32_add_l. f_equal. rewrite total_insert by done. lia.
Qed.

Lemma GetBuffer_eff s zl tl fr refs size :
  core s zl tl fr refs -> 0 <= size <= CFE_MISSION_SB_MAX_SB_MSG_SIZE ->
  let n := size + CFE_SB_BUFFERD_CONTENT_OFFSET in
  exists a s', CFE_SB_GetBufferFromPool size s = Some (a, s') /\ buffers_only s s'
    /\ ((a = NULL /\ core s' zl tl fr refs /\ bufs s' = bufs s)
        \/ (a <> NULL /\ bufs s !! a = None /\ core s' zl tl (a :: fr) (a :: refs)
             /\ bufs s' = <[a := fresh_buf n]> (bufs s))).
Proof using HP HM.
  intros Hc Hsz n. pose proof offset_range. pose proof max_size_range.
  unfold CFE_SB_GetBufferFromPool. rewrite u64_id by range. fold n. rewrite bind_gets.
  destruct (pool_get_spec (pool s) (live s) n) as (stat & a & p' & -> & Hcase); [apply Hc|lia|].
  rewrite bind_modify. destruct Hcase as [[Hneg Hrep]|(-> & Haddr & Ha & Hrep)].
  - rewrite (proj2 (Z.ltb_lt _ _)) by done. eexists _, _. split; [reflexivity|]. split; [done|]. left.
    split; [done|]. split; [|done]. destruct Hc. by split.
  - rewrite (proj2 (Z.ltb_ge _ _)) by lia.
    destruct (raise_stat_run SBBuffersInUse PeakSBBuffersInUse 1 (set_pool p' s)) as (t1 & R1 & Ht1 & Ho1); [done|].
    rewrite (bind_run _ _ _ _ _ R1).
    destruct (raise_stat_run MemInUse PeakMemInUse n (set_StatTlm t1 (set_pool p' s))) as (t2 & R2 & Ht2 & Ho2); [done|].
    rewrite (bind_run _ _ _ _ _ R2), bind_modify, bind_modify.
    rewrite bind_store_buf by (sb_simpl; by rewrite lookup_insert_eq). unfold CFE_SB_TrackingListReset.
    rewrite bind_store_link by (sb_simpl; by rewrite lookup_insert_eq).
    eexists a, _. split; [reflexivity|].
    split; [split; [done|split_and!; try done; sb_simpl; by rewrite Ho2, Ho1]|]. right.
    split; [unfold NULL; lia|]. split; [by apply live_none in Ha as [? _]|]. sb_simpl.
    split; [|by rewrite insert_insert_eq].
    apply (core_new s _ zl tl fr refs a n p'); sb_simpl; try done.
    + by rewrite insert_insert_eq.
    + by rewrite insert_insert_eq.
    + by rewrite Ho2, Ht1.
    + by rewrite Ht2, Ho1.
Qed.

(** *** Destination descriptors *)

Lemma live_insert_dest s a d :
  bufs s !! a = None -> live (set_dests (<[a := d]> (dests s)) s) = <[a := sizeof_DestinationD]> (live s).
Proof using.
  intros Hb. unfold live. sb_simpl. rewrite fmap_insert, insert_union_r; [done|]. by rewrite lookup_fmap, Hb.
Qed.

Lemma live_delete_dest s a : bufs s !! a = None -> live (set_dests (delete a (dests s)) s) = delete a (live s).
Proof using.
  intros Hb. unfold live. sb_simpl. rewrite fmap_delete, delete_union. f_equal.
  symmetry. apply delete_id. by rewrite lookup_fmap, Hb.
Qed.

Lemma dest_not_buf s zl tl fr refs a : core s zl tl fr refs -> is_Some (dests s !! a) -> bufs s !! a = None.
Proof using.
  intros Hc Hd. destruct (bufs s !! a) eqn:E; [|done].
  rewrite (co_disjoint _ _ _ _ _ Hc a) in Hd by (by rewrite E). by destruct Hd.
Qed.

Lemma core_store_dest s zl tl fr refs a d :
  core s zl tl fr refs -> is_Some (dests s !! a) -> core (set_dests (<[a := d]> (dests s)) s) zl tl fr refs.
Proof using.
  intros Hc Hd. pose proof (dest_not_buf _ _ _ _ _ _ Hc Hd) as Hb.
  assert (El : live (set_dests (<[a := d]> (dests s)) s) = live s).
  { rewrite live_insert_dest by done. apply insert_id. destruct Hd as [? Hd]. by eapply live_dest. }
  destruct Hc. split; rewrite ?El; sb_simpl; try done.
  intros b Hbb. rewrite lookup_insert_ne; [auto|]. intros <-. rewrite Hb in Hbb. by destruct Hbb.
Qed.

Lemma GetDest_eff s zl tl fr refs :
  core s zl tl fr refs ->
  exists a s', CFE_SB_GetDestinationBlk s = Some (a, s') /\ core s' zl tl fr refs
    /\ same_tables s s' /\ HKTlm s' = HKTlm s /\ bufs s' = bufs s /\ links s' = links s
    /\ StatTlm s' SubscriptionsInUse = StatTlm s SubscriptionsInUse
    /\ ((a = NULL /\ dests s' = dests s)
        \/ (a <> NULL /\ dests s !! a = None /\ dests s' = <[a := stale_dest]> (dests s))).
Proof using HP HM.
  intros Hc. pose proof dest_size_range. unfold CFE_SB_GetDestinationBlk. rewrite bind_gets.
  destruct (pool_get_spec (pool s) (live s) sizeof_DestinationD) as (stat & a & p' & -> & Hcase);
    [apply Hc|lia|]. rewrite bind_modify. destruct Hcase as [[Hneg Hrep]|(-> & Haddr & Ha & Hrep)].
  - rewrite (proj2 (Z.ltb_lt _ _)) by done. eexists _, _. split; [reflexivity|].
    split; [destruct Hc; by split|]. split; [done|]. split_and!; try done. by left.
  - rewrite (proj2 (Z.ltb_ge _ _)) by lia.
    destruct (raise_stat_run MemInUse PeakMemInUse sizeof_DestinationD (set_pool p' s)) as (t & R1 & Ht & Ho); [done|].
    rewrite (bind_run _ _ _ _ _ R1), bind_modify. eexists a, _. split; [reflexivity|].
    apply live_none in Ha as Hn. destruct Hn as [Hb Hd]. sb_simpl.
    split; [|split; [done|split_and!; try done; [by rewrite Ho|right; split; [unfold NULL; lia|done]]]].
    assert (El : live (set_dests (<[a := stale_dest]> (dests s)) s) = <[a := sizeof_DestinationD]> (live s))
      by (by apply live_insert_dest). unfold live in El. sb_simpl.
    destruct Hc. split; unfold live; sb_simpl; rewrite ?El; try done.
    + intros b Hbb. rewrite lookup_insert_ne; [auto|]. intros <-. rewrite Hb in Hbb. by destruct Hbb.
    + intros b. rewrite lookup_insert_is_Some'. intros [<-|?]; [done|]. auto.
    + by rewrite Ho.
    + rewrite Ht, co_memory0, u32_add_l. f_equal. rewrite total_insert by done. unfold live. lia.
Qed.

Lemma PutDest_eff s zl tl fr refs a :
  core s zl tl fr refs -> is_Some (dests s !! a) ->
  exists s', CFE_SB_PutDestinationBlk a s = Some (CFE_SUCCESS, s') /\ core s' zl tl fr refs
    /\ same_tables s s' /\ HKTlm s' = HKTlm s /\ bufs s' = bufs s /\ links s' = links s
    /\ dests s' = delete a (dests s)
    /\ StatTlm s' SubscriptionsInUse = StatTlm s SubscriptionsInUse.
Proof using HP HM.
  intros Hc Hd. pose proof dest_size_range. pose proof (dest_not_buf _ _ _ _ _ _ Hc Hd) as Hb.
  destruct Hd as [d Hd]. pose proof (live_dest s a d Hb Hd) as Hl.
  pose proof (co_addr _ _ _ _ _ Hc a ltac:(by rewrite Hl)) as Haddr.
  unfold CFE_SB_PutDestinationBlk. rewrite (proj2 (Z.eqb_neq a NULL)) by (unfold NULL; lia). rewrite bind_gets.
  destruct (pool_put_spec (pool s) (live s) a sizeof_DestinationD) as (p' & -> & Hrep); [apply Hc|done|].
  rewrite bind_modify, bind_modify, (proj2 (Z.ltb_lt _ _)) by lia.
  destruct (lower_stat_run MemInUse sizeof_DestinationD
              (set_dests (delete a (dests (set_pool p' s))) (set_pool p' s))) as (t & R1 & Ht & Ho).
  rewrite (bind_run _ _ _ _ _ R1). eexists. split; [reflexivity|]. sb_simpl.
  split; [|split; [done|split_and!; try done; by rewrite Ho]].
  pose proof (live_delete_dest s a Hb) as El. unfold live in El. sb_simpl.
  destruct Hc. split; unfold live; sb_simpl; rewrite ?El; try done.
  - intros b Hbb. apply lookup_delete_None. right. auto.
  - intros b [_ ?]%lookup_delete_is_Some. auto.
  - by rewrite Ho.
  - rewrite Ht, co_memory0, u32_sub_l. f_equal. symmetry. by apply total_delete.
Qed.
End core.
