(* ===== verification/SbPool.v ===== *)
(** * The software bus on top of the memory pools of Executive Services

    The pool that [CFE_SB_InitBuffers] creates is one of the memory pools of
    [MemPool]: here [CFE_ES_GetPoolBuf] and [CFE_ES_PutPoolBuf] on its handle are
    an instance of [PoolBuf], and the theorems on the generic pool discharge
    [PoolBufLaws].  What is proved of the software bus for any pool thus holds
    for the pool of the repository. *)

From S2P Require Import Prelude ResourceId GenPool GenPoolInit GenPoolProofs DirectStorage GenPoolOps GenPoolTheorems MemPool SbRoute SbModel SbLists SbInv.

(** The table of pools and the handle. *)
Record sb_pool := mkSbPool { sp_es : es_pools; sp_hdl : Z }.

#[export] Instance es_pool_buf : PoolBuf sb_pool := {
  pool_get p n :=
    let '(rc, out, es') := CFE_ES_GetPoolBuf true (sp_hdl p) n (sp_es p) in
    (rc, default 0 out, mkSbPool es' (sp_hdl p));
  pool_put p a :=
    let '(rc, es') := CFE_ES_PutPoolBuf (sp_hdl p) a (sp_es p) in (rc, mkSbPool es' (sp_hdl p))
}.

(** ** Offsets of used blocks are distinct *)

Lemma NoDup_by_split {A B} (f : A -> B) l :
  (forall l1 x l2, l = l1 ++ x :: l2 -> ~ In (f x) (map f (l1 ++ l2))) -> NoDup (map f l).
Proof.
  induction l as [|y l IH]; intros Hs; [constructor|]. cbn [map]. apply NoDup_cons_In. split.
  - by apply (Hs [] y l).
  - apply IH. intros l1 x l2 -> Hin. apply (Hs (y :: l1) x l2 eq_refl). by right.
Qed.

Lemma NoDup_map_filter {A B} (f : A -> B) (p : A -> bool) l :
  NoDup (map f l) -> NoDup (map f (List.filter p l)).
Proof.
  induction l as [|y l IH]; [done|]. cbn. intros [Hn Hl]%NoDup_cons_In. destruct (p y); [|auto].
  cbn [map]. apply NoDup_cons_In. split; [|auto]. intros (x & E & Hx)%in_map_iff.
  apply List.filter_In in Hx as [Hx _]. apply Hn, in_map_iff. by exists x.
Qed.

Section pool.
Context {M : Type} `{HS : StorageLaws M}.

Lemma used_offsets k start P (m : M) A : rep k start P m A -> NoDup (map fst (used_blocks A)).
Proof using.
  intros HR. unfold used_blocks. rewrite map_map. cbn.
  apply NoDup_map_filter, NoDup_by_split. intros l1 x l2 HE (y & E & Hy)%in_map_iff.
  destruct (rep_apart k start P m A l1 x l2 y HR HE Hy); change DESC with 24 in *; lia.
Qed.

Lemma used_bounds k start P (m : M) A o n :
  rep k start P m A -> In (o, n) (used_blocks A) -> start + DESC <= o < PoolMaxOffset P.
Proof using.
  intros HR Hin. destruct (held_block A o n Hin) as (l1 & blk & l2 & HE & <- & _).
  assert (Hb : In blk (a_blocks A)) by (rewrite HE; apply in_swap; by left).
  pose proof (rep_bounds _ _ _ _ _ _ HR Hb). pose proof (r_region _ _ _ _ _ HR). lia.
Qed.

(** A request, in terms of the used blocks. *)
Lemma GetBlock_used k start P (m : M) A req :
  rep k start P m A -> 0 < req -> Forall (fun x => 0 < snd x) (used_blocks A) ->
  exists rc out P' m' A', CFE_ES_GenPoolGetBlock P req m = (rc, out, P', m') /\ rep k start P' m' A'
    /\ match out with
       | None => rc = CFE_ES_ERR_MEM_BLOCK_SIZE /\ used_blocks A' ≡ₚ used_blocks A
       | Some o => rc = CFE_SUCCESS /\ used_blocks A' ≡ₚ (o, req) :: used_blocks A
       end.
Proof using.
  intros HR Hreq Hpos.
  destruct (GetBlock_eff k start P m A req HR ltac:(lia)) as (rc & out & P' & m' & A1 & E & Hspec & _).
  destruct (inv_get k start P m (used_blocks A) req rc out P' m') as (A' & HR' & Hp & _); [by exists A|done..|].
  cbn in *. exists rc, out, P', m', A'. split_and!; [done..|].
  inversion Hspec; subst; cbn [hold] in Hp; by rewrite <- Hp.
Qed.
End pool.

(** ** The laws *)

(** The blocks handed out, with the address of their data. *)
Definition backs (p : sb_pool) (lv : gmap Z Z) : Prop :=
  exists i k A, MemPool.live (sp_es p) (sp_hdl p) i k A
    /\ let r := zget (MemPoolTable (sp_es p)) i in
       2 < BaseAddr r /\ BaseAddr r + PoolMaxOffset (MemPool.Pool r) < 2 ^ 63
    /\ Forall (fun x => 0 < snd x < 2 ^ 31) (used_blocks A)
    /\ forall a n, lv !! a = Some n <-> In (a - BaseAddr r, n) (used_blocks A).

Lemma positive_used (l : list (Z * Z)) :
  Forall (fun x => 0 < snd x < 2 ^ 31) l -> Forall (fun x => 0 < snd x) l.
Proof. intros Hl. eapply List.Forall_impl; [|exact Hl]. cbn. intros. lia. Qed.

(** The record of the pool after an operation. *)
Lemma record_after es h i k A P d :
  MemPool.live es h i k A -> d_base d = BaseAddr (zget (MemPoolTable es) i) ->
  let r := zget (MemPoolTable (set_pool_mem es i P d)) i in
  BaseAddr r = BaseAddr (zget (MemPoolTable es) i) /\ MemPool.Pool r = P.
Proof. intros HL Ed r. unfold r, set_pool_mem. cbn [MemPoolTable]. rewrite zget_zset_eq by apply HL. done. Qed.

Lemma s32_small n : 0 <= n < 2 ^ 31 -> s32 n = n.
Proof. intros Hn. unfold s32. rewrite u32_id by range. destruct (Z.ltb_spec n (2 ^ 31)); [done|lia]. Qed.

Lemma es_get_spec p lv n :
  backs p lv -> 0 < n < 2 ^ 31 ->
  exists stat a p', pool_get p n = (stat, a, p')
    /\ ((stat < 0 /\ backs p' lv)
        \/ (stat = n /\ 2 < a < 2 ^ 63 /\ lv !! a = None /\ backs p' (<[a := n]> lv))).
Proof.
  intros (i & k & A & HL & Hb & Ht & Hpos & Hlv) Hn. destruct p as [es h]. cbn [sp_es sp_hdl] in *.
  pose proof (lv_rep _ _ _ _ _ HL) as HR. set (r := zget (MemPoolTable es) i) in *.
  destruct (GetBlock_used k 0 (MemPool.Pool r) (storage_of es i) A n HR ltac:(lia) (positive_used _ Hpos))
    as (rc & out & P' & d' & A' & E & HR' & Hout).
  destruct (get_keeps _ _ _ _ _ _ _ E) as [Em Ed].
  pose proof (live_update es h i k A P' d' A' HL HR' Em Ed) as HL'.
  destruct (record_after es h i k A P' d' HL Ed) as [Eb EP]. fold r in Eb.
  cbn [pool_get es_pool_buf sp_es sp_hdl]. unfold CFE_ES_GetPoolBuf. cbn [negb].
  rewrite (lv_locate _ _ _ _ _ HL), (live_match _ _ _ _ _ HL). fold r. rewrite E.
  destruct out as [o|]; destruct Hout as [-> Hp].
  - change (negb (CFE_SUCCESS =? CFE_SUCCESS)) with false. cbn iota. rewrite s32_small by lia.
    assert (Hin : In (o, n) (used_blocks A')) by (rewrite Hp; by left).
    pose proof (used_bounds k 0 P' d' A' o n HR' Hin) as Hbo. rewrite Em in Hbo. change DESC with 24 in Hbo.
    pose proof (used_offsets k 0 P' d' A' HR') as Hnd. rewrite Hp in Hnd. cbn [map fst] in Hnd.
    apply NoDup_cons_In in Hnd as [Hnew _].
    eexists n, _, _. split; [reflexivity|]. cbn [default from_option]. unfold id. rewrite u64_id by range. right.
    assert (Hnone : lv !! (BaseAddr r + o) = None).
    { destruct (lv !! (BaseAddr r + o)) as [n'|] eqn:Ex; [|done]. apply Hlv in Ex. exfalso. apply Hnew, in_map_iff.
      exists (o, n'). split; [done|]. by replace o with (BaseAddr r + o - BaseAddr r) by lia. }
    split; [done|]. split; [lia|]. split; [done|]. exists i, k, A'. cbn [sp_es sp_hdl]. rewrite Eb, EP, Em. split_and!; try done.
    + rewrite Hp. by constructor.
    + intros a m. rewrite Hp. cbn [In]. destruct (decide (BaseAddr r + o = a)) as [<-|Hne].
      * rewrite lookup_insert_eq. replace (BaseAddr r + o - BaseAddr r) with o by lia. split; [intros [= ->]; by left|].
        intros [[= ->]|Hin']; [done|]. exfalso. apply Hnew, in_map_iff. by exists (o, m).
      * rewrite lookup_insert_ne, Hlv by done. split; [auto|]. intros [[= ? ?]|?]; [lia|done].
  - change (negb (CFE_ES_ERR_MEM_BLOCK_SIZE =? CFE_SUCCESS)) with true. cbn iota.
    eexists _, _, _. split; [reflexivity|]. left. split; [done|]. exists i, k, A'. cbn [sp_es sp_hdl].
    rewrite Eb, EP, Em. split_and!; try done; [by rewrite Hp|]. intros a m. by rewrite Hp.
Qed.

Lemma es_put_spec p lv a n :
  backs p lv -> lv !! a = Some n -> exists p', pool_put p a = (n, p') /\ backs p' (delete a lv).
Proof.
  intros (i & k & A & HL & Hb & Ht & Hpos & Hlv) Ha. destruct p as [es h]. cbn [sp_es sp_hdl] in *.
  pose proof (lv_rep _ _ _ _ _ HL) as HR. set (r := zget (MemPoolTable es) i) in *.
  pose proof (proj1 (Hlv a n) Ha) as Hin. pose proof Hpos as Hpos'. rewrite List.Forall_forall in Hpos'.
  pose proof (Hpos' _ Hin) as Hn. cbn in Hn.
  pose proof (used_bounds _ _ _ _ _ _ _ HR Hin) as Hbo. change DESC with 24 in Hbo.
  destruct (put_held k 0 _ _ A (a - BaseAddr r) n HR Hin ltac:(lia)) as (P' & d' & A' & E & HR' & Hp).
  destruct (put_keeps _ _ _ _ _ _ _ E) as [Em Ed].
  pose proof (live_update es h i k A P' d' A' HL HR' Em Ed) as HL'.
  destruct (record_after es h i k A P' d' HL Ed) as [Eb EP]. fold r in Eb.
  cbn [pool_put es_pool_buf sp_es sp_hdl]. unfold CFE_ES_PutPoolBuf.
  rewrite (proj2 (Z.eqb_neq a 0)) by lia. rewrite (lv_locate _ _ _ _ _ HL), (live_match _ _ _ _ _ HL). fold r.
  rewrite u64_id by range. rewrite E. change (CFE_SUCCESS =? CFE_SUCCESS) with true. cbn iota. rewrite s32_small by lia.
  eexists. split; [reflexivity|]. exists i, k, A'. cbn [sp_es sp_hdl]. rewrite Eb, EP, Em.
  pose proof (used_offsets _ _ _ _ _ HR) as Hnd. rewrite Hp in Hnd, Hpos. cbn [map fst] in Hnd.
  apply NoDup_cons_In in Hnd as [Hnew _]. apply Forall_cons in Hpos as [_ Hpos]. split_and!; try done.
  intros b m. rewrite lookup_delete_Some, Hlv, Hp. cbn [In]. split.
  - intros [Hne [[= ? ?]|?]]; [lia|done].
  - intros Hm. split; [|auto]. intros <-. apply Hnew, in_map_iff. by exists (a - BaseAddr r, m).
Qed.

#[export] Instance es_pool_laws : PoolBufLaws sb_pool := {
  pool_rep := backs;
  pool_get_spec := es_get_spec;
  pool_put_spec := es_put_spec
}.

(** A pool that has just been created hands out nothing yet. *)
Lemma created_backs es h i k :
  MemPool.live es h i k empty_pool ->
  2 < BaseAddr (zget (MemPoolTable es) i) ->
  BaseAddr (zget (MemPoolTable es) i) + PoolMaxOffset (MemPool.Pool (zget (MemPoolTable es) i)) < 2 ^ 63 ->
  backs (mkSbPool es h) ∅.
Proof.
  intros HL H1 H2. exists i, k, empty_pool. cbn [sp_es sp_hdl]. 
  split; [done|]. split; [done|]. split; [done|]. split; [constructor|]. intros a n. rewrite lookup_empty. split; [done|]. intros [].
Qed.
