(* ===== verification/SbDests.v ===== *)
(** * The software bus: destination lists and subscriptions

    The doubly linked destination list of every route, as a list of addresses;
    what the list routines of [cfe_sb_priv.c] do to it; and the invariant that
    ties the lists to the route table, to the descriptors taken from the pool and
    to the pipes: no destination is in two lists, no pipe is twice in a list, no
    list is longer than the configured limit, and every destination names an
    existing pipe. *)

From S2P Require Import Prelude ResourceId SbRoute SbRouteProofs SbRouteTheorems SbModel SbApi SbLists SbInv.

(** ** The shape of a list *)

Abbreviation dest_map := (gmap Z CFE_SB_DestinationD_t).

(** The nodes [l], entered at [h] from [p], the last node being [q] and its
    successor [t]. *)
Fixpoint dseg (D : dest_map) (p h : Z) (l : list Z) (q t : Z) : Prop :=
  match l with
  | [] => h = t /\ p = q
  | a :: l' => h = a /\ a <> NULL
               /\ exists d, D !! a = Some d /\ dest_Prev d = p /\ dseg D a (dest_Next d) l' q t
  end.

Definition dlist (D : dest_map) (h : Z) (l : list Z) : Prop := exists q, dseg D NULL h l q NULL.

Lemma dseg_cons D p h a l q t :
  dseg D p h (a :: l) q t
  <-> h = a /\ a <> NULL /\ exists d, D !! a = Some d /\ dest_Prev d = p /\ dseg D a (dest_Next d) l q t.
Proof. done. Qed.

Lemma dseg_app D p h l1 l2 q t :
  dseg D p h (l1 ++ l2) q t <-> exists q1 t1, dseg D p h l1 q1 t1 /\ dseg D q1 t1 l2 q t.
Proof.
  revert p h. induction l1 as [|a l1 IH]; intros p h; cbn.
  - split; [intros Hs; by exists p, h|]. by intros (? & ? & [-> ->] & ?).
  - split.
    + intros (-> & Ha & d & Hd & Hp & (q1 & t1 & H1 & H2)%IH). exists q1, t1. split; [|done].
      split; [done|]. split; [done|]. by exists d.
    + intros (q1 & t1 & (-> & Ha & d & Hd & Hp & H1) & H2). split; [done|]. split; [done|].
      exists d. split_and!; [done..|]. apply IH. by exists q1, t1.
Qed.

(** Only the link fields of the nodes matter. *)
Definition dshape (d : CFE_SB_DestinationD_t) : Z * Z * Z := (dest_PipeId d, dest_Prev d, dest_Next d).

Lemma dseg_frame D D' p h l q t :
  (forall a, In a l -> dshape <$> D' !! a = dshape <$> D !! a) -> dseg D p h l q t -> dseg D' p h l q t.
Proof.
  revert p h. induction l as [|a l IH]; intros p h Ha; cbn; [done|].
  intros (-> & Hn & d & Hd & Hp & Hs). split_and!; [done..|].
  pose proof (Ha a (or_introl eq_refl)) as E. rewrite Hd in E. destruct (D' !! a) as [d'|]; [|done].
  unfold dshape in E. cbn in E. injection E as E1 E2 E3. exists d'. split_and!; [done|congruence|].
  rewrite E3. apply IH; [|done]. intros b Hb. apply Ha. by right.
Qed.

Lemma dseg_nodes D p h l q t a : dseg D p h l q t -> In a l -> is_Some (D !! a) /\ a <> NULL.
Proof.
  revert p h. induction l as [|b l IH]; intros p h; cbn; [done|].
  intros (-> & Hn & d & Hd & _ & Hs) [<-|Hin]; [by rewrite Hd|]. eauto.
Qed.

(** The last node of a segment that is not empty, and a new successor for it. *)
Lemma dseg_last D p h l q t : dseg D p h l q t -> l <> [] -> exists l', l = l' ++ [q].
Proof.
  revert p h. induction l as [|a l IH]; intros p h; [done|]. cbn. intros (-> & _ & d & _ & _ & Hs) _.
  destruct l as [|b l]; [cbn in Hs; destruct Hs as [_ ->]; by exists []|].
  destruct (IH _ _ Hs) as [l' El]; [done|]. exists (a :: l'). by rewrite El.
Qed.

Lemma dseg_set_next D p h l q t dq t' :
  dseg D p h l q t -> l <> [] -> NoDup l -> D !! q = Some dq ->
  dseg (<[q := dest_set_Next dq t']> D) p h l q t'.
Proof.
  intros Hs Hl Hnd Hq. destruct (dseg_last _ _ _ _ _ _ Hs Hl) as [l' ->].
  apply dseg_app in Hs as (q1 & t1 & H1 & H2). apply dseg_app. exists q1, t1. split.
  - apply NoDup_app_In in Hnd as (_ & Hd & _). apply (dseg_frame D); [|done].
    intros a Ha. rewrite lookup_insert_ne; [done|]. intros <-. apply (Hd q Ha). by left.
  - cbn in H2. destruct H2 as (-> & Hn & d & Hd & Hp & _ & _). rewrite Hq in Hd. injection Hd as <-.
    cbn. split_and!; [done..|]. exists (dest_set_Next dq t'). rewrite lookup_insert_eq. by split_and!.
Qed.

Lemma dseg_set_prev D p h l q t dh p' :
  dseg D p h l q t -> l <> [] -> NoDup l -> D !! h = Some dh ->
  dseg (<[h := dest_set_Prev dh p']> D) p' h l q t.
Proof.
  destruct l as [|a l]; [done|]. cbn. intros (-> & Hn & d & Hd & Hp & Hs) _ Hnd Hh.
  rewrite Hh in Hd. injection Hd as <-. split_and!; [done..|]. exists (dest_set_Prev dh p').
  rewrite lookup_insert_eq. split_and!; [done..|]. cbn. apply (dseg_frame D); [|done].
  apply NoDup_cons_In in Hnd as [Ha _]. intros b Hb. rewrite lookup_insert_ne; [done|]. by intros <-.
Qed.

(** A node that is taken out: its neighbours, and the list without it. *)
Lemma dseg_middle D h l1 x l2 :
  dlist D h (l1 ++ x :: l2) ->
  exists d q, D !! x = Some d /\ x <> NULL /\ dseg D NULL h l1 (dest_Prev d) x
    /\ dseg D x (dest_Next d) l2 q NULL.
Proof.
  intros (q & (q1 & t1 & H1 & H2)%dseg_app). cbn in H2. destruct H2 as (-> & Hn & d & Hd & <- & H2).
  by exists d, q.
Qed.


(** ** List heads *)

Section heads.
Context {M : Type} `{HM : RouteMapLaws M}.
Implicit Types r : sbr_state M.

Definition head_at r (i : Z) : Z := ListHeadPtr (zget (RoutingTbl r) i).

Lemma route_valid i : 0 <= i < 256 -> CFE_SBR_IsValidRouteId (i + 1) = true.
Proof using. intros. apply valid_route_iff; lia. Qed.

Lemma GetHead_at r i : 0 <= i < 256 -> CFE_SBR_GetDestListHeadPtr r (i + 1) = head_at r i.
Proof using.
  intros Hi. unfold CFE_SBR_GetDestListHeadPtr, head_at. rewrite route_valid, route_value by lia.
  do 2 f_equal. lia.
Qed.

Lemma SetHead_at r i j a :
  zlen (RoutingTbl r) = 256 -> 0 <= i < 256 -> 0 <= j < 256 ->
  head_at (CFE_SBR_SetDestListHeadPtr r (i + 1) a) j = if i =? j then a else head_at r j.
Proof using.
  intros Hl Hi Hj. unfold CFE_SBR_SetDestListHeadPtr, update_route, head_at.
  rewrite route_valid, route_value by lia. cbn [RoutingTbl]. replace (i + 1 - 1) with i by lia.
  rewrite zget_zset by lia. by case_test.
Qed.

Lemma SetHead_same r i : zlen (RoutingTbl r) = 256 -> 0 <= i < 256 ->
  CFE_SBR_SetDestListHeadPtr r (i + 1) (head_at r i) = r.
Proof using.
  intros Hl Hi. unfold CFE_SBR_SetDestListHeadPtr, update_route, head_at.
  rewrite route_valid, route_value by lia. replace (i + 1 - 1) with i by lia.
  replace (mkRouteEntry _ _ _) with (zget (RoutingTbl r) i) by (by destruct (zget (RoutingTbl r) i)).
  rewrite zset_zget by lia. by destruct r.
Qed.
End heads.

(** ** The list routines *)

Section lists.
Context {P M Msg : Type} `{HMap : RouteMapLaws M}.
Implicit Types s : sb P M Msg.

Lemma bind_list_head {B} i (k : Z -> SB B) s :
  0 <= i < 256 -> bind (list_head (i + 1)) k s = k (head_at (routes s) i) s.
Proof using. intros. unfold list_head. by rewrite bind_gets, GetHead_at. Qed.

(** Finding the destination of a pipe. *)
Lemma GetDestPtr_loop_eff s fuel p h l q id :
  dseg (dests s) p h l q NULL -> (length l < fuel)%nat ->
  exists r, GetDestPtr_loop fuel h id s = Some (r, s)
    /\ ((r = NULL /\ forall a d, In a l -> dests s !! a = Some d -> dest_PipeId d <> id)
        \/ (In r l /\ exists d, dests s !! r = Some d /\ dest_PipeId d = id)).
Proof using.
  revert p h fuel. induction l as [|a l IH]; intros p h fuel Hs Hf; destruct fuel as [|fuel]; cbn in Hf; try lia; cbn [GetDestPtr_loop].
  - cbn in Hs. destruct Hs as [-> _]. exists NULL. split; [done|]. by left.
  - cbn in Hs. destruct Hs as (-> & Hn & d & Hd & _ & Hs). rewrite (proj2 (Z.eqb_neq a NULL)) by done.
    rewrite (bind_load_dest _ _ _ _ Hd). unfold CFE_ResourceId_Equal.
    destruct (Z.eqb_spec (dest_PipeId d) id) as [E|E].
    + exists a. split; [done|]. right. split; [by left|]. by exists d.
    + destruct (IH a (dest_Next d) fuel Hs ltac:(lia)) as (r & -> & Hr). exists r. split; [done|].
      destruct Hr as [[-> Hr]|[Hr ?]]; [left|right; split; [by right|done]].
      split; [done|]. intros b e [<-|Hb] He; [congruence|eauto].
Qed.

Lemma list_fits s l : NoDup l -> (forall a, In a l -> is_Some (dests s !! a)) ->
  (length l <= size (dests s))%nat.
Proof using.
  intros Hnd Hin. rewrite <- size_dom.
  rewrite <- (size_list_to_set (C := gset Z) l) by done. apply subseteq_size.
  intros a Ha%elem_of_list_to_set. apply elem_of_dom, Hin. by apply list_elem_of_In.
Qed.

Lemma GetDestPtr_eff s i l id :
  0 <= i < 256 -> dlist (dests s) (head_at (routes s) i) l -> NoDup l ->
  exists r, CFE_SB_GetDestPtr (i + 1) id s = Some (r, s)
    /\ ((r = NULL /\ forall a d, In a l -> dests s !! a = Some d -> dest_PipeId d <> id)
        \/ (In r l /\ exists d, dests s !! r = Some d /\ dest_PipeId d = id)).
Proof using.
  intros Hi [q Hs] Hnd. unfold CFE_SB_GetDestPtr, dest_fuel. rewrite bind_list_head, bind_gets by done.
  apply (GetDestPtr_loop_eff s _ NULL _ l q); [done|].
  pose proof (list_fits s l Hnd (fun a Ha => proj1 (dseg_nodes _ _ _ _ _ _ a Hs Ha))). lia.
Qed.

(** Adding a node in front. *)
Lemma AddDestNode_eff s i l a d :
  0 <= i < 256 -> dlist (dests s) (head_at (routes s) i) l -> NoDup l -> ~ In a l -> a <> NULL ->
  dests s !! a = Some d ->
  exists D', CFE_SB_AddDestNode (i + 1) a s
             = Some (CFE_SUCCESS, set_routes (CFE_SBR_SetDestListHeadPtr (routes s) (i + 1) a) (set_dests D' s))
    /\ dlist D' a (a :: l)
    /\ (forall b, ~ In b (a :: l) -> D' !! b = dests s !! b)
    /\ (forall b, dest_PipeId <$> D' !! b = dest_PipeId <$> dests s !! b).
Proof using.
  intros Hi Hl Hnd Ha Hna Hd. unfold CFE_SB_AddDestNode. rewrite bind_list_head by done.
  rewrite (bind_load_dest _ _ _ _ Hd).
  destruct Hl as [q Hs]. destruct l as [|b l].
  - cbn in Hs. destruct Hs as [-> _]. rewrite Z.eqb_refl, bind_store_dest by (by rewrite Hd).
    unfold set_list_head. rewrite bind_modify. eexists. split; [reflexivity|]. split_and!.
    + exists a. cbn. split_and!; [done..|]. exists (dest_set_Prev (dest_set_Next d NULL) NULL). rewrite lookup_insert_eq. by split_and!.
    + intros b Hb. rewrite lookup_insert_ne; [done|]. intros <-. apply Hb. by left.
    + intros b. destruct (decide (a = b)) as [<-|]; [by rewrite lookup_insert_eq, Hd|by rewrite lookup_insert_ne].
  - assert (Hs' := Hs). cbn in Hs'. destruct Hs' as (Eh & Hnb & db & Hdb & Hpb & _).
    rewrite Eh in *. rewrite (proj2 (Z.eqb_neq b NULL)) by done.
    assert (Hab : a <> b) by (intros ->; apply Ha; by left).
    rewrite bind_bind, bind_store_dest by (by rewrite Hd).
    rewrite bind_bind, (bind_load_dest b db) by (sb_simpl; by rewrite lookup_insert_ne).
    rewrite bind_store_dest by (sb_simpl; by rewrite lookup_insert_ne, Hdb).
    unfold set_list_head. rewrite bind_modify. eexists. split; [reflexivity|]. sb_simpl. split_and!.
    + exists q. apply dseg_cons. split; [done|]. split; [done|]. exists (dest_set_Prev (dest_set_Next d b) NULL).
      rewrite lookup_insert_ne, lookup_insert_eq by done. split; [done|]. split; [done|].
      cbn [dest_Next dest_set_Next dest_set_Prev]. apply (dseg_set_prev _ NULL); [|done..|by rewrite lookup_insert_ne].
      apply (dseg_frame (dests s)); [|done]. intros c Hc. rewrite lookup_insert_ne; [done|]. by intros <-.
    + intros c Hc. rewrite !lookup_insert_ne; [done|..]; intros <-; apply Hc; [by left|right; by left].
    + intros c. destruct (decide (b = c)) as [<-|]; [by rewrite lookup_insert_eq, Hdb|].
      rewrite lookup_insert_ne by done. destruct (decide (a = c)) as [<-|]; [by rewrite lookup_insert_eq, Hd|].
      by rewrite lookup_insert_ne.
Qed.

(** Unlinking a node. *)
Definition cleared_dest (d : CFE_SB_DestinationD_t) : CFE_SB_DestinationD_t :=
  dest_set_Prev (dest_set_Next d NULL) NULL.

Definition unlinked_dests (D D' : dest_map) (l : list Z) : Prop :=
  (forall b, ~ In b l -> D' !! b = D !! b)
  /\ forall b, dest_PipeId <$> D' !! b = dest_PipeId <$> D !! b.

Lemma unlinked_insert D D' l a d d' :
  unlinked_dests D D' l -> D' !! a = Some d -> dest_PipeId d' = dest_PipeId d -> In a l ->
  unlinked_dests D (<[a := d']> D') l.
Proof using.
  intros [H1 H2] Hd E Ha. split; intros b.
  - intros Hb. rewrite lookup_insert_ne; [auto|]. by intros <-.
  - rewrite <- H2. destruct (decide (a = b)) as [<-|]; [rewrite lookup_insert_eq, Hd; cbn; congruence|].
    by rewrite lookup_insert_ne.
Qed.

(** The end of [CFE_SB_RemoveDestNode]: the node itself is cleared. *)
Lemma clear_node s x d l :
  dests s !! x = Some d -> forall h l', dlist (dests s) h l' -> ~ In x l' -> In x l ->
  (let* n := load_dest x in store_dest x (dest_set_Prev (dest_set_Next n NULL) NULL)) s
  = Some (tt, set_dests (<[x := cleared_dest d]> (dests s)) s)
  /\ dlist (<[x := cleared_dest d]> (dests s)) h l'
  /\ unlinked_dests (dests s) (<[x := cleared_dest d]> (dests s)) l.
Proof using.
  intros Hx h l' [q Hl] Hn Hin. rewrite (bind_load_dest _ _ _ _ Hx), run_store_dest by (by rewrite Hx).
  split_and!; [done|exists q; apply (dseg_frame (dests s)); [|done]|].
  - intros a Ha. rewrite lookup_insert_ne; [done|]. by intros <-.
  - by apply (unlinked_insert _ _ _ _ d).
Qed.

Lemma unlinked_trans D1 D2 D3 l : unlinked_dests D1 D2 l -> unlinked_dests D2 D3 l -> unlinked_dests D1 D3 l.
Proof using.
  intros [A1 A2] [B1 B2]. split; intros b; [intros Hb; by rewrite B1, A1|by rewrite B2, A2].
Qed.

(** What the four branches have in common: after the neighbours are linked to
    each other, [dests s'] and the head of route [i] hold the shorter list. *)
Lemma Remove_branch s (m : SB unit) D' h' i l1 x l2 d :
  0 <= i < 256 -> NoDup (l1 ++ x :: l2) -> x <> NULL ->
  m s = Some (tt, set_dests D' (set_routes (CFE_SBR_SetDestListHeadPtr (routes s) (i + 1) h') s)) ->
  D' !! x = Some d -> dlist D' h' (l1 ++ l2) -> unlinked_dests (dests s) D' (l1 ++ x :: l2) ->
  exists D'' h'',
    (m ;* let* n := load_dest x in store_dest x (dest_set_Prev (dest_set_Next n NULL) NULL)) s
    = Some (tt, set_dests D'' (set_routes (CFE_SBR_SetDestListHeadPtr (routes s) (i + 1) h'') s))
    /\ dlist D'' h'' (l1 ++ l2) /\ unlinked_dests (dests s) D'' (l1 ++ x :: l2).
Proof using.
  intros Hi Hnd Hx Hm Hd Hl Hu. rewrite (bind_run _ _ _ _ _ Hm). set (s1 := set_dests D' _).
  assert (Hn : ~ In x (l1 ++ l2)).
  { apply NoDup_app_In in Hnd as (_ & Hdis & [Hx2 _]%NoDup_cons_In).
    intros [Hi1|Hi2]%in_app_or; [|done]. apply (Hdis x Hi1). by left. }
  destruct (clear_node s1 x d (l1 ++ x :: l2) Hd h' (l1 ++ l2) Hl Hn) as (-> & Hl' & Hu').
  { apply in_app_iff. right. by left. }
  exists (<[x := cleared_dest d]> D'), h'. split_and!; [done..|]. by eapply unlinked_trans.
Qed.

Lemma RemoveDestNode_eff s i l1 x l2 :
  0 <= i < 256 -> zlen (RoutingTbl (routes s)) = 256 ->
  dlist (dests s) (head_at (routes s) i) (l1 ++ x :: l2) -> NoDup (l1 ++ x :: l2) ->
  exists D' h', CFE_SB_RemoveDestNode (i + 1) x s
      = Some (tt, set_dests D' (set_routes (CFE_SBR_SetDestListHeadPtr (routes s) (i + 1) h') s))
    /\ dlist D' h' (l1 ++ l2) /\ unlinked_dests (dests s) D' (l1 ++ x :: l2).
Proof using.
  intros Hi Hlen Hl Hnd. destruct (dseg_middle _ _ _ _ _ Hl) as (d & q & Hd & Hx & H1 & H2).
  unfold CFE_SB_RemoveDestNode. rewrite (bind_load_dest _ _ _ _ Hd).
  assert (Hsame : set_routes (CFE_SBR_SetDestListHeadPtr (routes s) (i + 1) (head_at (routes s) i)) s = s).
  { rewrite SetHead_same by done. by destruct s. }
  assert (Hu0 : unlinked_dests (dests s) (dests s) (l1 ++ x :: l2)) by done.
  assert (Hin1 : forall a, In a l1 -> In a (l1 ++ x :: l2)) by (intros; apply in_app_iff; by left).
  assert (Hin2 : forall a, In a l2 -> In a (l1 ++ x :: l2)) by (intros; apply in_app_iff; right; by right).
  apply NoDup_app_In in Hnd as Hnd'. destruct Hnd' as (Hnd1 & Hdis & [Hx2 Hnd2]%NoDup_cons_In).
  assert (Hx1 : ~ In x l1) by (intros Hx1; apply (Hdis x Hx1); by left).
  destruct l1 as [|a1 l1'], l2 as [|a2 l2'].
  - cbn in H1, H2. destruct H1 as [_ <-], H2 as [-> _]. rewrite Z.eqb_refl. cbn [andb].
    eapply (Remove_branch s _ (dests s) NULL i [] x []); try done. by exists NULL.
  - cbn in H1. destruct H1 as [_ <-]. assert (H2' := H2). destruct H2' as (En & Hn2 & d2 & Hd2 & _).
    rewrite En in *. rewrite Z.eqb_refl, (proj2 (Z.eqb_neq a2 NULL)) by done. cbn [andb].
    assert (Hne : a2 <> x) by (intros ->; apply Hx2; by left).
    eapply (Remove_branch s _ (<[a2 := dest_set_Prev d2 NULL]> (dests s)) a2 i [] x (a2 :: l2') d); try done.
    + rewrite (bind_load_dest _ _ _ _ Hd2), bind_store_dest by (by rewrite Hd2). reflexivity.
    + by rewrite lookup_insert_ne.
    + exists q. by apply (dseg_set_prev _ x).
    + apply (unlinked_insert _ _ _ _ d2); try done. right. by left.
  - cbn in H2. destruct H2 as [-> _].
    destruct (dseg_last _ _ _ _ _ _ H1) as [l1'' El]; [done|].
    assert (Hpin : In (dest_Prev d) (a1 :: l1')) by (rewrite El; apply in_app_iff; right; by left).
    destruct (dseg_nodes _ _ _ _ _ _ _ H1 Hpin) as [[dp Hdp] Hpn].
    rewrite (proj2 (Z.eqb_neq (dest_Prev d) NULL)), Z.eqb_refl by done. cbn [andb].
    assert (Hne : dest_Prev d <> x) by congruence.
    eapply (Remove_branch s _ (<[dest_Prev d := dest_set_Next dp NULL]> (dests s))
              (head_at (routes s) i) i (a1 :: l1') x [] d); try done.
    + rewrite (bind_load_dest _ _ _ _ Hdp), run_store_dest by (by rewrite Hdp). by rewrite Hsame.
    + by rewrite lookup_insert_ne.
    + rewrite app_nil_r. exists (dest_Prev d). by apply (dseg_set_next _ _ _ _ _ x).
    + apply (unlinked_insert _ _ _ _ dp); try done. auto.
  - destruct (dseg_last _ _ _ _ _ _ H1) as [l1'' El]; [done|].
    assert (Hpin : In (dest_Prev d) (a1 :: l1')) by (rewrite El; apply in_app_iff; right; by left).
    destruct (dseg_nodes _ _ _ _ _ _ _ H1 Hpin) as [[dp Hdp] Hpn].
    assert (H2' := H2). destruct H2' as (En & Hn2 & d2 & Hd2 & _).
    rewrite En in *. rewrite (proj2 (Z.eqb_neq (dest_Prev d) NULL)), (proj2 (Z.eqb_neq a2 NULL)) by done.
    cbn [andb]. assert (Hne : dest_Prev d <> x) by congruence.
    assert (Hne2 : a2 <> x) by (intros ->; apply Hx2; by left).
    assert (Hne3 : dest_Prev d <> a2).
    { intros E. apply (Hdis (dest_Prev d) Hpin). right. rewrite E. by left. }
    eapply (Remove_branch s _ (<[a2 := dest_set_Prev d2 (dest_Prev d)]>
              (<[dest_Prev d := dest_set_Next dp a2]> (dests s))) (head_at (routes s) i) i (a1 :: l1') x (a2 :: l2') d); try done.
    + rewrite (bind_load_dest _ _ _ _ Hdp), bind_store_dest by (by rewrite Hdp).
      rewrite (bind_load_dest a2 d2) by (sb_simpl; by rewrite lookup_insert_ne).
      rewrite run_store_dest by (sb_simpl; by rewrite lookup_insert_ne, Hd2). by rewrite Hsame.
    + by rewrite !lookup_insert_ne.
    + exists q. apply dseg_app. exists (dest_Prev d), a2. split.
      * apply (dseg_frame (<[dest_Prev d := dest_set_Next dp a2]> (dests s))).
        -- intros a Ha. rewrite lookup_insert_ne; [done|]. intros <-. apply (Hdis a2 Ha). right. by left.
        -- by apply (dseg_set_next _ _ _ _ _ x).
      * apply (dseg_set_prev _ x); [|done..|by rewrite lookup_insert_ne].
        apply (dseg_frame (dests s)); [|done]. intros a Ha. rewrite lookup_insert_ne; [done|].
        intros <-. apply (Hdis (dest_Prev d) Hpin). by right.
    + apply (unlinked_insert _ _ _ _ d2); [|by rewrite lookup_insert_ne|done|apply Hin2; by left].
      apply (unlinked_insert _ _ _ _ dp); try done. auto.
Qed.
End lists.

(** ** The invariant of the destinations *)

(** The id belongs to a pipe of the table. *)
Definition pipe_live (tbl : list CFE_SB_PipeD_t) (id : Z) : Prop :=
  match CFE_SB_LocatePipeDescByID id with
  | Some i => PipeId (zget tbl i) = id
  | None => False
  end.

Definition upd {A} (f : Z -> A) (i : Z) (v : A) : Z -> A := fun j => if j =? i then v else f j.

Lemma upd_eq {A} (f : Z -> A) i v : upd f i v i = v.
Proof. unfold upd. by rewrite Z.eqb_refl. Qed.
Lemma upd_ne {A} (f : Z -> A) i j v : j <> i -> upd f i v j = f j.
Proof. intros. unfold upd. by rewrite (proj2 (Z.eqb_neq j i)). Qed.

Section inv.
Context {P M Msg : Type} `{HP : PoolBufLaws P} `{HMap : RouteMapLaws M} `{HMsg : SbPlatformLaws Msg}.
Local Abbreviation sb := (sb P M Msg).
Implicit Types (s : sb) (l : list Z) (D : Z -> list Z).

(** [l] are the message ids with a route, [D i] the destinations of route
    [i + 1]. *)
Record dests_inv s l D : Prop := {
  di_routes : route_rep (routes s) l;
  di_list : forall i, 0 <= i < 256 -> dlist (dests s) (head_at (routes s) i) (D i);
  di_unused : forall i, zlen l <= i < 256 -> D i = [];
  di_owner : forall a, is_Some (dests s !! a) <-> exists i, 0 <= i < 256 /\ In a (D i);
  di_apart : forall i j a, 0 <= i < 256 -> 0 <= j < 256 -> In a (D i) -> In a (D j) -> i = j;
  di_nodup : forall i, 0 <= i < 256 -> NoDup (D i);
  di_once : forall i a b d e, 0 <= i < 256 -> In a (D i) -> In b (D i) ->
    dests s !! a = Some d -> dests s !! b = Some e -> dest_PipeId d = dest_PipeId e -> a = b;
  di_limit : forall i, 0 <= i < 256 -> zlen (D i) <= CFE_PLATFORM_SB_MAX_DEST_PER_PKT;
  di_pipe : forall a d, dests s !! a = Some d -> pipe_live (PipeTbl s) (dest_PipeId d);
  di_count : StatTlm s SubscriptionsInUse = u32 (Z.of_nat (size (dests s)))
}.

Lemma di_size s l D : dests_inv s l D -> zlen (RoutingTbl (routes s)) = 256.
Proof using. intros Hi. apply (rep_size _ _ (di_routes _ _ _ Hi)). Qed.

(** What the routines below leave alone. *)
Record dests_only s s' : Prop := {
  do_pipes : PipeTbl s' = PipeTbl s;
  do_last : LastPipeId s' = LastPipeId s;
  do_queues : queues s' = queues s;
  do_report : SubscriptionReporting s' = SubscriptionReporting s;
  do_bufs : bufs s' = bufs s;
  do_links : links s' = links s
}.

#[export] Instance dests_only_preorder : PreOrder dests_only.
Proof using. split; [by intros s|]. intros s1 s2 s3 [] []. split; congruence. Qed.

(** The invariant only looks at the shape of the descriptors. *)
Lemma dests_inv_ext s s' l D :
  routes s' = routes s -> PipeTbl s' = PipeTbl s ->
  StatTlm s' SubscriptionsInUse = StatTlm s SubscriptionsInUse ->
  (forall a, dshape <$> dests s' !! a = dshape <$> dests s !! a) -> size (dests s') = size (dests s) ->
  dests_inv s l D -> dests_inv s' l D.
Proof using.
  intros Er Ep Es Hsh Hsz Hi.
  assert (Hback : forall a d, dests s' !! a = Some d ->
                    exists e, dests s !! a = Some e /\ dest_PipeId e = dest_PipeId d).
  { intros a d Hd. pose proof (Hsh a) as E. rewrite Hd in E. destruct (dests s !! a) as [e|]; [|done].
    exists e. split; [done|]. unfold dshape in E. cbn in E. congruence. }
  assert (Hdom : forall a, is_Some (dests s' !! a) <-> is_Some (dests s !! a)).
  { intros a. pose proof (Hsh a) as E. destruct (dests s' !! a), (dests s !! a); try discriminate; split; done. }
  destruct Hi. split; rewrite ?Er, ?Ep, ?Es, ?Hsz; try done.
  - intros i Hi. destruct (di_list0 i Hi) as [q Hq]. exists q. by apply (dseg_frame (dests s)).
  - intros a. by rewrite Hdom.
  - intros i a b d e Hi Ha Hb (d' & Hd' & E1)%Hback (e' & He' & E2)%Hback E.
    apply (di_once0 i a b d' e'); congruence.
  - intros a d (e & He & <-)%Hback. eauto.
Qed.

(** *** Removing a destination *)

Lemma removed_inv s s' l D i a d (N : dest_map) h' :
  dests_inv s l D -> 0 <= i < 256 -> In a (D i) -> dests s !! a = Some d ->
  dlist N h' (without a (D i)) -> unlinked_dests (dests s) N (D i) ->
  dests s' = delete a N -> routes s' = CFE_SBR_SetDestListHeadPtr (routes s) (i + 1) h' ->
  PipeTbl s' = PipeTbl s -> StatTlm s' SubscriptionsInUse = u32 (StatTlm s SubscriptionsInUse - 1) ->
  dests_inv s' l (upd D i (without a (D i))).
Proof using.
  intros Hi Hr Ha Hd Hl [Hu1 Hu2] Ed Er Ep Es. pose proof (di_size _ _ _ Hi) as Hsz.
  assert (Hin : forall j b, In b (upd D i (without a (D i)) j) -> In b (D j) /\ b <> a \/ j <> i /\ In b (D j)).
  { intros j b. unfold upd. case_test; [subst; intros [? ?]%in_without; by left|]. by right. }
  assert (Hsub : forall j b, In b (upd D i (without a (D i)) j) -> In b (D j)) by (intros j b [[? ?]|[? ?]]%Hin; done).
  assert (Hback : forall b e, dests s' !! b = Some e -> b <> a /\ exists e', dests s !! b = Some e' /\ dest_PipeId e' = dest_PipeId e).
  { intros b e. rewrite Ed. intros [Hne He]%lookup_delete_Some. split; [done|].
    pose proof (Hu2 b) as E. rewrite He in E. destruct (dests s !! b) as [e'|]; [|done]. exists e'. cbn in E. split; congruence. }
  assert (HdomU : forall b, is_Some (N !! b) <-> is_Some (dests s !! b)).
  { intros b. pose proof (Hu2 b) as E. destruct (N !! b), (dests s !! b); try discriminate; split; done. }
  split; rewrite ?Ep.
  - rewrite Er. apply update_route_rep; [apply Hi|lia|done].
  - intros j Hj. rewrite Er, SetHead_at by done. rewrite Ed. unfold upd. rewrite Z.eqb_sym. case_test.
    + destruct Hl as [q Hl]. exists q. apply (dseg_frame N); [|done].
      intros b [_ Hb]%in_without. by rewrite lookup_delete_ne.
    + destruct (di_list _ _ _ Hi j Hj) as [q Hq]. exists q. apply (dseg_frame (dests s)); [|done].
      intros b Hb. rewrite lookup_delete_ne by (intros <-; apply n; by apply (di_apart _ _ _ Hi j i a)).
      rewrite Hu1; [done|]. intros Hbi. apply n. by apply (di_apart _ _ _ Hi j i b).
  - intros j Hj. unfold upd. case_test; [|by apply (di_unused _ _ _ Hi)].
    subst. rewrite (di_unused _ _ _ Hi i Hj) in Ha. done.
  - intros b. rewrite Ed, lookup_delete_is_Some, HdomU, (di_owner _ _ _ Hi). split.
    + intros [Hne (j & Hj & Hb)]. exists j. split; [done|]. unfold upd. case_test; [|done]. subst. by apply in_without.
    + intros (j & Hj & Hb). split; [|exists j; split; [done|by apply Hsub]].
      intros <-. destruct (Hin j a Hb) as [[_ ?]|[Hne Hb']]; [done|]. apply Hne. by apply (di_apart _ _ _ Hi j i a).
  - intros j k b Hj Hk Hb Hb'. apply (di_apart _ _ _ Hi j k b); auto.
  - intros j Hj. unfold upd. case_test; [apply without_nodup; subst|]; by apply Hi.
  - intros j b c e f Hj Hb Hc (_ & e' & He' & E1)%Hback (_ & f' & Hf' & E2)%Hback E.
    apply (di_once _ _ _ Hi j b c e' f'); auto; congruence.
  - intros j Hj. unfold upd. case_test; [|by apply Hi]. subst.
    pose proof (zlen_filter (fun y => negb (y =? a)) (D i)). pose proof (di_limit _ _ _ Hi i Hj). unfold without. lia.
  - intros b e (_ & e' & He' & <-)%Hback. by apply (di_pipe _ _ _ Hi b).
  - rewrite Es, (di_count _ _ _ Hi), u32_sub_l, Ed. f_equal.
    assert (HaU : is_Some (N !! a)) by (rewrite HdomU, Hd; done).
    assert (Hszd : size N = size (dests s)).
    { rewrite <- !size_dom. f_equal. apply set_eq. intros b. rewrite !elem_of_dom. apply HdomU. }
    rewrite map_size_delete_Some by done. assert (size N <> 0%nat) by (by apply (map_size_ne_0_lookup_2 _ a)).
    rewrite Hszd in *. lia.
Qed.

Lemma RemoveDest_eff s zl tl fr refs l D i a :
  core s zl tl fr refs -> dests_inv s l D -> 0 <= i < 256 -> In a (D i) ->
  exists s', CFE_SB_RemoveDest (i + 1) a s = Some (tt, s') /\ core s' zl tl fr refs
    /\ dests_inv s' l (upd D i (without a (D i))) /\ dests_only s s' /\ HKTlm s' = HKTlm s
    /\ (forall b, dest_PipeId <$> dests s' !! b = if b =? a then None else dest_PipeId <$> dests s !! b).
Proof using HP HMsg.
  intros Hc Hi Hr Ha. pose proof (di_nodup _ _ _ Hi i Hr) as Hnd.
  assert (Hd : is_Some (dests s !! a)) by (apply (di_owner _ _ _ Hi); by exists i). destruct Hd as [d Hd].
  assert (Hsp := Ha). apply in_split in Hsp as (l1 & l2 & El). rewrite El in Hnd.
  pose proof (di_list _ _ _ Hi i Hr) as Hl. rewrite El in Hl.
  destruct (RemoveDestNode_eff s i l1 a l2 Hr (di_size _ _ _ Hi) Hl Hnd) as (N & h' & HR & Hl' & Hu).
  unfold CFE_SB_RemoveDest. rewrite (bind_run _ _ _ _ _ HR).
  assert (Hdom : forall b, is_Some (N !! b) <-> is_Some (dests s !! b)).
  { intros b. pose proof (proj2 Hu b) as E. destruct (N !! b), (dests s !! b); try discriminate; split; done. }
  set (s1 := set_dests N _).
  assert (Hc1 : core s1 zl tl fr refs).
  { assert (El1 : live s1 = live s).
    { unfold live, s1. sb_simpl. f_equal. apply map_eq. intros b. rewrite !lookup_fmap.
      specialize (Hdom b). destruct (N !! b), (dests s !! b); try done; [by destruct (proj1 Hdom)|by destruct (proj2 Hdom)]. }
    destruct Hc. split; rewrite ?El1; unfold s1; sb_simpl; try done.
    intros b Hb. apply eq_None_not_Some. rewrite Hdom, co_disjoint by done. by intros []. }
  destruct (PutDest_eff s1 zl tl fr refs a Hc1) as (s2 & HP2 & Hc2 & Hst & Ehk & Eb & Elk & Ed & Es).
  { apply Hdom. by rewrite Hd. }
  rewrite (bind_run _ _ _ _ _ HP2).
  destruct (lower_stat_run SubscriptionsInUse 1 s2) as (t & -> & Ht & Ho).
  eexists. split; [reflexivity|]. split; [apply (core_ext s2); sb_simpl; auto|].
  split; [|split; [|split]].
  - apply (removed_inv s _ l D i a d N h'); sb_simpl; try done.
    + rewrite El, without_split by done. done.
    + by rewrite El.
    + by rewrite (st_routes _ _ Hst).
    + by rewrite (st_pipes _ _ Hst).
    + by rewrite Ht, Es.
  - split; sb_simpl; [apply Hst..|done|done].
  - done.
  - intros b. sb_simpl. rewrite Ed. case_test.
    + subst. by rewrite lookup_delete_eq.
    + rewrite lookup_delete_ne by congruence. apply Hu.
Qed.

(** *** Subscriptions as pairs of a route and a pipe *)

Definition has_sub s D (i id : Z) : Prop :=
  exists a d, In a (D i) /\ dests s !! a = Some d /\ dest_PipeId d = id.

Lemma has_sub_pipes s s' D i id :
  (forall a, In a (D i) -> dest_PipeId <$> dests s' !! a = dest_PipeId <$> dests s !! a) ->
  has_sub s' D i id <-> has_sub s D i id.
Proof using.
  intros Hp. split; intros (a & d & Ha & Hd & E); specialize (Hp a Ha); rewrite Hd in Hp; cbn in Hp.
  - destruct (dests s !! a) as [e|] eqn:He; [|done]. exists a, e. split_and!; [done..|]. cbn in Hp. congruence.
  - destruct (dests s' !! a) as [e|] eqn:He; [|done]. exists a, e. split_and!; [done..|]. cbn in Hp. congruence.
Qed.

Lemma RemovePipeFromRoute_eff s zl tl fr refs l D i id :
  core s zl tl fr refs -> dests_inv s l D -> 0 <= i < 256 ->
  exists s' D', CFE_SB_RemovePipeFromRoute id (i + 1) s = Some (tt, s') /\ core s' zl tl fr refs
    /\ dests_inv s' l D' /\ dests_only s s' /\ HKTlm s' = HKTlm s
    /\ forall j k, 0 <= j < 256 -> has_sub s' D' j k <-> has_sub s D j k /\ ~ (j = i /\ k = id).
Proof using HP HMsg.
  intros Hc Hi Hr. unfold CFE_SB_RemovePipeFromRoute.
  destruct (GetDestPtr_eff s i (D i) id Hr (di_list _ _ _ Hi i Hr) (di_nodup _ _ _ Hi i Hr)) as (r & HG & Hcase).
  rewrite (bind_run _ _ _ _ _ HG). destruct Hcase as [[-> Hnone]|(Hin & d & Hd & Ed)].
  - exists s, D. cbn. split_and!; [done..| |done|]; [done|]. intros j k Hj. split; [|tauto].
    intros Hs. split; [done|]. intros [-> ->]. destruct Hs as (a & d & Ha & Hd & E). by apply (Hnone a d).
  - assert (Hrn : r <> NULL).
    { destruct (di_list _ _ _ Hi i Hr) as [q Hq]. by destruct (dseg_nodes _ _ _ _ _ _ r Hq Hin). }
    rewrite (proj2 (Z.eqb_neq r NULL)) by done. cbn [negb].
    destruct (RemoveDest_eff s zl tl fr refs l D i r Hc Hi Hr Hin) as (s' & -> & Hc' & Hi' & Hdo & Ehk & Hp).
    exists s', (upd D i (without r (D i))). split_and!; [done..|].
    intros j k Hj. assert (Hrj : In r (D j) -> j = i) by (intros; by apply (di_apart _ _ _ Hi j i r)).
    split.
    + intros (a & e & Ha & He & E). unfold upd in Ha. specialize (Hp a). rewrite He in Hp. cbn in Hp.
      destruct (Z.eqb_spec a r) as [->|Hne]; [done|].
      destruct (dests s !! a) as [e'|] eqn:He'; [|done]. cbn in Hp. injection Hp as Hp.
      destruct (Z.eqb_spec j i) as [->|Hji].
      * apply in_without in Ha as [Ha _]. split; [exists a, e'; split_and!; [done..|congruence]|].
        intros [_ ->]. apply Hne. apply (di_once _ _ _ Hi i a r e' d); try done. congruence.
      * split; [exists a, e'; split_and!; [done..|congruence]|tauto].
    + intros [(a & e & Ha & He & E) Hnot]. destruct (Z.eq_dec a r) as [->|Hne].
      { exfalso. apply Hnot. rewrite Hd in He. injection He as <-. split; [auto|congruence]. }
      specialize (Hp a). rewrite (proj2 (Z.eqb_neq a r)) in Hp by done. rewrite He in Hp.
      destruct (dests s' !! a) as [e'|] eqn:He'; [|done]. cbn in Hp. injection Hp as Hp.
      exists a, e'. split_and!; [|done|congruence]. unfold upd. case_test; [subst; by apply in_without|done].
Qed.

(** One callback of the iteration over the routes. *)
Definition remove_callback (id : Z) (RouteId : Z) (acc : option sb) : option sb :=
  match acc with
  | Some s' => match CFE_SB_RemovePipeFromRoute id RouteId s' with Some (_, s'') => Some s'' | None => None end
  | None => None
  end.

Lemma remove_visit id n s zl tl fr refs l D :
  core s zl tl fr refs -> dests_inv s l D -> 0 <= n <= 256 ->
  exists s' D', visit (remove_callback id) 1 n (Some s) = Some s' /\ core s' zl tl fr refs
    /\ dests_inv s' l D' /\ dests_only s s' /\ HKTlm s' = HKTlm s
    /\ forall j k, 0 <= j < 256 -> has_sub s' D' j k <-> has_sub s D j k /\ ~ (j < n /\ k = id).
Proof using HP HMsg.
  intros Hc Hi Hn. destruct Hn as [Hn0 Hn]. revert Hn. pattern n. apply natlike_ind; [|clear n Hn0|done].
  - intros _. exists s, D. split_and!; try done. intros j k Hj. split; [|tauto]. intros. split; [done|]. lia.
  - intros n Hn0 IH Hn. destruct IH as (s1 & D1 & Hv & Hc1 & Hi1 & Hd1 & Hk1 & Hs1); [lia|].
    unfold Z.succ. rewrite <- visit_app by lia. rewrite Hv.
    destruct (RemovePipeFromRoute_eff s1 zl tl fr refs l D1 n id Hc1 Hi1 ltac:(lia))
      as (s2 & D2 & HR & Hc2 & Hi2 & Hd2 & Hk2 & Hs2).
    exists s2, D2. split_and!; try done.
    + unfold visit. rewrite seqZ_cons, seqZ_nil by lia. cbn. replace (1 + n) with (n + 1) by lia. by rewrite HR.
    + by transitivity s1.
    + congruence.
    + intros j k Hj. rewrite Hs2, Hs1 by done. split; [intros [[? Hx] Hy]|intros [? Hx]]; split_and!; try done; lia.
Qed.

Lemma RemovePipeFromRoutes_eff s zl tl fr refs l D id :
  core s zl tl fr refs -> dests_inv s l D ->
  exists s' D', RemovePipeFromRoutes id s = Some (tt, s') /\ core s' zl tl fr refs
    /\ dests_inv s' l D' /\ dests_only s s' /\ HKTlm s' = HKTlm s
    /\ forall j k, 0 <= j < 256 -> has_sub s' D' j k <-> has_sub s D j k /\ k <> id.
Proof using HP HMsg.
  intros Hc Hi. pose proof (di_routes _ _ _ Hi) as Hr. pose proof (zlen_nonneg l).
  pose proof (rep_room _ _ Hr) as Hroom. unfold CFE_PLATFORM_SB_MAX_MSG_IDS in Hroom.
  destruct (remove_visit id (zlen l) s zl tl fr refs l D Hc Hi ltac:(lia))
    as (s' & D' & Hv & Hc' & Hi' & Hd & Hk & Hs).
  exists s', D'. split.
  - unfold RemovePipeFromRoutes, CFE_SBR_ForEachRouteId. cbn [fst]. rewrite (rep_top _ _ Hr).
    rewrite ForEach_loop by lia. rewrite Z.add_0_l, Z.sub_0_r. unfold remove_callback in Hv. by rewrite Hv.
  - split_and!; try done. intros j k Hj. rewrite Hs by done. split; intros [Hsub Hx]; (split; [done|]).
    + intros ->. apply Hx. split; [|done]. destruct Hsub as (a & d & Ha & _).
      destruct (Z_lt_ge_dec j (zlen l)); [done|]. rewrite (di_unused _ _ _ Hi j) in Ha by lia. done.
    + tauto.
Qed.

(** *** Adding a destination *)

Definition dup_in s (l : list Z) (id : Z) : Prop :=
  exists a d, In a l /\ dests s !! a = Some d /\ dest_PipeId d = id.

Lemma Subscribe_search_eff s fuel p h l q c id :
  dseg (dests s) p h l q NULL -> (length l < fuel)%nat -> 0 <= c -> c + zlen l <= 16 ->
  (c = 16 -> False) ->
  exists r, Subscribe_search fuel h c id s = Some (r, s)
    /\ match r with
       | FoundDuplicate => dup_in s l id
       | LimitReached => ~ dup_in s l id /\ c + zlen l = 16
       | NotFound => ~ dup_in s l id /\ c + zlen l < 16
       end.
Proof using.
  revert p h c fuel. induction l as [|a l IH]; intros p h c fuel Hs Hf Hc0 Hc Hc16; destruct fuel as [|fuel];
    cbn [length] in Hf; try lia; cbn [Subscribe_search].
  - cbn in Hs. destruct Hs as [-> _]. exists NotFound. rewrite Z.eqb_refl. split; [done|].
    change (zlen []) with 0 in *. split; [by intros (? & ? & [] & _)|lia].
  - cbn in Hs. destruct Hs as (-> & Hn & d & Hd & _ & Hs). rewrite zlen_cons in *.
    rewrite (proj2 (Z.eqb_neq a NULL)) by done. rewrite (bind_load_dest _ _ _ _ Hd).
    unfold CFE_ResourceId_Equal. pose proof (zlen_nonneg l).
    destruct (Z.eqb_spec (dest_PipeId d) id) as [E|E].
    + exists FoundDuplicate. split; [done|]. exists a, d. split; [by left|done].
    + assert (Hdup : dup_in s (a :: l) id <-> dup_in s l id).
      { split; [intros (b & e & [<-|Hb] & He & Ee); [congruence|by exists b, e]|].
        intros (b & e & Hb & He & Ee). exists b, e. split; [by right|done]. }
      unfold CFE_PLATFORM_SB_MAX_DEST_PER_PKT. destruct (Z.leb_spec 16 (c + 1)).
      * exists LimitReached. split; [done|]. rewrite Hdup. split; [|lia].
        assert (length l = 0%nat) as El%nil_length_inv by (unfold zlen in *; lia). subst l.
        by intros (? & ? & [] & _).
      * destruct (IH a (dest_Next d) (c + 1) fuel Hs ltac:(lia) ltac:(lia) ltac:(lia) ltac:(lia)) as (r & -> & Hr).
        exists r. split; [done|]. destruct r; rewrite ?Hdup; [done|split; [tauto|lia]..].
Qed.

Lemma added_inv s s' l D i a id (N : dest_map) :
  dests_inv s l D -> 0 <= i < zlen l -> dests s !! a = None -> a <> NULL ->
  pipe_live (PipeTbl s) id -> ~ dup_in s (D i) id -> zlen (D i) < CFE_PLATFORM_SB_MAX_DEST_PER_PKT ->
  dlist N a (a :: D i) -> dest_PipeId <$> N !! a = Some id ->
  (forall b, ~ In b (a :: D i) -> N !! b = dests s !! b) ->
  (forall b, b <> a -> dest_PipeId <$> N !! b = dest_PipeId <$> dests s !! b) ->
  dests s' = N -> routes s' = CFE_SBR_SetDestListHeadPtr (routes s) (i + 1) a -> PipeTbl s' = PipeTbl s ->
  StatTlm s' SubscriptionsInUse = u32 (StatTlm s SubscriptionsInUse + 1) ->
  dests_inv s' l (upd D i (a :: D i))
  /\ forall j k, 0 <= j < 256 -> has_sub s' (upd D i (a :: D i)) j k <-> has_sub s D j k \/ (j = i /\ k = id).
Proof using.
  intros Hi Hr Ha Hna Hpl Hdup Hlim Hl Hpa Hout Hp <- Er Ep Es. pose proof (di_size _ _ _ Hi) as Hsz.
  pose proof (rep_room _ _ (di_routes _ _ _ Hi)) as Hroom. unfold CFE_PLATFORM_SB_MAX_MSG_IDS in Hroom.
  assert (Hr' : 0 <= i < 256) by lia.
  assert (Hfresh : forall j, 0 <= j < 256 -> ~ In a (D j)).
  { intros j Hj Hin. assert (Hx : is_Some (dests s !! a)) by (apply (di_owner _ _ _ Hi); by exists j).
    rewrite Ha in Hx. by destruct Hx. }
  assert (Hin : forall j b, In b (upd D i (a :: D i) j) <-> (b = a /\ j = i) \/ In b (D j)).
  { intros j b. unfold upd. case_test; [subst; cbn; split; [intros [<-|?]; auto|intros [[-> _]|?]; auto]|].
    split; [auto|]. intros [[_ ?]|?]; done. }
  assert (Hback : forall b e, b <> a -> dests s' !! b = Some e -> exists e', dests s !! b = Some e' /\ dest_PipeId e' = dest_PipeId e).
  { intros b e Hne He. pose proof (Hp b Hne) as E. rewrite He in E. destruct (dests s !! b) as [e'|]; [|done].
    exists e'. cbn in E. split; congruence. }
  assert (Hdom : forall b, is_Some (dests s' !! b) <-> b = a \/ is_Some (dests s !! b)).
  { intros b. destruct (Z.eq_dec b a) as [->|Hne].
    - destruct (dests s' !! a); [|done]. split; [by left|done].
    - pose proof (Hp b Hne) as E. destruct (dests s' !! b), (dests s !! b); try discriminate; split; auto; intros []; done. }
  assert (Ha' : exists d, dests s' !! a = Some d /\ dest_PipeId d = id).
  { destruct (dests s' !! a) as [d|]; [|done]. exists d. cbn in Hpa. split; congruence. }
  destruct Ha' as (da & Hda & Eda).
  assert (Hdupb : forall b e, In b (D i) -> dests s' !! b = Some e -> dest_PipeId e = id -> False).
  { intros b e Hb He E. assert (b <> a) by (intros ->; by apply (Hfresh i)).
    destruct (Hback b e) as (e' & He' & E'); [done..|]. apply Hdup. exists b, e'. split_and!; [done..|congruence]. }
  split.
  2:{ intros j k Hj. split.
    - intros (b & e & [[-> ->]|Hb]%Hin & He & E).
      + right. split; [done|]. rewrite Hda in He. injection He as <-. congruence.
      + left. assert (b <> a) by (intros ->; by apply (Hfresh j)).
        destruct (Hback b e) as (e' & He' & E'); [done..|]. exists b, e'. split_and!; [done..|congruence].
    - intros [(b & e & Hb & He & E)|[-> ->]].
      + assert (Hne : b <> a) by (intros ->; by apply (Hfresh j)). pose proof (Hp b Hne) as E'. rewrite He in E'.
        destruct (dests s' !! b) as [e'|] eqn:He'; [|done]. cbn in E'. exists b, e'.
        split_and!; [apply Hin; auto|done|congruence].
      + exists a, da. split_and!; [apply Hin; auto|done|done]. }
  split; rewrite ?Ep.
  - rewrite Er. apply update_route_rep; [apply Hi|lia|done].
  - intros j Hj. rewrite Er, SetHead_at by lia. unfold upd. rewrite Z.eqb_sym. case_test; [done|].
    destruct (di_list _ _ _ Hi j Hj) as [q Hq]. exists q. apply (dseg_frame (dests s)); [|done].
    intros b Hb. rewrite Hout; [done|]. intros [<-|Hbi]; [by apply (Hfresh j)|].
    apply n. apply (di_apart _ _ _ Hi j i b); done || lia.
  - intros j Hj. rewrite upd_ne by lia. by apply (di_unused _ _ _ Hi).
  - intros b. rewrite Hdom, (di_owner _ _ _ Hi). split.
    + intros [->|(j & Hj & Hb)]; [exists i|exists j]; rewrite Hin; split; auto; lia.
    + intros (j & Hj & [[-> ->]|Hb]%Hin); [by left|right; eauto].
  - intros j k b Hj Hk [[-> ->]|Hb]%Hin [[Eb ->]|Hb']%Hin; subst; try done.
    + by apply Hfresh in Hb'.
    + by apply Hfresh in Hb.
    + by apply (di_apart _ _ _ Hi j k b).
  - intros j Hj. unfold upd. case_test; [|by apply Hi]. subst. apply NoDup_cons_In. split; [auto|by apply Hi].
  - intros j b c e f Hj [[-> ->]|Hb]%Hin [[-> Ej]|Hc]%Hin He Hf E; try done.
    + exfalso. apply (Hdupb c f); [done..|]. rewrite Hda in He. injection He as <-. congruence.
    + exfalso. subst j. apply (Hdupb b e); [done..|]. rewrite Hda in Hf. injection Hf as <-. congruence.
    + assert (b <> a) by (intros ->; by apply (Hfresh j)). assert (c <> a) by (intros ->; by apply (Hfresh j)).
      destruct (Hback b e) as (e' & He' & E1); [done..|]. destruct (Hback c f) as (f' & Hf' & E2); [done..|].
      apply (di_once _ _ _ Hi j b c e' f'); congruence.
  - intros j Hj. unfold upd. case_test; [|by apply Hi]. rewrite zlen_cons. lia.
  - intros b e He. destruct (Z.eq_dec b a) as [->|Hne].
    + rewrite Hda in He. injection He as <-. by rewrite Eda.
    + destruct (Hback b e Hne He) as (e' & He' & <-). by apply (di_pipe _ _ _ Hi b).
  - rewrite Es, (di_count _ _ _ Hi), u32_add_l. f_equal.
    assert (Hset : dom (dests s') = {[a]} ∪ dom (dests s)).
    { apply set_eq. intros b. rewrite elem_of_union, elem_of_singleton, !elem_of_dom. apply Hdom. }
    rewrite <- !size_dom, Hset, size_union, size_singleton; [lia|].
    apply disjoint_singleton_l. rewrite elem_of_dom, Ha. by intros [].
Qed.
End inv.
