(* ===== verification/SbWorld.v ===== *)
(** * The software bus: the invariant of the whole state

    The references to buffers are held in three places: in the queues of the
    operating system, in the descriptors of pipes ([LastBuffer]), and by the
    activities in progress (a task that fills a buffer, one that has just read
    one from a queue, an application that owns a zero copy buffer).  The first
    two are read off the state; what the activities hold is a ghost argument of
    the invariant [inv].  It also ties pipe descriptors to queues: every queue
    belongs to exactly one pipe, or to one activity that creates or deletes a
    pipe. *)

From S2P Require Import Prelude ResourceId SbRoute SbRouteProofs SbRouteTheorems SbModel SbApi SbLists SbInv SbDests.

(** ** References in tables and queues *)

Definition others {A} (l : list A) (i : Z) : list A := take (Z.to_nat i) l ++ drop (S (Z.to_nat i)) l.

Lemma zset_split {A} (l : list A) i x :
  0 <= i < zlen l -> zset l i x = take (Z.to_nat i) l ++ x :: drop (S (Z.to_nat i)) l.
Proof. unfold zlen, zset. intros. apply insert_take_drop. lia. Qed.

Lemma zget_split {A} `{Inhabited A} (l : list A) i :
  0 <= i < zlen l -> l = take (Z.to_nat i) l ++ zget l i :: drop (S (Z.to_nat i)) l.
Proof. intros. rewrite <- zset_split by done. by rewrite zset_zget. Qed.

Section flat.
Context {A B : Type} `{Inhabited A} (f : A -> list B).

Lemma flat_zset (l : list A) i x :
  0 <= i < zlen l -> flat_map f (zset l i x) ≡ₚ f x ++ flat_map f (others l i).
Proof using.
  intros Hi. rewrite zset_split by done. unfold others. rewrite !flat_map_app. cbn.
  by rewrite Permutation_app_swap_app.
Qed.

Lemma flat_zget (l : list A) i :
  0 <= i < zlen l -> flat_map f l ≡ₚ f (zget l i) ++ flat_map f (others l i).
Proof using.
  intros Hi. rewrite (zget_split l i) at 1 by done. unfold others. rewrite !flat_map_app. cbn.
  by rewrite Permutation_app_swap_app.
Qed.
End flat.

(** The buffers in the queues. *)
Definition all_items (Q : gmap Z os_queue) : list Z := flat_map (fun kv => q_items (snd kv)) (map_to_list Q).

Lemma all_items_insert Q id q : Q !! id = None -> all_items (<[id := q]> Q) ≡ₚ q_items q ++ all_items Q.
Proof.
  intros Hn. unfold all_items. by rewrite (map_to_list_insert Q id q Hn).
Qed.

Lemma all_items_split Q id q : Q !! id = Some q -> all_items Q ≡ₚ q_items q ++ all_items (delete id Q).
Proof.
  intros Hq. rewrite <- (insert_delete_id Q id q Hq) at 1.
  apply all_items_insert. apply lookup_delete_eq.
Qed.

Lemma all_items_update Q id q' : all_items (<[id := q']> Q) ≡ₚ q_items q' ++ all_items (delete id Q).
Proof.
  rewrite <- insert_delete_eq. apply all_items_insert. apply lookup_delete_eq.
Qed.

(** A pipe that exists: its id is neither undefined nor reserved. *)
Definition is_live (p : CFE_SB_PipeD_t) : bool :=
  negb (PipeId p =? CFE_RESOURCEID_UNDEFINED) && negb (PipeId p =? CFE_RESOURCEID_RESERVED).

Definition last_ref (p : CFE_SB_PipeD_t) : list Z :=
  if is_live p && negb (LastBuffer p =? NULL) then [LastBuffer p] else [].
Definition queue_of (p : CFE_SB_PipeD_t) : list Z := if is_live p then [SysQueueId p] else [].

(** What the invariant reads of a descriptor. *)
Definition pipe_key (p : CFE_SB_PipeD_t) : Z * Z * Z := (PipeId p, SysQueueId p, LastBuffer p).
Definition same_keys (tbl tbl' : list CFE_SB_PipeD_t) : Prop :=
  zlen tbl' = zlen tbl /\ forall i, 0 <= i < zlen tbl -> pipe_key (zget tbl' i) = pipe_key (zget tbl i).

#[export] Instance same_keys_preorder : PreOrder same_keys.
Proof.
  split; [by intros t|]. intros t1 t2 t3 [L1 K1] [L2 K2]. split; [congruence|].
  intros i Hi. rewrite K2, K1; congruence.
Qed.

Definition lasts (tbl : list CFE_SB_PipeD_t) : list Z := flat_map last_ref tbl.
Definition live_queues (tbl : list CFE_SB_PipeD_t) : list Z := flat_map queue_of tbl.

(** ** Pipes *)

(** [dq] are the queues held by activities, with whether they are known to be
    empty; [rs] the slots reserved by activities. *)
Record pipes_inv (tbl : list CFE_SB_PipeD_t) (last : Z) (Q : gmap Z os_queue)
    (dq : list (Z * bool)) (rs : list Z) : Prop := {
  pi_size : zlen tbl = CFE_PLATFORM_SB_MAX_PIPES;
  pi_last : is_u32 last /\ CFE_ResourceId_GetBase last = CFE_SB_PIPEID_BASE;
  pi_slot : forall i, 0 <= i < CFE_PLATFORM_SB_MAX_PIPES ->
    PipeId (zget tbl i) = CFE_RESOURCEID_UNDEFINED
    \/ (PipeId (zget tbl i) = CFE_RESOURCEID_RESERVED /\ In i rs)
    \/ CFE_SB_LocatePipeDescByID (PipeId (zget tbl i)) = Some i;
  pi_reserved : forall i, In i rs ->
    0 <= i < CFE_PLATFORM_SB_MAX_PIPES /\ PipeId (zget tbl i) = CFE_RESOURCEID_RESERVED;
  pi_distinct : NoDup rs;
  pi_queues : NoDup (live_queues tbl ++ map fst dq);
  pi_qdom : forall q, is_Some (Q !! q) <-> In q (live_queues tbl ++ map fst dq);
  pi_idle : forall q x, In (q, true) dq -> Q !! q = Some x -> q_items x = []
}.

Lemma locate_range id i : CFE_SB_LocatePipeDescByID id = Some i -> 0 <= i < CFE_PLATFORM_SB_MAX_PIPES.
Proof.
  unfold CFE_SB_LocatePipeDescByID, CFE_SB_PipeId_ToIndex, CFE_ResourceId_ToIndex. cbn [negb].
  destruct (_ || _); [done|]. cbn. intros [= <-]. by apply Z.mod_pos_bound.
Qed.

Lemma locate_undefined : CFE_SB_LocatePipeDescByID CFE_RESOURCEID_UNDEFINED = None.
Proof. reflexivity. Qed.
Lemma locate_reserved : CFE_SB_LocatePipeDescByID CFE_RESOURCEID_RESERVED = None.
Proof. reflexivity. Qed.

Lemma located_live p i : CFE_SB_LocatePipeDescByID (PipeId p) = Some i -> is_live p = true.
Proof.
  intros Hl. unfold is_live. apply andb_true_iff. rewrite !negb_true_iff, !Z.eqb_neq.
  split; intros E; rewrite E in Hl; [by rewrite locate_undefined in Hl|by rewrite locate_reserved in Hl].
Qed.

(** ** The invariant *)

Record ghost := mkGhost {
  g_held : list Z;            (* references to buffers in transit *)
  g_fresh : list Z;           (* buffers in no tracking list, with the only reference *)
  g_zero : list Z;            (* zero copy buffers, with the only reference *)
  g_queues : list (Z * bool); (* queues of pipes being created or deleted *)
  g_slots : list Z            (* slots of pipes being created or deleted *)
}.
Definition idle : ghost := mkGhost [] [] [] [] [].

(** The references the activities hold. *)
Definition g_refs (g : ghost) : list Z := g_zero g ++ g_fresh g ++ g_held g.

Section inv.
Context {P M Msg : Type} `{HP : PoolBufLaws P} `{HMap : RouteMapLaws M} `{HMsg : SbPlatformLaws Msg}.
Local Abbreviation sb := (sb P M Msg).
Implicit Types (s : sb) (g : ghost).

Definition refs s (held : list Z) : list Z := held ++ all_items (queues s) ++ lasts (PipeTbl s).

(** The highest use count: one reference per destination of a route. *)
Definition max_use : Z := CFE_PLATFORM_SB_MAX_DEST_PER_PKT.

Definition buf_wf (zl fr : list Z) (a : Z) (d : CFE_SB_BufferD_t Msg) : Prop :=
  is_u32 (bd_MsgId d) /\ UseCount d <= max_use
  /\ (In a zl \/ In a fr -> UseCount d = 1)
  /\ (bd_AppId d <> CFE_ES_APPID_UNDEFINED <-> In a zl).

Record inv_at s g zl tl l D : Prop := {
  in_core : core s zl tl (g_fresh g) (refs s (g_refs g));
  in_bufs : forall a d, bufs s !! a = Some d -> buf_wf zl (g_fresh g) a d;
  in_zero : zl ≡ₚ g_zero g;
  in_pipes : pipes_inv (PipeTbl s) (LastPipeId s) (queues s) (g_queues g) (g_slots g);
  in_dests : dests_inv s l D
}.

Definition inv s g : Prop := exists zl tl l D, inv_at s g zl tl l D.

(** Routines that only count and report. *)
Record quiet s s' : Prop := {
  qu_pool : pool s' = pool s;
  qu_bufs : bufs s' = bufs s;
  qu_links : links s' = links s;
  qu_dests : dests s' = dests s;
  qu_pipes : PipeTbl s' = PipeTbl s;
  qu_last : LastPipeId s' = LastPipeId s;
  qu_routes : routes s' = routes s;
  qu_queues : queues s' = queues s;
  qu_report : SubscriptionReporting s' = SubscriptionReporting s;
  qu_stats : StatTlm s' = StatTlm s
}.

#[export] Instance quiet_preorder : PreOrder quiet.
Proof using. split; [by intros s|]. intros s1 s2 s3 [] []. split; congruence. Qed.

Lemma quiet_inv_at s s' g zl tl l D : quiet s s' -> inv_at s g zl tl l D -> inv_at s' g zl tl l D.
Proof using.
  intros [] []. split; unfold refs; rewrite ?qu_bufs0, ?qu_pipes0, ?qu_last0, ?qu_queues0; try done.
  - unfold refs in *. apply (core_ext s); congruence || done.
  - apply (dests_inv_ext s); rewrite ?qu_dests0, ?qu_stats0; done.
Qed.

Lemma quiet_inv s s' g : quiet s s' -> inv s g -> inv s' g.
Proof using. intros Hq (zl & tl & l & D & Hi). exists zl, tl, l, D. by eapply quiet_inv_at. Qed.

(** The reporting routines are quiet and cannot fault. *)
Definition reports {A} (m : SB A) : Prop := forall s, exists x s', m s = Some (x, s') /\ quiet s s'.

Lemma reports_ret {A} (x : A) : reports (ret x).
Proof using. intros s. by exists x, s. Qed.
Lemma reports_gets {A} (f : sb -> A) : reports (gets f).
Proof using. intros s. by exists (f s), s. Qed.
Lemma reports_bind {A B} (m : SB A) (k : A -> SB B) :
  reports m -> (forall x, reports (k x)) -> reports (bind m k).
Proof using.
  intros Hm Hk s. destruct (Hm s) as (x & s1 & E1 & Q1). destruct (Hk x s1) as (y & s2 & E2 & Q2).
  exists y, s2. split; [by rewrite (bind_run _ _ _ _ _ E1)|by transitivity s1].
Qed.
Lemma reports_count c : reports (count c).
Proof using. intros s. by eexists _, _. Qed.
Lemma reports_event e : reports (CFE_EVS_SendEventWithAppID e).
Proof using. intros s. by eexists _, _. Qed.
Lemma reports_flags (f : sb -> list Z) : reports (modify (fun s => set_flags (f s) s)).
Proof using. intros s. by eexists _, _. Qed.
End inv.

Create HintDb reports discriminated.
#[export] Hint Resolve reports_ret reports_gets reports_count reports_event reports_flags : reports.
#[export] Hint Resolve reports_bind : reports.

Ltac reporting :=
  repeat first
    [ progress intros
    | apply reports_bind
    | solve [eauto with reports]
    | match goal with |- context [match ?x with _ => _ end] => destruct x end ].

Section reporting.
Context {P M Msg : Type} `{HP : PoolBufLaws P} `{HMap : RouteMapLaws M} `{HMsg : SbPlatformLaws Msg}.
Local Abbreviation SB := (SB (P := P) (M := M) (Msg := Msg)).

Lemma reports_request t b : reports (CFE_SB_RequestToSendEvent t b : SB bool).
Proof using. unfold CFE_SB_RequestToSendEvent. reporting. Qed.
Lemma reports_finish t b : reports (CFE_SB_FinishSendEvent t b : SB unit).
Proof using. unfold CFE_SB_FinishSendEvent. reporting. Qed.
Lemma reports_guarded t b e (pre : SB unit) : reports pre -> reports (guarded_event t b e pre).
Proof using.
  intros. unfold guarded_event. apply reports_bind; [apply reports_request|].
  intros []; [|apply reports_ret]. reporting. apply reports_finish.
Qed.
Lemma reports_send_if e : reports (send_if e : SB unit).
Proof using. unfold send_if. reporting. Qed.
Lemma reports_name q : reports (OS_GetResourceName q : SB Z).
Proof using. intros s. by eexists _, _. Qed.
End reporting.
#[export] Hint Resolve reports_request reports_finish reports_guarded reports_send_if reports_name : reports.

Section names.
Context {P M Msg : Type} `{HP : PoolBufLaws P} `{HMap : RouteMapLaws M} `{HMsg : SbPlatformLaws Msg}.
Local Abbreviation SB := (SB (P := P) (M := M) (Msg := Msg)).

Lemma reports_pipe_name b id : reports (CFE_SB_GetPipeName b id : SB Z).
Proof using. unfold CFE_SB_GetPipeName, load_pipe. reporting. Qed.

Lemma reports_errors c a errs : reports (Broadcast_events c a errs : SB (list (option Z))).
Proof using.
  induction errs as [|[id eid] errs IH]; cbn [Broadcast_events]; [apply reports_ret|].
  apply reports_bind; [apply reports_request|]. intros granted. apply reports_bind; [|reporting].
  destruct granted; [|apply reports_ret]. apply reports_bind; [apply reports_pipe_name|]. reporting.
Qed.
End names.
#[export] Hint Resolve reports_pipe_name reports_errors : reports.
