(* ===== verification/SbSend.v ===== *)
(** * The software bus: delivering a message

    What [CFE_SB_BroadcastBufferToRoute] does: every destination of the route is
    visited once; a destination that accepts the message gets a reference to
    the buffer in the queue of its pipe, and the others leave every queue as it
    is.  The invariant holds again at the end, with the reference of the sender
    released. *)

From S2P Require Import Prelude ResourceId SbRoute SbRouteProofs SbRouteTheorems SbModel SbApi SbLists SbInv SbDests SbWorld.

(** ** Updates of a pipe descriptor that keep its identity *)

Definition same_ids (tbl tbl' : list CFE_SB_PipeD_t) : Prop :=
  zlen tbl' = zlen tbl
  /\ forall i, 0 <= i < zlen tbl ->
       PipeId (zget tbl' i) = PipeId (zget tbl i) /\ SysQueueId (zget tbl' i) = SysQueueId (zget tbl i).

Lemma same_ids_set tbl i p :
  0 <= i < zlen tbl -> PipeId p = PipeId (zget tbl i) -> SysQueueId p = SysQueueId (zget tbl i) ->
  same_ids tbl (zset tbl i p).
Proof.
  intros Hi E1 E2. split; [apply zlen_zset|]. intros j Hj. rewrite zget_zset by lia. by case_test; subst.
Qed.

Lemma flat_same {B} (f : CFE_SB_PipeD_t -> list B) tbl tbl' :
  zlen tbl' = zlen tbl -> (forall i, 0 <= i < zlen tbl -> f (zget tbl' i) = f (zget tbl i)) ->
  flat_map f tbl' = flat_map f tbl.
Proof.
  intros Hl Hf. rewrite !flat_map_concat_map. f_equal.
  apply (zget_ext (A := list B)); [unfold zlen in *; by rewrite !length_map|].
  intros i Hi. unfold zlen in Hi, Hl. rewrite length_map in Hi.
  assert (Hm : forall t, length t = length tbl -> zget (map f t) i = f (zget t i)).
  { intros t Ht. unfold zget. apply list_lookup_total_correct. change (map f t) with (f <$> t).
    rewrite list_lookup_fmap, (list_lookup_lookup_total_lt t) by lia. done. }
  rewrite !Hm by lia. apply Hf. unfold zlen. lia.
Qed.

Lemma live_queues_same tbl tbl' : same_ids tbl tbl' -> live_queues tbl' = live_queues tbl.
Proof.
  intros [Hl Hi]. apply flat_same; [done|]. intros i Hr. destruct (Hi i Hr) as [E1 E2].
  unfold queue_of, is_live. by rewrite E1, E2.
Qed.

Lemma pipes_inv_same tbl tbl' last Q dq rs :
  same_ids tbl tbl' -> pipes_inv tbl last Q dq rs -> pipes_inv tbl' last Q dq rs.
Proof.
  intros Hs [Hsz Hla Hsl Hre Hdi Hqu Hqd Hid]. pose proof (live_queues_same _ _ Hs) as Eq.
  destruct Hs as [Hl Hi]. split; rewrite ?Eq, ?Hl; try done.
  - intros i Hr. destruct (Hi i) as [-> _]; [by rewrite Hsz|]. auto.
  - intros i Hr. destruct (Hre i Hr). destruct (Hi i) as [-> _]; [by rewrite Hsz|done].
Qed.

Lemma pipe_live_same tbl tbl' id :
  same_ids tbl tbl' -> zlen tbl = CFE_PLATFORM_SB_MAX_PIPES -> pipe_live tbl id -> pipe_live tbl' id.
Proof.
  intros [_ Hi] Hl. unfold pipe_live. destruct (CFE_SB_LocatePipeDescByID id) as [i|] eqn:E; [|done].
  apply locate_range in E. destruct (Hi i) as [-> _]; [by rewrite Hl|done].
Qed.

(** A change of the contents of a queue that has an owner. *)
Lemma pipes_inv_queue tbl last Q dq rs id q items :
  pipes_inv tbl last Q dq rs -> Q !! id = Some q -> ~ In (id, true) dq ->
  pipes_inv tbl last (<[id := mkQueue (q_depth q) items]> Q) dq rs.
Proof.
  intros [Hsz Hla Hsl Hre Hdi Hqu Hqd Hid] Hq Hd. split; try done.
  - intros k. rewrite <- Hqd, lookup_insert_is_Some'. split; [intros [<-|?]; [by rewrite Hq|done]|auto].
  - intros k x Hk. destruct (decide (id = k)) as [<-|]; [|rewrite lookup_insert_ne by done; eauto].
    by destruct Hd.
Qed.

Section send.
Context {P M Msg : Type} `{HP : PoolBufLaws P} `{HMap : RouteMapLaws M} `{HMsg : SbPlatformLaws Msg}.
Local Abbreviation sb := (sb P M Msg).
Implicit Types (s : sb) (g : ghost).

(** The parts of the invariant that hold throughout a delivery. *)
Record base s g zl tl l D : Prop := {
  ba_core : core s zl tl (g_fresh g) (refs s (g_refs g));
  ba_pipes : pipes_inv (PipeTbl s) (LastPipeId s) (queues s) (g_queues g) (g_slots g);
  ba_dests : dests_inv s l D
}.

Lemma quiet_base s s' g zl tl l D : quiet s s' -> base s g zl tl l D -> base s' g zl tl l D.
Proof using.
  intros [] []. split; unfold refs; rewrite ?qu_pipes, ?qu_last, ?qu_queues; try done.
  - unfold refs in *. apply (core_ext s); congruence || done.
  - apply (dests_inv_ext s); rewrite ?qu_dests, ?qu_stats; done.
Qed.

(** A pipe descriptor that keeps its id, queue and last buffer. *)
Lemma base_store_pipe s g zl tl l D i p :
  base s g zl tl l D -> 0 <= i < CFE_PLATFORM_SB_MAX_PIPES ->
  PipeId p = PipeId (zget (PipeTbl s) i) -> SysQueueId p = SysQueueId (zget (PipeTbl s) i) ->
  LastBuffer p = LastBuffer (zget (PipeTbl s) i) ->
  base (set_PipeTbl (zset (PipeTbl s) i p) s) g zl tl l D.
Proof using.
  intros [] Hi E1 E2 E3. pose proof (pi_size _ _ _ _ _ ba_pipes0) as Hsz. rewrite <- Hsz in Hi.
  pose proof (same_ids_set _ _ p Hi E1 E2) as Hsame. split; sb_simpl.
  - unfold refs. sb_simpl. replace (lasts (zset (PipeTbl s) i p)) with (lasts (PipeTbl s)); [by apply (core_ext s)|].
    symmetry. apply flat_same; [apply zlen_zset|]. intros j Hj. rewrite zget_zset by lia. case_test; [|done]. subst.
    unfold last_ref, is_live. by rewrite E1, E3.
  - by apply (pipes_inv_same (PipeTbl s)).
  - destruct ba_dests0. split; sb_simpl; try done.
    intros a d Hd. by apply (pipe_live_same (PipeTbl s)); eauto.
Qed.

(** The decision the loop takes for a destination. *)
Inductive verdict := Skip | OverLimit | Accept (slot : Z) | Refused (status : Z).

Definition judge s (AppId : Z) (forced : Z -> Z) (d : CFE_SB_DestinationD_t) : verdict :=
  match (if Active d =? CFE_SB_ACTIVE then CFE_SB_LocatePipeDescByID (dest_PipeId d) else None) with
  | None => Skip
  | Some i =>
      let p := zget (PipeTbl s) i in
      if negb (PipeId p =? dest_PipeId d) then Skip
      else if negb (Z.land (Opts p) CFE_SB_PIPEOPTS_IGNOREMINE =? 0) && (pipe_AppId p =? AppId) then Skip
      else if MsgId2PipeLim d <=? BuffCount d then OverLimit
      else if negb (forced (SysQueueId p) =? OS_SUCCESS) then Refused (forced (SysQueueId p))
      else match queues s !! SysQueueId p with
           | None => Refused OS_ERR_INVALID_ID
           | Some q => if q_depth q <=? zlen (q_items q) then Refused OS_QUEUE_FULL else Accept i
           end
  end.

(** The queues after the verdict. *)
Definition queues_after s (a : Z) (v : verdict) : gmap Z os_queue :=
  match v with
  | Accept i =>
      let id := SysQueueId (zget (PipeTbl s) i) in
      match queues s !! id with
      | Some q => <[id := mkQueue (q_depth q) (q_items q ++ [a])]> (queues s)
      | None => queues s
      end
  | _ => queues s
  end.

Definition error_of (d : CFE_SB_DestinationD_t) (v : verdict) : list (Z * Z) :=
  match v with
  | OverLimit => [(dest_PipeId d, CFE_SB_MSGID_LIM_ERR_EID)]
  | Refused status => [(dest_PipeId d, if status =? OS_QUEUE_FULL then CFE_SB_Q_FULL_ERR_EID
                                       else CFE_SB_Q_WR_ERR_EID)]
  | _ => []
  end.

(** What a step of the delivery of buffer [a] leaves alone. *)
Record delivery s s' (a : Z) : Prop := {
  de_pipes : same_ids (PipeTbl s) (PipeTbl s');
  de_fields : forall i, 0 <= i < zlen (PipeTbl s) ->
    Opts (zget (PipeTbl s') i) = Opts (zget (PipeTbl s) i)
    /\ pipe_AppId (zget (PipeTbl s') i) = pipe_AppId (zget (PipeTbl s) i)
    /\ LastBuffer (zget (PipeTbl s') i) = LastBuffer (zget (PipeTbl s) i);
  de_last : LastPipeId s' = LastPipeId s;
  de_routes : routes s' = routes s;
  de_links : links s' = links s;
  de_report : SubscriptionReporting s' = SubscriptionReporting s;
  de_bufs : forall b, b <> a -> bufs s' !! b = bufs s !! b
}.

Lemma delivery_trans s1 s2 s3 a : delivery s1 s2 a -> delivery s2 s3 a -> delivery s1 s3 a.
Proof using.
  intros [[L1 I1] F1 ? ? ? ? B1] [[L2 I2] F2 ? ? ? ? B2]. split; try congruence.
  - split; [congruence|]. intros i Hi. destruct (I1 i Hi), (I2 i) as [-> ->]; [by rewrite L1|done].
  - intros i Hi. destruct (F1 i Hi), (F2 i) as (-> & -> & ->); [by rewrite L1|done].
  - intros b Hb. by rewrite B2, B1.
Qed.

Lemma delivery_keys s s' a : delivery s s' a -> same_keys (PipeTbl s) (PipeTbl s').
Proof using.
  intros Hd. destruct (de_pipes _ _ _ Hd) as [Hl Hk]. split; [done|]. intros i Hi. unfold pipe_key.
  destruct (Hk i Hi) as [-> ->]. by destruct (de_fields _ _ _ Hd i Hi) as (_ & _ & ->).
Qed.

(** The use count of the buffer grows by one with each accepted delivery. *)
Definition counted s s' (a n : Z) : Prop :=
  exists d, bufs s !! a = Some d /\ bufs s' !! a = Some (set_UseCount d (UseCount d + n)).

Lemma set_UseCount_id (d : CFE_SB_BufferD_t Msg) n : n = UseCount d -> set_UseCount d n = d.
Proof using. intros ->. by destruct d. Qed.

Lemma counted_trans s1 s2 s3 a n m : counted s1 s2 a n -> counted s2 s3 a m -> counted s1 s3 a (n + m).
Proof using.
  intros (d & E1 & E2) (e & E3 & E4). exists d. split; [done|]. rewrite E2 in E3. injection E3 as <-.
  rewrite E4. unfold set_UseCount. cbn. do 2 f_equal. lia.
Qed.

Lemma counted_zero s s' a d : bufs s !! a = Some d -> bufs s' = bufs s -> counted s s' a 0.
Proof using. intros Hd E. exists d. rewrite E. split; [done|]. by rewrite set_UseCount_id by lia. Qed.

Lemma deliver_failed_eff s g zl tl l D i errs id eid k a d :
  base s g zl tl l D -> 0 <= i < CFE_PLATFORM_SB_MAX_PIPES -> zlen errs < 16 -> bufs s !! a = Some d ->
  exists s', deliver_failed i errs id eid k s = Some (errs ++ [(id, eid)], s')
    /\ base s' g zl tl l D /\ delivery s s' a /\ counted s s' a 0
    /\ queues s' = queues s /\ dests s' = dests s.
Proof using.
  intros Hb Hi He Hd. unfold deliver_failed, record_error.
  rewrite (proj2 (Z.ltb_lt (zlen errs) CFE_PLATFORM_SB_MAX_DEST_PER_PKT)) by done. rewrite bind_ret.
  unfold count, load_pipe, store_pipe. rewrite bind_modify, bind_gets, bind_modify.
  set (s1 := set_HKTlm _ s). assert (Hb1 : base s1 g zl tl l D) by (by apply (quiet_base s)).
  eexists. split; [reflexivity|].
  pose proof (pi_size _ _ _ _ _ (ba_pipes _ _ _ _ _ _ Hb)) as Hsz.
  split; [by apply base_store_pipe|]. subst s1. split; [|split; [by apply (counted_zero s _ a d)|done]].
  split; sb_simpl; try done.
  - apply same_ids_set; [by rewrite Hsz|done..].
  - intros j Hj. rewrite zget_zset by lia. by case_test; subst.
Qed.

Lemma live_queue_in tbl i :
  0 <= i < zlen tbl -> is_live (zget tbl i) = true -> In (SysQueueId (zget tbl i)) (live_queues tbl).
Proof using.
  intros Hi Hl. unfold live_queues. rewrite in_flat_map. exists (zget tbl i). split; [by apply zget_In|].
  unfold queue_of. rewrite Hl. by left.
Qed.

(** The queue of a pipe that exists: no activity holds it. *)
Lemma pipe_queue s g zl tl l D i id :
  base s g zl tl l D -> CFE_SB_LocatePipeDescByID id = Some i -> PipeId (zget (PipeTbl s) i) = id ->
  0 <= i < CFE_PLATFORM_SB_MAX_PIPES /\ is_live (zget (PipeTbl s) i) = true
  /\ (exists q, queues s !! SysQueueId (zget (PipeTbl s) i) = Some q)
  /\ ~ In (SysQueueId (zget (PipeTbl s) i)) (map fst (g_queues g)).
Proof using.
  intros Hb Hl He. pose proof (locate_range _ _ Hl) as Hi. pose proof (ba_pipes _ _ _ _ _ _ Hb) as Hp.
  assert (Hlive : is_live (zget (PipeTbl s) i) = true) by (apply (located_live _ i); by rewrite He).
  assert (Hin : In (SysQueueId (zget (PipeTbl s) i)) (live_queues (PipeTbl s))).
  { apply live_queue_in; [by rewrite (pi_size _ _ _ _ _ Hp)|done]. }
  split_and!; [lia..|done| |].
  - apply (pi_qdom _ _ _ _ _ Hp). apply in_app_iff. by left.
  - pose proof (pi_queues _ _ _ _ _ Hp) as Hnd. apply NoDup_app_In in Hnd as (_ & Hd & _). auto.
Qed.

(** The successful branch of the loop body. *)
Lemma deliver_accept s g zl tl l D a bd x d i q :
  base s g zl tl l D -> bufs s !! a = Some bd -> UseCount bd < 0x7FFF -> dests s !! x = Some d ->
  CFE_SB_LocatePipeDescByID (dest_PipeId d) = Some i -> PipeId (zget (PipeTbl s) i) = dest_PipeId d ->
  queues s !! SysQueueId (zget (PipeTbl s) i) = Some q ->
  let p := zget (PipeTbl s) i in
  forall d' p', dshape d' = dshape d -> PipeId p' = PipeId p -> SysQueueId p' = SysQueueId p ->
  LastBuffer p' = LastBuffer p -> Opts p' = Opts p -> pipe_AppId p' = pipe_AppId p ->
  let Q := <[SysQueueId p := mkQueue (q_depth q) (q_items q ++ [a])]> (queues s) in
  exists s', (CFE_SB_IncrBufUseCnt a ;* store_dest x d' ;* store_pipe i p' ;* ret tt) (set_queues Q s) = Some (tt, s')
    /\ base s' g zl tl l D /\ delivery s s' a /\ counted s s' a 1 /\ queues s' = Q
    /\ dests s' = <[x := d']> (dests s).
Proof using.
  intros Hb Hbd Hlt Hx Hl He Hq p d' p' Ed Ep Eq El Eo Ea Q.
  destruct (pipe_queue _ _ _ _ _ _ _ _ Hb Hl He) as (Hi & _ & _ & Hnd).
  pose proof (pi_size _ _ _ _ _ (ba_pipes _ _ _ _ _ _ Hb)) as Hsz.
  assert (Hc0 : core (set_queues Q s) zl tl (g_fresh g) (refs s (g_refs g))) by (apply (core_ext s); [done..|apply Hb]).
  destruct (Incr_eff (set_queues Q s) zl tl (g_fresh g) _ a bd Hc0 Hbd Hlt) as [HI Hc1].
  rewrite (bind_run _ _ _ _ _ HI), bind_store_dest by (sb_simpl; by rewrite Hx).
  unfold store_pipe. rewrite bind_modify. eexists. split; [reflexivity|]. sb_simpl.
  assert (Hperm : a :: refs s (g_refs g) ≡ₚ g_refs g ++ all_items Q ++ lasts (PipeTbl s)).
  { unfold refs, Q. rewrite all_items_update, (all_items_split _ _ _ Hq). cbn [q_items].
    solve_Permutation. }
  split; [|split; [|split; [|split]]]; try done.
  - apply (base_store_pipe (set_dests (<[x := d']> (dests s)) (set_bufs _ (set_queues Q s)))); sb_simpl; try done.
    split; sb_simpl.
    + unfold refs. sb_simpl. apply (core_perm _ _ _ _ _ _ Hperm).
      apply (core_store_dest _ _ _ _ _ x d') in Hc1; [done|sb_simpl; by rewrite Hx].
    + apply pipes_inv_queue; [apply Hb|done|]. intros Hin. apply Hnd, in_map_iff. by exists (SysQueueId p, true).
    + apply (dests_inv_ext s); sb_simpl; [done..| | |apply Hb].
      * intros b. destruct (decide (x = b)) as [<-|]; [rewrite lookup_insert_eq, Hx; cbn; congruence|].
        by rewrite lookup_insert_ne.
      * apply map_size_insert_Some. by eexists.
  - split; sb_simpl; try done.
    + apply same_ids_set; [by rewrite Hsz|done..].
    + intros j Hj. rewrite zget_zset by lia. by case_test; subst.
    + intros b Hb'. by rewrite lookup_insert_ne.
  - exists bd. split; [done|]. sb_simpl. by rewrite lookup_insert_eq.
Qed.

Definition accepted (v : verdict) : Z := match v with Accept _ => 1 | _ => 0 end.

Lemma deliver_eff s g zl tl l D a bd AppId forced x d errs :
  base s g zl tl l D -> bufs s !! a = Some bd -> UseCount bd < 0x7FFF -> dests s !! x = Some d ->
  zlen errs < 16 ->
  let v := judge s AppId forced d in
  exists s', deliver a AppId forced x errs s = Some (errs ++ error_of d v, s')
    /\ base s' g zl tl l D /\ delivery s s' a /\ counted s s' a (accepted v)
    /\ queues s' = queues_after s a v
    /\ (forall b, b <> x -> dests s' !! b = dests s !! b)
    /\ (forall b, dshape <$> dests s' !! b = dshape <$> dests s !! b).
Proof using.
  intros Hb Hbd Hlt Hx He v.
  assert (Hdel0 : delivery s s a) by (split; done).
  assert (Hcnt0 : counted s s a 0) by (by apply (counted_zero s s a bd)).
  unfold deliver. rewrite (bind_load_dest _ _ _ _ Hx), bind_gets. unfold v, judge, CFE_SB_PipeDescIsMatch.
  destruct (if Active d =? CFE_SB_ACTIVE then CFE_SB_LocatePipeDescByID (dest_PipeId d) else None) as [i|] eqn:Es.
  2:{ exists s. cbn. rewrite app_nil_r. split_and!; done. }
  assert (Hl : CFE_SB_LocatePipeDescByID (dest_PipeId d) = Some i) by (by destruct (Active d =? CFE_SB_ACTIVE)).
  pose proof (locate_range _ _ Hl) as Hi. unfold CFE_ResourceId_Equal.
  destruct (Z.eqb_spec (PipeId (zget (PipeTbl s) i)) (dest_PipeId d)) as [Ep|Ep]; cbn [negb].
  2:{ exists s. cbn. rewrite app_nil_r. split_and!; done. }
  unfold load_pipe. rewrite bind_gets.
  destruct (_ && _) eqn:Eig.
  { exists s. cbn. rewrite app_nil_r. split_and!; done. }
  assert (Hfail : forall eid k, exists s', deliver_failed i errs (dest_PipeId d) eid k s = Some (errs ++ [(dest_PipeId d, eid)], s')
    /\ base s' g zl tl l D /\ delivery s s' a /\ counted s s' a 0 /\ queues s' = queues s
    /\ (forall b, b <> x -> dests s' !! b = dests s !! b)
    /\ (forall b, dshape <$> dests s' !! b = dshape <$> dests s !! b)).
  { intros eid k. destruct (deliver_failed_eff s g zl tl l D i errs (dest_PipeId d) eid k a bd Hb Hi He Hbd)
      as (s' & E & H1' & H2' & H3' & H4' & H5'). exists s'. rewrite H5'. split_and!; done. }
  destruct (MsgId2PipeLim d <=? BuffCount d); [apply Hfail|].
  set (p := zget (PipeTbl s) i) in *. unfold OS_QueuePut, bind at 1.
  destruct (Z.eqb_spec (forced (SysQueueId p)) OS_SUCCESS) as [Ef|Ef]; cbn [negb].
  2:{ rewrite (proj2 (Z.eqb_neq _ _) Ef). cbn [error_of accepted queues_after].
      destruct (forced (SysQueueId p) =? OS_QUEUE_FULL); apply Hfail. }
  destruct (pipe_queue _ _ _ _ _ _ _ _ Hb Hl Ep) as (_ & _ & [q Hq] & _). fold p in Hq. rewrite Hq.
  destruct (q_depth q <=? zlen (q_items q)); [apply Hfail|]. cbn [error_of accepted queues_after]. fold p.
  rewrite Hq, app_nil_r. change (OS_SUCCESS =? OS_SUCCESS) with true. cbn iota.
  set (d' := dest_set_DestCnt _ _). set (p' := pipe_set_depths _ _ _).
  destruct (deliver_accept s g zl tl l D a bd x d i q Hb Hbd Hlt Hx Hl Ep Hq d' p' eq_refl eq_refl eq_refl
              eq_refl eq_refl eq_refl) as (s' & E & H1' & H2' & H3' & H4' & H5').
  exists s'. split.
  - revert E. fold p. unfold bind, ret. destruct (CFE_SB_IncrBufUseCnt a _) as [[? s1]|]; [|done].
    destruct (store_dest x d' s1) as [[? s2]|]; [|done]. destruct (store_pipe i p' s2) as [[? s3]|]; [|done].
    by intros [= ->].
  - rewrite H5'. split_and!; try done.
    + intros b Hbx. by rewrite lookup_insert_ne.
    + intros b. destruct (decide (x = b)) as [<-|]; [by rewrite lookup_insert_eq, Hx|by rewrite lookup_insert_ne].
Qed.

(** *** The verdicts do not depend on the order of the deliveries *)

Lemma zget_others {A} `{Inhabited A} (t : list A) i j :
  0 <= i < zlen t -> 0 <= j < zlen t -> j <> i -> In (zget t j) (others t i).
Proof using.
  unfold zlen, others, zget. intros Hi Hj Hne. apply in_app_iff.
  destruct (Z_lt_ge_dec j i); [left|right]; apply list_elem_of_In.
  - apply (list_elem_of_lookup_2 _ (Z.to_nat j)). rewrite lookup_take_lt by lia.
    apply list_lookup_lookup_total_lt. lia.
  - apply (list_elem_of_lookup_2 _ (Z.to_nat j - S (Z.to_nat i))). rewrite lookup_drop.
    replace (S (Z.to_nat i) + (Z.to_nat j - S (Z.to_nat i)))%nat with (Z.to_nat j) by lia.
    apply list_lookup_lookup_total_lt. lia.
Qed.

Lemma live_queues_inj tbl i j :
  NoDup (live_queues tbl) -> 0 <= i < zlen tbl -> 0 <= j < zlen tbl ->
  is_live (zget tbl i) = true -> is_live (zget tbl j) = true ->
  SysQueueId (zget tbl i) = SysQueueId (zget tbl j) -> i = j.
Proof using.
  intros Hnd Hi Hj Li Lj E. destruct (Z.eq_dec j i) as [->|Hne]; [done|exfalso].
  unfold live_queues in Hnd. rewrite (flat_zget queue_of tbl i Hi) in Hnd. unfold queue_of in Hnd at 1.
  rewrite Li in Hnd. apply NoDup_cons_In in Hnd as [Hn _]. apply Hn. apply in_flat_map.
  exists (zget tbl j). split; [by apply zget_others|]. unfold queue_of. rewrite Lj, E. by left.
Qed.

Definition verdict_of s (AppId : Z) (forced : Z -> Z) (x : Z) : verdict :=
  match dests s !! x with Some d => judge s AppId forced d | None => Skip end.

Lemma judge_accept s AppId forced d i :
  judge s AppId forced d = Accept i ->
  CFE_SB_LocatePipeDescByID (dest_PipeId d) = Some i /\ PipeId (zget (PipeTbl s) i) = dest_PipeId d.
Proof using.
  unfold judge. destruct (Active d =? CFE_SB_ACTIVE); [|done].
  destruct (CFE_SB_LocatePipeDescByID (dest_PipeId d)) as [j|]; [|done].
  destruct (Z.eqb_spec (PipeId (zget (PipeTbl s) j)) (dest_PipeId d)); cbn [negb]; [|done].
  repeat case_test; try done. destruct (queues s !! _) as [q|]; [|done]. case_test; [done|].
  by intros [= <-].
Qed.

Lemma judge_stable s s1 g zl tl l D a AppId forced dx d :
  base s g zl tl l D -> delivery s s1 a ->
  queues s1 = queues_after s a (judge s AppId forced dx) -> dest_PipeId d <> dest_PipeId dx ->
  judge s1 AppId forced d = judge s AppId forced d.
Proof using.
  intros Hb Hdel Hq Hne. pose proof (pi_size _ _ _ _ _ (ba_pipes _ _ _ _ _ _ Hb)) as Hsz. unfold judge at 1 2.
  destruct (if Active d =? CFE_SB_ACTIVE then CFE_SB_LocatePipeDescByID (dest_PipeId d) else None) as [i|] eqn:Es; [|done].
  assert (Hl : CFE_SB_LocatePipeDescByID (dest_PipeId d) = Some i) by (by destruct (Active d =? CFE_SB_ACTIVE)).
  pose proof (locate_range _ _ Hl) as Hi. rewrite <- Hsz in Hi.
  destruct (proj2 (de_pipes _ _ _ Hdel) i Hi) as [-> ->]. destruct (de_fields _ _ _ Hdel i Hi) as (-> & -> & _).
  destruct (Z.eqb_spec (PipeId (zget (PipeTbl s) i)) (dest_PipeId d)) as [Ep|]; cbn [negb]; [|done].
  do 3 (case_test; [done|]).
  replace (queues s1 !! SysQueueId (zget (PipeTbl s) i)) with (queues s !! SysQueueId (zget (PipeTbl s) i)); [done|].
  rewrite Hq. destruct (judge s AppId forced dx) as [| |j|] eqn:Ej; try done. cbn [queues_after].
  apply judge_accept in Ej as [Hlj Epj].
  destruct (queues s !! SysQueueId (zget (PipeTbl s) j)) as [q|]; [|done].
  rewrite lookup_insert_ne; [done|]. intros Eq.
  assert (j = i); [|subst; congruence].
  pose proof (locate_range _ _ Hlj) as Hj. rewrite <- Hsz in Hj.
  apply (live_queues_inj (PipeTbl s)); try done.
  - pose proof (pi_queues _ _ _ _ _ (ba_pipes _ _ _ _ _ _ Hb)) as Hnd. by apply NoDup_app_In in Hnd as [? _].
  - apply (located_live _ j). by rewrite Epj.
  - apply (located_live _ i). by rewrite Ep.
Qed.

(** *** The loop *)

Definition target s (v : verdict) : list Z :=
  match v with Accept i => [SysQueueId (zget (PipeTbl s) i)] | _ => [] end.

(** The queues that get the message, and the errors, for the destinations [m]. *)
Definition targets s AppId forced (m : list Z) : list Z :=
  flat_map (fun x => target s (verdict_of s AppId forced x)) m.
Definition errors s AppId forced (m : list Z) : list (Z * Z) :=
  flat_map (fun x => match dests s !! x with
                     | Some d => error_of d (judge s AppId forced d)
                     | None => []
                     end) m.

(** The queue [id] with the message appended when it is a target. *)
Definition delivered_to (a : Z) (ts : list Z) (id : Z) (q : os_queue) : os_queue :=
  if existsb (Z.eqb id) ts then mkQueue (q_depth q) (q_items q ++ [a]) else q.

Lemma delivered_not a ts id q : ~ In id ts -> delivered_to a ts id q = q.
Proof using.
  intros Hn. unfold delivered_to. destruct (existsb _ ts) eqn:E; [|done].
  apply existsb_exists in E as (k & Hk & ->%Z.eqb_eq). done.
Qed.

Lemma target_after s a v id :
  match v with Accept i => is_Some (queues s !! SysQueueId (zget (PipeTbl s) i)) | _ => True end ->
  queues_after s a v !! id = delivered_to a (target s v) id <$> queues s !! id.
Proof using.
  intros Hq. destruct v as [| |i|]; cbn [queues_after target];
    try (by destruct (queues s !! id)).
  destruct Hq as [q Hq]. rewrite Hq. unfold delivered_to. cbn [existsb]. rewrite orb_false_r.
  destruct (Z.eqb_spec id (SysQueueId (zget (PipeTbl s) i))) as [->|Hne].
  - by rewrite lookup_insert_eq, Hq.
  - rewrite lookup_insert_ne by done. by destruct (queues s !! id).
Qed.

Lemma Broadcast_loop_eff fuel : forall s g zl tl l D a bd AppId forced i m p h q errs,
  base s g zl tl l D -> bufs s !! a = Some bd -> UseCount bd + zlen m < 0x7FFF ->
  0 <= i < 256 -> dseg (dests s) p h m q NULL -> NoDup m -> (forall x, In x m -> In x (D i)) ->
  (length m < fuel)%nat -> zlen errs + zlen m <= 16 ->
  exists s', Broadcast_loop fuel a AppId forced h errs s = Some (errs ++ errors s AppId forced m, s')
    /\ base s' g zl tl l D /\ delivery s s' a
    /\ (exists n, counted s s' a n /\ 0 <= n <= zlen m /\ n = zlen (targets s AppId forced m))
    /\ (forall id, queues s' !! id = delivered_to a (targets s AppId forced m) id <$> queues s !! id)
    /\ (forall b, dshape <$> dests s' !! b = dshape <$> dests s !! b).
Proof using.
  induction fuel as [|fuel IH]; intros s g zl tl l D a bd AppId forced i m p h q errs Hb Hbd Hu Hi Hs Hnd Hin Hf He; [lia|].
  cbn [Broadcast_loop]. destruct m as [|x m].
  - cbn in Hs. destruct Hs as [-> _]. rewrite Z.eqb_refl. exists s. cbn. rewrite app_nil_r.
    split_and!; try done; [exists 0; split; [by apply (counted_zero s s a bd)|done]|].
    intros id. by destruct (queues s !! id).
  - apply dseg_cons in Hs as (-> & Hx & d & Hd & Hpv & Hs). rewrite (proj2 (Z.eqb_neq x NULL)) by done.
    rewrite zlen_cons in *. pose proof (zlen_nonneg m). pose proof (zlen_nonneg errs).
    destruct (deliver_eff s g zl tl l D a bd AppId forced x d errs) as (s1 & E1 & Hb1 & Hdel1 & Hcnt1 & Hq1 & Hd1 & Hsh1);
      [done..|lia|done|lia|]. rewrite (bind_run _ _ _ _ _ E1).
    destruct (dests s1 !! x) as [d1|] eqn:Hd1x; [|specialize (Hsh1 x); by rewrite Hd, Hd1x in Hsh1].
    rewrite (bind_load_dest _ _ _ _ Hd1x).
    assert (En : dest_Next d1 = dest_Next d).
    { specialize (Hsh1 x). rewrite Hd, Hd1x in Hsh1. unfold dshape in Hsh1. cbn in Hsh1. congruence. }
    rewrite En. apply NoDup_cons_In in Hnd as [Hxm Hnd].
    set (v := judge s AppId forced d) in *.
    assert (Hacc : 0 <= accepted v <= 1) by (destruct v; cbn; lia).
    destruct Hcnt1 as (bd0 & Hbd0 & Hbd1) eqn:Hcnt1'. clear Hcnt1'. rewrite Hbd in Hbd0. injection Hbd0 as <-.
    assert (Hverd : forall y, In y m -> verdict_of s1 AppId forced y = verdict_of s AppId forced y
                     /\ dests s1 !! y = dests s !! y).
    { intros y Hy. assert (Hyx : y <> x) by congruence. rewrite Hd1 by done. split; [|done].
      unfold verdict_of. rewrite Hd1 by done. destruct (dests s !! y) as [dy|] eqn:Hdy; [|done].
      apply (judge_stable s s1 g zl tl l D a AppId forced d); try done.
      intros E. apply Hyx. apply (di_once _ _ _ (ba_dests _ _ _ _ _ _ Hb) i y x dy d); auto; [apply Hin; by right|apply Hin; by left]. }
    assert (Herr : zlen (error_of d v) <= 1) by (by destruct v).
    assert (Htg : targets s1 AppId forced m = targets s AppId forced m).
    { unfold targets. rewrite !flat_map_concat_map. f_equal. apply map_ext_in. intros y Hy.
      destruct (Hverd y Hy) as [-> _]. destruct (verdict_of s AppId forced y) as [| |j|] eqn:Ev; try done.
      cbn [target]. f_equal. apply (proj2 (de_pipes _ _ _ Hdel1)).
      rewrite (pi_size _ _ _ _ _ (ba_pipes _ _ _ _ _ _ Hb)). unfold verdict_of in Ev.
      destruct (dests s !! y); [|done]. apply judge_accept in Ev as [Hl _]. by apply locate_range in Hl. }
    assert (Her : errors s1 AppId forced m = errors s AppId forced m).
    { unfold errors. rewrite !flat_map_concat_map. f_equal. apply map_ext_in. intros y Hy.
      destruct (Hverd y Hy) as [Hv Hdy]. unfold verdict_of in Hv. rewrite Hdy in *.
      destruct (dests s !! y); [by rewrite Hv|done]. }
    destruct (IH s1 g zl tl l D a (set_UseCount bd (UseCount bd + accepted v)) AppId forced i m x (dest_Next d) q
                (errs ++ error_of d v)) as (s' & E2 & Hb2 & Hdel2 & (n & Hcnt2 & Hn & En2) & Hq2 & Hsh2);
      [done|done|cbn [UseCount set_UseCount]; lia|done| |done|intros y Hy; apply Hin; by right|cbn in Hf; lia
      |rewrite zlen_app; lia|].
    { apply (dseg_frame (dests s)); [|done]. intros y Hy. destruct (Hverd y Hy) as [_ ->]. done. }
    exists s'. rewrite E2, Her. unfold errors at 2. cbn [flat_map]. rewrite Hd, <- app_assoc.
    assert (Htgs : targets s AppId forced (x :: m) = target s v ++ targets s AppId forced m).
    { unfold targets. cbn [flat_map]. unfold verdict_of at 1. by rewrite Hd. }
    rewrite Htgs. split_and!; try done.
    + by apply (delivery_trans s s1 s').
    + exists (accepted v + n). split; [apply (counted_trans s s1 s'); [by exists bd|done]|]. split; [lia|].
      rewrite zlen_app, En2, Htg. f_equal. by destruct v.
    + intros id. rewrite Hq2, Hq1, Htg, target_after.
      * destruct (queues s !! id) as [qq|]; cbn; [|done]. f_equal. unfold delivered_to. rewrite existsb_app.
        destruct (existsb (Z.eqb id) (target s v)) eqn:Et; cbn [orb]; [|done].
        destruct (existsb (Z.eqb id) (targets s AppId forced m)) eqn:Em; [exfalso|done].
        apply existsb_exists in Et as (k & Hk & ->%Z.eqb_eq).
        apply existsb_exists in Em as (k' & Hk' & ->%Z.eqb_eq).
        unfold targets in Hk'. apply in_flat_map in Hk' as (y & Hy & Hk').
        destruct v as [| |j|] eqn:Ev; cbn in Hk; try done. destruct Hk as [Hk|[]].
        unfold verdict_of in Hk'. destruct (dests s !! y) as [dy|] eqn:Hdy; [|done].
        destruct (judge s AppId forced dy) as [| |j'|] eqn:Ev'; cbn in Hk'; try done. destruct Hk' as [Hk'|[]].
        apply judge_accept in Ev' as [Hl' Ep']. unfold v in Ev. apply judge_accept in Ev as [Hl Ep].
        pose proof (pi_size _ _ _ _ _ (ba_pipes _ _ _ _ _ _ Hb)) as Hsz.
        pose proof (locate_range _ _ Hl) as R1. pose proof (locate_range _ _ Hl') as R2. rewrite <- Hsz in R1, R2.
        assert (j = j').
        { apply (live_queues_inj (PipeTbl s)); try done.
          - pose proof (pi_queues _ _ _ _ _ (ba_pipes _ _ _ _ _ _ Hb)) as Hnq. by apply NoDup_app_In in Hnq as [? _].
          - apply (located_live _ j). by rewrite Ep.
          - apply (located_live _ j'). by rewrite Ep'.
          - congruence. }
        subst j'. apply Hxm. replace x with y; [done|].
        apply (di_once _ _ _ (ba_dests _ _ _ _ _ _ Hb) i y x dy d); auto; [apply Hin; by right|apply Hin; by left|congruence].
      * destruct v as [| |j|] eqn:Ev; try done. unfold v in Ev. apply judge_accept in Ev as [Hl Ep].
        by destruct (pipe_queue _ _ _ _ _ _ _ _ Hb Hl Ep) as (_ & _ & Hq & _).
    + intros b. by rewrite Hsh2, Hsh1.
Qed.
End send.
