(* ===== verification/SbBroadcast.v ===== *)
(** * The software bus: broadcasting a buffer

    The locked section of [CFE_SB_BroadcastBufferToRoute] as a whole, and the
    sections of [CFE_SB_TransmitMsg], [CFE_SB_TransmitBuffer],
    [CFE_SB_AllocateMessageBuffer] and [CFE_SB_ReleaseMessageBuffer], each with
    what it does to the invariant and to the references held by the caller. *)

From S2P Require Import Prelude ResourceId SbRoute SbRouteProofs SbRouteTheorems SbModel SbApi SbLists SbInv SbDests SbWorld SbSend.

Section broadcast.
Context {P M Msg : Type} `{HP : PoolBufLaws P} `{HMap : RouteMapLaws M} `{HMsg : SbPlatformLaws Msg}.
Local Abbreviation sb := (sb P M Msg).
Local Abbreviation SB := (SB (P := P) (M := M) (Msg := Msg)).
Implicit Types (s : sb) (g : ghost).

(** *** Moving a buffer between the tracking lists *)

Lemma core_links s L' zl tl fr zl' tl' fr' refs :
  core s zl tl fr refs -> tracked L' zl' tl' fr' ->
  (forall x, In x (zl' ++ tl' ++ fr') <-> In x (zl ++ tl ++ fr)) ->
  core (set_links L' s) zl' tl' fr' refs.
Proof using.
  intros [] Ht Hx. split; sb_simpl; try done. intros a. by rewrite Hx.
Qed.

Lemma inv_base s g zl tl l D : inv_at s g zl tl l D -> base s g zl tl l D.
Proof using. intros []. by split. Qed.

(** The fields of a buffer that the invariant does not constrain. *)
Definition same_account (d d' : CFE_SB_BufferD_t Msg) : Prop :=
  AllocatedSize d' = AllocatedSize d /\ UseCount d' = UseCount d.

Lemma base_store_buf s g zl tl l D a d d' :
  base s g zl tl l D -> bufs s !! a = Some d -> same_account d d' ->
  base (set_bufs (<[a := d']> (bufs s)) s) g zl tl l D.
Proof using.
  intros [Hc Hp Hd] Ha [E1 E2]. split; [|done|by apply (dests_inv_ext s)].
  by apply (core_store s _ _ _ _ a d).
Qed.

(** A change of a route that keeps its message id and its list. *)
Lemma base_routes s g zl tl l D r f :
  base s g zl tl l D -> 0 <= r -> (forall e, route_MsgId (f e) = route_MsgId e) ->
  (forall e, ListHeadPtr (f e) = ListHeadPtr e) ->
  base (set_routes (update_route (routes s) r f) s) g zl tl l D.
Proof using.
  intros [Hc Hp Hd] Hr H1' H2'.
  assert (Hh : forall i, 0 <= i < 256 -> head_at (update_route (routes s) r f) i = head_at (routes s) i).
  { intros i Hi. unfold update_route, head_at. destruct (CFE_SBR_IsValidRouteId r) eqn:Ev; [|done].
    apply valid_route_iff in Ev; [|done]. rewrite route_value by done. cbn [RoutingTbl].
    rewrite zget_zset by (rewrite ?(di_size _ _ _ Hd); lia). case_test; [subst; apply H2'|done]. }
  split; [by apply (core_ext s)|done|].
  destruct Hd. split; sb_simpl; try done.
  - by apply update_route_rep.
  - intros i Hi. rewrite Hh by done. auto.
Qed.

(** *** The sequence count *)

Lemma set_sequence_eff s g zl tl l D a d i :
  base s g zl tl l D -> bufs s !! a = Some d -> 0 <= i < 256 ->
  exists s' d', set_sequence a (i + 1) s = Some (tt, s') /\ base s' g zl tl l D
    /\ PipeTbl s' = PipeTbl s /\ LastPipeId s' = LastPipeId s /\ queues s' = queues s /\ dests s' = dests s
    /\ links s' = links s /\ SubscriptionReporting s' = SubscriptionReporting s
    /\ bufs s' = <[a := d']> (bufs s)
    /\ d' = set_Content d (Content d')
    /\ Content d' = (if AutoSequence d && (ContentType d =? CFE_MSG_Type_Tlm)
                     then CFE_MSG_SetSequenceCount (Content d)
                            (CFE_MSG_GetNextSequenceCount (CFE_SBR_GetSequenceCounter (routes s) (i + 1)))
                     else Content d)
    /\ (forall j, 0 <= j < 256 -> head_at (routes s') j = head_at (routes s) j).
Proof using.
  intros Hb Hd Hi. unfold set_sequence. rewrite (bind_load_buf _ _ _ _ Hd). destruct (_ && _).
  - rewrite bind_modify, bind_gets, run_store_buf by (sb_simpl; by rewrite Hd). sb_simpl.
    assert (Hsz := di_size _ _ _ (ba_dests _ _ _ _ _ _ Hb)).
    assert (Hseq : CFE_SBR_GetSequenceCounter (CFE_SBR_IncrementSequenceCounter CFE_MSG_GetNextSequenceCount (routes s) (i + 1)) (i + 1)
                   = CFE_MSG_GetNextSequenceCount (CFE_SBR_GetSequenceCounter (routes s) (i + 1))).
    { unfold CFE_SBR_GetSequenceCounter, CFE_SBR_IncrementSequenceCounter, update_route.
      rewrite route_valid, route_value by lia. cbn [RoutingTbl]. by rewrite zget_zset_eq by lia. }
    eexists _, (set_Content d _). split; [reflexivity|].
    split; [|sb_simpl; rewrite Hseq; split_and!; try done].
    + apply (base_store_buf (set_routes _ s) g zl tl l D a d); [|done..].
      apply base_routes; [done|lia|done..].
    + intros j Hj. unfold CFE_SBR_IncrementSequenceCounter, update_route, head_at.
      rewrite route_valid, route_value by lia. cbn [RoutingTbl]. rewrite zget_zset by lia. by case_test; subst.
  - eexists s, d. split; [reflexivity|]. split_and!; try done; [by rewrite insert_id|by destruct d].
Qed.

(** *** The end of the section: the buffer goes to the list of messages in
    transit and the reference of the sender is released. *)

(** Giving up the reference [a] of an owner. *)
Definition released g (a : Z) : ghost :=
  mkGhost (g_held g) (without a (g_fresh g)) (without a (g_zero g)) (g_queues g) (g_slots g).

Lemma owned_once s g zl tl l D a d :
  inv_at s g zl tl l D -> In a zl \/ In a (g_fresh g) -> bufs s !! a = Some d ->
  occurs (refs s (g_refs g)) a = 1%nat.
Proof using.
  intros Hi Ho Hd. destruct (in_bufs _ _ _ _ _ _ Hi a d Hd) as (_ & _ & H1' & _).
  destruct (co_count _ _ _ _ _ (in_core _ _ _ _ _ _ Hi) a d Hd). rewrite H1' in * by done. lia.
Qed.

Lemma released_refs s g zl tl l D a :
  inv_at s g zl tl l D -> In a zl \/ In a (g_fresh g) -> g_refs g ≡ₚ a :: g_refs (released g a).
Proof using.
  intros Hi Ho. destruct (tracked_nodups _ _ _ _ (co_tracked _ _ _ _ _ (in_core _ _ _ _ _ _ Hi))) as (Hz & _ & Hf & Dz & _ & Df).
  apply NoDup_cons_In in Hz as [_ Hz]. pose proof (in_zero _ _ _ _ _ _ Hi) as Ez.
  assert (Hin : forall b, In b zl <-> In b (g_zero g)) by (intros b; by rewrite Ez). rewrite Ez in Hz.
  unfold g_refs, released. cbn [g_zero g_fresh g_held]. destruct Ho as [Ho|Ho].
  - apply Dz in Ho as Hn. cbn in Hn. rewrite in_app_iff in Hn. apply Hin in Ho.
    rewrite (without_absent a (g_fresh g)) by tauto. by rewrite <- (without_perm a (g_zero g) Hz Ho) at 1.
  - apply Df in Ho as Hn. cbn in Hn. rewrite in_app_iff, Hin in Hn.
    rewrite (without_absent a (g_zero g)) by tauto. rewrite <- (without_perm a (g_fresh g) Hf Ho) at 1.
    cbn [app]. by rewrite <- Permutation_middle.
Qed.

Lemma occurs_app (l1 l2 : list Z) a : occurs (l1 ++ l2) a = (occurs l1 a + occurs l2 a)%nat.
Proof using. apply count_occ_app. Qed.

Definition into_transit (a : Z) : SB unit :=
  CFE_SB_TrackingListRemove a ;*
  let* b := load_buf a in
  store_buf a (set_AppId b CFE_ES_APPID_UNDEFINED) ;*
  CFE_SB_TrackingListAdd InTransitList a.

Lemma into_transit_eff s g zl tl l D a d :
  base s g zl tl l D -> bufs s !! a = Some d -> ~ In a tl ->
  exists L', into_transit a s
      = Some (tt, set_links L' (set_bufs (<[a := set_AppId d CFE_ES_APPID_UNDEFINED]> (bufs s)) s))
    /\ core (set_links L' (set_bufs (<[a := set_AppId d CFE_ES_APPID_UNDEFINED]> (bufs s)) s))
         (without a zl) (tl ++ [a]) (without a (g_fresh g)) (refs s (g_refs g)).
Proof using.
  intros Hb Hd Htl. pose proof (ba_core _ _ _ _ _ _ Hb) as Hc.
  assert (Hin : In a (zl ++ tl ++ g_fresh g)) by (apply Hc; by rewrite Hd).
  destruct (Remove_tracked s zl tl (g_fresh g) a (co_tracked _ _ _ _ _ Hc) Hin) as (L1 & E1 & Ht1).
  unfold into_transit. rewrite (bind_run _ _ _ _ _ E1), (bind_load_buf a d), bind_store_buf by (sb_simpl; by rewrite ?Hd).
  sb_simpl. rewrite (without_absent a tl Htl) in Ht1.
  set (s1 := set_bufs _ (set_links L1 s)).
  destruct (Add_transit s1 (without a zl) tl (without a (g_fresh g)) a Ht1) as (L2 & E2 & Ht2).
  rewrite E2. exists L2. split; [done|].
  apply (core_links (set_bufs (<[a := set_AppId d CFE_ES_APPID_UNDEFINED]> (bufs s)) s) L2 zl tl (g_fresh g)).
  - by apply (core_store s _ _ _ _ a d).
  - done.
  - intros x. rewrite !in_app_iff, !in_without. cbn [In]. rewrite !in_app_iff in Hin.
    split; [intros [[? ?]|[[?|[<-|[]]]|[? ?]]]; tauto|].
    destruct (Z.eq_dec x a) as [->|]; tauto.
Qed.

(** Everything the locked section does after the loop over the destinations. *)
Lemma finish_broadcast s s2 g zl tl l D a d n :
  inv_at s g zl tl l D -> In a zl \/ In a (g_fresh g) ->
  base s2 g zl tl l D -> (forall b, b <> a -> bufs s2 !! b = bufs s !! b) -> bufs s2 !! a = Some d ->
  is_u32 (bd_MsgId d) -> UseCount d = 1 + n -> n <= 16 ->
  exists s', (into_transit a ;* CFE_SB_DecrBufUseCnt a) s2 = Some (tt, s')
    /\ inv s' (released g a) /\ same_tables s2 s' /\ dests s' = dests s2 /\ HKTlm s' = HKTlm s2
    /\ (forall b, b <> a -> bufs s' !! b = bufs s2 !! b)
    /\ bufs s' !! a = (if n =? 0 then None else Some (set_UseCount (set_AppId d CFE_ES_APPID_UNDEFINED) n)).
Proof using HP.
  intros Hi Ho Hb Hother Hd Hid Hu Hn. pose proof (released_refs _ _ _ _ _ _ _ Hi Ho) as Hperm.
  remember (g_refs (released g a)) as rest eqn:Erest.
  destruct (tracked_nodups _ _ _ _ (co_tracked _ _ _ _ _ (in_core _ _ _ _ _ _ Hi))) as (_ & _ & _ & Dz & _ & Df).
  assert (Htl : ~ In a tl).
  { destruct Ho as [Ho|Ho]; [apply Dz in Ho|apply Df in Ho]; cbn in Ho; rewrite in_app_iff in Ho; tauto. }
  destruct (into_transit_eff s2 g zl tl l D a d Hb Hd Htl) as (L' & E1 & Hc). rewrite (bind_run _ _ _ _ _ E1).
  set (s3 := set_links L' _) in *.
  assert (Hc' : core s3 (without a zl) (tl ++ [a]) (without a (g_fresh g)) (a :: refs s2 rest)).
  { apply (core_perm _ _ _ _ (refs s2 (g_refs g))); [|done]. unfold refs. by rewrite Hperm. }
  destruct (co_count _ _ _ _ _ Hc' a (set_AppId d CFE_ES_APPID_UNDEFINED)) as [Hcnt Hge];
    [unfold s3; sb_simpl; by rewrite lookup_insert_eq|]. cbn in Hcnt. destruct (Z.eq_dec a a) as [_|]; [|done].
  destruct (Decr_eff s3 _ _ _ _ a Hc') as (s4 & E2 & (Hst & Hds & Hhk & Hsub) & Hcase). rewrite E2.
  assert (Hbufs : (forall b, b <> a -> bufs s4 !! b = bufs s2 !! b)
     /\ bufs s4 !! a = (if n =? 0 then None else Some (set_UseCount (set_AppId d CFE_ES_APPID_UNDEFINED) n))
     /\ exists tl', core s4 (without a zl) tl' (without a (g_fresh g)) (refs s4 rest)).
  { assert (Hrefs : refs s4 rest = refs s2 rest) by (unfold refs; by rewrite (st_queues _ _ Hst), (st_pipes _ _ Hst)).
    rewrite Hrefs. destruct Hcase as [(Hin & Hc4 & e & He & Eb)|(Hnin & Hc4 & Eb)].
    - unfold s3 in He, Eb. sb_simpl. rewrite lookup_insert_eq in He. injection He as <-. rewrite Eb.
      apply (count_occ_In Z.eq_dec) in Hin. cbn [UseCount set_AppId] in *.
      rewrite (proj2 (Z.eqb_neq n 0)) by lia. split_and!; [| |by eexists].
      + intros b Hne. by rewrite !lookup_insert_ne.
      + rewrite lookup_insert_eq. do 2 f_equal. lia.
    - unfold s3 in Eb. sb_simpl. rewrite Eb. apply (count_occ_not_In Z.eq_dec) in Hnin. cbn [UseCount set_AppId] in *.
      assert (n = 0) as -> by lia. cbn. split_and!.
      + intros b Hne. by rewrite lookup_delete_ne, lookup_insert_ne.
      + apply lookup_delete_eq.
      + rewrite !(without_absent a (without a _)) in Hc4 by (rewrite in_without; tauto). by eexists. }
  destruct Hbufs as (Hb1 & Hb2 & tl' & Hc4). exists s4.
  assert (Hsame2 : PipeTbl s4 = PipeTbl s2 /\ LastPipeId s4 = LastPipeId s2 /\ queues s4 = queues s2 /\ routes s4 = routes s2).
  { destruct Hst. done. }
  destruct Hsame2 as (Ep & El & Eq & Er).
  split; [done|]. split; [|split_and!; try done; by destruct Hst].
  exists (without a zl), tl', l, D. split; rewrite <- ?Erest; cbn [g_fresh g_zero g_queues g_slots released].
  - done.
  - intros b e He. destruct (Z.eq_dec b a) as [->|Hne].
    + rewrite Hb2 in He. destruct (Z.eqb_spec n 0); [done|]. injection He as <-.
      unfold buf_wf. cbn. unfold max_use, CFE_PLATFORM_SB_MAX_DEST_PER_PKT. rewrite !in_without.
      split_and!; [done..|lia|tauto|]. unfold CFE_ES_APPID_UNDEFINED. tauto.
    + rewrite Hb1, Hother in He by done. destruct (in_bufs _ _ _ _ _ _ Hi b e He) as (W1 & W2 & W3 & W4).
      unfold buf_wf. rewrite !in_without. split_and!; [done..|tauto|tauto].
  - by rewrite (in_zero _ _ _ _ _ _ Hi).
  - rewrite Ep, El, Eq. apply Hb.
  - apply (dests_inv_ext s2); try done; [by rewrite Hds|by rewrite Hds|apply Hb].
Qed.

(** The verdicts only depend on the destinations, the pipes and the queues. *)
Lemma judge_ext s s' AppId forced d :
  PipeTbl s' = PipeTbl s -> queues s' = queues s -> judge s' AppId forced d = judge s AppId forced d.
Proof using. intros E1 E2. unfold judge. by rewrite E1, E2. Qed.

Lemma targets_ext s s' AppId forced m :
  PipeTbl s' = PipeTbl s -> queues s' = queues s -> dests s' = dests s ->
  targets s' AppId forced m = targets s AppId forced m.
Proof using.
  intros E1 E2 E3. unfold targets, target, verdict_of. rewrite E1, E3. apply flat_map_ext. intros x.
  destruct (dests s !! x); [|done]. by rewrite (judge_ext s s').
Qed.

Lemma errors_ext s s' AppId forced m :
  PipeTbl s' = PipeTbl s -> queues s' = queues s -> dests s' = dests s ->
  errors s' AppId forced m = errors s AppId forced m.
Proof using.
  intros E1 E2 E3. unfold errors. rewrite E3. apply flat_map_ext. intros x.
  destruct (dests s !! x); [|done]. by rewrite (judge_ext s s').
Qed.

(** The content of the buffer once the sequence count is set. *)
Definition sequenced s (RouteId : Z) (d : CFE_SB_BufferD_t Msg) : Msg :=
  if CFE_SBR_IsValidRouteId RouteId && (AutoSequence d && (ContentType d =? CFE_MSG_Type_Tlm))
  then CFE_MSG_SetSequenceCount (Content d)
         (CFE_MSG_GetNextSequenceCount (CFE_SBR_GetSequenceCounter (routes s) RouteId))
  else Content d.

Definition dests_of (D : Z -> list Z) (RouteId : Z) : list Z :=
  if CFE_SBR_IsValidRouteId RouteId then D (RouteId - 1) else [].

(** The part before the buffer changes lists. *)
Definition Broadcast_deliver c (forced : Z -> Z) (a RouteId : Z) : SB (list (Z * Z)) :=
  if CFE_SBR_IsValidRouteId RouteId then
    set_sequence a RouteId ;*
    let* head := list_head RouteId in
    let* fuel := dest_fuel in
    Broadcast_loop fuel a (c_AppId c) forced head []
  else ret [].

Lemma Broadcast_deliver_eff s g zl tl l D a d c forced r :
  base s g zl tl l D -> bufs s !! a = Some d -> UseCount d = 1 -> 0 <= r ->
  let ts := targets s (c_AppId c) forced (dests_of D r) in
  exists s', Broadcast_deliver c forced a r s = Some (errors s (c_AppId c) forced (dests_of D r), s')
    /\ base s' g zl tl l D /\ same_keys (PipeTbl s) (PipeTbl s') /\ SubscriptionReporting s' = SubscriptionReporting s
    /\ (forall b, b <> a -> bufs s' !! b = bufs s !! b)
    /\ bufs s' !! a = Some (set_UseCount (set_Content d (sequenced s r d)) (1 + zlen ts)) /\ zlen ts <= 16
    /\ (forall id, queues s' !! id = delivered_to a ts id <$> queues s !! id)
    /\ (forall b, dshape <$> dests s' !! b = dshape <$> dests s !! b).
Proof using.
  intros Hb Hd Hu Hr ts. subst ts. unfold Broadcast_deliver, dests_of.
  destruct (CFE_SBR_IsValidRouteId r) eqn:Ev.
  2:{ exists s. split_and!; try done.
      - rewrite Hd. f_equal. unfold sequenced. rewrite Ev. destruct d. unfold set_UseCount, set_Content. cbn in *. by subst.
      - intros id. by destruct (queues s !! id). }
  assert (Ev' := Ev). apply valid_route_iff in Ev; [|done]. set (i := r - 1). replace r with (i + 1) by lia.
  assert (Hi : 0 <= i < 256) by lia. clearbody i. replace (i + 1 - 1) with i by lia.
  destruct (set_sequence_eff s g zl tl l D a d i Hb Hd Hi)
    as (s1 & d1 & E1 & Hb1 & Ep & El & Eq & Ed & Elk & Er & Eb & Ed1 & Ec1 & Hh).
  rewrite (bind_run _ _ _ _ _ E1), bind_list_head by done. unfold dest_fuel. rewrite bind_gets.
  pose proof (di_nodup _ _ _ (ba_dests _ _ _ _ _ _ Hb1) i Hi) as Hnd.
  pose proof (di_limit _ _ _ (ba_dests _ _ _ _ _ _ Hb1) i Hi) as Hlim. unfold CFE_PLATFORM_SB_MAX_DEST_PER_PKT in Hlim.
  destruct (di_list _ _ _ (ba_dests _ _ _ _ _ _ Hb1) i Hi) as [q Hq].
  assert (Hd1 : bufs s1 !! a = Some d1) by (rewrite Eb; apply lookup_insert_eq).
  assert (Hu1 : UseCount d1 = 1) by (rewrite Ed1; done).
  destruct (Broadcast_loop_eff (S (size (dests s1))) s1 g zl tl l D a d1 (c_AppId c) forced i (D i) NULL
              (head_at (routes s1) i) q []) as (s2 & E2 & Hb2 & Hdel & (n & Hcnt & Hn & En) & Hq2 & Hsh);
    [done|done|lia|done|done|done|auto| |by change (zlen []) with 0|].
  { pose proof (list_fits s1 (D i) Hnd (fun x Hx => proj1 (dseg_nodes _ _ _ _ _ _ x Hq Hx))). lia. }
  rewrite (targets_ext s s1), (errors_ext s s1) in * by done. rewrite E2. cbn [app].
  destruct Hcnt as (d1' & Hd1' & Hd2). rewrite Hd1 in Hd1'. injection Hd1' as <-.
  exists s2. split_and!; try done.
  - rewrite <- Ep. by apply (delivery_keys _ _ a).
  - by rewrite (de_report _ _ _ Hdel).
  - intros b Hne. rewrite (de_bufs _ _ _ Hdel) by done. rewrite Eb. by rewrite lookup_insert_ne.
  - rewrite Hd2, Hu1, En. do 2 f_equal. rewrite Ed1 at 1. f_equal. unfold sequenced. by rewrite route_valid.
  - lia.
  - intros id. by rewrite Hq2, Eq.
  - intros b. by rewrite Hsh, Ed.
Qed.

(** The whole locked section, for a buffer [a] of which the sender holds the
    only reference. *)
Lemma Broadcast_locked_eff s g zl tl l D a d c forced r :
  inv_at s g zl tl l D -> In a zl \/ In a (g_fresh g) ->
  bufs s !! a = Some d -> 0 <= r ->
  let ts := targets s (c_AppId c) forced (dests_of D r) in
  exists s', Broadcast_locked c forced a r s = Some (errors s (c_AppId c) forced (dests_of D r), s')
    /\ inv s' (released g a) /\ same_keys (PipeTbl s) (PipeTbl s')
    /\ SubscriptionReporting s' = SubscriptionReporting s
    /\ (forall b, b <> a -> bufs s' !! b = bufs s !! b)
    /\ bufs s' !! a = (if zlen ts =? 0 then None
                       else Some (set_UseCount (set_AppId (set_Content d (sequenced s r d)) CFE_ES_APPID_UNDEFINED) (zlen ts)))
    /\ (forall id, queues s' !! id = delivered_to a ts id <$> queues s !! id)
    /\ (forall b, dshape <$> dests s' !! b = dshape <$> dests s !! b).
Proof using HP.
  intros Hi Ho Hd Hr ts. pose proof (in_bufs _ _ _ _ _ _ Hi a d Hd) as (W1 & _ & W3 & _).
  destruct (Broadcast_deliver_eff s g zl tl l D a d c forced r (inv_base _ _ _ _ _ _ Hi) Hd (W3 Ho) Hr)
    as (s1 & E1 & Hb1 & Hids & Hrep & Hoth & Hda & Hts & Hq & Hsh). fold ts in Hda, Hts, Hq.
  unfold Broadcast_locked. change (if CFE_SBR_IsValidRouteId r then _ else _) with (Broadcast_deliver c forced a r).
  rewrite (bind_run _ _ _ _ _ E1). set (errs := errors _ _ _ _).
  assert (Hcnt : exists s2, (if 0 <? zlen errs then count MsgSendErrorCounter else ret tt) s1 = Some (tt, s2)
                   /\ quiet s1 s2) by (case_test; by eexists).
  destruct Hcnt as (s2 & E2 & Qu). rewrite (bind_run _ _ _ _ _ E2).
  pose proof (quiet_base _ _ _ _ _ _ _ Qu Hb1) as Hb2. destruct Qu as [_ Qb _ Qd Qp _ _ Qq Qr _].
  destruct (finish_broadcast s s2 g zl tl l D a (set_UseCount (set_Content d (sequenced s r d)) (1 + zlen ts)) (zlen ts))
    as (s' & E3 & Hinv & Hst & Hds & _ & Ho' & Ha'); try done.
  { intros b Hne. rewrite Qb. auto. }
  { by rewrite Qb. }
  exists s'. split_and!; try done.
  - revert E3. unfold into_transit, bind, ret. destruct (CFE_SB_TrackingListRemove a s2) as [[? t1]|]; [|done].
    destruct (load_buf a t1) as [[? t2]|]; [|done]. destruct (store_buf a _ t2) as [[? t3]|]; [|done].
    destruct (CFE_SB_TrackingListAdd _ a t3) as [[? t4]|]; [|done].
    destruct (CFE_SB_DecrBufUseCnt a t4) as [[? t5]|]; [|done]. by intros [= _ ->].
  - rewrite (st_pipes _ _ Hst), Qp. done.
  - by rewrite (st_report _ _ Hst), Qr.
  - intros b Hne. rewrite Ho' by done. rewrite Qb. auto.
  - intros id. by rewrite (st_queues _ _ Hst), Qq.
  - intros b. by rewrite Hds, Qd.
Qed.
End broadcast.
