(* ===== verification/SbBuffers.v ===== *)
(** * The software bus: the sections that allocate, fill and release buffers

    Ghost states form a commutative monoid: what each activity holds is added to
    what the others hold.  The lemmas of this file are stated with the share of
    one activity split off, [gadd (gfresh a) g] say, and give the share it has
    afterwards; [g] is the share of everyone else. *)

From S2P Require Import Prelude ResourceId SbRoute SbRouteProofs SbRouteTheorems SbModel SbApi SbLists SbInv SbDests SbWorld SbSend SbBroadcast.

(** ** Shares *)

Definition gadd (g1 g2 : ghost) : ghost :=
  mkGhost (g_held g1 ++ g_held g2) (g_fresh g1 ++ g_fresh g2) (g_zero g1 ++ g_zero g2)
    (g_queues g1 ++ g_queues g2) (g_slots g1 ++ g_slots g2).

(** A buffer in no tracking list, a zero copy buffer, a reference, a queue and a
    slot of the pipe table. *)
Definition gfresh (a : Z) : ghost := mkGhost [] [a] [] [] [].
Definition gzero (a : Z) : ghost := mkGhost [] [] [a] [] [].
Definition gheld (a : Z) : ghost := mkGhost [a] [] [] [] [].
Definition gqueue (q : Z) (empty : bool) : ghost := mkGhost [] [] [] [(q, empty)] [].
Definition gslot (i : Z) : ghost := mkGhost [] [] [] [] [i].

Record geqv (g1 g2 : ghost) : Prop := {
  ge_held : g_held g1 ≡ₚ g_held g2;
  ge_fresh : g_fresh g1 ≡ₚ g_fresh g2;
  ge_zero : g_zero g1 ≡ₚ g_zero g2;
  ge_queues : g_queues g1 ≡ₚ g_queues g2;
  ge_slots : g_slots g1 ≡ₚ g_slots g2
}.

#[export] Instance geqv_equivalence : Equivalence geqv.
Proof.
  split; [by intros g|by intros g1 g2 []|]. intros g1 g2 g3 [] []. split; by etransitivity.
Qed.

#[export] Instance gadd_proper : Proper (geqv ==> geqv ==> geqv) gadd.
Proof. intros a a' [] b b' []. split; cbn; by apply Permutation_app. Qed.

Lemma gadd_comm g1 g2 : geqv (gadd g1 g2) (gadd g2 g1).
Proof. split; cbn; apply Permutation_app_comm. Qed.
Lemma gadd_assoc g1 g2 g3 : geqv (gadd g1 (gadd g2 g3)) (gadd (gadd g1 g2) g3).
Proof. split; cbn; by rewrite app_assoc. Qed.
Lemma gadd_idle g : gadd idle g = g.
Proof. by destruct g. Qed.
Lemma gadd_swap g1 g2 g3 : geqv (gadd g1 (gadd g2 g3)) (gadd g2 (gadd g1 g3)).
Proof. by rewrite gadd_assoc, (gadd_comm g1 g2), <- gadd_assoc. Qed.

#[export] Instance g_refs_proper : Proper (geqv ==> (≡ₚ)) g_refs.
Proof. intros g g' []. unfold g_refs. by repeat apply Permutation_app. Qed.

Lemma g_refs_add g1 g2 : g_refs (gadd g1 g2) ≡ₚ g_refs g1 ++ g_refs g2.
Proof. unfold g_refs. cbn. solve_Permutation. Qed.

Lemma tracked_free_perm L zl tl fr fr' : fr ≡ₚ fr' -> tracked L zl tl fr -> tracked L zl tl fr'.
Proof.
  intros Hp []. split; try done.
  - intros x Hx. apply tr_free. by rewrite Hp.
  - by rewrite <- Hp.
  - intros a. by rewrite <- Hp.
Qed.

Section shares.
Context {P M Msg : Type} `{HP : PoolBufLaws P} `{HMap : RouteMapLaws M} `{HMsg : SbPlatformLaws Msg}.
Local Abbreviation sb := (sb P M Msg).
Local Abbreviation SB := (SB (P := P) (M := M) (Msg := Msg)).
Implicit Types (s : sb) (g : ghost).

Lemma core_free_perm s zl tl fr fr' refs : fr ≡ₚ fr' -> core s zl tl fr refs -> core s zl tl fr' refs.
Proof using.
  intros Hp []. split; try done.
  - by apply (tracked_free_perm _ _ _ fr).
  - intros a. by rewrite <- Hp.
Qed.

#[export] Instance inv_proper s : Proper (geqv ==> iff) (inv s).
Proof using.
  intros g g' Hg. assert (Himp : forall x y, geqv x y -> inv s x -> inv s y); [|split; by apply Himp].
  clear. intros g g' Hg. pose proof (g_refs_proper _ _ Hg) as E1. destruct Hg as [_ E2 E3 E4 E5]. intros (zl & tl & l & D & []). exists zl, tl, l, D. split; try done.
  - apply (core_free_perm _ _ _ _ _ _ E2), (core_perm _ _ _ _ (refs s (g_refs g))); [|done].
    unfold refs. by rewrite E1.
  - intros a d Hd. destruct (in_bufs a d Hd) as (W1 & W2 & W3 & W4). unfold buf_wf.
    rewrite <- E2. done.
  - by rewrite in_zero.
  - destruct in_pipes. split; rewrite <- ?E4, <- ?E5; try done.
    + intros i Hi. rewrite <- E5. auto.
    + intros i. rewrite <- E5. auto.
    + intros q. rewrite <- E4. auto.
    + intros q x. rewrite <- E4. eauto.
Qed.

(** *** New buffers *)

Lemma inv_same_tables s s' g zl tl l D zl' tl' refs' fr' :
  inv_at s g zl tl l D -> buffers_only s s' ->
  core s' zl' tl' fr' refs' -> dests_inv s' l D
  /\ pipes_inv (PipeTbl s') (LastPipeId s') (queues s') (g_queues g) (g_slots g)
  /\ forall held, refs s' held = refs s held.
Proof using.
  intros Hi [[E1 E2 E3 E4 E5] (Ed & _ & Es)] _. split_and!.
  - apply (dests_inv_ext s); rewrite ?Ed; try done. apply Hi.
  - rewrite E1, E2, E4. apply Hi.
  - intros held. unfold refs. by rewrite E1, E4.
Qed.

Lemma GetBuffer_inv s g size :
  inv s g -> 0 <= size <= CFE_MISSION_SB_MAX_SB_MSG_SIZE ->
  exists a s', CFE_SB_GetBufferFromPool size s = Some (a, s') /\ buffers_only s s'
    /\ ((a = NULL /\ inv s' g /\ bufs s' = bufs s)
        \/ (a <> NULL /\ bufs s !! a = None /\ inv s' (gadd (gfresh a) g)
             /\ bufs s' = <[a := fresh_buf (size + CFE_SB_BUFFERD_CONTENT_OFFSET)]> (bufs s))).
Proof using HP HMsg.
  intros (zl & tl & l & D & Hi) Hsz.
  destruct (GetBuffer_eff s _ _ _ _ size (in_core _ _ _ _ _ _ Hi) Hsz) as (a & s' & E & Hbo & Hcase).
  exists a, s'. split_and!; [done..|].
  destruct Hcase as [(-> & Hc & Eb)|(Hne & Hnew & Hc & Eb)]; [left|right];
    destruct (inv_same_tables _ _ _ _ _ _ _ _ _ _ _ Hi Hbo Hc) as (Hd & Hp & Hr); split_and!; try done;
    exists zl, tl, l, D; split; cbn [gadd gfresh g_held g_fresh g_zero g_queues g_slots app]; try done.
  - by rewrite Hr.
  - intros b e. rewrite Eb. apply Hi.
  - apply Hi.
  - rewrite Hr. apply (core_perm _ _ _ _ (a :: refs s (g_refs g))); [|done]. unfold refs.
    by rewrite (g_refs_add (gfresh a) g).
  - intros b e. rewrite Eb. destruct (decide (a = b)) as [<-|Hab].
    + rewrite lookup_insert_eq. intros [= <-]. unfold buf_wf. cbn. split_and!; [done..|].
      split; [done|]. intros Hz. exfalso.
      assert (Hx : is_Some (bufs s !! a)) by (apply (co_dom _ _ _ _ _ (in_core _ _ _ _ _ _ Hi)); apply in_app_iff; by left).
      rewrite Hnew in Hx. by destruct Hx.
    + rewrite lookup_insert_ne by done. intros He. destruct (in_bufs _ _ _ _ _ _ Hi b e He) as (W1 & W2 & W3 & W4).
      unfold buf_wf. cbn [In]. split_and!; try done. intros [?|[?|?]]; try done; auto.
  - apply Hi.
Qed.

(** *** Writing a buffer *)

Lemma inv_store_buf s g a d d' :
  inv s g -> bufs s !! a = Some d -> same_account d d' -> bd_AppId d' = bd_AppId d ->
  is_u32 (bd_MsgId d') -> inv (set_bufs (<[a := d']> (bufs s)) s) g.
Proof using.
  intros (zl & tl & l & D & Hi) Hd [E1 E2] E3 E4. exists zl, tl, l, D. destruct Hi.
  split; sb_simpl; try done.
  - by apply (core_store s _ _ _ _ a d).
  - intros b e. destruct (decide (a = b)) as [<-|]; [|rewrite lookup_insert_ne by done; apply in_bufs].
    rewrite lookup_insert_eq. intros [= <-]. destruct (in_bufs a d Hd) as (W1 & W2 & W3 & W4).
    unfold buf_wf. rewrite E2, E3. done.
  - by apply (dests_inv_ext s).
Qed.

Lemma share_ref s g1 g a : In a (g_refs g1) -> In a (refs s (g_refs (gadd g1 g))).
Proof using. intros Ha. unfold refs. rewrite g_refs_add, !in_app_iff. auto. Qed.

Lemma share_live s g a : inv s (gadd (gheld a) g) -> exists d, bufs s !! a = Some d /\ 0 <= a < 2 ^ 63 /\ 2 < a.
Proof using.
  intros (zl & tl & l & D & Hi). destruct (co_refs _ _ _ _ _ (in_core _ _ _ _ _ _ Hi) a) as [d Hd].
  { apply share_ref. by left. }
  exists d. split; [done|].
  assert (2 < a < 2 ^ 63); [|lia]. apply (co_addr _ _ _ _ _ (in_core _ _ _ _ _ _ Hi)).
  by rewrite (live_buf _ _ _ Hd).
Qed.
End shares.

(** ** The sections *)

Section sections.
Context {P M Msg : Type} `{HP : PoolBufLaws P} `{HMap : RouteMapLaws M} `{HMsg : SbPlatformLaws Msg}.
Local Abbreviation sb := (sb P M Msg).
Local Abbreviation SB := (SB (P := P) (M := M) (Msg := Msg)).
Implicit Types (s : sb) (g : ghost) (c : caller).

(** What the checks of a message give, where [l] are the message ids with a
    route. *)
Definition validated (l : list Z) (msg : Msg) : validation :=
  let id := CFE_MSG_GetMsgId msg in
  let size := CFE_MSG_GetSize msg in
  if negb (CFE_SB_IsValidMsgId id) then mkValidation CFE_SB_BAD_ARGUMENT (Some id) None None
  else if CFE_MISSION_SB_MAX_SB_MSG_SIZE <? size
       then mkValidation CFE_SB_MSG_TOO_BIG (Some id) (Some size) None
       else mkValidation CFE_SUCCESS (Some id) (Some size) (Some (route_of l id)).

Lemma Validate_eff s l D c msg :
  dests_inv s l D ->
  exists s', CFE_SB_TransmitMsgValidate c (Some msg) s = Some (validated l msg, s') /\ quiet s s'.
Proof using HMsg.
  intros Hd. unfold CFE_SB_TransmitMsgValidate, validated.
  assert (Hg : forall b e, reports (guarded_event (c_Task c) b e (ret tt) : SB unit)) by (intros; reporting).
  destruct (negb (CFE_SB_IsValidMsgId (CFE_MSG_GetMsgId msg))).
  { destruct (Hg CFE_SB_SEND_INV_MSGID_EID_BIT CFE_SB_SEND_INV_MSGID_EID s) as (u & s' & E & Q).
    rewrite (bind_run _ _ _ _ _ E). by exists s'. }
  destruct (_ <? _).
  { destruct (Hg CFE_SB_MSG_TOO_BIG_EID_BIT CFE_SB_MSG_TOO_BIG_EID s) as (u & s' & E & Q).
    rewrite (bind_run _ _ _ _ _ E). by exists s'. }
  unfold route_lookup. unfold bind at 1.
  rewrite (GetRouteId_rep _ _ _ (di_routes _ _ _ Hd) (msgid_range msg)).
  match goal with |- exists s', bind ?m ?k ?t = _ /\ _ =>
    assert (Hm : reports m) by (destruct (negb _); reporting);
    destruct (Hm t) as (u & s' & E & Q); rewrite (bind_run _ _ _ _ _ E) end.
  by exists s'.
Qed.

Definition v_ok (v : validation) : Prop :=
  v_Status v = CFE_SUCCESS ->
  exists n r, v_Size v = Some n /\ v_RouteId v = Some r
    /\ 0 <= n <= CFE_MISSION_SB_MAX_SB_MSG_SIZE /\ 0 <= r.

Lemma validated_ok l msg : v_ok (validated l msg).
Proof using HMsg.
  unfold validated, v_ok. destruct (negb _); [done|]. destruct (Z.ltb_spec CFE_MISSION_SB_MAX_SB_MSG_SIZE (CFE_MSG_GetSize msg)); [done|].
  intros _. eexists _, _. split_and!; [done..|apply msg_size_nonneg|lia|]. apply route_of_range.
Qed.

Lemma buffers_only_quiet s1 s2 s3 :
  buffers_only s1 s2 -> quiet s2 s3 -> same_tables s1 s3 /\ dests s3 = dests s1.
Proof using. intros [[] (Ed & _)] []. split; [split; congruence|congruence]. Qed.

Lemma Transmit_alloc_eff s g v :
  inv s g -> v_ok v ->
  exists st a s', Transmit_alloc v s = Some ((st, a), s') /\ same_tables s s' /\ dests s' = dests s
    /\ ((a = NULL /\ inv s' g /\ bufs s' = bufs s)
        \/ (a <> NULL /\ st = CFE_SUCCESS /\ v_Status v = CFE_SUCCESS /\ inv s' (gadd (gfresh a) g)
            /\ bufs s !! a = None /\ exists n, bufs s' = <[a := fresh_buf n]> (bufs s))).
Proof using HP HMsg.
  intros Hi Hv. unfold Transmit_alloc.
  assert (Hcnt : forall (r : Z * Z) s1, exists s2,
    ((if negb (fst r =? CFE_SUCCESS) then count MsgSendErrorCounter else ret tt) ;* ret r) s1 = Some (r, s2)
    /\ quiet s1 s2).
  { intros r s1. destruct (negb _); by eexists. }
  assert (Hnone : forall st, exists s', ((if negb (st =? CFE_SUCCESS) then count MsgSendErrorCounter else ret tt) ;*
             ret (st, NULL)) s = Some ((st, NULL), s') /\ same_tables s s' /\ dests s' = dests s /\ inv s' g
             /\ bufs s' = bufs s).
  { intros st. destruct (Hcnt (st, NULL) s) as (s2 & E & Q). exists s2. split; [done|].
    split_and!; try apply Q; [split; apply Q|by apply (quiet_inv s)]. }
  destruct (Z.eqb_spec (v_Status v) CFE_SUCCESS) as [Es|Es].
  - destruct (Hv Es) as (n & r & -> & -> & Hn & Hr). cbn [andb]. destruct (CFE_SBR_IsValidRouteId r).
    + rewrite bind_bind. destruct (GetBuffer_inv s g n Hi Hn) as (a & s1 & E & Hbo & Hcase).
      rewrite (bind_run _ _ _ _ _ E). destruct Hcase as [(-> & Hi1 & Eb)|(Hne & Hnew & Hi1 & Eb)].
      * rewrite Z.eqb_refl, bind_ret. destruct (Hcnt (CFE_SB_BUF_ALOC_ERR, NULL) s1) as (s2 & E2 & Q).
        exists CFE_SB_BUF_ALOC_ERR, NULL, s2. destruct (buffers_only_quiet _ _ _ Hbo Q). rewrite E2.
        split_and!; [done..|]. left. split_and!; [done|by apply (quiet_inv s1)|]. by rewrite (qu_bufs _ _ Q).
      * rewrite (proj2 (Z.eqb_neq a NULL)), bind_ret by done. rewrite Es.
        destruct (Hcnt (CFE_SUCCESS, a) s1) as (s2 & E2 & Q).
        exists CFE_SUCCESS, a, s2. destruct (buffers_only_quiet _ _ _ Hbo Q). rewrite E2.
        split_and!; [done..|]. right. split_and!; [done..|by apply (quiet_inv s1)|done|].
        rewrite (qu_bufs _ _ Q). by eexists.
    + rewrite bind_ret. destruct (Hnone (v_Status v)) as (s' & E & H1' & H2' & H3' & H4').
      exists (v_Status v), NULL, s'. split_and!; [done..|]. by left.
  - assert (Hr : exists s', bind (ret (v_Status v, NULL)) (fun r =>
              (if negb (fst r =? CFE_SUCCESS) then count MsgSendErrorCounter else ret tt) ;* ret r) s
              = Some ((v_Status v, NULL), s') /\ same_tables s s' /\ dests s' = dests s /\ inv s' g /\ bufs s' = bufs s).
    { rewrite bind_ret. apply Hnone. }
    destruct Hr as (s' & E & H1' & H2' & H3' & H4'). exists (v_Status v), NULL, s'.
    destruct (v_RouteId v); [destruct (v_Size v)|]; cbn [andb]; split_and!; try done; by left.
Qed.

(** Filling the buffer. *)
Definition filled (b : CFE_SB_BufferD_t Msg) (msg : Msg) (inc : bool) : CFE_SB_BufferD_t Msg :=
  mkBufferD (CFE_MSG_GetMsgId msg) (bd_AppId b) (AllocatedSize b) (CFE_MSG_GetSize msg)
    (CFE_MSG_GetType msg) inc (UseCount b) msg.

Lemma Transmit_fill_eff s g a b msg inc :
  inv s g -> bufs s !! a = Some b ->
  let s' := set_bufs (<[a := filled b msg inc]> (bufs s)) s in
  Transmit_fill a msg inc s = Some (tt, s') /\ inv s' g.
Proof using HMsg.
  intros Hi Hb s'. split.
  - unfold Transmit_fill. rewrite (bind_load_buf _ _ _ _ Hb). apply run_store_buf. by rewrite Hb.
  - apply (inv_store_buf s g a b); try done. apply msgid_range.
Qed.

(** The address of a message back to its descriptor. *)
Lemma descriptor_of_content a : 0 <= a < 2 ^ 63 -> u64 (content_ptr a - CFE_SB_BUFFERD_CONTENT_OFFSET) = a /\ (content_ptr a =? NULL) = false.
Proof using HMsg.
  intros Ha. pose proof offset_range. unfold content_ptr. split; [rewrite u64_id by range; lia|].
  apply Z.eqb_neq. unfold NULL. lia.
Qed.

(** The share of a zero copy buffer. *)
Lemma zero_share s g a :
  inv s (gadd (gzero a) g) ->
  exists d, bufs s !! a = Some d /\ bd_AppId d <> CFE_ES_APPID_UNDEFINED /\ UseCount d = 1 /\ 2 < a < 2 ^ 63.
Proof using.
  intros (zl & tl & l & D & Hi). destruct (co_refs _ _ _ _ _ (in_core _ _ _ _ _ _ Hi) a) as [d Hd]; [apply share_ref; by left|].
  assert (Hz : In a zl) by (rewrite (in_zero _ _ _ _ _ _ Hi); by left).
  destruct (in_bufs _ _ _ _ _ _ Hi a d Hd) as (_ & _ & W3 & W4). exists d. split_and!; [done|by apply W4|auto|..].
  - apply (co_addr _ _ _ _ _ (in_core _ _ _ _ _ _ Hi)). by rewrite (live_buf _ _ _ Hd).
  - apply (co_addr _ _ _ _ _ (in_core _ _ _ _ _ _ Hi)). by rewrite (live_buf _ _ _ Hd).
Qed.

Lemma ZeroCopyValidate_eff s g a :
  inv s (gadd (gzero a) g) ->
  CFE_SB_ZeroCopyBufferValidate (content_ptr a) s = Some ((CFE_SUCCESS, a), s).
Proof using HMsg.
  intros Hi. destruct (zero_share _ _ _ Hi) as (d & Hd & Happ & _ & Ha). unfold CFE_SB_ZeroCopyBufferValidate.
  destruct (descriptor_of_content a) as [-> ->]; [lia|]. rewrite (bind_load_buf _ _ _ _ Hd).
  unfold CFE_ResourceId_IsDefined. by rewrite (proj2 (Z.eqb_neq (bd_AppId d) 0) Happ).
Qed.

Lemma without_cons_fresh a (l : list Z) : NoDup (a :: l) -> without a (a :: l) = l.
Proof using. apply (without_split a [] l). Qed.

(** The only reference to a zero copy buffer is released. *)
Lemma drop_zero s g a d d' :
  inv s (gadd (gzero a) g) -> bufs s !! a = Some d -> same_account d d' ->
  exists s', CFE_SB_DecrBufUseCnt a (set_bufs (<[a := d']> (bufs s)) s) = Some (tt, s')
    /\ inv s' g /\ same_tables s s' /\ dests s' = dests s /\ bufs s' = delete a (bufs s).
Proof using HP.
  intros (zl & tl & l & D & Hi) Hd Hacc. pose proof (in_core _ _ _ _ _ _ Hi) as Hc.
  assert (Hz : In a zl) by (rewrite (in_zero _ _ _ _ _ _ Hi); by left).
  pose proof (core_store s _ _ _ _ a d d' Hc Hd (proj1 Hacc) (proj2 Hacc)) as Hc1.
  destruct (tracked_nodups _ _ _ _ (co_tracked _ _ _ _ _ Hc)) as (Hzn & _ & _ & Dz & _ & _).
  apply NoDup_cons_In in Hzn as [_ Hzn]. specialize (Dz a Hz). cbn in Dz. rewrite in_app_iff in Dz.
  destruct (Decr_eff (set_bufs (<[a := d']> (bufs s)) s) zl tl (g_fresh g) (refs s (g_refs g)) a Hc1)
    as (s' & E & Hbo & Hcase).
  exists s'. split; [done|]. pose proof (in_bufs _ _ _ _ _ _ Hi a d Hd) as (_ & _ & W3 & _).
  destruct (co_count _ _ _ _ _ Hc a d Hd) as [Hcount _]. rewrite W3 in Hcount by auto.
  change (refs s (g_refs (gadd (gzero a) g))) with (a :: refs s (g_refs g)) in Hcount.
  cbn in Hcount. destruct (Z.eq_dec a a) as [_|]; [|done].
  destruct Hcase as [(Hin & _)|(Hnin & Hc2 & Eb)].
  { apply (count_occ_In Z.eq_dec) in Hin. lia. }
  sb_simpl. rewrite delete_insert_eq in Eb. rewrite !(without_absent a tl), !(without_absent a (g_fresh g)) in Hc2 by tauto.
  assert (Hbo' : buffers_only s s') by (destruct Hbo as [[] Hr]; split; [by split|exact Hr]).
  destruct (inv_same_tables _ _ _ _ _ _ _ _ _ _ _ Hi Hbo' Hc2) as (Hdi & Hp & Hr).
  split; [|split_and!; try done; apply Hbo'].
  exists (without a zl), tl, l, D. split; try done.
  - by rewrite Hr.
  - intros b e. rewrite Eb. intros [Hne He]%lookup_delete_Some.
    destruct (in_bufs _ _ _ _ _ _ Hi b e He) as (V1 & V2 & V3 & V4). unfold buf_wf. cbn in V3. rewrite in_without.
    split_and!; [done..| |]; [intros [[? _]|?]; auto|]. rewrite V4. split; [|tauto]. intros; split; congruence.
  - assert (Ez : zl ≡ₚ a :: g_zero g) by apply (in_zero _ _ _ _ _ _ Hi).
    rewrite Ez in Hzn. rewrite Ez. by rewrite without_cons_fresh.
Qed.

Lemma Release_eff s g a :
  inv s (gadd (gzero a) g) ->
  exists s', CFE_SB_ReleaseMessageBuffer (content_ptr a) s = Some (CFE_SUCCESS, s')
    /\ inv s' g /\ same_tables s s' /\ dests s' = dests s /\ bufs s' = delete a (bufs s).
Proof using HP HMsg.
  intros Hi. unfold CFE_SB_ReleaseMessageBuffer. rewrite (bind_run _ _ _ _ _ (ZeroCopyValidate_eff _ _ _ Hi)).
  destruct (zero_share _ _ _ Hi) as (d & Hd & _).
  change (CFE_SUCCESS =? CFE_SUCCESS) with true. cbn iota.
  rewrite bind_bind, (bind_load_buf _ _ _ _ Hd), bind_bind, bind_store_buf by (by rewrite Hd).
  destruct (drop_zero s g a d (set_AppId d CFE_ES_APPID_UNDEFINED) Hi Hd) as (s' & E & R); [done|].
  rewrite (bind_run _ _ _ _ _ E). by exists s'.
Qed.

(** A fresh buffer becomes a zero copy buffer of an application. *)
Lemma into_zero_eff s g a d who x :
  inv s (gadd (gfresh a) g) -> bufs s !! a = Some d -> who <> CFE_ES_APPID_UNDEFINED ->
  exists L', let d' := set_Content (set_AppId d who) x in
    CFE_SB_TrackingListAdd ZeroCopyList a (set_bufs (<[a := set_AppId d who]> (bufs s)) s)
      = Some (tt, set_links L' (set_bufs (<[a := set_AppId d who]> (bufs s)) s))
    /\ inv (set_bufs (<[a := d']> (bufs s)) (set_links L' s)) (gadd (gzero a) g).
Proof using.
  intros (zl & tl & l & D & Hi) Hd Happ. pose proof (in_core _ _ _ _ _ _ Hi) as Hc.
  destruct (Add_zero (set_bufs (<[a := set_AppId d who]> (bufs s)) s) zl tl (g_fresh g) a) as (L' & E & Ht); [apply Hc|].
  exists L'. split; [done|]. destruct (in_bufs _ _ _ _ _ _ Hi a d Hd) as (W1 & W2 & W3 & _).
  destruct (tracked_nodups _ _ _ _ (co_tracked _ _ _ _ _ Hc)) as (_ & _ & Hf & _ & _ & Df). cbn in Hf.
  apply NoDup_cons_In in Hf as [Hf _].
  exists (zl ++ [a]), tl, l, D.
  assert (Hc1 : core (set_links L' s) (zl ++ [a]) tl (g_fresh g) (refs s (g_refs (gadd (gzero a) g)))).
  { apply (core_perm _ _ _ _ (refs s (g_refs (gadd (gfresh a) g)))).
    { unfold refs. by rewrite !g_refs_add. }
    apply (core_links s L' zl tl (a :: g_fresh g)); [exact Hc|done|]. intros y.
    rewrite !in_app_iff. cbn [In]. tauto. }
  split; cbn [gadd gzero g_held g_fresh g_zero g_queues g_slots app]; sb_simpl.
  - by apply (core_store (set_links L' s) _ _ _ _ a d).
  - intros b e. destruct (decide (a = b)) as [<-|Hne].
    + rewrite lookup_insert_eq. intros [= <-]. unfold buf_wf. cbn [bd_MsgId UseCount bd_AppId set_Content set_AppId].
      split_and!; [done..| |]; [intros _; apply W3; right; by left|]. rewrite in_app_iff. cbn. tauto.
    + rewrite lookup_insert_ne by done. intros He. destruct (in_bufs _ _ _ _ _ _ Hi b e He) as (V1 & V2 & V3 & V4).
      unfold buf_wf. cbn in V3. rewrite in_app_iff. cbn [In]. split_and!; [done..| |].
      * intros [[?|[?|[]]]|?]; auto; done.
      * rewrite V4. split; [tauto|]. intros [?|[?|[]]]; done.
  - rewrite (in_zero _ _ _ _ _ _ Hi). cbn. by rewrite Permutation_app_comm.
  - apply Hi.
  - apply (dests_inv_ext s); try done. apply Hi.
Qed.

Lemma AllocateMessageBuffer_eff s g c MsgSize :
  inv s g -> 0 <= MsgSize -> (c_AppStatus c = CFE_SUCCESS -> c_AppId c <> CFE_ES_APPID_UNDEFINED) ->
  exists r s', CFE_SB_AllocateMessageBuffer c MsgSize s = Some (r, s') /\ same_tables s s' /\ dests s' = dests s
    /\ ((r = NULL /\ inv s' g /\ bufs s' = bufs s)
        \/ exists a n, r = content_ptr a /\ inv s' (gadd (gzero a) g) /\ bufs s !! a = None
             /\ bufs s' = <[a := set_Content (set_AppId (fresh_buf n) (c_AppId c)) (cleared_content MsgSize)]> (bufs s)).
Proof using HP HMsg.
  intros Hi Hsz Happ. unfold CFE_SB_AllocateMessageBuffer.
  assert (Hnull : exists r s', ret NULL s = Some (r, s') /\ same_tables s s' /\ dests s' = dests s
    /\ ((r = NULL /\ inv s' g /\ bufs s' = bufs s)
        \/ exists a n, r = content_ptr a /\ inv s' (gadd (gzero a) g) /\ bufs s !! a = None
             /\ bufs s' = <[a := set_Content (set_AppId (fresh_buf n) (c_AppId c)) (cleared_content MsgSize)]> (bufs s))).
  { exists NULL, s. split_and!; [done..|]. by left. }
  destruct (Z.ltb_spec CFE_MISSION_SB_MAX_SB_MSG_SIZE MsgSize) as [|Hle]; [done|].
  destruct (Z.eqb_spec (c_AppStatus c) CFE_SUCCESS) as [Es|]; [|done].
  destruct (GetBuffer_inv s g MsgSize Hi) as (a & s1 & E & Hbo & Hcase); [lia|].
  rewrite (bind_run _ _ _ _ _ E). destruct Hcase as [(-> & Hi1 & Eb)|(Hne & Hnew & Hi1 & Eb)].
  - rewrite Z.eqb_refl. exists NULL, s1. split_and!; [done|apply Hbo..|]. by left.
  - rewrite (proj2 (Z.eqb_neq a NULL)) by done. cbn [negb].
    set (n := MsgSize + CFE_SB_BUFFERD_CONTENT_OFFSET) in *.
    assert (Hd : bufs s1 !! a = Some (fresh_buf n)) by (rewrite Eb; apply lookup_insert_eq).
    rewrite (bind_load_buf _ _ _ _ Hd), bind_store_buf by (by rewrite Hd).
    destruct (into_zero_eff s1 g a (fresh_buf n) (c_AppId c) (cleared_content MsgSize) Hi1 Hd (Happ Es)) as (L' & EA & Hi2).
    rewrite (bind_run _ _ _ _ _ EA). erewrite bind_load_buf by (sb_simpl; apply lookup_insert_eq).
    rewrite bind_store_buf by (sb_simpl; by rewrite lookup_insert_eq).
    eexists _, _. split; [reflexivity|]. sb_simpl.
    split; [destruct Hbo as [[] _]; by split|]. split; [apply Hbo|]. right. exists a, n.
    rewrite insert_insert_eq. split_and!; [done| |done|].
    + exact Hi2.
    + rewrite Eb. by rewrite insert_insert_eq.
Qed.

(** Sending a zero copy buffer: the descriptor is completed, the buffer stays
    with its owner. *)
Definition prepared (b : CFE_SB_BufferD_t Msg) (v : validation) (inc : bool) : CFE_SB_BufferD_t Msg :=
  let ok := v_Status v =? CFE_SUCCESS in
  mkBufferD (default (bd_MsgId b) (v_MsgId v)) (bd_AppId b) (AllocatedSize b)
    (default (ContentSize b) (v_Size v)) (if ok then CFE_MSG_GetType (Content b) else ContentType b)
    (if ok then inc else AutoSequence b) (UseCount b) (Content b).

Lemma TransmitBuffer_prepare_eff s g c a inc :
  inv s (gadd (gzero a) g) ->
  exists b s' l D, bufs s !! a = Some b /\ dests_inv s l D
    /\ let v := validated l (Content b) in
      TransmitBuffer_prepare c (content_ptr a) inc s
        = Some ((v_Status v, match v_RouteId v with Some r => Some (a, r) | None => None end), s')
    /\ inv s' (gadd (gzero a) g) /\ same_tables s s' /\ dests s' = dests s
    /\ bufs s' = <[a := prepared b v inc]> (bufs s).
Proof using HMsg.
  intros Hi. unfold TransmitBuffer_prepare. rewrite (bind_run _ _ _ _ _ (ZeroCopyValidate_eff _ _ _ Hi)).
  change (CFE_SUCCESS =? CFE_SUCCESS) with true. cbn iota.
  destruct (zero_share _ _ _ Hi) as (b & Hb & _). rewrite (bind_load_buf _ _ _ _ Hb).
  pose proof Hi as (zl & tl & l & D & Hia).
  destruct (Validate_eff s l D c (Content b) (in_dests _ _ _ _ _ _ Hia)) as (s1 & E & Q).
  rewrite (bind_run _ _ _ _ _ E). pose proof (quiet_inv _ _ _ Q Hi) as Hi1.
  pose proof (qu_bufs _ _ Q) as Eb. destruct (in_bufs _ _ _ _ _ _ Hia a b Hb) as (W1 & _).
  rewrite bind_store_buf by (by rewrite Eb, Hb).
  assert (Hid : forall id, default (bd_MsgId b) (v_MsgId (validated l (Content b))) = id -> is_u32 id).
  { intros id <-. unfold validated. pose proof (msgid_range (Content b)).
    destruct (negb _); [done|]. by destruct (_ <? _). }
  assert (Hst : forall X, same_tables s (set_bufs X s1)) by (intros X; split; apply Q).
  set (b1 := mkBufferD _ _ _ _ _ _ _ _).
  exists b. destruct (v_Status (validated l (Content b)) =? CFE_SUCCESS) eqn:Ev.
  - assert (Er : exists r, v_RouteId (validated l (Content b)) = Some r).
    { apply Z.eqb_eq in Ev. destruct (validated_ok l (Content b) Ev) as (? & r & _ & ? & _). by exists r. }
    destruct Er as [r Er]. rewrite Er. cbv zeta. rewrite bind_store_buf by (sb_simpl; by rewrite lookup_insert_eq).
    apply Z.eqb_eq in Ev as Ev'.
    eexists _, l, D. split; [done|]. split; [apply Hia|]. cbv zeta. rewrite Er, Ev'. split; [reflexivity|]. sb_simpl. rewrite insert_insert_eq.
    split; [|split; [apply (Hst (<[a := _]> _))|split; [apply Q|]]].
    + apply (inv_store_buf s1 _ a b); try done; [by rewrite Eb|]. by apply Hid.
    + rewrite Eb. unfold prepared. by rewrite Ev.
  - assert (Er : v_RouteId (validated l (Content b)) = None).
    { revert Ev. unfold validated. destruct (negb _); [done|]. by destruct (_ <? _). }
    rewrite Er. eexists _, l, D. split; [done|]. split; [apply Hia|]. cbv zeta. rewrite Er. split; [reflexivity|]. sb_simpl.
    split; [|split; [apply (Hst (<[a := _]> _))|split; [apply Q|]]].
    + apply (inv_store_buf s1 _ a b); try done; [by rewrite Eb|]. by apply Hid.
    + rewrite Eb. unfold prepared. by rewrite Ev.
Qed.

(** *** The broadcast of a share *)

Definition gown (zero : bool) (a : Z) : ghost := if zero then gzero a else gfresh a.

Lemma own_share s g zero a zl tl l D :
  inv_at s (gadd (gown zero a) g) zl tl l D ->
  (In a zl \/ In a (g_fresh (gadd (gown zero a) g))) /\ exists d, bufs s !! a = Some d.
Proof using.
  intros Hi. split.
  - destruct zero; [left; rewrite (in_zero _ _ _ _ _ _ Hi)|right]; by left.
  - apply (co_refs _ _ _ _ _ (in_core _ _ _ _ _ _ Hi)), share_ref. destruct zero; by left.
Qed.

Lemma Broadcast_share s g zero a zl tl l D d c forced r :
  inv_at s (gadd (gown zero a) g) zl tl l D -> bufs s !! a = Some d -> 0 <= r ->
  let ts := targets s (c_AppId c) forced (dests_of D r) in
  exists s', Broadcast_locked c forced a r s = Some (errors s (c_AppId c) forced (dests_of D r), s')
    /\ inv s' g /\ same_keys (PipeTbl s) (PipeTbl s')
    /\ (forall b, b <> a -> bufs s' !! b = bufs s !! b)
    /\ bufs s' !! a = (if zlen ts =? 0 then None
                       else Some (set_UseCount (set_AppId (set_Content d (sequenced s r d)) CFE_ES_APPID_UNDEFINED) (zlen ts)))
    /\ (forall id, queues s' !! id = delivered_to a ts id <$> queues s !! id)
    /\ (forall b, dshape <$> dests s' !! b = dshape <$> dests s !! b).
Proof using HP.
  intros Hi Hd Hr ts. destruct (own_share _ _ _ _ _ _ _ _ Hi) as (Ho & _).
  destruct (Broadcast_locked_eff s _ zl tl l D a d c forced r Hi Ho Hd Hr)
    as (s' & E & Hi' & Hk & _ & R). exists s'. split_and!; try done; [|apply R..].
  destruct (tracked_nodups _ _ _ _ (co_tracked _ _ _ _ _ (in_core _ _ _ _ _ _ Hi))) as (Hzn & _ & Hf & Dz & _ & Df).
  apply NoDup_cons_In in Hzn as [_ Hzn]. pose proof (in_zero _ _ _ _ _ _ Hi) as Ez.
  assert (Hz : forall b, In b zl <-> In b (g_zero (gadd (gown zero a) g))) by (intros b; by rewrite Ez).
  rewrite Ez in Hzn. replace g with (released (gadd (gown zero a) g) a); [done|].
  unfold released. destruct zero; cbn [gown gadd gzero gfresh g_held g_fresh g_zero g_queues g_slots app] in *.
  - rewrite without_cons_fresh by done. rewrite without_absent; [by destruct g|].
    intros Hin. apply Df in Hin. cbn in Hin. rewrite in_app_iff, Hz in Hin. cbn in Hin. tauto.
  - rewrite without_cons_fresh by done. rewrite without_absent; [by destruct g|].
    intros Hin. apply Hz in Hin. apply Dz in Hin. cbn in Hin. rewrite in_app_iff in Hin. cbn in Hin. tauto.
Qed.
End sections.
