(* ===== verification/SbPipes.v ===== *)
(** * The software bus: receiving from pipes

    The three sections of [CFE_SB_ReceiveBuffer].  The reference in the queue
    becomes a reference of the receiving task, and then the one that the pipe
    descriptor keeps in [LastBuffer] until the next call. *)

From S2P Require Import Prelude ResourceId SbRoute SbRouteProofs SbRouteTheorems SbModel SbApi SbLists SbInv SbDests SbWorld SbSend SbBroadcast SbBuffers.

(** The table with another descriptor in slot [i]. *)
Lemma lasts_set tbl i p :
  0 <= i < zlen tbl -> lasts (zset tbl i p) ≡ₚ last_ref p ++ lasts (others tbl i).
Proof. apply flat_zset. Qed.
Lemma lasts_get tbl i :
  0 <= i < zlen tbl -> lasts tbl ≡ₚ last_ref (zget tbl i) ++ lasts (others tbl i).
Proof. apply flat_zget. Qed.

Section receive.
Context {P M Msg : Type} `{HP : PoolBufLaws P} `{HMap : RouteMapLaws M} `{HMsg : SbPlatformLaws Msg}.
Local Abbreviation sb := (sb P M Msg).
Local Abbreviation SB := (SB (P := P) (M := M) (Msg := Msg)).
Implicit Types (s : sb) (g : ghost) (c : caller).

(** A buffer referenced from a queue, a pipe or a share [gheld] has no owner. *)
Lemma unowned s g zl tl l D a :
  inv_at s g zl tl l D -> In a (g_held g ++ all_items (queues s) ++ lasts (PipeTbl s)) ->
  ~ (In a zl \/ In a (g_fresh g)).
Proof using.
  intros Hi Ha Ho. destruct (co_refs _ _ _ _ _ (in_core _ _ _ _ _ _ Hi) a) as [d Hd].
  { unfold refs, g_refs. rewrite !in_app_iff in *. tauto. }
  pose proof (in_bufs _ _ _ _ _ _ Hi a d Hd) as (_ & _ & W3 & _).
  destruct (co_count _ _ _ _ _ (in_core _ _ _ _ _ _ Hi) a d Hd) as [Hc _]. rewrite W3 in Hc by done.
  unfold refs, g_refs in Hc. rewrite !occurs_app in Hc.
  apply (count_occ_In Z.eq_dec) in Ha. rewrite !occurs_app in Ha. rewrite (in_zero _ _ _ _ _ _ Hi) in Ho.
  destruct Ho as [Ho|Ho]; apply (count_occ_In Z.eq_dec) in Ho; lia.
Qed.

(** A reference to a buffer without owner is released. *)
Lemma Decr_shared s zl tl fr rf a :
  core s zl tl fr (a :: rf) -> ~ (In a zl \/ In a fr) ->
  (forall b e, bufs s !! b = Some e -> buf_wf zl fr b (if b =? a then set_UseCount e (UseCount e - 1) else e)) ->
  exists s' tl', CFE_SB_DecrBufUseCnt a s = Some (tt, s') /\ buffers_only s s' /\ core s' zl tl' fr rf
    /\ (forall b e, bufs s' !! b = Some e -> buf_wf zl fr b e)
    /\ (forall b, b <> a -> bufs s' !! b = bufs s !! b)
    /\ (forall d, bufs s !! a = Some d ->
          bufs s' !! a = if UseCount d =? 1 then None else Some (set_UseCount d (UseCount d - 1))).
Proof using HP.
  intros Hc Hno Hwf. destruct (Decr_eff s zl tl fr rf a Hc) as (s' & E & Hbo & Hcase).
  exists s'. destruct Hcase as [(Hin & Hc' & d & Hd & Eb)|(Hnin & Hc' & Eb)].
  - exists tl. split_and!; [done..| | |]; rewrite Eb.
    + intros b e. destruct (decide (a = b)) as [<-|Hne].
      * rewrite lookup_insert_eq. intros [= <-]. specialize (Hwf a d Hd). by rewrite Z.eqb_refl in Hwf.
      * rewrite lookup_insert_ne by done. intros He. specialize (Hwf b e He).
        by rewrite (proj2 (Z.eqb_neq b a)) in Hwf by done.
    + intros b Hne. by rewrite lookup_insert_ne.
    + intros d' Hd'. rewrite Hd in Hd'. injection Hd' as <-. rewrite lookup_insert_eq.
      destruct (co_count _ _ _ _ _ Hc a d Hd) as [Hn _]. cbn in Hn. destruct (Z.eq_dec a a) as [_|]; [|done].
      apply (count_occ_In Z.eq_dec) in Hin. by rewrite (proj2 (Z.eqb_neq _ _)) by lia.
  - exists (without a tl). rewrite !(without_absent a zl), !(without_absent a fr) in Hc' by tauto.
    split_and!; [done..| | |]; rewrite Eb.
    + intros b e [Hne He]%lookup_delete_Some. specialize (Hwf b e He).
      by rewrite (proj2 (Z.eqb_neq b a)) in Hwf by congruence.
    + intros b Hne. by rewrite lookup_delete_ne.
    + intros d Hd. rewrite lookup_delete_eq. destruct (co_count _ _ _ _ _ Hc a d Hd) as [Hn _]. cbn in Hn.
      destruct (Z.eq_dec a a) as [_|]; [|done]. apply (count_occ_not_In Z.eq_dec) in Hnin.
      by rewrite (proj2 (Z.eqb_eq _ _)) by lia.
Qed.

(** Lowering the use count keeps a buffer without owner well formed. *)
Lemma wf_lowered s g zl tl l D a :
  inv_at s g zl tl l D -> ~ (In a zl \/ In a (g_fresh g)) ->
  forall b e, bufs s !! b = Some e ->
    buf_wf zl (g_fresh g) b (if b =? a then set_UseCount e (UseCount e - 1) else e).
Proof using.
  intros Hi Hno b e He. destruct (in_bufs _ _ _ _ _ _ Hi b e He) as (W1 & W2 & W3 & W4).
  case_test; [|done]. subst b. unfold buf_wf. cbn [bd_MsgId UseCount bd_AppId set_UseCount].
  split_and!; [done..|lia|tauto|done].
Qed.

(** The share of a single reference is given up. *)
Lemma drop_held s g a :
  inv s (gadd (gheld a) g) ->
  exists s', CFE_SB_DecrBufUseCnt a s = Some (tt, s') /\ inv s' g /\ same_tables s s' /\ dests s' = dests s
    /\ (forall b, b <> a -> bufs s' !! b = bufs s !! b).
Proof using HP.
  intros (zl & tl & l & D & Hi).
  assert (Hno : ~ (In a zl \/ In a (g_fresh (gadd (gheld a) g)))).
  { apply (unowned _ _ _ _ _ _ _ Hi). rewrite in_app_iff. left. by left. }
  destruct (Decr_shared s zl tl (g_fresh g) (refs s (g_refs g)) a) as (s' & tl' & E & Hbo & Hc & Hwf & Hoth & _).
  - apply (core_perm _ _ _ _ (refs s (g_refs (gadd (gheld a) g)))); [|apply Hi].
    unfold refs. by rewrite g_refs_add.
  - exact Hno.
  - exact (wf_lowered _ _ _ _ _ _ _ Hi Hno).
  - destruct (inv_same_tables _ _ _ _ _ _ _ _ _ _ _ Hi Hbo Hc) as (Hd & Hp & Hr).
    exists s'. split; [done|]. split; [|split_and!; try done; apply Hbo].
    exists zl, tl', l, D. split; try done; [by rewrite Hr|]. apply (in_zero _ _ _ _ _ _ Hi).
Qed.

(** *** The table of pipes *)

Lemma dests_inv_pipes s l D T :
  dests_inv s l D -> zlen (PipeTbl s) = CFE_PLATFORM_SB_MAX_PIPES ->
  (forall id, pipe_live (PipeTbl s) id -> pipe_live T id) ->
  dests_inv (set_PipeTbl T s) l D.
Proof using. intros [] Hsz Hl. split; sb_simpl; eauto. Qed.

(** A new last buffer for a pipe. *)
Lemma last_same_ids tbl i a :
  0 <= i < zlen tbl -> same_ids tbl (zset tbl i (pipe_set_LastBuffer (zget tbl i) a)).
Proof using. intros. by apply same_ids_set. Qed.

(** The buffers that are left are the same, up to their use counts. *)
Definition kept s s' : Prop :=
  forall b d', bufs s' !! b = Some d' -> exists d, bufs s !! b = Some d /\ d' = set_UseCount d (UseCount d').

Lemma kept_refl s : kept s s.
Proof using. intros b d Hd. exists d. split; [done|by destruct d]. Qed.

(** The locked section at the start of a receive call. *)
Lemma release_last_eff s g i :
  inv s g -> 0 <= i < CFE_PLATFORM_SB_MAX_PIPES -> is_live (zget (PipeTbl s) i) = true ->
  let p := zget (PipeTbl s) i in
  LastBuffer p <> NULL ->
  exists s', (CFE_SB_DecrBufUseCnt (LastBuffer p) ;*
              let* p := load_pipe i in store_pipe i (pipe_set_LastBuffer p NULL)) s = Some (tt, s')
    /\ inv s' g /\ PipeTbl s' = zset (PipeTbl s) i (pipe_set_LastBuffer p NULL)
    /\ LastPipeId s' = LastPipeId s /\ queues s' = queues s /\ dests s' = dests s /\ routes s' = routes s
    /\ kept s s'.
Proof using HP.
  intros (zl & tl & l & D & Hi) Hr Hl p Hlast. pose proof (pi_size _ _ _ _ _ (in_pipes _ _ _ _ _ _ Hi)) as Hsz.
  rewrite <- Hsz in Hr. pose proof (lasts_get (PipeTbl s) i Hr) as Hg.
  assert (Hlr : last_ref (zget (PipeTbl s) i) = [LastBuffer p]).
  { unfold last_ref. fold p in Hl |- *. rewrite Hl. by rewrite (proj2 (Z.eqb_neq _ _)). }
  rewrite Hlr in Hg. set (T := zset (PipeTbl s) i (pipe_set_LastBuffer p NULL)).
  assert (HT : lasts T = lasts T) by done. pose proof (lasts_set (PipeTbl s) i (pipe_set_LastBuffer p NULL) Hr) as HTl.
  fold T in HTl. replace (last_ref (pipe_set_LastBuffer p NULL)) with (@nil Z) in HTl
    by (unfold last_ref; cbn [LastBuffer pipe_set_LastBuffer]; by rewrite Z.eqb_refl, andb_false_r).
  assert (Hno : ~ (In (LastBuffer p) zl \/ In (LastBuffer p) (g_fresh g))).
  { apply (unowned _ _ _ _ _ _ _ Hi). rewrite !in_app_iff, Hg. do 2 right. by left. }
  destruct (Decr_shared s zl tl (g_fresh g) (g_refs g ++ all_items (queues s) ++ lasts T) (LastBuffer p))
    as (s' & tl' & E & Hbo & Hc & Hwf & Hoth & Hlow).
  - apply (core_perm _ _ _ _ (refs s (g_refs g))); [|apply Hi]. unfold refs. rewrite Hg, HTl. cbn [app]. solve_Permutation.
  - done.
  - exact (wf_lowered _ _ _ _ _ _ _ Hi Hno).
  - destruct (inv_same_tables _ _ _ _ _ _ _ _ _ _ _ Hi Hbo Hc) as (Hd & Hp & _).
    destruct Hbo as [[E1 E2 E3 E4 E5] (E6 & _)].
    rewrite (bind_run _ _ _ _ _ E). unfold load_pipe, store_pipe. rewrite bind_gets. unfold modify.
    rewrite E1. fold p. fold T. eexists. split; [reflexivity|].
    split; [|sb_simpl; rewrite ?E1; split_and!; try done; intros b d' Hd'; sb_simpl; destruct (decide (b = LastBuffer p)) as [->|Hb];
      [|exists d'; rewrite <- Hoth by done; split; [done|by destruct d']]].
    2:{ destruct (bufs s !! LastBuffer p) as [d|] eqn:Hdl.
        - rewrite (Hlow d eq_refl) in Hd'. case_test_in Hd'; [done|]. injection Hd' as <-. by exists d.
        - destruct (co_refs _ _ _ _ _ (in_core _ _ _ _ _ _ Hi) (LastBuffer p)) as [? ?]; [|congruence].
          unfold refs. rewrite !in_app_iff, Hg. do 2 right. by left. }
    pose proof (last_same_ids (PipeTbl s) i NULL Hr) as Hids. fold p in Hids. fold T in Hids.
    exists zl, tl', l, D. split; sb_simpl.
    + unfold refs. sb_simpl. rewrite E4. by apply (core_ext s').
    + done.
    + apply Hi.
    + rewrite E2, E4. apply (pipes_inv_same (PipeTbl s)); [done|apply Hi].
    + apply dests_inv_pipes; [done|by rewrite E1|]. rewrite E1. intros id. by apply pipe_live_same.
Qed.

(** The outcome of the first section: an error changes nothing. *)
Definition begun s s' (id : Z) (rx : reception) : Prop :=
  (rx_Status rx <> CFE_SUCCESS /\ s' = s)
  \/ (rx_Status rx = CFE_SUCCESS /\ exists i, rx_slot rx = Some i
      /\ CFE_SB_LocatePipeDescByID id = Some i /\ PipeId (zget (PipeTbl s) i) = id
      /\ rx_Queue rx = SysQueueId (zget (PipeTbl s) i)
      /\ PipeTbl s' = zset (PipeTbl s) i (pipe_set_LastBuffer (zget (PipeTbl s) i) NULL)).

Lemma Receive_begin_eff s g pg id to :
  inv s g ->
  exists rx s', Receive_begin pg id to s = Some (rx, s') /\ inv s' g
    /\ queues s' = queues s /\ dests s' = dests s /\ (routes s' = routes s /\ kept s s') /\ begun s s' id rx.
Proof using HP.
  intros Hi. unfold Receive_begin.
  assert (Hbad : forall rx : reception, rx_Status rx <> CFE_SUCCESS -> exists rx' s', ret rx s = Some (rx', s')
    /\ inv s' g /\ queues s' = queues s /\ dests s' = dests s /\ (routes s' = routes s /\ kept s s') /\ begun s s' id rx').
  { intros rx Hrx. exists rx, s. split_and!; try done; [apply kept_refl|by left]. }
  destruct (negb pg); [by apply Hbad|].
  assert (Hgo : forall t, exists rx s', Receive_unref id t s = Some (rx, s')
    /\ inv s' g /\ queues s' = queues s /\ dests s' = dests s /\ (routes s' = routes s /\ kept s s') /\ begun s s' id rx).
  { intros t. unfold Receive_unref. rewrite bind_gets. unfold CFE_SB_PipeDescIsMatch, CFE_ResourceId_Equal.
    destruct (CFE_SB_LocatePipeDescByID id) as [i|] eqn:El; [|by apply Hbad].
    destruct (Z.eqb_spec (PipeId (zget (PipeTbl s) i)) id) as [Ep|]; [|by apply Hbad].
    unfold load_pipe at 1. rewrite bind_gets. pose proof (locate_range _ _ El) as Hr.
    destruct (Z.eqb_spec (LastBuffer (zget (PipeTbl s) i)) NULL) as [En|En]; cbn [negb].
    - rewrite bind_ret. eexists _, s. split; [reflexivity|]. split_and!; try done; [apply kept_refl|]. right. split; [done|].
      exists i. split_and!; [done..|]. symmetry.
      replace (pipe_set_LastBuffer _ NULL) with (zget (PipeTbl s) i)
        by (rewrite <- En; by destruct (zget (PipeTbl s) i)).
      apply zset_zget. destruct Hi as (zl & tl & l & D & Hi). by rewrite (pi_size _ _ _ _ _ (in_pipes _ _ _ _ _ _ Hi)).
    - destruct (release_last_eff s g i Hi Hr) as (s' & E & Hi' & Et & _ & Eq & Ed & Er & Hk);
        [apply (located_live _ i); by rewrite Ep|done|].
      rewrite (bind_run _ _ _ _ _ E). eexists _, s'. split; [reflexivity|]. split_and!; try done. right.
      split; [done|]. by exists i. }
  destruct (0 <? to); [apply Hgo|]. destruct (to =? CFE_SB_POLL); [apply Hgo|].
  destruct (negb (to =? CFE_SB_PEND_FOREVER)); [by apply Hbad|apply Hgo].
Qed.

(** *** Reading the queue *)

(** Taking the first buffer out of a queue. *)
Lemma take_first s g id q x rest :
  inv s g -> queues s !! id = Some q -> q_items q = x :: rest ->
  inv (set_queues (<[id := mkQueue (q_depth q) rest]> (queues s)) s) (gadd (gheld x) g)
  /\ 2 < x < 2 ^ 63 /\ is_Some (bufs s !! x).
Proof using.
  intros (zl & tl & l & D & Hi) Hq Ex.
  assert (Hx : is_Some (bufs s !! x)).
  { apply (co_refs _ _ _ _ _ (in_core _ _ _ _ _ _ Hi)). unfold refs. rewrite !in_app_iff.
    rewrite (all_items_split _ _ _ Hq), Ex. right. left. by left. }
  split; [|split; [|done]].
  - exists zl, tl, l, D. split; sb_simpl.
    + apply (core_ext s); try done. apply (core_perm _ _ _ _ (refs s (g_refs g))); [|apply Hi].
      unfold refs. sb_simpl. rewrite g_refs_add, all_items_update, (all_items_split _ _ _ Hq), Ex. cbn [q_items app].
      cbn. solve_Permutation.
    + apply Hi.
    + apply (in_zero _ _ _ _ _ _ Hi).
    + apply pipes_inv_queue; [apply Hi|done|]. cbn. intros Hin.
      rewrite (pi_idle _ _ _ _ _ (in_pipes _ _ _ _ _ _ Hi) id q Hin Hq) in Ex. done.
    + by apply (dests_inv_ext s), Hi.
  - apply (co_addr _ _ _ _ _ (in_core _ _ _ _ _ _ Hi)). destruct Hx as [d Hd]. by rewrite (live_buf _ _ _ Hd).
Qed.

(** The call blocks, fails without a change, or takes the first buffer. *)
Inductive got s (rx : reception) : option (reception * Z) -> sb -> Prop :=
  | got_blocked : got s rx None s
  | got_error rx' : rx_Status rx' <> CFE_SUCCESS -> got s rx (Some (rx', NULL)) s
  | got_buffer x rest q :
      queues s !! rx_Queue rx = Some q -> q_items q = x :: rest -> x <> NULL ->
      got s rx (Some (rx, x)) (set_queues (<[rx_Queue rx := mkQueue (q_depth q) rest]> (queues s)) s).

Lemma Receive_get_eff s g forced rx :
  inv s g -> rx_Status rx = CFE_SUCCESS ->
  exists r s', Receive_get forced rx s = Some (r, s') /\ got s rx r s'
    /\ inv s' (match r with Some (_, x) => if x =? NULL then g else gadd (gheld x) g | None => g end).
Proof using.
  intros Hi Hs. unfold Receive_get. rewrite (proj2 (Z.eqb_eq _ _) Hs).
  assert (Herr : forall st, st <> OS_SUCCESS -> exists r s',
    (if (st =? OS_SUCCESS) && negb (NULL =? NULL) then ret (Some (rx, NULL))
     else if st =? OS_QUEUE_EMPTY
          then ret (Some (mkReception CFE_SB_NO_MESSAGE 0 (rx_slot rx) (rx_Queue rx) (rx_Timeout rx), NULL))
     else if st =? OS_QUEUE_TIMEOUT
          then ret (Some (mkReception CFE_SB_TIME_OUT 0 (rx_slot rx) (rx_Queue rx) (rx_Timeout rx), NULL))
     else ret (Some (mkReception CFE_SB_PIPE_RD_ERR CFE_SB_Q_RD_ERR_EID (rx_slot rx) (rx_Queue rx) (rx_Timeout rx), NULL))) s
    = Some (r, s') /\ got s rx r s' /\ inv s' (match r with Some (_, x) => if x =? NULL then g else gadd (gheld x) g | None => g end)).
  { intros st Hst. rewrite (proj2 (Z.eqb_neq _ _) Hst). cbn [andb].
    repeat (match goal with |- context [if ?b then _ else _] => destruct b end);
      (eexists _, s; split; [reflexivity|]; split; [by constructor|by rewrite Z.eqb_refl]). }
  unfold OS_QueueGet, bind. destruct (Z.eqb_spec forced OS_SUCCESS) as [->|Hf]; cbn [negb]; [|by apply Herr].
  destruct (queues s !! rx_Queue rx) as [q|] eqn:Hq; [|by apply Herr].
  destruct (q_items q) as [|x rest] eqn:Ex.
  - destruct (rx_Timeout rx =? OS_PEND); [by exists None, s; repeat constructor|].
    destruct (rx_Timeout rx =? OS_CHECK); by apply Herr.
  - destruct (take_first s g _ _ _ _ Hi Hq Ex) as (Hi' & Hx & _).
    change (OS_SUCCESS =? OS_SUCCESS) with true. assert (Hn : x <> NULL) by (unfold NULL; lia).
    rewrite (proj2 (Z.eqb_neq _ _) Hn). cbn [andb negb]. eexists _, _. split; [reflexivity|].
    split; [by econstructor|]. by rewrite (proj2 (Z.eqb_neq _ _) Hn).
Qed.

(** *** Keeping the buffer *)

Lemma GetDestPtr_any s l D r id :
  dests_inv s l D -> 0 <= r ->
  exists x, CFE_SB_GetDestPtr r id s = Some (x, s) /\ (x = NULL \/ is_Some (dests s !! x)).
Proof using.
  intros Hd Hr. destruct (CFE_SBR_IsValidRouteId r) eqn:Ev.
  - apply valid_route_iff in Ev; [|done]. replace r with (r - 1 + 1) by lia.
    destruct (GetDestPtr_eff s (r - 1) (D (r - 1)) id ltac:(lia)) as (x & -> & Hx);
      [apply Hd; lia|apply (di_nodup _ _ _ Hd); lia|].
    exists x. split; [done|]. destruct Hx as [[-> _]|(_ & d & -> & _)]; [by left|by right].
  - exists NULL. split; [|by left]. unfold CFE_SB_GetDestPtr, list_head, CFE_SBR_GetDestListHeadPtr.
    rewrite bind_gets, Ev. done.
Qed.

(** Two tables with the same ids and queues, and the same last buffers but for
    slot [i]. *)
Lemma route_of_nonneg l id : 0 <= route_of l id.
Proof using. apply route_of_range. Qed.

(** The counters of a destination and of a pipe do not matter. *)
Lemma lower_counts_eff s l D r id i zl tl fr rf :
  dests_inv s l D -> core s zl tl fr rf -> 0 <= r -> 0 <= i < zlen (PipeTbl s) ->
  exists s', (let* DestPtr := CFE_SB_GetDestPtr r id in
    (if negb (DestPtr =? NULL) then
       let* d := load_dest DestPtr in
       if 0 <? BuffCount d then store_dest DestPtr (dest_set_BuffCount d (BuffCount d - 1)) else ret tt
     else ret tt) ;*
    let* p := load_pipe i in
    if 0 <? CurrentQueueDepth p
    then store_pipe i (pipe_set_depths p (CurrentQueueDepth p - 1) (PeakQueueDepth p))
    else ret tt) s = Some (tt, s')
    /\ core s' zl tl fr rf /\ same_keys (PipeTbl s) (PipeTbl s') /\ bufs s' = bufs s
    /\ queues s' = queues s /\ LastPipeId s' = LastPipeId s /\ routes s' = routes s
    /\ (forall b, dshape <$> dests s' !! b = dshape <$> dests s !! b) /\ size (dests s') = size (dests s)
    /\ StatTlm s' = StatTlm s.
Proof using.
  intros Hd Hc Hr Hi. destruct (GetDestPtr_any s l D r id Hd Hr) as (x & E & Hx). rewrite (bind_run _ _ _ _ _ E).
  assert (H1' : exists s1, (if negb (x =? NULL) then
       let* d := load_dest x in
       if 0 <? BuffCount d then store_dest x (dest_set_BuffCount d (BuffCount d - 1)) else ret tt
     else ret tt) s = Some (tt, s1) /\ core s1 zl tl fr rf /\ PipeTbl s1 = PipeTbl s /\ bufs s1 = bufs s
    /\ queues s1 = queues s /\ LastPipeId s1 = LastPipeId s /\ routes s1 = routes s
    /\ (forall b, dshape <$> dests s1 !! b = dshape <$> dests s !! b) /\ size (dests s1) = size (dests s)
    /\ StatTlm s1 = StatTlm s).
  { destruct (Z.eqb_spec x NULL); cbn [negb]; [by exists s|]. destruct Hx as [|[d Hx]]; [done|].
    rewrite (bind_load_dest _ _ _ _ Hx). destruct (0 <? BuffCount d); [|by exists s].
    rewrite run_store_dest by (by rewrite Hx). eexists. split; [reflexivity|]. sb_simpl.
    split_and!; try done; [apply core_store_dest; [done|by rewrite Hx]| |].
    - intros b. destruct (decide (x = b)) as [<-|]; [by rewrite lookup_insert_eq, Hx|by rewrite lookup_insert_ne].
    - apply map_size_insert_Some. by rewrite Hx. }
  destruct H1' as (s1 & E1 & Hc1 & Ep & Eb & Eq & El & Er & Esh & Esz & Est). rewrite (bind_run _ _ _ _ _ E1).
  unfold load_pipe, store_pipe. rewrite bind_gets.
  destruct (0 <? _); unfold modify; eexists; (split; [reflexivity|]); sb_simpl; rewrite ?Ep;
    split_and!; try done; [by apply (core_ext s1)|].
  split; [apply zlen_zset|]. intros j Hj. rewrite zget_zset by lia. by case_test; subst.
Qed.

Lemma lasts_keys tbl tbl' : same_keys tbl tbl' -> lasts tbl' = lasts tbl /\ same_ids tbl tbl'.
Proof using.
  intros [Hl Hk]. split; [apply flat_same; [done|]|split; [done|]]; intros i Hi; specialize (Hk i Hi);
    unfold pipe_key in Hk; injection Hk as E1 E2 E3; [|done]. unfold last_ref, is_live. by rewrite E1, E3.
Qed.

Lemma Receive_store_eff s g zl tl l D id i a :
  inv_at s (gadd (gheld a) g) zl tl l D -> CFE_SB_LocatePipeDescByID id = Some i ->
  PipeId (zget (PipeTbl s) i) = id -> LastBuffer (zget (PipeTbl s) i) = NULL ->
  let T := zset (PipeTbl s) i (pipe_set_LastBuffer (zget (PipeTbl s) i) a) in
  exists s', Receive_store id i a s = Some (tt, s')
    /\ core s' zl tl (g_fresh g) (a :: refs s' (g_refs g)) /\ same_keys T (PipeTbl s')
    /\ (forall b e, bufs s' !! b = Some e ->
          buf_wf zl (g_fresh g) b (if b =? a then set_UseCount e (UseCount e - 1) else e))
    /\ queues s' = queues s /\ LastPipeId s' = LastPipeId s /\ dests_inv s' l D
    /\ (forall d, bufs s !! a = Some d -> bufs s' !! a = Some (set_UseCount d (UseCount d + 1)))
    /\ (forall b, b <> a -> bufs s' !! b = bufs s !! b)
    /\ (forall b, dshape <$> dests s' !! b = dshape <$> dests s !! b).
Proof using HMap.
  intros Hi Hl Hp Hlast T. pose proof (in_core _ _ _ _ _ _ Hi) as Hc. pose proof (locate_range _ _ Hl) as Hr.
  pose proof (pi_size _ _ _ _ _ (in_pipes _ _ _ _ _ _ Hi)) as Hsz. rewrite <- Hsz in Hr.
  destruct (co_refs _ _ _ _ _ Hc a (share_ref s (gheld a) g a (or_introl eq_refl))) as [d Hd].
  assert (Ha : 2 < a < 2 ^ 63) by (apply (co_addr _ _ _ _ _ Hc); by rewrite (live_buf _ _ _ Hd)).
  destruct (in_bufs _ _ _ _ _ _ Hi a d Hd) as (W1 & W2 & W3 & W4). unfold max_use, CFE_PLATFORM_SB_MAX_DEST_PER_PKT in W2.
  destruct (Incr_eff s zl tl (g_fresh g) _ a d Hc Hd ltac:(lia)) as [EI HcI]. unfold Receive_store.
  rewrite (bind_run _ _ _ _ _ EI). unfold load_pipe at 1, store_pipe at 1. rewrite bind_gets, bind_modify. sb_simpl. fold T.
  erewrite bind_load_buf by (sb_simpl; apply lookup_insert_eq). cbn [bd_MsgId set_UseCount].
  unfold route_lookup. unfold bind at 1. sb_simpl.
  rewrite (GetRouteId_rep _ _ _ (di_routes _ _ _ (in_dests _ _ _ _ _ _ Hi)) W1).
  set (s1 := set_PipeTbl T _).
  assert (Hids : same_ids (PipeTbl s) T) by (by apply last_same_ids).
  assert (Hlen : zlen T = zlen (PipeTbl s)) by apply zlen_zset.
  assert (Hd1 : dests_inv s1 l D).
  { apply dests_inv_pipes; sb_simpl; [|done|intros; by apply (pipe_live_same (PipeTbl s))].
    apply (dests_inv_ext s); try done. apply Hi. }
  assert (Hc1 : core s1 zl tl (g_fresh g) (a :: refs s (g_refs (gadd (gheld a) g)))) by (by eapply core_ext; [..|exact HcI]).
  destruct (lower_counts_eff s1 l D (route_of l (bd_MsgId d)) id i _ _ _ _ Hd1 Hc1 (route_of_nonneg _ _))
    as (s' & E & Hc' & Hk & Eb & Eq & El & Er & Esh & Esz & Est); [unfold s1; sb_simpl; lia|].
  exists s'. split; [exact E|]. unfold s1 in *. sb_simpl.
  destruct (lasts_keys _ _ Hk) as [Hlk Hik].
  split; [|split_and!; try done].
  - apply (core_perm _ _ _ _ (a :: refs s (g_refs (gadd (gheld a) g)))); [|done].
    unfold refs. rewrite Hlk, Eq, g_refs_add, (lasts_get (PipeTbl s) i Hr). unfold T.
    rewrite (lasts_set (PipeTbl s) i _ Hr).
    assert (Hl0 : last_ref (zget (PipeTbl s) i) = []) by (unfold last_ref; by rewrite Hlast, andb_false_r).
    assert (Hl1 : last_ref (pipe_set_LastBuffer (zget (PipeTbl s) i) a) = [a]).
    { unfold last_ref. change (is_live (pipe_set_LastBuffer (zget (PipeTbl s) i) a)) with (is_live (zget (PipeTbl s) i)).
      cbn [LastBuffer pipe_set_LastBuffer].
      rewrite (located_live _ i) by (by rewrite Hp). rewrite (proj2 (Z.eqb_neq a NULL)) by (unfold NULL; lia). done. }
    rewrite Hl0, Hl1. cbn. solve_Permutation.
  - intros b e. rewrite Eb. destruct (decide (a = b)) as [<-|Hne].
    + rewrite lookup_insert_eq, Z.eqb_refl. intros [= <-]. unfold buf_wf. cbn [bd_MsgId UseCount bd_AppId set_UseCount].
      replace (UseCount d + 1 - 1) with (UseCount d) by lia. done.
    + rewrite lookup_insert_ne, (proj2 (Z.eqb_neq b a)) by congruence. apply Hi.
  - apply (dests_inv_ext (set_PipeTbl (PipeTbl s') s)); try done; [by rewrite Est|].
    apply dests_inv_pipes; [apply Hi|done|]. intros x Hx. apply (pipe_live_same T); [done|by rewrite Hlen|].
    by apply (pipe_live_same (PipeTbl s)).
  - intros d' Hd'. rewrite Hd in Hd'. injection Hd' as <-. rewrite Eb. apply lookup_insert_eq.
  - intros b Hne. rewrite Eb. by rewrite lookup_insert_ne.
Qed.

(** The end of a call that failed: only counted and reported. *)
Lemma Receive_failed_eff s pg id rx a :
  rx_Status rx <> CFE_SUCCESS ->
  exists s', Receive_finish pg id rx a s = Some ((rx_Status rx, NULL), s') /\ quiet s s'.
Proof using.
  intros Hs. unfold Receive_finish. rewrite (proj2 (Z.eqb_neq _ _) Hs), bind_ret. cbn [negb].
  rewrite (proj2 (Z.eqb_neq _ _) Hs). cbn [negb].
  match goal with |- exists s', bind ?m ?k ?t = _ /\ _ =>
    assert (Hm : reports m) by (destruct (_ || _); reporting); destruct (Hm t) as (u & s1 & E & Q);
    rewrite (bind_run _ _ _ _ _ E) end.
  destruct (reports_send_if (P := P) (M := M) (Msg := Msg) (rx_EventID rx) s1) as (u' & s2 & E2 & Q2).
  rewrite (bind_run _ _ _ _ _ E2). exists s2. split; [done|by transitivity s1].
Qed.

(** What a successful or failed end leaves in the table. *)
Definition finished s s' (id i a st : Z) : Prop :=
  let p := zget (PipeTbl s) i in
  (PipeId p = id /\ st = CFE_SUCCESS /\ same_keys (zset (PipeTbl s) i (pipe_set_LastBuffer p a)) (PipeTbl s')
   /\ bufs s' = bufs s)
  \/ (PipeId p <> id /\ st <> CFE_SUCCESS /\ same_keys (PipeTbl s) (PipeTbl s')
      /\ forall b, b <> a -> bufs s' !! b = bufs s !! b).

Lemma Receive_locked_eff s g id i a :
  inv s (gadd (gheld a) g) -> CFE_SB_LocatePipeDescByID id = Some i ->
  (PipeId (zget (PipeTbl s) i) = id -> LastBuffer (zget (PipeTbl s) i) = NULL) ->
  exists st eid s',
    (let* s := gets (fun s => s) in
     let* st :=
       match (if CFE_SB_PipeDescIsMatch s (Some i) id then Some i else None) with
       | Some i => Receive_store id i a ;* ret (CFE_SUCCESS, 0)
       | None => ret (CFE_SB_PIPE_RD_ERR, CFE_SB_BAD_PIPEID_EID)
       end in
     CFE_SB_DecrBufUseCnt a ;* ret st) s = Some ((st, eid), s')
    /\ inv s' g /\ queues s' = queues s /\ (forall b, dshape <$> dests s' !! b = dshape <$> dests s !! b)
    /\ finished s s' id i a st.
Proof using HP HMap.
  intros Hi Hl Hlast. rewrite bind_gets. cbn [CFE_SB_PipeDescIsMatch]. unfold CFE_ResourceId_Equal, finished.
  destruct (Z.eqb_spec (PipeId (zget (PipeTbl s) i)) id) as [Ep|Ep].
  2:{ rewrite bind_ret. destruct (drop_held s g a Hi) as (s' & E & Hi' & Hst & Hds & Hb).
      rewrite (bind_run _ _ _ _ _ E). eexists _, _, s'. split; [reflexivity|].
      split_and!; [done|apply Hst|intros b; by rewrite Hds|]. right. rewrite (st_pipes _ _ Hst). done. }
  destruct Hi as (zl & tl & l & D & Hi).
  assert (Hno : ~ (In a zl \/ In a (g_fresh (gadd (gheld a) g)))).
  { apply (unowned _ _ _ _ _ _ _ Hi). rewrite in_app_iff. left. by left. }
  destruct (Receive_store_eff s g zl tl l D id i a Hi Hl Ep (Hlast Ep))
    as (s1 & E1 & Hc1 & Hk & Hwf & Eq & El & Hd1 & Hba & Hbo & Hsh).
  rewrite bind_bind, (bind_run _ _ _ _ _ E1), bind_ret.
  destruct (Decr_shared s1 zl tl (g_fresh g) _ a Hc1 Hno Hwf) as (s' & tl' & E2 & [Hst (Eds & _ & Es)] & Hc2 & Hwf2 & Ho & Ha).
  rewrite (bind_run _ _ _ _ _ E2). eexists _, _, s'. split; [reflexivity|].
  pose proof (pi_size _ _ _ _ _ (in_pipes _ _ _ _ _ _ Hi)) as Hsz.
  pose proof (locate_range _ _ Hl) as Hr. rewrite <- Hsz in Hr.
  split; [|split_and!; [by rewrite (st_queues _ _ Hst)|intros b; by rewrite Eds|]].
  - exists zl, tl', l, D. split.
    + unfold refs. rewrite (st_queues _ _ Hst), (st_pipes _ _ Hst). done.
    + done.
    + apply (in_zero _ _ _ _ _ _ Hi).
    + rewrite (st_queues _ _ Hst), (st_pipes _ _ Hst), (st_last _ _ Hst), Eq, El.
      destruct (lasts_keys _ _ Hk) as [_ Hids]. apply (pipes_inv_same _ _ _ _ _ _ Hids).
      apply (pipes_inv_same (PipeTbl s)); [by apply last_same_ids|apply Hi].
    + apply (dests_inv_ext s1); try done; [by destruct Hst..|by rewrite Eds|by rewrite Eds].
  - left. rewrite (st_pipes _ _ Hst). split_and!; try done. apply map_eq. intros b.
    destruct (decide (b = a)) as [->|Hne]; [|by rewrite Ho, Hbo].
    destruct (co_refs _ _ _ _ _ (in_core _ _ _ _ _ _ Hi) a (share_ref s (gheld a) g a (or_introl eq_refl))) as [d Hd].
    rewrite (Ha _ (Hba d Hd)), Hd. cbn [UseCount set_UseCount].
    destruct (co_count _ _ _ _ _ (in_core _ _ _ _ _ _ Hi) a d Hd) as [_ Hge].
    rewrite (proj2 (Z.eqb_neq (UseCount d + 1) 1)) by lia. f_equal.
    replace (UseCount d + 1 - 1) with (UseCount d) by lia. by destruct d.
Qed.

Lemma finished_quiet s s1 s2 id i a st : finished s s1 id i a st -> quiet s1 s2 -> finished s s2 id i a st.
Proof using. unfold finished. intros Hf []. by rewrite qu_pipes, qu_bufs. Qed.

Lemma Receive_finish_eff s g pg id i rx a :
  inv s (gadd (gheld a) g) -> rx_Status rx = CFE_SUCCESS -> rx_slot rx = Some i ->
  CFE_SB_LocatePipeDescByID id = Some i ->
  (PipeId (zget (PipeTbl s) i) = id -> LastBuffer (zget (PipeTbl s) i) = NULL) ->
  exists st s', Receive_finish pg id rx a s
      = Some ((st, if st =? CFE_SUCCESS then content_ptr a else NULL), s')
    /\ inv s' g /\ queues s' = queues s /\ (forall b, dshape <$> dests s' !! b = dshape <$> dests s !! b)
    /\ finished s s' id i a st.
Proof using HP HMap.
  intros Hi Hs Hsl Hl Hlast. unfold Receive_finish. rewrite (proj2 (Z.eqb_eq _ _) Hs), Hsl.
  destruct (Receive_locked_eff s g id i a Hi Hl Hlast) as (st & eid & s1 & E1 & Hi1 & Eq & Esh & Hf).
  rewrite (bind_run _ _ _ _ _ E1).
  match goal with |- exists st s', bind ?m ?k ?t = _ /\ _ =>
    assert (Hm : reports m) by (destruct (negb _); [destruct (_ || _)|]; reporting);
    destruct (Hm t) as (u & s2 & E2 & Q2); rewrite (bind_run _ _ _ _ _ E2) end.
  destruct (reports_send_if (P := P) (M := M) (Msg := Msg) eid s2) as (u' & s3 & E3 & Q3).
  rewrite (bind_run _ _ _ _ _ E3). exists st, s3. assert (Q : quiet s1 s3) by (by transitivity s2).
  split_and!; [done|by apply (quiet_inv s1)|by rewrite (qu_queues _ _ Q)|intros b; by rewrite (qu_dests _ _ Q)|].
  by apply (finished_quiet s s1).
Qed.
End receive.
