(* ===== verification/SbTable.v ===== *)
(** * The software bus: creating and deleting pipes

    The sections of [CFE_SB_CreatePipe] and [CFE_SB_DeletePipeFull].  A slot of
    the table goes from free to reserved to used, and back; a reserved slot and
    the queue that goes with it are a share of the task that reserved it. *)

From S2P Require Import Prelude ResourceId SbRoute SbRouteProofs SbRouteTheorems SbModel SbApi SbLists SbInv SbDests SbWorld SbSend SbBroadcast SbBuffers SbPipes.

(** ** A new descriptor in a slot *)

Lemma live_queues_set tbl i p :
  0 <= i < zlen tbl -> live_queues (zset tbl i p) ≡ₚ queue_of p ++ live_queues (others tbl i).
Proof. apply flat_zset. Qed.
Lemma live_queues_get tbl i :
  0 <= i < zlen tbl -> live_queues tbl ≡ₚ queue_of (zget tbl i) ++ live_queues (others tbl i).
Proof. apply flat_zget. Qed.

Definition pipe_table_id (id : Z) : Prop := is_u32 id /\ CFE_ResourceId_GetBase id = CFE_SB_PIPEID_BASE.

Lemma pipes_inv_set tbl last last' Q dq dq' rs rs' i p :
  pipes_inv tbl last Q dq rs -> 0 <= i < CFE_PLATFORM_SB_MAX_PIPES -> pipe_table_id last' ->
  PipeId p = CFE_RESOURCEID_UNDEFINED \/ (PipeId p = CFE_RESOURCEID_RESERVED /\ In i rs')
    \/ CFE_SB_LocatePipeDescByID (PipeId p) = Some i ->
  (forall j, j <> i -> In j rs' <-> In j rs) -> (In i rs' -> PipeId p = CFE_RESOURCEID_RESERVED) -> NoDup rs' ->
  queue_of p ++ map fst dq' ≡ₚ queue_of (zget tbl i) ++ map fst dq ->
  (forall q, In (q, true) dq' -> In (q, true) dq) ->
  pipes_inv (zset tbl i p) last' Q dq' rs'.
Proof.
  intros [Hsz Hla Hsl Hre Hdi Hqu Hqd Hid] Hi Hl Hp Hrs Hri Hnd Hq Hem. rewrite <- Hsz in Hi.
  assert (Hqs : live_queues (zset tbl i p) ++ map fst dq' ≡ₚ live_queues tbl ++ map fst dq).
  { rewrite live_queues_set, (live_queues_get tbl i) by done.
    rewrite (Permutation_app_comm (queue_of p)), (Permutation_app_comm (queue_of (zget tbl i))), <- !app_assoc.
    by rewrite Hq. }
  split; rewrite ?zlen_zset; try done.
  - intros j Hj. rewrite zget_zset by lia. case_test; [by subst|]. rewrite Hrs by done. auto.
  - intros j Hj. destruct (Z.eq_dec j i) as [->|Hne].
    + rewrite zget_zset_eq by done. split; [lia|auto].
    + destruct (Hre j) as [Hr E]; [by apply Hrs|]. rewrite zget_zset by lia.
      by rewrite (proj2 (Z.eqb_neq _ _)) by congruence.
  - by rewrite Hqs.
  - intros q. by rewrite Hqs.
  - intros q x Hin. by apply Hid, Hem.
Qed.

(** Ids of pipes other than the one in slot [i]. *)
Lemma pipe_live_set tbl i p id :
  zlen tbl = CFE_PLATFORM_SB_MAX_PIPES -> 0 <= i < CFE_PLATFORM_SB_MAX_PIPES ->
  pipe_live tbl id -> id <> PipeId (zget tbl i) -> pipe_live (zset tbl i p) id.
Proof.
  intros Hsz Hi. unfold pipe_live. destruct (CFE_SB_LocatePipeDescByID id) as [j|] eqn:El; [|done].
  pose proof (locate_range _ _ El). intros E Hne. rewrite zget_zset by lia.
  case_test; [subst; congruence|done].
Qed.

Lemma dead_slot tbl i id : is_live (zget tbl i) = false -> pipe_live tbl id -> id <> PipeId (zget tbl i).
Proof.
  intros Hd Hl ->. unfold pipe_live in Hl.
  destruct (CFE_SB_LocatePipeDescByID (PipeId (zget tbl i))) as [j|] eqn:El; [|done].
  rewrite (located_live _ _ El) in Hd. done.
Qed.

Section table.
Context {P M Msg : Type} `{HP : PoolBufLaws P} `{HMap : RouteMapLaws M} `{HMsg : SbPlatformLaws Msg}.
Local Abbreviation sb := (sb P M Msg).
Local Abbreviation SB := (SB (P := P) (M := M) (Msg := Msg)).
Implicit Types (s : sb) (g : ghost) (c : caller).

Lemma inv_set_slot s g g' zl tl l D i p last' :
  inv_at s g zl tl l D -> 0 <= i < CFE_PLATFORM_SB_MAX_PIPES ->
  pipes_inv (zset (PipeTbl s) i p) last' (queues s) (g_queues g') (g_slots g') ->
  g_fresh g' = g_fresh g -> g_zero g' = g_zero g ->
  g_held g' ++ last_ref p ≡ₚ g_held g ++ last_ref (zget (PipeTbl s) i) ->
  (forall a d, dests s !! a = Some d -> dest_PipeId d <> PipeId (zget (PipeTbl s) i)) ->
  inv (set_LastPipeId last' (set_PipeTbl (zset (PipeTbl s) i p) s)) g'.
Proof using.
  intros Hi Hr Hp Ef Ez Hrefs Hd. pose proof (pi_size _ _ _ _ _ (in_pipes _ _ _ _ _ _ Hi)) as Hsz.
  exists zl, tl, l, D. split; sb_simpl; rewrite ?Ef, ?Ez; try done.
  - apply (core_ext s); try done. apply (core_perm _ _ _ _ (refs s (g_refs g))); [|apply Hi].
    unfold refs, g_refs. sb_simpl. rewrite Ef, Ez, lasts_set, (lasts_get (PipeTbl s) i) by (by rewrite Hsz).
    transitivity (g_zero g ++ g_fresh g ++ all_items (queues s) ++ lasts (others (PipeTbl s) i)
                  ++ (g_held g ++ last_ref (zget (PipeTbl s) i))); [solve_Permutation|]. rewrite <- Hrefs. solve_Permutation.
  - apply Hi.
  - apply Hi.
  - pose proof (in_dests _ _ _ _ _ _ Hi) as Hdi. destruct Hdi. split; sb_simpl; try done.
    intros a d Ha. apply pipe_live_set; eauto.
Qed.

(** A change of statistics that the invariant does not constrain. *)
Lemma inv_stat s g t :
  inv s g -> t SBBuffersInUse = StatTlm s SBBuffersInUse -> t MemInUse = StatTlm s MemInUse ->
  t SubscriptionsInUse = StatTlm s SubscriptionsInUse -> inv (set_StatTlm t s) g.
Proof using.
  intros (zl & tl & l & D & []) E1 E2 E3. exists zl, tl, l, D. split; sb_simpl; try done.
  - by apply (core_ext s).
  - by apply (dests_inv_ext s).
Qed.

(** *** Reserving a slot *)

Lemma slot_checks s : checks CFE_SB_PIPEID_BASE CFE_PLATFORM_SB_MAX_PIPES (CFE_SB_CheckPipeDescSlotUsed s)
  (fun i => CFE_SB_PipeDescIsUsed (zget (PipeTbl s) i)).
Proof using.
  intros r Hr. unfold CFE_SB_CheckPipeDescSlotUsed, CFE_SB_LocatePipeDescByID, CFE_SB_PipeId_ToIndex.
  by rewrite (proj1 (id_decodes CFE_SB_PIPEID_BASE CFE_PLATFORM_SB_MAX_PIPES r ltac:(done) ltac:(done) Hr)).
Qed.

Lemma base_locate r : 0 <= r <= CFE_RESOURCEID_MAX ->
  CFE_SB_LocatePipeDescByID (CFE_SB_PIPEID_BASE + r) = Some (r mod CFE_PLATFORM_SB_MAX_PIPES)
  /\ pipe_table_id (CFE_SB_PIPEID_BASE + r).
Proof using.
  intros Hr. destruct (id_decodes CFE_SB_PIPEID_BASE CFE_PLATFORM_SB_MAX_PIPES r ltac:(done) ltac:(done) Hr) as (E & Eb & Hu).
  unfold CFE_SB_LocatePipeDescByID, CFE_SB_PipeId_ToIndex. by rewrite E.
Qed.

Definition reserved_pipe : CFE_SB_PipeD_t := pipe_set_PipeId zero_pipe CFE_RESOURCEID_RESERVED.

(** There is a free slot. *)
Definition has_room s : Prop :=
  exists i, 0 <= i < CFE_PLATFORM_SB_MAX_PIPES /\ PipeId (zget (PipeTbl s) i) = CFE_RESOURCEID_UNDEFINED.

Lemma CreatePipe_reserve_eff s g pg depth :
  inv s g ->
  exists cr s', CreatePipe_reserve pg depth s = Some (cr, s')
    /\ ((cr_Status cr <> CFE_SUCCESS /\ cr_slot cr = None
          /\ ~ (pg = true /\ 0 < depth <= OS_QUEUE_MAX_DEPTH /\ has_room s) /\ s' = s)
        \/ (cr_Status cr = CFE_SUCCESS /\ exists i, cr_slot cr = Some i
            /\ CFE_SB_LocatePipeDescByID (cr_PipeId cr) = Some i
            /\ PipeId (zget (PipeTbl s) i) = CFE_RESOURCEID_UNDEFINED
            /\ s' = set_LastPipeId (cr_PipeId cr) (set_PipeTbl (zset (PipeTbl s) i reserved_pipe) s)
            /\ inv s' (gadd (gslot i) g))).
Proof using.
  intros Hinv. unfold CreatePipe_reserve. destruct (_ || _) eqn:Eb.
  { eexists _, s. split; [reflexivity|]. left. split_and!; try done. intros (-> & Hd & _). cbn [negb orb] in Eb.
    destruct (Z.ltb_spec OS_QUEUE_MAX_DEPTH depth), (Z.eqb_spec depth 0); try done; lia. }
  destruct Hinv as (zl & tl & l & D & Hi). pose proof (in_pipes _ _ _ _ _ _ Hi) as Hp.
  rewrite bind_gets. destruct (pi_last _ _ _ _ _ Hp) as [Hu Hb].
  destruct (FindNext_eff _ CFE_PLATFORM_SB_MAX_PIPES (LastPipeId s) _ _ Hu Hb ltac:(done) (slot_checks s))
    as [(r & -> & Hr & Hfree)|[-> Hfull]].
  2:{ rewrite locate_undefined. eexists _, s. split; [reflexivity|]. left. split_and!; try done.
      intros (_ & _ & i & Hir & E0). specialize (Hfull i Hir). unfold CFE_SB_PipeDescIsUsed in Hfull. by rewrite E0 in Hfull. }
  destruct (base_locate r Hr) as [El Hid]. rewrite El. set (i := r mod CFE_PLATFORM_SB_MAX_PIPES) in *.
  pose proof (locate_range _ _ El) as Hir.
  assert (E0 : PipeId (zget (PipeTbl s) i) = CFE_RESOURCEID_UNDEFINED).
  { unfold CFE_SB_PipeDescIsUsed, CFE_ResourceId_IsDefined in Hfree. by apply negb_false_iff, Z.eqb_eq in Hfree. }
  unfold CFE_SB_PipeDescSetUsed, load_pipe, store_pipe. rewrite bind_modify, bind_bind, bind_gets, bind_modify, bind_modify.
  sb_simpl. pose proof (pi_size _ _ _ _ _ Hp) as Hsz.
  rewrite zget_zset_eq by (by rewrite Hsz).
  assert (Hdead : is_live (zget (PipeTbl s) i) = false) by (unfold is_live; by rewrite E0).
  eexists _, _. split; [reflexivity|]. right. split; [done|]. exists i. cbn [cr_slot cr_PipeId].
  assert (Ezz : forall x y, zset (zset (PipeTbl s) i x) i y = zset (PipeTbl s) i y)
    by (intros; unfold zset; apply list_insert_insert_eq).
  split_and!; [done..|by rewrite Ezz|]. rewrite Ezz.
  apply (inv_set_slot s g _ zl tl l D i reserved_pipe _ Hi Hir); cbn [gadd gslot g_fresh g_zero g_held g_queues g_slots app]; try done.
  - apply (pipes_inv_set _ (LastPipeId s) _ _ (g_queues g) _ (g_slots g)); try done; cbn [In].
    + right. left. split; [done|by left].
    + intros j Hj. split; [intros [?|?]; [congruence|done]|auto].
    + apply NoDup_cons_In. split; [|apply Hp]. intros Hin. destruct (pi_reserved _ _ _ _ _ Hp i Hin) as [_ E]. by rewrite E0 in E.
    + unfold queue_of. by rewrite Hdead.
  - unfold last_ref. by rewrite Hdead.
  - intros a d Ha. apply dead_slot; [done|]. by apply (di_pipe _ _ _ (in_dests _ _ _ _ _ _ Hi) a).
Qed.

(** *** The queue of a new pipe *)

Lemma CreatePipe_queue_eff s g created depth cr :
  inv s g -> cr_Status cr = CFE_SUCCESS -> (fst created = OS_SUCCESS -> queues s !! snd created = None) ->
  exists cr' s', CreatePipe_queue created depth cr s = Some (cr', s')
    /\ cr_slot cr' = cr_slot cr /\ cr_PipeId cr' = cr_PipeId cr
    /\ ((cr_Status cr' <> CFE_SUCCESS /\ s' = s)
        \/ (cr_Status cr' = CFE_SUCCESS /\ queues s !! cr_Queue cr' = None
            /\ s' = set_queues (<[cr_Queue cr' := mkQueue depth []]> (queues s)) s
            /\ inv s' (gadd (gqueue (cr_Queue cr') true) g))).
Proof using.
  intros Hinv Hs Hnew. unfold CreatePipe_queue, OS_QueueCreate. rewrite (proj2 (Z.eqb_eq _ _) Hs).
  unfold bind. destruct created as [st id]. cbn [fst snd] in Hnew.
  destruct (Z.eqb_spec st OS_SUCCESS) as [->|Hst].
  2:{ rewrite (proj2 (Z.eqb_neq _ _) Hst). eexists _, s. split; [reflexivity|]. split_and!; try done. by left. }
  specialize (Hnew eq_refl). change (OS_SUCCESS =? OS_SUCCESS) with true. cbn iota.
  eexists _, _. split; [reflexivity|]. cbn [cr_slot cr_PipeId cr_Queue]. split_and!; try done. right. split_and!; try done.
  destruct Hinv as (zl & tl & l & D & Hi). exists zl, tl, l, D.
  destruct Hi as [Hc Hb Hz Hp Hd]. split; sb_simpl; try done.
  - apply (core_ext s); try done. unfold refs, g_refs in *. sb_simpl. by rewrite all_items_insert.
  - destruct Hp as [Hsz Hla Hsl Hre Hdi Hqu Hqd Hid]. cbn [gadd gqueue g_queues g_slots app].
    assert (Hperm : live_queues (PipeTbl s) ++ map fst ((id, true) :: g_queues g)
                    ≡ₚ id :: live_queues (PipeTbl s) ++ map fst (g_queues g)) by (cbn; by rewrite Permutation_middle).
    split; try done.
    + rewrite Hperm. apply NoDup_cons_In. split; [|done]. rewrite <- Hqd, Hnew. by intros [].
    + intros q. rewrite Hperm, lookup_insert_is_Some', Hqd. cbn [In]. tauto.
    + intros q x Hin. destruct (decide (id = q)) as [<-|Hne].
      * rewrite lookup_insert_eq. by intros [= <-].
      * rewrite lookup_insert_ne by done. destruct Hin as [Hin|Hin]; [congruence|by apply Hid].
  - by apply (dests_inv_ext s).
Qed.

(** *** The end of a creation *)

(** A reserved slot held by an activity. *)
Lemma slot_share s g i zl tl l D :
  inv_at s (gadd (gslot i) g) zl tl l D ->
  0 <= i < CFE_PLATFORM_SB_MAX_PIPES /\ PipeId (zget (PipeTbl s) i) = CFE_RESOURCEID_RESERVED
  /\ is_live (zget (PipeTbl s) i) = false /\ ~ In i (g_slots g).
Proof using.
  intros Hi. pose proof (in_pipes _ _ _ _ _ _ Hi) as Hp.
  destruct (pi_reserved _ _ _ _ _ Hp i) as [Hr E]; [by left|]. split_and!; [lia..|done| |].
  - unfold is_live. by rewrite E.
  - pose proof (pi_distinct _ _ _ _ _ Hp) as Hnd. cbn in Hnd. by apply NoDup_cons_In in Hnd as [? _].
Qed.

(** The slot becomes a free or a used one. *)
Lemma leave_slot s g g' i p :
  inv s (gadd (gslot i) g) -> is_live (zget (PipeTbl s) i) = false ->
  PipeId p = CFE_RESOURCEID_UNDEFINED \/ CFE_SB_LocatePipeDescByID (PipeId p) = Some i ->
  g_fresh g' = g_fresh g -> g_zero g' = g_zero g -> g_slots g' = g_slots g ->
  g_held g' ++ last_ref p ≡ₚ g_held g ->
  queue_of p ++ map fst (g_queues g') ≡ₚ map fst (g_queues g) ->
  (forall q, In (q, true) (g_queues g') -> In (q, true) (g_queues g)) ->
  inv (set_PipeTbl (zset (PipeTbl s) i p) s) g'.
Proof using.
  intros (zl & tl & l & D & Hi) Hdead Hp Ef Ez Es Hrefs Hq Hem.
  destruct (slot_share _ _ _ _ _ _ _ Hi) as (Hr & _ & _ & Hnin). pose proof (in_pipes _ _ _ _ _ _ Hi) as Hpi.
  pose proof (pi_distinct _ _ _ _ _ Hpi) as Hnd. apply NoDup_cons_In in Hnd as [_ Hnd].
  replace (set_PipeTbl (zset (PipeTbl s) i p) s) with (set_LastPipeId (LastPipeId s) (set_PipeTbl (zset (PipeTbl s) i p) s))
    by (by destruct s).
  apply (inv_set_slot s (gadd (gslot i) g) g' zl tl l D i p (LastPipeId s) Hi Hr); try done.
  - rewrite Es. apply (pipes_inv_set _ (LastPipeId s) _ _ (g_queues g) _ (i :: g_slots g)); try done.
    + apply Hpi.
    + destruct Hp as [?|?]; auto.
    + intros j Hj. cbn [In]. split; [auto|]. intros [?|?]; [congruence|done].
    + unfold queue_of at 2. by rewrite Hdead.
  - rewrite Hrefs. unfold last_ref. rewrite Hdead. cbn. by rewrite app_nil_r.
  - intros a d Ha. apply dead_slot; [done|]. by apply (di_pipe _ _ _ (in_dests _ _ _ _ _ _ Hi) a).
Qed.

Definition created_pipe c (depth : Z) (cr : creation) (p : CFE_SB_PipeD_t) : CFE_SB_PipeD_t :=
  pipe_set_PipeId (pipe_configured p (cr_Queue cr) depth (c_AppId c)) (cr_PipeId cr).

Lemma CreatePipe_commit_eff s g c depth cr i :
  inv s (gadd (gslot i) (gadd (gqueue (cr_Queue cr) true) g)) -> cr_Status cr = CFE_SUCCESS ->
  cr_slot cr = Some i -> CFE_SB_LocatePipeDescByID (cr_PipeId cr) = Some i ->
  LastBuffer (zget (PipeTbl s) i) = NULL ->
  exists s', CreatePipe_commit c depth cr s = Some ((CFE_SUCCESS, Some (cr_PipeId cr)), s') /\ inv s' g
    /\ PipeTbl s' = zset (PipeTbl s) i (created_pipe c depth cr (zget (PipeTbl s) i))
    /\ queues s' = queues s /\ dests s' = dests s /\ bufs s' = bufs s /\ routes s' = routes s.
Proof using.
  intros Hinv Hs Hsl El Hn. unfold CreatePipe_commit. rewrite (proj2 (Z.eqb_eq _ _) Hs), Hsl.
  pose proof Hinv as (zl & tl & l & D & Hi). destruct (slot_share _ _ _ _ _ _ _ Hi) as (Hr & _ & Hdead & _).
  pose proof (pi_size _ _ _ _ _ (in_pipes _ _ _ _ _ _ Hi)) as Hsz.
  unfold CFE_SB_PipeDescSetUsed, load_pipe, store_pipe. rewrite bind_gets, bind_modify, bind_bind, bind_gets, bind_modify.
  sb_simpl. rewrite zget_zset_eq, zset_zset by (by rewrite Hsz).
  match goal with |- context [set_PipeTbl ?T _] => set (s1 := set_PipeTbl T s) end.
  change (set_PipeTbl _ _) with s1.
  destruct (raise_stat_run PipesInUse PeakPipesInUse 1 s1) as (t & E & _ & Ho); [done|].
  rewrite (bind_run _ _ _ _ _ E). unfold CFE_EVS_SendEventWithAppID. rewrite bind_modify.
  eexists. split; [reflexivity|]. unfold s1 in *. sb_simpl. split; [|done].
  eapply (quiet_inv (set_StatTlm t _)); [split; reflexivity|].
  apply inv_stat; [|by rewrite Ho..].
  apply (leave_slot s (gadd (gqueue (cr_Queue cr) true) g)); try done.
  - right. done.
  - unfold last_ref. cbn [LastBuffer pipe_set_PipeId pipe_configured]. rewrite Hn, andb_false_r. by rewrite app_nil_r.
  - unfold queue_of. rewrite (located_live _ i); done.
  - intros q Hq. by right.
Qed.

(** Freeing a reserved slot. *)
Lemma SetFree_eff s g i :
  inv s (gadd (gslot i) g) ->
  CFE_SB_PipeDescSetFree i s
    = Some (tt, set_PipeTbl (zset (PipeTbl s) i (pipe_set_PipeId (zget (PipeTbl s) i) CFE_RESOURCEID_UNDEFINED)) s)
  /\ inv (set_PipeTbl (zset (PipeTbl s) i (pipe_set_PipeId (zget (PipeTbl s) i) CFE_RESOURCEID_UNDEFINED)) s) g.
Proof using.
  intros Hi. split; [done|]. pose proof Hi as (zl & tl & l & D & Hia).
  destruct (slot_share _ _ _ _ _ _ _ Hia) as (_ & _ & Hdead & _).
  apply (leave_slot s g); try done; [by left|by rewrite app_nil_r].
Qed.

(** The end of a creation that failed after the reservation, or before it. *)
Lemma CreatePipe_abandon_eff s g c depth cr :
  inv s (match cr_slot cr with Some i => gadd (gslot i) g | None => g end) -> cr_Status cr <> CFE_SUCCESS ->
  exists s', CreatePipe_commit c depth cr s = Some ((cr_Status cr, None), s') /\ inv s' g
    /\ PipeTbl s' = match cr_slot cr with
                    | Some i => zset (PipeTbl s) i (pipe_set_PipeId (zget (PipeTbl s) i) CFE_RESOURCEID_UNDEFINED)
                    | None => PipeTbl s
                    end
    /\ queues s' = queues s /\ dests s' = dests s /\ bufs s' = bufs s /\ routes s' = routes s.
Proof using.
  intros Hi Hs. unfold CreatePipe_commit. rewrite (proj2 (Z.eqb_neq _ _) Hs).
  assert (Hq : forall s1, exists s2, (count CreatePipeErrorCounter ;* send_if (cr_EventId cr) ;*
             ret (cr_Status cr, @None Z)) s1 = Some ((cr_Status cr, None), s2) /\ quiet s1 s2).
  { intros s1. unfold count. rewrite bind_modify.
    destruct (reports_send_if (P := P) (M := M) (Msg := Msg) (cr_EventId cr)
                (set_HKTlm (fun k => if decide (k = CreatePipeErrorCounter) then hk_wrap CreatePipeErrorCounter (HKTlm s1 CreatePipeErrorCounter + 1) else HKTlm s1 k) s1))
      as (u & s2 & E & Q). rewrite (bind_run _ _ _ _ _ E). exists s2. split; [done|].
    etransitivity; [|exact Q]. by split. }
  destruct (cr_slot cr) as [i|].
  - destruct (SetFree_eff s g i Hi) as [E Hi1]. rewrite (bind_run _ _ _ _ _ E).
    match type of Hi1 with inv ?x _ => destruct (Hq x) as (s2 & E2 & Q) end. rewrite E2. exists s2.
    split; [done|]. split; [by apply (quiet_inv _ _ _ Q)|]. destruct Q. sb_simpl. done.
  - rewrite bind_ret. destruct (Hq s) as (s2 & E2 & Q). rewrite E2. exists s2.
    split; [done|]. split; [by apply (quiet_inv _ _ _ Q)|]. by destruct Q.
Qed.

(** *** Deleting a pipe *)

(** The share of a pointer that may be [NULL]. *)
Definition gref (a : Z) : ghost := if a =? NULL then idle else gheld a.

Lemma dests_subs s l D a d : dests_inv s l D -> dests s !! a = Some d -> exists j, 0 <= j < 256 /\ has_sub s D j (dest_PipeId d).
Proof using.
  intros Hi Hd. destruct (proj1 (di_owner _ _ _ Hi a)) as (j & Hj & Hin); [by rewrite Hd|].
  exists j. split; [done|]. by exists a, d.
Qed.

(** The first section, for the owner of the pipe. *)
Lemma detach_eff s g id i :
  inv s g -> CFE_SB_LocatePipeDescByID id = Some i -> PipeId (zget (PipeTbl s) i) = id ->
  let p := zget (PipeTbl s) i in
  exists s' zl tl l D D', (RemovePipeFromRoutes id ;*
      let* p := load_pipe i in
      CFE_SB_PipeDescSetUsed i CFE_RESOURCEID_RESERVED ;*
      ret (mkDeletion CFE_SUCCESS 0 (Some i) (SysQueueId p) (LastBuffer p))) s
      = Some (mkDeletion CFE_SUCCESS 0 (Some i) (SysQueueId p) (LastBuffer p), s')
    /\ inv_at s g zl tl l D /\ dests_inv s' l D'
    /\ inv s' (gadd (gslot i) (gadd (gqueue (SysQueueId p) false) (gadd (gref (LastBuffer p)) g)))
    /\ PipeTbl s' = zset (PipeTbl s) i (pipe_set_PipeId p CFE_RESOURCEID_RESERVED)
    /\ queues s' = queues s /\ bufs s' = bufs s
    /\ (forall j k, 0 <= j < 256 -> has_sub s' D' j k <-> has_sub s D j k /\ k <> id).
Proof using HP HMsg.
  intros Hinv El Ep p. pose proof Hinv as (zl & tl & l & D & Hi).
  destruct (RemovePipeFromRoutes_eff s zl tl (g_fresh g) _ l D id (in_core _ _ _ _ _ _ Hi) (in_dests _ _ _ _ _ _ Hi))
    as (s1 & D' & E1 & Hc1 & Hd1 & [Dp Dl Dq Dr Db Dk] & _ & Hsub).
  rewrite (bind_run _ _ _ _ _ E1). unfold CFE_SB_PipeDescSetUsed, load_pipe, store_pipe.
  rewrite bind_gets, bind_bind, bind_gets, bind_modify, Dp. fold p.
  assert (Hi1 : inv_at s1 g zl tl l D').
  { destruct Hi. split; unfold refs; rewrite ?Dp, ?Dl, ?Dq, ?Db; done. }
  pose proof (in_pipes _ _ _ _ _ _ Hi1) as Hp. pose proof (locate_range _ _ El) as Hr.
  assert (Hlive : is_live p = true) by (apply (located_live _ i); unfold p; by rewrite Ep).
  eexists _, zl, tl, l, D, D'. split; [reflexivity|].
  set (T := zset (PipeTbl s) i _). assert (Hinv' : inv (set_LastPipeId (LastPipeId s1) (set_PipeTbl T s1))
     (gadd (gslot i) (gadd (gqueue (SysQueueId p) false) (gadd (gref (LastBuffer p)) g)))).
  { unfold T. rewrite <- Dp.
    apply (inv_set_slot s1 g _ zl tl l D' i _ _ Hi1 Hr); rewrite ?Dp; fold p;
      cbn [gadd gslot gqueue g_fresh g_zero g_held g_queues g_slots app].
    - rewrite Dp in Hp. apply (pipes_inv_set _ (LastPipeId s1) _ _ (g_queues g) _ (g_slots g)); try done.
      + apply Hp.
      + right. left. split; [done|]. cbn. by left.
      + intros j Hj. unfold gref. cbn. destruct (LastBuffer p =? NULL); cbn; (split; [intros [?|?]; [congruence|done]|auto]).
      + unfold gref. cbn. replace (g_slots (if LastBuffer p =? NULL then idle else gheld (LastBuffer p)) ++ g_slots g)
          with (g_slots g) by (by destruct (LastBuffer p =? NULL)).
        apply NoDup_cons_In. split; [|apply Hp]. intros Hin. destruct (pi_reserved _ _ _ _ _ Hp i Hin) as [_ E].
        fold p in E. unfold is_live in Hlive. rewrite E in Hlive. done.
      + unfold queue_of at 2. fold p. rewrite Hlive. unfold gref. cbn. by destruct (LastBuffer p =? NULL).
      + intros q. unfold gref. cbn. destruct (LastBuffer p =? NULL); cbn; intros [?|?]; done.
    - unfold gref. by destruct (LastBuffer p =? NULL).
    - unfold gref. by destruct (LastBuffer p =? NULL).
    - unfold gref, last_ref. rewrite Hlive. cbn. destruct (LastBuffer p =? NULL); cbn; rewrite ?app_nil_r; [done|].
      by rewrite Permutation_app_comm.
    - intros a d Ha. destruct (dests_subs _ _ _ _ _ Hd1 Ha) as (j & Hj & Hs). apply Hsub in Hs as [_ Hs]; [|done].
      unfold p. by rewrite Ep. }
  replace (set_LastPipeId (LastPipeId s1) (set_PipeTbl T s1)) with (set_PipeTbl T s1) in Hinv' by (by destruct s1).
  split; [done|]. split; [|split; [done|sb_simpl; done]].
  destruct Hinv' as (zl' & tl' & l' & D2 & Hi').
  destruct Hd1 as [X1 X2 X3 X4 X5 X6 X7 X8 X9 X10]. split; sb_simpl; try done.
  apply (in_dests _ _ _ _ _ _ Hi').
Qed.

Lemma DeletePipe_detach_eff s g id who :
  inv s g ->
  exists del s', DeletePipe_detach id who s = Some (del, s')
    /\ ((del_Status del <> CFE_SUCCESS /\ s' = s)
        \/ exists i zl tl l D D', let p := zget (PipeTbl s) i in
            del = mkDeletion CFE_SUCCESS 0 (Some i) (SysQueueId p) (LastBuffer p)
            /\ CFE_SB_LocatePipeDescByID id = Some i /\ PipeId p = id /\ pipe_AppId p = who
            /\ inv_at s g zl tl l D /\ dests_inv s' l D'
            /\ inv s' (gadd (gslot i) (gadd (gqueue (SysQueueId p) false) (gadd (gref (LastBuffer p)) g)))
            /\ PipeTbl s' = zset (PipeTbl s) i (pipe_set_PipeId p CFE_RESOURCEID_RESERVED)
            /\ queues s' = queues s /\ bufs s' = bufs s
            /\ (forall j k, 0 <= j < 256 -> has_sub s' D' j k <-> has_sub s D j k /\ k <> id)).
Proof using HP HMsg.
  intros Hi. unfold DeletePipe_detach. rewrite bind_gets. unfold CFE_SB_PipeDescIsMatch, CFE_ResourceId_Equal.
  destruct (CFE_SB_LocatePipeDescByID id) as [i|] eqn:El; [|eexists _, s; split; [reflexivity|by left]].
  destruct (Z.eqb_spec (PipeId (zget (PipeTbl s) i)) id) as [Ep|]; cbn [negb]; [|eexists _, s; split; [reflexivity|by left]].
  unfold load_pipe at 1. rewrite bind_gets.
  destruct (Z.eqb_spec who (pipe_AppId (zget (PipeTbl s) i))) as [Ew|]; cbn [negb]; [|eexists _, s; split; [reflexivity|by left]].
  destruct (detach_eff s g id i Hi El Ep) as (s' & zl & tl & l & D & D' & E & R).
  eexists _, s'. split; [exact E|]. right. exists i, zl, tl, l, D, D'. cbv zeta. split_and!; try done; apply R.
Qed.

Lemma DeletePipe_release_eff s g a :
  inv s (gadd (gref a) g) ->
  exists s', DeletePipe_release a s = Some (tt, s') /\ inv s' g /\ same_tables s s' /\ dests s' = dests s.
Proof using HP.
  intros Hi. unfold DeletePipe_release, gref in *. destruct (Z.eqb_spec a NULL); cbn [negb].
  - exists s. rewrite gadd_idle in Hi. done.
  - destruct (drop_held s g a Hi) as (s' & E & R). exists s'. split_and!; try done; apply R.
Qed.

Lemma queue_share s g q b :
  inv s (gadd (gqueue q b) g) -> exists x, queues s !! q = Some x /\ (b = true -> q_items x = []).
Proof using.
  intros (zl & tl & l & D & Hi). pose proof (in_pipes _ _ _ _ _ _ Hi) as Hp.
  destruct (proj2 (pi_qdom _ _ _ _ _ Hp q)) as [x Hx]; [apply in_app_iff; right; by left|].
  exists x. split; [done|]. intros ->. apply (pi_idle _ _ _ _ _ Hp q); [by left|done].
Qed.

Lemma mark_empty s g q x :
  inv s (gadd (gqueue q false) g) -> queues s !! q = Some x -> q_items x = [] -> inv s (gadd (gqueue q true) g).
Proof using.
  intros (zl & tl & l & D & []) Hq Hx. exists zl, tl, l, D. split; try done.
  destruct in_pipes. split; try done. intros k y [Hk|Hk] Hy; [|apply (pi_idle k); [by right|done]]. congruence.
Qed.

Lemma DeletePipe_next_eff s g q :
  inv s (gadd (gqueue q false) g) ->
  exists r s', DeletePipe_next OS_SUCCESS q s = Some (r, s') /\ PipeTbl s' = PipeTbl s /\ dests s' = dests s
    /\ (routes s' = routes s /\ forall k, k <> q -> queues s' !! k = queues s !! k)
    /\ match r with
       | Some x => inv s' (gadd (gref x) (gadd (gqueue q false) g)) /\ x <> NULL
                   /\ queue_length s q = S (queue_length s' q)
       | None => inv s' (gadd (gqueue q true) g) /\ s' = s
       end.
Proof using.
  intros Hi. destruct (queue_share _ _ _ _ Hi) as (x & Hq & _). unfold DeletePipe_next, OS_QueueGet, bind.
  change (negb (OS_SUCCESS =? OS_SUCCESS)) with false. cbn iota. rewrite Hq.
  destruct (q_items x) as [|y rest] eqn:Ex.
  - cbn. exists None, s. split_and!; try done. by apply (mark_empty s g q x).
  - cbn. exists (Some y). eexists. split; [reflexivity|]. sb_simpl. split_and!; try done.
    + intros k Hk. by rewrite lookup_insert_ne.
    + destruct (take_first s _ q x y rest Hi Hq Ex) as (Hi' & Hy & _). unfold gref.
      by rewrite (proj2 (Z.eqb_neq y NULL)) by (unfold NULL; lia).
    + destruct (take_first s _ q x y rest Hi Hq Ex) as (_ & Hy & _). unfold NULL. lia.
    + unfold queue_length. sb_simpl. by rewrite Hq, lookup_insert_eq, Ex.
Qed.

(** The loop empties the queue. *)
Lemma DeletePipe_drain_eff fuel : forall s g q a,
  inv s (gadd (gref a) (gadd (gqueue q false) g)) -> (queue_length s q < fuel)%nat ->
  exists s', DeletePipe_drain fuel OS_SUCCESS q a s = Some (tt, s') /\ inv s' (gadd (gqueue q true) g)
    /\ PipeTbl s' = PipeTbl s /\ dests s' = dests s /\ routes s' = routes s
    /\ forall k, k <> q -> queues s' !! k = queues s !! k.
Proof using HP.
  induction fuel as [|fuel IH]; intros s g q a Hi Hf; [lia|]. cbn [DeletePipe_drain].
  destruct (DeletePipe_release_eff s _ a Hi) as (s1 & E1 & Hi1 & Hst & Hd1). rewrite (bind_run _ _ _ _ _ E1).
  destruct (DeletePipe_next_eff s1 g q Hi1) as (r & s2 & E2 & Ep & Ed & [Er Eq] & Hr). rewrite (bind_run _ _ _ _ _ E2).
  destruct Hst as [Sp Sl Sr Sq _]. rewrite Sq in Eq.
  destruct r as [x|].
  - destruct Hr as (Hi2 & _ & Hlen).
    assert (Hq1 : queue_length s1 q = queue_length s q) by (unfold queue_length; by rewrite Sq).
    destruct (IH s2 g q x Hi2) as (s' & E & Hi' & Ep' & Ed' & Er' & Eq'); [lia|].
    exists s'. split_and!; try done; try congruence. intros k Hk. by rewrite Eq', Eq.
  - destruct Hr as [Hi2 ->]. exists s1. split_and!; try done; congruence.
Qed.

Lemma QueueDelete_eff s g q :
  inv s (gadd (gqueue q true) g) ->
  OS_QueueDelete q s = Some (tt, set_queues (delete q (queues s)) s) /\ inv (set_queues (delete q (queues s)) s) g.
Proof using.
  intros Hinv. split; [done|]. destruct (queue_share _ _ _ _ Hinv) as (x & Hq & Hx). specialize (Hx eq_refl).
  destruct Hinv as (zl & tl & l & D & []). exists zl, tl, l, D. split; sb_simpl; try done.
  - apply (core_ext s); try done. unfold refs in *. sb_simpl. rewrite (all_items_split _ _ _ Hq), Hx in in_core. done.
  - destruct in_pipes as [Hsz Hla Hsl Hre Hdi Hqu Hqd Hid]. cbn [gadd gqueue g_queues g_slots app] in *.
    assert (Hperm : live_queues (PipeTbl s) ++ map fst ((q, true) :: g_queues g)
                    ≡ₚ q :: live_queues (PipeTbl s) ++ map fst (g_queues g)) by (cbn; by rewrite Permutation_middle).
    rewrite Hperm in Hqu. apply NoDup_cons_In in Hqu as [Hn Hqu].
    split; try done.
    + intros k. specialize (Hqd k). rewrite Hperm in Hqd. cbn [In] in Hqd. rewrite lookup_delete_is_Some, Hqd.
      split; [intros [? [?|?]]; done|]. intros Hk. split; [intros <-; done|auto].
    + intros k y Hk [_ Hy]%lookup_delete_Some. apply (Hid k); [by right|done].
  - by apply (dests_inv_ext s).
Qed.

Lemma DeletePipe_finish_eff s g del i :
  inv s (gadd (gslot i) g) -> del_Status del = CFE_SUCCESS -> del_slot del = Some i ->
  exists s', DeletePipe_finish del s = Some (CFE_SUCCESS, s') /\ inv s' g
    /\ PipeTbl s' = zset (PipeTbl s) i (pipe_set_PipeId (zget (PipeTbl s) i) CFE_RESOURCEID_UNDEFINED)
    /\ dests s' = dests s /\ routes s' = routes s /\ bufs s' = bufs s /\ queues s' = queues s.
Proof using.
  intros Hi Hs Hsl. unfold DeletePipe_finish. rewrite Hs, Hsl. change (CFE_SUCCESS =? CFE_SUCCESS) with true. cbn iota.
  destruct (SetFree_eff s g i Hi) as [E Hi1]. rewrite bind_bind, (bind_run _ _ _ _ _ E).
  match type of Hi1 with inv ?x _ => destruct (lower_stat_run PipesInUse 1 x) as (t & E2 & _ & Ho) end.
  rewrite (bind_run _ _ _ _ _ E2). unfold CFE_EVS_SendEventWithAppID. rewrite bind_modify.
  eexists. split; [reflexivity|]. split; [|done].
  eapply (quiet_inv (set_StatTlm t _)); [split; reflexivity|]. apply inv_stat; [exact Hi1|by rewrite Ho..].
Qed.
End table.
