(* ===== verification/SbSubs.v ===== *)
(** * The software bus: subscriptions

    The locked sections of [CFE_SB_SubscribeFull] and [CFE_SB_UnsubscribeFull],
    and the view of the destination lists as sets of subscribers. *)

From S2P Require Import Prelude ResourceId SbRoute SbRouteProofs SbRouteTheorems SbModel SbApi SbLists SbInv SbDests SbWorld SbSend SbBroadcast SbBuffers SbPipes SbTable.

(** The pipes along a list of destinations. *)
Fixpoint walk (fuel : nat) (D : gmap Z CFE_SB_DestinationD_t) (a : Z) : list Z :=
  match fuel with
  | O => []
  | S fuel' =>
      if a =? NULL then []
      else match D !! a with
           | Some d => dest_PipeId d :: walk fuel' D (dest_Next d)
           | None => []
           end
  end.

Definition pipe_at (D : gmap Z CFE_SB_DestinationD_t) (a : Z) : Z :=
  match D !! a with Some d => dest_PipeId d | None => 0 end.

Lemma walk_dseg D l : forall fuel p h q,
  dseg D p h l q NULL -> (length l < fuel)%nat -> walk fuel D h = map (pipe_at D) l.
Proof.
  induction l as [|a l IH]; intros [|fuel] p h q Hs Hf; cbn [length] in Hf; try lia; cbn [walk].
  - cbn in Hs. destruct Hs as [-> _]. by rewrite Z.eqb_refl.
  - apply dseg_cons in Hs as (-> & Ha & d & Hd & _ & Hs). rewrite (proj2 (Z.eqb_neq _ _) Ha), Hd. cbn [map].
    unfold pipe_at at 1. rewrite Hd. f_equal. eapply IH; [done|lia].
Qed.

Section subscriptions.
Context {P M Msg : Type} `{HP : PoolBufLaws P} `{HMap : RouteMapLaws M} `{HMsg : SbPlatformLaws Msg}.
Local Abbreviation sb := (sb P M Msg).
Local Abbreviation SB := (SB (P := P) (M := M) (Msg := Msg)).
Implicit Types (s : sb) (g : ghost) (c : caller).

(** The pipes that get the messages with an id, in the order of delivery. *)
Definition subscribers s (MsgId : Z) : list Z :=
  match CFE_SBR_GetRouteId (routes s) MsgId with
  | Some r => walk (S (size (dests s))) (dests s) (CFE_SBR_GetDestListHeadPtr (routes s) r)
  | None => []
  end.

(** The same, of the ghost lists. *)
Definition sub_of s (l : list Z) D (MsgId id : Z) : Prop :=
  exists i, 0 <= i < zlen l /\ zget l i = MsgId /\ has_sub s D i id.

Lemma route_of_cases (l : list Z) id :
  (route_of l id = 0 /\ ~ In id l) \/ exists i, 0 <= i < zlen l /\ zget l i = id /\ route_of l id = i + 1.
Proof using.
  unfold route_of. destruct (position_from_spec 1 l id) as [[Hn E]|(i & Hi & Ei & E)]; [lia| |].
  - left. split; [lia|done].
  - right. exists i. split_and!; [lia..|done|lia].
Qed.

Lemma subscribers_at s l D i :
  dests_inv s l D -> 0 <= i < zlen l -> subscribers s (zget l i) = map (pipe_at (dests s)) (D i).
Proof using.
  intros Hd Hi. pose proof (di_routes _ _ _ Hd) as Hr. pose proof (rep_room _ _ Hr) as Hroom.
  unfold CFE_PLATFORM_SB_MAX_MSG_IDS in Hroom.
  assert (Hid : is_u32 (zget l i)).
  { destruct (rep_valid _ _ Hr (zget l i)) as [Hv Hp]; [by apply zget_In|]. apply valid_msgid_bound in Hv. range. }
  unfold subscribers. rewrite (GetRouteId_rep _ _ _ Hr Hid).
  destruct (route_of_cases l (zget l i)) as [[_ Hn]|(j & Hj & Ej & ->)]; [destruct Hn; by apply zget_In|].
  assert (j = i) as -> by (apply (zget_inj l); try done; apply Hr).
  rewrite GetHead_at by lia. destruct (di_list _ _ _ Hd i ltac:(lia)) as [q Hq].
  apply (walk_dseg _ _ _ NULL _ q); [done|].
  pose proof (list_fits s (D i) (di_nodup _ _ _ Hd i ltac:(lia)) (fun a Ha => proj1 (dseg_nodes _ _ _ _ _ _ a Hq Ha))). lia.
Qed.

Lemma subscribers_none s l D id : dests_inv s l D -> is_u32 id -> ~ In id l -> subscribers s id = [].
Proof using.
  intros Hd Hid Hn. unfold subscribers. rewrite (GetRouteId_rep _ _ _ (di_routes _ _ _ Hd) Hid).
  destruct (route_of_cases l id) as [[-> _]|(j & Hj & Ej & _)]; [done|]. destruct Hn. rewrite <- Ej. by apply zget_In.
Qed.

(** The subscribers of a message id are a set of at most
    [CFE_PLATFORM_SB_MAX_DEST_PER_PKT] pipes. *)
Lemma subscribers_spec s l D m :
  dests_inv s l D -> is_u32 m ->
  NoDup (subscribers s m) /\ zlen (subscribers s m) <= CFE_PLATFORM_SB_MAX_DEST_PER_PKT
  /\ forall k, In k (subscribers s m) <-> sub_of s l D m k.
Proof using.
  intros Hd Hm. pose proof (rep_room _ _ (di_routes _ _ _ Hd)) as Hroom. unfold CFE_PLATFORM_SB_MAX_MSG_IDS in Hroom.
  destruct (in_dec Z.eq_dec m l) as [Hin|Hn].
  2:{ rewrite (subscribers_none s l D m) by done. split_and!; [constructor|done|]. intros k. split; [done|].
      intros (i & Hi & E & _). apply Hn. rewrite <- E. by apply zget_In. }
  destruct (route_of_cases l m) as [[_ Hn]|(i & Hi & Ei & _)]; [done|]. subst m.
  assert (Hi' : 0 <= i < 256) by lia.
  assert (Hlook : forall a, In a (D i) -> exists d, dests s !! a = Some d /\ pipe_at (dests s) a = dest_PipeId d).
  { intros a Ha. destruct (proj2 (di_owner _ _ _ Hd a)) as [d E]; [by exists i|]. exists d. unfold pipe_at. by rewrite E. }
  rewrite (subscribers_at s l D i) by done. split_and!.
  - assert (Hinj : forall a b, In a (D i) -> In b (D i) -> pipe_at (dests s) a = pipe_at (dests s) b -> a = b).
    { intros a b Ha Hb. destruct (Hlook a Ha) as (d & Hda & ->), (Hlook b Hb) as (e & Heb & ->).
      by apply (di_once _ _ _ Hd i a b d e). }
    pose proof (di_nodup _ _ _ Hd i Hi') as Hnd. revert Hinj Hnd. clear. induction (D i) as [|a m IH]; [constructor|].
    intros Hinj [Ha Hnd]%NoDup_cons_In. cbn [map]. apply NoDup_cons_In. split.
    + intros (b & E & Hb)%in_map_iff. apply Ha. rewrite (Hinj a b); [done|by left|by right|done].
    + apply IH; [|done]. intros x y Hx Hy. apply Hinj; by right.
  - pose proof (di_limit _ _ _ Hd i Hi') as Hl. unfold zlen in *. by rewrite length_map.
  - intros k. rewrite in_map_iff. split.
    + intros (a & <- & Ha). exists i. split_and!; [lia..|done|]. destruct (Hlook a Ha) as (d & Hda & ->). by exists a, d.
    + intros (j & Hj & Ej & a & d & Ha & Hda & <-).
      assert (j = i) as -> by (apply (zget_inj l); try done; apply (di_routes _ _ _ Hd)).
      exists a. split; [|done]. unfold pipe_at. by rewrite Hda.
Qed.

(** *** Adding a subscription *)

(** Other contents for the same destination blocks. *)
Lemma core_same_dests s zl tl fr rf N :
  core s zl tl fr rf -> (forall b, is_Some (N !! b) <-> is_Some (dests s !! b)) -> core (set_dests N s) zl tl fr rf.
Proof using.
  intros Hc Hdom. assert (El : live (set_dests N s) = live s).
  { unfold live. sb_simpl. f_equal. apply map_eq. intros b. rewrite !lookup_fmap. specialize (Hdom b).
    destruct (N !! b), (dests s !! b); try done; [by destruct (proj1 Hdom)|by destruct (proj2 Hdom)]. }
  destruct Hc. split; rewrite ?El; sb_simpl; try done.
  intros b Hb. apply eq_None_not_Some. rewrite Hdom, co_disjoint by done. by intros [].
Qed.

Lemma same_subs s s' D : dests s' = dests s -> forall j k, has_sub s' D j k <-> has_sub s D j k.
Proof using. intros E j k. apply has_sub_pipes. intros a _. by rewrite E. Qed.

Lemma add_destination_eff s g zl tl l D i id lim scope :
  inv_at s g zl tl l D -> 0 <= i < zlen l -> pipe_live (PipeTbl s) id -> ~ dup_in s (D i) id ->
  zlen (D i) < CFE_PLATFORM_SB_MAX_DEST_PER_PKT ->
  exists st eid s' D', add_destination (i + 1) id lim scope s = Some ((st, eid), s')
    /\ inv_at s' g zl tl l D' /\ dests_only s s'
    /\ ((st <> CFE_SUCCESS /\ forall j k, has_sub s' D' j k <-> has_sub s D j k)
        \/ (st = CFE_SUCCESS /\ eid = 0
            /\ forall j k, 0 <= j < 256 -> has_sub s' D' j k <-> has_sub s D j k \/ (j = i /\ k = id))).
Proof using HP HMsg.
  intros Hi Hr Hpl Hdup Hlim. pose proof (in_dests _ _ _ _ _ _ Hi) as Hd.
  pose proof (rep_room _ _ (di_routes _ _ _ Hd)) as Hroom. unfold CFE_PLATFORM_SB_MAX_MSG_IDS in Hroom.
  unfold add_destination.
  destruct (GetDest_eff s zl tl (g_fresh g) _ (in_core _ _ _ _ _ _ Hi))
    as (a & s1 & E1 & Hc1 & [Sp Sl Sr Sq Srep] & Ehk & Eb & Elk & Es & Hcase).
  rewrite (bind_run _ _ _ _ _ E1). destruct Hcase as [[-> Ed]|(Hna & Hnew & Ed)].
  - rewrite Z.eqb_refl. eexists _, _, s1, D. split; [reflexivity|]. split; [|split; [by split|]].
    + destruct Hi. split; unfold refs; rewrite ?Sp, ?Sl, ?Sq, ?Eb; try done.
      apply (dests_inv_ext s); rewrite ?Ed; done.
    + left. split; [done|]. by apply same_subs.
  - rewrite (proj2 (Z.eqb_neq a NULL)) by done.
    set (d := mkDest id CFE_SB_ACTIVE lim 0 0 scope NULL NULL).
    rewrite bind_store_dest by (rewrite Ed; by rewrite lookup_insert_eq).
    rewrite Ed, insert_insert_eq. set (s2 := set_dests (<[a := d]> (dests s)) s1).
    assert (Hfresh : forall j, 0 <= j < 256 -> ~ In a (D j)).
    { intros j Hj Hin. assert (Hx : is_Some (dests s !! a)) by (apply (di_owner _ _ _ Hd); by exists j).
      rewrite Hnew in Hx. by destruct Hx. }
    assert (Hl2 : dlist (dests s2) (head_at (routes s2) i) (D i)).
    { unfold s2. sb_simpl. rewrite Sr. destruct (di_list _ _ _ Hd i ltac:(lia)) as [q Hq]. exists q.
      apply (dseg_frame (dests s)); [|done]. intros b Hb. rewrite lookup_insert_ne; [done|].
      intros <-. by apply (Hfresh i ltac:(lia)). }
    destruct (AddDestNode_eff s2 i (D i) a d ltac:(lia) Hl2 (di_nodup _ _ _ Hd i ltac:(lia)) (Hfresh i ltac:(lia)) Hna)
      as (N & E2 & HlN & HoutN & HpN); [unfold s2; sb_simpl; apply lookup_insert_eq|].
    rewrite (bind_run _ _ _ _ _ E2).
    match type of E2 with _ = Some (_, ?x) => destruct (raise_stat_run SubscriptionsInUse PeakSubscriptionsInUse 1 x) as (t & E3 & Ht & Ho); [done|] end.
    rewrite (bind_run _ _ _ _ _ E3). unfold s2 in *. sb_simpl. rewrite Sr in *.
    assert (HdomN : forall b, is_Some (N !! b) <-> is_Some (dests s1 !! b)).
    { intros b. specialize (HpN b). rewrite Ed. rewrite lookup_insert_is_Some'.
      destruct (decide (a = b)) as [<-|Hne].
      - rewrite lookup_insert_eq in HpN. destruct (N !! a); [|done]. split; [by left|done].
      - rewrite lookup_insert_ne in HpN by done. destruct (N !! b), (dests s !! b); try discriminate; split; auto.
        intros [?|?]; done. }
    match type of E3 with _ = Some (_, ?x) => pose (s' := x) end.
    destruct (added_inv s s' l D i a id N Hd Hr Hnew Hna Hpl Hdup Hlim HlN) as [Hd' Hsub]; try done.
    { rewrite HpN. by rewrite lookup_insert_eq. }
    { intros b Hb. rewrite HoutN by done. rewrite lookup_insert_ne; [done|]. intros <-. apply Hb. by left. }
    { intros b Hb. rewrite HpN. by rewrite lookup_insert_ne. }
    { unfold s'. sb_simpl. by rewrite Ht, Es. }
    eexists _, _, s', _. split; [reflexivity|]. split; [|split; [by split|]].
    + destruct Hi. split; [|by rewrite <- Eb in *|done| |done].
      * unfold s', refs. sb_simpl. rewrite Sp, Sq.
        apply (core_ext (set_dests N s1)); sb_simpl; try done; [by rewrite Ho..|]. by apply core_same_dests.
      * unfold s'. sb_simpl. by rewrite Sp, Sl, Sq.
    + right. split_and!; done.
Qed.

Definition Subscribe_dest (RouteId id lim scope Collisions : Z) : SB (Z * Z * Z) :=
  let* head := list_head RouteId in
  let* fuel := dest_fuel in
  let* found := Subscribe_search fuel head 0 id in
  match found with
  | FoundDuplicate => ret (CFE_SUCCESS, CFE_SB_DUP_SUBSCRIP_EID, Collisions)
  | LimitReached => ret (CFE_SB_MAX_DESTS_MET, CFE_SB_MAX_DESTS_MET_EID, Collisions)
  | NotFound =>
      let* r := add_destination RouteId id lim scope in
      let '(Status, eid) := r in
      ret (Status, eid, Collisions)
  end.

(** The destination of a route: already there, added, or refused. *)
Lemma Subscribe_dest_eff s g zl tl l D i id lim scope col :
  inv_at s g zl tl l D -> 0 <= i < zlen l -> pipe_live (PipeTbl s) id ->
  exists st eid s' D', Subscribe_dest (i + 1) id lim scope col s = Some ((st, eid, col), s')
    /\ inv_at s' g zl tl l D' /\ dests_only s s'
    /\ (forall j k, 0 <= j < 256 -> has_sub s' D' j k <-> has_sub s D j k \/ (st = CFE_SUCCESS /\ j = i /\ k = id)).
Proof using HP HMsg.
  intros Hi Hr Hpl. pose proof (in_dests _ _ _ _ _ _ Hi) as Hd.
  pose proof (rep_room _ _ (di_routes _ _ _ Hd)) as Hroom. unfold CFE_PLATFORM_SB_MAX_MSG_IDS in Hroom.
  unfold Subscribe_dest, dest_fuel. rewrite bind_list_head, bind_gets by lia.
  destruct (di_list _ _ _ Hd i ltac:(lia)) as [q Hq].
  pose proof (list_fits s (D i) (di_nodup _ _ _ Hd i ltac:(lia)) (fun a Ha => proj1 (dseg_nodes _ _ _ _ _ _ a Hq Ha))) as Hfit.
  pose proof (di_limit _ _ _ Hd i ltac:(lia)) as Hlim. unfold CFE_PLATFORM_SB_MAX_DEST_PER_PKT in Hlim.
  destruct (Subscribe_search_eff s (S (size (dests s))) NULL _ (D i) q 0 id Hq) as (r & E & Hcase); [lia..|].
  rewrite (bind_run _ _ _ _ _ E). destruct r.
  - eexists _, _, s, D. split; [reflexivity|]. split_and!; [done..|]. intros j k Hj. split; [auto|].
    intros [?|(_ & -> & ->)]; [done|]. destruct Hcase as (a & d & Ha & Hda & Ed). by exists a, d.
  - eexists _, _, s, D. split; [reflexivity|]. split_and!; [done..|]. intros j k Hj. split; [auto|]. intros [?|(? & _)]; done.
  - destruct Hcase as [Hnd Hlt].
    destruct (add_destination_eff s g zl tl l D i id lim scope Hi Hr Hpl Hnd) as (st & eid & s' & D' & E2 & Hi' & Hdo & Hsub);
      [unfold CFE_PLATFORM_SB_MAX_DEST_PER_PKT; lia|].
    rewrite (bind_run _ _ _ _ _ E2). eexists _, _, s', D'. split; [reflexivity|]. split_and!; [done..|].
    intros j k Hj. destruct Hsub as [[Hst Hsub]|(Hst & _ & Hsub)]; rewrite Hsub by done; tauto.
Qed.

(** A route is added for a message id that has none. *)
Lemma route_added_eff s g zl tl l D id :
  inv_at s g zl tl l D -> is_u32 id -> CFE_SB_IsValidMsgId id = true -> ~ In id l ->
  zlen l < CFE_PLATFORM_SB_MAX_MSG_IDS ->
  exists col st', CFE_SBR_AddRoute (routes s) id = Some (zlen l + 1, col, st')
    /\ inv_at (set_routes st' s) g zl tl (l ++ [id]) D.
Proof using.
  intros Hi Hid Hv Hn Hlt. pose proof (in_dests _ _ _ _ _ _ Hi) as Hd.
  pose proof (AddRoute_eff (routes s) l id (di_routes _ _ _ Hd) Hid Hn) as HA.
  rewrite Hv, (proj2 (Z.ltb_lt _ _) Hlt) in HA. cbn [andb] in HA. destruct HA as (col & st' & E & _ & Hr' & Et).
  exists col, st'. split; [done|]. pose proof (zlen_nonneg l). pose proof (di_size _ _ _ Hd) as Hsz.
  unfold CFE_PLATFORM_SB_MAX_MSG_IDS in Hlt.
  assert (Hh : forall i, 0 <= i < 256 -> head_at st' i = head_at (routes s) i).
  { intros i Hii. unfold head_at. rewrite Et, zget_zset by lia. by case_test; subst. }
  destruct Hi as [Hc Hb Hz Hp _]. split; sb_simpl; try done; [by apply (core_ext s)|].
  destruct Hd. split; sb_simpl; try done.
  - intros i Hii. rewrite Hh by done. auto.
  - intros i Hii. rewrite zlen_app in Hii. change (zlen [id]) with 1 in Hii. apply di_unused. lia.
Qed.

Lemma sub_of_grown s l D id m k :
  ~ In id l -> dests_inv s l D -> zlen l < 256 -> sub_of s (l ++ [id]) D m k <-> sub_of s l D m k.
Proof using.
  intros Hn Hd Hlt. pose proof (zlen_nonneg l). unfold sub_of. rewrite zlen_app. change (zlen [id]) with 1. split.
  - intros (i & Hi & E & Hs). destruct (Z.eq_dec i (zlen l)) as [->|Hne].
    + destruct Hs as (a & d & Ha & _). rewrite (di_unused _ _ _ Hd (zlen l)) in Ha by lia. done.
    + exists i. rewrite zget_app_l in E by lia. split_and!; [lia..|done|done].
  - intros (i & Hi & E & Hs). exists i. rewrite zget_app_l by lia. split_and!; [lia..|done|done].
Qed.

Lemma sub_of_at s s' l D D' i m id (ok : Prop) :
  NoDup l -> zlen l <= 256 -> 0 <= i < zlen l -> zget l i = m ->
  (forall j k, 0 <= j < 256 -> has_sub s' D' j k <-> has_sub s D j k \/ (ok /\ j = i /\ k = id)) ->
  forall m' k, sub_of s' l D' m' k <-> sub_of s l D m' k \/ (ok /\ m' = m /\ k = id).
Proof using.
  intros Hnd Hlen Hi Em Hs m' k. split.
  - intros (j & Hj & Ej & Hsub). rewrite Hs in Hsub by lia. destruct Hsub as [Hsub|(Hok & -> & ->)].
    + left. by exists j.
    + right. split_and!; [done|congruence|done].
  - intros [(j & Hj & Ej & Hsub)|(Hok & -> & ->)].
    + exists j. split_and!; [lia..|done|]. apply Hs; [lia|]. by left.
    + exists i. split_and!; [lia..|done|]. apply Hs; [lia|]. by right.
Qed.

Lemma Subscribe_route_eff s g zl tl l D m id lim scope :
  inv_at s g zl tl l D -> is_u32 m -> CFE_SB_IsValidMsgId m = true -> pipe_live (PipeTbl s) id ->
  exists st eid col s' l' D', Subscribe_route m id lim scope s = Some ((st, eid, col), s')
    /\ inv_at s' g zl tl l' D' /\ dests_only s s'
    /\ (forall m' k, sub_of s' l' D' m' k <-> sub_of s l D m' k \/ (st = CFE_SUCCESS /\ m' = m /\ k = id)).
Proof using HP HMsg.
  intros Hi Hm Hv Hpl. pose proof (in_dests _ _ _ _ _ _ Hi) as Hd. pose proof (di_routes _ _ _ Hd) as Hr.
  pose proof (rep_room _ _ Hr) as Hroom. unfold CFE_PLATFORM_SB_MAX_MSG_IDS in Hroom.
  unfold Subscribe_route, route_lookup. unfold bind at 1. rewrite (GetRouteId_rep _ _ _ Hr Hm).
  destruct (route_of_cases l m) as [[E0 Hn]|(i & Hri & Em & E0)]; rewrite E0.
  - change (CFE_SBR_IsValidRouteId 0) with false. cbn iota. rewrite bind_bind. unfold bind at 1.
    destruct (Z_lt_ge_dec (zlen l) CFE_PLATFORM_SB_MAX_MSG_IDS) as [Hlt|Hge].
    + destruct (route_added_eff s g zl tl l D m Hi Hm Hv Hn Hlt) as (col & st' & -> & Hi1).
      unfold CFE_PLATFORM_SB_MAX_MSG_IDS in Hlt. pose proof (zlen_nonneg l). rewrite route_valid by lia.
      rewrite bind_bind.
      destruct (raise_stat_run MsgIdsInUse PeakMsgIdsInUse 1 (set_routes st' s)) as (t & E & _ & Ho); [done|].
      rewrite (bind_run _ _ _ _ _ E), bind_ret.
      assert (Hi2 : inv_at (set_StatTlm t (set_routes st' s)) g zl tl (l ++ [m]) D).
      { destruct Hi1. split; try done; [apply (core_ext (set_routes st' s)); by rewrite ?Ho|].
        apply (dests_inv_ext (set_routes st' s)); try done. sb_simpl. by rewrite Ho. }
      assert (Hlen : zlen (l ++ [m]) = zlen l + 1) by (rewrite zlen_app; done).
      destruct (Subscribe_dest_eff _ g zl tl (l ++ [m]) D (zlen l) id lim scope col Hi2 ltac:(lia) Hpl)
        as (st & eid & s' & D' & E2 & Hi' & [] & Hsub).
      exists st, eid, col, s', (l ++ [m]), D'. split; [exact E2|]. split; [done|]. split; [by split|].
      intros m' k.
      rewrite (sub_of_at (set_StatTlm t (set_routes st' s)) s' (l ++ [m]) D D' (zlen l) m id (st = CFE_SUCCESS)); try done; [|apply (di_routes _ _ _ (in_dests _ _ _ _ _ _ Hi2))|lia|lia|apply zget_snoc].
      apply or_iff_compat_r. rewrite <- (sub_of_grown s l D m m' k) by done. done.
    + pose proof (AddRoute_eff (routes s) l m Hr Hm Hn) as HA. rewrite (proj2 (Z.ltb_ge _ _)), andb_false_r in HA by lia.
      rewrite HA. change (CFE_SBR_IsValidRouteId CFE_SBR_INVALID_ROUTE_ID) with false. cbn iota. rewrite bind_ret.
      exists CFE_SB_MAX_MSGS_MET, CFE_SB_MAX_MSGS_MET_EID, 0, s, l, D. split; [by destruct s|]. split; [done|]. split; [done|].
      intros m' k. split; [auto|]. intros [?|(? & _)]; done.
  - rewrite route_valid by lia. rewrite bind_ret.
    destruct (Subscribe_dest_eff s g zl tl l D i id lim scope 0 Hi Hri Hpl) as (st & eid & s' & D' & E2 & Hi' & Hdo & Hsub).
    exists st, eid, 0, s', l, D'. split; [exact E2|]. split; [done|]. split; [done|].
    apply (sub_of_at s s' l D D' i m id); try done. apply Hr.
Qed.

(** *** The locked sections *)

(** The pipe belongs to the caller and the arguments are in range. *)
Definition may_subscribe s (who m id scope : Z) : Prop :=
  exists i, CFE_SB_LocatePipeDescByID id = Some i /\ PipeId (zget (PipeTbl s) i) = id
    /\ pipe_AppId (zget (PipeTbl s) i) = who /\ CFE_SB_IsValidMsgId m = true /\ scope <= 1.

Lemma count_event s (eid : Z) :
  exists s', (if eid =? 0 then ret tt
     else if eid =? CFE_SB_DUP_SUBSCRIP_EID then count DuplicateSubscriptionsCounter
     else count SubscribeErrorCounter) s = Some (tt, s') /\ quiet s s'.
Proof using. destruct (eid =? 0); [by exists s|]. destruct (eid =? _); by eexists. Qed.

Lemma Subscribe_locked_eff s g zl tl l D c m id lim scope :
  inv_at s g zl tl l D -> is_u32 m ->
  exists st eid col s' l' D', Subscribe_locked c m id lim scope s = Some ((st, eid, col), s')
    /\ inv_at s' g zl tl l' D' /\ dests_only s s'
    /\ (st = CFE_SUCCESS -> may_subscribe s (c_AppId c) m id scope)
    /\ (forall m' k, sub_of s' l' D' m' k <-> sub_of s l D m' k \/ (st = CFE_SUCCESS /\ m' = m /\ k = id)).
Proof using HP HMsg.
  intros Hi Hm. unfold Subscribe_locked. rewrite bind_gets. unfold CFE_SB_PipeDescIsMatch, CFE_ResourceId_Equal.
  assert (Hbad : forall st eid, st <> CFE_SUCCESS -> exists st' eid' col s' l' D',
    (let* r := ret (st, eid, 0) in
     let '(Status, eid, Collisions) := r in
     (if eid =? 0 then ret tt
      else if eid =? CFE_SB_DUP_SUBSCRIP_EID then count DuplicateSubscriptionsCounter
      else count SubscribeErrorCounter) ;* ret r) s = Some ((st', eid', col), s')
    /\ inv_at s' g zl tl l' D' /\ dests_only s s'
    /\ (st' = CFE_SUCCESS -> may_subscribe s (c_AppId c) m id scope)
    /\ (forall m' k, sub_of s' l' D' m' k <-> sub_of s l D m' k \/ (st' = CFE_SUCCESS /\ m' = m /\ k = id))).
  { intros st eid Hst. rewrite bind_ret. destruct (count_event s eid) as (s1 & E & Q). rewrite (bind_run _ _ _ _ _ E).
    exists st, eid, 0, s1, l, D. split; [done|]. split; [by apply (quiet_inv_at s)|]. pose proof (qu_dests _ _ Q) as Ed.
    destruct Q. split; [by split|]. split; [done|]. intros m' k.
    assert (Hsame : sub_of s1 l D m' k <-> sub_of s l D m' k) by (unfold sub_of, has_sub; by rewrite Ed).
    rewrite Hsame. split; [auto|]. intros [?|(? & _)]; done. }
  destruct (CFE_SB_LocatePipeDescByID id) as [i|] eqn:El; [|by apply Hbad].
  destruct (Z.eqb_spec (PipeId (zget (PipeTbl s) i)) id) as [Ep|]; [|by apply Hbad].
  rewrite bind_bind. unfold load_pipe. rewrite bind_gets.
  destruct (Z.eqb_spec (pipe_AppId (zget (PipeTbl s) i)) (c_AppId c)) as [Ew|]; cbn [negb]; [|by apply Hbad].
  destruct (CFE_SB_IsValidMsgId m) eqn:Ev; cbn [negb orb]; [|by apply Hbad].
  destruct (Z.ltb_spec 1 scope) as [|Hsc]; [by apply Hbad|].
  destruct (Subscribe_route_eff s g zl tl l D m id lim scope Hi Hm Ev) as (st & eid & col & s1 & l' & D' & E & Hi1 & Hdo & Hsub).
  { unfold pipe_live. by rewrite El. }
  rewrite (bind_run _ _ _ _ _ E). destruct (count_event s1 eid) as (s2 & E2 & Q). rewrite (bind_run _ _ _ _ _ E2).
  exists st, eid, col, s2, l', D'. split; [done|]. split; [by apply (quiet_inv_at s1)|]. pose proof (qu_dests _ _ Q) as Ed.
  split; [transitivity s1; [done|destruct Q; by split]|]. split; [by intros _; exists i|].
  intros m' k. rewrite <- Hsub. unfold sub_of, has_sub. by rewrite Ed.
Qed.

(** One destination less. *)
Lemma Unsubscribe_locked_eff s g zl tl l D m id scope who :
  inv_at s g zl tl l D -> is_u32 m ->
  exists st eid s' D', Unsubscribe_locked m id scope who s = Some ((st, eid), s')
    /\ inv_at s' g zl tl l D' /\ dests_only s s'
    /\ (st = CFE_SUCCESS <-> may_subscribe s who m id scope)
    /\ (forall m' k, sub_of s' l D' m' k <-> sub_of s l D m' k /\ ~ (st = CFE_SUCCESS /\ m' = m /\ k = id)).
Proof using HP HMsg.
  intros Hi Hm. unfold Unsubscribe_locked. rewrite bind_gets. unfold CFE_SB_PipeDescIsMatch, CFE_ResourceId_Equal.
  assert (Hbad : forall st eid : Z, st <> CFE_SUCCESS -> ~ may_subscribe s who m id scope ->
    exists st' eid' s' D', ret (st, eid) s = Some ((st', eid'), s')
    /\ inv_at s' g zl tl l D' /\ dests_only s s'
    /\ (st' = CFE_SUCCESS <-> may_subscribe s who m id scope)
    /\ (forall m' k, sub_of s' l D' m' k <-> sub_of s l D m' k /\ ~ (st' = CFE_SUCCESS /\ m' = m /\ k = id))).
  { intros st eid Hst Hno. exists st, eid, s, D. split; [done|]. split; [done|]. split; [done|]. split; [tauto|].
    intros m' k. tauto. }
  destruct (CFE_SB_LocatePipeDescByID id) as [i|] eqn:El.
  2:{ apply Hbad; [done|]. intros (j & E & _). congruence. }
  assert (Hmay : may_subscribe s who m id scope <-> PipeId (zget (PipeTbl s) i) = id
    /\ pipe_AppId (zget (PipeTbl s) i) = who /\ CFE_SB_IsValidMsgId m = true /\ scope <= 1).
  { unfold may_subscribe. rewrite El. split; [intros (j & [= <-] & R); exact R|]. intros R. by exists i. }
  destruct (Z.eqb_spec (PipeId (zget (PipeTbl s) i)) id) as [Ep|]; [|apply Hbad; [done|tauto]].
  unfold load_pipe. rewrite bind_gets.
  destruct (Z.eqb_spec (pipe_AppId (zget (PipeTbl s) i)) who) as [Ew|]; cbn [negb]; [|apply Hbad; [done|tauto]].
  destruct (CFE_SB_IsValidMsgId m) eqn:Ev; cbn [negb orb]; [|apply Hbad; [done|]; rewrite Hmay; intuition done].
  destruct (Z.ltb_spec 1 scope) as [|Hsc]; [apply Hbad; [done|]; rewrite Hmay; lia|].
  assert (Hok : may_subscribe s who m id scope) by (by apply Hmay). clear Hbad Hmay.
  pose proof (in_dests _ _ _ _ _ _ Hi) as Hd. pose proof (di_routes _ _ _ Hd) as Hr.
  pose proof (rep_room _ _ Hr) as Hroom. unfold CFE_PLATFORM_SB_MAX_MSG_IDS in Hroom.
  unfold route_lookup. unfold bind at 1. rewrite (GetRouteId_rep _ _ _ Hr Hm).
  destruct (route_of_cases l m) as [[-> Hn]|(r & Hri & Em & ->)].
  - change (CFE_SBR_IsValidRouteId 0) with false. cbn [negb]. eexists _, _, s, D. split; [done|].
    split; [done|]. split; [done|]. split; [done|]. intros m' k. split; [|tauto]. intros Hs. split; [done|].
    intros (_ & -> & _). destruct Hs as (j & Hj & Ej & _). apply Hn. rewrite <- Ej. by apply zget_In.
  - rewrite route_valid by lia. cbn [negb].
    destruct (RemovePipeFromRoute_eff s zl tl (g_fresh g) _ l D r id (in_core _ _ _ _ _ _ Hi) Hd ltac:(lia))
      as (s' & D' & E & Hc' & Hd' & Hdo & _ & Hsub).
    assert (Hrun : exists eid, (let* DestPtr := CFE_SB_GetDestPtr (r + 1) id in
              if negb (DestPtr =? NULL) then CFE_SB_RemoveDest (r + 1) DestPtr ;* ret (CFE_SUCCESS, 0)
              else ret (CFE_SUCCESS, CFE_SB_UNSUB_NO_SUBS_EID)) s = Some ((CFE_SUCCESS, eid), s')).
    { revert E. unfold CFE_SB_RemovePipeFromRoute. unfold bind.
      destruct (CFE_SB_GetDestPtr (r + 1) id s) as [[x s1]|]; [|done].
      destruct (negb (x =? NULL)); [|intros [= ->]; by eexists].
      destruct (CFE_SB_RemoveDest (r + 1) x s1) as [[[] s2]|]; [|done]. intros [= ->]. by eexists. }
    destruct Hrun as [eid Hrun]. exists CFE_SUCCESS, eid, s', D'. split; [exact Hrun|]. split; [|split; [done|split; [done|]]].
    + destruct Hi, Hdo as [Dp Dl Dq Dr Db Dk]. split; unfold refs; rewrite ?Dp, ?Dl, ?Dq, ?Db; done.
    + intros m' k. unfold sub_of. split.
      * intros (j & Hj & Ej & Hs). apply Hsub in Hs as [Hs Hne]; [|lia]. split; [by exists j|].
        intros (_ & -> & ->). apply Hne. split; [|done]. apply (zget_inj l); [apply Hr|done..|congruence].
      * intros [(j & Hj & Ej & Hs) Hne]. exists j. split_and!; [lia..|done|]. apply Hsub; [lia|]. split; [done|].
        intros [-> ->]. apply Hne. split_and!; congruence.
Qed.
End subscriptions.
