(* ===== verification/SbSteps.v ===== *)
(** * The software bus: interleavings of tasks

    A world is a state of the software bus and the calls in progress, each at
    the point between two of its sections.  A step starts a call or runs the
    next section of one; sections are atomic because they hold the lock, call
    the operating system once, or write a buffer only the caller knows.  The
    guards say what the environment promises: a pipe has one receiver at a time
    (the note in [CFE_SB_ReceiveBuffer]), a zero copy buffer is released or sent
    by its owner, the operating system gives new queues ids that are not in use.

    The invariant of [SbWorld] holds in every world that can be reached, and no
    section faults. *)

From S2P Require Import Prelude ResourceId SbRoute SbRouteProofs SbRouteTheorems SbModel SbApi SbLists SbInv SbDests SbWorld SbSend SbBroadcast SbBuffers SbPipes SbTable SbSubs.

(** ** Calls in progress *)

Inductive activity (Msg : Type) :=
  | Validated (c : caller) (msg : Msg) (inc : bool) (v : validation) (* CFE_SB_TransmitMsg, checked *)
  | Filling (c : caller) (msg : Msg) (inc : bool) (a r : Z)          (* ... with a buffer *)
  | Sending (c : caller) (zero : bool) (a r : Z)                     (* before the broadcast *)
  | Reporting (c : caller) (a : Z) (errs : list (Z * Z))             (* before the error events *)
  | Owning (a : Z)                                                   (* a zero copy buffer *)
  | Waiting (id : Z) (rx : reception)                                (* CFE_SB_ReceiveBuffer, unlocked *)
  | Received (id : Z) (rx : reception) (a : Z)                       (* ... with a buffer or an error *)
  | Creating (c : caller) (depth : Z) (cr : creation)                (* CFE_SB_CreatePipe, slot reserved *)
  | Committing (c : caller) (depth : Z) (cr : creation)              (* ... with a queue or an error *)
  | Releasing (del : deletion) (a : Z)                               (* CFE_SB_DeletePipeFull, in the loop *)
  | Reading (del : deletion)
  | Dropping (del : deletion)                                        (* ... after the loop *)
  | Freeing (del : deletion).
Arguments Validated {Msg}.
Arguments Filling {Msg}.
Arguments Sending {Msg}.
Arguments Reporting {Msg}.
Arguments Owning {Msg}.
Arguments Waiting {Msg}.
Arguments Received {Msg}.
Arguments Creating {Msg}.
Arguments Committing {Msg}.
Arguments Releasing {Msg}.
Arguments Reading {Msg}.
Arguments Dropping {Msg}.
Arguments Freeing {Msg}.

(** What a task does next; [Advance] runs the next section of call [n]. *)
Inductive action (Msg : Type) :=
  | Transmit (c : caller) (msg : Msg) (inc : bool)
  | Allocate (c : caller) (size : Z)
  | Receive (id TimeOut : Z)
  | Create (c : caller) (depth : Z)
  | Delete (id who : Z)
  | Subscribe (c : caller) (m id lim scope : Z)
  | Unsubscribe (m id scope who : Z)
  | SetOpts (c : caller) (id opts : Z)
  | Advance (n : nat) (forced : Z -> Z) (created : Z * Z)
  | WriteBuffer (n : nat) (msg : Msg)
  | SendBuffer (n : nat) (c : caller) (inc : bool)
  | ReleaseBuffer (n : nat).
Arguments Transmit {Msg}.
Arguments Allocate {Msg}.
Arguments Receive {Msg}.
Arguments Create {Msg}.
Arguments Delete {Msg}.
Arguments Subscribe {Msg}.
Arguments Unsubscribe {Msg}.
Arguments SetOpts {Msg}.
Arguments Advance {Msg}.
Arguments WriteBuffer {Msg}.
Arguments SendBuffer {Msg}.
Arguments ReleaseBuffer {Msg}.

Record world (P M Msg : Type) := mkWorld { w_sb : sb P M Msg; w_acts : list (activity Msg) }.
Arguments mkWorld {P M Msg}.
Arguments w_sb {P M Msg}.
Arguments w_acts {P M Msg}.

Section steps.
Context {P M Msg : Type} `{HP0 : PoolBuf P} `{HM0 : RouteMap M} `{HS0 : SbPlatform Msg}.
Local Abbreviation sb := (sb P M Msg).
Local Abbreviation SB := (SB (P := P) (M := M) (Msg := Msg)).
Local Abbreviation activity := (activity Msg).
Local Abbreviation world := (world P M Msg).

(** *** Starting a call *)

Definition start (a : action Msg) : SB (list activity) :=
  match a with
  | Transmit c msg inc =>
      let* v := CFE_SB_TransmitMsgValidate c (Some msg) in ret [Validated c msg inc v]
  | Allocate c size =>
      let* r := CFE_SB_AllocateMessageBuffer c size in
      ret (if r =? NULL then [] else [Owning (u64 (r - CFE_SB_BUFFERD_CONTENT_OFFSET))])
  | Receive id TimeOut =>
      let* rx := Receive_begin true id TimeOut in
      ret (if rx_Status rx =? CFE_SUCCESS then [Waiting id rx] else [Received id rx NULL])
  | Create c depth =>
      let* cr := CreatePipe_reserve true depth in
      ret (if cr_Status cr =? CFE_SUCCESS then [Creating c depth cr] else [Committing c depth cr])
  | Delete id who =>
      let* del := DeletePipe_detach id who in
      ret (if del_Status del =? CFE_SUCCESS then [Releasing del (del_Buf del)] else [Freeing del])
  | Subscribe c m id lim scope => Subscribe_locked c m id lim scope ;* ret []
  | Unsubscribe m id scope who => Unsubscribe_locked m id scope who ;* ret []
  | SetOpts c id opts => CFE_SB_SetPipeOpts c id opts ;* ret []
  | _ => ret []
  end.

(** *** The next section of a call *)

Definition advance (forced : Z -> Z) (created : Z * Z) (x : activity) : SB (list activity) :=
  match x with
  | Validated c msg inc v =>
      let* r := Transmit_alloc v in
      let '(Status, a) := r in
      (if Status =? CFE_SB_BUF_ALOC_ERR
       then guarded_event (c_Task c) CFE_SB_GET_BUF_ERR_EID_BIT CFE_SB_GET_BUF_ERR_EID (ret tt)
       else ret tt) ;*
      ret (if a =? NULL then [] else [Filling c msg inc a (default 0 (v_RouteId v))])
  | Filling c msg inc a r => Transmit_fill a msg inc ;* ret [Sending c false a r]
  | Sending c zero a r =>
      let* errs := Broadcast_locked c forced a r in ret [Reporting c a errs]
  | Reporting c a errs => Broadcast_events c a errs ;* ret []
  | Owning a => ret [Owning a]
  | Waiting id rx =>
      let* r := Receive_get (forced (rx_Queue rx)) rx in
      ret (match r with Some (rx', a) => [Received id rx' a] | None => [Waiting id rx] end)
  | Received id rx a => Receive_finish true id rx a ;* ret []
  | Creating c depth cr =>
      let* cr' := CreatePipe_queue created depth cr in ret [Committing c depth cr']
  | Committing c depth cr => CreatePipe_commit c depth cr ;* ret []
  | Releasing del a => DeletePipe_release a ;* ret [Reading del]
  | Reading del =>
      let* r := DeletePipe_next OS_SUCCESS (del_Queue del) in
      ret (match r with Some a => [Releasing del a] | None => [Dropping del] end)
  | Dropping del => OS_QueueDelete (del_Queue del) ;* ret [Freeing del]
  | Freeing del => DeletePipe_finish del ;* ret []
  end.

(** What the owner of a zero copy buffer does with it. *)
Definition use_buffer (a : action Msg) (x : activity) : SB (list activity) :=
  match a, x with
  | WriteBuffer _ msg, Owning b =>
      let* d := load_buf b in store_buf b (set_Content d msg) ;* ret [Owning b]
  | SendBuffer _ c inc, Owning b =>
      let* r := TransmitBuffer_prepare c (content_ptr b) inc in
      match snd r with
      | Some (b', route) => ret [Sending c true b' route]
      | None => count MsgSendErrorCounter ;* ret [Owning b]
      end
  | ReleaseBuffer _, Owning b => CFE_SB_ReleaseMessageBuffer (content_ptr b) ;* ret []
  | _, _ => ret [x]
  end.

Definition on_call (n : nat) (f : activity -> SB (list activity)) (w : world) : option world :=
  match w_acts w !! n with
  | None => Some w
  | Some x => match f x (w_sb w) with
              | Some (xs, s) => Some (mkWorld s (xs ++ delete n (w_acts w)))
              | None => None
              end
  end.

(** [None] is a fault. *)
Definition exec (a : action Msg) (w : world) : option world :=
  match a with
  | Advance n forced created => on_call n (advance forced created) w
  | WriteBuffer n _ | SendBuffer n _ _ | ReleaseBuffer n => on_call n (use_buffer a) w
  | _ => match start a (w_sb w) with
         | Some (xs, s) => Some (mkWorld s (xs ++ w_acts w))
         | None => None
         end
  end.

(** *** What the environment promises *)

Definition receiver (x : activity) : list Z :=
  match x with Waiting id _ | Received id _ _ => [id] | _ => [] end.
Definition receivers (xs : list activity) : list Z := flat_map receiver xs.

Definition allowed (w : world) (a : action Msg) : Prop :=
  match a with
  | Allocate c size => 0 <= size /\ (c_AppStatus c = CFE_SUCCESS -> c_AppId c <> CFE_ES_APPID_UNDEFINED)
  | Receive id _ => ~ In id (receivers (w_acts w))
  | Subscribe _ m _ _ _ | Unsubscribe m _ _ _ => is_u32 m
  | Advance n _ created => fst created = OS_SUCCESS -> queues (w_sb w) !! snd created = None
  | _ => True
  end.

Inductive reaches (w0 : world) : world -> Prop :=
  | reaches_start : reaches w0 w0
  | reaches_step w a w' : reaches w0 w -> allowed w a -> exec a w = Some w' -> reaches w0 w'.
End steps.

(** ** The invariant of a world *)

Definition slot_of_call (cr : option Z) : ghost := match cr with Some i => gslot i | None => idle end.

Definition share {Msg} (x : activity Msg) : ghost :=
  match x with
  | Filling _ _ _ a _ => gfresh a
  | Sending _ zero a _ => gown zero a
  | Owning a => gzero a
  | Received _ _ a => gref a
  | Creating _ _ cr => slot_of_call (cr_slot cr)
  | Committing _ _ cr =>
      gadd (slot_of_call (cr_slot cr))
           (if cr_Status cr =? CFE_SUCCESS then gqueue (cr_Queue cr) true else idle)
  | Releasing del a => gadd (slot_of_call (del_slot del)) (gadd (gqueue (del_Queue del) false) (gref a))
  | Reading del => gadd (slot_of_call (del_slot del)) (gqueue (del_Queue del) false)
  | Dropping del => gadd (slot_of_call (del_slot del)) (gqueue (del_Queue del) true)
  | Freeing del => if del_Status del =? CFE_SUCCESS then slot_of_call (del_slot del) else idle
  | _ => idle
  end.

Definition shares {Msg} (xs : list (activity Msg)) : ghost := foldr (fun x g => gadd (share x) g) idle xs.

(** The pipe of a receiver has no last buffer. *)
Definition no_last (tbl : list CFE_SB_PipeD_t) (id : Z) (slot : option Z) : Prop :=
  exists i, slot = Some i /\ CFE_SB_LocatePipeDescByID id = Some i
    /\ (PipeId (zget tbl i) = id -> LastBuffer (zget tbl i) = NULL).
Definition new_slot (tbl : list CFE_SB_PipeD_t) (cr : creation) : Prop :=
  exists i, cr_slot cr = Some i /\ CFE_SB_LocatePipeDescByID (cr_PipeId cr) = Some i
    /\ LastBuffer (zget tbl i) = NULL.
Definition has_slot (del : deletion) : Prop := del_Status del = CFE_SUCCESS /\ exists i, del_slot del = Some i.

Definition call_ok {Msg} `{SbPlatform Msg} (tbl : list CFE_SB_PipeD_t) (x : activity Msg) : Prop :=
  match x with
  | Validated _ _ _ v => v_ok v
  | Filling _ _ _ _ r | Sending _ _ _ r => 0 <= r
  | Waiting id rx => rx_Status rx = CFE_SUCCESS /\ no_last tbl id (rx_slot rx)
  | Received id rx a => if a =? NULL then rx_Status rx <> CFE_SUCCESS
                        else rx_Status rx = CFE_SUCCESS /\ no_last tbl id (rx_slot rx)
  | Creating _ _ cr => cr_Status cr = CFE_SUCCESS /\ new_slot tbl cr
  | Committing _ _ cr => cr_Status cr = CFE_SUCCESS -> new_slot tbl cr
  | Releasing del _ | Reading del | Dropping del => has_slot del
  | Freeing del => del_Status del = CFE_SUCCESS -> has_slot del
  | _ => True
  end.

Section winv.
Context {P M Msg : Type} `{HP : PoolBufLaws P} `{HMap : RouteMapLaws M} `{HMsg : SbPlatformLaws Msg}.
Local Abbreviation sb := (sb P M Msg).
Local Abbreviation SB := (SB (P := P) (M := M) (Msg := Msg)).
Local Abbreviation activity := (activity Msg).
Local Abbreviation world := (world P M Msg).
Implicit Types (s : sb) (g : ghost) (w : world) (xs : list activity).

Record winv w : Prop := {
  wi_inv : inv (w_sb w) (shares (w_acts w));
  wi_calls : Forall (call_ok (PipeTbl (w_sb w))) (w_acts w);
  wi_receivers : NoDup (receivers (w_acts w))
}.

(** *** Taking a call out of the list *)

Lemma shares_app xs ys : geqv (shares (xs ++ ys)) (gadd (shares xs) (shares ys)).
Proof using.
  induction xs as [|x xs IH]; cbn; [by rewrite gadd_idle|]. by rewrite IH, gadd_assoc.
Qed.

#[export] Instance shares_proper : Proper ((≡ₚ) ==> geqv) (shares (Msg := Msg)).
Proof using.
  intros xs ys Hp. induction Hp; cbn; [done|by f_equiv|apply gadd_swap|by etransitivity].
Qed.

Lemma delete_perm {A} (l : list A) n x : l !! n = Some x -> l ≡ₚ x :: delete n l.
Proof using. intros. by apply delete_Permutation. Qed.

#[export] Instance receivers_proper : Proper ((≡ₚ) ==> (≡ₚ)) (receivers (Msg := Msg)).
Proof using. intros xs ys Hp. unfold receivers. by rewrite Hp. Qed.

Lemma winv_split w n x :
  winv w -> w_acts w !! n = Some x ->
  let rest := delete n (w_acts w) in
  inv (w_sb w) (gadd (share x) (shares rest)) /\ call_ok (PipeTbl (w_sb w)) x
  /\ Forall (call_ok (PipeTbl (w_sb w))) rest /\ NoDup (receiver x ++ receivers rest).
Proof using.
  intros [Hi Hc Hr] Hn rest. pose proof (delete_perm _ _ _ Hn) as Hp. fold rest in Hp.
  rewrite Hp in Hi, Hc. apply Forall_cons in Hc as [Hx Hc]. split_and!; [exact Hi|done..|].
  by rewrite Hp in Hr.
Qed.

(** *** What a section may do to the table of pipes *)

Lemma no_last_keys tbl tbl' id slot :
  same_keys tbl tbl' -> zlen tbl = CFE_PLATFORM_SB_MAX_PIPES -> no_last tbl id slot -> no_last tbl' id slot.
Proof using.
  intros [_ Hk] Hsz (i & Es & El & Hn). exists i. split_and!; [done..|].
  specialize (Hk i ltac:(rewrite Hsz; by apply locate_range in El)). unfold pipe_key in Hk. injection Hk as E1 _ E3.
  by rewrite E1, E3.
Qed.

Lemma new_slot_keys tbl tbl' cr :
  same_keys tbl tbl' -> zlen tbl = CFE_PLATFORM_SB_MAX_PIPES -> new_slot tbl cr -> new_slot tbl' cr.
Proof using.
  intros [_ Hk] Hsz (i & Es & El & Hn). exists i. split_and!; [done..|].
  specialize (Hk i ltac:(rewrite Hsz; by apply locate_range in El)). unfold pipe_key in Hk. congruence.
Qed.

Lemma call_ok_keys tbl tbl' x :
  same_keys tbl tbl' -> zlen tbl = CFE_PLATFORM_SB_MAX_PIPES -> call_ok tbl x -> call_ok tbl' (x : activity).
Proof using.
  intros Hk Hsz. destruct x; cbn; try done.
  - intros [? ?]. split; [done|]. by apply (no_last_keys tbl).
  - case_test; [done|]. intros [? ?]. split; [done|]. by apply (no_last_keys tbl).
  - intros [? ?]. split; [done|]. by apply (new_slot_keys tbl).
  - intros Hn Hs. by apply (new_slot_keys tbl), Hn.
Qed.

(** A change of one slot: a receiver of the pipe that is there must find no last
    buffer, and only its owner touches a new slot. *)
Lemma call_ok_slot tbl j p x :
  zlen tbl = CFE_PLATFORM_SB_MAX_PIPES -> 0 <= j < CFE_PLATFORM_SB_MAX_PIPES -> call_ok tbl x ->
  (forall id, In id (receiver x) -> CFE_SB_LocatePipeDescByID id = Some j -> PipeId p = id -> LastBuffer p = NULL) ->
  ~ In j (g_slots (share x)) \/ LastBuffer p = NULL ->
  call_ok (zset tbl j p) (x : activity).
Proof using.
  intros Hsz Hj Hx Hr Hs.
  assert (Hno : forall id slot, In id (receiver x) -> no_last tbl id slot -> no_last (zset tbl j p) id slot).
  { intros id slot Hin (i & Es & El & Hn). pose proof (locate_range _ _ El). exists i. split_and!; [done..|].
    rewrite zget_zset by lia. case_test; [subst; eauto|done]. }
  assert (Hnew : forall cr : creation, (forall i, cr_slot cr = Some i -> In i (g_slots (share x))) ->
                   new_slot tbl cr -> new_slot (zset tbl j p) cr).
  { intros cr Hin (i & Es & El & Hn). pose proof (locate_range _ _ El). exists i. split_and!; [done..|].
    rewrite zget_zset by lia. case_test; [|done]. subst. destruct Hs as [Hs|]; [|done]. by destruct Hs; apply Hin. }
  destruct x; cbn in *; try done.
  - destruct Hx as [? ?]. split; [done|]. apply Hno; auto.
  - case_test; [done|]. destruct Hx as [? ?]. split; [done|]. apply Hno; auto.
  - destruct Hx as [? ?]. split; [done|]. apply Hnew; [|done]. intros i E. rewrite E. by left.
  - intros Hst. apply Hnew; [|auto]. intros i E. rewrite E. by left.
Qed.

Lemma calls_slot tbl j p xs :
  zlen tbl = CFE_PLATFORM_SB_MAX_PIPES -> 0 <= j < CFE_PLATFORM_SB_MAX_PIPES -> Forall (call_ok tbl) xs ->
  (forall id, In id (receivers xs) -> CFE_SB_LocatePipeDescByID id = Some j -> PipeId p = id -> LastBuffer p = NULL) ->
  ~ In j (g_slots (shares xs)) \/ LastBuffer p = NULL ->
  Forall (call_ok (zset tbl j p)) xs.
Proof using.
  intros Hsz Hj. induction xs as [|x xs IH]; [by constructor|]. intros [Hx Hxs]%Forall_cons Hr Hs.
  apply Forall_cons. split.
  - apply call_ok_slot; try done.
    + intros id Hin. apply Hr. cbn. apply in_app_iff. by left.
    + destruct Hs as [Hs|]; [left|by right]. intros Hin. apply Hs. cbn. apply in_app_iff. by left.
  - apply IH; try done.
    + intros id Hin. apply Hr. cbn. apply in_app_iff. by right.
    + destruct Hs as [Hs|]; [left|by right]. intros Hin. apply Hs. cbn. apply in_app_iff. by right.
Qed.

Lemma calls_keys tbl tbl' xs :
  same_keys tbl tbl' -> zlen tbl = CFE_PLATFORM_SB_MAX_PIPES -> Forall (call_ok tbl) xs -> Forall (call_ok tbl') xs.
Proof using. intros Hk Hsz Hx. eapply Forall_impl; [exact Hx|]. intros x. by apply call_ok_keys. Qed.

Lemma inv_size s g : inv s g -> zlen (PipeTbl s) = CFE_PLATFORM_SB_MAX_PIPES.
Proof using. intros (zl & tl & l & D & Hi). apply (in_pipes _ _ _ _ _ _ Hi). Qed.

(** Slots held by calls are reserved ones. *)
Lemma live_slot_free s g i : inv s g -> is_live (zget (PipeTbl s) i) = true -> ~ In i (g_slots g).
Proof using.
  intros (zl & tl & l & D & Hi) Hl Hin. destruct (pi_reserved _ _ _ _ _ (in_pipes _ _ _ _ _ _ Hi) i Hin) as [_ E].
  unfold is_live in Hl. by rewrite E in Hl.
Qed.

(** *** Running a section *)

Definition next_ok (m : SB (list activity)) s (rest : list activity) : Prop :=
  exists xs s', m s = Some (xs, s') /\ winv (mkWorld s' (xs ++ rest)).

Lemma next_intro (m : SB (list activity)) s rest xs s' :
  m s = Some (xs, s') -> inv s' (gadd (shares xs) (shares rest)) ->
  Forall (call_ok (PipeTbl s')) xs -> Forall (call_ok (PipeTbl s')) rest ->
  NoDup (receivers xs ++ receivers rest) -> next_ok m s rest.
Proof using.
  intros E Hi Hx Hr Hn. exists xs, s'. split; [done|]. split; cbn [w_sb w_acts].
  - by rewrite shares_app.
  - by apply Forall_app.
  - unfold receivers in *. by rewrite flat_map_app.
Qed.

(** A section that leaves the table of pipes alone, up to counters. *)
Lemma next_keys (m : SB (list activity)) s rest xs s' :
  m s = Some (xs, s') -> inv s' (gadd (shares xs) (shares rest)) -> same_keys (PipeTbl s) (PipeTbl s') ->
  Forall (call_ok (PipeTbl s')) xs -> Forall (call_ok (PipeTbl s)) rest ->
  NoDup (receivers xs ++ receivers rest) -> next_ok m s rest.
Proof using.
  intros E Hi Hk Hx Hr Hn. apply (next_intro m s rest xs s'); try done.
  apply (calls_keys (PipeTbl s)); try done. rewrite <- (inv_size _ _ Hi). symmetry. apply Hk.
Qed.
End winv.
