(* ===== verification/SbSafety.v ===== *)
(** * The software bus: every step keeps the invariant

    One lemma per section: from a world that satisfies the invariant the section
    runs without a fault and the invariant holds again. *)

From S2P Require Import Prelude ResourceId SbRoute SbRouteProofs SbRouteTheorems SbModel SbApi SbLists SbInv SbDests SbWorld SbSend SbBroadcast SbBuffers SbPipes SbTable SbSubs SbSteps.

Section safety.
Context {P M Msg : Type} `{HP : PoolBufLaws P} `{HMap : RouteMapLaws M} `{HMsg : SbPlatformLaws Msg}.
Local Abbreviation sb := (sb P M Msg).
Local Abbreviation SB := (SB (P := P) (M := M) (Msg := Msg)).
Local Abbreviation activity := (activity Msg).
Local Abbreviation world := (world P M Msg).
Implicit Types (s : sb) (g : ghost) (w : world) (xs rest : list activity).

Lemma keys_refl s s' : PipeTbl s' = PipeTbl s -> same_keys (PipeTbl s) (PipeTbl s').
Proof using. by intros ->. Qed.

Lemma NoDup_app_r {A} (l1 l2 : list A) : NoDup (l1 ++ l2) -> NoDup l2.
Proof using. intros Hn. by apply NoDup_app_In in Hn as (_ & _ & ?). Qed.

Lemma receivers_one (x : activity) : receivers [x] = receiver x.
Proof using. cbn. apply app_nil_r. Qed.

Lemma shares_one (x : activity) : geqv (shares [x]) (share x).
Proof using. cbn. rewrite gadd_comm, gadd_idle. done. Qed.

Lemma Forall_one {A} (Q : A -> Prop) x : Q x -> Forall Q [x].
Proof using. intros. by apply Forall_singleton. Qed.

(** The usual ends: the call goes on as [x], or is over. *)
Lemma goes_on (m : SB (list activity)) s rest x s' :
  m s = Some ([x], s') -> inv s' (gadd (share x) (shares rest)) -> same_keys (PipeTbl s) (PipeTbl s') ->
  call_ok (PipeTbl s') x -> Forall (call_ok (PipeTbl s)) rest -> NoDup (receiver x ++ receivers rest) ->
  next_ok m s rest.
Proof using.
  intros E Hi Hk Hx Hr Hn. apply (next_keys m s rest [x] s'); try done.
  - by rewrite shares_one.
  - by apply Forall_one.
  - by rewrite receivers_one.
Qed.

Lemma is_over (m : SB (list activity)) s rest s' :
  m s = Some ([], s') -> inv s' (shares rest) -> same_keys (PipeTbl s) (PipeTbl s') ->
  Forall (call_ok (PipeTbl s)) rest -> NoDup (receivers rest) -> next_ok m s rest.
Proof using.
  intros E Hi Hk Hr Hn. apply (next_keys m s rest [] s'); try done. by rewrite gadd_idle.
Qed.

(** *** Starting calls *)

Lemma start_transmit w c msg inc : winv w -> next_ok (start (Transmit c msg inc)) (w_sb w) (w_acts w).
Proof using HMsg.
  intros [Hi Hc Hr]. pose proof Hi as (zl & tl & l & D & Hia).
  destruct (Validate_eff (w_sb w) l D c msg (in_dests _ _ _ _ _ _ Hia)) as (s' & E & Q). cbn [start].
  eapply goes_on; [rewrite (bind_run _ _ _ _ _ E); reflexivity|..]; try done.
  - cbn [share]. rewrite gadd_idle. by apply (quiet_inv (w_sb w)).
  - apply keys_refl, Q.
  - apply validated_ok.
Qed.

Lemma start_allocate w c size :
  winv w -> allowed w (Allocate c size) -> next_ok (start (Allocate c size)) (w_sb w) (w_acts w).
Proof using HP HMsg.
  intros [Hi Hc Hr] [Hs Ha]. cbn [start].
  destruct (AllocateMessageBuffer_eff (w_sb w) _ c size Hi Hs Ha) as (r & s' & E & Hst & _ & Hcase).
  pose proof (keys_refl _ _ (st_pipes _ _ Hst)) as Hk. destruct Hcase as [(-> & Hi' & _)|(a & n & -> & Hi' & _)].
  - eapply is_over; [rewrite (bind_run _ _ _ _ _ E); reflexivity|..]; done.
  - destruct (zero_share _ _ _ Hi') as (_ & _ & _ & _ & Har).
    destruct (descriptor_of_content a ltac:(lia)) as [Ea En].
    eapply (goes_on _ _ _ (Owning a)); [rewrite (bind_run _ _ _ _ _ E), En, Ea; reflexivity|..]; done.
Qed.

Lemma start_receive w id to :
  winv w -> allowed w (Receive id to) -> next_ok (start (Receive id to)) (w_sb w) (w_acts w).
Proof using HP.
  intros [Hi Hc Hr] Hn. cbn [start].
  destruct (Receive_begin_eff (w_sb w) _ true id to Hi) as (rx & s' & E & Hi' & _ & _ & _ & Hb).
  assert (Hnd : NoDup (id :: receivers (w_acts w))) by (by apply NoDup_cons_In).
  destruct Hb as [[Hs ->]|(Hs & i & Es & El & Ep & _ & Et)].
  - eapply (goes_on _ _ _ (Received id rx NULL)); [rewrite (bind_run _ _ _ _ _ E), (proj2 (Z.eqb_neq _ _) Hs); reflexivity|..]; try done.
    change (share (Received id rx NULL)) with idle. by rewrite gadd_idle.
  - pose proof (inv_size _ _ Hi) as Hsz. pose proof (locate_range _ _ El) as Hir.
    eapply (next_intro _ _ _ [Waiting id rx]); [rewrite (bind_run _ _ _ _ _ E), (proj2 (Z.eqb_eq _ _) Hs); reflexivity|..]; try done.
    + by rewrite shares_one, gadd_idle.
    + apply Forall_one. cbn. split; [done|]. exists i. split_and!; [done..|]. rewrite Et, zget_zset_eq by (by rewrite Hsz). done.
    + rewrite Et. apply calls_slot; try done. by right.
Qed.

Lemma start_create w c depth : winv w -> next_ok (start (Create c depth)) (w_sb w) (w_acts w).
Proof using.
  intros [Hi Hc Hr]. cbn [start]. pose proof (inv_size _ _ Hi) as Hsz.
  destruct (CreatePipe_reserve_eff (w_sb w) _ true depth Hi) as (cr & s' & E & Hcase).
  destruct Hcase as [(Hs & Esl & _ & ->)|(Hs & i & Esl & El & E0 & Et & Hi')].
  - eapply (goes_on _ _ _ (Committing c depth cr)); [rewrite (bind_run _ _ _ _ _ E), (proj2 (Z.eqb_neq _ _) Hs); reflexivity|..]; try done.
    + cbn [share]. rewrite Esl, (proj2 (Z.eqb_neq _ _) Hs). cbn [slot_of_call]. by rewrite ?gadd_idle.
    + by intros ?.
  - pose proof (locate_range _ _ El) as Hir.
    eapply (next_intro _ _ _ [Creating c depth cr]); [rewrite (bind_run _ _ _ _ _ E), (proj2 (Z.eqb_eq _ _) Hs); reflexivity|..]; try done.
    + rewrite shares_one. cbn [share]. by rewrite Esl.
    + apply Forall_one. cbn. split; [done|]. exists i. split_and!; [done..|]. rewrite Et. sb_simpl.
      by rewrite zget_zset_eq by (by rewrite Hsz).
    + rewrite Et. sb_simpl. apply calls_slot; try done. by right.
Qed.

Lemma start_delete w id who : winv w -> next_ok (start (Delete id who)) (w_sb w) (w_acts w).
Proof using HP HMsg.
  intros [Hi Hc Hr]. cbn [start]. pose proof (inv_size _ _ Hi) as Hsz.
  destruct (DeletePipe_detach_eff (w_sb w) _ id who Hi) as (del & s' & E & Hcase).
  destruct Hcase as [(Hs & ->)|(i & zl & tl & l & D & D' & Edel & El & Ep & _ & _ & _ & Hi' & Et & _)].
  - eapply (goes_on _ _ _ (Freeing del)); [rewrite (bind_run _ _ _ _ _ E), (proj2 (Z.eqb_neq _ _) Hs); reflexivity|..]; try done.
    + cbn [share]. by rewrite (proj2 (Z.eqb_neq _ _) Hs), gadd_idle.
  - pose proof (locate_range _ _ El) as Hir.
    eapply (next_intro _ _ _ [Releasing del (del_Buf del)]); [rewrite (bind_run _ _ _ _ _ E), Edel; reflexivity|..]; try done.
    + rewrite shares_one, Edel. cbn [share del_slot del_Queue del_Buf slot_of_call].
      rewrite <- !gadd_assoc. exact Hi'.
    + apply Forall_one. rewrite Edel. by split; [|exists i].
    + rewrite Et. apply calls_slot; try done.
      * intros id' _ El' E'. cbn in E'. rewrite <- E', locate_reserved in El'. done.
      * left. apply (live_slot_free (w_sb w)); [done|]. apply (located_live _ i). by rewrite Ep.
Qed.

Lemma start_subscribe w c m id lim scope :
  winv w -> allowed w (Subscribe c m id lim scope) ->
  next_ok (start (Subscribe c m id lim scope)) (w_sb w) (w_acts w).
Proof using HP HMsg.
  intros [Hi Hc Hr] Hm. pose proof Hi as (zl & tl & l & D & Hia).
  destruct (Subscribe_locked_eff (w_sb w) _ zl tl l D c m id lim scope Hia Hm) as (st & eid & col & s' & l' & D' & E & Hi' & Hdo & _).
  cbn [start]. eapply is_over; [rewrite (bind_run _ _ _ _ _ E); reflexivity|..]; try done.
  - by exists zl, tl, l', D'.
  - apply keys_refl, Hdo.
Qed.

Lemma start_unsubscribe w m id scope who :
  winv w -> allowed w (Unsubscribe m id scope who) ->
  next_ok (start (Unsubscribe m id scope who)) (w_sb w) (w_acts w).
Proof using HP HMsg.
  intros [Hi Hc Hr] Hm. pose proof Hi as (zl & tl & l & D & Hia).
  destruct (Unsubscribe_locked_eff (w_sb w) _ zl tl l D m id scope who Hia Hm) as (st & eid & s' & D' & E & Hi' & Hdo & _).
  cbn [start]. eapply is_over; [rewrite (bind_run _ _ _ _ _ E); reflexivity|..]; try done.
  - by exists zl, tl, l, D'.
  - apply keys_refl, Hdo.
Qed.

(** Options do not matter to the invariant. *)
Lemma inv_store_pipe s g i p :
  inv s g -> 0 <= i < CFE_PLATFORM_SB_MAX_PIPES -> pipe_key p = pipe_key (zget (PipeTbl s) i) ->
  inv (set_PipeTbl (zset (PipeTbl s) i p) s) g /\ same_keys (PipeTbl s) (zset (PipeTbl s) i p).
Proof using.
  intros (zl & tl & l & D & Hi) Hr Hk. pose proof (pi_size _ _ _ _ _ (in_pipes _ _ _ _ _ _ Hi)) as Hsz.
  pose proof Hk as Hk'. unfold pipe_key in Hk'. injection Hk' as E1 E2 E3.
  destruct (base_store_pipe s g zl tl l D i p (inv_base _ _ _ _ _ _ Hi) Hr E1 E2 E3) as [Hc Hp Hd]. split.
  - exists zl, tl, l, D. split; try done; apply Hi.
  - split; [apply zlen_zset|]. intros j Hj. rewrite zget_zset by lia. by case_test; subst.
Qed.

Lemma start_setopts w c id opts : winv w -> next_ok (start (SetOpts c id opts)) (w_sb w) (w_acts w).
Proof using.
  intros [Hi Hc Hr]. cbn [start]. unfold CFE_SB_SetPipeOpts. destruct (c_AppStatus c =? CFE_SUCCESS); cbn [negb].
  2:{ by eapply is_over; [reflexivity|..]. }
  cbn [negb]. unfold CFE_SB_PipeDescIsMatch.
  destruct (CFE_SB_LocatePipeDescByID id) as [i|] eqn:El.
  2:{ eapply is_over; [reflexivity|..]; try done. by apply (quiet_inv (w_sb w)). }
  unfold CFE_ResourceId_Equal. destruct (PipeId (zget (PipeTbl (w_sb w)) i) =? id) eqn:Ep.
  2:{ eapply is_over; [rewrite bind_bind, bind_gets, Ep; reflexivity|..]; try done. by apply (quiet_inv (w_sb w)). }
  destruct (c_AppId c =? pipe_AppId (zget (PipeTbl (w_sb w)) i)) eqn:Ew.
  2:{ eapply is_over; [rewrite bind_bind, bind_gets, Ep, bind_bind; unfold load_pipe; rewrite bind_gets, Ew; reflexivity|..]; try done.
      by apply (quiet_inv (w_sb w)). }
  destruct (inv_store_pipe (w_sb w) _ i (pipe_set_Opts (zget (PipeTbl (w_sb w)) i) opts) Hi) as [Hi' Hk];
    [by apply locate_range in El|done|].
  eapply is_over; [rewrite bind_bind, bind_gets, Ep, bind_bind; unfold load_pipe; rewrite bind_gets, Ew; reflexivity|..]; try done.
  eapply quiet_inv; [|exact Hi']. by split.
Qed.

(** *** Advancing calls

    [taken] is the hypothesis of the lemmas: a world with call [x] taken out. *)

Definition taken s (x : activity) rest : Prop :=
  inv s (gadd (share x) (shares rest)) /\ call_ok (PipeTbl s) x
  /\ Forall (call_ok (PipeTbl s)) rest /\ NoDup (receiver x ++ receivers rest).

Lemma advance_validated s rest c msg inc v forced created :
  taken s (Validated c msg inc v) rest -> next_ok (advance forced created (Validated c msg inc v)) s rest.
Proof using HP HMsg.
  intros (Hi & Hv & Hc & Hr). cbn [share] in Hi. rewrite gadd_idle in Hi. cbn [advance].
  destruct (Transmit_alloc_eff s _ v Hi Hv) as (st & a & s1 & E & Hst & _ & Hcase).
  assert (Hev : exists s2, (if st =? CFE_SB_BUF_ALOC_ERR
      then guarded_event (c_Task c) CFE_SB_GET_BUF_ERR_EID_BIT CFE_SB_GET_BUF_ERR_EID (ret tt) else ret tt) s1 = Some (tt, s2)
      /\ quiet s1 s2).
  { destruct (_ =? _); [|by exists s1].
    assert (Hg : reports (guarded_event (c_Task c) CFE_SB_GET_BUF_ERR_EID_BIT CFE_SB_GET_BUF_ERR_EID (ret tt) : SB unit)) by reporting.
    destruct (Hg s1) as ([] & s2 & E2 & Q). by exists s2. }
  destruct Hev as (s2 & E2 & Q).
  assert (Hk : same_keys (PipeTbl s) (PipeTbl s2)) by (apply keys_refl; by rewrite (qu_pipes _ _ Q), (st_pipes _ _ Hst)).
  destruct Hcase as [(-> & Hi1 & _)|(Hn & _ & Hvs & Hi1 & _)].
  - eapply is_over; [rewrite (bind_run _ _ _ _ _ E), (bind_run _ _ _ _ _ E2), Z.eqb_refl; reflexivity|..]; try done.
    by apply (quiet_inv s1).
  - eapply (goes_on _ _ _ (Filling c msg inc a _));
      [rewrite (bind_run _ _ _ _ _ E), (bind_run _ _ _ _ _ E2), (proj2 (Z.eqb_neq _ _) Hn); reflexivity|..]; try done.
    + by apply (quiet_inv s1).
    + cbn. destruct (Hv Hvs) as (n & r & _ & -> & _ & ?). done.
Qed.

Lemma advance_filling s rest c msg inc a r forced created :
  taken s (Filling c msg inc a r) rest -> next_ok (advance forced created (Filling c msg inc a r)) s rest.
Proof using HMsg.
  intros (Hi & Hx & Hc & Hr). pose proof Hi as (zl & tl & l & D & Hia). cbn [share] in *.
  destruct (own_share s (shares rest) false a zl tl l D Hia) as (_ & d & Hd).
  destruct (Transmit_fill_eff s _ a d msg inc Hi Hd) as [E Hi']. cbn [advance].
  by eapply (goes_on _ _ _ (Sending c false a r)); [rewrite (bind_run _ _ _ _ _ E); reflexivity|..].
Qed.

Lemma advance_sending s rest c zero a r forced created :
  taken s (Sending c zero a r) rest -> next_ok (advance forced created (Sending c zero a r)) s rest.
Proof using HP.
  intros (Hi & Hx & Hc & Hr). pose proof Hi as (zl & tl & l & D & Hia). cbn [share call_ok] in *.
  destruct (own_share _ _ _ _ _ _ _ _ Hia) as (_ & d & Hd).
  destruct (Broadcast_share s _ zero a zl tl l D d c forced r Hia Hd Hx) as (s' & E & Hi' & Hk & _). cbn [advance].
  eapply (goes_on _ _ _ (Reporting c a _)); [rewrite (bind_run _ _ _ _ _ E); reflexivity|..]; try done.
  cbn [share]. by rewrite gadd_idle.
Qed.

Lemma advance_reporting s rest c a errs forced created :
  taken s (Reporting c a errs) rest -> next_ok (advance forced created (Reporting c a errs)) s rest.
Proof using.
  intros (Hi & Hx & Hc & Hr). cbn [share] in Hi. rewrite gadd_idle in Hi. cbn [advance].
  destruct (reports_errors (P := P) (M := M) (Msg := Msg) c a errs s) as (y & s' & E & Q).
  eapply is_over; [rewrite (bind_run _ _ _ _ _ E); reflexivity|..]; try done; [by apply (quiet_inv s)|].
  apply keys_refl, Q.
Qed.

Lemma advance_waiting s rest id rx forced created :
  taken s (Waiting id rx) rest -> next_ok (advance forced created (Waiting id rx)) s rest.
Proof using.
  intros (Hi & [Hs Hx] & Hc & Hr). cbn [share] in Hi. rewrite gadd_idle in Hi. cbn [advance].
  destruct (Receive_get_eff s _ (forced (rx_Queue rx)) rx Hi Hs) as (r & s' & E & Hg & Hi').
  destruct Hg as [|rx' Hs'|x0 items q Hq Hit Hn].
  - eapply (goes_on _ _ _ (Waiting id rx)); [rewrite (bind_run _ _ _ _ _ E); reflexivity|..]; try done.
    cbn [share]. by rewrite gadd_idle.
  - eapply (goes_on _ _ _ (Received id rx' NULL)); [rewrite (bind_run _ _ _ _ _ E); reflexivity|..]; try done.
    change (share (Received id rx' NULL)) with idle. by rewrite gadd_idle.
  - rewrite (proj2 (Z.eqb_neq _ _) Hn) in Hi'.
    eapply (goes_on _ _ _ (Received id rx x0)); [rewrite (bind_run _ _ _ _ _ E); reflexivity|..]; try done.
    + cbn [share]. unfold gref. by rewrite (proj2 (Z.eqb_neq _ _) Hn).
    + cbn. by rewrite (proj2 (Z.eqb_neq _ _) Hn).
Qed.

Lemma advance_received s rest id rx a forced created :
  taken s (Received id rx a) rest -> next_ok (advance forced created (Received id rx a)) s rest.
Proof using HP HMap.
  intros (Hi & Hx & Hc & Hr). cbn [share call_ok advance] in *. unfold gref in Hi.
  destruct (Z.eqb_spec a NULL) as [->|Hn].
  - rewrite gadd_idle in Hi. destruct (Receive_failed_eff s true id rx NULL Hx) as (s' & E & Q).
    eapply is_over; [rewrite (bind_run _ _ _ _ _ E); reflexivity|..]; try done; [by apply (quiet_inv s)|apply keys_refl, Q|].
    by eapply NoDup_app_r.
  - destruct Hx as [Hs (i & Esl & El & Hnl)].
    destruct (Receive_finish_eff s _ true id i rx a Hi Hs Esl El Hnl) as (st & s' & E & Hi' & _ & _ & Hf).
    apply NoDup_cons_In in Hr as [Hid Hr]. cbn in Hid. pose proof (inv_size _ _ Hi) as Hsz.
    destruct Hf as [(Ep & _ & Hk & _)|(Ep & _ & Hk & _)].
    + eapply (next_intro _ _ _ []); [rewrite (bind_run _ _ _ _ _ E); reflexivity|..]; try done; [by rewrite gadd_idle|].
      pose proof (locate_range _ _ El) as Hir.
      eapply calls_keys; [exact Hk|by rewrite zlen_zset|]. apply calls_slot; try done.
      * intros id' Hin _ Eid. cbn in Eid. rewrite Ep in Eid. by subst.
      * left. intros Hin. apply (live_slot_free s (gadd (gheld a) (shares rest)) i Hi).
        { apply (located_live _ i). by rewrite Ep. }
        cbn. done.
    + by eapply is_over; [rewrite (bind_run _ _ _ _ _ E); reflexivity|..].
Qed.

Lemma advance_creating s rest c depth cr forced created :
  taken s (Creating c depth cr) rest -> (fst created = OS_SUCCESS -> queues s !! snd created = None) ->
  next_ok (advance forced created (Creating c depth cr)) s rest.
Proof using.
  intros (Hi & [Hs (i & Esl & El & Hl)] & Hc & Hr) Hq. cbn [share] in Hi. rewrite Esl in Hi. cbn [advance].
  destruct (CreatePipe_queue_eff s _ created depth cr Hi Hs Hq) as (cr' & s' & E & Esl' & Eid & Hcase).
  rewrite Esl in Esl'.
  destruct Hcase as [[Hs' ->]|(Hs' & Hnew & Et & Hi')].
  - eapply (goes_on _ _ _ (Committing c depth cr')); [rewrite (bind_run _ _ _ _ _ E); reflexivity|..]; try done.
    + cbn [share]. rewrite Esl', (proj2 (Z.eqb_neq _ _) Hs'), <- gadd_assoc, gadd_idle. done.
    + by intros ?.
  - eapply (goes_on _ _ _ (Committing c depth cr')); [rewrite (bind_run _ _ _ _ _ E); reflexivity|..]; try done.
    + cbn [share]. rewrite Esl', (proj2 (Z.eqb_eq _ _) Hs'), <- gadd_assoc, gadd_swap. done.
    + by rewrite Et.
    + cbn. intros _. exists i. rewrite Eid, Et. done.
Qed.

Lemma advance_committing s rest c depth cr forced created :
  taken s (Committing c depth cr) rest -> next_ok (advance forced created (Committing c depth cr)) s rest.
Proof using.
  intros (Hi & Hx & Hc & Hr). pose proof (inv_size _ _ Hi) as Hsz. cbn [share call_ok advance] in *.
  destruct (Z.eqb_spec (cr_Status cr) CFE_SUCCESS) as [Hs|Hs].
  - destruct (Hx Hs) as (i & Esl & El & Hl). rewrite Esl in Hi. cbn [slot_of_call] in Hi. rewrite <- gadd_assoc in Hi.
    destruct (CreatePipe_commit_eff s _ c depth cr i Hi Hs Esl El Hl) as (s' & E & Hi' & Et & _).
    eapply (next_intro _ _ _ []); [rewrite (bind_run _ _ _ _ _ E); reflexivity|..]; try done; [by rewrite gadd_idle|].
    rewrite Et. apply calls_slot; try done; [by apply locate_range in El|]. by right.
  - rewrite (gadd_comm (slot_of_call _)), gadd_idle in Hi.
    destruct (CreatePipe_abandon_eff s (shares rest) c depth cr) as (s' & E & Hi' & Et & _);
      [destruct (cr_slot cr); [done|by rewrite <- (gadd_idle (shares rest))]|done|].
    eapply (next_intro _ _ _ []); [rewrite (bind_run _ _ _ _ _ E); reflexivity|..]; try done; [by rewrite gadd_idle|].
    rewrite Et. destruct (cr_slot cr) as [i|]; [|done]. pose proof Hi as (zl & tl & l & D & Hia).
    destruct (slot_share _ _ _ _ _ _ _ Hia) as (Hir & _ & _ & Hns). apply calls_slot; try done; [|by left].
    intros id _ El Eid. cbn in Eid. rewrite <- Eid, locate_undefined in El. done.
Qed.

Lemma advance_deleting s rest del x forced created :
  match x with Releasing d _ | Reading d | Dropping d => d = del | _ => False end ->
  taken s x rest -> next_ok (advance forced created x) s rest.
Proof using HP.
  intros Hx (Hi & Hok & Hc & Hr). destruct x; try done; subst; cbn [share call_ok advance] in *;
    destruct Hok as [Hs [i Esl]]; rewrite Esl in Hi; cbn [slot_of_call] in Hi; rewrite <- ?gadd_assoc in Hi.
  - rewrite (gadd_swap (gqueue _ _)), (gadd_swap (gslot i)) in Hi.
    destruct (DeletePipe_release_eff s _ a Hi) as (s' & E & Hi' & Hst & _).
    eapply (goes_on _ _ _ (Reading del)); [rewrite (bind_run _ _ _ _ _ E); reflexivity|..]; try done.
    + cbn [share]. rewrite Esl, <- gadd_assoc. exact Hi'.
    + apply keys_refl, Hst.
    + split; [done|by exists i].
  - rewrite (gadd_swap (gslot i)) in Hi.
    destruct (DeletePipe_next_eff s _ (del_Queue del) Hi) as (r & s' & E & Ep & _ & _ & Hcase). destruct r as [y|].
    + eapply (goes_on _ _ _ (Releasing del y)); [rewrite (bind_run _ _ _ _ _ E); reflexivity|..]; try done.
      * cbn [share]. rewrite Esl, <- !gadd_assoc. cbn [slot_of_call].
        rewrite (gadd_swap (gqueue _ _) (gref y)), (gadd_swap (gslot i) (gref y)), (gadd_swap (gslot i)). apply Hcase.
      * by apply keys_refl.
      * split; [done|by exists i].
    + eapply (goes_on _ _ _ (Dropping del)); [rewrite (bind_run _ _ _ _ _ E); reflexivity|..]; try done.
      * cbn [share]. rewrite Esl, <- !gadd_assoc, (gadd_swap (slot_of_call _)). apply Hcase.
      * by apply keys_refl.
      * split; [done|by exists i].
  - rewrite (gadd_swap (gslot i)) in Hi. destruct (QueueDelete_eff s _ _ Hi) as [E Hi'].
    eapply (goes_on _ _ _ (Freeing del)); [rewrite (bind_run _ _ _ _ _ E); reflexivity|..]; try done.
    + cbn [share]. rewrite (proj2 (Z.eqb_eq _ _) Hs), Esl. exact Hi'.
    + cbn. intros _. split; [done|by exists i].
Qed.

Lemma advance_freeing s rest del forced created :
  taken s (Freeing del) rest -> next_ok (advance forced created (Freeing del)) s rest.
Proof using.
  intros (Hi & Hx & Hc & Hr). pose proof (inv_size _ _ Hi) as Hsz. cbn [share call_ok advance] in *.
  destruct (Z.eqb_spec (del_Status del) CFE_SUCCESS) as [Hs|Hs].
  - destruct (Hx Hs) as [_ [i Esl]]. rewrite Esl in Hi. cbn [slot_of_call] in Hi.
    destruct (DeletePipe_finish_eff s _ del i Hi Hs Esl) as (s' & E & Hi' & Et & _).
    eapply (next_intro _ _ _ []); [rewrite (bind_run _ _ _ _ _ E); reflexivity|..]; try done; [by rewrite gadd_idle|].
    rewrite Et. pose proof Hi as (zl & tl & l & D & Hia).
    destruct (slot_share _ _ _ _ _ _ _ Hia) as (Hir & _ & _ & Hns). apply calls_slot; try done; [|by left].
    intros id _ El Eid. cbn in Eid. rewrite <- Eid, locate_undefined in El. done.
  - rewrite gadd_idle in Hi. unfold DeletePipe_finish. rewrite (proj2 (Z.eqb_neq _ _) Hs).
    assert (Hrep : reports ((if negb (del_EventID del =? 0) then count CreatePipeErrorCounter else ret tt) ;*
                            send_if (del_EventID del) : SB unit)).
    { apply reports_bind; [destruct (negb _); reporting|]. intros _. apply reports_send_if. }
    destruct (Hrep s) as (u & s' & E & Q).
    eapply is_over; [|by apply (quiet_inv s)|apply keys_refl, Q|done..].
    revert E. unfold bind. destruct (negb (del_EventID del =? 0)); [destruct (count _ s) as [[? s1]|]; [|done]|cbn [ret]];
      unfold ret.
    + destruct (send_if _ s1) as [[? s2]|]; [|done]. by intros [= _ ->].
    + destruct (send_if _ s) as [[? s2]|]; [|done]. by intros [= _ ->].
Qed.

Lemma advance_ok s rest x forced created :
  taken s x rest -> (fst created = OS_SUCCESS -> queues s !! snd created = None) ->
  next_ok (advance forced created x) s rest.
Proof using HP HMap HMsg.
  intros Ht Hq. destruct x.
  - by apply advance_validated.
  - by apply advance_filling.
  - by apply advance_sending.
  - by apply advance_reporting.
  - destruct Ht as (Hi & Hx & Hc & Hr). by eapply (goes_on _ _ _ (Owning a)).
  - by apply advance_waiting.
  - by apply advance_received.
  - by apply advance_creating.
  - by apply advance_committing.
  - by apply (advance_deleting s rest del).
  - by apply (advance_deleting s rest del).
  - by apply (advance_deleting s rest del).
  - by apply advance_freeing.
Qed.

(** *** Owners of zero copy buffers *)

Lemma use_ok s rest x (a : action Msg) : taken s x rest -> next_ok (use_buffer a x) s rest.
Proof using HP HMsg.
  intros (Hi & Hx & Hc & Hr).
  assert (Hsame : next_ok (ret [x]) s rest) by (by eapply (goes_on _ _ _ x)).
  destruct x as [| | | |b| | | | | | | |]; try (by destruct a). cbn [share] in Hi.
  destruct (zero_share _ _ _ Hi) as (d & Hd & _). destruct a as [| | | | | | | | |n msg|n c inc|n]; try done; cbn [use_buffer].
  - eapply (goes_on _ _ _ (Owning b)); [rewrite (bind_load_buf _ _ _ _ Hd), bind_store_buf by (by rewrite Hd); reflexivity|..]; try done.
    apply (inv_store_buf s _ b d); try done. destruct Hi as (zl & tl & l & D & Hi). by apply (in_bufs _ _ _ _ _ _ Hi b d).
  - destruct (TransmitBuffer_prepare_eff s _ c b inc Hi) as (d' & s' & l & D & _ & Hdi & E & Hi' & Hst & _).
    cbv zeta in E. pose proof (keys_refl _ _ (st_pipes _ _ Hst)) as Hk.
    destruct (v_RouteId (validated l (Content d'))) as [r|] eqn:Er.
    + eapply (goes_on _ _ _ (Sending c true b r)); [rewrite (bind_run _ _ _ _ _ E); reflexivity|..]; try done.
      cbn. revert Er. unfold validated. destruct (negb _); [done|]. destruct (_ <? _); [done|]. intros [= <-]. apply route_of_range.
    + eapply (goes_on _ _ _ (Owning b)); [rewrite (bind_run _ _ _ _ _ E); reflexivity|..]; try done.
      by apply (quiet_inv s').
  - destruct (Release_eff s _ b Hi) as (s' & E & Hi' & Hst & _).
    eapply is_over; [rewrite (bind_run _ _ _ _ _ E); reflexivity|..]; try done. apply keys_refl, Hst.
Qed.

(** *** Every step *)

Lemma on_call_ok w n f :
  winv w -> (forall x rest, taken (w_sb w) x rest -> next_ok (f x) (w_sb w) rest) ->
  exists w', on_call n f w = Some w' /\ winv w'.
Proof using.
  intros Hw Hf. unfold on_call. destruct (w_acts w !! n) as [x|] eqn:Hn; [|by exists w].
  destruct (winv_split w n x Hw Hn) as (Hi & Hx & Hc & Hr).
  destruct (Hf x (delete n (w_acts w))) as (xs & s' & -> & Hw'); [done|]. by eexists.
Qed.

Lemma exec_ok w a : winv w -> allowed w a -> exists w', exec a w = Some w' /\ winv w'.
Proof using HP HMap HMsg.
  intros Hw Ha.
  assert (Hstart : next_ok (start a) (w_sb w) (w_acts w) -> exists w',
            match start a (w_sb w) with Some (xs, s) => Some (mkWorld s (xs ++ w_acts w)) | None => None end = Some w'
            /\ winv w') by (intros (xs & s' & -> & Hw'); by eexists).
  destruct a; cbn [exec]; try (apply Hstart).
  - by apply start_transmit.
  - by apply start_allocate.
  - by apply start_receive.
  - by apply start_create.
  - by apply start_delete.
  - by apply start_subscribe.
  - by apply start_unsubscribe.
  - by apply start_setopts.
  - apply on_call_ok; [done|]. intros x rest Ht. by apply advance_ok.
  - apply on_call_ok; [done|]. intros x rest Ht. by apply use_ok.
  - apply on_call_ok; [done|]. intros x rest Ht. by apply use_ok.
  - apply on_call_ok; [done|]. intros x rest Ht. by apply use_ok.
Qed.

Lemma reaches_winv w0 w : winv w0 -> reaches w0 w -> winv w.
Proof using HP HMap HMsg.
  intros H0' Hr. induction Hr as [|w a w' _ IH Ha E]; [done|].
  destruct (exec_ok w a IH Ha) as (w2 & E2 & Hw). congruence.
Qed.

(** *** The state after initialization *)

Definition sb_init (p : P) : sb :=
  mkSb p ∅ (<[ZeroCopyList := mkLink ZeroCopyList ZeroCopyList]> (<[InTransitList := mkLink InTransitList InTransitList]> ∅)) ∅
    (replicate (Z.to_nat CFE_PLATFORM_SB_MAX_PIPES) zero_pipe) CFE_SB_PIPEID_BASE CFE_SBR_Init ∅
    (replicate OS_MAX_TASKS 0) CFE_SB_DISABLE (fun _ => 0) (fun _ => 0) [].

Lemma EarlyInit_run s p : CFE_SB_EarlyInit OS_SUCCESS (CFE_SUCCESS, p) s = Some (CFE_SUCCESS, sb_init p).
Proof using.
  unfold CFE_SB_EarlyInit, CFE_SB_InitBuffers, CFE_SB_TrackingListReset, CFE_SB_InitPipeTbl.
  rewrite bind_modify. change (negb (OS_SUCCESS =? OS_SUCCESS)) with false. cbn iota.
  rewrite bind_modify. change (negb (CFE_SUCCESS =? CFE_SUCCESS)) with false. cbn iota.
  rewrite bind_bind, bind_modify, bind_bind. rewrite bind_store_link by (by eexists).
  rewrite bind_bind, bind_store_link by (by eexists). rewrite bind_ret.
  change (negb (CFE_SUCCESS =? CFE_SUCCESS)) with false. cbn iota. rewrite bind_modify, bind_modify. reflexivity.
Qed.

Lemma init_pipes : pipes_inv (replicate (Z.to_nat CFE_PLATFORM_SB_MAX_PIPES) zero_pipe) CFE_SB_PIPEID_BASE ∅ [] [].
Proof using.
  split; try done.
  - intros i Hi. rewrite zget_replicate by done. by left.
  - constructor.
  - change (NoDup (@nil Z)). constructor.
  - intros q. split; [by intros []|done].
Qed.

Lemma init_table : RoutingTbl (CFE_SBR_Init : sbr_state M) = replicate 256 (mkRouteEntry 0 0 0).
Proof using. vm_compute. reflexivity. Qed.

Lemma init_dests p : dests_inv (sb_init p) [] (fun _ => []).
Proof using HMap.
  split.
  - apply init_rep.
  - intros i Hi. assert (E : head_at (routes (sb_init p)) i = NULL).
    { change (routes (sb_init p)) with (CFE_SBR_Init : sbr_state M). unfold head_at. rewrite init_table. by rewrite zget_replicate by lia. }
    rewrite E. by exists NULL.
  - by intros.
  - intros a. split; [by intros []|]. intros (i & _ & []).
  - by intros.
  - intros i Hi. constructor.
  - by intros.
  - by intros.
  - by intros.
  - reflexivity.
Qed.

Lemma init_tracked p : tracked (links (sb_init p)) [] [] [].
Proof using.
  split; [by split; [apply lookup_insert_eq || reflexivity|]|by split; [reflexivity|]|by intros ? []| |].
  - apply NoDup_cons_In. cbn. split; [intros [?|[]]; done|]. apply NoDup_cons_In. split; [tauto|constructor].
  - intros a. cbn [links sb_init]. rewrite !lookup_insert_is_Some'. cbn [In app]. split.
    + intros [<-|[<-|[? ?]]]; [by left|by right; left|done].
    + intros [<-|[<-|[]]]; auto.
Qed.

Lemma init_core p : pool_rep p ∅ -> core (sb_init p) [] [] [] [].
Proof using.
  intros Hp. assert (El : live (sb_init p) = ∅).
  { unfold live. cbn [bufs dests sb_init]. by rewrite !fmap_empty, map_union_empty. }
  split; rewrite ?El.
  - apply init_tracked.
  - intros a. split; [by intros []|done].
  - by intros.
  - by intros a [].
  - exact Hp.
  - by intros.
  - by intros a [].
  - reflexivity.
  - reflexivity.
Qed.

Lemma init_lasts : lasts (replicate (Z.to_nat CFE_PLATFORM_SB_MAX_PIPES) zero_pipe) = [].
Proof using. reflexivity. Qed.

Lemma init_inv p : pool_rep p ∅ -> inv (sb_init p) idle.
Proof using HMap.
  intros Hp. exists [], [], [], (fun _ => []). split.
  - by apply init_core.
  - by intros.
  - reflexivity.
  - apply init_pipes.
  - apply init_dests.
Qed.

Lemma init_winv p : pool_rep p ∅ -> winv (mkWorld (sb_init p) []).
Proof using HMap. intros Hp. split; [by apply init_inv|constructor|constructor]. Qed.
End safety.
