(* ===== verification/SbCalls.v ===== *)
(** * The software bus: whole calls

    What an API function does when its sections run one after the other:
    transmission, reception, creation and deletion of a pipe. *)

From S2P Require Import Prelude ResourceId SbRoute SbRouteProofs SbRouteTheorems SbModel SbApi SbLists SbInv SbDests SbWorld SbSend SbBroadcast SbBuffers SbPipes SbTable SbSubs SbSteps SbSafety.

(** The destinations along a list. *)
Fixpoint walk_addrs (fuel : nat) (D : gmap Z CFE_SB_DestinationD_t) (a : Z) : list Z :=
  match fuel with
  | O => []
  | S fuel' =>
      if a =? NULL then []
      else match D !! a with
           | Some d => a :: walk_addrs fuel' D (dest_Next d)
           | None => []
           end
  end.

Lemma walk_addrs_dseg D l : forall fuel p h q,
  dseg D p h l q NULL -> (length l < fuel)%nat -> walk_addrs fuel D h = l.
Proof.
  induction l as [|a l IH]; intros [|fuel] p h q Hs Hf; cbn [length] in Hf; try lia; cbn [walk_addrs].
  - cbn in Hs. destruct Hs as [-> _]. by rewrite Z.eqb_refl.
  - apply dseg_cons in Hs as (-> & Ha & d & Hd & _ & Hs). rewrite (proj2 (Z.eqb_neq _ _) Ha), Hd.
    f_equal. eapply IH; [done|lia].
Qed.

Section calls.
Context {P M Msg : Type} `{HP : PoolBufLaws P} `{HMap : RouteMapLaws M} `{HMsg : SbPlatformLaws Msg}.
Local Abbreviation sb := (sb P M Msg).
Local Abbreviation SB := (SB (P := P) (M := M) (Msg := Msg)).
Implicit Types (s : sb) (g : ghost) (c : caller).

(** The destinations of a route. *)
Definition route_dests s (RouteId : Z) : list Z :=
  walk_addrs (S (size (dests s))) (dests s) (CFE_SBR_GetDestListHeadPtr (routes s) RouteId).

Lemma route_dests_eq s l D r : dests_inv s l D -> 0 <= r -> route_dests s r = dests_of D r.
Proof using.
  intros Hd Hr. unfold route_dests, dests_of. destruct (CFE_SBR_IsValidRouteId r) eqn:Ev.
  - apply valid_route_iff in Ev; [|done]. replace r with (r - 1 + 1) at 1 by lia. rewrite GetHead_at by lia.
    destruct (di_list _ _ _ Hd (r - 1) ltac:(lia)) as [q Hq]. apply (walk_addrs_dseg _ _ _ NULL _ q); [done|].
    pose proof (list_fits s _ (di_nodup _ _ _ Hd (r - 1) ltac:(lia)) (fun a Ha => proj1 (dseg_nodes _ _ _ _ _ _ a Hq Ha))). lia.
  - unfold CFE_SBR_GetDestListHeadPtr. by rewrite Ev.
Qed.

(** The queues that a message of this application would go to. *)
Definition recipients s (AppId : Z) (forced : Z -> Z) (RouteId : Z) : list Z :=
  targets s AppId forced (route_dests s RouteId).

(** A queue gets a message at most once. *)
Lemma targets_once s g zl tl l D AppId forced i m :
  base s g zl tl l D -> 0 <= i < 256 -> NoDup m -> (forall x, In x m -> In x (D i)) ->
  NoDup (targets s AppId forced m).
Proof using.
  intros Hb Hi. pose proof (pi_size _ _ _ _ _ (ba_pipes _ _ _ _ _ _ Hb)) as Hsz.
  induction m as [|x m IH]; intros [Hx Hnd]%NoDup_cons_In Hin || intros _ _; [constructor|].
  unfold targets. cbn [flat_map]. fold (targets s AppId forced m).
  assert (Hrec : NoDup (targets s AppId forced m)) by (apply IH; [done|]; intros y Hy; apply Hin; by right).
  destruct (verdict_of s AppId forced x) as [| |j|] eqn:Ev; cbn [target app]; try done.
  apply NoDup_cons_In. split; [|done]. intros (y & Hy & Hq)%in_flat_map.
  destruct (verdict_of s AppId forced y) as [| |j'|] eqn:Ev'; cbn in Hq; try done. destruct Hq as [Hq|[]].
  unfold verdict_of in Ev, Ev'. destruct (dests s !! x) as [dx|] eqn:Hdx; [|done].
  destruct (dests s !! y) as [dy|] eqn:Hdy; [|done].
  apply judge_accept in Ev as [El Ep]. apply judge_accept in Ev' as [El' Ep'].
  assert (j' = j) as ->.
  { apply (live_queues_inj (PipeTbl s)); try done.
    - pose proof (pi_queues _ _ _ _ _ (ba_pipes _ _ _ _ _ _ Hb)) as Hnq. by apply NoDup_app_In in Hnq as [? _].
    - rewrite Hsz. by apply locate_range in El'.
    - rewrite Hsz. by apply locate_range in El.
    - apply (located_live _ j'). by rewrite Ep'.
    - apply (located_live _ j). by rewrite Ep. }
  apply Hx. replace x with y; [done|].
  apply (di_once _ _ _ (ba_dests _ _ _ _ _ _ Hb) i y x dy dx); auto; [apply Hin; by right|apply Hin; by left|congruence].
Qed.

Lemma recipients_spec s g AppId forced r :
  inv s g -> 0 <= r -> NoDup (recipients s AppId forced r) /\ zlen (recipients s AppId forced r) <= 16
  /\ forall q, In q (recipients s AppId forced r) -> is_Some (queues s !! q).
Proof using.
  intros (zl & tl & l & D & Hi) Hr. pose proof (in_dests _ _ _ _ _ _ Hi) as Hd.
  unfold recipients. rewrite (route_dests_eq s l D r Hd Hr). unfold dests_of.
  destruct (CFE_SBR_IsValidRouteId r) eqn:Ev; [|split_and!; [constructor|done|by intros q []]].
  apply valid_route_iff in Ev; [|done]. set (i := r - 1). assert (Hir : 0 <= i < 256) by lia.
  split_and!.
  - eapply (targets_once s g zl tl l D AppId forced i (D i) (inv_base _ _ _ _ _ _ Hi) Hir); [by apply Hd|auto].
  - transitivity (zlen (D i)); [|by apply (di_limit _ _ _ Hd)]. clear. unfold targets, zlen.
    induction (D i) as [|x m IH]; [done|]. cbn [flat_map]. rewrite length_app. cbn [length].
    destruct (verdict_of s AppId forced x); cbn [target length]; lia.
  - intros q (x & Hx & Hq)%in_flat_map. unfold verdict_of in Hq. destruct (dests s !! x) as [dx|]; [|done].
    destruct (judge s AppId forced dx) as [| |j|] eqn:Ej; cbn in Hq; try done. destruct Hq as [<-|[]].
    apply judge_accept in Ej as [El Ep].
    by destruct (pipe_queue _ _ _ _ _ _ _ _ (inv_base _ _ _ _ _ _ Hi) El Ep) as (_ & _ & ? & _).
Qed.

(** *** Transmission *)

(** The effect of a broadcast of buffer [a], with content [d], to the queues [ts]. *)
Definition delivered s s' (a : Z) (ts : list Z) : Prop :=
  (forall id, queues s' !! id = delivered_to a ts id <$> queues s !! id)
  /\ (forall b, b <> a -> bufs s' !! b = bufs s !! b).

Definition sent (n : Z) (msg : Msg) (inc : bool) : CFE_SB_BufferD_t Msg := filled (fresh_buf n) msg inc.

(** The buffer of a message as its recipients find it. *)
Definition in_transit s (r n : Z) (msg : Msg) (inc : bool) (refs : Z) : CFE_SB_BufferD_t Msg :=
  set_UseCount (set_AppId (set_Content (sent n msg inc) (sequenced s r (sent n msg inc))) CFE_ES_APPID_UNDEFINED) refs.

Definition transmitted s s' c forced (msg : Msg) (inc : bool) (r : Z) : Prop :=
  exists a n, bufs s !! a = None
    /\ let ts := recipients s (c_AppId c) forced r in
       delivered s s' a ts
       /\ bufs s' !! a = (if zlen ts =? 0 then None else Some (in_transit s r n msg inc (zlen ts))).

Lemma recipients_ext s s' AppId forced r :
  PipeTbl s' = PipeTbl s -> queues s' = queues s -> dests s' = dests s -> routes s' = routes s ->
  recipients s' AppId forced r = recipients s AppId forced r.
Proof using.
  intros E1 E2 E3 E4. unfold recipients, route_dests. rewrite E3, E4. by apply targets_ext.
Qed.

Lemma sequenced_ext s s' r d : routes s' = routes s -> sequenced s' r d = sequenced s r d.
Proof using. intros E. unfold sequenced. by rewrite E. Qed.

(** Filling and broadcasting a new buffer. *)
Lemma Transmit_send_eff s s2 g c forced msg inc a n r :
  same_tables s s2 -> dests s2 = dests s -> bufs s !! a = None -> bufs s2 = <[a := fresh_buf n]> (bufs s) ->
  inv s2 (gadd (gfresh a) g) -> 0 <= r ->
  exists s', (Transmit_fill a msg inc ;* CFE_SB_BroadcastBufferToRoute c forced a r ;* ret tt) s2 = Some (tt, s')
    /\ inv s' g /\ same_keys (PipeTbl s) (PipeTbl s') /\ transmitted s s' c forced msg inc r.
Proof using HP HMsg.
  intros [Sp Sl Sr Sq _] Sd Hnew Eb Hi Hr.
  assert (Ha : bufs s2 !! a = Some (fresh_buf n)) by (rewrite Eb; apply lookup_insert_eq).
  destruct (Transmit_fill_eff s2 _ a (fresh_buf n) msg inc Hi Ha) as [E3 Hi3]. rewrite (bind_run _ _ _ _ _ E3).
  set (s3 := set_bufs _ s2) in *. pose proof Hi3 as (zl & tl & l & D & Hia).
  assert (Ha3 : bufs s3 !! a = Some (sent n msg inc)) by apply lookup_insert_eq.
  destruct (Broadcast_share s3 g false a zl tl l D (sent n msg inc) c forced r Hia Ha3 Hr)
    as (s4 & E4 & Hi4 & Hk & Ho & Hb & Hq & _).
  unfold CFE_SB_BroadcastBufferToRoute. rewrite bind_bind, (bind_run _ _ _ _ _ E4).
  destruct (reports_errors (P := P) (M := M) (Msg := Msg) c a (errors s3 (c_AppId c) forced (dests_of D r)) s4) as (y & s5 & E5 & Q).
  rewrite (bind_run _ _ _ _ _ E5). exists s5. split; [done|]. split; [by apply (quiet_inv s4)|].
  split; [rewrite (qu_pipes _ _ Q); unfold s3 in Hk; sb_simpl; by rewrite Sp in Hk|].
  assert (Ets : targets s3 (c_AppId c) forced (dests_of D r) = recipients s (c_AppId c) forced r).
  { rewrite <- (route_dests_eq s3 l D r (in_dests _ _ _ _ _ _ Hia) Hr).
    apply (recipients_ext s s3); unfold s3; sb_simpl; done. }
  rewrite Ets in *. exists a, n. cbv zeta. unfold delivered. rewrite (qu_bufs _ _ Q), (qu_queues _ _ Q). split_and!.
  - done.
  - intros id. rewrite Hq. unfold s3. sb_simpl. by rewrite Sq.
  - intros b Hne. rewrite Ho by done. unfold s3. sb_simpl. rewrite lookup_insert_ne by done. by rewrite Eb, lookup_insert_ne.
  - rewrite Hb. unfold in_transit. by rewrite (sequenced_ext s s3).
Qed.

(** No buffer is taken for a message without subscribers. *)
Lemma alloc_skipped l msg s s' :
  Transmit_alloc (validated l msg) s = Some ((CFE_SUCCESS, NULL), s') ->
  CFE_SBR_IsValidRouteId (route_of l (CFE_MSG_GetMsgId msg)) = false.
Proof using.
  unfold Transmit_alloc, validated. destruct (negb (CFE_SB_IsValidMsgId _)); [by intros [=]|].
  destruct (_ <? _); [by intros [=]|]. cbn [v_RouteId v_Size v_Status]. change (CFE_SUCCESS =? CFE_SUCCESS) with true.
  cbn [andb]. destruct (CFE_SBR_IsValidRouteId _); [|done]. rewrite bind_bind. unfold bind at 1.
  destruct (CFE_SB_GetBufferFromPool _ s) as [[b s1]|]; [|done]. destruct (Z.eqb_spec b NULL).
  - rewrite bind_ret. by intros [=].
  - rewrite bind_ret. cbn. intros [= ? ?]. done.
Qed.

(** The whole call: nothing is sent, or the message is delivered. *)
Lemma TransmitMsg_eff s g c forced msg inc :
  inv s g ->
  exists st s' l D, CFE_SB_TransmitMsg c forced (Some msg) inc s = Some (st, s') /\ inv s' g /\ dests_inv s l D
    /\ same_keys (PipeTbl s) (PipeTbl s')
    /\ ((queues s' = queues s /\ bufs s' = bufs s
          /\ (st = CFE_SUCCESS -> CFE_SBR_IsValidRouteId (route_of l (CFE_MSG_GetMsgId msg)) = false))
        \/ (st = CFE_SUCCESS /\ transmitted s s' c forced msg inc (route_of l (CFE_MSG_GetMsgId msg)))).
Proof using HP HMsg.
  intros Hi. pose proof Hi as (zl & tl & l & D & Hia). unfold CFE_SB_TransmitMsg.
  destruct (Validate_eff s l D c msg (in_dests _ _ _ _ _ _ Hia)) as (s1 & E1 & Q1). rewrite (bind_run _ _ _ _ _ E1).
  pose proof (quiet_inv _ _ _ Q1 Hi) as Hi1.
  destruct (Transmit_alloc_eff s1 g _ Hi1 (validated_ok l msg)) as (st & a & s2 & E2 & Hst & Hds & Hcase).
  rewrite (bind_run _ _ _ _ _ E2).
  assert (Htail : forall s3, exists s4,
    ((if st =? CFE_SB_BUF_ALOC_ERR
      then guarded_event (c_Task c) CFE_SB_GET_BUF_ERR_EID_BIT CFE_SB_GET_BUF_ERR_EID (ret tt) else ret tt) ;* ret st) s3
      = Some (st, s4) /\ quiet s3 s4).
  { intros s3. destruct (_ =? _); [|by exists s3].
    assert (Hg : reports (guarded_event (c_Task c) CFE_SB_GET_BUF_ERR_EID_BIT CFE_SB_GET_BUF_ERR_EID (ret tt) : SB unit)) by reporting.
    destruct (Hg s3) as (u & s4 & E & Q). exists s4. by rewrite (bind_run _ _ _ _ _ E). }
  destruct Hcase as [(-> & Hi2 & Eb)|(Hn & Est & Hv & Hi2 & Hnew & n & Eb)].
  - rewrite Z.eqb_refl. cbn [negb]. rewrite bind_ret. destruct (Htail s2) as (s4 & E4 & Q4). rewrite E4.
    exists st, s4, l, D. split_and!; [done|by apply (quiet_inv s2)|apply Hia|..].
    + by rewrite (qu_pipes _ _ Q4), (st_pipes _ _ Hst), (qu_pipes _ _ Q1).
    + left. split_and!.
      * by rewrite (qu_queues _ _ Q4), (st_queues _ _ Hst), (qu_queues _ _ Q1).
      * by rewrite (qu_bufs _ _ Q4), Eb, (qu_bufs _ _ Q1).
      * intros ->. by apply (alloc_skipped l msg s1 s2).
  - rewrite (proj2 (Z.eqb_neq _ _) Hn). cbn [negb].
    destruct (validated_ok l msg Hv) as (sz & r & _ & Er & _ & Hr).
    assert (r = route_of l (CFE_MSG_GetMsgId msg)) as ->.
    { revert Er. unfold validated. destruct (negb _); [done|]. destruct (_ <? _); [done|]. by intros [= <-]. }
    rewrite Er.
    destruct (Transmit_send_eff s s2 g c forced msg inc a n (route_of l (CFE_MSG_GetMsgId msg))) as (s3 & E3 & Hi3 & Hk & Ht);
      [destruct Hst, Q1; split; congruence|by rewrite Hds, (qu_dests _ _ Q1)|by rewrite (qu_bufs _ _ Q1) in Hnew
      |by rewrite Eb, (qu_bufs _ _ Q1)|done|done|].
    rewrite (bind_run _ _ _ _ _ E3). destruct (Htail s3) as (s4 & E4 & Q4). rewrite E4.
    exists st, s4, l, D. split_and!; [done|by apply (quiet_inv s3)|apply Hia|by rewrite (qu_pipes _ _ Q4)|].
    right. split; [done|]. destruct Ht as (a' & n' & H1' & H2' & H3'). exists a', n'. unfold delivered in *.
    by rewrite (qu_bufs _ _ Q4), (qu_queues _ _ Q4).
Qed.

(** *** Reception *)

Definition good_timeout (TimeOut : Z) : Prop := 0 < TimeOut \/ TimeOut = CFE_SB_POLL \/ TimeOut = CFE_SB_PEND_FOREVER.

(** Pipe [id] exists, in slot [i]. *)
Definition pipe_is s (id i : Z) : Prop := CFE_SB_LocatePipeDescByID id = Some i /\ PipeId (zget (PipeTbl s) i) = id.

Lemma Receive_begin_ok s id i to rx s' :
  pipe_is s id i -> good_timeout to -> Receive_begin true id to s = Some (rx, s') ->
  rx_Status rx = CFE_SUCCESS /\ rx_Timeout rx = (if 0 <? to then to else if to =? CFE_SB_POLL then OS_CHECK else OS_PEND).
Proof using.
  intros [El Ep] Ht. unfold Receive_begin. cbn [negb].
  assert (Hgo : forall t, Receive_unref id t s = Some (rx, s') -> rx_Status rx = CFE_SUCCESS /\ rx_Timeout rx = t).
  { intros t. unfold Receive_unref, CFE_SB_PipeDescIsMatch, CFE_ResourceId_Equal. rewrite bind_gets, El, Ep, Z.eqb_refl.
    unfold load_pipe at 1. rewrite bind_gets. unfold bind at 1. destruct (_ : option (unit * sb)) as [[u s1]|]; [|done].
    by intros [= <- _]. }
  destruct (0 <? to) eqn:E0; [apply Hgo|]. destruct (to =? CFE_SB_POLL) eqn:E1; [apply Hgo|].
  apply Z.ltb_ge in E0. apply Z.eqb_neq in E1. destruct Ht as [?|[?|?]]; [lia|done|].
  rewrite (proj2 (Z.eqb_eq _ _)) by done. apply Hgo.
Qed.

(** A call on a pipe with messages takes the first one. *)
Lemma ReceiveBuffer_takes s g id i to q x rest :
  inv s g -> pipe_is s id i -> good_timeout to ->
  queues s !! SysQueueId (zget (PipeTbl s) i) = Some q -> q_items q = x :: rest ->
  exists s', CFE_SB_ReceiveBuffer OS_SUCCESS true id to s = Some (Some (CFE_SUCCESS, content_ptr x), s') /\ inv s' g
    /\ queues s' = <[SysQueueId (zget (PipeTbl s) i) := mkQueue (q_depth q) rest]> (queues s)
    /\ same_keys (zset (PipeTbl s) i (pipe_set_LastBuffer (zget (PipeTbl s) i) x)) (PipeTbl s')
    /\ kept s s' /\ is_Some (bufs s' !! x).
Proof using HP HMap.
  intros Hi Hp Ht Hq Hx. pose proof Hp as [El Ep]. pose proof (locate_range _ _ El) as Hr. pose proof (inv_size _ _ Hi) as Hsz.
  unfold CFE_SB_ReceiveBuffer.
  destruct (Receive_begin_eff s g true id to Hi) as (rx & s1 & E1 & Hi1 & Eq1 & _ & [_ Hk1] & Hb).
  rewrite (bind_run _ _ _ _ _ E1). destruct (Receive_begin_ok s id i to rx s1 Hp Ht E1) as [Hs _].
  destruct Hb as [[Hn _]|(_ & j & Esl & Elj & _ & Erq & Et)]; [done|].
  assert (j = i) as -> by congruence.
  assert (Hq1 : queues s1 !! rx_Queue rx = Some q) by congruence.
  destruct (take_first s1 g _ _ _ _ Hi1 Hq1 Hx) as (Hi2 & Hxr & _).
  set (s2 := set_queues (<[rx_Queue rx := mkQueue (q_depth q) rest]> (queues s1)) s1) in *.
  assert (Hxn : x <> NULL) by (unfold NULL; lia).
  assert (E2 : Receive_get OS_SUCCESS rx s1 = Some (Some (rx, x), s2)).
  { unfold Receive_get, OS_QueueGet, bind. rewrite (proj2 (Z.eqb_eq _ _) Hs).
    change (negb (OS_SUCCESS =? OS_SUCCESS)) with false. cbn iota. rewrite Hq1, Hx.
    change (OS_SUCCESS =? OS_SUCCESS) with true. by rewrite (proj2 (Z.eqb_neq _ _) Hxn). }
  rewrite (bind_run _ _ _ _ _ E2).
  assert (Et2 : zget (PipeTbl s2) i = pipe_set_LastBuffer (zget (PipeTbl s) i) NULL).
  { unfold s2. sb_simpl. rewrite Et. apply zget_zset_eq. by rewrite Hsz. }
  destruct (Receive_finish_eff s2 g true id i rx x Hi2 Hs Esl El) as (st & s3 & E3 & Hi3 & Eq3 & _ & Hf);
    [by rewrite Et2|].
  rewrite (bind_run _ _ _ _ _ E3). unfold finished in Hf. rewrite Et2 in Hf.
  destruct Hf as [(_ & -> & Hk3 & Eb3)|(Hne & _)]; [|by destruct Hne].
  exists s3. change (CFE_SUCCESS =? CFE_SUCCESS) with true. split_and!.
  - done.
  - done.
  - rewrite Eq3. unfold s2. sb_simpl. by rewrite Erq, Eq1.
  - unfold s2 in Hk3. sb_simpl. rewrite Et, zset_zset in Hk3. exact Hk3.
  - intros b d Hd. rewrite Eb3 in Hd. by apply Hk1.
  - rewrite Eb3. unfold s2. sb_simpl. by apply (take_first s1 g _ _ _ _ Hi1 Hq1 Hx).
Qed.

(** A poll of an empty queue. *)
Lemma poll_empty s id i q :
  pipe_is s id i -> LastBuffer (zget (PipeTbl s) i) = NULL ->
  queues s !! SysQueueId (zget (PipeTbl s) i) = Some q -> q_items q = [] ->
  exists s', CFE_SB_ReceiveBuffer OS_SUCCESS true id CFE_SB_POLL s = Some (Some (CFE_SB_NO_MESSAGE, NULL), s')
    /\ quiet s s' /\ events s' = events s
    /\ forall k, HKTlm s' k = if decide (k = InternalErrorCounter) then u8 (HKTlm s k + 1) else HKTlm s k.
Proof using.
  intros [El Ep] Hn Hq Hx. unfold CFE_SB_ReceiveBuffer, Receive_begin. cbn [negb].
  change (0 <? CFE_SB_POLL) with false. change (CFE_SB_POLL =? CFE_SB_POLL) with true. cbn iota.
  unfold Receive_unref, CFE_SB_PipeDescIsMatch, CFE_ResourceId_Equal. rewrite bind_bind, bind_gets, El, Ep, Z.eqb_refl.
  rewrite bind_bind. unfold load_pipe at 1. rewrite bind_gets, Hn, Z.eqb_refl. cbn [negb]. rewrite bind_bind, bind_ret, bind_ret.
  assert (E : forall rx, rx_Status rx = CFE_SUCCESS -> rx_Queue rx = SysQueueId (zget (PipeTbl s) i) -> rx_Timeout rx = OS_CHECK ->
    Receive_get OS_SUCCESS rx s = Some (Some (mkReception CFE_SB_NO_MESSAGE 0 (rx_slot rx) (rx_Queue rx) (rx_Timeout rx), NULL), s)).
  { intros rx H1' H2' H3'. unfold Receive_get, OS_QueueGet, bind. rewrite H1', H2', H3'. cbn. by rewrite Hq, Hx. }
  erewrite (bind_run _ _ _ _ _ (E (mkReception CFE_SUCCESS 0 (Some i) (SysQueueId (zget (PipeTbl s) i)) OS_CHECK) eq_refl eq_refl eq_refl)).
  eexists. split; [reflexivity|]. split; [by split|]. split; [done|]. intros k. sb_simpl. unfold hk_wrap.
  by destruct (decide (k = InternalErrorCounter)) as [->|].
Qed.

(** *** Deletion *)

Lemma detach_ok s id i who del s' :
  pipe_is s id i -> pipe_AppId (zget (PipeTbl s) i) = who -> DeletePipe_detach id who s = Some (del, s') ->
  del_Status del = CFE_SUCCESS.
Proof using.
  intros [El Ep] Ew. unfold DeletePipe_detach, CFE_SB_PipeDescIsMatch, CFE_ResourceId_Equal.
  rewrite bind_gets, El, Ep, Z.eqb_refl. cbn [negb]. unfold load_pipe at 1. rewrite bind_gets, Ew, Z.eqb_refl. cbn [negb].
  unfold bind. destruct (RemovePipeFromRoutes id s) as [[u s1]|]; [|done].
  destruct (load_pipe i s1) as [[p1 s2]|]; [|done]. destruct (CFE_SB_PipeDescSetUsed i _ s2) as [[u2 s3]|]; [|done].
  by intros [= <- _].
Qed.

(** The subscribers, from the destinations without those of a pipe. *)
Lemma subscribers_without s s' l D D' id :
  dests_inv s l D -> dests_inv s' l D' -> (forall j k, 0 <= j < 256 -> has_sub s' D' j k <-> has_sub s D j k /\ k <> id) ->
  forall m k, is_u32 m -> In k (subscribers s' m) <-> In k (subscribers s m) /\ k <> id.
Proof using.
  intros Hd Hd' Hs m k Hm. destruct (subscribers_spec s l D m Hd Hm) as (_ & _ & ->).
  destruct (subscribers_spec s' l D' m Hd' Hm) as (_ & _ & ->). unfold sub_of.
  pose proof (rep_room _ _ (di_routes _ _ _ Hd)) as Hroom. unfold CFE_PLATFORM_SB_MAX_MSG_IDS in Hroom. split.
  - intros (j & Hj & Ej & Hk). apply Hs in Hk as [Hk Hn]; [|lia]. split; [by exists j|done].
  - intros [(j & Hj & Ej & Hk) Hn]. exists j. split_and!; [lia..|done|]. apply Hs; [lia|done].
Qed.

Lemma subscribers_ext s s' m : dests s' = dests s -> routes s' = routes s -> subscribers s' m = subscribers s m.
Proof using. intros E1 E2. unfold subscribers. by rewrite E1, E2. Qed.

Definition deleted s s' (id i : Z) : Prop :=
  let p := zget (PipeTbl s) i in
  PipeTbl s' = zset (PipeTbl s) i (pipe_set_PipeId p CFE_RESOURCEID_UNDEFINED)
  /\ (forall k, queues s' !! k = if decide (k = SysQueueId p) then None else queues s !! k)
  /\ (forall m k, is_u32 m -> In k (subscribers s' m) <-> In k (subscribers s m) /\ k <> id).

Lemma DeletePipeFull_eff s g id i who :
  inv s g -> pipe_is s id i -> pipe_AppId (zget (PipeTbl s) i) = who ->
  exists s', CFE_SB_DeletePipeFull OS_SUCCESS id who s = Some (CFE_SUCCESS, s') /\ inv s' g /\ deleted s s' id i.
Proof using HP HMsg.
  intros Hi Hp Ew. pose proof (inv_size _ _ Hi) as Hsz. pose proof (locate_range _ _ (proj1 Hp)) as Hir.
  unfold CFE_SB_DeletePipeFull.
  destruct (DeletePipe_detach_eff s g id who Hi) as (del & s1 & E1 & Hcase). rewrite (bind_run _ _ _ _ _ E1).
  pose proof (detach_ok s id i who del s1 Hp Ew E1) as Hs. destruct Hp as [El Ep].
  destruct Hcase as [[Hn _]|(j & zl & tl & l & D & D' & Edel & Elj & _ & _ & Hia & Hd1 & Hi1 & Et1 & Eq1 & Eb1 & Hsub)]; [done|].
  assert (j = i) as -> by congruence. set (p := zget (PipeTbl s) i) in *. rewrite Edel. cbn [del_Status del_Queue del_Buf].
  change (CFE_SUCCESS =? CFE_SUCCESS) with true. cbn iota. rewrite !bind_bind, bind_gets, bind_bind.
  rewrite (gadd_swap (gqueue _ _)), (gadd_swap (gslot i)), (gadd_swap (gslot i)) in Hi1.
  destruct (DeletePipe_drain_eff (S (queue_length s1 (SysQueueId p))) s1 _ _ _ Hi1 ltac:(lia))
    as (s2 & E2 & Hi2 & Et2 & Ed2 & Er2 & Eq2).
  rewrite (bind_run _ _ _ _ _ E2). destruct (QueueDelete_eff s2 _ _ Hi2) as [E3 Hi3]. rewrite (bind_run _ _ _ _ _ E3).
  destruct (DeletePipe_finish_eff _ _ (mkDeletion CFE_SUCCESS 0 (Some i) (SysQueueId p) (LastBuffer p)) i Hi3 eq_refl eq_refl)
    as (s4 & E4 & Hi4 & Et4 & Ed4 & Er4 & _ & Eq4).
  exists s4. split; [exact E4|]. split; [done|]. unfold deleted. fold p. sb_simpl. rewrite Et4, Et2, Et1, Eq4. split_and!.
  - rewrite zset_zset, zget_zset_eq by (by rewrite Hsz). done.
  - intros k. destruct (decide (k = SysQueueId p)) as [->|Hk]; [apply lookup_delete_eq|].
    rewrite lookup_delete_ne by done. by rewrite Eq2, Eq1.
  - intros m k Hm. rewrite (subscribers_ext s1 s4) by congruence.
    apply (subscribers_without s s1 l D D' id); try done. apply Hia.
Qed.

(** *** Creation *)

Definition created s s' c (depth q id i : Z) : Prop :=
  pipe_is s' id i /\ PipeId (zget (PipeTbl s) i) = CFE_RESOURCEID_UNDEFINED
  /\ SysQueueId (zget (PipeTbl s') i) = q /\ pipe_AppId (zget (PipeTbl s') i) = c_AppId c
  /\ LastBuffer (zget (PipeTbl s') i) = NULL
  /\ (forall j, 0 <= j < CFE_PLATFORM_SB_MAX_PIPES -> j <> i -> zget (PipeTbl s') j = zget (PipeTbl s) j)
  /\ queues s' = <[q := mkQueue depth []]> (queues s) /\ bufs s' = bufs s
  /\ (forall m, subscribers s' m = subscribers s m).

Lemma CreatePipe_eff s g c q depth :
  inv s g -> queues s !! q = None -> 0 < depth <= OS_QUEUE_MAX_DEPTH -> has_room s ->
  exists id i s', CFE_SB_CreatePipe c (OS_SUCCESS, q) true depth s = Some ((CFE_SUCCESS, Some id), s') /\ inv s' g
    /\ created s s' c depth q id i.
Proof using.
  intros Hi Hq Hd Hroom. pose proof (inv_size _ _ Hi) as Hsz. unfold CFE_SB_CreatePipe.
  destruct (CreatePipe_reserve_eff s g true depth Hi) as (cr & s1 & E1 & Hcase). rewrite (bind_run _ _ _ _ _ E1).
  destruct Hcase as [(_ & _ & Hn & _)|(Hs & i & Esl & El & E0 & Et1 & Hi1)]; [by destruct Hn|].
  pose proof (locate_range _ _ El) as Hir.
  destruct (CreatePipe_queue_eff s1 _ (OS_SUCCESS, q) depth cr Hi1 Hs) as (cr2 & s2 & E2 & Esl2 & Eid & Hcase);
    [intros _; rewrite Et1; by sb_simpl|]. rewrite (bind_run _ _ _ _ _ E2).
  assert (Hcr2 : cr_Status cr2 = CFE_SUCCESS /\ cr_Queue cr2 = q).
  { revert E2. unfold CreatePipe_queue, OS_QueueCreate, bind. rewrite (proj2 (Z.eqb_eq _ _) Hs).
    change (OS_SUCCESS =? OS_SUCCESS) with true. by intros [= <- _]. }
  destruct Hcr2 as [Hs2 Hq2]. destruct Hcase as [[Hn _]|(_ & _ & Et2 & Hi2)]; [done|]. rewrite gadd_swap in Hi2.
  destruct (CreatePipe_commit_eff s2 g c depth cr2 i Hi2 Hs2 ltac:(congruence) ltac:(congruence))
    as (s3 & E3 & Hi3 & Et3 & Eq3 & Ed3 & Eb3 & Er3).
  { rewrite Et2, Et1. sb_simpl. by rewrite zget_zset_eq by (by rewrite Hsz). }
  exists (cr_PipeId cr2), i, s3. split; [exact E3|]. split; [done|]. unfold created, pipe_is.
  rewrite Et3, Eq3, Eb3, Et2, Et1. sb_simpl. rewrite zset_zset, !zget_zset_eq by (by rewrite Hsz). split_and!; try done.
  - congruence.
  - intros j Hj Hne. rewrite zget_zset_ne by lia. done.
  - by rewrite Hq2.
  - intros m. apply subscribers_ext; rewrite ?Ed3, ?Er3, Et2, Et1; by sb_simpl.
Qed.

(** A pipe without a descriptor is subscribed to nothing. *)
Lemma unknown_pipe_subscribes_nothing s g id m :
  inv s g -> is_u32 m -> ~ pipe_live (PipeTbl s) id -> ~ In id (subscribers s m).
Proof using.
  intros (zl & tl & l & D & Hi) Hm Hn Hin. pose proof (in_dests _ _ _ _ _ _ Hi) as Hd.
  destruct (subscribers_spec s l D m Hd Hm) as (_ & _ & Hs). apply Hs in Hin as (j & _ & _ & a & d & _ & Ha & <-).
  by apply Hn, (di_pipe _ _ _ Hd a).
Qed.
End calls.
