(* ===== verification/SbTheorems.v ===== *)
(** * The software bus: theorems

    Every statement is about the worlds that can be reached from the state that
    [CFE_SB_EarlyInit] leaves: any number of tasks, with their calls interleaved
    section by section.  The memory pool is any implementation of
    [PoolBufLaws], in particular the one of [SbPool]; the message map either of
    those of [SbRoute]. *)

From S2P Require Import Prelude ResourceId SbRoute SbRouteProofs SbRouteTheorems SbModel SbApi SbLists SbInv SbDests SbWorld SbSend SbBroadcast SbBuffers SbPipes SbTable SbSubs SbSteps SbSafety SbCalls.

Lemma In_zget {A} `{Inhabited A} (l : list A) x : In x l -> exists i, 0 <= i < zlen l /\ zget l i = x.
Proof.
  intros (n & Hn)%list_elem_of_In%list_elem_of_lookup. exists (Z.of_nat n). pose proof (lookup_lt_Some _ _ _ Hn).
  unfold zlen, zget. rewrite Nat2Z.id, (list_lookup_total_correct _ _ _ Hn). split; [lia|done].
Qed.

Lemma flat_map_none {A B} (f : A -> list B) l : (forall x, In x l -> f x = []) -> flat_map f l = [].
Proof.
  induction l as [|x l IH]; [done|]. intros Hf. cbn. rewrite (Hf x), IH; [done| |by left]. intros y Hy. apply Hf. by right.
Qed.

(** The reference to a buffer that a call in progress holds. *)
Definition call_ref {Msg} (x : activity Msg) : list Z :=
  match x with
  | Filling _ _ _ a _ | Sending _ _ a _ | Owning a => [a]
  | Received _ _ a | Releasing _ a => if a =? NULL then [] else [a]
  | _ => []
  end.

Lemma share_refs {Msg} (x : activity Msg) : g_refs (share x) = call_ref x.
Proof.
  destruct x; cbn; try done.
  - by destruct zero.
  - unfold gref. by destruct (a =? NULL).
  - by destruct (cr_slot cr).
  - destruct (cr_slot cr), (cr_Status cr =? CFE_SUCCESS); done.
  - unfold gref. destruct (del_slot del), (a =? NULL); done.
  - by destruct (del_slot del).
  - by destruct (del_slot del).
  - destruct (del_Status del =? CFE_SUCCESS), (del_slot del); done.
Qed.

Lemma g_refs_app g1 g2 : g_refs (gadd g1 g2) ≡ₚ g_refs g1 ++ g_refs g2.
Proof. unfold g_refs. cbn. solve_Permutation. Qed.

Lemma shares_refs {Msg} (xs : list (activity Msg)) : g_refs (shares xs) ≡ₚ flat_map call_ref xs.
Proof.
  induction xs as [|x xs IH]; [done|]. cbn [shares foldr flat_map]. by rewrite g_refs_app, share_refs, IH.
Qed.

Section theorems.
Context {P M Msg : Type} `{HP : PoolBufLaws P} `{HMap : RouteMapLaws M} `{HMsg : SbPlatformLaws Msg}.
Local Abbreviation sb := (sb P M Msg).
Local Abbreviation world := (world P M Msg).
Implicit Types (s : sb) (w : world) (c : caller).

Definition sb_reachable w : Prop :=
  exists p s0 s, pool_rep p ∅ /\ CFE_SB_EarlyInit OS_SUCCESS (CFE_SUCCESS, p) s0 = Some (CFE_SUCCESS, s)
    /\ reaches (mkWorld s []) w.

Lemma reachable_winv w : sb_reachable w -> winv w.
Proof using HP HMap HMsg.
  intros (p & s0 & s & Hp & E & Hr). rewrite EarlyInit_run in E. injection E as <-.
  eapply reaches_winv; [|exact Hr]. by apply init_winv.
Qed.

Lemma sb_reachable_inv w : sb_reachable w -> inv (w_sb w) (shares (w_acts w)).
Proof using HP HMap HMsg. intros Hw. apply (reachable_winv w Hw). Qed.

(** All references to buffers: those of calls, of queued messages and of the
    last buffer of every pipe. *)
Definition references w : list Z :=
  flat_map call_ref (w_acts w) ++ all_items (queues (w_sb w)) ++ lasts (PipeTbl (w_sb w)).


(** C1. Reference counting is exact.  The buffers that exist are those with a
    reference in a call in progress, in a queue or in a pipe descriptor; the use
    count of each is the number of these references and stays between 1 and
    [CFE_PLATFORM_SB_MAX_DEST_PER_PKT]; and the telemetry for buffers and memory
    in use is the number of buffers and the sum of the sizes of all blocks. *)
Theorem use_counts_exact w :
  sb_reachable w ->
  let s := w_sb w in
  (forall a, is_Some (bufs s !! a) <-> In a (references w))
  /\ (forall a d, bufs s !! a = Some d ->
        UseCount d = Z.of_nat (occurs (references w) a) /\ 1 <= UseCount d <= CFE_PLATFORM_SB_MAX_DEST_PER_PKT)
  /\ StatTlm s SBBuffersInUse = u32 (Z.of_nat (size (bufs s)))
  /\ StatTlm s MemInUse = u32 (total (live s)).
Proof using HP HMap HMsg.
  intros Hw s. destruct (sb_reachable_inv w Hw) as (zl & tl & l & D & Hi). fold s in Hi.
  assert (Hp : refs s (g_refs (shares (w_acts w))) ≡ₚ references w).
  { unfold refs, references. by rewrite shares_refs. }
  pose proof (core_perm _ _ _ _ _ _ Hp (in_core _ _ _ _ _ _ Hi)) as Hc. split_and!; try apply Hc.
  - intros a. split; [|by apply Hc]. intros [d Hd]. destruct (co_count _ _ _ _ _ Hc a d Hd) as [Hn Hpos].
    apply (count_occ_In Z.eq_dec). rewrite Hn in Hpos. lia.
  - intros a d Hd. destruct (co_count _ _ _ _ _ Hc a d Hd) as [Hn Hpos]. split_and!; [done..|].
    apply (in_bufs _ _ _ _ _ _ Hi a d Hd).
Qed.


(** *** Subscriptions *)

Lemma subscribers_of_subs s s' l l' D D' m id (ok : Prop) (Q : Prop -> Prop -> Prop) :
  dests_inv s l D -> dests_inv s' l' D' -> (forall A A' B, (A <-> A') -> Q A B <-> Q A' B) ->
  (forall m' k, sub_of s' l' D' m' k <-> Q (sub_of s l D m' k) (ok /\ m' = m /\ k = id)) ->
  forall m', is_u32 m' ->
    NoDup (subscribers s' m') /\ zlen (subscribers s' m') <= CFE_PLATFORM_SB_MAX_DEST_PER_PKT
    /\ forall k, In k (subscribers s' m') <-> Q (In k (subscribers s m')) (ok /\ m' = m /\ k = id).
Proof using.
  intros Hd Hd' HQ Hs m' Hm. destruct (subscribers_spec s l D m' Hd Hm) as (_ & _ & H1').
  destruct (subscribers_spec s' l' D' m' Hd' Hm) as (H2' & H3' & H4'). split_and!; [done..|].
  intros k. rewrite H4', Hs. by apply HQ.
Qed.

(** Subscribing adds exactly one subscriber.  The locked section of
    [CFE_SB_SubscribeFull] succeeds only for an existing pipe of the caller, a
    valid message id and a valid scope.  On success the pipe is a subscriber of
    the message id (also when it was one before); otherwise, and for all other
    message ids and pipes, the subscribers are what they were.  They are always
    a set of at most [CFE_PLATFORM_SB_MAX_DEST_PER_PKT] pipes. *)
Theorem subscribe_adds w c m id lim scope :
  sb_reachable w -> is_u32 m ->
  exists st eid col s', Subscribe_locked c m id lim scope (w_sb w) = Some ((st, eid, col), s')
    /\ (st = CFE_SUCCESS -> may_subscribe (w_sb w) (c_AppId c) m id scope)
    /\ forall m', is_u32 m' ->
         NoDup (subscribers s' m') /\ zlen (subscribers s' m') <= CFE_PLATFORM_SB_MAX_DEST_PER_PKT
         /\ forall k, In k (subscribers s' m')
                      <-> In k (subscribers (w_sb w) m') \/ (st = CFE_SUCCESS /\ m' = m /\ k = id).
Proof using HP HMap HMsg.
  intros Hw Hm. destruct (sb_reachable_inv w Hw) as (zl & tl & l & D & Hi).
  destruct (Subscribe_locked_eff (w_sb w) _ zl tl l D c m id lim scope Hi Hm)
    as (st & eid & col & s' & l' & D' & E & Hi' & _ & Hmay & Hs).
  exists st, eid, col, s'. split_and!; [done..|].
  apply (subscribers_of_subs (w_sb w) s' l l' D D' m id (st = CFE_SUCCESS) or); [apply Hi|apply Hi'| |done].
  intros A A' B HA. by rewrite HA.
Qed.

(** C16. Unsubscribing removes exactly one subscriber.  The locked section of
    [CFE_SB_UnsubscribeFull] succeeds if and only if the pipe exists and belongs
    to the caller and the message id and scope are valid; the pipe is then no
    subscriber of the message id, and nothing else changes. *)
Theorem unsubscribe_removes w m id scope who :
  sb_reachable w -> is_u32 m ->
  exists st eid s', Unsubscribe_locked m id scope who (w_sb w) = Some ((st, eid), s')
    /\ (st = CFE_SUCCESS <-> may_subscribe (w_sb w) who m id scope)
    /\ forall m', is_u32 m' ->
         NoDup (subscribers s' m') /\ zlen (subscribers s' m') <= CFE_PLATFORM_SB_MAX_DEST_PER_PKT
         /\ forall k, In k (subscribers s' m')
                      <-> In k (subscribers (w_sb w) m') /\ ~ (st = CFE_SUCCESS /\ m' = m /\ k = id).
Proof using HP HMap HMsg.
  intros Hw Hm. destruct (sb_reachable_inv w Hw) as (zl & tl & l & D & Hi).
  destruct (Unsubscribe_locked_eff (w_sb w) _ zl tl l D m id scope who Hi Hm)
    as (st & eid & s' & D' & E & Hi' & _ & Hmay & Hs).
  exists st, eid, s'. split_and!; [done..|].
  apply (subscribers_of_subs (w_sb w) s' l l D D' m id (st = CFE_SUCCESS) (fun A B => A /\ ~ B)); [apply Hi|apply Hi'| |done].
  intros A A' B HA. by rewrite HA.
Qed.

(** *** Messages *)

(** C15. A broadcast reaches every recipient once.  When a task sends buffer [a]
    on route [r], in any interleaving, the recipients are distinct queues, at
    most [CFE_PLATFORM_SB_MAX_DEST_PER_PKT]; the section appends the buffer to
    each of them and to no other queue.  The buffer then has one reference per
    recipient, or is freed if there is none, and no other buffer changes. *)
Theorem broadcast_delivers w n c zero a r forced created :
  sb_reachable w -> w_acts w !! n = Some (Sending c zero a r) ->
  let s := w_sb w in
  let ts := recipients s (c_AppId c) forced r in
  exists d errs s', bufs s !! a = Some d
    /\ exec (Advance n forced created) w = Some (mkWorld s' (Reporting c a errs :: delete n (w_acts w)))
    /\ NoDup ts /\ zlen ts <= CFE_PLATFORM_SB_MAX_DEST_PER_PKT /\ (forall q, In q ts -> is_Some (queues s !! q))
    /\ (forall q, queues s' !! q = delivered_to a ts q <$> queues s !! q)
    /\ bufs s' !! a = (if zlen ts =? 0 then None
                       else Some (set_UseCount (set_AppId (set_Content d (sequenced s r d)) CFE_ES_APPID_UNDEFINED) (zlen ts)))
    /\ (forall b, b <> a -> bufs s' !! b = bufs s !! b).
Proof using HP HMap HMsg.
  intros Hw Hn s ts. destruct (winv_split w n _ (reachable_winv w Hw) Hn) as (Hi & Hr & _). fold s in Hi. cbn [share call_ok] in *.
  pose proof Hi as (zl & tl & l & D & Hia). destruct (own_share _ _ _ _ _ _ _ _ Hia) as (_ & d & Hd).
  destruct (Broadcast_share s _ zero a zl tl l D d c forced r Hia Hd Hr) as (s' & E & _ & _ & Hb & Ha & Hq & _).
  assert (Ets : targets s (c_AppId c) forced (dests_of D r) = ts).
  { unfold ts, recipients. by rewrite (route_dests_eq s l D r (in_dests _ _ _ _ _ _ Hia) Hr). }
  rewrite Ets in *. destruct (recipients_spec s _ (c_AppId c) forced r Hi Hr) as (Hnd & Hlen & Hqs).
  exists d. eexists _, s'. split; [done|]. split; [|done].
  cbn [exec]. unfold on_call. rewrite Hn. cbn [advance]. fold s. by rewrite (bind_run _ _ _ _ _ E).
Qed.

(** Messages arrive in order and without copies.  [CFE_SB_ReceiveBuffer] on
    an existing pipe with queued messages and any legal timeout takes the first
    one: it leaves the rest of the queue, returns the address of the message in
    its buffer, which stays alive with its content, as the last buffer of the
    pipe, and gives up the buffer of the call before. *)
Theorem receive_takes_first w id i to q x rest :
  sb_reachable w -> pipe_is (w_sb w) id i -> good_timeout to ->
  queues (w_sb w) !! SysQueueId (zget (PipeTbl (w_sb w)) i) = Some q -> q_items q = x :: rest ->
  exists s' d d', CFE_SB_ReceiveBuffer OS_SUCCESS true id to (w_sb w) = Some (Some (CFE_SUCCESS, content_ptr x), s')
    /\ queues s' = <[SysQueueId (zget (PipeTbl (w_sb w)) i) := mkQueue (q_depth q) rest]> (queues (w_sb w))
    /\ LastBuffer (zget (PipeTbl s') i) = x
    /\ bufs (w_sb w) !! x = Some d /\ bufs s' !! x = Some d' /\ d' = set_UseCount d (UseCount d')
    /\ (forall b e', bufs s' !! b = Some e' -> exists e, bufs (w_sb w) !! b = Some e /\ Content e' = Content e).
Proof using HP HMap HMsg.
  intros Hw Hp Ht Hq Hx. pose proof (sb_reachable_inv w Hw) as Hi.
  destruct (ReceiveBuffer_takes (w_sb w) _ id i to q x rest Hi Hp Ht Hq Hx) as (s' & E & _ & Eq & [_ Hk] & Hkept & d' & Hd').
  destruct (Hkept x d' Hd') as (d & Hd & Ed). exists s', d, d'. split_and!; try done.
  - pose proof (locate_range _ _ (proj1 Hp)) as Hr. pose proof (inv_size _ _ Hi) as Hsz.
    specialize (Hk i). rewrite zlen_zset, Hsz, zget_zset_eq in Hk by (by rewrite Hsz). specialize (Hk Hr).
    unfold pipe_key in Hk. by injection Hk.
  - intros b e' He. destruct (Hkept b e' He) as (e & He' & ->). by exists e.
Qed.

(** C17. What is transmitted is received.  If [CFE_SB_TransmitMsg] succeeds and
    the empty queue of a pipe is among the recipients, the next
    [CFE_SB_ReceiveBuffer] on that pipe returns a buffer that holds the message:
    unchanged, or with the next sequence count of the route in telemetry for
    which the sender asks it. *)
Theorem transmit_receive w c forced msg inc s' id i q :
  sb_reachable w -> CFE_SB_TransmitMsg c forced (Some msg) inc (w_sb w) = Some (CFE_SUCCESS, s') ->
  pipe_is (w_sb w) id i -> queues (w_sb w) !! SysQueueId (zget (PipeTbl (w_sb w)) i) = Some q -> q_items q = [] ->
  forall r, CFE_SBR_GetRouteId (routes (w_sb w)) (CFE_MSG_GetMsgId msg) = Some r ->
  In (SysQueueId (zget (PipeTbl (w_sb w)) i)) (recipients (w_sb w) (c_AppId c) forced r) ->
  exists a s'' d, CFE_SB_ReceiveBuffer OS_SUCCESS true id CFE_SB_POLL s' = Some (Some (CFE_SUCCESS, content_ptr a), s'')
    /\ bufs s'' !! a = Some d
    /\ Content d = (if inc && (CFE_MSG_GetType msg =? CFE_MSG_Type_Tlm)
                    then CFE_MSG_SetSequenceCount msg
                           (CFE_MSG_GetNextSequenceCount (CFE_SBR_GetSequenceCounter (routes (w_sb w)) r))
                    else msg).
Proof using HP HMap HMsg.
  intros Hw Et Hp Hq Hx r Hr Hin. pose proof (sb_reachable_inv w Hw) as Hi. set (s := w_sb w) in *.
  destruct (TransmitMsg_eff s _ c forced msg inc Hi) as (st & s1 & l & D & E & Hi1 & Hd & [Hlen Hk] & Hcase).
  rewrite Et in E. injection E as <- <-. pose proof (inv_size _ _ Hi) as Hsz.
  assert (r = route_of l (CFE_MSG_GetMsgId msg)) as ->.
  { rewrite (GetRouteId_rep _ _ _ (di_routes _ _ _ Hd) (msgid_range msg)) in Hr. by injection Hr. }
  assert (Hv : CFE_SBR_IsValidRouteId (route_of l (CFE_MSG_GetMsgId msg)) = true).
  { destruct (CFE_SBR_IsValidRouteId _) eqn:Ev; [done|]. unfold recipients, route_dests, CFE_SBR_GetDestListHeadPtr in Hin.
    rewrite Ev in Hin. done. }
  destruct Hcase as [(_ & _ & Hn)|(_ & a & n & _ & [Hqs _] & Hb)]; [by rewrite (Hn eq_refl) in Hv|].
  set (ts := recipients _ _ _ _) in *. pose proof Hp as [El Ep]. pose proof (locate_range _ _ El) as Hir.
  assert (Hkey : pipe_key (zget (PipeTbl s') i) = pipe_key (zget (PipeTbl s) i)) by (apply Hk; by rewrite Hsz).
  unfold pipe_key in Hkey. injection Hkey as K1 K2 _.
  assert (Hq1 : queues s' !! SysQueueId (zget (PipeTbl s') i) = Some (mkQueue (q_depth q) [a])).
  { rewrite K2, Hqs, Hq. cbn. unfold delivered_to. rewrite (proj2 (existsb_exists _ _)); [by rewrite Hx|].
    exists (SysQueueId (zget (PipeTbl s) i)). by rewrite Z.eqb_refl. }
  destruct (ReceiveBuffer_takes s' _ id i CFE_SB_POLL (mkQueue (q_depth q) [a]) a [] Hi1) as (s2 & E2 & _ & _ & _ & Hkept & d2 & Hd2);
    [by split; [|congruence]|by right; left|done|done|].
  destruct (Hkept a d2 Hd2) as (d & Hda & Ed2). exists a, s2, d2. split_and!; [done..|].
  rewrite Ed2. cbn [Content set_UseCount]. rewrite Hb in Hda. destruct (zlen ts =? 0); [done|]. injection Hda as <-.
  unfold in_transit. cbn [Content set_UseCount set_AppId set_Content]. unfold sequenced. rewrite Hv.
  by unfold sent, filled; cbn.
Qed.

(** *** Pipes *)

(** A pipe can be created whenever there is a free slot: with a depth the
    operating system allows and a new queue, [CFE_SB_CreatePipe] succeeds, the
    new pipe gets a free slot, its own empty queue and the caller as owner, no
    other pipe or buffer changes, and the new id is a subscriber of no message,
    so that it does not inherit subscriptions of a pipe that had the slot. *)
Theorem create_pipe_succeeds w c q depth :
  sb_reachable w -> queues (w_sb w) !! q = None -> 0 < depth <= OS_QUEUE_MAX_DEPTH -> has_room (w_sb w) ->
  exists id i s', CFE_SB_CreatePipe c (OS_SUCCESS, q) true depth (w_sb w) = Some ((CFE_SUCCESS, Some id), s')
    /\ created (w_sb w) s' c depth q id i /\ (forall m, is_u32 m -> ~ In id (subscribers s' m)).
Proof using HP HMap HMsg.
  intros Hw Hq Hd Hroom. pose proof (sb_reachable_inv w Hw) as Hi.
  destruct (CreatePipe_eff (w_sb w) _ c q depth Hi Hq Hd Hroom) as (id & i & s' & E & _ & Hc).
  exists id, i, s'. split_and!; [done..|]. intros m Hm. destruct Hc as ([El _] & E0 & _ & _ & _ & _ & _ & _ & ->).
  apply (unknown_pipe_subscribes_nothing _ _ _ _ Hi Hm). unfold pipe_live. rewrite El, E0. intros <-.
  by rewrite locate_undefined in El.
Qed.

(** C18. Deleting a pipe removes all of it.  [CFE_SB_DeletePipeFull] by the owner
    ends and succeeds: the slot becomes free, the queue is deleted, the pipe is
    no longer a subscriber of any message, and all other pipes, queues and
    subscriptions stay. *)
Theorem delete_pipe_removes w id i who :
  sb_reachable w -> pipe_is (w_sb w) id i -> pipe_AppId (zget (PipeTbl (w_sb w)) i) = who ->
  exists s', CFE_SB_DeletePipeFull OS_SUCCESS id who (w_sb w) = Some (CFE_SUCCESS, s')
    /\ deleted (w_sb w) s' id i.
Proof using HP HMap HMsg.
  intros Hw Hp Ew. destruct (DeletePipeFull_eff (w_sb w) _ id i who (sb_reachable_inv w Hw) Hp Ew) as (s' & E & _ & Hd).
  by exists s'.
Qed.

(** *** Two defects *)

(** Polling an empty pipe is counted as an internal error, in every state.  The only effect
    of a poll that finds no message, on a pipe that holds no last buffer, is
    that the internal error counter goes up. *)
Theorem poll_empty_counts_error s id i q :
  pipe_is s id i -> LastBuffer (zget (PipeTbl s) i) = NULL ->
  queues s !! SysQueueId (zget (PipeTbl s) i) = Some q -> q_items q = [] ->
  exists s', CFE_SB_ReceiveBuffer OS_SUCCESS true id CFE_SB_POLL s = Some (Some (CFE_SB_NO_MESSAGE, NULL), s')
    /\ quiet s s' /\ events s' = events s
    /\ forall k, HKTlm s' k = if decide (k = InternalErrorCounter) then u8 (HKTlm s k + 1) else HKTlm s k.
Proof using. apply poll_empty. Qed.

(** What error events show of a buffer that does not exist. *)
Lemma events_of_freed c a errs : forall s, bufs s !! a = None ->
  exists shown s', Broadcast_events c a errs s = Some (shown, s') /\ Forall (fun x => x = None) shown.
Proof using.
  induction errs as [|[id eid] errs IH]; intros s Hn; cbn [Broadcast_events]; [by eexists [], s; split; [reflexivity|]|].
  destruct (reports_request (P := P) (M := M) (Msg := Msg) (c_Task c) (error_bit eid) s) as (granted & s1 & E1 & Q1).
  rewrite (bind_run _ _ _ _ _ E1). rewrite <- (qu_bufs _ _ Q1) in Hn. destruct granted.
  - rewrite !bind_bind. destruct (reports_pipe_name (P := P) (M := M) (Msg := Msg) true id s1) as (nm & s2 & E2 & Q2).
    rewrite (bind_run _ _ _ _ _ E2). rewrite <- (qu_bufs _ _ Q2) in Hn.
    unfold CFE_EVS_SendEventWithAppID. rewrite bind_bind, bind_gets, bind_bind, bind_modify, bind_bind.
    destruct (reports_finish (P := P) (M := M) (Msg := Msg) (c_Task c) (error_bit eid) (set_events (eid :: events s2) s2))
      as (u & s3 & E3 & Q3).
    rewrite (bind_run _ _ _ _ _ E3), bind_ret, Hn. destruct (IH s3) as (shown & s4 & E4 & Hs).
    { by rewrite (qu_bufs _ _ Q3). }
    rewrite (bind_run _ _ _ _ _ E4). eexists _, s4. split; [reflexivity|]. cbn. by constructor.
  - rewrite bind_ret. destruct (IH s1 Hn) as (shown & s4 & E4 & Hs). rewrite (bind_run _ _ _ _ _ E4).
    by eexists _, s4.
Qed.

(** Error events read freed memory.  When a message has destinations but
    no queue accepts it, the locked section of [CFE_SB_BroadcastBufferToRoute]
    frees the buffer, and every error event sent afterwards reads the message id
    from a descriptor that no longer exists. *)
Theorem error_events_read_freed w n c zero a r forced :
  sb_reachable w -> w_acts w !! n = Some (Sending c zero a r) ->
  recipients (w_sb w) (c_AppId c) forced r = [] ->
  exists shown s', CFE_SB_BroadcastBufferToRoute c forced a r (w_sb w) = Some (shown, s')
    /\ Forall (fun x => x = None) shown.
Proof using HP HMap HMsg.
  intros Hw Hn Hr0. destruct (winv_split w n _ (reachable_winv w Hw) Hn) as (Hi & Hr & _). cbn [share call_ok] in *.
  pose proof Hi as (zl & tl & l & D & Hia). destruct (own_share _ _ _ _ _ _ _ _ Hia) as (_ & d & Hd).
  destruct (Broadcast_share _ _ zero a zl tl l D d c forced r Hia Hd Hr) as (s' & E & _ & _ & _ & Ha & _).
  unfold recipients in Hr0. rewrite (route_dests_eq _ l D r (in_dests _ _ _ _ _ _ Hia) Hr) in Hr0. rewrite Hr0 in Ha.
  unfold CFE_SB_BroadcastBufferToRoute. rewrite (bind_run _ _ _ _ _ E). by apply events_of_freed.
Qed.
End theorems.
