(* ===== verification/SbDemo.v ===== *)
(** * The software bus: a concrete system

    Witnesses for [SbTheorems]: the software bus on a memory pool of Executive
    Services, with the hashed message map and messages that consist of the header
    fields the bus reads.  Worlds are reached by running lists of actions. *)

From S2P Require Import Prelude ResourceId GenPool GenPoolInit GenPoolProofs DirectStorage GenPoolOps GenPoolTheorems MemPool SbRoute SbRouteProofs SbRouteTheorems SbModel SbApi SbLists SbInv SbPool SbDests SbWorld SbSend SbBroadcast SbBuffers SbPipes SbTable SbSubs SbSteps SbSafety SbCalls SbTheorems.

(** ** Messages *)

Record demo_msg := mkMsg { dm_id : Z; dm_size : Z; dm_type : Z; dm_seq : Z }.

#[export] Instance demo_platform : SbPlatform demo_msg := {
  CFE_MSG_GetMsgId m := u32 (dm_id m);
  CFE_MSG_GetSize m := Z.max 0 (dm_size m);
  CFE_MSG_GetType := dm_type;
  CFE_MSG_SetSequenceCount m n := mkMsg (dm_id m) (dm_size m) (dm_type m) n;
  CFE_MSG_GetNextSequenceCount n := (n + 1) mod 2 ^ 14;
  stale_content := mkMsg 0 0 0 0;
  cleared_content n := mkMsg 0 n 0 0;
  subscription_report m p q := mkMsg 0x80e 32 CFE_MSG_Type_Tlm 0;
  CFE_SB_BUFFERD_CONTENT_OFFSET := 64;
  sizeof_DestinationD := 48;
  CFE_MISSION_SB_MAX_SB_MSG_SIZE := 32768
}.

#[export] Instance demo_platform_laws : SbPlatformLaws demo_msg.
Proof.
  split; cbn [CFE_SB_BUFFERD_CONTENT_OFFSET sizeof_DestinationD CFE_MISSION_SB_MAX_SB_MSG_SIZE CFE_MSG_GetSize CFE_MSG_GetMsgId demo_platform]; try lia.
  intros m. apply u32_range.
Qed.

(** ** The pool: 2,000 bytes of memory, blocks of 48 and 128 bytes *)

Definition sb_memory : es_pools := mk_es_pools (replicate 10 zero_mempool) CFE_ES_POOLID_BASE (replicate 2100 0).

Definition sb_create := CFE_ES_PoolCreateEx demo_env true 100 2000 2 (Some [128; 48]) false sb_memory.
Definition sb_demo_pool : sb_pool := mkSbPool (snd sb_create) (default 0 (snd (fst sb_create))).

Lemma sb_memory_ready : table_ready sb_memory.
Proof.
  constructor; try (vm_compute; first [reflexivity|split; congruence]).
  exists 0. split; [vm_compute; split; congruence|reflexivity].
Qed.

Lemma sb_demo_backs : pool_rep sb_demo_pool ∅.
Proof.
  destruct (PoolCreateEx_eff demo_env 100 2000 [128; 48] sb_memory sb_memory_ready
    ltac:(vm_compute; repeat split; congruence) ltac:(vm_compute; repeat split; congruence)
    ltac:(cbn; lia) ltac:(repeat constructor; lia)
    ltac:(split; [right; exists 4; split; [lia|reflexivity]|vm_compute; split; congruence]) false ltac:(done))
    as (h & i & k & es1 & E & HL & Hb & Hm).
  unfold sb_demo_pool, sb_create. change 2 with (zlen [128; 48]). rewrite E. cbn [fst snd default from_option]. unfold id.
  apply (created_backs es1 h i k HL); rewrite Hb, ?Hm; lia.
Qed.

(** ** Running actions *)

Definition demo_world := world sb_pool Hash.t demo_msg.

Definition allowedb (w : demo_world) (a : action demo_msg) : bool :=
  match a with
  | Allocate c size => (0 <=? size) && negb (c_AppId c =? CFE_ES_APPID_UNDEFINED)
  | Receive id _ => negb (existsb (Z.eqb id) (receivers (w_acts w)))
  | Subscribe _ m _ _ _ | Unsubscribe m _ _ _ => (0 <=? m) && (m <? 2 ^ 32)
  | Advance n _ created => match queues (w_sb w) !! snd created with None => true | Some _ => false end
  | _ => true
  end.

Lemma allowedb_ok w a : allowedb w a = true -> allowed w a.
Proof.
  destruct a; cbn [allowedb allowed]; try done.
  - intros [H1 H2]%andb_true_iff. apply Z.leb_le in H1. apply negb_true_iff, Z.eqb_neq in H2. done.
  - intros H1 Hin. apply negb_true_iff in H1. revert H1. apply not_false_iff_true, existsb_exists.
    exists id. by rewrite Z.eqb_refl.
  - intros [H1 H2]%andb_true_iff. range.
  - intros [H1 H2]%andb_true_iff. range.
  - destruct (queues (w_sb w) !! snd created); done.
Qed.

Fixpoint run (acts : list (action demo_msg)) (w : demo_world) : option demo_world :=
  match acts with
  | [] => Some w
  | a :: acts' =>
      if allowedb w a then match exec a w with Some w' => run acts' w' | None => None end else None
  end.

Definition sb_start : demo_world := mkWorld (sb_init sb_demo_pool) [].
Definition after (acts : list (action demo_msg)) : demo_world := default sb_start (run acts sb_start).

Lemma run_reaches w0 : forall acts w w', reaches w0 w -> run acts w = Some w' -> reaches w0 w'.
Proof.
  induction acts as [|a acts IH]; intros w w' Hr; cbn [run]; [by intros [= <-]|].
  destruct (allowedb w a) eqn:Ha; [|done]. destruct (exec a w) as [w1|] eqn:E; [|done].
  apply IH. eapply reaches_step; [done|by apply allowedb_ok|done].
Qed.

Lemma after_reachable acts : sb_reachable (after acts).
Proof.
  exists sb_demo_pool, (sb_init sb_demo_pool), (sb_init sb_demo_pool). split; [apply sb_demo_backs|].
  split; [apply EarlyInit_run|]. unfold after. fold sb_start. destruct (run acts sb_start) as [w|] eqn:E; cbn.
  - by apply (run_reaches sb_start acts sb_start); [constructor|].
  - constructor.
Qed.

(** ** Scenarios *)

Definition app : caller := mkCaller CFE_SUCCESS 0x110001 (Some 1).
Definition ok : Z -> Z := fun _ => OS_SUCCESS.
Definition go (n : nat) : action demo_msg := Advance n ok (OS_SUCCESS, 0x999).
Definition msg1 : demo_msg := mkMsg 0x1801 32 CFE_MSG_Type_Tlm 0.

(** A pipe of depth 2 with queue 7, subscribed to message 0x1801. *)
Definition pipe1 : Z := 0x160001.
Definition setup : list (action demo_msg) :=
  [Create app 2; Advance 0 ok (OS_SUCCESS, 7); go 0; Subscribe app 0x1801 pipe1 4 CFE_SB_MSG_GLOBAL].
Definition sending : list (action demo_msg) := setup ++ [Transmit app msg1 true; go 0; go 0].
Definition sent_one : list (action demo_msg) := sending ++ [go 0; go 0].

Ltac by_vm := vm_compute; reflexivity.


(** The pipe holds the first message as its last buffer and queues a second one. *)
Definition two_messages : list (action demo_msg) :=
  sent_one ++ [Receive pipe1 CFE_SB_POLL; go 0; go 0; Transmit app msg1 true; go 0; go 0; go 0; go 0].

Lemma use_counts_exact_witness :
  references (after two_messages) = [372; 212]
  /\ forall d, bufs (w_sb (after two_messages)) !! 212 = Some d -> UseCount d = 1.
Proof.
  assert (E : references (after two_messages) = [372; 212]) by by_vm. split; [exact E|]. intros d Hd.
  pose proof (proj1 (proj2 (use_counts_exact (after two_messages) (after_reachable two_messages))) 212 d Hd) as [Hu _].
  rewrite E in Hu. exact Hu.
Defined.

(** The pipe is deleted while a message is queued. *)
Definition deleting : list (action demo_msg) :=
  two_messages ++ [Delete pipe1 0x110001; go 0; go 0; go 0; go 0; go 0; go 0].

Lemma dead_slots (w : demo_world) :
  zlen (PipeTbl (w_sb w)) = 64 -> forallb (fun p => PipeId p =? 0) (PipeTbl (w_sb w)) = true ->
  forall i, 0 <= i < CFE_PLATFORM_SB_MAX_PIPES -> PipeId (zget (PipeTbl (w_sb w)) i) = CFE_RESOURCEID_UNDEFINED.
Proof.
  intros Hsz Hall i Hi. rewrite forallb_forall in Hall. apply Z.eqb_eq, Hall, zget_In. by rewrite Hsz.
Qed.


Lemma subscribe_adds_witness :
  exists st eid col s', Subscribe_locked app 0x1802 pipe1 4 0 (w_sb (after setup)) = Some ((st, eid, col), s')
    /\ st = CFE_SUCCESS /\ In pipe1 (subscribers s' 0x1802) /\ In pipe1 (subscribers s' 0x1801).
Proof.
  destruct (subscribe_adds (after setup) app 0x1802 pipe1 4 0 (after_reachable setup) ltac:(range))
    as (st & eid & col & s' & E & _ & Hs).
  exists st, eid, col, s'. split; [exact E|].
  assert (Hst : Some st = option_map (fun r => fst (fst (fst r))) (Subscribe_locked app 0x1802 pipe1 4 0 (w_sb (after setup))))
    by (rewrite E; reflexivity).
  assert (st = CFE_SUCCESS) as -> by (vm_compute in Hst; injection Hst as Hst; exact Hst).
  split; [reflexivity|]. destruct (Hs 0x1802 ltac:(range)) as (_ & _ & H2). destruct (Hs 0x1801 ltac:(range)) as (_ & _ & H1).
  split; [apply H2; right; split; [reflexivity|split; reflexivity]|]. apply H1. left. vm_compute. left. reflexivity.
Defined.

Lemma unsubscribe_removes_witness :
  exists st eid s', Unsubscribe_locked 0x1801 pipe1 0 0x110001 (w_sb (after setup)) = Some ((st, eid), s')
    /\ In pipe1 (subscribers (w_sb (after setup)) 0x1801) /\ ~ In pipe1 (subscribers s' 0x1801).
Proof.
  destruct (unsubscribe_removes (after setup) 0x1801 pipe1 0 0x110001 (after_reachable setup) ltac:(range))
    as (st & eid & s' & E & Hok & Hs).
  exists st, eid, s'. split; [exact E|]. split; [vm_compute; left; reflexivity|].
  assert (st = CFE_SUCCESS) as ->.
  { apply Hok. exists 1. split; [by_vm|]. split; [by_vm|]. split; [by_vm|]. split; [by_vm|lia]. }
  intros Hin. apply (Hs 0x1801 ltac:(range)) in Hin as [_ Hn]. apply Hn. split; [reflexivity|split; reflexivity].
Defined.

Lemma broadcast_delivers_witness :
  recipients (w_sb (after sending)) 0x110001 ok 1 = [7]
  /\ exists s' acts, exec (go 0) (after sending) = Some (mkWorld s' acts)
       /\ queues s' !! 7 = Some (mkQueue 2 [212]).
Proof.
  assert (Hr : recipients (w_sb (after sending)) 0x110001 ok 1 = [7]) by by_vm. split; [exact Hr|].
  destruct (broadcast_delivers (after sending) 0 app false 212 1 ok (OS_SUCCESS, 0x999)
    (after_reachable sending) ltac:(by_vm)) as (d & errs & s' & _ & E & _ & _ & _ & Hq & _).
  exists s'. eexists. split; [exact E|]. rewrite Hq. cbn [c_AppId app]. rewrite Hr. by_vm.
Defined.

Lemma pipe1_is acts : CFE_SB_LocatePipeDescByID pipe1 = Some 1 -> PipeId (zget (PipeTbl (w_sb (after acts))) 1) = pipe1 ->
  pipe_is (w_sb (after acts)) pipe1 1.
Proof. by split. Qed.

Lemma receive_takes_first_witness :
  exists s', CFE_SB_ReceiveBuffer OS_SUCCESS true pipe1 CFE_SB_POLL (w_sb (after two_messages))
               = Some (Some (CFE_SUCCESS, content_ptr 372), s')
    /\ LastBuffer (zget (PipeTbl s') 1) = 372.
Proof.
  destruct (receive_takes_first (after two_messages) pipe1 1 CFE_SB_POLL (mkQueue 2 [372]) 372 []
    (after_reachable two_messages) (pipe1_is two_messages ltac:(by_vm) ltac:(by_vm)) (or_intror (or_introl eq_refl))
    ltac:(by_vm) ltac:(by_vm)) as (s' & d & d' & E & _ & Hl & _).
  exists s'. exact (conj E Hl).
Defined.

Lemma transmit_receive_witness :
  exists s' a s'' d, CFE_SB_TransmitMsg app ok (Some msg1) true (w_sb (after setup)) = Some (CFE_SUCCESS, s')
    /\ CFE_SB_ReceiveBuffer OS_SUCCESS true pipe1 CFE_SB_POLL s' = Some (Some (CFE_SUCCESS, content_ptr a), s'')
    /\ bufs s'' !! a = Some d /\ Content d = mkMsg 0x1801 32 CFE_MSG_Type_Tlm 1.
Proof.
  destruct (CFE_SB_TransmitMsg app ok (Some msg1) true (w_sb (after setup))) as [[st s']|] eqn:E.
  2:{ exfalso. assert (X : option_map (fun _ => tt) (CFE_SB_TransmitMsg app ok (Some msg1) true (w_sb (after setup))) = Some tt)
        by by_vm. rewrite E in X. discriminate X. }
  assert (X : option_map fst (CFE_SB_TransmitMsg app ok (Some msg1) true (w_sb (after setup))) = Some CFE_SUCCESS) by by_vm.
  rewrite E in X. cbn in X. injection X as ->.
  destruct (transmit_receive (after setup) app ok msg1 true s' pipe1 1 (mkQueue 2 []) (after_reachable setup) E
    (pipe1_is setup ltac:(by_vm) ltac:(by_vm)) ltac:(by_vm) ltac:(by_vm) 1 ltac:(by_vm)
    ltac:(vm_compute; left; reflexivity)) as (a & s'' & d & E2 & Hd & Hc).
  exists s', a, s'', d. split; [reflexivity|]. split; [exact E2|]. split; [exact Hd|]. rewrite Hc. by_vm.
Defined.

Lemma create_pipe_succeeds_witness :
  exists id i s', CFE_SB_CreatePipe app (OS_SUCCESS, 8) true 5 (w_sb (after setup)) = Some ((CFE_SUCCESS, Some id), s')
    /\ pipe_is s' id i /\ ~ In id (subscribers s' 0x1801).
Proof.
  assert (Hroom : has_room (w_sb (after setup))).
  { exists 0. split; [split; [apply Z.le_refl|reflexivity]|by_vm]. }
  destruct (create_pipe_succeeds (after setup) app 8 5 (after_reachable setup) ltac:(by_vm)
    ltac:(split; [reflexivity|vm_compute; congruence]) Hroom) as (id & i & s' & E & Hc & Hn).
  exists id, i, s'. split; [exact E|]. split; [exact (proj1 Hc)|apply Hn; range].
Defined.

Lemma delete_pipe_removes_witness :
  exists s', CFE_SB_DeletePipeFull OS_SUCCESS pipe1 0x110001 (w_sb (after two_messages)) = Some (CFE_SUCCESS, s')
    /\ ~ In pipe1 (subscribers s' 0x1801) /\ queues s' !! 7 = None.
Proof.
  destruct (delete_pipe_removes (after two_messages) pipe1 1 0x110001 (after_reachable two_messages)
    (pipe1_is two_messages ltac:(by_vm) ltac:(by_vm)) ltac:(by_vm)) as (s' & E & _ & Hq & Hs).
  exists s'. split; [exact E|]. split.
  - intros Hin. apply Hs in Hin as [_ Hn]; [exact (Hn eq_refl)|range].
  - rewrite Hq. by_vm.
Defined.

Lemma poll_empty_counts_error_witness :
  exists s', CFE_SB_ReceiveBuffer OS_SUCCESS true pipe1 CFE_SB_POLL (w_sb (after setup)) = Some (Some (CFE_SB_NO_MESSAGE, NULL), s')
    /\ HKTlm (w_sb (after setup)) InternalErrorCounter = 0 /\ HKTlm s' InternalErrorCounter = 1.
Proof.
  destruct (poll_empty_counts_error (w_sb (after setup)) pipe1 1 (mkQueue 2 [])
    (pipe1_is setup ltac:(by_vm) ltac:(by_vm)) ltac:(by_vm) ltac:(by_vm) ltac:(by_vm)) as (s' & E & _ & _ & Hk).
  exists s'. split; [exact E|]. split; [by_vm|]. rewrite Hk. by_vm.
Defined.

(** The queue is full when a third message is sent. *)
Definition overflowing : list (action demo_msg) :=
  sent_one ++ [Transmit app msg1 true; go 0; go 0; go 0; go 0; Transmit app msg1 true; go 0; go 0].

Lemma error_events_read_freed_witness :
  exists shown s', CFE_SB_BroadcastBufferToRoute app ok 532 1 (w_sb (after overflowing)) = Some (shown, s')
    /\ Forall (fun x => x = None) shown /\ shown = [None].
Proof.
  destruct (error_events_read_freed (after overflowing) 0 app false 532 1 ok (after_reachable overflowing)
    ltac:(by_vm) ltac:(by_vm)) as (shown & s' & E & Hs).
  exists shown, s'. split; [exact E|]. split; [exact Hs|].
  assert (X : option_map fst (CFE_SB_BroadcastBufferToRoute app ok 532 1 (w_sb (after overflowing))) = Some [None]) by by_vm.
  rewrite E in X. cbn in X. injection X as X. exact X.
Defined.
