(* ===== verification/EdsTypes.v ===== *)
(** The data type database of the EDS runtime library: the types of
    inc/edslib_database_types.h that the generated databases fill in, and the
    lookups of edslib_datatypedb_lookup.c.

    A C union becomes the record of its members: a database gives each entry
    the member its [BasicType] selects, and the code reads only that one.

    Memory, machine integers and bit strings of the EDS runtime library
    (tools/eds/edslib).

    The library reads and writes caller-supplied byte buffers through
    pointers of several widths ([EdsLib_GenericValueUnion_t]) and moves bits
    with shift operators.  A buffer is a list of octets, a pointer into it an
    index; an access outside the buffer, and a shift by more than the operand
    has bits, is a [Fault], so that a theorem which concludes [Ok] also says
    that the code performs none.  A loop that does not end within its fuel is
    a [Hang].  The machine's byte order is a parameter, as in the code
    ([EDSLIB_NATIVE_BYTEORDER]). *)

From S2P Require Import Prelude.

(** * Results *)

Inductive res (A : Type) : Type :=
| Ok (a : A)
| Fault
| Hang.
Arguments Ok {A} a.
Arguments Fault {A}.
Arguments Hang {A}.

#[global] Instance res_eq_dec {A} `{EqDecision A} : EqDecision (res A).
Proof. solve_decision. Defined.

Definition rbind {A B} (r : res A) (k : A -> res B) : res B :=
  match r with Ok a => k a | Fault => Fault | Hang => Hang end.

Declare Scope eds_scope.
Delimit Scope eds_scope with eds.
Notation "'let*' x := r 'in' k" := (rbind r (fun x => k))
  (at level 10, x pattern, r at level 100, k at level 200) : eds_scope.
#[global] Open Scope eds_scope.

(** * Octets *)

Definition is_octet (b : Z) : Prop := 0 <= b < 256.
Definition octets (m : list Z) : Prop := Forall is_octet m.

(** [*(p + i)] and [*(p + i) = v] on an octet buffer. *)
Definition rd (m : list Z) (i : Z) : res Z :=
  if (0 <=? i) && (i <? zlen m) then Ok (zget m i) else Fault.
Definition wr (m : list Z) (i v : Z) : res (list Z) :=
  if (0 <=? i) && (i <? zlen m) then Ok (zset m i (u8 v)) else Fault.

(** ** Integers in memory *)

Fixpoint le_bytes (n : nat) (v : Z) : list Z :=
  match n with
  | O => []
  | S n => v mod 256 :: le_bytes n (v / 256)
  end.
Fixpoint le_val (l : list Z) : Z :=
  match l with
  | [] => 0
  | b :: l => b + 256 * le_val l
  end.

(** The octets of an [n]-octet integer in the machine's order, and back. *)
Definition native_bytes (be : bool) (n : nat) (v : Z) : list Z :=
  if be then rev (le_bytes n v) else le_bytes n v.
Definition native_val (be : bool) (l : list Z) : Z :=
  le_val (if be then rev l else l).

(** The [n] octets at index [i], and their replacement. *)
Definition slice (m : list Z) (i : Z) (n : nat) : list Z :=
  take n (drop (Z.to_nat i) m).
Definition splice (m : list Z) (i : Z) (l : list Z) : list Z :=
  take (Z.to_nat i) m ++ l ++ drop (Z.to_nat i + length l) m.
Definition in_buf (m : list Z) (i : Z) (n : nat) : bool :=
  (0 <=? i) && (i + Z.of_nat n <=? zlen m).

(** [*(uintN_t * )(p + i)] and its assignment. *)
Definition ld (be : bool) (m : list Z) (i : Z) (n : nat) : res Z :=
  if in_buf m i n then Ok (native_val be (slice m i n)) else Fault.
Definition st (be : bool) (m : list Z) (i : Z) (n : nat) (v : Z) : res (list Z) :=
  if in_buf m i n then Ok (splice m i (native_bytes be n v)) else Fault.

(** [memcpy(d + di, s + si, n)] between two buffers, [memset(d + di, c, n)]. *)
Definition memcpy (d : list Z) (di : Z) (s : list Z) (si : Z) (n : nat) : res (list Z) :=
  if in_buf d di n && in_buf s si n then Ok (splice d di (slice s si n)) else Fault.
Definition memset (d : list Z) (di c : Z) (n : nat) : res (list Z) :=
  if in_buf d di n then Ok (splice d di (replicate n (u8 c))) else Fault.

(** The signed reading of a [w]-bit word, and the conversion to it. *)
Definition sgn (w x : Z) : Z :=
  let y := x mod 2 ^ w in if y <? 2 ^ (w - 1) then y else y - 2 ^ w.

(** [(uintW_t)(x << s)] and [x >> s]: the C operators are undefined when the
    amount reaches the width of the promoted operand (at least 32 bits). *)
Definition shl (w x s : Z) : res Z :=
  if (0 <=? s) && (s <? Z.max w 32) then Ok (Z.shiftl x s mod 2 ^ w) else Fault.
Definition shr (w x s : Z) : res Z :=
  if (0 <=? s) && (s <? Z.max w 32) then Ok (Z.shiftr x s) else Fault.

(** * Bit strings

    [bits n v]: the low [n] bits of [v], most significant first;
    [flat m]: the bits of a buffer in the order in which a packed object is
    read. *)

Fixpoint bits (n : nat) (v : Z) : list bool :=
  match n with
  | O => []
  | S n => Z.testbit v (Z.of_nat n) :: bits n v
  end.
Definition flat (m : list Z) : list bool := List.flat_map (bits 8) m.

Inductive EdsLib_BasicType_t :=
| EDSLIB_BASICTYPE_NONE
| EDSLIB_BASICTYPE_SIGNED_INT
| EDSLIB_BASICTYPE_UNSIGNED_INT
| EDSLIB_BASICTYPE_FLOAT
| EDSLIB_BASICTYPE_BINARY
| EDSLIB_BASICTYPE_CONTAINER
| EDSLIB_BASICTYPE_ARRAY
| EDSLIB_BASICTYPE_COMPONENT
| EDSLIB_BASICTYPE_MAX.

Inductive EdsLib_NumberByteOrder_Enum_t :=
| EDSLIB_NUMBERBYTEORDER_UNDEFINED
| EDSLIB_NUMBERBYTEORDER_BIG_ENDIAN
| EDSLIB_NUMBERBYTEORDER_LITTLE_ENDIAN.

Inductive EdsLib_NumberEncoding_Enum_t :=
| EDSLIB_NUMBERENCODING_UNDEFINED
| EDSLIB_NUMBERENCODING_UNSIGNED_INTEGER
| EDSLIB_NUMBERENCODING_SIGN_MAGNITUDE
| EDSLIB_NUMBERENCODING_ONES_COMPLEMENT
| EDSLIB_NUMBERENCODING_TWOS_COMPLEMENT
| EDSLIB_NUMBERENCODING_BCD_OCTET
| EDSLIB_NUMBERENCODING_BCD_PACKED
| EDSLIB_NUMBERENCODING_IEEE_754
| EDSLIB_NUMBERENCODING_MILSTD_1750A.

Inductive EdsLib_EntryType_t :=
| EDSLIB_ENTRYTYPE_DEFAULT
| EDSLIB_ENTRYTYPE_BASE_TYPE
| EDSLIB_ENTRYTYPE_ARRAY_ELEMENT
| EDSLIB_ENTRYTYPE_CONTAINER_ENTRY
| EDSLIB_ENTRYTYPE_CONTAINER_PADDING_ENTRY
| EDSLIB_ENTRYTYPE_CONTAINER_LIST_ENTRY
| EDSLIB_ENTRYTYPE_CONTAINER_FIXED_VALUE_ENTRY
| EDSLIB_ENTRYTYPE_CONTAINER_LENGTH_ENTRY
| EDSLIB_ENTRYTYPE_CONTAINER_ERROR_CONTROL_ENTRY
| EDSLIB_ENTRYTYPE_PROVIDED_INTERFACE
| EDSLIB_ENTRYTYPE_REQUIRED_INTERFACE
| EDSLIB_ENTRYTYPE_PARAMETER.

#[global] Instance EdsLib_BasicType_dec : EqDecision EdsLib_BasicType_t.
Proof. solve_decision. Defined.
#[global] Instance EdsLib_NumberByteOrder_dec : EqDecision EdsLib_NumberByteOrder_Enum_t.
Proof. solve_decision. Defined.
#[global] Instance EdsLib_NumberEncoding_dec : EqDecision EdsLib_NumberEncoding_Enum_t.
Proof. solve_decision. Defined.
#[global] Instance EdsLib_EntryType_dec : EqDecision EdsLib_EntryType_t.
Proof. solve_decision. Defined.

Record EdsLib_SizeInfo_t := SizeInfo {
  Bits : Z;
  Bytes : Z }.

Record EdsLib_DatabaseRef_t := DatabaseRef {
  AppIndex : Z;
  TypeIndex : Z }.

#[global] Instance EdsLib_DatabaseRef_dec : EqDecision EdsLib_DatabaseRef_t.
Proof. solve_decision. Defined.

Record EdsLib_NumberDescriptor_t := NumberDescriptor {
  Encoding : EdsLib_NumberEncoding_Enum_t;
  ByteOrder : EdsLib_NumberByteOrder_Enum_t;
  BitInvertFlag : Z;
  LsbFirstFlag : Z }.

Inductive EdsLib_ErrorControlType_t :=
| EdsLib_ErrorControlType_INVALID
| EdsLib_ErrorControlType_CHECKSUM
| EdsLib_ErrorControlType_CHECKSUM_LONGITUDINAL
| EdsLib_ErrorControlType_CRC8
| EdsLib_ErrorControlType_CRC16_CCITT
| EdsLib_ErrorControlType_CRC32
| EdsLib_ErrorControlType_MAX.

#[global] Instance EdsLib_ErrorControlType_dec : EqDecision EdsLib_ErrorControlType_t.
Proof. solve_decision. Defined.

(** The argument of a computed entry: the members that the library reads.
    [Reverse] is the function of the integer calibrator, or NULL. *)
Record EdsLib_HandlerArgument_t := HandlerArgument {
  ErrorControl : EdsLib_ErrorControlType_t;
  Reverse : option (Z -> Z);
  FixedString : list Z;
  FixedInteger : Z;
  FixedUnsigned : Z }.

Record EdsLib_FieldDetailEntry_t := FieldDetailEntry {
  EntryType : EdsLib_EntryType_t;
  Offset : EdsLib_SizeInfo_t;
  RefObj : EdsLib_DatabaseRef_t;
  HandlerArg : EdsLib_HandlerArgument_t }.

Record EdsLib_DerivativeEntry_t := DerivativeEntry {
  IdentSeqIdx : Z;
  Deriv_RefObj : EdsLib_DatabaseRef_t }.

Inductive EdsLib_IdentSequence_Enum_t :=
| EDSLIB_IDENT_SEQUENCE_INVALID
| EDSLIB_IDENT_SEQUENCE_ENTITY_LOCATION
| EDSLIB_IDENT_SEQUENCE_VALUE_CONDITION
| EDSLIB_IDENT_SEQUENCE_RANGE_CONDITION
| EDSLIB_IDENT_SEQUENCE_TYPE_CONDITION
| EDSLIB_IDENT_SEQUENCE_RESULT.

Record EdsLib_IdentSequenceEntry_t := IdentSequenceEntry {
  Ident_EntryType : EdsLib_IdentSequence_Enum_t;
  NextOperationLess : Z;
  NextOperationGreater : Z;
  ParentOperation : Z;
  RefIdx : Z }.

Record EdsLib_ConstraintEntity_t := ConstraintEntity {
  Constraint_Offset : EdsLib_SizeInfo_t;
  Constraint_RefObj : EdsLib_DatabaseRef_t }.

(** A reference value: a NUL terminated string or a 64-bit integer. *)
Record EdsLib_RefValue_t := RefValue {
  RV_String : list Z;
  RV_Integer : Z;
  RV_Unsigned : Z }.

(** [EntryList] has as many entries as the type has sub-elements. *)
Record EdsLib_ContainerDescriptor_t := ContainerDescriptor {
  MaxSize : EdsLib_SizeInfo_t;
  EntryList : list EdsLib_FieldDetailEntry_t;
  IdentSequenceBase : Z;
  DerivativeList : list EdsLib_DerivativeEntry_t;
  IdentSequenceList : option (list EdsLib_IdentSequenceEntry_t);
  ConstraintEntityList : list EdsLib_ConstraintEntity_t;
  ValueList : list EdsLib_RefValue_t }.

Record EdsLib_ArrayDescriptor_t := ArrayDescriptor {
  ElementRefObj : EdsLib_DatabaseRef_t }.

Record EdsLib_ObjectDetailDescriptor_t := ObjectDetailDescriptor {
  Container : EdsLib_ContainerDescriptor_t;
  Array : EdsLib_ArrayDescriptor_t;
  Number : EdsLib_NumberDescriptor_t }.

Record EdsLib_DataTypeDB_Entry_t := DataTypeDB_Entry {
  BasicType : EdsLib_BasicType_t;
  Flags : Z;
  NumSubElements : Z;
  SizeInfo_ : EdsLib_SizeInfo_t;
  Detail : EdsLib_ObjectDetailDescriptor_t }.

Definition EDSLIB_DATATYPE_FLAG_PACKED_BE : Z := 1.
Definition EDSLIB_DATATYPE_FLAG_PACKED_LE : Z := 2.
Definition EDSLIB_DATATYPE_FLAG_PACKED_MASK : Z := 3.

(** sizeof([EdsLib_GenericValueUnion_t]): EDSLIB_VALUEBUFFER_MAX_BINARY_SIZE. *)
Definition VALUEBUFFER_SIZE : Z := 32.

Definition EDSLIB_SUCCESS : Z := 0.
Definition EDSLIB_FAILURE : Z := -1.
Definition EDSLIB_INVALID_SIZE_OR_TYPE : Z := -3.
Definition EDSLIB_NO_MATCHING_VALUE : Z := -8.
Definition EDSLIB_INCOMPLETE_DB_OBJECT : Z := -5.
Definition EDSLIB_BUFFER_SIZE_ERROR : Z := -6.
Definition EDSLIB_INVALID_INDEX : Z := -7.
Definition EDSLIB_ERROR_CONTROL_MISMATCH : Z := -9.
Definition EDSLIB_FIELD_MISMATCH : Z := -10.

(** ** Lookup

    A registered application dictionary is its type table; an application
    index may have none ([NULL]). *)

Record EdsLib_App_DataTypeDB_t := App_DataTypeDB {
  MissionIdx : Z;
  DataTypeTable : list EdsLib_DataTypeDB_Entry_t }.
Definition EdsLib_DatabaseObject_t := list (option EdsLib_App_DataTypeDB_t).

Definition EdsLib_DataTypeDB_GetTopLevel (GD : EdsLib_DatabaseObject_t) (AppIdx : Z)
    : option EdsLib_App_DataTypeDB_t :=
  if AppIdx >=? zlen GD then None else zget GD AppIdx.

Definition EdsLib_DataTypeDB_GetEntry (GD : EdsLib_DatabaseObject_t) (r : EdsLib_DatabaseRef_t)
    : option EdsLib_DataTypeDB_Entry_t :=
  match EdsLib_DataTypeDB_GetTopLevel GD (AppIndex r) with
  | None => None
  | Some Dict =>
      if TypeIndex r >=? zlen (DataTypeTable Dict) then None
      else DataTypeTable Dict !! Z.to_nat (TypeIndex r)
  end.

(** ** Identifiers (inc/edslib_id.h)

    An identifier holds an application and a type index (and a CPU number,
    which the data type library ignores). *)

Definition EDSLIB_ID_INVALID : Z := 0.
Definition EDSLIB_ID_SHIFT_INDEX : Z := 0.
Definition EDSLIB_ID_SHIFT_APP : Z := 16.
Definition EDSLIB_ID_MASK_INDEX : Z := 0x3FF.
Definition EDSLIB_ID_MASK_APP : Z := 0x7F.

Definition EDSLIB_MAKE_ID (AppIdx FormatIdx : Z) : Z :=
  Z.lor (Z.shiftl (Z.land AppIdx EDSLIB_ID_MASK_APP) EDSLIB_ID_SHIFT_APP)
        (Z.shiftl (Z.land FormatIdx EDSLIB_ID_MASK_INDEX) EDSLIB_ID_SHIFT_INDEX).
Definition EdsLib_Get_AppIdx (EdsId : Z) : Z :=
  u16 (Z.land (Z.shiftr EdsId EDSLIB_ID_SHIFT_APP) EDSLIB_ID_MASK_APP).
Definition EdsLib_Get_FormatIdx (EdsId : Z) : Z :=
  u16 (Z.land (Z.shiftr EdsId EDSLIB_ID_SHIFT_INDEX) EDSLIB_ID_MASK_INDEX).
Definition EdsLib_Is_Valid (EdsId : Z) : bool :=
  negb (Z.land EdsId (Z.lor (Z.shiftl EDSLIB_ID_MASK_INDEX EDSLIB_ID_SHIFT_INDEX)
                            (Z.shiftl EDSLIB_ID_MASK_APP EDSLIB_ID_SHIFT_APP)) =? 0).

Definition EdsLib_Decode_StructId (EdsId : Z) : EdsLib_DatabaseRef_t :=
  DatabaseRef (EdsLib_Get_AppIdx EdsId) (EdsLib_Get_FormatIdx EdsId).
Definition EdsLib_Encode_StructId (r : option EdsLib_DatabaseRef_t) : Z :=
  match r with
  | None => EDSLIB_ID_INVALID
  | Some r => EDSLIB_MAKE_ID (AppIndex r) (TypeIndex r)
  end.

Lemma Decode_Encode r :
  0 <= AppIndex r < 128 -> 0 <= TypeIndex r < 1024 ->
  EdsLib_Decode_StructId (EdsLib_Encode_StructId (Some r)) = r.
Proof.
  destruct r as [a t]. cbn [AppIndex TypeIndex EdsLib_Encode_StructId]. intros Ha Ht.
  unfold EdsLib_Decode_StructId, EdsLib_Get_AppIdx, EdsLib_Get_FormatIdx, EDSLIB_MAKE_ID.
  change EDSLIB_ID_MASK_APP with (Z.ones 7). change EDSLIB_ID_MASK_INDEX with (Z.ones 10).
  change EDSLIB_ID_SHIFT_APP with 16. change EDSLIB_ID_SHIFT_INDEX with 0.
  rewrite Z.shiftl_0_r, Z.shiftr_0_r, (Z.land_ones a), (Z.land_ones t), (Z.mod_small a), (Z.mod_small t) by lia.
  unfold u16. f_equal.
  - rewrite Z.shiftr_lor, Z.shiftr_shiftl_l, Z.shiftl_0_r by lia.
    rewrite (Z.shiftr_div_pow2 t), (Z.div_small t), Z.lor_0_r, Z.land_ones by lia.
    rewrite (Z.mod_small a), Z.mod_small by lia. done.
  - rewrite Z.land_lor_distr_l, (Z.land_ones t), (Z.mod_small t), Z.land_ones, Z.shiftl_mul_pow2 by lia.
    replace (a * 2 ^ 16) with ((a * 2 ^ 6) * 2 ^ 10) by lia.
    rewrite Z.mod_mul, Z.lor_0_l by lia. apply Z.mod_small. lia.
Qed.

Lemma Decode_range id :
  0 <= AppIndex (EdsLib_Decode_StructId id) < 128 /\ 0 <= TypeIndex (EdsLib_Decode_StructId id) < 1024.
Proof.
  cbn [EdsLib_Decode_StructId AppIndex TypeIndex]. unfold EdsLib_Get_AppIdx, EdsLib_Get_FormatIdx, u16.
  change EDSLIB_ID_MASK_APP with (Z.ones 7). change EDSLIB_ID_MASK_INDEX with (Z.ones 10).
  rewrite !Z.land_ones by lia.
  pose proof (Z.mod_pos_bound (Z.shiftr id EDSLIB_ID_SHIFT_APP) (2 ^ 7) ltac:(lia)).
  pose proof (Z.mod_pos_bound (Z.shiftr id EDSLIB_ID_SHIFT_INDEX) (2 ^ 10) ltac:(lia)).
  rewrite !(Z.mod_small _ (2 ^ 16)) by lia. lia.
Qed.

(** An identifier and the one the library returns for the same type. *)
Lemma Decode_Encode_Decode id :
  EdsLib_Decode_StructId (EdsLib_Encode_StructId (Some (EdsLib_Decode_StructId id))) = EdsLib_Decode_StructId id.
Proof. destruct (Decode_range id) as [Ha Ht]. exact (Decode_Encode _ Ha Ht). Qed.
