(* ===== verification/EdsBits.v ===== *)
(** Lemmas on bit strings, octet buffers and integers in memory, shared by the
    proofs about the EDS runtime library. *)

From S2P Require Import Prelude.
From S2P Require Import EdsTypes.

(** * Bits of an integer *)

Lemma bits_length n v : length (bits n v) = n.
Proof. induction n; simpl; congruence. Qed.

(** A decidable statement about the numbers below a bound, by trying them. *)
Lemma exhaust (n : nat) (f : Z -> bool) :
  forallb f (map Z.of_nat (seq 0 n)) = true -> forall v, 0 <= v < Z.of_nat n -> f v = true.
Proof.
  intros H v Hv. rewrite forallb_forall in H. apply H, in_map_iff.
  exists (Z.to_nat v). split; [lia|]. apply in_seq. lia.
Qed.

Lemma bits_ext n v w :
  (forall i, 0 <= i < Z.of_nat n -> Z.testbit v i = Z.testbit w i) -> bits n v = bits n w.
Proof.
  induction n as [|n IH]; intros H; simpl; [done|].
  f_equal; [apply H; lia|apply IH; intros i Hi; apply H; lia].
Qed.

Lemma bits_app n m v : bits (n + m) v = bits n (Z.shiftr v (Z.of_nat m)) ++ bits m v.
Proof.
  induction n as [|n IH]; simpl; [done|].
  rewrite IH; f_equal. rewrite Z.shiftr_spec by lia. f_equal; lia.
Qed.

Lemma bits_mod n k v : Z.of_nat n <= k -> bits n (v mod 2 ^ k) = bits n v.
Proof. intros H; apply bits_ext; intros i Hi. rewrite Z.mod_pow2_bits_low; [done|lia]. Qed.

Lemma bits_u8 v : bits 8 (u8 v) = bits 8 v.
Proof. by apply (bits_mod 8 8). Qed.

Lemma testbit_above w m i : 0 <= w < 2 ^ m -> m <= i -> Z.testbit w i = false.
Proof.
  intros Hw Hi. destruct (decide (w = 0)) as [->|]; [apply Z.bits_0|].
  destruct (decide (0 <= m)).
  - apply Z.bits_above_log2; [lia|]. apply Z.log2_lt_pow2; [lia|].
    eapply Z.lt_le_trans; [apply Hw|]. apply Z.pow_le_mono_r; lia.
  - rewrite Z.pow_neg_r in Hw by lia. lia.
Qed.

(** Loading [m] bits below: [(v << m) | w]. *)
Lemma bits_lor_shiftl n m v w :
  0 <= w < 2 ^ Z.of_nat m ->
  bits (n + m) (Z.lor (Z.shiftl v (Z.of_nat m)) w) = bits n v ++ bits m w.
Proof.
  intros Hw. rewrite bits_app. f_equal; apply bits_ext; intros i Hi.
  - rewrite Z.shiftr_spec, Z.lor_spec, Z.shiftl_spec by lia.
    rewrite (testbit_above w (Z.of_nat m)), orb_false_r by lia. f_equal; lia.
  - rewrite Z.lor_spec, Z.shiftl_spec_low by lia. done.
Qed.

Lemma bits_0 n : bits n 0 = replicate n false.
Proof. induction n; simpl; [done|]. by rewrite Z.bits_0, IHn. Qed.

Lemma bits_lor n v w : bits n (Z.lor v w) = zip_with orb (bits n v) (bits n w).
Proof. induction n; simpl; [done|]. by rewrite Z.lor_spec, IHn. Qed.

Lemma zip_orb_false_l l : zip_with orb (replicate (length l) false) l = l.
Proof. induction l as [|b l IH]; simpl; [done|]. by rewrite IH. Qed.

Lemma zip_orb_false_r l : zip_with orb l (replicate (length l) false) = l.
Proof. induction l as [|b l IH]; simpl; [done|]. by rewrite IH, orb_false_r. Qed.

Lemma bits_shiftl n k v : bits (n + k) (Z.shiftl v (Z.of_nat k)) = bits n v ++ replicate k false.
Proof.
  rewrite <- (Z.lor_0_r (Z.shiftl v _)), bits_lor_shiftl, bits_0; [done|].
  split; [lia|]. apply Z.pow_pos_nonneg; lia.
Qed.

(** ** The value of a bit string *)

Definition bits_val (l : list bool) : Z := fold_left (fun a b => 2 * a + Z.b2z b) l 0.

Lemma bits_val_snoc l b : bits_val (l ++ [b]) = 2 * bits_val l + Z.b2z b.
Proof. unfold bits_val. by rewrite fold_left_app. Qed.

Lemma bits_snoc n v : bits (S n) v = bits n (Z.div2 v) ++ [Z.odd v].
Proof.
  replace (S n) with (n + 1)%nat by lia. by rewrite bits_app.
Qed.

Lemma bits_val_range l : 0 <= bits_val l < 2 ^ Z.of_nat (length l).
Proof.
  induction l as [|b l IH] using rev_ind; [done|].
  rewrite bits_val_snoc, length_app; simpl length.
  replace (Z.of_nat (length l + 1)) with (Z.succ (Z.of_nat (length l))) by lia.
  rewrite Z.pow_succ_r by lia. destruct b; simpl Z.b2z; lia.
Qed.

Lemma bits_val_bits n v : bits_val (bits n v) = v mod 2 ^ Z.of_nat n.
Proof.
  revert v; induction n as [|n IH]; intros v; [by rewrite Z.mod_1_r|].
  rewrite bits_snoc, bits_val_snoc, IH.
  replace (Z.of_nat (S n)) with (Z.succ (Z.of_nat n)) by lia.
  rewrite Z.pow_succ_r, Z.rem_mul_r by lia.
  rewrite Z.div2_div, Zmod_odd. destruct (Z.odd v); simpl; lia.
Qed.

Lemma bits_bits_val l : bits (length l) (bits_val l) = l.
Proof.
  induction l as [|b l IH] using rev_ind; [done|].
  rewrite bits_val_snoc, length_app. simpl length.
  replace (length l + 1)%nat with (S (length l)) by lia. rewrite bits_snoc. f_equal.
  - transitivity (bits (length l) (bits_val l)); [|done]. f_equal.
    rewrite Z.div2_div, Z.mul_comm, Z.div_add_l by lia. destruct b; apply Z.add_0_r.
  - f_equal. rewrite Z.add_comm, Z.odd_add_mul_2. by destruct b.
Qed.

Lemma bits_inj n v w :
  0 <= v < 2 ^ Z.of_nat n -> 0 <= w < 2 ^ Z.of_nat n -> bits n v = bits n w -> v = w.
Proof.
  intros Hv Hw H. apply (f_equal bits_val) in H. rewrite !bits_val_bits in H.
  by rewrite !Z.mod_small in H.
Qed.

(** * Bits of a buffer *)

Lemma take_take_le {A} (l : list A) i j : (i <= j)%nat -> take i (take j l) = take i l.
Proof. intros. rewrite take_take. f_equal. lia. Qed.


Lemma flat_app l1 l2 : flat (l1 ++ l2) = flat l1 ++ flat l2.
Proof. apply List.flat_map_app. Qed.

Lemma flat_cons b l : flat (b :: l) = bits 8 b ++ flat l.
Proof. reflexivity. Qed.

Lemma flat_length l : length (flat l) = (8 * length l)%nat.
Proof.
  induction l as [|b l IH]; [done|]. rewrite flat_cons, length_app, IH, bits_length.
  simpl; lia.
Qed.

Lemma flat_take k l : flat (take k l) = take (8 * k) (flat l).
Proof.
  revert k; induction l as [|b l IH]; intros [|k]; [done..|].
  change (take (S k) (b :: l)) with (b :: take k l). rewrite !flat_cons, IH.
  rewrite take_app, bits_length.
  rewrite (take_ge (bits 8 b)) by (rewrite bits_length; lia). do 2 f_equal. lia.
Qed.

Lemma flat_drop k l : flat (drop k l) = drop (8 * k) (flat l).
Proof.
  revert k; induction l as [|b l IH]; intros [|k]; [done..|].
  change (drop (S k) (b :: l)) with (drop k l). rewrite flat_cons, IH.
  rewrite drop_app, bits_length.
  rewrite (drop_ge (bits 8 b)) by (rewrite bits_length; lia). simpl. f_equal. lia.
Qed.

Lemma flat_inj l l' : octets l -> octets l' -> flat l = flat l' -> l = l'.
Proof.
  revert l'; induction l as [|b l IH]; intros [|b' l'] Ho Ho' H.
  - done.
  - by apply (f_equal length) in H; rewrite !flat_length in H.
  - by apply (f_equal length) in H; rewrite !flat_length in H.
  - rewrite !flat_cons in H. apply app_inj_1 in H as [H1 H2]; [|by rewrite !bits_length].
    apply Forall_cons_1 in Ho as [? ?], Ho' as [? ?].
    f_equal; [by apply (bits_inj 8)|by apply IH].
Qed.

Lemma octets_app l1 l2 : octets (l1 ++ l2) <-> octets l1 /\ octets l2.
Proof. apply Forall_app. Qed.

Lemma octets_take k l : octets l -> octets (take k l).
Proof. apply Forall_take. Qed.

Lemma octets_drop k l : octets l -> octets (drop k l).
Proof. apply Forall_drop. Qed.

Lemma octet_u8 v : is_octet (u8 v).
Proof. unfold is_octet, u8. apply Z.mod_pos_bound. lia. Qed.

Lemma octets_zget l i : octets l -> 0 <= i < zlen l -> is_octet (zget l i).
Proof.
  intros Ho Hi. unfold octets in Ho. rewrite Forall_lookup in Ho. apply (Ho (Z.to_nat i)).
  unfold zget. apply list_lookup_lookup_total_lt. unfold zlen in Hi. lia.
Qed.

(** * Buffer accesses *)

Implicit Types m : list Z.

Lemma rd_ok m i : 0 <= i < zlen m -> rd m i = Ok (zget m i).
Proof. intros H. unfold rd. by replace ((0 <=? i) && (i <? zlen m)) with true by lia. Qed.

Lemma wr_ok m i v : 0 <= i < zlen m -> wr m i v = Ok (zset m i (u8 v)).
Proof. intros H. unfold wr. by replace ((0 <=? i) && (i <? zlen m)) with true by lia. Qed.

Lemma shl_ok w x s : 0 <= s < Z.max w 32 -> shl w x s = Ok (Z.shiftl x s mod 2 ^ w).
Proof. intros H. unfold shl. by replace ((0 <=? s) && (s <? Z.max w 32)) with true by lia. Qed.

Lemma shr_ok w x s : 0 <= s < Z.max w 32 -> shr w x s = Ok (Z.shiftr x s).
Proof. intros H. unfold shr. by replace ((0 <=? s) && (s <? Z.max w 32)) with true by lia. Qed.

Lemma octets_zset m i v : octets m -> is_octet v -> octets (zset m i v).
Proof. intros Hm Hv. by apply Forall_insert. Qed.

(** A written octet at the boundary between a finished and an untouched part. *)
Lemma take_S_zset m i v :
  0 <= i < zlen m -> take (S (Z.to_nat i)) (zset m i v) = take (Z.to_nat i) m ++ [v].
Proof.
  intros Hi. unfold zlen in Hi. unfold zset.
  rewrite (take_S_r _ _ v), take_insert_ge; [done|lia|].
  apply list_lookup_insert_eq. lia.
Qed.

Lemma drop_S_zset m i v :
  0 <= i < zlen m -> drop (S (Z.to_nat i)) (zset m i v) = drop (S (Z.to_nat i)) m.
Proof. intros Hi. unfold zset. rewrite drop_insert_lt; [done|lia]. Qed.

Lemma take_zset_ge m i v k : 0 <= i -> (k <= Z.to_nat i)%nat -> take k (zset m i v) = take k m.
Proof. intros Hi Hk. unfold zset. by apply take_insert_ge. Qed.

Lemma drop_zget m i : 0 <= i < zlen m -> drop (Z.to_nat i) m = zget m i :: drop (S (Z.to_nat i)) m.
Proof.
  intros Hi. unfold zlen in Hi. apply drop_S. unfold zget.
  apply list_lookup_lookup_total_lt. lia.
Qed.
