(* ===== verification/EdsPack.v ===== *)
(** Bit-level packing of one EDS field: the static functions of
    edslib_datatypedb_pack_unpack.c that move a native value into a packed
    bit stream and back.

    [EdsLib_Internal_GetPackStyle] derives the conversion from the data
    dictionary entry; [EdsLib_Internal_DoBitwisePack] and
    [EdsLib_Internal_DoBitwiseUnpack] run the shift registers;
    [EdsLib_Internal_DoSignedIntPack] and [..Unpack] translate between the
    machine's integers and the encodings of the data sheet.  The conversions
    of floating point formats the machine does not have go through the C
    mathematics library and are parameters here. *)

From S2P Require Import Prelude.
From S2P Require Import EdsTypes.

Record EdsLib_Internal_PackStyleInfo_t := PackStyleInfo {
  Pack_ByteOrder : EdsLib_NumberByteOrder_Enum_t;
  IntermediateType : EdsLib_BasicType_t;
  IntermediateSize : Z;
  MemStride : Z;
  LeadingPadBits : Z;
  TrailingPadBits : Z;
  IntermediateShift : Z;
  Invert : bool }.

(** The widths for which the value union has an integer member. *)
Definition int_width (n : Z) : option nat :=
  if n =? 1 then Some 1%nat
  else if n =? 2 then Some 2%nat
  else if n =? 4 then Some 4%nat
  else if n =? 8 then Some 8%nat
  else None.

Definition bitsof (n : nat) : Z := 8 * Z.of_nat n.

(** ** Decimal text

    [snprintf(p, len, "%0*lld", w, v)]: the characters before the terminating
    NUL, with the minus sign first and zeros up to the width. *)

Fixpoint dec_digits (fuel : nat) (n : Z) : list Z :=
  match fuel with
  | O => []
  | S fuel => if n <? 10 then [n] else dec_digits fuel (n / 10) ++ [n mod 10]
  end.
Definition CH_ZERO : Z := 48.
Definition CH_MINUS : Z := 45.
Definition isdigit (c : Z) : bool := (CH_ZERO <=? c) && (c <=? 57).

Definition format_lld (w v : Z) : list Z :=
  let ds := map (Z.add CH_ZERO) (dec_digits 20 (Z.abs v)) in
  let sign := if v <? 0 then [CH_MINUS] else [] in
  sign ++ replicate (Z.to_nat (w - zlen sign - zlen ds)) CH_ZERO ++ ds.

(** [snprintf] into the start of a buffer of [len] characters. *)
Definition snprintf (m : list Z) (len : Z) (text : list Z) : res (list Z) :=
  let out := take (Z.to_nat (len - 1)) text ++ [0] in
  if in_buf m 0 (length out) then Ok (splice m 0 out) else Fault.

Fixpoint strlen (m : list Z) : Z :=
  match m with
  | [] => 0
  | c :: m => if c =? 0 then 0 else 1 + strlen m
  end.

Section Machine.
(** The machine's byte order, and the conversions of floating point formats
    (value buffer, source octets, source position, source size, encoding and
    encoded bits; destination for the inverse). *)
Variable be : bool.
Variable EdsLib_Internal_DoFloatPack :
  list Z -> list Z -> Z -> Z -> EdsLib_NumberEncoding_Enum_t -> Z -> res (list Z * Z).
Variable EdsLib_Internal_DoFloatUnpack :
  list Z -> Z -> Z -> list Z -> EdsLib_NumberEncoding_Enum_t -> Z -> res (list Z).

Definition EDSLIB_BIG_ENDIAN_STRIDE : Z := if be then 1 else -1.
Definition EDSLIB_LITTLE_ENDIAN_STRIDE : Z := if be then -1 else 1.
Definition EDSLIB_NATIVE_BYTE_PACK : Z := if be then 1 else 2.

(** ** Pack style *)

(** The intermediate representation of a number: its type and size, or
    [None] when the encoding is not supported. *)
Definition IntermediateOf (d : EdsLib_DataTypeDB_Entry_t) : option (EdsLib_BasicType_t * Z) :=
  let enc := Encoding (Number (Detail d)) in
  let nbits := Bits (SizeInfo_ d) in
  let none := Some (EDSLIB_BASICTYPE_NONE, 0) in
  match BasicType d with
  | EDSLIB_BASICTYPE_SIGNED_INT =>
      match enc with
      | EDSLIB_NUMBERENCODING_BCD_OCTET | EDSLIB_NUMBERENCODING_BCD_PACKED =>
          if (nbits + 7) / 8 >? VALUEBUFFER_SIZE then None
          else Some (EDSLIB_BASICTYPE_BINARY, (nbits + 7) / 8)
      | EDSLIB_NUMBERENCODING_TWOS_COMPLEMENT | EDSLIB_NUMBERENCODING_UNDEFINED => none
      | _ => Some (EDSLIB_BASICTYPE_UNSIGNED_INT, 8)
      end
  | EDSLIB_BASICTYPE_FLOAT =>
      match enc with
      | EDSLIB_NUMBERENCODING_MILSTD_1750A =>
          if nbits =? 32 then Some (EDSLIB_BASICTYPE_UNSIGNED_INT, 4)
          else if nbits =? 48 then Some (EDSLIB_BASICTYPE_UNSIGNED_INT, 8)
          else None
      | EDSLIB_NUMBERENCODING_IEEE_754 | EDSLIB_NUMBERENCODING_UNDEFINED =>
          if nbits =? 128 then Some (EDSLIB_BASICTYPE_BINARY, 16)
          else if negb (nbits =? 8 * Bytes (SizeInfo_ d)) then
            if nbits =? 64 then Some (EDSLIB_BASICTYPE_UNSIGNED_INT, 8)
            else if nbits =? 32 then Some (EDSLIB_BASICTYPE_UNSIGNED_INT, 4)
            else None
          else none
      | _ => None
      end
  | _ => none
  end.

Definition is_number (t : EdsLib_BasicType_t) : bool :=
  match t with
  | EDSLIB_BASICTYPE_SIGNED_INT | EDSLIB_BASICTYPE_UNSIGNED_INT | EDSLIB_BASICTYPE_FLOAT => true
  | _ => false
  end.

Definition EdsLib_Internal_GetPackStyle (d : EdsLib_DataTypeDB_Entry_t)
    : option EdsLib_Internal_PackStyleInfo_t :=
  let inv := is_number (BasicType d) && negb (BitInvertFlag (Number (Detail d)) =? 0) in
  let order := if is_number (BasicType d) then ByteOrder (Number (Detail d))
               else EDSLIB_NUMBERBYTEORDER_UNDEFINED in
  match IntermediateOf d with
  | None => None
  | Some (itype, isize) =>
      let has_inter := negb (bool_decide (itype = EDSLIB_BASICTYPE_NONE)) in
      let RefSize := if has_inter then isize else Bytes (SizeInfo_ d) in
      let RefType := if has_inter then itype else BasicType d in
      let PadBits := RefSize * 8 - Bits (SizeInfo_ d) in
      if PadBits <? 0 then None else
      let binary := bool_decide (RefType = EDSLIB_BASICTYPE_BINARY) in
      let shift := if binary then 0 else PadBits in
      Some (match order with
            | EDSLIB_NUMBERBYTEORDER_LITTLE_ENDIAN =>
                PackStyleInfo order itype isize
                  (if binary then -1 else EDSLIB_LITTLE_ENDIAN_STRIDE) PadBits 0 shift inv
            | _ =>
                PackStyleInfo order itype isize
                  (if binary then 1 else EDSLIB_BIG_ENDIAN_STRIDE) 0 PadBits shift inv
            end)
  end.

(** ** Integer encodings *)

(** The octets [p .. p + len) from decimal characters to digits, in place. *)
Fixpoint bcd_octets (m : list Z) (p : Z) (len : nat) : res (list Z) :=
  match len with
  | O => Ok m
  | S len =>
      let* c := rd m p in
      let* m' := (if isdigit c then wr m p (c - CH_ZERO) else Ok m) in
      bcd_octets m' (p + 1) len
  end.

(** Two characters at [p] become the octet at [q]. *)
Fixpoint bcd_pairs (m : list Z) (p q : Z) (len : nat) : res (list Z) :=
  match len with
  | O => Ok m
  | S len =>
      let* c0 := rd m p in
      let* c1 := rd m (p + 1) in
      let hi := if isdigit c0 then Z.shiftl (c0 - CH_ZERO) 4 else 0 in
      let lo := if isdigit c1 then c1 - CH_ZERO else 0 in
      let* m' := wr m q (Z.lor hi lo) in
      bcd_pairs m' (p + 2) (q + 1) len
  end.

Definition EdsLib_Internal_DoSignedIntPack (ValBuf Src : list Z) (SrcPtr SrcSizeBytes : Z)
    (EncodingStyle : EdsLib_NumberEncoding_Enum_t) (EncodingBits : Z) : res (list Z * Z) :=
  let* s := match int_width SrcSizeBytes with
            | Some n => let* v := ld be Src SrcPtr n in Ok (sgn (bitsof n) v)
            | None => Ok 0
            end in
  let* V := st be ValBuf 0 8 s in
  match EncodingStyle with
  | EDSLIB_NUMBERENCODING_SIGN_MAGNITUDE =>
      if s <? 0 then
        let* t := shl 64 1 (EncodingBits - 1) in
        let* V := st be V 0 8 (Z.lor (u64 (- s)) t) in
        Ok (V, 8)
      else Ok (V, 8)
  | EDSLIB_NUMBERENCODING_ONES_COMPLEMENT =>
      if s <? 0 then
        let* V := st be V 0 8 (u64 (Z.lnot (u64 (- s)))) in
        Ok (V, 8)
      else Ok (V, 8)
  | EDSLIB_NUMBERENCODING_BCD_OCTET =>
      let* V := snprintf V VALUEBUFFER_SIZE (format_lld (EncodingBits / 8) s) in
      let len := strlen V in
      let* V := bcd_octets V 0 (Z.to_nat len) in
      Ok (V, len)
  | EDSLIB_NUMBERENCODING_BCD_PACKED =>
      let* V := snprintf V VALUEBUFFER_SIZE (format_lld (EncodingBits / 4) s) in
      let len := (strlen V + 1) / 2 in
      let* V := bcd_pairs V 0 0 (Z.to_nat len) in
      Ok (V, len)
  | EDSLIB_NUMBERENCODING_TWOS_COMPLEMENT | EDSLIB_NUMBERENCODING_UNDEFINED => Ok (V, 8)
  | _ => Ok (V, 0)
  end.

(** The digits of [len] octets from [p] on, most significant first. *)
Fixpoint bcd_octet_value (m : list Z) (p : Z) (len : nat) (TempVal : Z) : res Z :=
  match len with
  | O => Ok TempVal
  | S len =>
      let* c := rd m p in
      bcd_octet_value m (p + 1) len (if c <? 10 then u64 (TempVal * 10 + c) else TempVal)
  end.

(** The loop over the nibbles of a packed decimal: [i] is a bit position and
    advances only past an octet that is not ['-']. *)
Fixpoint bcd_packed_value (fuel : nat) (m : list Z) (i EncodingBits TempVal : Z) : res Z :=
  match fuel with
  | O => Hang
  | S fuel =>
      if i <? EncodingBits then
        let* c := rd m (Z.shiftr i 3) in
        if negb (c =? CH_MINUS) then
          let digit := Z.land (Z.shiftr c (Z.land (Z.lnot i) 4)) 15 in
          bcd_packed_value fuel m (i + 4) EncodingBits
            (if digit <? 10 then u64 (TempVal * 10 + digit) else TempVal)
        else bcd_packed_value fuel m i EncodingBits TempVal
      else Ok TempVal
  end.

Definition bcd_fuel (EncodingBits : Z) : nat := S (Z.to_nat EncodingBits).

(** The switch on the encoding of [EdsLib_Internal_DoSignedIntUnpack]: the
    value of [ValBuf->SignedInteger] after it, as its 64-bit pattern. *)
Definition SignedIntDecode (ValBuf : list Z) (EncodingStyle : EdsLib_NumberEncoding_Enum_t)
    (EncodingBits : Z) : res Z :=
  let* U := ld be ValBuf 0 8 in
  match EncodingStyle with
  | EDSLIB_NUMBERENCODING_SIGN_MAGNITUDE =>
      let* T := shl 64 1 (EncodingBits - 1) in
      Ok (if negb (Z.land U T =? 0) then u64 (0 - Z.land U (u64 (T - 1))) else U)
  | EDSLIB_NUMBERENCODING_ONES_COMPLEMENT =>
      let* T := shl 64 1 (EncodingBits - 1) in
      Ok (if negb (Z.land U T =? 0)
          then u64 (0 - Z.land (u64 (Z.lnot U)) (u64 (T - 1))) else U)
  | EDSLIB_NUMBERENCODING_BCD_OCTET =>
      let* T := bcd_octet_value ValBuf 0 (Z.to_nat (EncodingBits / 8)) 0 in
      let* c := rd ValBuf 0 in
      Ok (if c =? CH_MINUS then u64 (- T) else T)
  | EDSLIB_NUMBERENCODING_BCD_PACKED =>
      let* T := bcd_packed_value (bcd_fuel EncodingBits) ValBuf 0 EncodingBits 0 in
      let* c := rd ValBuf 0 in
      Ok (if c =? CH_MINUS then u64 (- T) else T)
  | _ => Ok U
  end.

Definition EdsLib_Internal_DoSignedIntUnpack (Dst : list Z) (DstPtr DstSizeBytes : Z)
    (ValBuf : list Z) (EncodingStyle : EdsLib_NumberEncoding_Enum_t) (EncodingBits : Z)
    : res (list Z) :=
  let* s := SignedIntDecode ValBuf EncodingStyle EncodingBits in
  match int_width DstSizeBytes with
  | Some n => st be Dst DstPtr n s
  | None => memset Dst DstPtr 0 (Z.to_nat DstSizeBytes)
  end.

(** ** Packing *)

(** "Now load entire bytes into the shift register": while bits are missing,
    load an octet when there is room, else write one out. *)
Fixpoint pack_load (fuel : nat) (Load : list Z) (LoadPtr Stride ShiftRegister HighBitPos TotalBits : Z)
    (Dst : list Z) (DstPtr : Z) : res (Z * Z * Z * list Z * Z) :=
  match fuel with
  | O => Hang
  | S fuel =>
      if TotalBits >? HighBitPos then
        if HighBitPos <? 24 then
          let* b := rd Load LoadPtr in
          pack_load fuel Load (LoadPtr + Stride) Stride
            (Z.lor (u32 (Z.shiftl ShiftRegister 8)) b) (u32 (HighBitPos + 8)) TotalBits Dst DstPtr
        else
          let H := u32 (HighBitPos - 8) in
          let* o := shr 32 ShiftRegister H in
          let* Dst := wr Dst DstPtr o in
          pack_load fuel Load LoadPtr Stride ShiftRegister H (u32 (TotalBits - 8)) Dst (DstPtr + 1)
      else Ok (ShiftRegister, HighBitPos, TotalBits, Dst, DstPtr)
  end.

(** "Output any remaining full octets". *)
Fixpoint pack_flush (fuel : nat) (ShiftRegister HighBitPos TotalBits : Z) (Dst : list Z) (DstPtr : Z)
    : res (Z * Z * list Z * Z) :=
  match fuel with
  | O => Hang
  | S fuel =>
      if TotalBits >=? 8 then
        let H := u32 (HighBitPos - 8) in
        let* o := shr 32 ShiftRegister H in
        let* Dst := wr Dst DstPtr o in
        pack_flush fuel ShiftRegister H (u32 (TotalBits - 8)) Dst (DstPtr + 1)
      else Ok (HighBitPos, TotalBits, Dst, DstPtr)
  end.

(** "Output any remaining partial octet", keeping the bits after it. *)
Definition pack_tail (ShiftRegister HighBitPos TotalBits : Z) (Dst : list Z) (DstPtr : Z)
    : res (list Z) :=
  if TotalBits >? 0 then
    let* S1 := (if HighBitPos <=? 8 then shl 32 ShiftRegister (8 - HighBitPos)
                else shr 32 ShiftRegister (HighBitPos - 8)) in
    let* b := rd Dst DstPtr in
    let* t := shl 32 1 (8 - TotalBits) in
    wr Dst DstPtr (Z.lor S1 (Z.land b (u32 (t - 1))))
  else Ok Dst.

(** The turns of the loops: each loads or writes one octet. *)
Definition pack_fuel (TotalBits : Z) : nat := Z.to_nat (TotalBits + 8).

(** The shift register part of [DoBitwisePack]: from the octets at [LoadPtr]
    to the bits from [DstBitOffset] of the octet at [DstPtr] on. *)
Definition pack_bits (Load : list Z) (LoadPtr : Z) (Stride Leading : Z)
    (Dst : list Z) (DstPtr DstBitOffset nbits : Z) : res (list Z) :=
  let* S0 := (if DstBitOffset =? 0 then Ok 0
              else let* b := rd Dst DstPtr in shr 32 b (8 - DstBitOffset)) in
  let Total := u32 (DstBitOffset + nbits) in
  let* (S1, H1, L1) :=
    (if Leading >? 0 then
       let Remainder := Z.land Leading 7 in
       let L := LoadPtr + Leading / 8 * Stride in
       let* b := rd Load L in
       let* S1 := shr 32 (Z.lor (u32 (Z.shiftl S0 8)) b) Remainder in
       Ok (S1, u32 (DstBitOffset + (8 - Remainder)), L + Stride)
     else Ok (S0, DstBitOffset, LoadPtr)) in
  let* (S2, H2, T2, Dst, D2) := pack_load (pack_fuel Total) Load L1 Stride S1 H1 Total Dst DstPtr in
  let* (H3, T3, Dst, D3) := pack_flush (pack_fuel Total) S2 H2 T2 Dst D2 in
  pack_tail S2 H3 T3 Dst D3.

(** The conversion to the intermediate type: the value buffer, where the
    octets to load are ([true]: in the value buffer), their number, and the
    stride. *)
Definition pack_convert (p : EdsLib_Internal_PackStyleInfo_t) (d : EdsLib_DataTypeDB_Entry_t)
    (NumBuf Src : list Z) (SrcPtr : Z) : res (list Z * bool * Z * Z) :=
  let size := Bytes (SizeInfo_ d) in
  let enc := Encoding (Number (Detail d)) in
  let nbits := Bits (SizeInfo_ d) in
  if bool_decide (IntermediateType p = EDSLIB_BASICTYPE_NONE) || (IntermediateSize p =? 0)
  then Ok (NumBuf, false, size, MemStride p)
  else
    let* (NumBuf, ConvSize) :=
      match BasicType d with
      | EDSLIB_BASICTYPE_SIGNED_INT =>
          EdsLib_Internal_DoSignedIntPack NumBuf Src SrcPtr size enc nbits
      | EDSLIB_BASICTYPE_FLOAT => EdsLib_Internal_DoFloatPack NumBuf Src SrcPtr size enc nbits
      | _ => Ok (NumBuf, 0)
      end in
    if ConvSize =? IntermediateSize p then Ok (NumBuf, true, ConvSize, MemStride p)
    else let* NumBuf := wr NumBuf 0 255 in Ok (NumBuf, true, ConvSize, 0).

(** The shift that moves the padding to the low end, and the inversion. *)
Definition pack_shift (p : EdsLib_Internal_PackStyleInfo_t) (NumBuf Load : list Z) (LoadPtr ConvSize : Z)
    : res (list Z) :=
  match int_width ConvSize with
  | Some n =>
      let* v := ld be Load LoadPtr n in
      let* x := shl (bitsof n) v (IntermediateShift p) in
      st be NumBuf 0 n (if Invert p then Z.lxor x (2 ^ bitsof n - 1) else x)
  | None => Ok NumBuf
  end.

Definition EdsLib_Internal_DoBitwisePack (NumBuf Dst : list Z) (DstPtr : Z) (Src : list Z) (SrcPtr : Z)
    (d : EdsLib_DataTypeDB_Entry_t) (DstBitOffset : Z) : res (list Z) :=
  match EdsLib_Internal_GetPackStyle d with
  | None => Ok Dst
  | Some p =>
      let* (NumBuf, inter, ConvSize, Stride) := pack_convert p d NumBuf Src SrcPtr in
      let LoadPtr := if inter then 0 else SrcPtr in
      let* (Load, LoadPtr) :=
        (if (IntermediateShift p >? 0) || Invert p then
           let* NumBuf := pack_shift p NumBuf (if inter then NumBuf else Src) LoadPtr ConvSize in
           Ok (NumBuf, 0)
         else Ok (if inter then NumBuf else Src, LoadPtr)) in
      let LoadPtr := if Stride <? 0 then LoadPtr + (ConvSize - 1) else LoadPtr in
      pack_bits Load LoadPtr Stride (LeadingPadBits p) Dst DstPtr DstBitOffset (Bits (SizeInfo_ d))
  end.

(** ** Unpacking *)

(** Whole padding octets before the value. *)
Fixpoint unpack_lead (fuel : nat) (Leading FillBits Stride : Z) (Store : list Z) (StorePtr : Z)
    : res (Z * list Z * Z) :=
  match fuel with
  | O => Hang
  | S fuel =>
      if FillBits + 8 <=? Leading then
        let* Store := wr Store StorePtr 0 in
        unpack_lead fuel Leading (FillBits + 8) Stride Store (StorePtr + Stride)
      else Ok (FillBits, Store, StorePtr)
  end.

(** "Load an octet from the bitstream". *)
Definition unpack_fetch (Src : list Z) (SrcPtr ShiftRegister LowBitPos TotalBits : Z)
    : res (Z * Z * Z * Z) :=
  if LowBitPos >? 8 then
    if TotalBits >? 0 then
      let* b := rd Src SrcPtr in
      let* x := shl 32 b (LowBitPos - 8) in
      let S1 := Z.lor ShiftRegister x in
      if TotalBits <? 8 then
        let* t := shl 32 1 (LowBitPos - TotalBits) in
        Ok (SrcPtr + 1, Z.land S1 (u32 (Z.lnot (t - 1))), 0, 0)
      else Ok (SrcPtr + 1, S1, LowBitPos - 8, TotalBits - 8)
    else Ok (SrcPtr, ShiftRegister, 0, TotalBits)
  else Ok (SrcPtr, ShiftRegister, LowBitPos, TotalBits).

(** The main loop: fetch, and store an octet when eight bits are there. *)
Fixpoint unpack_loop (fuel : nat) (Src : list Z) (SrcPtr ShiftRegister LowBitPos TotalBits FillBits : Z)
    (Leading ConvBits Stride : Z) (Store : list Z) (StorePtr : Z) : res (list Z) :=
  match fuel with
  | O => Hang
  | S fuel =>
      if FillBits <? ConvBits then
        let* (SrcPtr, SR, Low, Total) := unpack_fetch Src SrcPtr ShiftRegister LowBitPos TotalBits in
        if Low <=? 16 then
          if FillBits <? Leading then
            let* t := shl 32 1 (Leading - FillBits) in
            let* Store := wr Store StorePtr (Z.land (Z.shiftr SR 16) (Z.lxor (u32 (t - 1)) 255)) in
            let k := FillBits + 8 - Leading in
            unpack_loop fuel Src SrcPtr (u32 (Z.shiftl SR k)) (Low + k) Total (FillBits + 8)
              Leading ConvBits Stride Store (StorePtr + Stride)
          else
            let* Store := wr Store StorePtr (Z.shiftr SR 16) in
            unpack_loop fuel Src SrcPtr (u32 (Z.shiftl SR 8)) (Low + 8) Total (FillBits + 8)
              Leading ConvBits Stride Store (StorePtr + Stride)
        else
          unpack_loop fuel Src SrcPtr SR Low Total FillBits Leading ConvBits Stride Store StorePtr
      else Ok Store
  end.

Definition unpack_fuel (ConvBits : Z) : nat := Z.to_nat (ConvBits + 8).

(** The shift register part of [DoBitwiseUnpack]. *)
Definition unpack_bits (Src : list Z) (SrcPtr SrcBitOffset nbits : Z)
    (Store : list Z) (StorePtr ConvSize Stride Leading : Z) : res (list Z) :=
  let StorePtr := if Stride <? 0 then StorePtr + (ConvSize - 1) else StorePtr in
  let* (Fill, Store, StorePtr) := unpack_lead (unpack_fuel Leading) Leading 0 Stride Store StorePtr in
  unpack_loop (unpack_fuel (ConvSize * 8)) Src SrcPtr 0 (24 + SrcBitOffset) (SrcBitOffset + nbits) Fill
    Leading (ConvSize * 8) Stride Store StorePtr.

(** The inversion and the shift back, from the value buffer to the value
    buffer or to the destination; arithmetic for signed integers. *)
Definition unpack_shift (p : EdsLib_Internal_PackStyleInfo_t) (ShiftType : EdsLib_BasicType_t)
    (NumBuf : list Z) (Out : list Z) (OutPtr ConvSize : Z) : res (list Z) :=
  match int_width ConvSize with
  | Some n =>
      let* v := ld be NumBuf 0 n in
      let x := if Invert p then Z.lxor v (2 ^ bitsof n - 1) else v in
      let* y := (if bool_decide (ShiftType = EDSLIB_BASICTYPE_SIGNED_INT)
                 then shr (bitsof n) (sgn (bitsof n) x) (IntermediateShift p)
                 else shr (bitsof n) x (IntermediateShift p)) in
      st be Out OutPtr n y
  | None => Ok Out
  end.

Definition EdsLib_Internal_DoBitwiseUnpack (NumBuf Dst : list Z) (DstPtr : Z) (Src : list Z) (SrcPtr : Z)
    (d : EdsLib_DataTypeDB_Entry_t) (SrcBitOffset : Z) : res (list Z) :=
  let size := Bytes (SizeInfo_ d) in
  let enc := Encoding (Number (Detail d)) in
  let nbits := Bits (SizeInfo_ d) in
  match EdsLib_Internal_GetPackStyle d with
  | None => Ok Dst
  | Some p =>
      let inter := negb (bool_decide (IntermediateType p = EDSLIB_BASICTYPE_NONE)) in
      let ConvSize := if inter && negb (IntermediateSize p =? 0) then IntermediateSize p else size in
      let shifted := Invert p || (IntermediateShift p >? 0) in
      let buffered := inter && negb (IntermediateSize p =? 0) || shifted in
      let* Store := unpack_bits Src SrcPtr SrcBitOffset nbits (if buffered then NumBuf else Dst)
                      (if buffered then 0 else DstPtr) ConvSize (MemStride p) (LeadingPadBits p) in
      let NumBuf := if buffered then Store else NumBuf in
      let Dst := if buffered then Dst else Store in
      let* (NumBuf, Dst) :=
        (if shifted then
           if inter then
             let* NumBuf := unpack_shift p (IntermediateType p) NumBuf NumBuf 0 ConvSize in
             Ok (NumBuf, Dst)
           else
             let* Dst := unpack_shift p (BasicType d) NumBuf Dst DstPtr ConvSize in
             Ok (NumBuf, Dst)
         else Ok (NumBuf, Dst)) in
      if inter then
        match BasicType d with
        | EDSLIB_BASICTYPE_SIGNED_INT =>
            EdsLib_Internal_DoSignedIntUnpack Dst DstPtr size NumBuf enc nbits
        | EDSLIB_BASICTYPE_FLOAT => EdsLib_Internal_DoFloatUnpack Dst DstPtr size NumBuf enc nbits
        | _ => Ok Dst
        end
      else Ok Dst
  end.
End Machine.
