(* ===== verification/EdsPackProofs.v ===== *)
(** The shift registers of [DoBitwisePack] and [DoBitwiseUnpack] move exactly
    the bits they should.

    [stream L bs] is the bit string that the octets [bs], in the order in
    which they are visited, contribute when their first [L] bits are padding:
    whole octets are skipped, and of the next one the low bits.  Packing puts
    a prefix of it at a bit position of the destination; unpacking takes it
    from there. *)

From S2P Require Import Prelude.
From S2P Require Import EdsTypes EdsBits EdsPack.

(** * Streams *)

Definition stream (L : Z) (bs : list Z) : list bool :=
  match drop (Z.to_nat (L / 8)) bs with
  | [] => []
  | b :: rest => bits (8 - Z.to_nat (L mod 8)) (Z.shiftr b (L mod 8)) ++ flat rest
  end.

(** The octets [bs] are those at [p], [p + stride], ... *)
Definition loads (m : list Z) (p stride : Z) (bs : list Z) : Prop :=
  forall j, 0 <= j < zlen bs -> rd m (p + j * stride) = Ok (zget bs j).

Lemma stream_0 bs : stream 0 bs = flat bs.
Proof.
  unfold stream. change (0 / 8) with 0. change (0 mod 8) with 0.
  destruct bs as [|b bs]; [done|reflexivity].
Qed.

Lemma stream_length L bs :
  0 <= L -> Z.of_nat (length (stream L bs)) = Z.max 0 (8 * zlen bs - L).
Proof.
  intros HL. unfold stream.
  pose proof (Z.div_mod L 8 ltac:(lia)). pose proof (Z.mod_pos_bound L 8 ltac:(lia)).
  assert (Hd := length_drop bs (Z.to_nat (L / 8))). unfold zlen.
  pose proof (Z.div_pos L 8 HL ltac:(lia)).
  destruct (drop _ bs) as [|b rest]; simpl in *; [lia|].
  rewrite length_app, bits_length, flat_length. lia.
Qed.

Lemma stream_snoc L bs j :
  0 <= L -> 0 <= j < zlen bs -> L = 0 \/ L / 8 < j ->
  stream L (take (S (Z.to_nat j)) bs) = stream L (take (Z.to_nat j) bs) ++ bits 8 (zget bs j).
Proof.
  intros HL Hj Hor. unfold zlen in Hj.
  assert (Hlk : bs !! Z.to_nat j = Some (zget bs j)) by (apply list_lookup_lookup_total_lt; lia).
  rewrite (take_S_r _ _ _ Hlk).
  destruct Hor as [->|Hor].
  - rewrite !stream_0, flat_app, flat_cons. by rewrite app_nil_r.
  - pose proof (Z.div_pos L 8 HL ltac:(lia)).
    unfold stream. rewrite drop_app_le by (rewrite length_take; lia).
    assert (Hd := length_drop (take (Z.to_nat j) bs) (Z.to_nat (L / 8))).
    rewrite length_take in Hd.
    destruct (drop _ (take (Z.to_nat j) bs)) as [|b rest]; [simpl in Hd; lia|].
    cbn [app]. rewrite flat_app, flat_cons, <- app_assoc. by rewrite app_nil_r.
Qed.

Lemma stream_take_prefix L bs j :
  0 <= L -> L = 0 \/ L / 8 < j -> 0 <= j ->
  exists tl, stream L bs = stream L (take (Z.to_nat j) bs) ++ tl.
Proof.
  intros HL Hor Hj.
  enough (exists tl, stream L (take (Z.to_nat j) bs ++ drop (Z.to_nat j) bs) =
                     stream L (take (Z.to_nat j) bs) ++ tl) as He
    by (rewrite take_drop in He; exact He).
  destruct Hor as [->|Hor].
  - rewrite !stream_0, flat_app. by eexists.
  - pose proof (Z.div_pos L 8 HL ltac:(lia)).
    destruct (decide (Z.to_nat j <= length bs)%nat).
    + unfold stream. rewrite drop_app_le by (rewrite length_take; lia).
      assert (Hd := length_drop (take (Z.to_nat j) bs) (Z.to_nat (L / 8))).
      rewrite length_take in Hd.
      destruct (drop _ (take (Z.to_nat j) bs)) as [|b rest]; [simpl in Hd; lia|].
      cbn [app]. rewrite flat_app. eexists. by rewrite app_assoc.
    + rewrite (take_ge bs), (drop_ge bs), app_nil_r by lia. exists []. by rewrite app_nil_r.
Qed.

(** * Packing *)

Section Pack.
Variables (Load : list Z) (LoadPtr Stride L : Z) (bs : list Z).
Variables (Dst0 : list Z) (D0 : Z) (pre : list bool).
Hypothesis Hloads : loads Load LoadPtr Stride bs.
Hypothesis Hbs : octets bs.
Hypothesis HL : 0 <= L.
Hypothesis HD0 : 0 <= D0.

(** What has been written, followed by the valid bits of the register, is
    what was there before, followed by the octets loaded so far. *)
Record pack_inv (j SR H : Z) (Dst : list Z) (D : Z) : Prop := {
  pi_oct : octets Dst;
  pi_len : zlen Dst = zlen Dst0;
  pi_D : D0 <= D;
  pi_rest : drop (Z.to_nat D) Dst = drop (Z.to_nat D) Dst0;
  pi_bits : flat (take (Z.to_nat D) Dst) ++ bits (Z.to_nat H) SR =
            flat (take (Z.to_nat D0) Dst0) ++ pre ++ stream L (take (Z.to_nat j) bs) }.

Lemma load_step j SR H Dst D :
  pack_inv j SR H Dst D -> 0 <= H < 25 -> 0 <= j < zlen bs -> L = 0 \/ L / 8 < j ->
  pack_inv (j + 1) (Z.lor (u32 (Z.shiftl SR 8)) (zget bs j)) (H + 8) Dst D.
Proof.
  intros [Ho Hl HD Hr Hb] HH Hj Hor. constructor; [done..|].
  replace (Z.to_nat (j + 1)) with (S (Z.to_nat j)) by lia.
  rewrite stream_snoc by done. rewrite (app_assoc pre), (app_assoc (flat _)), <- Hb, <- app_assoc. f_equal.
  pose proof (octets_zget bs j Hbs ltac:(lia)) as Hoct. unfold is_octet in Hoct.
  rewrite <- (bits_lor_shiftl (Z.to_nat H) 8 SR (zget bs j)) by (simpl; lia).
  replace (Z.to_nat (H + 8)) with (Z.to_nat H + 8)%nat by lia.
  apply bits_ext; intros i Hi. unfold u32.
  rewrite !Z.lor_spec. f_equal. apply Z.mod_pow2_bits_low. lia.
Qed.

Lemma output_step j SR H Dst D :
  pack_inv j SR H Dst D -> 8 <= H -> D < zlen Dst ->
  pack_inv j SR (H - 8) (zset Dst D (u8 (Z.shiftr SR (H - 8)))) (D + 1).
Proof.
  intros [Ho Hl HD Hr Hb] HH Hlt. constructor.
  - apply octets_zset; [done|apply octet_u8].
  - by rewrite zlen_zset.
  - lia.
  - replace (Z.to_nat (D + 1)) with (S (Z.to_nat D)) by lia.
    rewrite drop_S_zset by lia.
    replace (S (Z.to_nat D)) with (Z.to_nat D + 1)%nat by lia.
    by rewrite <- !drop_drop, Hr.
  - replace (Z.to_nat (D + 1)) with (S (Z.to_nat D)) by lia.
    rewrite take_S_zset, flat_app, flat_cons by lia. rewrite <- Hb, app_nil_r, <- app_assoc. f_equal.
    rewrite bits_u8. replace (Z.to_nat H) with (8 + Z.to_nat (H - 8))%nat by lia.
    by rewrite bits_app, Z2Nat.id by lia.
Qed.

Lemma pack_load_ok fuel j SR H T Dst D :
  pack_inv j SR H Dst D ->
  0 <= H <= 31 -> H < T + 8 -> 0 <= T < 2 ^ 32 -> 0 <= j ->
  L = 0 \/ L / 8 < j -> T - H <= 8 * (zlen bs - j) -> 8 * D + T <= 8 * zlen Dst ->
  (1 <= fuel)%nat -> 2 * T - H + 16 <= 8 * Z.of_nat fuel ->
  exists j' SR' H' T' Dst' D',
    pack_load fuel Load (LoadPtr + j * Stride) Stride SR H T Dst D = Ok (SR', H', T', Dst', D') /\
    pack_inv j' SR' H' Dst' D' /\ T' <= H' <= 31 /\ H' < T' + 8 /\ 0 <= T' <= T /\
    8 * D' + T' = 8 * D + T /\ j <= j' /\ (L = 0 \/ L / 8 < j').
Proof.
  revert j SR H T Dst D; induction fuel as [|fuel IH];
    intros j SR H T Dst D Hinv HH HT HT2 Hj Hor Hsrc Hdst Hf1 Hf; [lia|]. simpl.
  destruct (T >? H) eqn:ETH.
  - destruct (H <? 24) eqn:EH.
    + assert (Hjl : 0 <= j < zlen bs) by lia.
      rewrite (Hloads j Hjl). simpl. unfold u32 at 2. rewrite (Z.mod_small (H + 8)) by lia.
      replace (LoadPtr + j * Stride + Stride) with (LoadPtr + (j + 1) * Stride) by lia.
      edestruct (IH (j + 1) (Z.lor (u32 (Z.shiftl SR 8)) (zget bs j)) (H + 8) T Dst D) as (j' & SR' & H' & T' & Dst' & D' & E & R);
        [apply load_step; [exact Hinv|lia|lia|exact Hor]|lia..|].
      exists j', SR', H', T', Dst', D'. split; [exact E|]. intuition lia.
    + unfold u32. rewrite (Z.mod_small (H - 8)), (Z.mod_small (T - 8)) by lia.
      rewrite shr_ok by lia. simpl. pose proof (pi_D _ _ _ _ _ Hinv).
      rewrite wr_ok by lia. simpl.
      edestruct (IH j SR (H - 8) (T - 8) (zset Dst D (u8 (Z.shiftr SR (H - 8)))) (D + 1)) as (j' & SR' & H' & T' & Dst' & D' & E & R);
        [apply output_step; [exact Hinv|lia|lia]|rewrite ?zlen_zset; lia..|].
      exists j', SR', H', T', Dst', D'. split; [exact E|]. intuition lia.
  - exists j, SR, H, T, Dst, D. split; [done|]. intuition lia.
Qed.

Lemma pack_flush_ok fuel j SR H T Dst D :
  pack_inv j SR H Dst D ->
  T <= H <= 31 -> H < T + 8 -> 0 <= T -> 8 * D + T <= 8 * zlen Dst ->
  (1 <= fuel)%nat -> T + 8 <= 8 * Z.of_nat fuel ->
  exists H' T' Dst' D',
    pack_flush fuel SR H T Dst D = Ok (H', T', Dst', D') /\
    pack_inv j SR H' Dst' D' /\ T' <= H' < T' + 8 /\ 0 <= T' < 8 /\ 8 * D' + T' = 8 * D + T.
Proof.
  revert H T Dst D; induction fuel as [|fuel IH];
    intros H T Dst D Hinv HH HT HT2 Hdst Hf1 Hf; [lia|]. simpl.
  destruct (T >=? 8) eqn:ET.
  - unfold u32. rewrite (Z.mod_small (H - 8)), (Z.mod_small (T - 8)) by lia.
    rewrite shr_ok by lia. simpl. pose proof (pi_D _ _ _ _ _ Hinv).
    rewrite wr_ok by lia. simpl.
    edestruct (IH (H - 8) (T - 8) (zset Dst D (u8 (Z.shiftr SR (H - 8)))) (D + 1)) as (H' & T' & Dst' & D' & E & R);
      [apply output_step; [exact Hinv|lia|lia]|rewrite ?zlen_zset; lia..|].
    exists H', T', Dst', D'. split; [exact E|]. intuition lia.
  - exists H, T, Dst, D. split; [done|]. intuition lia.
Qed.
End Pack.

(** ** The last, partial octet *)

Lemma bits_low_mask T b :
  0 <= T <= 8 ->
  bits 8 (Z.land b (2 ^ (8 - T) - 1)) = replicate (Z.to_nat T) false ++ drop (Z.to_nat T) (bits 8 b).
Proof.
  intros HT.
  assert (E : forall v, bits 8 v = bits (Z.to_nat T) (Z.shiftr v (8 - T)) ++ bits (Z.to_nat (8 - T)) v).
  { intros v. rewrite <- (Z2Nat.id (8 - T)) at 1 by lia. rewrite <- bits_app. f_equal. lia. }
  rewrite (E (Z.land _ _)), (E b), drop_app_length' by (by rewrite bits_length).
  rewrite land_mask by lia. f_equal.
  - rewrite <- bits_0. apply bits_ext; intros i Hi.
    rewrite Z.bits_0, Z.shiftr_spec, Z.mod_pow2_bits_high; [done|lia..].
  - apply bits_mod. lia.
Qed.

(** The register aligned to the octet: its first bits are the valid ones. *)
Lemma tail_align SR H T :
  0 <= T < 8 -> T <= H < T + 8 ->
  exists S1,
    (if H <=? 8 then shl 32 SR (8 - H) else shr 32 SR (H - 8)) = Ok S1 /\
    take (Z.to_nat T) (bits 8 S1) = take (Z.to_nat T) (bits (Z.to_nat H) SR) /\
    (Forall (eq false) (drop (Z.to_nat T) (bits (Z.to_nat H) SR)) ->
     Forall (eq false) (drop (Z.to_nat T) (bits 8 S1))).
Proof.
  intros HT HH. destruct (Z.leb_spec H 8).
  - rewrite shl_ok by lia. eexists; split; [done|].
    assert (E : bits 8 (Z.shiftl SR (8 - H) mod 2 ^ 32) =
                bits (Z.to_nat H) SR ++ replicate (Z.to_nat (8 - H)) false).
    { rewrite bits_mod by lia. rewrite <- bits_shiftl. rewrite Z2Nat.id by lia. f_equal. lia. }
    rewrite E. split; [by rewrite take_app_le by (rewrite bits_length; lia)|].
    rewrite drop_app_le by (rewrite bits_length; lia). intros HF.
    apply Forall_app; split; [done|]. by apply Forall_replicate.
  - rewrite shr_ok by lia. eexists; split; [done|].
    assert (E : bits (Z.to_nat H) SR =
                bits 8 (Z.shiftr SR (H - 8)) ++ bits (Z.to_nat (H - 8)) SR).
    { replace (Z.to_nat H) with (8 + Z.to_nat (H - 8))%nat by lia.
      by rewrite bits_app, Z2Nat.id by lia. }
    rewrite E. rewrite take_app_le, drop_app_le by (rewrite bits_length; lia).
    split; [done|]. by intros [HF _]%Forall_app.
Qed.

Lemma zip_orb_app_false l1 l2 k :
  length l1 = 8%nat -> length l2 = (8 - k)%nat -> (k <= 8)%nat ->
  zip_with orb l1 (replicate k false ++ l2) = take k l1 ++ zip_with orb (drop k l1) l2.
Proof.
  intros H1 H2 Hk. rewrite <- (take_drop k l1) at 1.
  rewrite zip_with_app by (rewrite length_take, length_replicate; lia). f_equal.
  replace k with (length (take k l1)) at 2 by (rewrite length_take; lia).
  apply zip_orb_false_r.
Qed.

Lemma zip_orb_Forall_false l1 l2 :
  Forall (eq false) l1 -> length l1 = length l2 -> zip_with orb l1 l2 = l2.
Proof.
  intros HF; revert l2; induction HF as [|b l1 <- HF IH]; intros [|b2 l2] H; simplify_eq/=; [done..|].
  by rewrite IH.
Qed.

Lemma take_flat_zset Dst D v T :
  0 <= D < zlen Dst -> 0 <= T <= 8 ->
  take (Z.to_nat (8 * D + T)) (flat (zset Dst D v)) =
  flat (take (Z.to_nat D) Dst) ++ take (Z.to_nat T) (bits 8 v).
Proof.
  intros HD HT.
  rewrite <- (take_drop (S (Z.to_nat D)) (zset Dst D v)), take_S_zset, !flat_app by lia.
  rewrite flat_cons, app_nil_r, <- app_assoc.
  unfold zlen in HD.
  rewrite take_app, flat_length, length_take_le by lia.
  rewrite (take_ge (flat _)) by (rewrite flat_length, length_take; lia). f_equal.
  replace (Z.to_nat (8 * D + T) - 8 * Z.to_nat D)%nat with (Z.to_nat T) by lia.
  by rewrite take_app_le by (rewrite bits_length; lia).
Qed.

Lemma drop_flat_zset Dst D v T :
  0 <= D < zlen Dst -> 0 <= T <= 8 ->
  drop (Z.to_nat (8 * D + T)) (flat (zset Dst D v)) =
  drop (Z.to_nat T) (bits 8 v) ++ flat (drop (S (Z.to_nat D)) Dst).
Proof.
  intros HD HT.
  rewrite <- (take_drop (S (Z.to_nat D)) (zset Dst D v)), take_S_zset, !flat_app by lia.
  rewrite flat_cons, app_nil_r, <- app_assoc, drop_S_zset by lia.
  unfold zlen in HD.
  rewrite drop_app, flat_length, length_take_le by lia.
  rewrite (drop_ge (flat _)) by (rewrite flat_length, length_take; lia). cbn [app].
  replace (Z.to_nat (8 * D + T) - 8 * Z.to_nat D)%nat with (Z.to_nat T) by lia.
  by rewrite drop_app_le by (rewrite bits_length; lia).
Qed.

Lemma drop_flat_at Dst D T :
  0 <= D < zlen Dst -> 0 <= T <= 8 ->
  drop (Z.to_nat (8 * D + T)) (flat Dst) =
  drop (Z.to_nat T) (bits 8 (zget Dst D)) ++ flat (drop (S (Z.to_nat D)) Dst).
Proof.
  intros HD HT. rewrite <- (zset_zget Dst D HD) at 1. by apply drop_flat_zset.
Qed.

Lemma tail_merge S1 b T :
  0 < T < 8 ->
  bits 8 (u8 (Z.lor S1 (Z.land b (u32 (Z.shiftl 1 (8 - T) mod 2 ^ 32 - 1))))) =
  take (Z.to_nat T) (bits 8 S1) ++
  zip_with orb (drop (Z.to_nat T) (bits 8 S1)) (drop (Z.to_nat T) (bits 8 b)).
Proof.
  intros HT.
  assert (Hp : 0 < 2 ^ (8 - T) < 2 ^ 32)
    by (split; [apply Z.pow_pos_nonneg|apply Z.pow_lt_mono_r]; lia).
  rewrite Z.shiftl_mul_pow2, Z.mul_1_l, (Z.mod_small (2 ^ (8 - T))) by lia.
  unfold u32. rewrite Z.mod_small by lia.
  rewrite bits_u8, bits_lor, bits_low_mask by lia.
  apply zip_orb_app_false; rewrite ?length_drop, ?bits_length; lia.
Qed.

Lemma pack_tail_ok SR H T Dst D :
  octets Dst -> 0 <= D -> 0 <= T < 8 -> T <= H < T + 8 -> 8 * D + T <= 8 * zlen Dst ->
  exists Dst',
    pack_tail SR H T Dst D = Ok Dst' /\ octets Dst' /\ zlen Dst' = zlen Dst /\
    take (Z.to_nat (8 * D + T)) (flat Dst') =
      flat (take (Z.to_nat D) Dst) ++ take (Z.to_nat T) (bits (Z.to_nat H) SR) /\
    (Forall (eq false) (drop (Z.to_nat T) (bits (Z.to_nat H) SR)) ->
     drop (Z.to_nat (8 * D + T)) (flat Dst') = drop (Z.to_nat (8 * D + T)) (flat Dst)).
Proof.
  intros Ho HD HT HH Hlen. unfold pack_tail. destruct (T >? 0) eqn:ET.
  - destruct (tail_align SR H T HT HH) as (S1 & -> & Htake & Hdrop). simpl rbind.
    rewrite rd_ok by lia. simpl rbind. rewrite shl_ok by lia. simpl rbind.
    rewrite wr_ok by lia. eexists; split; [done|]. split_and!.
    + apply octets_zset; [done|apply octet_u8].
    + by rewrite zlen_zset.
    + rewrite take_flat_zset, tail_merge by lia. f_equal. rewrite <- Htake.
      rewrite take_app_length' by (rewrite length_take, bits_length; lia). done.
    + intros HF. rewrite drop_flat_zset, drop_flat_at, tail_merge by lia. f_equal.
      rewrite drop_app_length' by (rewrite length_take, bits_length; lia).
      apply zip_orb_Forall_false; [by apply Hdrop|by rewrite !length_drop, !bits_length].
  - replace T with 0 in * by lia. rewrite Z.add_0_r in *.
    exists Dst. split_and!; [done..| |done]. simpl take at 2. rewrite app_nil_r.
    rewrite flat_take. f_equal. lia.
Qed.

(** ** The whole transfer *)

Lemma bits_shiftr n r v : 0 <= r -> bits n (Z.shiftr v r) = take n (bits (n + Z.to_nat r) v).
Proof.
  intros Hr. rewrite bits_app, Z2Nat.id, take_app_length' by (rewrite ?bits_length; lia). done.
Qed.

Lemma preload_ok Dst dp off :
  octets Dst -> 0 <= dp < zlen Dst -> 0 <= off <= 7 ->
  exists S0,
    (if off =? 0 then Ok 0 else let* b := rd Dst dp in shr 32 b (8 - off)) = Ok S0 /\
    bits (Z.to_nat off) S0 = take (Z.to_nat off) (bits 8 (zget Dst dp)).
Proof.
  intros Ho Hdp Hoff. destruct (Z.eqb_spec off 0) as [->|].
  - by eexists.
  - rewrite rd_ok by lia. simpl rbind. rewrite shr_ok by lia. eexists; split; [done|].
    rewrite bits_shiftr by lia. do 2 f_equal. lia.
Qed.

(** The octet that holds the first valid bits, after whole octets of padding. *)
Lemma lead_step Load p stride bs L S0 off Dst dp pre :
  loads Load p stride bs -> octets bs -> 0 < L -> L / 8 < zlen bs -> 0 <= off <= 7 ->
  0 <= dp < zlen Dst -> octets Dst -> bits (Z.to_nat off) S0 = pre ->
  exists S1,
    (let* b := rd Load (p + L / 8 * stride) in
     shr 32 (Z.lor (u32 (Z.shiftl S0 8)) b) (Z.land L 7)) = Ok S1 /\
    pack_inv L bs Dst dp pre (L / 8 + 1) S1 (off + (8 - Z.land L 7)) Dst dp.
Proof.
  intros Hld Hbs HL Hlt Hoff Hdp Ho <-.
  pose proof (Z.div_pos L 8 ltac:(lia) ltac:(lia)) as Hq.
  assert (Er : Z.land L 7 = L mod 8) by (apply (land_mask L 3); lia).
  pose proof (Z.mod_pos_bound L 8 ltac:(lia)) as Hr. rewrite Er.
  rewrite Hld by lia. simpl rbind. rewrite shr_ok by lia. eexists; split; [done|].
  constructor; [done..|]. f_equal.
  replace (Z.to_nat (L / 8 + 1)) with (S (Z.to_nat (L / 8))) by lia.
  unfold zlen in Hlt.
  assert (Hlk : bs !! Z.to_nat (L / 8) = Some (zget bs (L / 8)))
    by (apply list_lookup_lookup_total_lt; lia).
  unfold stream. rewrite (take_S_r _ _ _ Hlk), drop_app_length' by (rewrite length_take; lia).
  rewrite app_nil_r.
  pose proof (octets_zget bs (L / 8) Hbs ltac:(unfold zlen; lia)) as Hoct. unfold is_octet in Hoct.
  rewrite bits_shiftr by lia.
  replace (Z.to_nat (off + (8 - L mod 8)) + Z.to_nat (L mod 8))%nat with (Z.to_nat off + 8)%nat by lia.
  replace (bits (Z.to_nat off + 8) _)
    with (bits (Z.to_nat off + 8) (Z.lor (Z.shiftl S0 (Z.of_nat 8)) (zget bs (L / 8)))).
  - rewrite bits_lor_shiftl by (simpl; lia). rewrite take_app, bits_length.
    rewrite take_ge by (rewrite bits_length; lia). f_equal.
    rewrite bits_shiftr by lia. f_equal; [lia|]. f_equal; lia.
  - apply bits_ext; intros i Hi. rewrite !Z.lor_spec. f_equal. unfold u32.
    symmetry. apply Z.mod_pow2_bits_low. lia.
Qed.

(** Before the loops: the register holds the bits of the destination that stay
    and the valid bits of the first octet, if that is a partial one. *)
Lemma lead_ok Load p stride bs L S0 off Dst dp pre N :
  loads Load p stride bs -> octets bs -> 0 <= L -> 0 < N -> 0 <= off <= 7 ->
  N <= 8 * zlen bs - L ->
  0 <= dp < zlen Dst -> octets Dst -> bits (Z.to_nat off) S0 = pre ->
  exists S1 H1 j1,
    (if L >? 0 then
       let* b := rd Load (p + L / 8 * stride) in
       let* S1 := shr 32 (Z.lor (u32 (Z.shiftl S0 8)) b) (Z.land L 7) in
       Ok (S1, u32 (off + (8 - Z.land L 7)), p + L / 8 * stride + stride)
     else Ok (S0, off, p)) = Ok (S1, H1, p + j1 * stride) /\
    pack_inv L bs Dst dp pre j1 S1 H1 Dst dp /\
    0 <= H1 <= 15 /\ off + 8 * j1 - L = H1 /\ 0 <= j1 <= zlen bs /\
    (L = 0 /\ j1 = 0 \/ 0 < L /\ L / 8 < j1).
Proof.
  intros Hld Hbs HL HN Hoff Hsz Hdp Ho Hpre. destruct (Z.gtb_spec L 0).
  - assert (Er : Z.land L 7 = L mod 8) by (apply (land_mask L 3); lia).
    pose proof (Z.div_mod L 8 ltac:(lia)). pose proof (Z.mod_pos_bound L 8 ltac:(lia)).
    destruct (lead_step Load p stride bs L S0 off Dst dp pre Hld Hbs ltac:(lia) ltac:(lia)
                Hoff Hdp Ho Hpre) as (S1 & E & Hinv).
    destruct (rd Load (p + L / 8 * stride)); simpl in *; try done. rewrite E. simpl.
    exists S1, (off + (8 - Z.land L 7)), (L / 8 + 1).
    rewrite u32_id by range.
    replace (p + L / 8 * stride + stride) with (p + (L / 8 + 1) * stride) by lia.
    pose proof (Z.div_pos L 8 HL ltac:(lia)). split_and!; [done..|lia|lia|lia|lia|lia|lia].
  - exists S0, off, 0. replace L with 0 in * by lia. rewrite Z.mul_0_l, Z.add_0_r.
    split_and!; [done| |lia..]. constructor; [done..|].
    by rewrite Hpre, stream_0, app_nil_r.
Qed.

Lemma take_flat_at Dst D T :
  0 <= D < zlen Dst -> 0 <= T <= 8 ->
  take (Z.to_nat (8 * D + T)) (flat Dst) =
  flat (take (Z.to_nat D) Dst) ++ take (Z.to_nat T) (bits 8 (zget Dst D)).
Proof.
  intros HD HT. rewrite <- (zset_zget Dst D HD) at 1. by apply take_flat_zset.
Qed.

(** The same string cut in two ways, up to a position in the second part of
    both. *)
Lemma field_split (a b c s : list bool) (t n : nat) :
  a ++ b = c ++ s -> (length a + t = length c + n)%nat -> (t <= length b)%nat ->
  a ++ take t b = c ++ take n s /\ drop t b = drop n s /\ (n <= length s)%nat.
Proof.
  intros H Hl Ht. assert (length a + length b = length c + length s)%nat
    by (apply (f_equal length) in H; by rewrite !length_app in H).
  apply (f_equal (take (length a + t))) in H as H1. apply (f_equal (drop (length a + t))) in H as H2.
  rewrite take_app_add, Hl, take_app_add in H1. rewrite drop_app_add, Hl, drop_app_add in H2.
  split_and!; [done|done|lia].
Qed.

(** A field of [N] bits at [off] bits into octet [dp]: everything before it
    is kept, the field is the prefix of the stream, and everything after it is
    kept when the bits of the stream beyond the field are zero. *)
Lemma pack_bits_ok Load p stride bs L Dst dp off N :
  loads Load p stride bs -> octets bs -> octets Dst ->
  0 <= L -> 0 < N -> 0 <= off <= 7 -> off + N < 2 ^ 32 ->
  N <= 8 * zlen bs - L -> (L = 0 \/ N = 8 * zlen bs - L) ->
  0 <= dp -> 8 * dp + off + N <= 8 * zlen Dst ->
  exists Dst',
    pack_bits Load p stride L Dst dp off N = Ok Dst' /\ octets Dst' /\ zlen Dst' = zlen Dst /\
    take (Z.to_nat (8 * dp + off + N)) (flat Dst') =
      take (Z.to_nat (8 * dp + off)) (flat Dst) ++ take (Z.to_nat N) (stream L bs) /\
    (Forall (eq false) (drop (Z.to_nat N) (stream L bs)) ->
     drop (Z.to_nat (8 * dp + off + N)) (flat Dst') = drop (Z.to_nat (8 * dp + off + N)) (flat Dst)).
Proof.
  intros Hld Hbs Ho HL HN Hoff Hov Hsz Hex Hdp Hdst.
  assert (Hdp' : 0 <= dp < zlen Dst) by lia.
  unfold pack_bits.
  destruct (preload_ok Dst dp off Ho Hdp' Hoff) as (S0 & -> & Hpre). simpl rbind.
  rewrite (u32_id (off + N)) by range.
  destruct (lead_ok Load p stride bs L S0 off Dst dp _ N Hld Hbs HL HN Hoff Hsz Hdp' Ho Hpre)
    as (S1 & H1 & j1 & -> & Hinv1 & HH1 & Hj1 & Hj1' & Hor1). simpl rbind.
  assert (Hfuel : Z.of_nat (pack_fuel (off + N)) = off + N + 8) by (unfold pack_fuel; lia).
  assert (HT1 : H1 <= off + N).
  { destruct Hex as [-> | ->], Hor1 as [[_ ->]|]; lia. }
  edestruct (pack_load_ok Load p stride L bs Dst dp _ Hld Hbs HL Hdp (pack_fuel (off + N)) j1 S1 H1
    (off + N) Dst dp Hinv1) as (j2 & S2 & H2 & T2 & Dst2 & D2 & -> & Hinv2 & R2); [lia..|].
  destruct R2 as (HH2 & HT2 & HTle & HDT2 & Hj2 & Hor2). simpl rbind.
  edestruct (pack_flush_ok L bs Dst dp _ Hdp (pack_fuel (off + N)) j2 S2 H2 T2 Dst2 D2 Hinv2)
    as (H3 & T3 & Dst3 & D3 & -> & Hinv3 & HH3 & HT3 & HDT3);
    [pose proof (pi_len _ _ _ _ _ _ _ _ _ _ Hinv2); lia..|].
  simpl rbind.
  destruct Hinv3 as [Ho3 Hlen3 HD3 Hrest3 Hbits3].
  destruct (pack_tail_ok S2 H3 T3 Dst3 D3 Ho3) as (Dst4 & -> & Ho4 & Hlen4 & Htake4 & Hdrop4); [lia..|].
  destruct (stream_take_prefix L bs j2 HL ltac:(lia) ltac:(lia)) as [tl Htl].
  destruct (field_split (flat (take (Z.to_nat D3) Dst3)) (bits (Z.to_nat H3) S2)
              (take (Z.to_nat (8 * dp + off)) (flat Dst)) (stream L (take (Z.to_nat j2) bs))
              (Z.to_nat T3) (Z.to_nat N)) as (Hf1 & Hf2 & Hf3).
  { by rewrite take_flat_at, <- app_assoc by lia. }
  { rewrite flat_length, !length_take, flat_length. unfold zlen in *. lia. }
  { rewrite bits_length. lia. }
  exists Dst4. split_and!; [done|done|lia| |].
  - replace (8 * dp + off + N) with (8 * D3 + T3) by lia. rewrite Htake4, Hf1. f_equal.
    by rewrite Htl, take_app_le.
  - rewrite Htl, drop_app_le by done. intros [HF _]%Forall_app.
    replace (8 * dp + off + N) with (8 * D3 + T3) by lia.
    rewrite Hdrop4 by (by rewrite Hf2).
    replace (Z.to_nat (8 * D3 + T3)) with (8 * Z.to_nat D3 + Z.to_nat T3)%nat by lia.
    by rewrite <- !drop_drop, <- !flat_drop, Hrest3.
Qed.
