(* ===== verification/EdsUnpackProofs.v ===== *)
(** [DoBitwiseUnpack]'s shift register takes the bits of a field out of the
    packed buffer and stores them, octet by octet, with zeros for padding.

    The proof follows the register: what is still to be stored equals, up to
    trailing zeros, the bits of the register below bit 24 followed by the bits
    of the source not yet fetched. *)

From S2P Require Import Prelude.
From S2P Require Import EdsTypes EdsBits EdsPack EdsPackProofs.

(** * Equality up to trailing zeros *)

Definition zeq (l l' : list bool) : Prop := forall i, nth i l false = nth i l' false.
Infix "=0=" := zeq (at level 70).

#[global] Instance zeq_equiv : Equivalence zeq.
Proof. split; [by intros l i|by intros l l' H i|by intros l l' l'' H1 H2 i; rewrite H1]. Qed.

Lemma nth_drop_b i k (l : list bool) : nth i (drop k l) false = nth (k + i) l false.
Proof. revert l; induction k; intros [|b l]; simpl; [done| done |by destruct i|done]. Qed.

#[global] Instance drop_zeq k : Proper (zeq ==> zeq) (drop k).
Proof. intros l l' H i. rewrite !nth_drop_b. apply H. Qed.

Lemma nth_app_b i (l1 l2 : list bool) :
  nth i (l1 ++ l2) false =
  if decide (i < length l1)%nat then nth i l1 false else nth (i - length l1) l2 false.
Proof. case_decide; [by apply app_nth1|apply app_nth2; lia]. Qed.

#[global] Instance app_zeq l : Proper (zeq ==> zeq) (app l).
Proof. intros l1 l2 H i. rewrite !nth_app_b. case_decide; [done|apply H]. Qed.

Lemma nth_bits i n v :
  nth i (bits n v) false = (if decide (i < n)%nat then Z.testbit v (Z.of_nat (n - 1 - i)) else false).
Proof.
  revert i; induction n as [|n IH]; intros i.
  - case_decide; [lia|]. by destruct i.
  - destruct i as [|i].
    + case_decide; [|lia]. simpl. do 2 f_equal. lia.
    + cbn [bits nth]. rewrite IH. repeat case_decide; try lia; do 2 f_equal; lia.
Qed.

Lemma nth_take_b i k (l : list bool) :
  nth i (take k l) false = if decide (i < k)%nat then nth i l false else false.
Proof.
  revert i l; induction k as [|k IH]; intros i l.
  - case_decide; [lia|]. by destruct i.
  - destruct l as [|b l]; [by destruct i; case_decide|].
    destruct i as [|i]; [by case_decide; [|lia]|].
    cbn [take nth]. rewrite IH. repeat case_decide; try lia; done.
Qed.

Lemma nth_replicate_false i k : nth i (replicate k false) false = false.
Proof. revert i; induction k; intros [|i]; simpl; auto. Qed.

Lemma zeq_zeros l k : l ++ replicate k false =0= l.
Proof.
  intros i. rewrite nth_app_b. case_decide; [done|].
  rewrite nth_replicate_false, nth_overflow; [done|lia].
Qed.

Lemma zeq_length_eq l l' : l =0= l' -> length l = length l' -> l = l'.
Proof. intros H Hl. apply (nth_ext _ _ false false); [done|]. intros. apply H. Qed.

(** * Octets of a bit string *)

Definition octet_of (l : list bool) : Z := bits_val (take 8 (l ++ replicate 8 false)).
Fixpoint chunks (n : nat) (l : list bool) : list Z :=
  match n with
  | O => []
  | S n => octet_of l :: chunks n (drop 8 l)
  end.

Lemma octet_of_zeq l l' : l =0= l' -> octet_of l = octet_of l'.
Proof.
  intros H. unfold octet_of. f_equal. apply zeq_length_eq.
  - intros i. rewrite !nth_take_b. case_decide; [|done].
    rewrite (zeq_zeros l 8 i), (zeq_zeros l' 8 i). apply H.
  - rewrite !length_take, !length_app, !length_replicate. lia.
Qed.

Lemma chunks_zeq n l l' : l =0= l' -> chunks n l = chunks n l'.
Proof.
  revert l l'; induction n as [|n IH]; intros l l' H; simpl; [done|].
  rewrite (octet_of_zeq _ _ H). f_equal. apply IH. by rewrite H.
Qed.

Lemma octet_of_bits v l : octet_of (bits 8 v ++ l) = u8 v.
Proof.
  unfold octet_of. rewrite <- app_assoc, take_app_length' by (by rewrite bits_length).
  apply bits_val_bits.
Qed.

Lemma octet_of_octet l : is_octet (octet_of l).
Proof.
  unfold octet_of, is_octet. pose proof (bits_val_range (take 8 (l ++ replicate 8 false))) as H.
  rewrite length_take, length_app, length_replicate in H.
  replace (Z.of_nat (8 `min` (length l + 8))) with 8 in H by lia. done.
Qed.

Lemma chunks_length n l : length (chunks n l) = n.
Proof. revert l; induction n; intros l; simpl; auto. Qed.

Lemma chunks_octets n l : octets (chunks n l).
Proof.
  revert l; induction n as [|n IH]; intros l; [by constructor|].
  constructor; [apply octet_of_octet|apply IH].
Qed.

Lemma flat_chunks n l : flat (chunks n l) = take (8 * n) (l ++ replicate (8 * n) false).
Proof.
  revert l; induction n as [|n IH]; intros l; [done|].
  change (chunks (S n) l) with (octet_of l :: chunks n (drop 8 l)).
  rewrite flat_cons, IH. unfold octet_of.
  replace 8%nat with (length (take 8 (l ++ replicate 8 false))) at 1
    by (rewrite length_take, length_app, length_replicate; lia).
  rewrite bits_bits_val. apply zeq_length_eq.
  - intros i. rewrite nth_app_b, !nth_take_b.
    rewrite length_take, length_app, length_replicate.
    rewrite (zeq_zeros l 8 i), (zeq_zeros l _ i), (zeq_zeros (drop 8 l) _ _), nth_drop_b.
    replace (8 + (i - 8 `min` (length l + 8)))%nat with (i `max` 8)%nat by lia.
    repeat case_decide; try lia; try done. f_equal. lia.
  - rewrite !length_app, !length_take, !length_app, length_drop, !length_replicate. lia.
Qed.

(** * Stores along a stride *)

Fixpoint put (m : list Z) (p stride : Z) (l : list Z) : list Z :=
  match l with
  | [] => m
  | b :: l => put (zset m p b) (p + stride) stride l
  end.

Lemma put_app m p stride l1 l2 :
  put m p stride (l1 ++ l2) = put (put m p stride l1) (p + zlen l1 * stride) stride l2.
Proof.
  revert m p; induction l1 as [|b l1 IH]; intros m p.
  - simpl. f_equal. change (zlen (@nil Z)) with 0. lia.
  - simpl. rewrite IH. f_equal. rewrite zlen_cons. lia.
Qed.

Lemma put_zlen m p stride l : zlen (put m p stride l) = zlen m.
Proof. revert m p; induction l; intros m p; simpl; [done|]. by rewrite IHl, zlen_zset. Qed.

Lemma put_octets m p stride l : octets m -> octets l -> octets (put m p stride l).
Proof.
  intros Hm Hl; revert m p Hm; induction Hl; intros m p Hm; simpl; [done|].
  apply IHHl. by apply octets_zset.
Qed.

(** The positions of [n] stores are in the buffer. *)
Definition fits (m : list Z) (p stride n : Z) : Prop :=
  forall i, 0 <= i < n -> 0 <= p + i * stride < zlen m.

Lemma fits_next m p stride n b :
  fits m p stride n -> fits (zset m p b) (p + stride) stride (n - 1).
Proof. intros H i Hi. rewrite zlen_zset. specialize (H (i + 1)). lia. Qed.

(** * The register *)

(** The bits still to be stored, of the register [SR] with [Low] unused bits
    at the bottom and of the source bits [S]; its top octet is spent. *)
Definition pending (SR Low : Z) (S : list bool) : list bool :=
  drop 8 (bits (Z.to_nat (32 - Low)) (Z.shiftr SR Low) ++ S).

Definition low_zero (SR Low : Z) : Prop := forall i, 0 <= i < Low -> Z.testbit SR i = false.

(** Shifting [k] spent bits out at the top. *)
Lemma pending_shift SR Low S k :
  0 <= k <= 8 -> 0 <= Low <= 16 -> low_zero SR Low ->
  pending (u32 (Z.shiftl SR k)) (Low + k) S = drop (Z.to_nat k) (pending SR Low S) /\
  low_zero (u32 (Z.shiftl SR k)) (Low + k).
Proof.
  intros Hk HLow Hz. split.
  - unfold pending. rewrite drop_drop.
    rewrite !drop_app_le by (rewrite bits_length; lia). f_equal.
    replace (Z.to_nat (32 - Low)) with (Z.to_nat k + Z.to_nat (32 - (Low + k)))%nat by lia.
    rewrite bits_app, (Nat.add_comm 8), <- drop_drop.
    rewrite drop_app_length' by (by rewrite bits_length). f_equal.
    apply bits_ext; intros i Hi. rewrite !Z.shiftr_spec by lia. unfold u32.
    rewrite Z.mod_pow2_bits_low, Z.shiftl_spec by lia. f_equal. lia.
  - intros i Hi. unfold u32. rewrite Z.mod_pow2_bits_low by lia.
    destruct (decide (i < k)); [apply Z.shiftl_spec_low; lia|].
    rewrite Z.shiftl_spec by lia. apply Hz. lia.
Qed.

(** The octet that is stored: bits 16 to 23. *)
Lemma pending_octet SR Low S :
  0 <= Low <= 16 -> exists tl, pending SR Low S = bits 8 (Z.shiftr SR 16) ++ tl.
Proof.
  intros HLow. unfold pending.
  replace (Z.to_nat (32 - Low)) with (8 + (8 + Z.to_nat (16 - Low)))%nat by lia.
  rewrite bits_app, <- app_assoc, drop_app_length' by (by rewrite bits_length).
  rewrite bits_app, <- app_assoc. eexists. f_equal. f_equal.
  rewrite Z.shiftr_shiftr by lia. f_equal. lia.
Qed.

Lemma bits_fetch SR Low b n :
  low_zero SR Low -> 8 <= Low -> is_octet b ->
  bits (n + 8) (Z.shiftr (Z.lor SR (Z.shiftl b (Low - 8))) (Low - 8)) =
  bits n (Z.shiftr SR Low) ++ bits 8 b.
Proof.
  intros Hz HLow Hb. unfold is_octet in Hb.
  rewrite <- (bits_lor_shiftl n 8) by (simpl; lia). apply bits_ext; intros i Hi.
  rewrite Z.shiftr_spec, !Z.lor_spec by lia.
  rewrite Z.shiftl_spec by lia. replace (i + (Low - 8) - (Low - 8)) with i by lia. f_equal.
  destruct (decide (i < 8)).
  - rewrite Z.shiftl_spec_low by lia. apply Hz. lia.
  - rewrite Z.shiftl_spec, Z.shiftr_spec by lia. f_equal. lia.
Qed.

(** The unread bits of the source. *)
Definition unread (Src : list Z) (sp T : Z) : list bool :=
  take (Z.to_nat T) (flat (drop (Z.to_nat sp) Src)).

Lemma unread_cons Src sp T :
  0 <= sp < zlen Src -> 8 <= T ->
  unread Src sp T = bits 8 (zget Src sp) ++ unread Src (sp + 1) (T - 8).
Proof.
  intros Hsp HT. unfold unread. rewrite (drop_zget Src sp Hsp), flat_cons.
  rewrite take_app, bits_length, (take_ge (bits 8 _)) by (rewrite bits_length; lia).
  replace (Z.to_nat (sp + 1)) with (S (Z.to_nat sp)) by lia.
  by replace (Z.to_nat T - 8)%nat with (Z.to_nat (T - 8)) by lia.
Qed.

Lemma unread_short Src sp T :
  0 <= sp < zlen Src -> 0 <= T <= 8 ->
  unread Src sp T = take (Z.to_nat T) (bits 8 (zget Src sp)).
Proof.
  intros Hsp HT. unfold unread. rewrite (drop_zget Src sp Hsp), flat_cons.
  by rewrite take_app_le by (rewrite bits_length; lia).
Qed.

Lemma bits_low_zero SR Low :
  0 <= Low <= 32 -> low_zero SR Low ->
  bits 32 SR =0= bits (Z.to_nat (32 - Low)) (Z.shiftr SR Low).
Proof.
  intros HLow Hz.
  replace 32%nat with (Z.to_nat (32 - Low) + Z.to_nat Low)%nat by lia.
  rewrite bits_app, Z2Nat.id by lia.
  replace (bits (Z.to_nat Low) SR) with (replicate (Z.to_nat Low) false); [apply zeq_zeros|].
  rewrite <- bits_0. apply bits_ext; intros i Hi. rewrite Z.bits_0. symmetry. apply Hz. lia.
Qed.

(** The mask [~((1 << k) - 1)]. *)
Lemma high_mask_bit k i :
  0 <= k < 32 -> 0 <= i < 32 ->
  Z.testbit (u32 (Z.lnot (Z.shiftl 1 k mod 2 ^ 32 - 1))) i = (k <=? i).
Proof.
  intros Hk Hi. unfold u32. rewrite Z.mod_pow2_bits_low, Z.lnot_spec by lia.
  rewrite Z.shiftl_1_l, Z.mod_small by (split; [lia|apply Z.pow_lt_mono_r; lia]).
  rewrite <- Z.ones_equiv || rewrite Z.sub_1_r, <- Z.ones_equiv.
  destruct (Z.leb_spec k i).
  - by rewrite Z.ones_spec_high by lia.
  - by rewrite Z.ones_spec_low by lia.
Qed.

Lemma bits_fetch_last SR Low b T :
  low_zero SR Low -> 8 < Low <= 31 -> 0 < T < 8 -> is_octet b ->
  bits 32 (Z.land (Z.lor SR (Z.shiftl b (Low - 8) mod 2 ^ 32))
                  (u32 (Z.lnot (Z.shiftl 1 (Low - T) mod 2 ^ 32 - 1)))) =0=
  bits (Z.to_nat (32 - Low)) (Z.shiftr SR Low) ++ take (Z.to_nat T) (bits 8 b).
Proof.
  intros Hz HLow HT Hb i.
  rewrite nth_app_b, bits_length, nth_take_b, !nth_bits.
  destruct (decide (i < 32)%nat) as [Hi|Hi].
  - rewrite Z.land_spec, Z.lor_spec, high_mask_bit by lia.
    rewrite Z.mod_pow2_bits_low, Z.shiftl_spec by lia.
    case_decide as H1.
    + rewrite Z.shiftr_spec by lia.
      rewrite (testbit_above b 8) by (unfold is_octet in Hb; lia).
      rewrite orb_false_r. destruct (Z.leb_spec (Low - T) (Z.of_nat (32 - 1 - i))); [|lia].
      rewrite andb_true_r. f_equal. lia.
    + rewrite (Hz (Z.of_nat (32 - 1 - i))) by lia. simpl orb.
      case_decide as H2.
      * rewrite decide_True by lia. destruct (Z.leb_spec (Low - T) (Z.of_nat (32 - 1 - i))); [|lia].
        rewrite andb_true_r. f_equal. lia.
      * destruct (Z.leb_spec (Low - T) (Z.of_nat (32 - 1 - i))); [lia|]. apply andb_false_r.
  - repeat case_decide; try lia; done.
Qed.

Lemma unpack_fetch_ok Src sp SR Low T :
  octets Src -> 0 <= sp -> 0 <= T -> 8 * sp + T <= 8 * zlen Src -> 0 <= Low <= 31 -> low_zero SR Low ->
  exists sp' SR' Low' T',
    unpack_fetch Src sp SR Low T = Ok (sp', SR', Low', T') /\
    0 <= sp' /\ 0 <= T' /\ 8 * sp' + T' <= 8 * zlen Src /\ 0 <= Low' <= 31 /\ low_zero SR' Low' /\
    (Low' <= 16 \/ 24 < Low /\ Low' <= 24) /\
    pending SR' Low' (unread Src sp' T') =0= pending SR Low (unread Src sp T).
Proof.
  intros Ho Hsp HT Hlen HLow Hz. unfold unpack_fetch.
  destruct (Low >? 8) eqn:EL; [|exists sp, SR, Low, T; split_and!; (done || lia)].
  destruct (T >? 0) eqn:ET.
  - rewrite rd_ok by lia. simpl rbind. rewrite shl_ok by lia. simpl rbind.
    pose proof (octets_zget Src sp Ho ltac:(lia)) as Hb. unfold is_octet in Hb.
    destruct (T <? 8) eqn:ET8.
    + rewrite shl_ok by lia. eexists _, _, _, _. split; [done|].
      split_and!; [lia..|intros i Hi; lia|lia|].
      rewrite (unread_short Src sp) by lia. unfold pending, unread at 1. simpl take. rewrite app_nil_r.
      rewrite Z.shiftr_0_r. apply drop_zeq. by apply bits_fetch_last; [done|lia..|].
    + eexists _, _, _, _. split; [done|].
      rewrite Z.mod_small by
        (rewrite Z.shiftl_mul_pow2 by lia; split; [nia|];
         apply Z.lt_le_trans with (2 ^ 8 * 2 ^ (Low - 8)); [nia|];
         rewrite <- Z.pow_add_r by lia; apply Z.pow_le_mono_r; lia).
      split_and!; [lia..| |lia|].
      * intros i Hi. rewrite Z.lor_spec, Hz, Z.shiftl_spec_low by lia. done.
      * rewrite (unread_cons Src sp) by lia. unfold pending.
        replace (Z.to_nat (32 - (Low - 8))) with (Z.to_nat (32 - Low) + 8)%nat by lia.
        rewrite bits_fetch by (done || lia). by rewrite app_assoc.
  - exists sp, SR, 0, T. split_and!; [done|lia..|intros i Hi; lia|lia|].
    replace T with 0 by lia. unfold pending, unread. simpl take. rewrite !app_nil_r, Z.shiftr_0_r.
    apply drop_zeq. apply bits_low_zero; [lia|done].
Qed.

(** * The loop *)

Lemma octet_of_pending SR Low S :
  0 <= Low <= 16 -> octet_of (pending SR Low S) = u8 (Z.shiftr SR 16).
Proof. intros H. destruct (pending_octet SR Low S H) as [tl ->]. apply octet_of_bits. Qed.

(** The stored partial octet: [k] valid bits at the top. *)
Lemma octet_of_partial SR Low S r :
  0 <= Low <= 16 -> 0 < r < 8 ->
  octet_of (take (Z.to_nat (8 - r)) (pending SR Low S)) =
  u8 (Z.land (Z.shiftr SR 16) (Z.lxor (u32 (Z.shiftl 1 r mod 2 ^ 32 - 1)) 255)).
Proof.
  intros HLow Hr. destruct (pending_octet SR Low S HLow) as [tl ->].
  rewrite take_app_le by (rewrite bits_length; lia).
  rewrite (octet_of_zeq _ (bits 8 (Z.land (Z.shiftr SR 16)
             (Z.lxor (u32 (Z.shiftl 1 r mod 2 ^ 32 - 1)) 255)))).
  - rewrite <- (app_nil_r (bits 8 (Z.land _ _))). apply octet_of_bits.
  - intros i. rewrite nth_take_b, !nth_bits.
    assert (Hp : 0 < 2 ^ r < 2 ^ 32)
      by (split; [apply Z.pow_pos_nonneg|apply Z.pow_lt_mono_r]; lia).
    rewrite Z.shiftl_1_l, (Z.mod_small (2 ^ r)) by lia. unfold u32. rewrite Z.mod_small by lia.
    destruct (decide (i < 8)%nat); [|by case_decide].
    rewrite Z.land_spec, Z.lxor_spec.
    change 255 with (Z.ones 8). rewrite (Z.ones_spec_low 8) by lia.
    rewrite Z.sub_1_r, <- Z.ones_equiv. case_decide.
    + rewrite Z.ones_spec_high by lia. simpl. by rewrite andb_true_r.
    + rewrite Z.ones_spec_low by lia. simpl. by rewrite andb_false_r.
Qed.

Section Loop.
Variables (Src : list Z) (Leading ConvBits Stride : Z).
Hypothesis Hsrc : octets Src.

Record fetched (sp SR Low T : Z) : Prop := {
  fe_sp : 0 <= sp;
  fe_T : 0 <= T;
  fe_len : 8 * sp + T <= 8 * zlen Src;
  fe_low : 0 <= Low <= 31;
  fe_zero : low_zero SR Low }.

(** Turns needed for [n] more octets: one more when the register starts
    beyond the window. *)
Definition turns (n : nat) (Low : Z) : nat := n + 1 + (if 24 <? Low then 1 else 0).

Lemma unpack_whole n : forall fuel sp SR Low T Fill Store p,
  fetched sp SR Low T -> Leading <= Fill -> ConvBits - Fill = 8 * Z.of_nat n ->
  fits Store p Stride (Z.of_nat n) -> (turns n Low <= fuel)%nat ->
  unpack_loop fuel Src sp SR Low T Fill Leading ConvBits Stride Store p =
  Ok (put Store p Stride (chunks n (pending SR Low (unread Src sp T)))).
Proof.
  intros fuel. revert n; induction fuel as [|fuel IH];
    intros n sp SR Low T Fill Store p [Hsp HT Hlen HLow Hz] HFill Hn Hfit Hfuel;
    unfold turns in *; [lia|]. simpl.
  destruct n as [|n].
  { replace (Fill <? ConvBits) with false by lia. done. }
  replace (Fill <? ConvBits) with true by lia.
  destruct (unpack_fetch_ok Src sp SR Low T) as
    (sp' & SR' & Low' & T' & -> & Hsp' & HT' & Hlen' & HLow' & Hz' & Hwin & Hpend); [done..|].
  simpl rbind. destruct (Z.leb_spec Low' 16).
  - replace (Fill <? Leading) with false by lia.
    rewrite wr_ok by (specialize (Hfit 0); lia). simpl rbind.
    destruct (pending_shift SR' Low' (unread Src sp' T') 8) as [Hps Hzs]; [lia..|done|].
    rewrite (IH n); [| |lia|lia| |].
    + rewrite Hps. simpl chunks. rewrite <- (octet_of_zeq _ _ Hpend), octet_of_pending by lia.
      cbn [put]. do 2 f_equal. apply chunks_zeq. by rewrite Hpend.
    + constructor; (done || lia).
    + replace (Z.of_nat n) with (Z.of_nat (S n) - 1) by lia. by apply fits_next.
    + destruct (Z.ltb_spec 24 Low), (Z.ltb_spec 24 (Low' + 8)); lia.
  - rewrite (IH (S n)); [| |lia|lia|done|].
    + do 2 f_equal. by apply chunks_zeq.
    + constructor; (done || lia).
    + destruct (Z.ltb_spec 24 Low), (Z.ltb_spec 24 Low'); lia.
Qed.

Lemma unpack_partial n : forall fuel sp SR Low T Fill Store p,
  fetched sp SR Low T -> 0 < Leading - Fill < 8 -> ConvBits - Fill = 8 * Z.of_nat (S n) ->
  fits Store p Stride (Z.of_nat (S n)) -> (turns (S n) Low <= fuel)%nat ->
  unpack_loop fuel Src sp SR Low T Fill Leading ConvBits Stride Store p =
  Ok (put Store p Stride
        (let w := pending SR Low (unread Src sp T) in
         let k := Z.to_nat (8 - (Leading - Fill)) in
         octet_of (take k w) :: chunks n (drop k w))).
Proof.
  intros fuel. revert n; induction fuel as [|fuel IH];
    intros n sp SR Low T Fill Store p [Hsp HT Hlen HLow Hz] HFill Hn Hfit Hfuel;
    unfold turns in *; [lia|]. simpl.
  replace (Fill <? ConvBits) with true by lia.
  destruct (unpack_fetch_ok Src sp SR Low T) as
    (sp' & SR' & Low' & T' & -> & Hsp' & HT' & Hlen' & HLow' & Hz' & Hwin & Hpend); [done..|].
  simpl rbind.
  assert (Hoct : forall k, octet_of (take k (pending SR' Low' (unread Src sp' T'))) =
                           octet_of (take k (pending SR Low (unread Src sp T)))).
  { intros k. apply octet_of_zeq. intros i. rewrite !nth_take_b. case_decide; [apply Hpend|done]. }
  destruct (Z.leb_spec Low' 16).
  - replace (Fill <? Leading) with true by lia.
    rewrite shl_ok by lia. simpl rbind.
    rewrite wr_ok by (specialize (Hfit 0); lia). simpl rbind.
    replace (Fill + 8 - Leading) with (8 - (Leading - Fill)) by lia.
    destruct (pending_shift SR' Low' (unread Src sp' T') (8 - (Leading - Fill))) as [Hps Hzs];
      [lia..|done|].
    rewrite (unpack_whole n); [| |lia|lia| |].
    + rewrite Hps, <- Hoct, octet_of_partial by lia.
      cbn [put]. do 2 f_equal. apply chunks_zeq. by rewrite Hpend.
    + constructor; (done || lia).
    + replace (Z.of_nat n) with (Z.of_nat (S n) - 1) by lia. by apply fits_next.
    + unfold turns. destruct (Z.ltb_spec 24 Low), (Z.ltb_spec 24 (Low' + (8 - (Leading - Fill)))); lia.
  - rewrite (IH n); [| |lia|lia|done|].
    + cbn zeta. by rewrite Hoct, (chunks_zeq _ _ _ (drop_zeq _ _ _ Hpend)).
    + constructor; (done || lia).
    + destruct (Z.ltb_spec 24 Low), (Z.ltb_spec 24 Low'); lia.
Qed.
End Loop.

(** * The whole transfer *)

(** The [n] octets, in the order of the stores, that hold the bit string [w]
    after [L] bits of padding. *)
Definition unstream (L : Z) (n : nat) (w : list bool) : list Z :=
  let k := (8 - Z.to_nat (L mod 8))%nat in
  replicate (Z.to_nat (L / 8)) 0 ++
  match (n - Z.to_nat (L / 8))%nat with
  | O => []
  | S m => octet_of (take k w) :: chunks m (drop k w)
  end.

Lemma octet_of_take8 w : octet_of (take 8 w) = octet_of w.
Proof.
  unfold octet_of. f_equal. apply zeq_length_eq.
  - intros i. rewrite !nth_take_b. case_decide; [|done].
    rewrite (zeq_zeros (take 8 w) 8 i), (zeq_zeros w 8 i), nth_take_b. by case_decide.
  - rewrite !length_take, !length_app, !length_take, !length_replicate. lia.
Qed.

Lemma unpack_lead_ok Leading Stride q : forall fuel Fill Store p,
  Leading - Fill - 8 < 8 * Z.of_nat q <= Leading - Fill ->
  fits Store p Stride (Z.of_nat q) -> (q < fuel)%nat ->
  unpack_lead fuel Leading Fill Stride Store p =
  Ok (Fill + 8 * Z.of_nat q, put Store p Stride (replicate q 0), p + Z.of_nat q * Stride).
Proof.
  induction q as [|q IH]; intros [|fuel] Fill Store p Hq Hfit Hf; try lia; cbn [unpack_lead].
  - destruct (Z.leb_spec (Fill + 8) Leading); [lia|]. cbn [replicate put].
    by replace (Fill + 8 * Z.of_nat 0) with Fill by lia; replace (p + Z.of_nat 0 * Stride) with p by lia.
  - destruct (Z.leb_spec (Fill + 8) Leading); [|lia].
    rewrite wr_ok by (specialize (Hfit 0); lia). cbn [rbind].
    rewrite IH; [|lia| |lia].
    + change (u8 0) with 0. cbn [replicate put].
      replace (Fill + 8 + 8 * Z.of_nat q) with (Fill + 8 * Z.of_nat (S q)) by lia.
      by replace (p + Stride + Z.of_nat q * Stride) with (p + Z.of_nat (S q) * Stride) by lia.
    + replace (Z.of_nat q) with (Z.of_nat (S q) - 1) by lia. by apply fits_next.
Qed.

Lemma pending_start Src sp off N :
  0 <= off <= 7 -> 0 <= N -> 0 <= sp ->
  pending 0 (24 + off) (unread Src sp (off + N)) =
  take (Z.to_nat N) (drop (Z.to_nat (8 * sp + off)) (flat Src)).
Proof.
  intros Hoff HN Hsp. unfold pending, unread. rewrite flat_drop.
  rewrite drop_app_ge by (rewrite bits_length; lia). rewrite bits_length.
  replace (8 - Z.to_nat (32 - (24 + off)))%nat with (Z.to_nat off) by lia.
  rewrite <- take_drop_commute || rewrite skipn_firstn_comm. rewrite drop_drop.
  f_equal; [lia|]. f_equal; lia.
Qed.

Lemma unpack_bits_ok Src sp off N Store stp n Stride L :
  octets Src -> 0 <= sp -> 0 <= off <= 7 -> 0 <= N -> 8 * sp + off + N <= 8 * zlen Src ->
  0 <= L <= 8 * Z.of_nat n ->
  let start := if Stride <? 0 then stp + (Z.of_nat n - 1) else stp in
  fits Store start Stride (Z.of_nat n) ->
  unpack_bits Src sp off N Store stp (Z.of_nat n) Stride L =
  Ok (put Store start Stride
        (unstream L n (take (Z.to_nat N) (drop (Z.to_nat (8 * sp + off)) (flat Src))))).
Proof.
  intros Ho Hsp Hoff HN Hlen HL start Hfit. unfold unpack_bits. fold start.
  pose proof (Z.div_mod L 8 ltac:(lia)) as Hdm. pose proof (Z.mod_pos_bound L 8 ltac:(lia)) as Hr.
  pose proof (Z.div_pos L 8 ltac:(lia) ltac:(lia)) as Hq.
  rewrite (unpack_lead_ok L Stride (Z.to_nat (L / 8))); [|lia| |unfold unpack_fuel; lia].
  2:{ intros i Hi. apply Hfit. lia. }
  simpl rbind. rewrite <- (pending_start Src sp off N) by lia.
  assert (Hfe : fetched Src sp 0 (24 + off) (off + N))
    by (constructor; [lia..|intros i Hi; apply Z.bits_0]).
  assert (Hfit' : forall k, Z.of_nat n - L / 8 = k ->
    fits (put Store start Stride (replicate (Z.to_nat (L / 8)) 0))
         (start + Z.of_nat (Z.to_nat (L / 8)) * Stride) Stride k).
  { intros k Hk i Hi. rewrite put_zlen, Z2Nat.id, <- Z.add_assoc, <- Z.mul_add_distr_r by lia.
    apply Hfit. lia. }
  assert (Hz : zlen (replicate (Z.to_nat (L / 8)) 0) = Z.of_nat (Z.to_nat (L / 8)))
    by (unfold zlen; by rewrite length_replicate).
  unfold unstream. rewrite put_app, Hz.
  destruct (decide (L mod 8 = 0)) as [E|E].
  - rewrite (unpack_whole Src L _ Stride Ho (n - Z.to_nat (L / 8))); [|done|lia|lia| |].
    + rewrite E. do 2 f_equal. destruct (n - Z.to_nat (L / 8))%nat; [done|].
      cbn [chunks]. change (8 - Z.to_nat 0)%nat with 8%nat. by rewrite octet_of_take8.
    + apply Hfit'. lia.
    + unfold turns, unpack_fuel. case_match; lia.
  - destruct (n - Z.to_nat (L / 8))%nat as [|m] eqn:Em; [lia|].
    rewrite (unpack_partial Src L _ Stride Ho m); [|done|lia|lia| |].
    + do 2 f_equal. cbn zeta.
      by replace (Z.to_nat (8 - (L - (0 + 8 * Z.of_nat (Z.to_nat (L / 8))))))
        with (8 - Z.to_nat (L mod 8))%nat by lia.
    + apply Hfit'. lia.
    + unfold turns, unpack_fuel. case_match; lia.
Qed.
