(* ===== verification/EdsField.v ===== *)
(** What a packed number is: the specification of a field, independent of the
    shift registers.

    A field of [N] bits that holds [y] is, in big endian order, the bits of
    [y] from the most significant down.  In little endian order its first,
    possibly partial, octet holds the least significant bits, and whole octets
    of increasing significance follow.  The inverted form complements every
    bit.  The integer encodings of the data sheets map a value to [y] and
    back. *)

From S2P Require Import Prelude.
From S2P Require Import EdsTypes EdsBits EdsPack EdsPackProofs EdsUnpackProofs.

(** * Integers in memory *)

Lemma le_bytes_length n v : length (le_bytes n v) = n.
Proof. revert v; induction n; intros v; simpl; auto. Qed.

Lemma le_bytes_octets n v : octets (le_bytes n v).
Proof.
  revert v; induction n as [|n IH]; intros v; simpl; constructor; [|apply IH].
  apply Z.mod_pos_bound. lia.
Qed.

Lemma le_val_range l : octets l -> 0 <= le_val l < 2 ^ (8 * zlen l).
Proof.
  induction 1 as [|b l Hb Hl IH]; [done|]. unfold is_octet in Hb. rewrite zlen_cons. cbn [le_val].
  replace (8 * (1 + zlen l)) with (8 + 8 * zlen l) by lia.
  pose proof (zlen_nonneg l). rewrite Z.pow_add_r by lia. change (2 ^ 8) with 256. lia.
Qed.

Lemma le_val_bytes n v : le_val (le_bytes n v) = v mod 2 ^ (8 * Z.of_nat n).
Proof.
  revert v; induction n as [|n IH]; intros v; cbn [le_bytes le_val]; [by rewrite Z.mod_1_r|].
  rewrite IH. replace (8 * Z.of_nat (S n)) with (8 + 8 * Z.of_nat n) by lia.
  rewrite Z.pow_add_r by lia. change (2 ^ 8) with 256. rewrite Z.rem_mul_r; lia.
Qed.

Lemma le_bytes_val l : octets l -> le_bytes (length l) (le_val l) = l.
Proof.
  induction 1 as [|b l Hb Hl IH]; [done|]. unfold is_octet in Hb. cbn [length le_bytes le_val].
  f_equal.
  - rewrite Z.mul_comm, Z.mod_add, Z.mod_small by lia. done.
  - rewrite Z.mul_comm, Z.div_add, Z.div_small by lia. done.
Qed.

Lemma le_bytes_mod n v k : Z.of_nat n * 8 <= k -> le_bytes n (v mod 2 ^ k) = le_bytes n v.
Proof.
  revert v k; induction n as [|n IH]; intros v k Hk; cbn [le_bytes]; [done|].
  replace k with (8 + (k - 8)) by lia. rewrite Z.pow_add_r by lia. change (2 ^ 8) with 256.
  pose proof (Z.pow_pos_nonneg 2 (k - 8) ltac:(lia) ltac:(lia)).
  rewrite Z.rem_mul_r by lia. f_equal.
  - rewrite Z.mul_comm, Z.mod_add, Z.mod_mod; lia.
  - rewrite Z.mul_comm, Z.div_add, (Z.div_small (v mod 256)) by (try apply Z.mod_pos_bound; lia).
    apply IH. lia.
Qed.

Lemma drop_le_bytes q n v :
  drop q (le_bytes n v) = le_bytes (n - q) (Z.shiftr v (8 * Z.of_nat q)).
Proof.
  revert n v; induction q as [|q IH]; intros n v.
  - change (8 * Z.of_nat 0) with 0. by rewrite Z.shiftr_0_r, Nat.sub_0_r.
  - destruct n as [|n]; [done|]. cbn [le_bytes drop]. rewrite IH.
    replace (8 * Z.of_nat (S q)) with (8 + 8 * Z.of_nat q) by lia.
    rewrite <- Z.shiftr_shiftr by lia. f_equal.
    rewrite (Z.shiftr_div_pow2 v 8) by lia. done.
Qed.

Lemma le_bytes_shiftl q n v :
  (q <= n)%nat ->
  le_bytes n (Z.shiftl v (8 * Z.of_nat q)) = replicate q 0 ++ le_bytes (n - q) v.
Proof.
  revert n; induction q as [|q IH]; intros n Hq.
  - change (8 * Z.of_nat 0) with 0. by rewrite Z.shiftl_0_r, Nat.sub_0_r.
  - destruct n as [|n]; [lia|]. cbn [le_bytes replicate app].
    replace (8 * Z.of_nat (S q)) with (8 * Z.of_nat q + 8) by lia.
    rewrite <- Z.shiftl_shiftl by lia. rewrite (Z.shiftl_mul_pow2 _ 8) by lia. change (2 ^ 8) with 256.
    rewrite Z.mod_mul, Z.div_mul by lia. f_equal. apply IH. lia.
Qed.

Lemma flat_rev_le_bytes n v : flat (rev (le_bytes n v)) = bits (8 * n) v.
Proof.
  revert v; induction n as [|n IH]; intros v; [done|].
  cbn [le_bytes rev]. rewrite flat_app, IH, flat_cons. unfold flat at 1. simpl List.flat_map.
  rewrite app_nil_r. replace (8 * S n)%nat with (8 * n + 8)%nat by lia.
  rewrite bits_app. f_equal.
  - f_equal. by rewrite Z.shiftr_div_pow2.
  - apply (bits_mod 8 8). lia.
Qed.

Lemma octets_rev l : octets l -> octets (rev l).
Proof. apply List.Forall_rev. Qed.

(** * Bit order of a field *)

(** The bits of the first octet of a little endian field of [N] bits. *)
Definition lead_bits (N : nat) : nat := ((N - 1) mod 8 + 1)%nat.

Definition order_bits (le : bool) (N : nat) (y : Z) : list bool :=
  if le then bits (lead_bits N) y ++
             flat (le_bytes ((N - lead_bits N) / 8) (Z.shiftr y (Z.of_nat (lead_bits N))))
  else bits N y.

Definition order_val (le : bool) (w : list bool) : Z :=
  if le then
    let c := lead_bits (length w) in
    bits_val (take c w) +
    2 ^ Z.of_nat c * le_val (chunks ((length w - c) / 8) (drop c w))
  else bits_val w.

(** The octets of [x] in the order in which they are visited. *)
Definition order_bytes (le : bool) (n : nat) (x : Z) : list Z :=
  if le then le_bytes n x else rev (le_bytes n x).

Lemma order_bytes_octets le n x : octets (order_bytes le n x).
Proof. destruct le; [|apply octets_rev]; apply le_bytes_octets. Qed.

Lemma order_bytes_length le n x : length (order_bytes le n x) = n.
Proof. destruct le; simpl; rewrite ?length_rev; apply le_bytes_length. Qed.

(** The padding ahead of the value, in the order of visits. *)
Definition lead_pad (le : bool) (pad : Z) : Z := if le then pad else 0.

Lemma bits_val_zeros l r : bits_val (l ++ replicate r false) = bits_val l * 2 ^ Z.of_nat r.
Proof.
  induction r as [|r IH].
  - change (2 ^ Z.of_nat 0) with 1. rewrite app_nil_r. lia.
  - rewrite replicate_S_end, app_assoc, bits_val_snoc, IH.
    replace (Z.of_nat (S r)) with (Z.of_nat r + 1) by lia. rewrite Z.pow_add_r by lia. simpl Z.b2z. lia.
Qed.

Lemma unstream_0 n w : unstream 0 n w = chunks n w.
Proof.
  unfold unstream. change (0 / 8) with 0. change (0 mod 8) with 0.
  cbn [replicate app Z.to_nat]. rewrite !Nat.sub_0_r. destruct n; [done|].
  by rewrite octet_of_take8.
Qed.

Section Layout.
Context (n : nat) (pad : Z) (N : nat).
Hypothesis Hpad : 0 <= pad.
Hypothesis HN : Z.of_nat N = 8 * Z.of_nat n - pad.
Hypothesis HN0 : (0 < N)%nat.

Lemma pad_split :
  exists q r m : nat,
    pad = 8 * Z.of_nat q + Z.of_nat r /\ (r < 8)%nat /\ (n = q + S m)%nat /\
    Z.to_nat (pad / 8) = q /\ Z.to_nat (pad mod 8) = r /\
    lead_bits N = (8 - r)%nat /\ ((N - lead_bits N) / 8 = m)%nat /\ (N = 8 - r + 8 * m)%nat.
Proof.
  pose proof (Z.div_mod pad 8 ltac:(lia)). pose proof (Z.mod_pos_bound pad 8 ltac:(lia)).
  pose proof (Z.div_pos pad 8 ltac:(lia) ltac:(lia)).
  exists (Z.to_nat (pad / 8)), (Z.to_nat (pad mod 8)), (n - Z.to_nat (pad / 8) - 1)%nat.
  set (q := Z.to_nat (pad / 8)) in *. set (r := Z.to_nat (pad mod 8)) in *.
  assert (HNm : (N = 8 - r + 8 * (n - q - 1))%nat) by lia.
  assert (Hl : lead_bits N = (8 - r)%nat).
  { unfold lead_bits. rewrite HNm.
    replace (8 - r + 8 * (n - q - 1) - 1)%nat with ((7 - r) + (n - q - 1) * 8)%nat by lia.
    rewrite Nat.Div0.mod_add, Nat.mod_small; lia. }
  rewrite Hl. split_and!; try lia.
  replace (N - (8 - r))%nat with ((n - q - 1) * 8)%nat by lia. apply Nat.div_mul. lia.
Qed.

Lemma stream_order_bytes le x :
  take N (stream (lead_pad le pad) (order_bytes le n x)) = order_bits le N (Z.shiftr x pad).
Proof.
  destruct le; cbn [lead_pad order_bytes order_bits].
  - destruct pad_split as (q & r & m & Hp & Hr & Hn & Eq & Er & -> & -> & HNm).
    unfold stream. rewrite Eq, Er, drop_le_bytes.
    replace (n - q)%nat with (S m) by lia. cbn [le_bytes].
    pose proof (Z.mod_pos_bound pad 8 ltac:(lia)).
    assert (Erz : pad mod 8 = Z.of_nat r) by lia. rewrite Erz.
    rewrite take_ge by (rewrite length_app, bits_length, flat_length, le_bytes_length; lia).
    f_equal.
    + apply bits_ext; intros i Hi. change 256 with (2 ^ 8).
      rewrite !Z.shiftr_spec, Z.mod_pow2_bits_low, Z.shiftr_spec by lia. f_equal. lia.
    + do 2 f_equal. change 256 with (2 ^ 8). rewrite <- Z.shiftr_div_pow2 by lia.
      rewrite !Z.shiftr_shiftr by lia. f_equal. lia.
  - rewrite stream_0, flat_rev_le_bytes.
    replace (8 * n)%nat with (N + Z.to_nat pad)%nat by lia.
    by rewrite <- bits_shiftr by lia.
Qed.

Lemma unstream_order_val le w :
  length w = N ->
  unstream (lead_pad le pad) n w = order_bytes le n (Z.shiftl (order_val le w) pad).
Proof.
  intros Hw. destruct le; cbn [lead_pad order_bytes order_val].
  - destruct pad_split as (q & r & m & Hp & Hr & Hn & Eq & Er & Hl & Hm & HNm).
    unfold unstream. rewrite Eq, Er, Hw, Hl.
    rewrite Hl in Hm. rewrite Hm.
    replace (n - q)%nat with (S m) by lia.
    set (a := bits_val (take (8 - r) w)). set (l := chunks m (drop (8 - r) w)).
    assert (Ha : 0 <= a < 2 ^ Z.of_nat (8 - r)).
    { pose proof (bits_val_range (take (8 - r) w)) as Hv.
      rewrite length_take, Hw in Hv. by replace ((8 - r) `min` N)%nat with (8 - r)%nat in Hv by lia. }
    rewrite Hp, (Z.add_comm (8 * _)), <- Z.shiftl_shiftl, le_bytes_shiftl by lia. f_equal.
    replace (n - q)%nat with (S m) by lia. cbn [le_bytes].
    assert (H256 : 2 ^ Z.of_nat (8 - r) * 2 ^ Z.of_nat r = 256)
      by (rewrite <- Z.pow_add_r by lia; by replace (Z.of_nat (8 - r) + Z.of_nat r) with 8 by lia).
    assert (Hx : Z.shiftl (a + 2 ^ Z.of_nat (8 - r) * le_val l) (Z.of_nat r) =
                 a * 2 ^ Z.of_nat r + le_val l * 256)
      by (rewrite Z.shiftl_mul_pow2, <- H256 by lia; ring).
    pose proof (Z.pow_pos_nonneg 2 (Z.of_nat r) ltac:(lia) ltac:(lia)).
    rewrite Hx, Z.mod_add, Z.div_add, Z.mod_small, Z.div_small by nia. f_equal.
    + unfold octet_of. rewrite take_app, length_take, Hw.
      rewrite (take_ge (take _ _)) by (rewrite length_take; lia).
      replace (8 - (8 - r) `min` N)%nat with r by lia.
      by rewrite take_replicate, Nat.min_l, bits_val_zeros by lia.
    + rewrite Z.add_0_l. pose proof (le_bytes_val l (chunks_octets _ _)) as Hv.
      unfold l in Hv at 1. by rewrite chunks_length in Hv.
  - apply flat_inj; [|apply octets_rev, le_bytes_octets|].
    + unfold unstream. change (0 / 8) with 0. simpl replicate. cbn [app].
      destruct (n - Z.to_nat 0)%nat; [by constructor|].
      constructor; [apply octet_of_octet|apply chunks_octets].
    + rewrite unstream_0, flat_chunks, flat_rev_le_bytes.
      replace (8 * n)%nat with (N + Z.to_nat pad)%nat by lia.
      replace (Z.shiftl (bits_val w) pad) with (Z.shiftl (bits_val w) (Z.of_nat (Z.to_nat pad)))
        by (f_equal; lia).
      rewrite bits_shiftl, <- Hw, bits_bits_val.
      rewrite take_app, take_ge by lia. f_equal. rewrite take_replicate. f_equal. lia.
Qed.

Lemma order_val_bits le y : order_val le (order_bits le N y) = y mod 2 ^ Z.of_nat N.
Proof.
  destruct le; cbn [order_bits order_val].
  - destruct pad_split as (q & r & m & Hp & Hr & Hn & Eq & Er & Hl & Hm & HNm).
    rewrite Hm, Hl. rewrite length_app, bits_length, flat_length, le_bytes_length, <- HNm, Hl.
    rewrite Hl in Hm. rewrite Hm.
    rewrite take_app_length', drop_app_length' by (by rewrite bits_length).
    rewrite bits_val_bits.
    replace (chunks m (flat _)) with (le_bytes m (Z.shiftr y (Z.of_nat (8 - r)))).
    + rewrite le_val_bytes, Z.shiftr_div_pow2 by lia.
      rewrite <- Z.rem_mul_r by (first [apply Z.pow_nonzero|apply Z.pow_pos_nonneg]; lia).
      rewrite <- Z.pow_add_r by lia. do 2 f_equal. lia.
    + apply flat_inj; [apply le_bytes_octets|apply chunks_octets|].
      rewrite flat_chunks, take_app_length' by (rewrite flat_length, le_bytes_length; lia). done.
  - apply bits_val_bits.
Qed.

Lemma order_val_range le w : length w = N -> 0 <= order_val le w < 2 ^ Z.of_nat N.
Proof.
  intros Hw. destruct le; cbn [order_val].
  - destruct pad_split as (q & r & m & Hp & Hr & Hn & Eq & Er & Hl & Hm & HNm).
    rewrite Hw, Hm, Hl.
    pose proof (bits_val_range (take (8 - r) w)) as H1. rewrite length_take, Hw in H1.
    replace ((8 - r) `min` N)%nat with (8 - r)%nat in H1 by lia.
    pose proof (le_val_range (chunks m (drop (8 - r) w)) (chunks_octets _ _)) as H2.
    unfold zlen in H2. rewrite chunks_length in H2.
    replace (Z.of_nat N) with (Z.of_nat (8 - r) + 8 * Z.of_nat m) by lia.
    rewrite Z.pow_add_r by lia. nia.
  - rewrite <- Hw. apply bits_val_range.
Qed.

Lemma order_bits_length le y : length (order_bits le N y) = N.
Proof.
  destruct le; cbn [order_bits]; [|apply bits_length].
  destruct pad_split as (q & r & m & Hp & Hr & Hn & Eq & Er & Hl & Hm & HNm).
  rewrite length_app, bits_length, flat_length, le_bytes_length, Hm, Hl. lia.
Qed.
End Layout.

(** * Slices of a buffer *)

Lemma in_buf_spec m i n : in_buf m i n = true <-> 0 <= i /\ i + Z.of_nat n <= zlen m.
Proof. unfold in_buf. lia. Qed.

Lemma slice_length m i n : in_buf m i n = true -> length (slice m i n) = n.
Proof.
  rewrite in_buf_spec. intros H. unfold slice, zlen in *. rewrite length_take, length_drop. lia.
Qed.

Lemma splice_zlen m i l : in_buf m i (length l) = true -> zlen (splice m i l) = zlen m.
Proof.
  rewrite in_buf_spec. intros H. unfold splice, zlen in *.
  rewrite !length_app, length_take, length_drop. lia.
Qed.

Lemma slice_splice m i l : in_buf m i (length l) = true -> slice (splice m i l) i (length l) = l.
Proof.
  rewrite in_buf_spec. intros H. unfold splice, slice, zlen in *.
  rewrite drop_app_length' by (rewrite length_take; lia). by apply take_app_length'.
Qed.

Lemma octets_slice m i n : octets m -> octets (slice m i n).
Proof. intros H. by apply octets_take, octets_drop. Qed.

Lemma octets_splice m i l : octets m -> octets l -> octets (splice m i l).
Proof.
  intros Hm Hl. unfold splice. rewrite !octets_app.
  split_and!; [by apply octets_take|done|by apply octets_drop].
Qed.

Lemma zget_slice m i n j :
  in_buf m i n = true -> 0 <= j < Z.of_nat n -> zget (slice m i n) j = zget m (i + j).
Proof.
  rewrite in_buf_spec. intros H Hj. unfold slice, zget, zlen in *.
  rewrite lookup_total_take_lt, lookup_total_drop by lia. f_equal. lia.
Qed.

Lemma loads_fwd m p n : in_buf m p n = true -> loads m p 1 (slice m p n).
Proof.
  intros H j Hj. unfold zlen in Hj. rewrite slice_length in Hj by done.
  rewrite zget_slice by done. apply in_buf_spec in H. rewrite rd_ok by lia. do 2 f_equal. lia.
Qed.

Lemma zget_rev (l : list Z) j : 0 <= j < zlen l -> zget (rev l) j = zget l (zlen l - 1 - j).
Proof.
  unfold zlen, zget. intros Hj.
  assert (E : forall (l : list Z) k, (k < length l)%nat -> l !!! k = nth k l 0).
  { intros l' k Hk. destruct (lookup_lt_is_Some_2 l' k Hk) as [x Hx].
    rewrite (list_lookup_total_correct _ _ _ Hx). symmetry. by apply nth_lookup_Some. }
  rewrite !E by (rewrite ?length_rev; lia).
  rewrite rev_nth by lia. f_equal. lia.
Qed.

Lemma loads_bwd m p n :
  in_buf m p n = true -> loads m (p + (Z.of_nat n - 1)) (-1) (rev (slice m p n)).
Proof.
  intros H j Hj. unfold zlen in Hj. rewrite length_rev, slice_length in Hj by done.
  rewrite zget_rev by (unfold zlen; rewrite slice_length by done; lia).
  rewrite zget_slice by (unfold zlen; rewrite ?slice_length by done; (done || lia)).
  unfold zlen. rewrite slice_length by done.
  apply in_buf_spec in H. rewrite rd_ok by lia. do 2 f_equal. lia.
Qed.

Lemma put_fwd l : forall m p, in_buf m p (length l) = true -> put m p 1 l = splice m p l.
Proof.
  induction l as [|b l IH]; intros m p H; apply in_buf_spec in H as H'; cbn [put length] in *.
  - unfold splice. rewrite app_nil_l, Nat.add_0_r. by rewrite take_drop.
  - rewrite IH by (apply in_buf_spec; rewrite zlen_zset; lia).
    unfold splice. replace (Z.to_nat (p + 1)) with (S (Z.to_nat p)) by lia.
    rewrite take_S_zset by lia. rewrite <- app_assoc. cbn [app length].
    do 3 f_equal. unfold zset. rewrite drop_insert_lt by lia. f_equal. lia.
Qed.

Lemma splice_snoc m p l b :
  in_buf m p (S (length l)) = true ->
  splice (zset m (p + Z.of_nat (length l)) b) p l = splice m p (l ++ [b]).
Proof.
  rewrite in_buf_spec. intros H. unfold splice. rewrite take_zset_ge by lia. f_equal.
  rewrite <- app_assoc. f_equal. rewrite length_app. simpl length.
  replace (Z.to_nat p + length l)%nat with (Z.to_nat (p + Z.of_nat (length l))) by lia.
  rewrite drop_zget by (rewrite zlen_zset; lia). rewrite zget_zset_eq, drop_S_zset by lia.
  cbn [app]. do 2 f_equal. lia.
Qed.

Lemma put_bwd l : forall m p,
  in_buf m p (length l) = true -> put m (p + (zlen l - 1)) (-1) l = splice m p (rev l).
Proof.
  induction l as [|b l IH]; intros m p H; apply in_buf_spec in H as H'; cbn [put length rev] in *.
  - unfold splice. rewrite app_nil_l, Nat.add_0_r. by rewrite take_drop.
  - rewrite <- splice_snoc by (rewrite length_rev; done). rewrite length_rev.
    rewrite <- IH by (apply in_buf_spec; rewrite zlen_zset; lia).
    rewrite zlen_cons. unfold zlen. f_equal; [|lia]. f_equal. lia.
Qed.

(** ** Native integers *)

Lemma native_bytes_length be n v : length (native_bytes be n v) = n.
Proof. unfold native_bytes. destruct be; rewrite ?length_rev; apply le_bytes_length. Qed.

Lemma native_bytes_octets be n v : octets (native_bytes be n v).
Proof. unfold native_bytes. destruct be; [apply octets_rev|]; apply le_bytes_octets. Qed.

Lemma native_val_bytes be n v : native_val be (native_bytes be n v) = v mod 2 ^ (8 * Z.of_nat n).
Proof. unfold native_val, native_bytes. destruct be; rewrite ?rev_involutive; apply le_val_bytes. Qed.

Lemma native_bytes_val be l : octets l -> native_bytes be (length l) (native_val be l) = l.
Proof.
  intros H. unfold native_val, native_bytes. destruct be.
  - rewrite <- length_rev, le_bytes_val by (by apply octets_rev). apply rev_involutive.
  - by apply le_bytes_val.
Qed.

Lemma native_val_range be l : octets l -> 0 <= native_val be l < 2 ^ (8 * zlen l).
Proof.
  intros H. unfold native_val. destruct be.
  - replace (zlen l) with (zlen (rev l)) by (unfold zlen; by rewrite length_rev).
    apply le_val_range. by apply octets_rev.
  - by apply le_val_range.
Qed.

Lemma native_bytes_mod be n v k : Z.of_nat n * 8 <= k -> native_bytes be n (v mod 2 ^ k) = native_bytes be n v.
Proof. intros H. unfold native_bytes. by rewrite le_bytes_mod. Qed.

Lemma ld_ok be m i n : in_buf m i n = true -> ld be m i n = Ok (native_val be (slice m i n)).
Proof. intros H. unfold ld. by rewrite H. Qed.

Lemma st_ok be m i n v : in_buf m i n = true -> st be m i n v = Ok (splice m i (native_bytes be n v)).
Proof. intros H. unfold st. by rewrite H. Qed.

Lemma slice_st be m i n v :
  in_buf m i n = true -> slice (splice m i (native_bytes be n v)) i n = native_bytes be n v.
Proof.
  intros H. rewrite <- (native_bytes_length be n v) at 2. apply slice_splice.
  by rewrite native_bytes_length.
Qed.

(** The stride of a number in the order [le] on the machine [be], and the
    address of its first octet. *)
Definition num_stride (be le : bool) : Z :=
  if le then EDSLIB_LITTLE_ENDIAN_STRIDE be else EDSLIB_BIG_ENDIAN_STRIDE be.
Definition first_addr (stride p n : Z) : Z := if stride <? 0 then p + (n - 1) else p.

Lemma order_native be le n x :
  order_bytes le n x =
  if num_stride be le <? 0 then rev (native_bytes be n x) else native_bytes be n x.
Proof.
  unfold order_bytes, num_stride, native_bytes, EDSLIB_LITTLE_ENDIAN_STRIDE, EDSLIB_BIG_ENDIAN_STRIDE.
  destruct be, le; simpl; rewrite ?rev_involutive; done.
Qed.

Lemma stride_cases be le : num_stride be le = 1 \/ num_stride be le = -1.
Proof. destruct be, le; auto. Qed.

Lemma loads_native be le m p n x :
  in_buf m p n = true -> slice m p n = native_bytes be n x ->
  loads m (first_addr (num_stride be le) p (Z.of_nat n)) (num_stride be le) (order_bytes le n x).
Proof.
  intros H Hs. rewrite (order_native be), <- Hs. unfold first_addr.
  destruct (stride_cases be le) as [-> | ->]; simpl; [by apply loads_fwd|by apply loads_bwd].
Qed.

Lemma fits_native be le m p n :
  in_buf m p n = true ->
  fits m (first_addr (num_stride be le) p (Z.of_nat n)) (num_stride be le) (Z.of_nat n).
Proof.
  rewrite in_buf_spec. intros H i Hi. unfold first_addr.
  destruct (stride_cases be le) as [-> | ->]; simpl; lia.
Qed.

Lemma put_native be le m p n x :
  in_buf m p n = true ->
  put m (first_addr (num_stride be le) p (Z.of_nat n)) (num_stride be le) (order_bytes le n x) =
  splice m p (native_bytes be n x).
Proof.
  intros H. rewrite (order_native be). unfold first_addr.
  destruct (stride_cases be le) as [-> | ->]; simpl Z.ltb; cbn iota.
  - apply put_fwd. by rewrite native_bytes_length.
  - replace (splice m p (native_bytes be n x)) with (splice m p (rev (rev (native_bytes be n x))))
      by (by rewrite rev_involutive).
    rewrite <- put_bwd by (rewrite length_rev, native_bytes_length; done).
    unfold zlen. by rewrite length_rev, native_bytes_length.
Qed.

(** * Fields and integer encodings *)

Lemma order_bits_mod le N y : (0 < N)%nat -> order_bits le N (y mod 2 ^ Z.of_nat N) = order_bits le N y.
Proof.
  intros HN. destruct le; cbn [order_bits]; [|by apply bits_mod].
  destruct (pad_split ((N + 7) / 8) (8 * Z.of_nat ((N + 7) / 8) - Z.of_nat N) N) as
    (q & r & m & Hp & Hr & Hn & Eq & Er & -> & -> & HNm); [|lia|done|].
  { pose proof (Nat.div_mod_eq (N + 7) 8). pose proof (Nat.mod_upper_bound (N + 7) 8). lia. }
  f_equal; [apply bits_mod; lia|]. f_equal.
  rewrite <- (le_bytes_mod m (Z.shiftr y _) (8 * Z.of_nat m)) by lia.
  rewrite <- (le_bytes_mod m (Z.shiftr (y mod _) _) (8 * Z.of_nat m)) by lia. f_equal.
  apply Z.bits_inj'; intros i Hi.
  destruct (decide (i < 8 * Z.of_nat m)).
  - rewrite !Z.mod_pow2_bits_low, !Z.shiftr_spec, Z.mod_pow2_bits_low by lia. done.
  - by rewrite !Z.mod_pow2_bits_high by lia.
Qed.

Lemma order_bits_ext le N y z :
  (0 < N)%nat -> (forall i, 0 <= i < Z.of_nat N -> Z.testbit y i = Z.testbit z i) ->
  order_bits le N y = order_bits le N z.
Proof.
  intros HN H. rewrite <- (order_bits_mod le N y), <- (order_bits_mod le N z) by done. f_equal.
  apply Z.bits_inj'; intros i Hi.
  destruct (decide (i < Z.of_nat N)).
  - rewrite !Z.mod_pow2_bits_low by lia. apply H. lia.
  - by rewrite !Z.mod_pow2_bits_high by lia.
Qed.

(** A field of [N] bits with content [y], and the content of a field. *)
Definition field_bits (le inv : bool) (N : nat) (y : Z) : list bool :=
  order_bits le N (if inv then Z.lnot y else y).
Definition field_val (le inv : bool) (w : list bool) : Z :=
  let y := order_val le w in if inv then 2 ^ Z.of_nat (length w) - 1 - y else y.

Lemma octet_cover N :
  (0 < N)%nat ->
  0 <= 8 * Z.of_nat ((N + 7) / 8) - Z.of_nat N /\
  Z.of_nat N = 8 * Z.of_nat ((N + 7) / 8) - (8 * Z.of_nat ((N + 7) / 8) - Z.of_nat N).
Proof.
  intros HN. pose proof (Nat.div_mod_eq (N + 7) 8). pose proof (Nat.mod_upper_bound (N + 7) 8). lia.
Qed.

Lemma field_bits_length le inv N y : (0 < N)%nat -> length (field_bits le inv N y) = N.
Proof. intros HN. destruct (octet_cover N HN). by eapply order_bits_length. Qed.

Lemma field_val_bits le inv N y :
  (0 < N)%nat -> field_val le inv (field_bits le inv N y) = y mod 2 ^ Z.of_nat N.
Proof.
  intros HN. unfold field_val. rewrite field_bits_length by done. unfold field_bits.
  destruct (octet_cover N HN) as [H1 H2]. rewrite (order_val_bits _ _ N H1 H2 HN).
  destruct inv; [|done].
  assert (HP : 0 < 2 ^ Z.of_nat N) by (apply Z.pow_pos_nonneg; lia).
  pose proof (Z.div_mod y (2 ^ Z.of_nat N) ltac:(lia)). pose proof (Z.mod_pos_bound y _ HP).
  unfold Z.lnot.
  rewrite <- (Z.mod_unique (Z.pred (- y)) (2 ^ Z.of_nat N) (- (y / 2 ^ Z.of_nat N) - 1)
             (2 ^ Z.of_nat N - 1 - y mod 2 ^ Z.of_nat N)); [lia|left; lia|nia].
Qed.

Lemma field_val_range le inv w :
  (0 < length w)%nat -> 0 <= field_val le inv w < 2 ^ Z.of_nat (length w).
Proof.
  intros HN. destruct (octet_cover _ HN) as [H1 H2].
  pose proof (order_val_range _ _ _ H1 H2 HN le w eq_refl). unfold field_val. destruct inv; lia.
Qed.

(** The content of a signed integer field of [N] bits, by encoding: the
    binary encodings. *)
Definition enc_int (e : EdsLib_NumberEncoding_Enum_t) (N v : Z) : Z :=
  match e with
  | EDSLIB_NUMBERENCODING_SIGN_MAGNITUDE => if v <? 0 then 2 ^ (N - 1) + - v else v
  | EDSLIB_NUMBERENCODING_ONES_COMPLEMENT => if v <? 0 then 2 ^ N - 1 - - v else v
  | _ => v mod 2 ^ N
  end.
Definition dec_int (e : EdsLib_NumberEncoding_Enum_t) (N y : Z) : Z :=
  match e with
  | EDSLIB_NUMBERENCODING_SIGN_MAGNITUDE => if y <? 2 ^ (N - 1) then y else - (y - 2 ^ (N - 1))
  | EDSLIB_NUMBERENCODING_ONES_COMPLEMENT => if y <? 2 ^ (N - 1) then y else - (2 ^ N - 1 - y)
  | _ => sgn N y
  end.
(** The values an encoding of [N] bits can express. *)
Definition int_range (e : EdsLib_NumberEncoding_Enum_t) (N v : Z) : bool :=
  match e with
  | EDSLIB_NUMBERENCODING_SIGN_MAGNITUDE | EDSLIB_NUMBERENCODING_ONES_COMPLEMENT =>
      (- 2 ^ (N - 1) <? v) && (v <? 2 ^ (N - 1))
  | _ => (- 2 ^ (N - 1) <=? v) && (v <? 2 ^ (N - 1))
  end.

Lemma pow2_split N : 0 < N -> 2 ^ N = 2 * 2 ^ (N - 1) /\ 0 < 2 ^ (N - 1).
Proof.
  intros HN. split; [|apply Z.pow_pos_nonneg; lia].
  replace N with (Z.succ (N - 1)) at 1 by lia. apply Z.pow_succ_r. lia.
Qed.

Lemma sgn_mod w v : 0 < w -> - 2 ^ (w - 1) <= v < 2 ^ (w - 1) -> sgn w (v mod 2 ^ w) = v.
Proof.
  intros Hw Hv. destruct (pow2_split w Hw) as [HP HP0]. unfold sgn. rewrite Z.mod_mod by lia.
  destruct (decide (0 <= v)).
  - rewrite Z.mod_small by lia. case_test; lia.
  - rewrite <- (Z.mod_add v 1), Z.mod_small by lia. case_test; lia.
Qed.

Lemma sgn_range w v : 0 < w -> - 2 ^ (w - 1) <= sgn w v < 2 ^ (w - 1).
Proof.
  intros Hw. destruct (pow2_split w Hw) as [HP HP0]. unfold sgn.
  pose proof (Z.mod_pos_bound v (2 ^ w) ltac:(lia)). case_test; lia.
Qed.

Lemma sgn_congr w v : 0 < w -> sgn w v mod 2 ^ w = v mod 2 ^ w.
Proof.
  intros Hw. destruct (pow2_split w Hw) as [HP HP0]. unfold sgn. cbv zeta.
  case_test; [apply Z.mod_mod; lia|].
  replace (v mod 2 ^ w - 2 ^ w) with (v mod 2 ^ w + (-1) * 2 ^ w) by lia.
  rewrite Z.mod_add by lia. apply Z.mod_mod. lia.
Qed.

Lemma dec_enc_int e N v : 0 < N -> int_range e N v = true -> dec_int e N (enc_int e N v mod 2 ^ N) = v.
Proof.
  intros HN Hr. destruct (pow2_split N HN) as [HP HP0].
  assert (Hs : - 2 ^ (N - 1) <= v < 2 ^ (N - 1)) by (destruct e; simpl in Hr; lia).
  destruct e; cbn [enc_int dec_int int_range] in *;
    try (rewrite Z.mod_mod by lia; by apply sgn_mod).
  all: destruct (Z.ltb_spec v 0); rewrite Z.mod_small by lia; case_test; lia.
Qed.

Lemma dec_int_range e N y : 0 < N -> 0 <= y < 2 ^ N -> int_range e N (dec_int e N y) = true.
Proof.
  intros HN Hy. destruct (pow2_split N HN) as [HP HP0]. pose proof (sgn_range N y HN).
  destruct e; cbn [dec_int int_range]; try lia; case_test; lia.
Qed.
