(* ===== verification/EdsNumber.v ===== *)
(** Packing and unpacking of numbers: [DoBitwisePack] writes the field the
    specification describes, [DoBitwiseUnpack] delivers its value. *)

From S2P Require Import Prelude.
From S2P Require Import EdsTypes EdsBits EdsPack EdsPackProofs EdsUnpackProofs EdsField.

(** What the data sheet says about a number. *)
Definition d_le (d : EdsLib_DataTypeDB_Entry_t) : bool :=
  bool_decide (ByteOrder (Number (Detail d)) = EDSLIB_NUMBERBYTEORDER_LITTLE_ENDIAN).
Definition d_inv (d : EdsLib_DataTypeDB_Entry_t) : bool :=
  negb (BitInvertFlag (Number (Detail d)) =? 0).
Definition d_enc (d : EdsLib_DataTypeDB_Entry_t) : EdsLib_NumberEncoding_Enum_t :=
  Encoding (Number (Detail d)).
Definition d_bits (d : EdsLib_DataTypeDB_Entry_t) : Z := Bits (SizeInfo_ d).
Definition d_bytes (d : EdsLib_DataTypeDB_Entry_t) : Z := Bytes (SizeInfo_ d).

Lemma int_width_inv z n : int_width z = Some n -> z = Z.of_nat n /\ (n = 1 \/ n = 2 \/ n = 4 \/ n = 8)%nat.
Proof. unfold int_width. repeat case_match; intros; simplify_eq; lia. Qed.

Lemma style_number be d itype isize pad :
  is_number (BasicType d) = true -> IntermediateOf d = Some (itype, isize) ->
  itype <> EDSLIB_BASICTYPE_BINARY ->
  pad = (if decide (itype = EDSLIB_BASICTYPE_NONE) then d_bytes d else isize) * 8 - d_bits d ->
  0 <= pad ->
  exists order lead trail,
    EdsLib_Internal_GetPackStyle be d =
      Some (PackStyleInfo order itype isize (num_stride be (d_le d)) lead trail pad (d_inv d)) /\
    lead = lead_pad (d_le d) pad.
Proof.
  intros Hnum Hi Hb Hpad Hpos. unfold EdsLib_Internal_GetPackStyle. rewrite Hnum, Hi.
  assert (Hbt : BasicType d <> EDSLIB_BASICTYPE_BINARY) by (by destruct (BasicType d)).
  case_decide as Ht; unfold d_bytes, d_bits in *.
  - rewrite (bool_decide_true _ Ht). simpl negb. cbn iota. rewrite (bool_decide_false _ Hbt).
    destruct (Z.ltb_spec (Bytes (SizeInfo_ d) * 8 - Bits (SizeInfo_ d)) 0); [lia|]. rewrite <- Hpad.
    unfold d_le, d_inv. destruct (ByteOrder _); simpl; eauto.
  - rewrite (bool_decide_false _ Ht). simpl negb. cbn iota. rewrite (bool_decide_false _ Hb).
    destruct (Z.ltb_spec (isize * 8 - Bits (SizeInfo_ d)) 0); [lia|]. rewrite <- Hpad.
    unfold d_le, d_inv. destruct (ByteOrder _); simpl; eauto.
Qed.

Lemma lxor_ones x w : 0 <= w -> 0 <= x < 2 ^ w -> Z.lxor x (2 ^ w - 1) = 2 ^ w - 1 - x.
Proof.
  intros Hw Hx. assert (HP : 0 < 2 ^ w) by (apply Z.pow_pos_nonneg; lia).
  transitivity (Z.lnot x mod 2 ^ w).
  - apply Z.bits_inj'; intros i Hi. rewrite Z.lxor_spec, Z.sub_1_r, <- Z.ones_equiv.
    destruct (decide (i < w)).
    + rewrite Z.ones_spec_low, Z.mod_pow2_bits_low, Z.lnot_spec by lia. apply xorb_true_r.
    + rewrite Z.ones_spec_high, Z.mod_pow2_bits_high by lia. rewrite (testbit_above x w) by lia. done.
  - unfold Z.lnot. symmetry. apply (Z.mod_unique _ _ (-1)); [left|]; lia.
Qed.

Section Number.
Context (be : bool).

(** The shift and inversion before the transfer. *)
Lemma pack_shift_ok p NumBuf Load lp n :
  int_width (Z.of_nat n) = Some n -> in_buf Load lp n = true -> zlen NumBuf = VALUEBUFFER_SIZE ->
  octets Load -> 0 <= IntermediateShift p < 8 * Z.of_nat n ->
  exists Load' lp' x,
    (if (IntermediateShift p >? 0) || Invert p then
       let* NumBuf := pack_shift be p NumBuf Load lp (Z.of_nat n) in Ok (NumBuf, 0)
     else Ok (Load, lp)) = Ok (Load', lp') /\
    in_buf Load' lp' n = true /\ slice Load' lp' n = native_bytes be n x /\
    (forall i, 0 <= i < 8 * Z.of_nat n - IntermediateShift p ->
       Z.testbit x (i + IntermediateShift p) =
       Z.testbit (let y := native_val be (slice Load lp n) in if Invert p then Z.lnot y else y) i) /\
    (Invert p = false -> forall i, 0 <= i < IntermediateShift p -> Z.testbit x i = false).
Proof.
  intros Hw Hin HNB Ho Hsh.
  destruct (int_width_inv _ _ Hw) as [_ Hn].
  destruct ((IntermediateShift p >? 0) || Invert p) eqn:E.
  - unfold pack_shift. rewrite Hw, ld_ok by done. cbn [rbind].
    rewrite shl_ok by (unfold bitsof; lia). cbn [rbind].
    assert (Hin0 : in_buf NumBuf 0 n = true)
      by (apply in_buf_spec; rewrite HNB; unfold VALUEBUFFER_SIZE; lia).
    rewrite st_ok by done. cbn [rbind]. eexists _, 0, _. split; [done|].
    rewrite slice_st by done. split_and!; [|done| |].
    + apply in_buf_spec. rewrite splice_zlen by (by rewrite native_bytes_length). by apply in_buf_spec.
    + intros i Hi. unfold bitsof. cbv zeta. destruct (Invert p).
      * rewrite Z.lxor_spec, Z.lnot_spec, Z.sub_1_r, <- Z.ones_equiv by lia.
        rewrite Z.ones_spec_low, Z.mod_pow2_bits_low, Z.shiftl_spec by lia.
        rewrite xorb_true_r. do 2 f_equal. lia.
      * rewrite Z.mod_pow2_bits_low, Z.shiftl_spec by lia. f_equal. lia.
    + intros -> i Hi. unfold bitsof. rewrite Z.mod_pow2_bits_low by lia. apply Z.shiftl_spec_low. lia.
  - exists Load, lp, (native_val be (slice Load lp n)). apply orb_false_iff in E as [E1 E2].
    split_and!; [done|done| | |].
    + rewrite <- (slice_length Load lp n Hin) at 2. symmetry. apply native_bytes_val. by apply octets_slice.
    + intros i Hi. rewrite E2. f_equal. lia.
    + intros _ i Hi. lia.
Qed.

(** Number octets at [lp], [n] of them, with [pad] bits to be left out: the
    transfer writes the field. *)
Lemma pack_number_bits Load lp n x pad N le Dst dp off y :
  in_buf Load lp n = true -> slice Load lp n = native_bytes be n x ->
  0 <= pad -> Z.of_nat N = 8 * Z.of_nat n - pad -> (0 < N)%nat ->
  (forall i, 0 <= i < Z.of_nat N -> Z.testbit x (i + pad) = Z.testbit y i) ->
  octets Dst -> 0 <= off <= 7 -> off + Z.of_nat N < 2 ^ 32 -> 0 <= dp ->
  8 * dp + off + Z.of_nat N <= 8 * zlen Dst ->
  exists Dst',
    pack_bits Load (first_addr (num_stride be le) lp (Z.of_nat n)) (num_stride be le) (lead_pad le pad)
      Dst dp off (Z.of_nat N) = Ok Dst' /\ octets Dst' /\ zlen Dst' = zlen Dst /\
    take (Z.to_nat (8 * dp + off + Z.of_nat N)) (flat Dst') =
      take (Z.to_nat (8 * dp + off)) (flat Dst) ++ order_bits le N y /\
    (le = true \/ (forall i, 0 <= i < pad -> Z.testbit x i = false) ->
     drop (Z.to_nat (8 * dp + off + Z.of_nat N)) (flat Dst') =
     drop (Z.to_nat (8 * dp + off + Z.of_nat N)) (flat Dst)).
Proof.
  intros Hin Hsl Hpad HN HN0 Hx Ho Hoff Hov Hdp Hfit.
  pose proof (loads_native be le Load lp n x Hin Hsl) as Hld.
  assert (Hlen : zlen (order_bytes le n x) = Z.of_nat n) by (unfold zlen; by rewrite order_bytes_length).
  destruct (pack_bits_ok Load _ _ _ (lead_pad le pad) Dst dp off (Z.of_nat N) Hld
              (order_bytes_octets le n x) Ho) as (Dst' & HE & Ho' & Hl' & Htk & Hdr);
    [unfold lead_pad; rewrite ?Hlen; destruct le; lia..|].
  exists Dst'. rewrite Nat2Z.id in Htk, Hdr.
  rewrite (stream_order_bytes n pad N Hpad HN HN0) in Htk.
  split_and!; [exact HE|done|done| |].
  - rewrite Htk. f_equal. apply order_bits_ext; [done|]. intros i Hi.
    rewrite Z.shiftr_spec by lia. by apply Hx.
  - intros Hslack. apply Hdr. destruct le; cbn [lead_pad order_bytes].
    + rewrite drop_ge; [constructor|].
      pose proof (stream_length pad (le_bytes n x) Hpad) as Hs. unfold zlen in Hs.
      rewrite le_bytes_length in Hs. lia.
    + destruct Hslack as [|Hz]; [done|].
      rewrite stream_0, flat_rev_le_bytes.
      replace (8 * n)%nat with (N + Z.to_nat pad)%nat by lia.
      rewrite bits_app, drop_app_length' by (by rewrite bits_length).
      rewrite (bits_ext _ x 0); [rewrite bits_0; by apply Forall_replicate|].
      intros i Hi. rewrite Z.bits_0. apply Hz. lia.
Qed.

(** The field of [N] bits at bit [off] of octet [sp]. *)
Definition field_at (Src : list Z) (sp off N : Z) : list bool :=
  take (Z.to_nat N) (drop (Z.to_nat (8 * sp + off)) (flat Src)).

Lemma field_at_length Src sp off N :
  0 <= sp -> 0 <= off -> 0 <= N -> 8 * sp + off + N <= 8 * zlen Src ->
  length (field_at Src sp off N) = Z.to_nat N.
Proof.
  intros. unfold field_at, zlen in *. rewrite length_take, length_drop, flat_length. lia.
Qed.

Lemma unpack_number_bits Src sp off N Store stp n pad le :
  octets Src -> 0 <= sp -> 0 <= off <= 7 -> 8 * sp + off + Z.of_nat N <= 8 * zlen Src ->
  in_buf Store stp n = true -> 0 <= pad -> Z.of_nat N = 8 * Z.of_nat n - pad -> (0 < N)%nat ->
  unpack_bits Src sp off (Z.of_nat N) Store stp (Z.of_nat n) (num_stride be le) (lead_pad le pad) =
  Ok (splice Store stp
        (native_bytes be n (Z.shiftl (order_val le (field_at Src sp off (Z.of_nat N))) pad))).
Proof.
  intros Ho Hsp Hoff Hlen Hin Hpad HN HN0.
  rewrite unpack_bits_ok; [|done|lia|lia|lia|lia| |].
  - fold (field_at Src sp off (Z.of_nat N)).
    rewrite (unstream_order_val n pad N Hpad HN HN0) by (rewrite field_at_length; lia).
    fold (first_addr (num_stride be le) stp (Z.of_nat n)). by rewrite put_native.
  - destruct le; simpl; lia.
  - by apply fits_native.
Qed.

Lemma sgn_shiftr w x pad :
  0 <= pad < w -> 0 <= x < 2 ^ w -> Z.shiftr (sgn w x) pad = sgn (w - pad) (Z.shiftr x pad).
Proof.
  intros Hp Hx. unfold sgn. cbv zeta. rewrite (Z.mod_small x) by lia.
  rewrite !Z.shiftr_div_pow2 by lia.
  assert (HP : 0 < 2 ^ pad) by (apply Z.pow_pos_nonneg; lia).
  assert (E : 2 ^ w = 2 ^ (w - pad) * 2 ^ pad) by (rewrite <- Z.pow_add_r by lia; f_equal; lia).
  assert (E1 : 2 ^ (w - 1) = 2 ^ (w - pad - 1) * 2 ^ pad)
    by (rewrite <- Z.pow_add_r by lia; f_equal; lia).
  assert (Hd : 0 <= x / 2 ^ pad < 2 ^ (w - pad))
    by (split; [apply Z.div_pos; lia|apply Z.div_lt_upper_bound; lia]).
  rewrite (Z.mod_small (x / 2 ^ pad)) by lia.
  destruct (Z.ltb_spec x (2 ^ (w - 1))), (Z.ltb_spec (x / 2 ^ pad) (2 ^ (w - pad - 1))).
  - done.
  - exfalso. enough (x / 2 ^ pad < 2 ^ (w - pad - 1)) by lia. apply Z.div_lt_upper_bound; lia.
  - exfalso. enough (2 ^ (w - pad - 1) <= x / 2 ^ pad) by lia. apply Z.div_le_lower_bound; lia.
  - rewrite E. replace (x - 2 ^ (w - pad) * 2 ^ pad) with (x + (- 2 ^ (w - pad)) * 2 ^ pad) by lia.
    rewrite Z.div_add by lia. lia.
Qed.

(** The shift back: the inverted, sign extended content of the field. *)
Lemma unpack_shift_ok p ty NumBuf Out op n w N le :
  int_width (Z.of_nat n) = Some n -> in_buf NumBuf 0 n = true -> in_buf Out op n = true ->
  slice NumBuf 0 n = native_bytes be n (Z.shiftl (order_val le w) (IntermediateShift p)) ->
  0 <= IntermediateShift p -> Z.of_nat N = 8 * Z.of_nat n - IntermediateShift p -> (0 < N)%nat ->
  length w = N ->
  unpack_shift be p ty NumBuf Out op (Z.of_nat n) =
  Ok (splice Out op
        (native_bytes be n
           (let y := field_val le (Invert p) w in
            if bool_decide (ty = EDSLIB_BASICTYPE_SIGNED_INT) then sgn (Z.of_nat N) y else y))).
Proof.
  intros Hw Hin Hout Hsl Hsh HN HN0 Hlen. unfold unpack_shift.
  rewrite Hw, ld_ok, Hsl, native_val_bytes by done. cbn [rbind].
  pose proof (order_val_range n (IntermediateShift p) N Hsh HN HN0 le w Hlen) as Hy.
  set (Y := order_val le w) in *. set (s := IntermediateShift p) in *.
  assert (HP : 0 < 2 ^ s) by (apply Z.pow_pos_nonneg; lia).
  assert (E8 : 2 ^ (8 * Z.of_nat n) = 2 ^ Z.of_nat N * 2 ^ s)
    by (rewrite <- Z.pow_add_r by lia; f_equal; lia).
  rewrite Z.shiftl_mul_pow2, Z.mod_small by nia.
  set (x := if Invert p then Z.lxor (Y * 2 ^ s) (2 ^ bitsof n - 1) else Y * 2 ^ s).
  assert (Hx : Z.shiftr x s = field_val le (Invert p) w /\ 0 <= x < 2 ^ (8 * Z.of_nat n)).
  { unfold field_val. fold Y. rewrite Hlen. unfold x. destruct (Invert p).
    - rewrite lxor_ones by (unfold bitsof; nia). unfold bitsof. rewrite Z.shiftr_div_pow2 by lia.
      split; [|nia].
      replace (2 ^ (8 * Z.of_nat n) - 1 - Y * 2 ^ s)
        with ((2 ^ s - 1) + (2 ^ Z.of_nat N - 1 - Y) * 2 ^ s) by nia.
      rewrite Z.div_add, Z.div_small by lia. lia.
    - rewrite Z.shiftr_div_pow2, Z.div_mul by lia. split; [done|nia]. }
  destruct Hx as [Hx1 Hx2]. rewrite <- Hx1.
  case_bool_decide.
  - rewrite shr_ok by (unfold bitsof; lia). cbn [rbind]. rewrite st_ok by done.
    unfold bitsof. rewrite sgn_shiftr by lia. do 4 f_equal. lia.
  - rewrite shr_ok by (unfold bitsof; lia). cbn [rbind]. by rewrite st_ok.
Qed.
End Number.
