(* ===== verification/EdsCodec.v ===== *)
(** The codec of a field: what [DoBitwisePack] writes for the native octets of
    a value and what [DoBitwiseUnpack] delivers for the bits of a field, for
    every kind of entry that needs no floating point conversion. *)

From S2P Require Import Prelude.
From S2P Require Import EdsTypes EdsBits EdsPack EdsPackProofs EdsUnpackProofs EdsField EdsNumber.

(** * Kinds of entries *)

Inductive field_kind :=
| KPlain    (* the machine's own representation *)
| KEncoded  (* sign-magnitude or ones' complement integer *)
| KBinary.  (* octet string *)

#[global] Instance field_kind_dec : EqDecision field_kind.
Proof. solve_decision. Defined.

Definition d_width (d : EdsLib_DataTypeDB_Entry_t) : option nat := int_width (d_bytes d).
Definition d_signed (d : EdsLib_DataTypeDB_Entry_t) : bool :=
  bool_decide (BasicType d = EDSLIB_BASICTYPE_SIGNED_INT).

Definition field_kind_of (d : EdsLib_DataTypeDB_Entry_t) : option field_kind :=
  if negb ((0 <? d_bits d) && (d_bits d <? 2 ^ 31)) then None else
  match BasicType d with
  | EDSLIB_BASICTYPE_BINARY => if d_bits d <=? 8 * d_bytes d then Some KBinary else None
  | EDSLIB_BASICTYPE_SIGNED_INT =>
      match d_width d, d_enc d with
      | Some _, EDSLIB_NUMBERENCODING_TWOS_COMPLEMENT
      | Some _, EDSLIB_NUMBERENCODING_UNDEFINED =>
          if d_bits d <=? 8 * d_bytes d then Some KPlain else None
      | Some _, EDSLIB_NUMBERENCODING_SIGN_MAGNITUDE
      | Some _, EDSLIB_NUMBERENCODING_ONES_COMPLEMENT =>
          if d_bits d <=? 64 then Some KEncoded else None
      | _, _ => None
      end
  | EDSLIB_BASICTYPE_UNSIGNED_INT =>
      match d_width d with
      | Some _ => if d_bits d <=? 8 * d_bytes d then Some KPlain else None
      | None => None
      end
  | EDSLIB_BASICTYPE_FLOAT =>
      match d_width d, d_enc d with
      | Some _, EDSLIB_NUMBERENCODING_IEEE_754
      | Some _, EDSLIB_NUMBERENCODING_UNDEFINED =>
          if d_bits d =? 8 * d_bytes d then Some KPlain else None
      | _, _ => None
      end
  | _ => None
  end.

Definition N_of (d : EdsLib_DataTypeDB_Entry_t) : nat := Z.to_nat (d_bits d).
Definition n_of (d : EdsLib_DataTypeDB_Entry_t) : nat := Z.to_nat (d_bytes d).

(** The value of native octets, the content of its field, and back. *)
Definition native_value (be : bool) (d : EdsLib_DataTypeDB_Entry_t) (nb : list Z) : Z :=
  if d_signed d then sgn (8 * zlen nb) (native_val be nb) else native_val be nb.
Definition content (d : EdsLib_DataTypeDB_Entry_t) (v : Z) : Z :=
  if d_signed d then enc_int (d_enc d) (d_bits d) v else v mod 2 ^ d_bits d.
Definition value_of_content (d : EdsLib_DataTypeDB_Entry_t) (y : Z) : Z :=
  if d_signed d then dec_int (d_enc d) (d_bits d) y else y.

Definition encode (be : bool) (d : EdsLib_DataTypeDB_Entry_t) (nb : list Z) : list bool :=
  match field_kind_of d with
  | Some KBinary => take (N_of d) (flat nb)
  | _ => field_bits (d_le d) (d_inv d) (N_of d) (content d (native_value be d nb))
  end.

Definition decode (be : bool) (d : EdsLib_DataTypeDB_Entry_t) (w : list bool) : list Z :=
  match field_kind_of d with
  | Some KBinary => chunks (n_of d) w
  | _ => native_bytes be (n_of d) (value_of_content d (field_val (d_le d) (d_inv d) w))
  end.

(** The native values that the field can express. *)
Definition representable (be : bool) (d : EdsLib_DataTypeDB_Entry_t) (nb : list Z) : bool :=
  match field_kind_of d with
  | Some KBinary => forallb negb (drop (N_of d) (flat nb))
  | _ =>
      let v := native_value be d nb in
      if d_signed d then int_range (d_enc d) (d_bits d) v else v <? 2 ^ d_bits d
  end.

(** Whether the bits after the field are certain to be kept: an inverted
    big endian field with padding sets them. *)
Definition quiet (d : EdsLib_DataTypeDB_Entry_t) (nb : list Z) : bool :=
  match field_kind_of d with
  | Some KBinary => forallb negb (drop (N_of d) (flat nb))
  | Some KEncoded => d_le d || negb (d_inv d)
  | _ => d_le d || negb (d_inv d)
  end.

(** ** Facts about the kinds *)

Lemma kind_bits d k : field_kind_of d = Some k -> 0 < d_bits d < 2 ^ 31.
Proof. unfold field_kind_of. destruct (_ && _) eqn:E; simpl; [intros _; lia|done]. Qed.

Lemma kind_plain d :
  field_kind_of d = Some KPlain ->
  exists n, d_width d = Some n /\ d_bits d <= 8 * d_bytes d /\
    is_number (BasicType d) = true /\ IntermediateOf d = Some (EDSLIB_BASICTYPE_NONE, 0) /\
    (d_signed d = true -> d_enc d = EDSLIB_NUMBERENCODING_TWOS_COMPLEMENT \/
                          d_enc d = EDSLIB_NUMBERENCODING_UNDEFINED).
Proof.
  unfold field_kind_of, IntermediateOf, d_signed. fold (d_enc d) (d_bits d) (d_bytes d).
  destruct (_ && _); [simpl|done].
  destruct (BasicType d) eqn:EB; try done; try (by repeat case_match);
    (destruct (d_width d) as [n|] eqn:EW; [|done]); intros H; exists n.
  - destruct (d_enc d); try done; repeat case_match; try done; (split_and!; [done|lia|done|done|auto]).
  - repeat case_match; try done; split_and!; [done|lia|done|done|done].
  - pose proof (int_width_inv _ _ EW) as [Hb Hn].
    destruct (d_enc d); try done; case_match eqn:E8; try done;
      (destruct (Z.eqb_spec (d_bits d) 128); [lia|]; split_and!; [done|lia|done|done|done]).
Qed.

Lemma kind_encoded d :
  field_kind_of d = Some KEncoded ->
  exists n, d_width d = Some n /\ d_bits d <= 64 /\ BasicType d = EDSLIB_BASICTYPE_SIGNED_INT /\
    IntermediateOf d = Some (EDSLIB_BASICTYPE_UNSIGNED_INT, 8) /\
    (d_enc d = EDSLIB_NUMBERENCODING_SIGN_MAGNITUDE \/ d_enc d = EDSLIB_NUMBERENCODING_ONES_COMPLEMENT).
Proof.
  unfold field_kind_of, IntermediateOf. fold (d_enc d) (d_bits d) (d_bytes d).
  destruct (_ && _); [simpl|done].
  destruct (BasicType d) eqn:EB; try done; try (by repeat case_match);
    (destruct (d_width d) as [n|] eqn:EW; [|done]); intros H; exists n.
  - destruct (d_enc d); try done; repeat case_match; try done; (split_and!; [done|lia|done|done|auto]).
Qed.

Lemma lnot_mod x w : 0 <= w -> 0 <= x < 2 ^ w -> Z.lnot x mod 2 ^ w = Z.lxor x (2 ^ w - 1).
Proof.
  intros Hw Hx. rewrite lxor_ones by lia. unfold Z.lnot. symmetry.
  apply (Z.mod_unique _ _ (-1)); [left|]; lia.
Qed.

Lemma land_pow2_test y k : 0 <= k -> 0 <= y < 2 * 2 ^ k -> (Z.land y (2 ^ k) =? 0) = (y <? 2 ^ k).
Proof.
  intros Hk Hy. assert (HP : 0 < 2 ^ k) by (apply Z.pow_pos_nonneg; lia).
  destruct (Z.ltb_spec y (2 ^ k)).
  - apply Z.eqb_eq. apply Z.bits_inj'; intros i Hi. rewrite Z.land_spec, Z.bits_0.
    destruct (decide (i = k)) as [->|].
    + by rewrite (testbit_above y k) by lia.
    + rewrite Z.pow2_bits_false by lia. apply andb_false_r.
  - apply Z.eqb_neq. intros H0. apply (f_equal (fun z => Z.testbit z k)) in H0.
    rewrite Z.land_spec, Z.pow2_bits_true, andb_true_r, Z.bits_0 in H0 by lia.
    rewrite Z.testbit_odd, Z.shiftr_div_pow2 in H0 by lia.
    rewrite <- (Z.div_unique y (2 ^ k) 1 (y - 2 ^ k)) in H0; [done|left; lia|lia].
Qed.

(** * Packing *)

(** The destination after a field of content [w] was put at bit [off] of
    octet [dp]. *)
Definition put_field (Dst : list Z) (dp off : Z) (w : list bool) (q : Prop) (Dst' : list Z) : Prop :=
  octets Dst' /\ zlen Dst' = zlen Dst /\
  take (Z.to_nat (8 * dp + off) + length w) (flat Dst') = take (Z.to_nat (8 * dp + off)) (flat Dst) ++ w /\
  (q -> drop (Z.to_nat (8 * dp + off) + length w) (flat Dst') =
        drop (Z.to_nat (8 * dp + off) + length w) (flat Dst)).

Section Codec.
Variable be : bool.
Variable DoFloatPack :
  list Z -> list Z -> Z -> Z -> EdsLib_NumberEncoding_Enum_t -> Z -> res (list Z * Z).
Variable DoFloatUnpack :
  list Z -> Z -> Z -> list Z -> EdsLib_NumberEncoding_Enum_t -> Z -> res (list Z).

Abbreviation pack := (EdsLib_Internal_DoBitwisePack be DoFloatPack).
Abbreviation unpack := (EdsLib_Internal_DoBitwiseUnpack be DoFloatUnpack).

Lemma content_plain_bits d nb i :
  field_kind_of d = Some KPlain -> zlen nb = d_bytes d -> 0 <= i < d_bits d ->
  Z.testbit (content d (native_value be d nb)) i = Z.testbit (native_val be nb) i.
Proof.
  intros Hk Hlen Hi. destruct (kind_plain d Hk) as (n & Hw & Hle & _ & _ & Henc).
  unfold content, native_value. destruct (d_signed d).
  - assert (E : forall v, enc_int (d_enc d) (d_bits d) v = v mod 2 ^ d_bits d)
      by (destruct Henc as [-> | ->]; done).
    rewrite E, Z.mod_pow2_bits_low by lia.
    rewrite <- (Z.mod_pow2_bits_low (sgn _ _) (8 * zlen nb)) by lia.
    rewrite sgn_congr, Z.mod_pow2_bits_low by lia. done.
  - by rewrite Z.mod_pow2_bits_low by lia.
Qed.

(** The common end of packing a number whose [n] octets are at [lp]. *)
Lemma pack_number_ok p d NumBuf Load lp n Dst dp off stride lead y :
  int_width (Z.of_nat n) = Some n -> in_buf Load lp n = true ->
  zlen NumBuf = VALUEBUFFER_SIZE -> octets Load -> octets Dst ->
  IntermediateShift p = 8 * Z.of_nat n - d_bits d -> 0 <= IntermediateShift p -> 0 < d_bits d < 2 ^ 31 ->
  stride = num_stride be (d_le d) -> lead = lead_pad (d_le d) (IntermediateShift p) ->
  Invert p = d_inv d ->
  (forall i, 0 <= i < d_bits d -> Z.testbit y i = Z.testbit (native_val be (slice Load lp n)) i) ->
  0 <= off <= 7 -> 0 <= dp -> 8 * dp + off + d_bits d <= 8 * zlen Dst ->
  exists Dst',
    (let* (Load, LoadPtr) :=
       (if (IntermediateShift p >? 0) || Invert p then
          let* NumBuf := pack_shift be p NumBuf Load lp (Z.of_nat n) in Ok (NumBuf, 0)
        else Ok (Load, lp)) in
     pack_bits Load (if stride <? 0 then LoadPtr + (Z.of_nat n - 1) else LoadPtr) stride lead
       Dst dp off (d_bits d)) = Ok Dst' /\
    put_field Dst dp off (field_bits (d_le d) (d_inv d) (N_of d) y)
      (d_le d || negb (d_inv d) = true) Dst'.
Proof.
  intros Hw Hin HNB Ho HoD Hsh Hsh0 HB -> -> Hinv Hy Hoff Hdp Hfit.
  destruct (pack_shift_ok be p NumBuf Load lp n Hw Hin HNB Ho ltac:(lia))
    as (Load' & lp' & x & -> & Hin' & Hsl' & Hx & Hlow). cbn [rbind].
  fold (first_addr (num_stride be (d_le d)) lp' (Z.of_nat n)).
  assert (HN : Z.of_nat (N_of d) = d_bits d) by (unfold N_of; lia).
  destruct (pack_number_bits be Load' lp' n x (IntermediateShift p) (N_of d) (d_le d) Dst dp off
              (if d_inv d then Z.lnot y else y)) as (Dst' & HE & Ho' & Hl' & Htk & Hdr);
    [done|done|lia|lia|lia| |done|lia|lia|lia|lia|].
  { intros i Hi. rewrite Hx by lia. rewrite Hinv. destruct (d_inv d); [|symmetry; apply Hy; lia].
    rewrite !Z.lnot_spec by lia. f_equal. symmetry. apply Hy. lia. }
  rewrite HN in HE, Htk, Hdr. exists Dst'. split; [exact HE|].
  assert (Hlen : (Z.to_nat (8 * dp + off) +
                  length (field_bits (d_le d) (d_inv d) (N_of d) y))%nat =
                 Z.to_nat (8 * dp + off + d_bits d)) by (rewrite field_bits_length; lia).
  unfold put_field. rewrite Hlen. split_and!; [done|done|exact Htk|].
  intros Hq. apply Hdr. destruct (d_le d); [by left|]. right. apply Hlow.
  rewrite Hinv. by destruct (d_inv d).
Qed.

Lemma pack_plain d NumBuf Dst dp Src sp off :
  field_kind_of d = Some KPlain ->
  zlen NumBuf = VALUEBUFFER_SIZE -> octets Src -> octets Dst -> in_buf Src sp (n_of d) = true ->
  0 <= off <= 7 -> 0 <= dp -> 8 * dp + off + d_bits d <= 8 * zlen Dst ->
  exists Dst', pack NumBuf Dst dp Src sp d off = Ok Dst' /\
    put_field Dst dp off (encode be d (slice Src sp (n_of d))) (quiet d (slice Src sp (n_of d)) = true) Dst'.
Proof.
  intros Hk HNB HoS HoD Hin Hoff Hdp Hfit.
  pose proof (kind_bits d _ Hk) as HB.
  destruct (kind_plain d Hk) as (n & Hw & Hle & Hnum & Hi & _).
  unfold d_width in Hw. destruct (int_width_inv _ _ Hw) as [Hb Hn].
  assert (En : n_of d = n) by (unfold n_of; lia). rewrite En in *.
  destruct (style_number be d _ _ (d_bytes d * 8 - d_bits d) Hnum Hi) as (order & lead & trail & Hst & Hld);
    [done|by rewrite decide_True by done|lia|].
  set (p := PackStyleInfo _ _ _ _ _ _ _ _) in Hst.
  unfold EdsLib_Internal_DoBitwisePack. rewrite Hst.
  unfold pack_convert. rewrite bool_decide_true by done. cbn [orb rbind]. cbn iota.
  unfold encode, quiet. rewrite Hk. fold (d_bytes d) (d_bits d). rewrite Hb.
  refine (pack_number_ok p d NumBuf Src sp n Dst dp off _ _
    (content d (native_value be d (slice Src sp n))) _ Hin HNB HoS HoD _ _ HB eq_refl Hld eq_refl
    _ Hoff Hdp Hfit); unfold p; cbn [IntermediateShift Invert].
  - by rewrite Hb in Hw.
  - lia.
  - lia.
  - intros i Hi'. apply content_plain_bits; [done| |done].
    unfold zlen. rewrite slice_length by done. lia.
Qed.

(** ** Encoded integers *)

Lemma signed_pack_ok d n NumBuf Src sp :
  field_kind_of d = Some KEncoded -> d_width d = Some n ->
  zlen NumBuf = VALUEBUFFER_SIZE -> octets NumBuf -> octets Src -> in_buf Src sp n = true ->
  representable be d (slice Src sp n) = true ->
  exists V E,
    EdsLib_Internal_DoSignedIntPack be NumBuf Src sp (d_bytes d) (d_enc d) (d_bits d) = Ok (V, 8) /\
    zlen V = VALUEBUFFER_SIZE /\ octets V /\ slice V 0 8 = native_bytes be 8 E /\
    forall i, 0 <= i < d_bits d ->
      Z.testbit E i = Z.testbit (content d (native_value be d (slice Src sp n))) i.
Proof.
  intros Hk Hw HNB HoN HoS Hin Hrep.
  pose proof (kind_bits d _ Hk) as HB.
  destruct (kind_encoded d Hk) as (n' & Hw' & H64 & Hbt & _ & Henc).
  assert (n' = n) as -> by congruence. unfold d_width in Hw.
  assert (Hin8 : forall m, zlen m = VALUEBUFFER_SIZE -> in_buf m 0 8 = true)
    by (intros m Hm; apply in_buf_spec; rewrite Hm; unfold VALUEBUFFER_SIZE; lia).
  assert (Hst : forall m v, zlen m = VALUEBUFFER_SIZE -> octets m ->
    exists m', st be m 0 8 v = Ok m' /\ zlen m' = VALUEBUFFER_SIZE /\ octets m' /\
               slice m' 0 8 = native_bytes be 8 v).
  { intros m v Hm Hom. rewrite st_ok by auto. eexists; split; [done|].
    rewrite splice_zlen by (rewrite native_bytes_length; auto).
    split_and!; [done|by apply octets_splice, native_bytes_octets|apply slice_st; auto]. }
  assert (Hsig : d_signed d = true) by (unfold d_signed; by apply bool_decide_true).
  unfold representable in Hrep. rewrite Hk in Hrep. cbv zeta in Hrep.
  unfold content, native_value in *. rewrite Hsig in *.
  unfold EdsLib_Internal_DoSignedIntPack. rewrite Hw, ld_ok by done. cbn [rbind].
  assert (Hs : sgn (bitsof n) (native_val be (slice Src sp n)) =
               sgn (8 * zlen (slice Src sp n)) (native_val be (slice Src sp n)))
    by (unfold bitsof, zlen; by rewrite slice_length).
  rewrite Hs.
  set (v := sgn (8 * zlen _) _) in *. clearbody v.
  destruct (Hst NumBuf v HNB HoN) as (V1 & -> & HV1 & HoV1 & Hsl1). cbn [rbind].
  destruct (pow2_split (d_bits d) ltac:(lia)) as [HP HP0].
  destruct Henc as [E|E]; rewrite E in *; cbn [enc_int int_range] in *;
    (destruct (Z.ltb_spec v 0); [|by exists V1, v]).
  - rewrite shl_ok by lia. cbn [rbind].
    destruct (Hst V1 (Z.lor (u64 (- v)) (Z.shiftl 1 (d_bits d - 1) mod 2 ^ 64)) HV1 HoV1)
      as (V2 & -> & HV2 & HoV2 & Hsl2). cbn [rbind].
    eexists V2, _. split_and!; [done|done|done|exact Hsl2|].
    assert (Hlt : 2 ^ (d_bits d - 1) < 2 ^ 64) by (apply Z.pow_lt_mono_r; lia).
    unfold u64. rewrite Z.shiftl_1_l, !Z.mod_small by lia. intros i Hi. f_equal.
    rewrite Z.lor_comm, <- Z.shiftl_1_l, lor_shift_add, Z.shiftl_1_l, Z.mul_1_l by lia. done.
  - destruct (Hst V1 (u64 (Z.lnot (u64 (- v)))) HV1 HoV1) as (V2 & -> & HV2 & HoV2 & Hsl2). cbn [rbind].
    eexists V2, _. split_and!; [done|done|done|exact Hsl2|].
    intros i Hi. unfold u64. rewrite Z.mod_pow2_bits_low by lia.
    assert (Hlt : 2 ^ (d_bits d) <= 2 ^ 64) by (apply Z.pow_le_mono_r; lia).
    rewrite (Z.mod_small (- v)) by lia. rewrite Z.lnot_spec by lia.
    rewrite <- (Z.mod_pow2_bits_low (2 ^ d_bits d - 1 - - v) (d_bits d)) by lia.
    rewrite <- lxor_ones by lia.
    rewrite Z.mod_pow2_bits_low, Z.lxor_spec, Z.sub_1_r, <- Z.ones_equiv, Z.ones_spec_low by lia.
    by rewrite xorb_true_r.
Qed.

Lemma pack_encoded d NumBuf Dst dp Src sp off :
  field_kind_of d = Some KEncoded -> representable be d (slice Src sp (n_of d)) = true ->
  zlen NumBuf = VALUEBUFFER_SIZE -> octets NumBuf -> octets Src -> octets Dst ->
  in_buf Src sp (n_of d) = true ->
  0 <= off <= 7 -> 0 <= dp -> 8 * dp + off + d_bits d <= 8 * zlen Dst ->
  exists Dst', pack NumBuf Dst dp Src sp d off = Ok Dst' /\
    put_field Dst dp off (encode be d (slice Src sp (n_of d))) (quiet d (slice Src sp (n_of d)) = true) Dst'.
Proof.
  intros Hk Hrep HNB HoN HoS HoD Hin Hoff Hdp Hfit.
  pose proof (kind_bits d _ Hk) as HB.
  destruct (kind_encoded d Hk) as (n & Hw & H64 & Hbt & Hi & _).
  pose proof Hw as Hw0. unfold d_width in Hw. destruct (int_width_inv _ _ Hw) as [Hb Hn].
  assert (En : n_of d = n) by (unfold n_of; lia). rewrite En in *.
  destruct (style_number be d _ _ (64 - d_bits d) ltac:(by rewrite Hbt) Hi)
    as (order & lead & trail & Hst & Hld); [done|by rewrite decide_False by done|lia|].
  set (p := PackStyleInfo _ _ _ _ _ _ _ _) in Hst.
  destruct (signed_pack_ok d n NumBuf Src sp Hk Hw0 HNB HoN HoS Hin Hrep)
    as (V & E & HV & HVl & HVo & HVs & HVb).
  unfold EdsLib_Internal_DoBitwisePack. rewrite Hst.
  unfold pack_convert. rewrite bool_decide_false by done. cbn [orb IntermediateSize p Z.eqb]. cbn iota.
  rewrite Hbt. fold (d_bytes d) (d_bits d) (d_enc d). rewrite HV. cbn [rbind].
  change (8 =? 8) with true. cbn [rbind]. cbn iota.
  unfold encode, quiet. rewrite Hk.
  refine (pack_number_ok p d V V 0 8 Dst dp off _ _
    (content d (native_value be d (slice Src sp n))) eq_refl _ HVl HVo HoD _ _ HB eq_refl Hld eq_refl
    _ Hoff Hdp Hfit); unfold p; cbn [IntermediateShift Invert].
  - apply in_buf_spec. rewrite HVl. unfold VALUEBUFFER_SIZE. lia.
  - lia.
  - lia.
  - intros i Hi'. rewrite HVs, native_val_bytes, Z.mod_pow2_bits_low by lia. symmetry. by apply HVb.
Qed.

(** ** Octet strings *)

Lemma style_binary d :
  field_kind_of d = Some KBinary ->
  BasicType d = EDSLIB_BASICTYPE_BINARY /\ d_bits d <= 8 * d_bytes d /\
  exists trail, EdsLib_Internal_GetPackStyle be d =
    Some (PackStyleInfo EDSLIB_NUMBERBYTEORDER_UNDEFINED EDSLIB_BASICTYPE_NONE 0 1 0 trail 0 false).
Proof.
  unfold field_kind_of. destruct (_ && _); simpl; [|done].
  destruct (BasicType d) eqn:EB; try done; repeat case_match; try done. intros _. split; [done|].
  split; [lia|]. unfold EdsLib_Internal_GetPackStyle, IntermediateOf, d_bits, d_bytes in *.
  rewrite EB. cbn [is_number andb]. rewrite bool_decide_true by done. cbn [negb]. cbn iota.
  destruct (Z.ltb_spec (Bytes (SizeInfo_ d) * 8 - Bits (SizeInfo_ d)) 0); [lia|].
  rewrite bool_decide_true by done. by eexists.
Qed.

Lemma forallb_negb_Forall l : forallb negb l = true <-> Forall (eq false) l.
Proof.
  induction l as [|b l IH]; simpl; [split; [constructor|done]|].
  rewrite andb_true_iff, IH, Forall_cons_iff. destruct b; simpl; intuition done.
Qed.

Lemma pack_binary d NumBuf Dst dp Src sp off :
  field_kind_of d = Some KBinary -> octets Src -> octets Dst -> in_buf Src sp (n_of d) = true ->
  0 <= off <= 7 -> 0 <= dp -> 8 * dp + off + d_bits d <= 8 * zlen Dst ->
  exists Dst', pack NumBuf Dst dp Src sp d off = Ok Dst' /\
    put_field Dst dp off (encode be d (slice Src sp (n_of d))) (quiet d (slice Src sp (n_of d)) = true) Dst'.
Proof.
  intros Hk HoS HoD Hin Hoff Hdp Hfit. pose proof (kind_bits d _ Hk) as HB.
  destruct (style_binary d Hk) as (Hbt & Hle & trail & Hst).
  unfold EdsLib_Internal_DoBitwisePack. rewrite Hst. unfold pack_convert.
  rewrite bool_decide_true by done. cbn [orb rbind IntermediateShift Invert MemStride LeadingPadBits].
  cbn iota. change (0 >? 0) with false. cbn [orb rbind]. cbn iota. change (1 <? 0) with false. cbn iota.
  fold (d_bits d).
  pose proof (loads_fwd Src sp (n_of d) Hin) as Hld.
  assert (Hz : zlen (slice Src sp (n_of d)) = d_bytes d)
    by (unfold zlen; rewrite slice_length by done; unfold n_of; lia).
  destruct (pack_bits_ok Src sp 1 (slice Src sp (n_of d)) 0 Dst dp off (d_bits d) Hld
              (octets_slice _ _ _ HoS) HoD) as (Dst' & HE & Ho' & Hl' & Htk & Hdr); [lia..|].
  exists Dst'. split; [exact HE|]. rewrite stream_0 in Htk, Hdr.
  unfold encode, quiet, put_field. rewrite Hk. fold (N_of d) in Htk, Hdr.
  assert (Hlen : (Z.to_nat (8 * dp + off) + length (take (N_of d) (flat (slice Src sp (n_of d)))))%nat =
                 Z.to_nat (8 * dp + off + d_bits d)).
  { rewrite length_take, flat_length. unfold zlen, N_of in *. lia. }
  rewrite Hlen. split_and!; [done|done|done|]. rewrite forallb_negb_Forall. exact Hdr.
Qed.

(** * Unpacking *)

Lemma unpack_plain d NumBuf Dst dp Src sp off :
  field_kind_of d = Some KPlain ->
  zlen NumBuf = VALUEBUFFER_SIZE -> octets Src -> in_buf Dst dp (n_of d) = true ->
  0 <= off <= 7 -> 0 <= sp -> 8 * sp + off + d_bits d <= 8 * zlen Src ->
  unpack NumBuf Dst dp Src sp d off =
  Ok (splice Dst dp (decode be d (field_at Src sp off (d_bits d)))).
Proof.
  intros Hk HNB HoS Hin Hoff Hsp Hfit. pose proof (kind_bits d _ Hk) as HB.
  destruct (kind_plain d Hk) as (n & Hw & Hle & Hnum & Hi & Henc).
  unfold d_width in Hw. destruct (int_width_inv _ _ Hw) as [Hb Hn].
  assert (En : n_of d = n) by (unfold n_of; lia).
  destruct (style_number be d _ _ (d_bytes d * 8 - d_bits d) Hnum Hi) as (order & lead & trail & Hst & Hld);
    [done|by rewrite decide_True by done|lia|].
  assert (HN : Z.of_nat (N_of d) = d_bits d) by (unfold N_of; lia).
  assert (Hin0 : in_buf NumBuf 0 n = true)
    by (apply in_buf_spec; rewrite HNB; unfold VALUEBUFFER_SIZE; lia).
  set (p := PackStyleInfo _ _ _ _ _ _ _ _) in Hst.
  unfold EdsLib_Internal_DoBitwiseUnpack. rewrite Hst. rewrite bool_decide_true by done.
  cbn [negb andb orb]. cbn iota. cbn [MemStride LeadingPadBits p]. rewrite Hld.
  fold (d_bits d) (d_bytes d). rewrite <- HN, Hb. rewrite En in Hin. unfold decode. rewrite Hk, En.
  set (w := field_at Src sp off (Z.of_nat (N_of d))).
  assert (Hlen : length w = N_of d) by (unfold w; rewrite field_at_length; lia).
  assert (Hval : (if bool_decide (BasicType d = EDSLIB_BASICTYPE_SIGNED_INT)
                  then sgn (Z.of_nat (N_of d)) (field_val (d_le d) (d_inv d) w)
                  else field_val (d_le d) (d_inv d) w) =
                 value_of_content d (field_val (d_le d) (d_inv d) w)).
  { unfold value_of_content, d_signed in *. case_bool_decide; [|done].
    rewrite <- HN. by destruct Henc as [-> | ->]. }
  destruct (Invert p || (IntermediateShift p >? 0)) eqn:Esh.
  - rewrite unpack_number_bits by (done || lia). cbn [rbind]. fold w.
    rewrite (unpack_shift_ok be p _ _ Dst dp n w (N_of d) (d_le d)); cbn [IntermediateShift Invert p].
    + cbn [rbind]. cbv zeta. by rewrite Hval.
    + by rewrite Hb in Hw.
    + apply in_buf_spec. rewrite splice_zlen by (by rewrite native_bytes_length). by apply in_buf_spec.
    + done.
    + rewrite slice_st by done. do 2 f_equal. lia.
    + lia.
    + lia.
    + lia.
    + done.
  - apply orb_false_iff in Esh as [Einv Epad]. cbn [Invert IntermediateShift p] in Einv, Epad.
    rewrite unpack_number_bits by (done || lia). cbn [rbind]. fold w.
    replace (Z.of_nat n * 8 - Z.of_nat (N_of d)) with 0 by lia. rewrite Z.shiftl_0_r.
    do 2 f_equal. rewrite <- Hval. unfold field_val. rewrite Einv.
    case_bool_decide; [|done].
    rewrite <- (native_bytes_mod be n (sgn _ _) (Z.of_nat (N_of d))), sgn_congr by lia.
    by rewrite native_bytes_mod by lia.
Qed.

Lemma signed_decode_ok d V y :
  field_kind_of d = Some KEncoded -> in_buf V 0 8 = true -> 0 <= y < 2 ^ d_bits d ->
  slice V 0 8 = native_bytes be 8 y ->
  exists s, SignedIntDecode be V (d_enc d) (d_bits d) = Ok s /\
            s mod 2 ^ 64 = dec_int (d_enc d) (d_bits d) y mod 2 ^ 64.
Proof.
  intros Hk Hin Hy Hsl. pose proof (kind_bits d _ Hk) as HB.
  destruct (kind_encoded d Hk) as (n & _ & H64 & _ & _ & Henc).
  destruct (pow2_split (d_bits d) ltac:(lia)) as [HP HP0].
  assert (Hle : 2 ^ d_bits d <= 2 ^ 64) by (apply Z.pow_le_mono_r; lia).
  unfold SignedIntDecode. rewrite ld_ok, Hsl, native_val_bytes by done. cbn [rbind].
  change (8 * Z.of_nat 8) with 64. rewrite (Z.mod_small y) by lia.
  assert (HT : Z.shiftl 1 (d_bits d - 1) mod 2 ^ 64 = 2 ^ (d_bits d - 1))
    by (rewrite Z.shiftl_1_l; apply Z.mod_small; lia).
  assert (Htest : (Z.land y (2 ^ (d_bits d - 1)) =? 0) = (y <? 2 ^ (d_bits d - 1))).
  { rewrite land_pow2_test by lia. done. }
  assert (Hm : u64 (2 ^ (d_bits d - 1) - 1) = 2 ^ (d_bits d - 1) - 1)
    by (unfold u64; apply Z.mod_small; lia).
  destruct Henc as [E|E]; rewrite E; rewrite shl_ok by lia; cbn [rbind]; rewrite HT, Htest, Hm;
    eexists; (split; [done|]); cbn [dec_int];
    (destruct (Z.ltb_spec y (2 ^ (d_bits d - 1))); cbn [negb]; [done|]);
    rewrite land_mask by lia; unfold u64; rewrite Z.mod_mod by lia; f_equal.
  - rewrite <- (Z.mod_add y (-1)), Z.mod_small by lia. lia.
  - assert (El : Z.lnot y mod 2 ^ 64 = 2 ^ 64 - 1 - y) by (rewrite <- lxor_ones by lia; apply lnot_mod; lia).
    rewrite El.
    assert (E64 : 2 ^ 64 = 2 ^ (64 - d_bits d) * 2 ^ d_bits d)
      by (rewrite <- Z.pow_add_r by lia; f_equal; lia).
    replace (2 ^ 64 - 1 - y) with
      (2 ^ d_bits d - 1 - y + (2 * (2 ^ (64 - d_bits d) - 1)) * 2 ^ (d_bits d - 1)) by nia.
    rewrite Z.mod_add, Z.mod_small by lia. lia.
Qed.

Lemma unpack_encoded d NumBuf Dst dp Src sp off :
  field_kind_of d = Some KEncoded ->
  zlen NumBuf = VALUEBUFFER_SIZE -> octets Src -> in_buf Dst dp (n_of d) = true ->
  0 <= off <= 7 -> 0 <= sp -> 8 * sp + off + d_bits d <= 8 * zlen Src ->
  unpack NumBuf Dst dp Src sp d off =
  Ok (splice Dst dp (decode be d (field_at Src sp off (d_bits d)))).
Proof.
  intros Hk HNB HoS Hin Hoff Hsp Hfit. pose proof (kind_bits d _ Hk) as HB.
  destruct (kind_encoded d Hk) as (n & Hw & H64 & Hbt & Hi & Henc).
  unfold d_width in Hw. destruct (int_width_inv _ _ Hw) as [Hb Hn].
  assert (En : n_of d = n) by (unfold n_of; lia).
  destruct (style_number be d _ _ (64 - d_bits d) ltac:(by rewrite Hbt) Hi)
    as (order & lead & trail & Hst & Hld); [done|by rewrite decide_False by done|lia|].
  assert (HN : Z.of_nat (N_of d) = d_bits d) by (unfold N_of; lia).
  assert (Hin0 : in_buf NumBuf 0 8 = true)
    by (apply in_buf_spec; rewrite HNB; unfold VALUEBUFFER_SIZE; lia).
  set (p := PackStyleInfo _ _ _ _ _ _ _ _) in Hst.
  unfold EdsLib_Internal_DoBitwiseUnpack. rewrite Hst. rewrite bool_decide_false by done.
  cbn [negb andb orb IntermediateSize p]. change (8 =? 0) with false. cbn [negb andb orb]. cbn iota.
  cbn [MemStride LeadingPadBits p]. rewrite Hld, Hbt.
  fold (d_bits d) (d_bytes d) (d_enc d). rewrite <- HN. unfold decode. rewrite Hk, En.
  set (w := field_at Src sp off (Z.of_nat (N_of d))).
  assert (Hlen : length w = N_of d) by (unfold w; rewrite field_at_length; lia).
  change 8 with (Z.of_nat 8) at 1. rewrite unpack_number_bits by (done || lia). cbn [rbind]. fold w.
  set (V := splice NumBuf 0 (native_bytes be 8 _)).
  assert (HVin : in_buf V 0 8 = true).
  { apply in_buf_spec. unfold V. rewrite splice_zlen by (by rewrite native_bytes_length).
    by apply in_buf_spec. }
  assert (HV : slice V 0 8 = native_bytes be 8 (Z.shiftl (order_val (d_le d) w) (64 - Z.of_nat (N_of d))))
    by (unfold V; by rewrite slice_st).
  pose proof (field_val_range (d_le d) (d_inv d) w ltac:(lia)) as Hyr. rewrite Hlen, HN in Hyr.
  assert (Hmid : exists V2,
    (if Invert p || (IntermediateShift p >? 0) then
       let* NumBuf := unpack_shift be p (IntermediateType p) V V 0 8 in Ok (NumBuf, Dst)
     else Ok (V, Dst)) = Ok (V2, Dst) /\ in_buf V2 0 8 = true /\
    slice V2 0 8 = native_bytes be 8 (field_val (d_le d) (d_inv d) w)).
  { destruct (Invert p || (IntermediateShift p >? 0)) eqn:Esh.
    - change 8 with (Z.of_nat 8) at 1.
      rewrite (unpack_shift_ok be p _ V V 0 8 w (N_of d) (d_le d) eq_refl HVin HVin); 
        cbn [IntermediateShift Invert IntermediateType p]; [|by rewrite HV, HN|lia|lia|lia|done].
      cbn [rbind]. eexists; split; [done|]. rewrite slice_st by done. split; [|done].
      apply in_buf_spec. rewrite splice_zlen by (by rewrite native_bytes_length). by apply in_buf_spec.
    - apply orb_false_iff in Esh as [Einv Epad]. cbn [Invert IntermediateShift p] in Einv, Epad.
      exists V. split_and!; [done|done|]. rewrite HV. replace (64 - Z.of_nat (N_of d)) with 0 by lia.
      unfold field_val. by rewrite Einv, Z.shiftl_0_r. }
  destruct Hmid as (V2 & -> & HV2in & HV2). cbn [rbind].
  destruct (signed_decode_ok d V2 _ Hk HV2in Hyr HV2) as (s & Hs & Hcong).
  unfold EdsLib_Internal_DoSignedIntUnpack. rewrite HN, Hs. cbn [rbind]. rewrite Hw.
  rewrite st_ok by (by rewrite <- En). do 2 f_equal.
  rewrite <- (native_bytes_mod be n s 64), Hcong, native_bytes_mod by lia. f_equal.
  unfold value_of_content, d_signed. by rewrite bool_decide_true.
Qed.

Lemma unpack_binary d NumBuf Dst dp Src sp off :
  field_kind_of d = Some KBinary -> octets Src -> in_buf Dst dp (n_of d) = true ->
  0 <= off <= 7 -> 0 <= sp -> 8 * sp + off + d_bits d <= 8 * zlen Src ->
  unpack NumBuf Dst dp Src sp d off =
  Ok (splice Dst dp (decode be d (field_at Src sp off (d_bits d)))).
Proof.
  intros Hk HoS Hin Hoff Hsp Hfit. pose proof (kind_bits d _ Hk) as HB.
  destruct (style_binary d Hk) as (Hbt & Hle & trail & Hst).
  unfold EdsLib_Internal_DoBitwiseUnpack. rewrite Hst.
  cbn [IntermediateType IntermediateShift Invert MemStride LeadingPadBits].
  rewrite bool_decide_true by done. change (0 >? 0) with false. cbn [negb andb orb]. cbn iota.
  fold (d_bits d) (d_bytes d). replace (d_bytes d) with (Z.of_nat (n_of d)) by (unfold n_of; lia).
  rewrite unpack_bits_ok; [|done|lia|lia|lia|lia|unfold n_of; lia|].
  - cbn [rbind]. change (1 <? 0) with false. cbn iota.
    fold (field_at Src sp off (d_bits d)). rewrite unstream_0.
    rewrite put_fwd by (by rewrite chunks_length). unfold decode. by rewrite Hk.
  - apply in_buf_spec in Hin. intros i Hi. change (1 <? 0) with false. cbn iota. lia.
Qed.

(** * The laws of the codec *)

Lemma kind_size d k : field_kind_of d = Some k -> 0 < d_bytes d.
Proof.
  intros Hk. pose proof (kind_bits d _ Hk). destruct k.
  - destruct (kind_plain d Hk) as (n & Hw & _). unfold d_width in Hw.
    pose proof (int_width_inv _ _ Hw). lia.
  - destruct (kind_encoded d Hk) as (n & Hw & _). unfold d_width in Hw.
    pose proof (int_width_inv _ _ Hw). lia.
  - destruct (style_binary d Hk) as (_ & Hle & _). lia.
Qed.

Lemma encode_length d k nb :
  field_kind_of d = Some k -> length nb = n_of d -> length (encode be d nb) = N_of d.
Proof.
  intros Hk Hlen. pose proof (kind_bits d _ Hk). unfold encode. rewrite Hk.
  assert (0 < N_of d)%nat by (unfold N_of; lia).
  destruct k; [by apply field_bits_length..|].
  destruct (style_binary d Hk) as (_ & Hle & _).
  rewrite length_take, flat_length, Hlen. unfold N_of, n_of in *. lia.
Qed.

Lemma decode_length d k w : field_kind_of d = Some k -> length (decode be d w) = n_of d.
Proof.
  intros Hk. unfold decode. rewrite Hk. destruct k; [apply native_bytes_length..|apply chunks_length].
Qed.

Lemma decode_octets d w : octets (decode be d w).
Proof.
  unfold decode. destruct (field_kind_of d) as [[]|];
    [apply native_bytes_octets..|apply chunks_octets|apply native_bytes_octets].
Qed.

Lemma decode_encode_binary d nb :
  field_kind_of d = Some KBinary -> octets nb -> length nb = n_of d -> representable be d nb = true ->
  decode be d (encode be d nb) = nb.
Proof.
  intros Hk Ho Hlen Hrep. pose proof (kind_bits d _ Hk).
  destruct (style_binary d Hk) as (_ & Hle & _).
  unfold decode, encode, representable in *. rewrite Hk in *.
  apply flat_inj; [apply chunks_octets|done|]. rewrite flat_chunks.
  apply forallb_negb_Forall in Hrep.
  assert (Hz : drop (N_of d) (flat nb) = replicate (8 * n_of d - N_of d) false).
  { replace (8 * n_of d - N_of d)%nat with (length (drop (N_of d) (flat nb)))
      by (rewrite length_drop, flat_length, Hlen; lia).
    clear -Hrep. induction Hrep as [|b l <- Hl IH]; simpl; congruence. }
  assert (HlenN : length (take (N_of d) (flat nb)) = N_of d)
    by (rewrite length_take, flat_length, Hlen; unfold N_of, n_of in *; lia).
  rewrite <- (take_drop (N_of d) (flat nb)) at 2. rewrite Hz.
  rewrite take_app, HlenN, take_ge by (rewrite HlenN; unfold N_of, n_of in *; lia). f_equal.
  rewrite take_replicate. f_equal. lia.
Qed.

Lemma native_bytes_value d nb :
  octets nb -> length nb = n_of d -> 0 < d_bytes d ->
  native_bytes be (n_of d) (native_value be d nb) = nb.
Proof.
  intros Ho Hlen Hb. unfold native_value.
  assert (E : native_bytes be (n_of d) (native_val be nb) = nb)
    by (rewrite <- Hlen; by apply native_bytes_val).
  destruct (d_signed d); [|done].
  assert (Hz : 0 < 8 * zlen nb) by (unfold zlen; rewrite Hlen; unfold n_of; lia).
  rewrite <- (native_bytes_mod be _ (sgn _ _) (8 * zlen nb)), sgn_congr, native_bytes_mod;
    [done|unfold zlen; lia|done|unfold zlen; lia].
Qed.

(** A representable value survives being packed and unpacked. *)
Lemma decode_encode d k nb :
  field_kind_of d = Some k -> octets nb -> length nb = n_of d -> representable be d nb = true ->
  decode be d (encode be d nb) = nb.
Proof.
  intros Hk Ho Hlen Hrep. pose proof (kind_bits d _ Hk) as HB. pose proof (kind_size d _ Hk) as Hb.
  destruct (decide (k = KBinary)) as [->|Hnb]; [by apply decode_encode_binary|].
  assert (HN : Z.of_nat (N_of d) = d_bits d) by (unfold N_of; lia).
  transitivity (native_bytes be (n_of d) (native_value be d nb)); [|by apply native_bytes_value].
  transitivity (native_bytes be (n_of d)
    (value_of_content d (field_val (d_le d) (d_inv d)
       (field_bits (d_le d) (d_inv d) (N_of d) (content d (native_value be d nb)))))).
  { unfold decode, encode. rewrite Hk. by destruct k. }
  f_equal. rewrite field_val_bits by lia. rewrite HN.
  assert (Hr : (if d_signed d then int_range (d_enc d) (d_bits d) (native_value be d nb)
                else native_value be d nb <? 2 ^ d_bits d) = true)
    by (unfold representable in Hrep; rewrite Hk in Hrep; by destruct k).
  unfold value_of_content, content.
  destruct (d_signed d) eqn:Es; [apply dec_enc_int; (lia || done)|].
  rewrite Z.mod_mod by lia. apply Z.mod_small. unfold native_value. rewrite Es.
  pose proof (native_val_range be nb Ho). unfold native_value in Hr. rewrite Es in Hr. lia.
Qed.

Lemma pack_field d k NumBuf Dst dp Src sp off :
  field_kind_of d = Some k -> representable be d (slice Src sp (n_of d)) = true ->
  zlen NumBuf = VALUEBUFFER_SIZE -> octets NumBuf -> octets Src -> octets Dst ->
  in_buf Src sp (n_of d) = true ->
  0 <= off <= 7 -> 0 <= dp -> 8 * dp + off + d_bits d <= 8 * zlen Dst ->
  exists Dst', pack NumBuf Dst dp Src sp d off = Ok Dst' /\
    put_field Dst dp off (encode be d (slice Src sp (n_of d))) (quiet d (slice Src sp (n_of d)) = true) Dst'.
Proof.
  intros Hk. destruct k; intros.
  - by apply pack_plain.
  - by apply pack_encoded.
  - by apply pack_binary.
Qed.

Lemma unpack_field d k NumBuf Dst dp Src sp off :
  field_kind_of d = Some k ->
  zlen NumBuf = VALUEBUFFER_SIZE -> octets Src -> in_buf Dst dp (n_of d) = true ->
  0 <= off <= 7 -> 0 <= sp -> 8 * sp + off + d_bits d <= 8 * zlen Src ->
  unpack NumBuf Dst dp Src sp d off =
  Ok (splice Dst dp (decode be d (field_at Src sp off (d_bits d)))).
Proof.
  intros Hk. destruct k; intros.
  - by apply unpack_plain.
  - by apply unpack_encoded.
  - by apply unpack_binary.
Qed.
End Codec.
