(* ===== verification/EdsErrorControl.v ===== *)
(** Error control of packed objects: edslib_datatypedb_errorcontrol.c.

    Each algorithm reads the packed object and leaves out the error control
    field itself, which begins at bit [ErrCtlBitPos].

    The error control algorithms on octet-aligned objects: the table-driven
    CRCs are the bit-serial ones, and none of the algorithms depends on the
    content of the error control field. *)

From S2P Require Import Prelude EdsTypes EdsBits.

Definition EDSLIB_CRC16_CCITT_POLY : Z := 0x1021.
Definition EDSLIB_CRC8_POLY : Z := 0x07.

(** ** Lookup tables *)

(** [for (bit = 0; bit < 8; ++bit) if (x & (1 << bit)) r |= 0x80 >> bit]. *)
Definition mirror (x : Z) : Z :=
  fold_left (fun r bit =>
    if negb (Z.land x (Z.shiftl 1 (Z.of_nat bit)) =? 0)
    then Z.lor r (Z.shiftr 0x80 (Z.of_nat bit)) else r) (seq 0 8) 0.

(** One turn of the loop over the bits of a table entry. *)
Definition crc_table_step (r : Z * Z) : Z * Z :=
  let crc16 := u32 (Z.shiftl (fst r) 1) in
  let crc8 := u32 (Z.shiftl (snd r) 1) in
  (if negb (Z.land crc16 0x10000 =? 0) then Z.lxor crc16 EDSLIB_CRC16_CCITT_POLY else crc16,
   if negb (Z.land crc8 0x100 =? 0) then Z.lxor crc8 EDSLIB_CRC8_POLY else crc8).

Definition crc_table_entry (i : Z) : Z * Z :=
  let r := Nat.iter 8 crc_table_step (Z.shiftl i 8, mirror i) in
  (Z.land (fst r) 0xFFFF, mirror (snd r)).

(** The two tables after [EdsLib_ErrorControl_Initialize]. *)
Definition EDSLIB_CRC16_CCITT_TABLE : list Z :=
  map (fun i => fst (crc_table_entry (Z.of_nat i))) (seq 0 256).
Definition EDSLIB_CRC8_TABLE : list Z :=
  map (fun i => snd (crc_table_entry (Z.of_nat i))) (seq 0 256).

(** ** Algorithms *)

(** The loop over the octets: [n] remain. *)
Fixpoint longitudinal_loop (n : nat) (Base : list Z) (CurrByte ErrCtlBitPos NextMask Checksum : Z) : res Z :=
  match n with
  | O => Ok Checksum
  | S n =>
      let* Byte := rd Base CurrByte in
      let '(Byte, NextMask) :=
        if CurrByte =? Z.shiftr ErrCtlBitPos 3 then
          let NextMask := u8 (Z.shiftr 0x100 (Z.land ErrCtlBitPos 7) - 1) in
          (u8 (Z.land Byte (Z.lnot NextMask)), NextMask)
        else (Z.land Byte NextMask, 0xFF) in
      longitudinal_loop n Base (CurrByte + 1) ErrCtlBitPos NextMask (Z.lxor Checksum Byte)
  end.
Definition EdsLib_ErrorControlAlgorithm_CHECKSUM_LONGITUDINAL (Base : list Z) (TotalBitSize ErrCtlBitPos : Z) : res Z :=
  longitudinal_loop (Z.to_nat (Z.shiftr (u32 (TotalBitSize + 7)) 3)) Base 0 ErrCtlBitPos 0xFF 0xFF.

(** The two CRC functions have the same text but for the use of the table,
    the polynomial and the size of the field. *)
Section Crc.
Variable step : Z -> Z -> res Z.
Variables poly width : Z.

(** [while (CurrBitPos < NextBitPos)], [n] turns. *)
Fixpoint crc_bits (n : nat) (byte crc : Z) : Z :=
  match n with
  | O => crc
  | S n =>
      crc_bits n (u8 (Z.shiftl byte 1))
        (if negb (Z.land byte 0x80 =? 0) then Z.lxor crc poly else crc)
  end.

(** [while (CurrBitPos < TotalBitSize)]. *)
Fixpoint crc_loop (fuel : nat) (SrcPtr : list Z) (TotalBitSize ErrCtlBitPos CurrBitPos BreakpointBitPos CurrShift crc : Z)
    : res Z :=
  match fuel with
  | O => Hang
  | S fuel =>
      if CurrBitPos <? TotalBitSize then
        let* byte := rd SrcPtr (Z.shiftr CurrBitPos 3) in
        let NextBitPos := u32 (CurrBitPos + 8) in
        if (CurrShift =? 0) && (NextBitPos <=? BreakpointBitPos) then
          let* crc := step byte crc in
          crc_loop fuel SrcPtr TotalBitSize ErrCtlBitPos NextBitPos BreakpointBitPos CurrShift crc
        else
          let byte := u8 (Z.shiftl byte CurrShift) in
          let NextBitPos := u32 (NextBitPos - CurrShift) in
          let NextBitPos := if NextBitPos >? BreakpointBitPos then BreakpointBitPos else NextBitPos in
          let crc := crc_bits (Z.to_nat (NextBitPos - CurrBitPos)) byte crc in
          let CurrBitPos := Z.max CurrBitPos NextBitPos in
          let NextBitPos := if CurrBitPos =? ErrCtlBitPos then u32 (CurrBitPos + width) else NextBitPos in
          let CurrShift := Z.land (u32 (0 - NextBitPos)) 7 in
          crc_loop fuel SrcPtr TotalBitSize ErrCtlBitPos NextBitPos TotalBitSize CurrShift crc
      else Ok crc
  end.

Definition crc_fuel (TotalBitSize : Z) : nat := S (S (Z.to_nat TotalBitSize)).

Definition crc_run (Base : list Z) (TotalBitSize ErrCtlBitPos crc : Z) : res Z :=
  crc_loop (crc_fuel TotalBitSize) Base TotalBitSize ErrCtlBitPos 0
    (if ErrCtlBitPos <? TotalBitSize then ErrCtlBitPos else TotalBitSize) 0 crc.
End Crc.

Definition crc16_step (byte crc : Z) : res Z :=
  let* t := rd EDSLIB_CRC16_CCITT_TABLE (Z.land (Z.lxor byte (Z.shiftr crc 8)) 0xFF) in
  Ok (u16 (Z.lxor t (Z.shiftl crc 8))).
Definition crc8_step (byte crc : Z) : res Z :=
  rd EDSLIB_CRC8_TABLE (Z.lxor crc byte).

Definition EdsLib_ErrorControlAlgorithm_CRC16_CCITT (Base : list Z) (TotalBitSize ErrCtlBitPos : Z) : res Z :=
  crc_run crc16_step EDSLIB_CRC16_CCITT_POLY 16 Base TotalBitSize ErrCtlBitPos 0xFFFF.
Definition EdsLib_ErrorControlAlgorithm_CRC8 (Base : list Z) (TotalBitSize ErrCtlBitPos : Z) : res Z :=
  crc_run crc8_step EDSLIB_CRC8_POLY 8 Base TotalBitSize ErrCtlBitPos 0.

(** [for (offset = 0; offset < TotalBitSize; offset += 8)]: [n] octets remain;
    the result is the sum, the open word and the mask. *)
Fixpoint checksum_loop (n : nat) (Base : list Z) (offset ErrCtlBitPos NextMask intermediate sum : Z)
    : res (Z * Z * Z * Z) :=
  match n with
  | O => Ok (offset, NextMask, intermediate, sum)
  | S n =>
      let* b := rd Base (offset / 8) in
      let intermediate := Z.lor (u32 (Z.shiftl intermediate 8)) b in
      if Z.land offset 0x18 =? 0x18 then
        let* (intermediate, NextMask) :=
          (if Z.shiftr offset 5 =? Z.shiftr ErrCtlBitPos 5 then
             let* p := shl 32 1 (32 - Z.land ErrCtlBitPos 0x1F) in
             let NextMask := u32 (p - 1) in
             Ok (Z.land intermediate (u32 (Z.lnot NextMask)), NextMask)
           else Ok (Z.land intermediate NextMask, 0xFFFFFFFF)) in
        checksum_loop n Base (u32 (offset + 8)) ErrCtlBitPos NextMask intermediate (u64 (sum + intermediate))
      else checksum_loop n Base (u32 (offset + 8)) ErrCtlBitPos NextMask intermediate sum
  end.
(** For more bits, [offset] wraps and the pointer runs out of the object. *)
Definition EdsLib_ErrorControlAlgorithm_CHECKSUM (Base : list Z) (TotalBitSize ErrCtlBitPos : Z) : res Z :=
  if 0xFFFFFFF8 <? TotalBitSize then Fault
  else
  let* (offset, NextMask, intermediate, sum) :=
    checksum_loop (Z.to_nat ((TotalBitSize + 7) / 8)) Base 0 ErrCtlBitPos 0xFFFFFFFF 0 0 in
  if negb (Z.land offset 0x1F =? 0) then
    let* i := shl 32 intermediate (32 - Z.land offset 0x1F) in
    Ok (u64 (sum + Z.land i NextMask))
  else Ok sum.

(** [EdsLib_ErrorControlCompute], through the dispatch table. *)
Definition EdsLib_ErrorControlCompute (Algorithm : EdsLib_ErrorControlType_t) (Buffer : list Z)
    (TotalBitSize ErrCtlBitPos : Z) : res Z :=
  match Algorithm with
  | EdsLib_ErrorControlType_CHECKSUM => EdsLib_ErrorControlAlgorithm_CHECKSUM Buffer TotalBitSize ErrCtlBitPos
  | EdsLib_ErrorControlType_CHECKSUM_LONGITUDINAL =>
      EdsLib_ErrorControlAlgorithm_CHECKSUM_LONGITUDINAL Buffer TotalBitSize ErrCtlBitPos
  | EdsLib_ErrorControlType_CRC8 => EdsLib_ErrorControlAlgorithm_CRC8 Buffer TotalBitSize ErrCtlBitPos
  | EdsLib_ErrorControlType_CRC16_CCITT => EdsLib_ErrorControlAlgorithm_CRC16_CCITT Buffer TotalBitSize ErrCtlBitPos
  | _ => Ok 0
  end.

(** * Bit-serial definitions *)

(** One bit of CRC-16/CCITT: polynomial 0x1021, most significant bit first. *)
Definition crc16_bit (c : Z) (b : bool) : Z :=
  Z.lxor (Z.land (Z.shiftl c 1) 0xFFFF) (if xorb (Z.testbit c 15) b then 0x1021 else 0).
Definition crc16_octet (c b : Z) : Z := fold_left crc16_bit (bits 8 b) c.

(** One bit of the reflected CRC-8: 0xE0 is 0x07 mirrored, least significant
    bit first. *)
Definition crc8_bit (c : Z) (b : bool) : Z :=
  Z.lxor (Z.shiftr c 1) (if xorb (Z.testbit c 0) b then 0xE0 else 0).
Definition crc8_octet (c b : Z) : Z := fold_left crc8_bit (rev (bits 8 b)) c.

(** * The tables *)

Lemma lxor_bounds a b k : 0 <= k -> 0 <= a < 2 ^ k -> 0 <= b < 2 ^ k -> 0 <= Z.lxor a b < 2 ^ k.
Proof.
  intros Hk Ha Hb. split; [apply Z.lxor_nonneg; lia|].
  destruct (decide (Z.lxor a b = 0)) as [->|]; [lia|].
  apply Z.log2_lt_pow2; [|eapply Z.le_lt_trans; [apply Z.log2_lxor; lia|]].
  - assert (0 <= Z.lxor a b) by (apply Z.lxor_nonneg; lia). lia.
  - destruct (decide (k = 0)) as [->|]; [|].
    + change (2 ^ 0) with 1 in *. replace a with 0 in * by lia. replace b with 0 in * by lia. done.
    + apply Z.max_lub_lt.
      * destruct (decide (a = 0)) as [->|]; [simpl; lia|]. apply Z.log2_lt_pow2; lia.
      * destruct (decide (b = 0)) as [->|]; [simpl; lia|]. apply Z.log2_lt_pow2; lia.
Qed.

(** Both registers are linear over exclusive or. *)
Lemma crc16_bit_lxor c d b e :
  crc16_bit (Z.lxor c d) (xorb b e) = Z.lxor (crc16_bit c b) (crc16_bit d e).
Proof.
  apply Z.bits_inj'; intros i Hi. unfold crc16_bit.
  assert (Hif : forall u v : bool, Z.testbit (if xorb u v then 0x1021 else 0) i =
    xorb (Z.testbit (if u then 0x1021 else 0) i) (Z.testbit (if v then 0x1021 else 0) i)).
  { intros [] []; cbn [xorb]; rewrite ?Z.bits_0; by destruct (Z.testbit 0x1021 i). }
  rewrite !Z.lxor_spec, !Z.land_spec, !Z.shiftl_spec, !Z.lxor_spec, !Hif by lia.
  repeat match goal with |- context [Z.testbit ?x ?j] => destruct (Z.testbit x j) end; reflexivity.
Qed.

Lemma crc16_octet_lxor c d b e :
  crc16_octet (Z.lxor c d) (Z.lxor b e) = Z.lxor (crc16_octet c b) (crc16_octet d e).
Proof.
  unfold crc16_octet. generalize 8%nat. intros n. revert c d.
  induction n as [|n IH]; intros c d; [done|]. cbn [bits fold_left].
  by rewrite Z.lxor_spec, crc16_bit_lxor, IH.
Qed.

Definition is_crc (n c : Z) : Prop := 0 <= c < 2 ^ n.

Lemma crc16_table_entry x : 0 <= x < 256 -> rd EDSLIB_CRC16_CCITT_TABLE x = Ok (crc16_octet 0 x).
Proof. intros Hv. eapply bool_decide_eq_true. revert x Hv. apply (exhaust 256). vm_compute. reflexivity. Qed.

Lemma crc16_cancel x : 0 <= x < 256 -> crc16_octet (Z.shiftl x 8) x = 0.
Proof. intros Hv. eapply bool_decide_eq_true. revert x Hv. apply (exhaust 256). vm_compute. reflexivity. Qed.

Lemma crc16_low x : 0 <= x < 256 -> crc16_octet x 0 = Z.shiftl x 8.
Proof. intros Hv. eapply bool_decide_eq_true. revert x Hv. apply (exhaust 256). vm_compute. reflexivity. Qed.

Lemma crc16_entry_range x : 0 <= x < 256 -> (0 <=? crc16_octet 0 x) && (crc16_octet 0 x <? 65536) = true.
Proof. revert x. apply (exhaust 256). vm_compute. reflexivity. Qed.

(** The register as its two octets. *)
Lemma crc16_halves c :
  is_crc 16 c -> is_octet (Z.shiftr c 8) /\ is_octet (Z.land c 255) /\
  c = Z.lxor (Z.shiftl (Z.shiftr c 8) 8) (Z.land c 255).
Proof.
  unfold is_octet, is_crc. intros Hc. change (2 ^ 16) with 65536 in *. split_and!.
  - apply Z.shiftr_nonneg. lia.
  - rewrite Z.shiftr_div_pow2 by lia. change (2 ^ 8) with 256. apply Z.div_lt_upper_bound; lia.
  - apply Z.land_nonneg. lia.
  - change 255 with (Z.ones 8). rewrite Z.land_ones by lia. apply Z.mod_pos_bound. lia.
  - apply Z.bits_inj'; intros i Hi. change 255 with (Z.ones 8).
    rewrite Z.lxor_spec, Z.shiftl_spec, Z.land_spec by lia. destruct (decide (i < 8)).
    + rewrite (Z.testbit_neg_r _ (i - 8)), Z.ones_spec_low, andb_true_r by lia. done.
    + rewrite Z.shiftr_spec, Z.ones_spec_high, andb_false_r, xorb_false_r by lia. f_equal. lia.
Qed.

Lemma crc16_split c b :
  is_octet b -> is_crc 16 c ->
  crc16_octet c b = Z.lxor (crc16_octet 0 (Z.lxor b (Z.shiftr c 8))) (Z.shiftl (Z.land c 255) 8).
Proof.
  intros Hb Hc. destruct (crc16_halves c Hc) as (Hhi & Hlo & Hc').
  set (hi := Z.shiftr c 8) in *. set (lo := Z.land c 255) in *. set (x := Z.lxor b hi).
  replace b with (Z.lxor (Z.lxor x hi) 0) at 1
    by (unfold x; by rewrite Z.lxor_0_r, Z.lxor_assoc, Z.lxor_nilpotent, Z.lxor_0_r).
  rewrite Hc' at 1. rewrite crc16_octet_lxor, (crc16_low lo) by done. f_equal.
  rewrite <- (Z.lxor_0_l (Z.shiftl hi 8)), crc16_octet_lxor, crc16_cancel, Z.lxor_0_r by done. done.
Qed.

(** The step through the table is eight bit-serial steps. *)
Lemma crc16_step_ok b c :
  is_octet b -> is_crc 16 c -> crc16_step b c = Ok (crc16_octet c b) /\ is_crc 16 (crc16_octet c b).
Proof.
  intros Hb Hc. destruct (crc16_halves c Hc) as (Hhi & Hlo & _). pose proof (crc16_split c b Hb Hc) as E.
  unfold is_octet, is_crc, crc16_step in *. change (2 ^ 16) with 65536 in *.
  set (hi := Z.shiftr c 8) in *. set (lo := Z.land c 255) in *. set (x := Z.lxor b hi) in *.
  assert (Hx : 0 <= x < 256) by (apply (lxor_bounds b hi 8); lia).
  assert (Ex : Z.land x 255 = x).
  { change 255 with (Z.ones 8). rewrite Z.land_ones by lia. apply Z.mod_small. lia. }
  rewrite Ex, crc16_table_entry by done. cbn [rbind]. rewrite E.
  pose proof (crc16_entry_range x Hx) as Hr.
  assert (Hlo8 : 0 <= Z.shiftl lo 8 < 2 ^ 16) by (rewrite Z.shiftl_mul_pow2 by lia; lia).
  split; [|apply (lxor_bounds _ _ 16); lia].
  f_equal. unfold u16. rewrite <- Z.land_ones by lia. apply Z.bits_inj'; intros i Hi.
  rewrite Z.land_spec, !Z.lxor_spec, !Z.shiftl_spec by lia.
  destruct (decide (i < 16)).
  - rewrite Z.ones_spec_low, andb_true_r by lia. f_equal. unfold lo. change 255 with (Z.ones 8).
    rewrite Z.land_spec. destruct (decide (i < 8)); [by rewrite !(Z.testbit_neg_r _ (i - 8)) by lia|].
    rewrite Z.ones_spec_low, andb_true_r by lia. done.
  - rewrite Z.ones_spec_high, andb_false_r by lia.
    rewrite (testbit_above (crc16_octet 0 x) 16 i), (testbit_above lo 8 (i - 8)) by lia. done.
Qed.

(** No table entry but the first has a zero low octet. *)
Lemma crc16_entry_low x : 0 <= x < 256 -> bool_decide (Z.land (crc16_octet 0 x) 255 = 0 -> x = 0) = true.
Proof. revert x. apply (exhaust 256). vm_compute. reflexivity. Qed.

Lemma crc16_octet_0 c b : is_octet b -> is_crc 16 c -> crc16_octet c b = 0 -> b = Z.shiftr c 8 /\ Z.land c 255 = 0.
Proof.
  intros Hb Hc H0. destruct (crc16_halves c Hc) as (Hhi & Hlo & _). rewrite crc16_split in H0 by done.
  assert (Hx : 0 <= Z.lxor b (Z.shiftr c 8) < 256) by (apply (lxor_bounds _ _ 8); [lia|done..]).
  pose proof (crc16_entry_low _ Hx) as HT%bool_decide_eq_true. apply Z.lxor_eq in H0.
  assert (E : Z.lxor b (Z.shiftr c 8) = 0).
  { apply HT. rewrite H0. change 255 with (Z.ones 8). rewrite Z.land_ones, Z.shiftl_mul_pow2 by lia. by apply Z.mod_mul. }
  split; [by apply Z.lxor_eq|]. rewrite E in H0. change (crc16_octet 0 0) with 0 in H0.
  symmetry in H0. apply Z.shiftl_eq_0_iff in H0; [done|lia].
Qed.

Lemma crc8_step_all :
  forallb (fun c => forallb (fun b =>
    bool_decide (crc8_step b c = Ok (crc8_octet c b)) && (0 <=? crc8_octet c b) && (crc8_octet c b <? 256))
    (map Z.of_nat (seq 0 256))) (map Z.of_nat (seq 0 256)) = true.
Proof. vm_compute. reflexivity. Qed.

Lemma crc8_step_ok b c :
  is_octet b -> is_crc 8 c -> crc8_step b c = Ok (crc8_octet c b) /\ is_crc 8 (crc8_octet c b).
Proof.
  intros Hb Hc. pose proof (exhaust 256 _ crc8_step_all c Hc) as H.
  pose proof (exhaust 256 _ H b Hb) as H'.
  apply andb_true_iff in H' as [[H1%bool_decide_eq_true H2]%andb_true_iff H3].
  split; [done|]. unfold is_crc. change (2 ^ 8) with 256. lia.
Qed.

(** * The loop over the object *)

(** The octets of the first [T] outside the [w] octets from [p] on. *)
Definition outside (m : list Z) (p w T : Z) : list Z :=
  take (Z.to_nat p) m ++ drop (Z.to_nat (p + w)) (take (Z.to_nat T) m).

Section Loop.
Variable step : Z -> Z -> res Z.
Variables poly w size : Z.
Variable upd : Z -> Z -> Z.
Hypothesis Hstep : forall b c, is_octet b -> is_crc size c -> step b c = Ok (upd c b) /\ is_crc size (upd c b).
Hypothesis Hw : 0 < w < 4.

Lemma fold_crc l : forall c, octets l -> is_crc size c -> is_crc size (fold_left upd l c).
Proof.
  induction l as [|b l IH]; intros c Ho Hc; [done|]. apply Forall_cons_iff in Ho as [Hb Ho].
  apply IH; [done|]. by apply Hstep.
Qed.

Lemma take_drop_S (m : list Z) (q : Z) n :
  0 <= q < zlen m -> take (S n) (drop (Z.to_nat q) m) = zget m q :: take n (drop (Z.to_nat (q + 1)) m).
Proof.
  intros Hq. rewrite (drop_zget m q) by done. cbn [take].
  by replace (Z.to_nat (q + 1)) with (S (Z.to_nat q)) by lia.
Qed.

(** A run of whole octets up to the break point. *)
Lemma crc_segment m Total pos Break n : forall fuel q c,
  octets m -> is_crc size c -> 0 <= q -> 8 * q + 8 * Z.of_nat n <= Break -> Break <= Total ->
  Total <= 8 * zlen m -> Total < 2 ^ 32 ->
  crc_loop step poly (8 * w) (n + fuel) m Total pos (8 * q) Break 0 c =
  crc_loop step poly (8 * w) fuel m Total pos (8 * (q + Z.of_nat n)) Break 0
    (fold_left upd (take n (drop (Z.to_nat q) m)) c).
Proof.
  induction n as [|n IH]; intros fuel q c Ho Hc Hq HB HT Hm H32.
  { rewrite Z.add_0_r. done. }
  cbn [Nat.add crc_loop]. replace (8 * q <? Total) with true by lia.
  assert (E3 : Z.shiftr (8 * q) 3 = q).
  { rewrite Z.shiftr_div_pow2 by lia. change (2 ^ 3) with 8. rewrite Z.mul_comm. by apply Z.div_mul. }
  rewrite E3, rd_ok by lia. cbn [rbind].
  rewrite u32_id by range. change (0 =? 0) with true. replace (8 * q + 8 <=? Break) with true by lia.
  cbn [andb]. destruct (Hstep (zget m q) c) as [-> Hc']; [apply octets_zget; [done|lia]|done|]. cbn [rbind].
  replace (8 * q + 8) with (8 * (q + 1)) by lia.
  rewrite IH by (done || lia). rewrite take_drop_S by lia. cbn [fold_left]. do 2 f_equal. lia.
Qed.

Lemma crc_done fuel m Total pos Break c :
  crc_loop step poly (8 * w) (S fuel) m Total pos Total Break 0 c = Ok c.
Proof. cbn [crc_loop]. by rewrite Z.ltb_irrefl. Qed.

(** The field is skipped. *)
Lemma crc_skip m T p fuel c :
  octets m -> 0 <= p -> p + w <= T -> T <= zlen m -> 8 * T < 2 ^ 32 ->
  crc_loop step poly (8 * w) (S fuel) m (8 * T) (8 * p) (8 * p) (8 * p) 0 c =
  crc_loop step poly (8 * w) fuel m (8 * T) (8 * p) (8 * (p + w)) (8 * T) 0 c.
Proof.
  intros Ho Hp HT Hm H32. cbn [crc_loop]. replace (8 * p <? 8 * T) with true by lia.
  assert (E3 : Z.shiftr (8 * p) 3 = p).
  { rewrite Z.shiftr_div_pow2 by lia. change (2 ^ 3) with 8. rewrite Z.mul_comm. by apply Z.div_mul. }
  rewrite E3, rd_ok by lia. cbn [rbind]. rewrite (u32_id (8 * p + 8)) by range.
  change (0 =? 0) with true. replace (8 * p + 8 <=? 8 * p) with false by lia. cbn [andb].
  rewrite Z.sub_0_r, (u32_id (8 * p + 8)) by range.
  replace (8 * p + 8 >? 8 * p) with true by lia. cbn iota.
  rewrite Z.sub_diag, Z.max_id, Z.eqb_refl, (u32_id (8 * p + 8 * w)) by range. cbn [Z.to_nat crc_bits].
  replace (8 * p + 8 * w) with (8 * (p + w)) by lia.
  replace (Z.land (u32 (0 - 8 * (p + w))) 7) with 0; [done|].
  symmetry. change 7 with (Z.ones 3). rewrite Z.land_ones by lia. unfold u32.
  change (2 ^ 32) with (2 ^ 3 * 2 ^ 29). rewrite Z.rem_mul_r by lia.
  replace (0 - 8 * (p + w)) with ((- (p + w)) * 2 ^ 3) by lia. rewrite Z.mod_mul, Z.add_0_l by lia.
  rewrite Z.mul_comm. apply Z.mod_mul. lia.
Qed.

Lemma crc_run_ok m T p c :
  octets m -> is_crc size c -> 0 <= p -> p + w <= T -> T <= zlen m -> 8 * T < 2 ^ 32 ->
  crc_run step poly (8 * w) m (8 * T) (8 * p) c = Ok (fold_left upd (outside m p w T) c).
Proof.
  intros Ho Hc Hp HT Hm H32. unfold crc_run, crc_fuel.
  replace (8 * p <? 8 * T) with true by lia.
  set (n1 := Z.to_nat p). set (n2 := Z.to_nat (T - (p + w))).
  destruct (decide (S (S (Z.to_nat (8 * T))) = n1 + S (n2 + S (S (Z.to_nat (8 * T)) - n1 - n2 - 1)))%nat) as [->|Hf];
    [|unfold n1, n2 in Hf; lia].
  pose proof (crc_segment m (8 * T) (8 * p) (8 * p) n1 (S (n2 + S (S (Z.to_nat (8 * T)) - n1 - n2 - 1))) 0 c) as H1.
  rewrite Z.mul_0_r, !Z.add_0_l in H1. rewrite H1 by (done || unfold n1; lia). clear H1.
  replace (8 * Z.of_nat n1) with (8 * p) by (unfold n1; lia). change (drop (Z.to_nat 0) m) with m.
  rewrite crc_skip by (done || lia).
  set (c1 := fold_left upd (take n1 m) c).
  assert (Hc1 : is_crc size c1) by (apply fold_crc; [by apply octets_take|done]).
  rewrite (crc_segment m (8 * T) (8 * p) (8 * T) n2) by (done || unfold n2; lia).
  replace (8 * (p + w + Z.of_nat n2)) with (8 * T) by (unfold n2; lia).
  rewrite crc_done. unfold outside. rewrite fold_left_app. fold n1 c1. do 3 f_equal.
  unfold n2. rewrite skipn_firstn_comm. f_equal. lia.
Qed.
End Loop.

(** The longitudinal checksum is the exclusive or of the octets outside. *)
Lemma longitudinal_ok m p n : forall q c,
  octets m -> 0 <= q -> 0 <= p -> q + Z.of_nat n <= zlen m ->
  longitudinal_loop n m q (8 * p) 0xFF c =
  Ok (fold_left Z.lxor (if (q <=? p) && (p <? q + Z.of_nat n)
                        then take (Z.to_nat (p - q)) (drop (Z.to_nat q) m) ++
                             take (n - S (Z.to_nat (p - q))) (drop (Z.to_nat (p + 1)) m)
                        else take n (drop (Z.to_nat q) m)) c).
Proof.
  assert (E3 : Z.shiftr (8 * p) 3 = p).
  { rewrite Z.shiftr_div_pow2 by lia. change (2 ^ 3) with 8. rewrite Z.mul_comm. by apply Z.div_mul. }
  assert (E7 : Z.land (8 * p) 7 = 0).
  { change 7 with (Z.ones 3). rewrite Z.land_ones, Z.mul_comm by lia. apply Z.mod_mul. lia. }
  assert (HFF : forall b, is_octet b -> Z.land b 255 = b /\ u8 (Z.land b (Z.lnot 255)) = 0).
  { intros b Hb. unfold is_octet in Hb. change 255 with (Z.ones 8).
    split; [rewrite Z.land_ones by lia; apply Z.mod_small; lia|].
    unfold u8. apply Z.bits_inj'; intros i Hi. rewrite Z.bits_0. destruct (decide (i < 8)).
    - rewrite Z.mod_pow2_bits_low, Z.land_spec, Z.lnot_spec, Z.ones_spec_low by lia. apply andb_false_r.
    - apply Z.mod_pow2_bits_high. lia. }
  induction n as [|n IH]; intros q c Ho Hq Hp Hm.
  { cbn [longitudinal_loop]. destruct (Z.leb_spec q p), (Z.ltb_spec p (q + Z.of_nat 0)); try lia; done. }
  cbn [longitudinal_loop]. rewrite rd_ok by lia. cbn [rbind]. rewrite E3, E7.
  destruct (HFF (zget m q)) as [Hb1 Hb0]; [apply octets_zget; [done|lia]|].
  change (u8 (Z.shiftr 256 0 - 1)) with 255. rewrite Hb0, Hb1.
  destruct (Z.eqb_spec q p) as [->|Hne].
  - rewrite Z.lxor_0_r, IH by (done || lia).
    replace ((p + 1 <=? p) && (p <? p + 1 + Z.of_nat n)) with false by lia.
    rewrite Z.leb_refl, (proj2 (Z.ltb_lt p _)) by lia. cbn [andb].
    rewrite Z.sub_diag. change (Z.to_nat 0) with 0%nat. by rewrite Nat.sub_succ, Nat.sub_0_r.
  - rewrite IH by (done || lia). f_equal.
    assert (Eb : (q <=? p) && (p <? q + Z.of_nat (S n)) = (q + 1 <=? p) && (p <? q + 1 + Z.of_nat n))
      by (destruct (Z.leb_spec q p), (Z.ltb_spec p (q + Z.of_nat (S n))), (Z.leb_spec (q + 1) p),
            (Z.ltb_spec p (q + 1 + Z.of_nat n)); cbn [andb]; done || lia).
    rewrite Eb.
    destruct ((q + 1 <=? p) && (p <? q + 1 + Z.of_nat n)) eqn:E.
    + replace (Z.to_nat (p - q)) with (S (Z.to_nat (p - (q + 1)))) by lia.
      rewrite (take_drop_S m q) by lia. done.
    + rewrite (take_drop_S m q) by lia. done.
Qed.

(** * The algorithms *)

(** The error control value of the octets that are not part of the field, and
    the octets the field takes. *)
Definition ec_width (a : EdsLib_ErrorControlType_t) : Z :=
  match a with EdsLib_ErrorControlType_CRC16_CCITT => 2 | _ => 1 end.
Definition ec_value (a : EdsLib_ErrorControlType_t) (data : list Z) : Z :=
  match a with
  | EdsLib_ErrorControlType_CHECKSUM_LONGITUDINAL => fold_left Z.lxor data 0xFF
  | EdsLib_ErrorControlType_CRC8 => fold_left crc8_octet data 0
  | EdsLib_ErrorControlType_CRC16_CCITT => fold_left crc16_octet data 0xFFFF
  | _ => 0
  end.
Definition ec_aligned (a : EdsLib_ErrorControlType_t) : bool :=
  match a with
  | EdsLib_ErrorControlType_CHECKSUM => false
  | _ => true
  end.

Lemma octets_outside m p w T : octets m -> octets (outside m p w T).
Proof. intros Ho. apply octets_app. split; [by apply octets_take|by apply octets_drop, octets_take]. Qed.

Lemma ec_compute_ok a m T p :
  ec_aligned a = true -> octets m -> 0 <= p -> p + ec_width a <= T -> T <= zlen m -> 8 * T < 2 ^ 32 - 7 ->
  EdsLib_ErrorControlCompute a m (8 * T) (8 * p) = Ok (ec_value a (outside m p (ec_width a) T)).
Proof.
  intros Ha Ho Hp HT Hm H32. destruct a; try done; cbn [EdsLib_ErrorControlCompute ec_value ec_width] in *.
  - unfold EdsLib_ErrorControlAlgorithm_CHECKSUM_LONGITUDINAL. rewrite u32_id by range.
    assert (E : Z.shiftr (8 * T + 7) 3 = T).
    { rewrite Z.shiftr_div_pow2 by lia. change (2 ^ 3) with 8. symmetry.
      apply (Z.div_unique _ _ _ 7); lia. }
    rewrite E, longitudinal_ok by (done || lia).
    rewrite (proj2 (Z.leb_le 0 p)), (proj2 (Z.ltb_lt p _)) by lia. cbn [andb].
    rewrite Z.sub_0_r. unfold outside. change (drop (Z.to_nat 0) m) with m.
    rewrite skipn_firstn_comm. do 4 f_equal. lia.
  - apply (crc_run_ok crc8_step EDSLIB_CRC8_POLY 1 8 crc8_octet crc8_step_ok); done || lia.
  - apply (crc_run_ok crc16_step EDSLIB_CRC16_CCITT_POLY 2 16 crc16_octet crc16_step_ok); done || lia.
Qed.

Lemma lxor_fold_range l : forall c, octets l -> 0 <= c < 256 -> 0 <= fold_left Z.lxor l c < 256.
Proof.
  induction l as [|b l IH]; intros c Ho Hc; [done|]. apply Forall_cons_iff in Ho as [Hb Ho].
  apply IH; [done|]. by apply (lxor_bounds c b 8).
Qed.

Lemma ec_value_range a data : octets data -> 0 <= ec_value a data < 2 ^ (8 * ec_width a).
Proof.
  intros Ho. destruct a; cbn [ec_value ec_width]; try (split; [lia|by vm_compute]).
  - by apply lxor_fold_range.
  - apply (fold_crc crc8_step 8 crc8_octet crc8_step_ok); [done|by vm_compute].
  - apply (fold_crc crc16_step 16 crc16_octet crc16_step_ok); [done|by vm_compute].
Qed.

(** * Detection of errors *)

Lemma crc8_bit_lxor c d b e : crc8_bit (Z.lxor c d) (xorb b e) = Z.lxor (crc8_bit c b) (crc8_bit d e).
Proof.
  apply Z.bits_inj'; intros i Hi. unfold crc8_bit.
  assert (Hif : forall u v : bool, Z.testbit (if xorb u v then 0xE0 else 0) i =
    xorb (Z.testbit (if u then 0xE0 else 0) i) (Z.testbit (if v then 0xE0 else 0) i)).
  { intros [] []; cbn [xorb]; rewrite ?Z.bits_0; by destruct (Z.testbit 0xE0 i). }
  rewrite !Z.lxor_spec, !Z.shiftr_spec, !Z.lxor_spec, !Hif by lia.
  repeat match goal with |- context [Z.testbit ?x ?j] => destruct (Z.testbit x j) end; reflexivity.
Qed.

Lemma crc8_octet_lxor c d b e :
  crc8_octet (Z.lxor c d) (Z.lxor b e) = Z.lxor (crc8_octet c b) (crc8_octet d e).
Proof.
  assert (Hr : forall n c d, fold_right (fun x r => crc8_bit r x) (Z.lxor c d) (bits n (Z.lxor b e)) =
    Z.lxor (fold_right (fun x r => crc8_bit r x) c (bits n b)) (fold_right (fun x r => crc8_bit r x) d (bits n e))).
  { clear c d. induction n as [|n IH]; intros c d; [done|]. cbn [bits fold_right].
    by rewrite IH, Z.lxor_spec, crc8_bit_lxor. }
  unfold crc8_octet. rewrite <- !fold_left_rev_right, !rev_involutive. apply Hr.
Qed.

(** A register update that loses nothing of the register and of the octet. *)
Section Detect.
Variable n : Z.
Variable upd : Z -> Z -> Z.
Hypothesis Hn : 0 <= n.
Hypothesis Hrange : forall c b, is_crc n c -> is_octet b -> is_crc n (upd c b).
Hypothesis Hlin : forall c d b e, upd (Z.lxor c d) (Z.lxor b e) = Z.lxor (upd c b) (upd d e).
Hypothesis Hreg : forall c, is_crc n c -> upd c 0 = 0 -> c = 0.
Hypothesis Hoct : forall b, is_octet b -> upd 0 b = 0 -> b = 0.

Lemma upd_reg c d b : is_crc n c -> is_crc n d -> upd c b = upd d b -> c = d.
Proof.
  intros Hc Hd E. apply Z.lxor_eq, Hreg; [by apply lxor_bounds|].
  rewrite <- (Z.lxor_nilpotent b) at 1. by rewrite Hlin, E, Z.lxor_nilpotent.
Qed.

Lemma upd_oct c b e : is_octet b -> is_octet e -> upd c b = upd c e -> b = e.
Proof.
  intros Hb He E. apply Z.lxor_eq, Hoct; [by apply (lxor_bounds _ _ 8)|].
  rewrite <- (Z.lxor_nilpotent c) at 1. by rewrite Hlin, E, Z.lxor_nilpotent.
Qed.

Lemma fold_reg l : forall c d, octets l -> is_crc n c -> is_crc n d -> fold_left upd l c = fold_left upd l d -> c = d.
Proof.
  induction l as [|b l IH]; intros c d Ho Hc Hd; [done|]. apply Forall_cons_iff in Ho as [Hb Ho].
  cbn [fold_left]. intros E. apply (upd_reg c d b Hc Hd). apply IH; auto.
Qed.

Lemma fold_range l : forall c, octets l -> is_crc n c -> is_crc n (fold_left upd l c).
Proof.
  induction l as [|b l IH]; intros c Ho Hc; [done|]. apply Forall_cons_iff in Ho as [Hb Ho]. apply IH; auto.
Qed.

Lemma fold_detects l j b x c :
  octets l -> is_octet x -> is_crc n c -> l !! j = Some b -> x <> b ->
  fold_left upd (<[j := x]> l) c <> fold_left upd l c.
Proof.
  intros Ho Hx Hc Hj Hne E. pose proof (lookup_lt_Some _ _ _ Hj) as Hlt.
  rewrite insert_take_drop in E by done. rewrite <- (take_drop_middle l j b Hj) in E at 3.
  rewrite !fold_left_app in E. cbn [fold_left] in E.
  assert (Hb : is_octet b) by (by eapply Forall_lookup_1 in Ho).
  assert (H1 : is_crc n (fold_left upd (take j l) c)) by (apply fold_range; [by apply octets_take|done]).
  apply fold_reg in E; [|by apply octets_drop|by apply Hrange|by apply Hrange].
  by apply upd_oct in E.
Qed.
End Detect.

Lemma crc8_kernel x : 0 <= x < 256 ->
  bool_decide ((crc8_octet x 0 = 0 -> x = 0) /\ (crc8_octet 0 x = 0 -> x = 0)) = true.
Proof. revert x. apply (exhaust 256). vm_compute. reflexivity. Qed.

Lemma crc16_kernel c : is_crc 16 c -> crc16_octet c 0 = 0 -> c = 0.
Proof.
  intros Hc H0. destruct (crc16_halves c Hc) as (_ & _ & ->).
  destruct (crc16_octet_0 c 0) as [<- ->]; [done|done|done|]. done.
Qed.

(** The algorithms that compute a value from the octets. *)
Definition ec_protects (a : EdsLib_ErrorControlType_t) : bool :=
  match a with
  | EdsLib_ErrorControlType_CHECKSUM_LONGITUDINAL | EdsLib_ErrorControlType_CRC8
  | EdsLib_ErrorControlType_CRC16_CCITT => true
  | _ => false
  end.

Lemma ec_value_insert a l j b x :
  ec_protects a = true -> octets l -> is_octet x -> l !! j = Some b -> x <> b ->
  ec_value a (<[j := x]> l) <> ec_value a l.
Proof.
  intros Ha Ho Hx Hj Hne. destruct a; try done; cbn [ec_value].
  - apply (fold_detects 8 Z.lxor) with (b := b); try done.
    + intros c y Hc Hy. by apply lxor_bounds.
    + intros c d y e. rewrite !Z.lxor_assoc. f_equal. rewrite <- !Z.lxor_assoc. f_equal. apply Z.lxor_comm.
    + intros c _. by rewrite Z.lxor_0_r.
  - apply (fold_detects 8 crc8_octet) with (b := b); try done.
    + intros c y Hc Hy. by apply crc8_step_ok.
    + apply crc8_octet_lxor.
    + intros c Hc. by apply crc8_kernel, bool_decide_eq_true in Hc as [? _].
    + intros y Hy. by apply crc8_kernel, bool_decide_eq_true in Hy as [_ ?].
  - apply (fold_detects 16 crc16_octet) with (b := b); try done.
    + intros c y Hc Hy. by apply crc16_step_ok.
    + apply crc16_octet_lxor.
    + apply crc16_kernel.
    + intros y Hy H0. by destruct (crc16_octet_0 0 y) as [? _].
Qed.

(** One changed octet outside the field. *)
Lemma outside_zset m p w T q x :
  0 <= p -> 0 <= w -> p + w <= T -> T <= zlen m -> 0 <= q < T -> q < p \/ p + w <= q ->
  exists j, outside (zset m q x) p w T = <[j := x]> (outside m p w T) /\ outside m p w T !! j = Some (zget m q).
Proof.
  intros Hp Hw HT Hm Hq Hout. unfold outside, zset, zlen in *.
  assert (Hget : m !! Z.to_nat q = Some (zget m q)) by (apply list_lookup_lookup_total_lt; lia).
  destruct Hout as [H|H].
  - exists (Z.to_nat q). rewrite !skipn_firstn_comm, drop_insert_lt, take_insert_lt by lia.
    rewrite insert_app_l by (rewrite length_take; lia). split; [done|].
    rewrite lookup_app_l by (rewrite length_take; lia). by rewrite lookup_take_lt by lia.
  - exists (Z.to_nat (q - w)). rewrite !skipn_firstn_comm, drop_insert_ge, take_insert_ge, take_insert_lt by lia.
    rewrite insert_app_r_alt by (rewrite length_take; lia). split; [do 2 f_equal; rewrite length_take; lia|].
    rewrite lookup_app_r by (rewrite length_take; lia). rewrite lookup_take_lt, lookup_drop by (rewrite length_take; lia).
    rewrite <- Hget. f_equal. rewrite length_take. lia.
Qed.

(** * The word checksum *)

(** The shift by 32 is reached at the last octet of the word of the field. *)
Lemma checksum_shift m k n : forall q NextMask intermediate sum,
  0 <= q <= 4 * k + 3 -> 4 * k + 3 < q + Z.of_nat n -> q + Z.of_nat n <= zlen m -> 8 * (4 * k + 4) < 2 ^ 32 ->
  checksum_loop n m (8 * q) (32 * k) NextMask intermediate sum = Fault.
Proof.
  assert (Epos : Z.shiftr (32 * k) 5 = k).
  { rewrite Z.shiftr_div_pow2 by lia. change (2 ^ 5) with 32. rewrite Z.mul_comm. by apply Z.div_mul. }
  assert (Elow : Z.land (32 * k) 31 = 0).
  { change 31 with (Z.ones 5). rewrite Z.land_ones, Z.mul_comm by lia. by apply Z.mod_mul. }
  induction n as [|n IH]; intros q NextMask intermediate sum Hq Hn Hm H32; [lia|]. cbn [checksum_loop].
  rewrite (Z.mul_comm 8 q), Z.div_mul, (Z.mul_comm q 8) by lia. rewrite rd_ok by lia. cbn [rbind].
  destruct (decide (q = 4 * k + 3)) as [->|Hne].
  - assert (E24 : Z.land (8 * (4 * k + 3)) 24 = 24).
    { replace (8 * (4 * k + 3)) with (Z.lor (Z.shiftl k 5) 24).
      - rewrite Z.land_lor_distr_l. change (Z.land 24 24) with 24.
        replace (Z.land (Z.shiftl k 5) 24) with 0; [done|]. symmetry. apply Z.bits_inj'. intros i Hi.
        rewrite Z.land_spec, Z.shiftl_spec, Z.bits_0 by lia. destruct (decide (i < 5)).
        + by rewrite (Z.testbit_neg_r _ (i - 5)) by lia.
        + rewrite (testbit_above 24 5 i) by lia. apply andb_false_r.
      - rewrite <- Z.lxor_lor, <- Z.add_nocarry_lxor; [rewrite Z.shiftl_mul_pow2; lia|..];
          apply Z.bits_inj'; intros i Hi; rewrite Z.land_spec, Z.shiftl_spec, Z.bits_0 by lia;
          (destruct (decide (i < 5)); [by rewrite (Z.testbit_neg_r _ (i - 5)) by lia|]);
          rewrite (testbit_above 24 5 i) by lia; apply andb_false_r. }
    rewrite E24, Z.eqb_refl, Epos. replace (Z.shiftr (8 * (4 * k + 3)) 5) with k.
    2:{ rewrite Z.shiftr_div_pow2 by lia. change (2 ^ 5) with 32. apply (Z.div_unique _ _ _ 24); lia. }
    rewrite Z.eqb_refl, Elow. unfold shl. rewrite Z.sub_0_r. done.
  - assert (Hnext : u32 (8 * q + 8) = 8 * (q + 1)) by (rewrite u32_id by range; lia). rewrite Hnext.
    destruct (Z.land (8 * q) 24 =? 24); [|apply IH; lia].
    destruct (Z.eqb_spec (Z.shiftr (8 * q) 5) (Z.shiftr (32 * k) 5)); cbn [rbind]; [|apply IH; lia].
    rewrite Elow. done.
Qed.

Lemma checksum_fault m T k :
  0 <= k -> 4 * k + 4 <= T -> T <= zlen m -> 8 * T < 2 ^ 32 ->
  EdsLib_ErrorControlAlgorithm_CHECKSUM m (8 * T) (32 * k) = Fault.
Proof.
  intros Hk HT Hm H32. unfold EdsLib_ErrorControlAlgorithm_CHECKSUM.
  replace (0xFFFFFFF8 <? 8 * T) with false by lia.
  replace ((8 * T + 7) / 8) with T by (apply (Z.div_unique _ _ _ 7); lia).
  rewrite (checksum_shift m k (Z.to_nat T) 0) by lia. done.
Qed.
