(* ===== verification/EdsIter.v ===== *)
(** The data type iterator: [EdsLib_DataTypeIterator_Impl] of
    edslib_datatypedb_iterator.c, with the types of edslib_internal.h.

    The C function walks the members of an object with an explicit stack of
    [EdsLib_DataTypeIterator_StackEntry_t] and a [NextAction] variable that
    the user's callback sets.  [iter_loop] is one turn of its [while] loop per
    unit of fuel.  [CurrLev] and [ParentLev] point to the two topmost entries
    of the stack: here [CurrLev] and the list of the entries below it.

    [descend] is the recursion that the loop implements; the second half shows
    that the loop ends and agrees with it, for every database, callback and
    stack size.

    The iterator's loop ends and computes the recursion [walk]. *)

From S2P Require Import Prelude EdsTypes.

Inductive EdsLib_Iterator_CbType_t :=
| EDSLIB_ITERATOR_CBTYPE_UNDEFINED
| EDSLIB_ITERATOR_CBTYPE_START
| EDSLIB_ITERATOR_CBTYPE_MEMBER
| EDSLIB_ITERATOR_CBTYPE_END.

Inductive EdsLib_Iterator_Rc_t :=
| EDSLIB_ITERATOR_RC_DEFAULT
| EDSLIB_ITERATOR_RC_CONTINUE
| EDSLIB_ITERATOR_RC_DESCEND
| EDSLIB_ITERATOR_RC_ASCEND
| EDSLIB_ITERATOR_RC_STOP.

#[global] Instance EdsLib_Iterator_CbType_dec : EqDecision EdsLib_Iterator_CbType_t.
Proof. solve_decision. Defined.
#[global] Instance EdsLib_Iterator_Rc_dec : EqDecision EdsLib_Iterator_Rc_t.
Proof. solve_decision. Defined.

Record EdsLib_DataTypeIterator_StackEntry_t := StackEntry {
  CurrIndex : Z;
  StartOffset : EdsLib_SizeInfo_t;
  EndOffset : EdsLib_SizeInfo_t;
  Details : EdsLib_FieldDetailEntry_t;
  DataDictPtr : option EdsLib_DataTypeDB_Entry_t }.

(** Offsets are pairs of 32-bit counters. *)
Definition so_add (a b : EdsLib_SizeInfo_t) : EdsLib_SizeInfo_t :=
  SizeInfo (u32 (Bits a + Bits b)) (u32 (Bytes a + Bytes b)).
Definition so_sub (a b : EdsLib_SizeInfo_t) : EdsLib_SizeInfo_t :=
  SizeInfo (u32 (Bits a - Bits b)) (u32 (Bytes a - Bytes b)).
Definition so_div (a : EdsLib_SizeInfo_t) (n : Z) : EdsLib_SizeInfo_t :=
  SizeInfo (Bits a / n) (Bytes a / n).

(** [memset(CurrLev, 0, sizeof( *CurrLev))]. *)
Definition zero_size : EdsLib_SizeInfo_t := SizeInfo 0 0.
Definition zero_arg : EdsLib_HandlerArgument_t :=
  HandlerArgument EdsLib_ErrorControlType_INVALID None [] 0 0.
Definition zero_details : EdsLib_FieldDetailEntry_t :=
  FieldDetailEntry EDSLIB_ENTRYTYPE_DEFAULT zero_size (DatabaseRef 0 0) zero_arg.
Definition zero_entry : EdsLib_DataTypeIterator_StackEntry_t :=
  StackEntry 0 zero_size zero_size zero_details None.

Section Iterator.
Variable GD : EdsLib_DatabaseObject_t.
Context {S : Type}.
(** The user's callback, on the state its argument points to. *)
Variable Callback :
  EdsLib_Iterator_CbType_t -> EdsLib_DataTypeIterator_StackEntry_t -> S ->
  res (EdsLib_Iterator_Rc_t * S).
Variable StackSize : Z.

(** An element of an array: the first looks the type up and takes its share
    of the parent's space, the following are adjacent to the previous one. *)
Definition next_array_element (Cur Parent : EdsLib_DataTypeIterator_StackEntry_t)
    (dict : EdsLib_DataTypeDB_Entry_t) : EdsLib_DataTypeIterator_StackEntry_t :=
  if CurrIndex Cur =? 0 then
    let ref := ElementRefObj (Array (Detail dict)) in
    let start := StartOffset Parent in
    StackEntry 0 start
      (so_add (so_div (so_sub (EndOffset Parent) start) (NumSubElements dict)) start)
      (FieldDetailEntry EDSLIB_ENTRYTYPE_ARRAY_ELEMENT (Offset (Details Cur)) ref (HandlerArg (Details Cur)))
      (EdsLib_DataTypeDB_GetEntry GD ref)
  else
    let size := so_sub (EndOffset Cur) (StartOffset Cur) in
    StackEntry (CurrIndex Cur) (EndOffset Cur) (so_add (EndOffset Cur) size)
      (Details Cur) (DataDictPtr Cur).

(** A member of a container: it begins where the previous one ended and ends
    at the offset of the next one, or with the parent. *)
Definition next_container_member (Cur Parent : EdsLib_DataTypeIterator_StackEntry_t)
    (dict : EdsLib_DataTypeDB_Entry_t) : EdsLib_DataTypeIterator_StackEntry_t :=
  let entries := EntryList (Container (Detail dict)) in
  let entry i := nth (Z.to_nat i) entries zero_details in
  let details := entry (CurrIndex Cur) in
  StackEntry (CurrIndex Cur)
    (if CurrIndex Cur =? 0 then so_add (StartOffset Parent) (Offset details) else EndOffset Cur)
    (if CurrIndex Cur <? NumSubElements dict - 1
     then so_add (Offset (entry (1 + CurrIndex Cur))) (StartOffset Parent)
     else EndOffset Parent)
    details (EdsLib_DataTypeDB_GetEntry GD (RefObj details)).

(** The next member of [Parent], or [None] at the end. *)
Definition next_member (Cur Parent : EdsLib_DataTypeIterator_StackEntry_t)
    (dict : EdsLib_DataTypeDB_Entry_t) : option EdsLib_DataTypeIterator_StackEntry_t :=
  if CurrIndex Cur >=? NumSubElements dict then None
  else match BasicType dict with
       | EDSLIB_BASICTYPE_ARRAY => Some (next_array_element Cur Parent dict)
       | EDSLIB_BASICTYPE_CONTAINER => Some (next_container_member Cur Parent dict)
       | _ => None
       end.

(** [++CurrLev->CurrIndex]. *)
Definition incr_index (Cur : EdsLib_DataTypeIterator_StackEntry_t) : EdsLib_DataTypeIterator_StackEntry_t :=
  StackEntry (u16 (CurrIndex Cur + 1)) (StartOffset Cur) (EndOffset Cur) (Details Cur) (DataDictPtr Cur).

(** The [while] loop.  [Below] are the entries under [CurrLev], the nearest
    first: [ParentLev] is the first of them, or NULL. *)
Fixpoint iter_loop (fuel : nat) (NextAction : EdsLib_Iterator_Rc_t)
    (CurrLev : EdsLib_DataTypeIterator_StackEntry_t) (Below : list EdsLib_DataTypeIterator_StackEntry_t)
    (Status : Z) (s : S) : res (Z * S) :=
  match fuel with
  | O => Hang
  | Datatypes.S fuel =>
      let TopDepth := 1 + zlen Below in
      match NextAction with
      | EDSLIB_ITERATOR_RC_STOP => Ok (Status, s)
      | EDSLIB_ITERATOR_RC_DESCEND =>
          match DataDictPtr CurrLev with
          | None =>
              iter_loop fuel EDSLIB_ITERATOR_RC_ASCEND CurrLev Below EDSLIB_INCOMPLETE_DB_OBJECT s
          | Some _ =>
              if TopDepth <? StackSize then
                let* (rc, s) := Callback EDSLIB_ITERATOR_CBTYPE_START CurrLev s in
                let next := if decide (rc = EDSLIB_ITERATOR_RC_DESCEND)
                            then EDSLIB_ITERATOR_RC_CONTINUE else rc in
                iter_loop fuel next zero_entry (CurrLev :: Below) Status s
              else iter_loop fuel EDSLIB_ITERATOR_RC_CONTINUE CurrLev Below Status s
          end
      | EDSLIB_ITERATOR_RC_ASCEND =>
          match Below with
          | [] => iter_loop fuel EDSLIB_ITERATOR_RC_STOP CurrLev Below Status s
          | Parent :: Below =>
              match Below with
              | [] => iter_loop fuel EDSLIB_ITERATOR_RC_STOP Parent Below Status s
              | _ :: _ =>
                  let* (rc, s) := Callback EDSLIB_ITERATOR_CBTYPE_END Parent s in
                  iter_loop fuel rc Parent Below Status s
              end
          end
      | EDSLIB_ITERATOR_RC_CONTINUE =>
          match Below with
          | [] => iter_loop fuel EDSLIB_ITERATOR_RC_STOP CurrLev Below Status s
          | Parent :: _ =>
              match DataDictPtr Parent with
              | None => Fault
              | Some dict =>
                  match next_member CurrLev Parent dict with
                  | None => iter_loop fuel EDSLIB_ITERATOR_RC_ASCEND CurrLev Below Status s
                  | Some Cur =>
                      let* (rc, s) := Callback EDSLIB_ITERATOR_CBTYPE_MEMBER Cur s in
                      iter_loop fuel rc (incr_index Cur) Below Status s
                  end
              end
          end
      | EDSLIB_ITERATOR_RC_DEFAULT => iter_loop fuel EDSLIB_ITERATOR_RC_CONTINUE CurrLev Below Status s
      end
  end.

Definition is_composite (t : EdsLib_BasicType_t) : bool :=
  match t with
  | EDSLIB_BASICTYPE_CONTAINER | EDSLIB_BASICTYPE_ARRAY => true
  | _ => false
  end.

(** The first entry of the stack: the object [ref] at [start]. *)
Definition top_entry (ref : EdsLib_DatabaseRef_t) (start : EdsLib_SizeInfo_t) (dict : EdsLib_DataTypeDB_Entry_t)
    : EdsLib_DataTypeIterator_StackEntry_t :=
  StackEntry 0 start (so_add (SizeInfo_ dict) start)
    (FieldDetailEntry EDSLIB_ENTRYTYPE_DEFAULT zero_size ref zero_arg) (Some dict).

Definition EdsLib_DataTypeIterator_Impl (fuel : nat) (ref : EdsLib_DatabaseRef_t)
    (start : EdsLib_SizeInfo_t) (s : S) : res (Z * S) :=
  match EdsLib_DataTypeDB_GetEntry GD ref with
  | None => Ok (EDSLIB_INCOMPLETE_DB_OBJECT, s)
  | Some dict =>
      let Cur := top_entry ref start dict in
      if is_composite (BasicType dict) then
        iter_loop fuel EDSLIB_ITERATOR_RC_DESCEND Cur [] EDSLIB_SUCCESS s
      else
        let* (_, s) := Callback EDSLIB_ITERATOR_CBTYPE_MEMBER Cur s in
        Ok (EDSLIB_SUCCESS, s)
  end.

(** ** The recursion behind the loop

    [descend d top Lev] visits the members of [Lev] with [d] levels of stack
    left; it returns the action that applies at the level of [Lev] afterwards.
    [members] runs through them: [Some s] when the level was left upwards,
    [None] when the walk stopped. *)

Section Members.
Variable sub : EdsLib_DataTypeIterator_StackEntry_t -> Z -> S -> res (EdsLib_Iterator_Rc_t * Z * S).
Variables (Parent : EdsLib_DataTypeIterator_StackEntry_t) (dict : EdsLib_DataTypeDB_Entry_t).

Fixpoint members (k : nat) (rc : EdsLib_Iterator_Rc_t) (Cur : EdsLib_DataTypeIterator_StackEntry_t)
    (Status : Z) (s : S) : res (bool * Z * S) :=
  match rc with
  | EDSLIB_ITERATOR_RC_STOP => Ok (true, Status, s)
  | EDSLIB_ITERATOR_RC_ASCEND => Ok (false, Status, s)
  | _ =>
      match k with
      | O => Ok (false, Status, s)
      | Datatypes.S k =>
          match next_member Cur Parent dict with
          | None => Ok (false, Status, s)
          | Some Cur =>
              let* (rc, s) := Callback EDSLIB_ITERATOR_CBTYPE_MEMBER Cur s in
              if decide (rc = EDSLIB_ITERATOR_RC_DESCEND) then
                let* (rc, Status, s) := sub (incr_index Cur) Status s in
                members k rc (incr_index Cur) Status s
              else members k rc (incr_index Cur) Status s
          end
      end
  end.
End Members.

Fixpoint descend (d : nat) (top : bool) (Lev : EdsLib_DataTypeIterator_StackEntry_t) (Status : Z) (s : S)
    : res (EdsLib_Iterator_Rc_t * Z * S) :=
  match DataDictPtr Lev with
  | None => Ok (EDSLIB_ITERATOR_RC_ASCEND, EDSLIB_INCOMPLETE_DB_OBJECT, s)
  | Some dict =>
      match d with
      | O => Ok (EDSLIB_ITERATOR_RC_CONTINUE, Status, s)
      | Datatypes.S d =>
          let* (rc, s) := Callback EDSLIB_ITERATOR_CBTYPE_START Lev s in
          let rc := if decide (rc = EDSLIB_ITERATOR_RC_DESCEND)
                    then EDSLIB_ITERATOR_RC_CONTINUE else rc in
          let* (stopped, Status, s) :=
            members (descend d false) Lev dict (Z.to_nat (NumSubElements dict)) rc zero_entry Status s in
          if stopped || top then Ok (EDSLIB_ITERATOR_RC_STOP, Status, s)
          else
            let* (rc, s) := Callback EDSLIB_ITERATOR_CBTYPE_END Lev s in
            Ok (rc, Status, s)
      end
  end.

(** The walk as a whole, without fuel. *)
Definition walk (ref : EdsLib_DatabaseRef_t) (start : EdsLib_SizeInfo_t) (s : S) : res (Z * S) :=
  match EdsLib_DataTypeDB_GetEntry GD ref with
  | None => Ok (EDSLIB_INCOMPLETE_DB_OBJECT, s)
  | Some dict =>
      let Cur := top_entry ref start dict in
      if is_composite (BasicType dict) then
        let* (_, Status, s) := descend (Z.to_nat (StackSize - 1)) true Cur EDSLIB_SUCCESS s in
        Ok (Status, s)
      else
        let* (_, s) := Callback EDSLIB_ITERATOR_CBTYPE_MEMBER Cur s in
        Ok (EDSLIB_SUCCESS, s)
  end.
End Iterator.

(** The number of members of every entry is a 16-bit count. *)
Definition db_counts (GD : EdsLib_DatabaseObject_t) : Prop :=
  forall r dict, EdsLib_DataTypeDB_GetEntry GD r = Some dict -> 0 <= NumSubElements dict < 2 ^ 16.

Section Proofs.
Variable GD : EdsLib_DatabaseObject_t.
Context {S : Type}.
Variable Callback :
  EdsLib_Iterator_CbType_t -> EdsLib_DataTypeIterator_StackEntry_t -> S ->
  res (EdsLib_Iterator_Rc_t * S).
Variable StackSize : Z.
Hypothesis Hcounts : db_counts GD.
(** No callback asks to enter again the level that just ended. *)
Hypothesis Hend : forall e s rc s',
  Callback EDSLIB_ITERATOR_CBTYPE_END e s = Ok (rc, s') -> rc <> EDSLIB_ITERATOR_RC_DESCEND.

Abbreviation loop := (iter_loop GD Callback StackSize).
Abbreviation desc := (descend GD Callback).

(** The turn that leaves a level, after [ASCEND]. *)
Definition leave (fuel : nat) (Lev : EdsLib_DataTypeIterator_StackEntry_t)
    (Below : list EdsLib_DataTypeIterator_StackEntry_t) (Status : Z) (s : S) : res (Z * S) :=
  match Below with
  | [] => loop fuel EDSLIB_ITERATOR_RC_STOP Lev Below Status s
  | _ :: _ => let* (rc, s) := Callback EDSLIB_ITERATOR_CBTYPE_END Lev s in loop fuel rc Lev Below Status s
  end.

(** Entries whose dictionary comes from the database. *)
Definition counted (e : EdsLib_DataTypeIterator_StackEntry_t) : Prop :=
  forall dict, DataDictPtr e = Some dict -> 0 <= NumSubElements dict < 2 ^ 16.

Lemma next_member_counted Cur Parent dict e :
  counted Cur -> next_member GD Cur Parent dict = Some e ->
  counted (incr_index e) /\ CurrIndex e = CurrIndex Cur /\ CurrIndex Cur < NumSubElements dict.
Proof.
  intros HC. unfold next_member. destruct (CurrIndex Cur >=? NumSubElements dict) eqn:E; [done|].
  destruct (BasicType dict); try done; intros [= <-].
  - unfold next_container_member. split_and!; [|done|lia]. intros dd Hd. simpl in Hd. by eapply Hcounts.
  - unfold next_array_element. case_test.
    + split_and!; [|simpl; lia|lia]. intros dd Hd. simpl in Hd. by eapply Hcounts.
    + split_and!; [|done|lia]. exact HC.
Qed.

(** Running the members of [Lev], given that going deeper is understood. *)
Lemma members_ok d Lev dict Below :
  DataDictPtr Lev = Some dict -> NumSubElements dict < 2 ^ 16 ->
  (forall e Status s, counted e -> exists N, forall fuel, (1 <= fuel)%nat ->
     loop (N + fuel) EDSLIB_ITERATOR_RC_DESCEND e (Lev :: Below) Status s =
     let* (rc, Status, s) := desc d false e Status s in loop fuel rc e (Lev :: Below) Status s) ->
  (forall e Status s rc Status' s', desc d false e Status s = Ok (rc, Status', s') ->
     rc <> EDSLIB_ITERATOR_RC_DESCEND) ->
  forall k rc Cur Status s,
    rc <> EDSLIB_ITERATOR_RC_DESCEND -> counted Cur ->
    0 <= CurrIndex Cur -> CurrIndex Cur + Z.of_nat k = Z.max 0 (NumSubElements dict) ->
    exists N, forall fuel, (1 <= fuel)%nat ->
      loop (N + fuel) rc Cur (Lev :: Below) Status s =
      let* (stopped, Status, s) := members GD Callback (desc d false) Lev dict k rc Cur Status s in
      if stopped then Ok (Status, s) else leave fuel Lev Below Status s.
Proof.
  intros Hdict Hnum Hsub Hrc. induction k as [|k IH]; intros rc Cur Status s Hne HC Hi Hk.
  - assert (Hnone : next_member GD Cur Lev dict = None)
      by (unfold next_member; replace (CurrIndex Cur >=? NumSubElements dict) with true by lia; done).
    destruct rc; [exists 3%nat|exists 2%nat|done|exists 1%nat|exists 1%nat];
      intros fuel Hf; cbn [iter_loop Nat.add]; rewrite ?Hdict, ?Hnone; reflexivity.
  - assert (Hcont : exists N, forall fuel, (1 <= fuel)%nat ->
      loop (N + fuel) EDSLIB_ITERATOR_RC_CONTINUE Cur (Lev :: Below) Status s =
      let* (stopped, Status, s) :=
        members GD Callback (desc d false) Lev dict (Datatypes.S k) EDSLIB_ITERATOR_RC_CONTINUE Cur Status s in
      if stopped then Ok (Status, s) else leave fuel Lev Below Status s).
    { cbn [members]. destruct (next_member GD Cur Lev dict) as [e|] eqn:En.
      2:{ exists 2%nat. intros fuel Hf. simpl. by rewrite Hdict, En. }
      destruct (next_member_counted _ _ _ _ HC En) as (HCe & Hie & Hlt).
      assert (Hi' : CurrIndex (incr_index e) = CurrIndex Cur + 1)
        by (simpl; rewrite Hie; unfold u16; apply Z.mod_small; lia).
      destruct (Callback EDSLIB_ITERATOR_CBTYPE_MEMBER e s) as [[rc2 s2]| |] eqn:Ecb;
        [|exists 1%nat; intros fuel Hf; simpl; by rewrite Hdict, En, Ecb..].
      cbn [rbind]. case_decide as Hd.
      - destruct (Hsub (incr_index e) Status s2 HCe) as [N1 HN1].
        destruct (desc d false (incr_index e) Status s2) as [[[rc3 st3] s3]| |] eqn:Ed.
        + destruct (IH rc3 (incr_index e) st3 s3) as [N2 HN2]; [by eapply Hrc|done|lia|lia|].
          exists (1 + (N1 + N2))%nat. intros fuel Hf. cbn [rbind]. rewrite <- HN2 by done.
          cbn [iter_loop Nat.add]. rewrite Hdict, En, Ecb. cbn [rbind]. subst rc2.
          rewrite <- Nat.add_assoc. by rewrite HN1 by lia.
        + exists (1 + N1)%nat. intros fuel Hf. cbn [iter_loop Nat.add]. rewrite Hdict, En, Ecb. cbn [rbind].
          subst rc2. by rewrite HN1 by lia.
        + exists (1 + N1)%nat. intros fuel Hf. cbn [iter_loop Nat.add]. rewrite Hdict, En, Ecb. cbn [rbind].
          subst rc2. by rewrite HN1 by lia.
      - destruct (IH rc2 (incr_index e) Status s2 Hd HCe) as [N2 HN2]; [lia|lia|].
        exists (1 + N2)%nat. intros fuel Hf. cbn [iter_loop Nat.add]. rewrite Hdict, En, Ecb. cbn [rbind].
        by apply HN2. }
    destruct Hcont as [N HN]. destruct rc.
    + exists (1 + N)%nat. intros fuel Hf. simpl. by apply HN.
    + by exists N.
    + done.
    + exists 1%nat. intros fuel Hf. done.
    + exists 1%nat. intros fuel Hf. done.
Qed.

Lemma descend_rc d e Status s rc Status' s' :
  desc d false e Status s = Ok (rc, Status', s') -> rc <> EDSLIB_ITERATOR_RC_DESCEND.
Proof.
  destruct d as [|d]; simpl; (destruct (DataDictPtr e) as [dict|]; [|congruence]); [congruence|].
  destruct (Callback EDSLIB_ITERATOR_CBTYPE_START e s) as [[rc1 s1]| |]; simpl; [|done..].
  destruct (members _ _ _ _ _ _ _ _ _ _) as [[[stopped st2] s2]| |]; simpl; [|done..].
  destruct stopped; simpl; [congruence|].
  destruct (Callback EDSLIB_ITERATOR_CBTYPE_END e s2) as [[rc3 s3]| |] eqn:E; simpl; [|done..].
  intros [= <- _ _]. by eapply Hend.
Qed.

(** Entering a level. *)
Lemma descend_ok d : forall Below Lev Status s,
  counted Lev -> Z.of_nat d = Z.max 0 (StackSize - (1 + zlen Below)) ->
  exists N, forall fuel, (1 <= fuel)%nat ->
    loop (N + fuel) EDSLIB_ITERATOR_RC_DESCEND Lev Below Status s =
    let* (rc, Status, s) := desc d (bool_decide (Below = [])) Lev Status s in
    loop fuel rc Lev Below Status s.
Proof.
  induction d as [|d IH]; intros Below Lev Status s HC Hd; cbn [descend];
    (destruct (DataDictPtr Lev) as [dict|] eqn:Hdict;
      [|exists 1%nat; intros fuel Hf; simpl; by rewrite Hdict]).
  - exists 1%nat. intros fuel Hf. simpl. rewrite Hdict.
    by replace (1 + zlen Below <? StackSize) with false by lia.
  - assert (Hlt : (1 + zlen Below <? StackSize) = true) by lia.
    destruct (Callback EDSLIB_ITERATOR_CBTYPE_START Lev s) as [[rc1 s1]| |] eqn:Ecb;
      [|exists 1%nat; intros fuel Hf; cbn [iter_loop Nat.add]; by rewrite Hdict, Hlt, Ecb..].
    cbn [rbind]. set (rc := if decide _ then _ else rc1).
    destruct (members_ok d Lev dict Below Hdict) with (k := Z.to_nat (NumSubElements dict)) (rc := rc)
      (Cur := zero_entry) (Status := Status) (s := s1) as [N HN].
    + specialize (HC dict Hdict). lia.
    + intros e st s2 HCe. apply (IH (Lev :: Below) e st s2 HCe). rewrite zlen_cons. lia.
    + apply descend_rc.
    + unfold rc. by case_decide.
    + intros dd Hdd. discriminate Hdd.
    + simpl. lia.
    + simpl. lia.
    + exists (1 + N)%nat. intros fuel Hf.
      cbn [iter_loop Nat.add]. rewrite Hdict, Hlt, Ecb. cbn [rbind]. fold rc. rewrite HN by done.
      destruct (members _ _ _ _ _ _ _ _ _ _) as [[[stopped st2] s2]| |]; cbn [rbind]; [|done..].
      destruct stopped; cbn [orb]; [by destruct fuel; [lia|]|].
      unfold leave. destruct Below as [|B Below].
      * by rewrite bool_decide_true.
      * rewrite bool_decide_false by done.
        by destruct (Callback EDSLIB_ITERATOR_CBTYPE_END Lev s2) as [[rc3 s3]| |].
Qed.

(** With enough fuel the loop returns what the recursion returns: a fault of
    the callback, or its final state and the status. *)
Lemma iterator_walks ref start s :
  exists N, forall fuel, (N <= fuel)%nat ->
    EdsLib_DataTypeIterator_Impl GD Callback StackSize fuel ref start s =
    walk GD Callback StackSize ref start s.
Proof.
  unfold EdsLib_DataTypeIterator_Impl, walk.
  destruct (EdsLib_DataTypeDB_GetEntry GD ref) as [dict|] eqn:Eg; [|by exists 0%nat].
  destruct (is_composite (BasicType dict)); [|by exists 0%nat].
  destruct (descend_ok (Z.to_nat (StackSize - 1)) [] (top_entry ref start dict) EDSLIB_SUCCESS s)
    as [N HN].
  - intros dd [= <-]. by eapply Hcounts.
  - change (zlen []) with 0. lia.
  - exists (N + 3)%nat. intros fuel Hf. replace fuel with (N + (fuel - N))%nat by lia.
    rewrite HN by lia. rewrite bool_decide_true by done.
    destruct (descend _ _ _ _ _ _ _) as [[[rc st] s']| |] eqn:Ed; cbn [rbind]; [|done..].
    assert (rc = EDSLIB_ITERATOR_RC_STOP \/ rc = EDSLIB_ITERATOR_RC_CONTINUE) as Hrc.
    { destruct (Z.to_nat (StackSize - 1)); cbn [descend top_entry DataDictPtr] in Ed; [naive_solver|].
      destruct (Callback _ _ _) as [[rc1 s1]| |]; cbn [rbind] in Ed; [|done..].
      destruct (members _ _ _ _ _ _ _ _ _ _) as [[[b st2] s2]| |]; cbn [rbind] in Ed; [|done..].
      rewrite orb_true_r in Ed. naive_solver. }
    remember (fuel - N)%nat as f eqn:Ef. destruct f as [|[|f]]; [lia..|].
    by destruct Hrc as [-> | ->].
Qed.
End Proofs.
