(* ===== verification/EdsValue.v ===== *)
(** Values between the database and native memory: the generic value buffer
    and edslib_datatypedb_load_store.c. *)

From S2P Require Import Prelude.
From S2P Require Import EdsTypes EdsPack.

(** The union is its octets: [SignedInteger] and [UnsignedInteger] are its
    first eight, [StringData] and [BinaryData] are all of them. *)
Record EdsLib_GenericValueBuffer_t := GenericValueBuffer {
  ValueType : EdsLib_BasicType_t;
  Value : list Z }.

(** Floating point numbers of the machine: the sizes of [float], [double] and
    [long double], and its conversions between octets in memory, the octets
    of the widest type, and integers. *)
Record FloatOps := {
  fp_sgl : Z;
  fp_dbl : Z;
  fp_max : Z;
  fp_load : list Z -> list Z;
  fp_store : nat -> list Z -> list Z;
  fp_of_int : Z -> list Z;
  fp_to_signed : list Z -> Z;
  fp_to_unsigned : list Z -> Z;
  fp_eq : list Z -> list Z -> bool }.

(** [strncpy(d, s, n)]: the [n] octets written; [s] ends with NUL or has at
    least [n] octets. *)
Fixpoint strncpy (n : nat) (s : list Z) : list Z :=
  match n with
  | O => []
  | S n =>
      match s with
      | [] => 0 :: strncpy n []
      | c :: s => if c =? 0 then 0 :: strncpy n [] else c :: strncpy n s
      end
  end.

(** [strncmp(a, b, n)]: the difference at the first place where the strings
    differ or end. *)
Fixpoint strncmp (n : nat) (a b : list Z) : Z :=
  match n, a, b with
  | O, _, _ => 0
  | S n, x :: a, y :: b =>
      if x =? y then (if x =? 0 then 0 else strncmp n a b) else x - y
  | S _, [], y :: _ => - y
  | S _, x :: _, [] => x
  | S _, [], [] => 0
  end.

Section Value.
Variable be : bool.
Variable fo : FloatOps.

(** [UnsignedInteger], its assignment, and that of [FloatingPoint]. *)
Definition word (V : EdsLib_GenericValueBuffer_t) : Z := native_val be (slice (Value V) 0 8).
Definition set_word (V : EdsLib_GenericValueBuffer_t) (t : EdsLib_BasicType_t) (v : Z) : EdsLib_GenericValueBuffer_t :=
  GenericValueBuffer t (splice (Value V) 0 (native_bytes be 8 v)).
Definition set_octets (V : EdsLib_GenericValueBuffer_t) (t : EdsLib_BasicType_t) (l : list Z) : EdsLib_GenericValueBuffer_t :=
  GenericValueBuffer t (splice (Value V) 0 l).
Definition set_type (V : EdsLib_GenericValueBuffer_t) (t : EdsLib_BasicType_t) : EdsLib_GenericValueBuffer_t :=
  GenericValueBuffer t (Value V).

Definition EdsLib_DataTypeLoad_Impl (V : EdsLib_GenericValueBuffer_t) (Src : list Z) (p : Z)
    (d : option EdsLib_DataTypeDB_Entry_t) : res EdsLib_GenericValueBuffer_t :=
  let none := Ok (set_word V EDSLIB_BASICTYPE_NONE 0) in
  match d with
  | None => none
  | Some d =>
      let size := Bytes (SizeInfo_ d) in
      let octets := if in_buf Src p (Z.to_nat size) then Ok (slice Src p (Z.to_nat size)) else Fault in
      match BasicType d with
      | EDSLIB_BASICTYPE_SIGNED_INT =>
          match int_width size with
          | Some n => let* v := ld be Src p n in
                      Ok (set_word V EDSLIB_BASICTYPE_SIGNED_INT (sgn (bitsof n) v))
          | None => none
          end
      | EDSLIB_BASICTYPE_UNSIGNED_INT =>
          match int_width size with
          | Some n => let* v := ld be Src p n in Ok (set_word V EDSLIB_BASICTYPE_UNSIGNED_INT v)
          | None => none
          end
      | EDSLIB_BASICTYPE_FLOAT =>
          if (size =? fp_sgl fo) || (size =? fp_max fo) || (size =? fp_dbl fo) then
            let* l := octets in Ok (set_octets V EDSLIB_BASICTYPE_FLOAT (fp_load fo l))
          else none
      | EDSLIB_BASICTYPE_BINARY =>
          if size <=? VALUEBUFFER_SIZE then
            let* l := octets in Ok (set_octets V EDSLIB_BASICTYPE_BINARY (strncpy (Z.to_nat size) l))
          else none
      | _ => none
      end
  end.

Definition EdsLib_DataTypeConvert (V : EdsLib_GenericValueBuffer_t) (DesiredType : EdsLib_BasicType_t)
    : EdsLib_GenericValueBuffer_t :=
  match DesiredType, ValueType V with
  | EDSLIB_BASICTYPE_SIGNED_INT, EDSLIB_BASICTYPE_UNSIGNED_INT => set_type V EDSLIB_BASICTYPE_SIGNED_INT
  | EDSLIB_BASICTYPE_FLOAT, EDSLIB_BASICTYPE_UNSIGNED_INT =>
      set_octets V EDSLIB_BASICTYPE_FLOAT (fp_of_int fo (word V))
  | EDSLIB_BASICTYPE_UNSIGNED_INT, EDSLIB_BASICTYPE_SIGNED_INT => set_type V EDSLIB_BASICTYPE_UNSIGNED_INT
  | EDSLIB_BASICTYPE_FLOAT, EDSLIB_BASICTYPE_SIGNED_INT =>
      set_octets V EDSLIB_BASICTYPE_FLOAT (fp_of_int fo (sgn 64 (word V)))
  | EDSLIB_BASICTYPE_SIGNED_INT, EDSLIB_BASICTYPE_FLOAT =>
      set_word V EDSLIB_BASICTYPE_SIGNED_INT (fp_to_signed fo (slice (Value V) 0 (Z.to_nat (fp_max fo))))
  | EDSLIB_BASICTYPE_UNSIGNED_INT, EDSLIB_BASICTYPE_FLOAT =>
      set_word V EDSLIB_BASICTYPE_UNSIGNED_INT (fp_to_unsigned fo (slice (Value V) 0 (Z.to_nat (fp_max fo))))
  | EDSLIB_BASICTYPE_FLOAT, EDSLIB_BASICTYPE_FLOAT
  | EDSLIB_BASICTYPE_SIGNED_INT, EDSLIB_BASICTYPE_SIGNED_INT
  | EDSLIB_BASICTYPE_UNSIGNED_INT, EDSLIB_BASICTYPE_UNSIGNED_INT
  | EDSLIB_BASICTYPE_BINARY, EDSLIB_BASICTYPE_BINARY
  | EDSLIB_BASICTYPE_ARRAY, EDSLIB_BASICTYPE_ARRAY
  | EDSLIB_BASICTYPE_CONTAINER, EDSLIB_BASICTYPE_CONTAINER => V
  | _, _ => set_type V EDSLIB_BASICTYPE_NONE
  end.

(** The destination and the value buffer afterwards. *)
Definition EdsLib_DataTypeStore_Impl (Dst : list Z) (p : Z) (V : EdsLib_GenericValueBuffer_t)
    (d : option EdsLib_DataTypeDB_Entry_t) : res (list Z * EdsLib_GenericValueBuffer_t) :=
  let SubjectType := match d with Some d => BasicType d | None => EDSLIB_BASICTYPE_NONE end in
  let size := match d with Some d => Bytes (SizeInfo_ d) | None => 0 end in
  let V := EdsLib_DataTypeConvert V SubjectType in
  let none := Ok (Dst, set_type V EDSLIB_BASICTYPE_NONE) in
  let put l := if in_buf Dst p (length l) then Ok (splice Dst p l, V) else Fault in
  let store_float := put (fp_store fo (Z.to_nat size) (slice (Value V) 0 (Z.to_nat (fp_max fo)))) in
  let default :=
    match SubjectType with
    | EDSLIB_BASICTYPE_FLOAT => if (size =? fp_max fo) || (size =? fp_dbl fo) then store_float else none
    | EDSLIB_BASICTYPE_BINARY =>
        if size <=? VALUEBUFFER_SIZE then put (strncpy (Z.to_nat size) (Value V)) else none
    | _ => none
    end in
  match ValueType V with
  | EDSLIB_BASICTYPE_SIGNED_INT | EDSLIB_BASICTYPE_UNSIGNED_INT =>
      match int_width size with
      | Some n => let* m := st be Dst p n (word V) in Ok (m, V)
      | None => default
      end
  | EDSLIB_BASICTYPE_FLOAT => if size =? fp_sgl fo then store_float else default
  | _ => default
  end.
End Value.
