(* ===== verification/EdsObject.v ===== *)
(** Packing and unpacking of whole objects: the callback that the iterator
    calls for every member, and the loop over the levels of derivation
    (edslib_datatypedb_pack_unpack.c).

    Identifying the derived type of a container from the values of its fields
    (edslib_datatypedb_constraints.c). *)

From S2P Require Import Prelude EdsTypes EdsPack EdsIter EdsValue.

Section Ident.
Variable be : bool.
Variable fo : FloatOps.
Variable GD : EdsLib_DatabaseObject_t.

(** One condition or location of the identification sequence: the value
    buffer after it and the sign of the comparison.  [None] at any other kind
    of entry. *)
Definition ident_step (desc : EdsLib_ContainerDescriptor_t) (Buffer : list Z)
    (V : EdsLib_GenericValueBuffer_t) (op : EdsLib_IdentSequenceEntry_t)
    : res (option (EdsLib_GenericValueBuffer_t * Z)) :=
  match Ident_EntryType op with
  | EDSLIB_IDENT_SEQUENCE_VALUE_CONDITION =>
      match ValueList desc !! Z.to_nat (RefIdx op) with
      | None => Fault
      | Some ref =>
          Ok (Some (V, match ValueType V with
                       | EDSLIB_BASICTYPE_SIGNED_INT => sgn 64 (word be V - RV_Integer ref)
                       | EDSLIB_BASICTYPE_UNSIGNED_INT => sgn 64 (word be V - RV_Unsigned ref)
                       | EDSLIB_BASICTYPE_BINARY =>
                           strncmp (Z.to_nat VALUEBUFFER_SIZE) (Value V) (RV_String ref)
                       | _ => -1
                       end))
      end
  | EDSLIB_IDENT_SEQUENCE_ENTITY_LOCATION =>
      match ConstraintEntityList desc !! Z.to_nat (RefIdx op) with
      | None => Fault
      | Some loc =>
          let* V := EdsLib_DataTypeLoad_Impl be fo V Buffer (Bytes (Constraint_Offset loc))
                      (EdsLib_DataTypeDB_GetEntry GD (Constraint_RefObj loc)) in
          Ok (Some (V, if decide (ValueType V = EDSLIB_BASICTYPE_NONE) then -1 else 0))
      end
  | _ => Ok None
  end.

Fixpoint ident_loop (fuel : nat) (desc : EdsLib_ContainerDescriptor_t)
    (seq : list EdsLib_IdentSequenceEntry_t) (Buffer : list Z)
    (V : EdsLib_GenericValueBuffer_t) (i : Z) : res EdsLib_IdentSequenceEntry_t :=
  match fuel with
  | O => Hang
  | S fuel =>
      if i <? 0 then Fault else
      match seq !! Z.to_nat i with
      | None => Fault
      | Some op =>
          let* r := ident_step desc Buffer V op in
          match r with
          | None => Ok op
          | Some (V, c) =>
              ident_loop fuel desc seq Buffer V
                (if c =? 0 then i - 1
                 else if c >? 0 then NextOperationGreater op
                 else NextOperationLess op)
          end
      end
  end.

(** The status and, when it is a success, the index in the list of derived
    types and the derived type. *)
Definition EdsLib_DataTypeIdentifyBuffer_Impl (fuel : nat) (d : EdsLib_DataTypeDB_Entry_t)
    (V : EdsLib_GenericValueBuffer_t) (Buffer : list Z) : res (Z * option (Z * EdsLib_DatabaseRef_t)) :=
  if negb (bool_decide (BasicType d = EDSLIB_BASICTYPE_CONTAINER))
  then Ok (EDSLIB_INVALID_SIZE_OR_TYPE, None)
  else
    let desc := Container (Detail d) in
    match IdentSequenceList desc with
    | None => Ok (EDSLIB_NO_MATCHING_VALUE, None)
    | Some seq =>
        let* op := ident_loop fuel desc seq Buffer V (IdentSequenceBase desc) in
        match Ident_EntryType op with
        | EDSLIB_IDENT_SEQUENCE_RESULT =>
            match DerivativeList desc !! Z.to_nat (RefIdx op) with
            | None => Fault
            | Some e => Ok (EDSLIB_SUCCESS, Some (RefIdx op, Deriv_RefObj e))
            end
        | _ => Ok (EDSLIB_NO_MATCHING_VALUE, None)
        end
    end.
End Ident.

Inductive EdsLib_BitPack_OperMode_t :=
| EDSLIB_BITPACK_OPERMODE_NONE
| EDSLIB_BITPACK_OPERMODE_PACK
| EDSLIB_BITPACK_OPERMODE_UNPACK.

Inductive EdsLib_PackAction_t :=
| EDSLIB_PACKACTION_NONE
| EDSLIB_PACKACTION_BITPACK
| EDSLIB_PACKACTION_BYTECOPY_INVERT
| EDSLIB_PACKACTION_BYTECOPY_STRAIGHT
| EDSLIB_PACKACTION_SUBCOMPONENTS.

#[global] Instance EdsLib_BitPack_OperMode_dec : EqDecision EdsLib_BitPack_OperMode_t.
Proof. solve_decision. Defined.
#[global] Instance EdsLib_PackAction_dec : EqDecision EdsLib_PackAction_t.
Proof. solve_decision. Defined.

(** The control block; the two buffers are the memory its pointers refer to. *)
Record EdsLib_DataTypePackUnpack_ControlBlock_t := PackState {
  SourceBase : list Z;
  DestBase : list Z;
  OperMode : EdsLib_BitPack_OperMode_t;
  PS_RefObj : EdsLib_DatabaseRef_t;
  ProcessedSize : EdsLib_SizeInfo_t;
  PS_MaxSize : EdsLib_SizeInfo_t;
  PS_Status : Z }.

Definition EDSLIB_ITERATOR_MAX_DEEP_DEPTH : Z := 32.

Definition set_dest (B : EdsLib_DataTypePackUnpack_ControlBlock_t) (m : list Z) :=
  PackState (SourceBase B) m (OperMode B) (PS_RefObj B) (ProcessedSize B) (PS_MaxSize B) (PS_Status B).
Definition set_status (B : EdsLib_DataTypePackUnpack_ControlBlock_t) (st : Z) :=
  PackState (SourceBase B) (DestBase B) (OperMode B) (PS_RefObj B) (ProcessedSize B) (PS_MaxSize B) st.

(** [DstPtr += Size; while (Size > 0) { --DstPtr; *DstPtr = *SrcPtr; ++SrcPtr; }] *)
Fixpoint copy_invert (Size : nat) (Dst : list Z) (DstPtr : Z) (Src : list Z) (SrcPtr : Z) : res (list Z) :=
  match Size with
  | O => Ok Dst
  | S Size =>
      let* b := rd Src SrcPtr in
      let* Dst := wr Dst (DstPtr - 1) b in
      copy_invert Size Dst (DstPtr - 1) Src (SrcPtr + 1)
  end.

Section Object.
Variable be : bool.
Variable DoFloatPack :
  list Z -> list Z -> Z -> Z -> EdsLib_NumberEncoding_Enum_t -> Z -> res (list Z * Z).
Variable DoFloatUnpack :
  list Z -> Z -> Z -> list Z -> EdsLib_NumberEncoding_Enum_t -> Z -> res (list Z).
(** What the automatic variables hold before they are assigned. *)
Variable NumBuf0 : list Z.
Variable ValueBuff0 : EdsLib_GenericValueBuffer_t.
Variable fo : FloatOps.
Variable GD : EdsLib_DatabaseObject_t.

(** How a member is transferred, from its dictionary entry and position. *)
Definition pack_action (d : EdsLib_DataTypeDB_Entry_t) (StartBits : Z) : EdsLib_PackAction_t :=
  let flags := Z.land (Flags d) EDSLIB_DATATYPE_FLAG_PACKED_MASK in
  let IsPacked := negb (flags =? 0) in
  let IsByteOrderMatch := flags =? EDSLIB_NATIVE_BYTE_PACK be in
  let AlignBits := Z.land StartBits 7 in
  match BasicType d with
  | EDSLIB_BASICTYPE_CONTAINER | EDSLIB_BASICTYPE_ARRAY =>
      if IsByteOrderMatch && IsPacked && (AlignBits =? 0)
      then EDSLIB_PACKACTION_BYTECOPY_STRAIGHT else EDSLIB_PACKACTION_SUBCOMPONENTS
  | EDSLIB_BASICTYPE_BINARY =>
      if AlignBits =? 0 then EDSLIB_PACKACTION_BYTECOPY_STRAIGHT else EDSLIB_PACKACTION_BITPACK
  | EDSLIB_BASICTYPE_SIGNED_INT | EDSLIB_BASICTYPE_UNSIGNED_INT | EDSLIB_BASICTYPE_FLOAT =>
      if IsPacked && (AlignBits =? 0) then
        if IsByteOrderMatch then EDSLIB_PACKACTION_BYTECOPY_STRAIGHT
        else EDSLIB_PACKACTION_BYTECOPY_INVERT
      else EDSLIB_PACKACTION_BITPACK
  | _ => EDSLIB_PACKACTION_NONE
  end.

(** "Clear out the target buffer": the part not yet processed. *)
Definition clear_dest (B : EdsLib_DataTypePackUnpack_ControlBlock_t)
    (e : EdsLib_DataTypeIterator_StackEntry_t) : res EdsLib_DataTypePackUnpack_ControlBlock_t :=
  let '(Start, End) :=
    match OperMode B with
    | EDSLIB_BITPACK_OPERMODE_PACK =>
        (u32 (Bits (ProcessedSize B) + 7) / 8, u32 (Bits (EndOffset e) + 7) / 8)
    | EDSLIB_BITPACK_OPERMODE_UNPACK => (Bytes (ProcessedSize B), Bytes (EndOffset e))
    | _ => (0, 0)
    end in
  if Start <? End then
    let* m := memset (DestBase B) Start 0 (Z.to_nat (End - Start)) in Ok (set_dest B m)
  else Ok B.

(** The transfer of one member. *)
Definition transfer (B : EdsLib_DataTypePackUnpack_ControlBlock_t)
    (e : EdsLib_DataTypeIterator_StackEntry_t) (d : EdsLib_DataTypeDB_Entry_t)
    (act : EdsLib_PackAction_t) : res (EdsLib_Iterator_Rc_t * EdsLib_DataTypePackUnpack_ControlBlock_t) :=
  let AlignBits := Z.land (Bits (StartOffset e)) 7 in
  let size := Z.to_nat (Bytes (SizeInfo_ d)) in
  let packed := Bits (StartOffset e) / 8 in
  let native := Bytes (StartOffset e) in
  let go (SrcPtr DstPtr : Z) (bitwise : res (list Z)) :=
    let* m := match act with
              | EDSLIB_PACKACTION_BYTECOPY_STRAIGHT =>
                  memcpy (DestBase B) DstPtr (SourceBase B) SrcPtr size
              | EDSLIB_PACKACTION_BYTECOPY_INVERT =>
                  copy_invert size (DestBase B) (DstPtr + Bytes (SizeInfo_ d)) (SourceBase B) SrcPtr
              | EDSLIB_PACKACTION_BITPACK => bitwise
              | _ => Ok (DestBase B)
              end in
    Ok (EDSLIB_ITERATOR_RC_CONTINUE, set_dest B m) in
  match OperMode B with
  | EDSLIB_BITPACK_OPERMODE_PACK =>
      go native packed
        (EdsLib_Internal_DoBitwisePack be DoFloatPack NumBuf0 (DestBase B) packed
           (SourceBase B) native d AlignBits)
  | EDSLIB_BITPACK_OPERMODE_UNPACK =>
      go packed native
        (EdsLib_Internal_DoBitwiseUnpack be DoFloatUnpack NumBuf0 (DestBase B) native
           (SourceBase B) packed d AlignBits)
  | EDSLIB_BITPACK_OPERMODE_NONE => Ok (EDSLIB_ITERATOR_RC_STOP, B)
  end.

(** Entries whose value is computed after packing. *)
Definition is_special (t : EdsLib_EntryType_t) : bool :=
  match t with
  | EDSLIB_ENTRYTYPE_CONTAINER_ERROR_CONTROL_ENTRY | EDSLIB_ENTRYTYPE_CONTAINER_LENGTH_ENTRY
  | EDSLIB_ENTRYTYPE_CONTAINER_FIXED_VALUE_ENTRY => true
  | _ => false
  end.

Definition EdsLib_DataTypePackUnpack_Callback (CbType : EdsLib_Iterator_CbType_t)
    (e : EdsLib_DataTypeIterator_StackEntry_t) (B : EdsLib_DataTypePackUnpack_ControlBlock_t)
    : res (EdsLib_Iterator_Rc_t * EdsLib_DataTypePackUnpack_ControlBlock_t) :=
  let cont := Ok (EDSLIB_ITERATOR_RC_CONTINUE, B) in
  if bool_decide (CbType = EDSLIB_ITERATOR_CBTYPE_START) &&
     bool_decide (PS_RefObj B = RefObj (Details e))
  then
    match DataDictPtr e with
    | None => Fault
    | Some d =>
        if (Bytes (PS_MaxSize B) <? Bytes (SizeInfo_ d)) || (Bits (PS_MaxSize B) <? Bits (SizeInfo_ d))
        then Ok (EDSLIB_ITERATOR_RC_STOP, set_status B EDSLIB_BUFFER_SIZE_ERROR)
        else let* B := clear_dest B e in Ok (EDSLIB_ITERATOR_RC_CONTINUE, B)
    end
  else if negb (bool_decide (CbType = EDSLIB_ITERATOR_CBTYPE_MEMBER)) ||
          bool_decide (EntryType (Details e) = EDSLIB_ENTRYTYPE_CONTAINER_PADDING_ENTRY)
  then cont
  else if bool_decide (OperMode B = EDSLIB_BITPACK_OPERMODE_PACK) && is_special (EntryType (Details e))
  then cont
  else if (Bits (EndOffset e) <=? Bits (ProcessedSize B)) ||
          (Bytes (EndOffset e) <=? Bytes (ProcessedSize B))
  then cont
  else
    match DataDictPtr e with
    | None => Fault
    | Some d =>
        let act := pack_action d (Bits (StartOffset e)) in
        match act with
        | EDSLIB_PACKACTION_NONE => cont
        | EDSLIB_PACKACTION_SUBCOMPONENTS => Ok (EDSLIB_ITERATOR_RC_DESCEND, B)
        | _ => transfer B e d act
        end
    end.

(** ** The loop over the levels of derivation *)

(** The buffer with the native data. *)
Definition native_buffer (B : EdsLib_DataTypePackUnpack_ControlBlock_t) : list Z :=
  match OperMode B with
  | EDSLIB_BITPACK_OPERMODE_PACK => SourceBase B
  | _ => DestBase B
  end.

Fixpoint packunpack_loop (levels iter_fuel : nat) (NextBaseObj : EdsLib_DatabaseRef_t)
    (B : EdsLib_DataTypePackUnpack_ControlBlock_t) : res EdsLib_DataTypePackUnpack_ControlBlock_t :=
  match levels with
  | O => Hang
  | S levels =>
      match EdsLib_DataTypeDB_GetEntry GD NextBaseObj with
      | None => Ok B
      | Some d =>
          if (Bytes (PS_MaxSize B) <? Bytes (SizeInfo_ d)) || (Bits (PS_MaxSize B) <? Bits (SizeInfo_ d))
          then Ok (set_status B EDSLIB_BUFFER_SIZE_ERROR)
          else
            let* (Status, B) :=
              EdsLib_DataTypeIterator_Impl GD EdsLib_DataTypePackUnpack_Callback
                EDSLIB_ITERATOR_MAX_DEEP_DEPTH iter_fuel NextBaseObj zero_size B in
            if negb (PS_Status B =? EDSLIB_SUCCESS) then Ok B
            else if negb (Status =? EDSLIB_SUCCESS) then Ok (set_status B Status)
            else
              let B := PackState (SourceBase B) (DestBase B) (OperMode B) NextBaseObj
                         (SizeInfo_ d) (PS_MaxSize B) (PS_Status B) in
              let* (st, next) :=
                EdsLib_DataTypeIdentifyBuffer_Impl be fo GD iter_fuel d ValueBuff0
                  (native_buffer B) in
              match next with
              | Some (_, ref) => if st =? EDSLIB_SUCCESS then packunpack_loop levels iter_fuel ref B else Ok B
              | None => Ok B
              end
      end
  end.

Definition EdsLib_DataTypePackUnpack_Impl (levels iter_fuel : nat)
    (B : EdsLib_DataTypePackUnpack_ControlBlock_t) : res EdsLib_DataTypePackUnpack_ControlBlock_t :=
  let* B := packunpack_loop levels iter_fuel (PS_RefObj B) B in
  Ok (if (Bits (ProcessedSize B) =? 0) && (PS_Status B =? EDSLIB_SUCCESS)
      then set_status B EDSLIB_INCOMPLETE_DB_OBJECT else B).

(** [EdsLib_DataTypeDB_PackPartialObject] and [..UnpackPartialObject]
    (edslib_datatypedb_api.c): the returned status, the identifier after the
    call and the destination. *)
Definition EdsLib_DataTypeDB_PackPartialObject (levels iter_fuel : nat) (EdsId : Z)
    (DestBuffer SourceBuffer : list Z) (MaxPackedBitSize SourceByteSize StartingBit : Z)
    : res (Z * Z * list Z) :=
  let* B := EdsLib_DataTypePackUnpack_Impl levels iter_fuel
    (PackState SourceBuffer DestBuffer EDSLIB_BITPACK_OPERMODE_PACK (EdsLib_Decode_StructId EdsId)
       (SizeInfo StartingBit 0) (SizeInfo MaxPackedBitSize SourceByteSize) EDSLIB_SUCCESS) in
  Ok (PS_Status B,
      if PS_Status B =? EDSLIB_SUCCESS then EdsLib_Encode_StructId (Some (PS_RefObj B)) else EdsId,
      DestBase B).

Definition EdsLib_DataTypeDB_UnpackPartialObject (levels iter_fuel : nat) (EdsId : Z)
    (DestBuffer SourceBuffer : list Z) (MaxNativeByteSize SourceBitSize StartingByte : Z)
    : res (Z * Z * list Z) :=
  let* B := EdsLib_DataTypePackUnpack_Impl levels iter_fuel
    (PackState SourceBuffer DestBuffer EDSLIB_BITPACK_OPERMODE_UNPACK (EdsLib_Decode_StructId EdsId)
       (SizeInfo 0 StartingByte) (SizeInfo SourceBitSize MaxNativeByteSize) EDSLIB_SUCCESS) in
  Ok (PS_Status B,
      if PS_Status B =? EDSLIB_SUCCESS then EdsLib_Encode_StructId (Some (PS_RefObj B)) else EdsId,
      DestBase B).
End Object.
