(* ===== verification/EdsPost.v ===== *)
(** Fields whose value is computed: lengths, fixed values and error control.
    The callbacks of edslib_datatypedb_pack_unpack.c that complete a packed
    object and verify an unpacked one, and the calls of
    edslib_datatypedb_api.c that use them. *)

From S2P Require Import Prelude.
From S2P Require Import EdsTypes EdsPack EdsErrorControl EdsIter EdsValue EdsObject.

Record EdsLib_PackedPostProc_ControlBlock_t := PackedPostProc {
  BasePtr : list Z;
  PP_BaseDictPtr : option EdsLib_DataTypeDB_Entry_t;
  ErrorCtlDictPtr : option EdsLib_DataTypeDB_Entry_t;
  ErrorCtlType : EdsLib_ErrorControlType_t;
  PP_Status : Z;
  ErrorCtlOffsetBits : Z }.

Record EdsLib_NativePostProc_ControlBlock_t := NativePostProc {
  PackedPtr : option (list Z);
  NativePtr : list Z;
  NP_BaseDictPtr : option EdsLib_DataTypeDB_Entry_t;
  NP_Status : Z;
  RecomputeFields : Z }.

Definition EDSLIB_DATATYPEDB_RECOMPUTE_NONE : Z := 0.
Definition EDSLIB_DATATYPEDB_RECOMPUTE_LENGTH : Z := 1.
Definition EDSLIB_DATATYPEDB_RECOMPUTE_ERRORCONTROL : Z := 2.

Section Post.
Variable be : bool.
Variable DoFloatPack :
  list Z -> list Z -> Z -> Z -> EdsLib_NumberEncoding_Enum_t -> Z -> res (list Z * Z).
Variable DoFloatUnpack :
  list Z -> Z -> Z -> list Z -> EdsLib_NumberEncoding_Enum_t -> Z -> res (list Z).
Variable NumBuf0 : list Z.
Variable ValueBuff0 : EdsLib_GenericValueBuffer_t.
Variable fo : FloatOps.
Variable GD : EdsLib_DatabaseObject_t.

(** The length of an object in octets, through the calibrator of the entry. *)
Definition calibrate (e : EdsLib_DataTypeIterator_StackEntry_t) (v : Z) : Z :=
  match Reverse (HandlerArg (Details e)) with
  | Some f => f v
  | None => v
  end.
Definition object_octets (d : EdsLib_DataTypeDB_Entry_t) : Z := u32 (Bits (SizeInfo_ d) + 7) / 8.

(** The value of a fixed entry, by the type of the field; [None] for the types
    that the code does not handle. *)
Definition fixed_value (V : EdsLib_GenericValueBuffer_t) (d : EdsLib_DataTypeDB_Entry_t)
    (a : EdsLib_HandlerArgument_t) : option EdsLib_GenericValueBuffer_t :=
  match BasicType d with
  | EDSLIB_BASICTYPE_BINARY =>
      Some (set_octets V EDSLIB_BASICTYPE_BINARY (strncpy (Z.to_nat VALUEBUFFER_SIZE) (FixedString a)))
  | EDSLIB_BASICTYPE_SIGNED_INT => Some (set_word be V EDSLIB_BASICTYPE_SIGNED_INT (FixedInteger a))
  | EDSLIB_BASICTYPE_UNSIGNED_INT => Some (set_word be V EDSLIB_BASICTYPE_UNSIGNED_INT (FixedUnsigned a))
  | _ => None
  end.

(** Packing a value: it is stored in the union itself in the native format of
    the field, then packed from there. *)
Definition pack_value (V : EdsLib_GenericValueBuffer_t) (d : EdsLib_DataTypeDB_Entry_t) (Dst : list Z) (pos : Z)
    : res (list Z) :=
  let* Src :=
    (if bool_decide (BasicType d = EDSLIB_BASICTYPE_BINARY) then Ok (Value V)
     else let* (m, _) := EdsLib_DataTypeStore_Impl be fo (Value V) 0 V (Some d) in Ok m) in
  EdsLib_Internal_DoBitwisePack be DoFloatPack NumBuf0 Dst (pos / 8) Src 0 d (Z.land pos 7).

Definition EdsLib_PackedObject_PostProc_Callback (CbType : EdsLib_Iterator_CbType_t)
    (e : EdsLib_DataTypeIterator_StackEntry_t) (B : EdsLib_PackedPostProc_ControlBlock_t)
    : res (EdsLib_Iterator_Rc_t * EdsLib_PackedPostProc_ControlBlock_t) :=
  if negb (bool_decide (CbType = EDSLIB_ITERATOR_CBTYPE_MEMBER)) then
    Ok (EDSLIB_ITERATOR_RC_CONTINUE,
        if bool_decide (CbType = EDSLIB_ITERATOR_CBTYPE_START) && bool_decide (PP_BaseDictPtr B = None)
        then PackedPostProc (BasePtr B) (DataDictPtr e) (ErrorCtlDictPtr B) (ErrorCtlType B) (PP_Status B)
               (ErrorCtlOffsetBits B)
        else B)
  else
    match DataDictPtr e with
    | None => Fault
    | Some d =>
        if NumSubElements d >? 0 then Ok (EDSLIB_ITERATOR_RC_DESCEND, B)
        else
          match PP_BaseDictPtr B with
          | None =>
              Ok (EDSLIB_ITERATOR_RC_STOP,
                  PackedPostProc (BasePtr B) None (ErrorCtlDictPtr B) (ErrorCtlType B)
                    EDSLIB_INCOMPLETE_DB_OBJECT (ErrorCtlOffsetBits B))
          | Some base =>
              let pack V :=
                let* m := pack_value V d (BasePtr B) (Bits (StartOffset e)) in
                Ok (EDSLIB_ITERATOR_RC_CONTINUE,
                    PackedPostProc m (PP_BaseDictPtr B) (ErrorCtlDictPtr B) (ErrorCtlType B) (PP_Status B)
                      (ErrorCtlOffsetBits B)) in
              match EntryType (Details e) with
              | EDSLIB_ENTRYTYPE_CONTAINER_LENGTH_ENTRY =>
                  pack (set_word be ValueBuff0 EDSLIB_BASICTYPE_SIGNED_INT (calibrate e (object_octets base)))
              | EDSLIB_ENTRYTYPE_CONTAINER_ERROR_CONTROL_ENTRY =>
                  Ok (EDSLIB_ITERATOR_RC_CONTINUE,
                      PackedPostProc (BasePtr B) (PP_BaseDictPtr B) (Some d) (ErrorControl (HandlerArg (Details e)))
                        (PP_Status B) (Bits (StartOffset e)))
              | EDSLIB_ENTRYTYPE_CONTAINER_FIXED_VALUE_ENTRY =>
                  match fixed_value ValueBuff0 d (HandlerArg (Details e)) with
                  | Some V => pack V
                  | None => Ok (EDSLIB_ITERATOR_RC_CONTINUE, B)
                  end
              | _ => Ok (EDSLIB_ITERATOR_RC_CONTINUE, B)
              end
          end
    end.

Definition EdsLib_UpdateErrorControlField (d : EdsLib_DataTypeDB_Entry_t) (PackedObject : list Z)
    (TotalBitSize : Z) (t : EdsLib_ErrorControlType_t) (pos : Z) : res (list Z) :=
  let* v := EdsLib_ErrorControlCompute t PackedObject TotalBitSize pos in
  let V := set_word be ValueBuff0 EDSLIB_BASICTYPE_UNSIGNED_INT v in
  let* (m, _) := EdsLib_DataTypeStore_Impl be fo (Value V) 0 V (Some d) in
  EdsLib_Internal_DoBitwisePack be DoFloatPack NumBuf0 PackedObject (pos / 8) m 0 d (Z.land pos 7).

(** The status and the packed object. *)
Definition EdsLib_DataTypeDB_FinalizePackedObject (iter_fuel : nat) (EdsId : Z) (PackedData : list Z)
    : res (Z * list Z) :=
  let* (Status, B) :=
    EdsLib_DataTypeIterator_Impl GD EdsLib_PackedObject_PostProc_Callback EDSLIB_ITERATOR_MAX_DEEP_DEPTH iter_fuel
      (EdsLib_Decode_StructId EdsId) zero_size
      (PackedPostProc PackedData None None EdsLib_ErrorControlType_INVALID 0 0) in
  if (Status =? EDSLIB_SUCCESS) && negb (bool_decide (ErrorCtlType B = EdsLib_ErrorControlType_INVALID)) then
    match PP_BaseDictPtr B, ErrorCtlDictPtr B with
    | Some base, Some d =>
        let* m := EdsLib_UpdateErrorControlField d (BasePtr B) (Bits (SizeInfo_ base)) (ErrorCtlType B)
                    (ErrorCtlOffsetBits B) in
        Ok (Status, m)
    | _, _ => Ok (Status, BasePtr B)
    end
  else Ok (Status, BasePtr B).

(** ** Verification of a native object *)

Definition zero_value : EdsLib_GenericValueBuffer_t :=
  GenericValueBuffer EDSLIB_BASICTYPE_NONE (replicate (Z.to_nat VALUEBUFFER_SIZE) 0).

(** [ExpectedValue], [InitValue] and the status after the switch on the type
    of the entry. *)
Definition computed_values (e : EdsLib_DataTypeIterator_StackEntry_t) (d base : EdsLib_DataTypeDB_Entry_t)
    (B : EdsLib_NativePostProc_ControlBlock_t)
    : res (EdsLib_GenericValueBuffer_t * EdsLib_GenericValueBuffer_t * Z) :=
  let flag f := negb (Z.land (RecomputeFields B) f =? 0) in
  let arg := HandlerArg (Details e) in
  match EntryType (Details e) with
  | EDSLIB_ENTRYTYPE_CONTAINER_LENGTH_ENTRY =>
      Ok (match PackedPtr B with
          | Some _ => set_word be zero_value EDSLIB_BASICTYPE_SIGNED_INT (calibrate e (object_octets base))
          | None => zero_value
          end,
          match Reverse arg with
          | Some f => if flag EDSLIB_DATATYPEDB_RECOMPUTE_LENGTH
                      then set_word be zero_value EDSLIB_BASICTYPE_SIGNED_INT (f (Bytes (SizeInfo_ base)))
                      else zero_value
          | None => zero_value
          end, NP_Status B)
  | EDSLIB_ENTRYTYPE_CONTAINER_ERROR_CONTROL_ENTRY =>
      let* Expected :=
        match PackedPtr B with
        | Some P => let* v := EdsLib_ErrorControlCompute (ErrorControl arg) P (Bits (SizeInfo_ base))
                                (Bits (StartOffset e)) in
                    Ok (set_word be zero_value EDSLIB_BASICTYPE_UNSIGNED_INT v)
        | None => Ok zero_value
        end in
      let* Init :=
        (if flag EDSLIB_DATATYPEDB_RECOMPUTE_ERRORCONTROL then
           let* v := EdsLib_ErrorControlCompute (ErrorControl arg) (NativePtr B)
                       (u32 (Bytes (SizeInfo_ base) * 8)) (u32 (Bytes (StartOffset e) * 8)) in
           Ok (set_word be zero_value EDSLIB_BASICTYPE_UNSIGNED_INT v)
         else Ok zero_value) in
      Ok (Expected, Init, NP_Status B)
  | EDSLIB_ENTRYTYPE_CONTAINER_FIXED_VALUE_ENTRY =>
      let recompute := flag EDSLIB_DATATYPEDB_RECOMPUTE_ERRORCONTROL in
      if bool_decide (is_Some (PackedPtr B)) || recompute then
        let Status := match fixed_value zero_value d arg with
                      | Some _ => NP_Status B | None => EDSLIB_FIELD_MISMATCH end in
        let Init := default zero_value (fixed_value zero_value d arg) in
        let Expected := if bool_decide (is_Some (PackedPtr B)) then Init else zero_value in
        Ok (Expected, if recompute then Init else set_type Init EDSLIB_BASICTYPE_NONE, Status)
      else Ok (zero_value, zero_value, NP_Status B)
  | _ => Ok (zero_value, zero_value, NP_Status B)
  end.

(** Whether the value found is the expected one. *)
Definition same_value (d : EdsLib_DataTypeDB_Entry_t) (Found Expected : EdsLib_GenericValueBuffer_t) : bool :=
  if negb (bool_decide (ValueType Found = ValueType Expected)) then false
  else match ValueType Expected with
       | EDSLIB_BASICTYPE_SIGNED_INT | EDSLIB_BASICTYPE_UNSIGNED_INT => word be Found =? word be Expected
       | EDSLIB_BASICTYPE_FLOAT =>
           fp_eq fo (slice (Value Found) 0 (Z.to_nat (fp_max fo))) (slice (Value Expected) 0 (Z.to_nat (fp_max fo)))
       | EDSLIB_BASICTYPE_BINARY =>
           let n := Z.to_nat (Bytes (SizeInfo_ d)) in
           bool_decide (slice (Value Found) 0 n = slice (Value Expected) 0 n)
       | _ => false
       end.

Definition EdsLib_NativeObject_PostProc_Callback (CbType : EdsLib_Iterator_CbType_t)
    (e : EdsLib_DataTypeIterator_StackEntry_t) (B : EdsLib_NativePostProc_ControlBlock_t)
    : res (EdsLib_Iterator_Rc_t * EdsLib_NativePostProc_ControlBlock_t) :=
  if negb (bool_decide (CbType = EDSLIB_ITERATOR_CBTYPE_MEMBER)) then
    Ok (EDSLIB_ITERATOR_RC_CONTINUE,
        if bool_decide (CbType = EDSLIB_ITERATOR_CBTYPE_START) && bool_decide (NP_BaseDictPtr B = None)
        then NativePostProc (PackedPtr B) (NativePtr B) (DataDictPtr e) (NP_Status B) (RecomputeFields B)
        else B)
  else
    match DataDictPtr e with
    | None => Fault
    | Some d =>
        if NumSubElements d >? 0 then Ok (EDSLIB_ITERATOR_RC_DESCEND, B)
        else
          match NP_BaseDictPtr B with
          | None => Ok (EDSLIB_ITERATOR_RC_STOP, B)
          | Some base =>
              let* (Expected, Init, Status) := computed_values e d base B in
              let* Status :=
                (if bool_decide (ValueType Expected = EDSLIB_BASICTYPE_NONE) then Ok Status
                 else
                   let Expected := EdsLib_DataTypeConvert be fo Expected (BasicType d) in
                   let* Found := EdsLib_DataTypeLoad_Impl be fo ValueBuff0 (NativePtr B) (Bytes (StartOffset e)) (Some d) in
                   Ok (if same_value d Found Expected then Status
                       else match EntryType (Details e) with
                            | EDSLIB_ENTRYTYPE_CONTAINER_ERROR_CONTROL_ENTRY => EDSLIB_ERROR_CONTROL_MISMATCH
                            | _ => EDSLIB_FIELD_MISMATCH
                            end)) in
              let* m :=
                (if bool_decide (ValueType Init = EDSLIB_BASICTYPE_NONE) then Ok (NativePtr B)
                 else let* (m, _) := EdsLib_DataTypeStore_Impl be fo (NativePtr B) (Bytes (StartOffset e)) Init (Some d) in
                      Ok m) in
              Ok (EDSLIB_ITERATOR_RC_CONTINUE,
                  NativePostProc (PackedPtr B) m (NP_BaseDictPtr B) Status (RecomputeFields B))
          end
    end.

(** The status and the native object. *)
Definition EdsLib_DataTypeDB_VerifyUnpackedObject (iter_fuel : nat) (EdsId : Z) (UnpackedObj : list Z)
    (PackedObj : option (list Z)) (Recompute : Z) : res (Z * list Z) :=
  let* (Status, B) :=
    EdsLib_DataTypeIterator_Impl GD EdsLib_NativeObject_PostProc_Callback EDSLIB_ITERATOR_MAX_DEEP_DEPTH iter_fuel
      (EdsLib_Decode_StructId EdsId) zero_size
      (NativePostProc PackedObj UnpackedObj None 0 Recompute) in
  Ok (if Status =? EDSLIB_SUCCESS then NP_Status B else Status, NativePtr B).

(** ** Complete objects *)

Definition EdsLib_DataTypeDB_PackCompleteObject (levels iter_fuel : nat) (EdsId : Z)
    (DestBuffer SourceBuffer : list Z) (MaxPackedBitSize SourceByteSize : Z) : res (Z * Z * list Z) :=
  let* (Status, EdsId, Dest) :=
    EdsLib_DataTypeDB_PackPartialObject be DoFloatPack DoFloatUnpack NumBuf0 ValueBuff0 fo GD levels iter_fuel EdsId
      DestBuffer SourceBuffer MaxPackedBitSize SourceByteSize 0 in
  if Status =? EDSLIB_SUCCESS then
    let* (Status, Dest) := EdsLib_DataTypeDB_FinalizePackedObject iter_fuel EdsId Dest in
    Ok (Status, EdsId, Dest)
  else Ok (Status, EdsId, Dest).

Definition EdsLib_DataTypeDB_UnpackCompleteObject (levels iter_fuel : nat) (EdsId : Z)
    (DestBuffer SourceBuffer : list Z) (MaxNativeByteSize SourceBitSize : Z) : res (Z * Z * list Z) :=
  let* (Status, EdsId, Dest) :=
    EdsLib_DataTypeDB_UnpackPartialObject be DoFloatPack DoFloatUnpack NumBuf0 ValueBuff0 fo GD levels iter_fuel EdsId
      DestBuffer SourceBuffer MaxNativeByteSize SourceBitSize 0 in
  if Status =? EDSLIB_SUCCESS then
    let* (Status, Dest) :=
      EdsLib_DataTypeDB_VerifyUnpackedObject iter_fuel EdsId Dest (Some SourceBuffer) EDSLIB_DATATYPEDB_RECOMPUTE_NONE in
    Ok (Status, EdsId, Dest)
  else Ok (Status, EdsId, Dest).
End Post.
