(* ===== verification/EdsQuery.v ===== *)
(** Queries on the data type database, values by identifier, and the
    constraints of derived types: the calls of edslib_datatypedb_api.c that
    pack and unpack no object, and the constraint iterator of
    edslib_datatypedb_constraints.c. *)

From S2P Require Import Prelude.
From S2P Require Import EdsTypes EdsPack EdsErrorControl EdsIter EdsValue EdsObject EdsPost.

Record EdsLib_DataTypeDB_EntityInfo_t := EntityInfo {
  EI_EdsId : Z;
  EI_Offset : EdsLib_SizeInfo_t;
  EI_MaxSize : EdsLib_SizeInfo_t }.
Record EdsLib_DataTypeDB_TypeInfo_t := TypeInfo {
  ElemType : EdsLib_BasicType_t;
  TI_NumSubElements : Z;
  TI_Size : EdsLib_SizeInfo_t }.
Record EdsLib_DataTypeDB_DerivedTypeInfo_t := DerivedTypeInfo {
  NumDerivatives : Z;
  NumConstraints : Z;
  DI_MaxSize : EdsLib_SizeInfo_t }.

(** [memset(.., 0, ..)]. *)
Definition zero_entity : EdsLib_DataTypeDB_EntityInfo_t := EntityInfo 0 zero_size zero_size.

(** ** Registration *)

Definition EdsLib_DataTypeDB_Register (GD : EdsLib_DatabaseObject_t) (AppDict : EdsLib_App_DataTypeDB_t)
    : Z * EdsLib_DatabaseObject_t :=
  if (MissionIdx AppDict >=? zlen GD) || bool_decide (is_Some (zget GD (MissionIdx AppDict)))
  then (EDSLIB_FAILURE, GD)
  else (EDSLIB_SUCCESS, zset GD (MissionIdx AppDict) (Some AppDict)).

Definition EdsLib_DataTypeDB_Unregister (GD : EdsLib_DatabaseObject_t) (AppIdx : Z) : Z * EdsLib_DatabaseObject_t :=
  if (AppIdx >=? zlen GD) || bool_decide (zget GD AppIdx = None)
  then (EDSLIB_FAILURE, GD)
  else (EDSLIB_SUCCESS, zset GD AppIdx None).

Section Query.
Variable GD : EdsLib_DatabaseObject_t.

(** ** Types and members *)

Definition EdsLib_DataTypeDB_CopyTypeInfo (d : option EdsLib_DataTypeDB_Entry_t) : EdsLib_DataTypeDB_TypeInfo_t :=
  match d with
  | Some d => TypeInfo (BasicType d) (NumSubElements d) (SizeInfo_ d)
  | None => TypeInfo EDSLIB_BASICTYPE_NONE 0 zero_size
  end.

Definition EdsLib_DataTypeDB_GetTypeInfo (EdsId : Z) : Z * EdsLib_DataTypeDB_TypeInfo_t :=
  let d := EdsLib_DataTypeDB_GetEntry GD (EdsLib_Decode_StructId EdsId) in
  (if bool_decide (d = None) then EDSLIB_FAILURE else EDSLIB_SUCCESS, EdsLib_DataTypeDB_CopyTypeInfo d).

Definition EdsLib_DataTypeDB_GetMemberByIndex (EdsId SubIndex : Z) : Z * EdsLib_DataTypeDB_EntityInfo_t :=
  match EdsLib_DataTypeDB_GetEntry GD (EdsLib_Decode_StructId EdsId) with
  | None => (EDSLIB_INVALID_INDEX, zero_entity)
  | Some d =>
      if SubIndex <? NumSubElements d then
        match BasicType d with
        | EDSLIB_BASICTYPE_CONTAINER =>
            let entry i := nth (Z.to_nat i) (EntryList (Container (Detail d))) zero_details in
            let EndOffset := if SubIndex <? NumSubElements d - 1 then Offset (entry (SubIndex + 1)) else SizeInfo_ d in
            let off := Offset (entry SubIndex) in
            (EDSLIB_SUCCESS,
             EntityInfo (EdsLib_Encode_StructId (Some (RefObj (entry SubIndex)))) off (so_sub EndOffset off))
        | EDSLIB_BASICTYPE_ARRAY =>
            let size := so_div (SizeInfo_ d) (NumSubElements d) in
            (EDSLIB_SUCCESS,
             EntityInfo (EdsLib_Encode_StructId (Some (ElementRefObj (Array (Detail d)))))
               (SizeInfo (u32 (Bits size * SubIndex)) (u32 (Bytes size * SubIndex))) size)
        | _ => (EDSLIB_INVALID_INDEX, zero_entity)
        end
      else (EDSLIB_INVALID_INDEX, zero_entity)
  end.

(** [for (SubIndex = 1; ..; ++SubIndex)]: the entry before the first one that
    begins behind [ByteOffset], and the index after it. *)
Fixpoint offset_search (ByteOffset : Z) (e : EdsLib_FieldDetailEntry_t) (l : list EdsLib_FieldDetailEntry_t)
    : EdsLib_FieldDetailEntry_t * option EdsLib_FieldDetailEntry_t :=
  match l with
  | [] => (e, None)
  | e' :: l => if ByteOffset <? Bytes (Offset e') then (e, Some e') else offset_search ByteOffset e' l
  end.

Definition EdsLib_DataTypeDB_GetMemberByNativeOffset (EdsId ByteOffset : Z)
    : res (Z * EdsLib_DataTypeDB_EntityInfo_t) :=
  match EdsLib_DataTypeDB_GetEntry GD (EdsLib_Decode_StructId EdsId) with
  | None => Ok (EDSLIB_INVALID_SIZE_OR_TYPE, zero_entity)
  | Some d =>
      if ByteOffset >=? Bytes (SizeInfo_ d) then Ok (EDSLIB_INVALID_SIZE_OR_TYPE, zero_entity)
      else match BasicType d with
           | EDSLIB_BASICTYPE_CONTAINER =>
               match take (Z.to_nat (NumSubElements d)) (EntryList (Container (Detail d))) with
               | [] => Fault
               | e :: l =>
                   let '(e, next) := offset_search ByteOffset e l in
                   let end_ := match next with Some e' => Offset e' | None => SizeInfo_ d end in
                   Ok (EDSLIB_SUCCESS,
                       EntityInfo (EdsLib_Encode_StructId (Some (RefObj e))) (Offset e) (so_sub end_ (Offset e)))
               end
           | EDSLIB_BASICTYPE_ARRAY =>
               if NumSubElements d =? 0 then Fault
               else
                 let size := so_div (SizeInfo_ d) (NumSubElements d) in
                 if Bytes size =? 0 then Fault
                 else
                   let SubIndex := ByteOffset / Bytes size in
                   Ok (EDSLIB_SUCCESS,
                       EntityInfo (EdsLib_Encode_StructId (Some (ElementRefObj (Array (Detail d)))))
                         (SizeInfo (u32 (Bits size * SubIndex)) (u32 (Bytes size * SubIndex))) size)
           | _ => Ok (EDSLIB_INVALID_SIZE_OR_TYPE, zero_entity)
           end
  end.

(** ** Derived types *)

(** The status and [*DerivedEdsId], which is written only on success. *)
Definition EdsLib_DataTypeDB_GetDerivedTypeById (EdsId DerivId : Z) : Z * option Z :=
  match EdsLib_DataTypeDB_GetEntry GD (EdsLib_Decode_StructId EdsId) with
  | None => (EDSLIB_INVALID_SIZE_OR_TYPE, None)
  | Some d =>
      if negb (bool_decide (BasicType d = EDSLIB_BASICTYPE_CONTAINER)) then (EDSLIB_INVALID_SIZE_OR_TYPE, None)
      else match DerivativeList (Container (Detail d)) !! Z.to_nat DerivId with
           | None => (EDSLIB_INVALID_INDEX, None)
           | Some e => (EDSLIB_SUCCESS, Some (EdsLib_Encode_StructId (Some (Deriv_RefObj e))))
           end
  end.

Definition EdsLib_DataTypeDB_GetConstraintEntity (EdsId ConstraintIdx : Z) : Z * EdsLib_DataTypeDB_EntityInfo_t :=
  match EdsLib_DataTypeDB_GetEntry GD (EdsLib_Decode_StructId EdsId) with
  | None => (EDSLIB_FAILURE, zero_entity)
  | Some d =>
      if negb (bool_decide (BasicType d = EDSLIB_BASICTYPE_CONTAINER)) then (EDSLIB_FAILURE, zero_entity)
      else match ConstraintEntityList (Container (Detail d)) !! Z.to_nat ConstraintIdx with
           | None => (EDSLIB_FAILURE, zero_entity)
           | Some c =>
               match EdsLib_DataTypeDB_GetEntry GD (Constraint_RefObj c) with
               | None => (EDSLIB_FAILURE, zero_entity)
               | Some d => (EDSLIB_SUCCESS,
                            EntityInfo (EdsLib_Encode_StructId (Some (Constraint_RefObj c))) (Constraint_Offset c)
                              (SizeInfo_ d))
               end
           end
  end.

Definition EdsLib_DataTypeDB_GetDerivedInfo (EdsId : Z) : Z * EdsLib_DataTypeDB_DerivedTypeInfo_t :=
  match EdsLib_DataTypeDB_GetEntry GD (EdsLib_Decode_StructId EdsId) with
  | None => (EDSLIB_FAILURE, DerivedTypeInfo 0 0 zero_size)
  | Some d =>
      (EDSLIB_SUCCESS,
       if bool_decide (BasicType d = EDSLIB_BASICTYPE_CONTAINER) then
         let desc := Container (Detail d) in
         DerivedTypeInfo (zlen (DerivativeList desc)) (zlen (ConstraintEntityList desc))
           (if 0 <? zlen (DerivativeList desc) then MaxSize desc else SizeInfo_ d)
       else DerivedTypeInfo 0 0 (SizeInfo_ d))
  end.

(** ** Values *)

Section Values.
Variable be : bool.
Variable fo : FloatOps.

Definition EdsLib_DataTypeDB_LoadValue (EdsId : Z) (V : EdsLib_GenericValueBuffer_t) (Src : list Z) (p : Z)
    : res (Z * EdsLib_GenericValueBuffer_t) :=
  let V := set_type V EDSLIB_BASICTYPE_NONE in
  let* V :=
    match EdsLib_DataTypeDB_GetEntry GD (EdsLib_Decode_StructId EdsId) with
    | Some d => EdsLib_DataTypeLoad_Impl be fo V Src p (Some d)
    | None => Ok V
    end in
  Ok (if bool_decide (ValueType V = EDSLIB_BASICTYPE_NONE) then EDSLIB_FAILURE else EDSLIB_SUCCESS, V).

Definition EdsLib_DataTypeDB_StoreValue (EdsId : Z) (Dst : list Z) (p : Z) (V : EdsLib_GenericValueBuffer_t)
    : res (Z * list Z * EdsLib_GenericValueBuffer_t) :=
  match EdsLib_DataTypeDB_GetEntry GD (EdsLib_Decode_StructId EdsId) with
  | Some d =>
      let* (m, V) := EdsLib_DataTypeStore_Impl be fo Dst p V (Some d) in
      Ok (if bool_decide (ValueType V = BasicType d) then EDSLIB_SUCCESS else EDSLIB_FAILURE, m, V)
  | None => Ok (EDSLIB_FAILURE, Dst, V)
  end.

(** The status, and on success the index of the derived type and its
    identifier. *)
Definition EdsLib_DataTypeDB_IdentifyBuffer (fuel : nat) (EdsId : Z) (V : EdsLib_GenericValueBuffer_t)
    (MessageBuffer : list Z) : res (Z * option (Z * Z)) :=
  match EdsLib_DataTypeDB_GetEntry GD (EdsLib_Decode_StructId EdsId) with
  | None => Ok (EDSLIB_INVALID_SIZE_OR_TYPE, None)
  | Some d =>
      let* (Status, r) := EdsLib_DataTypeIdentifyBuffer_Impl be fo GD fuel d V MessageBuffer in
      Ok (Status, match r with Some (i, ref) => Some (i, EdsLib_Encode_StructId (Some ref)) | None => None end)
  end.

(** ** The constraint iterator *)

Section Constraints.
Context {S : Type}.
(** The user's callback, NULL or a function that may change the value. *)
Variable UserCallback :
  option (EdsLib_DataTypeDB_EntityInfo_t -> EdsLib_GenericValueBuffer_t -> S -> res (EdsLib_GenericValueBuffer_t * S)).

(** The value of a condition, for a field of type [d]. *)
Definition constraint_value (V : EdsLib_GenericValueBuffer_t) (ref : EdsLib_RefValue_t)
    (d : option EdsLib_DataTypeDB_Entry_t) : EdsLib_GenericValueBuffer_t :=
  match d with
  | None => V
  | Some d =>
      match BasicType d with
      | EDSLIB_BASICTYPE_SIGNED_INT => set_word be V EDSLIB_BASICTYPE_SIGNED_INT (RV_Integer ref)
      | EDSLIB_BASICTYPE_UNSIGNED_INT => set_word be V EDSLIB_BASICTYPE_UNSIGNED_INT (RV_Unsigned ref)
      | EDSLIB_BASICTYPE_BINARY =>
          set_octets V EDSLIB_BASICTYPE_BINARY (strncpy (Z.to_nat VALUEBUFFER_SIZE) (RV_String ref))
      | _ => V
      end
  end.

(** The loop along the parent operations. *)
Fixpoint constraint_walk (fuel : nat) (cb : EdsLib_DataTypeDB_EntityInfo_t -> EdsLib_GenericValueBuffer_t -> S ->
      res (EdsLib_GenericValueBuffer_t * S))
    (desc : EdsLib_ContainerDescriptor_t) (seq : list EdsLib_IdentSequenceEntry_t)
    (SelectedEntry : option EdsLib_RefValue_t) (i : Z) (V : EdsLib_GenericValueBuffer_t) (s : S)
    : res (EdsLib_GenericValueBuffer_t * S) :=
  match fuel with
  | O => Hang
  | Datatypes.S fuel =>
      match seq !! Z.to_nat i with
      | None => Fault
      | Some op =>
          match Ident_EntryType op with
          | EDSLIB_IDENT_SEQUENCE_INVALID => Ok (V, s)
          | EDSLIB_IDENT_SEQUENCE_VALUE_CONDITION =>
              match ValueList desc !! Z.to_nat (RefIdx op) with
              | None => Fault
              | Some v => constraint_walk fuel cb desc seq (Some v) (ParentOperation op) V s
              end
          | EDSLIB_IDENT_SEQUENCE_ENTITY_LOCATION =>
              match ConstraintEntityList desc !! Z.to_nat (RefIdx op) with
              | None => Fault
              | Some loc =>
                  match SelectedEntry with
                  | None => constraint_walk fuel cb desc seq None (ParentOperation op) V s
                  | Some v =>
                      let d := EdsLib_DataTypeDB_GetEntry GD (Constraint_RefObj loc) in
                      let V := constraint_value V v d in
                      let* (V, s) :=
                        match d with
                        | Some d =>
                            if bool_decide (ValueType V = EDSLIB_BASICTYPE_NONE) then Ok (V, s)
                            else cb (EntityInfo (EdsLib_Encode_StructId (Some (Constraint_RefObj loc)))
                                       (Constraint_Offset loc) (SizeInfo_ d)) V s
                        | None => Ok (V, s)
                        end in
                      constraint_walk fuel cb desc seq None (ParentOperation op)
                        (set_type V EDSLIB_BASICTYPE_NONE) s
                  end
              end
          | _ => constraint_walk fuel cb desc seq SelectedEntry (ParentOperation op) V s
          end
      end
  end.

(** [EdsLib_DataTypeDB_ConstraintIterator_Impl] with [Recursive] false, which
    its only caller sets: the status, [TempConstraintValue] and the state of
    the callback.  A table without entries is NULL. *)
Definition EdsLib_DataTypeDB_ConstraintIterator_Impl (fuel : nat) (TargetRef BaseRef : EdsLib_DatabaseRef_t)
    (V : EdsLib_GenericValueBuffer_t) (s : S) : res (Z * EdsLib_GenericValueBuffer_t * S) :=
  match EdsLib_DataTypeDB_GetEntry GD BaseRef with
  | None => Ok (EDSLIB_INVALID_SIZE_OR_TYPE, V, s)
  | Some d =>
      if negb (bool_decide (BasicType d = EDSLIB_BASICTYPE_CONTAINER)) then Ok (EDSLIB_INVALID_SIZE_OR_TYPE, V, s)
      else
        let desc := Container (Detail d) in
        match IdentSequenceList desc, ValueList desc, ConstraintEntityList desc with
        | Some seq, _ :: _, _ :: _ =>
            match List.find (fun e => bool_decide (Deriv_RefObj e = TargetRef)) (DerivativeList desc), UserCallback with
            | None, _ => Ok (EDSLIB_NO_MATCHING_VALUE, V, s)
            | Some e, None => Ok (EDSLIB_SUCCESS, V, s)
            | Some e, Some cb =>
                let* (V, s) := constraint_walk fuel cb desc seq None (IdentSeqIdx e)
                                 (set_type V EDSLIB_BASICTYPE_NONE) s in
                Ok (EDSLIB_SUCCESS, V, s)
            end
        | _, _, _ => Ok (EDSLIB_NO_MATCHING_VALUE, V, s)
        end
  end.

(** [while (BaseInfo.EdsId != BaseId)]: [n] is [NumDerivs]. *)
Fixpoint constraint_levels (levels fuel : nat) (BaseId Id n : Z) (Status : Z) (V : EdsLib_GenericValueBuffer_t) (s : S)
    : res (Z * S) :=
  match levels with
  | O => Hang
  | Datatypes.S levels =>
      if Id =? BaseId then Ok (Status, s)
      else
        let TargetRef := EdsLib_Decode_StructId Id in
        let '(Status, BaseInfo) := EdsLib_DataTypeDB_GetMemberByIndex Id 0 in
        if negb (Status =? EDSLIB_SUCCESS) then Ok (Status, s)
        else
          let* (Status, V, s) :=
            EdsLib_DataTypeDB_ConstraintIterator_Impl fuel TargetRef (EdsLib_Decode_StructId (EI_EdsId BaseInfo)) V s in
          if negb (Status =? EDSLIB_SUCCESS) then
            Ok (if negb (EdsLib_Is_Valid BaseId) && (0 <? n) then EDSLIB_SUCCESS else Status, s)
          else constraint_levels levels fuel BaseId (EI_EdsId BaseInfo) (u32 (n + 1)) Status V s
  end.

Definition EdsLib_DataTypeDB_ConstraintIterator (levels fuel : nat) (BaseId DerivedId : Z) (s : S) : res (Z * S) :=
  constraint_levels levels fuel BaseId DerivedId 0 EDSLIB_FAILURE zero_value s.
End Constraints.

Definition EdsLib_DataTypeDB_BaseCheck (levels : nat) (BaseId DerivedId : Z) : res Z :=
  if negb (EdsLib_Is_Valid BaseId) then Ok EDSLIB_FAILURE
  else let* (Status, _) := EdsLib_DataTypeDB_ConstraintIterator (S := unit) None levels 0 BaseId DerivedId tt in Ok Status.

(** ** A new native object *)

Definition EdsLib_NativeObject_ConstraintInitCallback (MemberInfo : EdsLib_DataTypeDB_EntityInfo_t)
    (ConstraintValue : EdsLib_GenericValueBuffer_t) (DataBuf : list Z)
    : res (EdsLib_GenericValueBuffer_t * list Z) :=
  let* (_, m, V) := EdsLib_DataTypeDB_StoreValue (EI_EdsId MemberInfo) DataBuf (Bytes (EI_Offset MemberInfo)) ConstraintValue in
  Ok (V, m).

Definition EdsLib_DataTypeDB_InitializeNativeObject (ValueBuff0 : EdsLib_GenericValueBuffer_t)
    (levels fuel : nat) (EdsId : Z) (UnpackedObj : list Z) : res (Z * list Z) :=
  let* (Status, B) :=
    EdsLib_DataTypeIterator_Impl GD (EdsLib_NativeObject_PostProc_Callback be ValueBuff0 fo)
      EDSLIB_ITERATOR_MAX_DEEP_DEPTH fuel (EdsLib_Decode_StructId EdsId) zero_size
      (NativePostProc None UnpackedObj None 0 0) in
  let Status := if Status =? EDSLIB_SUCCESS then NP_Status B else Status in
  if negb (Status =? EDSLIB_SUCCESS) then Ok (Status, NativePtr B)
  else EdsLib_DataTypeDB_ConstraintIterator (Some EdsLib_NativeObject_ConstraintInitCallback) levels fuel
         EDSLIB_ID_INVALID EdsId (NativePtr B).
End Values.
End Query.
