(* ===== verification/EdsObjectProofs.v ===== *)
(** Whole objects: what is packed is what is unpacked.

    The members that the callback transfers, the leaves of the object, are
    visited from the lowest to the highest offset.  Packing one keeps every
    bit below it; so, when all are packed, each leaf's bits are those of its
    own value.  Unpacking writes them to disjoint places.

    Walks by a callback that only decides, from the entry, whether to go down
    into a composite member: such a walk is a left-to-right run over the list
    of the members that are not entered, the layout of the object. *)

From S2P Require Import Prelude EdsTypes EdsBits EdsPack EdsPackProofs EdsUnpackProofs EdsField EdsNumber EdsCodec EdsIter EdsObject.

(** Steps in sequence. *)
Fixpoint run {A S} (step : A -> S -> res S) (l : list A) (s : S) : res S :=
  match l with
  | [] => Ok s
  | a :: l => let* s := step a s in run step l s
  end.

Lemma run_app {A S} (step : A -> S -> res S) l1 l2 s :
  run step (l1 ++ l2) s = let* s := run step l1 s in run step l2 s.
Proof.
  revert s; induction l1 as [|a l1 IH]; intros s; simpl; [done|].
  destruct (step a s); simpl; [apply IH|done|done].
Qed.

Section Layout.
Variable GD : EdsLib_DatabaseObject_t.
(** Members that are entered; [may] excludes those the walk must not meet. *)
Variables down may : EdsLib_DataTypeIterator_StackEntry_t -> bool.

Fixpoint lay_members (sub : EdsLib_DataTypeIterator_StackEntry_t -> option (list EdsLib_DataTypeIterator_StackEntry_t))
    (Parent : EdsLib_DataTypeIterator_StackEntry_t) (dict : EdsLib_DataTypeDB_Entry_t)
    (k : nat) (Cur : EdsLib_DataTypeIterator_StackEntry_t)
    : option (list EdsLib_DataTypeIterator_StackEntry_t) :=
  match k with
  | O => Some []
  | S k =>
      match next_member GD Cur Parent dict with
      | None => Some []
      | Some m =>
          match lay_members sub Parent dict k (incr_index m) with
          | None => None
          | Some rest =>
              if may m then
                if down m then l ← sub (incr_index m); Some (l ++ rest)
                else Some (m :: rest)
              else None
          end
      end
  end.

Fixpoint layout (d : nat) (Lev : EdsLib_DataTypeIterator_StackEntry_t)
    : option (list EdsLib_DataTypeIterator_StackEntry_t) :=
  match DataDictPtr Lev, d with
  | Some dict, S d => lay_members (layout d) Lev dict (Z.to_nat (NumSubElements dict)) zero_entry
  | _, _ => None
  end.

Section Run.
Context {S : Type}.
Variable Callback :
  EdsLib_Iterator_CbType_t -> EdsLib_DataTypeIterator_StackEntry_t -> S ->
  res (EdsLib_Iterator_Rc_t * S).
Variable Inv : S -> Prop.
Variable step : EdsLib_DataTypeIterator_StackEntry_t -> S -> res S.
Hypothesis Hstart : forall m s, Inv s -> may m = true -> down m = true ->
  Callback EDSLIB_ITERATOR_CBTYPE_START (incr_index m) s = Ok (EDSLIB_ITERATOR_RC_CONTINUE, s).
Hypothesis Hend : forall e s, Inv s ->
  Callback EDSLIB_ITERATOR_CBTYPE_END e s = Ok (EDSLIB_ITERATOR_RC_CONTINUE, s).
Hypothesis Hdown : forall m s, Inv s -> may m = true -> down m = true ->
  Callback EDSLIB_ITERATOR_CBTYPE_MEMBER m s = Ok (EDSLIB_ITERATOR_RC_DESCEND, s).
Hypothesis Hleaf : forall m s, Inv s -> may m = true -> down m = false ->
  Callback EDSLIB_ITERATOR_CBTYPE_MEMBER m s =
  let* s := step m s in Ok (EDSLIB_ITERATOR_RC_CONTINUE, s).
Hypothesis Hstep : forall m s s', Inv s -> step m s = Ok s' -> Inv s'.

Lemma run_inv l s s' : Inv s -> run step l s = Ok s' -> Inv s'.
Proof.
  revert s; induction l as [|m l IH]; intros s Hs; simpl; [congruence|].
  destruct (step m s) as [s1| |] eqn:E; simpl; [|done..]. apply IH. by eapply Hstep.
Qed.

Lemma members_run sub subl Parent dict k : forall Cur ls Status s,
  (forall m l Status s, may m = true -> down m = true -> subl (incr_index m) = Some l -> Inv s ->
     sub (incr_index m) Status s =
     let* s := run step l s in Ok (EDSLIB_ITERATOR_RC_CONTINUE, Status, s)) ->
  lay_members subl Parent dict k Cur = Some ls -> Inv s ->
  members GD Callback sub Parent dict k EDSLIB_ITERATOR_RC_CONTINUE Cur Status s =
  let* s := run step ls s in Ok (false, Status, s).
Proof.
  induction k as [|k IH]; intros Cur ls Status s Hsub; simpl; [by intros [= <-]|].
  destruct (next_member GD Cur Parent dict) as [m|]; [|by intros [= <-]].
  destruct (lay_members subl Parent dict k (incr_index m)) as [rest|] eqn:Er; [|done].
  destruct (may m) eqn:Em; [|done]. destruct (down m) eqn:Ed.
  - destruct (subl (incr_index m)) as [l|] eqn:El; simpl; [|done]. intros [= <-] Hs.
    rewrite Hdown by done. cbn [rbind]. rewrite decide_True by done.
    rewrite (Hsub m l) by done. rewrite run_app.
    destruct (run step l s) as [s1| |] eqn:E1; cbn [rbind]; [|done..].
    apply IH; [done|done|]. by eapply run_inv.
  - intros [= <-] Hs. rewrite Hleaf by done. cbn [run].
    destruct (step m s) as [s1| |] eqn:E1; cbn [rbind]; [|done..].
    rewrite decide_False by done. apply IH; [done|done|]. by eapply Hstep.
Qed.

Lemma descend_run d : forall m ls Status s,
  may m = true -> down m = true -> layout d (incr_index m) = Some ls -> Inv s ->
  descend GD Callback d false (incr_index m) Status s =
  let* s := run step ls s in Ok (EDSLIB_ITERATOR_RC_CONTINUE, Status, s).
Proof.
  induction d as [|d IH]; intros m ls Status s Hm Hd Hl Hs; cbn [layout descend] in *;
    (destruct (DataDictPtr (incr_index m)) as [dict|]; [|done]); [done|].
  rewrite Hstart by done. cbn [rbind]. rewrite decide_False by done.
  rewrite (members_run (descend GD Callback d false) (layout d)) with (ls := ls); [|exact IH|done|done].
  destruct (run step ls s) as [s1| |] eqn:E1; cbn [rbind]; [|done..]. cbn [orb].
  by rewrite Hend by (by eapply run_inv).
Qed.

(** From the top: after the callback for the start of the object. *)
Lemma descend_top_run d Lev dict ls Status s s0 :
  DataDictPtr Lev = Some dict -> layout (Datatypes.S d) Lev = Some ls ->
  Callback EDSLIB_ITERATOR_CBTYPE_START Lev s = Ok (EDSLIB_ITERATOR_RC_CONTINUE, s0) -> Inv s0 ->
  descend GD Callback (Datatypes.S d) true Lev Status s =
  let* s := run step ls s0 in Ok (EDSLIB_ITERATOR_RC_STOP, Status, s).
Proof.
  intros Hdict Hl Hst Hs. cbn [layout descend] in *. rewrite Hdict in *. rewrite Hst. cbn [rbind].
  rewrite decide_False by done.
  rewrite (members_run (descend GD Callback d false) (layout d)) with (ls := ls);
    [|intros; by apply descend_run|done|done].
  destruct (run step ls s0) as [s1| |]; cbn [rbind]; [|done..]. by rewrite orb_true_r.
Qed.

(** The iterator as a whole. *)
Lemma walk_pass (Size : Z) ref dict ls s s0 :
  db_counts GD -> 1 < Size ->
  (forall e s rc s', Callback EDSLIB_ITERATOR_CBTYPE_END e s = Ok (rc, s') -> rc <> EDSLIB_ITERATOR_RC_DESCEND) ->
  EdsLib_DataTypeDB_GetEntry GD ref = Some dict -> is_composite (BasicType dict) = true ->
  layout (Z.to_nat (Size - 1)) (top_entry ref zero_size dict) = Some ls ->
  Callback EDSLIB_ITERATOR_CBTYPE_START (top_entry ref zero_size dict) s =
    Ok (EDSLIB_ITERATOR_RC_CONTINUE, s0) -> Inv s0 ->
  exists N, forall fuel, (N <= fuel)%nat ->
    EdsLib_DataTypeIterator_Impl GD Callback Size fuel ref zero_size s =
    let* s := run step ls s0 in Ok (EDSLIB_SUCCESS, s).
Proof.
  intros Hcounts Hsize Hdesc Hget Hcomp Hlay Hst Hinv.
  destruct (iterator_walks GD Callback Size Hcounts Hdesc ref zero_size s) as [N HN].
  exists N. intros fuel Hf. rewrite HN by done. unfold walk. rewrite Hget, Hcomp.
  replace (Z.to_nat (Size - 1)) with (Datatypes.S (Z.to_nat (Size - 2))) in * by lia.
  rewrite (descend_top_run (Z.to_nat (Size - 2)) _ dict ls) with (s0 := s0) by done.
  by destruct (run step ls s0).
Qed.
End Run.
End Layout.

(** * Leaves *)

Definition m_pos (m : EdsLib_DataTypeIterator_StackEntry_t) : Z := Bits (StartOffset m).
Definition m_off (m : EdsLib_DataTypeIterator_StackEntry_t) : Z := Bytes (StartOffset m).
Definition m_pad (m : EdsLib_DataTypeIterator_StackEntry_t) : bool :=
  bool_decide (EntryType (Details m) = EDSLIB_ENTRYTYPE_CONTAINER_PADDING_ENTRY).

(** The bits of a leaf with native octets [nb], by the way it is transferred,
    and the native octets of its bits. *)
Definition leaf_bits (be : bool) (act : EdsLib_PackAction_t) (d : EdsLib_DataTypeDB_Entry_t)
    (nb : list Z) : list bool :=
  match act with
  | EDSLIB_PACKACTION_BYTECOPY_STRAIGHT => flat nb
  | EDSLIB_PACKACTION_BYTECOPY_INVERT => flat (rev nb)
  | _ => encode be d nb
  end.
Definition leaf_native (be : bool) (act : EdsLib_PackAction_t) (d : EdsLib_DataTypeDB_Entry_t)
    (w : list bool) : list Z :=
  match act with
  | EDSLIB_PACKACTION_BYTECOPY_STRAIGHT => chunks (n_of d) w
  | EDSLIB_PACKACTION_BYTECOPY_INVERT => rev (chunks (n_of d) w)
  | _ => decode be d w
  end.
Definition leaf_representable (be : bool) (act : EdsLib_PackAction_t) (d : EdsLib_DataTypeDB_Entry_t)
    (nb : list Z) : bool :=
  match act with
  | EDSLIB_PACKACTION_BYTECOPY_STRAIGHT | EDSLIB_PACKACTION_BYTECOPY_INVERT => true
  | _ => representable be d nb
  end.

(** Entries that the library can transfer: a supported kind of field, or one
    that is copied octet by octet and has no padding. *)
Definition action_ok (act : EdsLib_PackAction_t) (d : EdsLib_DataTypeDB_Entry_t) : bool :=
  match act with
  | EDSLIB_PACKACTION_BYTECOPY_STRAIGHT | EDSLIB_PACKACTION_BYTECOPY_INVERT =>
      (d_bits d =? 8 * d_bytes d) && (0 <? d_bytes d)
  | EDSLIB_PACKACTION_BITPACK => bool_decide (is_Some (field_kind_of d))
  | _ => false
  end.

Lemma action_ok_sizes act d : action_ok act d = true -> 0 < d_bits d /\ 0 < d_bytes d.
Proof.
  unfold action_ok. destruct act; try done; [|lia..].
  intros [k Hk]%bool_decide_eq_true. split; [|exact (kind_size true d _ Hk)].
  pose proof (kind_bits d _ Hk). lia.
Qed.

Lemma chunks_flat l : octets l -> chunks (length l) (flat l) = l.
Proof.
  intros Ho. apply flat_inj; [apply chunks_octets|done|].
  rewrite flat_chunks, take_app_length' by (by rewrite flat_length). done.
Qed.

Lemma leaf_roundtrip be act d nb :
  action_ok act d = true -> octets nb -> length nb = n_of d -> leaf_representable be act d nb = true ->
  leaf_native be act d (leaf_bits be act d nb) = nb.
Proof.
  intros Hok Ho Hlen Hrep. destruct act; try done; cbn [leaf_native leaf_bits leaf_representable] in *.
  - apply bool_decide_eq_true in Hok as [k Hk]. by eapply decode_encode.
  - rewrite <- Hlen. replace (length nb) with (length (rev nb)) by apply length_rev.
    rewrite chunks_flat by (by apply octets_rev). apply rev_involutive.
  - rewrite <- Hlen. by apply chunks_flat.
Qed.

Lemma leaf_bits_length be act d nb :
  action_ok act d = true -> length nb = n_of d -> length (leaf_bits be act d nb) = N_of d.
Proof.
  intros Hok Hlen. pose proof (action_ok_sizes _ _ Hok).
  destruct act; try done; cbn [leaf_bits action_ok] in *.
  - apply bool_decide_eq_true in Hok as [k Hk]. by eapply encode_length.
  - rewrite flat_length, length_rev, Hlen. unfold N_of, n_of. lia.
  - rewrite flat_length, Hlen. unfold N_of, n_of. lia.
Qed.

(** * Copies *)

Lemma copy_invert_ok n : forall Dst q Src sp,
  octets Src -> in_buf Src sp n = true -> in_buf Dst (q - Z.of_nat n) n = true ->
  copy_invert n Dst q Src sp = Ok (put Dst (q - 1) (-1) (slice Src sp n)).
Proof.
  induction n as [|n IH]; intros Dst q Src sp Ho Hs Hd; [done|].
  apply in_buf_spec in Hs as Hs', Hd as Hd'. cbn [copy_invert].
  rewrite rd_ok by lia. cbn [rbind]. rewrite wr_ok by lia. cbn [rbind].
  pose proof (octets_zget Src sp Ho ltac:(lia)) as Hb. unfold is_octet in Hb.
  unfold u8. rewrite Z.mod_small by (change (2 ^ 8) with 256; lia).
  rewrite IH; [|done|apply in_buf_spec; lia|apply in_buf_spec; rewrite zlen_zset; lia].
  unfold slice. rewrite (drop_zget Src sp) by lia. cbn [take put].
  replace (Z.to_nat (sp + 1)) with (S (Z.to_nat sp)) by lia. do 2 f_equal.
Qed.

Lemma flat_splice m p l :
  in_buf m p (length l) = true ->
  flat (splice m p l) = take (8 * Z.to_nat p) (flat m) ++ flat l ++
                        drop (8 * Z.to_nat p + length (flat l)) (flat m).
Proof.
  intros H. unfold splice. rewrite !flat_app, flat_take, flat_drop, flat_length. do 3 f_equal. lia.
Qed.

Lemma put_field_splice Dst dp l :
  octets Dst -> octets l -> in_buf Dst dp (length l) = true ->
  put_field Dst dp 0 (flat l) True (splice Dst dp l).
Proof.
  intros Ho Hl Hin. apply in_buf_spec in Hin as Hin'.
  unfold put_field. rewrite flat_splice by done. rewrite Z.add_0_r.
  replace (Z.to_nat (8 * dp)) with (8 * Z.to_nat dp)%nat by lia.
  assert (Hlt : length (take (8 * Z.to_nat dp) (flat Dst)) = (8 * Z.to_nat dp)%nat)
    by (rewrite length_take, flat_length; unfold zlen in *; lia).
  split_and!.
  - by apply octets_splice.
  - by apply splice_zlen.
  - rewrite app_assoc, take_app_length' by (rewrite length_app; lia). done.
  - intros _. rewrite app_assoc, drop_app_length' by (rewrite length_app; lia). done.
Qed.

Lemma slice_splice_below m p l i n :
  in_buf m p (length l) = true -> 0 <= i -> i + Z.of_nat n <= p -> slice (splice m p l) i n = slice m i n.
Proof.
  intros Hin Hi Hn. apply in_buf_spec in Hin. unfold slice, splice, zlen in *.
  rewrite drop_app_le by (rewrite length_take; lia).
  rewrite take_app_le by (rewrite length_drop, length_take; lia).
  rewrite <- (take_drop (Z.to_nat p) m) at 2.
  rewrite (drop_app_le (take (Z.to_nat p) m)) by (rewrite length_take; lia).
  by rewrite take_app_le by (rewrite length_drop, length_take; lia).
Qed.

(** * The transfer of one leaf *)

Section Object.
Variable be : bool.
Variable DoFloatPack :
  list Z -> list Z -> Z -> Z -> EdsLib_NumberEncoding_Enum_t -> Z -> res (list Z * Z).
Variable DoFloatUnpack :
  list Z -> Z -> Z -> list Z -> EdsLib_NumberEncoding_Enum_t -> Z -> res (list Z).
Variable NumBuf0 : list Z.
Hypothesis HNumBuf : zlen NumBuf0 = VALUEBUFFER_SIZE.
Hypothesis HNumBufO : octets NumBuf0.

Abbreviation transfer := (transfer be DoFloatPack DoFloatUnpack NumBuf0).

(** [w] written at bit [pos]: what precedes it is kept. *)
Definition put_at (D : list Z) (pos : Z) (w : list bool) (D' : list Z) : Prop :=
  octets D' /\ zlen D' = zlen D /\
  take (Z.to_nat pos + length w) (flat D') = take (Z.to_nat pos) (flat D) ++ w.

Lemma pos_split p : 0 <= p -> 8 * (p / 8) + Z.land p 7 = p /\ 0 <= Z.land p 7 <= 7.
Proof.
  intros Hp. assert (E : Z.land p 7 = p mod 8) by (apply (land_mask p 3); lia). rewrite E.
  pose proof (Z.div_mod p 8 ltac:(lia)). pose proof (Z.mod_pos_bound p 8 ltac:(lia)). lia.
Qed.

Lemma copy_aligned d p act :
  pack_action be d p = act ->
  act = EDSLIB_PACKACTION_BYTECOPY_STRAIGHT \/ act = EDSLIB_PACKACTION_BYTECOPY_INVERT ->
  Z.land p 7 = 0.
Proof.
  intros <-. unfold pack_action.
  destruct (BasicType d); repeat case_match; intros [|]; try done;
    repeat match goal with H : (_ && _) = true |- _ => apply andb_true_iff in H as [? ?] end;
    by apply Z.eqb_eq.
Qed.

Lemma pack_leaf_ok B m d act :
  OperMode B = EDSLIB_BITPACK_OPERMODE_PACK -> pack_action be d (m_pos m) = act -> action_ok act d = true ->
  octets (SourceBase B) -> octets (DestBase B) -> 0 <= m_pos m ->
  in_buf (SourceBase B) (m_off m) (n_of d) = true -> m_pos m + d_bits d <= 8 * zlen (DestBase B) ->
  leaf_representable be act d (slice (SourceBase B) (m_off m) (n_of d)) = true ->
  exists D', transfer B m d act = Ok (EDSLIB_ITERATOR_RC_CONTINUE, set_dest B D') /\
    put_at (DestBase B) (m_pos m)
      (leaf_bits be act d (slice (SourceBase B) (m_off m) (n_of d))) D'.
Proof.
  intros Hmode Hact Hok HoS HoD Hpos Hin Hfit Hrep.
  destruct (pos_split _ Hpos) as [Hp Hp7]. pose proof (action_ok_sizes _ _ Hok) as [HB Hb].
  unfold EdsObject.transfer. rewrite Hmode. fold (m_pos m) (m_off m) (n_of d).
  destruct act; try done; cbn [action_ok leaf_bits leaf_representable] in *.
  - apply bool_decide_eq_true in Hok as [k Hk].
    destruct (pack_field be DoFloatPack d k NumBuf0 (DestBase B) (m_pos m / 8) (SourceBase B) (m_off m)
                (Z.land (m_pos m) 7) Hk Hrep HNumBuf HNumBufO HoS HoD Hin Hp7) as (D' & HE & Ho' & Hl' & Htk & _);
      [apply Z.div_pos; lia|lia|].
    rewrite HE. cbn [rbind]. exists D'. split; [done|]. rewrite Hp in Htk. done.
  - assert (H0 : Z.land (m_pos m) 7 = 0) by (eapply copy_aligned; [exact Hact|auto]).
    assert (Hs : length (rev (slice (SourceBase B) (m_off m) (n_of d))) = n_of d)
      by (rewrite length_rev; by apply slice_length).
    assert (Hin' : in_buf (DestBase B) (m_pos m / 8) (n_of d) = true)
      by (apply in_buf_spec; unfold n_of; lia).
    rewrite copy_invert_ok; [|done|done|].
    2:{ apply in_buf_spec. apply in_buf_spec in Hin'. fold (d_bytes d). unfold n_of in *. lia. }
    cbn [rbind]. eexists; split; [done|].
    replace (m_pos m / 8 + Bytes (SizeInfo_ d) - 1)
      with (m_pos m / 8 + (zlen (slice (SourceBase B) (m_off m) (n_of d)) - 1))
      by (unfold zlen; rewrite slice_length by done; fold (d_bytes d); unfold n_of; lia).
    rewrite put_bwd by (rewrite slice_length; done).
    destruct (put_field_splice (DestBase B) (m_pos m / 8) (rev (slice (SourceBase B) (m_off m) (n_of d))))
      as (Ho' & Hl' & Htk & _); [done|by apply octets_rev, octets_slice|by rewrite Hs|].
    replace (8 * (m_pos m / 8) + 0) with (m_pos m) in Htk by lia. done.
  - assert (H0 : Z.land (m_pos m) 7 = 0) by (eapply copy_aligned; [exact Hact|auto]).
    assert (Hs : length (slice (SourceBase B) (m_off m) (n_of d)) = n_of d) by (by apply slice_length).
    assert (Hin' : in_buf (DestBase B) (m_pos m / 8) (n_of d) = true)
      by (apply in_buf_spec; unfold n_of; lia).
    unfold memcpy. fold (d_bytes d) (n_of d). rewrite Hin', Hin. cbn [andb rbind].
    eexists; split; [done|].
    destruct (put_field_splice (DestBase B) (m_pos m / 8) (slice (SourceBase B) (m_off m) (n_of d)))
      as (Ho' & Hl' & Htk & _); [done|by apply octets_slice|by rewrite Hs|].
    replace (8 * (m_pos m / 8) + 0) with (m_pos m) in Htk by lia. done.
Qed.

(** The [n] octets from an aligned position. *)
Lemma field_at_aligned Src p n :
  octets Src -> in_buf Src p n = true -> chunks n (field_at Src p 0 (8 * Z.of_nat n)) = slice Src p n.
Proof.
  intros Ho Hin. unfold field_at. rewrite Z.add_0_r.
  apply in_buf_spec in Hin as Hin'.
  replace (Z.to_nat (8 * p)) with (8 * Z.to_nat p)%nat by lia.
  replace (Z.to_nat (8 * Z.of_nat n)) with (8 * n)%nat by lia.
  rewrite <- flat_drop, <- flat_take. fold (slice Src p n).
  rewrite <- (slice_length Src p n Hin) at 1. apply chunks_flat. by apply octets_slice.
Qed.

(** The bits [pos .. pos + N). *)
Definition bits_at (m : list Z) (pos N : Z) : list bool :=
  take (Z.to_nat N) (drop (Z.to_nat pos) (flat m)).

Lemma unpack_leaf_ok B m d act :
  OperMode B = EDSLIB_BITPACK_OPERMODE_UNPACK -> pack_action be d (m_pos m) = act -> action_ok act d = true ->
  octets (SourceBase B) -> 0 <= m_pos m ->
  in_buf (DestBase B) (m_off m) (n_of d) = true -> m_pos m + d_bits d <= 8 * zlen (SourceBase B) ->
  transfer B m d act =
  Ok (EDSLIB_ITERATOR_RC_CONTINUE,
      set_dest B (splice (DestBase B) (m_off m)
                    (leaf_native be act d (bits_at (SourceBase B) (m_pos m) (d_bits d))))).
Proof.
  intros Hmode Hact Hok HoS Hpos Hin Hfit.
  destruct (pos_split _ Hpos) as [Hp Hp7]. pose proof (action_ok_sizes _ _ Hok) as [HB Hb].
  unfold EdsObject.transfer. rewrite Hmode. fold (m_pos m) (m_off m) (n_of d).
  assert (Hf : bits_at (SourceBase B) (m_pos m) (d_bits d) =
               field_at (SourceBase B) (m_pos m / 8) (Z.land (m_pos m) 7) (d_bits d))
    by (unfold bits_at, field_at; by rewrite Hp).
  rewrite Hf. destruct act; try done; cbn [action_ok leaf_native] in *.
  - apply bool_decide_eq_true in Hok as [k Hk].
    rewrite (unpack_field be DoFloatUnpack d k NumBuf0 (DestBase B) (m_off m) (SourceBase B) (m_pos m / 8));
      [done..| |lia].
    apply Z.div_pos; lia.
  - assert (H0 : Z.land (m_pos m) 7 = 0) by (eapply copy_aligned; [exact Hact|auto]).
    assert (Hin' : in_buf (SourceBase B) (m_pos m / 8) (n_of d) = true)
      by (apply in_buf_spec; unfold n_of; lia).
    rewrite H0. replace (d_bits d) with (8 * Z.of_nat (n_of d)) by (unfold n_of; lia).
    rewrite field_at_aligned by done.
    rewrite copy_invert_ok; [|done|done|].
    2:{ apply in_buf_spec. apply in_buf_spec in Hin. fold (d_bytes d). unfold n_of in *. lia. }
    cbn [rbind].
    replace (m_off m + Bytes (SizeInfo_ d) - 1)
      with (m_off m + (zlen (slice (SourceBase B) (m_pos m / 8) (n_of d)) - 1))
      by (unfold zlen; rewrite slice_length by done; fold (d_bytes d); unfold n_of; lia).
    by rewrite put_bwd by (rewrite slice_length; done).
  - assert (H0 : Z.land (m_pos m) 7 = 0) by (eapply copy_aligned; [exact Hact|auto]).
    assert (Hin' : in_buf (SourceBase B) (m_pos m / 8) (n_of d) = true)
      by (apply in_buf_spec; unfold n_of; lia).
    unfold memcpy. fold (d_bytes d) (n_of d). rewrite Hin', Hin. cbn [andb rbind].
    rewrite H0. replace (d_bits d) with (8 * Z.of_nat (n_of d)) by (unfold n_of; lia).
    by rewrite field_at_aligned.
Qed.

(** * All leaves in sequence *)

(** What the callback does at a member that it does not enter. *)
Definition leaf_step (m : EdsLib_DataTypeIterator_StackEntry_t) (B : EdsLib_DataTypePackUnpack_ControlBlock_t)
    : res EdsLib_DataTypePackUnpack_ControlBlock_t :=
  if m_pad m then Ok B
  else if bool_decide (OperMode B = EDSLIB_BITPACK_OPERMODE_PACK) && is_special (EntryType (Details m))
  then Ok B
  else match DataDictPtr m with
       | None => Fault
       | Some d =>
           match pack_action be d (m_pos m) with
           | EDSLIB_PACKACTION_NONE | EDSLIB_PACKACTION_SUBCOMPONENTS => Ok B
           | act => let* (_, B) := transfer B m d act in Ok B
           end
       end.

(** Leaves in increasing order, without overlap, from the given offsets up to
    the size of the object. *)
Fixpoint wf_seq (lo_bits lo_bytes : Z) (ls : list EdsLib_DataTypeIterator_StackEntry_t)
    (hi : EdsLib_SizeInfo_t) : bool :=
  match ls with
  | [] => (lo_bits <=? Bits hi) && (lo_bytes <=? Bytes hi)
  | m :: ls =>
      if m_pad m then wf_seq lo_bits lo_bytes ls hi
      else match DataDictPtr m with
           | None => false
           | Some d =>
               action_ok (pack_action be d (m_pos m)) d &&
               (lo_bits <=? m_pos m) && (lo_bytes <=? m_off m) &&
               wf_seq (m_pos m + d_bits d) (m_off m + d_bytes d) ls hi
           end
  end.

(** Leaves whose value travels: not padding, and not computed afterwards. *)
Definition is_data (m : EdsLib_DataTypeIterator_StackEntry_t) : bool :=
  negb (m_pad m) && negb (is_special (EntryType (Details m))).

Definition leaf_dict (m : EdsLib_DataTypeIterator_StackEntry_t) (d : EdsLib_DataTypeDB_Entry_t) : Prop :=
  is_data m = true /\ DataDictPtr m = Some d.

(** Leaves that occupy bits: data and computed values. *)
Definition leaf_entry (m : EdsLib_DataTypeIterator_StackEntry_t) (d : EdsLib_DataTypeDB_Entry_t) : Prop :=
  m_pad m = false /\ DataDictPtr m = Some d.

Lemma leaf_dict_entry m d : leaf_dict m d -> leaf_entry m d.
Proof. unfold leaf_dict, is_data, leaf_entry. intros [Hd ?]. split; [|done]. by destruct (m_pad m). Qed.

(** Every value of [src] can be expressed in its field. *)
Definition all_representable (src : list Z) (ls : list EdsLib_DataTypeIterator_StackEntry_t) : bool :=
  forallb (fun m =>
    match DataDictPtr m with
    | Some d => negb (is_data m) ||
                leaf_representable be (pack_action be d (m_pos m)) d (slice src (m_off m) (n_of d))
    | None => true
    end) ls.

Lemma wf_seq_mono lo_bits lo_bytes ls hi :
  wf_seq lo_bits lo_bytes ls hi = true -> lo_bits <= Bits hi /\ lo_bytes <= Bytes hi.
Proof.
  revert lo_bits lo_bytes; induction ls as [|m ls IH]; intros lo_bits lo_bytes; simpl; [lia|].
  destruct (m_pad m); [apply IH|]. destruct (DataDictPtr m) as [d|]; [|done].
  intros [[[Hok H1]%andb_true_iff H2]%andb_true_iff H3]%andb_true_iff.
  apply IH in H3. pose proof (action_ok_sizes _ _ Hok). lia.
Qed.

(** What [wf_seq] says of one of its leaves, and of two of them. *)
Lemma wf_seq_leaf lo lob ls hi m d :
  wf_seq lo lob ls hi = true -> m ∈ ls -> leaf_entry m d ->
  action_ok (pack_action be d (m_pos m)) d = true /\
  lo <= m_pos m /\ m_pos m + d_bits d <= Bits hi /\ lob <= m_off m /\ m_off m + d_bytes d <= Bytes hi.
Proof.
  revert lo lob; induction ls as [|m' ls IH]; intros lo lob Hwf Hm Hd; [by apply elem_of_nil in Hm|].
  cbn [wf_seq] in Hwf. apply elem_of_cons in Hm as [<-|Hm].
  - destruct Hd as [Hp Hd]. rewrite Hp, Hd in Hwf.
    apply andb_true_iff in Hwf as [[[Hok H1]%andb_true_iff H2]%andb_true_iff H3].
    apply wf_seq_mono in H3. split; [done|]. lia.
  - destruct (m_pad m'); [by eapply IH|]. destruct (DataDictPtr m') as [d'|]; [|done].
    apply andb_true_iff in Hwf as [[[Hok H1]%andb_true_iff H2]%andb_true_iff H3].
    pose proof (action_ok_sizes _ _ Hok). destruct (IH _ _ H3 Hm Hd) as (? & ? & ? & ? & ?).
    split; [done|]. lia.
Qed.

Lemma wf_seq_disjoint lo lob ls hi m d m' d' :
  wf_seq lo lob ls hi = true -> m ∈ ls -> leaf_entry m d -> m' ∈ ls -> leaf_entry m' d' -> m <> m' ->
  m_pos m + d_bits d <= m_pos m' \/ m_pos m' + d_bits d' <= m_pos m.
Proof.
  revert lo lob; induction ls as [|x ls IH]; intros lo lob Hwf Hm Hd Hm' Hd' Hne; [by apply elem_of_nil in Hm|].
  cbn [wf_seq] in Hwf.
  assert (Hx : forall y dy z dz, wf_seq lo lob (x :: ls) hi = true -> y = x -> leaf_entry y dy -> z ∈ ls -> leaf_entry z dz ->
     m_pos y + d_bits dy <= m_pos z).
  { intros y dy z dz Hw -> [Hp Hdy] Hz Hdz. cbn [wf_seq] in Hw. rewrite Hp, Hdy in Hw.
    apply andb_true_iff in Hw as [_ H3]. by destruct (wf_seq_leaf _ _ _ _ z dz H3 Hz Hdz) as (_ & ? & _). }
  apply elem_of_cons in Hm as [Em|Hm], Hm' as [Em'|Hm']; [congruence| | |].
  - left. by eapply Hx.
  - right. by eapply Hx.
  - destruct (m_pad x); [by eapply IH|]. destruct (DataDictPtr x) as [dx|]; [|done].
    apply andb_true_iff in Hwf as [_ H3]. by eapply IH.
Qed.

Lemma leaf_step_transfer m B d act :
  m_pad m = false -> DataDictPtr m = Some d -> pack_action be d (m_pos m) = act ->
  action_ok act d = true ->
  (OperMode B = EDSLIB_BITPACK_OPERMODE_PACK -> is_special (EntryType (Details m)) = false) ->
  leaf_step m B = let* (_, B) := transfer B m d act in Ok B.
Proof.
  intros Hp Hd Ha Hok Hs. unfold leaf_step. rewrite Hp, Hd, Ha.
  case_bool_decide as Hm; [rewrite (Hs Hm)|]; cbn [andb]; by destruct act.
Qed.

Lemma bits_at_take m pos N :
  0 <= pos -> 0 <= N -> bits_at m pos N = drop (Z.to_nat pos) (take (Z.to_nat (pos + N)) (flat m)).
Proof. intros. unfold bits_at. rewrite take_drop_commute. do 2 f_equal. lia. Qed.

Lemma pack_run ls : forall lo lob hi B,
  OperMode B = EDSLIB_BITPACK_OPERMODE_PACK -> wf_seq lo lob ls hi = true -> 0 <= lo -> 0 <= lob ->
  octets (SourceBase B) -> octets (DestBase B) ->
  Bytes hi <= zlen (SourceBase B) -> Bits hi <= 8 * zlen (DestBase B) ->
  all_representable (SourceBase B) ls = true ->
  exists D', run leaf_step ls B = Ok (set_dest B D') /\ octets D' /\ zlen D' = zlen (DestBase B) /\
    take (Z.to_nat lo) (flat D') = take (Z.to_nat lo) (flat (DestBase B)) /\
    forall m d, m ∈ ls -> leaf_dict m d ->
      bits_at D' (m_pos m) (d_bits d) =
      leaf_bits be (pack_action be d (m_pos m)) d (slice (SourceBase B) (m_off m) (n_of d)).
Proof.
  induction ls as [|m ls IH]; intros lo lob hi B Hmode Hwf Hlo Hlob HoS HoD HS HD Hrep.
  { exists (DestBase B). cbn [run]. split_and!; [by destruct B|done..|]. by intros m d ?%elem_of_nil. }
  cbn [wf_seq run all_representable forallb] in *. apply andb_true_iff in Hrep as [Hr1 Hrep].
  destruct (m_pad m) eqn:Epad.
  { unfold leaf_step at 1. rewrite Epad. cbn [rbind].
    destruct (IH lo lob hi B) as (D' & HE & Ho' & Hl' & Htk & Hall); [done..|].
    exists D'. split_and!; [done..|]. intros m' d' [->|Hm']%elem_of_cons [Hd1 Hd2]; [|by eapply Hall].
    unfold is_data in Hd1. by rewrite Epad in Hd1. }
  destruct (DataDictPtr m) as [d|] eqn:Ed; [|done].
  apply andb_true_iff in Hwf as [[[Hok H1]%andb_true_iff H2]%andb_true_iff H3].
  pose proof (action_ok_sizes _ _ Hok) as [HB Hb]. pose proof (wf_seq_mono _ _ _ _ H3) as [Hhi Hhib].
  destruct (is_special (EntryType (Details m))) eqn:Esp.
  { unfold leaf_step at 1. rewrite Epad, Esp, bool_decide_true by done. cbn [andb rbind].
    destruct (IH (m_pos m + d_bits d) (m_off m + d_bytes d) hi B) as (D' & HE & Ho' & Hl' & Htk & Hall);
      [done|done|lia|lia|done..|].
    exists D'. split_and!; [done..| |].
    - rewrite <- (take_take_le (flat D') _ (Z.to_nat (m_pos m + d_bits d))), Htk, take_take_le by lia. done.
    - intros m' d' [->|Hm']%elem_of_cons [Hd1 Hd2]; [|by eapply Hall].
      unfold is_data in Hd1. rewrite Esp, andb_false_r in Hd1. done. }
  assert (Hdata : is_data m = true) by (unfold is_data; by rewrite Epad, Esp).
  rewrite Hdata in Hr1. cbn [negb orb] in Hr1.
  rewrite (leaf_step_transfer m B d _ Epad Ed eq_refl Hok) by done.
  destruct (pack_leaf_ok B m d _ Hmode eq_refl Hok HoS HoD) as (D1 & HE1 & Ho1 & Hl1 & Htk1);
    [lia|apply in_buf_spec; unfold n_of; lia|lia|done|].
  rewrite HE1. cbn [rbind].
  rewrite (leaf_bits_length be _ d) in Htk1
    by (done || (apply slice_length, in_buf_spec; unfold n_of; lia)).
  replace (Z.to_nat (m_pos m) + N_of d)%nat with (Z.to_nat (m_pos m + d_bits d)) in Htk1
    by (unfold N_of; lia).
  destruct (IH (m_pos m + d_bits d) (m_off m + d_bytes d) hi (set_dest B D1))
    as (D' & HE & Ho' & Hl' & Htk & Hall); cbn [set_dest SourceBase DestBase OperMode] in *;
    [done|done|lia|lia|done|done|done|lia|done|].
  assert (Hlen : length (take (Z.to_nat (m_pos m)) (flat (DestBase B))) = Z.to_nat (m_pos m))
    by (rewrite length_take, flat_length; unfold zlen in *; lia).
  exists D'. split_and!; [done|done|lia| |].
  - rewrite <- (take_take_le (flat D') _ (Z.to_nat (m_pos m + d_bits d))), Htk by lia.
    rewrite Htk1, take_app_le, take_take_le by lia. done.
  - intros m' d' [->|Hm']%elem_of_cons [Hd1 Hd2]; [|by eapply Hall].
    rewrite Ed in Hd2. injection Hd2 as <-.
    rewrite bits_at_take, Htk, Htk1 by lia. by rewrite drop_app_length'.
Qed.

Lemma unpack_run ls : forall lo lob hi B,
  OperMode B = EDSLIB_BITPACK_OPERMODE_UNPACK -> wf_seq lo lob ls hi = true -> 0 <= lo -> 0 <= lob ->
  octets (SourceBase B) -> octets (DestBase B) ->
  Bytes hi <= zlen (DestBase B) -> Bits hi <= 8 * zlen (SourceBase B) ->
  exists D', run leaf_step ls B = Ok (set_dest B D') /\ octets D' /\ zlen D' = zlen (DestBase B) /\
    (forall i n, 0 <= i -> i + Z.of_nat n <= lob -> slice D' i n = slice (DestBase B) i n) /\
    forall m d, m ∈ ls -> leaf_entry m d ->
      slice D' (m_off m) (n_of d) =
      leaf_native be (pack_action be d (m_pos m)) d (bits_at (SourceBase B) (m_pos m) (d_bits d)).
Proof.
  induction ls as [|m ls IH]; intros lo lob hi B Hmode Hwf Hlo Hlob HoS HoD HS HD.
  { exists (DestBase B). cbn [run]. split_and!; [by destruct B|done..|]. by intros m d ?%elem_of_nil. }
  cbn [wf_seq run] in *. destruct (m_pad m) eqn:Epad.
  { unfold leaf_step at 1. rewrite Epad. cbn [rbind].
    destruct (IH lo lob hi B) as (D' & HE & Ho' & Hl' & Htk & Hall); [done..|].
    exists D'. split_and!; [done..|]. intros m' d' [->|Hm']%elem_of_cons [Hd1 Hd2]; [|by eapply Hall].
    by rewrite Epad in Hd1. }
  destruct (DataDictPtr m) as [d|] eqn:Ed; [|done].
  apply andb_true_iff in Hwf as [[[Hok H1]%andb_true_iff H2]%andb_true_iff H3].
  pose proof (action_ok_sizes _ _ Hok) as [HB Hb]. pose proof (wf_seq_mono _ _ _ _ H3) as [Hhi Hhib].
  rewrite (leaf_step_transfer m B d _ Epad Ed eq_refl Hok) by (by rewrite Hmode).
  assert (Hin : in_buf (DestBase B) (m_off m) (n_of d) = true) by (apply in_buf_spec; unfold n_of; lia).
  rewrite (unpack_leaf_ok B m d _ Hmode eq_refl Hok HoS) by (done || lia). cbn [rbind].
  set (w := leaf_native _ _ _ _).
  assert (Hw : length w = n_of d /\ octets w).
  { unfold w, leaf_native. destruct (pack_action be d (m_pos m)); try done.
    - apply bool_decide_eq_true in Hok as [k Hk]. split; [by eapply decode_length|apply decode_octets].
    - rewrite length_rev, chunks_length. split; [done|apply octets_rev, chunks_octets].
    - rewrite chunks_length. split; [done|apply chunks_octets]. }
  destruct Hw as [Hwl Hwo].
  assert (Hin' : in_buf (DestBase B) (m_off m) (length w) = true) by (by rewrite Hwl).
  destruct (IH (m_pos m + d_bits d) (m_off m + d_bytes d) hi (set_dest B (splice (DestBase B) (m_off m) w)))
    as (D' & HE & Ho' & Hl' & Hsl & Hall); cbn [set_dest SourceBase DestBase OperMode] in *;
    rewrite ?splice_zlen in * by done; [done|done|lia|lia|done|by apply octets_splice|done|done|].
  exists D'. split_and!; [done|done|done| |].
  - intros i n Hi Hn. rewrite Hsl by lia. apply slice_splice_below; [done|lia|lia].
  - intros m' d' [->|Hm']%elem_of_cons [Hd1 Hd2]; [|by eapply Hall].
    rewrite Ed in Hd2. injection Hd2 as <-. fold w.
    rewrite Hsl by (unfold n_of; lia). rewrite <- Hwl at 1. by apply slice_splice.
Qed.
End Object.
