(* ===== verification/EdsValueProofs.v ===== *)
(** Values in the generic buffer, in native memory and in packed fields. *)

From S2P Require Import Prelude.
From S2P Require Import EdsTypes EdsBits EdsPack EdsPackProofs EdsUnpackProofs EdsField EdsNumber EdsCodec EdsIter EdsValue EdsObject EdsObjectProofs.

(** * Strings *)

Lemma strncpy_length n s : length (strncpy n s) = n.
Proof.
  revert s; induction n as [|n IH]; intros s; [done|]. cbn [strncpy].
  destruct s as [|c s]; [simpl; by rewrite IH|]. destruct (c =? 0); simpl; by rewrite IH.
Qed.

Lemma strncpy_octets n s : octets s -> octets (strncpy n s).
Proof.
  revert s; induction n as [|n IH]; intros s Ho; [by apply List.Forall_nil|]. cbn [strncpy].
  destruct s as [|c s]; [by constructor; [|apply IH]|]. apply Forall_cons_iff in Ho as [Hc Ho].
  destruct (c =? 0); constructor; [done|apply IH; by apply List.Forall_nil|done|by apply IH].
Qed.

Lemma take_strncpy n k s : (n <= k)%nat -> take n (strncpy k s) = strncpy n s.
Proof.
  revert k s; induction n as [|n IH]; intros [|k] s H; [done|done|lia|]. cbn [strncpy].
  destruct s as [|c s]; [cbn [take]; by rewrite IH by lia|].
  destruct (c =? 0); cbn [take]; by rewrite IH by lia.
Qed.

Lemma strncpy_idem n s : strncpy n (strncpy n s) = strncpy n s.
Proof.
  revert s; induction n as [|n IH]; intros s; [done|]. cbn [strncpy].
  assert (H0 : strncpy n [] = strncpy n (strncpy n [])) by (by rewrite IH).
  destruct s as [|c s]; [by f_equal|]. destruct (c =? 0) eqn:E; [by f_equal|].
  cbn [strncpy]. rewrite E. by rewrite IH.
Qed.

(** * The generic buffer *)

Definition value_ok (V : EdsLib_GenericValueBuffer_t) : Prop := zlen (Value V) = VALUEBUFFER_SIZE /\ octets (Value V).

Section Value.
Variable be : bool.
Variable fo : FloatOps.

Definition is_int (t : EdsLib_BasicType_t) : bool :=
  match t with EDSLIB_BASICTYPE_SIGNED_INT | EDSLIB_BASICTYPE_UNSIGNED_INT => true | _ => false end.

Lemma in_value V n : value_ok V -> (n <= 32)%nat -> in_buf (Value V) 0 n = true.
Proof. intros [H _] Hn. apply in_buf_spec. unfold VALUEBUFFER_SIZE in H. lia. Qed.

Lemma set_word_ok V t v : value_ok V -> value_ok (set_word be V t v).
Proof.
  intros HV. split; cbn [set_word Value].
  - rewrite splice_zlen; [apply HV|]. rewrite native_bytes_length. apply in_value; [done|lia].
  - apply octets_splice; [apply HV|apply native_bytes_octets].
Qed.

Lemma word_set V t v : value_ok V -> word be (set_word be V t v) = v mod 2 ^ 64.
Proof.
  intros HV. unfold word. cbn [set_word Value]. rewrite slice_st by (apply in_value; [done|lia]).
  by rewrite native_val_bytes.
Qed.

Lemma convert_int V t : is_int t = true -> is_int (ValueType V) = true ->
  EdsLib_DataTypeConvert be fo V t = set_type V t.
Proof. destruct V as [t' l]. cbn [ValueType]. intros ? ?. by destruct t, t'. Qed.

Lemma int_width_le n k : int_width n = Some k -> (k <= 8)%nat.
Proof. unfold int_width. repeat case_match; intros [= <-]; lia. Qed.

Lemma store_int Dst p V d n :
  is_int (ValueType V) = true -> is_int (BasicType d) = true -> d_width d = Some n -> in_buf Dst p n = true ->
  exists V', EdsLib_DataTypeStore_Impl be fo Dst p V (Some d) = Ok (splice Dst p (native_bytes be n (word be V)), V').
Proof.
  intros HV Hd Hn Hin. unfold EdsLib_DataTypeStore_Impl, d_width, d_bytes in *. rewrite convert_int by done.
  rewrite Hn, st_ok by done. destruct (BasicType d); try done; simpl; eauto.
Qed.

Lemma load_int V Src p d n :
  is_int (BasicType d) = true -> d_width d = Some n -> in_buf Src p n = true ->
  EdsLib_DataTypeLoad_Impl be fo V Src p (Some d) =
  Ok (set_word be V (BasicType d) (native_value be d (slice Src p n))).
Proof.
  intros Hd Hn Hin. unfold EdsLib_DataTypeLoad_Impl, d_width, d_bytes, native_value, d_signed in *. rewrite Hn, ld_ok by done.
  assert (Hz : zlen (slice Src p n) = Z.of_nat n) by (unfold zlen; by rewrite slice_length).
  destruct (BasicType d); try done; cbn [rbind].
  rewrite bool_decide_true by done. unfold bitsof. by rewrite Hz.
Qed.

(** Loading the octets of a stored value. *)
Lemma load_stored Src p d n V v :
  value_ok V -> is_int (BasicType d) = true -> d_width d = Some n -> in_buf Src p n = true ->
  slice Src p n = native_bytes be n v ->
  u64 (native_value be d (native_bytes be n v)) = u64 v ->
  exists V', EdsLib_DataTypeLoad_Impl be fo V Src p (Some d) = Ok V' /\
    ValueType V' = BasicType d /\ word be V' = u64 v.
Proof.
  intros HV Hd Hn Hin Hsl Hv. eexists. split; [by eapply load_int|]. split; [done|].
  rewrite word_set by done. by rewrite Hsl.
Qed.

(** * Fields that the database marks as copied *)

(** The byte order of the flag is that of the field, and the field is plain. *)
Definition flags_ok (d : EdsLib_DataTypeDB_Entry_t) : bool :=
  let f := Z.land (Flags d) EDSLIB_DATATYPE_FLAG_PACKED_MASK in
  match BasicType d with
  | EDSLIB_BASICTYPE_BINARY => true
  | _ => (f =? 0) ||
         bool_decide (field_kind_of d = Some KPlain) && negb (d_inv d) &&
         ((f =? EDSLIB_DATATYPE_FLAG_PACKED_BE) && negb (d_le d) ||
          (f =? EDSLIB_DATATYPE_FLAG_PACKED_LE) && d_le d)
  end.

(** A plain field of whole octets is its octets in field order. *)
Lemma encode_octets d nb :
  field_kind_of d = Some KPlain -> d_inv d = false -> d_bits d = 8 * d_bytes d -> octets nb -> length nb = n_of d ->
  encode be d nb = flat (if xorb be (d_le d) then nb else rev nb).
Proof.
  intros Hk Hinv Hb Ho Hlen. pose proof (kind_bits d _ Hk) as HB.
  unfold encode. rewrite Hk, Hinv. unfold field_bits. cbn iota.
  set (y := content d (native_value be d nb)).
  assert (HN : Z.of_nat (N_of d) = d_bits d) by (unfold N_of; lia).
  assert (Hz : zlen nb = d_bytes d) by (unfold zlen; rewrite Hlen; unfold n_of; lia).
  assert (E : order_bits (d_le d) (N_of d) y = flat (order_bytes (d_le d) (n_of d) (native_val be nb))).
  { rewrite (order_bits_ext _ _ y (Z.shiftr (native_val be nb) 0)).
    - rewrite <- (stream_order_bytes (n_of d) 0 (N_of d)) by (unfold n_of, N_of; lia).
      destruct (d_le d); cbn [lead_pad]; rewrite stream_0, take_ge; try done;
        rewrite flat_length, order_bytes_length; unfold n_of, N_of; lia.
    - unfold N_of; lia.
    - intros i Hi. rewrite Z.shiftr_0_r. apply content_plain_bits; [done|done|lia]. }
  rewrite E, (order_native be). f_equal.
  replace (native_bytes be (n_of d) (native_val be nb)) with nb by (rewrite <- Hlen; by rewrite native_bytes_val).
  unfold num_stride, EDSLIB_LITTLE_ENDIAN_STRIDE, EDSLIB_BIG_ENDIAN_STRIDE. by destruct be, (d_le d).
Qed.

(** So both ways of transferring it agree. *)
Lemma leaf_bits_encode d pos nb :
  flags_ok d = true -> action_ok (pack_action be d pos) d = true -> octets nb -> length nb = n_of d ->
  is_Some (field_kind_of d) -> leaf_bits be (pack_action be d pos) d nb = encode be d nb.
Proof.
  intros Hf Hok Ho Hlen [k Hk]. unfold pack_action, flags_ok in *.
  set (f := Z.land (Flags d) EDSLIB_DATATYPE_FLAG_PACKED_MASK) in *.
  assert (HB : BasicType d = EDSLIB_BASICTYPE_BINARY -> field_kind_of d = Some KBinary)
    by (intros EB; unfold field_kind_of in *; rewrite EB in *; repeat case_match; congruence).
  assert (Hnum : (f =? 0) || bool_decide (field_kind_of d = Some KPlain) && negb (d_inv d) &&
       ((f =? EDSLIB_DATATYPE_FLAG_PACKED_BE) && negb (d_le d) ||
        (f =? EDSLIB_DATATYPE_FLAG_PACKED_LE) && d_le d) = true -> f <> 0 -> d_bits d = 8 * d_bytes d ->
     leaf_bits be (if f =? EDSLIB_NATIVE_BYTE_PACK be then EDSLIB_PACKACTION_BYTECOPY_STRAIGHT
                   else EDSLIB_PACKACTION_BYTECOPY_INVERT) d nb = encode be d nb).
  { intros H Hf0 Hb. rewrite (proj2 (Z.eqb_neq f 0)) in H by done. cbn [orb] in H.
    apply andb_true_iff in H as [[Hp%bool_decide_eq_true Hi%negb_true_iff]%andb_true_iff Hle].
    rewrite encode_octets by done. unfold EDSLIB_NATIVE_BYTE_PACK.
    apply orb_true_iff in Hle as [[Hf1%Z.eqb_eq Hl]%andb_true_iff|[Hf1%Z.eqb_eq Hl]%andb_true_iff];
      rewrite Hf1; destruct be, (d_le d); done. }
  destruct (BasicType d) eqn:EB; try done;
    try (unfold field_kind_of in Hk; rewrite EB in Hk; by destruct (negb ((0 <? d_bits d) && (d_bits d <? 2 ^ 31)))).
  1,2,3: destruct (Z.eqb_spec f 0) as [|Hf0]; cbn [negb andb]; [done|];
    destruct (Z.land pos 7 =? 0); [|done]; cbn [negb andb] in *;
    apply Hnum; [exact Hf|done|]; destruct (f =? EDSLIB_NATIVE_BYTE_PACK be); cbn [action_ok] in Hok; lia.
  destruct (Z.land pos 7 =? 0); [|done]. cbn [action_ok leaf_bits] in *.
  unfold encode. rewrite HB, take_ge by done || (rewrite flat_length, Hlen; unfold N_of, n_of; lia). done.
Qed.
End Value.
