(* ===== verification/EdsIdentProofs.v ===== *)
(** Identification of derived types: the search through the identification
    sequence ends, and the type it finds is one whose constraints, as the
    constraint iterator reports them, all hold in the buffer. *)

From S2P Require Import Prelude.
From S2P Require Import EdsTypes EdsBits EdsPack EdsField EdsIter EdsValue EdsObject EdsPost EdsQuery EdsNumber EdsCodec EdsObjectProofs EdsValueProofs.

(** Comparing with a copy of the string. *)
Lemma strncmp_strncpy n : forall a s, strncmp n a s = 0 -> Forall (fun c => 0 <= c) s -> strncmp n a (strncpy n s) = 0.
Proof.
  induction n as [|n IH]; intros a s H Hs; [by destruct a|]. cbn [strncpy].
  destruct s as [|c s].
  - destruct a as [|x a]; [done|]. cbn [strncmp] in *. subst x. by rewrite Z.eqb_refl.
  - apply Forall_cons_iff in Hs as [Hc Hs]. destruct a as [|x a]; cbn [strncmp] in *.
    + assert (c = 0) as -> by lia. done.
    + destruct (Z.eqb_spec x c) as [->|]; [|lia]. destruct (Z.eqb_spec c 0) as [->|Hc0].
      * by rewrite Z.eqb_refl.
      * rewrite Z.eqb_refl. destruct (Z.eqb_spec c 0); [done|]. by apply IH.
Qed.

Section Ident.
Variable be : bool.
Variable fo : FloatOps.
Variable GD : EdsLib_DatabaseObject_t.

Lemma load_total V Src p d :
  match d with Some d => in_buf Src p (n_of d) = true | None => True end ->
  exists V', EdsLib_DataTypeLoad_Impl be fo V Src p d = Ok V'.
Proof.
  destruct d as [d|]; [|eauto]. intros Hin. unfold EdsLib_DataTypeLoad_Impl. cbv zeta.
  fold (d_bytes d). fold (n_of d). rewrite Hin.
  assert (Hn : forall n, int_width (d_bytes d) = Some n -> n = n_of d).
  { intros n E. apply int_width_inv in E as [E _]. unfold n_of. lia. }
  destruct (BasicType d); eauto.
  1,2: destruct (int_width (d_bytes d)) as [n|] eqn:E; [|eauto]; rewrite (Hn n eq_refl), ld_ok by done; cbn; eauto.
  all: case_match; cbn; eauto.
Qed.

(** The machine's floating point numbers fit in the generic buffer. *)
Definition float_ok : Prop :=
  forall l, octets l -> octets (fp_load fo l) /\ zlen (fp_load fo l) <= VALUEBUFFER_SIZE.

Lemma set_octets_ok V t l : value_ok V -> octets l -> zlen l <= VALUEBUFFER_SIZE -> value_ok (set_octets V t l).
Proof.
  intros [HV Ho] Hl Hz. split; cbn [set_octets Value].
  - rewrite splice_zlen; [done|]. apply in_buf_spec. unfold zlen in *. lia.
  - by apply octets_splice.
Qed.

Lemma load_value_ok V Src p d V' :
  float_ok -> value_ok V -> octets Src -> EdsLib_DataTypeLoad_Impl be fo V Src p d = Ok V' -> value_ok V'.
Proof.
  intros Hf HV Ho. unfold EdsLib_DataTypeLoad_Impl.
  assert (Hw : forall t v, value_ok (set_word be V t v)) by (intros; by apply set_word_ok).
  destruct d as [d|]; [|by intros [= <-]]. cbv zeta. fold (d_bytes d). fold (n_of d).
  assert (Hs : octets (slice Src p (n_of d))) by (by apply octets_slice).
  destruct (BasicType d); try (by intros [= <-]).
  1,2: destruct (int_width (d_bytes d)) as [n|]; [|by intros [= <-]];
    destruct (ld be Src p n); cbn [rbind]; [|done..]; by intros [= <-].
  - destruct (_ || _); [|by intros [= <-]]. destruct (in_buf Src p (n_of d)); cbn [rbind]; [|done].
    intros [= <-]. apply set_octets_ok; [done|by apply Hf..].
  - destruct (Z.leb_spec (d_bytes d) VALUEBUFFER_SIZE); [|by intros [= <-]].
    destruct (in_buf Src p (n_of d)); cbn [rbind]; [|done].
    intros [= <-]. apply set_octets_ok; [done|by apply strncpy_octets|].
    unfold zlen. rewrite strncpy_length. unfold n_of, VALUEBUFFER_SIZE in *. lia.
Qed.

(** * Well-formed sequences *)

Section Seq.
Variable desc : EdsLib_ContainerDescriptor_t.
Variable seq : list EdsLib_IdentSequenceEntry_t.

Definition op_at (i : Z) : EdsLib_IdentSequenceEntry_t :=
  nth (Z.to_nat i) seq (IdentSequenceEntry EDSLIB_IDENT_SEQUENCE_INVALID 0 0 0 0).
Definition kind_at (i : Z) : EdsLib_IdentSequence_Enum_t := Ident_EntryType (op_at i).

#[global] Instance IdentSequence_Enum_dec : EqDecision EdsLib_IdentSequence_Enum_t.
Proof. solve_decision. Defined.

(** An unsuccessful comparison goes back to the start or on to another value
    at the same location. *)
Definition jump_ok (i j : Z) : bool :=
  (0 <=? j) && (j <? i) &&
  (bool_decide (kind_at j = EDSLIB_IDENT_SEQUENCE_INVALID) ||
   bool_decide (kind_at j = EDSLIB_IDENT_SEQUENCE_VALUE_CONDITION) &&
   (ParentOperation (op_at j) =? ParentOperation (op_at i))).

(** What the operation at [i] may be: the one below it continues after a
    success, and each names the one above it as its parent. *)
Definition op_ok (i : Z) : bool :=
  let op := op_at i in
  match Ident_EntryType op with
  | EDSLIB_IDENT_SEQUENCE_VALUE_CONDITION =>
      (1 <=? i) && (0 <=? RefIdx op) && (RefIdx op <? zlen (ValueList desc)) && (ParentOperation (op_at (i - 1)) =? i) &&
      negb (bool_decide (kind_at (i - 1) = EDSLIB_IDENT_SEQUENCE_VALUE_CONDITION)) &&
      jump_ok i (NextOperationLess op) && jump_ok i (NextOperationGreater op) &&
      (0 <=? ParentOperation op) && (ParentOperation op <? zlen seq) &&
      bool_decide (kind_at (ParentOperation op) = EDSLIB_IDENT_SEQUENCE_ENTITY_LOCATION)
  | EDSLIB_IDENT_SEQUENCE_ENTITY_LOCATION =>
      (1 <=? i) && (0 <=? RefIdx op) && (RefIdx op <? zlen (ConstraintEntityList desc)) && (ParentOperation (op_at (i - 1)) =? i) &&
      bool_decide (kind_at (i - 1) = EDSLIB_IDENT_SEQUENCE_VALUE_CONDITION) &&
      (0 <=? NextOperationLess op) && (NextOperationLess op <? i) &&
      bool_decide (kind_at (NextOperationLess op) = EDSLIB_IDENT_SEQUENCE_INVALID)
  | EDSLIB_IDENT_SEQUENCE_RESULT =>
      match DerivativeList desc !! Z.to_nat (RefIdx op) with
      | Some e => (IdentSeqIdx e =? i) && (0 <=? RefIdx op)
      | None => false
      end
  | _ => true
  end.

Definition seq_ok : bool :=
  forallb op_ok (map Z.of_nat (List.seq 0 (length seq))) &&
  (0 <=? IdentSequenceBase desc) && (IdentSequenceBase desc <? zlen seq) &&
  bool_decide (kind_at (IdentSequenceBase desc) = EDSLIB_IDENT_SEQUENCE_ENTITY_LOCATION) &&
  (let p := ParentOperation (op_at (IdentSequenceBase desc)) in
   (0 <=? p) && (p <? zlen seq) && bool_decide (kind_at p = EDSLIB_IDENT_SEQUENCE_INVALID)).

Lemma op_lookup i : 0 <= i < zlen seq -> seq !! Z.to_nat i = Some (op_at i).
Proof.
  intros Hi. unfold op_at, zlen in *. rewrite nth_lookup.
  destruct (lookup_lt_is_Some_2 seq (Z.to_nat i)) as [x ->]; [lia|done].
Qed.

Lemma seq_op i : seq_ok = true -> 0 <= i < zlen seq -> op_ok i = true.
Proof.
  unfold seq_ok. intros [[[[H _]%andb_true_iff _]%andb_true_iff _]%andb_true_iff _]%andb_true_iff Hi.
  rewrite forallb_forall in H. apply H. apply in_map_iff. exists (Z.to_nat i).
  split; [lia|]. apply in_seq. unfold zlen in *. lia.
Qed.

(** * Constraints that hold *)

Variable Buffer : list Z.

(** The comparison of a loaded value with a reference value is zero. *)
Definition matches (V : EdsLib_GenericValueBuffer_t) (ref : EdsLib_RefValue_t) : Prop :=
  match ValueType V with
  | EDSLIB_BASICTYPE_SIGNED_INT => sgn 64 (word be V - RV_Integer ref) = 0
  | EDSLIB_BASICTYPE_UNSIGNED_INT => sgn 64 (word be V - RV_Unsigned ref) = 0
  | EDSLIB_BASICTYPE_BINARY => strncmp (Z.to_nat VALUEBUFFER_SIZE) (Value V) (RV_String ref) = 0
  | _ => False
  end.

Definition loaded (loc : EdsLib_ConstraintEntity_t) (V : EdsLib_GenericValueBuffer_t) : Prop :=
  value_ok V /\
  exists V0, EdsLib_DataTypeLoad_Impl be fo V0 Buffer (Bytes (Constraint_Offset loc))
    (EdsLib_DataTypeDB_GetEntry GD (Constraint_RefObj loc)) = Ok V.

(** The operations from [i] up along the parents, with the value selected
    below: every location with a selected value holds it. *)
Inductive sat : option EdsLib_RefValue_t -> Z -> Prop :=
| sat_end i : 0 <= i < zlen seq -> kind_at i = EDSLIB_IDENT_SEQUENCE_INVALID -> sat None i
| sat_value i v : 0 <= i < zlen seq -> kind_at i = EDSLIB_IDENT_SEQUENCE_VALUE_CONDITION ->
    ValueList desc !! Z.to_nat (RefIdx (op_at i)) = Some v -> sat (Some v) (ParentOperation (op_at i)) -> sat None i
| sat_location i v loc V : 0 <= i < zlen seq -> kind_at i = EDSLIB_IDENT_SEQUENCE_ENTITY_LOCATION ->
    ConstraintEntityList desc !! Z.to_nat (RefIdx (op_at i)) = Some loc -> loaded loc V -> matches V v ->
    sat None (ParentOperation (op_at i)) -> sat (Some v) i.

(** What is known when the search stands at [i] with value [V]. *)
Definition search_inv (i : Z) (V : EdsLib_GenericValueBuffer_t) : Prop :=
  match kind_at i with
  | EDSLIB_IDENT_SEQUENCE_ENTITY_LOCATION | EDSLIB_IDENT_SEQUENCE_RESULT => sat None (ParentOperation (op_at i))
  | EDSLIB_IDENT_SEQUENCE_VALUE_CONDITION =>
      exists loc, ConstraintEntityList desc !! Z.to_nat (RefIdx (op_at (ParentOperation (op_at i)))) = Some loc /\
        loaded loc V /\ sat None (ParentOperation (op_at (ParentOperation (op_at i))))
  | _ => True
  end.

(** The buffer covers every location. *)
Definition locations_ok : Prop :=
  Forall (fun loc => match EdsLib_DataTypeDB_GetEntry GD (Constraint_RefObj loc) with
                     | Some d => in_buf Buffer (Bytes (Constraint_Offset loc)) (n_of d) = true
                     | None => True
                     end) (ConstraintEntityList desc).
Hypothesis Hseq : seq_ok = true.
Hypothesis Hloc : locations_ok.
Hypothesis Hfloat : float_ok.
Hypothesis HBuffer : octets Buffer.

Lemma zlookup {A} (l : list A) i : 0 <= i < zlen l -> exists x, l !! Z.to_nat i = Some x.
Proof. unfold zlen. intros H. destruct (lookup_lt_is_Some_2 l (Z.to_nat i)) as [x ->]; [lia|eauto]. Qed.

Lemma jump_inv i j V :
  search_inv i V -> kind_at i = EDSLIB_IDENT_SEQUENCE_VALUE_CONDITION -> jump_ok i j = true ->
  0 <= j < i /\ search_inv j V.
Proof.
  intros Hinv Hk [[H1 H2]%andb_true_iff [H3%bool_decide_eq_true|[H3%bool_decide_eq_true H4%Z.eqb_eq]%andb_true_iff]%orb_true_iff]%andb_true_iff;
    (split; [lia|]); unfold search_inv in *; rewrite H3; [done|]. rewrite Hk in Hinv. by rewrite H4.
Qed.

(** One operation of the search. *)
Lemma search_step i V :
  0 <= i < zlen seq -> value_ok V -> search_inv i V ->
  (exists V' c j, ident_step be fo GD desc Buffer V (op_at i) = Ok (Some (V', c)) /\
     j = (if c =? 0 then i - 1 else if c >? 0 then NextOperationGreater (op_at i) else NextOperationLess (op_at i)) /\
     0 <= j < i /\ value_ok V' /\ search_inv j V') \/
  ident_step be fo GD desc Buffer V (op_at i) = Ok None /\
    kind_at i <> EDSLIB_IDENT_SEQUENCE_VALUE_CONDITION /\ kind_at i <> EDSLIB_IDENT_SEQUENCE_ENTITY_LOCATION.
Proof.
  intros Hi HV Hinv. pose proof (seq_op i Hseq Hi) as Hok. unfold op_ok in Hok. fold (kind_at i) in Hok.
  unfold ident_step. fold (kind_at i). destruct (kind_at i) eqn:Ek; try (right; done); left.
  - apply andb_true_iff in Hok as [[[[[[[H1 H0]%andb_true_iff H2]%andb_true_iff H3%Z.eqb_eq]%andb_true_iff
      H4%bool_decide_eq_true]%andb_true_iff H5]%andb_true_iff H6]%andb_true_iff H7%bool_decide_eq_true].
    destruct (zlookup (ConstraintEntityList desc) (RefIdx (op_at i))) as [loc Hl]; [lia|]. rewrite Hl.
    unfold locations_ok in Hloc. pose proof (proj1 (Forall_lookup _ _) Hloc _ _ Hl) as Hin. cbn beta in Hin.
    destruct (load_total V Buffer (Bytes (Constraint_Offset loc))
      (EdsLib_DataTypeDB_GetEntry GD (Constraint_RefObj loc))) as [V' HV'].
    { by destruct (EdsLib_DataTypeDB_GetEntry GD (Constraint_RefObj loc)). }
    rewrite HV'. cbn [rbind]. do 3 eexists. split; [done|]. split; [done|].
    assert (HVv : value_ok V') by (by eapply load_value_ok).
    destruct (decide (ValueType V' = EDSLIB_BASICTYPE_NONE)); cbn [Z.eqb Z.gtb Z.compare].
    + split_and!; [lia|lia|done|]. unfold search_inv. by rewrite H7.
    + split_and!; [lia|lia|done|]. unfold search_inv in *. rewrite H4, H3, Ek in *. exists loc.
      split_and!; [done|split; [done|by exists V]|done].
  - apply andb_true_iff in Hok as [[[[[[[[[H1 H0]%andb_true_iff H2]%andb_true_iff H3%Z.eqb_eq]%andb_true_iff
      H4]%andb_true_iff H5]%andb_true_iff H6]%andb_true_iff H7]%andb_true_iff H8]%andb_true_iff H9%bool_decide_eq_true].
    apply negb_true_iff, bool_decide_eq_false in H4.
    destruct (zlookup (ValueList desc) (RefIdx (op_at i))) as [v Hv]; [lia|]. rewrite Hv.
    match goal with |- context [Some (V, ?x)] => set (c := x) end. exists V, c. eexists. split; [done|]. split; [done|].
    destruct (Z.eqb_spec c 0) as [Ec|].
    + split_and!; [lia|lia|done|]. pose proof Hinv as Hinv'. unfold search_inv in Hinv'. rewrite Ek in Hinv'.
      destruct Hinv' as (loc & Hl & Hld & Hsat).
      assert (Hm : matches V v) by (unfold matches, c in *; by destruct (ValueType V)).
      assert (Hs : sat None i) by (eapply sat_value; [done|done|done|]; eapply sat_location; eauto; lia).
      unfold search_inv. destruct (kind_at (i - 1)); try done; by rewrite H3.
    + destruct (c >? 0); [destruct (jump_inv i _ V Hinv Ek H6)|destruct (jump_inv i _ V Hinv Ek H5)]; split_and!; done || lia.
Qed.

Lemma search_ends n : forall i V,
  i = Z.of_nat n -> i < zlen seq -> value_ok V -> search_inv i V ->
  exists r, 0 <= r < zlen seq /\
    (forall fuel, (n < fuel)%nat -> ident_loop be fo GD fuel desc seq Buffer V i = Ok (op_at r)) /\
    (kind_at r = EDSLIB_IDENT_SEQUENCE_RESULT -> sat None (ParentOperation (op_at r))).
Proof.
  induction (Nat.lt_wf_0 n) as [n _ IH]. intros i V -> Hi HV Hinv.
  assert (Hn : (Z.of_nat n <? 0) = false) by lia.
  destruct (search_step (Z.of_nat n) V ltac:(lia) HV Hinv) as [(V' & c & j & HE & Hj & Hr & HV' & Hinv')|(HE & Hk & _)].
  - destruct (IH (Z.to_nat j) ltac:(lia) j V') as (r & Hr' & Hrun & Hres); [lia|lia|done|done|].
    exists r. split_and!; [lia|lia| |done]. intros [|fuel] Hf; [lia|]. cbn [ident_loop].
    rewrite Hn, op_lookup, HE by lia. cbn [rbind]. rewrite <- Hj. apply Hrun. lia.
  - exists (Z.of_nat n). split_and!; [lia|lia| |].
    + intros [|fuel] Hf; [lia|]. cbn [ident_loop]. by rewrite Hn, op_lookup, HE by lia.
    + intros Hkr. unfold search_inv in Hinv. by rewrite Hkr in Hinv.
Qed.

(** * The constraint iterator *)

(** The callback that records what it is called with. *)
Definition collect (info : EdsLib_DataTypeDB_EntityInfo_t) (V : EdsLib_GenericValueBuffer_t)
    (s : list (EdsLib_DataTypeDB_EntityInfo_t * EdsLib_GenericValueBuffer_t))
    : res (EdsLib_GenericValueBuffer_t * list (EdsLib_DataTypeDB_EntityInfo_t * EdsLib_GenericValueBuffer_t)) :=
  Ok (V, s ++ [(info, V)]).

(** The buffer has the reported value at the reported place. *)
Definition satisfied (x : EdsLib_DataTypeDB_EntityInfo_t * EdsLib_GenericValueBuffer_t) : Prop :=
  let '(info, val) := x in
  exists V0 V, EdsLib_DataTypeLoad_Impl be fo V0 Buffer (Bytes (EI_Offset info))
      (EdsLib_DataTypeDB_GetEntry GD (EdsLib_Decode_StructId (EI_EdsId info))) = Ok V /\
    ValueType V = ValueType val /\
    (if is_int (ValueType val) then word be V = word be val
     else strncmp (Z.to_nat VALUEBUFFER_SIZE) (Value V) (Value val) = 0).

(** Locations and reference strings as the database holds them. *)
Definition refs_ok : Prop :=
  Forall (fun loc => 0 <= AppIndex (Constraint_RefObj loc) < 128 /\ 0 <= TypeIndex (Constraint_RefObj loc) < 1024)
    (ConstraintEntityList desc) /\
  Forall (fun v => octets (RV_String v)) (ValueList desc).
Hypothesis Hrefs : refs_ok.

Lemma word_range V : value_ok V -> 0 <= word be V < 2 ^ 64.
Proof.
  intros HV. unfold word. pose proof (native_val_range be (slice (Value V) 0 8)) as H.
  unfold zlen in H. rewrite slice_length in H by (apply in_value; [done|lia]). apply H, octets_slice, HV.
Qed.

Lemma sgn_word V U t z : value_ok V -> value_ok U -> sgn 64 (word be V - z) = 0 -> word be V = word be (set_word be U t z).
Proof.
  intros HV HU H. pose proof (word_range V HV) as Hr. rewrite word_set by done. unfold sgn in H.
  assert (E : (word be V - z) mod 2 ^ 64 = 0).
  { pose proof (Z.mod_pos_bound (word be V - z) (2 ^ 64) ltac:(lia)).
    destruct (Z.ltb_spec ((word be V - z) mod 2 ^ 64) (2 ^ (64 - 1))); lia. }
  rewrite <- (Z.mod_small (word be V) (2 ^ 64)) by done.
  replace (word be V) with (z + (word be V - z)) by lia.
  rewrite <- Z.add_mod_idemp_r, E, Z.add_0_r by lia. done.
Qed.

(** What a load delivers is of the type of the entry, or nothing. *)
Lemma load_type V Src p d V' :
  EdsLib_DataTypeLoad_Impl be fo V Src p d = Ok V' -> ValueType V' <> EDSLIB_BASICTYPE_NONE ->
  exists e, d = Some e /\ ValueType V' = BasicType e.
Proof.
  unfold EdsLib_DataTypeLoad_Impl. destruct d as [e|]; [|by intros [= <-]]. cbv zeta. intros H Hn. exists e.
  split; [done|]. destruct (BasicType e); try (by injection H as <-);
    (repeat case_match; try (by injection H as <-)); try done;
    (destruct (ld _ _ _ _) || idtac); cbn [rbind] in H; try done; by injection H as <-.
Qed.

Lemma constraint_satisfied loc V v U :
  loc ∈ ConstraintEntityList desc -> v ∈ ValueList desc -> loaded loc V -> matches V v -> value_ok U ->
  exists d, EdsLib_DataTypeDB_GetEntry GD (Constraint_RefObj loc) = Some d /\
    let W := constraint_value be U v (Some d) in
    value_ok W /\ ValueType W <> EDSLIB_BASICTYPE_NONE /\
    satisfied (EntityInfo (EdsLib_Encode_StructId (Some (Constraint_RefObj loc))) (Constraint_Offset loc) (SizeInfo_ d), W).
Proof.
  intros Hl Hv [HVv [V0 Hld]] Hm HU. destruct Hrefs as [Hr Hs].
  pose proof (proj1 (List.Forall_forall _ _) Hr loc (proj1 (list_elem_of_In _ _) Hl)) as [Ha Ht].
  pose proof (proj1 (List.Forall_forall _ _) Hs v (proj1 (list_elem_of_In _ _) Hv)) as Hstr.
  destruct (load_type _ _ _ _ _ Hld) as (d & Hd & HT); [intros E; unfold matches in Hm; by rewrite E in Hm|].
  exists d. split; [done|]. unfold matches in Hm. cbn [constraint_value].
  assert (Hsat : forall W, ValueType V = ValueType W ->
     (if is_int (ValueType W) then word be V = word be W
      else strncmp (Z.to_nat VALUEBUFFER_SIZE) (Value V) (Value W) = 0) ->
     satisfied (EntityInfo (EdsLib_Encode_StructId (Some (Constraint_RefObj loc))) (Constraint_Offset loc) (SizeInfo_ d), W)).
  { intros W HW HE. cbn [satisfied EI_EdsId EI_Offset]. exists V0, V. rewrite Decode_Encode by done. done. }
  rewrite HT in *. destruct (BasicType d); try done.
  - split_and!; [by apply set_word_ok|done|]. apply Hsat; [done|]. by apply sgn_word.
  - split_and!; [by apply set_word_ok|done|]. apply Hsat; [done|]. by apply sgn_word.
  - assert (Hl32 : zlen (strncpy (Z.to_nat VALUEBUFFER_SIZE) (RV_String v)) = VALUEBUFFER_SIZE)
      by (unfold zlen; by rewrite strncpy_length).
    split_and!; [apply set_octets_ok; [done|by apply strncpy_octets|lia]|done|]. apply Hsat; [done|].
    cbn [set_octets is_int ValueType Value].
    assert (E : splice (Value U) 0 (strncpy (Z.to_nat VALUEBUFFER_SIZE) (RV_String v)) =
                strncpy (Z.to_nat VALUEBUFFER_SIZE) (RV_String v)).
    { destruct HU as [HU _]. unfold splice. change (Z.to_nat 0) with 0%nat. rewrite take_0, drop_ge, app_nil_r; [done|].
      rewrite strncpy_length. unfold zlen in HU. lia. }
    rewrite E. apply strncmp_strncpy; [done|]. eapply List.Forall_impl; [|exact Hstr]. unfold is_octet. cbn. lia.
Qed.

Lemma walk_sat sel i : sat sel i ->
  match sel with Some v => v ∈ ValueList desc | None => True end ->
  forall V s, value_ok V -> exists N L V', Forall satisfied L /\ value_ok V' /\
    forall fuel, (N <= fuel)%nat -> constraint_walk GD be fuel collect desc seq sel i V s = Ok (V', s ++ L).
Proof.
  induction 1 as [i Hi Hk|i v Hi Hk Hv Hs IH|i v loc V1 Hi Hk Hl Hld Hm Hs IH]; intros Hsel V s HV.
  - exists 1%nat, [], V. split_and!; [constructor|done|]. intros [|fuel] Hf; [lia|]. cbn [constraint_walk].
    rewrite op_lookup by done. fold (kind_at i). by rewrite Hk, app_nil_r.
  - destruct (IH ltac:(by eapply list_elem_of_lookup_2) V s HV) as (N & L & V' & HL & HV' & HE).
    exists (Datatypes.S N), L, V'. split_and!; [done|done|]. intros [|fuel] Hf; [lia|]. cbn [constraint_walk].
    rewrite op_lookup by done. fold (kind_at i). rewrite Hk, Hv. apply HE. lia.
  - destruct (constraint_satisfied loc V1 v V) as (d & Hd & HW & HWt & Hsat); [by eapply list_elem_of_lookup_2|done..|].
    set (W := constraint_value be V v (Some d)) in *.
    destruct (IH I (set_type W EDSLIB_BASICTYPE_NONE) (s ++ [(EntityInfo (EdsLib_Encode_StructId (Some (Constraint_RefObj loc)))
      (Constraint_Offset loc) (SizeInfo_ d), W)])) as (N & L & V' & HL & HV' & HE); [done|].
    exists (Datatypes.S N), ((EntityInfo (EdsLib_Encode_StructId (Some (Constraint_RefObj loc))) (Constraint_Offset loc)
      (SizeInfo_ d), W) :: L), V'. split_and!; [by constructor|done|]. intros [|fuel] Hf; [lia|]. cbn [constraint_walk].
    rewrite op_lookup by done. fold (kind_at i). rewrite Hk, Hl, Hd. fold W.
    rewrite bool_decide_false by done. unfold collect at 1. cbn [rbind]. rewrite HE by lia. by rewrite <- app_assoc.
Qed.

Lemma find_nodup (l : list EdsLib_DerivativeEntry_t) k e :
  NoDup (map Deriv_RefObj l) -> l !! k = Some e ->
  List.find (fun x => bool_decide (Deriv_RefObj x = Deriv_RefObj e)) l = Some e.
Proof.
  revert k; induction l as [|x l IH]; intros k Hnd Hk; [done|]. cbn [map] in Hnd. inversion Hnd as [|? ? Hx Hnd']; subst.
  cbn [List.find]. destruct k as [|k]; cbn in Hk; [injection Hk as ->; by rewrite bool_decide_true|].
  case_bool_decide as E; [|by eapply IH]. contradict Hx. rewrite E. apply list_elem_of_fmap_2. by eapply list_elem_of_lookup_2.
Qed.

(** The search from the base of the sequence. *)
Lemma search_result V : value_ok V ->
  exists r, 0 <= r < zlen seq /\
    (forall fuel, (Z.to_nat (IdentSequenceBase desc) < fuel)%nat ->
       ident_loop be fo GD fuel desc seq Buffer V (IdentSequenceBase desc) = Ok (op_at r)) /\
    (kind_at r = EDSLIB_IDENT_SEQUENCE_RESULT -> sat None (ParentOperation (op_at r))).
Proof.
  intros HV. pose proof Hseq as Hok. unfold seq_ok in Hok.
  apply andb_true_iff in Hok as [[[[_ H1]%andb_true_iff H2]%andb_true_iff H3%bool_decide_eq_true]%andb_true_iff
    [[H4 H5]%andb_true_iff H6%bool_decide_eq_true]%andb_true_iff].
  apply search_ends; [lia|lia|done|]. unfold search_inv. rewrite H3. apply sat_end; [lia|done].
Qed.

(** A sequence that can be searched needs values and locations. *)
Lemma seq_tables : (exists v l, ValueList desc = v :: l) /\ exists c l, ConstraintEntityList desc = c :: l.
Proof.
  pose proof Hseq as Hok. unfold seq_ok in Hok.
  apply andb_true_iff in Hok as [[[[_ H1]%andb_true_iff H2]%andb_true_iff H3%bool_decide_eq_true]%andb_true_iff _].
  pose proof (seq_op (IdentSequenceBase desc) Hseq ltac:(lia)) as Hb. unfold op_ok in Hb. unfold kind_at in H3. rewrite H3 in Hb.
  apply andb_true_iff in Hb as [[[[[[[B1 B2]%andb_true_iff B3]%andb_true_iff _]%andb_true_iff
    B4%bool_decide_eq_true]%andb_true_iff _]%andb_true_iff _]%andb_true_iff _].
  pose proof (seq_op (IdentSequenceBase desc - 1) Hseq ltac:(lia)) as Hc. unfold op_ok in Hc. unfold kind_at in B4. rewrite B4 in Hc.
  apply andb_true_iff in Hc as [[[[[[[[[_ C1]%andb_true_iff C2]%andb_true_iff _]%andb_true_iff _]%andb_true_iff
    _]%andb_true_iff _]%andb_true_iff _]%andb_true_iff _]%andb_true_iff _].
  split; [destruct (ValueList desc)|destruct (ConstraintEntityList desc)]; eauto; change (zlen []) with 0 in *; lia.
Qed.
End Seq.
End Ident.
