(* ===== verification/EdsRoundTrip.v ===== *)
(** [EdsLib_DataTypeDB_PackPartialObject] followed by
    [EdsLib_DataTypeDB_UnpackPartialObject]: the iterator, the callback and
    the field codec put together. *)

From S2P Require Import Prelude.
From S2P Require Import EdsTypes EdsBits EdsPack EdsPackProofs EdsUnpackProofs EdsField EdsNumber EdsCodec EdsIter EdsValue EdsObject EdsObjectProofs.

Section RoundTrip.
Variable be : bool.
Variable DoFloatPack :
  list Z -> list Z -> Z -> Z -> EdsLib_NumberEncoding_Enum_t -> Z -> res (list Z * Z).
Variable DoFloatUnpack :
  list Z -> Z -> Z -> list Z -> EdsLib_NumberEncoding_Enum_t -> Z -> res (list Z).
Variable NumBuf0 : list Z.
Variable ValueBuff0 : EdsLib_GenericValueBuffer_t.
Variable fo : FloatOps.
Variable GD : EdsLib_DatabaseObject_t.
Hypothesis HNumBuf : zlen NumBuf0 = VALUEBUFFER_SIZE.
Hypothesis HNumBufO : octets NumBuf0.
Hypothesis Hcounts : db_counts GD.

Abbreviation callback := (EdsLib_DataTypePackUnpack_Callback be DoFloatPack DoFloatUnpack NumBuf0).
Abbreviation step := (leaf_step be DoFloatPack DoFloatUnpack NumBuf0).

(** * Layout of an object *)

(** The members that the callback enters. *)
Definition m_down (m : EdsLib_DataTypeIterator_StackEntry_t) : bool :=
  negb (m_pad m) &&
  match DataDictPtr m with
  | Some d => bool_decide (pack_action be d (m_pos m) = EDSLIB_PACKACTION_SUBCOMPONENTS)
  | None => false
  end.

(** The members an object of type [ref] may have: not [ref] itself, of known
    type, of positive size, and a computed value is not composite. *)
Definition m_may (ref : EdsLib_DatabaseRef_t) (m : EdsLib_DataTypeIterator_StackEntry_t) : bool :=
  bool_decide (RefObj (Details m) <> ref) &&
  (m_pad m ||
   bool_decide (is_Some (DataDictPtr m)) && (0 <? Bits (EndOffset m)) && (0 <? Bytes (EndOffset m)) &&
   negb (m_down m && is_special (EntryType (Details m)))).

Definition object_layout (ref : EdsLib_DatabaseRef_t) (dict : EdsLib_DataTypeDB_Entry_t)
    : option (list EdsLib_DataTypeIterator_StackEntry_t) :=
  layout GD m_down (m_may ref) (Z.to_nat (EDSLIB_ITERATOR_MAX_DEEP_DEPTH - 1)) (top_entry ref zero_size dict).

(** * The callback *)

Definition pass_inv (ref : EdsLib_DatabaseRef_t) (B : EdsLib_DataTypePackUnpack_ControlBlock_t) : Prop :=
  PS_RefObj B = ref /\ ProcessedSize B = zero_size /\ OperMode B <> EDSLIB_BITPACK_OPERMODE_NONE.

Lemma callback_end e B rc B' :
  callback EDSLIB_ITERATOR_CBTYPE_END e B = Ok (rc, B') -> rc = EDSLIB_ITERATOR_RC_CONTINUE /\ B' = B.
Proof. unfold EdsLib_DataTypePackUnpack_Callback. simpl. by intros [= <- <-]. Qed.

Lemma transfer_continues B e d act :
  OperMode B <> EDSLIB_BITPACK_OPERMODE_NONE ->
  transfer be DoFloatPack DoFloatUnpack NumBuf0 B e d act =
  let* B' := (let* (_, B') := transfer be DoFloatPack DoFloatUnpack NumBuf0 B e d act in Ok B') in
  Ok (EDSLIB_ITERATOR_RC_CONTINUE, B').
Proof.
  intros Hm. unfold transfer. destruct (OperMode B); [done|..];
    (match goal with |- rbind ?r _ = _ => destruct r end); reflexivity.
Qed.

Lemma transfer_keeps B e d act rc B' :
  transfer be DoFloatPack DoFloatUnpack NumBuf0 B e d act = Ok (rc, B') ->
  exists D, B' = set_dest B D.
Proof.
  unfold transfer. destruct (OperMode B) eqn:E.
  - intros [= _ <-]. exists (DestBase B). by destruct B.
  - match goal with |- rbind ?r _ = _ -> _ => destruct r end; cbn [rbind]; intros; simplify_eq; eauto.
  - match goal with |- rbind ?r _ = _ -> _ => destruct r end; cbn [rbind]; intros; simplify_eq; eauto.
Qed.

Lemma step_keeps m B B' : step m B = Ok B' -> exists D, B' = set_dest B D.
Proof.
  assert (Hid : exists D, B = set_dest B D) by (exists (DestBase B); by destruct B).
  unfold leaf_step. destruct (m_pad m); [by intros [= <-]|].
  destruct (_ && _); [by intros [= <-]|]. destruct (DataDictPtr m) as [d|]; [|done].
  destruct (pack_action be d (m_pos m)); try (by intros [= <-]);
    (destruct (transfer _ _ _ _ _ _ _ _) as [[rc B1]| |] eqn:E; cbn [rbind]; [|done..]);
    intros [= <-]; by eapply transfer_keeps.
Qed.

Lemma step_inv ref m B B' : pass_inv ref B -> step m B = Ok B' -> pass_inv ref B'.
Proof. intros (? & ? & ?) [D ->]%step_keeps. done. Qed.

Lemma callback_start ref m B :
  pass_inv ref B -> m_may ref m = true -> m_down m = true ->
  callback EDSLIB_ITERATOR_CBTYPE_START (incr_index m) B = Ok (EDSLIB_ITERATOR_RC_CONTINUE, B).
Proof.
  intros (Href & _) [Hne%bool_decide_eq_true _]%andb_true_iff _.
  unfold EdsLib_DataTypePackUnpack_Callback. rewrite Href.
  rewrite (bool_decide_false (ref = _)) by (simpl; congruence). done.
Qed.

Lemma callback_down ref m B :
  pass_inv ref B -> m_may ref m = true -> m_down m = true ->
  callback EDSLIB_ITERATOR_CBTYPE_MEMBER m B = Ok (EDSLIB_ITERATOR_RC_DESCEND, B).
Proof.
  intros (_ & Hproc & _) [_ Hmay]%andb_true_iff Hdown. pose proof Hdown as Hd.
  unfold m_down in Hd. apply andb_true_iff in Hd as [Hpad%negb_true_iff Hd].
  rewrite Hpad in Hmay. cbn [orb] in Hmay.
  apply andb_true_iff in Hmay as [[[_ H1]%andb_true_iff H2]%andb_true_iff H3].
  rewrite Hdown in H3. cbn [andb] in H3. apply negb_true_iff in H3.
  unfold EdsLib_DataTypePackUnpack_Callback. cbn [andb]. rewrite bool_decide_false by done. cbn [andb].
  rewrite bool_decide_true by done. cbn [negb orb]. fold (m_pad m). rewrite Hpad, H3, andb_false_r, Hproc.
  cbn [Bits Bytes zero_size].
  replace ((Bits (EndOffset m) <=? 0) || (Bytes (EndOffset m) <=? 0)) with false by lia.
  destruct (DataDictPtr m) as [d|]; [|done]. fold (m_pos m).
  apply bool_decide_eq_true in Hd. by rewrite Hd.
Qed.

Lemma callback_leaf ref m B :
  pass_inv ref B -> m_may ref m = true -> m_down m = false ->
  callback EDSLIB_ITERATOR_CBTYPE_MEMBER m B =
  let* B := step m B in Ok (EDSLIB_ITERATOR_RC_CONTINUE, B).
Proof.
  intros (_ & Hproc & Hmode) [_ Hmay]%andb_true_iff Hdown.
  unfold EdsLib_DataTypePackUnpack_Callback, leaf_step. rewrite bool_decide_false by done. cbn [andb].
  rewrite bool_decide_true by done. cbn [negb orb]. fold (m_pad m).
  unfold m_down in Hdown. destruct (m_pad m); [done|]. cbn [orb negb andb] in *.
  apply andb_true_iff in Hmay as [[[[d Hd]%bool_decide_eq_true H1]%andb_true_iff H2]%andb_true_iff _].
  destruct (_ && is_special _); [done|]. rewrite Hproc. cbn [Bits Bytes zero_size].
  replace ((Bits (EndOffset m) <=? 0) || (Bytes (EndOffset m) <=? 0)) with false by lia.
  rewrite Hd in *. fold (m_pos m). apply bool_decide_eq_false in Hdown.
  destruct (pack_action be d (m_pos m)); try done; by apply transfer_continues.
Qed.

(** * One pass over an object *)

Lemma object_pass ref dict ls B B0 :
  EdsLib_DataTypeDB_GetEntry GD ref = Some dict -> is_composite (BasicType dict) = true ->
  object_layout ref dict = Some ls ->
  callback EDSLIB_ITERATOR_CBTYPE_START (top_entry ref zero_size dict) B =
    Ok (EDSLIB_ITERATOR_RC_CONTINUE, B0) ->
  pass_inv ref B0 ->
  exists N, forall fuel, (N <= fuel)%nat ->
    EdsLib_DataTypeIterator_Impl GD callback EDSLIB_ITERATOR_MAX_DEEP_DEPTH fuel ref zero_size B =
    let* B := run step ls B0 in Ok (EDSLIB_SUCCESS, B).
Proof.
  intros Hget Hcomp Hlay Hst Hinv.
  apply (walk_pass GD m_down (m_may ref) callback (pass_inv ref) step) with (dict := dict); [..|done].
  - intros. by eapply callback_start.
  - intros e s _. by destruct (callback EDSLIB_ITERATOR_CBTYPE_END e s) as [[? ?]| |] eqn:E.
  - intros. by eapply callback_down.
  - intros. by eapply callback_leaf.
  - intros. by eapply step_inv.
  - done.
  - done.
  - intros e s rc s' [-> _]%callback_end. done.
  - done.
  - done.
  - exact Hlay.
  - done.
Qed.

(** * The whole call *)

(** No type is derived from this one. *)
Definition no_derivation (dict : EdsLib_DataTypeDB_Entry_t) : bool :=
  match BasicType dict with
  | EDSLIB_BASICTYPE_CONTAINER =>
      match IdentSequenceList (Container (Detail dict)) with None => true | Some _ => false end
  | _ => true
  end.

Abbreviation impl := (EdsLib_DataTypePackUnpack_Impl be DoFloatPack DoFloatUnpack NumBuf0 ValueBuff0 fo GD).

Lemma single_level ref dict ls B B0 D1 :
  EdsLib_DataTypeDB_GetEntry GD ref = Some dict -> is_composite (BasicType dict) = true ->
  no_derivation dict = true -> object_layout ref dict = Some ls ->
  PS_RefObj B = ref -> d_bytes dict <= Bytes (PS_MaxSize B) -> d_bits dict <= Bits (PS_MaxSize B) ->
  callback EDSLIB_ITERATOR_CBTYPE_START (top_entry ref zero_size dict) B =
    Ok (EDSLIB_ITERATOR_RC_CONTINUE, B0) ->
  pass_inv ref B0 -> run step ls B0 = Ok (set_dest B0 D1) -> PS_Status B0 = EDSLIB_SUCCESS ->
  0 < d_bits dict ->
  exists N, forall levels fuel, (1 <= levels)%nat -> (N <= fuel)%nat ->
    impl levels fuel B =
    Ok (PackState (SourceBase B0) D1 (OperMode B0) ref (SizeInfo_ dict) (PS_MaxSize B0) EDSLIB_SUCCESS).
Proof.
  intros Hget Hcomp Hnd Hlay Href Hm1 Hm2 Hst Hinv Hrun Hok HB.
  destruct (object_pass ref dict ls B B0 Hget Hcomp Hlay Hst Hinv) as [N HN].
  exists N. intros [|levels] fuel Hl Hf; [lia|].
  unfold EdsLib_DataTypePackUnpack_Impl. cbn [packunpack_loop]. rewrite Href, Hget.
  unfold d_bits, d_bytes in *.
  replace ((Bytes (PS_MaxSize B) <? Bytes (SizeInfo_ dict)) || (Bits (PS_MaxSize B) <? Bits (SizeInfo_ dict)))
    with false by lia.
  rewrite HN, Hrun by done. cbn [rbind set_dest PS_Status]. rewrite Hok.
  change (EDSLIB_SUCCESS =? EDSLIB_SUCCESS) with true. cbn [negb]. cbn iota.
  set (B2 := PackState _ _ _ _ _ _ _).
  assert (Hid : exists st, EdsLib_DataTypeIdentifyBuffer_Impl be fo GD fuel dict ValueBuff0
                  (native_buffer B2) = Ok (st, None)).
  { unfold EdsLib_DataTypeIdentifyBuffer_Impl, no_derivation in *.
    destruct (BasicType dict); try done; simpl in *; [|eauto].
    destruct (IdentSequenceList _); [done|eauto]. }
  destruct Hid as [st ->]. cbn [rbind].
  destruct (Z.eqb_spec (Bits (ProcessedSize B2)) 0) as [E|]; [simpl in E; lia|done].
Qed.

Lemma top_end dict ref :
  0 <= d_bits dict < 2 ^ 32 -> 0 <= d_bytes dict < 2 ^ 32 ->
  EndOffset (top_entry ref zero_size dict) = SizeInfo_ dict.
Proof.
  intros H1 H2. unfold d_bits, d_bytes in *. cbn [top_entry EndOffset]. unfold so_add, u32.
  cbn [zero_size Bits Bytes]. rewrite !Z.add_0_r, !Z.mod_small by lia. by destruct (SizeInfo_ dict).
Qed.

Lemma start_pack ref dict Src Dst maxbits maxbytes :
  0 < d_bits dict < 2 ^ 32 - 7 -> 0 <= d_bytes dict < 2 ^ 32 ->
  d_bits dict <= maxbits -> d_bytes dict <= maxbytes -> (d_bits dict + 7) / 8 <= zlen Dst ->
  octets Dst ->
  let B := PackState Src Dst EDSLIB_BITPACK_OPERMODE_PACK ref (SizeInfo 0 0)
             (SizeInfo maxbits maxbytes) EDSLIB_SUCCESS in
  exists D0,
    callback EDSLIB_ITERATOR_CBTYPE_START (top_entry ref zero_size dict) B =
      Ok (EDSLIB_ITERATOR_RC_CONTINUE, set_dest B D0) /\ octets D0 /\ zlen D0 = zlen Dst.
Proof.
  intros HB Hb Hm1 Hm2 Hfit Ho B. unfold EdsLib_DataTypePackUnpack_Callback.
  rewrite bool_decide_true by done. rewrite bool_decide_true by done. cbn [andb top_entry DataDictPtr].
  unfold B. cbn [PS_MaxSize Bits Bytes]. unfold d_bits, d_bytes in *.
  replace ((maxbytes <? Bytes (SizeInfo_ dict)) || (maxbits <? Bits (SizeInfo_ dict))) with false by lia.
  unfold clear_dest. cbn [OperMode ProcessedSize Bits DestBase].
  rewrite top_end by (unfold d_bits, d_bytes; lia).
  change (u32 (0 + 7) / 8) with 0. rewrite u32_id by range.
  assert (0 < (Bits (SizeInfo_ dict) + 7) / 8) by (apply Z.div_str_pos; lia).
  replace (0 <? (Bits (SizeInfo_ dict) + 7) / 8) with true by lia.
  unfold memset. rewrite (proj2 (in_buf_spec _ _ _)) by lia. cbn [rbind].
  eexists; split; [done|].
  split; [apply octets_splice; [done|]|apply splice_zlen, in_buf_spec; rewrite length_replicate; lia].
  apply Forall_replicate. done.
Qed.

Lemma start_unpack ref dict Src Dst maxbits maxbytes :
  0 < d_bits dict < 2 ^ 32 -> 0 <= d_bytes dict < 2 ^ 32 ->
  d_bits dict <= maxbits -> d_bytes dict <= maxbytes -> d_bytes dict <= zlen Dst ->
  octets Dst ->
  let B := PackState Src Dst EDSLIB_BITPACK_OPERMODE_UNPACK ref (SizeInfo 0 0)
             (SizeInfo maxbits maxbytes) EDSLIB_SUCCESS in
  exists D0,
    callback EDSLIB_ITERATOR_CBTYPE_START (top_entry ref zero_size dict) B =
      Ok (EDSLIB_ITERATOR_RC_CONTINUE, set_dest B D0) /\ octets D0 /\ zlen D0 = zlen Dst.
Proof.
  intros HB Hb Hm1 Hm2 Hfit Ho B. unfold EdsLib_DataTypePackUnpack_Callback.
  rewrite bool_decide_true by done. rewrite bool_decide_true by done. cbn [andb top_entry DataDictPtr].
  unfold B. cbn [PS_MaxSize Bits Bytes]. unfold d_bits, d_bytes in *.
  replace ((maxbytes <? Bytes (SizeInfo_ dict)) || (maxbits <? Bits (SizeInfo_ dict))) with false by lia.
  unfold clear_dest. cbn [OperMode ProcessedSize Bytes DestBase].
  rewrite top_end by (unfold d_bits, d_bytes; lia).
  destruct (Z.ltb_spec 0 (Bytes (SizeInfo_ dict))); cbn [rbind]; [|by exists Dst].
  unfold memset. rewrite (proj2 (in_buf_spec _ _ _)) by lia. cbn [rbind].
  eexists; split; [done|].
  split; [apply octets_splice; [done|]|apply splice_zlen, in_buf_spec; rewrite length_replicate; lia].
  apply Forall_replicate. done.
Qed.

(** An object type that can be packed: a composite type whose leaves lie in
    order within its size. *)
Record packable (ref : EdsLib_DatabaseRef_t) (dict : EdsLib_DataTypeDB_Entry_t)
    (ls : list EdsLib_DataTypeIterator_StackEntry_t) : Prop := {
  pk_get : EdsLib_DataTypeDB_GetEntry GD ref = Some dict;
  pk_comp : is_composite (BasicType dict) = true;
  pk_final : no_derivation dict = true;
  pk_layout : object_layout ref dict = Some ls;
  pk_seq : wf_seq be 0 0 ls (SizeInfo_ dict) = true;
  pk_bits : 0 < d_bits dict < 2 ^ 32 - 7;
  pk_bytes : 0 <= d_bytes dict < 2 ^ 32 }.

Abbreviation pack_object :=
  (EdsLib_DataTypeDB_PackPartialObject be DoFloatPack DoFloatUnpack NumBuf0 ValueBuff0 fo GD).
Abbreviation unpack_object :=
  (EdsLib_DataTypeDB_UnpackPartialObject be DoFloatPack DoFloatUnpack NumBuf0 ValueBuff0 fo GD).

Lemma octet_ceil b n : (b + 7) / 8 <= n -> b <= 8 * n.
Proof. intros H. pose proof (Z.div_mod (b + 7) 8 ltac:(lia)). pose proof (Z.mod_pos_bound (b + 7) 8 ltac:(lia)). lia. Qed.

Lemma pack_object_ok id ref dict ls Src Dst maxbits :
  EdsLib_Decode_StructId id = ref -> packable ref dict ls -> octets Src -> octets Dst ->
  d_bytes dict <= zlen Src -> d_bits dict <= maxbits -> (d_bits dict + 7) / 8 <= zlen Dst ->
  all_representable be Src ls = true ->
  exists N P, octets P /\ zlen P = zlen Dst /\
    (forall levels fuel, (1 <= levels)%nat -> (N <= fuel)%nat ->
       pack_object levels fuel id Dst Src maxbits (zlen Src) 0 =
       Ok (EDSLIB_SUCCESS, EdsLib_Encode_StructId (Some ref), P)) /\
    forall m d, m ∈ ls -> leaf_dict m d ->
      bits_at P (m_pos m) (d_bits d) =
      leaf_bits be (pack_action be d (m_pos m)) d (slice Src (m_off m) (n_of d)).
Proof.
  intros Hid [Hget Hcomp Hnd Hlay Hwf HB Hb] HoS HoD HS Hm Hfit Hrep.
  destruct (start_pack ref dict Src Dst maxbits (zlen Src)) as (D0 & Hst & Ho0 & Hl0); [done..|].
  set (B := PackState Src Dst _ _ _ _ _) in *.
  destruct (pack_run be DoFloatPack DoFloatUnpack NumBuf0 HNumBuf HNumBufO ls 0 0 (SizeInfo_ dict) (set_dest B D0))
    as (P & Hrun & HoP & HlP & _ & Hall);
    [done|done|lia|lia|done|done|done|cbn [set_dest DestBase]; rewrite Hl0; by apply octet_ceil|done|].
  destruct (single_level ref dict ls B (set_dest B D0) P) as [N HN];
    [done|done|done|done|done|done|done|done|done|exact Hrun|done|lia|].
  exists N, P. split_and!; [done|by rewrite HlP| |exact Hall].
  intros levels fuel Hl Hf. unfold EdsLib_DataTypeDB_PackPartialObject. rewrite Hid. fold B. by rewrite HN.
Qed.

Lemma unpack_object_ok id ref dict ls Src Dst maxbytes maxbits :
  EdsLib_Decode_StructId id = ref -> packable ref dict ls -> octets Src -> octets Dst ->
  d_bytes dict <= zlen Dst -> d_bytes dict <= maxbytes -> d_bits dict <= maxbits ->
  (d_bits dict + 7) / 8 <= zlen Src ->
  exists N P, octets P /\ zlen P = zlen Dst /\
    (forall levels fuel, (1 <= levels)%nat -> (N <= fuel)%nat ->
       unpack_object levels fuel id Dst Src maxbytes maxbits 0 =
       Ok (EDSLIB_SUCCESS, EdsLib_Encode_StructId (Some ref), P)) /\
    forall m d, m ∈ ls -> leaf_entry m d ->
      slice P (m_off m) (n_of d) =
      leaf_native be (pack_action be d (m_pos m)) d (bits_at Src (m_pos m) (d_bits d)).
Proof.
  intros Hid [Hget Hcomp Hnd Hlay Hwf HB Hb] HoS HoD HS Hmb Hm Hfit.
  destruct (start_unpack ref dict Src Dst maxbits maxbytes) as (D0 & Hst & Ho0 & Hl0); [lia|done..|].
  set (B := PackState Src Dst _ _ _ _ _) in *.
  destruct (unpack_run be DoFloatPack DoFloatUnpack NumBuf0 HNumBuf ls 0 0 (SizeInfo_ dict) (set_dest B D0))
    as (P & Hrun & HoP & HlP & _ & Hall);
    [done|done|lia|lia|done|done|cbn [set_dest DestBase]; by rewrite Hl0|by apply octet_ceil|].
  destruct (single_level ref dict ls B (set_dest B D0) P) as [N HN];
    [done|done|done|done|done|done|done|done|done|exact Hrun|done|lia|].
  exists N, P. split_and!; [done|by rewrite HlP| |exact Hall].
  intros levels fuel Hl Hf. unfold EdsLib_DataTypeDB_UnpackPartialObject. rewrite Hid. fold B. by rewrite HN.
Qed.
End RoundTrip.
