(* ===== verification/EdsComplete.v ===== *)
(** Complete objects: what [EdsLib_DataTypeDB_FinalizePackedObject] adds to a
    packed object is what [EdsLib_DataTypeDB_VerifyUnpackedObject] expects. *)

From S2P Require Import Prelude.
From S2P Require Import EdsTypes EdsBits EdsPack EdsPackProofs EdsUnpackProofs EdsField EdsNumber EdsCodec EdsErrorControl EdsIter EdsValue EdsObject EdsPost EdsObjectProofs EdsValueProofs EdsRoundTrip.

Lemma run_filter {A S} (step : A -> S -> res S) (P : A -> bool) l s :
  (forall a s, P a = false -> step a s = Ok s) -> run step l s = run step (List.filter P l) s.
Proof.
  intros H. revert s; induction l as [|a l IH]; intros s; [done|]. cbn [run List.filter].
  destruct (P a) eqn:E; cbn [run]; [|rewrite H by done; apply IH].
  destruct (step a s); cbn [rbind]; [apply IH|done|done].
Qed.

(** Bits that a write before or behind them leaves alone. *)
Lemma bits_at_same_take m m' pos N k :
  0 <= pos -> 0 <= N -> pos + N <= k -> take (Z.to_nat k) (flat m) = take (Z.to_nat k) (flat m') ->
  bits_at m pos N = bits_at m' pos N.
Proof.
  intros Hp HN Hk E. rewrite !bits_at_take by done. f_equal.
  rewrite <- (take_take_le (flat m) _ (Z.to_nat k)), E, take_take_le by lia. done.
Qed.

Lemma bits_at_same_drop m m' pos N k :
  0 <= k <= pos -> drop (Z.to_nat k) (flat m) = drop (Z.to_nat k) (flat m') -> bits_at m pos N = bits_at m' pos N.
Proof.
  intros Hk E. unfold bits_at. f_equal.
  replace (Z.to_nat pos) with (Z.to_nat k + (Z.to_nat (pos - k)))%nat by lia.
  by rewrite <- !drop_drop, E.
Qed.

Lemma put_field_at_pos Dst pos w q Dst' :
  0 <= pos -> put_field Dst (pos / 8) (Z.land pos 7) w q Dst' ->
  octets Dst' /\ zlen Dst' = zlen Dst /\
  take (Z.to_nat (pos + zlen w)) (flat Dst') = take (Z.to_nat pos) (flat Dst) ++ w /\
  (q -> drop (Z.to_nat (pos + zlen w)) (flat Dst') = drop (Z.to_nat (pos + zlen w)) (flat Dst)).
Proof.
  intros Hp (Ho & Hl & Htk & Hdr). destruct (pos_split _ Hp) as [E _]. rewrite E in *.
  replace (Z.to_nat (pos + zlen w)) with (Z.to_nat pos + length w)%nat by (unfold zlen; lia). done.
Qed.

(** [w] written at bit [pos], all the rest kept. *)
Definition put_pos (P : list Z) (pos : Z) (w : list bool) (P' : list Z) : Prop :=
  octets P' /\ zlen P' = zlen P /\
  take (Z.to_nat (pos + zlen w)) (flat P') = take (Z.to_nat pos) (flat P) ++ w /\
  drop (Z.to_nat (pos + zlen w)) (flat P') = drop (Z.to_nat (pos + zlen w)) (flat P).

Lemma put_pos_at P pos w P' :
  put_pos P pos w P' -> 0 <= pos <= 8 * zlen P -> bits_at P' pos (zlen w) = w.
Proof.
  intros (_ & _ & Htk & _) Hp. rewrite bits_at_take, Htk by (unfold zlen; lia).
  apply drop_app_length'. rewrite length_take, flat_length. unfold zlen in *. lia.
Qed.

Lemma put_pos_other P pos w P' q N :
  put_pos P pos w P' -> 0 <= pos <= 8 * zlen P -> 0 <= q -> 0 <= N ->
  q + N <= pos \/ pos + zlen w <= q -> bits_at P' q N = bits_at P q N.
Proof.
  intros (_ & _ & Htk & Hdr) Hp Hq HN [H|H].
  - apply (bits_at_same_take _ _ q N pos); [done..|].
    apply (f_equal (take (Z.to_nat pos))) in Htk. rewrite take_take_le in Htk by (unfold zlen; lia).
    rewrite Htk. apply take_app_length'. rewrite length_take, flat_length. unfold zlen in *. lia.
  - apply (bits_at_same_drop _ _ q N (pos + zlen w)); [unfold zlen in *; lia|done].
Qed.

(** * Computed entries *)

Definition sp (m : EdsLib_DataTypeIterator_StackEntry_t) : bool := is_special (EntryType (Details m)).
Definition is_ec (m : EdsLib_DataTypeIterator_StackEntry_t) : bool :=
  bool_decide (EntryType (Details m) = EDSLIB_ENTRYTYPE_CONTAINER_ERROR_CONTROL_ENTRY).
Definition ec_type (m : EdsLib_DataTypeIterator_StackEntry_t) : EdsLib_ErrorControlType_t :=
  ErrorControl (HandlerArg (Details m)).

Lemma sp_not_pad m : sp m = true -> m_pad m = false.
Proof. unfold sp, m_pad. by destruct (EntryType (Details m)). Qed.

(** The members at which the post-processing stops. *)
Definition post_down (m : EdsLib_DataTypeIterator_StackEntry_t) : bool :=
  match DataDictPtr m with Some d => NumSubElements d >? 0 | None => false end.
Definition post_may (m : EdsLib_DataTypeIterator_StackEntry_t) : bool := bool_decide (is_Some (DataDictPtr m)).
Definition post_layout (GD : EdsLib_DatabaseObject_t) (ref : EdsLib_DatabaseRef_t) (dict : EdsLib_DataTypeDB_Entry_t) :=
  layout GD post_down post_may (Z.to_nat (EDSLIB_ITERATOR_MAX_DEEP_DEPTH - 1)) (top_entry ref zero_size dict).

Section Complete.
Variable be : bool.
Variable DoFloatPack :
  list Z -> list Z -> Z -> Z -> EdsLib_NumberEncoding_Enum_t -> Z -> res (list Z * Z).
Variable DoFloatUnpack :
  list Z -> Z -> Z -> list Z -> EdsLib_NumberEncoding_Enum_t -> Z -> res (list Z).
Variable NumBuf0 : list Z.
Variable ValueBuff0 : EdsLib_GenericValueBuffer_t.
Variable fo : FloatOps.
Variable GD : EdsLib_DatabaseObject_t.
Hypothesis HNumBuf : zlen NumBuf0 = VALUEBUFFER_SIZE.
Hypothesis HNumBufO : octets NumBuf0.
Hypothesis HV : value_ok ValueBuff0.
Hypothesis Hcounts : db_counts GD.

Abbreviation packed_cb := (EdsLib_PackedObject_PostProc_Callback be DoFloatPack NumBuf0 ValueBuff0 fo).
Abbreviation native_cb := (EdsLib_NativeObject_PostProc_Callback be ValueBuff0 fo).

(** The integer of a length or fixed value entry, and its native octets. *)
Definition sp_word (base : EdsLib_DataTypeDB_Entry_t) (m : EdsLib_DataTypeIterator_StackEntry_t)
    (d : EdsLib_DataTypeDB_Entry_t) : Z :=
  match EntryType (Details m) with
  | EDSLIB_ENTRYTYPE_CONTAINER_LENGTH_ENTRY => calibrate m (object_octets base)
  | _ => if d_signed d then FixedInteger (HandlerArg (Details m)) else FixedUnsigned (HandlerArg (Details m))
  end.
Definition sp_octets base m d : list Z :=
  match BasicType d with
  | EDSLIB_BASICTYPE_BINARY => strncpy (n_of d) (FixedString (HandlerArg (Details m)))
  | _ => native_bytes be (n_of d) (sp_word base m d)
  end.

(** Entries whose computed value fits its field: the field is supported, its
    flags agree with its encoding, and the value is read back unchanged. *)
Definition special_ok base m d : bool :=
  let nb := sp_octets base m d in
  bool_decide (is_Some (field_kind_of d)) && flags_ok d && quiet d nb && representable be d nb &&
  match BasicType d with
  | EDSLIB_BASICTYPE_SIGNED_INT | EDSLIB_BASICTYPE_UNSIGNED_INT =>
      u64 (native_value be d nb) =? u64 (sp_word base m d)
  | EDSLIB_BASICTYPE_BINARY =>
      bool_decide (EntryType (Details m) = EDSLIB_ENTRYTYPE_CONTAINER_FIXED_VALUE_ENTRY) && (d_bytes d <=? 32) &&
      forallb (fun b => (0 <=? b) && (b <? 256)) (FixedString (HandlerArg (Details m)))
  | _ => false
  end.

(** Error control fields: unsigned, of the size of the algorithm, on an octet
    boundary of an object of whole octets. *)
Definition ec_ok base m (d : EdsLib_DataTypeDB_Entry_t) : bool :=
  ec_aligned (ec_type m) && negb (bool_decide (ec_type m = EdsLib_ErrorControlType_INVALID)) &&
  bool_decide (BasicType d = EDSLIB_BASICTYPE_UNSIGNED_INT) && bool_decide (field_kind_of d = Some KPlain) &&
  flags_ok d && (d_le d || negb (d_inv d)) && (d_bits d =? 8 * ec_width (ec_type m)) &&
  (m_pos m mod 8 =? 0) && (d_bits base mod 8 =? 0).

Definition computed_ok base (ls : list EdsLib_DataTypeIterator_StackEntry_t) : bool :=
  forallb (fun m => negb (sp m) ||
    match DataDictPtr m with
    | Some d => if is_ec m then ec_ok base m d else special_ok base m d
    | None => false
    end) ls.

(** * Completing the packed object *)

Definition set_base (B : EdsLib_PackedPostProc_ControlBlock_t) (P : list Z) :=
  PackedPostProc P (PP_BaseDictPtr B) (ErrorCtlDictPtr B) (ErrorCtlType B) (PP_Status B) (ErrorCtlOffsetBits B).
Definition set_ec (B : EdsLib_PackedPostProc_ControlBlock_t) (m : EdsLib_DataTypeIterator_StackEntry_t) :=
  PackedPostProc (BasePtr B) (PP_BaseDictPtr B) (DataDictPtr m) (ec_type m) (PP_Status B) (m_pos m).

Definition sp_value base m d : option EdsLib_GenericValueBuffer_t :=
  match EntryType (Details m) with
  | EDSLIB_ENTRYTYPE_CONTAINER_LENGTH_ENTRY =>
      Some (set_word be ValueBuff0 EDSLIB_BASICTYPE_SIGNED_INT (calibrate m (object_octets base)))
  | EDSLIB_ENTRYTYPE_CONTAINER_FIXED_VALUE_ENTRY => fixed_value be ValueBuff0 d (HandlerArg (Details m))
  | _ => None
  end.

Definition pstep base m (B : EdsLib_PackedPostProc_ControlBlock_t) : res EdsLib_PackedPostProc_ControlBlock_t :=
  if negb (sp m) then Ok B
  else if is_ec m then Ok (set_ec B m)
  else match DataDictPtr m with
       | None => Fault
       | Some d => match sp_value base m d with
                   | Some V => let* P := pack_value be DoFloatPack NumBuf0 fo V d (BasePtr B) (m_pos m) in
                               Ok (set_base B P)
                   | None => Ok B
                   end
       end.

Lemma packed_leaf base m B :
  PP_BaseDictPtr B = Some base -> post_may m = true -> post_down m = false ->
  packed_cb EDSLIB_ITERATOR_CBTYPE_MEMBER m B = let* B := pstep base m B in Ok (EDSLIB_ITERATOR_RC_CONTINUE, B).
Proof.
  intros HB [d Hd]%bool_decide_eq_true Hdown. unfold post_down in Hdown. rewrite Hd in Hdown.
  unfold EdsLib_PackedObject_PostProc_Callback, pstep, sp, is_ec, sp_value. rewrite bool_decide_true by done.
  cbn [negb]. rewrite Hd, Hdown, HB.
  assert (Hp : forall V, (let* m0 := pack_value be DoFloatPack NumBuf0 fo V d (BasePtr B) (Bits (StartOffset m)) in
      Ok (EDSLIB_ITERATOR_RC_CONTINUE, PackedPostProc m0 (Some base) (ErrorCtlDictPtr B) (ErrorCtlType B)
            (PP_Status B) (ErrorCtlOffsetBits B))) =
      let* B := (let* P := pack_value be DoFloatPack NumBuf0 fo V d (BasePtr B) (m_pos m) in Ok (set_base B P)) in
      Ok (EDSLIB_ITERATOR_RC_CONTINUE, B)).
  { intros V. unfold m_pos, set_base. rewrite HB. by destruct (pack_value _ _ _ _ _ _ _ _). }
  destruct (EntryType (Details m)); cbn [is_special negb]; try done.
  - rewrite bool_decide_false by done. destruct (fixed_value _ _ _ _) as [V|]; [apply Hp|done].
  - rewrite bool_decide_true by done. cbn [rbind]. unfold set_ec. by rewrite HB, Hd.
Qed.

Lemma packed_pass ref dict ls P :
  EdsLib_DataTypeDB_GetEntry GD ref = Some dict -> is_composite (BasicType dict) = true ->
  post_layout GD ref dict = Some ls ->
  exists N, forall fuel, (N <= fuel)%nat ->
    EdsLib_DataTypeIterator_Impl GD packed_cb EDSLIB_ITERATOR_MAX_DEEP_DEPTH fuel ref zero_size
      (PackedPostProc P None None EdsLib_ErrorControlType_INVALID 0 0) =
    let* B := run (pstep dict) ls (PackedPostProc P (Some dict) None EdsLib_ErrorControlType_INVALID 0 0) in
    Ok (EDSLIB_SUCCESS, B).
Proof.
  intros Hget Hcomp Hlay.
  apply (walk_pass GD post_down post_may packed_cb (fun B => PP_BaseDictPtr B = Some dict) (pstep dict))
    with (dict := dict); try done.
  - intros m B HB _ _. unfold EdsLib_PackedObject_PostProc_Callback. rewrite bool_decide_false by done. cbn [negb].
    rewrite HB. by rewrite (bool_decide_false (Some dict = None)), andb_false_r by done.
  - intros m B HB [d Hd]%bool_decide_eq_true Hdown. unfold post_down in Hdown. rewrite Hd in Hdown.
    unfold EdsLib_PackedObject_PostProc_Callback. rewrite bool_decide_true by done. cbn [negb]. by rewrite Hd, Hdown.
  - intros m B HB Hm Hd. by apply packed_leaf.
  - intros m B B' HB. unfold pstep. destruct (negb (sp m)); [by intros [= <-]|].
    destruct (is_ec m); [by intros [= <-]|]. destruct (DataDictPtr m); [|done].
    destruct (sp_value _ _ _); [|by intros [= <-]]. destruct (pack_value _ _ _ _ _ _ _ _); cbn [rbind]; [|done..].
    by intros [= <-].
  - intros e B rc B'. unfold EdsLib_PackedObject_PostProc_Callback. simpl. by intros [= <- _].
Qed.
(** * Packing one computed value *)

(** [nb] are the native octets, for the type of [d], of the value in [V]. *)
Definition holds (V : EdsLib_GenericValueBuffer_t) (d : EdsLib_DataTypeDB_Entry_t) (nb : list Z) : Prop :=
  if bool_decide (BasicType d = EDSLIB_BASICTYPE_BINARY)
  then d_bytes d <= VALUEBUFFER_SIZE /\ nb = slice (Value V) 0 (n_of d)
  else is_int (BasicType d) = true /\ is_int (ValueType V) = true /\ nb = native_bytes be (n_of d) (word be V).

Lemma kind_width d k : is_int (BasicType d) = true -> field_kind_of d = Some k -> d_width d = Some (n_of d).
Proof.
  intros Hi Hk. assert (E : exists n, d_width d = Some n).
  { destruct k; [destruct (kind_plain _ Hk) as (n & ? & _)|destruct (kind_encoded _ Hk) as (n & ? & _)|]; eauto.
    unfold field_kind_of in Hk. destruct (BasicType d); try done; repeat case_match; try done; eauto. }
  destruct E as [n E]. pose proof (int_width_inv _ _ E) as [? _]. rewrite E. f_equal. unfold n_of. lia.
Qed.

Lemma pack_value_ok V d k P pos nb :
  field_kind_of d = Some k -> value_ok V -> holds V d nb -> representable be d nb = true -> quiet d nb = true ->
  octets P -> 0 <= pos -> pos + d_bits d <= 8 * zlen P ->
  exists P', pack_value be DoFloatPack NumBuf0 fo V d P pos = Ok P' /\ put_pos P pos (encode be d nb) P'.
Proof.
  intros Hk HVv Hh Hr Hq HoP Hp Hfit. destruct (pos_split _ Hp) as [Ep Hp7].
  assert (HS : exists Src, (if bool_decide (BasicType d = EDSLIB_BASICTYPE_BINARY) then Ok (Value V)
     else let* (m, _) := EdsLib_DataTypeStore_Impl be fo (Value V) 0 V (Some d) in Ok m) = Ok Src /\
     octets Src /\ in_buf Src 0 (n_of d) = true /\ slice Src 0 (n_of d) = nb).
  { unfold holds in Hh. case_bool_decide as EB.
    - destruct Hh as [H32 ->]. exists (Value V). split_and!; [done|apply HVv| |done].
      apply in_value; [done|]. unfold n_of, VALUEBUFFER_SIZE in *. lia.
    - destruct Hh as (Hi & Hi' & ->). pose proof (kind_width d k Hi Hk) as Hw.
      assert (Hin : in_buf (Value V) 0 (n_of d) = true)
        by (apply in_value; [done|]; apply int_width_le in Hw; lia).
      destruct (store_int be fo (Value V) 0 V d (n_of d) Hi' Hi Hw Hin) as [V' ->]. cbn [rbind].
      eexists. split_and!; [done| | |by apply slice_st].
      + apply octets_splice; [apply HVv|apply native_bytes_octets].
      + apply in_buf_spec. rewrite splice_zlen by (by rewrite native_bytes_length). by apply in_buf_spec. }
  destruct HS as (Src & HS & HoS & Hin & Hsl). unfold pack_value. rewrite HS. cbn [rbind].
  destruct (pack_field be DoFloatPack d k NumBuf0 P (pos / 8) Src 0 (Z.land pos 7)) as (P' & HE & Hput);
    rewrite ?Hsl; try done; [apply Z.div_pos; lia|lia|].
  rewrite Hsl in Hput. exists P'. split; [done|].
  destruct (put_field_at_pos _ _ _ _ _ Hp Hput) as (? & ? & ? & Hd). split_and!; [done..|by apply Hd].
Qed.

Lemma special_kind base m d : special_ok base m d = true -> exists k, field_kind_of d = Some k.
Proof. unfold special_ok. intros H. repeat apply andb_true_iff in H as [H _]. by apply bool_decide_eq_true in H. Qed.

Lemma sp_value_ok base m d :
  special_ok base m d = true -> sp m = true -> is_ec m = false ->
  exists V, sp_value base m d = Some V /\ value_ok V /\ holds V d (sp_octets base m d).
Proof.
  intros Hok Hsp Hec. destruct (special_kind _ _ _ Hok) as [k Hk].
  unfold special_ok in Hok. apply andb_true_iff in Hok as [_ Hok].
  assert (Hint : forall t v, is_int t = true -> is_int (BasicType d) = true ->
     value_ok (set_word be ValueBuff0 t v) /\ holds (set_word be ValueBuff0 t v) d (native_bytes be (n_of d) v)).
  { intros t v Ht Hi. split; [by apply set_word_ok|]. unfold holds.
    rewrite bool_decide_false by (intros E; by rewrite E in Hi). split_and!; [done|done|].
    rewrite word_set by done. rewrite native_bytes_mod; [done|].
    pose proof (kind_width _ _ Hi Hk) as Hw. apply int_width_le in Hw. lia. }
  unfold sp, is_ec, sp_value, sp_octets, sp_word, fixed_value, d_signed in *.
  destruct (BasicType d) eqn:EB; try done.
  - destruct (EntryType (Details m)); try done; (eexists; split; [done|]; by apply Hint).
  - destruct (EntryType (Details m)); try done; (eexists; split; [done|]; by apply Hint).
  - apply andb_true_iff in Hok as [[Het%bool_decide_eq_true H32]%andb_true_iff Hfs]. rewrite Het.
    assert (Hin : in_buf (Value ValueBuff0) 0 (length (strncpy (Z.to_nat VALUEBUFFER_SIZE)
       (FixedString (HandlerArg (Details m))))) = true)
      by (rewrite strncpy_length; by apply in_value).
    eexists; split; [done|]. split.
    + split; cbn [set_octets Value]; [rewrite splice_zlen by done; apply HV|].
      apply octets_splice; [apply HV|]. apply strncpy_octets, List.Forall_forall.
      intros b Hb. rewrite forallb_forall in Hfs. specialize (Hfs b Hb). unfold is_octet. lia.
    + unfold holds. rewrite bool_decide_true by done. split; [unfold VALUEBUFFER_SIZE; lia|].
      cbn [set_octets Value]. unfold splice. change (take (Z.to_nat 0) (Value ValueBuff0)) with (@nil Z). cbn [app].
      unfold slice. change (Z.to_nat 0) with 0%nat. rewrite drop_0.
      assert (n_of d <= Z.to_nat VALUEBUFFER_SIZE)%nat by (unfold n_of, VALUEBUFFER_SIZE; lia).
      rewrite take_app_le by (rewrite strncpy_length; lia). by rewrite take_strncpy.
Qed.
(** * All computed values in sequence *)

(** The error control entries that the pass meets, the last one last. *)
Definition set_ecs (ls : list EdsLib_DataTypeIterator_StackEntry_t) (B : EdsLib_PackedPostProc_ControlBlock_t) :=
  fold_left set_ec (List.filter is_ec ls) B.

Lemma set_ecs_base ls B P : set_ecs ls (set_base B P) = set_base (set_ecs ls B) P.
Proof.
  unfold set_ecs. revert B. induction (List.filter is_ec ls) as [|m l IH]; intros B; [done|].
  cbn [fold_left]. apply (IH (set_ec B m)).
Qed.

Lemma set_ecs_ptr ls B : BasePtr (set_ecs ls B) = BasePtr B.
Proof. unfold set_ecs. revert B. induction (List.filter is_ec ls) as [|m l IH]; intros B; [done|]. apply (IH (set_ec B m)). Qed.

Lemma set_ecs_cons m ls B : set_ecs (m :: ls) B = set_ecs ls (if is_ec m then set_ec B m else B).
Proof. unfold set_ecs. cbn [List.filter]. by destruct (is_ec m). Qed.

Lemma computed_cons base m ls :
  computed_ok base (m :: ls) = true ->
  (forall d, sp m = true -> DataDictPtr m = Some d -> (if is_ec m then ec_ok base m d else special_ok base m d) = true) /\
  computed_ok base ls = true.
Proof.
  intros [H1 H2]%andb_true_iff. split; [|done]. intros d Hs Hd. by rewrite Hs, Hd in H1.
Qed.

(** Positions after a list of leaves that the post-processing has passed. *)
Lemma pstep_ok base m d B :
  DataDictPtr m = Some d -> (sp m = true -> (if is_ec m then ec_ok base m d else special_ok base m d) = true) ->
  octets (BasePtr B) -> 0 <= m_pos m -> 0 < d_bits d -> m_pos m + d_bits d <= 8 * zlen (BasePtr B) ->
  exists P', pstep base m B = Ok (set_base (if is_ec m then set_ec B m else B) P') /\
    octets P' /\ zlen P' = zlen (BasePtr B) /\
    bits_at P' (m_pos m) (d_bits d) =
      (if sp m && negb (is_ec m) then encode be d (sp_octets base m d)
       else bits_at (BasePtr B) (m_pos m) (d_bits d)) /\
    forall q N, 0 <= q -> 0 <= N -> q + N <= m_pos m \/ m_pos m + d_bits d <= q ->
      bits_at P' q N = bits_at (BasePtr B) q N.
Proof.
  intros Hd Hok Ho Hp HB Hfit.
  assert (Hsame : forall B' : EdsLib_PackedPostProc_ControlBlock_t, BasePtr B' = BasePtr B -> B' = set_base B' (BasePtr B))
    by (intros [] Hb; unfold set_base; cbn in *; by rewrite Hb).
  unfold pstep. destruct (sp m) eqn:Esp; cbn [negb].
  2:{ assert (is_ec m = false) as ->.
      { unfold is_ec, sp in *. apply bool_decide_eq_false. intros E. by rewrite E in Esp. }
      exists (BasePtr B). split_and!; [f_equal; by apply Hsame|done..]. }
  specialize (Hok eq_refl). destruct (is_ec m) eqn:Eec; cbn [andb negb].
  { exists (BasePtr B). split_and!; [f_equal; by apply Hsame|done..]. }
  rewrite Hd. destruct (sp_value_ok base m d Hok Esp Eec) as (V & -> & HVv & Hh).
  destruct (special_kind _ _ _ Hok) as [k Hk]. unfold special_ok in Hok.
  apply andb_true_iff in Hok as [[[_ Hq]%andb_true_iff Hr]%andb_true_iff _].
  destruct (pack_value_ok V d k (BasePtr B) (m_pos m) _ Hk HVv Hh Hr Hq Ho Hp Hfit) as (P' & -> & Hput).
  assert (Hlen : zlen (encode be d (sp_octets base m d)) = d_bits d).
  { unfold zlen. rewrite (encode_length be d k); [unfold N_of; lia|done|].
    unfold sp_octets. destruct (BasicType d); rewrite ?strncpy_length, ?native_bytes_length; done. }
  exists P'. split_and!; [done|apply Hput|apply Hput| |].
  - rewrite <- Hlen. eapply put_pos_at; [done|lia].
  - intros q N Hq' HN H. eapply put_pos_other; [done|lia|done|done|]. by rewrite Hlen.
Qed.

Lemma finalize_run base ls : forall lo lob hi B,
  wf_seq be lo lob ls hi = true -> 0 <= lo -> octets (BasePtr B) -> Bits hi <= 8 * zlen (BasePtr B) ->
  computed_ok base ls = true ->
  exists P', run (pstep base) ls B = Ok (set_base (set_ecs ls B) P') /\
    octets P' /\ zlen P' = zlen (BasePtr B) /\
    (forall q N, 0 <= q -> 0 <= N -> q + N <= lo -> bits_at P' q N = bits_at (BasePtr B) q N) /\
    forall m d, m ∈ ls -> leaf_entry m d ->
      bits_at P' (m_pos m) (d_bits d) =
      if sp m && negb (is_ec m) then encode be d (sp_octets base m d) else bits_at (BasePtr B) (m_pos m) (d_bits d).
Proof.
  induction ls as [|m ls IH]; intros lo lob hi B Hwf Hlo Ho Hfit Hcok.
  { exists (BasePtr B). split_and!; [by destruct B|done..|]. by intros m d ?%elem_of_nil. }
  apply computed_cons in Hcok as [Hm Hcok]. cbn [wf_seq run] in *. rewrite set_ecs_cons.
  destruct (m_pad m) eqn:Epad.
  { assert (Esp : sp m = false) by (destruct (sp m) eqn:E; [apply sp_not_pad in E; congruence|done]).
    assert (Eec : is_ec m = false).
    { unfold is_ec, sp in *. apply bool_decide_eq_false. intros E. by rewrite E in Esp. }
    unfold pstep at 1. rewrite Esp, Eec. cbn [negb rbind].
    destruct (IH lo lob hi B) as (P' & HE & Ho' & Hl' & Hk & Hall); [done..|].
    exists P'. split_and!; [done..|]. intros m' d' [->|Hm']%elem_of_cons Hd'; [|by apply Hall].
    destruct Hd' as [Hd' _]. congruence. }
  destruct (DataDictPtr m) as [d|] eqn:Ed; [|done].
  apply andb_true_iff in Hwf as [[[Hok H1]%andb_true_iff H2]%andb_true_iff H3].
  pose proof (action_ok_sizes _ _ Hok) as [HB Hb]. pose proof (wf_seq_mono _ _ _ _ _ H3) as [Hhi Hhib].
  destruct (pstep_ok base m d B) as (P1 & HE1 & Ho1 & Hl1 & Hat1 & Hot1); [done|auto|done|lia|lia|lia|].
  rewrite HE1. cbn [rbind].
  destruct (IH (m_pos m + d_bits d) (m_off m + d_bytes d) hi (set_base (if is_ec m then set_ec B m else B) P1))
    as (P' & HE & Ho' & Hl' & Hk & Hall); cbn [set_base BasePtr] in *; [done|lia|done|lia|done|].
  exists P'. split_and!; [by rewrite HE, set_ecs_base|done|lia| |].
  - intros q N Hq HN H. rewrite Hk by lia. apply Hot1; lia.
  - intros m' d' [->|Hm']%elem_of_cons Hd'.
    + destruct Hd' as [_ Hd']. rewrite Ed in Hd'. injection Hd' as <-. rewrite Hk by lia. exact Hat1.
    + rewrite (Hall m' d' Hm' Hd'). destruct (sp m' && negb (is_ec m')); [done|].
      destruct (wf_seq_leaf _ _ _ _ _ m' d' H3 Hm' Hd') as (Hok' & Hp' & _).
      apply action_ok_sizes in Hok'. apply Hot1; lia.
Qed.
End Complete.

(** * The callback on native objects at composite members *)

Section NativeCallback.
Variable be : bool.
Variable ValueBuff0 : EdsLib_GenericValueBuffer_t.
Variable fo : FloatOps.
Abbreviation native_cb := (EdsLib_NativeObject_PostProc_Callback be ValueBuff0 fo).

Lemma native_start e base B :
  NP_BaseDictPtr B = Some base -> native_cb EDSLIB_ITERATOR_CBTYPE_START e B = Ok (EDSLIB_ITERATOR_RC_CONTINUE, B).
Proof.
  intros HB. unfold EdsLib_NativeObject_PostProc_Callback. rewrite bool_decide_false by done. cbn [negb].
  rewrite HB. by rewrite (bool_decide_false (Some base = None)), andb_false_r by done.
Qed.

Lemma native_down m B :
  post_may m = true -> post_down m = true ->
  native_cb EDSLIB_ITERATOR_CBTYPE_MEMBER m B = Ok (EDSLIB_ITERATOR_RC_DESCEND, B).
Proof.
  intros [d Hd]%bool_decide_eq_true Hdown. unfold post_down in Hdown. rewrite Hd in Hdown.
  unfold EdsLib_NativeObject_PostProc_Callback. rewrite bool_decide_true by done. cbn [negb]. by rewrite Hd, Hdown.
Qed.

Lemma native_end e B rc B' :
  native_cb EDSLIB_ITERATOR_CBTYPE_END e B = Ok (rc, B') -> rc <> EDSLIB_ITERATOR_RC_DESCEND.
Proof. unfold EdsLib_NativeObject_PostProc_Callback. simpl. by intros [= <- _]. Qed.
End NativeCallback.
