(* ===== verification/EdsQueryProofs.v ===== *)
(** The queries by index and by offset, against the members that the iterator
    visits, and what a new native object is given. *)

From S2P Require Import Prelude.
From S2P Require Import EdsTypes EdsIter EdsValue EdsObject EdsPost EdsQuery EdsObjectProofs EdsComplete.

Definition size_ok (z : EdsLib_SizeInfo_t) : bool :=
  (0 <=? Bits z) && (Bits z <? 2 ^ 32) && (0 <=? Bytes z) && (Bytes z <? 2 ^ 32).

(** Composite types as the tool writes them: as many entries as
    sub-elements, the first at the start; arrays of equal elements. *)
Definition composite_ok (d : EdsLib_DataTypeDB_Entry_t) : bool :=
  (0 <? NumSubElements d) && (NumSubElements d <? 2 ^ 16) && size_ok (SizeInfo_ d) &&
  match BasicType d with
  | EDSLIB_BASICTYPE_CONTAINER =>
      let l := EntryList (Container (Detail d)) in
      (zlen l =? NumSubElements d) && forallb (fun e => size_ok (Offset e)) l &&
      match l with e :: _ => Bytes (Offset e) =? 0 | [] => false end
  | EDSLIB_BASICTYPE_ARRAY =>
      (Bits (SizeInfo_ d) mod NumSubElements d =? 0) && (Bytes (SizeInfo_ d) mod NumSubElements d =? 0) &&
      (0 <? Bytes (SizeInfo_ d))
  | _ => false
  end.

Lemma size_range z : size_ok z = true -> 0 <= Bits z < 2 ^ 32 /\ 0 <= Bytes z < 2 ^ 32.
Proof. unfold size_ok. intros [[[? ?]%andb_true_iff ?]%andb_true_iff ?]%andb_true_iff. lia. Qed.

Lemma so_add_0 z : size_ok z = true -> so_add z zero_size = z.
Proof.
  intros H%size_range. destruct z as [b c]. unfold so_add. cbn [Bits Bytes zero_size] in *.
  rewrite !Z.add_0_r, !u32_id by range. done.
Qed.

Lemma so_add_0_l z : size_ok z = true -> so_add zero_size z = z.
Proof.
  intros H%size_range. destruct z as [b c]. unfold so_add. cbn [Bits Bytes zero_size] in *.
  rewrite !Z.add_0_l, !u32_id by range. done.
Qed.

Section Members.
Variable GD : EdsLib_DatabaseObject_t.
Variable id : Z.
Variable dict : EdsLib_DataTypeDB_Entry_t.
Hypothesis Hget : EdsLib_DataTypeDB_GetEntry GD (EdsLib_Decode_StructId id) = Some dict.
Hypothesis Hok : composite_ok dict = true.

Abbreviation Parent := (top_entry (EdsLib_Decode_StructId id) zero_size dict).
Abbreviation N := (NumSubElements dict).
Abbreviation entry i := (nth (Z.to_nat i) (EntryList (Container (Detail dict))) zero_details).
Abbreviation queried m :=
  (EDSLIB_SUCCESS, EntityInfo (EdsLib_Encode_StructId (Some (RefObj (Details m)))) (StartOffset m)
                     (so_sub (EndOffset m) (StartOffset m))).

(** The direct members, in the order of the iterator. *)
Definition direct_members : option (list EdsLib_DataTypeIterator_StackEntry_t) :=
  lay_members GD (fun _ => false) (fun _ => true) (fun _ => None) Parent dict (Z.to_nat N) zero_entry.

(** Where the iterator and the queries place the member [i]. *)
Definition elem_size : EdsLib_SizeInfo_t := so_div (SizeInfo_ dict) N.
Definition m_start (i : Z) : EdsLib_SizeInfo_t :=
  match BasicType dict with
  | EDSLIB_BASICTYPE_ARRAY => SizeInfo (Bits elem_size * i) (Bytes elem_size * i)
  | _ => Offset (entry i)
  end.
Definition m_stop (i : Z) : EdsLib_SizeInfo_t :=
  if i <? N - 1 then m_start (i + 1) else SizeInfo_ dict.
Definition m_ref (i : Z) : EdsLib_DatabaseRef_t :=
  match BasicType dict with
  | EDSLIB_BASICTYPE_ARRAY => ElementRefObj (Array (Detail dict))
  | _ => RefObj (entry i)
  end.

Lemma composite_facts :
  0 < N < 2 ^ 16 /\ size_ok (SizeInfo_ dict) = true /\
  (BasicType dict = EDSLIB_BASICTYPE_CONTAINER /\ zlen (EntryList (Container (Detail dict))) = N /\
     (forall i, 0 <= i < N -> size_ok (Offset (entry i)) = true) /\ Bytes (Offset (entry 0)) = 0 \/
   BasicType dict = EDSLIB_BASICTYPE_ARRAY /\ Bits (SizeInfo_ dict) = Bits elem_size * N /\
     Bytes (SizeInfo_ dict) = Bytes elem_size * N /\ 0 <= Bits elem_size /\ 0 < Bytes elem_size).
Proof.
  unfold composite_ok in Hok. apply andb_true_iff in Hok as [[[H1 H2]%andb_true_iff H3]%andb_true_iff H4].
  split_and!; [lia|lia|done|]. destruct (BasicType dict); try done; [left|right].
  - apply andb_true_iff in H4 as [[H5%Z.eqb_eq H6]%andb_true_iff H7].
    split_and!; [done|done| |by destruct (EntryList (Container (Detail dict))); [|apply Z.eqb_eq]].
    intros i Hi. rewrite forallb_forall in H6. apply H6, nth_In. unfold zlen in *. lia.
  - apply andb_true_iff in H4 as [[H5%Z.eqb_eq H6%Z.eqb_eq]%andb_true_iff H7].
    destruct (size_range _ H3) as [Hb Hc]. unfold elem_size, so_div. cbn [Bits Bytes].
    pose proof (Z.div_mod (Bits (SizeInfo_ dict)) N ltac:(lia)). pose proof (Z.div_mod (Bytes (SizeInfo_ dict)) N ltac:(lia)).
    assert (0 <= Bits (SizeInfo_ dict) / N) by (apply Z.div_pos; lia). split_and!; [done|lia|lia|done|nia].
Qed.

(** Sizes of members lie within those of the object. *)
Lemma elem_bound i : BasicType dict = EDSLIB_BASICTYPE_ARRAY -> 0 <= i <= N ->
  0 <= Bits elem_size * i < 2 ^ 32 /\ 0 <= Bytes elem_size * i < 2 ^ 32.
Proof.
  intros HA Hi. destruct composite_facts as (HN & Hs & [(HB & _)|(_ & Hb & Hc & H1 & H2)]); [congruence|].
  destruct (size_range _ Hs). nia.
Qed.

Lemma m_start_ok i : 0 <= i < N -> size_ok (m_start i) = true.
Proof.
  intros Hi. unfold m_start. destruct composite_facts as (HN & Hs & [(-> & _ & Hf & _)|(HB & _)]); [by apply Hf|].
  rewrite HB. destruct (elem_bound i HB ltac:(lia)). unfold size_ok. cbn [Bits Bytes]. lia.
Qed.

Lemma m_stop_array i : BasicType dict = EDSLIB_BASICTYPE_ARRAY -> 0 <= i < N ->
  m_stop i = SizeInfo (Bits elem_size * (i + 1)) (Bytes elem_size * (i + 1)).
Proof.
  intros HA Hi. unfold m_stop, m_start. rewrite HA. destruct (Z.ltb_spec i (N - 1)); [done|].
  destruct composite_facts as (_ & _ & [(HB & _)|(_ & Hb & Hc & _)]); [congruence|].
  replace (i + 1) with N by lia. rewrite <- Hb, <- Hc. by destruct (SizeInfo_ dict).
Qed.

(** The entry that precedes the member [i]. *)
Definition before (i : Z) (Cur : EdsLib_DataTypeIterator_StackEntry_t) : Prop :=
  CurrIndex Cur = i /\
  (0 < i -> EndOffset Cur = m_start i /\
     (BasicType dict = EDSLIB_BASICTYPE_ARRAY -> StartOffset Cur = m_start (i - 1) /\ RefObj (Details Cur) = m_ref i)).

Lemma next_member_spec i Cur :
  0 <= i < N -> before i Cur ->
  exists m, next_member GD Cur Parent dict = Some m /\ StartOffset m = m_start i /\ EndOffset m = m_stop i /\
    RefObj (Details m) = m_ref i /\ CurrIndex m = i.
Proof.
  intros Hi [Hc Hb]. destruct composite_facts as (HN & Hs & HT). unfold next_member. rewrite Hc.
  replace (i >=? N) with false by lia.
  destruct HT as [(HB & _ & Hf & _)|(HB & Hbits & Hbytes & Hb0 & Hb1)]; rewrite HB; eexists; (split; [done|]).
  - unfold next_container_member. cbn [StartOffset EndOffset Details CurrIndex top_entry RefObj]. rewrite Hc.
    split_and!; [| |by unfold m_ref; rewrite HB|done].
    + destruct (Z.eqb_spec i 0) as [->|]; [|by apply Hb; lia]. unfold m_start. rewrite HB. apply so_add_0_l, Hf. lia.
    + unfold m_stop. destruct (Z.ltb_spec i (N - 1)); [|by apply so_add_0].
      unfold m_start. rewrite HB. rewrite (Z.add_comm 1 i). apply so_add_0, Hf. lia.
  - unfold next_array_element. rewrite Hc, m_stop_array by done. unfold m_start. rewrite HB.
    destruct (elem_bound (i + 1) HB ltac:(lia)). destruct (Z.eqb_spec i 0) as [->|Hi0].
    + cbn [StartOffset EndOffset Details CurrIndex top_entry RefObj]. split_and!.
      * by rewrite !Z.mul_0_r.
      * rewrite (so_add_0 (SizeInfo_ dict)) by done. destruct (size_range _ Hs).
        assert (E : so_sub (SizeInfo_ dict) zero_size = SizeInfo_ dict).
        { unfold so_sub. cbn [Bits Bytes zero_size]. rewrite !Z.sub_0_r, !u32_id by range. by destruct (SizeInfo_ dict). }
        rewrite E. fold elem_size. rewrite so_add_0; [by rewrite !Z.mul_1_r; destruct elem_size|].
        unfold size_ok. rewrite Z.add_0_l, !Z.mul_1_r in *. lia.
      * unfold m_ref. by rewrite HB.
      * done.
    + destruct Hb as [He Ha]; [lia|]. destruct (Ha HB) as [Hst Hr].
      cbn [StartOffset EndOffset Details CurrIndex]. rewrite He, Hst. unfold m_start. rewrite HB.
      destruct (elem_bound i HB ltac:(lia)), (elem_bound (i - 1) HB ltac:(lia)).
      split_and!; [done| |done|done]. unfold so_add, so_sub. cbn [Bits Bytes].
      replace (Bits elem_size * i - Bits elem_size * (i - 1)) with (Bits elem_size) by lia.
      replace (Bytes elem_size * i - Bytes elem_size * (i - 1)) with (Bytes elem_size) by lia.
      rewrite (u32_id (Bits elem_size)), (u32_id (Bytes elem_size)) by range.
      replace (Bits elem_size * i + Bits elem_size) with (Bits elem_size * (i + 1)) by lia.
      replace (Bytes elem_size * i + Bytes elem_size) with (Bytes elem_size * (i + 1)) by lia.
      by rewrite !u32_id by range.
Qed.

Lemma members_spec k : forall i Cur,
  0 <= i -> i + Z.of_nat k = N -> (i < N -> before i Cur) ->
  exists ls, lay_members GD (fun _ => false) (fun _ => true) (fun _ => None) Parent dict k Cur = Some ls /\
    length ls = k /\
    forall j m, ls !! j = Some m ->
      StartOffset m = m_start (i + Z.of_nat j) /\ EndOffset m = m_stop (i + Z.of_nat j) /\
      RefObj (Details m) = m_ref (i + Z.of_nat j).
Proof.
  induction k as [|k IH]; intros i Cur Hi Hk Hb; [exists []; split_and!; done|].
  destruct (next_member_spec i Cur ltac:(lia) (Hb ltac:(lia))) as (m & HE & Hs & He & Hr & Hc).
  destruct composite_facts as (HN & _).
  destruct (IH (i + 1) (incr_index m)) as (ls & HL & Hlen & Hall); [lia|lia| |].
  { intros Hlt. unfold before, incr_index. cbn [CurrIndex StartOffset EndOffset Details]. rewrite Hc.
    split; [apply Z.mod_small; lia|]. intros _. rewrite He, Hs.
    unfold m_stop. replace (i <? N - 1) with true by lia. split; [done|]. intros HA. rewrite Z.add_simpl_r.
    split; [done|]. rewrite Hr. unfold m_ref. by rewrite HA. }
  cbn [lay_members]. rewrite HE, HL. exists (m :: ls). split_and!; [done|by simpl; rewrite Hlen|].
  intros [|j] m' Hj; cbn in Hj.
  - injection Hj as <-. rewrite Z.add_0_r. done.
  - destruct (Hall j m' Hj) as (? & ? & ?). replace (i + Z.of_nat (S j)) with (i + 1 + Z.of_nat j) by lia. done.
Qed.

Lemma direct_members_spec :
  exists ls, direct_members = Some ls /\ zlen ls = N /\
    forall i m, ls !! i = Some m ->
      StartOffset m = m_start (Z.of_nat i) /\ EndOffset m = m_stop (Z.of_nat i) /\
      RefObj (Details m) = m_ref (Z.of_nat i).
Proof.
  destruct composite_facts as (HN & _).
  destruct (members_spec (Z.to_nat N) 0 zero_entry) as (ls & HL & Hlen & Hall); [lia|lia| |].
  { intros _. split; [done|lia]. }
  exists ls. split_and!; [done|unfold zlen; lia|]. intros i m Hi. by apply (Hall i m).
Qed.

(** ** The queries *)

Definition member_info (i : Z) : EdsLib_DataTypeDB_EntityInfo_t :=
  EntityInfo (EdsLib_Encode_StructId (Some (m_ref i))) (m_start i) (so_sub (m_stop i) (m_start i)).

Lemma member_info_array i : BasicType dict = EDSLIB_BASICTYPE_ARRAY -> 0 <= i < N ->
  EntityInfo (EdsLib_Encode_StructId (Some (ElementRefObj (Array (Detail dict)))))
    (SizeInfo (u32 (Bits elem_size * i)) (u32 (Bytes elem_size * i))) elem_size = member_info i.
Proof.
  intros HB Hi. unfold member_info. rewrite m_stop_array by done. unfold m_ref, m_start. rewrite HB.
  destruct (elem_bound i HB ltac:(lia)), (elem_bound 1 HB ltac:(lia)). rewrite !Z.mul_1_r in *.
  rewrite !u32_id by range. f_equal. unfold so_sub. cbn [Bits Bytes].
  replace (Bits elem_size * (i + 1) - Bits elem_size * i) with (Bits elem_size) by lia.
  replace (Bytes elem_size * (i + 1) - Bytes elem_size * i) with (Bytes elem_size) by lia.
  rewrite !u32_id by range. by destruct elem_size.
Qed.

Lemma by_index i : 0 <= i -> EdsLib_DataTypeDB_GetMemberByIndex GD id i =
  if i <? N then (EDSLIB_SUCCESS, member_info i) else (EDSLIB_INVALID_INDEX, zero_entity).
Proof.
  intros Hi. unfold EdsLib_DataTypeDB_GetMemberByIndex. rewrite Hget. destruct (Z.ltb_spec i N); [|done].
  destruct composite_facts as (HN & Hs & [(HB & _)|(HB & _)]); rewrite HB; f_equal.
  - unfold member_info, m_ref, m_stop, m_start. by rewrite HB.
  - apply (member_info_array i); [done|lia].
Qed.

Lemma entry_middle rest e l i :
  EntryList (Container (Detail dict)) = rest ++ e :: l -> zlen rest = i -> entry i = e.
Proof.
  intros -> Hi. replace (Z.to_nat i) with (length rest) by (unfold zlen in *; lia). apply nth_middle.
Qed.

Lemma offset_search_spec off l : forall e i rest,
  EntryList (Container (Detail dict)) = rest ++ e :: l -> zlen rest = i -> Bytes (Offset e) <= off ->
  exists j, i <= j < i + 1 + zlen l /\ Bytes (Offset (entry j)) <= off /\
    (j < i + zlen l -> off < Bytes (Offset (entry (j + 1)))) /\
    offset_search off e l = (entry j, if j <? i + zlen l then Some (entry (j + 1)) else None).
Proof.
  induction l as [|e' l IH]; intros e i rest HE Hi He; cbn [offset_search];
    pose proof (entry_middle rest e _ i HE Hi) as E.
  - exists i. rewrite E. change (zlen []) with 0. rewrite !Z.add_0_r, Z.ltb_irrefl. split_and!; [lia|lia|done|lia|done].
  - assert (HE' : EntryList (Container (Detail dict)) = (rest ++ [e]) ++ e' :: l) by (by rewrite HE, <- app_assoc).
    assert (Hi' : zlen (rest ++ [e]) = i + 1) by (unfold zlen in *; rewrite length_app; cbn; lia).
    pose proof (entry_middle _ e' _ (i + 1) HE' Hi') as E'.
    assert (Hz : zlen (e' :: l) = 1 + zlen l) by (unfold zlen; cbn [length]; lia). rewrite Hz.
    destruct (Z.ltb_spec off (Bytes (Offset e'))) as [Hlt|Hge].
    + assert (0 <= zlen l) by (unfold zlen; lia). exists i. rewrite E, E'. split_and!; [lia|lia|done|done|].
      by rewrite (proj2 (Z.ltb_lt i _)) by lia.
    + destruct (IH e' (i + 1) (rest ++ [e])) as (j & Hj & H1 & H2 & H3); [done..|].
      exists j. replace (i + (1 + zlen l)) with (i + 1 + zlen l) by lia. split_and!; [lia|lia|done|done|done].
Qed.

Lemma by_offset off :
  0 <= off < Bytes (SizeInfo_ dict) ->
  exists i, 0 <= i < N /\ Bytes (m_start i) <= off < Bytes (m_stop i) /\
    EdsLib_DataTypeDB_GetMemberByNativeOffset GD id off = Ok (EDSLIB_SUCCESS, member_info i).
Proof.
  intros Hoff. unfold EdsLib_DataTypeDB_GetMemberByNativeOffset. rewrite Hget.
  replace (off >=? Bytes (SizeInfo_ dict)) with false by lia.
  destruct composite_facts as (HN & Hs & [(HB & Hlen & Hf & H0)|(HB & Hb & Hc & Hb0 & Hb1)]); rewrite HB.
  - assert (Htk : take (Z.to_nat N) (EntryList (Container (Detail dict))) = EntryList (Container (Detail dict)))
      by (apply take_ge; unfold zlen in Hlen; lia). rewrite Htk.
    destruct (EntryList (Container (Detail dict))) as [|e l] eqn:EL in *; [change (zlen []) with 0 in Hlen; lia|].
    change (Bytes (Offset e) = 0) in H0. destruct (offset_search_spec off l e 0 []) as (j & Hj & H1 & H2 & H3); [by rewrite EL|done|lia|].
    rewrite ?EL in *. rewrite ?Z.add_0_l in *. assert (Hl : zlen l = N - 1) by (unfold zlen in *; cbn in Hlen; lia).
    rewrite Hl in *. exists j. split; [lia|]. unfold member_info, m_ref, m_stop, m_start. rewrite HB, EL. split.
    + split; [done|]. destruct (Z.ltb_spec j (N - 1)); [by apply H2|lia].
    + rewrite H3. by destruct (j <? N - 1).
  - replace (N =? 0) with false by lia. fold elem_size. replace (Bytes elem_size =? 0) with false by lia.
    set (i := off / Bytes elem_size). pose proof (Z.div_mod off (Bytes elem_size) ltac:(lia)) as Hdm. fold i in Hdm.
    pose proof (Z.mod_pos_bound off (Bytes elem_size) ltac:(lia)).
    assert (Hi : 0 <= i < N) by (unfold i; split; [apply Z.div_pos; lia|apply Z.div_lt_upper_bound; lia]).
    exists i. split; [done|]. rewrite <- member_info_array by done.
    rewrite m_stop_array by done. unfold m_start. rewrite HB. cbn [Bytes]. split; [lia|done].
Qed.
End Members.

(** * New objects *)

Section Initialize.
Variable GD : EdsLib_DatabaseObject_t.
Variable be : bool.
Variable fo : FloatOps.
Variable ValueBuff0 : EdsLib_GenericValueBuffer_t.

(** The pass over a new object has neither a packed object to compare with nor
    a field to recompute. *)
Lemma idle_leaf base m U :
  post_may m = true -> post_down m = false ->
  EdsLib_NativeObject_PostProc_Callback be ValueBuff0 fo EDSLIB_ITERATOR_CBTYPE_MEMBER m (NativePostProc None U (Some base) 0 0) =
  Ok (EDSLIB_ITERATOR_RC_CONTINUE, NativePostProc None U (Some base) 0 0).
Proof.
  intros [d Hd]%bool_decide_eq_true Hdown. unfold post_down in Hdown. rewrite Hd in Hdown.
  unfold EdsLib_NativeObject_PostProc_Callback. rewrite bool_decide_true by done. cbn [negb]. rewrite Hd, Hdown.
  cbn [NP_BaseDictPtr].
  assert (computed_values be m d base (NativePostProc None U (Some base) 0 0) = Ok (zero_value, zero_value, 0)) as ->.
  { unfold computed_values. cbn [PackedPtr RecomputeFields NP_Status]. rewrite !Z.land_0_l. cbn [Z.eqb negb].
    destruct (EntryType (Details m)); try done; by destruct (Reverse _). }
  cbn [rbind zero_value ValueType]. by rewrite !bool_decide_true by done.
Qed.

Lemma initialize_pass ref dict ls U :
  db_counts GD -> EdsLib_DataTypeDB_GetEntry GD ref = Some dict -> is_composite (BasicType dict) = true ->
  post_layout GD ref dict = Some ls ->
  exists N, forall fuel, (N <= fuel)%nat ->
    EdsLib_DataTypeIterator_Impl GD (EdsLib_NativeObject_PostProc_Callback be ValueBuff0 fo)
      EDSLIB_ITERATOR_MAX_DEEP_DEPTH fuel ref zero_size (NativePostProc None U None 0 0) =
    Ok (EDSLIB_SUCCESS, NativePostProc None U (Some dict) 0 0).
Proof.
  intros Hc Hget Hcomp Hlay.
  destruct (walk_pass GD post_down post_may (EdsLib_NativeObject_PostProc_Callback be ValueBuff0 fo)
    (fun B => B = NativePostProc None U (Some dict) 0 0) (fun _ B => Ok B)) with
    (Size := EDSLIB_ITERATOR_MAX_DEEP_DEPTH) (ref := ref) (dict := dict) (ls := ls)
    (s := NativePostProc None U None 0 0) (s0 := NativePostProc None U (Some dict) 0 0) as [N HN]; try done.
  - intros m B -> _ _. by eapply native_start.
  - intros m B _. apply native_down.
  - intros m B -> Hm Hd. by apply idle_leaf.
  - intros m B B' -> [= <-]. done.
  - apply native_end.
  - exists N. intros fuel Hf. rewrite HN by done.
    assert (Hrun : forall (l : list EdsLib_DataTypeIterator_StackEntry_t) (B : EdsLib_NativePostProc_ControlBlock_t),
      run (fun _ B => Ok B) l B = Ok B)
      by (induction l as [|? ? IH]; intros B; [done|apply IH]).
    by rewrite Hrun.
Qed.
End Initialize.
