(* ===== verification/EdsVerify.v ===== *)
(** Completing a packed object and verifying the unpacked one: the error
    control field, the pass over the native object, and the complete calls. *)

From S2P Require Import Prelude.
From S2P Require Import EdsTypes EdsBits EdsPack EdsPackProofs EdsUnpackProofs EdsField EdsNumber EdsCodec EdsErrorControl EdsIter EdsValue EdsObject EdsPost EdsObjectProofs EdsValueProofs EdsRoundTrip EdsComplete.

(** * The error control field *)

(** Writing a field of whole octets leaves what the error control covers. *)
Lemma put_pos_outside P P' p w T bs :
  put_pos P (8 * p) bs P' -> octets P -> 0 <= p -> 0 <= w -> zlen bs = 8 * w -> p + w <= T -> T <= zlen P ->
  outside P' p w T = outside P p w T.
Proof.
  intros (Ho' & Hl & Htk & Hdr) Ho Hp Hw Hbs HT HP. rewrite Hbs in *. unfold outside.
  assert (E1 : take (Z.to_nat p) P' = take (Z.to_nat p) P).
  { apply flat_inj; [by apply octets_take..|]. rewrite !flat_take.
    apply (f_equal (take (8 * Z.to_nat p))) in Htk. rewrite take_take_le in Htk by lia. rewrite Htk.
    replace (8 * Z.to_nat p)%nat with (Z.to_nat (8 * p)) by lia. apply take_app_length'.
    rewrite length_take, flat_length. unfold zlen in *. lia. }
  assert (E2 : drop (Z.to_nat (p + w)) P' = drop (Z.to_nat (p + w)) P).
  { apply flat_inj; [by apply octets_drop..|]. rewrite !flat_drop.
    replace (8 * Z.to_nat (p + w))%nat with (Z.to_nat (8 * p + 8 * w)) by lia. done. }
  by rewrite E1, !skipn_firstn_comm, E2.
Qed.

Section Verify.
Variable be : bool.
Variable DoFloatPack :
  list Z -> list Z -> Z -> Z -> EdsLib_NumberEncoding_Enum_t -> Z -> res (list Z * Z).
Variable DoFloatUnpack :
  list Z -> Z -> Z -> list Z -> EdsLib_NumberEncoding_Enum_t -> Z -> res (list Z).
Variable NumBuf0 : list Z.
Variable ValueBuff0 : EdsLib_GenericValueBuffer_t.
Variable fo : FloatOps.
Variable GD : EdsLib_DatabaseObject_t.
Hypothesis HNumBuf : zlen NumBuf0 = VALUEBUFFER_SIZE.
Hypothesis HNumBufO : octets NumBuf0.
Hypothesis HV : value_ok ValueBuff0.
Hypothesis Hcounts : db_counts GD.

Lemma ec_ok_facts base m d :
  ec_ok base m d = true ->
  ec_type m <> EdsLib_ErrorControlType_INVALID /\ field_kind_of d = Some KPlain /\
  BasicType d = EDSLIB_BASICTYPE_UNSIGNED_INT /\ ec_aligned (ec_type m) = true /\ flags_ok d = true /\
  d_le d || negb (d_inv d) = true /\ d_bits d = 8 * ec_width (ec_type m) /\
  m_pos m = 8 * (m_pos m / 8) /\ d_bits base = 8 * (d_bits base / 8).
Proof.
  unfold ec_ok.
  intros [[[[[[[[Ha Ht%negb_true_iff%bool_decide_eq_false]%andb_true_iff HU%bool_decide_eq_true]%andb_true_iff
    Hk%bool_decide_eq_true]%andb_true_iff Hf]%andb_true_iff Hq]%andb_true_iff Hb%Z.eqb_eq]%andb_true_iff
    Hp%Z.eqb_eq]%andb_true_iff HT%Z.eqb_eq]%andb_true_iff.
  pose proof (Z.div_mod (m_pos m) 8 ltac:(lia)). pose proof (Z.div_mod (d_bits base) 8 ltac:(lia)).
  split_and!; done || lia.
Qed.

Lemma ec_update base m d P :
  ec_ok base m d = true -> octets P -> 0 <= m_pos m -> m_pos m + d_bits d <= d_bits base ->
  d_bits base <= 8 * zlen P -> d_bits base < 2 ^ 32 - 7 ->
  exists v P', EdsLib_UpdateErrorControlField be DoFloatPack NumBuf0 ValueBuff0 fo d P (d_bits base) (ec_type m) (m_pos m) = Ok P' /\
    put_pos P (m_pos m) (encode be d (native_bytes be (n_of d) v)) P' /\
    EdsLib_ErrorControlCompute (ec_type m) P' (d_bits base) (m_pos m) = Ok v /\
    native_value be d (native_bytes be (n_of d) v) = v /\ representable be d (native_bytes be (n_of d) v) = true.
Proof.
  intros Hok Ho Hp Hfit Hb H32.
  apply ec_ok_facts in Hok as (_ & Hk & HU & Ha & _ & Hq & Hbits & Ep & ET).
  set (p := m_pos m / 8) in *. set (T := d_bits base / 8) in *. set (w := ec_width (ec_type m)) in *.
  clearbody p T.
  assert (Hw : 1 <= w <= 2) by (unfold w; destruct (ec_type m); simpl; lia).
  assert (Hsg : d_signed d = false) by (unfold d_signed; rewrite bool_decide_false; [done|by rewrite HU]).
  set (v := ec_value (ec_type m) (outside P p w T)).
  assert (Hv : 0 <= v < 2 ^ d_bits d) by (rewrite Hbits; by apply ec_value_range, octets_outside).
  destruct (kind_plain d Hk) as (n & Hn & Hle & _). pose proof (int_width_inv _ _ Hn) as [Hdb _].
  assert (HZ : Z.of_nat (n_of d) = d_bytes d) by (unfold n_of; lia).
  assert (Hnv : native_value be d (native_bytes be (n_of d) v) = v).
  { unfold native_value. rewrite Hsg, native_val_bytes, HZ. apply Z.mod_small. split; [lia|].
    eapply Z.lt_le_trans; [apply Hv|]. apply Z.pow_le_mono_r; lia. }
  assert (Hr : representable be d (native_bytes be (n_of d) v) = true)
    by (unfold representable; rewrite Hk, Hnv, Hsg; lia).
  assert (HC : forall Q, octets Q -> zlen Q = zlen P ->
     EdsLib_ErrorControlCompute (ec_type m) Q (d_bits base) (m_pos m) = Ok (ec_value (ec_type m) (outside Q p w T))).
  { intros Q HoQ HlQ. rewrite Ep, ET. apply ec_compute_ok; [done|done|lia|lia|lia|lia]. }
  set (V := set_word be ValueBuff0 EDSLIB_BASICTYPE_UNSIGNED_INT v).
  destruct (pack_value_ok be DoFloatPack NumBuf0 fo HNumBuf HNumBufO V d KPlain P (m_pos m)
              (native_bytes be (n_of d) v)) as (P' & HE & Hput); [done|by apply set_word_ok| |done| |done|done|lia|].
  { unfold holds. rewrite bool_decide_false by (by rewrite HU). split_and!; [by rewrite HU|done|].
    unfold V. rewrite word_set by done. rewrite native_bytes_mod; [done|]. apply int_width_le in Hn. lia. }
  { unfold quiet. by rewrite Hk. }
  exists v, P'. split_and!; [|done| |done|done].
  - unfold EdsLib_UpdateErrorControlField. rewrite HC by done. fold v. cbn [rbind]. fold V.
    unfold pack_value in HE. rewrite bool_decide_false in HE by (by rewrite HU).
    destruct (EdsLib_DataTypeStore_Impl _ _ _ _ _ _) as [[? ?]| |]; done.
  - pose proof Hput as (Ho' & Hl' & _). rewrite HC by done. unfold v. do 2 f_equal. rewrite Ep in Hput.
    eapply put_pos_outside; [exact Hput|done|lia|lia| |lia|lia].
    unfold zlen. rewrite (encode_length be d KPlain) by (done || apply native_bytes_length). unfold N_of. lia.
Qed.
(** * Completing the packed object *)

(** The native octets of a computed leaf of the complete object [P]. *)
Definition computed_octets (base : EdsLib_DataTypeDB_Entry_t) (P : list Z)
    (m : EdsLib_DataTypeIterator_StackEntry_t) (d : EdsLib_DataTypeDB_Entry_t) : list Z :=
  if is_ec m then
    match EdsLib_ErrorControlCompute (ec_type m) P (d_bits base) (m_pos m) with
    | Ok v => native_bytes be (n_of d) v
    | _ => []
    end
  else sp_octets be base m d.

(** Objects whose computed entries are as the library handles them: every
    value fits, there is one error control field at most, and both passes
    meet the same computed entries. *)
Record completable (ref : EdsLib_DatabaseRef_t) (dict : EdsLib_DataTypeDB_Entry_t)
    (ls lsP : list EdsLib_DataTypeIterator_StackEntry_t) : Prop := {
  cp_layout : post_layout GD ref dict = Some lsP;
  cp_same : List.filter sp lsP = List.filter sp ls;
  cp_ok : computed_ok be dict ls = true;
  cp_single : (length (List.filter is_ec ls) <= 1)%nat }.

Lemma ec_sp m : is_ec m = true -> sp m = true.
Proof. unfold is_ec, sp. intros H%bool_decide_eq_true. by rewrite H. Qed.

Lemma computed_at base ls m :
  computed_ok be base ls = true -> m ∈ ls -> sp m = true ->
  exists d, DataDictPtr m = Some d /\ (if is_ec m then ec_ok base m d else special_ok be base m d) = true.
Proof.
  intros Hc Hm Hs. unfold computed_ok in Hc. rewrite forallb_forall in Hc.
  specialize (Hc m ltac:(by apply list_elem_of_In)). rewrite Hs in Hc. cbn [negb orb] in Hc.
  destruct (DataDictPtr m) as [d|]; [eauto|done].
Qed.

(** The error control entries of an object that has one at most. *)
Lemma ec_cases ls :
  (length (List.filter is_ec ls) <= 1)%nat ->
  List.filter is_ec ls = [] /\ (forall m, m ∈ ls -> is_ec m = false) \/
  exists e, List.filter is_ec ls = [e] /\ e ∈ ls /\ is_ec e = true /\ forall m, m ∈ ls -> is_ec m = true -> m = e.
Proof.
  intros Hone. assert (Hin : forall m, m ∈ ls -> is_ec m = true -> In m (List.filter is_ec ls))
    by (intros m Hm E; apply filter_In; split; [by apply list_elem_of_In|done]).
  destruct (List.filter is_ec ls) as [|e [|? ?]] eqn:Eec; [left|right|simpl in Hone; lia].
  - split; [done|]. intros m Hm. destruct (is_ec m) eqn:E; [|done]. by destruct (Hin m Hm E).
  - assert (He : In e (List.filter is_ec ls)) by (rewrite Eec; by left). apply filter_In in He as [? ?].
    exists e. split_and!; [done|by apply list_elem_of_In|done|].
    intros m Hm E. by destruct (Hin m Hm E).
Qed.

Lemma pstep_plain base m B : sp m = false -> pstep be DoFloatPack NumBuf0 ValueBuff0 fo base m B = Ok B.
Proof. intros H. unfold pstep. by rewrite H. Qed.

Abbreviation finalize := (EdsLib_DataTypeDB_FinalizePackedObject be DoFloatPack NumBuf0 ValueBuff0 fo GD).

(** The pass, and what is left to do after it. *)
Lemma finalize_pass id ref dict ls lsP P :
  EdsLib_Decode_StructId id = ref -> packable be GD ref dict ls -> completable ref dict ls lsP ->
  octets P -> d_bits dict <= 8 * zlen P ->
  exists N P1, octets P1 /\ zlen P1 = zlen P /\
    (forall m d, m ∈ ls -> leaf_entry m d ->
       bits_at P1 (m_pos m) (d_bits d) =
       if sp m && negb (is_ec m) then encode be d (sp_octets be dict m d) else bits_at P (m_pos m) (d_bits d)) /\
    forall fuel, (N <= fuel)%nat -> finalize fuel id P =
      let B := set_ecs ls (PackedPostProc P1 (Some dict) None EdsLib_ErrorControlType_INVALID 0 0) in
      if bool_decide (ErrorCtlType B = EdsLib_ErrorControlType_INVALID) then Ok (EDSLIB_SUCCESS, P1)
      else match PP_BaseDictPtr B, ErrorCtlDictPtr B with
           | Some base, Some d =>
               let* m := EdsLib_UpdateErrorControlField be DoFloatPack NumBuf0 ValueBuff0 fo d P1 (d_bits base)
                           (ErrorCtlType B) (ErrorCtlOffsetBits B) in Ok (EDSLIB_SUCCESS, m)
           | _, _ => Ok (EDSLIB_SUCCESS, P1)
           end.
Proof.
  intros Hid Hpk [Hlay Hsame Hcok _] Ho Hfit. pose proof Hpk as [Hget Hcomp _ _ Hwf HB Hb].
  destruct (packed_pass be DoFloatPack NumBuf0 ValueBuff0 fo GD Hcounts ref dict lsP P Hget Hcomp Hlay) as [N HN].
  set (B0 := PackedPostProc P (Some dict) None EdsLib_ErrorControlType_INVALID 0 0) in *.
  destruct (finalize_run be DoFloatPack NumBuf0 ValueBuff0 fo HNumBuf HNumBufO HV dict ls 0 0 (SizeInfo_ dict) B0)
    as (P1 & Hrun & Ho1 & Hl1 & _ & Hall); [done|lia|done|done|done|].
  exists N, P1. split_and!; [done|done|exact Hall|]. intros fuel Hf.
  unfold EdsLib_DataTypeDB_FinalizePackedObject. rewrite Hid, HN by done.
  rewrite (run_filter _ sp), Hsame, <- (run_filter _ sp), Hrun by (intros; by apply pstep_plain).
  rewrite <- set_ecs_base. cbn [rbind]. change (set_base B0 P1) with
    (PackedPostProc P1 (Some dict) None EdsLib_ErrorControlType_INVALID 0 0).
  rewrite set_ecs_ptr. cbn [andb Z.eqb EDSLIB_SUCCESS BasePtr]. by case_bool_decide.
Qed.

Lemma finalize_ok id ref dict ls lsP P :
  EdsLib_Decode_StructId id = ref -> packable be GD ref dict ls -> completable ref dict ls lsP ->
  octets P -> (d_bits dict + 7) / 8 <= zlen P ->
  exists N P', octets P' /\ zlen P' = zlen P /\
    (forall fuel, (N <= fuel)%nat -> finalize fuel id P = Ok (EDSLIB_SUCCESS, P')) /\
    (forall m d, m ∈ ls -> leaf_entry m d ->
       bits_at P' (m_pos m) (d_bits d) =
       if sp m then encode be d (computed_octets dict P' m d) else bits_at P (m_pos m) (d_bits d)) /\
    (forall m d, m ∈ ls -> leaf_entry m d -> is_ec m = true ->
       exists v, EdsLib_ErrorControlCompute (ec_type m) P' (d_bits dict) (m_pos m) = Ok v /\
         native_value be d (native_bytes be (n_of d) v) = v /\
         representable be d (native_bytes be (n_of d) v) = true).
Proof.
  intros Hid Hpk Hcp Ho Hfit%octet_ceil.
  destruct (finalize_pass id ref dict ls lsP P Hid Hpk Hcp Ho Hfit) as (N & P1 & Ho1 & Hl1 & Hall & HF).
  destruct Hcp as [_ _ Hcok Hone], Hpk as [_ _ _ _ Hwf HB _]. unfold set_ecs in HF.
  assert (Hrest : forall P' m d, is_ec m = false -> m ∈ ls -> leaf_entry m d ->
    bits_at P' (m_pos m) (d_bits d) = bits_at P1 (m_pos m) (d_bits d) -> bits_at P' (m_pos m) (d_bits d) =
    if sp m then encode be d (computed_octets dict P' m d) else bits_at P (m_pos m) (d_bits d)).
  { intros P' m d E Hm Hd ->. rewrite (Hall m d Hm Hd). unfold computed_octets. by rewrite E, andb_true_r. }
  destruct (ec_cases ls Hone) as [[Eec Hno]|(e & Eec & He & Hec & Huniq)]; rewrite Eec in HF.
  { exists N, P1. split_and!; [done|done|done| |].
    - intros m d Hm Hd. apply Hrest; auto.
    - intros m d Hm _ Hec. by rewrite (Hno m Hm) in Hec. }
  destruct (computed_at dict ls e Hcok He (ec_sp _ Hec)) as (d & Hd & Hok). rewrite Hec in Hok.
  assert (Hle : leaf_entry e d) by (split; [by apply sp_not_pad, ec_sp|done]).
  destruct (wf_seq_leaf _ _ _ _ _ e d Hwf He Hle) as (Hact & Hp0 & Hp1 & _). fold (d_bits dict) in Hp1.
  destruct (ec_update dict e d P1) as (v & P' & HU & Hput & HC & Hnv & Hr); [done|done|done|done|by rewrite Hl1|lia|].
  pose proof Hput as (Ho' & Hl' & _). pose proof (action_ok_sizes _ _ Hact) as [Hbp _].
  destruct (ec_ok_facts _ _ _ Hok) as (Hinv & Hk & _).
  assert (Hlen : zlen (encode be d (native_bytes be (n_of d) v)) = d_bits d).
  { unfold zlen. rewrite (encode_length be d KPlain) by (done || apply native_bytes_length). unfold N_of. lia. }
  exists N, P'. split_and!; [done|lia| | |].
  - intros fuel Hf. rewrite HF by done.
    cbn [fold_left set_ec ErrorCtlType PP_BaseDictPtr ErrorCtlDictPtr ErrorCtlOffsetBits].
    rewrite bool_decide_false, Hd, HU by done. done.
  - intros m d' Hm Hd'. destruct (is_ec m) eqn:E.
    + rewrite (Huniq m Hm E) in *. assert (d' = d) as -> by (destruct Hd'; congruence).
      rewrite ec_sp by done. unfold computed_octets. rewrite Hec, HC. rewrite <- Hlen at 1.
      apply (put_pos_at _ _ _ _ Hput); lia.
    + apply Hrest; [done..|]. destruct (wf_seq_leaf _ _ _ _ _ m d' Hwf Hm Hd') as (Hact' & Hq0 & _).
      apply action_ok_sizes in Hact' as [? _]. apply (put_pos_other _ _ _ _ _ _ Hput); [lia|lia|lia|].
      rewrite Hlen. eapply wf_seq_disjoint; [done..|congruence].
  - intros m d' Hm Hd' E. rewrite (Huniq m Hm E) in *. assert (d' = d) as -> by (destruct Hd'; congruence). eauto.
Qed.
(** * Verifying the native object *)

Abbreviation native_cb := (EdsLib_NativeObject_PostProc_Callback be ValueBuff0 fo).

Definition nstep (m : EdsLib_DataTypeIterator_StackEntry_t) (B : EdsLib_NativePostProc_ControlBlock_t)
    : res EdsLib_NativePostProc_ControlBlock_t :=
  if negb (sp m) then Ok B
  else let* (_, B) := native_cb EDSLIB_ITERATOR_CBTYPE_MEMBER m B in Ok B.

Lemma native_leaf base m B :
  NP_BaseDictPtr B = Some base -> post_may m = true -> post_down m = false ->
  native_cb EDSLIB_ITERATOR_CBTYPE_MEMBER m B = let* B := nstep m B in Ok (EDSLIB_ITERATOR_RC_CONTINUE, B).
Proof.
  intros HB [d Hd]%bool_decide_eq_true Hdown. unfold post_down in Hdown. rewrite Hd in Hdown.
  unfold nstep, EdsLib_NativeObject_PostProc_Callback. rewrite bool_decide_true by done.
  cbn [negb]. rewrite Hd, Hdown, HB. destruct (sp m) eqn:Esp; cbn [negb].
  - destruct (computed_values _ _ _ _ _) as [[[E I] St]| |]; cbn [rbind]; [|done..].
    destruct (if bool_decide (ValueType E = _) then _ else _) as [St'| |]; cbn [rbind]; [|done..].
    destruct (if bool_decide (ValueType I = _) then _ else _); done.
  - assert (computed_values be m d base B = Ok (zero_value, zero_value, NP_Status B)) as ->.
    { unfold computed_values, sp in *. by destruct (EntryType (Details m)). }
    cbn [rbind zero_value ValueType]. rewrite !bool_decide_true by done. cbn [rbind].
    rewrite <- HB. by destruct B.
Qed.

Lemma native_pass ref dict ls U P :
  EdsLib_DataTypeDB_GetEntry GD ref = Some dict -> is_composite (BasicType dict) = true ->
  post_layout GD ref dict = Some ls ->
  exists N, forall fuel, (N <= fuel)%nat ->
    EdsLib_DataTypeIterator_Impl GD native_cb EDSLIB_ITERATOR_MAX_DEEP_DEPTH fuel ref zero_size
      (NativePostProc P U None 0 0) =
    let* B := run nstep ls (NativePostProc P U (Some dict) 0 0) in Ok (EDSLIB_SUCCESS, B).
Proof.
  intros Hget Hcomp Hlay.
  apply (walk_pass GD post_down post_may native_cb (fun B => NP_BaseDictPtr B = Some dict) nstep)
    with (dict := dict); try done.
  - intros m B HB _ _. by eapply native_start.
  - intros m B HB. apply native_down.
  - intros m B HB Hm Hd. by eapply native_leaf.
  - intros m B B' HB. unfold nstep. destruct (negb (sp m)); [by intros [= <-]|].
    unfold EdsLib_NativeObject_PostProc_Callback. rewrite bool_decide_true by done. cbn [negb].
    destruct (DataDictPtr m) as [d|]; [|done].
    destruct (NumSubElements d >? 0); cbn [rbind]; [by intros [= <-]|]. rewrite HB.
    destruct (computed_values _ _ _ _ _) as [[[E I] St]| |]; cbn [rbind]; [|done..].
    destruct (if bool_decide (ValueType E = _) then _ else _) as [St'| |]; cbn [rbind]; [|done..].
    destruct (if bool_decide (ValueType I = _) then _ else _); cbn [rbind]; [|done..].
    by intros [= <-].
  - apply native_end.
Qed.
(** ** One computed leaf *)

Definition expected_word (base : EdsLib_DataTypeDB_Entry_t) (P : list Z)
    (m : EdsLib_DataTypeIterator_StackEntry_t) (d : EdsLib_DataTypeDB_Entry_t) : Z :=
  if is_ec m then
    match EdsLib_ErrorControlCompute (ec_type m) P (d_bits base) (m_pos m) with Ok v => v | _ => 0 end
  else sp_word base m d.

(** Whether the native object [U] holds what is expected of [m]. *)
Definition leaf_same (base : EdsLib_DataTypeDB_Entry_t) (P U : list Z)
    (m : EdsLib_DataTypeIterator_StackEntry_t) (d : EdsLib_DataTypeDB_Entry_t) : bool :=
  let nb := slice U (m_off m) (n_of d) in
  if bool_decide (BasicType d = EDSLIB_BASICTYPE_BINARY)
  then bool_decide (strncpy (n_of d) nb = strncpy (n_of d) (FixedString (HandlerArg (Details m))))
  else u64 (native_value be d nb) =? u64 (expected_word base P m d).

Definition mismatch (m : EdsLib_DataTypeIterator_StackEntry_t) : Z :=
  if is_ec m then EDSLIB_ERROR_CONTROL_MISMATCH else EDSLIB_FIELD_MISMATCH.

Lemma nstep_value base m d t U P s E I Found :
  let B s := NativePostProc (Some P) U (Some base) s 0 in
  sp m = true -> post_down m = false -> DataDictPtr m = Some d -> BasicType d = t ->
  computed_values be m d base (B s) = Ok (E, I, s) ->
  ValueType E <> EDSLIB_BASICTYPE_NONE -> ValueType I = EDSLIB_BASICTYPE_NONE ->
  EdsLib_DataTypeLoad_Impl be fo ValueBuff0 U (m_off m) (Some d) = Ok Found ->
  nstep m (B s) =
  Ok (B (if same_value be fo d Found (EdsLib_DataTypeConvert be fo E t) then s else mismatch m)).
Proof.
  intros B Hs Hdn Hd <- HC HE HI HF. unfold nstep. rewrite Hs. cbn [negb].
  unfold EdsLib_NativeObject_PostProc_Callback. rewrite bool_decide_true by done. cbn [negb]. rewrite Hd.
  unfold post_down in Hdn. rewrite Hd in Hdn. rewrite Hdn. cbn [B NP_BaseDictPtr NativePtr] in *. fold (B s).
  rewrite HC. cbn [rbind]. rewrite bool_decide_false by done. fold (m_off m). rewrite HF. cbn [rbind].
  rewrite HI, bool_decide_true by done. cbn [rbind]. unfold mismatch, is_ec.
  do 3 f_equal. case_match; [done|]. by destruct (EntryType (Details m)).
Qed.

Lemma zero_value_ok : value_ok zero_value.
Proof. split; [done|]. apply Forall_replicate. done. Qed.

Lemma found_word t v U p d :
  is_int t = true -> is_int (BasicType d) = true -> d_width d = Some (n_of d) -> in_buf U p (n_of d) = true ->
  exists Found, EdsLib_DataTypeLoad_Impl be fo ValueBuff0 U p (Some d) = Ok Found /\
    same_value be fo d Found (EdsLib_DataTypeConvert be fo (set_word be zero_value t v) (BasicType d)) =
    (u64 (native_value be d (slice U p (n_of d))) =? u64 v).
Proof.
  intros Ht Hd Hw Hin. eexists. split; [by apply load_int|]. rewrite convert_int by done.
  unfold same_value. cbn [set_type set_word ValueType]. rewrite bool_decide_true by done. cbn [negb].
  change (word be (set_type _ _)) with (word be (set_word be zero_value t v)).
  rewrite (word_set be zero_value) by apply zero_value_ok. rewrite word_set by done. by destruct (BasicType d).
Qed.

Lemma found_binary s U p d :
  BasicType d = EDSLIB_BASICTYPE_BINARY -> d_bytes d <= VALUEBUFFER_SIZE -> in_buf U p (n_of d) = true ->
  let E := set_octets zero_value EDSLIB_BASICTYPE_BINARY (strncpy (Z.to_nat VALUEBUFFER_SIZE) s) in
  exists Found, EdsLib_DataTypeLoad_Impl be fo ValueBuff0 U p (Some d) = Ok Found /\
    same_value be fo d Found (EdsLib_DataTypeConvert be fo E EDSLIB_BASICTYPE_BINARY) =
    bool_decide (strncpy (n_of d) (slice U p (n_of d)) = strncpy (n_of d) s).
Proof.
  intros HB H32 Hin E. unfold EdsLib_DataTypeLoad_Impl. cbv zeta. rewrite HB. fold (d_bytes d). fold (n_of d).
  rewrite (proj2 (Z.leb_le _ _)), Hin by done. cbn [rbind]. eexists. split; [done|].
  unfold same_value, E. cbn [EdsLib_DataTypeConvert set_octets ValueType Value]. rewrite bool_decide_true by done.
  cbn [negb]. fold (d_bytes d) (n_of d).
  assert (Hn : (n_of d <= Z.to_nat VALUEBUFFER_SIZE)%nat) by (unfold n_of; lia).
  assert (Hs : forall l V, (n_of d <= length l)%nat -> slice (splice V 0 l) 0 (n_of d) = take (n_of d) l).
  { intros l V Hl. unfold slice, splice. change (Z.to_nat 0) with 0%nat. rewrite take_0, drop_0. cbn [app].
    by rewrite take_app_le by lia. }
  rewrite !Hs, take_ge, take_strncpy by (rewrite ?strncpy_length; lia). done.
Qed.

(** The field is an integer, or an octet string with a fixed value. *)
Lemma computed_type base m d :
  (if is_ec m then ec_ok base m d else special_ok be base m d) = true ->
  is_int (BasicType d) = true /\ d_width d = Some (n_of d) \/
  BasicType d = EDSLIB_BASICTYPE_BINARY /\ d_bytes d <= VALUEBUFFER_SIZE /\ is_ec m = false /\
  EntryType (Details m) = EDSLIB_ENTRYTYPE_CONTAINER_FIXED_VALUE_ENTRY.
Proof.
  destruct (is_ec m) eqn:Eec; intros Hok.
  - destruct (ec_ok_facts _ _ _ Hok) as (_ & Hk & HU & _). assert (is_int (BasicType d) = true) by (by rewrite HU).
    left. split; [done|]. by eapply kind_width.
  - destruct (special_kind _ _ _ _ Hok) as [k Hk]. unfold special_ok in Hok. apply andb_true_iff in Hok as [_ Hok].
    destruct (is_int (BasicType d)) eqn:Hi; [left; split; [done|by eapply kind_width]|].
    destruct (BasicType d); try done. right.
    apply andb_true_iff in Hok as [[Het%bool_decide_eq_true H32]%andb_true_iff _].
    split_and!; [done|unfold VALUEBUFFER_SIZE; lia|done|done].
Qed.

Lemma nstep_eq base m d U P s :
  DataDictPtr m = Some d -> sp m = true -> post_down m = false ->
  (if is_ec m then ec_ok base m d else special_ok be base m d) = true ->
  (is_ec m = true -> exists v, EdsLib_ErrorControlCompute (ec_type m) P (d_bits base) (m_pos m) = Ok v) ->
  in_buf U (m_off m) (n_of d) = true ->
  nstep m (NativePostProc (Some P) U (Some base) s 0) =
  Ok (NativePostProc (Some P) U (Some base) (if leaf_same base P U m d then s else mismatch m) 0).
Proof.
  intros Hd Hsp Hdn Hok Hec Hin. unfold leaf_same.
  destruct (computed_type base m d Hok) as [[Hi Hw]|(HB & H32 & Hne & Het)].
  2:{ rewrite bool_decide_true by done.
      destruct (found_binary (FixedString (HandlerArg (Details m))) U (m_off m) d HB H32 Hin) as (F & HF & <-).
      apply (nstep_value base m d _ U P s _ (set_type (set_octets zero_value EDSLIB_BASICTYPE_BINARY
        (strncpy (Z.to_nat VALUEBUFFER_SIZE) (FixedString (HandlerArg (Details m))))) EDSLIB_BASICTYPE_NONE)); try done.
      unfold computed_values, fixed_value. by rewrite Het, HB. }
  rewrite bool_decide_false by (intros HB; by rewrite HB in Hi).
  assert (HC : exists t I, is_int t = true /\ ValueType I = EDSLIB_BASICTYPE_NONE /\
    computed_values be m d base (NativePostProc (Some P) U (Some base) s 0) =
    Ok (set_word be zero_value t (expected_word base P m d), I, s)).
  { unfold expected_word, computed_values, sp_word, fixed_value, d_signed. unfold sp in Hsp. destruct (is_ec m) eqn:Eec.
    - destruct (Hec eq_refl) as (v & HC). rewrite HC. unfold is_ec in Eec. apply bool_decide_eq_true in Eec.
      rewrite Eec. unfold ec_type, m_pos, d_bits in HC. cbn [PackedPtr NP_Status RecomputeFields]. rewrite HC.
      by exists EDSLIB_BASICTYPE_UNSIGNED_INT, zero_value.
    - unfold is_ec in Eec. apply bool_decide_eq_false in Eec. destruct (EntryType (Details m)); try done.
      + destruct (BasicType d); try done; by eexists _, (set_type (set_word be zero_value _ _) EDSLIB_BASICTYPE_NONE).
      + exists EDSLIB_BASICTYPE_SIGNED_INT, zero_value. split_and!; [done..|]. by destruct (Reverse _). }
  destruct HC as (t & I & Ht & HI & HC).
  destruct (found_word t (expected_word base P m d) U (m_off m) d Ht Hi Hw Hin) as (F & HF & <-).
  eapply nstep_value; try done. cbn [set_word ValueType]. intros Hn. by rewrite Hn in Ht.
Qed.

(** ** All of them *)

Definition status_step (base : EdsLib_DataTypeDB_Entry_t) (P U : list Z) (s : Z)
    (m : EdsLib_DataTypeIterator_StackEntry_t) : Z :=
  match DataDictPtr m with
  | Some d => if leaf_same base P U m d then s else mismatch m
  | None => s
  end.
Definition verify_status base P U (ls : list EdsLib_DataTypeIterator_StackEntry_t) : Z :=
  fold_left (status_step base P U) (List.filter sp ls) EDSLIB_SUCCESS.

(** Every error control field of [ls] in [P] is computed without fault and
    fits in its type. *)
Definition ec_computes (base : EdsLib_DataTypeDB_Entry_t) (P : list Z)
    (ls : list EdsLib_DataTypeIterator_StackEntry_t) : Prop :=
  forall m d, m ∈ ls -> leaf_entry m d -> is_ec m = true ->
    exists v, EdsLib_ErrorControlCompute (ec_type m) P (d_bits base) (m_pos m) = Ok v /\
      native_value be d (native_bytes be (n_of d) v) = v /\
      representable be d (native_bytes be (n_of d) v) = true.

(** The members that a walk records are those it does not enter. *)
Lemma lay_members_leaf down may sub Parent dict k : forall Cur ls m,
  (forall e l m, sub e = Some l -> m ∈ l -> down m = false) ->
  lay_members GD down may sub Parent dict k Cur = Some ls -> m ∈ ls -> down m = false.
Proof.
  induction k as [|k IH]; intros Cur ls m Hsub; cbn [lay_members]; [by intros [= <-] ?%elem_of_nil|].
  destruct (next_member GD Cur Parent dict) as [x|]; [|by intros [= <-] ?%elem_of_nil].
  destruct (lay_members GD down may sub Parent dict k (incr_index x)) as [rest|] eqn:Er; [|done].
  destruct (may x); [|done]. destruct (down x) eqn:Ex.
  - destruct (sub (incr_index x)) as [l|] eqn:El; cbn; [|done].
    intros [= <-] [Hm|Hm]%elem_of_app; [by eapply Hsub|by eapply IH].
  - intros [= <-] [->|Hm]%elem_of_cons; [done|by eapply IH].
Qed.

Lemma layout_leaf down may n : forall Lev ls m, layout GD down may n Lev = Some ls -> m ∈ ls -> down m = false.
Proof.
  induction n as [|n IH]; intros Lev ls m; cbn [layout]; (destruct (DataDictPtr Lev) as [dict|]; [|done]); [done|].
  intros Hl Hm. by eapply lay_members_leaf.
Qed.

Lemma run_fold base P U l : forall s,
  (forall m, m ∈ l -> forall s, nstep m (NativePostProc (Some P) U (Some base) s 0) =
     Ok (NativePostProc (Some P) U (Some base) (status_step base P U s m) 0)) ->
  run nstep l (NativePostProc (Some P) U (Some base) s 0) =
  Ok (NativePostProc (Some P) U (Some base) (fold_left (status_step base P U) l s) 0).
Proof.
  induction l as [|m l IH]; intros s H; [done|]. cbn [run fold_left]. rewrite H by apply list_elem_of_here. cbn [rbind].
  apply IH. intros m' Hm' s'. by apply H, list_elem_of_further.
Qed.

(** The status that verification returns, whatever the two objects hold. *)
Lemma verify_returns id ref dict ls lsP U P :
  EdsLib_Decode_StructId id = ref -> packable be GD ref dict ls -> completable ref dict ls lsP ->
  d_bytes dict <= zlen U ->
  (forall m, m ∈ ls -> is_ec m = true ->
     exists v, EdsLib_ErrorControlCompute (ec_type m) P (d_bits dict) (m_pos m) = Ok v) ->
  exists N, forall fuel, (N <= fuel)%nat ->
    EdsLib_DataTypeDB_VerifyUnpackedObject be ValueBuff0 fo GD fuel id U (Some P) EDSLIB_DATATYPEDB_RECOMPUTE_NONE =
    Ok (verify_status dict P U ls, U).
Proof.
  intros Hid [Hget Hcomp _ _ Hwf _ Hb] [Hlay Hsame Hcok _] HU Hec.
  destruct (native_pass ref dict lsP U (Some P) Hget Hcomp Hlay) as [N HN].
  exists N. intros fuel Hf. unfold EdsLib_DataTypeDB_VerifyUnpackedObject, EDSLIB_DATATYPEDB_RECOMPUTE_NONE.
  rewrite Hid, HN by done. rewrite (run_filter _ sp) by (intros a s Ha; unfold nstep; by rewrite Ha).
  rewrite run_fold; [by rewrite Hsame|]. intros m Hm s.
  assert (Hm' : m ∈ List.filter sp ls) by (by rewrite <- Hsame). apply list_elem_of_In, filter_In in Hm as [HmP Hs].
  apply list_elem_of_In, filter_In in Hm' as [Hm _]. apply list_elem_of_In in Hm, HmP.
  destruct (computed_at dict ls m Hcok Hm Hs) as (d & Hd & Hok). unfold status_step. rewrite Hd.
  assert (Hle : leaf_entry m d) by (split; [by apply sp_not_pad|done]).
  destruct (wf_seq_leaf _ _ _ _ _ m d Hwf Hm Hle) as (Hact & _ & _ & Hof & Hend). fold (d_bytes dict) in Hend.
  apply nstep_eq; [done|done|by eapply layout_leaf|done|by apply Hec|].
  apply in_buf_spec. unfold n_of. apply action_ok_sizes in Hact. lia.
Qed.

(** What was computed for the packed object is what is expected. *)
Lemma computed_same base P U ls m d :
  computed_ok be base ls = true -> ec_computes base P ls -> m ∈ ls -> leaf_entry m d -> sp m = true ->
  slice U (m_off m) (n_of d) = computed_octets base P m d -> leaf_same base P U m d = true.
Proof.
  intros Hcok Hec Hm Hle Hs Hsl. destruct (computed_at base ls m Hcok Hm Hs) as (d' & Hd' & Hok).
  assert (d' = d) as -> by (destruct Hle; congruence).
  unfold leaf_same. rewrite Hsl. unfold computed_octets, expected_word. destruct (is_ec m) eqn:Eec.
  - destruct (ec_ok_facts _ _ _ Hok) as (_ & _ & HU & _). rewrite bool_decide_false by (by rewrite HU).
    destruct (Hec m d Hm Hle Eec) as (v & -> & -> & _). apply Z.eqb_refl.
  - unfold special_ok in Hok. apply andb_true_iff in Hok as [_ Hok].
    destruct (decide (BasicType d = EDSLIB_BASICTYPE_BINARY)) as [HB|HB].
    + rewrite bool_decide_true by done. unfold sp_octets. rewrite HB, strncpy_idem. by apply bool_decide_eq_true.
    + rewrite bool_decide_false by done. by destruct (BasicType d).
Qed.

Lemma fold_same base P U l s :
  (forall m d, m ∈ l -> DataDictPtr m = Some d -> leaf_same base P U m d = true) ->
  fold_left (status_step base P U) l s = s.
Proof.
  induction l as [|m l IH]; intros H; [done|]. cbn [fold_left]. unfold status_step at 2.
  assert (E : match DataDictPtr m with
    | Some d => if leaf_same base P U m d then s else mismatch m | None => s end = s).
  { destruct (DataDictPtr m) as [d|] eqn:Ed; [|done]. by rewrite (H m d) by (done || apply list_elem_of_here). }
  rewrite E. apply IH. intros m' d' Hm'. by apply H, list_elem_of_further.
Qed.

(** A mismatch is never forgotten. *)
Lemma fold_mismatch base P U l : forall s e d,
  e ∈ l \/ s <> EDSLIB_SUCCESS -> DataDictPtr e = Some d -> leaf_same base P U e d = false ->
  fold_left (status_step base P U) l s <> EDSLIB_SUCCESS.
Proof.
  assert (Hne : forall m, mismatch m <> EDSLIB_SUCCESS) by (intros m; unfold mismatch; by destruct (is_ec m)).
  induction l as [|m l IH]; intros s e d H Hd Hls; [by destruct H as [?%elem_of_nil|]|].
  cbn [fold_left]. destruct H as [[<-|H]%elem_of_cons|H]; [|by eapply IH; eauto|].
  - apply (IH _ e d); [right|done|done]. unfold status_step. rewrite Hd, Hls. apply Hne.
  - apply (IH _ e d); [right|done|done]. unfold status_step. repeat case_match; done || apply Hne.
Qed.

(** * Complete objects *)

(** A computed value survives the transfer. *)
Lemma computed_leaf base P ls m d :
  computed_ok be base ls = true -> ec_computes base P ls -> m ∈ ls -> leaf_entry m d -> sp m = true ->
  action_ok (pack_action be d (m_pos m)) d = true ->
  leaf_native be (pack_action be d (m_pos m)) d (encode be d (computed_octets base P m d)) = computed_octets base P m d.
Proof.
  intros Hcok Hec Hm Hle Hs Hact. destruct (computed_at base ls m Hcok Hm Hs) as (d' & Hd' & Hok).
  assert (d' = d) as -> by (destruct Hle; congruence).
  assert (HF : flags_ok d = true /\ is_Some (field_kind_of d) /\ octets (computed_octets base P m d) /\
     length (computed_octets base P m d) = n_of d /\ representable be d (computed_octets base P m d) = true).
  { unfold computed_octets. destruct (is_ec m) eqn:E.
    - destruct (ec_ok_facts _ _ _ Hok) as (_ & Hk & _ & _ & Hfl & _). destruct (Hec m d Hm Hle E) as (v & -> & _ & Hr).
      split_and!; [done|eauto|apply native_bytes_octets|apply native_bytes_length|done].
    - unfold special_ok in Hok. apply andb_true_iff in Hok as [[[[Hk%bool_decide_eq_true Hfl]%andb_true_iff
        _]%andb_true_iff Hr]%andb_true_iff Hty]. split_and!; [done|done| | |done]; unfold sp_octets.
      + destruct (BasicType d); try apply native_bytes_octets. apply strncpy_octets, List.Forall_forall.
        apply andb_true_iff in Hty as [_ Hfs]. rewrite forallb_forall in Hfs.
        intros b Hb. specialize (Hfs b Hb). unfold is_octet. lia.
      + destruct (BasicType d); try apply native_bytes_length. apply strncpy_length. }
  destruct HF as (Hfl & Hk & Ho & Hl & Hr).
  rewrite <- (leaf_bits_encode be d (m_pos m)) by done. apply leaf_roundtrip; [done..|].
  unfold leaf_representable. by destruct (pack_action be d (m_pos m)).
Qed.

Abbreviation pack_complete :=
  (EdsLib_DataTypeDB_PackCompleteObject be DoFloatPack DoFloatUnpack NumBuf0 ValueBuff0 fo GD).
Abbreviation unpack_complete :=
  (EdsLib_DataTypeDB_UnpackCompleteObject be DoFloatPack DoFloatUnpack NumBuf0 ValueBuff0 fo GD).

Lemma pack_complete_ok id ref dict ls lsP Src Dst maxbits :
  EdsLib_Decode_StructId id = ref -> packable be GD ref dict ls -> completable ref dict ls lsP ->
  octets Src -> octets Dst -> d_bytes dict <= zlen Src -> d_bits dict <= maxbits ->
  (d_bits dict + 7) / 8 <= zlen Dst -> all_representable be Src ls = true ->
  exists N P, octets P /\ zlen P = zlen Dst /\
    (forall levels fuel, (1 <= levels)%nat -> (N <= fuel)%nat ->
       pack_complete levels fuel id Dst Src maxbits (zlen Src) =
       Ok (EDSLIB_SUCCESS, EdsLib_Encode_StructId (Some ref), P)) /\
    ec_computes dict P ls /\
    forall m d, m ∈ ls -> leaf_entry m d ->
      bits_at P (m_pos m) (d_bits d) =
      if sp m then encode be d (computed_octets dict P m d)
      else leaf_bits be (pack_action be d (m_pos m)) d (slice Src (m_off m) (n_of d)).
Proof.
  intros Hid Hpk Hcp HoS HoD HS Hm Hfit Hrep.
  destruct (pack_object_ok be DoFloatPack DoFloatUnpack NumBuf0 ValueBuff0 fo GD HNumBuf HNumBufO Hcounts
              id ref dict ls Src Dst maxbits) as (N1 & P1 & Ho1 & Hl1 & Hrun1 & Hb1); [done..|].
  destruct (finalize_ok (EdsLib_Encode_StructId (Some ref)) ref dict ls lsP P1)
    as (N2 & P & Ho & Hl & Hrun2 & Hb2 & Hec); [|done|done|done|by rewrite Hl1|].
  { rewrite <- Hid. apply Decode_Encode_Decode. }
  exists (Nat.max N1 N2), P. split_and!; [done|lia| |done|].
  - intros levels fuel Hlev Hf. unfold EdsLib_DataTypeDB_PackCompleteObject.
    rewrite Hrun1 by lia. cbn [rbind]. rewrite (Z.eqb_refl EDSLIB_SUCCESS), Hrun2 by lia. done.
  - intros m d Hmem Hd. rewrite (Hb2 m d Hmem Hd). destruct (sp m) eqn:E; [done|]. apply Hb1; [done|].
    destruct Hd as [Hp Hd]. split; [|done]. unfold is_data. by rewrite Hp; unfold sp in E; rewrite E.
Qed.

(** Unpacking any octets, and the status of the verification that follows. *)
Lemma unpack_complete_any id ref dict ls lsP P Dst maxbytes maxbits :
  EdsLib_Decode_StructId id = ref -> packable be GD ref dict ls -> completable ref dict ls lsP ->
  octets P -> octets Dst -> d_bytes dict <= zlen Dst ->
  d_bytes dict <= maxbytes -> d_bits dict <= maxbits -> (d_bits dict + 7) / 8 <= zlen P ->
  (forall m, m ∈ ls -> is_ec m = true ->
     exists v, EdsLib_ErrorControlCompute (ec_type m) P (d_bits dict) (m_pos m) = Ok v) ->
  exists N U, octets U /\ zlen U = zlen Dst /\
    (forall levels fuel, (1 <= levels)%nat -> (N <= fuel)%nat ->
       unpack_complete levels fuel id Dst P maxbytes maxbits =
       Ok (verify_status dict P U ls, EdsLib_Encode_StructId (Some ref), U)) /\
    forall m d, m ∈ ls -> leaf_entry m d ->
      slice U (m_off m) (n_of d) =
      leaf_native be (pack_action be d (m_pos m)) d (bits_at P (m_pos m) (d_bits d)).
Proof.
  intros Hid Hpk Hcp HoP HoD HD Hmb Hm Hfit Hec.
  destruct (unpack_object_ok be DoFloatPack DoFloatUnpack NumBuf0 ValueBuff0 fo GD HNumBuf Hcounts
              id ref dict ls P Dst maxbytes maxbits) as (N1 & U & HoU & HlU & Hrun1 & Hsl); [done..|].
  destruct (verify_returns (EdsLib_Encode_StructId (Some ref)) ref dict ls lsP U P) as [N2 Hrun2];
    [|done|done|lia|done|].
  { rewrite <- Hid. apply Decode_Encode_Decode. }
  exists (Nat.max N1 N2), U. split_and!; [done|done| |done].
  intros levels fuel Hlev Hf. unfold EdsLib_DataTypeDB_UnpackCompleteObject.
  rewrite Hrun1 by lia. cbn [rbind]. rewrite (Z.eqb_refl EDSLIB_SUCCESS), Hrun2 by lia. done.
Qed.

(** Unpacking what was packed. *)
Lemma unpack_complete_ok id ref dict ls lsP Src P Dst maxbytes maxbits :
  EdsLib_Decode_StructId id = ref -> packable be GD ref dict ls -> completable ref dict ls lsP ->
  octets Src -> octets P -> octets Dst -> d_bytes dict <= zlen Src -> d_bytes dict <= zlen Dst ->
  d_bytes dict <= maxbytes -> d_bits dict <= maxbits -> (d_bits dict + 7) / 8 <= zlen P ->
  all_representable be Src ls = true -> ec_computes dict P ls ->
  (forall m d, m ∈ ls -> leaf_entry m d ->
     bits_at P (m_pos m) (d_bits d) =
     if sp m then encode be d (computed_octets dict P m d)
     else leaf_bits be (pack_action be d (m_pos m)) d (slice Src (m_off m) (n_of d))) ->
  exists N U, octets U /\ zlen U = zlen Dst /\
    (forall levels fuel, (1 <= levels)%nat -> (N <= fuel)%nat ->
       unpack_complete levels fuel id Dst P maxbytes maxbits =
       Ok (EDSLIB_SUCCESS, EdsLib_Encode_StructId (Some ref), U)) /\
    forall m d, m ∈ ls -> leaf_entry m d ->
      slice U (m_off m) (n_of d) =
      if sp m then computed_octets dict P m d else slice Src (m_off m) (n_of d).
Proof.
  intros Hid Hpk Hcp HoS HoP HoD HS HD Hmb Hm Hfit Hrep Hec Hbits. pose proof (cp_ok _ _ _ _ Hcp) as Hcok.
  destruct (unpack_complete_any id ref dict ls lsP P Dst maxbytes maxbits) as (N & U & HoU & HlU & Hrun & Hsl); try done.
  { intros m Hmem E. destruct (computed_at dict ls m Hcok Hmem (ec_sp _ E)) as (d & Hd & _).
    destruct (Hec m d Hmem) as (v & ? & _); [|done|eauto]. split; [by apply sp_not_pad, ec_sp|done]. }
  assert (Hval : forall m d, m ∈ ls -> leaf_entry m d -> slice U (m_off m) (n_of d) =
      if sp m then computed_octets dict P m d else slice Src (m_off m) (n_of d)).
  { intros m d Hmem Hle. rewrite (Hsl m d Hmem Hle), (Hbits m d Hmem Hle).
    destruct (wf_seq_leaf _ _ _ _ _ m d (pk_seq _ _ _ _ _ Hpk) Hmem Hle) as (Hact & _ & _ & Hof & Hend).
    destruct (sp m) eqn:E; [by eapply computed_leaf|].
    pose proof (action_ok_sizes _ _ Hact). fold (d_bytes dict) in Hend.
    assert (Hin : in_buf Src (m_off m) (n_of d) = true) by (apply in_buf_spec; unfold n_of; lia).
    apply leaf_roundtrip; [done|by apply octets_slice|by apply slice_length|].
    unfold all_representable in Hrep. rewrite forallb_forall in Hrep.
    specialize (Hrep m ltac:(by apply list_elem_of_In)). destruct Hle as [Hp Hd]. rewrite Hd in Hrep.
    unfold is_data in Hrep. unfold sp in E. rewrite Hp, E in Hrep. done. }
  exists N, U. split_and!; [done|done| |done]. intros levels fuel Hl Hf. rewrite Hrun by done.
  do 3 f_equal. apply fold_same. intros m d Hmem Hd. apply list_elem_of_In, filter_In in Hmem as [Hmem E].
  apply list_elem_of_In in Hmem. assert (Hle : leaf_entry m d) by (split; [by apply sp_not_pad|done]).
  eapply computed_same; [done..|]. by rewrite (Hval m d Hmem Hle), E.
Qed.
(** * A changed octet *)

(** The value of an error control field in any packed object. *)
Lemma ec_at ref dict ls m d P :
  packable be GD ref dict ls -> computed_ok be dict ls = true -> m ∈ ls -> leaf_entry m d -> is_ec m = true ->
  octets P -> (d_bits dict + 7) / 8 <= zlen P ->
  let p := m_pos m / 8 in let w := ec_width (ec_type m) in let T := d_bits dict / 8 in
  m_pos m = 8 * p /\ d_bits d = 8 * w /\ 0 <= p /\ 0 < w /\ p + w <= T /\ T <= zlen P /\
  EdsLib_ErrorControlCompute (ec_type m) P (d_bits dict) (m_pos m) = Ok (ec_value (ec_type m) (outside P p w T)).
Proof.
  intros Hpk Hcok Hm Hle Eec Ho Hfit%octet_ceil p w T.
  destruct (computed_at dict ls m Hcok Hm (ec_sp _ Eec)) as (d' & Hd' & Hok). rewrite Eec in Hok.
  assert (d' = d) as -> by (destruct Hle; congruence).
  destruct (ec_ok_facts _ _ _ Hok) as (_ & _ & _ & Ha & _ & _ & Hbits & Ep & ET). fold p w T in Hbits, Ep, ET.
  destruct (wf_seq_leaf _ _ _ _ _ m d (pk_seq _ _ _ _ _ Hpk) Hm Hle) as (_ & Hp0 & Hp1 & _). fold (d_bits dict) in Hp1.
  pose proof (pk_bits _ _ _ _ _ Hpk) as HB.
  assert (Hw : 0 < w) by (unfold w; by destruct (ec_type m)). clearbody p T.
  split_and!; [done|done|lia|done|lia|lia|]. rewrite Ep, ET. apply ec_compute_ok; [done|done|lia..].
Qed.

Lemma bits_at_zset P p w q x :
  0 <= p -> 0 <= w -> 0 <= q -> q < p \/ p + w <= q -> bits_at (zset P q x) (8 * p) (8 * w) = bits_at P (8 * p) (8 * w).
Proof.
  intros Hp Hw Hq H. unfold bits_at, zset.
  replace (Z.to_nat (8 * p)) with (8 * Z.to_nat p)%nat by lia.
  replace (Z.to_nat (8 * w)) with (8 * Z.to_nat w)%nat by lia.
  rewrite <- !flat_drop, <- !flat_take. f_equal. destruct H.
  - by rewrite drop_insert_lt by lia.
  - rewrite drop_insert_ge, take_insert_ge by lia. done.
Qed.

(** Changing one octet of a complete object outside its error control field
    makes verification fail. *)
Lemma unpack_changed id ref dict ls lsP e P Dst maxbytes maxbits q x :
  EdsLib_Decode_StructId id = ref -> packable be GD ref dict ls -> completable ref dict ls lsP ->
  octets P -> octets Dst -> d_bytes dict <= zlen Dst ->
  d_bytes dict <= maxbytes -> d_bits dict <= maxbits -> (d_bits dict + 7) / 8 <= zlen P ->
  ec_computes dict P ls ->
  (forall m d, m ∈ ls -> leaf_entry m d -> sp m = true ->
     bits_at P (m_pos m) (d_bits d) = encode be d (computed_octets dict P m d)) ->
  e ∈ ls -> is_ec e = true -> ec_protects (ec_type e) = true ->
  0 <= q < d_bits dict / 8 -> q < m_pos e / 8 \/ m_pos e / 8 + ec_width (ec_type e) <= q ->
  is_octet x -> x <> zget P q ->
  exists N U st, st <> EDSLIB_SUCCESS /\
    forall levels fuel, (1 <= levels)%nat -> (N <= fuel)%nat ->
      unpack_complete levels fuel id Dst (zset P q x) maxbytes maxbits =
      Ok (st, EdsLib_Encode_StructId (Some ref), U).
Proof.
  intros Hid Hpk Hcp HoP HoD HD Hmb Hm Hfit Hec Hbits He Eec Hpr Hq Hout Hx Hne. pose proof (cp_ok _ _ _ _ Hcp) as Hcok.
  assert (HoP' : octets (zset P q x)) by (by apply octets_zset).
  assert (Hfit' : (d_bits dict + 7) / 8 <= zlen (zset P q x)) by (by rewrite zlen_zset).
  destruct (computed_at dict ls e Hcok He (ec_sp _ Eec)) as (d & Hd & Hok). rewrite Eec in Hok.
  assert (Hle : leaf_entry e d) by (split; [by apply sp_not_pad, ec_sp|done]).
  destruct (ec_at ref dict ls e d P) as (Ep & Ew & Hp0 & Hw & HT & HTl & HC); [done..|].
  destruct (ec_at ref dict ls e d (zset P q x)) as (_ & _ & _ & _ & _ & _ & HC'); [done..|].
  destruct (unpack_complete_any id ref dict ls lsP (zset P q x) Dst maxbytes maxbits) as (N & U & HoU & HlU & Hrun & Hsl);
    try done.
  { intros m Hmem E. destruct (computed_at dict ls m Hcok Hmem (ec_sp _ E)) as (d' & Hd' & _).
    assert (Hle' : leaf_entry m d') by (split; [by apply sp_not_pad, ec_sp|done]).
    destruct (ec_at ref dict ls m d' (zset P q x)) as (_ & _ & _ & _ & _ & _ & HE); [done..|]. eauto. }
  exists N, U, (verify_status dict (zset P q x) U ls). split; [|done].
  apply (fold_mismatch _ _ _ _ _ e d); [left|done|].
  { apply list_elem_of_In, filter_In. split; [by apply list_elem_of_In|by apply ec_sp]. }
  destruct (wf_seq_leaf _ _ _ _ _ e d (pk_seq _ _ _ _ _ Hpk) He Hle) as (Hact & _).
  assert (HU : slice U (m_off e) (n_of d) = computed_octets dict P e d).
  { rewrite (Hsl e d He Hle). rewrite Ep, Ew, bits_at_zset, <- Ew, <- Ep by lia.
    rewrite (Hbits e d He Hle (ec_sp _ Eec)). eapply computed_leaf; eauto using ec_sp. }
  unfold leaf_same. rewrite HU. destruct (ec_ok_facts _ _ _ Hok) as (_ & _ & HUi & _).
  rewrite bool_decide_false by (by rewrite HUi). unfold computed_octets, expected_word. rewrite Eec, HC'.
  destruct (Hec e d He Hle Eec) as (v & Hv & Hnv & _). rewrite Hv, Hnv. rewrite HC in Hv. injection Hv as <-.
  destruct (outside_zset P (m_pos e / 8) (ec_width (ec_type e)) (d_bits dict / 8) q x) as (j & -> & Hj); [lia..|].
  set (l := outside P _ _ _) in *. assert (Ho : octets l) by (by apply octets_outside).
  apply Z.eqb_neq. intros E. apply (ec_value_insert (ec_type e) l j (zget P q) x); [done..|].
  assert (Hsmall : forall l, octets l -> u64 (ec_value (ec_type e) l) = ec_value (ec_type e) l).
  { intros l' Hl'. pose proof (ec_value_range (ec_type e) l' Hl'). unfold u64. apply Z.mod_small.
    assert (2 ^ (8 * ec_width (ec_type e)) <= 2 ^ 16) by (apply Z.pow_le_mono_r; [lia|by destruct (ec_type e)]).
    split; [lia|]. eapply Z.lt_trans; [apply H|]. eapply Z.le_lt_trans; [done|by vm_compute]. }
  rewrite !Hsmall in E; [done|by apply Forall_insert|done].
Qed.
End Verify.
