(* ===== verification/EdsBase64.v ===== *)
(** Base64 text of binary fields: edslib_displaydb_base64.c.

    The encoder writes no padding characters and leaves out trailing zero
    sextets, which the decoder fills in again.

    Decoding what the base64 encoder wrote. *)

From S2P Require Import Prelude EdsTypes EdsBits EdsPackProofs EdsUnpackProofs EdsField.

Definition EdsLib_BASE64_CHARSET : list Z :=
  [ (* A .. Z, a .. z, 0 .. 9, +, / *)
   65; 66; 67; 68; 69; 70; 71; 72; 73; 74; 75; 76; 77; 78; 79; 80;
   81; 82; 83; 84; 85; 86; 87; 88; 89; 90; 97; 98; 99; 100; 101; 102;
   103; 104; 105; 106; 107; 108; 109; 110; 111; 112; 113; 114; 115; 116; 117; 118;
   119; 120; 121; 122; 48; 49; 50; 51; 52; 53; 54; 55; 56; 57; 43; 47].

(** The designated initialisers of [EdsLib_BASE64_REVERSE]: character and
    entry; every other entry of the 128 is zero. *)
Definition base64_reverse_init : list (Z * Z) :=
  [
   (65, 0x80); (66, 0x81); (67, 0x82); (68, 0x83); (69, 0x84); (70, 0x85); (71, 0x86); (72, 0x87);
   (73, 0x88); (74, 0x89); (75, 0x8A); (76, 0x8B); (77, 0x8C); (78, 0x8D); (79, 0x8E); (80, 0x8F);
   (81, 0x90); (82, 0x91); (83, 0x92); (84, 0x93); (85, 0x94); (86, 0x95); (87, 0x96); (88, 0x97);
   (89, 0x98); (90, 0x99); (97, 0x9A); (98, 0x9B); (99, 0x9C); (100, 0x9D); (101, 0x9E); (102, 0x9F);
   (103, 0xA0); (104, 0xA1); (105, 0xA2); (106, 0xA3); (107, 0xA4); (108, 0xA5); (109, 0xA6); (110, 0xA7);
   (111, 0xA8); (112, 0xA9); (113, 0xAA); (114, 0xAB); (115, 0xAC); (116, 0xAD); (117, 0xAE); (118, 0xAF);
   (119, 0xB0); (120, 0xB1); (121, 0xB2); (122, 0xB3); (48, 0xB4); (49, 0xB5); (50, 0xB6); (51, 0xB7);
   (52, 0xB8); (53, 0xB9); (54, 0xBA); (55, 0xBB); (56, 0xBC); (57, 0xBD); (43, 0xBE); (47, 0xBF)].

Fixpoint init_lookup (l : list (Z * Z)) (c : Z) : Z :=
  match l with
  | [] => 0
  | (k, v) :: l => if c =? k then v else init_lookup l c
  end.
Definition EdsLib_BASE64_REVERSE : list Z :=
  map (fun c => init_lookup base64_reverse_init (Z.of_nat c)) (seq 0 128).

(** ** Encoding *)

(** The state of the output: the buffer, [Out] as an index, [OutputPos] and
    [TailPos]. *)
Record enc_out := EncOut {
  eo_buf : list Z;
  eo_ptr : Z;
  OutputPos : Z;
  TailPos : Z }.

(** [while (NumBits >= 6)]. *)
Fixpoint enc_flush (fuel : nat) (OutputLenBytes ShiftReg NumBits : Z) (o : enc_out) : res (Z * enc_out) :=
  match fuel with
  | O => Hang
  | S fuel =>
      if NumBits >=? 6 then
        let NumBits := NumBits - 6 in
        if OutputPos o <? OutputLenBytes then
          let* x := shr 32 ShiftReg NumBits in
          let OutCh := Z.land x 63 in
          let Tail := if negb (OutCh =? 0) then OutputPos o else TailPos o in
          let* c := rd EdsLib_BASE64_CHARSET OutCh in
          let* b := wr (eo_buf o) (eo_ptr o) c in
          enc_flush fuel OutputLenBytes ShiftReg NumBits (EncOut b (eo_ptr o + 1) (u32 (OutputPos o + 1)) Tail)
        else enc_flush fuel OutputLenBytes ShiftReg NumBits o
      else Ok (NumBits, o)
  end.

(** What one input octet does to the register: its content, the number of
    bits in it and the input bits that remain. *)
Definition enc_load (ShiftReg NumBits InputLenBits b : Z) : res (Z * Z * Z) :=
  let S1 := Z.lor (u32 (Z.shiftl ShiftReg 8)) b in
  if InputLenBits >=? 8 then Ok (S1, NumBits + 8, InputLenBits - 8)
  else
    let NumBits := NumBits + InputLenBits in
    let* S2 := shr 32 S1 (8 - InputLenBits) in
    let r := NumBits mod 6 in
    if negb (r =? 0) then
      let k := 6 - r in
      let* S3 := shl 32 S2 k in
      Ok (S3, NumBits + k, 0)
    else Ok (S2, NumBits, r).

(** [while (InputLenBits > 0)]. *)
Fixpoint enc_loop (fuel : nat) (OutputLenBytes : Z) (In : list Z) (InPtr InputLenBits ShiftReg NumBits : Z)
    (o : enc_out) : res enc_out :=
  match fuel with
  | O => Hang
  | S fuel =>
      if InputLenBits >? 0 then
        let* b := rd In InPtr in
        let* (SR, NumBits, Len) := enc_load ShiftReg NumBits InputLenBits b in
        let* (NumBits, o) := enc_flush 4 OutputLenBytes SR NumBits o in
        enc_loop fuel OutputLenBytes In (InPtr + 1) Len SR NumBits o
      else Ok o
  end.

Definition EdsLib_DisplayDB_Base64Encode (Out : list Z) (OutputLenBytes : Z) (In : list Z) (InputLenBits : Z)
    : res (list Z) :=
  let* o := enc_loop (S (Z.to_nat InputLenBits)) OutputLenBytes In 0 InputLenBits 0 0 (EncOut Out 0 1 0) in
  if TailPos o <? OutputLenBytes
  then wr (eo_buf o) (eo_ptr o - (OutputPos o - TailPos o - 1)) 0
  else Ok (eo_buf o).

(** ** Decoding *)

(** [while (ActualLen > 0)]. *)
Fixpoint dec_loop (fuel : nat) (Out : list Z) (OutPtr ActualLen : Z) (In : list Z) (InPtr ShiftReg NumBits : Z)
    : res (list Z) :=
  match fuel with
  | O => Hang
  | S fuel =>
      if ActualLen >? 0 then
        let* ch := rd In InPtr in
        let* (SR, Num, InPtr) :=
          (if negb (ch =? 0) then
             let* v := rd EdsLib_BASE64_REVERSE (Z.land ch 127) in
             Ok (if negb (v =? 0)
                 then (Z.lor (u32 (Z.shiftl ShiftReg 6)) (Z.land v 63), NumBits + 6, InPtr + 1)
                 else (ShiftReg, NumBits, InPtr + 1))
           else Ok (u32 (Z.shiftl ShiftReg 8), NumBits + 8, InPtr)) in
        if Num >=? 8 then
          let Num := Num - 8 in
          let* x := shr 32 SR Num in
          let* Out := wr Out OutPtr (Z.land x 255) in
          dec_loop fuel Out (OutPtr + 1) (ActualLen - 1) In InPtr SR Num
        else dec_loop fuel Out OutPtr ActualLen In InPtr SR Num
      else Ok Out
  end.

Definition EdsLib_DisplayDB_Base64Decode (Out : list Z) (OutputLenBits : Z) (In : list Z) : res (list Z) :=
  let ActualLen := u32 (OutputLenBits + 7) / 8 in
  dec_loop (S (length In + Z.to_nat ActualLen)) Out 0 ActualLen In 0 0 0.

(** * Texts

    A text is a list of sextets; [flat6] is the bit string it stands for. *)

Definition flat6 (t : list Z) : list bool := List.flat_map (bits 6) t.
Definition b64char (v : Z) : Z := zget EdsLib_BASE64_CHARSET v.
Definition sextets (t : list Z) : Prop := Forall (fun v => 0 <= v < 64) t.

Lemma flat6_app t1 t2 : flat6 (t1 ++ t2) = flat6 t1 ++ flat6 t2.
Proof. apply List.flat_map_app. Qed.

Lemma flat6_length t : length (flat6 t) = (6 * length t)%nat.
Proof.
  induction t as [|v t IH]; [done|]. cbn [flat6 List.flat_map]. rewrite length_app, bits_length.
  unfold flat6 in IH. rewrite IH. simpl. lia.
Qed.

(** The reverse table inverts the character set, and no character is NUL. *)
Lemma b64char_ok v :
  0 <= v < 64 ->
  b64char v <> 0 /\ rd EdsLib_BASE64_REVERSE (Z.land (b64char v) 127) = Ok (128 + v) /\
  Z.land (128 + v) 63 = v.
Proof.
  intros Hv. eapply bool_decide_eq_true. revert v Hv. apply (exhaust 64). vm_compute. reflexivity.
Qed.

Lemma u8_b64char v : 0 <= v < 64 -> u8 (b64char v) = b64char v.
Proof.
  intros Hv. eapply bool_decide_eq_true. revert v Hv. apply (exhaust 64). vm_compute. reflexivity.
Qed.

(** The position after the last sextet that is not zero. *)
Fixpoint tail_of (t : list Z) : nat :=
  match t with
  | [] => 0
  | v :: t => match tail_of t with
              | O => if v =? 0 then 0 else 1
              | S k => S (S k)
              end
  end.

Lemma tail_of_snoc t v : tail_of (t ++ [v]) = if v =? 0 then tail_of t else S (length t).
Proof.
  induction t as [|u t IH]; simpl; [by destruct (v =? 0)|]. rewrite IH. by destruct (v =? 0).
Qed.

Lemma tail_of_le t : (tail_of t <= length t)%nat.
Proof. induction t as [|v t IH]; simpl; [lia|]. destruct (tail_of t); [case_match|]; lia. Qed.

Lemma flat6_tail t : flat6 (take (tail_of t) t) =0= flat6 t.
Proof.
  induction t as [|v t IH]; [done|]. cbn [tail_of]. destruct (tail_of t) as [|k] eqn:E.
  - destruct (Z.eqb_spec v 0) as [->|].
    + cbn [take]. change (flat6 (0 :: t)) with (bits 6 0 ++ flat6 t). rewrite <- IH. cbn [take].
      intros i. unfold flat6 at 2. cbn [List.flat_map]. rewrite app_nil_r, nth_bits, Z.bits_0.
      case_decide; by destruct i.
    + cbn [take]. change (flat6 (v :: t)) with (bits 6 v ++ flat6 t). rewrite <- IH. done.
  - cbn [take]. change (flat6 (v :: ?l)) with (bits 6 v ++ flat6 l).
    change (flat6 (v :: t)) with (bits 6 v ++ flat6 t). rewrite <- IH. done.
Qed.

(** * Decoding *)

(** Dropping the oldest octet of the register. *)
Lemma bits_out Num SR :
  8 <= Num -> bits (Z.to_nat Num) SR = bits 8 (Z.shiftr SR (Num - 8)) ++ bits (Z.to_nat (Num - 8)) SR.
Proof.
  intros H. replace (Z.to_nat Num) with (8 + Z.to_nat (Num - 8))%nat by lia.
  by rewrite bits_app, Z2Nat.id by lia.
Qed.

Lemma bits_in k n SR v :
  0 <= v < 2 ^ Z.of_nat k -> (n + k <= 32)%nat ->
  bits (n + k) (Z.lor (u32 (Z.shiftl SR (Z.of_nat k))) v) = bits n SR ++ bits k v.
Proof.
  intros Hv Hn. rewrite <- bits_lor_shiftl by done. apply bits_ext; intros i Hi.
  rewrite !Z.lor_spec. f_equal. apply Z.mod_pow2_bits_low. lia.
Qed.

Lemma land_255_u8 x : u8 (Z.land x 255) = u8 x.
Proof.
  unfold u8. change 255 with (2 ^ 8 - 1). rewrite land_mask by lia. apply Z.mod_mod. lia.
Qed.

(** The text [cs] with a NUL after it, from [ip] on. *)
Definition text_at (In : list Z) (ip : Z) (cs : list Z) : Prop :=
  0 <= ip /\ exists tl, drop (Z.to_nat ip) In = map b64char cs ++ 0 :: tl.

Lemma text_rd In ip cs :
  text_at In ip cs -> rd In ip = Ok (match cs with [] => 0 | v :: _ => b64char v end).
Proof.
  intros (Hip & tl & Hd).
  assert (Hlt : ip < zlen In).
  { unfold zlen. destruct (decide (Z.to_nat ip < length In)%nat); [lia|].
    rewrite drop_ge in Hd by lia. by destruct cs. }
  rewrite rd_ok by lia. f_equal. rewrite drop_zget in Hd by lia. destruct cs; by injection Hd.
Qed.

Lemma text_next In ip v cs : text_at In ip (v :: cs) -> text_at In (ip + 1) cs.
Proof.
  intros (Hip & tl & Hd). split; [lia|]. exists tl.
  replace (Z.to_nat (ip + 1)) with (Z.to_nat ip + 1)%nat by lia. by rewrite <- drop_drop, Hd.
Qed.

Lemma dec_loop_ok In : forall fuel cs ip SR Num Out p k,
  text_at In ip cs -> sextets cs -> 0 <= Num < 8 ->
  fits Out p 1 (Z.of_nat k) -> (length cs + k < fuel)%nat ->
  dec_loop fuel Out p (Z.of_nat k) In ip SR Num =
  Ok (put Out p 1 (chunks k (bits (Z.to_nat Num) SR ++ flat6 cs))).
Proof.
  induction fuel as [|fuel IH]; intros cs ip SR Num Out p k Ht Hs HN Hfit Hf; [lia|].
  cbn [dec_loop]. destruct k as [|k]; [done|].
  destruct (Z.gtb_spec (Z.of_nat (S k)) 0); [|lia]. rewrite (text_rd _ _ _ Ht). cbn [rbind].
  (* an octet leaves the register *)
  assert (Hout : forall cs' ip' SR' Num',
    text_at In ip' cs' -> sextets cs' -> 8 <= Num' < 16 -> (length cs' <= length cs)%nat ->
    bits (Z.to_nat Num') SR' ++ flat6 cs' =0= bits (Z.to_nat Num) SR ++ flat6 cs ->
    (let* x := shr 32 SR' (Num' - 8) in
     let* Out := wr Out p (Z.land x 255) in
     dec_loop fuel Out (p + 1) (Z.of_nat (S k) - 1) In ip' SR' (Num' - 8)) =
    Ok (put Out p 1 (chunks (S k) (bits (Z.to_nat Num) SR ++ flat6 cs)))).
  { intros cs' ip' SR' Num' Ht' Hs' HN' Hle Hz. rewrite shr_ok by lia. cbn [rbind].
    rewrite wr_ok by (specialize (Hfit 0); lia). cbn [rbind].
    replace (Z.of_nat (S k) - 1) with (Z.of_nat k) by lia.
    rewrite (IH cs'); [|done|done|lia| |lia].
    - rewrite <- (chunks_zeq _ _ _ Hz). rewrite (bits_out Num') by lia. rewrite <- app_assoc.
      cbn [chunks put]. rewrite octet_of_bits, land_255_u8.
      by rewrite drop_app_length' by (by rewrite bits_length).
    - replace (Z.of_nat k) with (Z.of_nat (S k) - 1) by lia. by apply fits_next. }
  destruct cs as [|v cs].
  - cbn [negb Z.eqb rbind]. replace (Num + 8 >=? 8) with true by lia.
    apply (Hout []); [done|done|lia|done|]. cbn [flat6 List.flat_map]. rewrite !app_nil_r.
    replace (Z.to_nat (Num + 8)) with (Z.to_nat Num + 8)%nat by lia.
    rewrite (bits_ext _ _ (Z.shiftl SR (Z.of_nat 8))), bits_shiftl; [apply zeq_zeros|].
    intros i Hi. apply Z.mod_pow2_bits_low. lia.
  - apply Forall_cons_1 in Hs as [Hv Hs]. destruct (b64char_ok v Hv) as (Hne & -> & Hland).
    replace (b64char v =? 0) with false by lia. cbn [negb rbind].
    replace (128 + v =? 0) with false by lia. cbn [negb]. rewrite Hland.
    assert (Hb : bits (Z.to_nat (Num + 6)) (Z.lor (u32 (Z.shiftl SR 6)) v) ++ flat6 cs =
                 bits (Z.to_nat Num) SR ++ flat6 (v :: cs)).
    { replace (Z.to_nat (Num + 6)) with (Z.to_nat Num + 6)%nat by lia.
      rewrite (bits_in 6) by (simpl; lia). by rewrite <- app_assoc. }
    destruct (Z.geb_spec (Num + 6) 8).
    + apply (Hout cs); [by eapply text_next|done|lia|simpl; lia|by rewrite Hb].
    + rewrite (IH cs); [by rewrite Hb|by eapply text_next|done|lia|done|simpl in Hf; lia].
Qed.

Lemma Base64Decode_ok Out n In cs :
  text_at In 0 cs -> sextets cs -> 0 <= n < 2 ^ 32 - 7 -> (n + 7) / 8 <= zlen Out ->
  EdsLib_DisplayDB_Base64Decode Out n In =
  Ok (splice Out 0 (chunks (Z.to_nat ((n + 7) / 8)) (flat6 cs))).
Proof.
  intros Ht Hs Hn Hfit. unfold EdsLib_DisplayDB_Base64Decode. rewrite u32_id by range.
  assert (0 <= (n + 7) / 8) by (apply Z.div_pos; lia).
  rewrite <- (Z2Nat.id ((n + 7) / 8)) at 2 by lia.
  rewrite (dec_loop_ok In _ cs); [|done|done|lia|intros i Hi; lia|].
  - rewrite app_nil_l. rewrite put_fwd; [done|]. apply in_buf_spec. rewrite chunks_length. lia.
  - destruct Ht as (_ & tl & Hd). change (drop (Z.to_nat 0) In) with In in Hd.
    rewrite Hd, length_app, length_map. simpl. lia.
Qed.

(** * Encoding *)

Section Encode.
Variables (Out0 : list Z) (OutputLenBytes : Z).
Hypothesis Hlen : 0 < OutputLenBytes <= zlen Out0.
Hypothesis Hlen32 : OutputLenBytes < 2 ^ 32.

(** The output holds the text [t]. *)
Record text_out (t : list Z) (o : enc_out) : Prop := {
  to_sext : sextets t;
  to_buf : eo_buf o = splice Out0 0 (map b64char t);
  to_ptr : eo_ptr o = zlen t;
  to_pos : OutputPos o = zlen t + 1;
  to_tail : TailPos o = Z.of_nat (tail_of t);
  to_room : zlen t < OutputLenBytes }.

Lemma enc_flush_step t o SR Num :
  text_out t o -> 6 <= Num <= 32 -> zlen t + 1 < OutputLenBytes ->
  exists v, text_out (t ++ [v])
    (EncOut (zset (eo_buf o) (eo_ptr o) (b64char v)) (eo_ptr o + 1) (u32 (OutputPos o + 1))
       (if negb (v =? 0) then OutputPos o else TailPos o)) /\
    v = Z.land (Z.shiftr SR (Num - 6)) 63 /\ 0 <= v < 64 /\
    flat6 t ++ bits (Z.to_nat Num) SR = flat6 (t ++ [v]) ++ bits (Z.to_nat (Num - 6)) SR.
Proof.
  intros [Hs Hb Hp Hpos Ht Hr] HNum Hroom. exists (Z.land (Z.shiftr SR (Num - 6)) 63).
  assert (Hland : Z.land (Z.shiftr SR (Num - 6)) 63 = Z.shiftr SR (Num - 6) mod 2 ^ 6)
    by (apply (land_mask _ 6); lia).
  set (v := Z.land _ 63) in *.
  assert (Hv : 0 <= v < 64) by (rewrite Hland; apply Z.mod_pos_bound; lia).
  pose proof (zlen_nonneg t).
  assert (Hz : zlen (t ++ [v]) = zlen t + 1) by (rewrite zlen_app; done).
  split_and!; [constructor; cbn [eo_buf eo_ptr OutputPos TailPos]|done|lia|lia|].
  - apply Forall_app; split; [done|]. by constructor.
  - rewrite Hb, map_app, Hp. cbn [map].
    rewrite <- (put_fwd (map b64char t)), <- (put_fwd (map b64char t ++ [b64char v]))
      by (apply in_buf_spec; rewrite ?length_app, length_map; unfold zlen in *; simpl; lia).
    rewrite put_app. cbn [put]. f_equal. unfold zlen. rewrite length_map. lia.
  - lia.
  - rewrite Hz, Hpos. apply u32_id. range.
  - rewrite tail_of_snoc. destruct (v =? 0); cbn [negb]; [done|]. unfold zlen in *. lia.
  - lia.
  - rewrite flat6_app, <- app_assoc. f_equal. unfold flat6. cbn [List.flat_map]. rewrite app_nil_r.
    replace (Z.to_nat Num) with (6 + Z.to_nat (Num - 6))%nat by lia.
    rewrite bits_app, Z2Nat.id by lia. f_equal. rewrite Hland. by rewrite bits_mod.
Qed.

Lemma enc_flush_ok fuel : forall t o SR Num,
  text_out t o -> 0 <= Num <= 13 -> Num < 6 * Z.of_nat fuel -> 6 * zlen t + Num <= 6 * (OutputLenBytes - 1) ->
  exists t' o', enc_flush fuel OutputLenBytes SR Num o = Ok (Num mod 6, o') /\ text_out t' o' /\
    flat6 t ++ bits (Z.to_nat Num) SR = flat6 t' ++ bits (Z.to_nat (Num mod 6)) SR.
Proof.
  induction fuel as [|fuel IH]; intros t o SR Num Ht HNum Hf Hroom; [lia|]. cbn [enc_flush].
  destruct (Z.geb_spec Num 6).
  - destruct (enc_flush_step t o SR Num Ht) as (v & Ht' & Hv & Hvr & Hbits); [lia..|].
    replace (OutputPos o <? OutputLenBytes) with true by (rewrite (to_pos _ _ Ht); lia).
    rewrite shr_ok by lia. cbn [rbind]. rewrite <- Hv.
    rewrite rd_ok by (change (zlen EdsLib_BASE64_CHARSET) with 64; lia). cbn [rbind].
    pose proof (zlen_nonneg t).
    rewrite wr_ok.
    2:{ rewrite (to_buf _ _ Ht), (to_ptr _ _ Ht), splice_zlen; [lia|].
        apply in_buf_spec. rewrite length_map. unfold zlen in *. lia. }
    cbn [rbind]. fold (b64char v). rewrite (u8_b64char v) by lia.
    destruct (IH _ _ SR (Num - 6) Ht') as (t2 & o2 & HE & Ht2 & Hb2); [lia|lia|rewrite zlen_app; change (zlen [v]) with 1; lia|].
    exists t2, o2. rewrite HE.
    assert (Em : (Num - 6) mod 6 = Num mod 6)
      by (rewrite <- (Z.mod_add (Num - 6) 1) by lia; f_equal; lia).
    rewrite Em in *. split_and!; [done|done|]. by rewrite Hbits.
  - exists t, o. by rewrite Z.mod_small by lia.
Qed.

(** The register after an input octet: more bits, all of the input or
    the last of it and zeros up to a whole sextet. *)
Lemma enc_load_ok SR Num n b :
  is_octet b -> 0 <= Num < 6 -> 0 < n ->
  exists SR' Num' n',
    enc_load SR Num n b = Ok (SR', Num', n') /\
    (8 <= n /\ Num' = Num + 8 /\ n' = n - 8 /\
       bits (Z.to_nat Num') SR' = bits (Z.to_nat Num) SR ++ bits 8 b \/
     n < 8 /\ Num + n <= Num' <= Num + n + 5 /\ Num' mod 6 = 0 /\ Num' <= 12 /\ n' = 0 /\
       bits (Z.to_nat Num') SR' =0= bits (Z.to_nat Num) SR ++ take (Z.to_nat n) (bits 8 b)).
Proof.
  intros Hb HNum Hn. unfold is_octet in Hb. unfold enc_load.
  set (S1 := Z.lor (u32 (Z.shiftl SR 8)) b).
  assert (HS1 : bits (Z.to_nat Num + 8) S1 = bits (Z.to_nat Num) SR ++ bits 8 b)
    by (apply (bits_in 8); simpl; lia).
  destruct (Z.geb_spec n 8).
  - eexists _, _, _. split; [done|]. left. split_and!; [lia|done|done|].
    rewrite <- HS1. f_equal. lia.
  - rewrite shr_ok by lia. cbn [rbind].
    assert (HS2 : bits (Z.to_nat (Num + n)) (Z.shiftr S1 (8 - n)) =
                  bits (Z.to_nat Num) SR ++ take (Z.to_nat n) (bits 8 b)).
    { rewrite bits_shiftr by lia.
      replace (Z.to_nat (Num + n) + Z.to_nat (8 - n))%nat with (Z.to_nat Num + 8)%nat by lia.
      rewrite HS1, take_app, bits_length, take_ge by (rewrite bits_length; lia). do 2 f_equal. lia. }
    pose proof (Z.mod_pos_bound (Num + n) 6 ltac:(lia)) as Hr.
    pose proof (Z.div_mod (Num + n) 6 ltac:(lia)) as Hdm.
    destruct (Z.eqb_spec ((Num + n) mod 6) 0) as [E|E]; cbn [negb].
    + eexists _, _, _. split; [done|]. right. split_and!; [lia..|by rewrite HS2].
    + rewrite shl_ok by lia. cbn [rbind]. eexists _, _, _. split; [done|]. right.
      set (k := 6 - (Num + n) mod 6) in *.
      assert (Em : (Num + n + k) mod 6 = 0).
      { replace (Num + n + k) with (0 + ((Num + n) / 6 + 1) * 6) by (unfold k; lia).
        by rewrite Z.mod_add by lia. }
      split_and!; [lia|lia|lia|exact Em| |done|].
      * assert (Num + n + k = 6 * ((Num + n) / 6 + 1)) as Ek by (unfold k; lia).
        assert ((Num + n) / 6 <= 1 \/ (Num + n) / 6 = 2) as [|] by lia; [lia|].
        exfalso. unfold k in *. lia.
      * replace (Z.to_nat (Num + n + k)) with (Z.to_nat (Num + n) + Z.to_nat k)%nat by (unfold k; lia).
        rewrite bits_mod by (unfold k; lia).
        rewrite <- (Z2Nat.id k) at 2 by (unfold k; lia).
        rewrite bits_shiftl, HS2. apply zeq_zeros.
Qed.

Lemma enc_loop_ok In fuel : octets In -> forall t o ip n SR Num,
  text_out t o -> 0 <= ip -> 0 <= n -> 8 * ip + n <= 8 * zlen In -> 0 <= Num < 6 ->
  n < Z.of_nat fuel -> 6 * zlen t + Num + n + 5 <= 6 * (OutputLenBytes - 1) ->
  exists t' o',
    enc_loop fuel OutputLenBytes In ip n SR Num o = Ok o' /\ text_out t' o' /\
    let X := flat6 t ++ bits (Z.to_nat Num) SR ++ unread In ip n in
    if n mod 8 =? 0 then exists rest, X = flat6 t' ++ rest /\ (length rest < 6)%nat
    else flat6 t' =0= X.
Proof.
  intros Ho. induction fuel as [|fuel IH]; intros t o ip n SR Num Ht Hip Hn Hin HNum Hf Hroom; [lia|].
  cbn [enc_loop]. destruct (Z.gtb_spec n 0).
  - pose proof (octets_zget In ip Ho ltac:(lia)) as Hb.
    rewrite rd_ok by lia. cbn [rbind].
    destruct (enc_load_ok SR Num n (zget In ip) Hb HNum) as (SR' & Num' & n' & -> & Hcase); [lia|].
    cbn [rbind].
    destruct (enc_flush_ok 4 t o SR' Num' Ht) as (t1 & o1 & -> & Ht1 & Hb1); [lia..|]. cbn [rbind].
    pose proof (Z.mod_pos_bound Num' 6 ltac:(lia)) as Hm.
    assert (Hlens : (6 * length t + Z.to_nat Num' = 6 * length t1 + Z.to_nat (Num' mod 6))%nat)
      by (apply (f_equal length) in Hb1; by rewrite !length_app, !flat6_length, !bits_length in Hb1).
    destruct Hcase as [(H8 & -> & -> & Hbits)|(H8 & HN1 & HN2 & HN3 & -> & Hbits)].
    + destruct (IH t1 o1 (ip + 1) (n - 8) SR' ((Num + 8) mod 6) Ht1) as (t2 & o2 & HE & Ht2 & HX);
        [lia|lia|lia|lia|lia|unfold zlen in *; lia|].
      exists t2, o2. split_and!; [done|done|]. cbv zeta in *.
      assert (E8 : (n - 8) mod 8 = n mod 8)
        by (rewrite <- (Z.mod_add (n - 8) 1) by lia; f_equal; lia). rewrite E8 in HX.
      rewrite app_assoc, <- Hb1, Hbits, <- !app_assoc in HX.
      by rewrite (unread_cons In ip n) by lia.
    + destruct fuel as [|fuel]; [lia|]. cbn [enc_loop]. change (0 >? 0) with false. cbn iota.
      exists t1, o1. split_and!; [done|done|]. cbv zeta.
      rewrite (Z.mod_small n 8) by lia. replace (n =? 0) with false by lia.
      rewrite HN2 in Hb1. cbn [Z.to_nat bits] in Hb1. rewrite app_nil_r in Hb1.
      rewrite <- Hb1, Hbits, (unread_short In ip n) by lia. done.
  - exists t, o. split_and!; [done|done|]. replace n with 0 by lia. cbv zeta.
    change (0 mod 8 =? 0) with true. cbn iota. exists (bits (Z.to_nat Num) SR).
    rewrite bits_length. split; [|lia]. unfold unread. cbn [Z.to_nat take]. by rewrite app_nil_r.
Qed.

(** What the encoder keeps of [n] bits: when they end with an octet, only
    whole sextets. *)
Definition kept (n : Z) : Z := if n mod 8 =? 0 then n - n mod 6 else n.

Lemma Base64Encode_ok In n :
  octets In -> 0 <= n -> n <= 8 * zlen In -> n + 5 <= 6 * (OutputLenBytes - 1) ->
  exists T t, EdsLib_DisplayDB_Base64Encode Out0 OutputLenBytes In n = Ok T /\
    zlen T = zlen Out0 /\ sextets t /\ text_at T 0 (take (tail_of t) t) /\
    flat6 t =0= take (Z.to_nat (kept n)) (flat In).
Proof.
  intros Ho Hn Hin Hroom. unfold EdsLib_DisplayDB_Base64Encode.
  destruct (enc_loop_ok In (S (Z.to_nat n)) Ho [] (EncOut Out0 0 1 0) 0 n 0 0)
    as (t & o & -> & [Hs Hb Hp Hpos Ht Hr] & HX);
    [|lia..|change (zlen []) with 0; lia|].
  { constructor; cbn [eo_buf eo_ptr OutputPos TailPos]; [by apply List.Forall_nil| |done..|change (zlen []) with 0; lia].
    unfold splice. cbn. by rewrite drop_0. }
  cbn [rbind]. pose proof (tail_of_le t) as Htl. rewrite Ht.
  replace (Z.of_nat (tail_of t) <? OutputLenBytes) with true by (unfold zlen in *; lia).
  replace (eo_ptr o - (OutputPos o - Z.of_nat (tail_of t) - 1)) with (Z.of_nat (tail_of t)) by lia.
  assert (Hin0 : in_buf Out0 0 (length (map b64char t)) = true)
    by (apply in_buf_spec; rewrite length_map; unfold zlen in *; lia).
  rewrite wr_ok by (rewrite Hb, splice_zlen by done; unfold zlen in *; lia).
  eexists _, t. split; [done|]. split_and!.
  - rewrite zlen_zset, Hb. by apply splice_zlen.
  - done.
  - split; [lia|]. exists (drop (S (tail_of t)) (splice Out0 0 (map b64char t))). change (drop (Z.to_nat 0) ?l) with l. rewrite Hb.
    set (m := splice Out0 0 (map b64char t)).
    assert (Hm : 0 <= Z.of_nat (tail_of t) < zlen m)
      by (unfold m; rewrite splice_zlen by done; unfold zlen in *; lia).
    rewrite <- (take_drop (S (Z.to_nat (Z.of_nat (tail_of t)))) (zset m _ _)).
    rewrite take_S_zset, drop_S_zset, <- app_assoc by done. rewrite Nat2Z.id. cbn [app]. f_equal.
    unfold m, splice. rewrite take_0, app_nil_l, take_app_le by (rewrite length_map; lia).
    apply firstn_map.
  - cbv zeta in HX. change (flat6 []) with (@nil bool) in HX. 
    change (bits (Z.to_nat 0) 0) with (@nil bool) in HX. rewrite !app_nil_l in HX.
    assert (EX : unread In 0 n = take (Z.to_nat n) (flat In)) by done. rewrite EX in HX. unfold kept.
    destruct (n mod 8 =? 0); [|exact HX]. destruct HX as (rest & HX & Hrest).
    assert (Hl : (Z.to_nat n = 6 * length t + length rest)%nat).
    { apply (f_equal length) in HX.
      rewrite length_app, flat6_length, length_take, flat_length in HX. unfold zlen in *. lia. }
    assert (Em : n mod 6 = Z.of_nat (length rest)).
    { replace n with (Z.of_nat (length rest) + Z.of_nat (length t) * 6) by lia.
      rewrite Z.mod_add, Z.mod_small; lia. }
    rewrite Em, <- (take_take_le (flat In) _ (Z.to_nat n)), HX by lia.
    by rewrite take_app_length' by (rewrite flat6_length; lia).
Qed.
End Encode.
