(* ===== verification/EdsTheorems.v ===== *)
(** The properties of the EDS runtime library: the iterator, the codec of a
    field, whole objects, error control, complete objects, packed decimals and
    base64 text. *)

From S2P Require Import Prelude.
From S2P Require Import EdsTypes EdsBits EdsPack EdsPackProofs EdsUnpackProofs EdsField EdsNumber EdsCodec EdsErrorControl EdsIter EdsValue EdsObject EdsPost EdsQuery EdsObjectProofs EdsValueProofs EdsIdentProofs EdsRoundTrip EdsComplete EdsQueryProofs EdsVerify EdsBase64.

(** * The iterator *)

(** C23. The loop of [EdsLib_DataTypeIterator_Impl], with its explicit stack
    and action variable, ends and computes the recursive walk over the members
    of an object: for every database whose member counts are 16-bit numbers
    (also one whose types contain themselves), every stack size and every
    callback that does not answer the end of a level with DESCEND, some amount
    of fuel is enough, and from it on the result is that of the recursion:
    status and callback state, or the fault of a callback. *)
Theorem iterator_is_recursion (GD : EdsLib_DatabaseObject_t) (S : Type)
    (Callback : EdsLib_Iterator_CbType_t -> EdsLib_DataTypeIterator_StackEntry_t -> S ->
                res (EdsLib_Iterator_Rc_t * S))
    (StackSize : Z) (ref : EdsLib_DatabaseRef_t) (start : EdsLib_SizeInfo_t) (s : S) :
  db_counts GD ->
  (forall e s rc s', Callback EDSLIB_ITERATOR_CBTYPE_END e s = Ok (rc, s') -> rc <> EDSLIB_ITERATOR_RC_DESCEND) ->
  exists N, forall fuel, (N <= fuel)%nat ->
    EdsLib_DataTypeIterator_Impl GD Callback StackSize fuel ref start s =
    walk GD Callback StackSize ref start s.
Proof. intros Hc He. by apply iterator_walks. Qed.

(** * Fields *)

Section Field.
Variable be : bool.
Variable DoFloatPack :
  list Z -> list Z -> Z -> Z -> EdsLib_NumberEncoding_Enum_t -> Z -> res (list Z * Z).
Variable DoFloatUnpack :
  list Z -> Z -> Z -> list Z -> EdsLib_NumberEncoding_Enum_t -> Z -> res (list Z).

(** The field read back where it was put. *)
Lemma put_field_at Dst dp off w q Dst' :
  0 <= dp -> 0 <= off -> 8 * dp + off + Z.of_nat (length w) <= 8 * zlen Dst ->
  put_field Dst dp off w q Dst' -> field_at Dst' dp off (Z.of_nat (length w)) = w.
Proof.
  intros Hdp Hoff Hfit (_ & Hl & Htk & _). unfold field_at.
  set (k := Z.to_nat (8 * dp + off)) in *.
  rewrite Nat2Z.id, take_drop_commute, Htk.
  apply drop_app_length'. rewrite length_take, flat_length. unfold k, zlen in *. lia.
Qed.


(** The value that unpacking delivers is one the field can express. *)
Lemma decode_representable d k w :
  field_kind_of d = Some k -> d_bits d <= 8 * d_bytes d -> length w = N_of d ->
  representable be d (decode be d w) = true.
Proof.
  intros Hk Hle Hlen. pose proof (kind_bits d _ Hk) as HB.
  assert (HN : Z.of_nat (N_of d) = d_bits d) by (unfold N_of; lia).
  assert (Hn : Z.of_nat (n_of d) = d_bytes d) by (unfold n_of; lia).
  unfold representable, decode. rewrite Hk. destruct (decide (k = KBinary)) as [->|Hnb].
  { apply forallb_negb_Forall. rewrite flat_chunks, skipn_firstn_comm, drop_app_length' by done. apply Forall_take, Forall_replicate. done. }
  assert (G : let v := native_value be d (native_bytes be (n_of d) (value_of_content d (field_val (d_le d) (d_inv d) w))) in
    (if d_signed d then int_range (d_enc d) (d_bits d) v else v <? 2 ^ d_bits d) = true); [|by destruct k].
  pose proof (field_val_range (d_le d) (d_inv d) w ltac:(lia)) as Hv. rewrite Hlen, HN in Hv.
  set (y := field_val _ _ _) in *. unfold native_value, value_of_content.
  assert (Hp : 2 ^ d_bits d <= 2 ^ (8 * Z.of_nat (n_of d))) by (apply Z.pow_le_mono_r; lia).
  assert (Hz : forall v, zlen (native_bytes be (n_of d) v) = d_bytes d)
    by (intros; unfold zlen; rewrite native_bytes_length; lia).
  cbv zeta. rewrite Hz, !native_val_bytes, Hn. destruct (d_signed d).
  - pose proof (dec_int_range (d_enc d) (d_bits d) y ltac:(lia) Hv) as Hr.
    assert (Hm : 2 ^ (d_bits d - 1) <= 2 ^ (8 * d_bytes d - 1)) by (apply Z.pow_le_mono_r; lia).
    rewrite sgn_mod; [done|lia|]. destruct (d_enc d); cbn [int_range] in Hr; lia.
  - rewrite Z.mod_small by (rewrite <- Hn; lia). lia.
Qed.

End Field.

(** * Objects *)

Section Objects.
Variable be : bool.
Variable DoFloatPack :
  list Z -> list Z -> Z -> Z -> EdsLib_NumberEncoding_Enum_t -> Z -> res (list Z * Z).
Variable DoFloatUnpack :
  list Z -> Z -> Z -> list Z -> EdsLib_NumberEncoding_Enum_t -> Z -> res (list Z).
Variable NumBuf0 : list Z.
Variable ValueBuff0 : EdsLib_GenericValueBuffer_t.
Variable fo : FloatOps.
Variable GD : EdsLib_DatabaseObject_t.

Abbreviation pack_object :=
  (EdsLib_DataTypeDB_PackPartialObject be DoFloatPack DoFloatUnpack NumBuf0 ValueBuff0 fo GD).
Abbreviation unpack_object :=
  (EdsLib_DataTypeDB_UnpackPartialObject be DoFloatPack DoFloatUnpack NumBuf0 ValueBuff0 fo GD).

End Objects.

(** * Error control *)


(** With the word checksum, an object whose field begins at a multiple of
    32 bits, with the whole word inside the object, cannot be handled: the
    mask of the field is computed by shifting a 32-bit one by 32, which C
    leaves undefined. *)
Theorem checksum_aligned_undefined m T k :
  0 <= k -> 4 * k + 4 <= T -> T <= zlen m -> 8 * T < 2 ^ 32 ->
  EdsLib_ErrorControlCompute EdsLib_ErrorControlType_CHECKSUM m (8 * T) (32 * k) = Fault.
Proof. intros. by apply checksum_fault. Qed.

(** * Complete objects *)

Section Complete.
Variable be : bool.
Variable DoFloatPack :
  list Z -> list Z -> Z -> Z -> EdsLib_NumberEncoding_Enum_t -> Z -> res (list Z * Z).
Variable DoFloatUnpack :
  list Z -> Z -> Z -> list Z -> EdsLib_NumberEncoding_Enum_t -> Z -> res (list Z).
Variable NumBuf0 : list Z.
Variable ValueBuff0 : EdsLib_GenericValueBuffer_t.
Variable fo : FloatOps.
Variable GD : EdsLib_DatabaseObject_t.

Abbreviation pack_complete :=
  (EdsLib_DataTypeDB_PackCompleteObject be DoFloatPack DoFloatUnpack NumBuf0 ValueBuff0 fo GD).
Abbreviation unpack_complete :=
  (EdsLib_DataTypeDB_UnpackCompleteObject be DoFloatPack DoFloatUnpack NumBuf0 ValueBuff0 fo GD).


End Complete.

(** * Derived types *)

(** C28. Identification of a derived type ends and is sound: for a container
    whose identification sequence is built as the tool builds it (each
    operation is the parent of the one that follows its success, an
    unsuccessful comparison leads back to the start or to another value of the
    same location), [EdsLib_DataTypeDB_IdentifyBuffer] returns on every buffer
    that covers the locations, either without a match or with an entry of the
    list of derived types; and then every constraint that the constraint
    iterator reports for the type found, a place and a value, holds in the
    buffer. *)
Theorem identify_sound be fo GD id d seq Buffer V V0 :
  EdsLib_DataTypeDB_GetEntry GD (EdsLib_Decode_StructId id) = Some d ->
  BasicType d = EDSLIB_BASICTYPE_CONTAINER ->
  let desc := Container (Detail d) in
  IdentSequenceList desc = Some seq -> seq_ok desc seq = true ->
  locations_ok GD desc Buffer -> refs_ok desc -> float_ok fo -> octets Buffer ->
  NoDup (map Deriv_RefObj (DerivativeList desc)) ->
  Forall (fun e => 0 <= AppIndex (Deriv_RefObj e) < 128 /\ 0 <= TypeIndex (Deriv_RefObj e) < 1024) (DerivativeList desc) ->
  value_ok V -> value_ok V0 ->
  exists N st r, (forall fuel, (N <= fuel)%nat ->
      EdsLib_DataTypeDB_IdentifyBuffer GD be fo fuel id V Buffer = Ok (st, r)) /\
    ((st = EDSLIB_NO_MATCHING_VALUE /\ r = None) \/
     exists k did L V',
       st = EDSLIB_SUCCESS /\ r = Some (k, did) /\
       EdsLib_DataTypeDB_GetDerivedTypeById GD id k = (EDSLIB_SUCCESS, Some did) /\
       (forall fuel, (N <= fuel)%nat ->
          EdsLib_DataTypeDB_ConstraintIterator_Impl GD be (Some collect) fuel
            (EdsLib_Decode_StructId did) (EdsLib_Decode_StructId id) V0 [] = Ok (EDSLIB_SUCCESS, V', L)) /\
       Forall (satisfied be fo GD Buffer) L).
Proof.
  intros Hd HB desc Hlist Hseq Hloc Hrefs Hf Ho Hnd Hder HV HV0.
  destruct (search_result be fo GD desc seq Buffer Hseq Hloc Hf Ho V HV) as (r & Hr & Hrun & Hres).
  assert (Hid : forall fuel, (Z.to_nat (IdentSequenceBase desc) < fuel)%nat ->
    EdsLib_DataTypeDB_IdentifyBuffer GD be fo fuel id V Buffer =
    let* (Status, r) := match kind_at seq r with
      | EDSLIB_IDENT_SEQUENCE_RESULT =>
          match DerivativeList desc !! Z.to_nat (RefIdx (op_at seq r)) with
          | None => Fault
          | Some e => Ok (EDSLIB_SUCCESS, Some (RefIdx (op_at seq r), Deriv_RefObj e))
          end
      | _ => Ok (EDSLIB_NO_MATCHING_VALUE, None)
      end in
    Ok (Status, match r with Some (i, ref) => Some (i, EdsLib_Encode_StructId (Some ref)) | None => None end)).
  { intros fuel Hfu. unfold EdsLib_DataTypeDB_IdentifyBuffer, EdsLib_DataTypeIdentifyBuffer_Impl. rewrite Hd.
    rewrite bool_decide_true by done. cbn [negb]. fold desc. rewrite Hlist, Hrun by done. done. }
  destruct (decide (kind_at seq r = EDSLIB_IDENT_SEQUENCE_RESULT)) as [Hk|Hk].
  2:{ exists (Datatypes.S (Z.to_nat (IdentSequenceBase desc))), EDSLIB_NO_MATCHING_VALUE, None. split; [|by left].
      intros fuel Hfu. rewrite Hid by lia. by destruct (kind_at seq r). }
  pose proof (seq_op desc seq r Hseq Hr) as Hop. unfold op_ok in Hop. fold (kind_at seq r) in Hop. rewrite Hk in Hop.
  destruct (DerivativeList desc !! Z.to_nat (RefIdx (op_at seq r))) as [e|] eqn:He; [|done].
  apply andb_true_iff in Hop as [Hidx%Z.eqb_eq H0].
  pose proof (proj1 (Forall_lookup _ _) Hder _ _ He) as [Ha Ht].
  destruct (walk_sat be fo GD desc seq Buffer Hrefs None _ (Hres Hk) I (set_type V0 EDSLIB_BASICTYPE_NONE) [])
    as (N & L & V' & HL & HV' & Hwalk); [done|].
  exists (Datatypes.S (Nat.max N (Z.to_nat (IdentSequenceBase desc)))), EDSLIB_SUCCESS,
    (Some (RefIdx (op_at seq r), EdsLib_Encode_StructId (Some (Deriv_RefObj e)))). split.
  { intros fuel Hfu. rewrite Hid by lia. by rewrite Hk. }
  right. exists (RefIdx (op_at seq r)), (EdsLib_Encode_StructId (Some (Deriv_RefObj e))), L, V'.
  split_and!; [done|done| | |done].
  - unfold EdsLib_DataTypeDB_GetDerivedTypeById. rewrite Hd, bool_decide_true by done. cbn [negb]. fold desc. by rewrite He.
  - intros [|fuel] Hfu; [lia|]. unfold EdsLib_DataTypeDB_ConstraintIterator_Impl.
    rewrite Hd, bool_decide_true by done. cbn [negb]. fold desc. rewrite Hlist.
    destruct (seq_tables desc seq Hseq) as [(v & vs & ->) (c & cs & ->)].
    rewrite Decode_Encode, (find_nodup _ _ _ Hnd He) by done. rewrite Hidx. cbn [constraint_walk].
    rewrite op_lookup by done. fold (kind_at seq r). rewrite Hk, Hwalk by lia. done.
Qed.

(** * Queries *)

(** The queries and the iterator agree: the members of a composite type
    that [EdsLib_DataTypeDB_GetMemberByIndex] reports are those that the
    iterator visits, in order, with the same type, offset and size, and no
    other index is accepted; and [EdsLib_DataTypeDB_GetMemberByNativeOffset]
    reports, for every octet of the object, the member whose range contains
    it. *)
Theorem members_located GD id dict :
  EdsLib_DataTypeDB_GetEntry GD (EdsLib_Decode_StructId id) = Some dict -> composite_ok dict = true ->
  exists ls, direct_members GD id dict = Some ls /\ zlen ls = NumSubElements dict /\
    (forall i, 0 <= i -> EdsLib_DataTypeDB_GetMemberByIndex GD id i =
       match ls !! Z.to_nat i with
       | Some m => (EDSLIB_SUCCESS, EntityInfo (EdsLib_Encode_StructId (Some (RefObj (Details m)))) (StartOffset m)
                                      (so_sub (EndOffset m) (StartOffset m)))
       | None => (EDSLIB_INVALID_INDEX, zero_entity)
       end) /\
    forall off, 0 <= off < Bytes (SizeInfo_ dict) ->
      exists i m, ls !! i = Some m /\ Bytes (StartOffset m) <= off < Bytes (EndOffset m) /\
        EdsLib_DataTypeDB_GetMemberByNativeOffset GD id off =
          Ok (EdsLib_DataTypeDB_GetMemberByIndex GD id (Z.of_nat i)).
Proof.
  intros Hget Hok. destruct (direct_members_spec GD id dict Hok) as (ls & HL & Hlen & Hall).
  assert (Hin : forall i, 0 <= i < NumSubElements dict -> exists m, ls !! Z.to_nat i = Some m).
  { intros i Hi. destruct (lookup_lt_is_Some_2 ls (Z.to_nat i)) as [m Hm]; [unfold zlen in *; lia|eauto]. }
  exists ls. split_and!; [done|done| |].
  - intros i Hi. rewrite (by_index GD id dict Hget Hok i Hi). destruct (Z.ltb_spec i (NumSubElements dict)).
    + destruct (Hin i ltac:(lia)) as [m Hm]. rewrite Hm. destruct (Hall _ m Hm) as (-> & -> & ->).
      by rewrite Z2Nat.id by lia.
    + rewrite lookup_ge_None_2; [done|]. unfold zlen in *. lia.
  - intros off Hoff. destruct (by_offset GD id dict Hget Hok off Hoff) as (i & Hi & Hr & HE).
    destruct (Hin i Hi) as [m Hm]. exists (Z.to_nat i), m. destruct (Hall _ m Hm) as (-> & -> & _).
    rewrite Z2Nat.id by lia. split_and!; [done|lia|lia|].
    rewrite HE, (by_index GD id dict Hget Hok i) by lia. by rewrite (proj2 (Z.ltb_lt _ _)) by lia.
Qed.

(** [EdsLib_DataTypeDB_InitializeNativeObject] writes what the constraint
    iterator reports and nothing else: the pass over the members, meant to set
    lengths and fixed values, runs without a packed object and with no field
    selected for recomputation, and leaves the object as it is. *)
Theorem initialize_only_constraints GD be fo ValueBuff0 id dict ls :
  db_counts GD -> EdsLib_DataTypeDB_GetEntry GD (EdsLib_Decode_StructId id) = Some dict ->
  is_composite (BasicType dict) = true -> post_layout GD (EdsLib_Decode_StructId id) dict = Some ls ->
  forall U, exists N, forall levels fuel, (N <= fuel)%nat ->
    EdsLib_DataTypeDB_InitializeNativeObject GD be fo ValueBuff0 levels fuel id U =
    EdsLib_DataTypeDB_ConstraintIterator GD be (Some (EdsLib_NativeObject_ConstraintInitCallback GD be fo))
      levels fuel EDSLIB_ID_INVALID id U.
Proof.
  intros Hc Hget Hcomp Hlay U.
  destruct (initialize_pass GD be fo ValueBuff0 (EdsLib_Decode_StructId id) dict ls U Hc Hget Hcomp Hlay) as [N HN].
  exists N. intros levels fuel Hf. unfold EdsLib_DataTypeDB_InitializeNativeObject. by rewrite HN.
Qed.

(** * Packed decimals *)

Lemma bcd_step fuel m i B T :
  0 <= i < B -> B <= 8 * zlen m -> zget m (Z.shiftr i 3) <> CH_MINUS ->
  exists T', bcd_packed_value (S fuel) m i B T = bcd_packed_value fuel m (i + 4) B T'.
Proof.
  intros Hi HB Hne. cbn [bcd_packed_value]. replace (i <? B) with true by lia.
  rewrite Z.shiftr_div_pow2 in * by lia. change (2 ^ 3) with 8 in *.
  pose proof (Z.div_mod i 8 ltac:(lia)). pose proof (Z.mod_pos_bound i 8 ltac:(lia)).
  rewrite rd_ok by lia. cbn [rbind]. rewrite (proj2 (Z.eqb_neq _ _)) by done. cbn [negb]. eauto.
Qed.

Lemma bcd_stuck m j B fuel : forall i T,
  0 <= i <= 8 * j -> i mod 4 = 0 -> 8 * j < B -> B <= 8 * zlen m -> zget m j = CH_MINUS ->
  bcd_packed_value fuel m i B T = Hang.
Proof.
  induction fuel as [|fuel IH]; intros i T Hi H4 Hj HB Hm; [done|].
  pose proof (Z.div_mod i 8 ltac:(lia)). pose proof (Z.mod_pos_bound i 8 ltac:(lia)).
  pose proof (Z.div_mod i 4 ltac:(lia)).
  destruct (decide (zget m (Z.shiftr i 3) = CH_MINUS)) as [E|Hne].
  - cbn [bcd_packed_value]. replace (i <? B) with true by lia.
    rewrite Z.shiftr_div_pow2 in * by lia. change (2 ^ 3) with 8 in *.
    rewrite rd_ok, E by lia. cbn [rbind]. rewrite Z.eqb_refl. by apply IH.
  - destruct (bcd_step fuel m i B T) as [T' ->]; [lia|done|done|].
    assert (i <> 8 * j).
    { intros ->. apply Hne. by rewrite Z.shiftr_div_pow2, Z.mul_comm, Z.div_mul by lia. }
    apply IH; [lia| |done..]. rewrite <- Z.add_mod_idemp_r by lia. change (4 mod 4) with 0. by rewrite Z.add_0_r.
Qed.

Lemma bcd_runs m B fuel : forall i T,
  0 <= i -> B <= 8 * zlen m -> (forall j, 0 <= j -> 8 * j < B -> zget m j <> CH_MINUS) ->
  B - i < Z.of_nat fuel -> 0 < Z.of_nat fuel -> exists v, bcd_packed_value fuel m i B T = Ok v.
Proof.
  induction fuel as [|fuel IH]; intros i T Hi HB Hne Hf H0; [lia|].
  destruct (decide (i < B)).
  - destruct (bcd_step fuel m i B T) as [T' ->]; [lia|done| |apply IH; lia || done].
    rewrite Z.shiftr_div_pow2 by lia. change (2 ^ 3) with 8.
    pose proof (Z.div_mod i 8 ltac:(lia)). pose proof (Z.mod_pos_bound i 8 ltac:(lia)). apply Hne; lia.
  - exists T. cbn [bcd_packed_value]. by replace (i <? B) with false by lia.
Qed.

(** C24. The loop that reads a packed decimal ends exactly when none of the
    octets of the field is 0x2D: its index advances only in the branch for the
    octets that are not a minus character.  The octet 0x2D is also the digit
    two followed by the negative sign nibble, so that a packed decimal such as
    -12 (0x01 0x2D) is never decoded. *)
Theorem bcd_packed_terminates m EncodingBits :
  0 <= EncodingBits <= 8 * zlen m ->
  (exists fuel v, bcd_packed_value fuel m 0 EncodingBits 0 = Ok v) <->
  (forall j, 0 <= j -> 8 * j < EncodingBits -> zget m j <> CH_MINUS).
Proof.
  intros HB. split.
  - intros (fuel & v & HE) j Hj HjB Hm. rewrite (bcd_stuck m j EncodingBits fuel) in HE by (done || lia). done.
  - intros Hne. exists (bcd_fuel EncodingBits). apply bcd_runs; [lia|lia|done|unfold bcd_fuel; lia..].
Qed.

(** * Base64 *)

(** Binary data survives base64 text: encoding [n] bits into a buffer with
    room for them succeeds, and decoding the text into any buffer of enough
    octets yields the first [kept n] bits of the data, zeros up to the octet
    boundary and leaves the octets after that as they were.  [kept n] is [n]
    when the data ends within an octet; data of whole octets loses the up to
    four bits that do not fill the last sextet. *)
Theorem base64_roundtrip Out0 OutputLenBytes In n Dst :
  0 < OutputLenBytes <= zlen Out0 -> OutputLenBytes < 2 ^ 32 ->
  octets In -> 0 <= n < 2 ^ 32 - 7 -> n <= 8 * zlen In -> n + 5 <= 6 * (OutputLenBytes - 1) ->
  (n + 7) / 8 <= zlen Dst ->
  exists T D, EdsLib_DisplayDB_Base64Encode Out0 OutputLenBytes In n = Ok T /\
    EdsLib_DisplayDB_Base64Decode Dst n T = Ok D /\
    let k := (n + 7) / 8 in
    flat D = take (Z.to_nat (kept n)) (flat In) ++ replicate (Z.to_nat (8 * k - kept n)) false ++
             flat (drop (Z.to_nat k) Dst).
Proof.
  intros HL HL32 Ho Hn Hin Hroom Hfit.
  destruct (Base64Encode_ok Out0 OutputLenBytes HL HL32 In n) as (T & t & HT & _ & Ht & Htx & Hz); [done|lia..|].
  exists T. rewrite (Base64Decode_ok Dst n T (take (tail_of t) t)); [|done|by apply Forall_take|done|done].
  eexists. split_and!; [done|done|]. cbv zeta.
  rewrite (chunks_zeq _ _ (take (Z.to_nat (kept n)) (flat In))) by (by rewrite flat6_tail).
  set (k := Z.to_nat ((n + 7) / 8)). unfold splice. rewrite take_0, app_nil_l, chunks_length, Nat.add_0_l.
  rewrite flat_app, flat_chunks, app_assoc. f_equal.
  pose proof (octet_ceil n ((n + 7) / 8) ltac:(lia)) as Hk8.
  assert (Hkept : 0 <= kept n <= n).
  { unfold kept. pose proof (Z.mod_pos_bound n 6 ltac:(lia)).
    pose proof (Z.mod_le n 6 ltac:(lia) ltac:(lia)). case_match; lia. }
  assert (HlK : length (take (Z.to_nat (kept n)) (flat In)) = Z.to_nat (kept n))
    by (rewrite length_take, flat_length; unfold zlen in *; lia).
  rewrite take_app_ge by (rewrite HlK; lia). f_equal. rewrite take_replicate. f_equal. lia.
Qed.
