(* ===== verification/EdsDemo.v ===== *)
(** A database with nested, unaligned and derived types, and the properties of
    the EDS runtime library applied to it on a little endian machine. *)

From S2P Require Import Prelude.
From S2P Require Import EdsTypes EdsBits EdsPack EdsField EdsNumber EdsCodec EdsErrorControl EdsIter EdsValue EdsObject EdsPost EdsQuery EdsObjectProofs EdsValueProofs EdsIdentProofs EdsRoundTrip EdsComplete EdsQueryProofs EdsVerify EdsBase64 EdsTheorems.

(** * The database *)

Definition demo_ref (i : Z) : EdsLib_DatabaseRef_t := DatabaseRef 0 i.
Definition no_number : EdsLib_NumberDescriptor_t :=
  NumberDescriptor EDSLIB_NUMBERENCODING_UNDEFINED EDSLIB_NUMBERBYTEORDER_UNDEFINED 0 0.
Definition no_container : EdsLib_ContainerDescriptor_t := ContainerDescriptor (SizeInfo 0 0) [] 0 [] None [] [].
Definition no_array : EdsLib_ArrayDescriptor_t := ArrayDescriptor (demo_ref 0).

Definition demo_number t enc order inv bits bytes : EdsLib_DataTypeDB_Entry_t :=
  DataTypeDB_Entry t 0 0 (SizeInfo bits bytes)
    (ObjectDetailDescriptor no_container no_array (NumberDescriptor enc order inv 0)).
Definition demo_container n bits bytes c : EdsLib_DataTypeDB_Entry_t :=
  DataTypeDB_Entry EDSLIB_BASICTYPE_CONTAINER 0 n (SizeInfo bits bytes) (ObjectDetailDescriptor c no_array no_number).
Definition demo_field t bits bytes i : EdsLib_FieldDetailEntry_t :=
  FieldDetailEntry t (SizeInfo bits bytes) (demo_ref i) zero_arg.

(** A 12-bit big endian number, a 5-bit two's complement number, a 7-bit
    inverted little endian sign-magnitude number. *)
Definition demo_u12 := demo_number EDSLIB_BASICTYPE_UNSIGNED_INT EDSLIB_NUMBERENCODING_UNSIGNED_INTEGER
  EDSLIB_NUMBERBYTEORDER_BIG_ENDIAN 0 12 2.
Definition demo_s5 := demo_number EDSLIB_BASICTYPE_SIGNED_INT EDSLIB_NUMBERENCODING_TWOS_COMPLEMENT
  EDSLIB_NUMBERBYTEORDER_BIG_ENDIAN 0 5 1.
Definition demo_sm7 := demo_number EDSLIB_BASICTYPE_SIGNED_INT EDSLIB_NUMBERENCODING_SIGN_MAGNITUDE
  EDSLIB_NUMBERBYTEORDER_LITTLE_ENDIAN 1 7 1.
Definition demo_u8 := demo_number EDSLIB_BASICTYPE_UNSIGNED_INT EDSLIB_NUMBERENCODING_UNSIGNED_INTEGER
  EDSLIB_NUMBERBYTEORDER_BIG_ENDIAN 0 8 1.

(** Two 12-bit numbers, and a structure of all of them. *)
Definition demo_pair : EdsLib_DataTypeDB_Entry_t :=
  DataTypeDB_Entry EDSLIB_BASICTYPE_ARRAY 0 2 (SizeInfo 24 4)
    (ObjectDetailDescriptor no_container (ArrayDescriptor (demo_ref 0)) no_number).
Definition demo_struct : EdsLib_DataTypeDB_Entry_t :=
  demo_container 4 48 8
    (ContainerDescriptor (SizeInfo 48 8)
       [demo_field EDSLIB_ENTRYTYPE_CONTAINER_ENTRY 0 0 0; demo_field EDSLIB_ENTRYTYPE_CONTAINER_ENTRY 12 2 1;
        demo_field EDSLIB_ENTRYTYPE_CONTAINER_ENTRY 17 3 2; demo_field EDSLIB_ENTRYTYPE_CONTAINER_ENTRY 24 4 7]
       0 [] None [] []).

(** A base type with one octet, and the type derived from it when the octet is
    one: four bits of padding and a 12-bit number follow. *)
Definition demo_base : EdsLib_DataTypeDB_Entry_t :=
  demo_container 1 8 1
    (ContainerDescriptor (SizeInfo 24 4) [demo_field EDSLIB_ENTRYTYPE_CONTAINER_ENTRY 0 0 3] 3
       [DerivativeEntry 1 (demo_ref 6)]
       (Some [IdentSequenceEntry EDSLIB_IDENT_SEQUENCE_INVALID 0 0 0 0;
              IdentSequenceEntry EDSLIB_IDENT_SEQUENCE_RESULT 0 0 2 0;
              IdentSequenceEntry EDSLIB_IDENT_SEQUENCE_VALUE_CONDITION 0 0 3 0;
              IdentSequenceEntry EDSLIB_IDENT_SEQUENCE_ENTITY_LOCATION 0 0 0 0])
       [ConstraintEntity (SizeInfo 0 0) (demo_ref 3)] [RefValue [] 1 1]).
Definition demo_derived : EdsLib_DataTypeDB_Entry_t :=
  demo_container 3 24 4
    (ContainerDescriptor (SizeInfo 24 4)
       [demo_field EDSLIB_ENTRYTYPE_BASE_TYPE 0 0 5; demo_field EDSLIB_ENTRYTYPE_CONTAINER_PADDING_ENTRY 8 1 99;
        demo_field EDSLIB_ENTRYTYPE_CONTAINER_ENTRY 12 2 0]
       0 [] None [] []).

(** A message: its length in octets less one, the fixed value 0xABC, a 12-bit
    number, CRC-16 and an octet. *)
Definition demo_u16 := demo_number EDSLIB_BASICTYPE_UNSIGNED_INT EDSLIB_NUMBERENCODING_UNSIGNED_INTEGER
  EDSLIB_NUMBERBYTEORDER_BIG_ENDIAN 0 16 2.
Definition demo_message : EdsLib_DataTypeDB_Entry_t :=
  let field t bits bytes i a := FieldDetailEntry t (SizeInfo bits bytes) (demo_ref i) a in
  demo_container 5 64 10
    (ContainerDescriptor (SizeInfo 64 10)
       [field EDSLIB_ENTRYTYPE_CONTAINER_LENGTH_ENTRY 0 0 8
          (HandlerArgument EdsLib_ErrorControlType_INVALID (Some (fun v => v - 1)) [] 0 0);
        field EDSLIB_ENTRYTYPE_CONTAINER_FIXED_VALUE_ENTRY 16 2 0
          (HandlerArgument EdsLib_ErrorControlType_INVALID None [] 0 0xABC);
        field EDSLIB_ENTRYTYPE_CONTAINER_ENTRY 28 4 0 zero_arg;
        field EDSLIB_ENTRYTYPE_CONTAINER_ERROR_CONTROL_ENTRY 40 6 8
          (HandlerArgument EdsLib_ErrorControlType_CRC16_CCITT None [] 0 0);
        field EDSLIB_ENTRYTYPE_CONTAINER_ENTRY 56 8 3 zero_arg]
       0 [] None [] []).

Definition demo_db : EdsLib_DatabaseObject_t :=
  [Some (App_DataTypeDB 0 [demo_u12; demo_s5; demo_sm7; demo_u8; demo_struct; demo_base; demo_derived; demo_pair;
                         demo_u16; demo_message])].

(** No field of the database needs a floating point conversion. *)
Definition demo_float_pack (_ _ : list Z) (_ _ : Z) (_ : EdsLib_NumberEncoding_Enum_t) (_ : Z) : res (list Z * Z) := Fault.
Definition demo_float_unpack (_ : list Z) (_ _ : Z) (_ : list Z) (_ : EdsLib_NumberEncoding_Enum_t) (_ : Z) : res (list Z) := Fault.
Definition demo_numbuf : list Z := replicate 32 0xA5.
Definition demo_valuebuff : EdsLib_GenericValueBuffer_t :=
  GenericValueBuffer EDSLIB_BASICTYPE_NONE (replicate 32 0).
Definition demo_float : FloatOps :=
  {| fp_sgl := 4; fp_dbl := 8; fp_max := 16; fp_load := take 16; fp_store := take; fp_of_int := fun _ => [];
     fp_to_signed := fun _ => 0; fp_to_unsigned := fun _ => 0; fp_eq := fun _ _ => false |}.

Abbreviation demo_pack_object :=
  (EdsLib_DataTypeDB_PackPartialObject false demo_float_pack demo_float_unpack demo_numbuf demo_valuebuff demo_float demo_db).
Abbreviation demo_unpack_object :=
  (EdsLib_DataTypeDB_UnpackPartialObject false demo_float_pack demo_float_unpack demo_numbuf demo_valuebuff demo_float demo_db).

(** The structure in memory: 0x123, -11, -3, 0x456, 0x789. *)
Definition demo_src : list Z := [0x23; 0x01; 0xF5; 0xFD; 0x56; 0x04; 0x89; 0x07].
Definition demo_leaves : list EdsLib_DataTypeIterator_StackEntry_t :=
  default [] (object_layout false demo_db (demo_ref 4) demo_struct).

Lemma octets_forallb l : forallb (fun b => (0 <=? b) && (b <? 256)) l = true -> octets l.
Proof.
  intros H. apply List.Forall_forall. intros b Hb. rewrite forallb_forall in H.
  specialize (H b Hb). unfold is_octet. lia.
Qed.

Lemma demo_counts : db_counts demo_db.
Proof.
  intros [a t] dict. unfold EdsLib_DataTypeDB_GetEntry, EdsLib_DataTypeDB_GetTopLevel, zget.
  cbn [AppIndex TypeIndex]. destruct (Z.geb_spec a (zlen demo_db)); [done|].
  change (zlen demo_db) with 1 in *.
  replace (Z.to_nat a) with 0%nat by lia. cbn [demo_db lookup_total list_lookup_total DataTypeTable].
  case_match; [done|]. intros H8%list_elem_of_lookup_2.
  repeat (apply elem_of_cons in H8 as [->|H8]; [cbn; lia|]). by apply elem_of_nil in H8.
Qed.

Lemma demo_packable : packable false demo_db (demo_ref 4) demo_struct demo_leaves.
Proof. constructor; try (vm_compute; reflexivity); cbn; lia. Qed.

(** The iterator on the structure, with a callback that enters every composite
    member and records the bit offset of each member. *)
Definition demo_callback (t : EdsLib_Iterator_CbType_t) (e : EdsLib_DataTypeIterator_StackEntry_t) (s : list Z)
    : res (EdsLib_Iterator_Rc_t * list Z) :=
  match t with
  | EDSLIB_ITERATOR_CBTYPE_MEMBER =>
      Ok (match DataDictPtr e with
          | Some d => if is_composite (BasicType d) then EDSLIB_ITERATOR_RC_DESCEND else EDSLIB_ITERATOR_RC_CONTINUE
          | None => EDSLIB_ITERATOR_RC_CONTINUE
          end, s ++ [Bits (StartOffset e)])
  | _ => Ok (EDSLIB_ITERATOR_RC_CONTINUE, s)
  end.

Lemma iterator_is_recursion_witness :
  walk demo_db demo_callback 32 (demo_ref 4) zero_size [] = Ok (EDSLIB_SUCCESS, [0; 12; 17; 24; 24; 36]) /\
  exists N, forall fuel, (N <= fuel)%nat ->
    EdsLib_DataTypeIterator_Impl demo_db demo_callback 32 fuel (demo_ref 4) zero_size [] =
    walk demo_db demo_callback 32 (demo_ref 4) zero_size [].
Proof.
  split; [vm_compute; reflexivity|].
  apply (iterator_is_recursion demo_db (list Z) demo_callback 32 (demo_ref 4) zero_size []).
  - exact demo_counts.
  - intros e s rc s' H. injection H as <- _. discriminate.
Defined.




(** The packed octets of the structure. *)
Example demo_packed :
  demo_pack_object 1 20 4 (replicate 6 0xFF) demo_src 48 8 0 =
  Ok (EDSLIB_SUCCESS, 4, [0x12; 0x3A; 0xBC; 0x45; 0x67; 0x89]).
Proof. vm_compute. reflexivity. Qed.

(** * Error control and complete objects *)


(** The check value of CRC-16/CCITT with initial value 0xFFFF: the characters
    "123456789", around the field. *)
Example demo_crc16 :
  EdsLib_ErrorControlCompute EdsLib_ErrorControlType_CRC16_CCITT [49; 50; 51; 0; 0; 52; 53; 54; 55; 56; 57] 88 24 = Ok 0x29B1.
Proof. vm_compute. reflexivity. Qed.

Lemma checksum_aligned_undefined_witness :
  EdsLib_ErrorControlCompute EdsLib_ErrorControlType_CHECKSUM (replicate 12 1) (8 * 12) (32 * 1) = Fault.
Proof. apply (checksum_aligned_undefined (replicate 12 1) 12 1); vm_compute; try reflexivity; discriminate. Defined.

Abbreviation demo_pack_complete :=
  (EdsLib_DataTypeDB_PackCompleteObject false demo_float_pack demo_float_unpack demo_numbuf demo_valuebuff demo_float demo_db).
Abbreviation demo_unpack_complete :=
  (EdsLib_DataTypeDB_UnpackCompleteObject false demo_float_pack demo_float_unpack demo_numbuf demo_valuebuff demo_float demo_db).

(** The message in memory: only 0x123 and 0x77 matter. *)
Definition demo_msg : list Z := [9; 9; 9; 9; 0x23; 0x01; 9; 9; 0x77; 9].
Definition demo_msg_leaves : list EdsLib_DataTypeIterator_StackEntry_t :=
  default [] (object_layout false demo_db (demo_ref 9) demo_message).
Definition demo_msg_crc : EdsLib_DataTypeIterator_StackEntry_t := List.nth 3 demo_msg_leaves zero_entry.

Lemma demo_msg_packable : packable false demo_db (demo_ref 9) demo_message demo_msg_leaves.
Proof. constructor; try (vm_compute; reflexivity); cbn; lia. Qed.

Lemma demo_msg_completable :
  completable false demo_db (demo_ref 9) demo_message demo_msg_leaves demo_msg_leaves.
Proof. constructor; [vm_compute; reflexivity|reflexivity|vm_compute; reflexivity|vm_compute; lia]. Qed.

Lemma demo_value_ok : value_ok demo_valuebuff.
Proof. split; [reflexivity|]. apply octets_forallb. vm_compute. reflexivity. Qed.



(** The octets of the message, and what happens when one is changed. *)
Example demo_complete :
  demo_pack_complete 1 30 9 (replicate 8 0xFF) demo_msg 64 10 =
    Ok (EDSLIB_SUCCESS, 9, [0x00; 0x07; 0xAB; 0xC1; 0x23; 0xD1; 0xAF; 0x77]) /\
  demo_unpack_complete 1 30 9 (replicate 10 0) [0x00; 0x07; 0xAB; 0xC1; 0x23; 0xD1; 0xAF; 0x77] 10 64 =
    Ok (EDSLIB_SUCCESS, 9, [0x07; 0x00; 0xBC; 0x0A; 0x23; 0x01; 0xAF; 0xD1; 0x77; 0x00]) /\
  demo_unpack_complete 1 30 9 (replicate 10 0) [0x00; 0x07; 0xAB; 0xC1; 0x22; 0xD1; 0xAF; 0x77] 10 64 =
    Ok (EDSLIB_ERROR_CONTROL_MISMATCH, 9, [0x07; 0x00; 0xBC; 0x0A; 0x22; 0x01; 0xAF; 0xD1; 0x77; 0x00]).
Proof. split_and!; vm_compute; reflexivity. Qed.

(** * Queries and derived types *)

Lemma members_located_witness :
  exists ls, direct_members demo_db 4 demo_struct = Some ls /\ zlen ls = NumSubElements demo_struct /\
    (forall i, 0 <= i -> EdsLib_DataTypeDB_GetMemberByIndex demo_db 4 i =
       match ls !! Z.to_nat i with
       | Some m => (EDSLIB_SUCCESS, EntityInfo (EdsLib_Encode_StructId (Some (RefObj (Details m)))) (StartOffset m)
                                      (so_sub (EndOffset m) (StartOffset m)))
       | None => (EDSLIB_INVALID_INDEX, zero_entity)
       end) /\
    forall off, 0 <= off < Bytes (SizeInfo_ demo_struct) ->
      exists i m, ls !! i = Some m /\ Bytes (StartOffset m) <= off < Bytes (EndOffset m) /\
        EdsLib_DataTypeDB_GetMemberByNativeOffset demo_db 4 off =
          Ok (EdsLib_DataTypeDB_GetMemberByIndex demo_db 4 (Z.of_nat i)).
Proof. apply (members_located demo_db 4 demo_struct); vm_compute; reflexivity. Defined.

Definition demo_seq : list EdsLib_IdentSequenceEntry_t := default [] (IdentSequenceList (Container (Detail demo_base))).

Lemma identify_sound_witness :
  exists N st r, (forall fuel, (N <= fuel)%nat ->
      EdsLib_DataTypeDB_IdentifyBuffer demo_db false demo_float fuel 5 demo_valuebuff [1; 0; 0x23; 1] = Ok (st, r)) /\
    ((st = EDSLIB_NO_MATCHING_VALUE /\ r = None) \/
     exists k did L V',
       st = EDSLIB_SUCCESS /\ r = Some (k, did) /\
       EdsLib_DataTypeDB_GetDerivedTypeById demo_db 5 k = (EDSLIB_SUCCESS, Some did) /\
       (forall fuel, (N <= fuel)%nat ->
          EdsLib_DataTypeDB_ConstraintIterator_Impl demo_db false (Some collect) fuel
            (EdsLib_Decode_StructId did) (EdsLib_Decode_StructId 5) zero_value [] = Ok (EDSLIB_SUCCESS, V', L)) /\
       Forall (satisfied false demo_float demo_db [1; 0; 0x23; 1]) L).
Proof.
  apply (identify_sound false demo_float demo_db 5 demo_base demo_seq [1; 0; 0x23; 1] demo_valuebuff zero_value);
    try (vm_compute; reflexivity); try (apply octets_forallb; vm_compute; reflexivity).
  - repeat constructor.
  - split; repeat constructor; cbn; lia.
  - intros l Hl. split; [by apply octets_take|]. unfold zlen, VALUEBUFFER_SIZE. cbn [demo_float fp_load].
    rewrite length_take. lia.
  - repeat constructor. cbn. apply not_elem_of_nil.
  - repeat constructor; cbn; lia.
  - exact demo_value_ok.
  - exact zero_value_ok.
Defined.

(** What is identified, and the constraint behind it. *)
Example demo_identify :
  EdsLib_DataTypeDB_IdentifyBuffer demo_db false demo_float 9 5 demo_valuebuff [1; 0; 0x23; 1] = Ok (EDSLIB_SUCCESS, Some (0, 6)) /\
  EdsLib_DataTypeDB_IdentifyBuffer demo_db false demo_float 9 5 demo_valuebuff [2; 0; 0x23; 1] = Ok (EDSLIB_NO_MATCHING_VALUE, None) /\
  (let* (st, _, L) := EdsLib_DataTypeDB_ConstraintIterator_Impl demo_db false (Some collect) 9 (demo_ref 6) (demo_ref 5) zero_value [] in
   Ok (st, map (fun x => (fst x, word false (snd x))) L)) =
    Ok (EDSLIB_SUCCESS, [(EntityInfo 3 (SizeInfo 0 0) (SizeInfo 8 1), 1)]).
Proof. split_and!; vm_compute; reflexivity. Qed.

Lemma initialize_only_constraints_witness :
  exists N, forall levels fuel, (N <= fuel)%nat ->
    EdsLib_DataTypeDB_InitializeNativeObject demo_db false demo_float demo_valuebuff levels fuel 9 (replicate 10 0) =
    EdsLib_DataTypeDB_ConstraintIterator demo_db false
      (Some (EdsLib_NativeObject_ConstraintInitCallback demo_db false demo_float)) levels fuel EDSLIB_ID_INVALID 9 (replicate 10 0).
Proof.
  apply (initialize_only_constraints demo_db false demo_float demo_valuebuff 9 demo_message demo_msg_leaves demo_counts);
    vm_compute; reflexivity.
Defined.

(** The database with a derived type that has no padding. *)
Definition demo_tight : EdsLib_DataTypeDB_Entry_t :=
  demo_container 2 24 4
    (ContainerDescriptor (SizeInfo 24 4)
       [demo_field EDSLIB_ENTRYTYPE_BASE_TYPE 0 0 5; demo_field EDSLIB_ENTRYTYPE_CONTAINER_ENTRY 12 2 0] 0 [] None [] []).
Definition demo_tight_db : EdsLib_DatabaseObject_t :=
  [Some (App_DataTypeDB 0 [demo_u12; demo_s5; demo_sm7; demo_u8; demo_struct; demo_base; demo_tight])].

(** The fixed value of a message is not set, the constraint of a derived type
    is; a padding entry without a type is not skipped. *)
Example demo_initialize :
  EdsLib_DataTypeDB_InitializeNativeObject demo_db false demo_float demo_valuebuff 5 50 9 (replicate 10 0) =
    Ok (EDSLIB_INVALID_SIZE_OR_TYPE, replicate 10 0) /\
  EdsLib_DataTypeDB_InitializeNativeObject demo_tight_db false demo_float demo_valuebuff 5 50 6 (replicate 4 0) =
    Ok (EDSLIB_SUCCESS, [1; 0; 0; 0]) /\
  EdsLib_DataTypeDB_InitializeNativeObject demo_db false demo_float demo_valuebuff 5 50 6 (replicate 4 0) = Fault.
Proof. repeat split; vm_compute; reflexivity. Qed.

(** * Packed decimals *)

(** -12 as a packed decimal. *)
Lemma bcd_packed_terminates_witness :
  (exists fuel v, bcd_packed_value fuel [0x01; 0x2D] 0 16 0 = Ok v) <->
  (forall j, 0 <= j -> 8 * j < 16 -> zget [0x01; 0x2D] j <> CH_MINUS).
Proof. apply (bcd_packed_terminates [0x01; 0x2D] 16). vm_compute. split; discriminate. Defined.

(** One octet keeps six of its bits, twelve bits are kept whole. *)
Lemma base64_roundtrip_witness :
  exists T D, EdsLib_DisplayDB_Base64Encode (replicate 8 0) 8 [0xDE] 8 = Ok T /\
    EdsLib_DisplayDB_Base64Decode [0xFF; 0xFF] 8 T = Ok D /\
    let k := (8 + 7) / 8 in
    flat D = take (Z.to_nat (kept 8)) (flat [0xDE]) ++ replicate (Z.to_nat (8 * k - kept 8)) false ++
             flat (drop (Z.to_nat k) [0xFF; 0xFF]).
Proof.
  apply (base64_roundtrip (replicate 8 0) 8 [0xDE] 8 [0xFF; 0xFF]);
    try (apply octets_forallb; vm_compute; reflexivity); vm_compute; try split; try reflexivity; discriminate.
Defined.

Example demo_base64 :
  (let* T := EdsLib_DisplayDB_Base64Encode (replicate 8 0) 8 [0xDE] 8 in
   EdsLib_DisplayDB_Base64Decode [0xFF; 0xFF] 8 T) = Ok [0xDC; 0xFF] /\
  (let* T := EdsLib_DisplayDB_Base64Encode (replicate 8 0) 8 [0xDE; 0xA5] 12 in
   EdsLib_DisplayDB_Base64Decode [0xFF; 0xFF] 12 T) = Ok [0xDE; 0xA0].
Proof. split; vm_compute; reflexivity. Qed.

(** * Derived types *)

(** When packing goes on from a base type to the type identified from its
    value, the rest of the destination is not cleared: the callback clears only
    at the start of an object whose reference equals the control block's, and
    during the second pass that is still the base type.  So the bits of the
    derived part that no member covers keep what the caller's buffer held:
    packing the same object into a buffer filled with [b] leaves the upper half
    of [b] in the padding. *)
Theorem derived_padding_not_cleared b :
  is_octet b ->
  demo_pack_object 3 50 5 [b; b; b] [1; 0; 0x23; 0x01] 24 4 0 =
  Ok (EDSLIB_SUCCESS, 6, [1; Z.lor (Z.land b 0xF0) 1; 0x23]).
Proof.
  intros Hb. eapply bool_decide_eq_true. revert b Hb. apply (exhaust 256). vm_compute. reflexivity.
Qed.

Lemma derived_padding_not_cleared_witness :
  demo_pack_object 3 50 5 [0xFF; 0xFF; 0xFF] [1; 0; 0x23; 0x01] 24 4 0 =
    Ok (EDSLIB_SUCCESS, 6, [1; 0xF1; 0x23]) /\
  demo_pack_object 3 50 5 [0; 0; 0] [1; 0; 0x23; 0x01] 24 4 0 =
    Ok (EDSLIB_SUCCESS, 6, [1; 0x01; 0x23]).
Proof.
  split; [apply (derived_padding_not_cleared 0xFF)|apply (derived_padding_not_cleared 0)];
    unfold is_octet; lia.
Defined.
