(* ===== verification/Records.v ===== *)
(** Update of one field of a record: [r <| field := v |>].

    A record type declares its eta expansion once, as an instance of [Eta]; the
    update of a projection is that expansion with the projection replaced. *)

From S2P Require Import Prelude.

Class Eta (R : Type) := eta : R -> R.

(** [upd p f r] applies [f] to the field [p] of [r]. *)
Class Field {R T : Type} (p : R -> T) := upd : (T -> T) -> R -> R.

Ltac find_field p :=
  match type of p with
  | ?R -> ?T =>
      let i := constr:(_ : Eta R) in
      let e := eval hnf in i in
      let h := eval pattern p in e in
      match h with
      | ?F p => exact (fun (f : T -> T) => F (fun r => f (p r)))
      end
  end.

#[export] Hint Extern 1 (Field ?p) => find_field p : typeclass_instances.

Notation "r <| p := v |>" := (upd (p := p) (fun _ => v) r)
  (at level 1, left associativity, p constr at level 8, v constr at level 200,
   format "r  <| p  :=  v |>").
Notation "r <| p ::= f |>" := (upd (p := p) f r)
  (at level 1, left associativity, p constr at level 8, f constr at level 200,
   format "r  <| p  ::=  f |>").
