(* ===== verification/TimeMath.v ===== *)
(** Time values and their arithmetic: the calls of cfe_time_api.c that need no
    state, and the clock conversions of OSAL (osapi-clock.h) they use. *)

From S2P Require Import Prelude.

Record CFE_TIME_SysTime_t := SysTime { Seconds : Z; Subseconds : Z }.

#[export] Instance SysTime_eq_dec : EqDecision CFE_TIME_SysTime_t.
Proof. solve_decision. Defined.
#[export] Instance SysTime_inhabited : Inhabited CFE_TIME_SysTime_t := populate (SysTime 0 0).

(** ** Clock values of OSAL *)

(** Ticks of 100 nanoseconds. *)
Definition OS_TIME_TICK_RESOLUTION_NS : Z := 100.
Definition OS_TIME_TICKS_PER_SECOND : Z := Z.quot 1000000000 OS_TIME_TICK_RESOLUTION_NS.
Definition OS_TIME_TICKS_PER_USEC : Z := Z.quot 1000 OS_TIME_TICK_RESOLUTION_NS.
Record OS_time_t := OS_time { ticks : Z }.

Definition OS_TimeGetTotalSeconds (tm : OS_time_t) : Z := Z.quot (ticks tm) OS_TIME_TICKS_PER_SECOND.
Definition OS_TimeGetFractionalPart (tm : OS_time_t) : Z := Z.rem (ticks tm) OS_TIME_TICKS_PER_SECOND.
Definition OS_TimeGetSubsecondsPart (tm : OS_time_t) : Z :=
  let frac := Z.shiftl (OS_TimeGetFractionalPart tm) 30 + Z.shiftr OS_TIME_TICKS_PER_SECOND 2 in
  u32 (Z.quot (frac - 1) (Z.shiftr OS_TIME_TICKS_PER_SECOND 2)).
Definition OS_TimeGetMicrosecondsPart (tm : OS_time_t) : Z :=
  u32 (OS_TimeGetFractionalPart tm) / OS_TIME_TICKS_PER_USEC.
Definition OS_TimeAssembleFromNanoseconds (seconds nanoseconds : Z) : OS_time_t :=
  OS_time (seconds * OS_TIME_TICKS_PER_SECOND + nanoseconds / OS_TIME_TICK_RESOLUTION_NS).
Definition OS_TimeAssembleFromSubseconds (seconds subseconds : Z) : OS_time_t :=
  OS_time (seconds * OS_TIME_TICKS_PER_SECOND +
           Z.shiftr (subseconds * Z.shiftr OS_TIME_TICKS_PER_SECOND 2) 30).

(** ** Arithmetic *)

Definition CFE_TIME_Add (Time1 Time2 : CFE_TIME_SysTime_t) : CFE_TIME_SysTime_t :=
  let sub := u32 (Subseconds Time1 + Subseconds Time2) in
  SysTime (if sub <? Subseconds Time1 then u32 (u32 (Seconds Time1 + Seconds Time2) + 1)
           else u32 (Seconds Time1 + Seconds Time2)) sub.

Definition CFE_TIME_Subtract (Time1 Time2 : CFE_TIME_SysTime_t) : CFE_TIME_SysTime_t :=
  let sub := u32 (Subseconds Time1 - Subseconds Time2) in
  SysTime (if sub >? Subseconds Time1 then u32 (u32 (Seconds Time1 - Seconds Time2) - 1)
           else u32 (Seconds Time1 - Seconds Time2)) sub.

Inductive CFE_TIME_Compare_t := CFE_TIME_A_LT_B | CFE_TIME_EQUAL | CFE_TIME_A_GT_B.
#[export] Instance Compare_eq_dec : EqDecision CFE_TIME_Compare_t.
Proof. solve_decision. Defined.

Definition CFE_TIME_NEGATIVE : Z := 0x80000000.

Definition CFE_TIME_Compare (TimeA TimeB : CFE_TIME_SysTime_t) : CFE_TIME_Compare_t :=
  if Seconds TimeA >? Seconds TimeB then
    if u32 (Seconds TimeA - Seconds TimeB) >? CFE_TIME_NEGATIVE then CFE_TIME_A_LT_B else CFE_TIME_A_GT_B
  else if Seconds TimeA <? Seconds TimeB then
    if u32 (Seconds TimeB - Seconds TimeA) >? CFE_TIME_NEGATIVE then CFE_TIME_A_GT_B else CFE_TIME_A_LT_B
  else if Subseconds TimeA >? Subseconds TimeB then CFE_TIME_A_GT_B
  else if Subseconds TimeA <? Subseconds TimeB then CFE_TIME_A_LT_B
  else CFE_TIME_EQUAL.

Definition CFE_TIME_Sub2MicroSecs (SubSeconds : Z) : Z :=
  OS_TimeGetMicrosecondsPart (OS_TimeAssembleFromSubseconds 0 SubSeconds).

Definition CFE_TIME_Micro2SubSecs (MicroSeconds : Z) : Z :=
  if MicroSeconds >? 999999 then 0xFFFFFFFF
  else OS_TimeGetSubsecondsPart (OS_TimeAssembleFromNanoseconds 0 (u32 (MicroSeconds * 1000))).

(** ** Calendar text *)

(** The epoch of the mission configuration. *)
Record Epoch := mk_Epoch {
  EPOCH_YEAR : Z; EPOCH_DAY : Z; EPOCH_HOUR : Z; EPOCH_MINUTE : Z; EPOCH_SECOND : Z }.

Definition DaysInThisYear (NumberOfYears : Z) : Z :=
  if NumberOfYears mod 4 =? 0 then
    if negb (NumberOfYears mod 100 =? 0) then 366
    else if NumberOfYears mod 400 =? 0 then 366 else 365
  else 365.

(** [while (StillCountingYears)]; [None] when the fuel ends. *)
Fixpoint count_years (fuel : nat) (NumberOfYears NumberOfDays : Z) : option (Z * Z) :=
  match fuel with
  | O => None
  | S fuel =>
      let d := DaysInThisYear NumberOfYears in
      if NumberOfDays <? d then Some (NumberOfYears, NumberOfDays)
      else count_years fuel (u32 (NumberOfYears + 1)) (u32 (NumberOfDays - d))
  end.

(** [while (NumberOfSeconds >= 60)]. *)
Fixpoint carry_seconds (fuel : nat) (NumberOfMinutes NumberOfSeconds : Z) : option (Z * Z) :=
  match fuel with
  | O => None
  | S fuel =>
      if NumberOfSeconds >=? 60 then carry_seconds fuel (u32 (NumberOfMinutes + 1)) (u32 (NumberOfSeconds - 60))
      else Some (NumberOfMinutes, NumberOfSeconds)
  end.

(** Years, days, hours, minutes, seconds. *)
Definition calendar (E : Epoch) (t : CFE_TIME_SysTime_t) : option (Z * Z * Z * Z * Z) :=
  let NumberOfMinutes := u32 (Seconds t / 60 + EPOCH_MINUTE E) in
  let NumberOfSeconds := u32 (Seconds t mod 60 + EPOCH_SECOND E) in
  '(NumberOfMinutes, NumberOfSeconds) ← carry_seconds (S (Z.to_nat (NumberOfSeconds / 60))) NumberOfMinutes NumberOfSeconds;
  let NumberOfHours := u32 (NumberOfMinutes / 60 + EPOCH_HOUR E) in
  let NumberOfMinutes := NumberOfMinutes mod 60 in
  let NumberOfDays := u32 (NumberOfHours / 24 + (EPOCH_DAY E - 1)) in
  let NumberOfHours := NumberOfHours mod 24 in
  '(NumberOfYears, NumberOfDays) ← count_years (S (Z.to_nat (NumberOfDays / 365))) (EPOCH_YEAR E) NumberOfDays;
  Some (NumberOfYears, u32 (NumberOfDays + 1), NumberOfHours, NumberOfMinutes, NumberOfSeconds).

Definition digit (x : Z) : Z := u8 (48 + u8 x).

(** The characters written from [PrintBuffer] on. *)
Definition CFE_TIME_Print (E : Epoch) (TimeToPrint : CFE_TIME_SysTime_t) : option (list Z) :=
  '(Y, D, h, m, s) ← calendar E TimeToPrint;
  let u := CFE_TIME_Sub2MicroSecs (Subseconds TimeToPrint) / 10 in
  Some [digit (Y / 1000); digit (Y mod 1000 / 100); digit (Y mod 1000 mod 100 / 10); digit (Y mod 1000 mod 100 mod 10); 45;
        digit (D / 100); digit (D mod 100 / 10); digit (D mod 100 mod 10); 45;
        digit (h / 10); digit (h mod 10); 58;
        digit (m / 10); digit (m mod 10); 58;
        digit (s / 10); digit (s mod 10); 46;
        digit (u / 10000); digit (u mod 10000 / 1000); digit (u mod 10000 mod 1000 / 100);
        digit (u mod 10000 mod 1000 mod 100 / 10); digit (u mod 10000 mod 1000 mod 100 mod 10); 0].
Definition CFE_TIME_PRINTED_STRING_SIZE : Z := 24.

(** ** Time values as numbers of 2^-32 seconds *)

Definition sys_ok (t : CFE_TIME_SysTime_t) : Prop := is_u32 (Seconds t) /\ is_u32 (Subseconds t).
Definition instant (t : CFE_TIME_SysTime_t) : Z := Seconds t * 2 ^ 32 + Subseconds t.
Definition of_instant (x : Z) : CFE_TIME_SysTime_t := SysTime (u32 (x / 2 ^ 32)) (u32 x).

Ltac machine :=
  unfold is_u16, is_u32, is_u64, u8, u16, u32, u64 in *;
  change (2 ^ 8) with 256 in *; change (2 ^ 16) with 65536 in *; change (2 ^ 32) with 4294967296 in *;
  change (2 ^ 64) with 18446744073709551616 in *.
Ltac machine_lia := machine; Z.to_euclidean_division_equations; lia.

Lemma of_instant_ok x : sys_ok (of_instant x).
Proof. split; apply u32_range. Qed.

Lemma instant_of x : instant (of_instant x) = u64 x.
Proof. unfold instant, of_instant. cbn [Seconds Subseconds]. machine_lia. Qed.

Lemma of_instant_instant t : sys_ok t -> of_instant (instant t) = t.
Proof.
  destruct t as [s u]. unfold sys_ok, of_instant, instant. cbn [Seconds Subseconds]. intros [Hs Hu].
  f_equal; machine_lia.
Qed.

Lemma instant_range t : sys_ok t -> is_u64 (instant t).
Proof. unfold sys_ok, instant. intros [Hs Hu]. machine_lia. Qed.

Lemma of_instant_u64 x y : u64 x = u64 y -> of_instant x = of_instant y.
Proof. unfold of_instant. intros H. f_equal; machine_lia. Qed.

Lemma Add_instant a b : sys_ok a -> sys_ok b -> CFE_TIME_Add a b = of_instant (instant a + instant b).
Proof.
  destruct a as [s u], b as [s' u']. unfold sys_ok, CFE_TIME_Add, of_instant, instant. cbn [Seconds Subseconds].
  intros [Hs Hu] [Hs' Hu']. case_test; f_equal; machine_lia.
Qed.

Lemma Subtract_instant a b : sys_ok a -> sys_ok b -> CFE_TIME_Subtract a b = of_instant (instant a - instant b).
Proof.
  destruct a as [s u], b as [s' u']. unfold sys_ok, CFE_TIME_Subtract, of_instant, instant. cbn [Seconds Subseconds].
  intros [Hs Hu] [Hs' Hu']. case_test; f_equal; machine_lia.
Qed.

Lemma Add_ok a b : sys_ok a -> sys_ok b -> sys_ok (CFE_TIME_Add a b).
Proof. intros. rewrite Add_instant by done. apply of_instant_ok. Qed.
Lemma Subtract_ok a b : sys_ok a -> sys_ok b -> sys_ok (CFE_TIME_Subtract a b).
Proof. intros. rewrite Subtract_instant by done. apply of_instant_ok. Qed.

Create HintDb time discriminated.
#[export] Hint Resolve of_instant_ok Add_ok Subtract_ok u32_range : time.

(** Comparison is that of the true instants, also across a roll-over of the
    seconds, as long as the seconds are less than half a turn apart. *)
Lemma Compare_instant x y :
  Z.abs (x / 2 ^ 32 - y / 2 ^ 32) < 2 ^ 31 ->
  CFE_TIME_Compare (of_instant x) (of_instant y) =
  match x ?= y with Lt => CFE_TIME_A_LT_B | Eq => CFE_TIME_EQUAL | Gt => CFE_TIME_A_GT_B end.
Proof.
  unfold CFE_TIME_Compare, of_instant, CFE_TIME_NEGATIVE. cbn [Seconds Subseconds]. intros H.
  change (2 ^ 31) with 2147483648 in *. destruct (Z.compare_spec x y); repeat case_test; try done; exfalso; machine_lia.
Qed.

(** The two directions of a comparison always agree. *)
Lemma Compare_antisym a b :
  sys_ok a -> sys_ok b ->
  CFE_TIME_Compare b a =
  match CFE_TIME_Compare a b with
  | CFE_TIME_A_LT_B => CFE_TIME_A_GT_B | CFE_TIME_EQUAL => CFE_TIME_EQUAL | CFE_TIME_A_GT_B => CFE_TIME_A_LT_B
  end.
Proof.
  unfold CFE_TIME_Compare. intros [] []. destruct a, b. cbn [Seconds Subseconds] in *.
  repeat case_test; done || (exfalso; lia).
Qed.

Lemma Compare_eq a b : CFE_TIME_Compare a b = CFE_TIME_EQUAL <-> a = b.
Proof.
  unfold CFE_TIME_Compare. destruct a, b. cbn [Seconds Subseconds].
  split; [|intros [= -> ->]]; repeat case_test; try done; intros; f_equal; lia.
Qed.

(** ** Conversions of the fraction *)

Lemma Sub2Micro_floor s : is_u32 s -> CFE_TIME_Sub2MicroSecs s = s * 1000000 / 2 ^ 32.
Proof.
  intros Hs. unfold CFE_TIME_Sub2MicroSecs, OS_TimeGetMicrosecondsPart, OS_TimeGetFractionalPart, OS_TimeAssembleFromSubseconds.
  cbn [ticks]. change (Z.shiftr OS_TIME_TICKS_PER_SECOND 2) with 2500000.
  change OS_TIME_TICKS_PER_SECOND with 10000000. change OS_TIME_TICKS_PER_USEC with 10.
  rewrite Z.shiftr_div_pow2 by lia. change (2 ^ 30) with 1073741824.
  assert (H : 0 <= s * 2500000 / 1073741824 < 10000000) by machine_lia.
  rewrite Z.rem_small, u32_id by machine_lia. machine_lia.
Qed.

Lemma Micro2Sub_ceil us : 0 <= us < 1000000 -> CFE_TIME_Micro2SubSecs us = (us * 2 ^ 32 + 999999) / 1000000.
Proof.
  intros Hs. unfold CFE_TIME_Micro2SubSecs, OS_TimeGetSubsecondsPart, OS_TimeGetFractionalPart, OS_TimeAssembleFromNanoseconds.
  replace (us >? 999999) with false by lia.
  cbn [ticks]. change (Z.shiftr OS_TIME_TICKS_PER_SECOND 2) with 2500000.
  change OS_TIME_TICKS_PER_SECOND with 10000000. change OS_TIME_TICK_RESOLUTION_NS with 100.
  rewrite (u32_id (us * 1000)) by machine_lia. replace (us * 1000 / 100) with (10 * us) by machine_lia.
  rewrite Z.rem_small, Z.shiftl_mul_pow2 by lia. change (2 ^ 30) with 1073741824.
  rewrite Z.quot_div_nonneg by lia. machine_lia.
Qed.

Lemma Micro2Sub_range us : 0 <= us -> is_u32 (CFE_TIME_Micro2SubSecs us).
Proof.
  intros. destruct (Z.lt_ge_cases us 1000000).
  - rewrite Micro2Sub_ceil by lia. machine_lia.
  - unfold CFE_TIME_Micro2SubSecs. replace (us >? 999999) with true by lia. done.
Qed.

(** ** The calendar *)

(** Days from 1 January of year 1 to 1 January of year [Y], in the Gregorian
    calendar. *)
Definition days_before (Y : Z) : Z := 365 * (Y - 1) + (Y - 1) / 4 - (Y - 1) / 100 + (Y - 1) / 400.

(** Seconds from 1 January of year 1 to a date with day number [D]. *)
Definition date_seconds (Y D h m s : Z) : Z := (((days_before Y + (D - 1)) * 24 + h) * 60 + m) * 60 + s.
Definition epoch_seconds (E : Epoch) : Z :=
  date_seconds (EPOCH_YEAR E) (EPOCH_DAY E) (EPOCH_HOUR E) (EPOCH_MINUTE E) (EPOCH_SECOND E).
Definition epoch_ok (E : Epoch) : Prop :=
  1 <= EPOCH_YEAR E <= 9862 /\ 1 <= EPOCH_DAY E <= 366 /\ 0 <= EPOCH_HOUR E < 24 /\
  0 <= EPOCH_MINUTE E < 60 /\ 0 <= EPOCH_SECOND E < 60.

Lemma days_in_year Y : days_before (Y + 1) = days_before Y + DaysInThisYear Y.
Proof. unfold days_before, DaysInThisYear. replace (Y + 1 - 1) with Y by lia. repeat case_test; machine_lia. Qed.

Lemma days_in_year_range Y : 365 <= DaysInThisYear Y <= 366.
Proof. unfold DaysInThisYear. repeat case_test; lia. Qed.

Lemma count_years_spec fuel Y D :
  0 <= Y -> Y + D / 365 < 2 ^ 32 -> 0 <= D < 2 ^ 32 -> (Z.to_nat (D / 365) < fuel)%nat ->
  exists Y' D', count_years fuel Y D = Some (Y', D') /\ Y <= Y' <= Y + D / 365 /\ 0 <= D' < DaysInThisYear Y' /\
    days_before Y' + D' = days_before Y + D.
Proof.
  revert Y D. induction fuel as [|fuel IH]; intros Y D HY HYD HD Hf; [lia|]. cbn [count_years].
  pose proof (days_in_year_range Y). case_test.
  - exists Y, D. split_and!; try done; machine_lia.
  - assert (H1 : 1 <= D / 365) by (apply Z.div_le_lower_bound; lia).
    assert (H2 : (D - DaysInThisYear Y) / 365 <= D / 365 - 1).
    { replace (D / 365 - 1) with ((D - 365) / 365) by machine_lia. apply Z.div_le_mono; lia. }
    assert (H3 : 0 <= (D - DaysInThisYear Y) / 365) by (apply Z.div_pos; lia).
    rewrite !u32_id by (machine; lia).
    destruct (IH (Y + 1) (D - DaysInThisYear Y)) as (Y' & D' & -> & HY' & HD' & E); [lia..|].
    exists Y', D'. split_and!; try done; try lia. rewrite E, days_in_year. lia.
Qed.

Lemma carry_seconds_spec m s :
  0 <= m <= 2 ^ 31 -> 0 <= s < 120 ->
  exists m' s', carry_seconds (S (Z.to_nat (s / 60))) m s = Some (m', s') /\ 0 <= s' < 60 /\
    m' * 60 + s' = m * 60 + s /\ m <= m' <= m + 1.
Proof.
  intros Hm Hs. cbn [carry_seconds]. destruct (Z.geb_spec s 60).
  - replace (Z.to_nat (s / 60)) with 1%nat by (replace (s / 60) with 1 by machine_lia; done).
    change (2 ^ 31) with 2147483648 in *. cbn [carry_seconds]. rewrite !u32_id by (machine; lia).
    replace (s - 60 >=? 60) with false by lia. exists (m + 1), (s - 60). split_and!; try done; lia.
  - exists m, s. split_and!; try done; lia.
Qed.

Lemma calendar_spec E t :
  epoch_ok E -> sys_ok t ->
  exists Y D h m s, calendar E t = Some (Y, D, h, m, s) /\
    EPOCH_YEAR E <= Y <= EPOCH_YEAR E + 137 /\ 1 <= D <= DaysInThisYear Y /\ 0 <= h < 24 /\ 0 <= m < 60 /\ 0 <= s < 60 /\
    date_seconds Y D h m s = epoch_seconds E + Seconds t.
Proof.
  intros (HY & HD & Hh & Hm & Hs) [Ht _]. unfold calendar.
  change (2 ^ 32) with 4294967296 in *. unfold is_u32 in Ht. change (2 ^ 32) with 4294967296 in *.
  assert (Hq : 0 <= Seconds t / 60 <= 71582788) by machine_lia.
  assert (Hr : 0 <= Seconds t mod 60 < 60) by machine_lia.
  assert (Hqr : Seconds t = 60 * (Seconds t / 60) + Seconds t mod 60) by (apply Z.div_mod; lia).
  rewrite (u32_id (Seconds t / 60 + _)), (u32_id (Seconds t mod 60 + _)) by (machine; lia).
  destruct (carry_seconds_spec (Seconds t / 60 + EPOCH_MINUTE E) (Seconds t mod 60 + EPOCH_SECOND E))
    as (m & s & -> & Hs' & Hms & Hm'); [change (2 ^ 31) with 2147483648; lia|lia|].
  cbn [mbind option_bind].
  assert (Hh' : 0 <= m / 60 <= 1193048) by machine_lia.
  assert (Hmd : m = 60 * (m / 60) + m mod 60) by (apply Z.div_mod; lia).
  rewrite (u32_id (m / 60 + _)) by (machine; lia).
  set (H := m / 60 + EPOCH_HOUR E) in *. assert (HH : 0 <= H <= 1193071) by (unfold H; lia).
  assert (EH : H = m / 60 + EPOCH_HOUR E) by done.
  assert (Hd : 0 <= H / 24 <= 49711) by machine_lia.
  assert (HHd : H = 24 * (H / 24) + H mod 24) by (apply Z.div_mod; lia).
  rewrite (u32_id (H / 24 + _)) by (machine; lia).
  set (D := H / 24 + (EPOCH_DAY E - 1)) in *. assert (HDr : 0 <= D <= 50076) by (unfold D; lia).
  assert (ED : D = H / 24 + (EPOCH_DAY E - 1)) by done.
  assert (Hdy : 0 <= D / 365 <= 137) by machine_lia.
  destruct (count_years_spec (S (Z.to_nat (D / 365))) (EPOCH_YEAR E) D) as (Y & D' & -> & HY' & HD' & Eq);
    [lia|change (2 ^ 32) with 4294967296; lia|change (2 ^ 32) with 4294967296; lia|lia|].
  cbn [mbind option_bind]. pose proof (days_in_year_range Y).
  rewrite (u32_id (D' + 1)) by (machine; lia).
  eexists _, _, _, _, _. split; [done|].
  assert (0 <= H mod 24 < 24) by (apply Z.mod_pos_bound; lia).
  assert (0 <= m mod 60 < 60) by (apply Z.mod_pos_bound; lia).
  split_and!; try lia. unfold epoch_seconds, date_seconds. clearbody H D. lia.
Qed.
