(* ===== verification/TimeModel.v ===== *)
(** Time services: the state of cfe/modules/time and its operations
    (cfe_time_utils.c, cfe_time_tone.c, cfe_time_task.c, cfe_time_api.c).

    The compile-time choices are a record [TimeConfig]; a server is not a
    client, and the tone data either follows ([AT_TONE_WAS]) or precedes the
    tone.  The MET is virtual: the alternative reads a register through a
    function that no layer of the repository has.  The clock of the board is the
    list of readings it will give; what leaves the task (events, messages,
    callbacks of applications) is a list of outputs.  Performance log entries
    and the contents of the diagnostic packet are left out.

    The operations of time services: reference data, tone handling, the tasks
    and the application interface. *)

From S2P Require Import Prelude Records TimeMath.

(** ** Constants *)

Definition CFE_SUCCESS : Z := 0.
Definition CFE_TIME_INTERNAL_ONLY : Z := s32 0xce000001.
Definition CFE_TIME_OUT_OF_RANGE : Z := s32 0xce000002.
Definition CFE_TIME_TOO_MANY_SYNCH_CALLBACKS : Z := s32 0xce000003.
Definition CFE_TIME_CALLBACK_NOT_REGISTERED : Z := s32 0xce000004.
Definition CFE_TIME_BAD_ARGUMENT : Z := s32 0xce000005.

Definition CFE_TIME_ClockState_INVALID : Z := -1.
Definition CFE_TIME_ClockState_VALID : Z := 0.
Definition CFE_TIME_ClockState_FLYWHEEL : Z := 1.
Definition CFE_TIME_SourceSelect_INTERNAL : Z := 1.
Definition CFE_TIME_SourceSelect_EXTERNAL : Z := 2.
Definition CFE_TIME_ToneSignalSelect_PRIMARY : Z := 1.
Definition CFE_TIME_ToneSignalSelect_REDUNDANT : Z := 2.
Definition CFE_TIME_AdjustDirection_ADD : Z := 1.
Definition CFE_TIME_AdjustDirection_SUBTRACT : Z := 2.
Definition CFE_TIME_FlywheelState_NO_FLY : Z := 0.
Definition CFE_TIME_FlywheelState_IS_FLY : Z := 1.
Definition CFE_TIME_SetState_NOT_SET : Z := 0.
Definition CFE_TIME_SetState_WAS_SET : Z := 1.

Definition CFE_TIME_RESET_AREA_ERROR : Z := 1.
Definition CFE_TIME_RESET_AREA_BAD : Z := 2.
Definition CFE_TIME_RESET_AREA_NEW : Z := 3.
Definition CFE_TIME_RESET_AREA_EXISTING : Z := 4.
Definition CFE_TIME_RESET_SIGNATURE : Z := 0xA5A55A5A.
Definition CFE_TIME_REFERENCE_BUF_DEPTH : Z := 4.
Definition CFE_TIME_REFERENCE_BUF_MASK : Z := CFE_TIME_REFERENCE_BUF_DEPTH - 1.
Definition CFE_PLATFORM_ES_MAX_APPLICATIONS : Z := 32.

(** ** Configuration *)

Record TimeConfig := mk_TimeConfig {
  SERVER : bool; SOURCE : bool; SRC_MET : bool; SRC_GPS : bool; SRC_TIME : bool; SIGNAL : bool;
  DEFAULT_TAI : bool; AT_TONE_WAS : bool; FAKE_TONE : bool;
  START_FLY : Z; LATCH_FLY : Z; MIN_ELAPSED : Z; MAX_ELAPSED : Z; TONE_LIMIT : Z;
  MAX_DELTA_SECS : Z; MAX_DELTA_SUBS : Z; MAX_LOCAL_SECS : Z; MAX_LOCAL_SUBS : Z;
  DEF_MET_SECS : Z; DEF_MET_SUBS : Z; DEF_STCF_SECS : Z; DEF_STCF_SUBS : Z; DEF_LEAPS : Z }.

(** ** State *)

Record CFE_TIME_ReferenceState_t := ReferenceState_t {
  StateVersion : Z; RS_AtToneLeapSeconds : Z; RS_ClockSetState : Z; RS_ClockFlyState : Z; RS_DelayDirection : Z;
  RS_AtToneMET : CFE_TIME_SysTime_t; RS_AtToneSTCF : CFE_TIME_SysTime_t;
  RS_AtToneDelay : CFE_TIME_SysTime_t; RS_AtToneLatch : CFE_TIME_SysTime_t }.
#[export] Instance eta_ReferenceState : Eta CFE_TIME_ReferenceState_t := fun r =>
  ReferenceState_t (StateVersion r) (RS_AtToneLeapSeconds r) (RS_ClockSetState r) (RS_ClockFlyState r)
    (RS_DelayDirection r) (RS_AtToneMET r) (RS_AtToneSTCF r) (RS_AtToneDelay r) (RS_AtToneLatch r).
Definition zero_time : CFE_TIME_SysTime_t := SysTime 0 0.
Definition zero_refstate : CFE_TIME_ReferenceState_t :=
  ReferenceState_t 0 0 0 0 0 zero_time zero_time zero_time zero_time.
#[export] Instance refstate_inhabited : Inhabited CFE_TIME_ReferenceState_t := populate zero_refstate.

Record CFE_TIME_Reference_t := Reference_t {
  AtToneMET : CFE_TIME_SysTime_t; AtToneSTCF : CFE_TIME_SysTime_t; AtToneLeapSeconds : Z;
  ClockSetState : Z; ClockFlyState : Z; DelayDirection : Z;
  AtToneDelay : CFE_TIME_SysTime_t; AtToneLatch : CFE_TIME_SysTime_t; CurrentLatch : CFE_TIME_SysTime_t;
  TimeSinceTone : CFE_TIME_SysTime_t; CurrentMET : CFE_TIME_SysTime_t }.
Definition zero_reference : CFE_TIME_Reference_t :=
  Reference_t zero_time zero_time 0 0 0 0 zero_time zero_time zero_time zero_time zero_time.

Record CFE_TIME_ResetVars_t := ResetVars_t {
  Signature : Z; RV_LeapSeconds : Z; RV_ClockSignal : Z;
  RV_CurrentMET : CFE_TIME_SysTime_t; RV_CurrentSTCF : CFE_TIME_SysTime_t; RV_CurrentDelay : CFE_TIME_SysTime_t }.

(** The payload of the "time at the tone" packet. *)
Record CFE_TIME_ToneDataCmd_Payload_t := ToneDataCmd_Payload {
  TD_AtToneMET : CFE_TIME_SysTime_t; TD_AtToneSTCF : CFE_TIME_SysTime_t;
  TD_AtToneLeapSeconds : Z; TD_AtToneState : Z }.

Record CFE_TIME_HousekeepingTlm_Payload_t := HousekeepingTlm_Payload {
  HK_CommandCounter : Z; HK_CommandErrorCounter : Z; HK_ClockStateFlags : Z; HK_ClockStateAPI : Z; HK_LeapSeconds : Z;
  HK_MET : CFE_TIME_SysTime_t; HK_STCF : CFE_TIME_SysTime_t; HK_AdjustmentFactor : CFE_TIME_SysTime_t }.

Inductive TimeOutput :=
| OutEvent (EventID : Z)
| OutToneData (p : CFE_TIME_ToneDataCmd_Payload_t)
| OutToneSignal
| OutToneSend
| OutLocal1Hz
| OutHousekeeping (stamp : CFE_TIME_SysTime_t) (p : CFE_TIME_HousekeepingTlm_Payload_t)
| OutDiagnostic (stamp : CFE_TIME_SysTime_t)
| OutCallback (f : Z).

(** [PrevTime1] and [PrevTime2] are the static variables of
    [CFE_TIME_ToneVerify]; a semaphore is whether it has been given. *)
Record CFE_TIME_Global_t := Time_Global {
  CommandCounter : Z; CommandErrorCounter : Z;
  ClockSource : Z; ClockSignal : Z; ServerFlyState : Z;
  PendingMET : CFE_TIME_SysTime_t; PendingSTCF : CFE_TIME_SysTime_t; PendingLeaps : Z; PendingState : Z;
  OneTimeAdjust : CFE_TIME_SysTime_t; OneHzAdjust : CFE_TIME_SysTime_t; OneTimeDirection : Z; OneHzDirection : Z;
  ToneSignalLatch : CFE_TIME_SysTime_t; ToneDataLatch : CFE_TIME_SysTime_t;
  ToneMatchCounter : Z; ToneMatchErrorCounter : Z; ToneSignalCounter : Z; ToneDataCounter : Z;
  ToneIntCounter : Z; ToneIntErrorCounter : Z; ToneTaskCounter : Z; VirtualMET : Z;
  LocalIntCounter : Z; LocalTaskCounter : Z; InternalCount : Z; ExternalCount : Z;
  ReferenceState : list CFE_TIME_ReferenceState_t; LastVersionCounter : Z; ResetVersionCounter : Z;
  MinElapsed : Z; MaxElapsed : Z; MaxLocalClock : CFE_TIME_SysTime_t;
  Forced2Fly : bool; AutoStartFly : bool; IsToneGood : bool; GetReferenceFail : bool;
  LocalSemaphore : bool; ToneSemaphore : bool; MaxDelta : CFE_TIME_SysTime_t;
  ToneOverLimit : Z; ToneUnderLimit : Z; DataStoreStatus : Z; SynchCallback : list (option Z);
  PrevTime1 : CFE_TIME_SysTime_t; PrevTime2 : CFE_TIME_SysTime_t }.
#[export] Instance eta_Global : Eta CFE_TIME_Global_t := fun g =>
  Time_Global (CommandCounter g) (CommandErrorCounter g) (ClockSource g) (ClockSignal g) (ServerFlyState g)
    (PendingMET g) (PendingSTCF g) (PendingLeaps g) (PendingState g)
    (OneTimeAdjust g) (OneHzAdjust g) (OneTimeDirection g) (OneHzDirection g) (ToneSignalLatch g) (ToneDataLatch g)
    (ToneMatchCounter g) (ToneMatchErrorCounter g) (ToneSignalCounter g) (ToneDataCounter g)
    (ToneIntCounter g) (ToneIntErrorCounter g) (ToneTaskCounter g) (VirtualMET g)
    (LocalIntCounter g) (LocalTaskCounter g) (InternalCount g) (ExternalCount g)
    (ReferenceState g) (LastVersionCounter g) (ResetVersionCounter g) (MinElapsed g) (MaxElapsed g) (MaxLocalClock g)
    (Forced2Fly g) (AutoStartFly g) (IsToneGood g) (GetReferenceFail g) (LocalSemaphore g) (ToneSemaphore g)
    (MaxDelta g) (ToneOverLimit g) (ToneUnderLimit g) (DataStoreStatus g) (SynchCallback g) (PrevTime1 g) (PrevTime2 g).

(** The reset area of the board, [None] when the board has none, the readings
    of its clock, and what was sent, last first. *)
Record TimeWorld := time_world {
  G : CFE_TIME_Global_t;
  ResetArea : option CFE_TIME_ResetVars_t;
  clock : list OS_time_t;
  sent : list TimeOutput }.
#[export] Instance eta_World : Eta TimeWorld := fun w => time_world (G w) (ResetArea w) (clock w) (sent w).

Definition emit (o : TimeOutput) (w : TimeWorld) : TimeWorld := w <| sent ::= cons o |>.
Definition on_G (f : CFE_TIME_Global_t -> CFE_TIME_Global_t) (w : TimeWorld) : TimeWorld := w <| G ::= f |>.

Section Time.
Variable cfg : TimeConfig.

(** ** Reference data (cfe_time_utils.c) *)

(** The index of the buffer of a version. *)
Definition ref_index (Version : Z) : Z := Z.land Version CFE_TIME_REFERENCE_BUF_MASK.

Definition CFE_TIME_GetReferenceState (g : CFE_TIME_Global_t) : CFE_TIME_ReferenceState_t :=
  zget (ReferenceState g) (ref_index (LastVersionCounter g)).

(** The buffer that the update will publish, as filled by
    [CFE_TIME_StartReferenceUpdate]; the code holds a pointer to it. *)
Definition next_state (g : CFE_TIME_Global_t) : CFE_TIME_ReferenceState_t :=
  (CFE_TIME_GetReferenceState g) <| StateVersion := u32 (LastVersionCounter g + 1) |>.
Definition next_index (g : CFE_TIME_Global_t) : Z := ref_index (u32 (LastVersionCounter g + 1)).

(** [*NextState = s]. *)
Definition put_state (g : CFE_TIME_Global_t) (i : Z) (s : CFE_TIME_ReferenceState_t) : CFE_TIME_Global_t :=
  g <| ReferenceState ::= fun l => zset l i s |>.

Definition CFE_TIME_StartReferenceUpdate (g : CFE_TIME_Global_t) : Z * CFE_TIME_Global_t :=
  (next_index g, put_state g (next_index g) (next_state g)).

Definition CFE_TIME_FinishReferenceUpdate (NextState : Z) (g : CFE_TIME_Global_t) : CFE_TIME_Global_t :=
  g <| LastVersionCounter := StateVersion (zget (ReferenceState g) NextState) |>.

(** An update: between start and finish the fields of the next state change. *)
Definition update_reference (f : CFE_TIME_ReferenceState_t -> CFE_TIME_ReferenceState_t) (g : CFE_TIME_Global_t)
    : CFE_TIME_Global_t :=
  let '(i, g) := CFE_TIME_StartReferenceUpdate g in
  let g := put_state g i (f (zget (ReferenceState g) i)) in
  CFE_TIME_FinishReferenceUpdate i g.

(** The next reading of the board's clock. *)
Definition CFE_TIME_LatchClock (w : TimeWorld) : CFE_TIME_SysTime_t * TimeWorld :=
  let LocalTime := default (OS_time 0) (head (clock w)) in
  (SysTime (u32 (OS_TimeGetTotalSeconds LocalTime)) (OS_TimeGetSubsecondsPart LocalTime),
   w <| clock ::= tail |>).

(** The loop of [CFE_TIME_GetReference]: the copy, and [RetryCount] after it. *)
Fixpoint read_reference (RetryCount : nat) (w : TimeWorld)
    : CFE_TIME_ReferenceState_t * CFE_TIME_SysTime_t * nat * TimeWorld :=
  let VersionCounter := LastVersionCounter (G w) in
  let RefState := zget (ReferenceState (G w)) (ref_index VersionCounter) in
  let '(latch, w) := CFE_TIME_LatchClock w in
  if VersionCounter =? StateVersion RefState then (RefState, latch, RetryCount, w)
  else match RetryCount with
       | O => (RefState, latch, O, w)
       | S n => read_reference n w
       end.

(** The time since the tone, on a local clock that rolls over after
    [MaxLocalClock]. *)
Definition clock_elapsed (MaxLocalClock From To : CFE_TIME_SysTime_t) (rolled : bool) : CFE_TIME_SysTime_t :=
  if rolled then CFE_TIME_Add (CFE_TIME_Subtract MaxLocalClock From) To else CFE_TIME_Subtract To From.

Definition compute_reference (g : CFE_TIME_Global_t) (s : CFE_TIME_ReferenceState_t) (latch : CFE_TIME_SysTime_t)
    : CFE_TIME_Reference_t :=
  let TimeSinceTone :=
    clock_elapsed (MaxLocalClock g) (RS_AtToneLatch s) latch
      (bool_decide (CFE_TIME_Compare latch (RS_AtToneLatch s) = CFE_TIME_A_LT_B)) in
  let CurrentMET := CFE_TIME_Add TimeSinceTone (RS_AtToneMET s) in
  let CurrentMET :=
    if SERVER cfg then CurrentMET
    else if RS_DelayDirection s =? CFE_TIME_AdjustDirection_ADD then CFE_TIME_Add CurrentMET (RS_AtToneDelay s)
    else CFE_TIME_Subtract CurrentMET (RS_AtToneDelay s) in
  Reference_t (RS_AtToneMET s) (RS_AtToneSTCF s) (RS_AtToneLeapSeconds s) (RS_ClockSetState s) (RS_ClockFlyState s)
    (RS_DelayDirection s) (RS_AtToneDelay s) (RS_AtToneLatch s) latch TimeSinceTone CurrentMET.

Definition CFE_TIME_GetReference (w : TimeWorld) : CFE_TIME_Reference_t * TimeWorld :=
  let '(s, latch, RetryCount, w) := read_reference 4 w in
  match RetryCount with
  | O => (zero_reference, on_G (fun g => g <| GetReferenceFail := true |>) w)
  | _ => (compute_reference (G w) s latch, w)
  end.

Definition CFE_TIME_CalculateTAI (Reference : CFE_TIME_Reference_t) : CFE_TIME_SysTime_t :=
  CFE_TIME_Add (CurrentMET Reference) (AtToneSTCF Reference).

Definition CFE_TIME_CalculateUTC (Reference : CFE_TIME_Reference_t) : CFE_TIME_SysTime_t :=
  let t := CFE_TIME_Add (CurrentMET Reference) (AtToneSTCF Reference) in
  SysTime (u32 (Seconds t - AtToneLeapSeconds Reference)) (Subseconds t).

Definition CFE_TIME_CalculateState (g : CFE_TIME_Global_t) (Reference : CFE_TIME_Reference_t) : Z :=
  if ClockSetState Reference =? CFE_TIME_SetState_WAS_SET then
    if ClockFlyState Reference =? CFE_TIME_FlywheelState_NO_FLY then
      if negb (SERVER cfg) && (ServerFlyState g =? CFE_TIME_FlywheelState_IS_FLY)
      then CFE_TIME_ClockState_FLYWHEEL else CFE_TIME_ClockState_VALID
    else CFE_TIME_ClockState_FLYWHEEL
  else CFE_TIME_ClockState_INVALID.

Definition CFE_TIME_SetState (NewState : Z) (g : CFE_TIME_Global_t) : CFE_TIME_Global_t :=
  if NewState =? CFE_TIME_ClockState_FLYWHEEL then
    let g := update_reference (fun s => s <| RS_ClockFlyState := CFE_TIME_FlywheelState_IS_FLY |>) g in
    let g := g <| Forced2Fly := true |> in
    if SERVER cfg then g <| ServerFlyState := CFE_TIME_FlywheelState_IS_FLY |> else g
  else if NewState =? CFE_TIME_ClockState_VALID then
    (update_reference (fun s => s <| RS_ClockSetState := CFE_TIME_SetState_WAS_SET |>) g) <| Forced2Fly := false |>
  else
    (update_reference (fun s => s <| RS_ClockSetState := CFE_TIME_SetState_NOT_SET |>) g) <| Forced2Fly := false |>.

Definition CFE_TIME_SetSource (NewSource : Z) (g : CFE_TIME_Global_t) := g <| ClockSource := NewSource |>.
Definition CFE_TIME_SetSignal (NewSignal : Z) (g : CFE_TIME_Global_t) := g <| ClockSignal := NewSignal |>.

Definition CFE_TIME_SetDelay (NewDelay : CFE_TIME_SysTime_t) (Direction : Z) : CFE_TIME_Global_t -> CFE_TIME_Global_t :=
  update_reference (fun s => s <| RS_AtToneDelay := NewDelay |> <| RS_DelayDirection := Direction |>).

Definition CFE_TIME_SetTime (NewTime : CFE_TIME_SysTime_t) (w : TimeWorld) : TimeWorld :=
  let '(Reference, w) := CFE_TIME_GetReference w in
  let NewSTCF := CFE_TIME_Subtract NewTime (CurrentMET Reference) in
  let NewSTCF := if DEFAULT_TAI cfg then NewSTCF
                 else SysTime (u32 (Seconds NewSTCF + AtToneLeapSeconds Reference)) (Subseconds NewSTCF) in
  on_G (update_reference (fun s => s <| RS_AtToneSTCF := NewSTCF |>)) w.

Definition CFE_TIME_SetMET (NewMET : CFE_TIME_SysTime_t) (w : TimeWorld) : TimeWorld :=
  let '(latch, w) := CFE_TIME_LatchClock w in
  on_G (fun g => (update_reference (fun s => s <| RS_AtToneMET := NewMET |> <| RS_AtToneLatch := latch |>) g)
                   <| VirtualMET := Seconds NewMET |>) w.

Definition CFE_TIME_SetSTCF (NewSTCF : CFE_TIME_SysTime_t) : CFE_TIME_Global_t -> CFE_TIME_Global_t :=
  update_reference (fun s => s <| RS_AtToneSTCF := NewSTCF |>).
Definition CFE_TIME_SetLeapSeconds (NewLeaps : Z) : CFE_TIME_Global_t -> CFE_TIME_Global_t :=
  update_reference (fun s => s <| RS_AtToneLeapSeconds := NewLeaps |>).

(** The STCF after an adjustment. *)
Definition adjusted (STCF Adjust : CFE_TIME_SysTime_t) (Direction : Z) : CFE_TIME_SysTime_t :=
  if Direction =? CFE_TIME_AdjustDirection_ADD then CFE_TIME_Add STCF Adjust else CFE_TIME_Subtract STCF Adjust.

Definition CFE_TIME_SetAdjust (NewAdjust : CFE_TIME_SysTime_t) (Direction : Z) (g : CFE_TIME_Global_t) : CFE_TIME_Global_t :=
  (update_reference (fun s => s <| RS_AtToneSTCF := adjusted (RS_AtToneSTCF s) NewAdjust Direction |>) g)
    <| OneTimeAdjust := NewAdjust |> <| OneTimeDirection := Direction |>.

Definition CFE_TIME_Set1HzAdj (NewAdjust : CFE_TIME_SysTime_t) (Direction : Z) (g : CFE_TIME_Global_t) : CFE_TIME_Global_t :=
  g <| OneHzAdjust := NewAdjust |> <| OneHzDirection := Direction |>.

(** ** The reset area *)

Definition CFE_TIME_QueryResetVars (w : TimeWorld) : TimeWorld :=
  let valid :=
    match ResetArea w with
    | Some v => if (Signature v =? CFE_TIME_RESET_SIGNATURE) &&
                   ((RV_ClockSignal v =? CFE_TIME_ToneSignalSelect_PRIMARY) ||
                    (RV_ClockSignal v =? CFE_TIME_ToneSignalSelect_REDUNDANT)) then Some v else None
    | None => None
    end in
  match valid with
  | Some v =>
      on_G (fun g =>
        (update_reference (fun s => s <| RS_AtToneMET := RV_CurrentMET v |> <| RS_AtToneSTCF := RV_CurrentSTCF v |>
           <| RS_AtToneDelay := RV_CurrentDelay v |> <| RS_AtToneLeapSeconds := RV_LeapSeconds v |>) g)
          <| ClockSignal := RV_ClockSignal v |> <| DataStoreStatus := CFE_TIME_RESET_AREA_EXISTING |>) w
  | None =>
      on_G (fun g =>
        (update_reference (fun s =>
           s <| RS_AtToneMET := SysTime (DEF_MET_SECS cfg) (CFE_TIME_Micro2SubSecs (DEF_MET_SUBS cfg)) |>
             <| RS_AtToneSTCF := SysTime (DEF_STCF_SECS cfg) (CFE_TIME_Micro2SubSecs (DEF_STCF_SUBS cfg)) |>
             <| RS_AtToneLeapSeconds := DEF_LEAPS cfg |> <| RS_AtToneDelay := zero_time |>) g)
          <| ClockSignal := CFE_TIME_ToneSignalSelect_PRIMARY |>
          <| DataStoreStatus := match ResetArea w with
                                | None => CFE_TIME_RESET_AREA_BAD | Some _ => CFE_TIME_RESET_AREA_NEW end |>) w
  end.

Definition CFE_TIME_UpdateResetVars (Reference : CFE_TIME_Reference_t) (w : TimeWorld) : TimeWorld :=
  if negb (DataStoreStatus (G w) =? CFE_TIME_RESET_AREA_ERROR) then
    match ResetArea w with
    | None => w
    | Some _ =>
        w <| ResetArea := Some (ResetVars_t CFE_TIME_RESET_SIGNATURE (AtToneLeapSeconds Reference)
               (u16 (ClockSignal (G w))) (CurrentMET Reference) (AtToneSTCF Reference) (AtToneDelay Reference)) |>
    end
  else w.

(** ** Initialization *)

(** The cleared global data with no version written. *)
Definition cleared : CFE_TIME_Global_t :=
  Time_Global 0 0 0 0 0 zero_time zero_time 0 0 zero_time zero_time 0 0 zero_time zero_time 0 0 0 0 0 0 0 0 0 0 0 0
    (replicate (Z.to_nat CFE_TIME_REFERENCE_BUF_DEPTH) (zero_refstate <| StateVersion := 0xFFFFFFFF |>)) 0 0
    0 0 zero_time false false false false false false zero_time 0 0 0
    (replicate (Z.to_nat CFE_PLATFORM_ES_MAX_APPLICATIONS) None) zero_time zero_time.

Definition CFE_TIME_InitData (w : TimeWorld) : TimeWorld :=
  let w := on_G (fun g => cleared <| PrevTime1 := PrevTime1 g |> <| PrevTime2 := PrevTime2 g |>) w in
  let w := CFE_TIME_QueryResetVars w in
  let '(latch, w) := CFE_TIME_LatchClock w in
  on_G (fun g =>
    let met := RS_AtToneMET (CFE_TIME_GetReferenceState g) in
    let g := update_reference (fun s => s <| RS_AtToneLatch := latch |> <| RS_ClockSetState := CFE_TIME_SetState_NOT_SET |>
               <| RS_ClockFlyState := CFE_TIME_FlywheelState_IS_FLY |>
               <| RS_DelayDirection := CFE_TIME_AdjustDirection_ADD |>) g in
    let g := g <| ClockSource := if SOURCE cfg then CFE_TIME_SourceSelect_EXTERNAL else CFE_TIME_SourceSelect_INTERNAL |>
               <| ServerFlyState := CFE_TIME_FlywheelState_IS_FLY |> <| PendingState := CFE_TIME_ClockState_INVALID |>
               <| OneTimeDirection := CFE_TIME_AdjustDirection_ADD |> <| OneHzDirection := CFE_TIME_AdjustDirection_ADD |>
               <| VirtualMET := Seconds met |>
               <| MinElapsed := CFE_TIME_Micro2SubSecs (MIN_ELAPSED cfg) |>
               <| MaxElapsed := CFE_TIME_Micro2SubSecs (MAX_ELAPSED cfg) |> in
    let g := if SOURCE cfg
             then g <| MaxDelta := SysTime (MAX_DELTA_SECS cfg) (CFE_TIME_Micro2SubSecs (MAX_DELTA_SUBS cfg)) |> else g in
    g <| MaxLocalClock := SysTime (MAX_LOCAL_SECS cfg) (MAX_LOCAL_SUBS cfg) |>
      <| ToneOverLimit := CFE_TIME_Micro2SubSecs (TONE_LIMIT cfg) |>
      <| ToneUnderLimit := CFE_TIME_Micro2SubSecs (1000000 - TONE_LIMIT cfg) |>) w.

(** ** Clock information and housekeeping *)

Definition flag (k : Z) (b : bool) : Z := if b then Z.shiftr 0x8000 k else 0.

Definition CFE_TIME_GetClockInfo (g : CFE_TIME_Global_t) : Z :=
  let s := CFE_TIME_GetReferenceState g in
  fold_left Z.lor
    [flag 0 (RS_ClockSetState s =? CFE_TIME_SetState_WAS_SET);
     flag 1 (RS_ClockFlyState s =? CFE_TIME_FlywheelState_IS_FLY);
     flag 2 (ClockSource g =? CFE_TIME_SourceSelect_INTERNAL);
     flag 3 (ClockSignal g =? CFE_TIME_ToneSignalSelect_PRIMARY);
     flag 4 (ServerFlyState g =? CFE_TIME_FlywheelState_IS_FLY);
     flag 5 (Forced2Fly g);
     flag 6 (OneTimeDirection g =? CFE_TIME_AdjustDirection_ADD);
     flag 7 (OneHzDirection g =? CFE_TIME_AdjustDirection_ADD);
     flag 8 (RS_DelayDirection s =? CFE_TIME_AdjustDirection_ADD);
     flag 9 (SERVER cfg);
     flag 10 (IsToneGood g);
     flag 11 (GetReferenceFail g)] 0.

Definition CFE_TIME_GetHkData (g : CFE_TIME_Global_t) (Reference : CFE_TIME_Reference_t) : CFE_TIME_HousekeepingTlm_Payload_t :=
  HousekeepingTlm_Payload (CommandCounter g) (CommandErrorCounter g) (CFE_TIME_GetClockInfo g)
    (CFE_TIME_CalculateState g Reference) (AtToneLeapSeconds Reference) (CurrentMET Reference) (AtToneSTCF Reference)
    (if SERVER cfg then OneHzAdjust g else AtToneDelay Reference).
End Time.
