(* ===== verification/TimeTone.v ===== *)
(** Time services: the tone (cfe_time_tone.c), the application interface
    (cfe_time_api.c) and the ground commands (cfe_time_task.c). *)

From S2P Require Import Prelude Records TimeMath TimeModel.

Section Tone.
Variable cfg : TimeConfig.

(** ** Sending the time at the tone *)

Definition CFE_TIME_ToneSend (w : TimeWorld) : TimeWorld :=
  let '(Reference, w) := CFE_TIME_GetReference cfg w in
  let secs := if ClockFlyState Reference =? CFE_TIME_FlywheelState_IS_FLY
              then Seconds (CurrentMET Reference) else VirtualMET (G w) in
  let NewMET := SysTime (if AT_TONE_WAS cfg then secs else u32 (secs + 1)) 0 in
  let w := emit (OutToneData (ToneDataCmd_Payload NewMET (AtToneSTCF Reference) (AtToneLeapSeconds Reference)
                                (CFE_TIME_CalculateState cfg (G w) Reference))) w in
  on_G (fun g => g <| InternalCount := u32 (InternalCount g + 1) |>) w.

(** Whether external data must be ignored: the clock is set, and the value is
    more than [MaxDelta] off the expected one. *)
Definition out_of_range (g : CFE_TIME_Global_t) (Reference : CFE_TIME_Reference_t) (New Expected : CFE_TIME_SysTime_t) : bool :=
  let MinResult := CFE_TIME_Compare New (CFE_TIME_Subtract Expected (MaxDelta g)) in
  let MaxResult := CFE_TIME_Compare New (CFE_TIME_Add Expected (MaxDelta g)) in
  (ClockSetState Reference =? CFE_TIME_SetState_WAS_SET) &&
  (bool_decide (MinResult = CFE_TIME_A_LT_B) || bool_decide (MaxResult = CFE_TIME_A_GT_B)).

(** The MET that goes with the tone. *)
Definition expected_met (Reference : CFE_TIME_Reference_t) : CFE_TIME_SysTime_t :=
  let secs := Seconds (CurrentMET Reference) in
  SysTime (if AT_TONE_WAS cfg then secs else u32 (secs + 1)) 0.

(** Sends the packet, or the internal time with a status when the data is not
    acceptable. *)
Definition send_external (w : TimeWorld) (Reference : CFE_TIME_Reference_t) (bad : bool)
    (MET STCF : CFE_TIME_SysTime_t) (Leaps : Z) : Z * TimeWorld :=
  if bad then (CFE_TIME_OUT_OF_RANGE, CFE_TIME_ToneSend w)
  else
    let w := emit (OutToneData (ToneDataCmd_Payload MET STCF Leaps (CFE_TIME_CalculateState cfg (G w) Reference))) w in
    (CFE_SUCCESS, on_G (fun g => g <| ExternalCount := u32 (ExternalCount g + 1) |>) w).

Definition CFE_TIME_ToneSendMET (NewMET : CFE_TIME_SysTime_t) (w : TimeWorld) : Z * TimeWorld :=
  if ClockSource (G w) =? CFE_TIME_SourceSelect_INTERNAL then (CFE_TIME_INTERNAL_ONLY, CFE_TIME_ToneSend w)
  else
    let '(Reference, w) := CFE_TIME_GetReference cfg w in
    send_external w Reference (out_of_range (G w) Reference NewMET (expected_met Reference))
      NewMET (AtToneSTCF Reference) (AtToneLeapSeconds Reference).

(** The STCF that external time implies. *)
Definition external_stcf (NewTime NewMET : CFE_TIME_SysTime_t) (Leaps : Z) : CFE_TIME_SysTime_t :=
  let NewSTCF := CFE_TIME_Subtract NewTime NewMET in
  if DEFAULT_TAI cfg then NewSTCF else SysTime (u32 (Seconds NewSTCF + Leaps)) (Subseconds NewSTCF).

Definition CFE_TIME_ToneSendGPS (NewTime : CFE_TIME_SysTime_t) (NewLeaps : Z) (w : TimeWorld) : Z * TimeWorld :=
  if ClockSource (G w) =? CFE_TIME_SourceSelect_INTERNAL then (CFE_TIME_INTERNAL_ONLY, CFE_TIME_ToneSend w)
  else
    let '(Reference, w) := CFE_TIME_GetReference cfg w in
    let NewMET := expected_met Reference in
    let NewSTCF := external_stcf NewTime NewMET NewLeaps in
    send_external w Reference (out_of_range (G w) Reference NewSTCF (AtToneSTCF Reference)) NewMET NewSTCF NewLeaps.

Definition CFE_TIME_ToneSendTime (NewTime : CFE_TIME_SysTime_t) (w : TimeWorld) : Z * TimeWorld :=
  if ClockSource (G w) =? CFE_TIME_SourceSelect_INTERNAL then (CFE_TIME_INTERNAL_ONLY, CFE_TIME_ToneSend w)
  else
    let '(Reference, w) := CFE_TIME_GetReference cfg w in
    let NewMET := expected_met Reference in
    let NewSTCF := external_stcf NewTime NewMET (AtToneLeapSeconds Reference) in
    send_external w Reference (out_of_range (G w) Reference NewSTCF (AtToneSTCF Reference))
      NewMET NewSTCF (AtToneLeapSeconds Reference).

(** ** Matching tone and data *)

(** The server's changes of the next state; [MET] is the virtual MET. *)
Definition server_update (g : CFE_TIME_Global_t) (MET : Z) (s : CFE_TIME_ReferenceState_t) : CFE_TIME_ReferenceState_t :=
  let s := s <| RS_AtToneLatch := ToneSignalLatch g |> in
  let s :=
    if ClockSource g =? CFE_TIME_SourceSelect_INTERNAL then s <| RS_AtToneMET := SysTime MET 0 |>
    else
      let s := if SRC_MET cfg then s <| RS_AtToneMET := PendingMET g |> else s in
      let s := if SRC_GPS cfg then s <| RS_AtToneMET := SysTime MET 0 |> <| RS_AtToneSTCF := PendingSTCF g |>
                                     <| RS_AtToneLeapSeconds := PendingLeaps g |> else s in
      if SRC_TIME cfg then s <| RS_AtToneMET := SysTime MET 0 |> <| RS_AtToneSTCF := PendingSTCF g |> else s in
  s <| RS_ClockFlyState := if RS_ClockFlyState s =? CFE_TIME_FlywheelState_IS_FLY
                           then CFE_TIME_FlywheelState_NO_FLY else RS_ClockFlyState s |>.

Definition client_update (g : CFE_TIME_Global_t) (s : CFE_TIME_ReferenceState_t) : CFE_TIME_ReferenceState_t :=
  let s := s <| RS_AtToneLatch := ToneSignalLatch g |> <| RS_AtToneMET := PendingMET g |>
             <| RS_AtToneSTCF := PendingSTCF g |> <| RS_AtToneLeapSeconds := PendingLeaps g |>
             <| RS_ClockSetState := if PendingState g =? CFE_TIME_ClockState_INVALID
                                    then CFE_TIME_SetState_NOT_SET else CFE_TIME_SetState_WAS_SET |> in
  s <| RS_ClockFlyState := if RS_ClockFlyState s =? CFE_TIME_FlywheelState_IS_FLY
                           then CFE_TIME_FlywheelState_NO_FLY else RS_ClockFlyState s |>.

Definition CFE_TIME_ToneUpdate (w : TimeWorld) : TimeWorld :=
  let '(Reference, w) := CFE_TIME_GetReference cfg w in
  let flying := RS_ClockFlyState (CFE_TIME_GetReferenceState (G w)) =? CFE_TIME_FlywheelState_IS_FLY in
  let w :=
    if SERVER cfg then
      on_G (fun g =>
        let g := if ClockSource g =? CFE_TIME_SourceSelect_INTERNAL
                 then if flying then g <| VirtualMET := Seconds (CurrentMET Reference) |> else g
                 else if SRC_MET cfg then g <| VirtualMET := Seconds (PendingMET g) |> else g in
        let g := update_reference (server_update g (VirtualMET g)) g in
        if flying then g <| ServerFlyState := CFE_TIME_FlywheelState_NO_FLY |> else g) w
    else
      on_G (fun g =>
        (update_reference (client_update g) g)
          <| ServerFlyState := if negb (PendingState g =? CFE_TIME_ClockState_INVALID) &&
                                  (PendingState g =? CFE_TIME_ClockState_FLYWHEEL)
                               then CFE_TIME_FlywheelState_IS_FLY else CFE_TIME_FlywheelState_NO_FLY |>) w in
  if flying then emit (OutEvent 21) w else w.

Definition CFE_TIME_ToneVerify (Time1 Time2 : CFE_TIME_SysTime_t) (w : TimeWorld) : TimeWorld :=
  let mismatch := on_G (fun g => g <| ToneMatchErrorCounter := u32 (ToneMatchErrorCounter g + 1) |>) in
  let w :=
    if bool_decide (CFE_TIME_Compare (PrevTime1 (G w)) Time1 = CFE_TIME_EQUAL) then mismatch w
    else if bool_decide (CFE_TIME_Compare (PrevTime2 (G w)) Time2 = CFE_TIME_EQUAL) then mismatch w
    else
      let elapsed := clock_elapsed (MaxLocalClock (G w)) Time1 Time2
                       (bool_decide (CFE_TIME_Compare Time1 Time2 = CFE_TIME_A_GT_B)) in
      if negb (Seconds elapsed =? 0) || (Subseconds elapsed <? MinElapsed (G w)) ||
         (Subseconds elapsed >? MaxElapsed (G w)) then mismatch w
      else
        let w := on_G (fun g => g <| ToneMatchCounter := u32 (ToneMatchCounter g + 1) |>) w in
        if Forced2Fly (G w) then w else CFE_TIME_ToneUpdate w in
  on_G (fun g => g <| PrevTime1 := Time1 |> <| PrevTime2 := Time2 |>) w.

Definition CFE_TIME_ToneData (d : CFE_TIME_ToneDataCmd_Payload_t) (w : TimeWorld) : TimeWorld :=
  let '(latch, w) := CFE_TIME_LatchClock w in
  let w := on_G (fun g => g <| ToneDataLatch := latch |> <| PendingMET := TD_AtToneMET d |>
                            <| PendingSTCF := TD_AtToneSTCF d |> <| PendingLeaps := TD_AtToneLeapSeconds d |>
                            <| PendingState := TD_AtToneState d |>) w in
  let w := if AT_TONE_WAS cfg then CFE_TIME_ToneVerify (ToneSignalLatch (G w)) (ToneDataLatch (G w)) w else w in
  on_G (fun g => g <| ToneDataCounter := u32 (ToneDataCounter g + 1) |>) w.

Definition CFE_TIME_ToneSignal (w : TimeWorld) : TimeWorld :=
  let w := if AT_TONE_WAS cfg then w else CFE_TIME_ToneVerify (ToneDataLatch (G w)) (ToneSignalLatch (G w)) w in
  on_G (fun g => g <| ToneSignalCounter := u32 (ToneSignalCounter g + 1) |>) w.

(** ** Interrupts and tasks *)

Definition CFE_TIME_NotifyTimeSynchApps (w : TimeWorld) : TimeWorld :=
  if IsToneGood (G w) then
    fold_left (fun w p => match p with Some f => emit (OutCallback f) w | None => w end) (SynchCallback (G w)) w
  else w.

Definition CFE_TIME_Tone1HzISR (w : TimeWorld) : TimeWorld :=
  let '(latch, w) := CFE_TIME_LatchClock w in
  let Elapsed := clock_elapsed (MaxLocalClock (G w)) (ToneSignalLatch (G w)) latch
                   (bool_decide (CFE_TIME_Compare latch (ToneSignalLatch (G w)) = CFE_TIME_A_LT_B)) in
  let good := (Seconds Elapsed =? 1) && (Subseconds Elapsed <? ToneOverLimit (G w)) ||
              (Seconds Elapsed =? 0) && (Subseconds Elapsed >? ToneUnderLimit (G w)) in
  let w := on_G (fun g =>
    let g := if good
             then g <| ToneIntCounter := u32 (ToneIntCounter g + 1) |> <| IsToneGood := true |>
                    <| VirtualMET := u32 (VirtualMET g + 1) |> <| ToneSemaphore := true |>
             else g <| ToneIntErrorCounter := u32 (ToneIntErrorCounter g + 1) |> <| IsToneGood := false |> in
    g <| ToneSignalLatch := latch |>) w in
  CFE_TIME_NotifyTimeSynchApps w.

(** One turn of the tone task; [None] while it waits for the semaphore. *)
Definition CFE_TIME_Tone1HzTask (w : TimeWorld) : option TimeWorld :=
  if ToneSemaphore (G w) then
    let w := on_G (fun g => g <| ToneSemaphore := false |>) w in
    let w := emit OutToneSignal w in
    let w := if FAKE_TONE cfg then emit OutToneSend w else w in
    Some (on_G (fun g => g <| ToneTaskCounter := u32 (ToneTaskCounter g + 1) |>) w)
  else None.

Definition CFE_TIME_Local1HzISR (w : TimeWorld) : TimeWorld :=
  on_G (fun g => g <| LocalIntCounter := u32 (LocalIntCounter g + 1) |> <| LocalSemaphore := true |>) w.
Definition CFE_TIME_Local1HzTimerCallback : TimeWorld -> TimeWorld := CFE_TIME_Local1HzISR.

Definition CFE_TIME_Local1HzTask (w : TimeWorld) : option TimeWorld :=
  if LocalSemaphore (G w) then
    let w := on_G (fun g => g <| LocalSemaphore := false |>) w in
    let w := if AutoStartFly (G w) then emit (OutEvent 20) (on_G (fun g => g <| AutoStartFly := false |>) w) else w in
    let w := emit OutLocal1Hz w in
    Some (on_G (fun g => g <| LocalTaskCounter := u32 (LocalTaskCounter g + 1) |>) w)
  else None.

Definition CFE_TIME_Local1HzStateMachine (w : TimeWorld) : TimeWorld :=
  let w :=
    if SERVER cfg && (negb (Seconds (OneHzAdjust (G w)) =? 0) || negb (Subseconds (OneHzAdjust (G w)) =? 0)) then
      on_G (fun g => update_reference (fun s =>
              s <| RS_AtToneSTCF := adjusted (RS_AtToneSTCF s) (OneHzAdjust g) (OneHzDirection g) |>) g) w
    else w in
  let '(Reference, w) := CFE_TIME_GetReference cfg w in
  let w :=
    if (ClockFlyState Reference =? CFE_TIME_FlywheelState_NO_FLY) &&
       (Seconds (TimeSinceTone Reference) >=? START_FLY cfg) then
      on_G (fun g =>
        let g := update_reference (fun s => s <| RS_ClockFlyState := CFE_TIME_FlywheelState_IS_FLY |>) g in
        let g := if SERVER cfg then g <| ServerFlyState := CFE_TIME_FlywheelState_IS_FLY |> else g in
        g <| AutoStartFly := true |>) w
    else w in
  if (ClockFlyState Reference =? CFE_TIME_FlywheelState_IS_FLY) &&
     (Seconds (TimeSinceTone Reference) >=? LATCH_FLY cfg) then
    on_G (update_reference (fun s => s <| RS_AtToneMET := CurrentMET Reference |>
                                       <| RS_AtToneLatch := CurrentLatch Reference |>)) w
  else w.

(** ** Application interface *)

Definition CFE_TIME_GetTAI (w : TimeWorld) : CFE_TIME_SysTime_t * TimeWorld :=
  let '(Reference, w) := CFE_TIME_GetReference cfg w in (CFE_TIME_CalculateTAI Reference, w).
Definition CFE_TIME_GetUTC (w : TimeWorld) : CFE_TIME_SysTime_t * TimeWorld :=
  let '(Reference, w) := CFE_TIME_GetReference cfg w in (CFE_TIME_CalculateUTC Reference, w).
Definition CFE_TIME_GetTime (w : TimeWorld) : CFE_TIME_SysTime_t * TimeWorld :=
  if DEFAULT_TAI cfg then CFE_TIME_GetTAI w else CFE_TIME_GetUTC w.
Definition CFE_TIME_GetSTCF (w : TimeWorld) : CFE_TIME_SysTime_t * TimeWorld :=
  let '(Reference, w) := CFE_TIME_GetReference cfg w in (AtToneSTCF Reference, w).
Definition CFE_TIME_GetMET (w : TimeWorld) : CFE_TIME_SysTime_t * TimeWorld :=
  let '(Reference, w) := CFE_TIME_GetReference cfg w in (CurrentMET Reference, w).
Definition CFE_TIME_GetMETseconds (w : TimeWorld) : Z * TimeWorld :=
  let '(Reference, w) := CFE_TIME_GetReference cfg w in (Seconds (CurrentMET Reference), w).
Definition CFE_TIME_GetMETsubsecs (w : TimeWorld) : Z * TimeWorld :=
  let '(Reference, w) := CFE_TIME_GetReference cfg w in (Subseconds (CurrentMET Reference), w).
Definition CFE_TIME_GetLeapSeconds (w : TimeWorld) : Z * TimeWorld :=
  let '(Reference, w) := CFE_TIME_GetReference cfg w in (AtToneLeapSeconds Reference, w).
Definition CFE_TIME_GetClockState (w : TimeWorld) : Z * TimeWorld :=
  let '(Reference, w) := CFE_TIME_GetReference cfg w in (CFE_TIME_CalculateState cfg (G w) Reference, w).

Definition CFE_TIME_MET2SCTime (METTime : CFE_TIME_SysTime_t) (w : TimeWorld) : CFE_TIME_SysTime_t * TimeWorld :=
  let '(STCF, w) := CFE_TIME_GetSTCF w in
  let TIATime := CFE_TIME_Add METTime STCF in
  if DEFAULT_TAI cfg then (TIATime, w)
  else let '(Leaps, w) := CFE_TIME_GetLeapSeconds w in
       (CFE_TIME_Subtract TIATime (SysTime (u32 Leaps) 0), w).

(** [App] is the status and index that the executive gives for the calling
    application; [0] is the NULL function. *)
Definition CFE_TIME_RegisterSynchCallback (App : Z * Z) (f : Z) (g : CFE_TIME_Global_t) : Z * CFE_TIME_Global_t :=
  let '(Status, AppIndex) := App in
  if f =? 0 then (CFE_TIME_BAD_ARGUMENT, g)
  else if negb (Status =? CFE_SUCCESS) then (Status, g)
  else if (AppIndex >=? zlen (SynchCallback g)) || bool_decide (zget (SynchCallback g) AppIndex <> None)
  then (CFE_TIME_TOO_MANY_SYNCH_CALLBACKS, g)
  else (CFE_SUCCESS, g <| SynchCallback ::= fun l => zset l AppIndex (Some f) |>).

Definition CFE_TIME_UnregisterSynchCallback (App : Z * Z) (f : Z) (g : CFE_TIME_Global_t) : Z * CFE_TIME_Global_t :=
  let '(Status, AppIndex) := App in
  if f =? 0 then (CFE_TIME_BAD_ARGUMENT, g)
  else if negb (Status =? CFE_SUCCESS) then (Status, g)
  else if (AppIndex >=? zlen (SynchCallback g)) || bool_decide (zget (SynchCallback g) AppIndex <> Some f)
  then (CFE_TIME_CALLBACK_NOT_REGISTERED, g)
  else (CFE_SUCCESS, g <| SynchCallback ::= fun l => zset l AppIndex None |>).

Definition CFE_TIME_CleanUpApp (App : Z * Z) (g : CFE_TIME_Global_t) : Z * CFE_TIME_Global_t :=
  let '(Status, AppIndex) := App in
  if negb (Status =? CFE_SUCCESS) then (Status, g)
  else if AppIndex <? zlen (SynchCallback g) then (Status, g <| SynchCallback ::= fun l => zset l AppIndex None |>)
  else (CFE_TIME_CALLBACK_NOT_REGISTERED, g).

(** ** Ground commands *)

Definition count_ok (g : CFE_TIME_Global_t) : CFE_TIME_Global_t := g <| CommandCounter := u8 (CommandCounter g + 1) |>.
Definition count_error (g : CFE_TIME_Global_t) : CFE_TIME_Global_t :=
  g <| CommandErrorCounter := u8 (CommandErrorCounter g + 1) |>.
Definition accept (EventID : Z) (w : TimeWorld) : TimeWorld := emit (OutEvent EventID) (on_G count_ok w).
Definition refuse (EventID : Z) (w : TimeWorld) : TimeWorld := emit (OutEvent EventID) (on_G count_error w).

Inductive TimeCommand :=
| Housekeeping
| ToneSignalCmd
| ToneDataCmd (d : CFE_TIME_ToneDataCmd_Payload_t)
| OneHzCmd
| ToneSendCmd
| NoopCmd
| ResetCountersCmd
| SendDiagnosticCmd
| SetStateCmd (ClockState : Z)
| SetSourceCmd (TimeSource : Z)
| SetSignalCmd (ToneSource : Z)
| AddDelayCmd (Secs MicroSeconds : Z)
| SubDelayCmd (Secs MicroSeconds : Z)
| SetTimeCmd (Secs MicroSeconds : Z)
| SetMETCmd (Secs MicroSeconds : Z)
| SetSTCFCmd (Secs MicroSeconds : Z)
| SetLeapSecondsCmd (LeapSeconds : Z)
| AddAdjustCmd (Secs MicroSeconds : Z)
| SubAdjustCmd (Secs MicroSeconds : Z)
| Add1HZAdjustmentCmd (a : CFE_TIME_SysTime_t)
| Sub1HZAdjustmentCmd (a : CFE_TIME_SysTime_t).

Definition CFE_TIME_HousekeepingCmd (w : TimeWorld) : TimeWorld :=
  let '(Reference, w) := CFE_TIME_GetReference cfg w in
  let w := CFE_TIME_UpdateResetVars Reference w in
  let p := CFE_TIME_GetHkData cfg (G w) Reference in
  let '(stamp, w) := CFE_TIME_GetTime w in
  emit (OutHousekeeping stamp p) w.

Definition CFE_TIME_OneHzCmd (w : TimeWorld) : TimeWorld :=
  let w := CFE_TIME_Local1HzStateMachine w in
  if FAKE_TONE cfg then CFE_TIME_Tone1HzISR w else w.

Definition CFE_TIME_ResetCountersCmd (w : TimeWorld) : TimeWorld :=
  emit (OutEvent 5)
    (on_G (fun g => g <| CommandCounter := 0 |> <| CommandErrorCounter := 0 |>
       <| ToneMatchCounter := 0 |> <| ToneMatchErrorCounter := 0 |> <| ToneSignalCounter := 0 |> <| ToneDataCounter := 0 |>
       <| ToneIntCounter := 0 |> <| ToneIntErrorCounter := 0 |> <| ToneTaskCounter := 0 |>
       <| ResetVersionCounter := LastVersionCounter g |> <| LocalIntCounter := 0 |> <| LocalTaskCounter := 0 |>
       <| InternalCount := 0 |> <| ExternalCount := 0 |>) w).

(** [CFE_TIME_GetDiagData] reads the reference, which may set the failure flag. *)
Definition CFE_TIME_SendDiagnosticTlm (w : TimeWorld) : TimeWorld :=
  let w := on_G count_ok w in
  let '(_, w) := CFE_TIME_GetReference cfg w in
  let '(stamp, w) := CFE_TIME_GetTime w in
  emit (OutEvent 6) (emit (OutDiagnostic stamp) w).

Definition CFE_TIME_SetStateCmd (ClockState : Z) (w : TimeWorld) : TimeWorld :=
  if (ClockState =? CFE_TIME_ClockState_INVALID) || (ClockState =? CFE_TIME_ClockState_VALID) ||
     (ClockState =? CFE_TIME_ClockState_FLYWHEEL)
  then accept 7 (on_G (CFE_TIME_SetState cfg ClockState) w)
  else refuse 30 w.

Definition CFE_TIME_SetSourceCmd (TimeSource : Z) (w : TimeWorld) : TimeWorld :=
  if (TimeSource =? CFE_TIME_SourceSelect_INTERNAL) || (TimeSource =? CFE_TIME_SourceSelect_EXTERNAL) then
    if SOURCE cfg then accept 8 (on_G (CFE_TIME_SetSource TimeSource) w) else refuse 40 w
  else refuse 31 w.

Definition CFE_TIME_SetSignalCmd (ToneSource : Z) (w : TimeWorld) : TimeWorld :=
  if (ToneSource =? CFE_TIME_ToneSignalSelect_PRIMARY) || (ToneSource =? CFE_TIME_ToneSignalSelect_REDUNDANT) then
    if SIGNAL cfg then accept 9 (on_G (CFE_TIME_SetSignal ToneSource) w) else refuse 41 w
  else refuse 32 w.

(** Commands with a time argument in seconds and microseconds: the range check,
    the check of the configuration, the action. *)
Definition time_command (enabled : bool) (ok cfg_err err : Z) (Secs MicroSeconds : Z)
    (action : CFE_TIME_SysTime_t -> TimeWorld -> TimeWorld) (w : TimeWorld) : TimeWorld :=
  if MicroSeconds <? 1000000 then
    if enabled then accept ok (action (SysTime Secs (CFE_TIME_Micro2SubSecs MicroSeconds)) w) else refuse cfg_err w
  else refuse err w.

Definition CFE_TIME_SetDelayImpl (Secs MicroSeconds Direction : Z) : TimeWorld -> TimeWorld :=
  time_command (negb (SERVER cfg)) 11 42 33 Secs MicroSeconds (fun t => on_G (CFE_TIME_SetDelay t Direction)).
Definition CFE_TIME_SetTimeCmd (Secs MicroSeconds : Z) : TimeWorld -> TimeWorld :=
  time_command (SERVER cfg) 12 43 34 Secs MicroSeconds (CFE_TIME_SetTime cfg).
Definition CFE_TIME_SetMETCmd (Secs MicroSeconds : Z) : TimeWorld -> TimeWorld :=
  time_command (SERVER cfg) 13 44 35 Secs MicroSeconds CFE_TIME_SetMET.
Definition CFE_TIME_SetSTCFCmd (Secs MicroSeconds : Z) : TimeWorld -> TimeWorld :=
  time_command (SERVER cfg) 14 45 36 Secs MicroSeconds (fun t => on_G (CFE_TIME_SetSTCF t)).
Definition CFE_TIME_AdjustImpl (Secs MicroSeconds Direction : Z) : TimeWorld -> TimeWorld :=
  time_command (SERVER cfg) 15 47 37 Secs MicroSeconds (fun t => on_G (CFE_TIME_SetAdjust t Direction)).

Definition CFE_TIME_SetLeapSecondsCmd (LeapSeconds : Z) (w : TimeWorld) : TimeWorld :=
  if SERVER cfg then accept 17 (on_G (CFE_TIME_SetLeapSeconds LeapSeconds) w) else refuse 46 w.
Definition CFE_TIME_1HzAdjImpl (a : CFE_TIME_SysTime_t) (Direction : Z) (w : TimeWorld) : TimeWorld :=
  if SERVER cfg then accept 16 (on_G (CFE_TIME_Set1HzAdj a Direction) w) else refuse 48 w.

(** A message of the command pipe; the generated dispatcher of a client does
    not accept [ToneSendCmd]. *)
Definition CFE_TIME_TaskPipe (c : TimeCommand) (w : TimeWorld) : TimeWorld :=
  match c with
  | Housekeeping => CFE_TIME_HousekeepingCmd w
  | ToneSignalCmd => CFE_TIME_ToneSignal w
  | ToneDataCmd d => CFE_TIME_ToneData d w
  | OneHzCmd => CFE_TIME_OneHzCmd w
  | ToneSendCmd => if SERVER cfg then CFE_TIME_ToneSend w else w
  | NoopCmd => accept 4 w
  | ResetCountersCmd => CFE_TIME_ResetCountersCmd w
  | SendDiagnosticCmd => CFE_TIME_SendDiagnosticTlm w
  | SetStateCmd s => CFE_TIME_SetStateCmd s w
  | SetSourceCmd s => CFE_TIME_SetSourceCmd s w
  | SetSignalCmd s => CFE_TIME_SetSignalCmd s w
  | AddDelayCmd s u => CFE_TIME_SetDelayImpl s u CFE_TIME_AdjustDirection_ADD w
  | SubDelayCmd s u => CFE_TIME_SetDelayImpl s u CFE_TIME_AdjustDirection_SUBTRACT w
  | SetTimeCmd s u => CFE_TIME_SetTimeCmd s u w
  | SetMETCmd s u => CFE_TIME_SetMETCmd s u w
  | SetSTCFCmd s u => CFE_TIME_SetSTCFCmd s u w
  | SetLeapSecondsCmd l => CFE_TIME_SetLeapSecondsCmd l w
  | AddAdjustCmd s u => CFE_TIME_AdjustImpl s u CFE_TIME_AdjustDirection_ADD w
  | SubAdjustCmd s u => CFE_TIME_AdjustImpl s u CFE_TIME_AdjustDirection_SUBTRACT w
  | Add1HZAdjustmentCmd a => CFE_TIME_1HzAdjImpl a CFE_TIME_AdjustDirection_ADD w
  | Sub1HZAdjustmentCmd a => CFE_TIME_1HzAdjImpl a CFE_TIME_AdjustDirection_SUBTRACT w
  end.
End Tone.
