(* ===== verification/TimeInv.v ===== *)
(** The invariant of time services: every field within its type, a published
    reference, and the flywheel flags in agreement; it is preserved by every
    message of the task, every interrupt and every call.

    Lemmas about time services: reference updates, reading the reference, the
    local clock with its roll-over, and the invariant of the state. *)

From S2P Require Import Prelude Records TimeMath TimeModel TimeTone.

(** ** Reference updates *)

Definition times_ok (s : CFE_TIME_ReferenceState_t) : Prop :=
  sys_ok (RS_AtToneMET s) /\ sys_ok (RS_AtToneSTCF s) /\ sys_ok (RS_AtToneDelay s) /\ sys_ok (RS_AtToneLatch s).

(** The published version is where a reader looks for it. *)
Definition refs_ok (g : CFE_TIME_Global_t) : Prop :=
  zlen (ReferenceState g) = CFE_TIME_REFERENCE_BUF_DEPTH /\ is_u32 (LastVersionCounter g) /\
  StateVersion (CFE_TIME_GetReferenceState g) = LastVersionCounter g.

Lemma ref_index_mod v : ref_index v = v mod 4.
Proof. unfold ref_index. apply (land_mask v 2). lia. Qed.

Lemma ref_index_range v : 0 <= ref_index v < CFE_TIME_REFERENCE_BUF_DEPTH.
Proof. rewrite ref_index_mod. apply Z.mod_pos_bound. done. Qed.

(** The effect of an update: a new version, which readers will see. *)
Lemma update_current f g :
  zlen (ReferenceState g) = CFE_TIME_REFERENCE_BUF_DEPTH -> StateVersion (f (next_state g)) = StateVersion (next_state g) ->
  CFE_TIME_GetReferenceState (update_reference f g) = f (next_state g) /\
  ReferenceState (update_reference f g) = zset (ReferenceState g) (next_index g) (f (next_state g)) /\
  LastVersionCounter (update_reference f g) = u32 (LastVersionCounter g + 1).
Proof.
  intros Hl Hf. pose proof (ref_index_range (u32 (LastVersionCounter g + 1))) as Hr.
  assert (E : update_reference f g =
    (put_state g (next_index g) (f (next_state g))) <| LastVersionCounter := u32 (LastVersionCounter g + 1) |>).
  { unfold update_reference, CFE_TIME_StartReferenceUpdate, CFE_TIME_FinishReferenceUpdate, put_state.
    cbn [ReferenceState upd eta_Global].
    rewrite !zget_zset_eq by (rewrite ?zlen_zset, Hl; apply Hr). rewrite Hf.
    unfold upd. cbn -[zset zget u32 next_index next_state]. by rewrite zset_zset. }
  rewrite E. unfold CFE_TIME_GetReferenceState, put_state. split_and!; [|done..].
  cbn [ReferenceState LastVersionCounter upd eta_Global]. unfold next_index. apply zget_zset_eq. rewrite Hl. apply Hr.
Qed.

Lemma update_refs_ok f g :
  zlen (ReferenceState g) = CFE_TIME_REFERENCE_BUF_DEPTH -> StateVersion (f (next_state g)) = StateVersion (next_state g) ->
  refs_ok (update_reference f g).
Proof.
  intros Hl Hf. destruct (update_current f g Hl Hf) as (E1 & E2 & E3). unfold refs_ok.
  rewrite E1, E2, E3, Hf, zlen_zset. split_and!; [done|apply u32_range|done].
Qed.

(** What an update leaves alone. *)
Lemma update_frame f g :
  let g' := update_reference f g in
  g' = g <| ReferenceState := ReferenceState g' |> <| LastVersionCounter := LastVersionCounter g' |>.
Proof. destruct g. done. Qed.

(** ** Reading the reference *)

Definition latch_of (t : OS_time_t) : CFE_TIME_SysTime_t :=
  SysTime (u32 (OS_TimeGetTotalSeconds t)) (OS_TimeGetSubsecondsPart t).
(** The next reading of the clock, and the world after it. *)
Definition now (w : TimeWorld) : CFE_TIME_SysTime_t := latch_of (default (OS_time 0) (head (clock w))).
Definition tick (w : TimeWorld) : TimeWorld := w <| clock ::= tail |>.

Lemma latch_ok t : sys_ok (latch_of t).
Proof. split; apply u32_range. Qed.
#[export] Hint Resolve latch_ok : time.

Lemma latch_clock w : CFE_TIME_LatchClock w = (now w, tick w).
Proof. done. Qed.

Lemma get_reference cfg w :
  refs_ok (G w) -> CFE_TIME_GetReference cfg w = (compute_reference cfg (G w) (CFE_TIME_GetReferenceState (G w)) (now w), tick w).
Proof.
  intros (_ & _ & Hv). unfold CFE_TIME_GetReference. cbn [read_reference]. rewrite latch_clock.
  fold (CFE_TIME_GetReferenceState (G w)). by rewrite Hv, Z.eqb_refl.
Qed.

(** ** The local clock *)

(** A clock that counts instants from 0 to [M] shows [T mod M] at the true
    local time [T]. *)
Definition local (M T : Z) : CFE_TIME_SysTime_t := of_instant (T mod M).

Lemma local_ok M T : sys_ok (local M T).
Proof. apply of_instant_ok. Qed.
#[export] Hint Resolve local_ok : time.

Lemma local_compare M T0 T1 :
  0 < M <= 2 ^ 62 ->
  CFE_TIME_Compare (local M T1) (local M T0) =
  match (T1 mod M) ?= (T0 mod M) with Lt => CFE_TIME_A_LT_B | Eq => CFE_TIME_EQUAL | Gt => CFE_TIME_A_GT_B end.
Proof.
  intros HM. apply Compare_instant. pose proof (Z.mod_pos_bound T0 M). pose proof (Z.mod_pos_bound T1 M).
  change (2 ^ 62) with 4611686018427387904 in *. change (2 ^ 31) with 2147483648. machine_lia.
Qed.

(** The rule of the code gives the true time between two readings that are less
    than one turn of the clock apart. *)
Lemma elapsed_local M Max T0 T1 :
  sys_ok Max -> instant Max = M -> 0 < M <= 2 ^ 62 -> 0 <= T1 - T0 < M ->
  clock_elapsed Max (local M T0) (local M T1)
    (bool_decide (CFE_TIME_Compare (local M T1) (local M T0) = CFE_TIME_A_LT_B)) = of_instant (T1 - T0).
Proof.
  intros HMax HI HM HT. rewrite local_compare by done.
  assert (Hi : forall T, instant (local M T) = T mod M).
  { intros T. unfold local. rewrite instant_of. apply u64_id. pose proof (Z.mod_pos_bound T M).
    change (2 ^ 62) with 4611686018427387904 in *. machine. lia. }
  assert (Hd : T1 - T0 = (T1 / M - T0 / M) * M + (T1 mod M - T0 mod M)).
  { pose proof (Z.div_mod T1 M). pose proof (Z.div_mod T0 M). lia. }
  pose proof (Z.mod_pos_bound T0 M). pose proof (Z.mod_pos_bound T1 M).
  unfold clock_elapsed. destruct (Z.compare_spec (T1 mod M) (T0 mod M)) as [Heq|Hlt|Hgt].
  - rewrite bool_decide_false by done. rewrite Subtract_instant, !Hi by auto with time. f_equal.
    assert (T1 / M - T0 / M = 0) by nia. nia.
  - rewrite bool_decide_true by done.
    rewrite Add_instant, Subtract_instant, !Hi, instant_of by auto with time. apply of_instant_u64.
    assert (T1 / M - T0 / M = 1) by nia. unfold u64. rewrite Zplus_mod_idemp_l. f_equal. lia.
  - rewrite bool_decide_false by done. rewrite Subtract_instant, !Hi by auto with time. f_equal.
    assert (T1 / M - T0 / M = 0) by nia. nia.
Qed.

Definition is_u8 (x : Z) : Prop := 0 <= x < 2 ^ 8.
Definition is_s16 (x : Z) : Prop := - 2 ^ 15 <= x < 2 ^ 15.
Lemma u8_range x : is_u8 (u8 x).
Proof. apply Z.mod_pos_bound. reflexivity. Qed.
#[export] Hint Resolve u8_range : time.

Definition is_bit (x : Z) : Prop := x = 0 \/ x = 1.

Record state_ok (s : CFE_TIME_ReferenceState_t) : Prop := {
  st_times : Forall sys_ok [RS_AtToneMET s; RS_AtToneSTCF s; RS_AtToneDelay s; RS_AtToneLatch s];
  st_bits : Forall is_bit [RS_ClockSetState s; RS_ClockFlyState s];
  st_leaps : is_s16 (RS_AtToneLeapSeconds s);
  st_dir : 0 <= RS_DelayDirection s <= 2 }.

Record fields_ok (g : CFE_TIME_Global_t) : Prop := {
  fo_u8 : Forall is_u8 [CommandCounter g; CommandErrorCounter g];
  fo_u32 : Forall is_u32 [ToneMatchCounter g; ToneMatchErrorCounter g; ToneSignalCounter g; ToneDataCounter g;
     ToneIntCounter g; ToneIntErrorCounter g; ToneTaskCounter g; VirtualMET g; LocalIntCounter g; LocalTaskCounter g;
     InternalCount g; ExternalCount g; ResetVersionCounter g; MinElapsed g; MaxElapsed g; ToneOverLimit g;
     ToneUnderLimit g];
  fo_times : Forall sys_ok [PendingMET g; PendingSTCF g; OneTimeAdjust g; OneHzAdjust g; ToneSignalLatch g;
     ToneDataLatch g; MaxLocalClock g; MaxDelta g; PrevTime1 g; PrevTime2 g];
  fo_s16 : Forall is_s16 [PendingLeaps g; PendingState g];
  fo_server : is_bit (ServerFlyState g);
  fo_source : 1 <= ClockSource g <= 2; fo_signal : 1 <= ClockSignal g <= 2;
  fo_dir : Forall (fun d => 1 <= d <= 2) [OneTimeDirection g; OneHzDirection g];
  fo_callbacks : zlen (SynchCallback g) = CFE_PLATFORM_ES_MAX_APPLICATIONS }.

(** The published flywheel state. *)
Definition flying (g : CFE_TIME_Global_t) : Z := RS_ClockFlyState (CFE_TIME_GetReferenceState g).

Record time_ok (cfg : TimeConfig) (g : CFE_TIME_Global_t) : Prop := {
  to_refs : refs_ok g;
  to_states : Forall state_ok (ReferenceState g);
  to_fields : fields_ok g;
  to_fail : GetReferenceFail g = false;
  to_server : SERVER cfg = true -> ServerFlyState g = flying g;
  to_forced : Forced2Fly g = true -> flying g = CFE_TIME_FlywheelState_IS_FLY }.

(** What the compiler checks of the configuration. *)
Record config_ok (cfg : TimeConfig) : Prop := {
  co_times : Forall is_u32 [MAX_LOCAL_SECS cfg; MAX_LOCAL_SUBS cfg; MAX_DELTA_SECS cfg; DEF_MET_SECS cfg; DEF_STCF_SECS cfg];
  co_micros : Forall (fun x => 0 <= x < 1000000) [DEF_MET_SUBS cfg; DEF_STCF_SUBS cfg; MIN_ELAPSED cfg; MAX_ELAPSED cfg;
     MAX_DELTA_SUBS cfg];
  co_limit : 0 <= TONE_LIMIT cfg <= 1000000;
  co_leaps : is_s16 (DEF_LEAPS cfg) }.

Definition reset_ok (v : CFE_TIME_ResetVars_t) : Prop :=
  is_s16 (RV_LeapSeconds v) /\ Forall sys_ok [RV_CurrentMET v; RV_CurrentSTCF v; RV_CurrentDelay v].
Definition area_ok (w : TimeWorld) : Prop := forall v, ResetArea w = Some v -> reset_ok v.

#[export] Hint Resolve Micro2Sub_range : time.

(** Reads a field of an updated record. *)
Tactic Notation "simp_upd" :=
  cbn [upd eta_ReferenceState eta_Global eta_World G ResetArea clock sent StateVersion RS_AtToneLeapSeconds RS_ClockSetState
       RS_ClockFlyState RS_DelayDirection RS_AtToneMET RS_AtToneSTCF RS_AtToneDelay RS_AtToneLatch on_G emit
       CommandCounter CommandErrorCounter ClockSource ClockSignal ServerFlyState PendingMET PendingSTCF
       PendingLeaps PendingState OneTimeAdjust OneHzAdjust OneTimeDirection OneHzDirection ToneSignalLatch
       ToneDataLatch ToneMatchCounter ToneMatchErrorCounter ToneSignalCounter ToneDataCounter ToneIntCounter
       ToneIntErrorCounter ToneTaskCounter VirtualMET LocalIntCounter LocalTaskCounter InternalCount
       ExternalCount ReferenceState LastVersionCounter ResetVersionCounter MinElapsed MaxElapsed MaxLocalClock
       Forced2Fly AutoStartFly IsToneGood GetReferenceFail LocalSemaphore ToneSemaphore MaxDelta ToneOverLimit
       ToneUnderLimit DataStoreStatus SynchCallback PrevTime1 PrevTime2].
(** Computes the fields of an updated record that is given by its fields. *)
Ltac flat_upd :=
  cbv beta iota zeta delta [upd eta_ReferenceState eta_Global eta_World G ResetArea clock sent StateVersion RS_AtToneLeapSeconds RS_ClockSetState
       RS_ClockFlyState RS_DelayDirection RS_AtToneMET RS_AtToneSTCF RS_AtToneDelay RS_AtToneLatch on_G emit
       CommandCounter CommandErrorCounter ClockSource ClockSignal ServerFlyState PendingMET PendingSTCF
       PendingLeaps PendingState OneTimeAdjust OneHzAdjust OneTimeDirection OneHzDirection ToneSignalLatch
       ToneDataLatch ToneMatchCounter ToneMatchErrorCounter ToneSignalCounter ToneDataCounter ToneIntCounter
       ToneIntErrorCounter ToneTaskCounter VirtualMET LocalIntCounter LocalTaskCounter InternalCount
       ExternalCount ReferenceState LastVersionCounter ResetVersionCounter MinElapsed MaxElapsed MaxLocalClock
       Forced2Fly AutoStartFly IsToneGood GetReferenceFail LocalSemaphore ToneSemaphore MaxDelta ToneOverLimit
       ToneUnderLimit DataStoreStatus SynchCallback PrevTime1 PrevTime2] in *.

(** Splits the lists of an invariant and closes what the hypotheses give. *)
Ltac split_oks :=
  repeat match goal with
  | H : Forall _ (_ :: _) |- _ => apply List.Forall_cons_iff in H as [? H]
  | H : Forall _ [] |- _ => clear H
  | H : _ /\ _ |- _ => destruct H
  end.
Ltac close_oks :=
  repeat match goal with |- Forall _ (_ :: _) => apply List.Forall_cons_iff; split | |- Forall _ [] => apply Forall_nil end;
  simp_upd; try assumption; try (by auto with time).
(** The fields of a state that differs from one with typed fields. *)
Ltac fields_from H := destruct H; split_oks; constructor; close_oks.

(** ** Updates *)

Section Inv.
Variable cfg : TimeConfig.

Lemma current_state_ok g :
  zlen (ReferenceState g) = CFE_TIME_REFERENCE_BUF_DEPTH -> Forall state_ok (ReferenceState g) -> state_ok (CFE_TIME_GetReferenceState g).
Proof.
  intros Hl Hf. unfold CFE_TIME_GetReferenceState, zget. pose proof (ref_index_range (LastVersionCounter g)).
  eapply Forall_lookup_1; [done|]. apply list_lookup_lookup_total_lt. unfold zlen in Hl. lia.
Qed.

Lemma next_state_ok g :
  zlen (ReferenceState g) = CFE_TIME_REFERENCE_BUF_DEPTH -> Forall state_ok (ReferenceState g) -> state_ok (next_state g).
Proof. intros H1 H2. destruct (current_state_ok g H1 H2). split_oks. constructor; close_oks. Qed.

Lemma update_fields f g : fields_ok g -> fields_ok (update_reference f g).
Proof. rewrite (update_frame f g). intros H. fields_from H. Qed.

(** An update within the types keeps the types. *)
Lemma update_states f g :
  zlen (ReferenceState g) = CFE_TIME_REFERENCE_BUF_DEPTH -> Forall state_ok (ReferenceState g) ->
  StateVersion (f (next_state g)) = StateVersion (next_state g) -> state_ok (f (next_state g)) ->
  refs_ok (update_reference f g) /\ Forall state_ok (ReferenceState (update_reference f g)) /\
  flying (update_reference f g) = RS_ClockFlyState (f (next_state g)).
Proof.
  intros Hl Hs Hv Hf. split_and!.
  - by apply update_refs_ok.
  - destruct (update_current f g Hl Hv) as (_ & -> & _). unfold zset. by apply Forall_insert.
  - unfold flying. by destruct (update_current f g Hl Hv) as (-> & _).
Qed.

(** An update that leaves the flywheel state alone keeps the invariant. *)
Lemma update_ok f g :
  time_ok cfg g ->
  (forall s, state_ok s -> StateVersion (f s) = StateVersion s /\ state_ok (f s) /\ RS_ClockFlyState (f s) = RS_ClockFlyState s) ->
  time_ok cfg (update_reference f g).
Proof.
  intros [[Hr Hr'] Hs Hfi Hfail Hsv Hfo] Hf. destruct (Hf (next_state g)) as (Hv & Hok & Hfly); [by apply next_state_ok|].
  destruct (update_states f g Hr Hs Hv Hok) as (H1 & H2 & H3). rewrite Hfly in H3.
  constructor; [done|done|by apply update_fields|done| |].
  - intros H. rewrite H3. by apply Hsv.
  - intros H. rewrite H3. by apply Hfo.
Qed.

(** An update that sets the flywheel state: the invariant holds once the flags
    match. *)
Lemma update_fly f g v :
  time_ok cfg g ->
  (forall s, state_ok s -> StateVersion (f s) = StateVersion s /\ state_ok (f s) /\ RS_ClockFlyState (f s) = v) ->
  exists g2, update_reference f g = g2 /\ Forced2Fly g2 = Forced2Fly g /\ ServerFlyState g2 = ServerFlyState g /\
    fields_ok g2 /\
    forall g', fields_ok g' -> ReferenceState g' = ReferenceState g2 -> LastVersionCounter g' = LastVersionCounter g2 ->
      GetReferenceFail g' = GetReferenceFail g2 ->
      (SERVER cfg = true -> ServerFlyState g' = v) -> (Forced2Fly g' = true -> v = CFE_TIME_FlywheelState_IS_FLY) ->
      time_ok cfg g'.
Proof.
  intros [[Hr Hr'] Hs Hfi Hfail Hsv Hfo] Hf.
  destruct (Hf (next_state g)) as (Hv & Hok & Hfly); [by apply next_state_ok|].
  destruct (update_states f g Hr Hs Hv Hok) as (H1 & H2 & H3). rewrite Hfly in H3.
  assert (E3 : GetReferenceFail (update_reference f g) = false) by done.
  exists (update_reference f g). split_and!; [done|done|done|by apply update_fields|].
  generalize dependent (update_reference f g). intros g2 H1 H2 H3 E3 g' Hfields E1 E2 E4 Hserver Hforced.
  assert (Ec : CFE_TIME_GetReferenceState g' = CFE_TIME_GetReferenceState g2)
    by (unfold CFE_TIME_GetReferenceState; by rewrite E1, E2).
  assert (Efl : flying g' = v) by (unfold flying; rewrite Ec; exact H3).
  constructor; [unfold refs_ok; by rewrite Ec, E1, E2|by rewrite E1|done|by rewrite E4| |]; rewrite Efl; done.
Qed.

(** A change of other fields. *)
Lemma frame_ok g g' :
  time_ok cfg g -> fields_ok g' ->
  ReferenceState g' = ReferenceState g -> LastVersionCounter g' = LastVersionCounter g ->
  GetReferenceFail g' = GetReferenceFail g -> ServerFlyState g' = ServerFlyState g -> Forced2Fly g' = Forced2Fly g ->
  time_ok cfg g'.
Proof.
  intros [Hr Hs Hfi Hfail Hsv Hfo] Hf E1 E2 E3 E4 E5.
  assert (Ec : CFE_TIME_GetReferenceState g' = CFE_TIME_GetReferenceState g)
    by (unfold CFE_TIME_GetReferenceState; by rewrite E1, E2).
  constructor.
  - unfold refs_ok. rewrite Ec, E1, E2. done.
  - by rewrite E1.
  - done.
  - by rewrite E3.
  - intros. unfold flying. rewrite Ec, E4. by apply Hsv.
  - rewrite E5. intros. unfold flying. rewrite Ec. by apply Hfo.
Qed.
End Inv.

Ltac frame := eapply frame_ok; [eassumption| |simp_upd; reflexivity..].
(** Changes of counters and latches. *)
Ltac counted := frame; match goal with H : time_ok _ _ |- _ => let Hf := fresh in
  pose proof (to_fields _ _ H) as Hf; fields_from Hf end.

(** ** Operations *)

Lemma now_ok w : sys_ok (now w).
Proof. apply latch_ok. Qed.
#[export] Hint Resolve now_ok : time.

Record reference_ok (r : CFE_TIME_Reference_t) : Prop := {
  ro_times : Forall sys_ok [AtToneMET r; AtToneSTCF r; AtToneDelay r; AtToneLatch r; CurrentLatch r; TimeSinceTone r;
    CurrentMET r];
  ro_leaps : is_s16 (AtToneLeapSeconds r) }.

Definition payload_ok (d : CFE_TIME_ToneDataCmd_Payload_t) : Prop :=
  Forall sys_ok [TD_AtToneMET d; TD_AtToneSTCF d] /\ Forall is_s16 [TD_AtToneLeapSeconds d; TD_AtToneState d].

(** Arguments within the types of their fields. *)
Definition command_ok (c : TimeCommand) : Prop :=
  match c with
  | ToneDataCmd d => payload_ok d
  | SetSourceCmd x | SetSignalCmd x => is_u8 x
  | SetStateCmd x | SetLeapSecondsCmd x => is_s16 x
  | AddDelayCmd s u | SubDelayCmd s u | SetTimeCmd s u | SetMETCmd s u | SetSTCFCmd s u
  | AddAdjustCmd s u | SubAdjustCmd s u => is_u32 s /\ is_u32 u
  | Add1HZAdjustmentCmd a | Sub1HZAdjustmentCmd a => sys_ok a
  | _ => True
  end.

Definition world_ok (cfg : TimeConfig) (w : TimeWorld) : Prop := time_ok cfg (G w) /\ area_ok w.

Section Ops.
Variable cfg : TimeConfig.

Lemma elapsed_ok M a b r : sys_ok M -> sys_ok a -> sys_ok b -> sys_ok (clock_elapsed M a b r).
Proof. intros. unfold clock_elapsed. destruct r; auto with time. Qed.
Hint Resolve elapsed_ok : time.

Lemma adjusted_ok a b d : sys_ok a -> sys_ok b -> sys_ok (adjusted a b d).
Proof. intros. unfold adjusted. case_test; auto with time. Qed.
Hint Resolve adjusted_ok : time.

Lemma compute_ok g s t : fields_ok g -> state_ok s -> reference_ok (compute_reference cfg g s (latch_of t)).
Proof.
  intros [] []. split_oks. constructor; cbn [compute_reference AtToneMET AtToneSTCF AtToneDelay AtToneLatch CurrentLatch
    TimeSinceTone CurrentMET AtToneLeapSeconds]; close_oks; repeat case_match; auto 6 with time.
Qed.

Lemma reference_read w :
  time_ok cfg (G w) ->
  CFE_TIME_GetReference cfg w = (compute_reference cfg (G w) (CFE_TIME_GetReferenceState (G w)) (now w), tick w) /\
  reference_ok (compute_reference cfg (G w) (CFE_TIME_GetReferenceState (G w)) (now w)).
Proof.
  intros [Hr Hs Hf]. split; [by apply get_reference|]. apply compute_ok; [done|]. destruct Hr. by apply current_state_ok.
Qed.

(** Reads the reference in the goal. *)
Ltac read_ref :=
  match goal with
  | H : time_ok cfg (G ?w) |- context [CFE_TIME_GetReference cfg ?w] =>
      let E := fresh "E" in let R := fresh "Href" in
      destruct (reference_read w H) as [E R]; rewrite E; clear E;
      set (compute_reference cfg (G w) (CFE_TIME_GetReferenceState (G w)) (now w)) in *
  end.
Ltac update := apply update_ok; [assumption|]; intros ? []; split_oks; split_and!;
  [done|constructor; close_oks|done].

(** The state after an update that does not touch the flywheel state. *)
Ltac gen_update :=
  match goal with
  | |- context [update_reference ?f ?g] =>
      let Hu := fresh "Hu" in
      assert (Hu : time_ok cfg (update_reference f g)) by update; revert Hu; generalize (update_reference f g)
  end.

Lemma SetTime_ok t w : time_ok cfg (G w) -> sys_ok t -> time_ok cfg (G (CFE_TIME_SetTime cfg t w)).
Proof.
  intros H Ht. unfold CFE_TIME_SetTime. read_ref. destruct Href. split_oks. cbn [on_G G upd eta_World].
  change (G (tick w)) with (G w). update.
  assert (sys_ok (CFE_TIME_Subtract t (CurrentMET c))) as [] by auto with time.
  destruct (DEFAULT_TAI cfg); [auto with time|split; [apply u32_range|done]].
Qed.

Lemma SetMET_ok t w : time_ok cfg (G w) -> sys_ok t -> time_ok cfg (G (CFE_TIME_SetMET t w)).
Proof.
  intros H Ht. unfold CFE_TIME_SetMET. rewrite latch_clock. cbn [on_G G upd eta_World]. change (G (tick w)) with (G w).
  gen_update.
  intros g2 Hu. frame. destruct Ht. pose proof (to_fields _ _ Hu) as Hf. fields_from Hf.
Qed.

Lemma unforce_ok g : time_ok cfg g -> time_ok cfg (g <| Forced2Fly := false |>).
Proof. intros [? ? [] ? ?]. split_oks. constructor; try done. constructor; close_oks. Qed.

Lemma SetState_ok s g : time_ok cfg g -> time_ok cfg (CFE_TIME_SetState cfg s g).
Proof.
  intros H. unfold CFE_TIME_SetState. case_test; [|].
  - destruct (update_fly cfg (fun s => s <| RS_ClockFlyState := CFE_TIME_FlywheelState_IS_FLY |>) g
                CFE_TIME_FlywheelState_IS_FLY H) as (g2 & -> & _ & _ & Hf & Hok).
    { intros ? []; split_oks; split_and!; [done|constructor; close_oks; by right|done]. }
    apply Hok; [|by destruct (SERVER cfg)..|done].
    destruct (SERVER cfg); fields_from Hf. by right.
  - assert (Hset : forall v, is_bit v -> time_ok cfg ((update_reference (fun s => s <| RS_ClockSetState := v |>) g)
               <| Forced2Fly := false |>)) by (intros v Hv; apply unforce_ok; update).
    case_test; apply Hset; [by right|by left].
Qed.

Lemma no_fly s s' :
  is_bit (RS_ClockFlyState s) -> RS_ClockFlyState s' = RS_ClockFlyState s ->
  (if RS_ClockFlyState s' =? CFE_TIME_FlywheelState_IS_FLY then CFE_TIME_FlywheelState_NO_FLY else RS_ClockFlyState s') =
  CFE_TIME_FlywheelState_NO_FLY.
Proof. intros [E|E] ->; rewrite E; done. Qed.

Lemma server_update_ok g m s :
  fields_ok g -> is_u32 m -> state_ok s ->
  StateVersion (server_update cfg g m s) = StateVersion s /\ state_ok (server_update cfg g m s) /\
  RS_ClockFlyState (server_update cfg g m s) = CFE_TIME_FlywheelState_NO_FLY.
Proof.
  intros [] Hm []. split_oks.
  assert (Hz : sys_ok (SysTime m 0)) by (split; [done|cbn; machine; lia]).
  assert (Hfly : RS_ClockFlyState (server_update cfg g m s) = CFE_TIME_FlywheelState_NO_FLY).
  { unfold server_update. simp_upd. apply (no_fly s); [done|by repeat case_match]. }
  split_and!; [unfold server_update; by repeat case_match| |done].
  constructor; [| |unfold server_update; by repeat case_match..].
  - unfold server_update. repeat case_match; close_oks.
  - close_oks; [unfold server_update; by repeat case_match|]. rewrite Hfly. by left.
Qed.

Lemma client_update_ok g s :
  fields_ok g -> state_ok s ->
  StateVersion (client_update g s) = StateVersion s /\ state_ok (client_update g s) /\
  RS_ClockFlyState (client_update g s) = CFE_TIME_FlywheelState_NO_FLY.
Proof.
  intros [] []. split_oks.
  assert (Hfly : RS_ClockFlyState (client_update g s) = CFE_TIME_FlywheelState_NO_FLY).
  { unfold client_update. simp_upd. by apply (no_fly s). }
  split_and!; [done| |done]. constructor; [close_oks| |done..].
  close_oks; [unfold client_update; simp_upd; case_test; [by left|by right]|]. change (is_bit (RS_ClockFlyState (client_update g s))). rewrite Hfly. by left.
Qed.

Lemma ToneUpdate_ok w :
  time_ok cfg (G w) -> Forced2Fly (G w) = false -> time_ok cfg (G (CFE_TIME_ToneUpdate cfg w)).
Proof.
  intros H Hf. unfold CFE_TIME_ToneUpdate. read_ref. change (G (tick w)) with (G w). cbv zeta.
  assert (Hemit : forall b o w', time_ok cfg (G w') -> time_ok cfg (G (if b : bool then emit o w' else w')))
    by (by intros []).
  apply Hemit. clear Hemit. pose proof (to_fields _ _ H) as Hfi.
  destruct (SERVER cfg) eqn:HS; simp_upd; change (G (tick w)) with (G w).
  - set (g1 := if ClockSource (G w) =? _ then _ else _).
    assert (sys_ok (CurrentMET c)) as [? _] by (destruct Href; by split_oks).
    assert (sys_ok (PendingMET (G w))) as [? _] by (destruct Hfi; by split_oks).
    assert (Hg1 : time_ok cfg g1).
    { assert (Hu : forall v, is_u32 v -> time_ok cfg ((G w) <| VirtualMET := v |>)).
      { intros v Hv. frame. fields_from Hfi. }
      unfold g1. repeat case_match; try apply Hu; done. }
    assert (Hff : Forced2Fly g1 = false) by (unfold g1; by repeat case_match).
    pose proof (to_fields _ _ Hg1) as Hfi1.
    assert (is_u32 (VirtualMET g1)) by (destruct Hfi1; by split_oks).
    destruct (update_fly cfg (server_update cfg g1 (VirtualMET g1)) g1 CFE_TIME_FlywheelState_NO_FLY Hg1)
      as (g2 & -> & Ef2 & Es2 & Hf2 & Hok); [by intros; apply server_update_ok|].
    assert (Es : ServerFlyState g2 = RS_ClockFlyState (CFE_TIME_GetReferenceState (G w))).
    { rewrite Es2. unfold g1. transitivity (ServerFlyState (G w)); [by repeat case_match|]. by apply (to_server cfg). }
    clearbody g1. destruct (current_state_ok (G w) (proj1 (to_refs _ _ H)) (to_states _ _ H)). split_oks.
    destruct (Z.eqb_spec (RS_ClockFlyState (CFE_TIME_GetReferenceState (G w))) CFE_TIME_FlywheelState_IS_FLY).
    + apply Hok; [fields_from Hf2; by left|done..|]. simp_upd. by rewrite Ef2, Hff.
    + apply Hok; [done..| |by rewrite Ef2, Hff]. intros _. rewrite Es.
      unfold is_bit, CFE_TIME_FlywheelState_IS_FLY, CFE_TIME_FlywheelState_NO_FLY in *. lia.
  - destruct (update_fly cfg (client_update (G w)) (G w) CFE_TIME_FlywheelState_NO_FLY H)
      as (g2 & -> & Ef2 & Es2 & Hf2 & Hok); [by intros; apply client_update_ok|].
    apply Hok; [|done..|congruence|simp_upd; by rewrite Ef2, Hf].
    fields_from Hf2. case_match; [by right|by left].
Qed.

Lemma on_G_ok f w : (time_ok cfg (G w) -> time_ok cfg (f (G w))) -> time_ok cfg (G w) -> time_ok cfg (G (on_G f w)).
Proof. auto. Qed.

Lemma count_ok_ok g : time_ok cfg g -> time_ok cfg (count_ok g).
Proof. intros H. unfold count_ok. counted. Qed.
Lemma count_error_ok g : time_ok cfg g -> time_ok cfg (count_error g).
Proof. intros H. unfold count_error. counted. Qed.

Lemma ToneSend_ok w : time_ok cfg (G w) -> time_ok cfg (G (CFE_TIME_ToneSend cfg w)).
Proof.
  intros H. unfold CFE_TIME_ToneSend. read_ref. simp_upd. change (G (tick w)) with (G w). clear Href.
  generalize dependent (G w). intros g H. counted.
Qed.

Lemma send_external_ok w r bad m t l : time_ok cfg (G w) -> time_ok cfg (G (snd (send_external cfg w r bad m t l))).
Proof.
  intros H. unfold send_external. destruct bad; cbn [snd]; [by apply ToneSend_ok|].
  simp_upd. generalize dependent (G w). intros g H. counted.
Qed.

Lemma ToneVerify_ok t1 t2 w :
  time_ok cfg (G w) -> sys_ok t1 -> sys_ok t2 -> time_ok cfg (G (CFE_TIME_ToneVerify cfg t1 t2 w)).
Proof.
  intros H H1 H2. unfold CFE_TIME_ToneVerify.
  assert (Hlast : forall w', time_ok cfg (G w') -> time_ok cfg (G (on_G (fun g => g <| PrevTime1 := t1 |> <| PrevTime2 := t2 |>) w'))).
  { intros w'. simp_upd. generalize (G w'). intros g Hg. counted. }
  assert (Herr : time_ok cfg (G (on_G (fun g => g <| ToneMatchErrorCounter := u32 (ToneMatchErrorCounter g + 1) |>) w))).
  { simp_upd. generalize dependent (G w). intros g Hg. counted. }
  cbv zeta. apply Hlast. case_match; [done|]. case_match; [done|]. case_match; [done|].
  assert (Hm : time_ok cfg (G (on_G (fun g => g <| ToneMatchCounter := u32 (ToneMatchCounter g + 1) |>) w))).
  { simp_upd. clear -H. generalize dependent (G w). intros g Hg. counted. }
  case_match; [done|]. by apply ToneUpdate_ok.
Qed.

Lemma ToneData_ok d w : time_ok cfg (G w) -> payload_ok d -> time_ok cfg (G (CFE_TIME_ToneData cfg d w)).
Proof.
  intros H Hd. unfold CFE_TIME_ToneData. rewrite latch_clock. cbv zeta.
  set (w1 := on_G _ (tick w)). set (w2 := if AT_TONE_WAS cfg then _ else _).
  assert (Hw1 : time_ok cfg (G w1)).
  { unfold w1. simp_upd. change (G (tick w)) with (G w). pose proof (now_ok w). destruct Hd. generalize dependent (G w).
    intros g Hg. split_oks. counted. }
  assert (Hw2 : time_ok cfg (G w2)).
  { unfold w2. destruct (AT_TONE_WAS cfg); [|done]. pose proof (to_fields _ _ Hw1) as []. split_oks. by apply ToneVerify_ok. }
  simp_upd. generalize dependent (G w2). intros g Hg. counted.
Qed.

Lemma ToneSignal_ok w : time_ok cfg (G w) -> time_ok cfg (G (CFE_TIME_ToneSignal cfg w)).
Proof.
  intros H. unfold CFE_TIME_ToneSignal. cbv zeta. set (w2 := if AT_TONE_WAS cfg then _ else _).
  assert (Hw2 : time_ok cfg (G w2)).
  { unfold w2. destruct (AT_TONE_WAS cfg); [done|]. pose proof (to_fields _ _ H) as []. split_oks. by apply ToneVerify_ok. }
  simp_upd. generalize dependent (G w2). intros g Hg. counted.
Qed.

Lemma Notify_G w : G (CFE_TIME_NotifyTimeSynchApps w) = G w.
Proof.
  unfold CFE_TIME_NotifyTimeSynchApps. destruct (IsToneGood (G w)); [|done].
  generalize (SynchCallback (G w)). intros l. revert w. induction l as [|[f|] l IH]; intros w; [done| |]; cbn [fold_left];
    by rewrite IH.
Qed.

Lemma ToneISR_ok w : time_ok cfg (G w) -> time_ok cfg (G (CFE_TIME_Tone1HzISR w)).
Proof.
  intros H. unfold CFE_TIME_Tone1HzISR. rewrite latch_clock. cbv zeta. rewrite Notify_G. simp_upd.
  change (G (tick w)) with (G w). pose proof (now_ok w).
  match goal with |- context [if ?b then _ else _] => generalize b end. intros good.
  generalize dependent (G w). intros g Hg. destruct good; counted.
Qed.

Lemma StateMachine_ok w : time_ok cfg (G w) -> time_ok cfg (G (CFE_TIME_Local1HzStateMachine cfg w)).
Proof.
  intros H. unfold CFE_TIME_Local1HzStateMachine. cbv zeta.
  set (w1 := if SERVER cfg && _ then _ else _).
  assert (Hw1 : time_ok cfg (G w1)).
  { unfold w1. case_test; [|done]. simp_upd. pose proof (to_fields _ _ H) as []. split_oks. update. }
  clearbody w1. clear dependent w. read_ref.
  set (w2 := if (ClockFlyState c =? CFE_TIME_FlywheelState_NO_FLY) && _ then _ else _).
  assert (Hw2 : time_ok cfg (G w2)).
  { unfold w2. case_test; [|exact Hw1]. simp_upd. change (G (tick w1)) with (G w1).
    destruct (update_fly cfg (fun s => s <| RS_ClockFlyState := CFE_TIME_FlywheelState_IS_FLY |>) (G w1)
                CFE_TIME_FlywheelState_IS_FLY Hw1) as (g2 & -> & _ & _ & Hf & Hok).
    { intros ? []; split_oks; split_and!; [done|constructor; close_oks; by right|done]. }
    apply Hok; [|by destruct (SERVER cfg)..|done].
    destruct (SERVER cfg); fields_from Hf. by right. }
  clearbody w2. case_test; [|done]. simp_upd. destruct Href. split_oks. update.
Qed.

Lemma Adjust_ok a d g : time_ok cfg g -> sys_ok a -> 1 <= d <= 2 -> time_ok cfg (CFE_TIME_SetAdjust a d g).
Proof.
  intros H Ha Hd. unfold CFE_TIME_SetAdjust. gen_update. intros g2 Hu. frame. pose proof (to_fields _ _ Hu) as Hf.
  fields_from Hf.
Qed.

Lemma OneHz_ok a d g : time_ok cfg g -> sys_ok a -> 1 <= d <= 2 -> time_ok cfg (CFE_TIME_Set1HzAdj a d g).
Proof. intros H Ha Hd. unfold CFE_TIME_Set1HzAdj. counted. Qed.

Lemma CleanUp_ok i v g :
  time_ok cfg g -> time_ok cfg (g <| SynchCallback ::= fun l => zset l i v |>).
Proof. intros H. counted. by rewrite zlen_zset. Qed.
End Ops.
