(* ===== verification/TimeEvents.v ===== *)
(** Time services: initialization and every event keep the invariant. *)

From S2P Require Import Prelude Records TimeMath TimeModel TimeTone TimeInv.

(** ** Initialization *)

Section Init.
Variable cfg : TimeConfig.
Hypothesis Hcfg : config_ok cfg.

(** The fields before the initialization has set the selections. *)
Definition early_ok (g : CFE_TIME_Global_t) : Prop :=
  fields_ok (g <| ClockSource := 1 |> <| ClockSignal := 1 |> <| OneTimeDirection := 1 |> <| OneHzDirection := 1 |>) /\
  Forall state_ok (ReferenceState g) /\ zlen (ReferenceState g) = CFE_TIME_REFERENCE_BUF_DEPTH /\
  GetReferenceFail g = false /\ Forced2Fly g = false.

Lemma zero_ok : sys_ok zero_time.
Proof. split; split; done. Qed.
Hint Resolve zero_ok : time.

Lemma cleared_early g :
  sys_ok (PrevTime1 g) -> sys_ok (PrevTime2 g) ->
  early_ok (cleared <| PrevTime1 := PrevTime1 g |> <| PrevTime2 := PrevTime2 g |>).
Proof using.
  intros H1 H2.
  assert (Hst : state_ok (zero_refstate <| StateVersion := 0xFFFFFFFF |>)).
  { constructor; close_oks; cbv; first [done|by left|by split]. }
  split_and!; [|repeat constructor; apply Hst|done..].
  unfold cleared. constructor; close_oks; cbv; first [done|by left|by split].
Qed.

Lemma update_early f g :
  early_ok g -> (forall s, state_ok s -> StateVersion (f s) = StateVersion s /\ state_ok (f s)) ->
  early_ok (update_reference f g) /\ refs_ok (update_reference f g) /\
  flying (update_reference f g) = RS_ClockFlyState (f (next_state g)).
Proof using.
  intros (Hf & Hs & Hl & Hfail & Hfo) H. destruct (H (next_state g)) as [Hv Hok]; [by apply next_state_ok|].
  destruct (update_states f g Hl Hs Hv Hok) as (Hr & Hs' & Hfl). split_and!; [|done|done].
  split_and!; [|done|by destruct Hr|done|done].
  rewrite (update_frame f g). generalize (ReferenceState (update_reference f g)) (LastVersionCounter (update_reference f g)).
  intros X Y. clear -Hf. fields_from Hf.
Qed.

Lemma Query_early w :
  early_ok (G w) -> area_ok w ->
  let w' := CFE_TIME_QueryResetVars cfg w in
  early_ok (G w') /\ 1 <= ClockSignal (G w') <= 2 /\ ResetArea w' = ResetArea w.
Proof using Hcfg.
  intros H Ha. cbv zeta. unfold CFE_TIME_QueryResetVars. destruct Hcfg. split_oks.
  assert (Hfin : forall f v d, (forall s, state_ok s -> StateVersion (f s) = StateVersion s /\ state_ok (f s)) -> 1 <= v <= 2 ->
    let w' := on_G (fun g => (update_reference f g) <| ClockSignal := v |> <| DataStoreStatus := d |>) w in
    early_ok (G w') /\ 1 <= ClockSignal (G w') <= 2 /\ ResetArea w' = ResetArea w).
  { intros f v d Hf Hv. cbv zeta. split_and!; [|simp_upd; lia|simp_upd; lia|done]. simp_upd.
    destruct (update_early f (G w) H Hf) as [(Hu & Hs & Hl & Hfail & Hfo) _].
    generalize dependent (update_reference f (G w)). intros g Hu Hs Hl Hfail Hfo.
    split_and!; [|done..]. clear -Hu. fields_from Hu. }
  assert (Hsub : forall x, 0 <= x < 1000000 -> is_u32 (CFE_TIME_Micro2SubSecs x)) by (intros; apply Micro2Sub_range; lia).
  destruct (ResetArea w) as [v|] eqn:Ea.
  - destruct (Ha v Ea) as [Hl Ht]. split_oks. case_test.
    + apply Hfin.
      * intros s []. split_oks. split; [done|]. constructor; close_oks.
      * unfold CFE_TIME_ToneSignalSelect_PRIMARY, CFE_TIME_ToneSignalSelect_REDUNDANT in *. lia.
    + apply Hfin; [|by split]. intros s []. split_oks. split; [done|]. constructor; close_oks; by split; cbn; auto.
  - apply Hfin; [|by split]. intros s []. split_oks. split; [done|]. constructor; close_oks; by split; cbn; auto.
Qed.

Lemma InitData_ok w :
  sys_ok (PrevTime1 (G w)) -> sys_ok (PrevTime2 (G w)) -> area_ok w -> world_ok cfg (CFE_TIME_InitData cfg w).
Proof using Hcfg.
  intros H1 H2 Ha. unfold CFE_TIME_InitData. set (w0 := on_G _ w).
  assert (H0 : early_ok (G w0)) by (by apply cleared_early).
  destruct (Query_early w0 H0 Ha) as (Hq & Hsig & Hra).
  generalize dependent (CFE_TIME_QueryResetVars cfg w0). intros w1 Hq Hsig Hra. rewrite latch_clock.
  split; [|intros v Hv; apply Ha; change (ResetArea w1 = Some v) in Hv; rewrite Hra in Hv; exact Hv]. simp_upd. change (G (tick w1)) with (G w1).
  match goal with |- context [update_reference ?x] => set (f := x) end. pose proof (now_ok w1) as Hnow. clearbody w0. clear Ha H0 Hra.
  destruct (update_early f (G w1) Hq) as ((Hu & Hs & Hl & Hfail & Hfo) & Hr & Hfl).
  { intros s []. split_oks. split; [done|]. unfold f. constructor; close_oks; cbv; first [done|by left|by right|by split]. }
  change (RS_ClockFlyState (f (next_state (G w1)))) with CFE_TIME_FlywheelState_IS_FLY in Hfl.
  assert (Hmet : is_u32 (Seconds (RS_AtToneMET (CFE_TIME_GetReferenceState (G w1))))).
  { destruct Hq as (_ & Hs1 & Hl1 & _). destruct (current_state_ok (G w1) Hl1 Hs1). split_oks.
    by match goal with H : sys_ok (RS_AtToneMET _) |- _ => destruct H end. }
  assert (Hsg : ClockSignal (update_reference f (G w1)) = ClockSignal (G w1)) by done.
  generalize dependent (RS_AtToneMET (CFE_TIME_GetReferenceState (G w1))). intros met Hmet.
  rewrite <- Hsg in Hsig. clear Hsg Hq. generalize dependent (update_reference f (G w1)).
  intros g Hsig Hu Hs Hl Hfail Hfo Hr Hfl. destruct Hcfg. split_oks.
  assert (Hsub : forall x, 0 <= x < 1000000 -> is_u32 (CFE_TIME_Micro2SubSecs x)) by (intros; apply Micro2Sub_range; lia).
  assert (Hlim : is_u32 (CFE_TIME_Micro2SubSecs (TONE_LIMIT cfg)) /\ is_u32 (CFE_TIME_Micro2SubSecs (1000000 - TONE_LIMIT cfg)))
    by (split; apply Micro2Sub_range; lia). destruct Hlim.
  destruct Hu. split_oks. destruct g. clear Hcfg.
  destruct (SOURCE cfg); flat_upd.
  all: constructor; [exact Hr|exact Hs| |exact Hfail|intros _; symmetry; exact Hfl|intros _; exact Hfl].
  all: constructor; close_oks; try (apply Hsub; lia);
    try (split; cbn [Seconds Subseconds]; first [assumption|apply Hsub; lia]);
    first [by right|by left|unfold is_s16; by split|by split].
Qed.
End Init.

(** ** Everything that can happen *)

(** A message of the command pipe, an interrupt, a turn of one of the two
    tasks, external time data, or a call about synchronization callbacks. *)
Inductive TimeEvent :=
| Message (c : TimeCommand)
| ToneInterrupt
| ToneTurn
| LocalInterrupt
| LocalTurn
| ExternalMET (t : CFE_TIME_SysTime_t)
| ExternalGPS (t : CFE_TIME_SysTime_t) (leaps : Z)
| ExternalTime (t : CFE_TIME_SysTime_t)
| RegisterCallback (App : Z * Z) (f : Z)
| UnregisterCallback (App : Z * Z) (f : Z)
| CleanUp (App : Z * Z).

Definition handle (cfg : TimeConfig) (e : TimeEvent) (w : TimeWorld) : TimeWorld :=
  match e with
  | Message c => CFE_TIME_TaskPipe cfg c w
  | ToneInterrupt => CFE_TIME_Tone1HzISR w
  | ToneTurn => default w (CFE_TIME_Tone1HzTask cfg w)
  | LocalInterrupt => CFE_TIME_Local1HzTimerCallback w
  | LocalTurn => default w (CFE_TIME_Local1HzTask w)
  | ExternalMET t => snd (CFE_TIME_ToneSendMET cfg t w)
  | ExternalGPS t l => snd (CFE_TIME_ToneSendGPS cfg t l w)
  | ExternalTime t => snd (CFE_TIME_ToneSendTime cfg t w)
  | RegisterCallback App f => on_G (fun g => snd (CFE_TIME_RegisterSynchCallback App f g)) w
  | UnregisterCallback App f => on_G (fun g => snd (CFE_TIME_UnregisterSynchCallback App f g)) w
  | CleanUp App => on_G (fun g => snd (CFE_TIME_CleanUpApp App g)) w
  end.

Definition event_ok (e : TimeEvent) : Prop := match e with Message c => command_ok c | _ => True end.

Section Events.
Variable cfg : TimeConfig.

Lemma accept_ok n w : time_ok cfg (G w) -> time_ok cfg (G (accept n w)).
Proof. intros H. unfold accept. simp_upd. by apply count_ok_ok. Qed.
Lemma refuse_ok n w : time_ok cfg (G w) -> time_ok cfg (G (refuse n w)).
Proof. intros H. unfold refuse. simp_upd. by apply count_error_ok. Qed.
Hint Resolve accept_ok refuse_ok : time.

(** A read leaves the state as it is. *)
Lemma read_G w : time_ok cfg (G w) -> G (snd (CFE_TIME_GetReference cfg w)) = G w /\
  ResetArea (snd (CFE_TIME_GetReference cfg w)) = ResetArea w /\ reference_ok (fst (CFE_TIME_GetReference cfg w)).
Proof. intros H. by destruct (reference_read cfg w H) as [-> Hr]. Qed.

Lemma GetTime_G w : time_ok cfg (G w) -> G (snd (CFE_TIME_GetTime cfg w)) = G w.
Proof.
  intros H. pose proof (read_G w H) as (E & _). unfold CFE_TIME_GetTime, CFE_TIME_GetTAI, CFE_TIME_GetUTC.
  destruct (DEFAULT_TAI cfg), (CFE_TIME_GetReference cfg w); exact E.
Qed.

Lemma time_command_ok b e1 e2 e3 s u f w :
  time_ok cfg (G w) -> is_u32 s -> is_u32 u ->
  (forall t, sys_ok t -> time_ok cfg (G (f t w))) -> time_ok cfg (G (time_command b e1 e2 e3 s u f w)).
Proof.
  intros H Hs Hu Hf. unfold time_command. case_test; [|by apply refuse_ok]. destruct b; [|by apply refuse_ok].
  apply accept_ok, Hf. split; [done|]. apply Micro2Sub_range. unfold is_u32 in *. lia.
Qed.

Lemma Housekeeping_ok w : world_ok cfg w -> world_ok cfg (CFE_TIME_HousekeepingCmd cfg w).
Proof.
  intros [H Ha]. unfold CFE_TIME_HousekeepingCmd. destruct (reference_read cfg w H) as [-> Hr].
  set (r := compute_reference _ _ _ _) in *. clearbody r.
  assert (Hu : G (CFE_TIME_UpdateResetVars r (tick w)) = G w /\ area_ok (CFE_TIME_UpdateResetVars r (tick w))).
  { unfold CFE_TIME_UpdateResetVars. change (ResetArea (tick w)) with (ResetArea w).
    destruct (negb _); [|by split]. destruct (ResetArea w) eqn:Ea; [|split; [done|intros v Hv; change (ResetArea w = Some v) in Hv; congruence]].
    split; [done|]. intros v [= <-]. destruct Hr. split_oks. split; [done|]. close_oks. }
  destruct Hu as [Eg Hu]. rewrite <- Eg in H. pose proof (GetTime_G _ H) as Et.
  assert (Ea : ResetArea (snd (CFE_TIME_GetTime cfg (CFE_TIME_UpdateResetVars r (tick w)))) =
               ResetArea (CFE_TIME_UpdateResetVars r (tick w))).
  { unfold CFE_TIME_GetTime, CFE_TIME_GetTAI, CFE_TIME_GetUTC. destruct (read_G _ H) as (_ & E & _).
    destruct (DEFAULT_TAI cfg), (CFE_TIME_GetReference cfg _); exact E. }
  destruct (CFE_TIME_GetTime cfg (CFE_TIME_UpdateResetVars r (tick w))) as [t w']. cbn [snd] in *.
  split; [simp_upd; by rewrite Et|]. intros v Hv. apply Hu. rewrite <- Ea. exact Hv.
Qed.

Lemma Diagnostic_ok w : time_ok cfg (G w) -> time_ok cfg (G (CFE_TIME_SendDiagnosticTlm cfg w)).
Proof.
  intros H. unfold CFE_TIME_SendDiagnosticTlm.
  assert (H1 : time_ok cfg (G (on_G count_ok w))) by (by apply count_ok_ok).
  destruct (read_G _ H1) as (E & _). destruct (CFE_TIME_GetReference cfg _) as [r w1]. cbn [snd] in E. rewrite <- E in H1.
  pose proof (GetTime_G _ H1) as Et. destruct (CFE_TIME_GetTime cfg w1) as [t w2]. cbn [snd] in Et.
  simp_upd. by rewrite Et.
Qed.

Lemma Reset_ok w : time_ok cfg (G w) -> time_ok cfg (G (CFE_TIME_ResetCountersCmd w)).
Proof.
  intros H. unfold CFE_TIME_ResetCountersCmd. simp_upd. pose proof (to_fields _ _ H) as Hf.
  assert (Hv : is_u32 (LastVersionCounter (G w))) by (by destruct (to_refs _ _ H) as (_ & ? & _)).
  generalize dependent (G w). intros g H Hf Hv. destruct g. flat_upd. destruct H, Hf. split_oks.
  constructor; try assumption. constructor; close_oks; by split.
Qed.

Lemma source_ok s g : time_ok cfg g -> 1 <= s <= 2 -> time_ok cfg (CFE_TIME_SetSource s g).
Proof. intros H Hs. unfold CFE_TIME_SetSource. frame. pose proof (to_fields _ _ H) as Hf. fields_from Hf. Qed.
Lemma signal_ok s g : time_ok cfg g -> 1 <= s <= 2 -> time_ok cfg (CFE_TIME_SetSignal s g).
Proof. intros H Hs. unfold CFE_TIME_SetSignal. frame. pose proof (to_fields _ _ H) as Hf. fields_from Hf. Qed.

(** The commands of the task, but for housekeeping. *)
Lemma command_time_ok c w : time_ok cfg (G w) -> command_ok c -> c <> Housekeeping -> time_ok cfg (G (CFE_TIME_TaskPipe cfg c w)).
Proof.
  intros H Hc Hn.
  assert (Hupd : forall f, (forall s, state_ok s -> StateVersion (f s) = StateVersion s /\ state_ok (f s) /\
            RS_ClockFlyState (f s) = RS_ClockFlyState s) -> time_ok cfg (G (on_G (update_reference f) w)))
    by (intros f Hf; by apply update_ok).
  destruct c; cbn [CFE_TIME_TaskPipe command_ok] in *.
  - done.
  - by apply ToneSignal_ok.
  - by apply ToneData_ok.
  - unfold CFE_TIME_OneHzCmd. destruct (FAKE_TONE cfg); [apply ToneISR_ok|]; by apply StateMachine_ok.
  - destruct (SERVER cfg); [by apply ToneSend_ok|done].
  - by apply accept_ok.
  - by apply Reset_ok.
  - by apply Diagnostic_ok.
  - unfold CFE_TIME_SetStateCmd. case_test; [|by apply refuse_ok]. apply accept_ok. simp_upd. by apply SetState_ok.
  - unfold CFE_TIME_SetSourceCmd. case_test; [|by apply refuse_ok]. destruct (SOURCE cfg); [|by apply refuse_ok].
    apply accept_ok. simp_upd. apply source_ok; [done|].
    unfold CFE_TIME_SourceSelect_INTERNAL, CFE_TIME_SourceSelect_EXTERNAL in *. lia.
  - unfold CFE_TIME_SetSignalCmd. case_test; [|by apply refuse_ok]. destruct (SIGNAL cfg); [|by apply refuse_ok].
    apply accept_ok. simp_upd. apply signal_ok; [done|].
    unfold CFE_TIME_ToneSignalSelect_PRIMARY, CFE_TIME_ToneSignalSelect_REDUNDANT in *. lia.
  - destruct Hc. apply time_command_ok; try done. intros t Ht. apply Hupd. intros s []. split_oks.
    split_and!; [done|constructor; close_oks; by split|done].
  - destruct Hc. apply time_command_ok; try done. intros t Ht. apply Hupd. intros s []. split_oks.
    split_and!; [done|constructor; close_oks; by split|done].
  - destruct Hc. apply time_command_ok; try done. intros t Ht. by apply SetTime_ok.
  - destruct Hc. apply time_command_ok; try done. intros t Ht. by apply SetMET_ok.
  - destruct Hc. apply time_command_ok; try done. intros t Ht. apply Hupd. intros s []. split_oks.
    split_and!; [done|constructor; close_oks|done].
  - unfold CFE_TIME_SetLeapSecondsCmd. destruct (SERVER cfg); [|by apply refuse_ok]. apply accept_ok, Hupd. intros s [].
    split_oks. split_and!; [done|constructor; close_oks|done].
  - destruct Hc. apply time_command_ok; try done. intros t Ht. by apply Adjust_ok.
  - destruct Hc. apply time_command_ok; try done. intros t Ht. by apply Adjust_ok.
  - unfold CFE_TIME_1HzAdjImpl. destruct (SERVER cfg); [|by apply refuse_ok]. apply accept_ok. simp_upd. by apply OneHz_ok.
  - unfold CFE_TIME_1HzAdjImpl. destruct (SERVER cfg); [|by apply refuse_ok]. apply accept_ok. simp_upd. by apply OneHz_ok.
Qed.

(** ** The reset area *)

(** Only the housekeeping command writes the reset area. *)
Lemma read_area w : ResetArea (snd (CFE_TIME_GetReference cfg w)) = ResetArea w.
Proof.
  unfold CFE_TIME_GetReference.
  assert (H : forall n w, ResetArea (snd (read_reference n w)) = ResetArea w).
  { induction n as [|n IH]; intros w'; cbn [read_reference]; rewrite latch_clock; case_test; try done. by rewrite IH. }
  specialize (H 4%nat w). destruct (read_reference 4 w) as [[[s l] []] w']; exact H.
Qed.

Lemma on_G_area f w : ResetArea (on_G f w) = ResetArea w.
Proof. reflexivity. Qed.

(** Steps over the operations that keep the reset area. *)
Ltac area :=
  repeat first
    [ reflexivity
    | match goal with
      | |- context [CFE_TIME_GetReference cfg ?w] =>
          let E := fresh "E" in
          pose proof (read_area w) as E; destruct (CFE_TIME_GetReference cfg w); cbn [snd] in E; refine (eq_trans _ E); clear E
      | |- context [if ?b then _ else _] => destruct b
      | |- context [match ?b with CFE_TIME_A_LT_B => _ | _ => _ end] => destruct b
      end
    | progress cbv zeta ].

Lemma send_area w : ResetArea (CFE_TIME_ToneSend cfg w) = ResetArea w.
Proof. unfold CFE_TIME_ToneSend. area. Qed.
Lemma external_area w r b m t l : ResetArea (snd (send_external cfg w r b m t l)) = ResetArea w.
Proof. unfold send_external. destruct b; [apply send_area|done]. Qed.
Lemma update_area w : ResetArea (CFE_TIME_ToneUpdate cfg w) = ResetArea w.
Proof. unfold CFE_TIME_ToneUpdate. area. Qed.
Lemma verify_area a b w : ResetArea (CFE_TIME_ToneVerify cfg a b w) = ResetArea w.
Proof.
  unfold CFE_TIME_ToneVerify. repeat case_test; try done. simp_upd. rewrite update_area. done.
Qed.
Lemma machine_area w : ResetArea (CFE_TIME_Local1HzStateMachine cfg w) = ResetArea w.
Proof. unfold CFE_TIME_Local1HzStateMachine. area. Qed.
Lemma notify_area w : ResetArea (CFE_TIME_NotifyTimeSynchApps w) = ResetArea w.
Proof.
  unfold CFE_TIME_NotifyTimeSynchApps. destruct (IsToneGood (G w)); [|done].
  generalize (SynchCallback (G w)). intros l. revert w. induction l as [|[f|] l IH]; intros w; [done| |]; cbn [fold_left];
    by rewrite IH.
Qed.
Lemma isr_area w : ResetArea (CFE_TIME_Tone1HzISR w) = ResetArea w.
Proof. unfold CFE_TIME_Tone1HzISR. rewrite latch_clock. cbv zeta. by rewrite notify_area. Qed.
Lemma GetTime_area w : ResetArea (snd (CFE_TIME_GetTime cfg w)) = ResetArea w.
Proof. unfold CFE_TIME_GetTime, CFE_TIME_GetTAI, CFE_TIME_GetUTC. area. Qed.
Lemma time_command_area b e1 e2 e3 s u f w :
  (forall t, ResetArea (f t w) = ResetArea w) -> ResetArea (time_command b e1 e2 e3 s u f w) = ResetArea w.
Proof. intros H. unfold time_command. case_test; [|done]. destruct b; [|done]. apply H. Qed.

Lemma command_area c w : c <> Housekeeping -> ResetArea (CFE_TIME_TaskPipe cfg c w) = ResetArea w.
Proof.
  intros Hn. destruct c; cbn [CFE_TIME_TaskPipe].
  - done.
  - unfold CFE_TIME_ToneSignal. rewrite on_G_area. destruct (AT_TONE_WAS cfg); [reflexivity|]. apply verify_area.
  - unfold CFE_TIME_ToneData. rewrite latch_clock. cbv zeta. rewrite on_G_area.
    destruct (AT_TONE_WAS cfg); [rewrite verify_area|]; reflexivity.
  - unfold CFE_TIME_OneHzCmd. destruct (FAKE_TONE cfg); [rewrite isr_area|]; apply machine_area.
  - destruct (SERVER cfg); [apply send_area|reflexivity].
  - reflexivity.
  - reflexivity.
  - unfold CFE_TIME_SendDiagnosticTlm. pose proof (read_area (on_G count_ok w)) as E.
    destruct (CFE_TIME_GetReference cfg _) as [r w1]. pose proof (GetTime_area w1) as Et.
    destruct (CFE_TIME_GetTime cfg w1) as [t w2]. cbn [snd] in *. exact (eq_trans Et E).
  - unfold CFE_TIME_SetStateCmd. area.
  - unfold CFE_TIME_SetSourceCmd. area.
  - unfold CFE_TIME_SetSignalCmd. area.
  - apply time_command_area. reflexivity.
  - apply time_command_area. reflexivity.
  - apply time_command_area. intros t. unfold CFE_TIME_SetTime. area.
  - apply time_command_area. reflexivity.
  - apply time_command_area. reflexivity.
  - unfold CFE_TIME_SetLeapSecondsCmd. area.
  - apply time_command_area. reflexivity.
  - apply time_command_area. reflexivity.
  - unfold CFE_TIME_1HzAdjImpl. area.
  - unfold CFE_TIME_1HzAdjImpl. area.
Qed.

(** ** Every event *)

Lemma external_ok f w :
  time_ok cfg (G w) -> area_ok w ->
  (forall r w', time_ok cfg (G w') -> exists b m t l, f r w' = send_external cfg w' r b m t l) ->
  world_ok cfg (snd (if ClockSource (G w) =? CFE_TIME_SourceSelect_INTERNAL
                     then (CFE_TIME_INTERNAL_ONLY, CFE_TIME_ToneSend cfg w)
                     else let '(r, w) := CFE_TIME_GetReference cfg w in f r w)).
Proof.
  intros H Ha Hf. case_test; cbn [snd].
  - split; [by apply ToneSend_ok|]. intros v. rewrite send_area. apply Ha.
  - destruct (read_G w H) as (E & Ea & _). destruct (CFE_TIME_GetReference cfg w) as [r w']. cbn [snd fst] in *.
    rewrite <- E in H. destruct (Hf r w' H) as (b & m & t & l & ->).
    split; [by apply send_external_ok|]. intros v. rewrite external_area, Ea. apply Ha.
Qed.

Lemma callback_ok f w :
  world_ok cfg w -> (f (G w) = G w \/ exists i v, f (G w) = (G w) <| SynchCallback ::= fun l => zset l i v |>) ->
  world_ok cfg (on_G f w).
Proof.
  intros [H Ha] Hf. split; [|exact Ha]. simp_upd. destruct Hf as [->|(i & v & ->)]; [done|]. by apply CleanUp_ok.
Qed.

Lemma handle_ok e w : world_ok cfg w -> event_ok e -> world_ok cfg (handle cfg e w).
Proof.
  intros [H Ha] He. destruct e; cbn [handle event_ok] in *.
  - assert (c = Housekeeping \/ c <> Housekeeping) as [->|Hn] by (destruct c; auto); [by apply Housekeeping_ok|].
    split; [by apply command_time_ok|]. intros v. rewrite command_area by done. apply Ha.
  - split; [by apply ToneISR_ok|]. intros v. rewrite isr_area. apply Ha.
  - unfold CFE_TIME_Tone1HzTask. destruct (ToneSemaphore (G w)); unfold id; cbn [from_option]; [|done].
    split; [|by destruct (FAKE_TONE cfg)]. destruct (FAKE_TONE cfg); simp_upd; generalize dependent (G w); intros g Hg; counted.
  - split; [|done]. unfold CFE_TIME_Local1HzTimerCallback, CFE_TIME_Local1HzISR. simp_upd.
    generalize dependent (G w); intros g Hg; counted.
  - unfold CFE_TIME_Local1HzTask. destruct (LocalSemaphore (G w)); unfold id; cbn [from_option]; [|done].
    case_test; (split; [|done]); simp_upd; generalize dependent (G w); intros; counted.
  - apply external_ok; [done..|]. intros r w' _. by eexists _, _, _, _.
  - apply external_ok; [done..|]. intros r w' _. by eexists _, _, _, _.
  - apply external_ok; [done..|]. intros r w' _. by eexists _, _, _, _.
  - apply callback_ok; [done|]. unfold CFE_TIME_RegisterSynchCallback. destruct App. repeat case_test; cbn [snd]; eauto.
  - apply callback_ok; [done|]. unfold CFE_TIME_UnregisterSynchCallback. destruct App. repeat case_test; cbn [snd]; eauto.
  - apply callback_ok; [done|]. unfold CFE_TIME_CleanUpApp. destruct App. repeat case_test; cbn [snd]; eauto.
Qed.

Lemma events_ok es w :
  world_ok cfg w -> Forall event_ok es -> world_ok cfg (fold_left (fun w e => handle cfg e w) es w).
Proof.
  revert w. induction es as [|e es IH]; intros w Hw He; [done|]. apply List.Forall_cons_iff in He as [He Hes].
  cbn [fold_left]. apply IH; [by apply handle_ok|done].
Qed.
End Events.
