(* ===== verification/TimeSync.v ===== *)
(** The reference data under concurrent access: a task reads the reference
    (the loop of [CFE_TIME_GetReference]) while the time task updates it
    ([CFE_TIME_StartReferenceUpdate], writes to the next state,
    [CFE_TIME_FinishReferenceUpdate]).

    The buffers are volatile words and every step is one access; only the time
    task writes.  [hist] is a history variable, the words of every version that
    was published; [loaded] is the number of the version a reader looks at. *)

From stdpp Require Import relations.
From S2P Require Import Prelude Records TimeMath TimeModel TimeTone TimeInv.

(** ** Memory and programs *)

(** The words of a state but for its version, in the order of the copy. *)
Definition words_of (s : CFE_TIME_ReferenceState_t) : list Z :=
  [RS_AtToneLeapSeconds s; RS_ClockSetState s; RS_ClockFlyState s; RS_DelayDirection s;
   Seconds (RS_AtToneMET s); Subseconds (RS_AtToneMET s); Seconds (RS_AtToneSTCF s); Subseconds (RS_AtToneSTCF s);
   Seconds (RS_AtToneDelay s); Subseconds (RS_AtToneDelay s); Seconds (RS_AtToneLatch s); Subseconds (RS_AtToneLatch s)].
Definition width : nat := 12.

Record RefMem := ref_mem { last_version : Z; versions : list Z; words : list (list Z) }.

(** The index of the buffer of a version. *)
Definition idx (Version : Z) : nat := Z.to_nat (ref_index Version).

Definition set_word (m : RefMem) (i j : nat) (x : Z) : RefMem :=
  ref_mem (last_version m) (versions m) (alter <[j:=x]> i (words m)).

(** Where the writer is: outside an update, before the store of the version,
    about to copy word [k], changing the next state. *)
Inductive Writer := WIdle | WStore (Version : Z) | WCopy (Version : Z) (k : nat) | WModify (Version : Z).

(** The order of the copies in [CFE_TIME_GetReference]. *)
Definition read_order : list nat := [4; 5; 6; 7; 0; 8; 9; 10; 11; 1; 2; 3]%nat.

(** Where the reader is: at the top of its loop, about to copy the [k]th word,
    after the loop. *)
Inductive Reader :=
| RTop (RetryCount : nat)
| RRead (RetryCount : nat) (VersionCounter : Z) (k : nat) (Reference : list Z) (loaded : nat)
| ROk (Reference : list Z) (loaded : nat)
| RFail.

(** The check that ends an attempt, with the test of [RetryCount] that follows
    the loop. *)
Definition attempt (m : RefMem) (RetryCount : nat) (VersionCounter : Z) (Reference : list Z) (loaded : nat) : Reader :=
  if VersionCounter =? versions m !!! idx VersionCounter then
    match RetryCount with O => RFail | _ => ROk Reference loaded end
  else match RetryCount with O => RFail | S n => RTop n end.

(** The call has returned. *)
Definition finished (r : Reader) : bool := match r with ROk _ _ | RFail => true | _ => false end.

Record Sync := sync { mem : RefMem; hist : list (list Z); writer : Writer; reader : Reader }.

Inductive sync_step : Sync -> Sync -> Prop :=
| w_load m h r : sync_step (sync m h WIdle r) (sync m h (WStore (last_version m)) r)
| w_store m h r v :
    sync_step (sync m h (WStore v) r)
      (sync (ref_mem (last_version m) (<[idx (u32 (v + 1)) := u32 (v + 1)]> (versions m)) (words m)) h (WCopy v 0) r)
| w_copy m h r v k :
    (k < width)%nat ->
    sync_step (sync m h (WCopy v k) r)
      (sync (set_word m (idx (u32 (v + 1))) k ((words m !!! idx v) !!! k)) h (WCopy v (S k)) r)
| w_copied m h r v : sync_step (sync m h (WCopy v width) r) (sync m h (WModify v) r)
| w_modify m h r v j x :
    (j < width)%nat ->
    sync_step (sync m h (WModify v) r) (sync (set_word m (idx (u32 (v + 1))) j x) h (WModify v) r)
| w_finish m h r v :
    sync_step (sync m h (WModify v) r)
      (sync (ref_mem (versions m !!! idx (u32 (v + 1))) (versions m) (words m))
            (h ++ [words m !!! idx (u32 (v + 1))]) WIdle r)
| r_call m h w r : finished r = true -> sync_step (sync m h w r) (sync m h w (RTop 4))
| r_load m h w n :
    sync_step (sync m h w (RTop n)) (sync m h w (RRead n (last_version m) 0 (replicate width 0) (pred (length h))))
| r_copy m h w n v k acc l j :
    read_order !! k = Some j ->
    sync_step (sync m h w (RRead n v k acc l)) (sync m h w (RRead n v (S k) (<[j := (words m !!! idx v) !!! j]> acc) l))
| r_check m h w n v acc l : sync_step (sync m h w (RRead n v width acc l)) (sync m h w (attempt m n v acc l)).

(** No version has been written: the state that [CFE_TIME_InitData] starts
    with. *)
Definition sync_init : Sync :=
  sync (ref_mem 0 (replicate 4 0xFFFFFFFF) (replicate 4 (replicate width 0))) [replicate width 0] WIdle (RTop 4).

Definition sync_reach : Sync -> Prop := rtc sync_step sync_init.

(** ** The invariant *)

(** Versions published, and updates started. *)
Definition published (s : Sync) : nat := pred (length (hist s)).
Definition started (s : Sync) : nat :=
  match writer s with WIdle | WStore _ => published s | _ => S (published s) end.

(** The version word of the [n]th version; the cleared buffers hold none. *)
Definition version_word (n : nat) : Z := if (n =? 0)%nat then 0xFFFFFFFF else u32 (Z.of_nat n).

Definition writer_ok (s : Sync) : Prop :=
  match writer s with
  | WIdle => True
  | WStore v | WModify v => v = u32 (Z.of_nat (published s))
  | WCopy v k => v = u32 (Z.of_nat (published s)) /\ (k <= width)%nat
  end.

(** The words copied so far are those of the version, unless its buffer has
    been reused. *)
Definition reader_ok (s : Sync) : Prop :=
  match reader s with
  | RRead _ v k acc l =>
      v = u32 (Z.of_nat l) /\ (l <= published s)%nat /\ length acc = width /\ (k <= width)%nat /\
      ((started s < l + 4)%nat -> forall i j, (i < k)%nat -> read_order !! i = Some j ->
         acc !! j = Some ((hist s !!! l) !!! j))
  | ROk acc l =>
      (l <= published s)%nat /\
      ((1 <= l)%nat /\ hist s !! l = Some acc \/ 2 ^ 32 <= Z.of_nat (started s) - Z.of_nat l)
  | _ => True
  end.

Record sync_ok (s : Sync) : Prop := {
  sy_hist : (1 <= length (hist s))%nat /\ Forall (fun h => length h = width) (hist s);
  sy_last : last_version (mem s) = u32 (Z.of_nat (published s));
  sy_versions : length (versions (mem s)) = 4%nat;
  sy_words : length (words (mem s)) = 4%nat /\ Forall (fun h => length h = width) (words (mem s));
  sy_version : forall n, (n <= started s < n + 4)%nat -> versions (mem s) !! (n mod 4)%nat = Some (version_word n);
  sy_state : forall n, (n <= published s)%nat -> (started s < n + 4)%nat -> words (mem s) !! (n mod 4)%nat = hist s !! n;
  sy_writer : writer_ok s;
  sy_reader : reader_ok s }.

Lemma idx_u32 (n : nat) : idx (u32 (Z.of_nat n)) = (n mod 4)%nat.
Proof.
  unfold idx. rewrite ref_index_mod. apply Nat2Z.inj. rewrite Nat2Z.inj_mod, Z2Nat.id by (apply Z.mod_pos_bound; lia).
  change (Z.of_nat 4) with 4. machine_lia.
Qed.

Lemma idx_next (n : nat) : idx (u32 (u32 (Z.of_nat n) + 1)) = (S n mod 4)%nat.
Proof. rewrite <- idx_u32. f_equal. machine_lia. Qed.

Lemma mod4_lt n : (n mod 4 < 4)%nat.
Proof. apply Nat.mod_upper_bound. lia. Qed.

(** Versions less than four apart have different buffers. *)
Lemma mod4_ne m n : (m < n < m + 4)%nat -> (m mod 4 <> n mod 4)%nat.
Proof. intros. pose proof (Nat.div_mod_eq m 4). pose proof (Nat.div_mod_eq n 4). lia. Qed.

(** ** The steps keep the invariant *)

Lemma started_published s : (published s <= started s <= S (published s))%nat.
Proof. unfold started. destruct (writer s); lia. Qed.

Lemma read_order_all j : (j < width)%nat -> exists i, (i < width)%nat /\ read_order !! i = Some j.
Proof.
  intros Hj. unfold width in *. assert (H : j ∈ read_order).
  { unfold read_order. do 12 (destruct j as [|j]; [set_solver|]). lia. }
  apply list_elem_of_lookup in H as [i Hi]. exists i. split; [|done]. apply lookup_lt_Some in Hi. exact Hi.
Qed.

(** The reader's view does not depend on the memory but through the history. *)
Lemma reader_mono s s' :
  reader_ok s -> reader s' = reader s -> (exists t, hist s' = hist s ++ t) -> (published s <= published s')%nat ->
  (started s <= started s')%nat -> (1 <= length (hist s))%nat -> reader_ok s'.
Proof.
  unfold reader_ok. intros H -> [t Et] Hp Hs Hl. destruct (reader s) as [|n v k acc l|acc l|]; [done| | |done].
  - destruct H as (Hv & Hlp & Ha & Hk & Hread). split_and!; [done|lia|done|done|]. intros Hst i j Hi Hj.
    rewrite (Hread ltac:(lia) i j Hi Hj). do 2 f_equal. rewrite Et. rewrite lookup_total_app_l; [done|].
    unfold published in Hlp. lia.
  - destruct H as (Hlp & [[H1 H]|H]); (split; [lia|]); [left; split; [done|]|right; lia]. rewrite Et. by apply lookup_app_l_Some.
Qed.

(** A version with the number of an earlier one is the same, or a turn of the
    counter has passed. *)
Lemma version_word_eq l n :
  (l <= n)%nat -> version_word n = u32 (Z.of_nat l) -> (l = n /\ 1 <= n)%nat \/ 2 ^ 32 <= Z.of_nat n - Z.of_nat l.
Proof.
  unfold version_word. intros Hl. destruct (Nat.eqb_spec n 0) as [->|Hn].
  - replace l with O by lia. done.
  - intros E. destruct (decide (l = n)) as [->|Hne]; [left; lia|right]. machine_lia.
Qed.

(** The latest version in the buffer of version [l]. *)
Lemma latest l n : (l <= n)%nat -> exists m, (l <= m <= n /\ n < m + 4)%nat /\ (m mod 4 = l mod 4)%nat.
Proof.
  intros H. exists (l + 4 * ((n - l) / 4))%nat. pose proof (Nat.div_mod_eq (n - l) 4). pose proof (mod4_lt (n - l)).
  split; [lia|]. rewrite (Nat.mul_comm 4). apply Nat.Div0.mod_add.
Qed.

(** What the check of the reader shows. *)
Lemma check_version s l :
  sync_ok s -> (l <= published s)%nat ->
  versions (mem s) !!! idx (u32 (Z.of_nat l)) = u32 (Z.of_nat l) ->
  (1 <= l /\ started s < l + 4)%nat \/ 2 ^ 32 <= Z.of_nat (started s) - Z.of_nat l.
Proof.
  intros H Hl E. pose proof (started_published s). destruct (latest l (started s)) as (m & Hm & Em); [lia|].
  rewrite idx_u32, <- Em in E. pose proof (sy_version _ H m ltac:(lia)) as Hv.
  rewrite (list_lookup_total_correct _ _ _ Hv) in E.
  destruct (version_word_eq l m) as [[-> ?]|?]; [lia|done|left; lia|right; lia].
Qed.

(** A reader whose buffer was not reused finds its version there. *)
Lemma check_passes s l :
  sync_ok s -> (1 <= l <= published s)%nat -> (started s < l + 4)%nat ->
  versions (mem s) !!! idx (u32 (Z.of_nat l)) = u32 (Z.of_nat l).
Proof.
  intros H Hl Hs. pose proof (started_published s). rewrite idx_u32.
  pose proof (sy_version _ H l ltac:(lia)) as Hv.
  rewrite (list_lookup_total_correct _ _ _ Hv). unfold version_word.
  destruct (Nat.eqb_spec l 0); [lia|done].
Qed.

(** A write to the buffer of the next version. *)
Lemma next_word_ok m h v w k j x r :
  sync_ok (sync m h w r) -> (w = WCopy v k \/ w = WModify v) -> (j < width)%nat ->
  let i := idx (u32 (v + 1)) in
  length (words (set_word m i j x)) = 4%nat /\ Forall (fun h => length h = width) (words (set_word m i j x)) /\
  (forall n, (n <= published (sync m h w r))%nat -> (started (sync m h w r) < n + 4)%nat ->
     words (set_word m i j x) !! (n mod 4)%nat = h !! n).
Proof.
  intros H Hw Hj i. destruct (sy_words _ H) as [Hl Hf]. cbn [mem] in *.
  assert (Hv : v = u32 (Z.of_nat (published (sync m h w r))) /\ started (sync m h w r) = S (published (sync m h w r))).
  { pose proof (sy_writer _ H) as Hwr. unfold writer_ok, started in *. cbn [writer] in *. destruct Hw as [-> | ->]; [|done].
    by destruct Hwr. }
  destruct Hv as [Ev Es]. assert (Ei : i = (S (published (sync m h w r)) mod 4)%nat) by (unfold i; rewrite Ev; apply idx_next).
  cbn [set_word words]. split_and!.
  - by rewrite length_alter.
  - apply Forall_alter; [done|]. intros y Hy Hly. by rewrite length_insert.
  - intros n Hn Hs. rewrite list_lookup_alter_ne; [by apply (sy_state _ H)|].
    rewrite Ei. intros E. apply (mod4_ne n (S (published (sync m h w r)))); [lia|done].
Qed.

Lemma sync_init_ok : sync_ok sync_init.
Proof.
  split; try done.
  - split; [cbn; lia|]. by repeat constructor.
  - split; [done|]. by repeat constructor.
  - intros n [Hn _]. cbn in Hn. by replace n with O by lia.
  - intros n Hn _. cbn in Hn. by replace n with O by lia.
Qed.

Lemma store_ok m h v r :
  sync_ok (sync m h (WStore v) r) ->
  sync_ok (sync (ref_mem (last_version m) (<[idx (u32 (v + 1)) := u32 (v + 1)]> (versions m)) (words m)) h (WCopy v 0) r).
Proof.
  intros H. pose proof (sy_writer _ H) as Hv. cbn in Hv. destruct H as [Hh Hlast Hvl Hw Hver Hst _ Hr].
  set (p := published (sync m h (WStore v) r)) in *.
  assert (Ei : idx (u32 (v + 1)) = (S p mod 4)%nat) by (rewrite Hv; apply idx_next).
  constructor; cbn [mem hist versions words last_version] in *; try done.
  - by rewrite length_insert.
  - intros n Hn. change (started _) with (S p) in Hn. rewrite Ei. destruct (decide (n = S p)) as [->|Hne].
    + rewrite list_lookup_insert_eq by (rewrite Hvl; apply mod4_lt). f_equal. unfold version_word. rewrite Hv. cbn [Nat.eqb].
      machine_lia.
    + rewrite list_lookup_insert_ne by (intros E; apply (mod4_ne n (S p)); [lia|done]). apply Hver.
      change (started _) with p. lia.
  - intros n Hn Hs. apply Hst; [done|]. change (started _) with (S p) in Hs. change (started _) with p. lia.
  - split; [done|lia].
  - eapply reader_mono; [exact Hr|done|exists []; by rewrite app_nil_r|done| |apply Hh]. change (p <= S p)%nat. lia.
Qed.

Lemma write_ok m h v w w' k j x r :
  sync_ok (sync m h w r) -> (w = WCopy v k \/ w = WModify v) -> (j < width)%nat ->
  w' = WModify v \/ (exists k', w' = WCopy v k' /\ (k' <= width)%nat) ->
  sync_ok (sync (set_word m (idx (u32 (v + 1))) j x) h w' r).
Proof.
  intros H Hw Hj Hw'. destruct (next_word_ok m h v w k j x r H Hw Hj) as (H1 & H2 & H3).
  pose proof (sy_writer _ H) as Hwr. destruct H as [Hh Hlast Hvl Hwd Hver Hst _ Hr].
  assert (Es : started (sync (set_word m (idx (u32 (v + 1))) j x) h w' r) = started (sync m h w r)).
  { unfold started. cbn [writer]. by destruct Hw as [-> | ->], Hw' as [-> |(? & -> & _)]. }
  constructor; rewrite ?Es; try done.
  - unfold writer_ok in *. cbn [writer] in *. assert (Hv : v = u32 (Z.of_nat (published (sync m h w r)))).
    { destruct Hw as [-> | ->]; [by destruct Hwr|done]. }
    by destruct Hw' as [-> |(? & -> & ?)].
  - eapply reader_mono; [exact Hr|done|exists []; by rewrite app_nil_r|done|by rewrite Es|apply Hh].
Qed.

Lemma finish_ok m h v r :
  sync_ok (sync m h (WModify v) r) ->
  sync_ok (sync (ref_mem (versions m !!! idx (u32 (v + 1))) (versions m) (words m))
                (h ++ [words m !!! idx (u32 (v + 1))]) WIdle r).
Proof.
  intros H. pose proof (sy_writer _ H) as Hv. cbn in Hv. pose proof (sy_version _ H) as Hnew.
  destruct H as [[Hh Hhf] Hlast Hvl [Hwl Hwf] Hver Hst _ Hr].
  set (p := published (sync m h (WModify v) r)) in *.
  assert (Ei : idx (u32 (v + 1)) = (S p mod 4)%nat) by (rewrite Hv; apply idx_next). rewrite Ei.
  assert (Hlk : words m !! (S p mod 4)%nat = Some (words m !!! (S p mod 4)%nat)).
  { apply list_lookup_lookup_total_lt. cbn [mem] in Hwl. rewrite Hwl. apply mod4_lt. }
  match goal with |- sync_ok ?x => set (s' := x) end.
  assert (Ep : published s' = S p /\ length h = S p).
  { unfold published, p, published in *. cbn [hist s'] in *. rewrite length_app. cbn. lia. }
  destruct Ep as [Ep Hlh].
  assert (Es : started s' = S p) by (unfold started; cbn; done).
  constructor; rewrite ?Ep, ?Es; cbn [mem hist versions words last_version s'] in *; try done.
  - rewrite length_app. split; [lia|]. apply Forall_app. split; [done|]. constructor; [|constructor].
    by apply (Forall_lookup_1 _ _ _ _ Hwf Hlk).
  - specialize (Hnew (S p)). erewrite list_lookup_total_correct; [|apply Hnew; change (started _) with (S p); lia]. done.
  - intros n Hn Hs. destruct (decide (n = S p)) as [->|Hne].
    + rewrite Hlk, lookup_app_r by lia. by rewrite Hlh, Nat.sub_diag.
    + rewrite lookup_app_l by lia. apply Hst; [unfold p in *; lia|change (started _) with (S p); lia].
  - eapply reader_mono; [exact Hr|done|by eexists|rewrite Ep; change (published _) with p; lia|
      rewrite Es; change (started _) with (S p); lia|done].
Qed.

(** Steps of the reader only change the reader. *)
Lemma reader_step m h w r r' : sync_ok (sync m h w r) -> reader_ok (sync m h w r') -> sync_ok (sync m h w r').
Proof. intros [] Hr. constructor; done. Qed.

Lemma read_ok m h w n v k acc l j :
  sync_ok (sync m h w (RRead n v k acc l)) -> read_order !! k = Some j ->
  sync_ok (sync m h w (RRead n v (S k) (<[j := (words m !!! idx v) !!! j]> acc) l)).
Proof.
  intros H Hj. apply (reader_step _ _ _ _ _ H). pose proof (sy_state _ H l) as Hst.
  destruct (sy_reader _ H) as (Hv & Hl & Ha & Hk & Hread). cbn [reader_ok reader].
  assert (Hkw : (k < width)%nat) by (apply lookup_lt_Some in Hj; exact Hj).
  split_and!; [done|exact Hl|by rewrite length_insert|lia|]. intros Hs i j' Hi Hj'.
  destruct (decide (j' = j)) as [->|Hne].
  - assert (j < width)%nat.
    { assert (Hall : Forall (fun j => (j < width)%nat) read_order) by (unfold read_order, width; repeat constructor; lia).
      by apply (Forall_lookup_1 _ _ _ _ Hall Hj). }
    rewrite list_lookup_insert_eq by lia. do 2 f_equal. rewrite Hv, idx_u32.
    specialize (Hst Hl Hs). cbn [mem hist] in Hst. apply list_lookup_total_correct. rewrite Hst. cbn [hist].
    apply list_lookup_lookup_total_lt. pose proof (proj1 (sy_hist _ H)). unfold published in Hl. cbn in *. lia.
  - rewrite list_lookup_insert_ne by done. apply (Hread Hs i); [|done].
    destruct (decide (i = k)) as [->|]; [congruence|lia].
Qed.

Lemma attempt_ok m h w n v acc l :
  sync_ok (sync m h w (RRead n v width acc l)) -> sync_ok (sync m h w (attempt m n v acc l)).
Proof.
  intros H. apply (reader_step _ _ _ _ _ H). destruct (sy_reader _ H) as (Hv & Hl & Ha & _ & Hread).
  unfold attempt. destruct (Z.eqb_spec v (versions m !!! idx v)) as [E|]; [|by destruct n]. destruct n; [done|].
  cbn [reader_ok reader]. rewrite Hv in E. pose proof (proj1 (sy_hist _ H)) as Hh.
  assert (Hp : (l <= published (sync m h w (ROk acc l)))%nat) by exact Hl.
  destruct (check_version _ l H Hl (eq_sym E)) as [[H1 Hs]|Hwrap].
  - split; [lia|left]. split; [done|]. cbn [hist] in *. assert (Hlk : h !! l = Some (h !!! l)).
    { apply list_lookup_lookup_total_lt. unfold published in Hl. cbn in *. lia. }
    rewrite Hlk. f_equal. pose proof (Forall_lookup_1 _ _ _ _ (proj2 (sy_hist _ H)) Hlk) as Hlen.
    apply (list_eq_same_length _ _ width); [done..|]. intros j x y Hj Hx Hy.
    destruct (read_order_all j Hj) as (i & Hi & Hij). specialize (Hread Hs i j Hi Hij). cbn [hist] in Hread.
    rewrite Hread in Hy. injection Hy as <-. by apply list_lookup_total_correct in Hx.
  - split; [lia|by right].
Qed.

Lemma sync_step_ok s s' : sync_ok s -> sync_step s s' -> sync_ok s'.
Proof.
  intros H Hs. destruct Hs.
  - pose proof (sy_last _ H) as Hlast. destruct H. by constructor.
  - by apply store_ok.
  - eapply write_ok; [exact H|by left|done|right; by eexists].
  - pose proof (sy_writer _ H) as [Hv _]. destruct H. by constructor.
  - eapply (write_ok _ _ _ _ _ 0); [exact H|by right|done|by left].
  - by apply finish_ok.
  - by apply (reader_step _ _ _ _ _ H).
  - apply (reader_step _ _ _ _ _ H). cbn [reader_ok reader]. split_and!; [apply (sy_last _ H)|done|done|lia|]. intros; lia.
  - by apply read_ok.
  - by apply attempt_ok.
Qed.

Lemma sync_reach_ok s : sync_reach s -> sync_ok s.
Proof.
  revert s. apply (rtc_ind_r sync_ok); [exact sync_init_ok|]. intros s s' _ Hs H. by apply (sync_step_ok s).
Qed.

(** ** The sequential model *)

(** The memory of a state of time services. *)
Definition mem_of (g : CFE_TIME_Global_t) : RefMem :=
  ref_mem (LastVersionCounter g) (map StateVersion (ReferenceState g)) (map words_of (ReferenceState g)).

(** Writes to one buffer, in order. *)
Definition put (ws : list (nat * Z)) (row : list Z) : list Z := fold_left (fun row '(j, x) => <[j := x]> row) ws row.

Lemma set_words m i ws :
  fold_left (fun m '(j, x) => set_word m i j x) ws m = ref_mem (last_version m) (versions m) (alter (put ws) i (words m)).
Proof.
  revert m. induction ws as [|[j x] ws IH]; intros m; cbn [fold_left].
  - destruct m. cbn. f_equal. symmetry. apply list_alter_id. done.
  - rewrite IH. cbn [set_word last_version versions words]. f_equal. by rewrite list_alter_alter_eq.
Qed.

Lemma modify_run m h v r ws :
  Forall (fun '(j, _) => (j < width)%nat) ws ->
  rtc sync_step (sync m h (WModify v) r)
    (sync (fold_left (fun m '(j, x) => set_word m (idx (u32 (v + 1))) j x) ws m) h (WModify v) r).
Proof.
  revert m. induction ws as [|[j x] ws IH]; intros m Hws; [by apply rtc_refl|].
  apply List.Forall_cons_iff in Hws as [Hj Hws]. eapply rtc_l; [by apply (w_modify _ _ _ _ j x)|]. by apply IH.
Qed.

Lemma copy_run m h v r n k src :
  words m !!! idx v = src -> idx v <> idx (u32 (v + 1)) -> (k + n = width)%nat ->
  rtc sync_step (sync m h (WCopy v k) r)
    (sync (fold_left (fun m '(j, x) => set_word m (idx (u32 (v + 1))) j x) (map (fun j => (j, src !!! j)) (seq k n)) m) h (WCopy v width) r).
Proof.
  revert m k. induction n as [|n IH]; intros m k Hsrc Hne Hk.
  - replace k with width by lia. apply rtc_refl.
  - eapply rtc_l; [apply w_copy; lia|]. rewrite Hsrc. cbn [seq map fold_left]. apply IH; [|done|lia].
    cbn [set_word words]. by rewrite list_lookup_total_alter_ne.
Qed.

(** Copying every word copies the row. *)
Lemma copy_all src row : length src = width -> length row = width -> put (map (fun j => (j, src !!! j)) (seq 0 width)) row = src.
Proof.
  unfold width. intros H1 H2. do 12 (destruct src as [|? src]; [done|]). destruct src; [|done].
  do 12 (destruct row as [|? row]; [done|]). by destruct row.
Qed.

(** An update of the sequential model is a run of the writer: the next state is
    filled, changed by the writes [ws] and published. *)
Lemma update_run f g h r ws :
  refs_ok g -> StateVersion (f (next_state g)) = StateVersion (next_state g) ->
  Forall (fun '(j, _) => (j < width)%nat) ws -> words_of (f (next_state g)) = put ws (words_of (next_state g)) ->
  rtc sync_step (sync (mem_of g) h WIdle r)
    (sync (mem_of (update_reference f g)) (h ++ [words_of (f (next_state g))]) WIdle r).
Proof.
  intros (Hl & Hv & Hver) Hf Hws Hput. destruct (update_current f g Hl Hf) as (_ & E1 & E2).
  set (v := LastVersionCounter g) in *. set (i := idx (u32 (v + 1))).
  assert (Hi : (i < length (ReferenceState g))%nat).
  { unfold i, idx. pose proof (ref_index_range (u32 (v + 1))). unfold zlen in Hl. lia. }
  assert (Hc : (idx v < length (ReferenceState g))%nat).
  { unfold idx. pose proof (ref_index_range v). unfold zlen in Hl. lia. }
  assert (Hne : idx v <> i).
  { unfold i, idx. pose proof (ref_index_range v). pose proof (ref_index_range (u32 (v + 1))).
    rewrite !ref_index_mod in *. assert (v mod 4 <> u32 (v + 1) mod 4) by machine_lia. lia. }
  set (src := words_of (next_state g)) in *.
  assert (Hsrc : map words_of (ReferenceState g) !!! idx v = src).
  { apply list_lookup_total_correct. rewrite list_lookup_fmap, list_lookup_lookup_total_lt by done. done. }
  assert (Hrow : forall row, map words_of (ReferenceState g) !! i = Some row -> length row = width).
  { intros row. rewrite list_lookup_fmap, list_lookup_lookup_total_lt by done. by intros [= <-]. }
  eapply rtc_l; [apply w_load|]. eapply rtc_l; [apply w_store|]. cbn [mem_of last_version versions words]. fold v i.
  etrans; [apply (copy_run _ _ _ _ width 0 src); [exact Hsrc|exact Hne|done]|].
  rewrite set_words. cbn [last_version versions words]. fold i.
  eapply rtc_l; [apply w_copied|]. etrans; [by apply (modify_run _ _ _ _ ws)|].
  rewrite set_words. cbn [last_version versions words]. fold i. rewrite list_alter_alter_eq.
  assert (Ew : alter (put ws ∘ put (map (fun j => (j, src !!! j)) (seq 0 width))) i (map words_of (ReferenceState g)) =
               <[i := words_of (f (next_state g))]> (map words_of (ReferenceState g))).
  { rewrite list_insert_alter. apply list_alter_ext; [|done]. intros row Hr. unfold compose. rewrite copy_all by (done || by apply Hrow).
    by rewrite Hput. }
  rewrite Ew. apply rtc_once.
  match goal with |- sync_step ?a ?b => assert (E : b = sync (ref_mem (versions (mem a) !!! i) (versions (mem a)) (words (mem a)))
    (h ++ [words (mem a) !!! i]) WIdle r) end.
  { cbn [mem versions words]. rewrite !list_lookup_total_insert_eq by (by rewrite length_map). unfold mem_of.
    rewrite E1, E2. f_equal. unfold zset. fold (idx (u32 (v + 1))). fold i. f_equal.
    - rewrite list_fmap_insert. by rewrite Hf.
    - by rewrite list_fmap_insert. }
  rewrite E. apply w_finish.
Qed.

(** A read of the sequential model is a run of the reader. *)
Lemma read_run g h w n :
  refs_ok g ->
  rtc sync_step (sync (mem_of g) h w (RTop (S n)))
    (sync (mem_of g) h w (ROk (words_of (CFE_TIME_GetReferenceState g)) (pred (length h)))).
Proof.
  intros (Hl & Hv & Hver). eapply rtc_l; [apply r_load|]. set (l := pred (length h)).
  cbn [mem_of last_version]. fold (mem_of g). set (v := LastVersionCounter g) in *.
  assert (Hc : (idx v < length (ReferenceState g))%nat).
  { unfold idx. pose proof (ref_index_range v). unfold zlen in Hl. lia. }
  assert (Hsrc : words (mem_of g) !!! idx v = words_of (CFE_TIME_GetReferenceState g)).
  { apply list_lookup_total_correct. cbn [mem_of words]. rewrite list_lookup_fmap, list_lookup_lookup_total_lt by done. done. }
  do 12 (eapply rtc_l; [by apply r_copy|]). rewrite Hsrc. eapply rtc_l; [apply r_check|].
  replace (attempt _ _ _ _ _) with (ROk (words_of (CFE_TIME_GetReferenceState g)) l); [apply rtc_refl|].
  unfold attempt. cbn [mem_of versions].
  assert (Evs : map StateVersion (ReferenceState g) !!! idx v = v).
  { apply list_lookup_total_correct. rewrite list_lookup_fmap, list_lookup_lookup_total_lt by done. cbn. f_equal. exact Hver. }
  by rewrite Evs, Z.eqb_refl.
Qed.
