(* ===== verification/TimeTheorems.v ===== *)
(** The properties of time services. *)

From stdpp Require Import relations.
From S2P Require Import Prelude Records TimeMath TimeModel TimeTone TimeInv TimeEvents TimeSync.

(** ** Time values *)

(** Addition and subtraction of system times are those of the 64-bit
    number of 2^-32 seconds, modulo 2^64, and comparison orders two times by
    their true instants, also across the roll-over of the seconds, when the
    instants are less than 2^31 seconds apart. *)
Theorem time_arithmetic (a b : CFE_TIME_SysTime_t) (x y : Z) :
  sys_ok a -> sys_ok b -> Z.abs (x / 2 ^ 32 - y / 2 ^ 32) < 2 ^ 31 ->
  instant (CFE_TIME_Add a b) = u64 (instant a + instant b) /\
  instant (CFE_TIME_Subtract a b) = u64 (instant a - instant b) /\
  CFE_TIME_Subtract (CFE_TIME_Add a b) b = a /\
  CFE_TIME_Compare (of_instant x) (of_instant y) =
    match x ?= y with Lt => CFE_TIME_A_LT_B | Eq => CFE_TIME_EQUAL | Gt => CFE_TIME_A_GT_B end.
Proof.
  intros Ha Hb Hxy. split_and!.
  - by rewrite Add_instant, instant_of.
  - by rewrite Subtract_instant, instant_of.
  - rewrite Add_instant, Subtract_instant, instant_of by auto with time. rewrite <- (of_instant_instant a) at 2 by done.
    apply of_instant_u64. machine_lia.
  - by apply Compare_instant.
Qed.

(** Microseconds survive the conversion to a binary fraction and back, and
    the conversion of a fraction to microseconds rounds down. *)
Theorem micro_roundtrip (us s : Z) :
  0 <= us < 1000000 -> is_u32 s ->
  CFE_TIME_Sub2MicroSecs (CFE_TIME_Micro2SubSecs us) = us /\
  CFE_TIME_Sub2MicroSecs s = s * 1000000 / 2 ^ 32 /\
  CFE_TIME_Micro2SubSecs (CFE_TIME_Sub2MicroSecs s) <= s.
Proof.
  intros Hus Hs. pose proof (Micro2Sub_range us) as Hr. specialize (Hr ltac:(lia)).
  rewrite (Sub2Micro_floor (CFE_TIME_Micro2SubSecs us)), Sub2Micro_floor by done.
  rewrite (Micro2Sub_ceil us) by done. rewrite Micro2Sub_ceil by machine_lia. split_and!; [|done|]; machine_lia.
Qed.

(** The value of decimal digits. *)
Definition decimal (l : list Z) : Z := fold_left (fun v c => v * 10 + (c - 48)) l 0.
Definition between (i n : nat) (l : list Z) : list Z := take n (drop i l).
Definition all_digits (l : list Z) : Prop := Forall (fun c => 48 <= c <= 57) l.

Lemma digit_value x : 0 <= x <= 9 -> digit x = 48 + x.
Proof. intros. unfold digit. machine_lia. Qed.

(** C32. Printing a time ends and writes the 24 characters of
    "yyyy-ddd-hh:mm:ss.xxxxx" with its null: the fields are digits, a date of
    the Gregorian calendar that is the epoch plus the seconds, and the hundred
    thousandths of the fraction. *)
Theorem print_calendar (E : Epoch) (t : CFE_TIME_SysTime_t) :
  epoch_ok E -> sys_ok t ->
  exists out, CFE_TIME_Print E t = Some out /\ zlen out = CFE_TIME_PRINTED_STRING_SIZE /\
    let Y := decimal (between 0 4 out) in let D := decimal (between 5 3 out) in
    let h := decimal (between 9 2 out) in let m := decimal (between 12 2 out) in let s := decimal (between 15 2 out) in
    Forall all_digits [between 0 4 out; between 5 3 out; between 9 2 out; between 12 2 out; between 15 2 out; between 18 5 out] /\
    map (fun i => zget out i) [4; 8; 11; 14; 17; 23] = [45; 45; 58; 58; 46; 0] /\
    1 <= D <= DaysInThisYear Y /\ 0 <= h < 24 /\ 0 <= m < 60 /\ 0 <= s < 60 /\
    date_seconds Y D h m s = epoch_seconds E + Seconds t /\
    decimal (between 18 5 out) = Subseconds t * 100000 / 2 ^ 32.
Proof.
  intros HE Ht. destruct (calendar_spec E t HE Ht) as (Y & D & h & m & s & Ec & HY & HD & Hh & Hm & Hs & Ed).
  destruct Ht as [_ Hsub]. unfold CFE_TIME_Print. rewrite Ec. cbn [mbind option_bind].
  rewrite Sub2Micro_floor by done. set (u := Subseconds t * 1000000 / 2 ^ 32 / 10).
  assert (Hu : 0 <= u < 100000 /\ u = Subseconds t * 100000 / 2 ^ 32) by (unfold u; machine_lia).
  destruct Hu as [Hu Eu]. clearbody u. pose proof (days_in_year_range Y). destruct HE as (HEY & _).
  eexists. split; [reflexivity|]. split; [reflexivity|].
  unfold between, decimal. cbn [take drop fold_left].
  rewrite !digit_value by (Z.to_euclidean_division_equations; lia).
  assert (EY : ((((0 * 10 + (48 + Y / 1000 - 48)) * 10 + (48 + Y mod 1000 / 100 - 48)) * 10 +
                 (48 + Y mod 1000 mod 100 / 10 - 48)) * 10 + (48 + Y mod 1000 mod 100 mod 10 - 48)) = Y)
    by (Z.to_euclidean_division_equations; lia).
  cbv zeta. rewrite EY. clear EY.
  assert (ED : ((0 * 10 + (48 + D / 100 - 48)) * 10 + (48 + D mod 100 / 10 - 48)) * 10 + (48 + D mod 100 mod 10 - 48) = D)
    by (Z.to_euclidean_division_equations; lia).
  rewrite ED. clear ED.
  assert (E2 : forall x, (0 * 10 + (48 + x / 10 - 48)) * 10 + (48 + x mod 10 - 48) = x)
    by (intros; Z.to_euclidean_division_equations; lia).
  rewrite !E2. split_and!; try done; try lia.
  - repeat constructor; Z.to_euclidean_division_equations; lia.
  - rewrite <- Eu. Z.to_euclidean_division_equations; lia.
Qed.

(** ** Reading the clock *)

(** The delay of a client, with its sign. *)
Definition delay_of (cfg : TimeConfig) (s : CFE_TIME_ReferenceState_t) : Z :=
  if SERVER cfg then 0
  else if RS_DelayDirection s =? CFE_TIME_AdjustDirection_ADD then instant (RS_AtToneDelay s) else - instant (RS_AtToneDelay s).

(** The local clock rolls over after [M] and showed the local time [T0] at the
    last tone. *)
Definition ticking (M T0 : Z) (g : CFE_TIME_Global_t) : Prop :=
  instant (MaxLocalClock g) = M /\ 0 < M <= 2 ^ 62 /\ RS_AtToneLatch (CFE_TIME_GetReferenceState g) = local M T0.

Lemma met_at cfg g s M T0 T :
  state_ok s -> sys_ok (MaxLocalClock g) -> instant (MaxLocalClock g) = M -> 0 < M <= 2 ^ 62 ->
  RS_AtToneLatch s = local M T0 -> 0 <= T - T0 < M ->
  CurrentMET (compute_reference cfg g s (local M T)) = of_instant (instant (RS_AtToneMET s) + (T - T0) + delay_of cfg s) /\
  TimeSinceTone (compute_reference cfg g s (local M T)) = of_instant (T - T0).
Proof.
  intros [] Hmax HM HM' Hl HT. split_oks. unfold compute_reference. cbn [CurrentMET TimeSinceTone].
  rewrite Hl, (elapsed_local M (MaxLocalClock g) T0 T) by done. split; [|done]. unfold delay_of.
  rewrite Add_instant, instant_of by auto with time. destruct (SERVER cfg).
  - apply of_instant_u64. machine_lia.
  - case_test; rewrite ?Add_instant, ?Subtract_instant, ?instant_of by auto with time; apply of_instant_u64; machine_lia.
Qed.

(** A whole number of seconds more or less. *)
Lemma shift_seconds t k : sys_ok t -> SysTime (u32 (Seconds t + k)) (Subseconds t) = of_instant (instant t + k * 2 ^ 32).
Proof. destruct t as [s u]. intros [Hs Hu]. cbn [Seconds Subseconds] in *. unfold of_instant, instant. cbn [Seconds Subseconds]. f_equal; machine_lia. Qed.

Lemma current_ok cfg w : time_ok cfg (G w) -> state_ok (CFE_TIME_GetReferenceState (G w)) /\ sys_ok (MaxLocalClock (G w)).
Proof.
  intros H. destruct (to_refs _ _ H) as [Hl _]. split; [apply current_state_ok; [done|apply (to_states _ _ H)]|].
  destruct (to_fields _ _ H). by split_oks.
Qed.

(** What the calls of the interface return. *)
Lemma read_met cfg w M T0 T :
  time_ok cfg (G w) -> ticking M T0 (G w) -> now w = local M T -> 0 <= T - T0 < M ->
  let s := CFE_TIME_GetReferenceState (G w) in
  fst (CFE_TIME_GetMET cfg w) = of_instant (instant (RS_AtToneMET s) + (T - T0) + delay_of cfg s) /\
  fst (CFE_TIME_GetTAI cfg w) =
    of_instant (instant (RS_AtToneMET s) + (T - T0) + delay_of cfg s + instant (RS_AtToneSTCF s)) /\
  fst (CFE_TIME_GetUTC cfg w) =
    of_instant (instant (RS_AtToneMET s) + (T - T0) + delay_of cfg s + instant (RS_AtToneSTCF s)
                - RS_AtToneLeapSeconds s * 2 ^ 32).
Proof.
  intros H (HM & HM' & Hl) Hn HT s. destruct (current_ok _ _ H) as [Hs Hmax].
  unfold CFE_TIME_GetMET, CFE_TIME_GetTAI, CFE_TIME_GetUTC. destruct (reference_read cfg w H) as [-> Hr]. rewrite Hn in *.
  destruct (met_at cfg (G w) s M T0 T) as [Em _]; [done..|]. fold s in Hr |- *. cbn [fst].
  unfold CFE_TIME_CalculateTAI, CFE_TIME_CalculateUTC. rewrite Em.
  change (AtToneSTCF (compute_reference cfg (G w) s (local M T))) with (RS_AtToneSTCF s).
  change (AtToneLeapSeconds (compute_reference cfg (G w) s (local M T))) with (RS_AtToneLeapSeconds s).
  clear Hr Em. destruct Hs. split_oks. rewrite Add_instant, instant_of by auto with time. split_and!; [done| |].
  - apply of_instant_u64. machine_lia.
  - unfold Z.sub at 1. rewrite shift_seconds, instant_of by auto with time. apply of_instant_u64. machine_lia.
Qed.

(** C29. A time that is set is kept: after [CFE_TIME_SetTime] at local time
    [T1], [CFE_TIME_GetTime] at local time [T2] returns the new time plus the
    time that has passed, for TAI and UTC, servers and clients, within one turn of
    the local clock since the tone. *)
Theorem set_get_time (cfg : TimeConfig) (t : CFE_TIME_SysTime_t) (w : TimeWorld) (M T0 T1 T2 : Z) :
  world_ok cfg w -> ticking M T0 (G w) -> sys_ok t -> now w = local M T1 -> now (tick w) = local M T2 ->
  T0 <= T1 <= T2 -> T2 - T0 < M ->
  fst (CFE_TIME_GetTime cfg (CFE_TIME_SetTime cfg t w)) = of_instant (instant t + (T2 - T1)).
Proof.
  intros [H _] (HM & HM' & Hl) Ht H1 H2 HT HT'. pose proof (SetTime_ok cfg t w H Ht) as Hw.
  destruct (current_ok _ _ H) as [Hs Hmax]. set (s := CFE_TIME_GetReferenceState (G w)) in *.
  destruct (met_at cfg (G w) s M T0 T1) as [Em _]; [done..|lia|].
  set (N := instant t - (instant (RS_AtToneMET s) + (T1 - T0) + delay_of cfg s) +
            if DEFAULT_TAI cfg then 0 else RS_AtToneLeapSeconds s * 2 ^ 32).
  assert (E : CFE_TIME_SetTime cfg t w = on_G (update_reference (fun s => s <| RS_AtToneSTCF := of_instant N |>)) (tick w)).
  { unfold CFE_TIME_SetTime. destruct (reference_read cfg w H) as [-> Hr]. rewrite H1. fold s. rewrite Em.
    change (AtToneLeapSeconds (compute_reference cfg (G w) s (local M T1))) with (RS_AtToneLeapSeconds s).
    rewrite Subtract_instant, instant_of by auto with time. cbv zeta.
    match goal with |- context [if DEFAULT_TAI cfg then ?a else ?b] =>
      assert (EN : (if DEFAULT_TAI cfg then a else b) = of_instant N); [|by rewrite EN] end.
    unfold N. destruct (DEFAULT_TAI cfg).
    - apply of_instant_u64. machine_lia.
    - rewrite shift_seconds, instant_of by auto with time. apply of_instant_u64. machine_lia. }
  rewrite E in *. destruct (to_refs _ _ H) as (Hlen & _).
  destruct (update_current (fun s => s <| RS_AtToneSTCF := of_instant N |>) (G w)) as (Ec & _); [done..|].
  match type of Hw with time_ok _ (G ?x) => set (w2 := x) in * end.
  assert (Es : CFE_TIME_GetReferenceState (G w2) = (next_state (G w)) <| RS_AtToneSTCF := of_instant N |>) by exact Ec.
  destruct (read_met cfg w2 M T0 T2) as (_ & Et & Eu); [done| |exact H2|lia|].
  { split_and!; [exact HM|lia|lia|rewrite Es; exact Hl]. }
  rewrite Es in Et, Eu. set (s2 := (next_state (G w)) <| RS_AtToneSTCF := of_instant N |>) in *.
  assert (Ef : RS_AtToneSTCF s2 = of_instant N /\ RS_AtToneMET s2 = RS_AtToneMET s /\
    RS_AtToneLeapSeconds s2 = RS_AtToneLeapSeconds s /\ delay_of cfg s2 = delay_of cfg s) by done.
  destruct Ef as (F1 & F2 & F3 & F4). rewrite F1, F2, F4, instant_of in Et, Eu. rewrite F3 in Eu.
  unfold CFE_TIME_GetTime. unfold N in *.
  destruct (DEFAULT_TAI cfg); [rewrite Et|rewrite Eu]; apply of_instant_u64; unfold u64.
  - rewrite Zplus_mod_idemp_r. f_equal. lia.
  - rewrite Zminus_mod, Zplus_mod_idemp_r, <- Zminus_mod. f_equal. lia.
Qed.

(** ** The flywheel *)

(** The state machine reads the reference after the 1Hz adjustment, which
    changes the STCF only. *)
Definition one_hz_adjusted (cfg : TimeConfig) (w : TimeWorld) : TimeWorld :=
  if SERVER cfg && (negb (Seconds (OneHzAdjust (G w)) =? 0) || negb (Subseconds (OneHzAdjust (G w)) =? 0)) then
    on_G (fun g => update_reference (fun s =>
            s <| RS_AtToneSTCF := adjusted (RS_AtToneSTCF s) (OneHzAdjust g) (OneHzDirection g) |>) g) w
  else w.

Lemma one_hz_same cfg w :
  refs_ok (G w) ->
  let w1 := one_hz_adjusted cfg w in
  refs_ok (G w1) /\ MaxLocalClock (G w1) = MaxLocalClock (G w) /\ now w1 = now w /\ now (tick w1) = now (tick w) /\
  exists x y, CFE_TIME_GetReferenceState (G w1) =
    (CFE_TIME_GetReferenceState (G w)) <| StateVersion := x |> <| RS_AtToneSTCF := y |>.
Proof.
  intros Hr. cbv zeta. unfold one_hz_adjusted. case_test.
  - destruct Hr as (Hl & _). pose (f := fun s => s <| RS_AtToneSTCF := adjusted (RS_AtToneSTCF s) (OneHzAdjust (G w)) (OneHzDirection (G w)) |>).
    destruct (update_current f (G w) Hl) as (Ecur & _); [done|]. pose proof (update_refs_ok f (G w) Hl eq_refl).
    split_and!; [done..|]. eexists _, _. exact Ecur.
  - split_and!; [done..|]. exists (StateVersion (CFE_TIME_GetReferenceState (G w))), (RS_AtToneSTCF (CFE_TIME_GetReferenceState (G w))).
    by destruct (CFE_TIME_GetReferenceState (G w)).
Qed.

(** Whether the state machine takes a new latch at local time [T1]. *)
Definition relatches (cfg : TimeConfig) (s : CFE_TIME_ReferenceState_t) (T0 T1 : Z) : bool :=
  (RS_ClockFlyState s =? CFE_TIME_FlywheelState_IS_FLY) && ((T1 - T0) / 2 ^ 32 >=? LATCH_FLY cfg).

(** The reference after the state machine. *)
Lemma machine_reference cfg w M T0 T1 :
  time_ok cfg (G w) -> ticking M T0 (G w) -> now w = local M T1 -> 0 <= T1 - T0 < M ->
  let s := CFE_TIME_GetReferenceState (G w) in
  let w' := CFE_TIME_Local1HzStateMachine cfg w in
  let s' := CFE_TIME_GetReferenceState (G w') in
  MaxLocalClock (G w') = MaxLocalClock (G w) /\ now w' = now (tick w) /\ delay_of cfg s' = delay_of cfg s /\
  (if relatches cfg s T0 T1
   then RS_AtToneMET s' = of_instant (instant (RS_AtToneMET s) + (T1 - T0) + delay_of cfg s) /\ RS_AtToneLatch s' = local M T1
   else RS_AtToneMET s' = RS_AtToneMET s /\ RS_AtToneLatch s' = local M T0).
Proof.
  intros H (HM & HM' & Hl) H1 HT s. destruct (current_ok _ _ H) as [Hs Hmax].
  destruct (one_hz_same cfg w (to_refs _ _ H)) as (Hr1 & Hm1 & Hn1 & Ht1 & x & y & Es1). fold s in Es1, Hs, Hl.
  cbv zeta. unfold CFE_TIME_Local1HzStateMachine. fold (one_hz_adjusted cfg w). set (w1 := one_hz_adjusted cfg w) in *.
  rewrite get_reference by done. rewrite Hn1, H1, Es1.
  set (s1 := s <| StateVersion := x |> <| RS_AtToneSTCF := y |>) in *.
  set (r := compute_reference cfg (G w1) s1 (local M T1)).
  assert (Er : CurrentMET r = of_instant (instant (RS_AtToneMET s) + (T1 - T0) + delay_of cfg s) /\
               TimeSinceTone r = of_instant (T1 - T0) /\ CurrentLatch r = local M T1).
  { destruct (met_at cfg (G w) s M T0 T1) as [<- <-]; [done..|]. unfold r, compute_reference. rewrite Hm1. done. }
  destruct Er as (Em & Et & El). change (ClockFlyState r) with (RS_ClockFlyState s).
  rewrite Et. cbn [of_instant Seconds]. rewrite u32_id by (change (2 ^ 62) with 4611686018427387904 in *; machine_lia).
  unfold relatches. rewrite Em, El. clearbody r w1. clear Em Et El.
  assert (Hlen : zlen (ReferenceState (G w1)) = CFE_TIME_REFERENCE_BUF_DEPTH) by apply Hr1.
  assert (Enx : next_state (G w1) = s1 <| StateVersion := u32 (LastVersionCounter (G w1) + 1) |>) by (unfold next_state; by rewrite Es1).
  destruct (Z.eqb_spec (RS_ClockFlyState s) CFE_TIME_FlywheelState_IS_FLY) as [Ef|Ef]; cbn [andb].
  - rewrite Ef. change (CFE_TIME_FlywheelState_IS_FLY =? CFE_TIME_FlywheelState_NO_FLY) with false. cbn [andb].
    case_test.
    + set (m := of_instant _). pose (f := fun s => s <| RS_AtToneMET := m |> <| RS_AtToneLatch := local M T1 |>).
      destruct (update_current f (G w1) Hlen) as (Ecur & _); [done|]. simp_upd. change (G (tick w1)) with (G w1).
      fold f. rewrite Ecur, Enx. split_and!; done.
    + change (G (tick w1)) with (G w1). rewrite Es1. split_and!; done.
  - case_test.
    + pose (f := fun s => s <| RS_ClockFlyState := CFE_TIME_FlywheelState_IS_FLY |>).
      destruct (update_current f (G w1) Hlen) as (Ecur & _); [done|]. simp_upd. change (G (tick w1)) with (G w1).
      match goal with |- context [CFE_TIME_GetReferenceState ?g] =>
        assert (E' : CFE_TIME_GetReferenceState g = CFE_TIME_GetReferenceState (update_reference f (G w1))) by (by destruct (SERVER cfg)) end.
      rewrite E', Ecur, Enx. split_and!; [by destruct (SERVER cfg)|done..].
    + change (G (tick w1)) with (G w1). rewrite Es1. split_and!; done.
Qed.

(** C30. The state machine of the local 1Hz signal does not change the time of a
    server: the MET at local time [T2] after it is the MET that would have been
    read without it, whether it starts the flywheel, takes a new latch or does
    nothing. On a client with a delay each new latch adds the delay once more. *)
Theorem flywheel_met (cfg : TimeConfig) (w : TimeWorld) (M T0 T1 T2 : Z) :
  world_ok cfg w -> ticking M T0 (G w) -> now w = local M T1 -> now (tick w) = local M T2 ->
  T0 <= T1 <= T2 -> T2 - T0 < M ->
  let s := CFE_TIME_GetReferenceState (G w) in
  fst (CFE_TIME_GetMET cfg (CFE_TIME_Local1HzStateMachine cfg w)) =
  of_instant (instant (RS_AtToneMET s) + (T2 - T0) + delay_of cfg s +
              if relatches cfg s T0 T1 then delay_of cfg s else 0).
Proof.
  intros [H _] Hk H1 H2 HT HT' s. pose proof (StateMachine_ok cfg w H) as Hw.
  destruct (machine_reference cfg w M T0 T1) as (Em & En & Ed & Eref); [done..|lia|]. fold s in Ed, Eref.
  destruct Hk as (HM & HM' & _). rewrite H2 in En. rewrite <- Em in HM.
  destruct (relatches cfg s T0 T1); destruct Eref as [E1 E2].
  - destruct (read_met cfg _ M T1 T2 Hw (conj HM (conj HM' E2)) En ltac:(lia)) as (-> & _).
    rewrite E1, Ed, instant_of. apply of_instant_u64. machine_lia.
  - destruct (read_met cfg _ M T0 T2 Hw (conj HM (conj HM' E2)) En ltac:(lia)) as (-> & _).
    rewrite E1, Ed. f_equal. lia.
Qed.

(** ** Tone and data *)

(** The data that arrives at local time [T1] goes with the tone at [T0]: both
    are new, and the time between them is within the limits. *)
Definition tone_match (g : CFE_TIME_Global_t) (M T0 T1 : Z) : bool :=
  negb (bool_decide (PrevTime1 g = local M T0)) && negb (bool_decide (PrevTime2 g = local M T1)) &&
  (MinElapsed g <=? T1 - T0) && (T1 - T0 <=? MaxElapsed g) && (T1 - T0 <? 2 ^ 32).

Lemma verify_match cfg w M T0 T1 :
  let g := G w in
  fields_ok g -> instant (MaxLocalClock g) = M -> 0 < M <= 2 ^ 62 -> 0 <= T1 - T0 < M ->
  CFE_TIME_ToneVerify cfg (local M T0) (local M T1) w =
  on_G (fun g => g <| PrevTime1 := local M T0 |> <| PrevTime2 := local M T1 |>)
    (if tone_match g M T0 T1 then
       let w := on_G (fun g => g <| ToneMatchCounter := u32 (ToneMatchCounter g + 1) |>) w in
       if Forced2Fly g then w else CFE_TIME_ToneUpdate cfg w
     else on_G (fun g => g <| ToneMatchErrorCounter := u32 (ToneMatchErrorCounter g + 1) |>) w).
Proof.
  intros g Hf HM HM' HT. cbv zeta.
  assert (Hmax : sys_ok (MaxLocalClock g)) by (destruct Hf; by split_oks).
  unfold CFE_TIME_ToneVerify, tone_match. fold g.
  assert (Heq : forall a b, bool_decide (CFE_TIME_Compare a b = CFE_TIME_EQUAL) = bool_decide (a = b))
    by (intros; apply bool_decide_ext, Compare_eq).
  rewrite !Heq. destruct (bool_decide (PrevTime1 g = local M T0)); [done|].
  destruct (bool_decide (PrevTime2 g = local M T1)); [done|]. cbn [negb andb].
  assert (Hel : clock_elapsed (MaxLocalClock g) (local M T0) (local M T1)
                  (bool_decide (CFE_TIME_Compare (local M T0) (local M T1) = CFE_TIME_A_GT_B)) = of_instant (T1 - T0)).
  { rewrite <- (elapsed_local M (MaxLocalClock g) T0 T1) by done. f_equal. apply bool_decide_ext.
    rewrite (Compare_antisym (local M T0) (local M T1)) by auto with time.
    by destruct (CFE_TIME_Compare (local M T0) (local M T1)). }
  rewrite Hel. cbn [of_instant Seconds Subseconds].
  rewrite (u32_id ((T1 - T0) / 2 ^ 32)) by (change (2 ^ 62) with 4611686018427387904 in *; machine_lia).
  destruct (Z.ltb_spec (T1 - T0) (2 ^ 32)) as [Hlt|Hge].
  - replace ((T1 - T0) / 2 ^ 32) with 0 by (machine_lia). rewrite u32_id by (machine; lia). rewrite andb_true_r.
    replace (negb (0 =? 0) || (T1 - T0 <? MinElapsed g) || (T1 - T0 >? MaxElapsed g))
      with (negb ((MinElapsed g <=? T1 - T0) && (T1 - T0 <=? MaxElapsed g))) by lia.
    destruct ((MinElapsed g <=? T1 - T0) && (T1 - T0 <=? MaxElapsed g)); done.
  - replace (negb ((T1 - T0) / 2 ^ 32 =? 0)) with true by machine_lia. cbn [orb]. by rewrite andb_false_r.
Qed.

Lemma client_version g s : StateVersion (client_update g s) = StateVersion s.
Proof. reflexivity. Qed.

Lemma client_lands g s :
  is_bit (RS_ClockFlyState s) -> RS_ClockFlyState (client_update g s) = CFE_TIME_FlywheelState_NO_FLY.
Proof. destruct s. intros [E|E]; cbn in E; subst; reflexivity. Qed.

Lemma update_max f g : MaxLocalClock (update_reference f g) = MaxLocalClock g.
Proof. reflexivity. Qed.

(** The update of a client. *)
Definition client_step (g : CFE_TIME_Global_t) : CFE_TIME_Global_t :=
  (update_reference (client_update g) g)
    <| ServerFlyState := if negb (PendingState g =? CFE_TIME_ClockState_INVALID) &&
                            (PendingState g =? CFE_TIME_ClockState_FLYWHEEL)
                         then CFE_TIME_FlywheelState_IS_FLY else CFE_TIME_FlywheelState_NO_FLY |>.

Lemma server_fly_same g x :
  CFE_TIME_GetReferenceState (g <| ServerFlyState := x |>) = CFE_TIME_GetReferenceState g /\
  MaxLocalClock (g <| ServerFlyState := x |>) = MaxLocalClock g /\ ServerFlyState (g <| ServerFlyState := x |>) = x.
Proof. done. Qed.

Lemma client_step_state g :
  zlen (ReferenceState g) = CFE_TIME_REFERENCE_BUF_DEPTH ->
  CFE_TIME_GetReferenceState (client_step g) = client_update g (next_state g) /\
  MaxLocalClock (client_step g) = MaxLocalClock g /\
  ServerFlyState (client_step g) =
    (if negb (PendingState g =? CFE_TIME_ClockState_INVALID) && (PendingState g =? CFE_TIME_ClockState_FLYWHEEL)
     then CFE_TIME_FlywheelState_IS_FLY else CFE_TIME_FlywheelState_NO_FLY).
Proof.
  intros Hl. destruct (update_current (client_update g) g Hl) as (E & _); [apply client_version|].
  unfold client_step. match goal with |- context [?h <| ServerFlyState := ?x |>] => destruct (server_fly_same h x) as (-> & -> & ->) end.
  rewrite update_max. by rewrite E.
Qed.

Lemma client_tone_update cfg w :
  SERVER cfg = false -> refs_ok (G w) ->
  CFE_TIME_ToneUpdate cfg w =
  (if RS_ClockFlyState (CFE_TIME_GetReferenceState (G w)) =? CFE_TIME_FlywheelState_IS_FLY
   then emit (OutEvent 21) else id) (on_G client_step (tick w)).
Proof.
  intros Hcl Hr. unfold CFE_TIME_ToneUpdate. rewrite get_reference by done. rewrite Hcl.
  change (G (tick w)) with (G w). by destruct (_ =? CFE_TIME_FlywheelState_IS_FLY).
Qed.

(** What a packet changes before and after it is verified. *)
Definition pend (d : CFE_TIME_ToneDataCmd_Payload_t) (t : CFE_TIME_SysTime_t) (g : CFE_TIME_Global_t) : CFE_TIME_Global_t :=
  g <| ToneDataLatch := t |> <| PendingMET := TD_AtToneMET d |> <| PendingSTCF := TD_AtToneSTCF d |>
    <| PendingLeaps := TD_AtToneLeapSeconds d |> <| PendingState := TD_AtToneState d |>.
Definition matched (g : CFE_TIME_Global_t) : CFE_TIME_Global_t := g <| ToneMatchCounter := u32 (ToneMatchCounter g + 1) |>.
Definition unmatched (g : CFE_TIME_Global_t) : CFE_TIME_Global_t := g <| ToneMatchErrorCounter := u32 (ToneMatchErrorCounter g + 1) |>.
Definition closing (a b : CFE_TIME_SysTime_t) (g : CFE_TIME_Global_t) : CFE_TIME_Global_t :=
  g <| PrevTime1 := a |> <| PrevTime2 := b |> <| ToneDataCounter := u32 (ToneDataCounter g + 1) |>.

Lemma pend_ok d t g : payload_ok d -> sys_ok t -> fields_ok g -> fields_ok (pend d t g).
Proof. intros [] Ht Hf. unfold pend. split_oks. fields_from Hf. Qed.

(** The reference after the changes. *)
Lemma closing_reference a b g :
  CFE_TIME_GetReferenceState (closing a b g) = CFE_TIME_GetReferenceState g /\
  MaxLocalClock (closing a b g) = MaxLocalClock g /\ ServerFlyState (closing a b g) = ServerFlyState g.
Proof. by destruct g. Qed.
Lemma pend_reference d t g :
  CFE_TIME_GetReferenceState (unmatched (pend d t g)) = CFE_TIME_GetReferenceState g /\
  CFE_TIME_GetReferenceState (matched (pend d t g)) = CFE_TIME_GetReferenceState g /\
  ReferenceState (matched (pend d t g)) = ReferenceState g /\ next_state (matched (pend d t g)) = next_state g /\
  MaxLocalClock (matched (pend d t g)) = MaxLocalClock g /\ MaxLocalClock (unmatched (pend d t g)) = MaxLocalClock g /\
  PendingState (matched (pend d t g)) = TD_AtToneState d /\ refs_ok (matched (pend d t g)) = refs_ok g.
Proof. by destruct g. Qed.
Lemma client_takes d t g s :
  let s' := client_update (matched (pend d t g)) s in
  RS_AtToneMET s' = TD_AtToneMET d /\ RS_AtToneSTCF s' = TD_AtToneSTCF d /\ RS_AtToneLeapSeconds s' = TD_AtToneLeapSeconds d /\
  RS_AtToneLatch s' = ToneSignalLatch g /\ RS_AtToneDelay s' = RS_AtToneDelay s /\ RS_DelayDirection s' = RS_DelayDirection s /\
  RS_ClockSetState s' = (if TD_AtToneState d =? CFE_TIME_ClockState_INVALID
                         then CFE_TIME_SetState_NOT_SET else CFE_TIME_SetState_WAS_SET).
Proof. by destruct g, s. Qed.

Lemma close_world a b w :
  let w' := on_G (fun g => g <| ToneDataCounter := u32 (ToneDataCounter g + 1) |>)
              (on_G (fun g => g <| PrevTime1 := a |> <| PrevTime2 := b |>) w) in
  G w' = closing a b (G w) /\ clock w' = clock w.
Proof. destruct w as [[] ? ? ?]. done. Qed.
Lemma pend_match d t g M T0 T1 :
  tone_match (pend d t g) M T0 T1 = tone_match g M T0 T1 /\ Forced2Fly (pend d t g) = Forced2Fly g.
Proof. by destruct g. Qed.

(** What a client does with a packet. *)
Lemma client_packet cfg w d M T0 T1 :
  SERVER cfg = false -> AT_TONE_WAS cfg = true -> time_ok cfg (G w) -> payload_ok d ->
  instant (MaxLocalClock (G w)) = M -> 0 < M <= 2 ^ 62 -> ToneSignalLatch (G w) = local M T0 ->
  now w = local M T1 -> 0 <= T1 - T0 < M ->
  let w' := CFE_TIME_ToneData cfg d w in
  let g := pend d (local M T1) (G w) in
  if tone_match (G w) M T0 T1 && negb (Forced2Fly (G w)) then
    G w' = closing (local M T0) (local M T1) (client_step (matched g)) /\ clock w' = clock (tick (tick w))
  else G w' = closing (local M T0) (local M T1) (if tone_match (G w) M T0 T1 then matched g else unmatched g).
Proof.
  intros Hcl Hwas H Hd HM HM' Hsig H1 HT. cbv zeta. unfold CFE_TIME_ToneData. rewrite latch_clock, Hwas, H1. cbv zeta.
  fold (pend d (local M T1)).
  assert (Hf1 : fields_ok (pend d (local M T1) (G w))) by (apply pend_ok; [done|auto with time|apply (to_fields _ _ H)]).
  set (w1 := on_G (pend d (local M T1)) (tick w)).
  assert (Ew : ToneSignalLatch (G w1) = local M T0 /\ ToneDataLatch (G w1) = local M T1) by (split; [exact Hsig|reflexivity]).
  destruct Ew as [-> ->].
  pose proof (verify_match cfg w1 M T0 T1 Hf1 HM HM' HT) as E. cbv zeta in E. rewrite E. clear E Hf1.
  fold matched unmatched. match goal with |- context [on_G _ (on_G (fun g => g <| PrevTime1 := _ |> <| PrevTime2 := _ |>) ?x)] =>
    destruct (close_world (local M T0) (local M T1) x) as [Eg Ek] end.
  rewrite Eg, Ek. clear Eg Ek. change (G w1) with (pend d (local M T1) (G w)).
  destruct (pend_match d (local M T1) (G w) M T0 T1) as [-> ->].
  destruct (pend_reference d (local M T1) (G w)) as (_ & _ & _ & _ & _ & _ & _ & Hr).
  destruct (tone_match (G w) M T0 T1); [|done]. destruct (Forced2Fly (G w)); [done|]. cbn [andb negb].
  rewrite client_tone_update; [|done|change (refs_ok (matched (pend d (local M T1) (G w)))); rewrite Hr; apply (to_refs _ _ H)].
  by destruct (_ =? CFE_TIME_FlywheelState_IS_FLY).
Qed.

(** The state of a client after a packet. *)
Lemma client_data cfg w d M T0 T1 :
  SERVER cfg = false -> AT_TONE_WAS cfg = true -> time_ok cfg (G w) -> payload_ok d ->
  instant (MaxLocalClock (G w)) = M -> 0 < M <= 2 ^ 62 -> ToneSignalLatch (G w) = local M T0 ->
  now w = local M T1 -> 0 <= T1 - T0 < M ->
  let w' := CFE_TIME_ToneData cfg d w in
  let s := CFE_TIME_GetReferenceState (G w) in
  let s' := CFE_TIME_GetReferenceState (G w') in
  MaxLocalClock (G w') = MaxLocalClock (G w) /\
  if tone_match (G w) M T0 T1 && negb (Forced2Fly (G w)) then
    now w' = now (tick (tick w)) /\
    RS_AtToneMET s' = TD_AtToneMET d /\ RS_AtToneSTCF s' = TD_AtToneSTCF d /\ RS_AtToneLeapSeconds s' = TD_AtToneLeapSeconds d /\
    RS_AtToneLatch s' = local M T0 /\ delay_of cfg s' = delay_of cfg s /\ RS_ClockFlyState s' = CFE_TIME_FlywheelState_NO_FLY /\
    RS_ClockSetState s' = (if TD_AtToneState d =? CFE_TIME_ClockState_INVALID
                           then CFE_TIME_SetState_NOT_SET else CFE_TIME_SetState_WAS_SET) /\
    ServerFlyState (G w') =
      (if negb (TD_AtToneState d =? CFE_TIME_ClockState_INVALID) && (TD_AtToneState d =? CFE_TIME_ClockState_FLYWHEEL)
       then CFE_TIME_FlywheelState_IS_FLY else CFE_TIME_FlywheelState_NO_FLY)
  else s' = s.
Proof.
  intros Hcl Hwas H Hd HM HM' Hsig H1 HT. cbv zeta.
  pose proof (client_packet cfg w d M T0 T1 Hcl Hwas H Hd HM HM' Hsig H1 HT) as E. cbv zeta in E.
  generalize dependent (CFE_TIME_ToneData cfg d w). intros w' E. set (g := pend d (local M T1) (G w)) in *.
  destruct (pend_reference d (local M T1) (G w)) as (P1 & P2 & P3 & P4 & P5 & P6 & P7 & _). fold g in P1, P2, P3, P4, P5, P6, P7.
  destruct (client_takes d (local M T1) (G w) (next_state (G w))) as (A1 & A2 & A3 & A4 & A5 & A6 & A7).
  fold g in A1, A2, A3, A4, A5, A6, A7. clearbody g. rewrite Hsig in A4.
  pose proof (client_lands (matched g) (next_state (G w))) as Hlands.
  destruct (tone_match (G w) M T0 T1 && negb (Forced2Fly (G w))).
  - destruct E as [E Ek]. rewrite E. destruct (closing_reference (local M T0) (local M T1) (client_step (matched g))) as (-> & -> & ->).
    destruct (client_step_state (matched g)) as (-> & -> & ->); [rewrite P3; apply (to_refs _ _ H)|].
    rewrite P4, P5, P7. generalize dependent (client_update (matched g)). intros f A1 A2 A3 A4 A5 A6 A7 Hlands.
    split_and!; [reflexivity|unfold now; by rewrite Ek|assumption|assumption|assumption|assumption| |apply Hlands|assumption|reflexivity].
    + unfold delay_of. by rewrite A5, A6.
    + destruct (current_ok _ _ H) as [[] _]. by split_oks.
  - rewrite E. destruct (closing_reference (local M T0) (local M T1) (if tone_match (G w) M T0 T1 then matched g else unmatched g)) as (-> & -> & _).
    destruct (tone_match (G w) M T0 T1); split; assumption.
Qed.

(** C31. A client that receives the time data at local time [T1] follows the
    server when the data goes with the tone at [T0] and the flywheel is not
    commanded: the MET it returns at [T2] is the server's MET at the tone plus the
    time since the tone plus the delay, and the correlation factor, the leap
    seconds and the clock state are the server's; otherwise its reference does not
    change. *)
Theorem client_follows_tone (cfg : TimeConfig) (w : TimeWorld) (d : CFE_TIME_ToneDataCmd_Payload_t) (M T0 T1 T2 : Z) :
  SERVER cfg = false -> AT_TONE_WAS cfg = true -> world_ok cfg w -> payload_ok d ->
  instant (MaxLocalClock (G w)) = M -> 0 < M <= 2 ^ 62 -> ToneSignalLatch (G w) = local M T0 ->
  now w = local M T1 -> now (tick (tick w)) = local M T2 -> T0 <= T1 <= T2 -> T2 - T0 < M ->
  let s := CFE_TIME_GetReferenceState (G w) in
  let w' := CFE_TIME_ToneData cfg d w in
  if tone_match (G w) M T0 T1 && negb (Forced2Fly (G w)) then
    fst (CFE_TIME_GetMET cfg w') = of_instant (instant (TD_AtToneMET d) + (T2 - T0) + delay_of cfg s) /\
    fst (CFE_TIME_GetSTCF cfg w') = TD_AtToneSTCF d /\ fst (CFE_TIME_GetLeapSeconds cfg w') = TD_AtToneLeapSeconds d /\
    fst (CFE_TIME_GetClockState cfg w') =
      (if TD_AtToneState d =? CFE_TIME_ClockState_INVALID then CFE_TIME_ClockState_INVALID
       else if TD_AtToneState d =? CFE_TIME_ClockState_FLYWHEEL then CFE_TIME_ClockState_FLYWHEEL
       else CFE_TIME_ClockState_VALID)
  else CFE_TIME_GetReferenceState (G w') = s.
Proof.
  intros Hcl Hwas [H _] Hd HM HM' Hsig H1 H2 HT HT' s w'. pose proof (ToneData_ok cfg d w H Hd) as Hw. fold w' in Hw.
  destruct (client_data cfg w d M T0 T1) as (Em & Ec); [done..|lia|]. fold s w' in Em, Ec.
  destruct (tone_match (G w) M T0 T1 && negb (Forced2Fly (G w))); [|done].
  destruct Ec as (En & E1 & E2 & E3 & E4 & E5 & E6 & E7 & E8). rewrite <- En in H2. rewrite <- Em in HM.
  destruct (read_met cfg w' M T0 T2 Hw (conj HM (conj HM' E4)) H2 ltac:(lia)) as (-> & _).
  unfold CFE_TIME_GetSTCF, CFE_TIME_GetLeapSeconds, CFE_TIME_GetClockState. rewrite get_reference by apply (to_refs _ _ Hw).
  cbn [fst compute_reference AtToneSTCF AtToneLeapSeconds]. rewrite E1, E5. split_and!; [done..|].
  unfold CFE_TIME_CalculateState. cbn [compute_reference ClockSetState ClockFlyState]. change (G (tick w')) with (G w').
  rewrite E6, E7, E8, Hcl.
  by destruct (TD_AtToneState d =? CFE_TIME_ClockState_INVALID), (TD_AtToneState d =? CFE_TIME_ClockState_FLYWHEEL).
Qed.

(** ** Concurrent readers *)

(** C6. A read of the reference that succeeds returns the words of one
    published version, the one that was current when the read started, although
    the time task may update the reference between any two of its accesses, unless
    2^32 updates were started during the read; and a read during which fewer than
    four updates are started does succeed. *)
Theorem snapshot_consistent (s : Sync) :
  sync_reach s ->
  (forall Reference l, reader s = ROk Reference l ->
     (1 <= l <= published s)%nat /\ hist s !! l = Some Reference \/ 2 ^ 32 <= Z.of_nat (started s) - Z.of_nat l) /\
  (forall n v Reference l, reader s = RRead (S n) v width Reference l -> (1 <= l)%nat -> (started s < l + 4)%nat ->
     attempt (mem s) (S n) v Reference l = ROk Reference l).
Proof.
  intros Hr. apply sync_reach_ok in Hr. pose proof (sy_reader _ Hr) as Hrd. unfold reader_ok in Hrd. split.
  - intros Reference l E. rewrite E in Hrd. destruct Hrd as (? & [[? ?]|?]); [left; split; [lia|done]|by right].
  - intros n v Reference l E Hl Hs. rewrite E in Hrd. destruct Hrd as (Hv & Hp & _). unfold attempt.
    pose proof (check_passes s l Hr ltac:(lia) Hs) as Hc. rewrite Hv. by rewrite Hc, Z.eqb_refl.
Qed.

(** The sequential operations are runs of the concurrent program: an update
    of the reference, whose writes to the next state are [ws], is a run of the
    writer that publishes the new version, and a read is a run of the reader that
    returns the current version. *)
Theorem sequential_runs (f : CFE_TIME_ReferenceState_t -> CFE_TIME_ReferenceState_t) (g : CFE_TIME_Global_t)
    (h : list (list Z)) (r : Reader) (ws : list (nat * Z)) (n : nat) :
  refs_ok g -> StateVersion (f (next_state g)) = StateVersion (next_state g) ->
  Forall (fun '(j, _) => (j < width)%nat) ws -> words_of (f (next_state g)) = put ws (words_of (next_state g)) ->
  let g' := update_reference f g in
  rtc sync_step (sync (mem_of g) h WIdle r) (sync (mem_of g') (h ++ [words_of (CFE_TIME_GetReferenceState g')]) WIdle r) /\
  rtc sync_step (sync (mem_of g) h WIdle (RTop (S n)))
    (sync (mem_of g) h WIdle (ROk (words_of (CFE_TIME_GetReferenceState g)) (pred (length h)))).
Proof.
  intros Hr Hf Hws Hput. split; [|by apply read_run]. pose proof (proj1 Hr) as Hl.
  destruct (update_current f g Hl Hf) as (-> & _). by apply (update_run f g h r ws).
Qed.

(** ** The reset area *)

Lemma query_existing cfg w v :
  zlen (ReferenceState (G w)) = CFE_TIME_REFERENCE_BUF_DEPTH -> ResetArea w = Some v ->
  Signature v = CFE_TIME_RESET_SIGNATURE -> 1 <= RV_ClockSignal v <= 2 ->
  let w' := CFE_TIME_QueryResetVars cfg w in
  let s := CFE_TIME_GetReferenceState (G w') in
  zlen (ReferenceState (G w')) = CFE_TIME_REFERENCE_BUF_DEPTH /\
  ClockSignal (G w') = RV_ClockSignal v /\ RS_AtToneMET s = RV_CurrentMET v /\ RS_AtToneSTCF s = RV_CurrentSTCF v /\
  RS_AtToneDelay s = RV_CurrentDelay v /\ RS_AtToneLeapSeconds s = RV_LeapSeconds v.
Proof.
  intros Hl Ea Hs Hsig. cbv zeta. unfold CFE_TIME_QueryResetVars. rewrite Ea, Hs, Z.eqb_refl.
  replace ((RV_ClockSignal v =? CFE_TIME_ToneSignalSelect_PRIMARY) || (RV_ClockSignal v =? CFE_TIME_ToneSignalSelect_REDUNDANT))
    with true by (unfold CFE_TIME_ToneSignalSelect_PRIMARY, CFE_TIME_ToneSignalSelect_REDUNDANT; lia).
  cbn [andb]. match goal with |- context [update_reference ?f _] =>
    destruct (update_current f (G w) Hl) as (E & E2 & _); [done|] end.
  simp_upd. match goal with |- context [update_reference ?f ?g] => generalize dependent (update_reference f g) end.
  intros g E E2. assert (Ec : forall x y, CFE_TIME_GetReferenceState (g <| ClockSignal := x |> <| DataStoreStatus := y |>) =
    CFE_TIME_GetReferenceState g) by done.
  rewrite !Ec, E, E2, zlen_zset. split_and!; done.
Qed.

(** What [CFE_TIME_InitData] sets after the reference. *)
Definition init_rest (cfg : TimeConfig) (met : Z) (g : CFE_TIME_Global_t) : CFE_TIME_Global_t :=
  let g := g <| ClockSource := if SOURCE cfg then CFE_TIME_SourceSelect_EXTERNAL else CFE_TIME_SourceSelect_INTERNAL |>
             <| ServerFlyState := CFE_TIME_FlywheelState_IS_FLY |> <| PendingState := CFE_TIME_ClockState_INVALID |>
             <| OneTimeDirection := CFE_TIME_AdjustDirection_ADD |> <| OneHzDirection := CFE_TIME_AdjustDirection_ADD |>
             <| VirtualMET := met |>
             <| MinElapsed := CFE_TIME_Micro2SubSecs (MIN_ELAPSED cfg) |>
             <| MaxElapsed := CFE_TIME_Micro2SubSecs (MAX_ELAPSED cfg) |> in
  let g := if SOURCE cfg
           then g <| MaxDelta := SysTime (MAX_DELTA_SECS cfg) (CFE_TIME_Micro2SubSecs (MAX_DELTA_SUBS cfg)) |> else g in
  g <| MaxLocalClock := SysTime (MAX_LOCAL_SECS cfg) (MAX_LOCAL_SUBS cfg) |>
    <| ToneOverLimit := CFE_TIME_Micro2SubSecs (TONE_LIMIT cfg) |>
    <| ToneUnderLimit := CFE_TIME_Micro2SubSecs (1000000 - TONE_LIMIT cfg) |>.

Lemma init_rest_same cfg met g :
  CFE_TIME_GetReferenceState (init_rest cfg met g) = CFE_TIME_GetReferenceState g /\
  ClockSignal (init_rest cfg met g) = ClockSignal g.
Proof. unfold init_rest. destruct g, (SOURCE cfg); done. Qed.

Definition init_state (latch : CFE_TIME_SysTime_t) (s : CFE_TIME_ReferenceState_t) : CFE_TIME_ReferenceState_t :=
  s <| RS_AtToneLatch := latch |> <| RS_ClockSetState := CFE_TIME_SetState_NOT_SET |>
    <| RS_ClockFlyState := CFE_TIME_FlywheelState_IS_FLY |> <| RS_DelayDirection := CFE_TIME_AdjustDirection_ADD |>.

Lemma InitData_eq cfg w :
  CFE_TIME_InitData cfg w =
  let w1 := CFE_TIME_QueryResetVars cfg (on_G (fun g => cleared <| PrevTime1 := PrevTime1 g |> <| PrevTime2 := PrevTime2 g |>) w) in
  on_G (fun g => init_rest cfg (Seconds (RS_AtToneMET (CFE_TIME_GetReferenceState g))) (update_reference (init_state (now w1)) g)) (tick w1).
Proof. reflexivity. Qed.

(** The state after initialization, when the reset area was in use. *)
Lemma init_existing cfg w v :
  ResetArea w = Some v -> Signature v = CFE_TIME_RESET_SIGNATURE -> 1 <= RV_ClockSignal v <= 2 ->
  let w' := CFE_TIME_InitData cfg w in
  let s := CFE_TIME_GetReferenceState (G w') in
  ClockSignal (G w') = RV_ClockSignal v /\ RS_AtToneMET s = RV_CurrentMET v /\ RS_AtToneSTCF s = RV_CurrentSTCF v /\
  RS_AtToneDelay s = RV_CurrentDelay v /\ RS_AtToneLeapSeconds s = RV_LeapSeconds v /\
  RS_ClockSetState s = CFE_TIME_SetState_NOT_SET /\ RS_ClockFlyState s = CFE_TIME_FlywheelState_IS_FLY.
Proof.
  intros Ha Hsig Hcs. cbv zeta. rewrite InitData_eq. cbv zeta. set (w0 := on_G _ w).
  destruct (query_existing cfg w0 v) as (Hl & E1 & E2 & E3 & E4 & E5); [reflexivity|done..|].
  generalize dependent (CFE_TIME_QueryResetVars cfg w0). clear w0 Ha. intros w1 Hl E1 E2 E3 E4 E5.
  cbn [on_G G upd eta_World]. change (G (tick w1)) with (G w1). rewrite !(proj1 (init_rest_same _ _ _)), !(proj2 (init_rest_same _ _ _)).
  assert (Es : ClockSignal (update_reference (init_state (now w1)) (G w1)) = ClockSignal (G w1)) by reflexivity.
  destruct (update_current (init_state (now w1)) (G w1) Hl) as (E & _); [reflexivity|]. rewrite Es, E. clear Es E.
  unfold next_state. generalize dependent (CFE_TIME_GetReferenceState (G w1)). intros s E2 E3 E4 E5. by destruct s.
Qed.

(** The time survives a reset: what the housekeeping command stores in the
    reset area is what initialization finds there after a restart with any state
    of the processor, so that the clock goes on, in flywheel and not set, from the
    MET of the last housekeeping request, with the same correlation factor, leap
    seconds, delay and tone signal. *)
Theorem reset_roundtrip (cfg : TimeConfig) (w w2 : TimeWorld) (v : CFE_TIME_ResetVars_t) :
  world_ok cfg w -> ResetArea w = Some v -> DataStoreStatus (G w) <> CFE_TIME_RESET_AREA_ERROR ->
  ResetArea w2 = ResetArea (CFE_TIME_HousekeepingCmd cfg w) ->
  let r := fst (CFE_TIME_GetReference cfg w) in
  let w' := CFE_TIME_InitData cfg w2 in
  let s := CFE_TIME_GetReferenceState (G w') in
  RS_AtToneMET s = CurrentMET r /\ RS_AtToneSTCF s = AtToneSTCF r /\ RS_AtToneLeapSeconds s = AtToneLeapSeconds r /\
  RS_AtToneDelay s = AtToneDelay r /\ ClockSignal (G w') = ClockSignal (G w) /\
  RS_ClockSetState s = CFE_TIME_SetState_NOT_SET /\ RS_ClockFlyState s = CFE_TIME_FlywheelState_IS_FLY.
Proof.
  intros [H _] Ha Hst Ha2. cbv zeta. destruct (reference_read cfg w H) as [Er _].
  set (r := compute_reference cfg (G w) (CFE_TIME_GetReferenceState (G w)) (now w)) in *. rewrite Er. cbn [fst].
  assert (Hcs : 1 <= ClockSignal (G w) <= 2) by (destruct (to_fields _ _ H); by split_oks).
  assert (E : ResetArea (CFE_TIME_HousekeepingCmd cfg w) =
    Some (ResetVars_t CFE_TIME_RESET_SIGNATURE (AtToneLeapSeconds r) (ClockSignal (G w)) (CurrentMET r) (AtToneSTCF r) (AtToneDelay r))).
  { unfold CFE_TIME_HousekeepingCmd. rewrite Er. pose proof (GetTime_area cfg (CFE_TIME_UpdateResetVars r (tick w))) as Et.
    destruct (CFE_TIME_GetTime cfg _) as [t w3]. cbn [snd] in Et. change (ResetArea (emit _ w3)) with (ResetArea w3). rewrite Et.
    unfold CFE_TIME_UpdateResetVars. change (ResetArea (tick w)) with (ResetArea w). change (G (tick w)) with (G w). rewrite Ha.
    destruct (Z.eqb_spec (DataStoreStatus (G w)) CFE_TIME_RESET_AREA_ERROR); [done|]. cbn [negb ResetArea upd eta_World].
    do 2 f_equal. machine. apply Z.mod_small. lia. }
  rewrite <- Ha2 in E. destruct (init_existing cfg w2 _ E) as (I1 & I2 & I3 & I4 & I5 & I6 & I7); [done|exact Hcs|].
  split_and!; assumption.
Qed.

(** ** The state of the service *)

(** C5. From initialization on, whatever happens (messages of the command pipe
    with arguments in their types, interrupts, turns of the tasks, external data,
    callbacks), the state is well formed: every field is in the range of its type,
    the reference data can be read at the first attempt, a server's flywheel flag
    is the one of its reference data, and a commanded flywheel is in effect. *)
Theorem time_invariant (cfg : TimeConfig) (w : TimeWorld) (es : list TimeEvent) :
  config_ok cfg -> sys_ok (PrevTime1 (G w)) -> sys_ok (PrevTime2 (G w)) -> area_ok w -> Forall event_ok es ->
  world_ok cfg (fold_left (fun w e => handle cfg e w) es (CFE_TIME_InitData cfg w)).
Proof. intros. apply events_ok; [|done]. by apply InitData_ok. Qed.
