(* ===== verification/TimeDemo.v ===== *)
(** Time services at work: a sample configuration and the theorems at concrete
    inputs. *)

From stdpp Require Import relations.
From S2P Require Import Prelude Records TimeMath TimeModel TimeTone TimeInv TimeEvents TimeSync TimeTheorems.

(** The sample mission's numbers, for a server or a client. *)
Definition demo_cfg (server : bool) : TimeConfig :=
  mk_TimeConfig server false false false false false true true true 2 8 0 200000 20000 0 500000 27 0 1000 0 1000000 0 37.

(** Closes concrete range conditions. *)
Ltac ranges :=
  repeat match goal with
  | |- Forall _ _ => constructor
  | |- _ => progress (vm_compute; repeat split; try discriminate)
  end.

Lemma demo_cfg_ok b : config_ok (demo_cfg b).
Proof. constructor; ranges. Qed.

Definition demo_epoch : Epoch := mk_Epoch 1980 1 0 0 0.
(** 1983-062-09:46:40.50000 *)
Example demo_print : CFE_TIME_Print demo_epoch (SysTime 100000000 0x80000000) =
  Some [49; 57; 56; 51; 45; 48; 54; 50; 45; 48; 57; 58; 52; 54; 58; 52; 48; 46; 53; 48; 48; 48; 48; 0].
Proof. vm_compute. reflexivity. Qed.

Lemma print_calendar_witness :
  exists out, CFE_TIME_Print demo_epoch (SysTime 100000000 0x80000000) = Some out /\ zlen out = CFE_TIME_PRINTED_STRING_SIZE.
Proof.
  destruct (print_calendar demo_epoch (SysTime 100000000 0x80000000)) as (out & E & Hl & _).
  - vm_compute. repeat split; discriminate.
  - vm_compute. repeat split; discriminate.
  - exists out. exact (conj E Hl).
Defined.

(** ** A run *)

(** Readings in tenths of a second. *)
Definition tenths (l : list Z) : list OS_time_t := map (fun s => OS_time (s * 1000000)) l.
Definition boot (l : list Z) : TimeWorld := time_world cleared (Some (ResetVars_t 0 0 0 zero_time zero_time zero_time)) (tenths l) [].
(** Initialized at second 3 of the local clock, with the clock readings to come. *)
Definition demo_world (server : bool) (es : list TimeEvent) (l : list Z) : TimeWorld :=
  fold_left (fun w e => handle (demo_cfg server) e w) es (CFE_TIME_InitData (demo_cfg server) (boot l)).

Lemma boot_ok l : sys_ok (PrevTime1 (G (boot l))) /\ sys_ok (PrevTime2 (G (boot l))) /\ area_ok (boot l).
Proof.
  assert (Hz : sys_ok zero_time) by (vm_compute; repeat split; discriminate).
  split_and!; [exact Hz|exact Hz|]. intros v [= <-]. split; [vm_compute; split; [discriminate|reflexivity]|].
  repeat (constructor; [exact Hz|]). constructor.
Qed.

Lemma demo_world_ok server es l : Forall event_ok es -> world_ok (demo_cfg server) (demo_world server es l).
Proof. intros He. destruct (boot_ok l) as (H1 & H2 & H3). apply events_ok; [|done]. apply InitData_ok; [apply demo_cfg_ok|done..]. Qed.

Definition demo_events : list TimeEvent :=
  [Message (SetTimeCmd 5000 250000); ToneInterrupt; ToneTurn; Message ToneSendCmd; Message OneHzCmd;
   RegisterCallback (0, 3) 77; LocalInterrupt; LocalTurn; Message (SetStateCmd 1); Message Housekeeping].
Lemma demo_events_ok : Forall event_ok demo_events.
Proof. unfold demo_events. ranges. Qed.

Lemma time_invariant_witness :
  world_ok (demo_cfg true) (demo_world true demo_events [30; 40; 40; 50; 50; 50; 60]) /\
  Forced2Fly (G (demo_world true demo_events [30; 40; 40; 50; 50; 50; 60])) = true.
Proof.
  split; [|vm_compute; reflexivity]. destruct (boot_ok [30; 40; 40; 50; 50; 50; 60]) as (H1 & H2 & H3).
  exact (time_invariant (demo_cfg true) (boot [30; 40; 40; 50; 50; 50; 60]) demo_events (demo_cfg_ok true) H1 H2 H3 demo_events_ok).
Defined.

(** ** Setting and reading the time *)

Definition turn : Z := 27 * 2 ^ 32.
Definition at_second (s : Z) : Z := s * 2 ^ 32.

Lemma set_get_time_witness :
  fst (CFE_TIME_GetTime (demo_cfg true) (CFE_TIME_SetTime (demo_cfg true) (SysTime 5000 0) (demo_world true [] [30; 200; 290 - 270]))) =
  SysTime 5009 0.
Proof.
  rewrite (set_get_time (demo_cfg true) (SysTime 5000 0) (demo_world true [] [30; 200; 290 - 270]) turn
             (at_second 3) (at_second 20) (at_second 29)).
  - vm_compute. reflexivity.
  - apply demo_world_ok. constructor.
  - split; [vm_compute; reflexivity|]. split; [vm_compute; split; discriminate || reflexivity|vm_compute; reflexivity].
  - vm_compute. repeat split; discriminate.
  - vm_compute. reflexivity.
  - vm_compute. reflexivity.
  - vm_compute. split; discriminate.
  - vm_compute. reflexivity.
Defined.

(** ** The flywheel of a client with a delay *)

(** A client whose delay is half a second. *)
Definition delayed : TimeWorld := demo_world false [Message (AddDelayCmd 0 500000)] [30; 120; 140].

(** At second 12 the latch is taken again, and at second 14 the MET is half a
    second ahead of the 1011.5 seconds that the client would have returned. *)
Lemma flywheel_met_witness :
  fst (CFE_TIME_GetMET (demo_cfg false) (CFE_TIME_Local1HzStateMachine (demo_cfg false) delayed)) = SysTime 1012 0 /\
  fst (CFE_TIME_GetMET (demo_cfg false) (tick delayed)) = SysTime 1011 0x80000000.
Proof.
  split; [|vm_compute; reflexivity].
  rewrite (flywheel_met (demo_cfg false) delayed turn (at_second 3) (at_second 12) (at_second 14)).
  - vm_compute. reflexivity.
  - apply demo_world_ok. constructor; [vm_compute; repeat split; discriminate|constructor].
  - split; [vm_compute; reflexivity|]. split; [vm_compute; split; discriminate || reflexivity|vm_compute; reflexivity].
  - vm_compute. reflexivity.
  - vm_compute. reflexivity.
  - vm_compute. split; discriminate.
  - vm_compute. reflexivity.
Defined.

(** ** A client and its server *)

Definition tone_data : CFE_TIME_ToneDataCmd_Payload_t := ToneDataCmd_Payload (SysTime 7000 0) (SysTime 1000000 0) 37 0.

(** The tone at second 4, the data 0.1 seconds later. *)
Definition toned : TimeWorld :=
  demo_world false [ToneInterrupt] [30; 40; 41; 41; 60].

Lemma toned_ok : world_ok (demo_cfg false) toned.
Proof. apply demo_world_ok. constructor; [exact I|constructor]. Qed.

Lemma client_follows_tone_witness :
  fst (CFE_TIME_GetMET (demo_cfg false) (CFE_TIME_ToneData (demo_cfg false) tone_data toned)) = SysTime 7002 0 /\
  fst (CFE_TIME_GetClockState (demo_cfg false) (CFE_TIME_ToneData (demo_cfg false) tone_data toned)) = CFE_TIME_ClockState_VALID.
Proof.
  pose proof (client_follows_tone (demo_cfg false) toned tone_data turn (at_second 4) (instant (now toned)) (at_second 6)) as H.
  change (tone_match (G toned) turn (at_second 4) (instant (now toned)) && negb (Forced2Fly (G toned))) with true in H.
  destruct H as (-> & _ & _ & ->).
  - reflexivity.
  - reflexivity.
  - exact toned_ok.
  - split; ranges.
  - vm_compute. reflexivity.
  - vm_compute. split; discriminate || reflexivity.
  - vm_compute. reflexivity.
  - vm_compute. reflexivity.
  - vm_compute. reflexivity.
  - vm_compute. split; discriminate.
  - vm_compute. reflexivity.
  - split; vm_compute; reflexivity.
Defined.

(** ** A reset *)

Definition before_reset : TimeWorld := demo_world true [Message (SetTimeCmd 5000 250000)] [30; 40; 70; 70].
(** The processor restarts: its memory is cleared, the reset area is kept. *)
Definition after_reset : TimeWorld :=
  time_world cleared (ResetArea (CFE_TIME_HousekeepingCmd (demo_cfg true) before_reset)) (tenths [10]) [].

(** Housekeeping at second 7, four seconds after the initialization. *)
Lemma reset_roundtrip_witness :
  RS_AtToneMET (CFE_TIME_GetReferenceState (G (CFE_TIME_InitData (demo_cfg true) after_reset))) = SysTime 1004 0 /\
  RS_AtToneLeapSeconds (CFE_TIME_GetReferenceState (G (CFE_TIME_InitData (demo_cfg true) after_reset))) = 37.
Proof.
  destruct (reset_roundtrip (demo_cfg true) before_reset after_reset (ResetVars_t 0 0 0 zero_time zero_time zero_time))
    as (-> & _ & -> & _).
  - apply demo_world_ok. constructor; [vm_compute; repeat split; discriminate|constructor].
  - vm_compute. reflexivity.
  - vm_compute. discriminate.
  - vm_compute. reflexivity.
  - split; vm_compute; reflexivity.
Defined.

(** ** Readers and writers *)

(** A change of the leap seconds. *)
Definition demo_g : CFE_TIME_Global_t := G (demo_world true [] [30]).
Definition leaps_38 (s : CFE_TIME_ReferenceState_t) : CFE_TIME_ReferenceState_t := s <| RS_AtToneLeapSeconds := 38 |>.

Lemma demo_g_ok : refs_ok demo_g.
Proof. apply (to_refs (demo_cfg true)). apply (demo_world_ok true [] [30]). constructor. Qed.

Lemma sequential_runs_witness :
  rtc sync_step (sync (mem_of demo_g) [] WIdle (RTop 4))
    (sync (mem_of (update_reference leaps_38 demo_g)) ([] ++ [words_of (CFE_TIME_GetReferenceState (update_reference leaps_38 demo_g))])
       WIdle (RTop 4)).
Proof.
  refine (proj1 (sequential_runs leaps_38 demo_g [] (RTop 4) [(0%nat, 38)] 3 demo_g_ok _ _ _)).
  - vm_compute. reflexivity.
  - constructor; [unfold width; lia|constructor].
  - vm_compute. reflexivity.
Defined.

(** One update, then a read: the reader holds the published words. *)
Definition one_update : Sync :=
  sync (ref_mem 1 [0xFFFFFFFF; 1; 0xFFFFFFFF; 0xFFFFFFFF] (<[1%nat := <[0%nat := 37]> (replicate width 0)]> (replicate 4 (replicate width 0))))
    [replicate width 0; <[0%nat := 37]> (replicate width 0)] WIdle (ROk (<[0%nat := 37]> (replicate width 0)) 1).

(** Evaluates the state that a run has reached. *)
Ltac evaluated := match goal with |- rtc _ ?a ?b => let c := eval vm_compute in a in change (rtc sync_step c b) end.
Ltac run_step t := eapply rtc_l; [t|]; evaluated.

Lemma one_update_reach : sync_reach one_update.
Proof.
  unfold sync_reach. evaluated. run_step ltac:(apply w_load). run_step ltac:(apply w_store).
  do 12 (run_step ltac:(apply w_copy; unfold width; lia)). run_step ltac:(apply w_copied).
  run_step ltac:(apply (w_modify _ _ _ _ 0 37); unfold width; lia). run_step ltac:(apply w_finish).
  run_step ltac:(apply r_load). do 12 (run_step ltac:(eapply r_copy; reflexivity)). run_step ltac:(apply r_check).
  vm_compute. apply rtc_refl.
Qed.

Lemma snapshot_consistent_witness :
  sync_reach one_update /\ hist one_update !! 1%nat = Some (<[0%nat := 37]> (replicate width 0)).
Proof.
  split; [exact one_update_reach|]. destruct (snapshot_consistent one_update one_update_reach) as [H _].
  destruct (H _ 1%nat eq_refl) as [[_ E]|E]; [exact E|]. exfalso. revert E. vm_compute. intros E. apply E. reflexivity.
Defined.
