(* ===== verification/EvsModel.v ===== *)
(** Event services: the state of cfe/modules/evs and the functions of
    cfe_evs_utils.c, cfe_evs_log.c and cfe_evs.c.

    A pointer to application data is its index.  What the executive knows (the
    ID of the calling application, the ID that goes with a name) is an argument,
    as are the expanded texts of the service's own events ([text]) and the
    results of file operations; the name of an application in a packet is stood
    for by its ID, and the current spacecraft time is a field of the world.
    Locked sections are atomic; system log texts are left out. *)

From S2P Require Import Prelude Records ResourceId TimeMath.

(** ** Constants *)

Definition CFE_EVS_UNKNOWN_FILTER : Z := s32 0xc2000001.
Definition CFE_EVS_APP_NOT_REGISTERED : Z := s32 0xc2000002.
Definition CFE_EVS_APP_ILLEGAL_APP_ID : Z := s32 0xc2000003.
Definition CFE_EVS_APP_FILTER_OVERLOAD : Z := s32 0xc2000004.
Definition CFE_EVS_EVT_NOT_REGISTERED : Z := s32 0xc2000006.
Definition CFE_EVS_FILE_WRITE_ERROR : Z := s32 0xc2000007.
Definition CFE_EVS_INVALID_PARAMETER : Z := s32 0xc2000008.
Definition CFE_STATUS_NO_COUNTER_INCREMENT : Z := 0x48000001.
Definition CFE_STATUS_WRONG_MSG_LENGTH : Z := s32 0xc8000002.
Definition CFE_STATUS_UNKNOWN_MSG_ID : Z := s32 0xc8000003.
Definition CFE_STATUS_BAD_COMMAND_CODE : Z := s32 0xc8000004.
Definition CFE_STATUS_EXTERNAL_RESOURCE_FAIL : Z := s32 0xc8000005.

Definition CFE_EVS_EventType_DEBUG : Z := 1.
Definition CFE_EVS_EventType_INFORMATION : Z := 2.
Definition CFE_EVS_EventType_ERROR : Z := 3.
Definition CFE_EVS_EventType_CRITICAL : Z := 4.
Definition CFE_EVS_DEBUG_BIT : Z := 0x1.
Definition CFE_EVS_INFORMATION_BIT : Z := 0x2.
Definition CFE_EVS_ERROR_BIT : Z := 0x4.
Definition CFE_EVS_CRITICAL_BIT : Z := 0x8.
Definition CFE_EVS_MsgFormat_SHORT : Z := 0.
Definition CFE_EVS_MsgFormat_LONG : Z := 1.
Definition CFE_EVS_LogMode_OVERWRITE : Z := 0.
Definition CFE_EVS_LogMode_DISCARD : Z := 1.
Definition CFE_EVS_EventFilter_BINARY : Z := 0.

Definition CFE_EVS_FREE_SLOT : Z := u16 (-1).
Definition CFE_EVS_NO_MASK : Z := 0.
Definition CFE_EVS_MAX_EVENT_SEND_COUNT : Z := 65535.
Definition CFE_EVS_MAX_FILTER_COUNT : Z := 65535.
Definition CFE_EVS_MSG_TRUNCATED : Z := 36.
Definition CFE_PLATFORM_EVS_MAX_EVENT_FILTERS : Z := 8.
Definition CFE_PLATFORM_EVS_LOG_MAX : Z := 20.
Definition CFE_PLATFORM_EVS_PORT_DEFAULT : Z := 1.
Definition CFE_PLATFORM_EVS_DEFAULT_TYPE_FLAG : Z := 0xE.
Definition CFE_PLATFORM_EVS_DEFAULT_LOG_MODE : Z := 1.
Definition CFE_PLATFORM_EVS_DEFAULT_MSG_FORMAT_MODE : Z := CFE_EVS_MsgFormat_LONG.
Definition CFE_PLATFORM_ES_MAX_APPLICATIONS : Z := 32.
Definition CFE_MISSION_ES_MAX_APPLICATIONS : Z := 16.
Definition CFE_MISSION_EVS_MAX_MESSAGE_LENGTH : Z := 122.
Definition CFE_ES_APPID_BASE : Z := CFE_RESOURCEID_MAKE_BASE 0x11.

(** ** State *)

Record EVS_BinFilter_t := BinFilter { bf_EventID : Z; bf_Mask : Z; bf_Count : Z }.
#[export] Instance eta_BinFilter : Eta EVS_BinFilter_t := fun f => BinFilter (bf_EventID f) (bf_Mask f) (bf_Count f).
Definition free_filter : EVS_BinFilter_t := BinFilter CFE_EVS_FREE_SLOT 0 0.
#[export] Instance BinFilter_inhabited : Inhabited EVS_BinFilter_t := populate (BinFilter 0 0 0).

Record EVS_AppData_t := AppData {
  AppID : Z; UnregAppID : Z; BinFilters : list EVS_BinFilter_t;
  ActiveFlag : bool; EventTypesActiveFlag : Z; EventCount : Z }.
#[export] Instance eta_AppData : Eta EVS_AppData_t := fun a =>
  AppData (AppID a) (UnregAppID a) (BinFilters a) (ActiveFlag a) (EventTypesActiveFlag a) (EventCount a).
Definition zero_app : EVS_AppData_t :=
  AppData 0 0 (replicate (Z.to_nat CFE_PLATFORM_EVS_MAX_EVENT_FILTERS) (BinFilter 0 0 0)) false 0 0.
#[export] Instance AppData_inhabited : Inhabited EVS_AppData_t := populate zero_app.

(** A long event packet; the short one is its [PacketID]. *)
Record PacketID_t := PacketID { pk_App : Z; pk_EventID : Z; pk_EventType : Z; pk_Time : CFE_TIME_SysTime_t }.
Record CFE_EVS_LongEventTlm_t := LongEvent { le_PacketID : PacketID_t; le_Message : list Z }.
#[export] Instance LongEvent_inhabited : Inhabited CFE_EVS_LongEventTlm_t :=
  populate (LongEvent (PacketID 0 0 0 (SysTime 0 0)) []).

Record CFE_EVS_Log_t := EvsLog {
  Next : Z; LogCount : Z; LogFullFlag : Z; LogMode : Z; LogOverflowCounter : Z; LogEntry : list CFE_EVS_LongEventTlm_t }.
#[export] Instance eta_EvsLog : Eta CFE_EVS_Log_t := fun l =>
  EvsLog (Next l) (LogCount l) (LogFullFlag l) (LogMode l) (LogOverflowCounter l) (LogEntry l).

Record CFE_EVS_AppTlmData_t := AppTlmData { at_AppID : Z; at_EnableStatus : bool; at_SentCounter : Z }.
#[export] Instance AppTlmData_inhabited : Inhabited CFE_EVS_AppTlmData_t := populate (AppTlmData 0 false 0).

Record CFE_EVS_HousekeepingTlm_Payload_t := HkTlm {
  CommandCounter : Z; CommandErrorCounter : Z; MessageFormatMode : Z; MessageTruncCounter : Z;
  UnregisteredAppCounter : Z; OutputPort : Z; hk_LogFullFlag : Z; hk_LogMode : Z; MessageSendCounter : Z;
  hk_LogOverflowCounter : Z; LogEnabled : bool; hk_AppData : list CFE_EVS_AppTlmData_t }.
#[export] Instance eta_HkTlm : Eta CFE_EVS_HousekeepingTlm_Payload_t := fun h =>
  HkTlm (CommandCounter h) (CommandErrorCounter h) (MessageFormatMode h) (MessageTruncCounter h)
    (UnregisteredAppCounter h) (OutputPort h) (hk_LogFullFlag h) (hk_LogMode h) (MessageSendCounter h)
    (hk_LogOverflowCounter h) (LogEnabled h) (hk_AppData h).

Inductive EvsOutput :=
| OutLong (e : CFE_EVS_LongEventTlm_t)
| OutShort (p : PacketID_t)
| OutPort (n : Z) (e : CFE_EVS_LongEventTlm_t)
| OutHk (p : CFE_EVS_HousekeepingTlm_Payload_t)
| OutLogFile (l : list CFE_EVS_LongEventTlm_t)
| OutAppFile (l : list EVS_AppData_t).

(** The global data with the log of the reset area, the spacecraft time and
    what has been sent, last first. *)
Record EvsWorld := evs_world {
  Apps : list EVS_AppData_t; Log : CFE_EVS_Log_t; Tlm : CFE_EVS_HousekeepingTlm_Payload_t;
  EVS_AppID : Z; stamp : CFE_TIME_SysTime_t; out : list EvsOutput }.
#[export] Instance eta_EvsWorld : Eta EvsWorld := fun w =>
  evs_world (Apps w) (Log w) (Tlm w) (EVS_AppID w) (stamp w) (out w).

Definition send (o : EvsOutput) (w : EvsWorld) : EvsWorld := w <| out ::= cons o |>.
Definition on_app (i : Z) (f : EVS_AppData_t -> EVS_AppData_t) (w : EvsWorld) : EvsWorld :=
  w <| Apps ::= fun l => zset l i (f (zget l i)) |>.
Definition on_tlm (f : CFE_EVS_HousekeepingTlm_Payload_t -> CFE_EVS_HousekeepingTlm_Payload_t) (w : EvsWorld) : EvsWorld :=
  w <| Tlm ::= f |>.

(** ** Application data (cfe_evs_utils.h, cfe_evs_utils.c) *)

Definition EVS_AppDataIsUsed (a : EVS_AppData_t) : bool := CFE_ResourceId_IsDefined (AppID a).
Definition EVS_AppDataIsMatch (a : EVS_AppData_t) (id : Z) : bool := CFE_ResourceId_Equal (AppID a) id.
Definition EVS_AppDataSetUsed (a : EVS_AppData_t) (id : Z) : EVS_AppData_t := a <| AppID := id |>.
Definition EVS_AppDataSetFree (a : EVS_AppData_t) : EVS_AppData_t := a <| AppID := 0 |>.

Definition CFE_ES_AppID_ToIndex (id : Z) : Z * option Z :=
  CFE_ResourceId_ToIndex id CFE_ES_APPID_BASE CFE_PLATFORM_ES_MAX_APPLICATIONS true.

Definition EVS_GetAppDataByID (id : Z) : option Z :=
  match CFE_ES_AppID_ToIndex id with
  | (Status, Some AppIndex) => if (Status =? CFE_SUCCESS) && (AppIndex <? CFE_PLATFORM_ES_MAX_APPLICATIONS)
                               then Some AppIndex else None
  | (_, None) => None
  end.

(** [Caller] is what [CFE_ES_GetAppID] gives. *)
Definition EVS_GetCurrentContext (Caller : Z * Z) : Z * option Z :=
  let AppDataPtr := if fst Caller =? CFE_SUCCESS then EVS_GetAppDataByID (snd Caller) else None in
  (match AppDataPtr with None => CFE_EVS_APP_ILLEGAL_APP_ID | Some _ => fst Caller end, AppDataPtr).

(** [Found] is what [CFE_ES_GetAppIDByName] gives. *)
Definition EVS_GetApplicationInfo (Found : Z * Z) (w : EvsWorld) : Z * option Z :=
  if negb (fst Found =? CFE_SUCCESS) then (fst Found, None)
  else match EVS_GetAppDataByID (snd Found) with
       | None => (CFE_EVS_APP_ILLEGAL_APP_ID, None)
       | Some i => if negb (EVS_AppDataIsMatch (zget (Apps w) i) (snd Found)) then (CFE_EVS_APP_NOT_REGISTERED, None)
                   else (fst Found, Some i)
       end.

(** The loop of [EVS_FindEventID] from entry [i] on. *)
Fixpoint find_event (EventID : Z) (i : Z) (FilterArray : list EVS_BinFilter_t) : option Z :=
  match FilterArray with
  | [] => None
  | f :: l => if bf_EventID f =? EventID then Some i else find_event EventID (i + 1) l
  end.
Definition EVS_FindEventID (EventID : Z) (FilterArray : list EVS_BinFilter_t) : option Z := find_event EventID 0 FilterArray.

Definition EventTypeBits : Z :=
  Z.lor (Z.lor (Z.lor CFE_EVS_DEBUG_BIT CFE_EVS_INFORMATION_BIT) CFE_EVS_ERROR_BIT) CFE_EVS_CRITICAL_BIT.
Definition EVS_EnableTypes (BitMask : Z) (a : EVS_AppData_t) : EVS_AppData_t :=
  a <| EventTypesActiveFlag ::= fun x => Z.lor x (Z.land BitMask EventTypeBits) |>.
Definition EVS_DisableTypes (BitMask : Z) (a : EVS_AppData_t) : EVS_AppData_t :=
  a <| EventTypesActiveFlag ::= fun x => u8 (Z.land x (Z.lnot (Z.land BitMask EventTypeBits))) |>.

(** ** The log (cfe_evs_log.c) *)

Definition EVS_AddLog (e : CFE_EVS_LongEventTlm_t) (l : CFE_EVS_Log_t) : CFE_EVS_Log_t :=
  if (LogFullFlag l =? 1) && (LogMode l =? CFE_EVS_LogMode_DISCARD)
  then l <| LogOverflowCounter ::= fun c => u16 (c + 1) |>
  else
    let l := if LogFullFlag l =? 1 then l <| LogOverflowCounter ::= fun c => u16 (c + 1) |> else l in
    let l := l <| LogEntry ::= fun es => zset es (Next l) e |> in
    let l := l <| Next ::= fun n => u16 (n + 1) |> in
    let l := if Next l >=? CFE_PLATFORM_EVS_LOG_MAX then l <| Next := 0 |> else l in
    if LogCount l <? CFE_PLATFORM_EVS_LOG_MAX then
      let l := l <| LogCount ::= fun n => u16 (n + 1) |> in
      if LogCount l =? CFE_PLATFORM_EVS_LOG_MAX then l <| LogFullFlag := 1 |> else l
    else l.

Definition EVS_ClearLog (l : CFE_EVS_Log_t) : CFE_EVS_Log_t :=
  EvsLog 0 0 0 (LogMode l) 0 (replicate (Z.to_nat CFE_PLATFORM_EVS_LOG_MAX) inhabitant).

(** ** Sending events *)

(** The text that fits into the packet, and whether it was cut. *)
Definition fit_text (s : list Z) : list Z * bool :=
  if zlen s >=? CFE_MISSION_EVS_MAX_MESSAGE_LENGTH
  then (take (Z.to_nat (CFE_MISSION_EVS_MAX_MESSAGE_LENGTH - 2)) s ++ [CFE_EVS_MSG_TRUNCATED], true)
  else (s, false).

(** [bit] and [n] of the four blocks of [EVS_SendViaPorts]. *)
Definition via_port (e : CFE_EVS_LongEventTlm_t) (w : EvsWorld) (n : Z) : EvsWorld :=
  if Z.shiftr (Z.land (OutputPort (Tlm w)) (Z.shiftl 1 (n - 1))) (n - 1) =? 1 then send (OutPort n e) w else w.
Definition EVS_SendViaPorts (e : CFE_EVS_LongEventTlm_t) (w : EvsWorld) : EvsWorld := fold_left (via_port e) [1; 2; 3; 4] w.

Definition EVS_GenerateEventTelemetry (i EventID EventType : Z) (Time : CFE_TIME_SysTime_t) (s : list Z) (w : EvsWorld) : EvsWorld :=
  let '(Message, cut) := fit_text s in
  let w := if cut then on_tlm (fun t => t <| MessageTruncCounter ::= fun c => u8 (c + 1) |>) w else w in
  let p := PacketID (AppID (zget (Apps w) i)) EventID EventType Time in
  let e := LongEvent p Message in
  let w := w <| Log ::= EVS_AddLog e |> in
  let w := EVS_SendViaPorts e w in
  let w := if MessageFormatMode (Tlm w) =? CFE_EVS_MsgFormat_LONG then send (OutLong e) w
           else if MessageFormatMode (Tlm w) =? CFE_EVS_MsgFormat_SHORT then send (OutShort p) w else w in
  let w := if MessageSendCounter (Tlm w) <? CFE_EVS_MAX_EVENT_SEND_COUNT
           then on_tlm (fun t => t <| MessageSendCounter ::= fun c => u16 (c + 1) |>) w else w in
  if EventCount (zget (Apps w) i) <? CFE_EVS_MAX_EVENT_SEND_COUNT
  then on_app i (fun a => a <| EventCount ::= fun c => u16 (c + 1) |>) w else w.

(** The [switch] over the type of the event. *)
Definition type_filtered (a : EVS_AppData_t) (EventType : Z) : bool :=
  if negb (ActiveFlag a) then true
  else if EventType =? CFE_EVS_EventType_DEBUG then Z.land (EventTypesActiveFlag a) CFE_EVS_DEBUG_BIT =? 0
  else if EventType =? CFE_EVS_EventType_INFORMATION then Z.land (EventTypesActiveFlag a) CFE_EVS_INFORMATION_BIT =? 0
  else if EventType =? CFE_EVS_EventType_ERROR then Z.land (EventTypesActiveFlag a) CFE_EVS_ERROR_BIT =? 0
  else if EventType =? CFE_EVS_EventType_CRITICAL then Z.land (EventTypesActiveFlag a) CFE_EVS_CRITICAL_BIT =? 0
  else true.

Definition on_filter (i k : Z) (f : EVS_BinFilter_t -> EVS_BinFilter_t) : EvsWorld -> EvsWorld :=
  on_app i (fun a => a <| BinFilters ::= fun l => zset l k (f (zget l k)) |>).

Definition CFE_EVS_FILTER_MAX_EID : Z := 42.
Definition CFE_EVS_ERR_UNREGISTERED_EVS_APP : Z := 41.

Section Evs.
(** The expanded texts of the service's own events. *)
Variable text : Z -> list Z.

(** The body of [EVS_IsFiltered]; [nested] is the call of [EVS_IsFiltered] in
    the [EVS_SendEvent] about a filter that is locked. *)
Definition filter_body (nested : Z -> Z -> Z -> EvsWorld -> option (bool * EvsWorld)) (i EventID EventType : Z) (w : EvsWorld)
    : option (bool * EvsWorld) :=
  let a := zget (Apps w) i in
  if type_filtered a EventType then Some (true, w)
  else match EVS_FindEventID EventID (BinFilters a) with
       | None => Some (false, w)
       | Some k =>
           let f := zget (BinFilters a) k in
           let Filtered := negb (Z.land (bf_Mask f) (bf_Count f) =? 0) in
           if bf_Count f <? CFE_EVS_MAX_FILTER_COUNT then
             let w := on_filter i k (fun f => f <| bf_Count ::= fun c => u16 (c + 1) |>) w in
             if u16 (bf_Count f + 1) =? CFE_EVS_MAX_FILTER_COUNT then
               match EVS_GetAppDataByID (EVS_AppID w) with
               | Some me =>
                   if EVS_AppDataIsMatch (zget (Apps w) me) (EVS_AppID w) then
                     '(b, w) ← nested me CFE_EVS_FILTER_MAX_EID CFE_EVS_EventType_INFORMATION w;
                     Some (Filtered, if b : bool then w
                                     else EVS_GenerateEventTelemetry me CFE_EVS_FILTER_MAX_EID
                                            CFE_EVS_EventType_INFORMATION (stamp w) (text CFE_EVS_FILTER_MAX_EID) w)
                   else Some (Filtered, w)
               | None => Some (Filtered, w)
               end
             else Some (Filtered, w)
           else Some (Filtered, w)
       end.

(** [None] when the fuel ends. *)
Fixpoint IsFiltered (fuel : nat) : Z -> Z -> Z -> EvsWorld -> option (bool * EvsWorld) :=
  match fuel with
  | O => fun _ _ _ _ => None
  | S fuel => filter_body (IsFiltered fuel)
  end.

(** Two nested events are the most there can be: see [IsFiltered_some]. *)
Definition EVS_IsFiltered (i EventID EventType : Z) (w : EvsWorld) : bool * EvsWorld :=
  default (true, w) (IsFiltered 3 i EventID EventType w).

(** An event that passes the filters. *)
Definition filtered_send (i EventID EventType : Z) (Time : CFE_TIME_SysTime_t) (s : list Z) (w : EvsWorld) : EvsWorld :=
  let '(b, w) := EVS_IsFiltered i EventID EventType w in
  if b then w else EVS_GenerateEventTelemetry i EventID EventType Time s w.

Definition EVS_SendEvent (EventID EventType : Z) (w : EvsWorld) : EvsWorld :=
  match EVS_GetAppDataByID (EVS_AppID w) with
  | Some i => if EVS_AppDataIsMatch (zget (Apps w) i) (EVS_AppID w)
              then filtered_send i EventID EventType (stamp w) (text EventID) w else w
  | None => w
  end.

Definition EVS_NotRegistered (i CallerID : Z) (w : EvsWorld) : Z * EvsWorld :=
  (CFE_EVS_APP_NOT_REGISTERED,
   if negb (CFE_ResourceId_Equal (UnregAppID (zget (Apps w) i)) CallerID) then
     let w := on_tlm (fun t => t <| UnregisteredAppCounter ::= fun c => u8 (c + 1) |>) w in
     let w := on_app i (fun a => a <| UnregAppID := CallerID |>) w in
     EVS_SendEvent CFE_EVS_ERR_UNREGISTERED_EVS_APP CFE_EVS_EventType_ERROR w
   else w).

(** ** Application interface (cfe_evs.c) *)

(** [Filters] is [None] for NULL. *)
Definition CFE_EVS_Register (Caller : Z * Z) (Filters : option (list (Z * Z))) (NumEventFilters FilterScheme : Z) (w : EvsWorld)
    : Z * EvsWorld :=
  match EVS_GetCurrentContext Caller with
  | (Status, Some i) =>
      let w := on_app i (fun _ => zero_app) w in
      if negb (FilterScheme =? CFE_EVS_EventFilter_BINARY) then (CFE_EVS_UNKNOWN_FILTER, w)
      else if negb (NumEventFilters =? 0) && bool_decide (Filters = None) then (CFE_ES_BAD_ARGUMENT, w)
      else
        let FilterLimit := if NumEventFilters <? CFE_PLATFORM_EVS_MAX_EVENT_FILTERS then NumEventFilters
                           else CFE_PLATFORM_EVS_MAX_EVENT_FILTERS in
        let given := match Filters with
                     | Some l => map (fun '(e, m) => BinFilter e m 0) (take (Z.to_nat FilterLimit) l)
                     | None => take (Z.to_nat FilterLimit) (BinFilters zero_app)
                     end in
        let rest := replicate (Z.to_nat (CFE_PLATFORM_EVS_MAX_EVENT_FILTERS - FilterLimit)) free_filter in
        (Status, on_app i (fun a => EVS_AppDataSetUsed (a <| ActiveFlag := true |>
           <| EventTypesActiveFlag := CFE_PLATFORM_EVS_DEFAULT_TYPE_FLAG |> <| BinFilters := given ++ rest |>) (snd Caller)) w)
  | (Status, None) => (Status, w)
  end.

(** The part the three calls share: [i] is the application data. *)
Definition send_as (i id EventID EventType Status : Z) (Time : CFE_TIME_SysTime_t) (s : list Z) (w : EvsWorld) : Z * EvsWorld :=
  if negb (EVS_AppDataIsMatch (zget (Apps w) i) id) then EVS_NotRegistered i id w
  else (Status, filtered_send i EventID EventType Time s w).

(** [Spec] is the expanded text, [None] for NULL. *)
Definition CFE_EVS_SendEvent (Caller : Z * Z) (EventID EventType : Z) (Spec : option (list Z)) (w : EvsWorld) : Z * EvsWorld :=
  match Spec with
  | None => (CFE_EVS_INVALID_PARAMETER, w)
  | Some s => match EVS_GetCurrentContext Caller with
              | (Status, Some i) => send_as i (snd Caller) EventID EventType Status (stamp w) s w
              | (Status, None) => (Status, w)
              end
  end.

Definition CFE_EVS_SendEventWithAppID (EventID EventType id : Z) (Spec : option (list Z)) (w : EvsWorld) : Z * EvsWorld :=
  match Spec with
  | None => (CFE_EVS_INVALID_PARAMETER, w)
  | Some s => match EVS_GetAppDataByID id with
              | Some i => send_as i id EventID EventType CFE_SUCCESS (stamp w) s w
              | None => (CFE_EVS_APP_ILLEGAL_APP_ID, w)
              end
  end.

Definition CFE_EVS_SendTimedEvent (Caller : Z * Z) (Time : CFE_TIME_SysTime_t) (EventID EventType : Z) (Spec : option (list Z))
    (w : EvsWorld) : Z * EvsWorld :=
  match Spec with
  | None => (CFE_EVS_INVALID_PARAMETER, w)
  | Some s => match EVS_GetCurrentContext Caller with
              | (Status, Some i) => send_as i (snd Caller) EventID EventType Status Time s w
              | (Status, None) => (Status, w)
              end
  end.

Definition CFE_EVS_ResetFilter (Caller : Z * Z) (EventID : Z) (w : EvsWorld) : Z * EvsWorld :=
  match EVS_GetCurrentContext Caller with
  | (Status, Some i) =>
      if negb (EVS_AppDataIsMatch (zget (Apps w) i) (snd Caller)) then (CFE_EVS_APP_NOT_REGISTERED, w)
      else match EVS_FindEventID EventID (BinFilters (zget (Apps w) i)) with
           | Some k => (Status, on_filter i k (fun f => f <| bf_Count := 0 |>) w)
           | None => (CFE_EVS_EVT_NOT_REGISTERED, w)
           end
  | (Status, None) => (Status, w)
  end.

Definition reset_filters (a : EVS_AppData_t) : EVS_AppData_t := a <| BinFilters ::= map (fun f => f <| bf_Count := 0 |>) |>.

Definition CFE_EVS_ResetAllFilters (Caller : Z * Z) (w : EvsWorld) : Z * EvsWorld :=
  match EVS_GetCurrentContext Caller with
  | (Status, Some i) =>
      if negb (EVS_AppDataIsMatch (zget (Apps w) i) (snd Caller)) then (CFE_EVS_APP_NOT_REGISTERED, w)
      else (Status, on_app i reset_filters w)
  | (Status, None) => (Status, w)
  end.

Definition CFE_EVS_CleanUpApp (id : Z) (w : EvsWorld) : Z * EvsWorld :=
  match EVS_GetAppDataByID id with
  | None => (CFE_EVS_APP_ILLEGAL_APP_ID, w)
  | Some i => (CFE_SUCCESS, if EVS_AppDataIsMatch (zget (Apps w) i) id then on_app i EVS_AppDataSetFree w else w)
  end.
End Evs.
