(* ===== verification/EvsTask.v ===== *)
(** Event services: initialization, ground commands and housekeeping
    (cfe_evs_task.c, cfe_evs_log.c, cfe_evs_dispatch.c). *)

From S2P Require Import Prelude Records ResourceId TimeMath EvsModel.

Section EvsTask.
Variable text : Z -> list Z.
Abbreviation event := (EVS_SendEvent text).
Abbreviation DEBUG := CFE_EVS_EventType_DEBUG.
Abbreviation INFO := CFE_EVS_EventType_INFORMATION.
Abbreviation ERROR := CFE_EVS_EventType_ERROR.

(** ** Initialization *)

Definition zero_tlm : CFE_EVS_HousekeepingTlm_Payload_t :=
  HkTlm 0 0 0 0 0 0 0 0 0 0 false (replicate (Z.to_nat CFE_MISSION_ES_MAX_APPLICATIONS) inhabitant).

(** [l] is the log in the reset area, which the board has; [PowerOn] is a
    power-on reset.  Without a reset area the code stops the processor. *)
Definition CFE_EVS_EarlyInit (PowerOn : bool) (l : CFE_EVS_Log_t) (t : CFE_TIME_SysTime_t) : EvsWorld :=
  let tlm := zero_tlm <| MessageFormatMode := CFE_PLATFORM_EVS_DEFAULT_MSG_FORMAT_MODE |>
               <| OutputPort := CFE_PLATFORM_EVS_PORT_DEFAULT |> <| hk_LogMode := CFE_PLATFORM_EVS_DEFAULT_LOG_MODE |>
               <| LogEnabled := true |> in
  let l :=
    if PowerOn then (EVS_ClearLog l) <| LogMode := CFE_PLATFORM_EVS_DEFAULT_LOG_MODE |>
    else if (negb (LogMode l =? CFE_EVS_LogMode_OVERWRITE) && negb (LogMode l =? CFE_EVS_LogMode_DISCARD)) ||
            (negb (LogFullFlag l =? 0) && negb (LogFullFlag l =? 1)) || (Next l >=? CFE_PLATFORM_EVS_LOG_MAX)
    then (EVS_ClearLog l) <| LogMode := CFE_PLATFORM_EVS_DEFAULT_LOG_MODE |>
    else l in
  evs_world (replicate (Z.to_nat CFE_PLATFORM_ES_MAX_APPLICATIONS) zero_app) l tlm 0 t [].

(** [Pipe] is the status of creating the command pipe and subscribing. *)
Definition CFE_EVS_TaskInit (Caller : Z * Z) (Pipe : Z) (w : EvsWorld) : Z * EvsWorld :=
  if negb (fst Caller =? CFE_SUCCESS) then (fst Caller, w)
  else
    let '(Status, w) := CFE_EVS_Register Caller None 0 CFE_EVS_EventFilter_BINARY w in
    if negb (Status =? CFE_SUCCESS) then (Status, w)
    else if negb (Pipe =? CFE_SUCCESS) then (Pipe, w)
    else (CFE_SUCCESS, event 1 INFO (w <| EVS_AppID := snd Caller |>)).

(** ** Housekeeping *)

(** The loop over the applications: [j] entries of the packet are filled. *)
Fixpoint fill_apps (apps : list EVS_AppData_t) (j : nat) (tlm : list CFE_EVS_AppTlmData_t) : nat * list CFE_EVS_AppTlmData_t :=
  match apps with
  | [] => (j, tlm)
  | a :: apps =>
      if (Z.of_nat j <? CFE_MISSION_ES_MAX_APPLICATIONS) then
        if EVS_AppDataIsUsed a
        then fill_apps apps (S j) (<[j := AppTlmData (AppID a) (ActiveFlag a) (EventCount a)]> tlm)
        else fill_apps apps j tlm
      else (j, tlm)
  end.

(** The loop that clears the rest stores every time through the same pointer. *)
Fixpoint clear_rest (n j : nat) (tlm : list CFE_EVS_AppTlmData_t) : list CFE_EVS_AppTlmData_t :=
  match n with O => tlm | S n => clear_rest n j (<[j := AppTlmData 0 false 0]> tlm) end.

Definition CFE_EVS_ReportHousekeepingCmd (w : EvsWorld) : Z * EvsWorld :=
  let w := on_tlm (fun t => t <| hk_LogFullFlag := LogFullFlag (Log w) |> <| hk_LogMode := LogMode (Log w) |>
                              <| hk_LogOverflowCounter := LogOverflowCounter (Log w) |>) w in
  let '(j, tlm) := fill_apps (Apps w) 0 (hk_AppData (Tlm w)) in
  let tlm := clear_rest (Z.to_nat CFE_MISSION_ES_MAX_APPLICATIONS - j) j tlm in
  let w := on_tlm (fun t => t <| hk_AppData := tlm |>) w in
  (CFE_STATUS_NO_COUNTER_INCREMENT, send (OutHk (Tlm w)) w).

(** ** Commands without an application *)

Definition CFE_EVS_NoopCmd (w : EvsWorld) : Z * EvsWorld := (CFE_SUCCESS, event 0 INFO w).
Definition CFE_EVS_ClearLogCmd (w : EvsWorld) : Z * EvsWorld := (CFE_SUCCESS, w <| Log ::= EVS_ClearLog |>).

Definition CFE_EVS_ResetCountersCmd (w : EvsWorld) : Z * EvsWorld :=
  (CFE_STATUS_NO_COUNTER_INCREMENT,
   event 16 DEBUG (on_tlm (fun t => t <| CommandCounter := 0 |> <| CommandErrorCounter := 0 |> <| MessageSendCounter := 0 |>
                                      <| MessageTruncCounter := 0 |> <| UnregisteredAppCounter := 0 |>) w)).

(** The check of a mask that the commands share. *)
Definition mask_command (BitMask EventID : Z) (f : EvsWorld -> EvsWorld) (w : EvsWorld) : Z * EvsWorld :=
  if (BitMask =? 0) || (BitMask >? 0xF) then (CFE_EVS_INVALID_PARAMETER, event 40 ERROR w)
  else (CFE_SUCCESS, event EventID DEBUG (f w)).

(** One of the four blocks of the port commands. *)
Definition port_set (BitMask : Z) (on : bool) (p n : Z) : Z :=
  let bit := Z.shiftl 1 (n - 1) in
  if Z.shiftr (Z.land BitMask bit) (n - 1) =? 1 then if on then Z.lor p bit else u8 (Z.land p (Z.lnot bit)) else p.
Definition set_ports (BitMask : Z) (on : bool) (p : Z) : Z := fold_left (port_set BitMask on) [1; 2; 3; 4] p.

Definition CFE_EVS_EnablePortsCmd (BitMask : Z) : EvsWorld -> Z * EvsWorld :=
  mask_command BitMask 18 (on_tlm (fun t => t <| OutputPort ::= set_ports BitMask true |>)).
Definition CFE_EVS_DisablePortsCmd (BitMask : Z) : EvsWorld -> Z * EvsWorld :=
  mask_command BitMask 19 (on_tlm (fun t => t <| OutputPort ::= set_ports BitMask false |>)).

Definition used_apps (f : EVS_AppData_t -> EVS_AppData_t) (w : EvsWorld) : EvsWorld :=
  w <| Apps ::= map (fun a => if EVS_AppDataIsUsed a then f a else a) |>.
Definition CFE_EVS_EnableEventTypeCmd (BitMask : Z) : EvsWorld -> Z * EvsWorld :=
  mask_command BitMask 20 (used_apps (EVS_EnableTypes BitMask)).
Definition CFE_EVS_DisableEventTypeCmd (BitMask : Z) : EvsWorld -> Z * EvsWorld :=
  mask_command BitMask 21 (used_apps (EVS_DisableTypes BitMask)).

Definition CFE_EVS_SetEventFormatModeCmd (MsgFormat : Z) (w : EvsWorld) : Z * EvsWorld :=
  if (MsgFormat =? CFE_EVS_MsgFormat_SHORT) || (MsgFormat =? CFE_EVS_MsgFormat_LONG)
  then (CFE_SUCCESS, event 22 DEBUG (on_tlm (fun t => t <| MessageFormatMode := MsgFormat |>) w))
  else (CFE_EVS_INVALID_PARAMETER, event 10 ERROR w).

Definition CFE_EVS_SetLogModeCmd (Mode : Z) (w : EvsWorld) : Z * EvsWorld :=
  if (Mode =? CFE_EVS_LogMode_OVERWRITE) || (Mode =? CFE_EVS_LogMode_DISCARD)
  then (CFE_SUCCESS, event 38 DEBUG (w <| Log ::= fun l => l <| LogMode := Mode |> |>))
  else (CFE_EVS_INVALID_PARAMETER, event 39 ERROR w).

(** ** Commands for an application *)

(** The lookup of the application and the events of its failure; [Found] is
    what the executive gives for the name. *)
Definition app_command (Found : Z * Z) (f : Z -> EvsWorld -> Z * EvsWorld) (w : EvsWorld) : Z * EvsWorld :=
  match EVS_GetApplicationInfo Found w with
  | (_, Some i) => f i w
  | (Status, None) =>
      (Status, event (if Status =? CFE_EVS_APP_NOT_REGISTERED then 7
                      else if Status =? CFE_EVS_APP_ILLEGAL_APP_ID then 8 else 9) ERROR w)
  end.

Definition CFE_EVS_EnableAppEventTypeCmd (Found : Z * Z) (BitMask : Z) : EvsWorld -> Z * EvsWorld :=
  app_command Found (fun i => mask_command BitMask 23 (on_app i (EVS_EnableTypes BitMask))).
Definition CFE_EVS_DisableAppEventTypeCmd (Found : Z * Z) (BitMask : Z) : EvsWorld -> Z * EvsWorld :=
  app_command Found (fun i => mask_command BitMask 24 (on_app i (EVS_DisableTypes BitMask))).
Definition CFE_EVS_EnableAppEventsCmd (Found : Z * Z) : EvsWorld -> Z * EvsWorld :=
  app_command Found (fun i w => (CFE_SUCCESS, event 25 DEBUG (on_app i (fun a => a <| ActiveFlag := true |>) w))).
Definition CFE_EVS_DisableAppEventsCmd (Found : Z * Z) : EvsWorld -> Z * EvsWorld :=
  app_command Found (fun i w => (CFE_SUCCESS, event 26 DEBUG (on_app i (fun a => a <| ActiveFlag := false |>) w))).
Definition CFE_EVS_ResetAppCounterCmd (Found : Z * Z) : EvsWorld -> Z * EvsWorld :=
  app_command Found (fun i w => (CFE_SUCCESS, event 27 DEBUG (on_app i (fun a => a <| EventCount := 0 |>) w))).
Definition CFE_EVS_ResetAllFiltersCmd (Found : Z * Z) : EvsWorld -> Z * EvsWorld :=
  app_command Found (fun i w => (CFE_SUCCESS, event 29 DEBUG (on_app i reset_filters w))).

(** A command for the filter of an event of the application. *)
Definition filter_command (Found : Z * Z) (EventID ok : Z) (f : EVS_BinFilter_t -> EVS_BinFilter_t) : EvsWorld -> Z * EvsWorld :=
  app_command Found (fun i w =>
    match EVS_FindEventID EventID (BinFilters (zget (Apps w) i)) with
    | Some k => (CFE_SUCCESS, event ok DEBUG (on_filter i k f w))
    | None => (CFE_EVS_EVT_NOT_REGISTERED, event 6 ERROR w)
    end).

Definition CFE_EVS_SetFilterCmd (Found : Z * Z) (EventID Mask : Z) : EvsWorld -> Z * EvsWorld :=
  filter_command Found EventID 17 (fun f => f <| bf_Mask := Mask |>).
Definition CFE_EVS_ResetFilterCmd (Found : Z * Z) (EventID : Z) : EvsWorld -> Z * EvsWorld :=
  filter_command Found EventID 28 (fun f => f <| bf_Count := 0 |>).
Definition CFE_EVS_DeleteEventFilterCmd (Found : Z * Z) (EventID : Z) : EvsWorld -> Z * EvsWorld :=
  filter_command Found EventID 31 (fun _ => BinFilter CFE_EVS_FREE_SLOT CFE_EVS_NO_MASK 0).

Definition CFE_EVS_AddEventFilterCmd (Found : Z * Z) (EventID Mask : Z) : EvsWorld -> Z * EvsWorld :=
  app_command Found (fun i w =>
    match EVS_FindEventID EventID (BinFilters (zget (Apps w) i)) with
    | Some _ => (CFE_EVS_EVT_NOT_REGISTERED, event 37 ERROR w)
    | None => match EVS_FindEventID CFE_EVS_FREE_SLOT (BinFilters (zget (Apps w) i)) with
              | Some k => (CFE_SUCCESS, event 30 DEBUG (on_filter i k (fun _ => BinFilter EventID Mask 0) w))
              | None => (CFE_EVS_APP_FILTER_OVERLOAD, event 11 ERROR w)
              end
    end).

(** ** Files *)

(** The writes of the log: the entries written, and whether all were; [ok] is
    what each write gives. *)
Fixpoint write_log (n : nat) (LogIndex : Z) (ok : list bool) (es acc : list CFE_EVS_LongEventTlm_t)
    : list CFE_EVS_LongEventTlm_t * bool :=
  match n with
  | O => (acc, true)
  | S n => match ok with
           | true :: ok => write_log n (if LogIndex + 1 >=? CFE_PLATFORM_EVS_LOG_MAX then 0 else LogIndex + 1) ok es
                             (acc ++ [zget es LogIndex])
           | _ => (acc, false)
           end
  end.

(** [Parse], [Open] and [Header] are the results of building the name, creating
    the file and writing its header. *)
Definition CFE_EVS_WriteLogDataFileCmd (Parse Open : Z) (Header : bool) (ok : list bool) (w : EvsWorld) : Z * EvsWorld :=
  if negb (Parse =? CFE_SUCCESS) then (Parse, event 3 ERROR w)
  else if negb (Open =? 0) then (CFE_STATUS_EXTERNAL_RESOURCE_FAIL, event 3 ERROR w)
  else if negb Header then (CFE_EVS_FILE_WRITE_ERROR, send (OutLogFile []) w)
  else
    let l := Log w in
    let LogIndex := if LogCount l =? CFE_PLATFORM_EVS_LOG_MAX then Next l else 0 in
    let '(es, all) := write_log (Z.to_nat (LogCount l)) LogIndex ok (LogEntry l) [] in
    let w := send (OutLogFile es) w in
    if all then (CFE_SUCCESS, event 33 DEBUG w) else (CFE_EVS_FILE_WRITE_ERROR, event 2 ERROR w).

Fixpoint write_apps (apps : list EVS_AppData_t) (ok : list bool) (acc : list EVS_AppData_t) : list EVS_AppData_t * bool :=
  match apps with
  | [] => (acc, true)
  | a :: apps =>
      if EVS_AppDataIsUsed a then
        match ok with true :: ok => write_apps apps ok (acc ++ [a]) | _ => (acc, false) end
      else write_apps apps ok acc
  end.

Definition CFE_EVS_WriteAppDataFileCmd (Parse Open : Z) (Header : bool) (ok : list bool) (w : EvsWorld) : Z * EvsWorld :=
  if negb (Parse =? CFE_SUCCESS) then (Parse, event 13 ERROR w)
  else if negb (Open =? 0) then (CFE_STATUS_EXTERNAL_RESOURCE_FAIL, event 13 ERROR w)
  else if negb Header then (CFE_EVS_FILE_WRITE_ERROR, send (OutAppFile []) w)
  else
    let '(l, all) := write_apps (Apps w) ok [] in
    let w := send (OutAppFile l) w in
    if all then (CFE_SUCCESS, event 32 DEBUG w) else (CFE_EVS_FILE_WRITE_ERROR, event 12 ERROR w).

(** ** Dispatch *)

(** What the generated dispatcher finds in a packet; [Refused] is a packet it
    does not accept, with its status. *)
Inductive EvsCommand :=
| Noop | ClearLog | ResetCounters | ReportHousekeeping
| EnablePorts (BitMask : Z) | DisablePorts (BitMask : Z)
| EnableEventType (BitMask : Z) | DisableEventType (BitMask : Z)
| SetEventFormatMode (MsgFormat : Z) | SetLogMode (Mode : Z)
| EnableAppEventType (Found : Z * Z) (BitMask : Z) | DisableAppEventType (Found : Z * Z) (BitMask : Z)
| EnableAppEvents (Found : Z * Z) | DisableAppEvents (Found : Z * Z)
| ResetAppCounter (Found : Z * Z) | ResetAllFilters (Found : Z * Z)
| SetFilter (Found : Z * Z) (EventID Mask : Z) | ResetFilter (Found : Z * Z) (EventID : Z)
| AddEventFilter (Found : Z * Z) (EventID Mask : Z) | DeleteEventFilter (Found : Z * Z) (EventID : Z)
| WriteLogDataFile (Parse Open : Z) (Header : bool) (ok : list bool)
| WriteAppDataFile (Parse Open : Z) (Header : bool) (ok : list bool)
| Refused (Status : Z).

Definition dispatch (c : EvsCommand) (w : EvsWorld) : Z * EvsWorld :=
  match c with
  | Noop => CFE_EVS_NoopCmd w
  | ClearLog => CFE_EVS_ClearLogCmd w
  | ResetCounters => CFE_EVS_ResetCountersCmd w
  | ReportHousekeeping => CFE_EVS_ReportHousekeepingCmd w
  | EnablePorts m => CFE_EVS_EnablePortsCmd m w
  | DisablePorts m => CFE_EVS_DisablePortsCmd m w
  | EnableEventType m => CFE_EVS_EnableEventTypeCmd m w
  | DisableEventType m => CFE_EVS_DisableEventTypeCmd m w
  | SetEventFormatMode m => CFE_EVS_SetEventFormatModeCmd m w
  | SetLogMode m => CFE_EVS_SetLogModeCmd m w
  | EnableAppEventType a m => CFE_EVS_EnableAppEventTypeCmd a m w
  | DisableAppEventType a m => CFE_EVS_DisableAppEventTypeCmd a m w
  | EnableAppEvents a => CFE_EVS_EnableAppEventsCmd a w
  | DisableAppEvents a => CFE_EVS_DisableAppEventsCmd a w
  | ResetAppCounter a => CFE_EVS_ResetAppCounterCmd a w
  | ResetAllFilters a => CFE_EVS_ResetAllFiltersCmd a w
  | SetFilter a e m => CFE_EVS_SetFilterCmd a e m w
  | ResetFilter a e => CFE_EVS_ResetFilterCmd a e w
  | AddEventFilter a e m => CFE_EVS_AddEventFilterCmd a e m w
  | DeleteEventFilter a e => CFE_EVS_DeleteEventFilterCmd a e w
  | WriteLogDataFile p o h ok => CFE_EVS_WriteLogDataFileCmd p o h ok w
  | WriteAppDataFile p o h ok => CFE_EVS_WriteAppDataFileCmd p o h ok w
  | Refused s => (s, w)
  end.

Definition CFE_EVS_ProcessCommandPacket (c : EvsCommand) (w : EvsWorld) : EvsWorld :=
  let '(Status, w) := dispatch c w in
  let w := if Status =? CFE_STATUS_BAD_COMMAND_CODE then event 15 ERROR w
           else if Status =? CFE_STATUS_WRONG_MSG_LENGTH then event 43 ERROR w
           else if Status =? CFE_STATUS_UNKNOWN_MSG_ID then event 5 ERROR w else w in
  if Status =? CFE_SUCCESS then on_tlm (fun t => t <| CommandCounter ::= fun c => u8 (c + 1) |>) w
  else if Status <? 0 then on_tlm (fun t => t <| CommandErrorCounter ::= fun c => u8 (c + 1) |>) w
  else w.
End EvsTask.
