(* ===== verification/EvsProofs.v ===== *)
(** Lemmas about event services: lookups, the nested events of a filter that
    locks, the log as a list, and the invariant of the state. *)

From S2P Require Import Prelude Records ResourceId TimeMath EvsModel EvsTask.

Create HintDb evs discriminated.

(** Reads a field of an updated record. *)
Ltac simp_evs :=
  cbn [upd eta_BinFilter eta_AppData eta_EvsLog eta_HkTlm eta_EvsWorld bf_EventID bf_Mask bf_Count AppID UnregAppID BinFilters
       ActiveFlag EventTypesActiveFlag EventCount Next LogCount LogFullFlag LogMode LogOverflowCounter LogEntry
       CommandCounter CommandErrorCounter MessageFormatMode MessageTruncCounter UnregisteredAppCounter OutputPort
       hk_LogFullFlag hk_LogMode MessageSendCounter hk_LogOverflowCounter LogEnabled hk_AppData
       Apps Log Tlm EVS_AppID stamp out send on_tlm on_app on_filter].

(** The outermost comparison with [<?]. *)
Ltac case_lt := match goal with |- context [if ?a <? ?b then _ else _] => destruct (Z.ltb_spec a b) end.

(** ** Lookups *)

Lemma GetAppDataByID_range id i : EVS_GetAppDataByID id = Some i -> 0 <= i < CFE_PLATFORM_ES_MAX_APPLICATIONS.
Proof.
  unfold EVS_GetAppDataByID, CFE_ES_AppID_ToIndex, CFE_ResourceId_ToIndex. cbn [negb].
  case_test; [done|]. cbn [orb] in *. intros H. case_match; [|done]. injection H as <-.
  apply Z.mod_pos_bound. done.
Qed.

Lemma find_event_spec e j l k :
  find_event e j l = Some k ->
  exists n f, k = j + Z.of_nat n /\ l !! n = Some f /\ bf_EventID f = e /\ (forall m g, (m < n)%nat -> l !! m = Some g -> bf_EventID g <> e).
Proof.
  revert j. induction l as [|f l IH]; intros j; [done|]. cbn [find_event]. case_test.
  - intros [= <-]. exists O, f. split_and!; [lia|done|done|]. intros; lia.
  - intros H. destruct (IH _ H) as (q & g & -> & Hg & He & Hmin). exists (S q), g. split_and!; [lia|done|done|].
    intros [|m] g' Hm Hg'; [cbn in Hg'; congruence|]. apply (Hmin m); [lia|done].
Qed.

Lemma find_event_none e j l : find_event e j l = None <-> Forall (fun f => bf_EventID f <> e) l.
Proof.
  revert j. induction l as [|f l IH]; intros j; cbn [find_event]; [done|]. rewrite List.Forall_cons_iff, <- (IH (j + 1)).
  case_test; intuition congruence.
Qed.

Lemma FindEventID_range e l k : EVS_FindEventID e l = Some k -> 0 <= k < zlen l.
Proof.
  intros H. destruct (find_event_spec _ _ _ _ H) as (n & f & -> & Hf & _). apply lookup_lt_Some in Hf. unfold zlen. lia.
Qed.

(** The position of an event does not depend on masks and counts. *)
Lemma find_event_set e j l k (f : EVS_BinFilter_t -> EVS_BinFilter_t) :
  (forall g, bf_EventID (f g) = bf_EventID g) -> find_event e j (alter f k l) = find_event e j l.
Proof.
  intros Hf. revert j k. induction l as [|g l IH]; intros j [|k]; [done..| |].
  - cbn. by rewrite Hf.
  - change (alter f (S k) (g :: l)) with (g :: alter f k l). cbn [find_event]. by rewrite IH.
Qed.

Lemma zset_alter {A} `{Inhabited A} (l : list A) i (f : A -> A) :
  0 <= i < zlen l -> zset l i (f (zget l i)) = alter f (Z.to_nat i) l.
Proof.
  unfold zset, zget, zlen. intros. rewrite list_insert_alter. apply list_alter_ext; [|done]. intros x Hx.
  by rewrite (list_lookup_total_correct _ _ _ Hx).
Qed.

(** ** Nested events *)

Section Filter.
Variable text : Z -> list Z.

(** The counter of a filter after an increment. *)
Lemma on_filter_app i k f w :
  0 <= i < zlen (Apps w) ->
  zget (Apps (on_filter i k f w)) i = (zget (Apps w) i) <| BinFilters ::= fun l => zset l k (f (zget l k)) |> /\
  EVS_AppID (on_filter i k f w) = EVS_AppID w.
Proof. intros Hi. split; [|done]. unfold on_filter. simp_evs. by rewrite zget_zset_eq. Qed.

Lemma on_filter_find e i k f w :
  0 <= i < zlen (Apps w) -> 0 <= k < zlen (BinFilters (zget (Apps w) i)) -> (forall g, bf_EventID (f g) = bf_EventID g) ->
  EVS_FindEventID e (BinFilters (zget (Apps (on_filter i k f w)) i)) = EVS_FindEventID e (BinFilters (zget (Apps w) i)).
Proof.
  intros Hi Hk Hf. destruct (on_filter_app i k f w Hi) as [-> _]. simp_evs. rewrite zset_alter by done. by apply find_event_set.
Qed.

(** A locked filter asks for no event. *)
Lemma IsFiltered_locked n i e t w k :
  EVS_FindEventID e (BinFilters (zget (Apps w) i)) = Some k ->
  CFE_EVS_MAX_FILTER_COUNT <= bf_Count (zget (BinFilters (zget (Apps w) i)) k) ->
  is_Some (IsFiltered text (S n) i e t w).
Proof.
  intros Hk Hc. cbn [IsFiltered]. unfold filter_body. case_test; [done|]. rewrite Hk. case_lt; [lia|done].
Qed.

Definition me_of (w : EvsWorld) : option Z := EVS_GetAppDataByID (EVS_AppID w).

(** The nested call of [IsFiltered]. *)
Lemma IsFiltered_nested n i e t w :
  (forall k me, EVS_FindEventID e (BinFilters (zget (Apps w) i)) = Some k -> me_of w = Some me ->
     bf_Count (zget (BinFilters (zget (Apps w) i)) k) < CFE_EVS_MAX_FILTER_COUNT ->
     u16 (bf_Count (zget (BinFilters (zget (Apps w) i)) k) + 1) = CFE_EVS_MAX_FILTER_COUNT ->
     is_Some (IsFiltered text n me CFE_EVS_FILTER_MAX_EID CFE_EVS_EventType_INFORMATION
                (on_filter i k (fun f => f <| bf_Count ::= fun c => u16 (c + 1) |>) w))) ->
  is_Some (IsFiltered text (S n) i e t w).
Proof.
  intros H. cbn [IsFiltered]. unfold filter_body. case_test; [done|]. destruct (EVS_FindEventID e _) as [k|]; [|done].
  case_lt; [|done]. case_test; [|done]. set (w' := on_filter _ _ _ w) in *.
  change (EVS_AppID w') with (EVS_AppID w). unfold me_of in H. destruct (EVS_GetAppDataByID (EVS_AppID w)) as [me|]; [|done].
  case_test; [|done]. destruct (H k me) as [[b w2] E2]; [done..|]. fold w' in E2. by rewrite E2.
Qed.

(** The event about a locked filter can lock its own filter, once. *)
Lemma IsFiltered_own n me t w :
  zlen (Apps w) = CFE_PLATFORM_ES_MAX_APPLICATIONS -> me_of w = Some me ->
  is_Some (IsFiltered text (S (S n)) me CFE_EVS_FILTER_MAX_EID t w).
Proof.
  intros Hl Hme. pose proof (GetAppDataByID_range _ _ Hme) as Hr. apply IsFiltered_nested. intros k me' Hk Hme' _ Hc.
  rewrite Hme in Hme'. injection Hme' as <-. pose proof (FindEventID_range _ _ _ Hk) as Hkr.
  apply IsFiltered_locked with k; [rewrite on_filter_find by (done || lia); done|].
  destruct (on_filter_app me k (fun f => f <| bf_Count ::= fun c => u16 (c + 1) |>) w) as [-> _]; [lia|].
  simp_evs. rewrite zget_zset_eq by done. simp_evs. lia.
Qed.

Lemma IsFiltered_some n i e t w :
  zlen (Apps w) = CFE_PLATFORM_ES_MAX_APPLICATIONS -> is_Some (IsFiltered text (S (S (S n))) i e t w).
Proof.
  intros Hl. apply IsFiltered_nested. intros k me _ Hme _ _. apply IsFiltered_own; [|done].
  unfold on_filter. simp_evs. by rewrite zlen_zset.
Qed.

(** More fuel does not change the result. *)
Lemma IsFiltered_mono n i e t w r : IsFiltered text n i e t w = Some r -> IsFiltered text (S n) i e t w = Some r.
Proof.
  revert i e t w r. induction n as [|n IH]; intros i e t w r; [done|].
  change (IsFiltered text (S n)) with (filter_body text (IsFiltered text n)).
  change (IsFiltered text (S (S n))) with (filter_body text (IsFiltered text (S n))).
  unfold filter_body. case_test; [done|]. case_match; [|done]. case_lt; [|done]. case_test; [|done].
  case_match; [|done]. case_test; [|done].
  match goal with |- IsFiltered text n ?a ?b ?c ?w' ≫= _ = _ -> _ => destruct (IsFiltered text n a b c w') eqn:En; [|done] end.
  by rewrite (IH _ _ _ _ _ En).
Qed.
End Filter.

(** ** The log as a list *)

Definition log_size : nat := Z.to_nat CFE_PLATFORM_EVS_LOG_MAX.

Record log_ok (l : CFE_EVS_Log_t) : Prop := {
  lo_len : length (LogEntry l) = log_size;
  lo_next : 0 <= Next l < CFE_PLATFORM_EVS_LOG_MAX;
  lo_count : 0 <= LogCount l <= CFE_PLATFORM_EVS_LOG_MAX;
  lo_full : LogFullFlag l = if LogCount l =? CFE_PLATFORM_EVS_LOG_MAX then 1 else 0;
  lo_head : LogCount l < CFE_PLATFORM_EVS_LOG_MAX -> Next l = LogCount l;
  lo_mode : LogMode l = CFE_EVS_LogMode_OVERWRITE \/ LogMode l = CFE_EVS_LogMode_DISCARD;
  lo_over : is_u16 (LogOverflowCounter l) }.

(** The events of the log, oldest first. *)
Definition log_list (l : CFE_EVS_Log_t) : list CFE_EVS_LongEventTlm_t :=
  if LogCount l =? CFE_PLATFORM_EVS_LOG_MAX
  then drop (Z.to_nat (Next l)) (LogEntry l) ++ take (Z.to_nat (Next l)) (LogEntry l)
  else take (Z.to_nat (LogCount l)) (LogEntry l).

(** A bounded queue that keeps its newest or its oldest events. *)
Definition bounded_add (discard : bool) (e : CFE_EVS_LongEventTlm_t) (q : list CFE_EVS_LongEventTlm_t) : list CFE_EVS_LongEventTlm_t :=
  if (length q <? log_size)%nat then q ++ [e] else if discard then q else tail q ++ [e].

Lemma log_list_length l : log_ok l -> Z.of_nat (length (log_list l)) = LogCount l.
Proof.
  intros []. unfold log_list. case_test.
  - rewrite length_app, length_drop, length_take. rewrite lo_len0. unfold log_size, CFE_PLATFORM_EVS_LOG_MAX in *. lia.
  - rewrite length_take, lo_len0. unfold log_size, CFE_PLATFORM_EVS_LOG_MAX in *. lia.
Qed.

(** The fields after a new entry. *)
Lemma AddLog_stored e l :
  log_ok l -> (LogFullFlag l =? 1) && (LogMode l =? CFE_EVS_LogMode_DISCARD) = false ->
  let l' := EVS_AddLog e l in
  LogEntry l' = <[Z.to_nat (Next l) := e]> (LogEntry l) /\
  Next l' = (if Next l + 1 =? CFE_PLATFORM_EVS_LOG_MAX then 0 else Next l + 1) /\
  LogCount l' = Z.min CFE_PLATFORM_EVS_LOG_MAX (LogCount l + 1) /\ LogMode l' = LogMode l /\
  LogFullFlag l' = (if LogCount l' =? CFE_PLATFORM_EVS_LOG_MAX then 1 else 0) /\
  LogOverflowCounter l' = (if LogCount l =? CFE_PLATFORM_EVS_LOG_MAX then u16 (LogOverflowCounter l + 1) else LogOverflowCounter l).
Proof.
  intros [Hl Hn Hc Hf Hh Hm Ho] E. unfold EVS_AddLog. rewrite E. cbv zeta. unfold CFE_PLATFORM_EVS_LOG_MAX in *.
  assert (Hu : forall x, 0 <= x <= 20 -> u16 (x + 1) = x + 1) by (intros; apply u16_id; unfold is_u16; lia).
  destruct (Z.eqb_spec (LogCount l) 20) as [E20|E20].
  - rewrite Hf. change (1 =? 1) with true. cbv iota. simp_evs. rewrite Hu by lia. rewrite E20.
    change (20 <? 20) with false. cbv iota. rewrite Z.geb_leb.
    destruct (Z.leb_spec 20 (Next l + 1)), (Z.eqb_spec (Next l + 1) 20); try lia; simp_evs; rewrite ?E20, ?Hu by lia;
      change (20 <? 20) with false; cbv iota; simp_evs; rewrite ?E20, ?Hu by lia; done.
  - rewrite Hf. change (0 =? 1) with false. cbv iota. simp_evs. rewrite !Hu by lia.
    destruct (Z.ltb_spec (LogCount l) 20); [|lia]. rewrite Z.geb_leb.
    destruct (Z.leb_spec 20 (Next l + 1)), (Z.eqb_spec (Next l + 1) 20); try lia; simp_evs; rewrite ?Hu by lia.
    all: destruct (Z.ltb_spec (LogCount l) 20); [|lia]; destruct (Z.eqb_spec (LogCount l + 1) 20); simp_evs; rewrite ?Hu by lia.
    all: rewrite ?Z.min_r, ?(proj2 (Z.eqb_neq _ _)) by lia; rewrite ?(proj2 (Z.eqb_eq (LogCount l + 1) 20)) by lia; split_and!; done || lia.
Qed.

Lemma take_S_insert {A} (l : list A) n x : (n < length l)%nat -> take (S n) (<[n := x]> l) = take n l ++ [x].
Proof.
  intros H. rewrite (take_S_r _ _ x) by (by apply list_lookup_insert_eq). by rewrite take_insert_ge.
Qed.

Lemma AddLog_ok e l : log_ok l -> log_ok (EVS_AddLog e l).
Proof.
  intros H. destruct ((LogFullFlag l =? 1) && (LogMode l =? CFE_EVS_LogMode_DISCARD)) eqn:E.
  - unfold EVS_AddLog. rewrite E. destruct H. constructor; simp_evs; try done. apply u16_range.
  - destruct (AddLog_stored e l H E) as (E1 & E2 & E3 & E4 & E5 & E6). destruct H as [Hl Hn Hc Hf Hh Hm Ho].
    unfold CFE_PLATFORM_EVS_LOG_MAX in *. constructor; rewrite ?E1, ?E2, ?E3, ?E4.
    + by rewrite length_insert.
    + unfold CFE_PLATFORM_EVS_LOG_MAX. case_test; lia.
    + unfold CFE_PLATFORM_EVS_LOG_MAX. lia.
    + by rewrite E5, E3.
    + unfold CFE_PLATFORM_EVS_LOG_MAX. intros. case_test; lia.
    + done.
    + rewrite E6. case_test; [apply u16_range|done].
Qed.

(** Adding to the log is adding to the bounded queue. *)
Lemma AddLog_list e l :
  log_ok l -> log_list (EVS_AddLog e l) = bounded_add (LogMode l =? CFE_EVS_LogMode_DISCARD) e (log_list l).
Proof.
  intros H. pose proof (log_list_length l H) as Hlen. unfold bounded_add.
  destruct ((LogFullFlag l =? 1) && (LogMode l =? CFE_EVS_LogMode_DISCARD)) eqn:E.
  - apply andb_true_iff in E as [Ef Em]. unfold EVS_AddLog. rewrite Ef, Em. cbn [andb].
    assert (LogCount l = CFE_PLATFORM_EVS_LOG_MAX).
    { pose proof (lo_full l H) as Hf. destruct (Z.eqb_spec (LogCount l) CFE_PLATFORM_EVS_LOG_MAX); [done|]. lia. }
    destruct (Nat.ltb_spec (length (log_list l)) log_size) as [Hlt|]; [|done].
    unfold log_size, CFE_PLATFORM_EVS_LOG_MAX in *. lia.
  - destruct (AddLog_stored e l H E) as (E1 & E2 & E3 & E4 & E5 & E6).
    assert (Hfull : LogCount l = CFE_PLATFORM_EVS_LOG_MAX -> (LogMode l =? CFE_EVS_LogMode_DISCARD) = false).
    { intros Hc. rewrite (lo_full l H), Hc in E. exact E. }
    destruct H as [Hl Hn Hc Hf Hh Hm Ho]. unfold log_list. rewrite E1, E2, E3.
    assert (Hnl : (Z.to_nat (Next l) < length (LogEntry l))%nat) by (unfold log_size, CFE_PLATFORM_EVS_LOG_MAX in *; lia).
    pose proof (take_S_insert (LogEntry l) _ e Hnl) as Ht.
    assert (Hd : drop (S (Z.to_nat (Next l))) (<[Z.to_nat (Next l) := e]> (LogEntry l)) = drop (S (Z.to_nat (Next l))) (LogEntry l))
      by (rewrite drop_insert_lt by lia; done).
    set (n := Z.to_nat (Next l)) in *. unfold CFE_PLATFORM_EVS_LOG_MAX, log_size in *.
    destruct (Z.eqb_spec (LogCount l) 20) as [E20|E20].
    + rewrite Hfull by done. rewrite Z.min_l, Z.eqb_refl by lia.
      rewrite (proj2 (Nat.ltb_ge _ _)) by (rewrite length_app, length_drop, length_take; unfold CFE_PLATFORM_EVS_LOG_MAX in *; lia).
      rewrite (drop_S (LogEntry l) (LogEntry l !!! n) n) by (by apply list_lookup_lookup_total_lt). cbn [app tail].
      rewrite <- app_assoc, <- Ht. destruct (Z.eqb_spec (Next l + 1) 20).
      * rewrite (drop_ge (LogEntry l) (S n)) by (unfold n, CFE_PLATFORM_EVS_LOG_MAX in *; lia). cbn [app].
        rewrite (take_ge _ (S n)) by (rewrite length_insert; unfold n, CFE_PLATFORM_EVS_LOG_MAX in *; lia).
        change (Z.to_nat 0) with O. by rewrite drop_0, take_0, app_nil_r.
      * replace (Z.to_nat (Next l + 1)) with (S n) by (unfold n; lia). by rewrite Hd.
    + rewrite (proj2 (Nat.ltb_lt _ _)) by (rewrite length_take; unfold CFE_PLATFORM_EVS_LOG_MAX in *; lia).
      assert (En : Z.to_nat (LogCount l) = n) by (unfold n; rewrite Hh by lia; done). rewrite En, <- Ht, Z.min_r by lia.
      destruct (Z.eqb_spec (LogCount l + 1) 20).
      * rewrite (proj2 (Z.eqb_eq _ _)) by (rewrite Hh by lia; lia). change (Z.to_nat 0) with O.
        rewrite drop_0, take_0, app_nil_r, take_ge; [done|]. rewrite length_insert. unfold n, CFE_PLATFORM_EVS_LOG_MAX in *. lia.
      * f_equal. unfold n. rewrite Hh by lia. lia.
Qed.

(** Writing the log to a file writes this list. *)
Lemma write_log_spec m i es acc :
  length es = log_size -> 0 <= i < CFE_PLATFORM_EVS_LOG_MAX -> (m <= log_size)%nat ->
  write_log m i (replicate m true) es acc = (acc ++ take m (drop (Z.to_nat i) es ++ take (Z.to_nat i) es), true).
Proof.
  intros Hl. revert i acc. induction m as [|m IH]; intros i acc Hi Hm; cbn [write_log replicate].
  - by rewrite take_0, app_nil_r.
  - rewrite Z.geb_leb. assert (Hlt : (Z.to_nat i < length es)%nat) by (unfold log_size, CFE_PLATFORM_EVS_LOG_MAX in *; lia).
    assert (Hx : es !! Z.to_nat i = Some (zget es i)) by (unfold zget; by apply list_lookup_lookup_total_lt).
    rewrite IH.
    2: { destruct (Z.leb_spec CFE_PLATFORM_EVS_LOG_MAX (i + 1)); unfold CFE_PLATFORM_EVS_LOG_MAX in *; lia. }
    2: lia.
    f_equal. rewrite <- app_assoc. f_equal. rewrite (drop_S _ _ _ Hx). cbn [app take]. f_equal.
    destruct (Z.leb_spec CFE_PLATFORM_EVS_LOG_MAX (i + 1)).
    + change (Z.to_nat 0) with O. rewrite drop_0, take_0, app_nil_r.
      rewrite drop_ge by (unfold log_size, CFE_PLATFORM_EVS_LOG_MAX in *; lia). cbn [app].
      rewrite take_take. f_equal. unfold log_size, CFE_PLATFORM_EVS_LOG_MAX in *. lia.
    + replace (Z.to_nat (i + 1)) with (S (Z.to_nat i)) by lia. rewrite (take_S_r _ _ _ Hx).
      rewrite (app_assoc (drop _ _)). rewrite take_app_le; [done|]. rewrite length_app, length_drop, length_take.
      unfold log_size, CFE_PLATFORM_EVS_LOG_MAX in *. lia.
Qed.

Lemma write_log_list l :
  log_ok l ->
  write_log (Z.to_nat (LogCount l)) (if LogCount l =? CFE_PLATFORM_EVS_LOG_MAX then Next l else 0)
    (replicate (Z.to_nat (LogCount l)) true) (LogEntry l) [] = (log_list l, true).
Proof.
  intros [Hl Hn Hc Hf Hh Hm Ho]. rewrite write_log_spec; [|done|case_test; [done|by split]|unfold log_size, CFE_PLATFORM_EVS_LOG_MAX in *; lia].
  cbn [app]. f_equal. unfold log_list. case_test.
  - apply take_ge. rewrite length_app, length_drop, length_take. unfold log_size, CFE_PLATFORM_EVS_LOG_MAX in *. lia.
  - change (Z.to_nat 0) with O. by rewrite drop_0, take_0, app_nil_r.
Qed.
