(* ===== verification/EvsInv.v ===== *)
(** Event services: the invariant of the state, and every operation keeps it. *)

From S2P Require Import Prelude Records ResourceId TimeMath EvsModel EvsTask EvsProofs.

Definition filter_ok (f : EVS_BinFilter_t) : Prop := is_u16 (bf_EventID f) /\ is_u16 (bf_Mask f) /\ is_u16 (bf_Count f).

(** The data in slot [i] belongs to an application with that index, or to
    none. *)
Record app_ok (i : Z) (a : EVS_AppData_t) : Prop := {
  ao_filters : zlen (BinFilters a) = CFE_PLATFORM_EVS_MAX_EVENT_FILTERS /\ Forall filter_ok (BinFilters a);
  ao_types : 0 <= EventTypesActiveFlag a <= 0xF;
  ao_count : is_u16 (EventCount a);
  ao_id : AppID a = 0 \/ EVS_GetAppDataByID (AppID a) = Some i }.

Definition is_u8 (x : Z) : Prop := 0 <= x < 2 ^ 8.

Record tlm_ok (t : CFE_EVS_HousekeepingTlm_Payload_t) : Prop := {
  tk_u8 : Forall is_u8 [CommandCounter t; CommandErrorCounter t; MessageTruncCounter t; UnregisteredAppCounter t];
  tk_format : MessageFormatMode t = CFE_EVS_MsgFormat_SHORT \/ MessageFormatMode t = CFE_EVS_MsgFormat_LONG;
  tk_port : 0 <= OutputPort t <= 0xF;
  tk_sent : is_u16 (MessageSendCounter t);
  tk_apps : zlen (hk_AppData t) = CFE_MISSION_ES_MAX_APPLICATIONS }.

Record evs_ok (w : EvsWorld) : Prop := {
  ev_len : zlen (Apps w) = CFE_PLATFORM_ES_MAX_APPLICATIONS;
  ev_apps : forall i, 0 <= i < CFE_PLATFORM_ES_MAX_APPLICATIONS -> app_ok i (zget (Apps w) i);
  ev_log : log_ok (Log w);
  ev_tlm : tlm_ok (Tlm w) }.

Lemma byte_range x : is_u8 (u8 x).
Proof. apply Z.mod_pos_bound. done. Qed.
#[export] Hint Resolve byte_range u16_range : evs.

(** ** Building blocks *)

Lemma on_app_ok i f w :
  evs_ok w -> 0 <= i < CFE_PLATFORM_ES_MAX_APPLICATIONS -> (forall a, app_ok i a -> app_ok i (f a)) -> evs_ok (on_app i f w).
Proof.
  intros [Hl Ha Hlog Ht] Hi Hf. unfold on_app. constructor; simp_evs; try done.
  - by rewrite zlen_zset.
  - intros j Hj. rewrite zget_zset by lia. case_test; [subst; by apply Hf, Ha|by apply Ha].
Qed.

Lemma on_tlm_ok f w : evs_ok w -> (tlm_ok (Tlm w) -> tlm_ok (f (Tlm w))) -> evs_ok (on_tlm f w).
Proof. intros [] H. constructor; simp_evs; auto. Qed.

Lemma on_log_ok f w : evs_ok w -> (log_ok (Log w) -> log_ok (f (Log w))) -> evs_ok (w <| Log ::= f |>).
Proof. intros [] H. constructor; simp_evs; auto. Qed.

Lemma send_ok o w : evs_ok w -> evs_ok (send o w).
Proof. intros []. by constructor. Qed.

Ltac split_tlm :=
  intros []; repeat match goal with H : Forall _ (_ :: _) |- _ => apply List.Forall_cons_iff in H as [? H] end;
  constructor; simp_evs; repeat (first [apply List.Forall_cons_iff; split|apply Forall_nil]); simp_evs; auto with evs.

Lemma filter_count_ok c a i k :
  is_u16 c -> 0 <= k < CFE_PLATFORM_EVS_MAX_EVENT_FILTERS -> app_ok i a ->
  app_ok i (a <| BinFilters ::= fun l => zset l k ((zget l k) <| bf_Count := c |>) |>).
Proof.
  intros Hc Hk [[Hl Hf] Ht He Hid]. constructor; simp_evs; try done. split; [by rewrite zlen_zset|].
  apply Forall_insert; [done|]. assert (Hg : filter_ok (zget (BinFilters a) k)).
  { eapply Forall_lookup_1; [done|]. apply list_lookup_lookup_total_lt. unfold zlen in Hl. lia. }
  destruct Hg as (? & ? & _). by split_and!.
Qed.

Lemma on_filter_ok i k f w :
  evs_ok w -> 0 <= i < CFE_PLATFORM_ES_MAX_APPLICATIONS -> (forall g, filter_ok g -> filter_ok (f g)) ->
  0 <= k < zlen (BinFilters (zget (Apps w) i)) -> evs_ok (on_filter i k f w).
Proof.
  intros H Hi Hf Hk. unfold on_filter. apply on_app_ok; [done..|]. intros a [[Hl Hfl] Ht He Hid].
  constructor; simp_evs; try done. split; [by rewrite zlen_zset|].
  pose proof (proj1 (ao_filters _ _ (ev_apps _ H i Hi))) as Hl'. apply Forall_insert; [done|]. apply Hf.
  eapply Forall_lookup_1; [done|]. apply list_lookup_lookup_total_lt. unfold zlen in *. lia.
Qed.

(** ** Sending *)

Lemma via_port_ok e w n : evs_ok w -> evs_ok (via_port e w n).
Proof. intros H. unfold via_port. case_test; [by apply send_ok|done]. Qed.

Lemma SendViaPorts_ok e w : evs_ok w -> evs_ok (EVS_SendViaPorts e w).
Proof. intros H. unfold EVS_SendViaPorts. cbn [fold_left]. by repeat apply via_port_ok. Qed.

Lemma Generate_ok i e t tm s w :
  evs_ok w -> 0 <= i < CFE_PLATFORM_ES_MAX_APPLICATIONS -> evs_ok (EVS_GenerateEventTelemetry i e t tm s w).
Proof.
  intros H Hi. unfold EVS_GenerateEventTelemetry. destruct (fit_text s) as [m cut]. cbv zeta.
  set (w1 := if cut then _ else _). assert (H1 : evs_ok w1).
  { unfold w1. destruct cut; [|done]. apply on_tlm_ok; [done|]. split_tlm. }
  clearbody w1. set (p := PacketID _ _ _ _). set (w2 := EVS_SendViaPorts _ _). assert (H2 : evs_ok w2).
  { apply SendViaPorts_ok, on_log_ok; [done|apply AddLog_ok]. }
  clearbody w2. set (w3 := if MessageFormatMode (Tlm w2) =? _ then _ else _).
  assert (H3 : evs_ok w3) by (unfold w3; repeat case_test; try apply send_ok; done).
  clearbody w3. set (w4 := if MessageSendCounter (Tlm w3) <? _ then _ else _). assert (H4 : evs_ok w4).
  { unfold w4. case_test; [|done]. apply on_tlm_ok; [done|]. split_tlm. }
  clearbody w4. case_test; [|done]. apply on_app_ok; [done..|]. intros a []. constructor; simp_evs; auto with evs.
Qed.

Section Send.
Variable text : Z -> list Z.

Lemma IsFiltered_ok n i e t w b w' :
  evs_ok w -> 0 <= i < CFE_PLATFORM_ES_MAX_APPLICATIONS -> IsFiltered text n i e t w = Some (b, w') -> evs_ok w'.
Proof.
  revert i e t w b w'. induction n as [|n IH]; intros i e t w b w' H Hi; [done|]. cbn [IsFiltered]. unfold filter_body.
  case_test; [by intros [= <- <-]|]. destruct (EVS_FindEventID e _) as [k|] eqn:Ek; [|by intros [= <- <-]].
  pose proof (FindEventID_range _ _ _ Ek) as Hk. case_lt; [|by intros [= <- <-]].
  set (w1 := on_filter i k _ w). assert (H1 : evs_ok w1).
  { apply on_filter_ok; [done..| |done]. intros g (? & ? & ?). split_and!; simp_evs; auto with evs. }
  case_test; [|by intros [= <- <-]]. destruct (EVS_GetAppDataByID (EVS_AppID w1)) as [me|] eqn:Eme; [|by intros [= <- <-]].
  case_test; [|by intros [= <- <-]]. apply GetAppDataByID_range in Eme.
  destruct (IsFiltered text n me _ _ w1) as [[b1 w2]|] eqn:En; [|done]. cbn [mbind option_bind].
  pose proof (IH _ _ _ _ _ _ H1 Eme En) as H2. intros [= <- <-]. destruct b1; [done|]. by apply Generate_ok.
Qed.

(** The fuel is enough. *)
Lemma EVS_IsFiltered_eq i e t w :
  evs_ok w -> IsFiltered text 3 i e t w = Some (EVS_IsFiltered text i e t w).
Proof.
  intros H. unfold EVS_IsFiltered. destruct (IsFiltered_some text 0 i e t w (ev_len _ H)) as [r ->]. done.
Qed.

Lemma filtered_send_ok i e t tm s w :
  evs_ok w -> 0 <= i < CFE_PLATFORM_ES_MAX_APPLICATIONS -> evs_ok (filtered_send text i e t tm s w).
Proof.
  intros H Hi. unfold filtered_send. pose proof (EVS_IsFiltered_eq i e t w H) as E.
  destruct (EVS_IsFiltered text i e t w) as [b w']. pose proof (IsFiltered_ok _ _ _ _ _ _ _ H Hi E).
  destruct b; [done|]. by apply Generate_ok.
Qed.

Lemma SendEvent_ok e t w : evs_ok w -> evs_ok (EVS_SendEvent text e t w).
Proof.
  intros H. unfold EVS_SendEvent. destruct (EVS_GetAppDataByID _) as [i|] eqn:Ei; [|done]. apply GetAppDataByID_range in Ei.
  case_test; [|done]. by apply filtered_send_ok.
Qed.

Lemma NotRegistered_ok i id w :
  evs_ok w -> 0 <= i < CFE_PLATFORM_ES_MAX_APPLICATIONS -> evs_ok (snd (EVS_NotRegistered text i id w)).
Proof.
  intros H Hi. unfold EVS_NotRegistered. cbn [snd]. case_test; [|done]. apply SendEvent_ok, on_app_ok; [|done|].
  - apply on_tlm_ok; [done|]. split_tlm.
  - intros a []. by constructor.
Qed.

Lemma send_as_ok i id e t st tm s w :
  evs_ok w -> 0 <= i < CFE_PLATFORM_ES_MAX_APPLICATIONS -> evs_ok (snd (send_as text i id e t st tm s w)).
Proof.
  intros H Hi. unfold send_as. case_test; [by apply NotRegistered_ok|]. by apply filtered_send_ok.
Qed.

(** ** The application interface *)

Lemma context_range c st i : EVS_GetCurrentContext c = (st, Some i) ->
  0 <= i < CFE_PLATFORM_ES_MAX_APPLICATIONS /\ EVS_GetAppDataByID (snd c) = Some i.
Proof.
  unfold EVS_GetCurrentContext. case_test; [|done]. destruct (EVS_GetAppDataByID (snd c)) as [j|] eqn:E1; [|done].
  intros [= _ <-]. split; [by apply (GetAppDataByID_range (snd c))|done].
Qed.

Lemma zero_app_ok i : app_ok i zero_app.
Proof.
  constructor; [split; [done|]|by split..|by left]. apply Forall_replicate. repeat split; done.
Qed.

(** The filters of a call are 16-bit numbers, and as many as it says. *)
Definition filters_ok (Filters : option (list (Z * Z))) (Num : Z) : Prop :=
  is_u16 Num /\ match Filters with
                | None => True
                | Some l => Num <= zlen l /\ Forall (fun '(e, m) => is_u16 e /\ is_u16 m) l
                end.

Lemma Register_ok c fs n sch w : evs_ok w -> filters_ok fs n -> evs_ok (snd (CFE_EVS_Register c fs n sch w)).
Proof.
  intros H [Hn Hfs]. unfold CFE_EVS_Register. destruct (EVS_GetCurrentContext c) as [st [i|]] eqn:Ec; [|done].
  destruct (context_range _ _ _ Ec) as [Hi Hid].
  assert (H0 : evs_ok (on_app i (fun _ => zero_app) w)) by (apply on_app_ok; [done..|]; intros; apply zero_app_ok).
  destruct (negb (sch =? CFE_EVS_EventFilter_BINARY)); [done|]. destruct (negb (n =? 0) && _); [done|]. cbn [snd].
  apply on_app_ok; [done..|]. intros a [_ Ht He Hida]. constructor; simp_evs; [|done|done|right; exact Hid].
  set (lim := if n <? _ then _ else _).
  assert (Hlim : 0 <= lim <= 8 /\ lim <= n) by (unfold lim, is_u16, CFE_PLATFORM_EVS_MAX_EVENT_FILTERS in *; case_test; lia).
  unfold EVS_AppDataSetUsed. simp_evs.
  match goal with |- context [_ ++ replicate ?m free_filter] => set (g := _ ++ replicate m free_filter) end.
  assert (Hfree : Forall filter_ok (replicate (Z.to_nat (CFE_PLATFORM_EVS_MAX_EVENT_FILTERS - lim)) free_filter)).
  { apply Forall_replicate. repeat split; done. }
  unfold g. clear g. destruct fs as [l|].
  - destruct Hfs as [Hnl Hl]. split.
    + unfold zlen in *. rewrite length_app, length_map, length_take, length_replicate. unfold CFE_PLATFORM_EVS_MAX_EVENT_FILTERS. lia.
    + apply Forall_app. split; [|done]. apply Forall_map, Forall_take. eapply Forall_impl; [|exact Hl]. intros [? ?] []. by split_and!.
  - split.
    + unfold zlen in *. rewrite length_app, length_take, length_replicate.
      change (length (BinFilters zero_app)) with 8%nat. unfold CFE_PLATFORM_EVS_MAX_EVENT_FILTERS. lia.
    + apply Forall_app. split; [|done]. apply Forall_take. apply (ao_filters i zero_app), zero_app_ok.
Qed.

Lemma reset_filters_ok i a : app_ok i a -> app_ok i (reset_filters a).
Proof.
  intros [[Hl Hf] Ht He Hid]. unfold reset_filters. constructor; simp_evs; try done. split; [unfold zlen; by rewrite length_map|].
  apply Forall_map. eapply Forall_impl; [|exact Hf]. intros f (? & ? & _). by split_and!.
Qed.

Lemma CleanUp_app_ok id w : evs_ok w -> evs_ok (snd (CFE_EVS_CleanUpApp id w)).
Proof.
  intros H. unfold CFE_EVS_CleanUpApp. destruct (EVS_GetAppDataByID id) as [i|] eqn:Ei; [|done]. apply GetAppDataByID_range in Ei.
  cbn [snd]. case_test; [|done]. apply on_app_ok; [done..|]. intros a []. constructor; simp_evs; try done. by left.
Qed.

(** ** Commands *)

Lemma lor_nibble x y : 0 <= x <= 0xF -> 0 <= y <= 0xF -> 0 <= Z.lor x y <= 0xF.
Proof.
  intros Hx Hy. assert (E : Z.lor x y = Z.land (Z.lor x y) (Z.ones 4)).
  { rewrite Z.land_lor_distr_l, !Z.land_ones, !Z.mod_small by lia. done. }
  rewrite E, Z.land_ones by lia. pose proof (Z.mod_pos_bound (Z.lor x y) (2 ^ 4)). lia.
Qed.

Lemma land_nibble x y : 0 <= x <= 0xF -> 0 <= Z.land x y <= 0xF.
Proof.
  intros Hx. rewrite <- (Z.mod_small x (2 ^ 4)) by lia. rewrite <- Z.land_ones by lia.
  rewrite <- Z.land_assoc, (Z.land_comm (Z.ones 4)), Z.land_assoc, Z.land_ones by lia.
  pose proof (Z.mod_pos_bound (Z.land x y) (2 ^ 4)). lia.
Qed.

Lemma clear_nibble x y : 0 <= x <= 0xF -> 0 <= u8 (Z.land x (Z.lnot y)) <= 0xF.
Proof.
  intros Hx. pose proof (land_nibble x (Z.lnot y) Hx). unfold u8. rewrite Z.mod_small; [done|]. lia.
Qed.

Lemma EnableTypes_ok i m a : app_ok i a -> app_ok i (EVS_EnableTypes m a).
Proof.
  intros []. unfold EVS_EnableTypes. constructor; simp_evs; try done. apply lor_nibble; [done|].
  rewrite Z.land_comm. by apply land_nibble.
Qed.
Lemma DisableTypes_ok i m a : app_ok i a -> app_ok i (EVS_DisableTypes m a).
Proof. intros []. unfold EVS_DisableTypes. constructor; simp_evs; try done. by apply clear_nibble. Qed.

Lemma set_ports_ok m on p : 0 <= p <= 0xF -> 0 <= set_ports m on p <= 0xF.
Proof.
  unfold set_ports. assert (H : forall n p, 1 <= n <= 4 -> 0 <= p <= 0xF -> 0 <= port_set m on p n <= 0xF).
  { intros n q Hn Hq. unfold port_set. assert (0 <= Z.shiftl 1 (n - 1) <= 0xF).
    { rewrite Z.shiftl_1_l. assert (n = 1 \/ n = 2 \/ n = 3 \/ n = 4) as [-> | [-> | [-> | ->]]] by lia; by split. }
    case_test; [|done]. destruct on; [by apply lor_nibble|by apply clear_nibble]. }
  intros Hp. cbn [fold_left]. repeat apply H; lia.
Qed.

Lemma mask_command_ok m e f w : evs_ok w -> (evs_ok w -> evs_ok (f w)) -> evs_ok (snd (mask_command text m e f w)).
Proof. intros H Hf. unfold mask_command. case_test; apply SendEvent_ok; auto. Qed.

Lemma app_info_range a w st i : EVS_GetApplicationInfo a w = (st, Some i) -> 0 <= i < CFE_PLATFORM_ES_MAX_APPLICATIONS.
Proof.
  unfold EVS_GetApplicationInfo. case_test; [done|]. destruct (EVS_GetAppDataByID (snd a)) as [j|] eqn:Ej; [|done].
  apply GetAppDataByID_range in Ej. case_test; [done|]. by intros [= _ <-].
Qed.

Lemma app_command_ok a f w :
  evs_ok w -> (forall i, 0 <= i < CFE_PLATFORM_ES_MAX_APPLICATIONS -> evs_ok (snd (f i w))) -> evs_ok (snd (app_command text a f w)).
Proof.
  intros H Hf. unfold app_command. destruct (EVS_GetApplicationInfo a w) as [st [i|]] eqn:E.
  - apply Hf. by apply (app_info_range a w st).
  - by apply SendEvent_ok.
Qed.

Lemma filter_command_ok a e ok f w :
  evs_ok w -> (forall g, filter_ok g -> filter_ok (f g)) -> evs_ok (snd (filter_command text a e ok f w)).
Proof.
  intros H Hf. apply app_command_ok; [done|]. intros i Hi. destruct (EVS_FindEventID e _) as [k|] eqn:Ek; [|by apply SendEvent_ok].
  apply SendEvent_ok, on_filter_ok; [done..|]. by apply (FindEventID_range e).
Qed.

Lemma used_apps_ok f w : evs_ok w -> (forall i a, app_ok i a -> app_ok i (f a)) -> evs_ok (used_apps f w).
Proof.
  intros [Hl Ha Hlog Ht] Hf. unfold used_apps. constructor; simp_evs; try done.
  - unfold zlen in *. by rewrite length_map.
  - intros i Hi. specialize (Ha i Hi). unfold zget in *. unfold zlen in Hl.
    erewrite list_lookup_total_correct;
      [|rewrite list_lookup_fmap, list_lookup_lookup_total_lt by lia; reflexivity].
    case_test; [by apply Hf|done].
Qed.

Lemma fill_apps_length apps j tlm : length (snd (fill_apps apps j tlm)) = length tlm.
Proof.
  revert j tlm. induction apps as [|a apps IH]; intros j tlm; cbn [fill_apps]; [done|].
  case_test; [|done]. case_test; rewrite IH; [by rewrite length_insert|done].
Qed.
Lemma clear_rest_length n j tlm : length (clear_rest n j tlm) = length tlm.
Proof. revert tlm. induction n as [|n IH]; intros tlm; cbn [clear_rest]; [done|]. by rewrite IH, length_insert. Qed.

Lemma Housekeeping_evs_ok w : evs_ok w -> evs_ok (snd (CFE_EVS_ReportHousekeepingCmd w)).
Proof.
  intros H. unfold CFE_EVS_ReportHousekeepingCmd. set (w1 := on_tlm _ w).
  assert (H1 : evs_ok w1) by (apply on_tlm_ok; [done|]; split_tlm). clearbody w1.
  pose proof (fill_apps_length (Apps w1) 0 (hk_AppData (Tlm w1))) as Hl. destruct (fill_apps _ _ _) as [j tlm]. cbn [snd] in *.
  apply send_ok, on_tlm_ok; [done|]. split_tlm. unfold zlen in *. by rewrite clear_rest_length, Hl.
Qed.

Lemma mode_ok m l :
  m = CFE_EVS_LogMode_OVERWRITE \/ m = CFE_EVS_LogMode_DISCARD -> log_ok l -> log_ok (l <| LogMode := m |>).
Proof. intros Hm []. by constructor. Qed.

Lemma ClearLog_ok l :
  LogMode l = CFE_EVS_LogMode_OVERWRITE \/ LogMode l = CFE_EVS_LogMode_DISCARD -> log_ok (EVS_ClearLog l).
Proof. intros H. constructor; try done; by split. Qed.

(** Arguments of commands within their types. *)
Definition evs_command_ok (c : EvsCommand) : Prop :=
  match c with
  | SetFilter _ e m | AddEventFilter _ e m => is_u16 e /\ is_u16 m
  | _ => True
  end.

Lemma dispatch_ok c w : evs_ok w -> evs_command_ok c -> evs_ok (snd (dispatch text c w)).
Proof.
  intros H Hc. destruct c; cbn [dispatch evs_command_ok] in *.
  - by apply SendEvent_ok.
  - apply on_log_ok; [done|]. intros Hl. apply ClearLog_ok, Hl.
  - apply SendEvent_ok, on_tlm_ok; [done|]. split_tlm; by split.
  - by apply Housekeeping_evs_ok.
  - apply mask_command_ok; [done|]. intros _. apply on_tlm_ok; [done|]. split_tlm. by apply set_ports_ok.
  - apply mask_command_ok; [done|]. intros _. apply on_tlm_ok; [done|]. split_tlm. by apply set_ports_ok.
  - apply mask_command_ok; [done|]. intros _. apply used_apps_ok; [done|]. intros. by apply EnableTypes_ok.
  - apply mask_command_ok; [done|]. intros _. apply used_apps_ok; [done|]. intros. by apply DisableTypes_ok.
  - unfold CFE_EVS_SetEventFormatModeCmd. case_test; apply SendEvent_ok; [|done]. apply on_tlm_ok; [done|]. split_tlm.
    unfold CFE_EVS_MsgFormat_SHORT, CFE_EVS_MsgFormat_LONG in *. lia.
  - unfold CFE_EVS_SetLogModeCmd. case_test; apply SendEvent_ok; [|done]. apply on_log_ok; [done|]. apply mode_ok.
    unfold CFE_EVS_LogMode_OVERWRITE, CFE_EVS_LogMode_DISCARD in *. lia.
  - apply app_command_ok; [done|]. intros i Hi. apply mask_command_ok; [done|]. intros _. apply on_app_ok; [done..|]. apply EnableTypes_ok.
  - apply app_command_ok; [done|]. intros i Hi. apply mask_command_ok; [done|]. intros _. apply on_app_ok; [done..|]. apply DisableTypes_ok.
  - apply app_command_ok; [done|]. intros i Hi. apply SendEvent_ok, on_app_ok; [done..|]. intros a []. by constructor.
  - apply app_command_ok; [done|]. intros i Hi. apply SendEvent_ok, on_app_ok; [done..|]. intros a []. by constructor.
  - apply app_command_ok; [done|]. intros i Hi. apply SendEvent_ok, on_app_ok; [done..|]. intros a []. constructor; simp_evs; try done; by split.
  - apply app_command_ok; [done|]. intros i Hi. apply SendEvent_ok, on_app_ok; [done..|]. apply reset_filters_ok.
  - destruct Hc. apply filter_command_ok; [done|]. intros g (? & ? & ?). by split_and!.
  - apply filter_command_ok; [done|]. intros g (? & ? & ?). by split_and!.
  - destruct Hc. apply app_command_ok; [done|]. intros i Hi. destruct (EVS_FindEventID EventID _); [by apply SendEvent_ok|].
    destruct (EVS_FindEventID CFE_EVS_FREE_SLOT _) as [k|] eqn:Ek; [|by apply SendEvent_ok].
    apply SendEvent_ok, on_filter_ok; [done..| |by apply (FindEventID_range CFE_EVS_FREE_SLOT)]. intros g _. by split_and!.
  - apply filter_command_ok; [done|]. intros g _. by split_and!.
  - unfold CFE_EVS_WriteLogDataFileCmd. destruct (negb (Parse =? _)); [by apply SendEvent_ok|].
    destruct (negb (Open =? _)); [by apply SendEvent_ok|]. destruct (negb Header); [by apply send_ok|].
    destruct (write_log _ _ _ _ _) as [es []]; by apply SendEvent_ok, send_ok.
  - unfold CFE_EVS_WriteAppDataFileCmd. destruct (negb (Parse =? _)); [by apply SendEvent_ok|].
    destruct (negb (Open =? _)); [by apply SendEvent_ok|]. destruct (negb Header); [by apply send_ok|].
    destruct (write_apps _ _ _) as [es []]; by apply SendEvent_ok, send_ok.
  - done.
Qed.

Lemma ProcessCommandPacket_ok c w : evs_ok w -> evs_command_ok c -> evs_ok (CFE_EVS_ProcessCommandPacket text c w).
Proof.
  intros H Hc. unfold CFE_EVS_ProcessCommandPacket. pose proof (dispatch_ok c w H Hc) as Hd.
  destruct (dispatch text c w) as [st w1]. cbn [snd] in Hd. set (w2 := if st =? CFE_STATUS_BAD_COMMAND_CODE then _ else _).
  assert (H2 : evs_ok w2) by (unfold w2; repeat case_test; try apply SendEvent_ok; done). clearbody w2.
  repeat case_test; try done; (apply on_tlm_ok; [done|]); split_tlm.
Qed.

(** ** Every call *)

Inductive EvsCall :=
| Command (c : EvsCommand)
| Register (Caller : Z * Z) (Filters : option (list (Z * Z))) (Num Scheme : Z)
| Send (Caller : Z * Z) (EventID EventType : Z) (Spec : option (list Z))
| SendWithAppID (EventID EventType id : Z) (Spec : option (list Z))
| SendTimed (Caller : Z * Z) (Time : CFE_TIME_SysTime_t) (EventID EventType : Z) (Spec : option (list Z))
| ResetOne (Caller : Z * Z) (EventID : Z)
| ResetAll (Caller : Z * Z)
| CleanUpApp (id : Z).

Definition call (c : EvsCall) (w : EvsWorld) : EvsWorld :=
  match c with
  | Command c => CFE_EVS_ProcessCommandPacket text c w
  | Register a fs n s => snd (CFE_EVS_Register a fs n s w)
  | Send a e t s => snd (CFE_EVS_SendEvent text a e t s w)
  | SendWithAppID e t id s => snd (CFE_EVS_SendEventWithAppID text e t id s w)
  | SendTimed a tm e t s => snd (CFE_EVS_SendTimedEvent text a tm e t s w)
  | ResetOne a e => snd (CFE_EVS_ResetFilter a e w)
  | ResetAll a => snd (CFE_EVS_ResetAllFilters a w)
  | CleanUpApp id => snd (CFE_EVS_CleanUpApp id w)
  end.

Definition call_ok (c : EvsCall) : Prop :=
  match c with
  | Command c => evs_command_ok c
  | Register _ fs n _ => filters_ok fs n
  | _ => True
  end.

Lemma call_keeps c w : evs_ok w -> call_ok c -> evs_ok (call c w).
Proof.
  intros H Hc. destruct c; cbn [call call_ok] in *.
  - by apply ProcessCommandPacket_ok.
  - by apply Register_ok.
  - unfold CFE_EVS_SendEvent. destruct Spec; [|done]. destruct (EVS_GetCurrentContext Caller) as [st [i|]] eqn:Ec; [|done].
    apply send_as_ok; [done|]. by apply (context_range Caller st).
  - unfold CFE_EVS_SendEventWithAppID. destruct Spec; [|done]. destruct (EVS_GetAppDataByID id) as [i|] eqn:Ei; [|done].
    apply send_as_ok; [done|]. by apply (GetAppDataByID_range id).
  - unfold CFE_EVS_SendTimedEvent. destruct Spec; [|done]. destruct (EVS_GetCurrentContext Caller) as [st [i|]] eqn:Ec; [|done].
    apply send_as_ok; [done|]. by apply (context_range Caller st).
  - unfold CFE_EVS_ResetFilter. destruct (EVS_GetCurrentContext Caller) as [st [i|]] eqn:Ec; [|done].
    destruct (context_range _ _ _ Ec). case_test; [done|]. destruct (EVS_FindEventID EventID _) as [k|] eqn:Ek; [|done].
    apply on_filter_ok; [done..| |by apply (FindEventID_range EventID)]. intros g (? & ? & ?). by split_and!.
  - unfold CFE_EVS_ResetAllFilters. destruct (EVS_GetCurrentContext Caller) as [st [i|]] eqn:Ec; [|done].
    destruct (context_range _ _ _ Ec). case_test; [done|]. apply on_app_ok; [done..|]. apply reset_filters_ok.
  - by apply CleanUp_app_ok.
Qed.

Lemma calls_keep cs w : evs_ok w -> Forall call_ok cs -> evs_ok (fold_left (fun w c => call c w) cs w).
Proof.
  revert w. induction cs as [|c cs IH]; intros w H Hc; [done|]. apply List.Forall_cons_iff in Hc as [Hc Hcs].
  cbn [fold_left]. apply IH; [by apply call_keeps|done].
Qed.

Lemma EarlyInit_ok PowerOn l t : PowerOn = true \/ log_ok l -> evs_ok (CFE_EVS_EarlyInit PowerOn l t).
Proof.
  intros H. unfold CFE_EVS_EarlyInit. constructor; simp_evs.
  - done.
  - intros i Hi. rewrite zget_replicate; [apply zero_app_ok|done].
  - assert (Hc : log_ok (EVS_ClearLog l <| LogMode := CFE_PLATFORM_EVS_DEFAULT_LOG_MODE |>)).
    { constructor; simp_evs; first [done|by split|by right]. }
    destruct PowerOn; [done|]. destruct H as [?|H]; [done|]. case_test; done.
  - constructor; simp_evs; first [by repeat constructor|by split|by right|done].
Qed.
End Send.
