(* ===== verification/EvsTheorems.v ===== *)
(** The properties of event services.

    Event services at work: the theorems at concrete inputs. *)

From S2P Require Import Prelude ResourceId Records TimeMath EvsModel EvsTask EvsProofs EvsInv.

(** ** The state *)

Lemma TaskInit_ok text c p w : evs_ok w -> evs_ok (snd (CFE_EVS_TaskInit text c p w)).
Proof.
  intros H. unfold CFE_EVS_TaskInit. destruct (negb (fst c =? _)); [done|].
  pose proof (Register_ok c None 0 CFE_EVS_EventFilter_BINARY w H) as Hr.
  destruct (CFE_EVS_Register c None 0 CFE_EVS_EventFilter_BINARY w) as [st w1]. cbn [snd] in Hr.
  assert (H1 : evs_ok w1) by (apply Hr; by split). destruct (negb (st =? _)); [done|]. destruct (negb (p =? _)); [done|].
  cbn [snd]. apply SendEvent_ok. destruct H1. by constructor.
Qed.

(** C9. After a power-on reset, or with an intact log in the reset area, every
    sequence of calls and commands keeps the state well formed: data in a slot
    belongs to the application with that index, filters, counters, masks and ports
    are in range, and the log indices describe the log. *)
Theorem evs_invariant (text : Z -> list Z) (PowerOn : bool) (l : CFE_EVS_Log_t) (t : CFE_TIME_SysTime_t) (Caller : Z * Z) (Pipe : Z)
    (cs : list EvsCall) :
  PowerOn = true \/ log_ok l -> Forall call_ok cs ->
  evs_ok (fold_left (fun w c => call text c w) cs (snd (CFE_EVS_TaskInit text Caller Pipe (CFE_EVS_EarlyInit PowerOn l t)))).
Proof. intros Hl Hc. apply calls_keep; [|done]. by apply TaskInit_ok, EarlyInit_ok. Qed.

(** ** Filters *)

(** C33. Although the filter calls the event function, which calls the filter,
    the recursion ends: at most two events about locked filters are nested, and
    more room for nesting changes nothing. *)
Theorem filter_recursion_ends (text : Z -> list Z) (n : nat) (i EventID EventType : Z) (w : EvsWorld) :
  zlen (Apps w) = CFE_PLATFORM_ES_MAX_APPLICATIONS ->
  IsFiltered text (3 + n) i EventID EventType w = Some (EVS_IsFiltered text i EventID EventType w).
Proof.
  intros H. unfold EVS_IsFiltered. destruct (IsFiltered_some text 0 i EventID EventType w H) as [r E]. rewrite E. cbn [from_option id].
  induction n as [|n IH]; [exact E|]. replace (3 + S n)%nat with (S (3 + n)) by lia. by apply IsFiltered_mono.
Qed.

Section Frame.
Variable text : Z -> list Z.

Lemma via_ports_same e w : Apps (EVS_SendViaPorts e w) = Apps w /\ EVS_AppID (EVS_SendViaPorts e w) = EVS_AppID w.
Proof.
  unfold EVS_SendViaPorts. assert (H : forall n w, Apps (via_port e w n) = Apps w /\ EVS_AppID (via_port e w n) = EVS_AppID w).
  { intros n w'. unfold via_port. by case_test. }
  cbn [fold_left]. by rewrite !(proj1 (H _ _)), !(proj2 (H _ _)).
Qed.

(** Sending changes the data of the sender only. *)
Lemma Generate_frame j e t tm s w i :
  0 <= i -> 0 <= j -> i <> j ->
  zget (Apps (EVS_GenerateEventTelemetry j e t tm s w)) i = zget (Apps w) i /\
  EVS_AppID (EVS_GenerateEventTelemetry j e t tm s w) = EVS_AppID w.
Proof.
  intros Hi Hj Hne. unfold EVS_GenerateEventTelemetry. destruct (fit_text s) as [m cut]. cbv zeta.
  set (w1 := if cut then _ else w). assert (E1 : Apps w1 = Apps w /\ EVS_AppID w1 = EVS_AppID w) by (by destruct cut).
  destruct E1 as [<- <-]. clearbody w1. set (ev := LongEvent _ _).
  destruct (via_ports_same ev (w1 <| Log ::= EVS_AddLog ev |>)) as [E2 E2']. set (w2 := EVS_SendViaPorts _ _) in *.
  change (Apps w2 = Apps w1) in E2. change (EVS_AppID w2 = EVS_AppID w1) in E2'. rewrite <- E2, <- E2'. clearbody w2. set (w3 := if MessageFormatMode _ =? _ then _ else _).
  assert (E3 : Apps w3 = Apps w2 /\ EVS_AppID w3 = EVS_AppID w2) by (unfold w3; by repeat case_test).
  destruct E3 as [<- <-]. clearbody w3. set (w4 := if MessageSendCounter _ <? _ then _ else _).
  assert (E4 : Apps w4 = Apps w3 /\ EVS_AppID w4 = EVS_AppID w3) by (unfold w4; by case_test).
  destruct E4 as [<- <-]. clearbody w4. case_test; [|done]. split; [|done]. unfold on_app. simp_evs. apply zget_zset_ne; lia.
Qed.

Lemma IsFiltered_frame n j e t w b w' i :
  0 <= i -> 0 <= j -> i <> j -> me_of w <> Some i -> IsFiltered text n j e t w = Some (b, w') ->
  zget (Apps w') i = zget (Apps w) i /\ EVS_AppID w' = EVS_AppID w.
Proof.
  revert j e t w b w'. induction n as [|n IH]; intros j e t w b w' Hi Hj Hne Hme; [done|]. cbn [IsFiltered]. unfold filter_body.
  case_test; [by intros [= <- <-]|]. destruct (EVS_FindEventID e _) as [k|] eqn:Ek; [|by intros [= <- <-]].
  case_lt; [|by intros [= <- <-]]. set (w1 := on_filter j k _ w).
  assert (E1 : zget (Apps w1) i = zget (Apps w) i) by (unfold w1, on_filter; simp_evs; apply zget_zset_ne; lia).
  case_test; [|by intros [= <- <-]]. change (EVS_AppID w1) with (EVS_AppID w). unfold me_of in Hme.
  destruct (EVS_GetAppDataByID (EVS_AppID w)) as [me|] eqn:Eme; [|by intros [= <- <-]]. pose proof (GetAppDataByID_range _ _ Eme).
  case_test; [|by intros [= <- <-]]. destruct (IsFiltered text n me _ _ w1) as [[b1 w2]|] eqn:En; [|done]. cbn [mbind option_bind].
  assert (Hne' : i <> me) by congruence.
  assert (Hme1 : me_of w1 <> Some i) by (unfold me_of; change (EVS_AppID w1) with (EVS_AppID w); congruence).
  destruct (IH me _ _ w1 _ _ Hi (proj1 H0) Hne' Hme1 En) as [E2 E3].
  intros [= <- <-]. rewrite <- E1, <- E2. change (EVS_AppID w) with (EVS_AppID w1). rewrite <- E3. destruct b1; [done|].
  apply Generate_frame; lia.
Qed.

(** An event that is counted, with what may be nested in it. *)
Lemma filter_body_counted n i e t w k b w' :
  0 <= i -> me_of w <> Some i ->
  let f := zget (BinFilters (zget (Apps w) i)) k in
  let w1 := on_filter i k (fun f => f <| bf_Count ::= fun c => u16 (c + 1) |>) w in
  type_filtered (zget (Apps w) i) t = false -> EVS_FindEventID e (BinFilters (zget (Apps w) i)) = Some k ->
  bf_Count f < CFE_EVS_MAX_FILTER_COUNT -> filter_body text (IsFiltered text n) i e t w = Some (b, w') ->
  b = negb (Z.land (bf_Mask f) (bf_Count f) =? 0) /\ zget (Apps w') i = zget (Apps w1) i /\ EVS_AppID w' = EVS_AppID w.
Proof.
  intros Hi Hme f w1 Ht Hk Hc. unfold filter_body. rewrite Ht, Hk. fold f.
  rewrite (proj2 (Z.ltb_lt _ _)) by done. fold w1. change (EVS_AppID w1) with (EVS_AppID w). unfold me_of in Hme.
  case_test; [|by intros [= <- <-]]. destruct (EVS_GetAppDataByID (EVS_AppID w)) as [me|] eqn:Eme; [|by intros [= <- <-]].
  case_test; [|by intros [= <- <-]]. destruct (IsFiltered text n me _ _ w1) as [[b2 w2]|] eqn:E2; [|done].
  cbn [mbind option_bind]. intros [= <- <-]. split; [done|]. pose proof (GetAppDataByID_range _ _ Eme) as Hr.
  assert (Hne : i <> me) by congruence. assert (Hme1 : me_of w1 <> Some i) by (unfold me_of; change (EVS_AppID w1) with (EVS_AppID w); congruence).
  destruct (IsFiltered_frame n me _ _ w1 b2 w2 i Hi (proj1 Hr) Hne Hme1 E2) as [E3 E4]. destruct b2; [done|].
  destruct (Generate_frame me CFE_EVS_FILTER_MAX_EID CFE_EVS_EventType_INFORMATION (stamp w2) (text CFE_EVS_FILTER_MAX_EID) w2 i)
    as [-> ->]; [lia..|done|done].
Qed.

(** One event of an application with a filter for it. *)
Lemma filter_once i e t w k :
  evs_ok w -> 0 <= i < CFE_PLATFORM_ES_MAX_APPLICATIONS -> me_of w <> Some i ->
  let a := zget (Apps w) i in
  type_filtered a t = false -> EVS_FindEventID e (BinFilters a) = Some k ->
  let f := zget (BinFilters a) k in
  let '(b, w') := EVS_IsFiltered text i e t w in
  let a' := zget (Apps w') i in
  b = negb (Z.land (bf_Mask f) (bf_Count f) =? 0) /\ evs_ok w' /\ me_of w' <> Some i /\ type_filtered a' t = false /\
  EVS_FindEventID e (BinFilters a') = Some k /\ bf_Mask (zget (BinFilters a') k) = bf_Mask f /\
  bf_Count (zget (BinFilters a') k) = Z.min (bf_Count f + 1) CFE_EVS_MAX_FILTER_COUNT.
Proof.
  intros H Hi Hme a Ht Hk f. pose proof (EVS_IsFiltered_eq text i e t w H) as E.
  pose proof (IsFiltered_ok text 3 i e t w) as Hok. destruct (EVS_IsFiltered text i e t w) as [b w']. specialize (Hok _ _ H Hi E).
  pose proof (FindEventID_range _ _ _ Hk) as Hkr. pose proof (ev_len _ H) as Hlen.
  assert (Hcr : is_u16 (bf_Count f)).
  { destruct (ao_filters _ _ (ev_apps _ H i Hi)) as [_ Hf]. assert (Hfk : filter_ok f); [|apply Hfk].
    eapply Forall_lookup_1; [exact Hf|]. apply list_lookup_lookup_total_lt. unfold zlen in Hkr. lia. }
  change (IsFiltered text 3) with (filter_body text (IsFiltered text 2)) in E. unfold is_u16, CFE_EVS_MAX_FILTER_COUNT in *.
  destruct (Z.lt_ge_cases (bf_Count f) 65535) as [Hlt|Hge].
  - destruct (filter_body_counted 2 i e t w k b w') as (Eb & Ea & Ei); [lia|done..|]. cbv zeta. rewrite Ea.
    destruct (on_filter_app i k (fun f => f <| bf_Count ::= fun c => u16 (c + 1) |>) w) as [Ea1 _]; [lia|].
    split_and!; [done|done|unfold me_of in *; by rewrite Ei|by rewrite Ea1|rewrite on_filter_find by (done || lia); done|..];
      rewrite Ea1; simp_evs; rewrite zget_zset_eq by done; simp_evs; [done|].
    fold a; fold f. rewrite u16_id, Z.min_l; [done|lia|]. unfold is_u16. lia.
  - unfold filter_body in E. fold a in E. rewrite Ht, Hk in E. fold f in E. rewrite (proj2 (Z.ltb_ge _ _)) in E by done.
    injection E as <- <-. split_and!; try done. rewrite Z.min_r by lia. fold a f. lia.
Qed.

(** [n] events with the same identifier and type: which of them are filtered. *)
Fixpoint repeat_event (n : nat) (i e t : Z) (w : EvsWorld) : list bool :=
  match n with
  | O => []
  | S n => let '(b, w') := EVS_IsFiltered text i e t w in b :: repeat_event n i e t w'
  end.
End Frame.

(** C10. The binary filter: of events that an application (not the service
    itself) sends with an identifier that has a filter, the one after [c] earlier
    ones is suppressed exactly when the mask has a bit of [c], where the count stops
    at 65535. *)
Theorem filter_pattern (text : Z -> list Z) (n : nat) (i EventID EventType k : Z) (w : EvsWorld) :
  evs_ok w -> 0 <= i < CFE_PLATFORM_ES_MAX_APPLICATIONS -> me_of w <> Some i ->
  type_filtered (zget (Apps w) i) EventType = false -> EVS_FindEventID EventID (BinFilters (zget (Apps w) i)) = Some k ->
  let f := zget (BinFilters (zget (Apps w) i)) k in
  repeat_event text n i EventID EventType w =
  map (fun j => negb (Z.land (bf_Mask f) (Z.min (bf_Count f + Z.of_nat j) CFE_EVS_MAX_FILTER_COUNT) =? 0)) (seq 0 n).
Proof.
  revert w. induction n as [|n IH]; intros w H Hi Hme Ht Hk f; [done|]. cbn [repeat_event seq map].
  pose proof (filter_once text i EventID EventType w k H Hi Hme Ht Hk) as Hone. fold f in Hone.
  assert (Hc : 0 <= bf_Count f <= 65535).
  { pose proof (FindEventID_range _ _ _ Hk) as Hkr. destruct (ao_filters _ _ (ev_apps _ H i Hi)) as [_ Hf].
    assert (Hfk : filter_ok f); [|destruct Hfk as (_ & _ & ?); unfold is_u16 in *; lia].
    eapply Forall_lookup_1; [exact Hf|]. apply list_lookup_lookup_total_lt. unfold zlen in Hkr. lia. }
  destruct (EVS_IsFiltered text i EventID EventType w) as [b w']. destruct Hone as (-> & H' & Hme' & Ht' & Hk' & Em & Ec).
  unfold CFE_EVS_MAX_FILTER_COUNT in *. f_equal; [do 3 f_equal; lia|].
  rewrite (IH w' H' Hi Hme' Ht' Hk'), Em, Ec, <- seq_shift, map_map. apply map_ext. intros j. do 3 f_equal. lia.
Qed.

(** ** The log *)

Lemma AddLog_mode e l : LogMode (EVS_AddLog e l) = LogMode l.
Proof. unfold EVS_AddLog. cbv zeta. by repeat case_match. Qed.

Lemma bounded_adds (d : bool) es :
  fold_left (fun q e => bounded_add d e q) es [] = if d then take log_size es else drop (length es - log_size) es.
Proof.
  induction es as [|e es IH] using rev_ind; [by destruct d|]. rewrite fold_left_app. cbn [fold_left]. rewrite IH.
  unfold bounded_add. destruct d.
  - rewrite length_take. destruct (Nat.ltb_spec (log_size `min` length es) log_size) as [Hlt|Hge].
    + rewrite !take_ge by (rewrite ?length_app; cbn; lia). done.
    + rewrite take_app_le by lia. done.
  - rewrite length_drop, length_app. cbn [length]. destruct (Nat.ltb_spec (length es - (length es - log_size)) log_size) as [Hlt|Hge].
    + replace (length es - log_size)%nat with O by lia. replace (length es + 1 - log_size)%nat with O by lia. done.
    + assert (Hpos : (0 < log_size)%nat) by (vm_compute; lia). rewrite drop_app_le by lia. f_equal.
      destruct (lookup_lt_is_Some_2 es (length es - log_size)) as [x Hx]; [lia|].
      rewrite (drop_S _ _ _ Hx). cbn [tail]. f_equal. lia.
Qed.

(** C34. The log is a bounded queue: after any events it holds, in order, the
    first twenty in discard mode and the last twenty in overwrite mode, and this is
    what the command writes to the file. *)
Theorem log_refines (l : CFE_EVS_Log_t) (es : list CFE_EVS_LongEventTlm_t) :
  LogMode l = CFE_EVS_LogMode_OVERWRITE \/ LogMode l = CFE_EVS_LogMode_DISCARD ->
  let l' := fold_left (fun l e => EVS_AddLog e l) es (EVS_ClearLog l) in
  let kept := if LogMode l =? CFE_EVS_LogMode_DISCARD then take log_size es else drop (length es - log_size) es in
  log_ok l' /\ log_list l' = kept /\
  write_log (Z.to_nat (LogCount l')) (if LogCount l' =? CFE_PLATFORM_EVS_LOG_MAX then Next l' else 0)
    (replicate (Z.to_nat (LogCount l')) true) (LogEntry l') [] = (kept, true).
Proof.
  intros Hm. cbv zeta.
  assert (H : forall es, let l' := fold_left (fun l e => EVS_AddLog e l) es (EVS_ClearLog l) in
    log_ok l' /\ LogMode l' = LogMode l /\ log_list l' = fold_left (fun q e => bounded_add (LogMode l =? CFE_EVS_LogMode_DISCARD) e q) es []).
  { clear es. intros es. induction es as [|e es IH] using rev_ind; [split_and!; [by apply ClearLog_ok|done|done]|].
    rewrite !fold_left_app. cbn [fold_left]. destruct IH as (IH1 & IH2 & IH3). split_and!; [by apply AddLog_ok| |].
    - by rewrite AddLog_mode.
    - by rewrite AddLog_list, IH2, IH3. }
  destruct (H es) as (H1 & _ & H3). rewrite bounded_adds in H3. split_and!; [done|done|]. by rewrite write_log_list, H3.
Qed.

(** ** Housekeeping *)

Definition hk_size : nat := Z.to_nat CFE_MISSION_ES_MAX_APPLICATIONS.
Definition hk_entry (a : EVS_AppData_t) : CFE_EVS_AppTlmData_t := AppTlmData (AppID a) (ActiveFlag a) (EventCount a).

(** The entries of the registered applications, as many as the packet holds. *)
Definition hk_used (apps : list EVS_AppData_t) : list CFE_EVS_AppTlmData_t := map hk_entry (List.filter EVS_AppDataIsUsed apps).

Lemma fill_apps_spec apps j tlm :
  length tlm = hk_size -> (j <= hk_size)%nat ->
  let new := take (hk_size - j) (hk_used apps) in
  fill_apps apps j tlm = ((j + length new)%nat, take j tlm ++ new ++ drop (j + length new) tlm).
Proof.
  intros Hl. revert j tlm Hl. induction apps as [|a apps IH]; intros j tlm Hl Hj; cbn zeta; cbn [fill_apps].
  - unfold hk_used. cbn [List.filter map]. rewrite take_nil. cbn [length app]. by rewrite Nat.add_0_r, take_drop.
  - assert (Hsz : Z.of_nat hk_size = CFE_MISSION_ES_MAX_APPLICATIONS) by reflexivity. rewrite <- Hsz. case_lt.
    + unfold hk_used. cbn [List.filter]. destruct (EVS_AppDataIsUsed a) eqn:Eu; cbn [map].
      * fold (hk_entry a). rewrite IH by (rewrite ?length_insert; lia). fold (hk_used apps). cbn zeta.
        destruct (hk_size - j)%nat as [|m] eqn:Em; [lia|]. replace (hk_size - S j)%nat with m by lia. cbn [take length].
        f_equal; [lia|]. rewrite take_S_insert, drop_insert_lt by lia. rewrite <- app_assoc. cbn [app]. do 4 f_equal. lia.
      * by rewrite IH by lia.
    + replace (hk_size - j)%nat with O by lia. rewrite take_0. cbn [length app]. by rewrite Nat.add_0_r, take_drop.
Qed.

Lemma clear_rest_spec n j tlm : clear_rest n j tlm = match n with O => tlm | S _ => <[j := AppTlmData 0 false 0]> tlm end.
Proof.
  revert tlm. induction n as [|n IH]; intros tlm; cbn [clear_rest]; [done|]. rewrite IH. destruct n; [done|].
  apply list_insert_insert_eq.
Qed.

(** C35. The housekeeping packet begins with the registered applications in the
    order of the table, as many as it holds, and then one cleared entry; the
    entries behind that one keep what earlier packets had in them, since the loop
    that clears the rest stores every time through the same pointer. *)
Theorem housekeeping_stale (w : EvsWorld) :
  evs_ok w ->
  let used := take hk_size (hk_used (Apps w)) in
  hk_AppData (Tlm (snd (CFE_EVS_ReportHousekeepingCmd w))) =
  used ++ (if (length used <? hk_size)%nat then AppTlmData 0 false 0 :: drop (S (length used)) (hk_AppData (Tlm w)) else []).
Proof.
  intros H used. unfold CFE_EVS_ReportHousekeepingCmd. set (w1 := on_tlm _ w).
  change (Apps w1) with (Apps w). change (hk_AppData (Tlm w1)) with (hk_AppData (Tlm w)).
  assert (Hl : length (hk_AppData (Tlm w)) = hk_size) by (pose proof (tk_apps _ (ev_tlm _ H)); unfold zlen, hk_size in *; lia).
  clearbody w1. rewrite fill_apps_spec by (done || lia). rewrite Nat.sub_0_r, take_0. fold used. cbn [Nat.add app snd].
  unfold send. simp_evs. fold hk_size. rewrite clear_rest_spec. assert (Hu : (length used <= hk_size)%nat) by (unfold used; rewrite length_take; lia).
  destruct (Nat.ltb_spec (length used) hk_size).
  - destruct (hk_size - length used)%nat eqn:E; [lia|]. rewrite insert_app_r_alt, Nat.sub_diag by lia. f_equal.
    destruct (lookup_lt_is_Some_2 (hk_AppData (Tlm w)) (length used)) as [x Hx]; [lia|]. by rewrite (drop_S _ _ _ Hx).
  - replace (hk_size - length used)%nat with O by lia. by rewrite drop_ge by lia.
Qed.

(** ** A log of the reset area that is not a log *)

(** The check after a processor reset does not look at the number of entries. *)
Lemma EarlyInit_keeps_count l t :
  LogMode l = CFE_EVS_LogMode_OVERWRITE \/ LogMode l = CFE_EVS_LogMode_DISCARD -> LogFullFlag l = 0 \/ LogFullFlag l = 1 ->
  0 <= Next l < CFE_PLATFORM_EVS_LOG_MAX -> Log (CFE_EVS_EarlyInit false l t) = l.
Proof.
  intros Hm Hf Hn. unfold CFE_EVS_EarlyInit. simp_evs. rewrite Z.geb_leb, (proj2 (Z.leb_gt _ _)) by lia.
  destruct Hm as [->| ->], Hf as [->| ->]; done.
Qed.

Lemma write_log_count m i es acc : length (fst (write_log m i (replicate m true) es acc)) = (length acc + m)%nat.
Proof.
  revert i acc. induction m as [|m IH]; intros i acc; cbn [write_log replicate]; [cbn; lia|]. rewrite IH, length_app. cbn [length]. lia.
Qed.

Definition demo_text (_ : Z) : list Z := [69; 86; 83].
Definition demo_id (n : Z) : Z := CFE_ES_APPID_BASE + n.
(** The task of event services and an application with three filters. *)
Definition demo_service : Z * Z := (CFE_SUCCESS, demo_id 1).
Definition demo_app : Z * Z := (CFE_SUCCESS, demo_id 2).
Definition demo_log : CFE_EVS_Log_t := EvsLog 7 9 5 3 0 [].
Definition demo_boot : EvsWorld :=
  snd (CFE_EVS_TaskInit demo_text demo_service CFE_SUCCESS (CFE_EVS_EarlyInit true demo_log (SysTime 5 0))).
Definition demo_calls : list EvsCall :=
  [Register demo_app (Some [(5, 1); (6, 2); (7, 0xFFFF)]) 3 CFE_EVS_EventFilter_BINARY;
   Send demo_app 5 CFE_EVS_EventType_ERROR (Some (replicate 130 65));
   Send demo_app 6 CFE_EVS_EventType_CRITICAL (Some [66]);
   Send (CFE_SUCCESS, demo_id 3) 9 CFE_EVS_EventType_ERROR (Some [67]);
   Command (AddEventFilter demo_app 8 0xFFFE);
   Command (SetLogMode CFE_EVS_LogMode_OVERWRITE);
   Command ReportHousekeeping].
Definition demo_run (cs : list EvsCall) : EvsWorld := fold_left (fun w c => call demo_text c w) cs demo_boot.

(** The first text is cut and marked; the sender that is not registered makes
    the service send an event of its own. *)
Example demo_events :
  (map (fun o => match o with OutLong e => Some (pk_EventID (le_PacketID e), zlen (le_Message e)) | _ => None end)
     (out (demo_run (take 4 demo_calls))),
   MessageTruncCounter (Tlm (demo_run demo_calls)), UnregisteredAppCounter (Tlm (demo_run demo_calls)),
   CommandCounter (Tlm (demo_run demo_calls)), LogCount (Log (demo_run demo_calls)))
  = ([Some (41, 3); None; Some (6, 1); None; Some (5, 121); None; Some (1, 3); None], 1, 1, 2, 4).
Proof. vm_compute. reflexivity. Qed.

Lemma evs_invariant_witness : evs_ok (demo_run demo_calls).
Proof.
  apply (evs_invariant demo_text true demo_log (SysTime 5 0) demo_service CFE_SUCCESS demo_calls).
  - left. reflexivity.
  - repeat constructor; vm_compute; repeat constructor; discriminate.
Defined.

Lemma filter_recursion_ends_witness :
  IsFiltered demo_text 9 2 6 CFE_EVS_EventType_ERROR (demo_run demo_calls) =
  Some (EVS_IsFiltered demo_text 2 6 CFE_EVS_EventType_ERROR (demo_run demo_calls)).
Proof. apply (filter_recursion_ends demo_text 6 2 6 CFE_EVS_EventType_ERROR (demo_run demo_calls)). vm_compute. reflexivity. Defined.

(** Both nested events: the event about the filter of the application that is
    locked locks the filter for this event itself. *)
Definition demo_locking : EvsWorld :=
  on_filter 1 0 (fun _ => BinFilter CFE_EVS_FILTER_MAX_EID 0 65534) (on_filter 2 1 (fun f => f <| bf_Count := 65534 |>) (demo_run demo_calls)).
Example demo_nesting :
  (map (fun n => bool_decide (IsFiltered demo_text n 2 6 CFE_EVS_EventType_ERROR demo_locking = None)) [0; 1; 2; 3]%nat,
   zlen (out (snd (EVS_IsFiltered demo_text 2 6 CFE_EVS_EventType_ERROR demo_locking))) - zlen (out demo_locking))
  = ([true; true; true; false], 4).
Proof. vm_compute. reflexivity. Qed.

(** Mask 2: two events are sent and the next two are not. *)
Lemma filter_pattern_witness :
  repeat_event demo_text 8 2 6 CFE_EVS_EventType_ERROR (demo_run (take 1 demo_calls)) =
  [false; false; true; true; false; false; true; true].
Proof.
  rewrite (filter_pattern demo_text 8 2 6 CFE_EVS_EventType_ERROR 1 (demo_run (take 1 demo_calls))).
  - vm_compute. reflexivity.
  - apply (calls_keep demo_text (take 1 demo_calls) demo_boot).
    + apply TaskInit_ok, EarlyInit_ok. left. reflexivity.
    + repeat constructor; vm_compute; repeat constructor; discriminate.
  - vm_compute. split; [discriminate|reflexivity].
  - vm_compute. discriminate.
  - vm_compute. reflexivity.
  - vm_compute. reflexivity.
Defined.

Definition demo_entry (n : nat) : CFE_EVS_LongEventTlm_t := LongEvent (PacketID 0 (Z.of_nat n) 2 (SysTime 0 0)) [].
Lemma log_refines_witness :
  map (fun e => pk_EventID (le_PacketID e))
    (log_list (fold_left (fun l e => EVS_AddLog e l) (map demo_entry (seq 0 25)) (EVS_ClearLog (EvsLog 3 9 0 0 0 [])))) =
  map Z.of_nat (seq 5 20).
Proof.
  destruct (log_refines (EvsLog 3 9 0 0 0 []) (map demo_entry (seq 0 25))) as (_ & E & _); [left; reflexivity|].
  rewrite E. vm_compute. reflexivity.
Defined.

(** Two applications leave: the packet still shows the second of them. *)
Definition demo_stale : EvsWorld :=
  demo_run [Register demo_app None 0 CFE_EVS_EventFilter_BINARY;
            Register (CFE_SUCCESS, demo_id 3) None 0 CFE_EVS_EventFilter_BINARY;
            Command ReportHousekeeping; CleanUpApp (demo_id 2); CleanUpApp (demo_id 3)].
Lemma housekeeping_stale_witness :
  map at_AppID (take 4 (hk_AppData (Tlm (snd (CFE_EVS_ReportHousekeepingCmd demo_stale))))) = [demo_id 1; 0; demo_id 3; 0].
Proof.
  rewrite (housekeeping_stale demo_stale); [vm_compute; reflexivity|].
  apply (calls_keep demo_text _ demo_boot).
  - apply TaskInit_ok, EarlyInit_ok. left. reflexivity.
  - repeat constructor; vm_compute; repeat constructor; discriminate.
Defined.

(** A log with a count of 300 survives a processor reset, and the dump writes
    300 entries of a log of 20. *)
Example bad_count_dumped :
  let l := EvsLog 3 300 0 0 0 (replicate log_size inhabitant) in
  let w := CFE_EVS_EarlyInit false l (SysTime 5 0) in
  Log w = l /\
  match out (snd (CFE_EVS_WriteLogDataFileCmd demo_text CFE_SUCCESS 0 true (replicate 300 true) w)) with
  | OutLogFile es :: _ => length es = 300%nat
  | _ => False
  end.
Proof. vm_compute. split; reflexivity. Qed.
