(* ===== verification/CdsModel.v ===== *)
(** The critical data store: blocks of data that survive a processor reset
    (cfe_es_cds.c, cfe_es_cds_mempool.c and the calls of cfe_es_api.c), on the
    memory of the board (cfe_psp_memory.c).

    The memory is a list of bytes: a signature, the number of registry entries,
    the registry, the pool and a closing signature.  The pool is the generic pool
    over a storage that goes through a cache of one object; structures are laid
    out as on a 64-bit little-endian machine, with padding written as zeros.  The
    numbers of the platform configuration are the record [CdsConfig].  Locked
    sections are atomic; the name of the calling application and whether an
    application runs are arguments; system log texts are left out. *)

From S2P Require Import Prelude Records ResourceId GenPool GenPoolProofs DirectStorage.

Definition CFE_ES_ERR_NAME_NOT_FOUND : Z := s32 0xc4000002.
Definition CFE_ES_CDS_ALREADY_EXISTS : Z := 0x4400000d.
Definition CFE_ES_CDS_INVALID_NAME : Z := s32 0xc400000f.
Definition CFE_ES_CDS_INVALID_SIZE : Z := s32 0xc4000010.
Definition CFE_ES_CDS_INVALID : Z := s32 0xc4000012.
Definition CFE_ES_CDS_ACCESS_ERROR : Z := s32 0xc4000013.
Definition CFE_ES_CDS_BLOCK_CRC_ERR : Z := s32 0xc400001A.
Definition CFE_ES_CDS_WRONG_TYPE_ERR : Z := s32 0xc4000020.
Definition CFE_ES_CDS_OWNER_ACTIVE_ERR : Z := s32 0xc4000022.
Definition CFE_ES_NO_RESOURCE_IDS_AVAILABLE : Z := s32 0xc400002B.
Definition CFE_ES_NOT_IMPLEMENTED : Z := s32 0xc400ffff.
Definition CFE_STATUS_EXTERNAL_RESOURCE_FAIL : Z := s32 0xc8000005.
Definition CFE_PSP_SUCCESS : Z := 0.
Definition CFE_PSP_ERROR : Z := -1.

Definition CFE_ES_CDSBLOCKID_BASE : Z := CFE_RESOURCEID_MAKE_BASE 0x15.
Definition CFE_MISSION_ES_CDS_MAX_NAME_LENGTH : Z := 16.
Definition CFE_MISSION_ES_CDS_MAX_FULL_NAME_LEN : Z := 40.
Definition OS_MAX_API_NAME : Z := 20.
Definition CFE_ES_CDS_SIGNATURE_LEN : Z := 8.
(** "_CDSBeg_" and "_CDSEnd_". *)
Definition CFE_ES_CDS_SIGNATURE_BEGIN : list Z := [95; 67; 68; 83; 66; 101; 103; 95].
Definition CFE_ES_CDS_SIGNATURE_END : list Z := [95; 67; 68; 83; 69; 110; 100; 95].

(** ** The checksum of cfe_es_api.c *)

Definition CFE_MISSION_ES_CRC_8 : Z := 1.
Definition CFE_MISSION_ES_CRC_16 : Z := 2.
Definition CFE_MISSION_ES_CRC_32 : Z := 3.
Definition CFE_MISSION_ES_DEFAULT_CRC : Z := CFE_MISSION_ES_CRC_16.

Definition CrcTable : list Z :=
  [
   0x0000; 0xC0C1; 0xC181; 0x0140; 0xC301; 0x03C0; 0x0280; 0xC241; 0xC601; 0x06C0; 0x0780; 0xC741; 0x0500; 0xC5C1; 0xC481; 0x0440;
   0xCC01; 0x0CC0; 0x0D80; 0xCD41; 0x0F00; 0xCFC1; 0xCE81; 0x0E40; 0x0A00; 0xCAC1; 0xCB81; 0x0B40; 0xC901; 0x09C0; 0x0880; 0xC841;
   0xD801; 0x18C0; 0x1980; 0xD941; 0x1B00; 0xDBC1; 0xDA81; 0x1A40; 0x1E00; 0xDEC1; 0xDF81; 0x1F40; 0xDD01; 0x1DC0; 0x1C80; 0xDC41;
   0x1400; 0xD4C1; 0xD581; 0x1540; 0xD701; 0x17C0; 0x1680; 0xD641; 0xD201; 0x12C0; 0x1380; 0xD341; 0x1100; 0xD1C1; 0xD081; 0x1040;
   0xF001; 0x30C0; 0x3180; 0xF141; 0x3300; 0xF3C1; 0xF281; 0x3240; 0x3600; 0xF6C1; 0xF781; 0x3740; 0xF501; 0x35C0; 0x3480; 0xF441;
   0x3C00; 0xFCC1; 0xFD81; 0x3D40; 0xFF01; 0x3FC0; 0x3E80; 0xFE41; 0xFA01; 0x3AC0; 0x3B80; 0xFB41; 0x3900; 0xF9C1; 0xF881; 0x3840;
   0x2800; 0xE8C1; 0xE981; 0x2940; 0xEB01; 0x2BC0; 0x2A80; 0xEA41; 0xEE01; 0x2EC0; 0x2F80; 0xEF41; 0x2D00; 0xEDC1; 0xEC81; 0x2C40;
   0xE401; 0x24C0; 0x2580; 0xE541; 0x2700; 0xE7C1; 0xE681; 0x2640; 0x2200; 0xE2C1; 0xE381; 0x2340; 0xE101; 0x21C0; 0x2080; 0xE041;
   0xA001; 0x60C0; 0x6180; 0xA141; 0x6300; 0xA3C1; 0xA281; 0x6240; 0x6600; 0xA6C1; 0xA781; 0x6740; 0xA501; 0x65C0; 0x6480; 0xA441;
   0x6C00; 0xACC1; 0xAD81; 0x6D40; 0xAF01; 0x6FC0; 0x6E80; 0xAE41; 0xAA01; 0x6AC0; 0x6B80; 0xAB41; 0x6900; 0xA9C1; 0xA881; 0x6840;
   0x7800; 0xB8C1; 0xB981; 0x7940; 0xBB01; 0x7BC0; 0x7A80; 0xBA41; 0xBE01; 0x7EC0; 0x7F80; 0xBF41; 0x7D00; 0xBDC1; 0xBC81; 0x7C40;
   0xB401; 0x74C0; 0x7580; 0xB541; 0x7700; 0xB7C1; 0xB681; 0x7640; 0x7200; 0xB2C1; 0xB381; 0x7340; 0xB101; 0x71C0; 0x7080; 0xB041;
   0x5000; 0x90C1; 0x9181; 0x5140; 0x9301; 0x53C0; 0x5280; 0x9241; 0x9601; 0x56C0; 0x5780; 0x9741; 0x5500; 0x95C1; 0x9481; 0x5440;
   0x9C01; 0x5CC0; 0x5D80; 0x9D41; 0x5F00; 0x9FC1; 0x9E81; 0x5E40; 0x5A00; 0x9AC1; 0x9B81; 0x5B40; 0x9901; 0x59C0; 0x5880; 0x9841;
   0x8801; 0x48C0; 0x4980; 0x8941; 0x4B00; 0x8BC1; 0x8A81; 0x4A40; 0x4E00; 0x8EC1; 0x8F81; 0x4F40; 0x8D01; 0x4DC0; 0x4C80; 0x8C41;
   0x4400; 0x84C1; 0x8581; 0x4540; 0x8701; 0x47C0; 0x4680; 0x8641; 0x8201; 0x42C0; 0x4380; 0x8341; 0x4100; 0x81C1; 0x8081; 0x4040].

(** Conversion to [int16]. *)
Definition s16 (x : Z) : Z := if u16 x <? 2 ^ 15 then u16 x else u16 x - 2 ^ 16.

Definition crc_step (Crc ByteValue : Z) : Z :=
  let Index := Z.land (Z.lxor Crc ByteValue) 0xFF in
  s16 (Z.lxor (Z.land (Z.shiftr Crc 8) 0xFF) (zget CrcTable Index)).

(** The data is the first [DataLength] bytes at [DataPtr]; the result is
    converted from [int16] to [uint32]. *)
Definition CFE_ES_CalculateCRC (DataPtr : option (list Z)) (DataLength InputCRC TypeCRC : Z) : Z :=
  match DataPtr with
  | None => InputCRC
  | Some data =>
      if DataLength =? 0 then InputCRC
      else if TypeCRC =? CFE_MISSION_ES_CRC_16
      then u32 (fold_left crc_step (take (Z.to_nat DataLength) data) (s16 (Z.land 0xFFFF InputCRC)))
      else 0
  end.

(** ** Bytes *)

Definition write_bytes (mem : list Z) (off : Z) (data : list Z) : list Z :=
  take (Z.to_nat off) mem ++ data ++ drop (Z.to_nat off + length data) mem.
Definition read_bytes (mem : list Z) (off n : Z) : list Z := take (Z.to_nat n) (drop (Z.to_nat off) mem).

Fixpoint le (n : nat) (v : Z) : list Z :=
  match n with O => [] | S n => v mod 256 :: le n (v / 256) end.
Fixpoint un_le (l : list Z) : Z :=
  match l with [] => 0 | b :: l => b + 256 * un_le l end.

(** The C string in an array. *)
Fixpoint cstr (l : list Z) : list Z :=
  match l with [] => [] | b :: l => if b =? 0 then [] else b :: cstr l end.

(** ** Data *)

Record CFE_ES_CDS_RegRec_t := RegRec {
  rr_BlockID : Z; rr_BlockOffset : Z; rr_BlockSize : Z; rr_Name : list Z; rr_Table : bool }.
#[export] Instance eta_RegRec : Eta CFE_ES_CDS_RegRec_t := fun r =>
  RegRec (rr_BlockID r) (rr_BlockOffset r) (rr_BlockSize r) (rr_Name r) (rr_Table r).
Definition zero_rec : CFE_ES_CDS_RegRec_t :=
  RegRec 0 0 0 (replicate (Z.to_nat CFE_MISSION_ES_CDS_MAX_FULL_NAME_LEN) 0) false.
#[export] Instance RegRec_inhabited : Inhabited CFE_ES_CDS_RegRec_t := populate zero_rec.

(** A record takes 72 bytes. *)
Definition RECSIZE : Z := 72.
Definition HDRSIZE : Z := 4.
Definition encode_rec (r : CFE_ES_CDS_RegRec_t) : list Z :=
  le 4 (rr_BlockID r) ++ replicate 4 0 ++ le 8 (rr_BlockOffset r) ++ le 8 (rr_BlockSize r) ++ rr_Name r ++
  [if rr_Table r then 1 else 0] ++ replicate 7 0.
Definition decode_rec (l : list Z) : CFE_ES_CDS_RegRec_t :=
  RegRec (un_le (take 4 l)) (un_le (take 8 (drop 8 l))) (un_le (take 8 (drop 16 l))) (take 40 (drop 24 l))
    (negb (zget l 64 =? 0)).
Fixpoint decode_reg (n : nat) (l : list Z) : list CFE_ES_CDS_RegRec_t :=
  match n with O => [] | S n => decode_rec (take 72 l) :: decode_reg n (drop 72 l) end.
Definition encode_reg (reg : list CFE_ES_CDS_RegRec_t) : list Z := concat (map encode_rec reg).

(** The cache holds the largest of its members, a registry record. *)
Record CFE_ES_CDS_AccessCache_t := Cache_t { c_Data : list Z; c_Offset : Z; c_Size : Z; c_AccessStatus : Z }.
#[export] Instance eta_Cache : Eta CFE_ES_CDS_AccessCache_t := fun c =>
  Cache_t (c_Data c) (c_Offset c) (c_Size c) (c_AccessStatus c).
Definition CACHESIZE : Z := 72.

(** What the pool's storage functions work on. *)
Record CdsStore := cds_store { cds_mem : list Z; Cache : CFE_ES_CDS_AccessCache_t }.
#[export] Instance eta_CdsStore : Eta CdsStore := fun s => cds_store (cds_mem s) (Cache s).

Record CFE_ES_CDS_Instance_t := CdsInstance {
  Store : CdsStore; Pool : CFE_ES_GenPoolRecord; TotalSize : Z; DataSize : Z; LastCDSBlockId : Z;
  Registry : list CFE_ES_CDS_RegRec_t; CDSIsAvailable : bool }.
#[export] Instance eta_Cds : Eta CFE_ES_CDS_Instance_t := fun c =>
  CdsInstance (Store c) (Pool c) (TotalSize c) (DataSize c) (LastCDSBlockId c) (Registry c) (CDSIsAvailable c).
Abbreviation CDS := CFE_ES_CDS_Instance_t.

(** ** The memory of the board (cfe_psp_memory.c)

    Offsets and sizes are [uint32]; the size of the store is that of the list. *)

Definition psp_in_range (mem : list Z) (CDSOffset NumBytes : Z) : bool :=
  (u32 CDSOffset <? zlen mem) && (u32 (u32 CDSOffset + u32 NumBytes) <=? zlen mem).
Definition CFE_PSP_WriteToCDS (data : list Z) (CDSOffset NumBytes : Z) (mem : list Z) : Z * list Z :=
  if psp_in_range mem CDSOffset NumBytes
  then (CFE_PSP_SUCCESS, write_bytes mem (u32 CDSOffset) (take (Z.to_nat (u32 NumBytes)) data))
  else (CFE_PSP_ERROR, mem).
(** [None]: nothing is stored through the pointer. *)
Definition CFE_PSP_ReadFromCDS (CDSOffset NumBytes : Z) (mem : list Z) : Z * option (list Z) :=
  if psp_in_range mem CDSOffset NumBytes
  then (CFE_PSP_SUCCESS, Some (read_bytes mem (u32 CDSOffset) (u32 NumBytes)))
  else (CFE_PSP_ERROR, None).

(** ** The cache *)

Definition CFE_ES_CDS_CacheFetch (Offset Size : Z) (s : CdsStore) : Z * CdsStore :=
  if (0 <? Size) && (Size <=? CACHESIZE) then
    match CFE_PSP_ReadFromCDS Offset Size (cds_mem s) with
    | (st, Some l) =>
        (CFE_SUCCESS, s <| Cache ::= fun c => c <| c_AccessStatus := st |> <| c_Data ::= fun d => write_bytes d 0 l |>
                                               <| c_Offset := Offset |> <| c_Size := Size |> |>)
    | (st, None) => (CFE_ES_CDS_ACCESS_ERROR, s <| Cache ::= fun c => c <| c_AccessStatus := st |> |>)
    end
  else (CFE_ES_CDS_INVALID_SIZE, s).

Definition CFE_ES_CDS_CacheFlush (s : CdsStore) : Z * CdsStore :=
  let c := Cache s in
  if (0 <? c_Size c) && (c_Size c <=? CACHESIZE) then
    let '(st, mem) := CFE_PSP_WriteToCDS (c_Data c) (c_Offset c) (c_Size c) (cds_mem s) in
    let s := s <| cds_mem := mem |> <| Cache ::= fun c => c <| c_AccessStatus := st |> |> in
    (if st =? CFE_PSP_SUCCESS then CFE_SUCCESS else CFE_ES_CDS_ACCESS_ERROR, s)
  else (CFE_ES_CDS_INVALID_SIZE, s).

(** [Source]: NULL, the cache itself, or other data. *)
Inductive PreloadSource := FromNull | FromCache | FromData (l : list Z).
Definition CFE_ES_CDS_CachePreload (Source : PreloadSource) (Offset Size : Z) (s : CdsStore) : Z * CdsStore :=
  if (0 <? Size) && (Size <=? CACHESIZE) then
    let s := match Source with
             | FromNull => s <| Cache ::= fun c => c <| c_Data ::= fun d => write_bytes d 0 (replicate (Z.to_nat Size) 0) |> |>
             | FromCache => s
             | FromData l => s <| Cache ::= fun c => c <| c_Data ::= fun d => write_bytes d 0 (take (Z.to_nat Size) l) |> |>
             end in
    (CFE_SUCCESS, s <| Cache ::= fun c => c <| c_Size := Size |> <| c_Offset := Offset |> |>)
  else (CFE_ES_CDS_INVALID_SIZE, s).

(** ** Descriptors through the cache (cfe_es_cds_mempool.c) *)

Definition CFE_ES_CDS_PoolRetrieve (Offset : Z) (s : CdsStore) : Z * CFE_ES_GenPoolBD * CdsStore :=
  let '(st, s) := CFE_ES_CDS_CacheFetch Offset DESC s in (st, load_bd (c_Data (Cache s)) 0, s).
(** The pool changes the descriptor in the cache and commits it from there. *)
Definition CFE_ES_CDS_PoolCommit (Offset : Z) (bd : CFE_ES_GenPoolBD) (s : CdsStore) : Z * CdsStore :=
  let s := s <| Cache ::= fun c => c <| c_Data ::= fun d => store_bd d 0 bd |> |> in
  CFE_ES_CDS_CacheFlush (snd (CFE_ES_CDS_CachePreload FromCache Offset DESC s)).
#[export] Instance cds_storage : PoolStorage CdsStore := {
  Retrieve := CFE_ES_CDS_PoolRetrieve;
  Commit := CFE_ES_CDS_PoolCommit
}.

(** ** The registry *)

Record CdsConfig := mk_CdsConfig {
  CFE_PLATFORM_ES_CDS_MAX_NUM_ENTRIES : Z; CFE_ES_CDSMemPoolDefSize : list Z }.

Section Cds.
Variable cfg : CdsConfig.
Abbreviation MAX := (CFE_PLATFORM_ES_CDS_MAX_NUM_ENTRIES cfg).

Definition CDS_SIG_BEGIN_OFFSET : Z := 0.
Definition CDS_REG_SIZE_OFFSET : Z := 8.
Definition CDS_REG_OFFSET : Z := 12.
Definition CDS_POOL_OFFSET : Z := CDS_REG_OFFSET + MAX * RECSIZE.
Definition CDS_TRAILER_SIZE : Z := 8.
Definition CDS_RESERVED_MIN_SIZE : Z := CDS_POOL_OFFSET + CDS_TRAILER_SIZE.
Definition CDS_ABS_MAX_BLOCK_SIZE : Z := 2 ^ 30 - HDRSIZE.

Definition on_store (f : CdsStore -> Z * CdsStore) (c : CDS) : Z * CDS :=
  let '(st, s) := f (Store c) in (st, c <| Store := s |>).

Definition CFE_ES_CDSBlockRecordIsUsed (r : CFE_ES_CDS_RegRec_t) : bool := CFE_ResourceId_IsDefined (rr_BlockID r).
Definition CFE_ES_CDSBlockRecordSetUsed (id : Z) (r : CFE_ES_CDS_RegRec_t) : CFE_ES_CDS_RegRec_t := r <| rr_BlockID := id |>.
Definition CFE_ES_CDSBlockRecordSetFree (r : CFE_ES_CDS_RegRec_t) : CFE_ES_CDS_RegRec_t := r <| rr_BlockID := 0 |>.
Definition CFE_ES_CDSBlockRecordGetUserSize (r : CFE_ES_CDS_RegRec_t) : Z := u64 (rr_BlockSize r - HDRSIZE).

Definition CFE_ES_CDSHandle_ToIndex (id : Z) : Z * option Z :=
  CFE_ResourceId_ToIndex id CFE_ES_CDSBLOCKID_BASE MAX true.
Definition CFE_ES_LocateCDSBlockRecordByID (id : Z) : option Z :=
  match CFE_ES_CDSHandle_ToIndex id with
  | (st, Some i) => if st =? CFE_SUCCESS then Some i else None
  | (_, None) => None
  end.
Definition CFE_ES_CDSBlockRecordIsMatch (slot : option Z) (id : Z) (c : CDS) : bool :=
  match slot with None => false | Some i => CFE_ResourceId_Equal (rr_BlockID (zget (Registry c) i)) id end.
Definition CFE_ES_CheckCDSHandleSlotUsed (c : CDS) (id : Z) : bool :=
  match CFE_ES_LocateCDSBlockRecordByID id with
  | None => true
  | Some i => CFE_ES_CDSBlockRecordIsUsed (zget (Registry c) i)
  end.

(** The loop over the registry from entry [i] on. *)
Fixpoint locate_name (CDSName : list Z) (i : Z) (reg : list CFE_ES_CDS_RegRec_t) : option Z :=
  match reg with
  | [] => None
  | r :: reg => if CFE_ES_CDSBlockRecordIsUsed r && bool_decide (CDSName = cstr (rr_Name r)) then Some i
                else locate_name CDSName (i + 1) reg
  end.
Definition CFE_ES_LocateCDSBlockRecordByName (CDSName : list Z) (c : CDS) : option Z := locate_name CDSName 0 (Registry c).

Definition CFE_ES_UpdateCDSRegistry (c : CDS) : Z * CDS :=
  let '(st, mem) := CFE_PSP_WriteToCDS (encode_reg (Registry c)) CDS_REG_OFFSET (MAX * RECSIZE) (cds_mem (Store c)) in
  (if st =? CFE_PSP_SUCCESS then CFE_SUCCESS else CFE_ES_CDS_ACCESS_ERROR, c <| Store ::= fun s => s <| cds_mem := mem |> |>).

(** ** Setting up *)

Definition CFE_ES_CreateCDSPool (CDSPoolSize StartOffset : Z) (c : CDS) : Z * CDS :=
  let SizeCheck := CFE_ES_GenPoolCalcMinSize (CFE_ES_CDSMemPoolDefSize cfg) 1 in
  if CDSPoolSize <? SizeCheck then (CFE_ES_CDS_INVALID_SIZE, c)
  else let '(st, P) := CFE_ES_GenPoolInitialize StartOffset CDSPoolSize 4 (CFE_ES_CDSMemPoolDefSize cfg) in
       (st, c <| Pool := P |>).

(** [None] when the scan of the pool does not end, as below. *)
Definition CFE_ES_RebuildCDSPool (CDSPoolSize StartOffset : Z) (c : CDS) : option (Z * CDS) :=
  let '(st, c) := CFE_ES_CreateCDSPool CDSPoolSize StartOffset c in
  if negb (st =? CFE_SUCCESS) then Some (st, c)
  else '(st, P, s) ← CFE_ES_GenPoolRebuild (Pool c) (Store c);
       Some (if st =? CFE_SUCCESS then st else CFE_ES_CDS_ACCESS_ERROR, c <| Pool := P |> <| Store := s |>).

Definition CFE_ES_CDSReqdMinSize (MaxNumBlocksToSupport : Z) : Z :=
  CFE_ES_GenPoolCalcMinSize (CFE_ES_CDSMemPoolDefSize cfg) MaxNumBlocksToSupport.

(** [strncmp] of a fetched signature with the one expected. *)
Definition sig_matches (sig : list Z) (c : CDS) : bool :=
  bool_decide (take (Z.to_nat CFE_ES_CDS_SIGNATURE_LEN) (c_Data (Cache (Store c))) = sig).

Definition CFE_ES_ValidateCDS (c : CDS) : Z * CDS :=
  let '(st, c) := on_store (CFE_ES_CDS_CacheFetch CDS_SIG_BEGIN_OFFSET CFE_ES_CDS_SIGNATURE_LEN) c in
  if negb (st =? CFE_SUCCESS) then (st, c)
  else if negb (sig_matches CFE_ES_CDS_SIGNATURE_BEGIN c) then (CFE_ES_CDS_INVALID, c)
  else
    let TrailerOffset := u64 (TotalSize c - CDS_TRAILER_SIZE) in
    let '(st, c) := on_store (CFE_ES_CDS_CacheFetch TrailerOffset CFE_ES_CDS_SIGNATURE_LEN) c in
    if negb (st =? CFE_SUCCESS) then (st, c)
    else if negb (sig_matches CFE_ES_CDS_SIGNATURE_END c) then (CFE_ES_CDS_INVALID, c)
    else (CFE_SUCCESS, c).

(** The loop of [CFE_ES_ClearCDS]. *)
Fixpoint clear_loop (fuel : nat) (total : Z) (s : CdsStore) : option (Z * CdsStore) :=
  match fuel with
  | O => None
  | S fuel =>
      if c_Offset (Cache s) <? total then
        let RemainSize := u64 (total - c_Offset (Cache s)) in
        let s := if RemainSize <? 16 then s <| Cache ::= fun c => c <| c_Size := RemainSize |> |> else s in
        let '(st, s) := CFE_ES_CDS_CacheFlush s in
        if negb (st =? CFE_SUCCESS) then Some (st, s)
        else clear_loop fuel total (s <| Cache ::= fun c => c <| c_Offset ::= fun o => u64 (o + c_Size c) |> |>)
      else Some (CFE_SUCCESS, s)
  end.

Definition CFE_ES_ClearCDS (c : CDS) : option (Z * CDS) :=
  let s := snd (CFE_ES_CDS_CachePreload FromNull 0 16 (Store c)) in
  '(st, s) ← clear_loop (S (Z.to_nat (TotalSize c))) (TotalSize c) s;
  Some (st, c <| Store := s |>).

(** Writing one object through the cache. *)
Definition put_cached (l : list Z) (Offset Size : Z) (s : CdsStore) : Z * CdsStore :=
  CFE_ES_CDS_CacheFlush (snd (CFE_ES_CDS_CachePreload (FromData l) Offset Size s)).

Definition CFE_ES_InitCDSSignatures (c : CDS) : Z * CDS :=
  let '(st, c) := on_store (put_cached CFE_ES_CDS_SIGNATURE_BEGIN 0 CFE_ES_CDS_SIGNATURE_LEN) c in
  if negb (st =? CFE_SUCCESS) then (st, c)
  else on_store (put_cached CFE_ES_CDS_SIGNATURE_END (u64 (TotalSize c - CDS_TRAILER_SIZE)) CFE_ES_CDS_SIGNATURE_LEN) c.

Definition CFE_ES_InitCDSRegistry (c : CDS) : Z * CDS :=
  let '(st, c) := on_store (put_cached (le 4 MAX) CDS_REG_SIZE_OFFSET 4) c in
  if st =? CFE_SUCCESS then CFE_ES_UpdateCDSRegistry (c <| Registry := replicate (Z.to_nat MAX) zero_rec |>)
  else (st, c).

Definition CFE_ES_RebuildCDS (c : CDS) : option (Z * CDS) :=
  let '(st, c) := on_store (CFE_ES_CDS_CacheFetch CDS_REG_SIZE_OFFSET 4) c in
  if negb (st =? CFE_SUCCESS) then Some (CFE_ES_CDS_INVALID, c)
  else if negb (un_le (take 4 (c_Data (Cache (Store c)))) =? MAX) then Some (CFE_ES_CDS_INVALID, c)
  else match CFE_PSP_ReadFromCDS CDS_REG_OFFSET (MAX * RECSIZE) (cds_mem (Store c)) with
       | (_, Some l) => CFE_ES_RebuildCDSPool (DataSize c) CDS_POOL_OFFSET (c <| Registry := decode_reg (Z.to_nat MAX) l |>)
       | (_, None) => Some (CFE_ES_CDS_INVALID, c)
       end.

Definition zero_cds (mem : list Z) : CDS :=
  CdsInstance (cds_store mem (Cache_t (replicate (Z.to_nat CACHESIZE) 0) 0 0 0)) zero_pool 0 0 0
    (replicate (Z.to_nat MAX) zero_rec) false.

(** The part of [CFE_ES_CDS_EarlyInit] after a validation that failed with
    [CFE_ES_CDS_INVALID]. *)
Definition new_cds (c : CDS) : option (Z * CDS) :=
  '(st, c) ← CFE_ES_ClearCDS c;
  let '(st, c) := if st =? CFE_SUCCESS then CFE_ES_InitCDSSignatures c else (st, c) in
  let '(st, c) := if st =? CFE_SUCCESS then CFE_ES_CreateCDSPool (DataSize c) CDS_POOL_OFFSET c else (st, c) in
  Some (if st =? CFE_SUCCESS then CFE_ES_InitCDSRegistry c else (st, c)).

(** [mem] is the memory of the board at start-up, [OsStatus] the result of
    creating the mutex. *)
Definition CFE_ES_CDS_EarlyInit (OsStatus : Z) (mem : list Z) : option (Z * CDS) :=
  let c := zero_cds mem in
  if negb (OsStatus =? 0) then Some (CFE_STATUS_EXTERNAL_RESOURCE_FAIL, c)
  else
    let c := c <| LastCDSBlockId := CFE_ES_CDSBLOCKID_BASE |> <| TotalSize := Z.land (u32 (zlen mem)) 0xfffffffc |> in
    let MinRequiredSize := u64 (CDS_RESERVED_MIN_SIZE + CFE_ES_CDSReqdMinSize MAX) in
    if TotalSize c <? MinRequiredSize then Some (CFE_SUCCESS, c)
    else
      let c := c <| DataSize := u64 (TotalSize c - CDS_RESERVED_MIN_SIZE) |> in
      let '(st, c) := CFE_ES_ValidateCDS c in
      '(st, c) ← if st =? CFE_SUCCESS then CFE_ES_RebuildCDS c else Some (st, c);
      '(st, c) ← if st =? CFE_ES_CDS_INVALID then new_cds c else Some (st, c);
      Some (st, if st =? CFE_SUCCESS then c <| CDSIsAvailable := true |> else c).

(** ** Registering and deleting *)

(** [strncpy] into the name field, and its last byte. *)
Definition name_field (Name : list Z) : list Z := take 39 (Name ++ replicate 39 0) ++ [0].

Definition on_rec (i : Z) (f : CFE_ES_CDS_RegRec_t -> CFE_ES_CDS_RegRec_t) (c : CDS) : CDS :=
  c <| Registry ::= fun l => zset l i (f (zget l i)) |>.

(** The entry to use: status, its index, its ID and whether it is new. *)
Definition find_entry (Name : list Z) (c : CDS) : Z * option Z * Z * bool * CDS :=
  match CFE_ES_LocateCDSBlockRecordByName Name c with
  | Some i => (CFE_SUCCESS, Some i, rr_BlockID (zget (Registry c) i), false, c)
  | None =>
      let PendingBlockId := CFE_ResourceId_FindNext (LastCDSBlockId c) MAX (Some (CFE_ES_CheckCDSHandleSlotUsed c)) in
      match CFE_ES_LocateCDSBlockRecordByID PendingBlockId with
      | Some i => (CFE_SUCCESS, Some i, PendingBlockId, true, (on_rec i (fun _ => zero_rec) c) <| LastCDSBlockId := PendingBlockId |>)
      | None => (CFE_ES_NO_RESOURCE_IDS_AVAILABLE, None, CFE_RESOURCEID_UNDEFINED, false, c)
      end
  end.

(** The old block is returned when the size changes. *)
Definition release_old (i NewBlockSize : Z) (c : CDS) : Z * CDS :=
  let r := zget (Registry c) i in
  if negb (rr_BlockOffset r =? 0) && negb (NewBlockSize =? rr_BlockSize r) then
    let '(st, _, P, s) := CFE_ES_GenPoolPutBlock (Pool c) (rr_BlockOffset r) (Store c) in
    let c := c <| Pool := P |> <| Store := s |> in
    (st, if st =? CFE_SUCCESS then on_rec i (fun r => r <| rr_BlockOffset := 0 |> <| rr_BlockSize := 0 |>) c else c)
  else (CFE_SUCCESS, c).

(** A block is allocated when there is none: status, whether there is a new one. *)
Definition allocate_new (i NewBlockSize : Z) (c : CDS) : Z * bool * CDS :=
  if rr_BlockOffset (zget (Registry c) i) =? 0 then
    let '(st, out, P, s) := CFE_ES_GenPoolGetBlock (Pool c) NewBlockSize (Store c) in
    let c := c <| Pool := P |> <| Store := s |> in
    match out with
    | Some o => if st =? CFE_SUCCESS
                then (st, true, on_rec i (fun r => r <| rr_BlockOffset := o |> <| rr_BlockSize := NewBlockSize |>) c)
                else (st, false, c)
    | None => (st, false, c)
    end
  else (CFE_SUCCESS, false, c).

(** The status, and what is stored through [HandlePtr]. *)
Definition CFE_ES_RegisterCDSEx (UserBlockSize : Z) (Name : list Z) (CriticalTbl : bool) (c : CDS) : Z * option Z * CDS :=
  if (UserBlockSize =? 0) || (CDS_ABS_MAX_BLOCK_SIZE <? UserBlockSize) then (CFE_ES_CDS_INVALID_SIZE, None, c)
  else
    let '(st, slot, PendingBlockId, IsNewEntry, c) := find_entry Name c in
    match slot with
    | None => (st, Some PendingBlockId, c)
    | Some i =>
        let NewBlockSize := UserBlockSize + HDRSIZE in
        let '(st, c) := release_old i NewBlockSize c in
        let '(st, IsNewOffset, c) := if st =? CFE_SUCCESS then allocate_new i NewBlockSize c else (st, false, c) in
        let c := if (st =? CFE_SUCCESS) && IsNewEntry
                 then on_rec i (fun r => CFE_ES_CDSBlockRecordSetUsed PendingBlockId
                                           (r <| rr_Table := CriticalTbl |> <| rr_Name := name_field Name |>)) c
                 else c in
        let '(RegUpdateStatus, c) :=
          if (st =? CFE_SUCCESS) && (IsNewOffset || IsNewEntry) then CFE_ES_UpdateCDSRegistry c else (CFE_SUCCESS, c) in
        let st := if negb (RegUpdateStatus =? CFE_SUCCESS) && (st =? CFE_SUCCESS) then RegUpdateStatus else st in
        (if (st =? CFE_SUCCESS) && negb IsNewOffset then CFE_ES_CDS_ALREADY_EXISTS else st, Some PendingBlockId, c)
    end.

(** The name up to its first dot. *)
Fixpoint owner_name (n : nat) (l : list Z) : list Z :=
  match n, l with S n, b :: l => if b =? 46 then [] else b :: owner_name n l | _, _ => [] end.

(** [GetAppIDByName] is the status of the call of this name. *)
Definition CFE_ES_DeleteCDS (GetAppIDByName : list Z -> Z) (CDSName : list Z) (CalledByTblServices : bool) (c : CDS) : Z * CDS :=
  match CFE_ES_LocateCDSBlockRecordByName CDSName c with
  | None => (CFE_ES_ERR_NAME_NOT_FOUND, c)
  | Some i =>
      let r := zget (Registry c) i in
      if negb (Bool.eqb (rr_Table r) CalledByTblServices) then (CFE_ES_CDS_WRONG_TYPE_ERR, c)
      else if negb (GetAppIDByName (cstr (owner_name 19 (rr_Name r))) =? CFE_SUCCESS) then
        let '(st, _, P, s) := CFE_ES_GenPoolPutBlock (Pool c) (rr_BlockOffset r) (Store c) in
        let c := c <| Pool := P |> <| Store := s |> in
        if negb (st =? CFE_SUCCESS) then (st, c)
        else CFE_ES_UpdateCDSRegistry (on_rec i CFE_ES_CDSBlockRecordSetFree c)
      else (CFE_ES_CDS_OWNER_ACTIVE_ERR, c)
  end.

(** ** Writing and reading a block *)

Definition CFE_ES_CDSBlockWrite (Handle : Z) (DataToWrite : list Z) (c : CDS) : Z * CDS :=
  let slot := CFE_ES_LocateCDSBlockRecordByID Handle in
  if CFE_ES_CDSBlockRecordIsMatch slot Handle c then
    let r := zget (Registry c) (default 0 slot) in
    let '(st, size, s) := CFE_ES_GenPoolGetBlockSize (Pool c) (rr_BlockOffset r) (Store c) in
    let c := c <| Store := s |> in
    match size with
    | None => (st, c)
    | Some size =>
        if negb (st =? CFE_SUCCESS) then (st, c)
        else if (size <=? HDRSIZE) || negb (size =? rr_BlockSize r) then (CFE_ES_CDS_INVALID_SIZE, c)
        else
          let UserDataSize := u64 (rr_BlockSize r - HDRSIZE) in
          let UserDataOffset := u64 (rr_BlockOffset r + HDRSIZE) in
          let crc := CFE_ES_CalculateCRC (Some DataToWrite) UserDataSize 0 CFE_MISSION_ES_DEFAULT_CRC in
          let s := (Store c) <| Cache ::= fun k => k <| c_Data ::= fun d => write_bytes d 0 (le 4 crc) |>
                                                   <| c_Offset := rr_BlockOffset r |> <| c_Size := HDRSIZE |> |> in
          let '(st, s) := CFE_ES_CDS_CacheFlush s in
          if negb (st =? CFE_SUCCESS) then (st, c <| Store := s |>)
          else
            let '(PspStatus, mem) := CFE_PSP_WriteToCDS DataToWrite UserDataOffset UserDataSize (cds_mem s) in
            (if PspStatus =? CFE_PSP_SUCCESS then st else CFE_ES_CDS_ACCESS_ERROR, c <| Store := s <| cds_mem := mem |> |>)
    end
  else (CFE_ES_ERR_RESOURCEID_NOT_VALID, c).

(** The status, and what is stored at [DataRead]. *)
Definition CFE_ES_CDSBlockRead (Handle : Z) (c : CDS) : Z * option (list Z) * CDS :=
  let slot := CFE_ES_LocateCDSBlockRecordByID Handle in
  if CFE_ES_CDSBlockRecordIsMatch slot Handle c then
    let r := zget (Registry c) (default 0 slot) in
    let '(st, size, s) := CFE_ES_GenPoolGetBlockSize (Pool c) (rr_BlockOffset r) (Store c) in
    let c := c <| Store := s |> in
    match size with
    | None => (st, None, c)
    | Some size =>
        if negb (st =? CFE_SUCCESS) then (st, None, c)
        else if (size <=? HDRSIZE) || negb (size =? rr_BlockSize r) then (CFE_ES_CDS_INVALID_SIZE, None, c)
        else
          let UserDataSize := u64 (rr_BlockSize r - HDRSIZE) in
          let UserDataOffset := u64 (rr_BlockOffset r + HDRSIZE) in
          let '(st, s) := CFE_ES_CDS_CacheFetch (rr_BlockOffset r) HDRSIZE (Store c) in
          let c := c <| Store := s |> in
          if negb (st =? CFE_SUCCESS) then (st, None, c)
          else match CFE_PSP_ReadFromCDS UserDataOffset UserDataSize (cds_mem s) with
               | (_, Some l) =>
                   let crc := CFE_ES_CalculateCRC (Some l) UserDataSize 0 CFE_MISSION_ES_DEFAULT_CRC in
                   (if negb (crc =? un_le (take 4 (c_Data (Cache s)))) then CFE_ES_CDS_BLOCK_CRC_ERR else CFE_SUCCESS, Some l, c)
               | (_, None) => (CFE_ES_CDS_ACCESS_ERROR, None, c)
               end
    end
  else (CFE_ES_ERR_RESOURCEID_NOT_VALID, None, c).

(** ** Application interface (cfe_es_api.c) *)

Definition CFE_ES_FormCDSName (AppName CDSName : list Z) : list Z := AppName ++ [46] ++ CDSName.

(** [Caller]: the status of [CFE_ES_GetAppID] and the name of the application;
    [None] is NULL.  The third result is an error event. *)
Definition CFE_ES_RegisterCDS (Caller : Z * list Z) (BlockSize : Z) (Name : option (list Z)) (c : CDS)
    : Z * option Z * bool * CDS :=
  match Name with
  | None => (CFE_ES_BAD_ARGUMENT, None, false, c)
  | Some Name =>
      let '(st, h, c) :=
        if negb (fst Caller =? CFE_SUCCESS) then (fst Caller, Some 0, c)
        else if negb (CDSIsAvailable c) then (CFE_ES_NOT_IMPLEMENTED, Some 0, c)
        else if (CFE_MISSION_ES_CDS_MAX_NAME_LENGTH <? zlen Name) || (zlen Name =? 0) then (CFE_ES_CDS_INVALID_NAME, Some 0, c)
        else let '(st, h, c) := CFE_ES_RegisterCDSEx BlockSize (CFE_ES_FormCDSName (snd Caller) Name) false c in
             (st, Some (default 0 h), c) in
      (st, h, st <? 0, c)
  end.

Definition CFE_ES_GetCDSBlockIDByName (BlockName : option (list Z)) (c : CDS) : Z * option Z :=
  match BlockName with
  | None => (CFE_ES_BAD_ARGUMENT, None)
  | Some Name =>
      if negb (CDSIsAvailable c) then (CFE_ES_NOT_IMPLEMENTED, None)
      else match CFE_ES_LocateCDSBlockRecordByName Name c with
           | Some i => (CFE_SUCCESS, Some (rr_BlockID (zget (Registry c) i)))
           | None => (CFE_ES_ERR_NAME_NOT_FOUND, Some 0)
           end
  end.

(** The C string stored in a buffer of [BufferLength] bytes. *)
Definition CFE_ES_GetCDSBlockName (BlockId BufferLength : Z) (c : CDS) : Z * option (list Z) :=
  if BufferLength =? 0 then (CFE_ES_BAD_ARGUMENT, None)
  else if negb (CDSIsAvailable c) then (CFE_ES_NOT_IMPLEMENTED, None)
  else let slot := CFE_ES_LocateCDSBlockRecordByID BlockId in
       if CFE_ES_CDSBlockRecordIsMatch slot BlockId c
       then (CFE_SUCCESS, Some (take (Z.to_nat (BufferLength - 1)) (cstr (rr_Name (zget (Registry c) (default 0 slot))))))
       else (CFE_ES_ERR_RESOURCEID_NOT_VALID, Some []).

Definition CFE_ES_CopyToCDS (Handle : Z) (DataToCopy : option (list Z)) (c : CDS) : Z * CDS :=
  match DataToCopy with
  | None => (CFE_ES_BAD_ARGUMENT, c)
  | Some l => CFE_ES_CDSBlockWrite Handle l c
  end.

(** [given] is [RestoreToMemory != NULL]. *)
Definition CFE_ES_RestoreFromCDS (given : bool) (Handle : Z) (c : CDS) : Z * option (list Z) * CDS :=
  if negb given then (CFE_ES_BAD_ARGUMENT, None, c) else CFE_ES_CDSBlockRead Handle c.

(** ** Commands (cfe_es_task.c) *)

Definition CFE_ES_CDS_DELETE_ERR_EID : Z := 76.
Definition CFE_ES_CDS_NAME_ERR_EID : Z := 77.
Definition CFE_ES_CDS_DELETED_INFO_EID : Z := 78.
Definition CFE_ES_CDS_DELETE_TBL_ERR_EID : Z := 79.
Definition CFE_ES_CDS_OWNER_ACTIVE_EID : Z := 80.

(** The event, and whether the command counts as accepted. *)
Definition CFE_ES_DeleteCDSCmd (GetAppIDByName : list Z -> Z) (CdsName : list Z) (c : CDS) : Z * bool * CDS :=
  let '(st, c) := CFE_ES_DeleteCDS GetAppIDByName CdsName false c in
  if st =? CFE_ES_CDS_WRONG_TYPE_ERR then (CFE_ES_CDS_DELETE_TBL_ERR_EID, false, c)
  else if st =? CFE_ES_CDS_OWNER_ACTIVE_ERR then (CFE_ES_CDS_OWNER_ACTIVE_EID, false, c)
  else if st =? CFE_ES_ERR_NAME_NOT_FOUND then (CFE_ES_CDS_NAME_ERR_EID, false, c)
  else if negb (st =? CFE_SUCCESS) then (CFE_ES_CDS_DELETE_ERR_EID, false, c)
  else (CFE_ES_CDS_DELETED_INFO_EID, true, c).

(** The loop of [CFE_ES_DumpCDSRegistryCmd]: handle, user size, table flag and
    name of the records written; [ok] is what each write gives. *)
Fixpoint dump_registry (reg : list CFE_ES_CDS_RegRec_t) (ok : list bool) (acc : list (Z * Z * bool * list Z))
    : list (Z * Z * bool * list Z) * bool :=
  match reg with
  | [] => (acc, true)
  | r :: reg =>
      if CFE_ES_CDSBlockRecordIsUsed r then
        let d := (rr_BlockID r, CFE_ES_CDSBlockRecordGetUserSize r, rr_Table r, cstr (rr_Name r)) in
        match ok with
        | true :: ok => dump_registry reg ok (acc ++ [d])
        | _ => (acc, false)
        end
      else dump_registry reg ok acc
  end.
End Cds.
