(* ===== verification/CdsProofs.v ===== *)
(** Lemmas about the critical data store: bytes, the records of the registry in
    memory, and the cache as a storage of the pool. *)

From S2P Require Import Prelude Records ResourceId GenPool GenPoolInit GenPoolProofs DirectStorage CdsModel.

(** ** Bytes *)

Definition fits_at (mem : list Z) (off : Z) (data : list Z) : Prop := 0 <= off /\ off + zlen data <= zlen mem.

Lemma zlen_write mem off data : fits_at mem off data -> zlen (write_bytes mem off data) = zlen mem.
Proof.
  intros [H1 H2]. unfold write_bytes, zlen in *. rewrite !length_app, length_take, length_drop. lia.
Qed.

Lemma zget_write mem off data p :
  fits_at mem off data -> 0 <= p ->
  zget (write_bytes mem off data) p = if (off <=? p) && (p <? off + zlen data) then zget data (p - off) else zget mem p.
Proof.
  intros [H1 H2] Hp. unfold write_bytes. assert (Hl : zlen (take (Z.to_nat off) mem) = off).
  { unfold zlen in *. rewrite length_take. lia. }
  destruct (Z.leb_spec off p); cbn [andb].
  - rewrite zget_app_r, Hl by lia. destruct (Z.ltb_spec p (off + zlen data)).
    + apply zget_app_l. lia.
    + rewrite zget_app_r by lia. pose proof (zlen_nonneg data). rewrite zget_drop by lia. f_equal. unfold zlen in *. lia.
  - rewrite zget_app_l by lia. apply zget_take. lia.
Qed.

Lemma zget_write_in mem off data p :
  fits_at mem off data -> off <= p < off + zlen data -> zget (write_bytes mem off data) p = zget data (p - off).
Proof.
  intros H Hp. rewrite zget_write; [|done|destruct H; lia]. rewrite (proj2 (Z.leb_le _ _)), (proj2 (Z.ltb_lt _ _)) by lia. done.
Qed.
Lemma zget_write_out mem off data p :
  fits_at mem off data -> 0 <= p -> p < off \/ off + zlen data <= p -> zget (write_bytes mem off data) p = zget mem p.
Proof.
  intros H Hp Ho. rewrite zget_write by done. destruct (Z.leb_spec off p), (Z.ltb_spec p (off + zlen data)); cbn [andb]; [lia|done..].
Qed.

Lemma zlen_read mem off n : 0 <= off -> 0 <= n -> off + n <= zlen mem -> zlen (read_bytes mem off n) = n.
Proof. unfold read_bytes, zlen. intros. rewrite length_take, length_drop. lia. Qed.
Lemma zget_read mem off n i : 0 <= off -> 0 <= i < n -> zget (read_bytes mem off n) i = zget mem (off + i).
Proof. intros. unfold read_bytes. rewrite zget_take, zget_drop by lia. f_equal. lia. Qed.

(** Reading depends on the bytes read. *)
Lemma read_ext mem mem' off n :
  0 <= off -> 0 <= n -> off + n <= zlen mem -> off + n <= zlen mem' ->
  (forall p, off <= p < off + n -> zget mem' p = zget mem p) -> read_bytes mem' off n = read_bytes mem off n.
Proof.
  intros Ho Hn H1 H2 He. apply zget_ext; rewrite !zlen_read by lia; [done|]. intros i Hi. rewrite !zget_read by lia. apply He. lia.
Qed.
Lemma read_write mem off data n : fits_at mem off data -> n = zlen data -> read_bytes (write_bytes mem off data) off n = data.
Proof.
  intros H ->. pose proof (zlen_nonneg data). destruct H as [H1 H2].
  assert (Hf : fits_at mem off data) by done. apply zget_ext.
  - apply zlen_read; rewrite ?zlen_write; done.
  - rewrite zlen_read by (rewrite ?zlen_write; done). intros i Hi. rewrite zget_read, zget_write_in by (done || lia). f_equal. lia.
Qed.

Lemma take_write mem data n : zlen data = Z.of_nat n -> zlen data <= zlen mem -> take n (write_bytes mem 0 data) = data.
Proof.
  intros Hn Hl. change (take n (write_bytes mem 0 data)) with (take n (drop 0 (write_bytes mem 0 data))).
  rewrite <- (Nat2Z.id n) at 1. apply (read_write mem 0 data (Z.of_nat n)); [split; lia|lia].
Qed.

(** ** Words *)

Lemma zlen_le n v : zlen (le n v) = Z.of_nat n.
Proof. revert v. induction n as [|n IH]; intros v; [done|]. cbn [le]. rewrite zlen_cons, IH. lia. Qed.
Lemma length_le n v : length (le n v) = n.
Proof. pose proof (zlen_le n v). unfold zlen in *. lia. Qed.
Lemma un_le_le n v : un_le (le n v) = v mod 2 ^ (8 * Z.of_nat n).
Proof.
  revert v. induction n as [|n IH]; intros v; cbn [le un_le]; [by rewrite Z.mod_1_r|]. rewrite IH.
  replace (8 * Z.of_nat (S n)) with (8 + 8 * Z.of_nat n) by lia. rewrite Z.pow_add_r by lia.
  change (2 ^ 8) with 256. rewrite Z.rem_mul_r by lia. done.
Qed.

(** ** Records in memory *)

Definition rec_fits (r : CFE_ES_CDS_RegRec_t) : Prop :=
  is_u32 (rr_BlockID r) /\ is_u64 (rr_BlockOffset r) /\ is_u64 (rr_BlockSize r) /\ length (rr_Name r) = 40%nat.

Lemma encode_rec_length r : length (rr_Name r) = 40%nat -> length (encode_rec r) = 72%nat.
Proof. intros H. unfold encode_rec. rewrite !length_app, !length_le, !length_replicate, H. done. Qed.

Lemma decode_encode_rec r : rec_fits r -> decode_rec (encode_rec r) = r.
Proof.
  intros (H1 & H2 & H3 & H4). unfold decode_rec, encode_rec. destruct r as [id o n nm t]. cbn [rr_BlockID rr_BlockOffset rr_BlockSize rr_Name rr_Table] in *.
  assert (E : forall k (l1 l2 : list Z), length l1 = k -> drop k (l1 ++ l2) = l2) by (intros k l1 l2 <-; apply drop_app_length).
  assert (F : forall k (l1 l2 : list Z), length l1 = k -> take k (l1 ++ l2) = l1) by (intros k l1 l2 <-; apply take_app_length).
  rewrite (F 4%nat) by apply length_le. rewrite un_le_le. rewrite Z.mod_small by (unfold is_u32 in *; lia).
  rewrite (app_assoc (le 4 id)), (E 8%nat) by (by rewrite length_app, length_le).
  rewrite (F 8%nat) by apply length_le. rewrite un_le_le. rewrite Z.mod_small by (unfold is_u64 in *; lia).
  rewrite (app_assoc (le 4 id ++ _)), (E 16%nat) by (by rewrite !length_app, !length_le).
  rewrite (F 8%nat) by apply length_le. rewrite un_le_le. rewrite Z.mod_small by (unfold is_u64 in *; lia).
  rewrite (app_assoc ((le 4 id ++ _) ++ _)), (E 24%nat) by (by rewrite !length_app, !length_le).
  rewrite (F 40%nat) by done. f_equal. rewrite app_assoc. rewrite zget_app_r by (unfold zlen; rewrite !length_app, !length_le, H4; cbn; lia).
  unfold zlen. rewrite !length_app, !length_le, H4. by destruct t.
Qed.

Lemma encode_reg_length reg : Forall (fun r => length (rr_Name r) = 40%nat) reg -> length (encode_reg reg) = (72 * length reg)%nat.
Proof.
  induction 1 as [|r reg Hr _ IH]; [done|]. unfold encode_reg in *. cbn [map concat length]. rewrite length_app, encode_rec_length, IH by done. lia.
Qed.

Lemma decode_encode_reg reg : Forall rec_fits reg -> decode_reg (length reg) (encode_reg reg) = reg.
Proof.
  induction 1 as [|r reg Hr _ IH]; [done|]. unfold encode_reg in *. cbn [map concat length decode_reg].
  assert (Hl : length (encode_rec r) = 72%nat) by apply encode_rec_length, Hr.
  rewrite <- Hl at 1. rewrite take_app_length, <- Hl at 1. rewrite drop_app_length, decode_encode_rec, IH by done. done.
Qed.

(** ** The cache as a storage *)

Lemma load_shift n l l' a b :
  (forall i, 0 <= i < Z.of_nat n -> zget l' (b + i) = zget l (a + i)) -> load n l' b = load n l a.
Proof.
  revert a b. induction n as [|n IH]; intros a b He; cbn [load]; [done|].
  pose proof (He 0 ltac:(lia)) as H0. rewrite !Z.add_0_r in H0. rewrite H0, (IH (a + 1)); [done|].
  intros i Hi. pose proof (He (1 + i) ltac:(lia)) as H1. rewrite !Z.add_assoc in H1. exact H1.
Qed.
Lemma load_bd_shift l l' a b :
  (forall i, 0 <= i < DESC -> zget l' (b + i) = zget l (a + i)) -> load_bd l' b = load_bd l a.
Proof.
  change DESC with 24. intros He. unfold load_bd.
  f_equal; apply load_shift; intros i Hi; rewrite <- ?Z.add_assoc; apply He; lia.
Qed.

Definition store_region (s : CdsStore) : Z :=
  if (zlen (c_Data (Cache s)) =? CACHESIZE) && (zlen (cds_mem s) <? 2 ^ 32) then zlen (cds_mem s) else 0.

Lemma store_region_pos s o n :
  0 <= o -> 0 < n -> o + n <= store_region s ->
  zlen (c_Data (Cache s)) = CACHESIZE /\ store_region s = zlen (cds_mem s) /\ zlen (cds_mem s) < 2 ^ 32.
Proof.
  unfold store_region. intros Ho Hn. destruct (Z.eqb_spec (zlen (c_Data (Cache s))) CACHESIZE); cbn [andb]; [|lia].
  destruct (Z.ltb_spec (zlen (cds_mem s)) (2 ^ 32)); [done|lia].
Qed.

Lemma psp_in_range_ok mem o n :
  0 <= o -> 0 < n -> o + n <= zlen mem -> zlen mem < 2 ^ 32 -> psp_in_range mem o n = true /\ u32 o = o /\ u32 n = n.
Proof.
  intros Ho Hn Hr Hm. assert (u32 o = o /\ u32 n = n) as [E1 E2] by (split; apply u32_id; unfold is_u32; lia).
  unfold psp_in_range. rewrite E1, E2. rewrite u32_id by (unfold is_u32; lia).
  rewrite (proj2 (Z.ltb_lt _ _)), (proj2 (Z.leb_le _ _)) by lia. done.
Qed.

Lemma Fetch_ok o n s :
  0 <= o -> 0 < n <= CACHESIZE -> o + n <= zlen (cds_mem s) -> zlen (cds_mem s) < 2 ^ 32 ->
  CFE_ES_CDS_CacheFetch o n s =
  (CFE_SUCCESS, s <| Cache := Cache_t (write_bytes (c_Data (Cache s)) 0 (read_bytes (cds_mem s) o n)) o n CFE_PSP_SUCCESS |>).
Proof.
  intros Ho Hn Hr Hm. unfold CFE_ES_CDS_CacheFetch, CFE_PSP_ReadFromCDS.
  rewrite (proj2 (Z.ltb_lt _ _)), (proj2 (Z.leb_le _ _)) by lia. cbn [andb].
  destruct (psp_in_range_ok (cds_mem s) o n) as (-> & -> & ->); [lia..|]. by destruct s as [m []].
Qed.

Lemma Flush_ok s :
  let c := Cache s in
  0 <= c_Offset c -> 0 < c_Size c <= CACHESIZE -> c_Offset c + c_Size c <= zlen (cds_mem s) -> zlen (cds_mem s) < 2 ^ 32 ->
  CFE_ES_CDS_CacheFlush s =
  (CFE_SUCCESS, cds_store (write_bytes (cds_mem s) (c_Offset c) (take (Z.to_nat (c_Size c)) (c_Data c)))
                  (Cache_t (c_Data c) (c_Offset c) (c_Size c) CFE_PSP_SUCCESS)).
Proof.
  cbv zeta. intros Ho Hn Hr Hm. unfold CFE_ES_CDS_CacheFlush, CFE_PSP_WriteToCDS.
  rewrite (proj2 (Z.ltb_lt _ _)), (proj2 (Z.leb_le _ _)) by lia. cbn [andb].
  destruct (psp_in_range_ok (cds_mem s) (c_Offset (Cache s)) (c_Size (Cache s))) as (-> & -> & ->); [lia..|]. by destruct s as [m []].
Qed.

Lemma zlen_store_bd mem a bd : zlen (store_bd mem a bd) = zlen mem.
Proof. unfold store_bd. by rewrite !zlen_store. Qed.

Lemma zlen_take {A} n (l : list A) : Z.of_nat n <= zlen l -> zlen (take n l) = Z.of_nat n.
Proof. unfold zlen. intros. rewrite length_take. lia. Qed.

(** A descriptor committed through the cache. *)
Lemma Commit_ok o bd s :
  0 <= o -> o + DESC <= zlen (cds_mem s) -> zlen (cds_mem s) < 2 ^ 32 -> zlen (c_Data (Cache s)) = CACHESIZE ->
  let d := store_bd (c_Data (Cache s)) 0 bd in
  Commit o bd s = (CFE_SUCCESS, cds_store (write_bytes (cds_mem s) o (take 24 d)) (Cache_t d o DESC CFE_PSP_SUCCESS)) /\
  fits_at (cds_mem s) o (take 24 d) /\ zlen (take 24 d) = DESC.
Proof.
  intros Ho Hr Hm Hc. cbv zeta. change DESC with 24 in *. unfold CACHESIZE in *.
  assert (Ht : zlen (take 24 (store_bd (c_Data (Cache s)) 0 bd)) = 24) by (apply zlen_take; rewrite zlen_store_bd; lia).
  split; [|by split; [split; lia|]]. cbn [Commit cds_storage]. unfold CFE_ES_CDS_PoolCommit.
  destruct s as [m [d oo n st]]. cbn [Cache cds_mem c_Data] in *.
  cbn [CFE_ES_CDS_CachePreload]. change ((0 <? DESC) && (DESC <=? CACHESIZE)) with true. cbv iota. cbn [snd].
  match goal with |- CFE_ES_CDS_CacheFlush ?x = _ => change x with (cds_store m (Cache_t (store_bd d 0 bd) o 24 st)) end.
  rewrite Flush_ok; [reflexivity|cbn [Cache cds_mem c_Offset c_Size]; unfold CACHESIZE; lia..].
Qed.

#[export] Instance cds_laws : StorageLaws CdsStore.
Proof.
  refine {| desc_at s o := load_bd (cds_mem s) o; region := store_region |}.
  - intros o s Ho Hr. destruct (store_region_pos s o DESC) as (Hc & Er & Hm); [done|reflexivity|done|]. rewrite Er in Hr.
    cbn [Retrieve cds_storage]. unfold CFE_ES_CDS_PoolRetrieve. rewrite Fetch_ok by (done || (change DESC with 24 in *; unfold CACHESIZE; lia)).
    assert (Hrd : zlen (read_bytes (cds_mem s) o DESC) = DESC) by (apply zlen_read; change DESC with 24 in *; lia).
    assert (Hf : fits_at (c_Data (Cache s)) 0 (read_bytes (cds_mem s) o DESC)) by (split; rewrite ?Hrd, ?Hc; change DESC with 24; unfold CACHESIZE; lia).
    eexists. split; [|split].
    + f_equal. f_equal. cbn -[load_bd write_bytes]. apply load_bd_shift. intros i Hi. rewrite zget_write_in, Z.add_0_l, Z.sub_0_r by (done || lia). by apply zget_read.
    + unfold store_region. cbn -[Z.pow]. by rewrite zlen_write.
    + done.
  - intros o bd s Ho Hr Hwf. destruct (store_region_pos s o DESC) as (Hc & Er & Hm); [done|reflexivity|done|]. rewrite Er in Hr.
    destruct (Commit_ok o bd s Ho Hr Hm Hc) as (E & Hf & Ht). eexists. split; [exact E|]. cbn [cds_mem]. split_and!.
    + unfold store_region. cbn -[Z.pow store_bd]. by rewrite zlen_write, zlen_store_bd by done.
    + transitivity (load_bd (store_bd (c_Data (Cache s)) 0 bd) 0); [|apply load_bd_store; [lia|rewrite Hc; unfold CACHESIZE; lia|done]].
      apply load_bd_shift. intros i Hi. rewrite zget_write_in by (done || lia). rewrite zget_take by (change DESC with 24 in *; lia). f_equal. lia.
    + intros o' Ho' Hor. apply load_bd_ext. intros i Hi. apply zget_write_out; [done|lia|]. change DESC with 24 in *. lia.
Defined.
