(* ===== verification/EsCrc.v ===== *)
(** The checksum of [CFE_ES_CalculateCRC]: the table is that of the reflected
    polynomial 0xA001, and data that differs in one byte has another checksum. *)

From S2P Require Import Prelude EdsTypes EdsBits EdsErrorControl CdsModel.

Lemma fold_step {A B} (f : A -> B -> A) b l a : fold_left f (b :: l) a = fold_left f l (f a b).
Proof. done. Qed.

(** One bit and one octet of CRC-16, least significant bit first. *)
Definition arc_bit (c : Z) (b : bool) : Z := Z.lxor (Z.shiftr c 1) (if xorb (Z.testbit c 0) b then 0xA001 else 0).
Definition arc_octet (c b : Z) : Z := fold_left arc_bit (rev (bits 8 b)) c.

Lemma arc_bit_lxor c d b e : arc_bit (Z.lxor c d) (xorb b e) = Z.lxor (arc_bit c b) (arc_bit d e).
Proof.
  apply Z.bits_inj'; intros i Hi. unfold arc_bit.
  assert (Hif : forall u v : bool, Z.testbit (if xorb u v then 0xA001 else 0) i =
    xorb (Z.testbit (if u then 0xA001 else 0) i) (Z.testbit (if v then 0xA001 else 0) i)).
  { intros [] []; cbn [xorb]; rewrite ?Z.bits_0; by destruct (Z.testbit 0xA001 i). }
  rewrite !Z.lxor_spec, !Z.shiftr_spec, !Z.lxor_spec, !Hif by lia.
  repeat match goal with |- context [Z.testbit ?x ?j] => destruct (Z.testbit x j) end; reflexivity.
Qed.

Lemma arc_octet_lxor c d b e : arc_octet (Z.lxor c d) (Z.lxor b e) = Z.lxor (arc_octet c b) (arc_octet d e).
Proof.
  assert (H : forall n c d, fold_left arc_bit (rev (bits n (Z.lxor b e))) (Z.lxor c d) =
    Z.lxor (fold_left arc_bit (rev (bits n b)) c) (fold_left arc_bit (rev (bits n e)) d)); [|apply (H 8%nat)].
  clear c d. intros n. induction n as [|n IH]; intros c d; [done|]. cbn [bits rev]. rewrite !fold_left_app, IH. cbn [fold_left].
  by rewrite Z.lxor_spec, arc_bit_lxor.
Qed.

Lemma arc_table x : 0 <= x < 256 -> zget CrcTable x = arc_octet 0 x.
Proof. intros Hv. eapply bool_decide_eq_true. revert x Hv. apply (exhaust 256). vm_compute. reflexivity. Qed.
Lemma arc_cancel x : 0 <= x < 256 -> arc_octet x x = 0.
Proof. intros Hv. eapply bool_decide_eq_true. revert x Hv. apply (exhaust 256). vm_compute. reflexivity. Qed.
Lemma arc_high x : 0 <= x < 256 -> arc_octet (Z.shiftl x 8) 0 = x.
Proof. intros Hv. eapply bool_decide_eq_true. revert x Hv. apply (exhaust 256). vm_compute. reflexivity. Qed.
Lemma arc_entry_range x : 0 <= x < 256 -> (0 <=? arc_octet 0 x) && (arc_octet 0 x <? 65536) = true.
Proof. revert x. apply (exhaust 256). vm_compute. reflexivity. Qed.
Lemma arc_nonzero x : 0 <= x < 256 -> arc_octet 0 x = 0 -> x = 0.
Proof.
  intros Hv. assert (H : negb (arc_octet 0 x =? 0) || (x =? 0) = true) by (revert x Hv; apply (exhaust 256); vm_compute; reflexivity).
  intros E. rewrite E in H. cbn in H. lia.
Qed.

(** The octet step in terms of the two halves of the register. *)
Lemma arc_octet_halves c b :
  is_crc 16 c -> 0 <= b < 256 ->
  arc_octet c b = Z.lxor (Z.shiftr c 8) (arc_octet 0 (Z.lxor (Z.land c 255) b)) /\ 0 <= Z.lxor (Z.land c 255) b < 256.
Proof.
  intros Hc Hb. destruct (crc16_halves c Hc) as (H1 & H2 & E). unfold is_octet in *. split.
  - rewrite E at 1. rewrite <- (Z.lxor_0_l b) at 1. rewrite arc_octet_lxor, arc_high by done. f_equal.
    rewrite <- (Z.lxor_0_r (Z.land c 255)) at 1. replace b with (Z.lxor (Z.land c 255) (Z.lxor (Z.land c 255) b)) at 1
      by (by rewrite <- Z.lxor_assoc, Z.lxor_nilpotent, Z.lxor_0_l).
    rewrite arc_octet_lxor, arc_cancel, Z.lxor_0_l by done. done.
  - apply (lxor_bounds _ _ 8); lia.
Qed.

Lemma arc_octet_range c b : is_crc 16 c -> 0 <= b < 256 -> is_crc 16 (arc_octet c b).
Proof.
  intros Hc Hb. destruct (arc_octet_halves c b Hc Hb) as [-> Hx]. destruct (crc16_halves c Hc) as (H1 & _). unfold is_octet, is_crc in *.
  pose proof (arc_entry_range _ Hx) as Hr. apply (lxor_bounds _ _ 16); lia.
Qed.

(** ** The signed register *)

Lemma s16_u16 x : u16 (s16 x) = u16 x.
Proof.
  unfold s16. pose proof (u16_range x) as Hx. unfold is_u16 in *. destruct (Z.ltb_spec (u16 x) (2 ^ 15)); [by apply u16_id|].
  unfold u16 at 1. rewrite <- (Z.mod_add (u16 x - 2 ^ 16) 1) by lia. rewrite Z.mod_small; lia.
Qed.
Lemma s16_id x : is_crc 16 x -> u16 (s16 x) = x.
Proof. intros H. rewrite s16_u16. by apply u16_id. Qed.
Lemma s16_range x : - 2 ^ 15 <= s16 x < 2 ^ 15.
Proof. unfold s16. pose proof (u16_range x) as Hx. unfold is_u16 in *. case_test; lia. Qed.
Lemma u16_s16 x : - 2 ^ 15 <= x < 2 ^ 15 -> s16 (u16 x) = x.
Proof.
  intros H. assert (E : u16 (u16 x) = u16 x) by (apply u16_id, u16_range). unfold s16. rewrite E. unfold u16.
  destruct (Z.lt_ge_cases x 0).
  - rewrite <- (Z.mod_add x 1), Z.mod_small by lia. case_test; lia.
  - rewrite Z.mod_small by lia. case_test; lia.
Qed.

Lemma u16_crc x : is_crc 16 (u16 x).
Proof. exact (u16_range x). Qed.

Lemma land_255 x : Z.land x 0xFF = x mod 256.
Proof. change 0xFF with (Z.ones 8). by rewrite Z.land_ones. Qed.

(** The step of the code on the signed register is the octet step. *)
Lemma crc_step_arc C b :
  - 2 ^ 15 <= C < 2 ^ 15 -> 0 <= b < 256 -> crc_step C b = s16 (arc_octet (u16 C) b).
Proof.
  intros HC Hb. pose proof (u16_range C) as Hu. change (is_crc 16 (u16 C)) in Hu. destruct (arc_octet_halves _ b Hu Hb) as [-> Hx].
  unfold crc_step. assert (E1 : Z.land (Z.lxor C b) 0xFF = Z.lxor (Z.land (u16 C) 255) b).
  { apply Z.bits_inj'; intros i Hi. change 255 with (Z.ones 8). change 0xFF with (Z.ones 8).
    rewrite Z.land_spec, !Z.lxor_spec, Z.land_spec. unfold u16. destruct (decide (i < 8)).
    - rewrite Z.mod_pow2_bits_low, Z.ones_spec_low by lia. by rewrite !andb_true_r.
    - rewrite Z.ones_spec_high, !andb_false_r by lia. symmetry. cbn [xorb].
      destruct (decide (b = 0)) as [->|]; [apply Z.bits_0|]. apply Z.bits_above_log2; [lia|].
      apply Z.lt_le_trans with 8; [apply Z.log2_lt_pow2; lia|lia]. }
  assert (E2 : Z.land (Z.shiftr C 8) 0xFF = Z.shiftr (u16 C) 8).
  { apply Z.bits_inj'; intros i Hi. change 0xFF with (Z.ones 8). rewrite Z.land_spec, !Z.shiftr_spec by lia. unfold u16.
    destruct (decide (i < 8)).
    - rewrite Z.mod_pow2_bits_low, Z.ones_spec_low by lia. by rewrite andb_true_r.
    - rewrite Z.mod_pow2_bits_high, Z.ones_spec_high by lia. by rewrite andb_false_r. }
  rewrite E1, E2, arc_table by done. done.
Qed.

Lemma crc_fold_arc l C :
  - 2 ^ 15 <= C < 2 ^ 15 -> Forall (fun b => 0 <= b < 256) l ->
  fold_left crc_step l C = s16 (fold_left arc_octet l (u16 C)) /\ is_crc 16 (fold_left arc_octet l (u16 C)).
Proof.
  intros HC Hl. revert C HC. induction Hl as [|b l Hb _ IH]; intros C HC; [|rewrite !fold_step].
  - split; [symmetry; by apply u16_s16|apply u16_crc].
  - pose proof (arc_octet_range (u16 C) b (u16_crc C) Hb) as Hr. rewrite (crc_step_arc C b HC Hb).
    pose proof (IH (s16 (arc_octet (u16 C) b)) (s16_range _)) as H2. rewrite (s16_id _ Hr) in H2. exact H2.
Qed.

(** ** Detection of a changed byte *)

Lemma arc_bit_inj c d b : is_crc 16 c -> is_crc 16 d -> arc_bit c b = arc_bit d b -> c = d.
Proof.
  intros Hc Hd E. assert (E0 : arc_bit (Z.lxor c d) false = 0).
  { replace false with (xorb b b) by (by destruct b). by rewrite arc_bit_lxor, E, Z.lxor_nilpotent. }
  apply Z.lxor_eq. unfold is_crc in *. pose proof (lxor_bounds c d 16 ltac:(lia) Hc Hd) as Hx. set (x := Z.lxor c d) in *. clearbody x.
  unfold arc_bit in E0. rewrite xorb_false_r in E0. rewrite Z.shiftr_div_pow2 in E0 by lia. change (2 ^ 1) with 2 in *.
  destruct (Z.testbit x 0) eqn:E1.
  - apply Z.lxor_eq in E0. assert (x / 2 < 32768) by (apply Z.div_lt_upper_bound; lia). lia.
  - rewrite Z.lxor_0_r in E0. pose proof (Z.div_mod x 2 ltac:(lia)) as Hd2. rewrite Z.bit0_odd in E1. rewrite Zmod_odd, E1 in Hd2.
    lia.
Qed.

Lemma arc_bit_range c b : is_crc 16 c -> is_crc 16 (arc_bit c b).
Proof.
  intros Hc. unfold is_crc in *. apply lxor_bounds; [lia| |by case_match].
  rewrite Z.shiftr_div_pow2 by lia. split; [apply Z.div_pos; lia|]. apply Z.div_lt_upper_bound; lia.
Qed.

Lemma arc_octet_inj c d b : is_crc 16 c -> is_crc 16 d -> arc_octet c b = arc_octet d b -> c = d.
Proof.
  unfold arc_octet. generalize (rev (bits 8 b)). intros l. revert c d. induction l as [|x l IH]; intros c d Hc Hd; [done|].
  rewrite !fold_step. intros E. apply (arc_bit_inj c d x); [done..|]. by apply IH; [apply arc_bit_range..|].
Qed.

Lemma arc_fold_inj l c d :
  Forall (fun b => 0 <= b < 256) l -> is_crc 16 c -> is_crc 16 d -> fold_left arc_octet l c = fold_left arc_octet l d -> c = d.
Proof.
  intros Hl. revert c d. induction Hl as [|b l Hb _ IH]; intros c d Hc Hd; [done|]. rewrite !fold_step. intros E.
  apply (arc_octet_inj c d b); [done..|]. by apply IH; [apply arc_octet_range..|].
Qed.

Lemma arc_byte_detected l1 l2 x y c :
  Forall (fun b => 0 <= b < 256) (l1 ++ x :: l2) -> 0 <= y < 256 -> is_crc 16 c ->
  fold_left arc_octet (l1 ++ x :: l2) c = fold_left arc_octet (l1 ++ y :: l2) c -> x = y.
Proof.
  intros Hl Hy Hc. apply Forall_app in Hl as [H1 H2]. apply Forall_cons_1 in H2 as [Hx H2]. rewrite !fold_left_app, !fold_step.
  assert (Hm : is_crc 16 (fold_left arc_octet l1 c)).
  { clear - H1 Hc. revert c Hc. induction H1 as [|b l Hb _ IH]; intros c Hc; [done|]. rewrite fold_step. apply IH. by apply arc_octet_range. }
  set (m := fold_left arc_octet l1 c) in *. intros E. apply arc_fold_inj in E; [|done|by apply arc_octet_range..].
  assert (E0 : arc_octet 0 (Z.lxor x y) = 0).
  { transitivity (arc_octet (Z.lxor m m) (Z.lxor x y)); [by rewrite Z.lxor_nilpotent|]. rewrite arc_octet_lxor, E. apply Z.lxor_nilpotent. }
  apply arc_nonzero in E0; [by apply Z.lxor_eq|]. apply (lxor_bounds _ _ 8); lia.
Qed.

Definition bytes (l : list Z) : Prop := Forall (fun b => 0 <= b < 256) l.

(** The whole computation. *)
Lemma CalculateCRC_arc d InputCRC :
  bytes d -> d <> [] ->
  CFE_ES_CalculateCRC (Some d) (zlen d) InputCRC CFE_MISSION_ES_CRC_16 = u32 (s16 (fold_left arc_octet d (u16 InputCRC))) /\
  is_crc 16 (fold_left arc_octet d (u16 InputCRC)).
Proof.
  intros Hd Hne. unfold CFE_ES_CalculateCRC. assert (Hz : (zlen d =? 0) = false).
  { destruct d; [done|]. rewrite zlen_cons. pose proof (zlen_nonneg d). lia. }
  rewrite Hz. unfold zlen at 1. rewrite Nat2Z.id, take_ge by lia. change (_ =? _) with true. cbv iota.
  destruct (crc_fold_arc d (s16 (Z.land 65535 InputCRC)) (s16_range _) Hd) as [-> Hr].
  rewrite s16_u16 in *. replace (u16 (Z.land 65535 InputCRC)) with (u16 InputCRC) in *; [done|].
  rewrite Z.land_comm. change 65535 with (Z.ones 16). rewrite Z.land_ones by lia. unfold u16. by rewrite Z.mod_mod.
Qed.

Lemma sign_extend_inj a b : is_crc 16 a -> is_crc 16 b -> u32 (s16 a) = u32 (s16 b) -> a = b.
Proof.
  intros Ha Hb Eu. rewrite <- (s16_id a), <- (s16_id b) by done.
  assert (Hdiv : forall z, u16 (u32 z) = u16 z).
  { intros z. unfold u16, u32. change (2 ^ 32) with (2 ^ 16 * 2 ^ 16).
    rewrite Z.rem_mul_r by lia. rewrite (Z.mul_comm (2 ^ 16)), Z.mod_add by lia. apply Z.mod_mod. lia. }
  rewrite <- (Hdiv (s16 a)), Eu. apply Hdiv.
Qed.

(** A change of one byte changes the checksum. *)
Lemma CalculateCRC_detects l1 x l2 y InputCRC :
  bytes (l1 ++ x :: l2) -> 0 <= y < 256 ->
  CFE_ES_CalculateCRC (Some (l1 ++ y :: l2)) (zlen (l1 ++ x :: l2)) InputCRC CFE_MISSION_ES_CRC_16 =
  CFE_ES_CalculateCRC (Some (l1 ++ x :: l2)) (zlen (l1 ++ x :: l2)) InputCRC CFE_MISSION_ES_CRC_16 -> y = x.
Proof.
  intros Hd Hy. assert (Hd2 : bytes (l1 ++ y :: l2)).
  { apply Forall_app in Hd as [? H2]. apply Forall_cons_1 in H2 as [? ?]. apply Forall_app. split; [done|]. by constructor. }
  destruct (CalculateCRC_arc _ InputCRC Hd) as [E1 R1]; [by destruct l1|]. destruct (CalculateCRC_arc _ InputCRC Hd2) as [E2 R2]; [by destruct l1|].
  assert (El : zlen (l1 ++ y :: l2) = zlen (l1 ++ x :: l2)) by (rewrite !zlen_app, !zlen_cons; done). rewrite El in E2.
  rewrite E1, E2. intros E. apply sign_extend_inj in E; [|done..]. symmetry in E. symmetry.
  exact (arc_byte_detected l1 l2 x y _ Hd Hy (u16_crc InputCRC) E).
Qed.

(** C40. The table of [CFE_ES_CalculateCRC] implements the bit-serial CRC-16 with
    the reflected polynomial 0xA001, and the 16-bit result comes back with its
    sign extended; data that differs in one byte has another checksum. *)
Theorem CalculateCRC_serial (data : list Z) (InputCRC : Z) :
  bytes data -> data <> [] ->
  CFE_ES_CalculateCRC (Some data) (zlen data) InputCRC CFE_MISSION_ES_CRC_16 =
    u32 (s16 (fold_left arc_octet data (u16 InputCRC))) /\
  forall l1 x l2 y, data = l1 ++ x :: l2 -> 0 <= y < 256 ->
    CFE_ES_CalculateCRC (Some (l1 ++ y :: l2)) (zlen data) InputCRC CFE_MISSION_ES_CRC_16 =
    CFE_ES_CalculateCRC (Some data) (zlen data) InputCRC CFE_MISSION_ES_CRC_16 -> y = x.
Proof.
  intros Hd Hne. split; [by apply CalculateCRC_arc|]. intros l1 x l2 y -> Hy. by apply CalculateCRC_detects.
Qed.

(** "123456789", and the same with its first digit changed. *)
Lemma CalculateCRC_serial_witness :
  CFE_ES_CalculateCRC (Some [49; 50; 51; 52; 53; 54; 55; 56; 57]) 9 0 CFE_MISSION_ES_CRC_16 = 0xFFFFBB3D /\
  CFE_ES_CalculateCRC (Some [48; 50; 51; 52; 53; 54; 55; 56; 57]) 9 0 CFE_MISSION_ES_CRC_16 <> 0xFFFFBB3D.
Proof.
  destruct (CalculateCRC_serial [49; 50; 51; 52; 53; 54; 55; 56; 57] 0) as [H1 H2]; [repeat constructor; lia|discriminate|].
  assert (E : CFE_ES_CalculateCRC (Some [49; 50; 51; 52; 53; 54; 55; 56; 57]) 9 0 CFE_MISSION_ES_CRC_16 = 0xFFFFBB3D).
  { etransitivity; [exact H1|]. vm_compute. reflexivity. }
  split; [exact E|]. intros E2. specialize (H2 [] 49 [50; 51; 52; 53; 54; 55; 56; 57] 48 eq_refl ltac:(lia)).
  assert (48 = 49) by (apply H2; etransitivity; [exact E2|symmetry; exact E]). lia.
Defined.
