(* ===== verification/CdsInv.v ===== *)
(** The invariant of the critical data store, and what its operations keep. *)

From Stdlib Require Import Permutation.
From S2P Require Import Prelude Records ResourceId GenPool GenPoolInit GenPoolProofs DirectStorage GenPoolOps GenPoolTheorems CdsModel CdsProofs.

(** Reads a field of an updated record. *)
Ltac simp_cds :=
  cbn [upd eta_RegRec eta_Cache eta_CdsStore eta_Cds rr_BlockID rr_BlockOffset rr_BlockSize rr_Name rr_Table
    c_Data c_Offset c_Size c_AccessStatus cds_mem Cache Store Pool TotalSize DataSize LastCDSBlockId Registry CDSIsAvailable] in *.

(** ** Bytes that pool operations keep *)

Definition store_wf (s : CdsStore) : Prop := zlen (c_Data (Cache s)) = CACHESIZE /\ zlen (cds_mem s) <= 2 ^ 31.

Definition same_bytes (s s' : CdsStore) (lo hi : Z) : Prop := forall p, lo <= p < hi -> zget (cds_mem s') p = zget (cds_mem s) p.

Lemma Retrieve_mem o s st bd s' : store_wf s -> Retrieve o s = (st, bd, s') -> cds_mem s' = cds_mem s /\ store_wf s'.
Proof.
  intros [Hc Hm]. cbn [Retrieve cds_storage]. unfold CFE_ES_CDS_PoolRetrieve, CFE_ES_CDS_CacheFetch, CFE_PSP_ReadFromCDS.
  change ((0 <? DESC) && (DESC <=? CACHESIZE)) with true. cbv iota. destruct (psp_in_range _ _ _).
  - intros [= <- <- <-]. split; [done|]. split; [|done]. simp_cds. rewrite zlen_write; [done|]. split; [lia|]. rewrite Hc.
    unfold read_bytes, zlen. rewrite length_take. change (u32 DESC) with 24. unfold CACHESIZE. lia.
  - by intros [= <- <- <-].
Qed.

Lemma Commit_mem o bd s st s' :
  store_wf s -> Commit o bd s = (st, s') ->
  store_wf s' /\ zlen (cds_mem s') = zlen (cds_mem s) /\
  (forall p, 0 <= p -> (st = CFE_SUCCESS -> p < u32 o \/ u32 o + DESC <= p) -> zget (cds_mem s') p = zget (cds_mem s) p).
Proof.
  intros [Hc Hm]. pose proof (u32_range o) as Ho. unfold is_u32 in Ho.
  cbn [Commit cds_storage]. unfold CFE_ES_CDS_PoolCommit, CFE_ES_CDS_CachePreload.
  change ((0 <? DESC) && (DESC <=? CACHESIZE)) with true. cbv iota. cbn [snd]. unfold CFE_ES_CDS_CacheFlush, CFE_PSP_WriteToCDS. simp_cds.
  change ((0 <? DESC) && (DESC <=? CACHESIZE)) with true. cbv iota. destruct (psp_in_range (cds_mem s) o DESC) eqn:E.
  - unfold psp_in_range in E. change (u32 DESC) with 24 in *. apply andb_true_iff in E as [E1 E2].
    rewrite u32_id in E2 by (unfold is_u32; lia). set (d := take _ _).
    assert (Hd : zlen d = 24) by (apply zlen_take; rewrite zlen_store_bd, Hc; unfold CACHESIZE; lia).
    assert (Hf : fits_at (cds_mem s) (u32 o) d) by (split; lia). clearbody d. intros [= <- <-]. simp_cds. split_and!.
    + split; simp_cds; [by rewrite zlen_store_bd|by rewrite zlen_write].
    + by apply zlen_write.
    + intros p Hp Hor. apply zget_write_out; [done..|]. rewrite Hd. by apply Hor.
  - intros [= <- <-]. simp_cds. split_and!; [|done..]. split; [|done]. simp_cds. by rewrite zlen_store_bd.
Qed.

(** What is kept outside the descriptors that are written. *)
Lemma touched_mem D s s' :
  touched D s s' -> store_wf s ->
  store_wf s' /\ zlen (cds_mem s') = zlen (cds_mem s) /\
  forall p, 0 <= p -> (forall d, D d -> p < u32 d \/ u32 d + DESC <= p) -> zget (cds_mem s') p = zget (cds_mem s) p.
Proof.
  induction 1 as [s|s o st bd s1 s' E _ IH|s o bd st s1 s' E Hd _ IH]; intros Hwf; [done|..].
  - destruct (Retrieve_mem _ _ _ _ _ Hwf E) as [E1 H1]. rewrite <- E1. by apply IH.
  - destruct (Commit_mem _ _ _ _ _ Hwf E) as (H1 & H2 & H3). destruct (IH H1) as (H4 & H5 & H6). split_and!; [done|congruence|].
    intros p Hp Hf. rewrite H6 by done. apply H3; [done|]. intros Hs. by apply Hf, Hd.
Qed.

(** ** The part of the state below the registry *)

Section Inv.
Variable cfg : CdsConfig.
Abbreviation MAX := (CFE_PLATFORM_ES_CDS_MAX_NUM_ENTRIES cfg).
Abbreviation SIZES := (CFE_ES_CDSMemPoolDefSize cfg).
Abbreviation POOL := (CDS_POOL_OFFSET cfg).

Record cds_cfg_ok : Prop := {
  cc_max : 0 < MAX <= CFE_RESOURCEID_MAX;
  cc_num : (1 <= length SIZES <= 17)%nat;
  cc_sizes : Forall (fun z => 0 < z < 2 ^ 30) SIZES }.

(** [hl]: the blocks in use with their sizes. *)
Record cds_core (c : CDS) (hl : list (Z * Z)) : Prop := {
  co_wf : store_wf (Store c);
  co_total : TotalSize c <= zlen (cds_mem (Store c));
  co_size : TotalSize c = Z.land (u32 (zlen (cds_mem (Store c)))) 0xfffffffc /\
    u64 (CDS_RESERVED_MIN_SIZE cfg + CFE_ES_CDSReqdMinSize cfg MAX) <= TotalSize c;
  co_data : DataSize c = TotalSize c - CDS_RESERVED_MIN_SIZE cfg;
  co_max : PoolMaxOffset (Pool c) = TotalSize c - CDS_TRAILER_SIZE;
  co_pool : client_inv 2 POOL (mk_client (Pool c) (Store c) hl);
  co_shape : same_shape (snd (CFE_ES_GenPoolInitialize POOL (DataSize c) 4 SIZES)) (Pool c);
  co_blank : forall p, TailPosition (Pool c) <= p < PoolMaxOffset (Pool c) -> zget (cds_mem (Store c)) p = 0;
  co_begin : read_bytes (cds_mem (Store c)) 0 12 = CFE_ES_CDS_SIGNATURE_BEGIN ++ le 4 MAX;
  co_end : read_bytes (cds_mem (Store c)) (TotalSize c - CDS_TRAILER_SIZE) 8 = CFE_ES_CDS_SIGNATURE_END;
  co_avail : CDSIsAvailable c = true }.

Lemma core_bounds c hl :
  cds_cfg_ok -> cds_core c hl -> 84 <= POOL <= TailPosition (Pool c) /\ TailPosition (Pool c) <= PoolMaxOffset (Pool c) /\ POOL = 12 + 72 * MAX.
Proof.
  intros [Hmx _ _] Hc. pose proof (co_pool _ _ Hc) as (A & HR & _). cbn in HR. pose proof (r_start _ _ _ _ _ HR). pose proof (r_region _ _ _ _ _ HR).
  unfold CDS_POOL_OFFSET, CDS_REG_OFFSET, RECSIZE in *. lia.
Qed.

(** A block in use, in the memory. *)
Lemma core_block c hl l1 o n l2 :
  cds_core c hl -> hl = l1 ++ (o, n) :: l2 ->
  POOL + DESC <= o /\ o + n <= TailPosition (Pool c) /\ TailPosition (Pool c) <= PoolMaxOffset (Pool c) /\ 0 < n /\
  (forall o' n', In (o', n') (l1 ++ l2) -> o' + n' <= o - DESC \/ o + n <= o' - DESC).
Proof.
  intros Hc ->. pose proof (co_pool _ _ Hc) as Hi. destruct (client_block 2 POOL _ l1 l2 o n Hi eq_refl) as (H1 & H2 & H3 & _ & H5 & _).
  destruct Hi as (A & HR & _ & Hpos). cbn in *. pose proof (r_region _ _ _ _ _ HR). split_and!; try done; try lia.
  apply Forall_app in Hpos as [_ Hpos]. by apply Forall_cons_1 in Hpos as [? _].
Qed.

(** Changes of the memory that keep the core: [s'] differs in bytes that are not
    the header, not the trailer and not behind the tail. *)
Lemma core_change c hl P s hl' :
  cds_core c hl -> store_wf s -> zlen (cds_mem s) = zlen (cds_mem (Store c)) ->
  client_inv 2 POOL (mk_client P s hl') -> same_shape (Pool c) P -> TailPosition (Pool c) <= TailPosition P ->
  same_bytes (Store c) s 0 12 -> same_bytes (Store c) s (TailPosition P) (zlen (cds_mem s)) ->
  cds_core (c <| Pool := P |> <| Store := s |>) hl'.
Proof.
  intros [H1 H2 H2' H3 H4 H5 H6 H7 H8 H9 H10] Hwf Hl Hi Hs Ht Hb He. pose proof Hs as (_ & Em & _).
  destruct Hi as (A & HR & Hi). cbn in HR. pose proof (r_region _ _ _ _ _ HR) as Hr. pose proof (r_start _ _ _ _ _ HR) as Hst.
  assert (0 <= POOL) by lia. unfold CDS_TRAILER_SIZE in *.
  assert (Hlen : 12 <= zlen (cds_mem (Store c))).
  { apply (f_equal zlen) in H8. revert H8. unfold read_bytes, zlen. rewrite length_take, length_drop, length_app, length_le. cbn [length CFE_ES_CDS_SIGNATURE_BEGIN]. lia. }
  constructor; simp_cds.
  - done.
  - lia.
  - by rewrite Hl.
  - done.
  - by rewrite Em.
  - by exists A.
  - by eapply same_shape_trans.
  - intros p Hp. rewrite He by lia. apply H7. lia.
  - rewrite <- H8. apply read_ext; try lia. intros p Hp. apply Hb. lia.
  - rewrite <- H9. apply read_ext; try lia. intros p Hp. apply He. lia.
  - done.
Qed.

(** Getting a block keeps the bytes of the blocks in use. *)
Lemma core_get c hl n rc out P s :
  cds_cfg_ok -> cds_core c hl -> 0 < n -> CFE_ES_GenPoolGetBlock (Pool c) n (Store c) = (rc, out, P, s) ->
  cds_core (c <| Pool := P |> <| Store := s |>) (hold out n hl) /\ rc = (if out is Some _ then CFE_SUCCESS else CFE_ES_ERR_MEM_BLOCK_SIZE) /\
  same_bytes (Store c) s 0 POOL /\ forall o' n', In (o', n') hl -> same_bytes (Store c) s o' (o' + n').
Proof.
  intros Hcfg Hc Hn E. pose proof (core_bounds _ _ Hcfg Hc) as Hb. pose proof (co_pool _ _ Hc) as (A & HR & Hp & Hpos). cbn in HR, Hp, Hpos.
  destruct (GetBlock_grows 2 POOL _ _ A n rc out P s HR E) as [Hs Ht].
  pose proof (inv_get 2 POOL _ _ _ _ _ _ _ _ (co_pool _ _ Hc) Hn E) as Hi.
  destruct (touched_mem _ _ _ (GetBlock_touched _ _ _ _ _ _ _ E) (co_wf _ _ Hc)) as (Hwf & Hl & Hf).
  assert (Hout : forall o, out = Some o -> POOL + DESC <= o /\ o <= TailPosition P /\ u32 (u64 (o - CFE_ES_GENERIC_POOL_DESCRIPTOR_SIZE)) = o - DESC /\
    forall o' n', In (o', n') hl -> o' + n' <= o - DESC \/ o <= o').
  { intros o ->. cbn [hold] in Hi. destruct (client_block 2 POOL _ [] hl o n Hi eq_refl) as (B1 & B2 & B3 & _ & B5 & _). cbn [c_pool] in *.
    destruct Hi as (A' & HR' & _). pose proof (cf_max _ _ (r_conf _ _ _ _ _ HR')) as Hmax. cbn in Hmax. change CFE_ES_GENERIC_POOL_DESCRIPTOR_SIZE with DESC.
    change DESC with 24 in *. split_and!; [lia|lia|rewrite u64_id, u32_id; unfold is_u64, is_u32; lia|].
    intros o' n' Hin. destruct (B5 o' n' Hin); lia. }
  assert (Hkeep : forall p, 0 <= p -> (forall o, out = Some o -> p < o - DESC \/ o <= p) -> zget (cds_mem s) p = zget (cds_mem (Store c)) p).
  { intros p Hp0 Ho. apply Hf; [done|]. intros d (o & Eo & ->). destruct (Hout o Eo) as (_ & _ & -> & _). destruct (Ho o Eo); lia. }
  split_and!.
  - apply (core_change c hl); try done.
    + intros p Hp1. apply Hkeep; [lia|]. intros o Eo. destruct (Hout o Eo) as (? & _). change DESC with 24 in *. lia.
    + intros p Hp1. apply Hkeep; [lia|]. intros o Eo. destruct (Hout o Eo) as (? & ? & _). lia.
  - destruct (GetBlock_eff 2 POOL _ _ A n HR ltac:(lia)) as (rc1 & out1 & P1 & m1 & A1 & E1 & Hspec & _).
    rewrite E in E1. injection E1 as <- <- <- <-. by inversion Hspec; subst.
  - intros p Hp1. apply Hkeep; [lia|]. intros o Eo. destruct (Hout o Eo) as (? & _). lia.
  - intros o' n' Hin p Hp1. apply in_split in Hin as (l1 & l2 & El). destruct (core_block _ _ _ _ _ _ Hc El) as (B1 & _).
    apply Hkeep; [change DESC with 24 in *; lia|]. intros o Eo. destruct (Hout o Eo) as (_ & _ & _ & Ha).
    destruct (Ha o' n'); [rewrite El; apply in_swap; by left|lia..].
Qed.

Lemma core_put c hl l1 o n l2 :
  cds_cfg_ok -> cds_core c hl -> hl = l1 ++ (o, n) :: l2 ->
  exists P s, CFE_ES_GenPoolPutBlock (Pool c) o (Store c) = (CFE_SUCCESS, Some n, P, s) /\
  cds_core (c <| Pool := P |> <| Store := s |>) (l1 ++ l2) /\
  same_bytes (Store c) s 0 POOL /\ forall o' n', In (o', n') (l1 ++ l2) -> same_bytes (Store c) s o' (o' + n').
Proof.
  intros Hcfg Hc El. pose proof (core_bounds _ _ Hcfg Hc) as Hb. destruct (core_block _ _ _ _ _ _ Hc El) as (B1 & B2 & B3 & B4 & B5).
  pose proof (co_pool _ _ Hc) as Hi. destruct Hi as (A & HR & Hp & Hpos). cbn in HR, Hp, Hpos.
  assert (Hin : In (o, n) (used_blocks A)) by (apply (Permutation_in _ Hp); rewrite El; apply in_swap; by left).
  destruct (held_block A o n Hin) as (b1 & blk & b2 & HE & Eo & En & Hu).
  destruct (PutBlock_used 2 POOL _ _ A b1 blk b2 HR HE Hu ltac:(lia)) as (P & s & E & Hs & Ht & _). rewrite Eo, En in E.
  exists P, s. split; [done|]. pose proof (cf_max _ _ (r_conf _ _ _ _ _ HR)) as Hmax.
  destruct (touched_mem _ _ _ (PutBlock_touched _ _ _ _ _ _ _ E) (co_wf _ _ Hc)) as (Hwf & Hl & Hf).
  assert (Eu : u32 (u64 (o - CFE_ES_GENERIC_POOL_DESCRIPTOR_SIZE)) = o - DESC).
  { change CFE_ES_GENERIC_POOL_DESCRIPTOR_SIZE with DESC. change DESC with 24 in *. rewrite u64_id, u32_id; unfold is_u64, is_u32; lia. }
  assert (Hkeep : forall p, 0 <= p -> p < o - DESC \/ o <= p -> zget (cds_mem s) p = zget (cds_mem (Store c)) p).
  { intros p Hp0 Ho. apply Hf; [done|]. intros d (x & [= <-] & ->). rewrite Eu. lia. }
  split_and!.
  - apply (core_change c hl); try done.
    + rewrite El in *. by eapply inv_put; [exact (co_pool _ _ Hc)|].
    + lia.
    + intros p Hp1. apply Hkeep; change DESC with 24 in *; lia.
    + intros p Hp1. apply Hkeep; lia.
  - intros p Hp1. apply Hkeep; lia.
  - intros o' n' Hin' p Hp1. assert (Hin2 : In (o', n') hl) by (rewrite El; apply in_swap; by right).
    apply in_split in Hin2 as (k1 & k2 & Ek). destruct (core_block _ _ _ _ _ _ Hc Ek) as (C1 & _).
    destruct (B5 o' n' Hin'); apply Hkeep; change DESC with 24 in *; lia.
Qed.

(** ** The registry *)

Definition has_block (r : CFE_ES_CDS_RegRec_t) : bool := CFE_ES_CDSBlockRecordIsUsed r && negb (rr_BlockOffset r =? 0).
Definition block_of (r : CFE_ES_CDS_RegRec_t) : list (Z * Z) := if has_block r then [(rr_BlockOffset r, rr_BlockSize r)] else [].
Definition held (reg : list CFE_ES_CDS_RegRec_t) : list (Z * Z) := flat_map block_of reg.

Record rec_ok (i : Z) (r : CFE_ES_CDS_RegRec_t) : Prop := {
  ro_fits : rec_fits r;
  ro_id : CFE_ES_CDSBlockRecordIsUsed r = true -> CFE_ES_LocateCDSBlockRecordByID cfg (rr_BlockID r) = Some i;
  ro_size : has_block r = true -> HDRSIZE < rr_BlockSize r }.

Definition used_at (reg : list CFE_ES_CDS_RegRec_t) (i : Z) (name : list Z) : Prop :=
  0 <= i < zlen reg /\ CFE_ES_CDSBlockRecordIsUsed (zget reg i) = true /\ cstr (rr_Name (zget reg i)) = name.

Record reg_ok (c : CDS) : Prop := {
  rk_len : zlen (Registry c) = MAX;
  rk_recs : forall i, 0 <= i < MAX -> rec_ok i (zget (Registry c) i);
  rk_names : forall i j name, used_at (Registry c) i name -> used_at (Registry c) j name -> i = j;
  rk_last : is_u32 (LastCDSBlockId c) /\ CFE_ResourceId_GetBase (LastCDSBlockId c) = CFE_ES_CDSBLOCKID_BASE }.

Definition cds_ok (c : CDS) : Prop := cds_core c (held (Registry c)) /\ reg_ok c.

(** The registry in the memory is the one in use. *)
Definition synced (c : CDS) : Prop := read_bytes (cds_mem (Store c)) CDS_REG_OFFSET (MAX * RECSIZE) = encode_reg (Registry c).

Lemma reg_split (reg : list CFE_ES_CDS_RegRec_t) i :
  0 <= i < zlen reg -> exists l1 l2, reg = l1 ++ zget reg i :: l2 /\ zlen l1 = i /\ forall r, zset reg i r = l1 ++ r :: l2.
Proof.
  intros Hi. unfold zlen in *. exists (take (Z.to_nat i) reg), (drop (S (Z.to_nat i)) reg). split_and!.
  - symmetry. apply take_drop_middle. apply list_lookup_lookup_total_lt. lia.
  - rewrite length_take. lia.
  - intros r. unfold zset. apply insert_take_drop. lia.
Qed.

Lemma held_app l1 r l2 : held (l1 ++ r :: l2) = held l1 ++ block_of r ++ held l2.
Proof. unfold held. by rewrite flat_map_app. Qed.

Lemma held_set reg i r :
  0 <= i < zlen reg -> block_of r = block_of (zget reg i) -> held (zset reg i r) = held reg.
Proof.
  intros Hi E. destruct (reg_split reg i Hi) as (l1 & l2 & El & _ & ->).
  transitivity (held (l1 ++ zget reg i :: l2)); [by rewrite !held_app, E|by rewrite <- El].
Qed.

(** One record changes. *)
Lemma reg_ok_set c i r :
  reg_ok c -> 0 <= i < MAX -> rec_ok i r ->
  (CFE_ES_CDSBlockRecordIsUsed r = true -> forall j, used_at (Registry c) j (cstr (rr_Name r)) -> j = i) ->
  reg_ok (on_rec i (fun _ => r) c).
Proof.
  intros [K1 K2 K3 K4] Hi Hr Hn. unfold on_rec. constructor; simp_cds.
  - by rewrite zlen_zset.
  - intros j Hj. rewrite zget_zset by lia. destruct (Z.eqb_spec i j) as [<-|]; [done|by apply K2].
  - intros j1 j2 name (H1 & U1 & N1) (H2 & U2 & N2). rewrite zlen_zset in *. rewrite zget_zset in U1, N1, U2, N2 by lia.
    destruct (Z.eqb_spec i j1) as [<-|], (Z.eqb_spec i j2) as [<-|]; [done|..].
    + symmetry. apply Hn; [done|]. by rewrite N1.
    + apply Hn; [done|]. by rewrite N2.
    + by apply (K3 j1 j2 name).
  - done.
Qed.

Lemma locate_name_some name i j reg :
  locate_name name i reg = Some j -> 0 <= j - i < zlen reg /\ CFE_ES_CDSBlockRecordIsUsed (zget reg (j - i)) = true /\ cstr (rr_Name (zget reg (j - i))) = name.
Proof.
  revert i. induction reg as [|r reg IH]; intros i; [done|]. cbn [locate_name]. rewrite zlen_cons. pose proof (zlen_nonneg reg).
  destruct (CFE_ES_CDSBlockRecordIsUsed r && bool_decide (name = cstr (rr_Name r))) eqn:E.
  - intros [= <-]. apply andb_true_iff in E as [E1 E2]. apply bool_decide_eq_true in E2. rewrite Z.sub_diag. split_and!; [lia..|done|done].
  - intros Hj. destruct (IH _ Hj) as (H1 & H2 & H3). split; [lia|].
    assert (Eg : zget (r :: reg) (j - i) = zget reg (j - (i + 1))).
    { rewrite zget_cons_pos by lia. f_equal. lia. }
    by rewrite Eg.
Qed.
Lemma locate_name_none name i reg : locate_name name i reg = None -> forall j, ~ used_at reg j name.
Proof.
  revert i. induction reg as [|r reg IH]; intros i; [intros _ j ((? & ?) & _); change (zlen []) with 0 in *; lia|]. cbn [locate_name].
  destruct (CFE_ES_CDSBlockRecordIsUsed r && bool_decide (name = cstr (rr_Name r))) eqn:E; [done|]. intros Hn j (H1 & H2 & H3).
  rewrite zlen_cons in H1. destruct (decide (j = 0)) as [->|Hj].
  - change (zget (r :: reg) 0) with r in *. rewrite H2, bool_decide_eq_true_2 in E by done. done.
  - apply (IH _ Hn (j - 1)). assert (Eg : zget (r :: reg) j = zget reg (j - 1)).
    { apply zget_cons_pos. lia. }
    rewrite Eg in H2, H3. split_and!; [lia..|done|done].
Qed.

Lemma LocateByName_some name c i : CFE_ES_LocateCDSBlockRecordByName name c = Some i -> used_at (Registry c) i name.
Proof. intros H. destruct (locate_name_some _ _ _ _ H) as (H1 & H2 & H3). rewrite Z.sub_0_r in *. done. Qed.

(** The identifiers of the table. *)
Lemma base_ok : table_base CFE_ES_CDSBLOCKID_BASE.
Proof. split; [done|]. vm_compute. split; congruence. Qed.

Lemma Locate_serial r : cds_cfg_ok -> 0 <= r <= CFE_RESOURCEID_MAX ->
  CFE_ES_LocateCDSBlockRecordByID cfg (CFE_ES_CDSBLOCKID_BASE + r) = Some (r mod MAX).
Proof.
  intros Hcfg Hr. pose proof (cc_max Hcfg). unfold CFE_ES_LocateCDSBlockRecordByID, CFE_ES_CDSHandle_ToIndex.
  destruct (id_decodes CFE_ES_CDSBLOCKID_BASE MAX r base_ok ltac:(lia) Hr) as (-> & _). done.
Qed.

Lemma Locate_range id i : cds_cfg_ok -> CFE_ES_LocateCDSBlockRecordByID cfg id = Some i -> 0 <= i < MAX.
Proof.
  intros Hcfg. pose proof (cc_max Hcfg). unfold CFE_ES_LocateCDSBlockRecordByID, CFE_ES_CDSHandle_ToIndex, CFE_ResourceId_ToIndex. cbn [negb].
  cbv zeta. destruct (_ || _); [done|]. change (CFE_SUCCESS =? CFE_SUCCESS) with true. intros [= <-]. apply Z.mod_pos_bound. lia.
Qed.

(** ** Names *)

Definition name_ok (Name : list Z) : Prop := zlen Name <= 39 /\ Forall (fun b => 0 < b < 256) Name.

Lemma cstr_app_zero l t : Forall (fun b => 0 < b < 256) l -> cstr (l ++ 0 :: t) = l.
Proof. induction 1 as [|b l Hb _ IH]; [done|]. cbn [app cstr]. rewrite (proj2 (Z.eqb_neq b 0)) by lia. by rewrite IH. Qed.

Lemma name_field_ok Name : name_ok Name -> length (name_field Name) = 40%nat /\ cstr (name_field Name) = Name.
Proof.
  intros [Hl Hn]. unfold name_field, zlen in *. split.
  - rewrite length_app, length_take, length_app, length_replicate. cbn [length]. lia.
  - rewrite take_app, (take_ge Name) by lia. rewrite <- app_assoc.
    destruct (39 - length Name)%nat as [|k] eqn:Ek; [rewrite take_0; by apply cstr_app_zero|].
    replace (take (S k) (replicate 39 0)) with (0 :: take k (replicate 38 0)) by done. by apply cstr_app_zero.
Qed.

(** ** Updating the registry in the memory *)

Lemma registry_fits c : reg_ok c -> Forall rec_fits (Registry c) /\ zlen (encode_reg (Registry c)) = MAX * RECSIZE.
Proof.
  intros [K1 K2 _ _]. assert (H : Forall rec_fits (Registry c)).
  { apply Forall_lookup_2. intros n r Hn. pose proof (lookup_lt_Some _ _ _ Hn). unfold zlen in *.
    destruct (K2 (Z.of_nat n) ltac:(lia)) as [Hf _ _]. unfold zget in Hf. rewrite Nat2Z.id in Hf.
    by rewrite (list_lookup_total_correct _ _ _ Hn) in Hf. }
  split; [done|]. unfold zlen. rewrite encode_reg_length by (eapply List.Forall_impl; [|exact H]; intros r (_ & _ & _ & ?); done).
  unfold zlen, RECSIZE in *. lia.
Qed.

Lemma core_update c hl :
  cds_cfg_ok -> cds_core c hl -> reg_ok c ->
  exists s, CFE_ES_UpdateCDSRegistry cfg c = (CFE_SUCCESS, c <| Store := s |>) /\ cds_core (c <| Store := s |>) hl /\
  synced (c <| Store := s |>) /\ same_bytes (Store c) s POOL (zlen (cds_mem (Store c))).
Proof.
  intros Hcfg Hc Hk. destruct (registry_fits c Hk) as [_ Hz]. pose proof (core_bounds _ _ Hcfg Hc) as (Hb & Ht & Ep).
  pose proof (cc_max Hcfg) as Hmx. change CFE_RESOURCEID_MAX with 65535 in *. pose proof (co_wf _ _ Hc) as [W1 W2].
  pose proof (co_pool _ _ Hc) as (A & HR & _). cbn in HR. pose proof (co_max _ _ Hc). pose proof (co_total _ _ Hc). unfold CDS_TRAILER_SIZE, RECSIZE, CDS_REG_OFFSET in *.
  unfold CFE_ES_UpdateCDSRegistry, CFE_PSP_WriteToCDS. unfold CDS_REG_OFFSET, RECSIZE in *.
  destruct (psp_in_range_ok (cds_mem (Store c)) 12 (MAX * 72)) as (-> & -> & ->); [lia..|].
  rewrite take_ge by (unfold zlen in Hz; lia). change (_ =? _) with true. cbv iota.
  set (s := (Store c) <| cds_mem := write_bytes (cds_mem (Store c)) 12 (encode_reg (Registry c)) |>). exists s.
  assert (Hf : fits_at (cds_mem (Store c)) 12 (encode_reg (Registry c))) by (split; lia).
  assert (Hl : zlen (cds_mem s) = zlen (cds_mem (Store c))) by (by apply zlen_write).
  assert (Hs : forall p, 0 <= p -> p < 12 \/ POOL <= p -> zget (cds_mem s) p = zget (cds_mem (Store c)) p).
  { intros p Hp Ho. apply zget_write_out; [done..|]. lia. }
  split_and!.
  - done.
  - replace (c <| Store := s |>) with (c <| Pool := Pool c |> <| Store := s |>) by (by destruct c).
    assert (Hwf : store_wf s) by (split; [done|by rewrite Hl]).
    apply (core_change c hl); try done.
    + eapply inv_outside; [exact (co_pool _ _ Hc)|..].
      * cbn [region cds_laws]. unfold store_region. by rewrite Hl.
      * intros o Ho. cbn [desc_at cds_laws]. apply load_bd_ext. intros i Hi. apply Hs; lia.
    + intros p Hp. apply Hs; lia.
    + intros p Hp. apply Hs; lia.
  - unfold synced. simp_cds. unfold CDS_REG_OFFSET, RECSIZE. apply read_write; [done|lia].
  - intros p Hp. apply Hs; lia.
Qed.
End Inv.
