(* ===== verification/CdsOps.v ===== *)
(** The calls of the critical data store: registering, deleting, writing and
    reading keep the invariant and the blocks of others. *)

From Stdlib Require Import Permutation.
From S2P Require Import Prelude Records ResourceId GenPool GenPoolInit GenPoolProofs DirectStorage GenPoolOps GenPoolTheorems CdsModel CdsProofs CdsInv.

Section Ops.
Variable cfg : CdsConfig.
Hypothesis Hcfg : cds_cfg_ok cfg.
Abbreviation MAX := (CFE_PLATFORM_ES_CDS_MAX_NUM_ENTRIES cfg).
Abbreviation POOL := (CDS_POOL_OFFSET cfg).

(** Entry [i] and the bytes of its block stay. *)
Definition keeps (c c' : CDS) (i : Z) : Prop :=
  let r := zget (Registry c) i in
  zget (Registry c') i = r /\ (has_block r = true -> same_bytes (Store c) (Store c') (rr_BlockOffset r) (rr_BlockOffset r + rr_BlockSize r)).

Lemma keeps_refl c i : keeps c c i.
Proof. by split. Qed.

Lemma core_reg c c' hl :
  cds_core cfg c hl -> Store c' = Store c -> Pool c' = Pool c -> TotalSize c' = TotalSize c -> DataSize c' = DataSize c ->
  CDSIsAvailable c' = CDSIsAvailable c -> cds_core cfg c' hl.
Proof. intros [] E1 E2 E3 E4 E5. by constructor; rewrite ?E1, ?E2, ?E3, ?E4, ?E5. Qed.

Lemma cds_core_perm c hl hl' : Permutation hl hl' -> cds_core cfg c hl -> cds_core cfg c hl'.
Proof. intros Hp []. constructor; try done. by eapply client_inv_perm. Qed.

(** A new registry record on top of a changed pool. *)
Lemma assemble c P s i r hl :
  cds_core cfg (c <| Pool := P |> <| Store := s |>) hl -> reg_ok cfg c -> 0 <= i < MAX -> rec_ok cfg i r ->
  (CFE_ES_CDSBlockRecordIsUsed r = true -> forall j, used_at (Registry c) j (cstr (rr_Name r)) -> j = i) ->
  Permutation hl (held (zset (Registry c) i r)) -> cds_ok cfg (on_rec i (fun _ => r) (c <| Pool := P |> <| Store := s |>)).
Proof.
  intros Hc Hk Hi Hr Hn Hp. split.
  - eapply cds_core_perm; [exact Hp|]. by eapply core_reg; [exact Hc|..].
  - apply (reg_ok_set cfg (c <| Pool := P |> <| Store := s |>)); try done. by destruct Hk; constructor.
Qed.

(** The registry goes into the memory. *)
Lemma updated c :
  cds_ok cfg c -> exists c', CFE_ES_UpdateCDSRegistry cfg c = (CFE_SUCCESS, c') /\ cds_ok cfg c' /\ synced cfg c' /\
  Registry c' = Registry c /\ same_bytes (Store c) (Store c') POOL (zlen (cds_mem (Store c))).
Proof.
  intros [Hc Hk]. destruct (core_update cfg c _ Hcfg Hc Hk) as (s & -> & H1 & H2 & H3). exists (c <| Store := s |>).
  split_and!; try done. split; [done|]. by destruct Hk; constructor.
Qed.

(** The registry in the memory, read at the next start, differs at most in
    entries that are free. *)
Definition rec_sim (r r' : CFE_ES_CDS_RegRec_t) : Prop :=
  if CFE_ES_CDSBlockRecordIsUsed r then r' = r else CFE_ES_CDSBlockRecordIsUsed r' = false.
Definition saved (c : CDS) : Prop :=
  exists reg, Forall2 rec_sim (Registry c) reg /\ Forall rec_fits reg /\
    read_bytes (cds_mem (Store c)) CDS_REG_OFFSET (MAX * RECSIZE) = encode_reg reg.

Lemma rec_sim_refl r : rec_sim r r.
Proof. unfold rec_sim. by destruct (CFE_ES_CDSBlockRecordIsUsed r). Qed.

Lemma Forall2_diag_sim l : Forall2 rec_sim l l.
Proof. induction l; constructor; [apply rec_sim_refl|done]. Qed.

Lemma synced_saved c : reg_ok cfg c -> synced cfg c -> saved c.
Proof.
  intros Hk Hs. exists (Registry c). destruct (registry_fits cfg c Hk) as [Hf _]. split_and!; [apply Forall2_diag_sim|done..].
Qed.

(** The bytes of the registry do not change, and entries only within free ones. *)
Lemma saved_keep c c' :
  cds_ok cfg c -> saved c -> Forall2 rec_sim (Registry c') (Registry c) -> same_bytes (Store c) (Store c') 0 POOL ->
  zlen (cds_mem (Store c')) = zlen (cds_mem (Store c)) -> saved c'.
Proof.
  intros [Hc Hk] (reg & H1 & H2 & H3) Hr Hb Hl. exists reg. split_and!; [|done|].
  - apply Forall2_same_length_lookup in H1 as [L1 H1]. apply Forall2_same_length_lookup in Hr as [L2 Hr].
    apply Forall2_same_length_lookup_2; [congruence|]. intros k r r' E1 E2.
    destruct (lookup_lt_is_Some_2 (Registry c) k) as [q Eq]; [rewrite <- L2; by eapply lookup_lt_Some|].
    specialize (Hr k r q E1 Eq). specialize (H1 k q r' Eq E2). unfold rec_sim in *.
    destruct (CFE_ES_CDSBlockRecordIsUsed r) eqn:Er; [subst q; by rewrite Er in H1|]. by rewrite Hr in H1.
  - rewrite <- H3. pose proof (core_bounds cfg _ _ Hcfg Hc) as (B1 & B2 & B3). pose proof (cc_max cfg Hcfg). pose proof (co_max _ _ _ Hc). pose proof (co_total _ _ _ Hc).
    unfold CDS_TRAILER_SIZE, CDS_REG_OFFSET, RECSIZE in *. apply read_ext; try lia. intros p Hp. apply Hb. lia.
Qed.

(** Where a block of the registry is. *)
Lemma block_place c i :
  cds_ok cfg c -> 0 <= i < MAX -> has_block (zget (Registry c) i) = true ->
  let o := rr_BlockOffset (zget (Registry c) i) in let n := rr_BlockSize (zget (Registry c) i) in
  POOL + DESC <= o /\ o + n <= TailPosition (Pool c) /\ TailPosition (Pool c) <= PoolMaxOffset (Pool c) /\
  exists l1 l2, held (Registry c) = l1 ++ (o, n) :: l2 /\
    forall j, 0 <= j < MAX -> j <> i -> has_block (zget (Registry c) j) = true ->
      In (rr_BlockOffset (zget (Registry c) j), rr_BlockSize (zget (Registry c) j)) (l1 ++ l2).
Proof.
  intros [Hc Hk] Hi Hb o n. pose proof (rk_len _ _ Hk) as Hl. destruct (reg_split (Registry c) i ltac:(lia)) as (k1 & k2 & El & Ek & _).
  assert (Eh : held (Registry c) = held k1 ++ (o, n) :: held k2).
  { rewrite El, held_app. unfold block_of. by rewrite Hb. }
  destruct (core_block cfg c _ _ _ _ _ Hc Eh) as (B1 & B2 & B3 & _). split_and!; try done. exists (held k1), (held k2). split; [done|].
  intros j Hj Hne Hbj. apply in_app_iff. unfold held. rewrite !in_flat_map.
  assert (Hin : In (rr_BlockOffset (zget (Registry c) j), rr_BlockSize (zget (Registry c) j)) (block_of (zget (Registry c) j))) by (unfold block_of; rewrite Hbj; by left).
  assert (Hget : forall x, 0 <= x < zlen (Registry c) -> Registry c !! Z.to_nat x = Some (zget (Registry c) x)).
  { intros x Hx. apply list_lookup_lookup_total_lt. unfold zlen in *. lia. }
  specialize (Hget j ltac:(lia)). rewrite El in Hget at 1. unfold zlen in *. destruct (Z.lt_ge_cases j i).
  - left. exists (zget (Registry c) j). split; [|done]. rewrite lookup_app_l in Hget by lia. by apply list_elem_of_lookup_2, list_elem_of_In in Hget.
  - right. exists (zget (Registry c) j). split; [|done]. rewrite lookup_app_r in Hget by lia.
    destruct (Z.to_nat j - length k1)%nat as [|q] eqn:Eq; [lia|]. cbn in Hget. by apply list_elem_of_lookup_2, list_elem_of_In in Hget.
Qed.

Lemma in_held c j :
  reg_ok cfg c -> 0 <= j < MAX -> has_block (zget (Registry c) j) = true ->
  In (rr_BlockOffset (zget (Registry c) j), rr_BlockSize (zget (Registry c) j)) (held (Registry c)).
Proof.
  intros Hk Hj Hb. unfold held. apply in_flat_map. exists (zget (Registry c) j). split; [|unfold block_of; rewrite Hb; by left].
  pose proof (rk_len _ _ Hk). apply list_elem_of_In, (list_elem_of_lookup_2 _ (Z.to_nat j)), list_lookup_lookup_total_lt. unfold zlen in *. lia.
Qed.

Lemma on_rec_eq i f c : on_rec i f c = on_rec i (fun _ => f (zget (Registry c) i)) c.
Proof. done. Qed.
Lemma on_rec_id i c : on_rec i (fun r => r) c = c.
Proof.
  destruct c as [s p t d l reg a]. unfold on_rec, upd, zset, zget. cbn. f_equal. apply list_eq. intros k.
  destruct (decide (Z.to_nat i = k)) as [<-|]; [|by rewrite list_lookup_insert_ne].
  destruct (reg !! Z.to_nat i) as [r|] eqn:E.
  - rewrite list_lookup_insert_eq by (by eapply lookup_lt_Some). f_equal. by apply list_lookup_total_correct.
  - rewrite list_insert_ge; [done|]. by apply lookup_ge_None.
Qed.
Lemma on_rec_twice i f r c : 0 <= i < zlen (Registry c) -> on_rec i f (on_rec i (fun _ => r) c) = on_rec i (fun _ => f r) c.
Proof. intros Hi. destruct c. unfold on_rec, upd in *. cbn in *. by rewrite zget_zset_eq, zset_zset. Qed.
Lemma on_rec_other i r c j : 0 <= i -> 0 <= j -> j <> i -> zget (Registry (on_rec i (fun _ => r) c)) j = zget (Registry c) j.
Proof. intros. unfold on_rec. simp_cds. by apply zget_zset_ne. Qed.
Lemma on_rec_same i r c : 0 <= i < zlen (Registry c) -> zget (Registry (on_rec i (fun _ => r) c)) i = r.
Proof. intros. unfold on_rec. simp_cds. by apply zget_zset_eq. Qed.

(** Allocation for an entry without a block, after which the entry is [r']: the
    last steps of registering. *)
Lemma allocate_entry c i n (fin : CFE_ES_CDS_RegRec_t -> CFE_ES_CDS_RegRec_t) :
  cds_ok cfg c -> 0 <= i < MAX -> HDRSIZE < n < 2 ^ 32 -> has_block (zget (Registry c) i) = false ->
  rr_BlockOffset (zget (Registry c) i) = 0 ->
  (forall o, POOL + DESC <= o < 2 ^ 32 ->
     let r := fin ((zget (Registry c) i) <| rr_BlockOffset := o |> <| rr_BlockSize := n |>) in
     rec_ok cfg i r /\ block_of r = [(o, n)] /\ forall j, used_at (Registry c) j (cstr (rr_Name r)) -> j = i) ->
  let '(st, new, c1) := allocate_new i n c in
  (st = CFE_SUCCESS /\ new = true /\ cds_ok cfg (on_rec i fin c1) /\ (forall j, 0 <= j < MAX -> j <> i -> keeps c (on_rec i fin c1) j) /\
   exists o, POOL + DESC <= o < 2 ^ 32 /\ zget (Registry (on_rec i fin c1)) i = fin ((zget (Registry c) i) <| rr_BlockOffset := o |> <| rr_BlockSize := n |>)) \/
  (st = CFE_ES_ERR_MEM_BLOCK_SIZE /\ new = false /\ cds_ok cfg c1 /\ Registry c1 = Registry c /\ (saved c -> saved c1) /\ forall j, 0 <= j < MAX -> keeps c c1 j).
Proof.
  intros [Hc Hk] Hi Hn Hb Eo Hfin. pose proof (rk_len _ _ Hk) as Hl. unfold allocate_new. rewrite Eo, Z.eqb_refl.
  destruct (CFE_ES_GenPoolGetBlock (Pool c) n (Store c)) as [[[st out] P] s] eqn:E.
  destruct (core_get cfg c _ n st out P s Hcfg Hc ltac:(unfold HDRSIZE in *; lia) E) as (Hc1 & Hout & Hlow & Hkeep).
  assert (Hkp : forall c', Store c' = s -> forall j, 0 <= j < MAX -> zget (Registry c') j = zget (Registry c) j -> keeps c c' j).
  { intros c' Es j Hj Ej. split; [done|]. intros Hbj. rewrite Es. apply Hkeep. by apply in_held. }
  destruct out as [o|].
  - subst st. change (CFE_SUCCESS =? CFE_SUCCESS) with true. left. cbn [hold] in Hc1.
    destruct (core_block cfg _ _ [] o n (held (Registry c)) Hc1 eq_refl) as (B1 & B2 & B3 & B4 & _). simp_cds.
    pose proof (co_pool _ _ _ Hc1) as (A & HR & _). cbn in HR. pose proof (cf_max _ _ (r_conf _ _ _ _ _ HR)) as Hmax. simp_cds.
    destruct (Hfin o ltac:(lia)) as (F1 & F2 & F3). cbv zeta in *.
    rewrite (on_rec_eq i _ (c <| Pool := P |> <| Store := s |>)). change (Registry (c <| Pool := P |> <| Store := s |>)) with (Registry c).
    rewrite on_rec_twice by (simp_cds; lia). split_and!; try done.
    + apply (assemble c P s i _ ((o, n) :: held (Registry c))); try done.
      destruct (reg_split (Registry c) i ltac:(lia)) as (l1 & l2 & El & _ & ->). rewrite El at 1.
      rewrite !held_app, F2. unfold block_of. rewrite Hb. cbn [app]. apply Permutation_middle.
    + intros j Hj Hne. apply Hkp; [done..|]. rewrite on_rec_other by lia. done.
    + exists o. split; [lia|]. rewrite on_rec_same by (simp_cds; lia). done.
  - subst st. right.
    split_and!; try done.
    + split; [|by destruct Hk; constructor]. by eapply core_reg; [exact Hc1|..].
    + intros Hs. apply (saved_keep c); try done; [by apply Forall2_diag_sim|].
      exact (proj1 (proj2 (touched_mem _ _ _ (GetBlock_touched _ _ _ _ _ _ _ E) (co_wf _ _ _ Hc)))).
    + intros j Hj. by apply Hkp.
Qed.
(** ** Registering *)

(** What registering does to the other entries. *)
Definition others_keep (c c' : CDS) (i : Z) : Prop := forall j, 0 <= j < MAX -> j <> i -> keeps c c' j.

Lemma keeps_trans c1 c2 c3 i : keeps c1 c2 i -> keeps c2 c3 i -> keeps c1 c3 i.
Proof.
  intros [E1 H1] [E2 H2]. rewrite E1 in *. split; [done|]. intros Hb p Hp. rewrite (H2 Hb p Hp). by apply H1.
Qed.
Lemma others_trans c1 c2 c3 i : others_keep c1 c2 i -> others_keep c2 c3 i -> others_keep c1 c3 i.
Proof. intros H1 H2 j Hj Hne. by eapply keeps_trans; [apply H1|apply H2]. Qed.

(** A free entry for the new block. *)
Lemma find_new c Name :
  cds_ok cfg c -> CFE_ES_LocateCDSBlockRecordByName Name c = None ->
  find_entry cfg Name c = (CFE_ES_NO_RESOURCE_IDS_AVAILABLE, None, CFE_RESOURCEID_UNDEFINED, false, c) \/
  exists i id, find_entry cfg Name c = (CFE_SUCCESS, Some i, id, true, (on_rec i (fun _ => zero_rec) c) <| LastCDSBlockId := id |>) /\
    0 <= i < MAX /\ CFE_ES_CDSBlockRecordIsUsed (zget (Registry c) i) = false /\ CFE_ES_LocateCDSBlockRecordByID cfg id = Some i /\
    is_u32 id /\ CFE_ResourceId_GetBase id = CFE_ES_CDSBLOCKID_BASE.
Proof.
  intros [Hc Hk] Hn. unfold find_entry. rewrite Hn. pose proof (cc_max cfg Hcfg) as Hmx. destruct (rk_last _ _ Hk) as [Hu Hb].
  destruct (FindNext_eff CFE_ES_CDSBLOCKID_BASE MAX (LastCDSBlockId c) (CFE_ES_CheckCDSHandleSlotUsed cfg c)
    (fun i => CFE_ES_CDSBlockRecordIsUsed (zget (Registry c) i)) Hu Hb Hmx) as [(s & E & Hs & Hf)|[E _]].
  - intros r Hr. unfold CFE_ES_CheckCDSHandleSlotUsed. by rewrite Locate_serial.
  - right. rewrite E, Locate_serial by done. destruct (id_decodes CFE_ES_CDSBLOCKID_BASE MAX s base_ok ltac:(lia) Hs) as (_ & D2 & D3).
    exists (s mod MAX), (CFE_ES_CDSBLOCKID_BASE + s). split_and!; try done; try (apply Z.mod_pos_bound; lia). by apply Locate_serial.
  - left. rewrite E. done.
Qed.
(** A free entry is cleared. *)
Lemma zero_rec_ok i : rec_ok cfg i zero_rec.
Proof. split; [|done..]. vm_compute. split_and!; congruence. Qed.

Lemma free_no_block r : CFE_ES_CDSBlockRecordIsUsed r = false -> block_of r = [] /\ has_block r = false.
Proof. intros E. unfold block_of, has_block. by rewrite E. Qed.

Lemma sim_set c i r :
  0 <= i < zlen (Registry c) -> rec_sim r (zget (Registry c) i) -> Forall2 rec_sim (zset (Registry c) i r) (Registry c).
Proof.
  intros Hi Hs. apply Forall2_same_length_lookup_2; [unfold zset; by rewrite length_insert|]. intros k q q' E1 E2. unfold zset in E1.
  destruct (decide (Z.to_nat i = k)) as [<-|Hne].
  - rewrite list_lookup_insert_eq in E1 by (unfold zlen in Hi; lia). injection E1 as <-. unfold zget in Hs. by rewrite (list_lookup_total_correct _ _ _ E2) in Hs.
  - rewrite list_lookup_insert_ne in E1 by done. rewrite E1 in E2. injection E2 as <-. apply rec_sim_refl.
Qed.

Lemma clear_entry c i id :
  cds_ok cfg c -> 0 <= i < MAX -> CFE_ES_CDSBlockRecordIsUsed (zget (Registry c) i) = false ->
  is_u32 id -> CFE_ResourceId_GetBase id = CFE_ES_CDSBLOCKID_BASE ->
  let c1 := (on_rec i (fun _ => zero_rec) c) <| LastCDSBlockId := id |> in
  cds_ok cfg c1 /\ others_keep c c1 i /\ (saved c -> saved c1) /\ Registry c1 = zset (Registry c) i zero_rec.
Proof.
  intros [Hc Hk] Hi Hu Hid Hb c1. pose proof (rk_len _ _ Hk) as Hl.
  assert (Hok : cds_ok cfg c1).
  { split.
    - apply (core_reg c); [|done..]. change (Registry c1) with (zset (Registry c) i zero_rec).
      rewrite held_set; [exact Hc|lia|]. by rewrite (proj1 (free_no_block _ Hu)).
    - destruct (reg_ok_set cfg c i zero_rec Hk Hi (zero_rec_ok i) ltac:(done)) as [K1 K2 K3 K4]. by constructor. }
  split_and!; try done.
  - intros j Hj Hne. split; [by apply on_rec_other; lia|]. done.
  - intros Hs. apply (saved_keep c); try done. change (Registry c1) with (zset (Registry c) i zero_rec). apply sim_set; [lia|done].
Qed.

(** The last part of registering, with the result of the allocation. *)
Definition finish_entry (i id : Z) (IsNewEntry : bool) (fin : CFE_ES_CDS_RegRec_t -> CFE_ES_CDS_RegRec_t) (a : Z * bool * CDS) : Z * option Z * CDS :=
  let '(st, IsNewOffset, c) := a in
  let c := if (st =? CFE_SUCCESS) && IsNewEntry then on_rec i fin c else c in
  let '(RegUpdateStatus, c) :=
    if (st =? CFE_SUCCESS) && (IsNewOffset || IsNewEntry) then CFE_ES_UpdateCDSRegistry cfg c else (CFE_SUCCESS, c) in
  let st := if negb (RegUpdateStatus =? CFE_SUCCESS) && (st =? CFE_SUCCESS) then RegUpdateStatus else st in
  (if (st =? CFE_SUCCESS) && negb IsNewOffset then CFE_ES_CDS_ALREADY_EXISTS else st, Some id, c).

(** The result of registering under entry [i], from a state [c] in which that
    entry is prepared. *)
Definition entry_result (c : CDS) (i id n : Z) (fin : CFE_ES_CDS_RegRec_t -> CFE_ES_CDS_RegRec_t) (res : Z * option Z * CDS) : Prop :=
  let '(st, h, c') := res in
  h = Some id /\ cds_ok cfg c' /\ others_keep c c' i /\
  ((st = CFE_SUCCESS /\ saved c' /\
    exists o, POOL + DESC <= o < 2 ^ 32 /\ zget (Registry c') i = fin ((zget (Registry c) i) <| rr_BlockOffset := o |> <| rr_BlockSize := n |>)) \/
   (st = CFE_ES_ERR_MEM_BLOCK_SIZE /\ (saved c -> saved c') /\ Registry c' = Registry c)).

Lemma update_keeps c c' :
  cds_ok cfg c -> Registry c' = Registry c -> same_bytes (Store c) (Store c') POOL (zlen (cds_mem (Store c))) ->
  forall j, 0 <= j < MAX -> keeps c c' j.
Proof.
  intros Hok Er Hs j Hj. split; [by rewrite Er|]. intros Hb p Hp. destruct (block_place c j Hok Hj Hb) as (B1 & B2 & B3 & _).
  pose proof (co_max _ _ _ (proj1 Hok)). pose proof (co_total _ _ _ (proj1 Hok)). unfold CDS_TRAILER_SIZE in *. change DESC with 24 in *. apply Hs. lia.
Qed.
Lemma register_entry c i id n new fin :
  cds_ok cfg c -> 0 <= i < MAX -> HDRSIZE < n < 2 ^ 32 -> has_block (zget (Registry c) i) = false ->
  rr_BlockOffset (zget (Registry c) i) = 0 -> (new = false -> fin = fun r => r) ->
  (forall o, POOL + DESC <= o < 2 ^ 32 ->
     let r := fin ((zget (Registry c) i) <| rr_BlockOffset := o |> <| rr_BlockSize := n |>) in
     rec_ok cfg i r /\ block_of r = [(o, n)] /\ forall j, used_at (Registry c) j (cstr (rr_Name r)) -> j = i) ->
  entry_result c i id n fin (finish_entry i id new fin (allocate_new i n c)).
Proof.
  intros Hok Hi Hn Hb Eo Hnew Hfin. pose proof (allocate_entry c i n fin Hok Hi Hn Hb Eo Hfin) as H.
  destruct (allocate_new i n c) as [[st nw] c1]. destruct H as [(-> & -> & Hok1 & Hkeep & o & Ho & Er)|(-> & -> & Hok1 & Er & Hsv & Hkeep)].
  - unfold finish_entry. change (CFE_SUCCESS =? CFE_SUCCESS) with true. cbn [andb orb negb].
    assert (Ef : (if new then on_rec i fin c1 else c1) = on_rec i fin c1).
    { destruct new; [done|]. rewrite (Hnew eq_refl). symmetry. apply on_rec_id. }
    rewrite Ef. destruct (updated _ Hok1) as (c2 & -> & Hok2 & Hs2 & Er2 & Hb2). change (CFE_SUCCESS =? CFE_SUCCESS) with true. cbn [andb negb].
    split_and!; try done.
    + eapply others_trans; [exact Hkeep|]. intros j Hj _. by apply update_keeps.
    + left. split_and!; [done|by apply synced_saved; [apply Hok2|]|]. exists o. by rewrite Er2.
  - unfold finish_entry. change (CFE_ES_ERR_MEM_BLOCK_SIZE =? CFE_SUCCESS) with false. cbn [andb negb]. change (CFE_SUCCESS =? CFE_SUCCESS) with true. cbn [andb negb].
    split_and!; try done; [|by right]. intros j Hj _. by apply Hkeep.
Qed.
(** Registering splits into finding, returning and allocating. *)
Lemma RegisterCDSEx_parts U Name tbl c i id new c1 c2 st2 :
  ((U =? 0) || (CDS_ABS_MAX_BLOCK_SIZE <? U)) = false -> find_entry cfg Name c = (CFE_SUCCESS, Some i, id, new, c1) ->
  release_old i (U + HDRSIZE) c1 = (st2, c2) -> st2 = CFE_SUCCESS ->
  CFE_ES_RegisterCDSEx cfg U Name tbl c =
  finish_entry i id new (fun r => CFE_ES_CDSBlockRecordSetUsed id (r <| rr_Table := tbl |> <| rr_Name := name_field Name |>))
    (allocate_new i (U + HDRSIZE) c2).
Proof. intros E1 E2 E3 ->. unfold CFE_ES_RegisterCDSEx. rewrite E1, E2, E3. by destruct (allocate_new _ _ _) as [[? ?] ?]. Qed.

(** What registering gives. *)
Record registered (c : CDS) (U : Z) (Name : list Z) (st : Z) (h : option Z) (c' : CDS) : Prop := {
  rg_ok : cds_ok cfg c';
  rg_others : forall j, 0 <= j < MAX -> CFE_ES_CDSBlockRecordIsUsed (zget (Registry c) j) = true -> cstr (rr_Name (zget (Registry c) j)) <> Name -> keeps c c' j;
  rg_new : st = CFE_SUCCESS -> saved c' /\ exists i, used_at (Registry c') i Name /\ has_block (zget (Registry c') i) = true /\
    rr_BlockSize (zget (Registry c') i) = U + HDRSIZE /\ h = Some (rr_BlockID (zget (Registry c') i));
  rg_same : st = CFE_ES_CDS_ALREADY_EXISTS -> c' = c /\ exists i, used_at (Registry c) i Name /\ has_block (zget (Registry c) i) = true /\
    rr_BlockSize (zget (Registry c) i) = U + HDRSIZE /\ h = Some (rr_BlockID (zget (Registry c) i));
  rg_saved : (forall j, ~ used_at (Registry c) j Name) -> saved c -> saved c' }.

Lemma used_defined r id i : CFE_ES_LocateCDSBlockRecordByID cfg id = Some i -> CFE_ES_CDSBlockRecordIsUsed (r <| rr_BlockID := id |>) = true.
Proof.
  unfold CFE_ES_CDSBlockRecordIsUsed, CFE_ResourceId_IsDefined. simp_cds. destruct (Z.eqb_spec id 0) as [->|]; [|done].
  unfold CFE_ES_LocateCDSBlockRecordByID, CFE_ES_CDSHandle_ToIndex, CFE_ResourceId_ToIndex. cbn [negb]. cbv zeta.
  change (CFE_RESOURCEID_MAX <? u32 (0 - CFE_ES_CDSBLOCKID_BASE)) with true. done.
Qed.
Lemma release_nothing i n c :
  rr_BlockOffset (zget (Registry c) i) = 0 \/ rr_BlockSize (zget (Registry c) i) = n -> release_old i n c = (CFE_SUCCESS, c).
Proof. intros H. unfold release_old. destruct H as [->| ->]; [done|]. rewrite Z.eqb_refl, andb_false_r. done. Qed.

Lemma size_bounds U : ((U =? 0) || (CDS_ABS_MAX_BLOCK_SIZE <? U)) = false -> 0 <= U -> HDRSIZE < U + HDRSIZE < 2 ^ 32.
Proof.
  intros [E1 E2]%orb_false_iff H. apply Z.eqb_neq in E1. apply Z.ltb_ge in E2.
  unfold CDS_ABS_MAX_BLOCK_SIZE, HDRSIZE in *. lia.
Qed.

(** The record of a new block. *)
Lemma new_record i id o n tbl Name :
  name_ok Name -> CFE_ES_LocateCDSBlockRecordByID cfg id = Some i -> is_u32 id -> 0 < o < 2 ^ 32 -> HDRSIZE < n < 2 ^ 32 ->
  let r := CFE_ES_CDSBlockRecordSetUsed id (zero_rec <| rr_BlockOffset := o |> <| rr_BlockSize := n |> <| rr_Table := tbl |> <| rr_Name := name_field Name |>) in
  rec_ok cfg i r /\ block_of r = [(o, n)] /\ cstr (rr_Name r) = Name /\ CFE_ES_CDSBlockRecordIsUsed r = true.
Proof.
  intros Hn Hid Hu Ho Hs r. destruct (name_field_ok Name Hn) as [N1 N2].
  assert (Hused : CFE_ES_CDSBlockRecordIsUsed r = true) by (by eapply used_defined).
  split_and!; try done.
  - constructor; [|by intros _|intros _; cbn; lia]. unfold rec_fits, is_u64. cbn. split_and!; try done; unfold HDRSIZE in *; lia.
  - unfold block_of, has_block. rewrite Hused. change (rr_BlockOffset r) with o. rewrite (proj2 (Z.eqb_neq o 0)) by lia. done.
Qed.

Lemma register_new U Name tbl c st h c' :
  cds_ok cfg c -> name_ok Name -> 0 <= U -> ((U =? 0) || (CDS_ABS_MAX_BLOCK_SIZE <? U)) = false ->
  CFE_ES_LocateCDSBlockRecordByName Name c = None -> CFE_ES_RegisterCDSEx cfg U Name tbl c = (st, h, c') -> registered c U Name st h c'.
Proof.
  intros Hok Hn HU EU Hnone E. destruct (find_new c Name Hok Hnone) as [Ef|(i & id & Ef & Hi & Hfree & Hloc & Hid & Hbase)].
  { unfold CFE_ES_RegisterCDSEx in E. rewrite EU, Ef in E. injection E as <- <- <-. by constructor. }
  destruct (clear_entry c i id Hok Hi Hfree Hid Hbase) as (Hok1 & Hkeep1 & Hsv1 & Er1). set (c1 := _ <| LastCDSBlockId := id |>) in *.
  pose proof (rk_len _ _ (proj2 Hok)) as Hl. assert (Ez : zget (Registry c1) i = zero_rec) by (rewrite Er1; apply zget_zset_eq; lia).
  rewrite (RegisterCDSEx_parts U Name tbl c i id true c1 c1 CFE_SUCCESS EU Ef) in E; [|by apply release_nothing; left; rewrite Ez|done].
  pose proof (size_bounds U EU HU) as Hsz. pose proof (core_bounds cfg _ _ Hcfg (proj1 Hok)) as Hb0.
  assert (Hnm : forall j, used_at (Registry c1) j Name -> j = i).
  { intros j (J1 & J2 & J3). rewrite Er1, zlen_zset in J1. destruct (decide (j = i)) as [->|Hne]; [done|].
    rewrite Er1, zget_zset_ne in J2, J3 by lia. by destruct (locate_name_none _ _ _ Hnone j). }
  set (fin := fun r : CFE_ES_CDS_RegRec_t => _) in E. assert (H : entry_result c1 i id (U + HDRSIZE) fin (st, h, c')).
  { rewrite <- E. apply register_entry; [done..|by rewrite Ez|by rewrite Ez|done|]. intros o Ho. rewrite Ez. change DESC with 24 in *. destruct (new_record i id o (U + HDRSIZE) tbl Name Hn Hloc Hid ltac:(lia) Hsz) as (R1 & R2 & R3 & _).
    split_and!; try done. intros j Hj. apply Hnm. by rewrite <- R3. }
  destruct H as (-> & Hok' & Hkeep & Hres).
  constructor; try done.
  - intros j Hj Hu _. assert (j <> i) by (intros ->; congruence). eapply keeps_trans; [by apply Hkeep1|by apply Hkeep].
  - intros ->. destruct Hres as [(_ & Hs & o & Ho & Er)|(? & _)]; [|done]. split; [done|]. exists i. rewrite Ez in Er.
    change DESC with 24 in *. destruct (new_record i id o (U + HDRSIZE) tbl Name Hn Hloc Hid ltac:(lia) Hsz) as (_ & R2 & R3 & R4).
    unfold fin in Er. rewrite <- Er in R2, R3, R4.
    assert (Hu : used_at (Registry c') i Name) by (split; [rewrite (rk_len _ _ (proj2 Hok')); lia|done]).
    split_and!; try done; try apply Hu.
    + unfold block_of in R2. by destruct (has_block _).
    + by rewrite Er.
    + by rewrite Er.
  - intros ->. destruct Hres as [(? & _)|(? & _)]; done.
  - intros _ Hs. destruct Hres as [(_ & Hs' & _)|(_ & Hs' & _)]; auto.
Qed.
(** An entry in use whose block changes. *)
Lemma moved_record c i o n :
  cds_ok cfg c -> 0 <= i < MAX -> CFE_ES_CDSBlockRecordIsUsed (zget (Registry c) i) = true -> 0 <= o < 2 ^ 32 -> HDRSIZE < n < 2 ^ 32 \/ o = 0 /\ n = 0 ->
  let r := (zget (Registry c) i) <| rr_BlockOffset := o |> <| rr_BlockSize := n |> in
  rec_ok cfg i r /\ block_of r = (if o =? 0 then [] else [(o, n)]) /\
  forall j, used_at (Registry c) j (cstr (rr_Name r)) -> j = i.
Proof.
  intros [Hc Hk] Hi Hu Ho Hn r. destruct (rk_recs _ _ Hk i Hi) as [(F1 & F2 & F3 & F4) R2 R3].
  assert (Hur : CFE_ES_CDSBlockRecordIsUsed r = true) by done. assert (Hb : has_block r = negb (o =? 0)) by (unfold has_block; by rewrite Hur).
  split_and!.
  - constructor; [|intros _; by apply R2|].
    + unfold rec_fits, is_u64 in *. cbn. unfold HDRSIZE in *. split_and!; try done; lia.
    + rewrite Hb. destruct (Z.eqb_spec o 0); [done|]. intros _. cbn. lia.
  - unfold block_of. rewrite Hb. by destruct (Z.eqb_spec o 0).
  - intros j Hj. apply (rk_names _ _ Hk j i _ Hj). split; [rewrite (rk_len _ _ Hk); lia|done].
Qed.

Lemma finish_old i id f f' a : finish_entry i id false f a = finish_entry i id false f' a.
Proof. destruct a as [[st n] c]. unfold finish_entry. by rewrite andb_false_r. Qed.

(** The block of an entry is returned. *)
Lemma put_entry c i :
  cds_ok cfg c -> 0 <= i < MAX -> has_block (zget (Registry c) i) = true ->
  exists n P s, CFE_ES_GenPoolPutBlock (Pool c) (rr_BlockOffset (zget (Registry c) i)) (Store c) = (CFE_SUCCESS, Some n, P, s) /\
  (forall r, rec_ok cfg i r -> block_of r = [] ->
     (CFE_ES_CDSBlockRecordIsUsed r = true -> forall j, used_at (Registry c) j (cstr (rr_Name r)) -> j = i) ->
     cds_ok cfg (on_rec i (fun _ => r) (c <| Pool := P |> <| Store := s |>)) /\
     others_keep c (on_rec i (fun _ => r) (c <| Pool := P |> <| Store := s |>)) i).
Proof.
  intros Hok Hi Hb. pose proof (rk_len _ _ (proj2 Hok)) as Hl. destruct (block_place c i Hok Hi Hb) as (_ & _ & _ & l1 & l2 & El & Hin).
  destruct (core_put cfg c _ l1 _ _ l2 Hcfg (proj1 Hok) El) as (P & s & E & Hc & _ & Hs). eexists _, P, s. split; [exact E|].
  intros r Hr Hbr Hnm. split.
  - apply (assemble c P s i r (l1 ++ l2)); try done; [apply Hok|].
    destruct (reg_split (Registry c) i ltac:(lia)) as (k1 & k2 & Ek & _ & ->). rewrite held_app, Hbr. cbn [app].
    assert (Eh : held (Registry c) = held k1 ++ block_of (zget (Registry c) i) ++ held k2) by (rewrite Ek at 1; apply held_app).
    rewrite Eh in El. unfold block_of in El. rewrite Hb in El. cbn [app] in El.
    apply (Permutation_cons_inv (a := (rr_BlockOffset (zget (Registry c) i), rr_BlockSize (zget (Registry c) i)))).
    etransitivity; [apply Permutation_middle|]. rewrite <- El. symmetry. apply Permutation_middle.
  - intros j Hj Hne. split; [by rewrite on_rec_other by lia|]. intros Hbj. apply Hs. by apply Hin.
Qed.
Lemma existing_block c U Name i id st h c' c2 :
  cds_ok cfg c -> cds_ok cfg c2 -> others_keep c c2 i -> used_at (Registry c) i Name -> used_at (Registry c2) i Name -> 0 <= i < MAX ->
  id = rr_BlockID (zget (Registry c2) i) -> rr_BlockOffset (zget (Registry c2) i) = 0 -> HDRSIZE < U + HDRSIZE < 2 ^ 32 ->
  finish_entry i id false (fun r => r) (allocate_new i (U + HDRSIZE) c2) = (st, h, c') -> registered c U Name st h c'.
Proof.
  intros Hok Hok2 Hkeep2 Hn1 Hn2 Hi -> Eo Hsz E. pose proof (core_bounds cfg _ _ Hcfg (proj1 Hok)) as Hb0. change DESC with 24 in *.
  assert (Hmv : forall o, POOL + 24 <= o < 2 ^ 32 -> _) by (intros o Ho; exact (moved_record c2 i o (U + HDRSIZE) Hok2 Hi (proj1 (proj2 Hn2)) ltac:(lia) (or_introl Hsz))).
  assert (Hnz : forall o, POOL + 24 <= o < 2 ^ 32 -> (o =? 0) = false) by (intros o Ho; apply Z.eqb_neq; lia).
  assert (H : entry_result c2 i (rr_BlockID (zget (Registry c2) i)) (U + HDRSIZE) (fun r => r) (st, h, c')).
  { rewrite <- E. apply register_entry; try done.
    - unfold has_block. by rewrite Eo, andb_false_r.
    - intros o Ho. destruct (Hmv o Ho) as (M1 & M2 & M3). rewrite (Hnz o Ho) in M2. done. }
  destruct H as (-> & Hok' & Hkeep & Hres). constructor; try done.
  - intros j Hj _ Hne. assert (j <> i) by (intros ->; by destruct Hn1 as (_ & _ & ?)). eapply keeps_trans; [by apply Hkeep2|by apply Hkeep].
  - intros ->. destruct Hres as [(_ & Hs & o & Ho & Er)|(? & _)]; [|done]. split; [done|]. exists i. destruct (Hmv o Ho) as (_ & M2 & _).
    rewrite (Hnz o Ho) in M2. rewrite <- Er in M2.
    assert (Hu : used_at (Registry c') i Name) by (split; [rewrite (rk_len _ _ (proj2 Hok')); lia|rewrite Er; by split; apply Hn2]).
    split_and!; try done; try apply Hu; [unfold block_of in M2; by destruct (has_block _)|by rewrite Er..].
  - intros ->. destruct Hres as [(? & _)|(? & _)]; done.
  - intros Hno. by destruct (Hno i).
Qed.

Lemma register_eff U Name tbl c st h c' :
  cds_ok cfg c -> name_ok Name -> 0 <= U -> CFE_ES_RegisterCDSEx cfg U Name tbl c = (st, h, c') -> registered c U Name st h c'.
Proof.
  intros Hok Hn HU E. destruct ((U =? 0) || (CDS_ABS_MAX_BLOCK_SIZE <? U)) eqn:EU.
  { unfold CFE_ES_RegisterCDSEx in E. rewrite EU in E. injection E as <- <- <-. by constructor. }
  destruct (CFE_ES_LocateCDSBlockRecordByName Name c) as [i|] eqn:El; [|by eapply register_new].
  pose proof (LocateByName_some _ _ _ El) as Hat. pose proof (rk_len _ _ (proj2 Hok)) as Hl. assert (Hi : 0 <= i < MAX) by (destruct Hat; lia).
  assert (Ef : find_entry cfg Name c = (CFE_SUCCESS, Some i, rr_BlockID (zget (Registry c) i), false, c)) by (unfold find_entry; by rewrite El).
  pose proof (size_bounds U EU HU) as Hsz. destruct (Z.eq_dec (rr_BlockOffset (zget (Registry c) i)) 0) as [Eo|Eo].
  - rewrite (RegisterCDSEx_parts U Name tbl c i _ false c c CFE_SUCCESS EU Ef) in E by (done || by apply release_nothing; left).
    rewrite (finish_old _ _ _ (fun r => r)) in E. by eapply existing_block.
  - assert (Hb : has_block (zget (Registry c) i) = true).
    { unfold has_block. destruct Hat as (_ & -> & _). by rewrite (proj2 (Z.eqb_neq _ _) Eo). }
    destruct (Z.eq_dec (rr_BlockSize (zget (Registry c) i)) (U + HDRSIZE)) as [Es|Es].
    + rewrite (RegisterCDSEx_parts U Name tbl c i _ false c c CFE_SUCCESS EU Ef) in E by (done || by apply release_nothing; right).
      unfold allocate_new in E. rewrite (proj2 (Z.eqb_neq _ _) Eo) in E. injection E as <- <- <-. constructor; try done.
      intros _. split; [done|]. by exists i.
    + destruct (put_entry c i Hok Hi Hb) as (n & P & s & Ep & Hput). destruct (moved_record c i 0 0 Hok Hi (proj1 (proj2 Hat)) ltac:(lia) ltac:(by right)) as (M1 & M2 & M3).
      destruct (Hput _ M1 M2 (fun _ => M3)) as [Hok2 Hkeep2]. set (c2 := on_rec _ _ _) in *.
      rewrite (RegisterCDSEx_parts U Name tbl c i _ false c c2 CFE_SUCCESS EU Ef) in E; [|unfold release_old|done].
      * rewrite (finish_old _ _ _ (fun r => r)) in E. assert (Eg : zget (Registry c2) i = (zget (Registry c) i) <| rr_BlockOffset := 0 |> <| rr_BlockSize := 0 |>) by (apply on_rec_same; simp_cds; lia).
        eapply (existing_block c U Name i _ st h c' c2); try done; [|by rewrite Eg..].
        split; [rewrite (rk_len _ _ (proj2 Hok2)); lia|rewrite Eg; by split; apply Hat].
      * rewrite (proj2 (Z.eqb_neq _ _) Eo), (proj2 (Z.eqb_neq (U + HDRSIZE) _)) by congruence. cbn [negb andb]. by rewrite Ep.
Qed.
(** ** Deleting *)

Record deleted (c : CDS) (Name : list Z) (st : Z) (c' : CDS) : Prop := {
  dl_ok : cds_ok cfg c';
  dl_others : forall j, 0 <= j < MAX -> CFE_ES_CDSBlockRecordIsUsed (zget (Registry c) j) = true -> cstr (rr_Name (zget (Registry c) j)) <> Name -> keeps c c' j;
  dl_gone : st = CFE_SUCCESS -> saved c' /\ forall j, ~ used_at (Registry c') j Name;
  dl_refused : st <> CFE_SUCCESS -> c' = c }.

Lemma delete_eff GetApp Name tbl c st c' :
  cds_ok cfg c -> CFE_ES_DeleteCDS cfg GetApp Name tbl c = (st, c') -> deleted c Name st c'.
Proof.
  intros Hok E. assert (Hrefuse : st <> CFE_SUCCESS -> c' = c -> deleted c Name st c') by (intros H1 H2; rewrite H2 in *; by constructor).
  unfold CFE_ES_DeleteCDS in E. destruct (CFE_ES_LocateCDSBlockRecordByName Name c) as [i|] eqn:El; [|injection E as <- <-; by apply Hrefuse].
  destruct (negb (Bool.eqb _ _)); [injection E as <- <-; by apply Hrefuse|]. destruct (negb (GetApp _ =? _)); [|injection E as <- <-; by apply Hrefuse].
  pose proof (LocateByName_some _ _ _ El) as Hat. pose proof (rk_len _ _ (proj2 Hok)) as Hl. assert (Hi : 0 <= i < MAX) by (destruct Hat; lia).
  destruct (Z.eq_dec (rr_BlockOffset (zget (Registry c) i)) 0) as [Eo|Eo].
  { rewrite Eo, PutBlock_outside in E by (right; done). injection E as <- <-. apply Hrefuse; [done|]. by destruct c. }
  assert (Hb : has_block (zget (Registry c) i) = true).
  { unfold has_block. destruct Hat as (_ & -> & _). by rewrite (proj2 (Z.eqb_neq _ _) Eo). }
  destruct (put_entry c i Hok Hi Hb) as (n & P & s & Ep & Hput). rewrite Ep in E. change (CFE_SUCCESS =? CFE_SUCCESS) with true in E. cbn [negb] in E.
  rewrite (on_rec_eq i) in E. simp_cds. set (r := CFE_ES_CDSBlockRecordSetFree (zget (Registry c) i)) in *.
  destruct (rk_recs _ _ (proj2 Hok) i Hi) as [(F1 & F2 & F3 & F4) _ _].
  destruct (Hput r) as [Hok2 Hkeep2]; [by constructor|done..|].
  destruct (updated _ Hok2) as (c3 & E3 & Hok3 & Hs3 & Er3 & Hb3). rewrite E3 in E. injection E as <- <-. constructor; try done.
  - intros j Hj _ Hne. assert (j <> i) by (intros ->; by destruct Hat as (_ & _ & ?)). eapply keeps_trans; [by apply Hkeep2|by apply update_keeps].
  - intros _. split; [apply synced_saved; [apply Hok3|done]|]. rewrite Er3. intros j (J1 & J2 & J3). unfold on_rec in *. simp_cds. rewrite zlen_zset in J1.
    destruct (Z.eq_dec j i) as [->|Hne]; [rewrite zget_zset_eq in J2 by lia; done|]. rewrite zget_zset_ne in J2, J3 by lia.
    apply Hne. by apply (rk_names _ _ (proj2 Hok) j i Name).
Qed.
End Ops.
