(* ===== verification/CdsData.v ===== *)
(** Writing and reading the blocks of the critical data store. *)

From Stdlib Require Import Permutation.
From S2P Require Import Prelude Records ResourceId GenPool GenPoolInit GenPoolProofs DirectStorage GenPoolOps GenPoolTheorems CdsModel CdsProofs EsCrc CdsInv CdsOps.

Section Data.
Variable cfg : CdsConfig.
Hypothesis Hcfg : cds_cfg_ok cfg.
Abbreviation MAX := (CFE_PLATFORM_ES_CDS_MAX_NUM_ENTRIES cfg).
Abbreviation POOL := (CDS_POOL_OFFSET cfg).

(** [same_bytes] outside the [n] bytes at [o]. *)
Definition only_in (s s' : CdsStore) (o n : Z) : Prop :=
  zlen (cds_mem s') = zlen (cds_mem s) /\ forall p, 0 <= p -> p < o \/ o + n <= p -> zget (cds_mem s') p = zget (cds_mem s) p.

Lemma core_write c hl s o n :
  cds_core cfg c hl -> In (o, n) hl -> store_wf s -> only_in (Store c) s o n -> cds_core cfg (c <| Store := s |>) hl.
Proof.
  intros Hc Hin Hwf [Hl Ho]. pose proof (core_bounds cfg _ _ Hcfg Hc) as Hb. pose proof Hin as Hin2. apply in_split in Hin2 as (l1 & l2 & El).
  destruct (core_block cfg c _ _ _ _ _ Hc El) as (B1 & B2 & B3 & B4 & _). change DESC with 24 in *.
  replace (c <| Store := s |>) with (c <| Pool := Pool c |> <| Store := s |>) by (by destruct c).
  apply (core_change cfg c hl); try done.
  - eapply inv_write; [exact (co_pool _ _ _ Hc)|exact Hin|]. split.
    + cbn [region cds_laws]. unfold store_region. destruct Hwf as [W1 _], (co_wf _ _ _ Hc) as [W2 _]. by rewrite Hl, W1, W2.
    + intros o' Ho' Hor. cbn [desc_at cds_laws]. apply load_bd_ext. intros p Hp. change DESC with 24 in *. apply Ho; lia.
  - intros p Hp. apply Ho; lia.
  - intros p Hp. apply Ho; lia.
Qed.

(** The entry of a handle. *)
Lemma handle_entry c h i :
  cds_ok cfg c -> CFE_ES_LocateCDSBlockRecordByID cfg h = Some i -> CFE_ES_CDSBlockRecordIsMatch (Some i) h c = true ->
  0 <= i < MAX /\ rr_BlockID (zget (Registry c) i) = h /\ CFE_ES_CDSBlockRecordIsUsed (zget (Registry c) i) = true.
Proof.
  unfold CFE_ES_CDSBlockRecordIsMatch, CFE_ResourceId_Equal. intros Hok El Em. apply Z.eqb_eq in Em. split; [by apply (Locate_range cfg h)|]. split; [done|].
  rewrite <- Em in El. pose proof (used_defined cfg (zget (Registry c) i) _ _ El) as H. by destruct (zget (Registry c) i).
Qed.

Lemma block_size c i :
  cds_ok cfg c -> 0 <= i < MAX -> has_block (zget (Registry c) i) = true ->
  let r := zget (Registry c) i in
  exists s, CFE_ES_GenPoolGetBlockSize (Pool c) (rr_BlockOffset r) (Store c) = (CFE_SUCCESS, Some (rr_BlockSize r), s) /\
  cds_mem s = cds_mem (Store c) /\ store_wf s.
Proof.
  intros [Hc Hk] Hi Hb r. pose proof (in_held cfg c i Hk Hi Hb) as Hin. pose proof (co_pool _ _ _ Hc) as (A & HR & Hp & Hpos). cbn in HR, Hp, Hpos.
  destruct (held_block A _ _ (Permutation_in _ Hp Hin)) as (b1 & blk & b2 & HE & Eo & En & Hu).
  destruct (GetBlockSize_eff 2 POOL _ _ A blk HR (switch_in A b1 b2 blk HE)) as (s & E & _). rewrite Eo, En, Hu in E. cbn [andb] in E.
  rewrite List.Forall_forall in Hpos. specialize (Hpos _ Hin). cbn in Hpos. rewrite (proj2 (Z.ltb_lt _ _) Hpos) in E. exists s. split; [exact E|].
  destruct (touched_mem _ _ _ (GetBlockSize_touched _ _ _ _ _ _ E) (co_wf _ _ _ Hc)) as (W & Hl & Hs). split; [|done].
  apply zget_ext; [done|]. intros p Hp'. apply Hs; [lia|done].
Qed.

(** [l] is the data of the block with handle [h]. *)
Definition data_at (c : CDS) (i : Z) (l : list Z) : Prop :=
  let r := zget (Registry c) i in
  has_block r = true /\ zlen l = rr_BlockSize r - HDRSIZE /\
  read_bytes (cds_mem (Store c)) (rr_BlockOffset r) HDRSIZE = le 4 (CFE_ES_CalculateCRC (Some l) (zlen l) 0 CFE_MISSION_ES_DEFAULT_CRC) /\
  read_bytes (cds_mem (Store c)) (rr_BlockOffset r + HDRSIZE) (zlen l) = l.
Definition stored (c : CDS) (h : Z) (l : list Z) : Prop :=
  exists i, CFE_ES_LocateCDSBlockRecordByID cfg h = Some i /\ rr_BlockID (zget (Registry c) i) = h /\ data_at c i l.

Lemma data_keeps c c' i l :
  cds_ok cfg c -> cds_ok cfg c' -> 0 <= i < MAX -> keeps c c' i -> data_at c i l -> data_at c' i l.
Proof.
  intros Hok Hok' Hi [Er Hb] (D1 & D2 & D3 & D4). pose proof D1 as D1'. rewrite <- Er in D1'. destruct (block_place cfg c' i Hok' Hi D1') as (_ & C2 & C3 & _).
  pose proof (co_max _ _ _ (proj1 Hok')). pose proof (co_total _ _ _ (proj1 Hok')).
  unfold data_at. rewrite Er in *. specialize (Hb D1). destruct (block_place cfg c i Hok Hi D1) as (B1 & B2 & B3 & _).
  pose proof (core_bounds cfg _ _ Hcfg (proj1 Hok)) as Hb0. pose proof (co_max _ _ _ (proj1 Hok)). pose proof (co_total _ _ _ (proj1 Hok)).
  pose proof (zlen_nonneg l). unfold CDS_TRAILER_SIZE, HDRSIZE in *. change DESC with 24 in *.
  split_and!; try done; [rewrite <- D3|rewrite <- D4 at 2]; apply read_ext; try lia; intros p Hp; apply Hb; lia.
Qed.
(** ** Writing *)

(** The checksum and the data go into the block. *)
Definition block_bytes (mem : list Z) (o : Z) (l : list Z) : list Z :=
  write_bytes (write_bytes mem o (le 4 (CFE_ES_CalculateCRC (Some l) (zlen l) 0 CFE_MISSION_ES_DEFAULT_CRC))) (o + HDRSIZE) l.

Lemma block_bytes_ok mem o l :
  0 <= o -> o + HDRSIZE + zlen l <= zlen mem ->
  let mem' := block_bytes mem o l in
  zlen mem' = zlen mem /\ (forall p, 0 <= p -> p < o \/ o + HDRSIZE + zlen l <= p -> zget mem' p = zget mem p) /\
  read_bytes mem' o HDRSIZE = le 4 (CFE_ES_CalculateCRC (Some l) (zlen l) 0 CFE_MISSION_ES_DEFAULT_CRC) /\ read_bytes mem' (o + HDRSIZE) (zlen l) = l.
Proof.
  intros Ho Hl. unfold block_bytes. set (crc := CFE_ES_CalculateCRC _ _ _ _). clearbody crc. pose proof (zlen_nonneg l). unfold HDRSIZE in *.
  assert (F1 : fits_at mem o (le 4 crc)) by (split; rewrite ?zlen_le; lia). pose proof (zlen_write _ _ _ F1) as Z1.
  assert (F2 : fits_at (write_bytes mem o (le 4 crc)) (o + 4) l) by (split; rewrite ?Z1; lia). pose proof (zlen_write _ _ _ F2) as Z2. cbv zeta. split_and!.
  - congruence.
  - intros p Hp Hor. rewrite zget_write_out by (done || lia). apply zget_write_out; [done..|]. rewrite zlen_le. lia.
  - transitivity (read_bytes (write_bytes mem o (le 4 crc)) o 4); [|apply read_write; [done|by rewrite zlen_le]].
    apply read_ext; try lia. intros p Hp. apply zget_write_out; [done|lia..].
  - by apply read_write.
Qed.

(** Writing through the cache, then past it. *)
Lemma write_block c i h l :
  cds_ok cfg c -> CFE_ES_LocateCDSBlockRecordByID cfg h = Some i -> rr_BlockID (zget (Registry c) i) = h ->
  has_block (zget (Registry c) i) = true -> rr_BlockSize (zget (Registry c) i) - HDRSIZE = zlen l ->
  exists s, CFE_ES_CDSBlockWrite cfg h l c = (CFE_SUCCESS, c <| Store := s |>) /\ store_wf s /\
  cds_mem s = block_bytes (cds_mem (Store c)) (rr_BlockOffset (zget (Registry c) i)) l.
Proof.
  intros Hok El Em Hb Hn. pose proof (Locate_range cfg h i Hcfg El) as Hi. unfold CFE_ES_CDSBlockWrite. rewrite El. cbn [CFE_ES_CDSBlockRecordIsMatch]. change (default 0 (Some i)) with i.
  unfold CFE_ResourceId_Equal. rewrite Em, Z.eqb_refl. destruct (block_size c i Hok Hi Hb) as (s & -> & Es & Hw). destruct (block_place cfg c i Hok Hi Hb) as (B1 & B2 & B3 & _).
  set (r := zget (Registry c) i) in *. pose proof (ro_size _ _ _ (rk_recs _ _ (proj2 Hok) i Hi) Hb) as Hsz. fold r in Hsz.
  pose proof (core_bounds cfg _ _ Hcfg (proj1 Hok)) as Hb0. pose proof (co_max _ _ _ (proj1 Hok)). pose proof (co_total _ _ _ (proj1 Hok)).
  destruct (co_wf _ _ _ (proj1 Hok)) as [_ Hmem]. destruct Hw as [Hw _].
  change (CFE_SUCCESS =? CFE_SUCCESS) with true. rewrite (proj2 (Z.leb_gt _ _) Hsz), Z.eqb_refl. cbn [negb orb].
  unfold CDS_TRAILER_SIZE, HDRSIZE, CACHESIZE in *. change DESC with 24 in *.
  rewrite (u64_id (rr_BlockSize r - 4)), (u64_id (rr_BlockOffset r + 4)) by (unfold is_u64; lia). rewrite Hn.
  rewrite Flush_ok; simp_cds; [|rewrite ?Es; unfold CACHESIZE; lia..]. change (negb (CFE_SUCCESS =? CFE_SUCCESS)) with false. cbv iota.
  set (crc := CFE_ES_CalculateCRC _ _ _ _). rewrite take_write by (rewrite zlen_le, ?Hw; lia). rewrite Es.
  assert (Z1 : zlen (write_bytes (cds_mem (Store c)) (rr_BlockOffset r) (le 4 crc)) = zlen (cds_mem (Store c))) by (apply zlen_write; split; rewrite ?zlen_le; lia).
  unfold CFE_PSP_WriteToCDS. destruct (psp_in_range_ok (write_bytes (cds_mem (Store c)) (rr_BlockOffset r) (le 4 crc)) (rr_BlockOffset r + 4) (zlen l)) as (-> & -> & ->); [lia..|].
  change (CFE_PSP_SUCCESS =? CFE_PSP_SUCCESS) with true. cbv iota. rewrite take_ge by (unfold zlen; lia).
  eexists. split; [reflexivity|]. split; [|reflexivity].
  assert (Z2 : zlen (block_bytes (cds_mem (Store c)) (rr_BlockOffset r) l) = zlen (cds_mem (Store c))) by (apply block_bytes_ok; unfold HDRSIZE; lia).
  split; simp_cds; [rewrite zlen_write by (split; rewrite ?zlen_le; lia); exact Hw|].
  change (zlen (block_bytes (cds_mem (Store c)) (rr_BlockOffset r) l) <= 2 ^ 31). lia.
Qed.
(** The data given for a handle has the size of its block. *)
Definition data_fits (c : CDS) (h : Z) (l : list Z) : Prop :=
  forall i, CFE_ES_LocateCDSBlockRecordByID cfg h = Some i -> rr_BlockID (zget (Registry c) i) = h -> has_block (zget (Registry c) i) = true ->
    rr_BlockSize (zget (Registry c) i) - HDRSIZE = zlen l.

Record wrote (c : CDS) (h : Z) (l : list Z) (st : Z) (c' : CDS) : Prop := {
  wr_ok : cds_ok cfg c';
  wr_reg : Registry c' = Registry c;
  wr_len : zlen (cds_mem (Store c')) = zlen (cds_mem (Store c));
  wr_saved : saved cfg c -> saved cfg c';
  wr_others : forall j, 0 <= j < MAX -> rr_BlockID (zget (Registry c) j) <> h -> keeps c c' j;
  wr_data : st = CFE_SUCCESS -> stored c' h l }.

(** A handle without an entry, or with one that has no block. *)
Lemma no_block_outside c i :
  0 <= i < MAX -> CFE_ES_CDSBlockRecordIsUsed (zget (Registry c) i) = true -> has_block (zget (Registry c) i) = false ->
  CFE_ES_GenPoolGetBlockSize (Pool c) (rr_BlockOffset (zget (Registry c) i)) (Store c) = (CFE_ES_BUFFER_NOT_IN_POOL, None, Store c).
Proof.
  intros Hi Hu Hb. unfold has_block in Hb. rewrite Hu in Hb. cbn [andb] in Hb. apply negb_false_iff, Z.eqb_eq in Hb. rewrite Hb.
  unfold CFE_ES_GenPoolGetBlockSize. change (0 <? CFE_ES_GENERIC_POOL_DESCRIPTOR_SIZE) with true. by rewrite orb_true_r.
Qed.

Lemma write_eff c h l st c' :
  cds_ok cfg c -> data_fits c h l -> CFE_ES_CDSBlockWrite cfg h l c = (st, c') -> wrote c h l st c'.
Proof.
  intros Hok Hfit E. assert (Hrefuse : st <> CFE_SUCCESS -> c' = c -> wrote c h l st c') by (intros H1 H2; rewrite H2 in *; by constructor).
  destruct (CFE_ES_CDSBlockRecordIsMatch (CFE_ES_LocateCDSBlockRecordByID cfg h) h c) eqn:Em.
  2: { unfold CFE_ES_CDSBlockWrite in E. rewrite Em in E. injection E as <- <-. by apply Hrefuse. }
  destruct (CFE_ES_LocateCDSBlockRecordByID cfg h) as [i|] eqn:El; [|done]. destruct (handle_entry c h i Hok El Em) as (Hi & Eid & Hu).
  destruct (has_block (zget (Registry c) i)) eqn:Hb.
  2: { unfold CFE_ES_CDSBlockWrite in E. rewrite El, Em in E. change (default 0 (Some i)) with i in E. rewrite no_block_outside in E by done.
       injection E as <- <-. apply Hrefuse; [done|]. by destruct c. }
  pose proof (Hfit i El Eid Hb) as Hn. destruct (write_block c i h l Hok El Eid Hb Hn) as (s & Ew & Hw & Es). rewrite Ew in E. injection E as <- <-.
  destruct (block_place cfg c i Hok Hi Hb) as (B1 & B2 & B3 & l1 & l2 & Eh & Hin).
  pose proof (core_bounds cfg _ _ Hcfg (proj1 Hok)) as Hb0. pose proof (co_max _ _ _ (proj1 Hok)). pose proof (co_total _ _ _ (proj1 Hok)).
  unfold CDS_TRAILER_SIZE in *. change DESC with 24 in *. set (r := zget (Registry c) i) in *.
  destruct (block_bytes_ok (cds_mem (Store c)) (rr_BlockOffset r) l ltac:(lia) ltac:(unfold HDRSIZE in *; lia)) as (Z1 & Z2 & Z3 & Z4). rewrite <- Es in *.
  assert (Hloc : In (rr_BlockOffset r, rr_BlockSize r) (held (Registry c))) by (rewrite Eh; apply in_swap; by left).
  assert (Hok' : cds_ok cfg (c <| Store := s |>)).
  { split; [|by destruct (proj2 Hok); constructor]. apply (core_write c _ s _ _ (proj1 Hok) Hloc Hw). split; [done|]. intros p Hp Hor. apply Z2; lia. }
  constructor; try done.
  - intros Hs. apply (saved_keep cfg Hcfg c); try done; [apply Forall2_diag_sim|]. intros p Hp. apply Z2; lia.
  - intros j Hj Hne. assert (j <> i) by (intros ->; by apply Hne). split; [done|]. intros Hbj p Hp.
    destruct (core_block cfg c _ _ _ _ _ (proj1 Hok) Eh) as (_ & _ & _ & _ & Hap). destruct (block_place cfg c j Hok Hj Hbj) as (J1 & _).
    change DESC with 24 in *. destruct (Hap _ _ (Hin j Hj ltac:(done) Hbj)); apply Z2; lia.
  - intros _. exists i. split; [done|]. split; [done|]. split; [done|]. change (zget (Registry (c <| Store := s |>)) i) with r.
    split; [lia|]. by split.
Qed.

(** ** Reading *)

Lemma crc_u32 l n : is_u32 (CFE_ES_CalculateCRC (Some l) n 0 CFE_MISSION_ES_DEFAULT_CRC).
Proof.
  unfold CFE_ES_CalculateCRC. destruct (n =? 0); [vm_compute; split; congruence|]. change (_ =? _) with true. cbv iota. apply u32_range.
Qed.

(** Reading compares the checksum in the block with that of the data. *)
Lemma read_block c i h :
  cds_ok cfg c -> CFE_ES_LocateCDSBlockRecordByID cfg h = Some i -> rr_BlockID (zget (Registry c) i) = h -> has_block (zget (Registry c) i) = true ->
  let r := zget (Registry c) i in
  let l := read_bytes (cds_mem (Store c)) (rr_BlockOffset r + HDRSIZE) (rr_BlockSize r - HDRSIZE) in
  exists s, cds_mem s = cds_mem (Store c) /\ store_wf s /\ zlen l = rr_BlockSize r - HDRSIZE /\
  CFE_ES_CDSBlockRead cfg h c =
    (if CFE_ES_CalculateCRC (Some l) (zlen l) 0 CFE_MISSION_ES_DEFAULT_CRC =? un_le (read_bytes (cds_mem (Store c)) (rr_BlockOffset r) HDRSIZE)
     then CFE_SUCCESS else CFE_ES_CDS_BLOCK_CRC_ERR, Some l, c <| Store := s |>).
Proof.
  intros Hok El Em Hb. pose proof (Locate_range cfg h i Hcfg El) as Hi. unfold CFE_ES_CDSBlockRead. rewrite El. cbn [CFE_ES_CDSBlockRecordIsMatch]. change (default 0 (Some i)) with i.
  unfold CFE_ResourceId_Equal. rewrite Em, Z.eqb_refl. destruct (block_size c i Hok Hi Hb) as (s & -> & Es & [Hw Hw2]). destruct (block_place cfg c i Hok Hi Hb) as (B1 & B2 & B3 & _).
  cbv zeta. set (r := zget (Registry c) i) in *. pose proof (ro_size _ _ _ (rk_recs _ _ (proj2 Hok) i Hi) Hb) as Hsz. fold r in Hsz.
  pose proof (core_bounds cfg _ _ Hcfg (proj1 Hok)) as Hb0. pose proof (co_max _ _ _ (proj1 Hok)). pose proof (co_total _ _ _ (proj1 Hok)).
  destruct (co_wf _ _ _ (proj1 Hok)) as [_ Hmem].
  change (CFE_SUCCESS =? CFE_SUCCESS) with true. rewrite (proj2 (Z.leb_gt _ _) Hsz), Z.eqb_refl. cbn [negb orb].
  unfold CDS_TRAILER_SIZE, HDRSIZE, CACHESIZE in *. change DESC with 24 in *.
  rewrite (u64_id (rr_BlockSize r - 4)), (u64_id (rr_BlockOffset r + 4)) by (unfold is_u64; lia). simp_cds.
  rewrite Fetch_ok by (rewrite ?Es; unfold CACHESIZE; lia). change (negb (CFE_SUCCESS =? CFE_SUCCESS)) with false. cbv iota. simp_cds. rewrite Es.
  unfold CFE_PSP_ReadFromCDS. destruct (psp_in_range_ok (cds_mem (Store c)) (rr_BlockOffset r + 4) (rr_BlockSize r - 4)) as (-> & -> & ->); [lia..|].
  assert (Hl : zlen (read_bytes (cds_mem (Store c)) (rr_BlockOffset r + 4) (rr_BlockSize r - 4)) = rr_BlockSize r - 4) by (apply zlen_read; lia).
  assert (Hd : zlen (read_bytes (cds_mem (Store c)) (rr_BlockOffset r) 4) = 4) by (apply zlen_read; lia).
  rewrite take_write by (rewrite ?Hd, ?Hw; lia). rewrite Hl. eexists. split_and!; [..|by rewrite if_negb].
  - done.
  - split; simp_cds; [by rewrite zlen_write by (split; rewrite ?Hd, ?Hw; lia)|lia].
  - done.
Qed.
Lemma core_cache c s : cds_ok cfg c -> store_wf s -> cds_mem s = cds_mem (Store c) -> cds_ok cfg (c <| Store := s |>).
Proof.
  intros [Hc Hk] Hw Es. split; [|by destruct Hk; constructor]. pose proof (core_bounds cfg _ _ Hcfg Hc) as Hb.
  replace (c <| Store := s |>) with (c <| Pool := Pool c |> <| Store := s |>) by (by destruct c).
  assert (Hs : forall lo hi, same_bytes (Store c) s lo hi) by (intros lo hi p _; by rewrite Es).
  apply (core_change cfg c (held (Registry c))); try done; [by rewrite Es|]. eapply inv_outside; [exact (co_pool _ _ _ Hc)|..].
  - cbn [region cds_laws]. unfold store_region. destruct Hw as [W1 _], (co_wf _ _ _ Hc) as [W2 _]. by rewrite Es, W1, W2.
  - intros o _. cbn [desc_at cds_laws]. by rewrite Es.
Qed.

Lemma saved_mem c s : saved cfg c -> cds_mem s = cds_mem (Store c) -> saved cfg (c <| Store := s |>).
Proof. intros (reg & H1 & H2 & H3) Es. exists reg. split_and!; try done. simp_cds. by rewrite Es. Qed.

Lemma read_eff c h st out c' :
  cds_ok cfg c -> CFE_ES_CDSBlockRead cfg h c = (st, out, c') ->
  exists s, c' = c <| Store := s |> /\ cds_mem s = cds_mem (Store c) /\ cds_ok cfg c'.
Proof.
  intros Hok E. assert (Hrefuse : c' = c -> exists s, c' = c <| Store := s |> /\ cds_mem s = cds_mem (Store c) /\ cds_ok cfg c').
  { intros ->. exists (Store c). split_and!; try done. by destruct c. }
  destruct (CFE_ES_CDSBlockRecordIsMatch (CFE_ES_LocateCDSBlockRecordByID cfg h) h c) eqn:Em.
  2: { unfold CFE_ES_CDSBlockRead in E. rewrite Em in E. injection E as <- <- <-. by apply Hrefuse. }
  destruct (CFE_ES_LocateCDSBlockRecordByID cfg h) as [i|] eqn:El; [|done]. destruct (handle_entry c h i Hok El Em) as (Hi & Eid & Hu).
  destruct (has_block (zget (Registry c) i)) eqn:Hb.
  - destruct (read_block c i h Hok El Eid Hb) as (s & Es & Hw & _ & Er). rewrite Er in E. injection E as <- <- <-. exists s. split_and!; try done. by apply core_cache.
  - unfold CFE_ES_CDSBlockRead in E. rewrite El, Em in E. change (default 0 (Some i)) with i in E. rewrite no_block_outside in E by done.
    injection E as <- <- <-. apply Hrefuse. by destruct c.
Qed.

Lemma read_stored c h l : cds_ok cfg c -> stored c h l -> exists c', CFE_ES_CDSBlockRead cfg h c = (CFE_SUCCESS, Some l, c').
Proof.
  intros Hok (i & El & Eid & Hb & Hl & H1 & H2). destruct (read_block c i h Hok El Eid Hb) as (s & _ & _ & Hz & ->).
  exists (c <| Store := s |>). rewrite <- Hl, H2, H1, un_le_le. change (2 ^ (8 * Z.of_nat 4)) with (2 ^ 32).
  rewrite Z.mod_small by (apply crc_u32). by rewrite Z.eqb_refl.
Qed.

(** A byte of the data of a block that is changed in the memory. *)
Lemma read_corrupted c h l1 x l2 y i s :
  cds_ok cfg c -> CFE_ES_LocateCDSBlockRecordByID cfg h = Some i -> rr_BlockID (zget (Registry c) i) = h -> data_at c i (l1 ++ x :: l2) ->
  bytes (l1 ++ x :: l2) -> 0 <= y < 256 -> y <> x -> store_wf s ->
  cds_mem s = write_bytes (cds_mem (Store c)) (rr_BlockOffset (zget (Registry c) i) + HDRSIZE + zlen l1) [y] ->
  cds_ok cfg (c <| Store := s |>) /\ exists c', CFE_ES_CDSBlockRead cfg h (c <| Store := s |>) = (CFE_ES_CDS_BLOCK_CRC_ERR, Some (l1 ++ y :: l2), c').
Proof.
  intros Hok El Eid (Hb & Hl & H1 & H2) Hby Hy Hne Hw Es. pose proof (Locate_range cfg h i Hcfg El) as Hi.
  destruct (block_place cfg c i Hok Hi Hb) as (B1 & B2 & B3 & _). set (r := zget (Registry c) i) in *.
  pose proof (core_bounds cfg _ _ Hcfg (proj1 Hok)) as Hb0. pose proof (co_max _ _ _ (proj1 Hok)). pose proof (co_total _ _ _ (proj1 Hok)).
  pose proof (zlen_nonneg l1). pose proof (zlen_nonneg l2). unfold CDS_TRAILER_SIZE in *. change DESC with 24 in *.
  assert (Hl' : zlen l1 + 1 + zlen l2 = rr_BlockSize r - HDRSIZE) by (rewrite <- Hl, zlen_app, zlen_cons; lia).
  assert (Hf : fits_at (cds_mem (Store c)) (rr_BlockOffset r + HDRSIZE + zlen l1) [y]) by (split; change (zlen [y]) with 1; unfold HDRSIZE in *; lia).
  assert (Zs : zlen (cds_mem s) = zlen (cds_mem (Store c))) by (rewrite Es; by apply zlen_write).
  assert (Hout : forall p, 0 <= p -> p <> rr_BlockOffset r + HDRSIZE + zlen l1 -> zget (cds_mem s) p = zget (cds_mem (Store c)) p).
  { intros p Hp Hpn. rewrite Es. apply zget_write_out; [done..|]. change (zlen [y]) with 1. lia. }
  assert (Hok' : cds_ok cfg (c <| Store := s |>)).
  { split; [|by destruct (proj2 Hok); constructor]. eapply core_write; [apply Hok|apply (in_held cfg c i (proj2 Hok) Hi Hb)|done|].
    split; [done|]. fold r. intros p Hp Hor. apply Hout; unfold HDRSIZE in *; lia. }
  split; [done|]. destruct (read_block (c <| Store := s |>) i h Hok' El Eid Hb) as (s' & _ & _ & Hz & ->). exists (c <| Store := s |> <| Store := s' |>).
  simp_cds. fold r in Hz |- *.
  assert (Er : read_bytes (cds_mem s) (rr_BlockOffset r + HDRSIZE) (rr_BlockSize r - HDRSIZE) = l1 ++ y :: l2).
  { apply zget_ext; [rewrite Hz, zlen_app, zlen_cons; lia|]. rewrite Hz. intros k Hk. rewrite zget_read by (unfold HDRSIZE in *; lia).
    destruct (Z.eq_dec k (zlen l1)) as [->|Hk1].
    - rewrite Es, zget_write_in by (done || change (zlen [y]) with 1; lia). rewrite Z.sub_diag, zget_app_r, Z.sub_diag by lia. done.
    - rewrite Hout by (unfold HDRSIZE in *; lia). assert (E2 : zget (cds_mem (Store c)) (rr_BlockOffset r + HDRSIZE + k) = zget (l1 ++ x :: l2) k).
      { rewrite <- H2. rewrite zget_read by (unfold HDRSIZE in *; lia). done. }
      rewrite E2. destruct (Z.lt_ge_cases k (zlen l1)); [by rewrite !zget_app_l by lia|]. rewrite !zget_app_r by lia.
      by rewrite !(zget_cons_pos _ _ (k - zlen l1)) by lia. }
  rewrite Er. assert (E1 : read_bytes (cds_mem s) (rr_BlockOffset r) HDRSIZE = read_bytes (cds_mem (Store c)) (rr_BlockOffset r) HDRSIZE).
  { apply read_ext; unfold HDRSIZE in *; try lia. intros p Hp. apply Hout; lia. }
  rewrite E1, H1, un_le_le. change (2 ^ (8 * Z.of_nat 4)) with (2 ^ 32). rewrite Z.mod_small by (apply crc_u32).
  destruct (Z.eqb_spec (CFE_ES_CalculateCRC (Some (l1 ++ y :: l2)) (zlen (l1 ++ y :: l2)) 0 CFE_MISSION_ES_DEFAULT_CRC)
     (CFE_ES_CalculateCRC (Some (l1 ++ x :: l2)) (zlen (l1 ++ x :: l2)) 0 CFE_MISSION_ES_DEFAULT_CRC)) as [E|_]; [|done].
  exfalso. apply Hne. change CFE_MISSION_ES_DEFAULT_CRC with CFE_MISSION_ES_CRC_16 in E. apply (CalculateCRC_detects l1 x l2 y 0 Hby Hy). rewrite <- E. f_equal. rewrite !zlen_app, !zlen_cons. done.
Qed.
End Data.
