(* ===== verification/CdsReset.v ===== *)
(** Start-up of the critical data store: on new memory, and after a processor
    reset on the memory of a store in use. *)

From Stdlib Require Import Permutation.
From S2P Require Import Prelude Records ResourceId GenPool GenPoolInit GenPoolProofs DirectStorage GenPoolOps GenPoolTheorems CdsModel CdsProofs CdsInv CdsOps CdsData.

(** ** The scan of a pool ends on any storage *)

Section Scan.
Context {M : Type} `{PoolStorage M}.
Implicit Types (P : CFE_ES_GenPoolRecord) (m : M).

Lemma next_block_ge P k : configured P k -> 0 <= TailPosition P < 2 ^ 34 -> TailPosition P + DESC <= next_block P < 2 ^ 35.
Proof.
  intros [_ _ C3 C4 _ _ _] Ht. unfold next_block. change CFE_ES_GENERIC_POOL_DESCRIPTOR_SIZE with DESC. rewrite C3. change DESC with 24.
  assert (H12 : 2 ^ k <= 2 ^ 12) by (apply Z.pow_le_mono_r; lia). pose proof (Z.pow_pos_nonneg 2 k).
  rewrite (u64_id (TailPosition P + 24)), u64_id by range. replace (u64 (Z.lnot (2 ^ k - 1))) with (2 ^ 64 - 2 ^ k).
  2:{ unfold u64, Z.lnot. apply Zmod_unique with (-1); lia. }
  rewrite land_high by range. pose proof (Z.mod_pos_bound (TailPosition P + 24 + (2 ^ k - 1)) (2 ^ k)). lia.
Qed.

Lemma Rebuild_step_moves P m P' m' k :
  configured P k -> 0 <= TailPosition P -> Rebuild_step P m = inr (P', m') ->
  TailPosition P < 2 ^ 34 -> configured P' k /\ PoolMaxOffset P' = PoolMaxOffset P /\
  TailPosition P + DESC <= PoolMaxOffset P /\ TailPosition P + DESC <= TailPosition P' < 2 ^ 34.
Proof.
  intros Hc Ht E Hlt. pose proof (next_block_ge P k Hc ltac:(lia)) as Hnb. pose proof (cf_max _ _ Hc) as Hmax. revert E. unfold Rebuild_step. cbv zeta.
  destruct (Z.ltb_spec (PoolMaxOffset P) (next_block P)); [done|]. destruct (Retrieve _ m) as [[st bd] m1].
  destruct (negb (st =? CFE_SUCCESS)); [done|]. match goal with |- context [let '(_, _) := ?x in _] => destruct x as [dealloc b] eqn:Eb end. destruct b as [b|]; [|done].
  assert (Hb : 0 <= b < NumBuckets P).
  { destruct (CheckBits bd =? _); [|done]. destruct (CFE_ES_GenPoolGetBucketState P (u16 (Allocated bd - CFE_ES_MEMORY_DEALLOCATED))) as [b'|] eqn:E1.
    - injection Eb as _ ->. by apply (GetBucketState_inv P k _ b Hc (u16_range _)) in E1 as [? _].
    - injection Eb as _ E2. by apply (GetBucketState_inv P k _ b Hc (u16_range _)) in E2 as [? _]. }
  clear Eb. pose proof (cf_size _ _ Hc b Hb) as Hsz.
  assert (Hres : forall B c, BlockSize B = sz P b -> let P1 := set_tail (set_bucket P b B) (u64 (next_block P + BlockSize (zget (Buckets P) b))) c in
    configured P1 k /\ PoolMaxOffset P1 = PoolMaxOffset P /\ TailPosition P + DESC <= PoolMaxOffset P /\ TailPosition P + DESC <= TailPosition P1 < 2 ^ 34).
  { intros B c HB P1. split_and!; try done; [|lia|..]; [by destruct (configured_set_bucket k P b B Hc Hb HB); constructor|..];
      change DESC with 24 in *; cbn [P1 set_tail set_bucket TailPosition]; rewrite u64_id by (unfold is_u64; lia); lia. }
  destruct (BlockSize (zget (Buckets P) b) <? ActualSize bd); [done|]. destruct dealloc; [destruct (Commit _ _ m1) as [st2 m2]; destruct (negb (st2 =? CFE_SUCCESS)); [done|]|];
    intros [= <- <-]; by apply Hres.
Qed.

Lemma Rebuild_loop_ends k fuel : forall P m,
  configured P k -> 0 <= TailPosition P < 2 ^ 34 -> PoolMaxOffset P - TailPosition P < DESC * Z.of_nat fuel -> (0 < fuel)%nat ->
  is_Some (Rebuild_loop fuel P m).
Proof.
  induction fuel as [|fuel IH]; intros P m Hc Ht Hf Hpos; [lia|]. cbn [Rebuild_loop]. destruct (Rebuild_step P m) as [r|[P' m']] eqn:E; [by eexists|].
  destruct (Rebuild_step_moves P m P' m' k Hc ltac:(lia) E ltac:(lia)) as (Hc' & Em & Hle & Ht'). change DESC with 24 in *. apply IH; try done; lia.
Qed.

Lemma Rebuild_ends k P m : configured P k -> 0 <= TailPosition P < 2 ^ 34 -> is_Some (CFE_ES_GenPoolRebuild P m).
Proof.
  intros Hc Ht. apply (Rebuild_loop_ends k); try done; [|lia]. change CFE_ES_GENERIC_POOL_DESCRIPTOR_SIZE with 24. change DESC with 24.
  pose proof (Z.div_mod (PoolMaxOffset P - TailPosition P) 24 ltac:(lia)). pose proof (Z.mod_pos_bound (PoolMaxOffset P - TailPosition P) 24). lia.
Qed.
End Scan.

Section Reset.
Variable cfg : CdsConfig.
Hypothesis Hcfg : cds_cfg_ok cfg.
Abbreviation MAX := (CFE_PLATFORM_ES_CDS_MAX_NUM_ENTRIES cfg).
Abbreviation SIZES := (CFE_ES_CDSMemPoolDefSize cfg).
Abbreviation POOL := (CDS_POOL_OFFSET cfg).

(** ** The empty pool *)

Lemma pool_init D :
  0 <= D -> D + POOL < 2 ^ 32 ->
  exists P, CFE_ES_GenPoolInitialize POOL D 4 SIZES = (CFE_SUCCESS, P) /\ configured P 2 /\ Forall cleared (Buckets P) /\
    TailPosition P = POOL /\ AllocationCount P = 0 /\ PoolMaxOffset P = D + POOL.
Proof.
  intros HD Hmax. destruct Hcfg as [Hm Hn Hs]. unfold CDS_POOL_OFFSET, CDS_REG_OFFSET, RECSIZE in *. set (st := 12 + MAX * 72) in *.
  assert (Hs0 : Forall (fun z => 0 <= z < 2 ^ 32) SIZES) by (eapply List.Forall_impl; [|exact Hs]; cbn; lia).
  assert (Hnz : ~ In 0 SIZES) by (rewrite List.Forall_forall in Hs; intros H; specialize (Hs 0 H); lia).
  pose proof (Initialize_eff st D 4 SIZES ltac:(lia) HD ltac:(lia) ltac:(lia) Hn Hs0) as Hi.
  pose proof (Initialize_counts st D 4 SIZES) as Hc.
  assert (Hmk : forall P, CFE_ES_GenPoolInitialize st D 4 SIZES = (CFE_SUCCESS, P) -> AlignMask P = 3).
  { unfold CFE_ES_GenPoolInitialize. change (negb _) with false. cbv iota zeta. intros P. destruct (_ =? 0); [done|]. by intros [= <-]. }
  destruct (CFE_ES_GenPoolInitialize st D 4 SIZES) as [rc P]. destruct Hi as (_ & _ & [_ H3] & H4).
  assert (rc = CFE_SUCCESS) as -> by (apply H3; split; [right; by exists 2|done]).
  destruct (H4 eq_refl) as (_ & _ & Hcl & _ & Ht & Hmx & k & Hk). exists P. split_and!; try done.
  pose proof (cf_mask _ _ Hk) as Em. rewrite (Hmk P eq_refl) in Em. pose proof (cf_align _ _ Hk).
  assert (k = 2) as -> by (apply (Z.pow_inj_r 2); lia). done.
Qed.

(** The size that is required holds one block. *)
Lemma min_size_ok :
  exists n, CFE_ES_GenPoolCalcMinSize SIZES 1 = n /\ CFE_ES_CDSReqdMinSize cfg MAX = MAX * n /\ 24 < n < 2 ^ 31.
Proof.
  destruct Hcfg as [Hm Hn Hs]. change CFE_RESOURCEID_MAX with 65535 in Hm. unfold CFE_ES_CDSReqdMinSize, CFE_ES_GenPoolCalcMinSize.
  destruct SIZES as [|z l]; [cbn in Hn; lia|]. apply Forall_cons_1 in Hs as [Hz Hs].
  assert (Hf : 0 < fold_left (fun a b => if b <? a then b else a) l z < 2 ^ 30).
  { clear - Hz Hs. revert z Hz. induction Hs as [|b l Hb _ IH]; intros z Hz; [done|]. cbn [fold_left]. apply IH. case_test; lia. }
  set (f := fold_left _ _ _) in *. clearbody f. change CFE_ES_GENERIC_POOL_DESCRIPTOR_SIZE with 24 in *.
  rewrite (u64_id (f + 24)) by (unfold is_u64; lia). exists (f + 24). split_and!; try lia; [rewrite u64_id; unfold is_u64; lia|].
  apply u64_id. unfold is_u64. nia.
Qed.
(** ** Start-up on the memory of a store in use *)

Lemma read_take mem o n m : 0 <= m <= n -> take (Z.to_nat m) (read_bytes mem o n) = read_bytes mem o m.
Proof. intros H. unfold read_bytes. rewrite take_take. f_equal. lia. Qed.
Lemma read_drop mem o n m : 0 <= o -> 0 <= m <= n -> drop (Z.to_nat m) (read_bytes mem o n) = read_bytes mem (o + m) (n - m).
Proof.
  intros Ho H. unfold read_bytes. rewrite skipn_firstn_comm, drop_drop. f_equal; [lia|]. f_equal. lia.
Qed.

(** One object fetched from the memory. *)
Lemma fetched c o n :
  store_wf (Store c) -> 0 <= o -> 0 < n <= CACHESIZE -> o + n <= zlen (cds_mem (Store c)) ->
  exists s, on_store (CFE_ES_CDS_CacheFetch o n) c = (CFE_SUCCESS, c <| Store := s |>) /\ store_wf s /\ cds_mem s = cds_mem (Store c) /\
  take (Z.to_nat n) (c_Data (Cache s)) = read_bytes (cds_mem (Store c)) o n.
Proof.
  intros [W1 W2] Ho Hn Hr. unfold on_store. rewrite Fetch_ok by lia. eexists. split; [reflexivity|].
  assert (Hd : zlen (read_bytes (cds_mem (Store c)) o n) = n) by (apply zlen_read; lia).
  split; [|split; [done|]]; simp_cds.
  - split; simp_cds; [rewrite zlen_write by (split; lia); done|done].
  - apply take_write; lia.
Qed.

(** What validation looks at. *)
Definition signed (mem : list Z) (T : Z) : bool :=
  bool_decide (read_bytes mem 0 8 = CFE_ES_CDS_SIGNATURE_BEGIN) && bool_decide (read_bytes mem (T - CDS_TRAILER_SIZE) 8 = CFE_ES_CDS_SIGNATURE_END).

Lemma validated c :
  store_wf (Store c) -> 20 <= TotalSize c <= zlen (cds_mem (Store c)) ->
  exists s, CFE_ES_ValidateCDS c = (if signed (cds_mem (Store c)) (TotalSize c) then CFE_SUCCESS else CFE_ES_CDS_INVALID, c <| Store := s |>) /\
  store_wf s /\ cds_mem s = cds_mem (Store c).
Proof.
  intros Hw Ht. unfold CFE_ES_ValidateCDS, CDS_SIG_BEGIN_OFFSET, CFE_ES_CDS_SIGNATURE_LEN, CDS_TRAILER_SIZE, signed in *.
  destruct (fetched c 0 8 Hw ltac:(lia) ltac:(unfold CACHESIZE; lia) ltac:(lia)) as (s & -> & Hw1 & Es & Ec).
  change (negb (CFE_SUCCESS =? CFE_SUCCESS)) with false. cbv iota. unfold sig_matches, CFE_ES_CDS_SIGNATURE_LEN. simp_cds. rewrite Ec.
  destruct (bool_decide (read_bytes (cds_mem (Store c)) 0 8 = _)); cbn [negb andb]; [|by exists s].
  destruct Hw as [_ Hm]. rewrite u64_id by (unfold is_u64; lia).
  destruct (fetched (c <| Store := s |>) (TotalSize c - 8) 8) as (s2 & -> & Hw2 & Es2 & Ec2); simp_cds; [done|lia|unfold CACHESIZE; lia|rewrite Es; lia|].
  change (negb (CFE_SUCCESS =? CFE_SUCCESS)) with false. cbv iota. simp_cds. rewrite Ec2, Es. unfold CDS_TRAILER_SIZE.
  exists s2. rewrite Es2. by destruct (bool_decide _).
Qed.

Lemma sim_held l l' : Forall2 rec_sim l l' -> held l' = held l.
Proof.
  induction 1 as [|r r' l l' Hr _ IH]; [done|]. unfold held in *. cbn [flat_map]. rewrite IH. f_equal. unfold rec_sim, block_of, has_block in *.
  destruct (CFE_ES_CDSBlockRecordIsUsed r) eqn:E; [by rewrite Hr, E|by rewrite Hr].
Qed.

(** Zeros do not look like a descriptor. *)
Lemma zeros_blank mem o : (forall p, o <= p < o + DESC -> zget mem p = 0) -> CheckBits (load_bd mem o) <> CFE_ES_CHECK_PATTERN.
Proof.
  intros Hz. assert (E : load_bd mem o = load_bd (replicate 24 0) 0); [|by rewrite E].
  apply load_bd_shift. intros i Hi. rewrite Hz by (change DESC with 24 in *; lia). unfold zget. symmetry.
  apply lookup_total_replicate_2. change DESC with 24 in *. lia.
Qed.
(** The pool found in the memory. *)
Lemma pool_restored c s :
  cds_ok cfg c -> store_wf s -> cds_mem s = cds_mem (Store c) ->
  exists P s', CFE_ES_GenPoolRebuild (snd (CFE_ES_GenPoolInitialize POOL (DataSize c) 4 SIZES)) s = Some (CFE_SUCCESS, P, s') /\
  cds_core cfg (c <| Pool := P |> <| Store := s' |>) (held (Registry c)) /\
  same_bytes (Store c) s' 0 POOL /\ zlen (cds_mem s') = zlen (cds_mem (Store c)) /\
  (forall o n, In (o, n) (held (Registry c)) -> same_bytes (Store c) s' o (o + n)).
Proof.
  intros Hok Hw Es. assert (Hok1 := core_cache cfg Hcfg c s Hok Hw Es). set (c1 := c <| Store := s |>) in *. destruct Hok1 as [Hc _].
  pose proof (core_bounds cfg _ _ Hcfg Hc) as Hb. pose proof (co_max _ _ _ Hc) as Emax. pose proof (co_data _ _ _ Hc) as Ed. pose proof (co_total _ _ _ Hc) as Htot.
  change (cds_mem (Store c1)) with (cds_mem s) in Htot. pose proof Hw as [_ Hm]. change (held (Registry c1)) with (held (Registry c)) in *.
  pose proof (co_pool _ _ _ Hc) as (A & HR & Hp & Hpos). cbn in HR, Hp, Hpos. pose proof (co_shape _ _ _ Hc) as Hsh.
  change (DataSize c1) with (DataSize c) in *. unfold CDS_RESERVED_MIN_SIZE, CDS_TRAILER_SIZE in *.
  destruct (pool_init (DataSize c)) as (P0 & E0 & Hconf & Hcl & Et0 & Ea0 & Em0); [lia..|]. rewrite E0 in Hsh |- *. cbn [snd] in *.
  assert (Hsh' : same_shape (Pool c) P0).
  { destruct Hsh as (S1 & S2 & S3). split_and!; [done..|]. intros b Hb0. symmetry. by apply S3. }
  destruct (Rebuild_eff 2 POOL (Pool c) P0 s A HR Hconf Hcl Et0 Ea0 Hsh') as (P & s' & A' & E & HR' & Etail & _ & Ebl & _ & Hsh2 & Htouch).
  { unfold blank_after. cbv zeta. pose proof (align_up_spec (TailPosition (Pool c) + DESC) 2 ltac:(lia)) as [Hal _]. set (off := align_up (TailPosition (Pool c) + DESC) 2) in *. destruct (Z.lt_ge_cases (PoolMaxOffset (Pool c)) off) as [?|Hge]; [by left|right].
    cbn [desc_at cds_laws]. apply zeros_blank. intros p Hp'. apply (co_blank _ _ _ Hc). change (Pool c1) with (Pool c). lia. }
  exists P, s'. split; [done|]. change (Pool c1) with (Pool c) in *.
  destruct (touched_mem _ _ _ Htouch Hw) as (Hw' & Hl' & Hs').
  assert (Hd : forall blk, In blk (a_blocks A) -> POOL + DESC <= ab_off blk /\ ab_off blk <= TailPosition (Pool c) /\ u32 (ab_off blk - DESC) = ab_off blk - DESC).
  { intros blk Hin. pose proof (rep_bounds _ _ _ _ _ _ HR Hin) as (B1 & B2 & B3). pose proof (rep_desc 2 POOL _ _ _ _ HR Hin) as (_ & _ & _ & Hsz & _).
    pose proof (cf_max _ _ (r_conf _ _ _ _ _ HR)). pose proof (r_region _ _ _ _ _ HR). change (Pool c1) with (Pool c) in *. change DESC with 24 in *.
    split_and!; try lia. apply u32_id. unfold is_u32. lia. }
  assert (Hkeep : forall p, 0 <= p -> (forall blk, In blk (a_blocks A) -> p < ab_off blk - DESC \/ ab_off blk <= p) -> zget (cds_mem s') p = zget (cds_mem s) p).
  { intros p Hp0 Ho. apply Hs'; [done|]. intros d (blk & Hin & ->). destruct (Hd blk Hin) as (_ & _ & ->). destruct (Ho blk Hin); lia. }
  assert (Hlow : same_bytes s s' 0 POOL).
  { intros p Hp'. apply Hkeep; [lia|]. intros blk Hin. destruct (Hd blk Hin) as (? & _). lia. }
  assert (Hhigh : same_bytes s s' (TailPosition P) (zlen (cds_mem s'))).
  { intros p Hp'. apply Hkeep; [lia|]. intros blk Hin. destruct (Hd blk Hin) as (_ & ? & _). lia. }
  unfold same_bytes. rewrite <- Es. split_and!; try done.
  - apply (core_change cfg c1 (held (Registry c))); try done.
    + exists A'. split_and!; try done. unfold used_blocks. by rewrite Ebl.
    + by eapply same_shape_trans.
    + change (Pool c1) with (Pool c). lia.
    + intros p Hp'. apply Hlow. lia.
  - intros o n Hin p Hp'. destruct (held_block A o n (Permutation_in _ Hp Hin)) as (l1 & blk & l2 & HE & <- & <- & _).
    pose proof (switch_in A l1 l2 blk HE) as Hblk. destruct (Hd blk Hblk) as (? & _). pose proof (rep_desc 2 POOL _ _ _ _ HR Hblk) as (_ & _ & _ & Hsz & _).
    pose proof (r_layout _ _ _ _ _ HR) as Hlay. pose proof (rep_positive _ _ _ _ _ HR) as Hpo. rewrite HE in Hlay, Hpo. change DESC with 24 in *.
    apply Hkeep; [lia|]. intros x Hx. rewrite HE in Hx. apply in_swap in Hx as [->|Hx]; [lia|].
    pose proof (rep_bounds _ _ _ _ _ x HR ltac:(rewrite HE; apply in_swap; by right)) as (_ & _ & Hxp & _).
    destruct (laid_apart _ _ (rep_k _ _ _ _ _ HR) _ _ _ _ _ _ Hlay Hpo Hx); change DESC with 24 in *; change (Pool c1) with (Pool c) in *; lia.
Qed.
(** The registry found in the memory. *)
Lemma sim_at l l' i : Forall2 rec_sim l l' -> 0 <= i < zlen l -> rec_sim (zget l i) (zget l' i).
Proof.
  intros Hs Hi. apply Forall2_same_length_lookup in Hs as [Hl Hs]. unfold zlen in Hi. apply (Hs (Z.to_nat i)); apply list_lookup_lookup_total_lt; lia.
Qed.

Lemma sim_used l l' i name : Forall2 rec_sim l l' -> used_at l' i name -> used_at l i name.
Proof.
  intros Hs (H1 & H2 & H3). assert (El : zlen l' = zlen l) by (unfold zlen; by rewrite (Forall2_length Hs)). rewrite El in H1.
  pose proof (sim_at l l' i Hs H1) as Hi. unfold rec_sim in Hi. destruct (CFE_ES_CDSBlockRecordIsUsed (zget l i)) eqn:E; [rewrite Hi in *; done|congruence].
Qed.

Lemma reg_restored c reg c' :
  reg_ok cfg c -> Forall2 rec_sim (Registry c) reg -> Forall rec_fits reg -> Registry c' = reg -> LastCDSBlockId c' = CFE_ES_CDSBLOCKID_BASE -> reg_ok cfg c'.
Proof.
  intros [K1 K2 K3 K4] Hs Hf Er El. assert (Hl : zlen reg = MAX) by (rewrite <- K1; unfold zlen; by rewrite (Forall2_length Hs)).
  constructor; rewrite ?Er, ?El.
  - done.
  - intros i Hi. pose proof (sim_at _ _ i Hs ltac:(lia)) as Hr. unfold rec_sim in Hr.
    destruct (CFE_ES_CDSBlockRecordIsUsed (zget (Registry c) i)) eqn:E; [rewrite Hr; by apply K2|].
    constructor; [|by rewrite Hr|unfold has_block; by rewrite Hr]. rewrite Forall_lookup in Hf. apply (Hf (Z.to_nat i)).
    apply list_lookup_lookup_total_lt. unfold zlen in Hl. lia.
  - intros i j name Hi Hj. apply (K3 i j name); by eapply sim_used.
  - split; [vm_compute; split; congruence|reflexivity].
Qed.

Lemma early_init_restores c :
  cds_ok cfg c -> saved cfg c ->
  exists c', CFE_ES_CDS_EarlyInit cfg 0 (cds_mem (Store c)) = Some (CFE_SUCCESS, c') /\ cds_ok cfg c' /\ saved cfg c' /\
  Forall2 rec_sim (Registry c) (Registry c') /\ forall i, 0 <= i < MAX -> CFE_ES_CDSBlockRecordIsUsed (zget (Registry c) i) = true -> keeps c c' i.
Proof.
  intros Hok (reg & Hsim & Hfit & Henc). pose proof Hok as [Hc Hk]. destruct (co_size _ _ _ Hc) as [Et Hmin]. pose proof (co_total _ _ _ Hc) as Htot.
  pose proof (core_bounds cfg _ _ Hcfg Hc) as Hb. pose proof (co_max _ _ _ Hc) as Emax. pose proof (co_data _ _ _ Hc) as Ed. destruct (co_wf _ _ _ Hc) as [_ Hm].
  pose proof (co_begin _ _ _ Hc) as Hbeg0. pose proof (co_end _ _ _ Hc) as Hend.
  set (mem := cds_mem (Store c)) in *. unfold CDS_TRAILER_SIZE, CDS_RESERVED_MIN_SIZE in *. pose proof (cc_max cfg Hcfg) as Hmx. change CFE_RESOURCEID_MAX with 65535 in *.
  destruct min_size_ok as (n & En & Er & Hn).
  rewrite Er in Hmin. unfold CDS_TRAILER_SIZE in *. rewrite u64_id in Hmin by (unfold is_u64; nia).
  set (s0 := cds_store mem (Cache_t (replicate (Z.to_nat CACHESIZE) 0) 0 0 0)). set (c0 := CdsInstance s0 zero_pool (TotalSize c) (DataSize c) CFE_ES_CDSBLOCKID_BASE (replicate (Z.to_nat MAX) zero_rec) false).
  assert (Hw0 : store_wf s0) by (split; [done|exact Hm]).
  assert (Hbeg : read_bytes mem 0 8 = CFE_ES_CDS_SIGNATURE_BEGIN).
  { rewrite <- (read_take mem 0 12 8) by lia. by rewrite Hbeg0. }
  assert (Hnum : read_bytes mem 8 4 = le 4 MAX).
  { change 8 with (0 + 8) at 1. change 4 with (12 - 8). rewrite <- (read_drop mem 0 12 8) by lia. by rewrite Hbeg0. }
  destruct (validated c0 Hw0 ltac:(cbn [c0 TotalSize Store s0 cds_mem]; lia)) as (s1 & Ev & Hw1 & Es1).
  assert (Hsig : signed (cds_mem (Store c0)) (TotalSize c0) = true) by (apply andb_true_iff; split; by apply bool_decide_eq_true_2). rewrite Hsig in Ev.
  change (cds_mem (Store c0)) with mem in Es1.
  destruct (fetched (c0 <| Store := s1 |>) 8 4) as (s2 & Ef & Hw2 & Es2 & Ec2); simp_cds; [done|lia|unfold CACHESIZE; lia|rewrite Es1; lia|].
  rewrite Es1 in Es2, Ec2. change (Z.to_nat 4) with 4%nat in Ec2.
  destruct (pool_restored c s2 Hok Hw2 Es2) as (P & s3 & Ep & Hc3 & Hlow & Hl3 & Hkeep).
  assert (Hinit : CFE_ES_GenPoolInitialize POOL (DataSize c) 4 SIZES = (CFE_SUCCESS, snd (CFE_ES_GenPoolInitialize POOL (DataSize c) 4 SIZES))).
  { destruct (pool_init (DataSize c)) as (P0 & E0 & _); [lia..|]. by rewrite E0. }
  assert (Hlen : length reg = Z.to_nat MAX) by (rewrite <- (Forall2_length Hsim); pose proof (rk_len _ _ Hk); unfold zlen in *; lia).
  set (c3 := CdsInstance s3 P (TotalSize c) (DataSize c) CFE_ES_CDSBLOCKID_BASE reg true). exists c3. split_and!.
  - unfold CFE_ES_CDS_EarlyInit. change (negb (0 =? 0)) with false. cbv iota zeta. cbn [zero_cds]. simp_cds. rewrite <- Et, Er.
    unfold CDS_RESERVED_MIN_SIZE, CDS_TRAILER_SIZE. rewrite (u64_id (_ + MAX * n)) by (unfold is_u64; nia). rewrite (proj2 (Z.ltb_ge _ _)) by lia.
    rewrite (u64_id (TotalSize c - _)) by (unfold is_u64; lia). rewrite <- Ed.
    match goal with |- context [CFE_ES_ValidateCDS ?x] => change x with c0 end. rewrite Ev. change (CFE_SUCCESS =? CFE_SUCCESS) with true. cbv iota.
    unfold CFE_ES_RebuildCDS, CDS_REG_SIZE_OFFSET. rewrite Ef. change (negb (CFE_SUCCESS =? CFE_SUCCESS)) with false. cbv iota. simp_cds.
    rewrite Ec2, Hnum, un_le_le. rewrite Z.mod_small by (change (2 ^ (8 * Z.of_nat 4)) with (2 ^ 32); lia). rewrite Z.eqb_refl. cbn [negb].
    unfold CFE_PSP_ReadFromCDS. rewrite Es2. unfold CDS_POOL_OFFSET, CDS_REG_OFFSET, RECSIZE in *.
    destruct (psp_in_range_ok mem 12 (MAX * 72)) as (-> & -> & ->); [lia..|]. rewrite Henc, <- Hlen, decode_encode_reg by done.
    unfold CFE_ES_RebuildCDSPool, CFE_ES_CreateCDSPool. simp_cds. change (DataSize c0) with (DataSize c). rewrite En, (proj2 (Z.ltb_ge _ _)) by nia.
    rewrite Hinit. change (negb (CFE_SUCCESS =? CFE_SUCCESS)) with false. cbv iota. simp_cds. rewrite Ep. reflexivity.
  - split; [|by apply (reg_restored c reg)]. change (Registry c3) with reg. rewrite (sim_held _ _ Hsim).
    apply (core_reg cfg (c <| Pool := P |> <| Store := s3 |>)); try done. symmetry. exact (co_avail _ _ _ Hc).
  - exists reg. split_and!; [apply Forall2_diag_sim|done|]. change (cds_mem (Store c3)) with (cds_mem s3). rewrite <- Henc.
    unfold CDS_POOL_OFFSET, CDS_REG_OFFSET, RECSIZE in *. fold mem in Hl3. apply read_ext; try lia. intros p Hp. apply Hlow. lia.
  - exact Hsim.
  - intros i Hi Hu. pose proof (sim_at _ _ i Hsim ltac:(rewrite (rk_len _ _ Hk); lia)) as Hr. unfold rec_sim in Hr. rewrite Hu in Hr.
    split; [exact Hr|]. intros Hbl. apply Hkeep. by apply (in_held cfg).
Qed.
(** ** Start-up on other memory *)

Lemma clear_loop_ok fuel total : forall s,
  store_wf s -> take 16 (c_Data (Cache s)) = replicate 16 0 -> c_Size (Cache s) = 16 -> 0 <= c_Offset (Cache s) -> total <= zlen (cds_mem s) ->
  total - c_Offset (Cache s) < Z.of_nat fuel -> (0 < fuel)%nat ->
  exists s', clear_loop fuel total s = Some (CFE_SUCCESS, s') /\ store_wf s' /\ zlen (cds_mem s') = zlen (cds_mem s) /\
  (forall p, c_Offset (Cache s) <= p < total -> zget (cds_mem s') p = 0) /\
  forall p, 0 <= p < c_Offset (Cache s) -> zget (cds_mem s') p = zget (cds_mem s) p.
Proof.
  induction fuel as [|fuel IH]; intros s Hw Hd Hz Ho Ht Hf Hpos; [lia|]. cbn [clear_loop]. set (k := c_Offset (Cache s)) in *.
  destruct (Z.ltb_spec k total) as [Hk|Hk]; [|exists s; split_and!; try done; intros; lia]. destruct Hw as [W1 W2].
  rewrite u64_id by (unfold is_u64; lia). set (n := Z.min 16 (total - k)).
  set (s1 := if total - k <? 16 then _ else s). assert (H1 : cds_mem s1 = cds_mem s /\ c_Data (Cache s1) = c_Data (Cache s) /\ c_Offset (Cache s1) = k /\ c_Size (Cache s1) = n).
  { unfold s1, n. destruct (Z.ltb_spec (total - k) 16); split_and!; simp_cds; try done; lia. }
  clearbody s1. destruct H1 as (M1 & M2 & M3 & M4).
  rewrite Flush_ok; rewrite ?M1, ?M2, ?M3, ?M4; unfold CACHESIZE in *; [|lia..]. change (negb (CFE_SUCCESS =? CFE_SUCCESS)) with false. cbv iota. simp_cds.
  assert (En : take (Z.to_nat n) (c_Data (Cache s)) = replicate (Z.to_nat n) 0).
  { replace (take (Z.to_nat n) (c_Data (Cache s))) with (take (Z.to_nat n) (take 16 (c_Data (Cache s)))) by (rewrite take_take; f_equal; lia).
    rewrite Hd, take_replicate. f_equal. lia. }
  rewrite En. set (z := replicate (Z.to_nat n) 0). assert (Hzl : zlen z = n) by (unfold z, zlen; rewrite length_replicate; lia).
  assert (Hfit : fits_at (cds_mem s) k z) by (split; lia). set (mem1 := write_bytes (cds_mem s) k z).
  assert (Hl1 : zlen mem1 = zlen (cds_mem s)) by (by apply zlen_write).
  assert (Hb1 : forall p, 0 <= p < k + n -> zget mem1 p = if p <? k then zget (cds_mem s) p else 0).
  { intros p Hp. unfold mem1. destruct (Z.ltb_spec p k); [apply zget_write_out; [done|lia..]|]. rewrite zget_write_in by (done || lia).
    unfold z, zget. apply lookup_total_replicate_2. lia. }
  match goal with |- context [clear_loop fuel total ?x] => change x with (cds_store mem1 (Cache_t (c_Data (Cache s)) (u64 (k + n)) n CFE_PSP_SUCCESS)) end.
  rewrite u64_id by (unfold is_u64; lia). destruct (Z.eq_dec n 16) as [E16|E16].
  - destruct (IH (cds_store mem1 (Cache_t (c_Data (Cache s)) (k + n) n CFE_PSP_SUCCESS))) as (s' & E & Hw' & Hl' & Hz' & Hk'); simp_cds; try done; try lia.
    + split; simp_cds; [done|lia].
    + exists s'. split_and!; [exact E|done|congruence|..].
      * intros p Hp. destruct (Z.lt_ge_cases p (k + n)); [|apply Hz'; lia]. rewrite Hk', Hb1 by lia. by rewrite (proj2 (Z.ltb_ge _ _)) by lia.
      * intros p Hp. rewrite Hk', Hb1 by lia. by rewrite (proj2 (Z.ltb_lt _ _)) by lia.
  - destruct fuel as [|fuel']; [lia|]. cbn [clear_loop]. simp_cds. assert (k + n = total) as -> by lia. rewrite Z.ltb_irrefl. eexists. split; [reflexivity|]. simp_cds.
    split_and!; [split; simp_cds; [done|lia]|done|..]; intros p Hp; rewrite Hb1 by lia; [by rewrite (proj2 (Z.ltb_ge _ _)) by lia|by rewrite (proj2 (Z.ltb_lt _ _)) by lia].
Qed.
Lemma put_cached_ok l o n s :
  store_wf s -> zlen l = n -> 0 < n <= CACHESIZE -> 0 <= o -> o + n <= zlen (cds_mem s) ->
  exists s', put_cached l o n s = (CFE_SUCCESS, s') /\ store_wf s' /\ cds_mem s' = write_bytes (cds_mem s) o l /\ fits_at (cds_mem s) o l.
Proof.
  intros [W1 W2] Hl Hn Ho Hr. assert (Hf : fits_at (cds_mem s) o l) by (split; lia).
  assert (Ht : take (Z.to_nat n) l = l) by (apply take_ge; unfold zlen in Hl; lia).
  unfold put_cached, CFE_ES_CDS_CachePreload. rewrite (proj2 (Z.ltb_lt _ _)), (proj2 (Z.leb_le _ _)) by lia. cbn [andb snd]. rewrite Ht.
  set (s1 := _ <| Cache ::= _ |>). assert (Hd : c_Data (Cache s1) = write_bytes (c_Data (Cache s)) 0 l) by done.
  assert (Hm : cds_mem s1 = cds_mem s /\ c_Offset (Cache s1) = o /\ c_Size (Cache s1) = n) by done. clearbody s1. destruct Hm as (M1 & M2 & M3).
  rewrite Flush_ok; rewrite ?M1, ?M2, ?M3; [|lia..]. rewrite Hd, take_write by lia. eexists. split; [reflexivity|]. simp_cds.
  split_and!; try done; try lia. split; simp_cds; [rewrite zlen_write by (split; lia); done|rewrite zlen_write; done].
Qed.

Lemma cleared_ok c :
  store_wf (Store c) -> 0 <= TotalSize c <= zlen (cds_mem (Store c)) ->
  exists s, CFE_ES_ClearCDS c = Some (CFE_SUCCESS, c <| Store := s |>) /\ store_wf s /\ zlen (cds_mem s) = zlen (cds_mem (Store c)) /\
  forall p, 0 <= p < TotalSize c -> zget (cds_mem s) p = 0.
Proof.
  intros [W1 W2] Ht. unfold CFE_ES_ClearCDS, CFE_ES_CDS_CachePreload. change ((0 <? 16) && (16 <=? CACHESIZE)) with true. cbv iota. cbn [snd].
  change (Z.to_nat 16) with 16%nat. set (s1 := _ <| Cache ::= _ |>). assert (Hd : c_Data (Cache s1) = write_bytes (c_Data (Cache (Store c))) 0 (replicate 16 0)) by done.
  assert (Hm : cds_mem s1 = cds_mem (Store c) /\ c_Offset (Cache s1) = 0 /\ c_Size (Cache s1) = 16) by done. clearbody s1. destruct Hm as (M1 & M2 & M3).
  unfold CACHESIZE in *. destruct (clear_loop_ok (S (Z.to_nat (TotalSize c))) (TotalSize c) s1) as (s2 & E & Hw & Hl & Hz & _); rewrite ?M1, ?M2, ?M3 in *; try done; try lia.
  - split; [|by rewrite M1]. rewrite Hd, zlen_write; [done|]. split; [lia|]. rewrite W1. done.
  - rewrite Hd. apply take_write; [done|]. rewrite W1. done.
  - rewrite E. exists s2. by split_and!.
Qed.

(** The signatures and the number of entries around the pool. *)
Lemma header_bytes mem T :
  20 <= T <= zlen mem -> (forall p, 0 <= p < T -> zget mem p = 0) ->
  let m := write_bytes (write_bytes (write_bytes mem 0 CFE_ES_CDS_SIGNATURE_BEGIN) (T - 8) CFE_ES_CDS_SIGNATURE_END) 8 (le 4 MAX) in
  zlen m = zlen mem /\ read_bytes m 0 12 = CFE_ES_CDS_SIGNATURE_BEGIN ++ le 4 MAX /\ read_bytes m (T - 8) 8 = CFE_ES_CDS_SIGNATURE_END /\
  forall p, 12 <= p < T - 8 -> zget m p = 0.
Proof.
  intros HT Hz m. assert (L1 : zlen CFE_ES_CDS_SIGNATURE_BEGIN = 8 /\ zlen CFE_ES_CDS_SIGNATURE_END = 8 /\ zlen (le 4 MAX) = 4) by done.
  destruct L1 as (L1 & L2 & L3).
  assert (F1 : fits_at mem 0 CFE_ES_CDS_SIGNATURE_BEGIN) by (split; lia). set (m1 := write_bytes mem 0 _) in *. pose proof (zlen_write _ _ _ F1) as Z1. fold m1 in Z1.
  assert (F2 : fits_at m1 (T - 8) CFE_ES_CDS_SIGNATURE_END) by (split; lia). set (m2 := write_bytes m1 _ _) in *. pose proof (zlen_write _ _ _ F2) as Z2. fold m2 in Z2.
  assert (F3 : fits_at m2 8 (le 4 MAX)) by (split; lia). pose proof (zlen_write _ _ _ F3) as Z3. fold m in Z3. split_and!; [lia|..].
  - apply zget_ext; [by rewrite zlen_read, zlen_app, L1, L3 by lia|]. rewrite zlen_read by lia. intros p Hp. rewrite zget_read, Z.add_0_l by lia. unfold m.
    destruct (Z.lt_ge_cases p 8).
    + rewrite zget_write_out by (done || lia). unfold m2. rewrite zget_write_out by (done || lia). unfold m1. rewrite zget_write_in by (done || lia). by rewrite zget_app_l, Z.sub_0_r by lia.
    + rewrite zget_write_in by (done || lia). by rewrite zget_app_r, L1 by lia.
  - transitivity (read_bytes m2 (T - 8) 8); [|unfold m2; by apply read_write]. apply read_ext; try lia. intros p Hp. apply zget_write_out; [done|lia..].
  - intros p Hp. unfold m. rewrite zget_write_out by (done || lia). unfold m2. rewrite zget_write_out by (done || lia). unfold m1. rewrite zget_write_out by (done || lia). apply Hz. lia.
Qed.

Lemma zero_registry c : Registry c = replicate (Z.to_nat MAX) zero_rec -> LastCDSBlockId c = CFE_ES_CDSBLOCKID_BASE -> reg_ok cfg c /\ held (Registry c) = [].
Proof.
  intros Er El. pose proof (cc_max cfg Hcfg) as Hm.
  assert (Hz : forall i, 0 <= i < MAX -> zget (Registry c) i = zero_rec) by (intros i Hi; rewrite Er; unfold zget; apply lookup_total_replicate_2; lia).
  assert (Hl : zlen (Registry c) = MAX) by (rewrite Er; unfold zlen; rewrite length_replicate; lia). split.
  - constructor; try done.
    + intros i Hi. rewrite Hz by done. apply zero_rec_ok.
    + intros i j name (Hi & Hu & _). rewrite Hl in Hi. by rewrite Hz in Hu.
    + rewrite El. split; [vm_compute; split; congruence|reflexivity].
  - rewrite Er. clear. unfold held. by induction (Z.to_nat MAX).
Qed.

(** What start-up knows of the sizes. *)
Record sized (c : CDS) : Prop := {
  sz_wf : store_wf (Store c);
  sz_total : TotalSize c = Z.land (u32 (zlen (cds_mem (Store c)))) 0xfffffffc /\ TotalSize c <= zlen (cds_mem (Store c));
  sz_min : u64 (CDS_RESERVED_MIN_SIZE cfg + CFE_ES_CDSReqdMinSize cfg MAX) <= TotalSize c;
  sz_data : DataSize c = TotalSize c - CDS_RESERVED_MIN_SIZE cfg;
  sz_last : LastCDSBlockId c = CFE_ES_CDSBLOCKID_BASE }.

Lemma sized_bounds c :
  sized c -> 84 <= POOL /\ POOL + 8 + DataSize c = TotalSize c /\ CFE_ES_GenPoolCalcMinSize SIZES 1 <= DataSize c /\
  0 <= DataSize c /\ TotalSize c <= 2 ^ 31.
Proof.
  intros [[_ Hw] [_ Ht] Hm Hd _]. destruct min_size_ok as (n & En & Er & Hn). rewrite Er in Hm. pose proof (cc_max cfg Hcfg) as Hmx. change CFE_RESOURCEID_MAX with 65535 in *.
  unfold CDS_RESERVED_MIN_SIZE, CDS_TRAILER_SIZE, CDS_POOL_OFFSET, CDS_REG_OFFSET, RECSIZE in *. rewrite u64_id in Hm by (unfold is_u64; nia). rewrite En. nia.
Qed.
Lemma created_pool c :
  sized c -> exists P, CFE_ES_CreateCDSPool cfg (DataSize c) POOL c = (CFE_SUCCESS, c <| Pool := P |>) /\ configured P 2 /\ Forall cleared (Buckets P) /\
  TailPosition P = POOL /\ AllocationCount P = 0 /\ PoolMaxOffset P = DataSize c + POOL /\ P = snd (CFE_ES_GenPoolInitialize POOL (DataSize c) 4 SIZES).
Proof.
  intros Hs. destruct (sized_bounds c Hs) as (B1 & B2 & B3 & B4 & B5). destruct (pool_init (DataSize c)) as (P & E & H1 & H2 & H3 & H4 & H5); [lia..|].
  exists P. unfold CFE_ES_CreateCDSPool. rewrite (proj2 (Z.ltb_ge _ _)) by lia. rewrite E. by split_and!.
Qed.

(** The state before the registry is written, taken as available. *)
Lemma new_core c s P :
  sized c -> store_wf s -> zlen (cds_mem s) = zlen (cds_mem (Store c)) ->
  configured P 2 -> Forall cleared (Buckets P) -> TailPosition P = POOL -> AllocationCount P = 0 -> PoolMaxOffset P = DataSize c + POOL ->
  P = snd (CFE_ES_GenPoolInitialize POOL (DataSize c) 4 SIZES) ->
  read_bytes (cds_mem s) 0 12 = CFE_ES_CDS_SIGNATURE_BEGIN ++ le 4 MAX ->
  read_bytes (cds_mem s) (TotalSize c - 8) 8 = CFE_ES_CDS_SIGNATURE_END -> (forall p, 12 <= p < TotalSize c - 8 -> zget (cds_mem s) p = 0) ->
  forall l, cds_core cfg (CdsInstance s P (TotalSize c) (DataSize c) l (replicate (Z.to_nat MAX) zero_rec) true) [].
Proof.
  intros Hs Hw Hl Hc Hcl Et Ea Em Ep Hb He Hz l. destruct (sized_bounds c Hs) as (B1 & B2 & B3 & B4 & B5). destruct Hs as [_ [T1 T2] T3 T4 _].
  assert (Hr : store_region s = zlen (cds_mem s)).
  { unfold store_region. destruct Hw as [-> ?]. change (CACHESIZE =? CACHESIZE) with true. cbn [andb]. by rewrite (proj2 (Z.ltb_lt _ _)) by lia. }
  constructor; simp_cds; try done.
  - by rewrite Hl.
  - rewrite Hl. by split.
  - unfold CDS_TRAILER_SIZE. lia.
  - exists empty_pool. split; [|split; done || constructor]. apply initialized_rep; cbn [c_pool c_mem]; try done; [lia|]. cbn [region cds_laws]. rewrite Hr. lia.
  - rewrite <- Ep. by split_and!.
  - intros p Hp. apply Hz. lia.
Qed.

Lemma update_available c b :
  CFE_ES_UpdateCDSRegistry cfg (c <| CDSIsAvailable := b |>) =
  let '(st, c') := CFE_ES_UpdateCDSRegistry cfg c in (st, c' <| CDSIsAvailable := b |>).
Proof. unfold CFE_ES_UpdateCDSRegistry. simp_cds. by destruct (CFE_PSP_WriteToCDS _ _ _ _). Qed.

Lemma new_cds_ok c :
  sized c ->
  exists c', new_cds cfg c = Some (CFE_SUCCESS, c') /\ cds_ok cfg (c' <| CDSIsAvailable := true |>) /\ saved cfg (c' <| CDSIsAvailable := true |>) /\
  Registry c' = replicate (Z.to_nat MAX) zero_rec.
Proof.
  intros Hs. destruct (sized_bounds c Hs) as (B1 & B2 & B3 & B4 & B5). pose proof (sz_total _ Hs) as [T1 T2].
  destruct (cleared_ok c (sz_wf _ Hs) ltac:(lia)) as (s1 & E1 & W1 & L1 & Hz).
  destruct (put_cached_ok CFE_ES_CDS_SIGNATURE_BEGIN 0 8 s1 W1 ltac:(done) ltac:(unfold CACHESIZE; lia) ltac:(lia) ltac:(lia)) as (s2 & E2 & W2 & M2 & F2). pose proof (zlen_write _ _ _ F2) as L2. rewrite <- M2 in L2.
  destruct (put_cached_ok CFE_ES_CDS_SIGNATURE_END (TotalSize c - 8) 8 s2 W2 ltac:(done) ltac:(unfold CACHESIZE; lia) ltac:(lia) ltac:(lia)) as (s3 & E3 & W3 & M3 & F3). pose proof (zlen_write _ _ _ F3) as L3. rewrite <- M3 in L3.
  destruct (put_cached_ok (le 4 MAX) 8 4 s3 W3 ltac:(done) ltac:(unfold CACHESIZE; lia) ltac:(lia) ltac:(lia)) as (s4 & E4 & W4 & M4 & F4). pose proof (zlen_write _ _ _ F4) as L4. rewrite <- M4 in L4.
  destruct (header_bytes (cds_mem s1) (TotalSize c) ltac:(lia) Hz) as (_ & Hh1 & Hh2 & Hh3). rewrite <- M2, <- M3, <- M4 in *.
  assert (Hs3 : sized (c <| Store := s3 |>)).
  { destruct Hs as [_ [? ?] ? ? ?]. constructor; simp_cds; try done. by rewrite L3, L2, L1. }
  destruct (created_pool _ Hs3) as (P & E5 & P1 & P2 & P3 & P4 & P5 & P6). set (c3 := c <| Store := s3 |>) in *.
  change (DataSize c3) with (DataSize c) in *. set (l := LastCDSBlockId c). set (c5 := CdsInstance s4 P (TotalSize c) (DataSize c) l (replicate (Z.to_nat MAX) zero_rec) (CDSIsAvailable c)).
  assert (Hcore : cds_core cfg (c5 <| CDSIsAvailable := true |>) []) by (apply (new_core c s4 P); try done; congruence).
  destruct (zero_registry (c5 <| CDSIsAvailable := true |>)) as [Hreg Hheld]; [done|exact (sz_last _ Hs)|]. rewrite <- Hheld in Hcore.
  destruct (updated cfg Hcfg _ (conj Hcore Hreg)) as (c6 & E6 & Hok & Hsy & Er & _). rewrite update_available in E6.
  destruct (CFE_ES_UpdateCDSRegistry cfg c5) as [st c7] eqn:E7. injection E6 as -> <-. exists c7. split_and!; try done.
  - unfold new_cds. rewrite E1. cbn [mbind option_bind]. change (CFE_SUCCESS =? CFE_SUCCESS) with true. cbv iota.
    unfold CFE_ES_InitCDSSignatures, CFE_ES_CDS_SIGNATURE_LEN, CDS_TRAILER_SIZE, on_store at 1. simp_cds. rewrite E2. change (negb (CFE_SUCCESS =? CFE_SUCCESS)) with false. cbv iota.
    unfold on_store at 1. simp_cds. rewrite u64_id by (unfold is_u64; lia). rewrite E3. change (CFE_SUCCESS =? CFE_SUCCESS) with true. cbv iota. simp_cds.
    match goal with |- context [CFE_ES_CreateCDSPool cfg ?d POOL ?x] => change (CFE_ES_CreateCDSPool cfg d POOL x) with (CFE_ES_CreateCDSPool cfg (DataSize c) POOL c3) end. rewrite E5. change (CFE_SUCCESS =? CFE_SUCCESS) with true. cbv iota.
    unfold CFE_ES_InitCDSRegistry, CDS_REG_SIZE_OFFSET, on_store. change (Store (c3 <| Pool := P |>)) with s3. rewrite E4. change (CFE_SUCCESS =? CFE_SUCCESS) with true. cbv iota.
    match goal with |- context [CFE_ES_UpdateCDSRegistry cfg ?x] => change x with c5 end. by rewrite E7.
  - apply synced_saved; [apply Hok|done].
Qed.
(** ** Any memory *)

Definition usable_size (mem : list Z) : Z := Z.land (u32 (zlen mem)) 0xfffffffc.
Definition required_size : Z := u64 (CDS_RESERVED_MIN_SIZE cfg + CFE_ES_CDSReqdMinSize cfg MAX).

Lemma usable_bound mem : zlen mem <= 2 ^ 31 -> 0 <= usable_size mem <= zlen mem.
Proof.
  intros Hm. unfold usable_size. pose proof (zlen_nonneg mem). rewrite u32_id by (unfold is_u32; lia). change 0xfffffffc with (2 ^ 32 - 2 ^ 2).
  rewrite land_high by lia. pose proof (Z.mod_pos_bound (zlen mem) (2 ^ 2)). pose proof (Z.mod_le (zlen mem) (2 ^ 2)). lia.
Qed.

Lemma sized_store c s : sized c -> store_wf s -> cds_mem s = cds_mem (Store c) -> sized (c <| Store := s |>).
Proof. intros [? [? ?] ? ? ?] Hw Es. constructor; simp_cds; try done. by rewrite Es. Qed.

(** Rebuilding what carries the signatures. *)
Lemma RebuildCDS_ends c :
  sized c ->
  exists st c', CFE_ES_RebuildCDS cfg c = Some (st, c') /\ (st = CFE_ES_CDS_INVALID -> sized c') /\
  (un_le (read_bytes (cds_mem (Store c)) 8 4) <> MAX -> st = CFE_ES_CDS_INVALID).
Proof.
  intros Hs. destruct (sized_bounds c Hs) as (B1 & B2 & B3 & B4 & B5). destruct (sz_total _ Hs) as [_ T2]. destruct (sz_wf _ Hs) as [_ Hm].
  unfold CFE_ES_RebuildCDS, CDS_REG_SIZE_OFFSET.
  destruct (fetched c 8 4 (sz_wf _ Hs) ltac:(lia) ltac:(unfold CACHESIZE; lia) ltac:(lia)) as (s & -> & Hw & Es & Ec). change (negb (CFE_SUCCESS =? CFE_SUCCESS)) with false. cbv iota.
  pose proof (sized_store c s Hs Hw Es) as Hs1. simp_cds. change 4%nat with (Z.to_nat 4). rewrite Ec.
  destruct (Z.eqb_spec (un_le (read_bytes (cds_mem (Store c)) 8 4)) MAX) as [Eq|Hne]; cbn [negb]; [|by eexists _, _].
  unfold CFE_PSP_ReadFromCDS, CDS_REG_OFFSET, RECSIZE. rewrite Es.
  assert (Hr : 12 + MAX * 72 <= POOL) by (unfold CDS_POOL_OFFSET, CDS_REG_OFFSET, RECSIZE; lia). pose proof (cc_max cfg Hcfg).
  destruct (psp_in_range_ok (cds_mem (Store c)) 12 (MAX * 72)) as (-> & -> & ->); [lia..|]. unfold CFE_ES_RebuildCDSPool.
  set (c2 := c <| Store := s |> <| Registry := _ |>). assert (Hs2 : sized c2) by (destruct Hs1; by constructor).
  destruct (created_pool c2 Hs2) as (P & E & Hc & _ & Et & _). change (DataSize c2) with (DataSize c) in E. rewrite E.
  change (negb (CFE_SUCCESS =? CFE_SUCCESS)) with false. cbv iota. change (Pool (c2 <| Pool := P |>)) with P.
  destruct (Rebuild_ends 2 P (Store (c2 <| Pool := P |>)) Hc ltac:(lia)) as [[[st P'] s'] ->]. cbn [mbind option_bind]. eexists _, _. split; [reflexivity|].
  split; [by destruct (Z.eqb_spec st CFE_SUCCESS) as [->|]|by intros Hne].
Qed.
(** Start-up on memory that does not hold a store of this configuration. *)
Definition recognized (mem : list Z) : Prop := signed mem (usable_size mem) = true /\ un_le (read_bytes mem 8 4) = MAX.

Lemma early_init_eff mem :
  zlen mem <= 2 ^ 31 ->
  exists st c, CFE_ES_CDS_EarlyInit cfg 0 mem = Some (st, c) /\
  (usable_size mem < required_size -> st = CFE_SUCCESS /\ CDSIsAvailable c = false) /\
  (required_size <= usable_size mem -> ~ recognized mem ->
   st = CFE_SUCCESS /\ cds_ok cfg c /\ saved cfg c /\ Registry c = replicate (Z.to_nat MAX) zero_rec).
Proof.
  intros Hm. pose proof (usable_bound mem Hm) as Hu. unfold CFE_ES_CDS_EarlyInit. change (negb (0 =? 0)) with false. cbv iota zeta. simp_cds.
  fold (usable_size mem). fold required_size. destruct (Z.ltb_spec (usable_size mem) required_size) as [Hlt|Hge].
  { eexists _, _. split; [reflexivity|]. split; [done|lia]. }
  set (c0 := (zero_cds cfg mem) <| LastCDSBlockId := _ |> <| TotalSize := _ |> <| DataSize := _ |>).
  assert (Hs : sized c0).
  { destruct min_size_ok as (n & En & Er & Hn). pose proof (cc_max cfg Hcfg) as Hmx. change CFE_RESOURCEID_MAX with 65535 in *.
    constructor; try done; [split; [done|apply Hu]|]. unfold c0. simp_cds. unfold required_size in Hge. rewrite Er in Hge.
    unfold CDS_RESERVED_MIN_SIZE, CDS_TRAILER_SIZE, CDS_POOL_OFFSET, CDS_REG_OFFSET, RECSIZE in *. rewrite u64_id in Hge by (unfold is_u64; nia).
    apply u64_id. unfold is_u64. nia. }
  destruct (sized_bounds c0 Hs) as (B1 & B2 & B3 & B4 & B5).
  destruct (validated c0 (sz_wf _ Hs)) as (s1 & Ev & Hw1 & Es1); [destruct (sz_total _ Hs); lia|]. rewrite Ev.
  change (cds_mem (Store c0)) with mem in *. change (TotalSize c0) with (usable_size mem) in *. pose proof (sized_store c0 s1 Hs Hw1 Es1) as Hs1.
  set (c1 := c0 <| Store := s1 |>) in *.
  assert (Hend : exists st c2, (if (if signed mem (usable_size mem) then CFE_SUCCESS else CFE_ES_CDS_INVALID) =? CFE_SUCCESS
      then CFE_ES_RebuildCDS cfg c1 else Some (if signed mem (usable_size mem) then CFE_SUCCESS else CFE_ES_CDS_INVALID, c1)) = Some (st, c2) /\
    (st = CFE_ES_CDS_INVALID -> sized c2) /\ (~ recognized mem -> st = CFE_ES_CDS_INVALID)).
  { unfold recognized. destruct (signed mem (usable_size mem)).
    - destruct (RebuildCDS_ends c1 Hs1) as (st & c2 & E & H1 & H2). exists st, c2. split_and!; try done. intros Hr. apply H2.
      change (Store c1) with s1. rewrite Es1. intros E2. by apply Hr.
    - by eexists _, _. }
  destruct Hend as (st & c2 & -> & Hs2 & Hinv). cbn [mbind option_bind]. destruct (Z.eqb_spec st CFE_ES_CDS_INVALID) as [Ei|Ei].
  - destruct (new_cds_ok c2 (Hs2 Ei)) as (c3 & -> & Hok & Hsv & Er). cbn [mbind option_bind]. eexists _, _. split; [reflexivity|]. split; [lia|]. intros _ _. by split_and!.
  - cbn [mbind option_bind]. eexists _, _. split; [reflexivity|]. split; [lia|]. intros _ Hr. by apply Hinv in Hr.
Qed.
End Reset.
