(* ===== verification/CdsTheorems.v ===== *)
(** The critical data store as a whole: what every sequence of calls and
    processor resets keeps. *)

From Stdlib Require Import Permutation.
From S2P Require Import Prelude Records ResourceId GenPool GenPoolProofs GenPoolTheorems CdsModel CdsProofs EsCrc CdsInv CdsOps CdsData CdsReset.

Inductive cds_op :=
  | OpRegister (UserBlockSize : Z) (Name : list Z) (CriticalTbl : bool)
  | OpDelete (Name : list Z) (CalledByTblServices : bool)
  | OpWrite (Handle : Z) (data : list Z)
  | OpRead (Handle : Z)
  | OpReset.

(** The operation names the entry: by its name, or to write its data. *)
Definition touches (op : cds_op) (r : CFE_ES_CDS_RegRec_t) : bool :=
  match op with
  | OpRegister _ Name _ | OpDelete Name _ => bool_decide (cstr (rr_Name r) = Name)
  | OpWrite h _ => rr_BlockID r =? h
  | OpRead _ | OpReset => false
  end.

Section Theorems.
Variable cfg : CdsConfig.
Abbreviation MAX := (CFE_PLATFORM_ES_CDS_MAX_NUM_ENTRIES cfg).
Abbreviation POOL := (CDS_POOL_OFFSET cfg).

(** A call, or a reset: the program starts again on the memory that is left. *)
Inductive cds_step : cds_op -> CDS -> CDS -> Prop :=
  | step_register U Name tbl c st h c' :
      name_ok Name -> 0 <= U -> CFE_ES_RegisterCDSEx cfg U Name tbl c = (st, h, c') -> cds_step (OpRegister U Name tbl) c c'
  | step_delete GetAppIDByName Name tbl c st c' :
      CFE_ES_DeleteCDS cfg GetAppIDByName Name tbl c = (st, c') -> cds_step (OpDelete Name tbl) c c'
  | step_write_data h l c st c' :
      data_fits cfg c h l -> CFE_ES_CDSBlockWrite cfg h l c = (st, c') -> cds_step (OpWrite h l) c c'
  | step_read h c st out c' :
      CFE_ES_CDSBlockRead cfg h c = (st, out, c') -> cds_step (OpRead h) c c'
  | step_reset c st c' :
      saved cfg c -> CFE_ES_CDS_EarlyInit cfg 0 (cds_mem (Store c)) = Some (st, c') -> cds_step OpReset c c'.

Inductive cds_run : list cds_op -> CDS -> CDS -> Prop :=
  | run_nil c : cds_run [] c c
  | run_cons op ops c1 c2 c3 : cds_step op c1 c2 -> cds_run ops c2 c3 -> cds_run (op :: ops) c1 c3.

Section Proofs.
Hypothesis Hcfg : cds_cfg_ok cfg.

Lemma cds_step_keeps op c c' :
  cds_step op c c' -> cds_ok cfg c ->
  cds_ok cfg c' /\ forall i, 0 <= i < MAX -> CFE_ES_CDSBlockRecordIsUsed (zget (Registry c) i) = true ->
    touches op (zget (Registry c) i) = false -> keeps c c' i.
Proof.
  intros [U Name tbl c0 st h c1 Hn HU E|App Name tbl c0 st c1 E|h l c0 st c1 Hf E|h c0 st out c1 E|c0 st c1 Hs E] Hok; cbn [touches].
  - destruct (register_eff cfg Hcfg U Name tbl c0 st h c1 Hok Hn HU E) as [H1 H2 _ _ _]. split; [done|]. intros i Hi Hu Ht. apply H2; try done. by apply bool_decide_eq_false in Ht.
  - destruct (delete_eff cfg Hcfg App Name tbl c0 st c1 Hok E) as [H1 H2 _ _]. split; [done|]. intros i Hi Hu Ht. apply H2; try done. by apply bool_decide_eq_false in Ht.
  - destruct (write_eff cfg Hcfg c0 h l st c1 Hok Hf E) as [H1 _ _ _ H2 _]. split; [done|]. intros i Hi Hu Ht. apply H2; [done|]. by apply Z.eqb_neq in Ht.
  - destruct (read_eff cfg Hcfg c0 h st out c1 Hok E) as (s & -> & Es & H1). split; [done|]. intros i Hi _ _. split; [done|]. intros _ p _. simp_cds. by rewrite Es.
  - destruct (early_init_restores cfg Hcfg c0 Hok Hs) as (c2 & E2 & H1 & _ & _ & H2). rewrite E in E2. injection E2 as -> ->. split; [done|]. intros i Hi Hu _. by apply H2.
Qed.

(** The registry in the memory stays up to date, except perhaps when a name in use
    is registered again. *)
Lemma step_saved op c c' :
  cds_step op c c' -> cds_ok cfg c -> saved cfg c ->
  match op with OpRegister _ Name _ => forall i, ~ used_at (Registry c) i Name | _ => True end -> saved cfg c'.
Proof.
  intros [U Name tbl c0 st h c1 Hn HU E|App Name tbl c0 st c1 E|h l c0 st c1 Hf E|h c0 st out c1 E|c0 st c1 _ E] Hok Hs Hno.
  - exact (rg_saved _ _ _ _ _ _ _ (register_eff cfg Hcfg U Name tbl c0 st h c1 Hok Hn HU E) Hno Hs).
  - destruct (delete_eff cfg Hcfg App Name tbl c0 st c1 Hok E) as [_ _ H1 H2]. destruct (Z.eq_dec st CFE_SUCCESS) as [Es|Es]; [by apply H1|by rewrite H2].
  - exact (wr_saved _ _ _ _ _ _ (write_eff cfg Hcfg c0 h l st c1 Hok Hf E) Hs).
  - destruct (read_eff cfg Hcfg c0 h st out c1 Hok E) as (s & -> & Es & _). by apply saved_mem.
  - destruct (early_init_restores cfg Hcfg c0 Hok Hs) as (c2 & E2 & _ & H2 & _). rewrite E in E2. injection E2 as -> ->. done.
Qed.

Lemma run_keeps ops c c' i :
  cds_run ops c c' -> cds_ok cfg c -> 0 <= i < MAX -> CFE_ES_CDSBlockRecordIsUsed (zget (Registry c) i) = true ->
  Forall (fun op => touches op (zget (Registry c) i) = false) ops -> cds_ok cfg c' /\ keeps c c' i.
Proof.
  intros Hr. induction Hr as [c|op ops c1 c2 c3 Hs _ IH]; intros Hok Hi Hu Ht; [split; [done|apply keeps_refl]|].
  apply Forall_cons_1 in Ht as [Ht1 Ht2]. destruct (cds_step_keeps op c1 c2 Hs Hok) as [Hok2 Hk]. specialize (Hk i Hi Hu Ht1). pose proof Hk as [Er _].
  rewrite <- Er in Hu, Ht2. destruct (IH Hok2 Hi Hu Ht2) as [Hok3 Hk3]. split; [done|]. by eapply keeps_trans.
Qed.

Lemma run_ok ops c c' : cds_run ops c c' -> cds_ok cfg c -> cds_ok cfg c'.
Proof. induction 1 as [|op ops c1 c2 c3 Hs _ IH]; [done|]. intros Hok. apply IH. by apply (cds_step_keeps op c1 c2 Hs). Qed.

Lemma stored_keeps c c' h i l :
  cds_ok cfg c -> cds_ok cfg c' -> CFE_ES_LocateCDSBlockRecordByID cfg h = Some i -> rr_BlockID (zget (Registry c) i) = h ->
  keeps c c' i -> data_at c i l -> stored cfg c' h l.
Proof.
  intros Hok Hok' El Eid Hk Hd. exists i. split; [done|]. pose proof Hk as [Er _]. rewrite Er. split; [done|].
  apply (data_keeps cfg Hcfg c); try done. by apply (Locate_range cfg h).
Qed.

Lemma locate_sim Name l l' : Forall2 rec_sim l l' -> forall i, locate_name Name i l' = locate_name Name i l.
Proof.
  induction 1 as [|r r' l l' Hr _ IH]; intros i; [done|]. cbn [locate_name]. rewrite IH. unfold rec_sim in Hr.
  destruct (CFE_ES_CDSBlockRecordIsUsed r) eqn:E; [by rewrite Hr, E|by rewrite Hr].
Qed.
End Proofs.

(** C8. From start-up on memory that holds no store of this configuration,
    through any sequence of registrations, deletions, writes, reads and processor
    resets with an up-to-date registry: the invariant holds, every entry in use
    that has a block owns it alone, within the pool and apart from every other
    block, its handle finds it, and no two entries in use share a name. *)
Theorem cds_invariant (mem : list Z) (ops : list cds_op) (st : Z) (c0 c : CDS) :
  cds_cfg_ok cfg -> zlen mem <= 2 ^ 31 -> required_size cfg <= usable_size mem -> ~ recognized cfg mem ->
  CFE_ES_CDS_EarlyInit cfg 0 mem = Some (st, c0) -> cds_run ops c0 c ->
  st = CFE_SUCCESS /\ cds_ok cfg c /\
  (forall i, 0 <= i < MAX -> has_block (zget (Registry c) i) = true ->
     let r := zget (Registry c) i in
     CFE_ES_LocateCDSBlockRecordByID cfg (rr_BlockID r) = Some i /\ POOL + DESC <= rr_BlockOffset r /\
     rr_BlockOffset r + rr_BlockSize r <= TailPosition (Pool c) <= TotalSize c - CDS_TRAILER_SIZE /\
     forall j, 0 <= j < MAX -> j <> i -> has_block (zget (Registry c) j) = true ->
       let r' := zget (Registry c) j in
       cstr (rr_Name r') <> cstr (rr_Name r) /\
       (rr_BlockOffset r' + rr_BlockSize r' <= rr_BlockOffset r - DESC \/ rr_BlockOffset r + rr_BlockSize r <= rr_BlockOffset r' - DESC)).
Proof.
  intros Hcfg Hm Hsz Hrec E Hrun. destruct (early_init_eff cfg Hcfg mem Hm) as (st1 & c1 & E1 & _ & H1). rewrite E in E1. injection E1 as <- <-.
  destruct (H1 Hsz Hrec) as (-> & Hok0 & _). pose proof (run_ok Hcfg ops c0 c Hrun Hok0) as Hok. split_and!; [done..|].
  intros i Hi Hb r. destruct (block_place cfg c i Hok Hi Hb) as (B1 & B2 & B3 & l1 & l2 & Eh & Hin). pose proof (co_max _ _ _ (proj1 Hok)) as Emax.
  assert (Hused : forall j, has_block (zget (Registry c) j) = true -> CFE_ES_CDSBlockRecordIsUsed (zget (Registry c) j) = true).
  { intros j Hj. unfold has_block in Hj. by apply andb_true_iff in Hj as [? _]. }
  split_and!; try done; [apply (ro_id _ _ _ (rk_recs _ _ (proj2 Hok) i Hi)); by apply Hused|lia|].
  intros j Hj Hne Hbj r'. destruct (core_block cfg c _ _ _ _ _ (proj1 Hok) Eh) as (_ & _ & _ & _ & Hap). split; [|by apply Hap, Hin].
  intros En. apply Hne. pose proof (rk_len _ _ (proj2 Hok)) as Hl.
  apply (rk_names _ _ (proj2 Hok) j i (cstr (rr_Name r))); split; try (rewrite Hl; lia); split; try done; by apply Hused.
Qed.


(** C36. A processor reset restores the store: start-up on the memory of a store
    whose registry is up to date recognizes it and succeeds, every entry in use
    comes back with its identifier, name, size and the bytes of its block, no
    other name appears, and the registry stays up to date. *)
Theorem reset_restores (c : CDS) :
  cds_cfg_ok cfg -> cds_ok cfg c -> saved cfg c ->
  exists c', CFE_ES_CDS_EarlyInit cfg 0 (cds_mem (Store c)) = Some (CFE_SUCCESS, c') /\ cds_ok cfg c' /\ saved cfg c' /\
  forall Name, match CFE_ES_LocateCDSBlockRecordByName Name c with
               | Some i => CFE_ES_LocateCDSBlockRecordByName Name c' = Some i /\ keeps c c' i
               | None => CFE_ES_LocateCDSBlockRecordByName Name c' = None
               end.
Proof.
  intros Hcfg Hok Hs. destruct (early_init_restores cfg Hcfg c Hok Hs) as (c' & E & Hok' & Hs' & Hsim & Hk). exists c'. split_and!; try done.
  intros Name. pose proof (locate_sim Name _ _ Hsim 0) as El. fold (CFE_ES_LocateCDSBlockRecordByName Name c') in El. fold (CFE_ES_LocateCDSBlockRecordByName Name c) in El. rewrite El. destruct (CFE_ES_LocateCDSBlockRecordByName Name c) as [i|] eqn:Ec; [|done].
  split; [done|]. destruct (LocateByName_some _ _ _ Ec) as (Hi & Hu & _). apply Hk; [|done]. by rewrite (rk_len _ _ (proj2 Hok)) in Hi.
Qed.

(** C37. A block registered by an application, new or already there, is found
    again: the handle that [CFE_ES_RegisterCDS] stores is the one that the lookup
    of "application.name" gives, the lookup of the handle gives that name, and
    the block has the size asked for; other blocks in use keep their entries and
    bytes. *)
Theorem register_lookup (App Name : list Z) (U : Z) (c c' : CDS) (st : Z) (h : option Z) (ev : bool) :
  cds_cfg_ok cfg -> cds_ok cfg c -> zlen App <= 19 -> Forall (fun b => 0 < b < 256) (App ++ Name) -> 0 <= U ->
  CFE_ES_RegisterCDS cfg (CFE_SUCCESS, App) U (Some Name) c = (st, h, ev, c') -> st = CFE_SUCCESS \/ st = CFE_ES_CDS_ALREADY_EXISTS ->
  let full := CFE_ES_FormCDSName App Name in
  exists id i, h = Some id /\ CFE_ES_GetCDSBlockIDByName (Some full) c' = (CFE_SUCCESS, Some id) /\
  CFE_ES_GetCDSBlockName cfg id CFE_MISSION_ES_CDS_MAX_FULL_NAME_LEN c' = (CFE_SUCCESS, Some full) /\
  CFE_ES_LocateCDSBlockRecordByID cfg id = Some i /\ CFE_ES_CDSBlockRecordGetUserSize (zget (Registry c') i) = U /\
  forall j, 0 <= j < MAX -> CFE_ES_CDSBlockRecordIsUsed (zget (Registry c) j) = true -> cstr (rr_Name (zget (Registry c) j)) <> full -> keeps c c' j.
Proof.
  intros Hcfg Hok Ha Hch HU E Hst full. unfold CFE_ES_RegisterCDS in E. cbn [fst snd] in E. change (negb (CFE_SUCCESS =? CFE_SUCCESS)) with false in E.
  rewrite (co_avail _ _ _ (proj1 Hok)) in E. cbn [negb] in E. cbv iota in E. fold full in E.
  destruct ((CFE_MISSION_ES_CDS_MAX_NAME_LENGTH <? zlen Name) || (zlen Name =? 0)) eqn:En; [injection E as <- _ _ _; by destruct Hst|].
  apply orb_false_iff in En as [En _]. apply Z.ltb_ge in En. unfold CFE_MISSION_ES_CDS_MAX_NAME_LENGTH in En.
  assert (Hfl : zlen full <= 36) by (unfold full, CFE_ES_FormCDSName; rewrite !zlen_app; change (zlen [46]) with 1; lia).
  assert (Hn : name_ok full).
  { split; [lia|]. apply Forall_app in Hch as [H1 H2]. unfold full, CFE_ES_FormCDSName. rewrite !Forall_app. split_and!; try done. by repeat constructor. }
  destruct (CFE_ES_RegisterCDSEx cfg U full false c) as [[st1 h1] c1] eqn:Er. injection E as <- <- _ <-.
  destruct (register_eff cfg Hcfg U full false c st1 h1 c1 Hok Hn HU Er) as [Hok1 Hoth Hnew Hsame _].
  assert (Hres : exists i, used_at (Registry c1) i full /\ has_block (zget (Registry c1) i) = true /\ rr_BlockSize (zget (Registry c1) i) = U + HDRSIZE /\
    h1 = Some (rr_BlockID (zget (Registry c1) i))).
  { destruct Hst as [Hst|Hst]; [by destruct (Hnew Hst) as [_ ?]|]. destruct (Hsame Hst) as [-> ?]. done. }
  destruct Hres as (i & Hat & Hb & Hsz & ->). pose proof Hat as (Hi & Hu & Hnm). rewrite (rk_len _ _ (proj2 Hok1)) in Hi.
  pose proof (ro_id _ _ _ (rk_recs _ _ (proj2 Hok1) i Hi) Hu) as Hloc. destruct (rk_recs _ _ (proj2 Hok1) i Hi) as [(_ & _ & F3 & _) _ _].
  exists (rr_BlockID (zget (Registry c1) i)), i. split_and!; try done.
  - unfold CFE_ES_GetCDSBlockIDByName. rewrite (co_avail _ _ _ (proj1 Hok1)). cbn [negb].
    destruct (CFE_ES_LocateCDSBlockRecordByName full c1) as [j|] eqn:Ej; [|by destruct (locate_name_none _ _ _ Ej i)].
    by rewrite (rk_names _ _ (proj2 Hok1) j i full (LocateByName_some _ _ _ Ej) Hat).
  - unfold CFE_ES_GetCDSBlockName. rewrite (co_avail _ _ _ (proj1 Hok1)), Hloc. cbn [negb CFE_ES_CDSBlockRecordIsMatch]. unfold CFE_ResourceId_Equal. rewrite Z.eqb_refl.
    change (default 0 (Some i)) with i. rewrite Hnm, take_ge; [done|]. unfold zlen, CFE_MISSION_ES_CDS_MAX_FULL_NAME_LEN in *. lia.
  - unfold CFE_ES_CDSBlockRecordGetUserSize. rewrite Hsz. replace (U + HDRSIZE - HDRSIZE) with U by lia. apply u64_id. unfold is_u64, HDRSIZE in *. lia.
Qed.

(** C38. [CFE_ES_CDS_EarlyInit] returns on every memory of up to 2^31 bytes,
    whatever bytes it holds: the scan of a damaged pool and the clearing loop end.
    Memory that is too small makes the store unavailable without an error; memory
    that is large enough and does not carry both signatures and the number of
    registry entries becomes an empty store. *)
Theorem early_init_ends (OsStatus : Z) (mem : list Z) :
  cds_cfg_ok cfg -> zlen mem <= 2 ^ 31 ->
  exists st c, CFE_ES_CDS_EarlyInit cfg OsStatus mem = Some (st, c) /\
  (OsStatus <> 0 -> st = CFE_STATUS_EXTERNAL_RESOURCE_FAIL /\ CDSIsAvailable c = false) /\
  (OsStatus = 0 -> usable_size mem < required_size cfg -> st = CFE_SUCCESS /\ CDSIsAvailable c = false) /\
  (OsStatus = 0 -> required_size cfg <= usable_size mem -> ~ recognized cfg mem ->
   st = CFE_SUCCESS /\ CDSIsAvailable c = true /\ cds_ok cfg c /\ forall Name, CFE_ES_LocateCDSBlockRecordByName Name c = None).
Proof.
  intros Hcfg Hm. destruct (Z.eq_dec OsStatus 0) as [->|Hne].
  - destruct (early_init_eff cfg Hcfg mem Hm) as (st & c & E & H1 & H2). exists st, c. split; [done|]. split; [done|]. split; [by intros _|].
    intros _ Hsz Hr. destruct (H2 Hsz Hr) as (-> & Hok & _ & Er). split; [done|]. split; [exact (co_avail _ _ _ (proj1 Hok))|]. split; [done|].
    intros Name. unfold CFE_ES_LocateCDSBlockRecordByName. rewrite Er. clear. generalize 0. induction (Z.to_nat MAX) as [|n IH]; intros i; [done|]. apply IH.
  - unfold CFE_ES_CDS_EarlyInit. rewrite (proj2 (Z.eqb_neq _ _) Hne). cbn [negb]. eexists _, _. split; [reflexivity|]. done.
Qed.

(** C39. A byte of a stored block that changes in the memory is noticed: reading
    the block then gives [CFE_ES_CDS_BLOCK_CRC_ERR] and hands out the changed data,
    and the store stays sound. *)
Theorem corrupted_block_reported (c : CDS) (h i x y : Z) (l1 l2 : list Z) :
  cds_cfg_ok cfg -> cds_ok cfg c -> CFE_ES_LocateCDSBlockRecordByID cfg h = Some i -> rr_BlockID (zget (Registry c) i) = h ->
  data_at c i (l1 ++ x :: l2) -> bytes (l1 ++ x :: l2) -> 0 <= y < 256 -> y <> x ->
  let damaged := c <| Store ::= fun s => s <| cds_mem ::= fun m => write_bytes m (rr_BlockOffset (zget (Registry c) i) + HDRSIZE + zlen l1) [y] |> |> in
  cds_ok cfg damaged /\ exists c', CFE_ES_CDSBlockRead cfg h damaged = (CFE_ES_CDS_BLOCK_CRC_ERR, Some (l1 ++ y :: l2), c').
Proof.
  intros Hcfg Hok El Eid Hd Hby Hy Hne damaged.
  apply (read_corrupted cfg Hcfg c h l1 x l2 y i (Store damaged)); try done. destruct (co_wf _ _ _ (proj1 Hok)) as [W1 W2]. split; [done|].
  unfold damaged. simp_cds. rewrite zlen_write; [done|]. destruct Hd as (Hb & Hl & _). pose proof (Locate_range cfg h i Hcfg El) as Hi.
  destruct (block_place cfg c i Hok Hi Hb) as (B1 & B2 & B3 & _). pose proof (core_bounds cfg _ _ Hcfg (proj1 Hok)).
  pose proof (co_max _ _ _ (proj1 Hok)). pose proof (co_total _ _ _ (proj1 Hok)). rewrite zlen_app, zlen_cons in Hl.
  pose proof (zlen_nonneg l1). pose proof (zlen_nonneg l2). unfold CDS_TRAILER_SIZE, HDRSIZE in *. change DESC with 24 in *. split; [lia|]. change (zlen [y]) with 1. lia.
Qed.
End Theorems.

(** ** A concrete store, for the witnesses

    Four entries, blocks of 8, 32 and 64 bytes, 700 bytes of memory; names and
    data as lists of bytes. *)

Definition demo_cfg : CdsConfig := mk_CdsConfig 4 [64; 8; 32].
Definition demo_cds_mem : list Z := replicate 700 0.
Definition demo_X : list Z := [88; 46; 65; 66].
Definition demo_Y : list Z := [89; 46; 65; 66].
Definition demo_data : list Z := [1; 2; 3; 4; 5; 6; 7; 8; 9; 10; 11; 12; 13; 14; 15; 16; 17; 18; 19; 20].

Lemma demo_cds_cfg_ok : cds_cfg_ok demo_cfg.
Proof. split; [vm_compute; split; congruence|cbn; lia|repeat constructor; lia]. Qed.

Definition cds_of (r : option (Z * CDS)) : CDS := match r with Some (_, c) => c | None => zero_cds demo_cfg [] end.
Definition demo_new : CDS := cds_of (CFE_ES_CDS_EarlyInit demo_cfg 0 demo_cds_mem).

Lemma demo_init : CFE_ES_CDS_EarlyInit demo_cfg 0 demo_cds_mem = Some (CFE_SUCCESS, demo_new).
Proof. unfold demo_new. vm_compute. reflexivity. Qed.
Lemma demo_unknown : ~ recognized demo_cfg demo_cds_mem.
Proof. intros [H _]. vm_compute in H. discriminate. Qed.
Lemma demo_sizes : zlen demo_cds_mem <= 2 ^ 31 /\ required_size demo_cfg <= usable_size demo_cds_mem.
Proof. vm_compute. split; congruence. Qed.

Definition after_register (U : Z) (Name : list Z) (c : CDS) : CDS := snd (CFE_ES_RegisterCDSEx demo_cfg U Name false c).
Definition demo_handle : Z := 1376257.
Definition demo_registered : CDS := after_register 20 demo_X demo_new.
Definition demo_written : CDS := snd (CFE_ES_CDSBlockWrite demo_cfg demo_handle demo_data demo_registered).
Definition demo_other : CDS := after_register 10 demo_Y demo_written.
Definition demo_restarted : CDS := cds_of (CFE_ES_CDS_EarlyInit demo_cfg 0 (cds_mem (Store demo_other))).

Lemma demo_X_ok : name_ok demo_X.
Proof. split; [by vm_compute|repeat constructor; lia]. Qed.
Lemma demo_Y_ok : name_ok demo_Y.
Proof. split; [by vm_compute|repeat constructor; lia]. Qed.

Lemma register_result U Name c st h c' :
  CFE_ES_RegisterCDSEx demo_cfg U Name false c = (st, h, c') -> after_register U Name c = c'.
Proof. unfold after_register. by intros ->. Qed.

Lemma register_step U Name c : name_ok Name -> 0 <= U -> cds_step demo_cfg (OpRegister U Name false) c (after_register U Name c).
Proof.
  intros Hn HU. destruct (CFE_ES_RegisterCDSEx demo_cfg U Name false c) as [[st h] c'] eqn:E. rewrite (register_result _ _ _ _ _ _ E).
  by eapply step_register.
Qed.

Lemma some_state (r : option (Z * CDS)) st c : r = Some (st, c) -> cds_of r = c.
Proof. by intros ->. Qed.

Lemma demo_new_ok : cds_ok demo_cfg demo_new.
Proof.
  destruct (early_init_eff demo_cfg demo_cds_cfg_ok demo_cds_mem (proj1 demo_sizes)) as (st & c & E & _ & H). apply some_state in E. unfold demo_new. rewrite E.
  exact (proj1 (proj2 (H (proj2 demo_sizes) demo_unknown))).
Qed.
Definition demo_register_step : cds_step demo_cfg (OpRegister 20 demo_X false) demo_new demo_registered :=
  register_step 20 demo_X demo_new demo_X_ok ltac:(lia).
Lemma demo_registered_ok : cds_ok demo_cfg demo_registered.
Proof. exact (proj1 (cds_step_keeps demo_cfg demo_cds_cfg_ok _ _ _ demo_register_step demo_new_ok)). Qed.

Lemma demo_fits : data_fits demo_cfg demo_registered demo_handle demo_data.
Proof. intros i E _ _. assert (i = 1) as -> by (vm_compute in E; congruence). vm_compute. reflexivity. Qed.
Lemma demo_write : CFE_ES_CDSBlockWrite demo_cfg demo_handle demo_data demo_registered = (CFE_SUCCESS, demo_written).
Proof. unfold demo_written. vm_compute. reflexivity. Qed.

Lemma demo_write_step : cds_step demo_cfg (OpWrite demo_handle demo_data) demo_registered demo_written.
Proof. exact (step_write_data demo_cfg _ _ _ _ _ demo_fits demo_write). Qed.
Lemma demo_written_ok : cds_ok demo_cfg demo_written.
Proof. exact (proj1 (cds_step_keeps demo_cfg demo_cds_cfg_ok _ _ _ demo_write_step demo_registered_ok)). Qed.
Definition demo_other_step : cds_step demo_cfg (OpRegister 10 demo_Y false) demo_written demo_other :=
  register_step 10 demo_Y demo_written demo_Y_ok ltac:(lia).
Lemma demo_other_ok : cds_ok demo_cfg demo_other.
Proof. exact (proj1 (cds_step_keeps demo_cfg demo_cds_cfg_ok _ _ _ demo_other_step demo_written_ok)). Qed.

Lemma demo_other_saved : saved demo_cfg demo_other.
Proof.
  unfold demo_other. destruct (CFE_ES_RegisterCDSEx demo_cfg 10 demo_Y false demo_written) as [[st h] c] eqn:E. rewrite (register_result _ _ _ _ _ _ E).
  assert (Hst : st = CFE_SUCCESS).
  { transitivity (fst (fst (CFE_ES_RegisterCDSEx demo_cfg 10 demo_Y false demo_written))); [by rewrite E|]. vm_compute. reflexivity. }
  exact (proj1 (rg_new _ _ _ _ _ _ _ (register_eff demo_cfg demo_cds_cfg_ok 10 demo_Y false demo_written st h c demo_written_ok demo_Y_ok ltac:(lia) E) Hst)).
Qed.

Lemma demo_reset_step : cds_step demo_cfg OpReset demo_other demo_restarted.
Proof.
  destruct (early_init_restores demo_cfg demo_cds_cfg_ok demo_other demo_other_ok demo_other_saved) as (c & E & _). pose proof (some_state _ _ _ E) as Ec.
  unfold demo_restarted. rewrite Ec. exact (step_reset demo_cfg _ _ _ demo_other_saved E).
Qed.

Lemma demo_run : cds_run demo_cfg [OpRegister 20 demo_X false; OpWrite demo_handle demo_data; OpRegister 10 demo_Y false; OpReset] demo_new demo_restarted.
Proof.
  eapply run_cons; [exact demo_register_step|]. eapply run_cons; [exact demo_write_step|].
  eapply run_cons; [exact demo_other_step|]. eapply run_cons; [exact demo_reset_step|]. apply run_nil.
Qed.

Lemma cds_invariant_witness : cds_ok demo_cfg demo_restarted.
Proof.
  exact (proj1 (proj2 (cds_invariant demo_cfg demo_cds_mem _ CFE_SUCCESS demo_new demo_restarted demo_cds_cfg_ok (proj1 demo_sizes) (proj2 demo_sizes)
    demo_unknown demo_init demo_run))).
Defined.


Lemma reset_restores_witness :
  exists c', CFE_ES_CDS_EarlyInit demo_cfg 0 (cds_mem (Store demo_other)) = Some (CFE_SUCCESS, c') /\ cds_ok demo_cfg c' /\
    CFE_ES_LocateCDSBlockRecordByName demo_X c' = Some 1.
Proof.
  destruct (reset_restores demo_cfg demo_other demo_cds_cfg_ok demo_other_ok demo_other_saved) as (c' & E & Hok & _ & Hn). exists c'. split; [exact E|]. split; [exact Hok|].
  specialize (Hn demo_X). assert (Ex : CFE_ES_LocateCDSBlockRecordByName demo_X demo_other = Some 1) by (vm_compute; reflexivity). rewrite Ex in Hn. exact (proj1 Hn).
Defined.

Lemma register_lookup_witness :
  exists id i, id = demo_handle /\ CFE_ES_LocateCDSBlockRecordByID demo_cfg id = Some i.
Proof.
  destruct (CFE_ES_RegisterCDS demo_cfg (CFE_SUCCESS, [88]) 20 (Some [65; 66]) demo_new) as [[[st h] ev] c'] eqn:E.
  assert (Hst : st = CFE_SUCCESS /\ h = Some demo_handle).
  { replace st with (fst (fst (fst (CFE_ES_RegisterCDS demo_cfg (CFE_SUCCESS, [88]) 20 (Some [65; 66]) demo_new)))) by (by rewrite E).
    replace h with (snd (fst (fst (CFE_ES_RegisterCDS demo_cfg (CFE_SUCCESS, [88]) 20 (Some [65; 66]) demo_new)))) by (by rewrite E).
    split; vm_compute; reflexivity. }
  destruct Hst as [-> ->].
  destruct (register_lookup demo_cfg [88] [65; 66] 20 demo_new c' _ _ ev demo_cds_cfg_ok demo_new_ok ltac:(vm_compute; congruence) ltac:(repeat constructor; lia) ltac:(lia) E (or_introl eq_refl))
    as (id & i & E1 & _ & _ & E2 & _).
  exists id, i. split; [congruence|exact E2].
Defined.

Lemma early_init_ends_witness : exists st c, CFE_ES_CDS_EarlyInit demo_cfg 0 demo_cds_mem = Some (st, c) /\ st = CFE_SUCCESS.
Proof.
  destruct (early_init_ends demo_cfg 0 demo_cds_mem demo_cds_cfg_ok (proj1 demo_sizes)) as (st & c & E & _ & _ & H). exists st, c. split; [exact E|].
  exact (proj1 (H eq_refl (proj2 demo_sizes) demo_unknown)).
Defined.

Lemma demo_stored : CFE_ES_LocateCDSBlockRecordByID demo_cfg demo_handle = Some 1 /\ rr_BlockID (zget (Registry demo_written) 1) = demo_handle /\ data_at demo_written 1 demo_data.
Proof.
  destruct (wr_data _ _ _ _ _ _ (write_eff demo_cfg demo_cds_cfg_ok demo_registered demo_handle demo_data _ _ demo_registered_ok demo_fits demo_write) eq_refl) as (i & El & Eid & Hd).
  assert (El' : CFE_ES_LocateCDSBlockRecordByID demo_cfg demo_handle = Some 1) by (vm_compute; reflexivity).
  assert (i = 1) as -> by congruence. split; [exact El'|]. split; [exact Eid|exact Hd].
Qed.

Lemma corrupted_block_reported_witness :
  exists damaged c', CFE_ES_CDSBlockRead demo_cfg demo_handle damaged = (CFE_ES_CDS_BLOCK_CRC_ERR, Some (7 :: tail demo_data), c').
Proof.
  destruct demo_stored as (El & Eid & Hd).
  destruct (corrupted_block_reported demo_cfg demo_written demo_handle 1 1 7 [] (tail demo_data) demo_cds_cfg_ok demo_written_ok El Eid Hd
    ltac:(repeat constructor; lia) ltac:(lia) ltac:(lia)) as [_ [c' E]].
  eexists _, c'. exact E.
Defined.

(** An application registers its block again with a size the pool cannot give:
    the old block is returned first, the call fails, and the registry in the
    memory still names that block.  After a reset another application gets the
    block, and the first one is told that it still has it. *)
Definition stale_cds : CDS := after_register 2000 demo_X demo_written.
Definition stale_restarted : CDS := cds_of (CFE_ES_CDS_EarlyInit demo_cfg 0 (cds_mem (Store stale_cds))).
Definition stale_other : CDS := after_register 20 demo_Y stale_restarted.

Example failed_resize_shares_block :
  fst (fst (CFE_ES_RegisterCDSEx demo_cfg 2000 demo_X false demo_written)) = CFE_ES_ERR_MEM_BLOCK_SIZE /\
  fst (fst (CFE_ES_RegisterCDSEx demo_cfg 20 demo_Y false stale_restarted)) = CFE_SUCCESS /\
  fst (fst (CFE_ES_RegisterCDSEx demo_cfg 20 demo_X false stale_other)) = CFE_ES_CDS_ALREADY_EXISTS /\
  map (fun r => (cstr (rr_Name r), rr_BlockOffset r)) (List.filter CFE_ES_CDSBlockRecordIsUsed (Registry stale_other)) = [(demo_X, 324); (demo_Y, 324)].
Proof. vm_compute. split_and!; reflexivity. Qed.
